(* ===== verification/_CoqProject ===== *)
-Q . S2P
Prelude.v
CallShards.v
CallState.v
SessionIndex.v
CallsConfig.v
CallStore.v
GoString.v
GoUtf8.v
GoRunes.v
IceServers.v
RtcdPool.v
CallsWorld.v
CallsService.v
CallsControl.v
CallsInv.v
CallsSafety.v
CallsDemo.v
CallsEnd.v
CallsProps.v
JoinRace.v
CallsLeak.v
RtcdConn.v
CallsApi.v
GoTime.v
LmsDate.v
LmsModel.v
LmsStore.v
LmsTables.v
LmsRows.v
LmsApp.v
LmsColumns.v
LmsQuery.v
LmsQueryProps.v
LmsContent.v
LmsSchedule.v
LmsScheduleProps.v
LmsTuition.v
LmsTuitionProps.v
LmsClass.v
LmsClassProps.v
LmsRoutes.v
LmsChat.v
LmsChatProps.v
PhcParser.v
Hashers.v
PlatUser.v
LmsRoles.v
GoFields.v
LmsRolesProps.v
UserStore.v
LmsUsers.v
LmsUsersDemo.v
LmsUsersProps.v
LmsUsersInv.v
LmsPublic.v
LmsPublicProps.v
LmsDbInv.v
LmsDashboard.v
LmsDashboardProps.v
Login.v
CreateUser.v
LmsApi.v
LmsApiInv.v
LmsApiProps.v
LoginProps.v
Lru.v
LruStriped.v
Sessions.v
SessionService.v
SessionDemo.v
WebAuth.v
SessionTypes.v
SessionProps.v
SessionLimits.v
WebAuthProps.v
