(* ===== verification/Prelude.v ===== *)
(** * Verification of the class-management server

    The repository is a Go server: a chat platform forked from Mattermost, with
    two systems of its own on top of it.  This development models those two and
    the parts of the platform that decide who may use them.

    - The CALLS service (server/channels/calls): audio and video calls in
      channels.  Browsers talk to it over a websocket, moderators over REST, and
      it talks to a pool of rtcd media servers.  Its state is in memory, shared
      by many goroutines; the database keeps a record of it.
    - The LEARNING system, "LMS" (server/channels/app/lms, its stores in
      server/channels/store/sqlstore/lms_store, its validation in
      server/public/model_helper/lms.go, its routes in
      server/channels/api4/lms_api): classes, enrolment, the teaching schedule,
      attendance, homework, tuition and payments, publications, reports; 24
      tables in all.
    - ACCOUNTS AND ACCESS: the user store with its cache, passwords, login,
      roles, sessions with their cache, and what stands between a request and
      its handler (server/channels/app, app/users, app/platform, web, api4;
      server/public/model; server/channels/store; server/platform/services).

    ** Files and what they model

    Shared:
    - [Prelude]: the state-and-error monad [M] (an error does not roll the state
      back, as in Go), [wp], [preserves], [frames] and [no_err] with the hint
      database [go]; [reachable]; [GoRange], Go's unspecified map order; string
      order; uint32 and int64 arithmetic.
    - [GoString], [GoUtf8], [GoRunes], [GoTime]: the functions of Go's standard
      library the source uses on strings, runes and times; [GoFields]: the
      fields of a joined list, for role strings.

    Calls, state:
    - [CallShards]: shard.go.  The sharded registry and FNV-1a; refinement to
      one flat map.
    - [CallState]: session.go, state.go.  Sessions are heap objects that two
      maps point to; every method of callState; host succession.
    - [SessionIndex]: registry.go, channel_index.go.
    - [CallsConfig]: config.go.  [IceServers]: ice_servers.go.
    - [CallStore]: calls.go of the model and the four call stores.
    - [RtcdPool]: rtcd_client.go, over the interface RTCDClient as a class.
    - [RtcdConn]: rtcd_conn.go, the implementation of that interface
      ([adapter_client] is the instance), over the vendored library as a class.

    Calls, behaviour:
    - [CallsWorld]: the record [world], one field per piece of state of
      CallService (service.go) and of the outside, and the effects on it.
    - [CallsService]: api.go, channels.go, posts.go, client_messages.go and
      addSessionIfLive; [CallsControl]: host_controls.go, rtcd_relay.go,
      lifecycle.go, and the transition relation [step].
    - [CallsApi]: the REST handlers of server/channels/api4/calls_api.
    - [CallsInv]: the invariant [Inv] of reachable worlds; [CallsSafety]: the
      lemmas on joins and starts; [CallsEnd]: what ending a call does;
      [CallsDemo]: a concrete environment; [CallsProps]: the theorems.
    - [JoinRace]: joins, leaves and ends of one call as threads that interleave
      by critical section.  [CallsLeak]: what the backstops cannot end
      ([lost], a state they all keep, and a run that leads to it).

    Learning system, data:
    - [LmsDate]: server/public/utils/types.go, the date type VnTime.
    - [LmsModel]: the 24 records with IsValid, PreCreate and PreUpdate.
    - [LmsStore]: the template all stores follow (Get, Save, Update, Delete)
      over a [table], and the class [Decimal] of NUMERIC columns; [LmsTables]:
      its 24 instances with their database defaults and roundings; [LmsRows]:
      what the tables hold after any sequence of requests.
    - [LmsApp]: the database of the app layer, foreign keys with what a delete
      does to them (cascade, SET NULL, or a refusal, of the homework of a
      submission), statements as effects, the wrapping of errors.  [LmsDbInv]:
      the invariant [db_ok] that every statement keeps: the rows, and the 22
      keys between the tables.
    - [LmsColumns], [LmsQuery], [LmsQueryProps]: columns_defs.go and query.go,
      the filters of list requests and the text they become.

    Learning system, operations:
    - [LmsSchedule], [LmsScheduleProps]: session.go and session_store.go.
    - [LmsTuition], [LmsTuitionProps]: tuition.go, payment.go, fee_refund.go,
      additional_fee.go; concurrent payments as a small-step system.
    - [LmsClass], [LmsClassProps]: class.go, attendance.go, homework.go.
    - [LmsContent]: courses, lessons, branches, fee packages, posts, banners,
      tasks, materials, reviews, media, notifications, and the list requests.
    - [LmsChat], [LmsChatProps]: chat.go and the class routes, over the chat
      platform as a class.
    - [LmsUsers], [LmsUsersDemo], [LmsUsersInv], [LmsUsersProps]: student.go,
      user.go, lead.go, lead_activity.go and their routes.
    - [LmsPublic], [LmsPublicProps]: public.go, the routes without a session and
      the reset of a forgotten password.
    - [LmsDashboard], [LmsDashboardProps]: dashboard.go, report.go.
    - [LmsRoutes]: the handlers over the tables; [LmsApi]: every route with its
      permission, as the constructors of [request]; [LmsApiInv], [LmsApiProps]:
      what all requests keep and what single ones do.

    Accounts and access:
    - [PlatUser]: user.go of the model.  [UserStore]: the SQL store of users
      behind its cache layer.
    - [PhcParser], [Hashers]: password hash strings and the two hashers.
    - [CreateUser]: account creation.  [Login], [LoginProps]: the login with its
      counter, hash migration and second factor.
    - [LmsRoles], [LmsRolesProps]: the roles of the learning system, the table
      of roles, the permission check and the start-up migration.
    - [Lru], [LruStriped]: lru.go and lru_striped.go; the class [Cache] with its
      laws [CacheOk] is what the sessions are written against.
    - [Sessions]: session.go and user_access_token.go of the model and their
      stores.  [SessionService]: the session service of the platform and the app
      (platform/session.go, app/session.go) and DoLogin.
    - [WebAuth]: the token of a request, its session, the CSRF check, the second
      factor and the handlers that start and end sessions; [serve_lms] is a
      request to the learning system from the wire to the handler.
    - [SessionDemo], [SessionTypes], [SessionProps], [SessionLimits],
      [WebAuthProps]: an example and the theorems on sessions.

    ** How the parts interact

    A handler of the calls service is a function in [M (world C) goerr]: it
    reads and writes the shared memory through [on_call], [on_index] and
    [on_shards], the database through [store_read] and [store_write], the pool
    through [sendToHost], and the websocket hub through [broadcast].  [step]
    runs one request, one timer, or one change of the environment, so the
    theorems of [CallsProps] hold for every order of whole handlers.  The finer
    interleavings, one lock acquisition at a time, are the subject of
    [JoinRace], where they make a difference to the comments in the source.
    The pool is proved against the class [RTCDClient] only; [RtcdConn]
    discharges the class.

    The LMS operations are functions in [M (lms_world D) lmsError]; each
    database statement is one effect and its own transaction, as in the code,
    which uses no transactions.  The worlds nest: [users_world] adds the user
    store to [lms_world], [api_world] the chat platform and the roles,
    [sess_world] the sessions to [users_world], and [web_world] puts
    [api_world] and the sessions together; [onL], [onU], [onC], [lift_users],
    [onS] and [onA] run the smaller in the larger.  All share one counter of
    effects, which the clock, fresh ids and faults are functions of.

    The session service uses its cache through [Cache] only, the striped cache
    is the instance [striped_cache], and [striped_cache_ok] discharges the laws.

    ** What the theorems show

    - Calls: one live call per channel; starting, joining, leaving and ending
      do what they claim on every branch, roll-backs and database faults
      included; the participant limit; well-formedness of every reachable
      call; who may end and moderate a call; teardown and end happen once.
    - Interleavings: schedules terminate and do not deadlock, the limit and the
      single end survive them, and one comment about joins does not.
    - Routing: the registry refines a map; the host chosen for a call is
      healthy and routes back; DNS changes; the throttle of Heal.
    - Secrets: no accepted ICE entry leaks its userinfo to browsers, and the log
      line of a refused one does not depend on it.
    - LMS: dates survive JSON and the database; accepted rows fit their
      columns and stay valid in the tables; no double booking and the limits of
      that guarantee; weekly series; tuition follows its payments, and does not
      when two of them run at once; enrolment is unique as long as the database
      answers; saving attendance replaces it; a class channel gets exactly the
      wanted members, though not every class has a channel of its own; valid
      filters say what they were given.
    - The API as a whole keeps every table, the keys between them and the users
      in order; a refused request changes nothing; whom the roles let do what.
    - Accounts: created students can log in; the login refines a specification
      of one account; wrong guesses lock it; hashes are migrated; one-time
      passwords work once; what the stale cache of users does to deactivations.
    - Sessions: the cache refines a list of live entries; rows are well formed;
      a user has at most 500 sessions; the cleanup ends; revoked is signed out,
      except for a request that is being admitted meanwhile; a forged request
      changes nothing; whoever logged in is served, and still after the
      learning system dismissed them.

    ** Bounds and fuel

    Loops are structural over lists, and Go's [for attempt < 3] is
    [join_attempts 3].  Two definitions take fuel: the parameter loop of
    [PhcParser], one unit per rune of the input, which is enough
    ([Parse_no_fuel]), and the cleanup of [Sessions], one unit per round, for
    which one more than there are rows is enough ([SessionLimits]).  int64
    arithmetic of the schedule wraps ([to_int64]); participant counts, money and
    the milliseconds of sessions are unbounded integers because the source's
    limits (a map in memory, NUMERIC with a checked scale, the year 292 million)
    do not wrap.  The one per cent of a session's length is computed in binary64
    ([round53]).  Times are the values of a clock the theorems quantify over.
    The bound [work] of [JoinRace] counts the critical sections of a schedule
    exactly enough to show that it ends.

    ** Parameters

    What is not under server/ or is the outside world is a class, with laws
    only where the documentation of the code behind it states one; each law has
    an instance.
    - Clock, ids, random numbers, faults: [CallsEnv], [LmsEnv], [UsersEnv],
      [Clock]; zones: [ServerZone], [DbZone].
    - Libraries: [RtcdLib], [Crypto] (PBKDF2, bcrypt, random bytes), [Otp],
      [XXHash], [UnicodeTables], [UnicodeLower], [UserLib] (e-mail, locale,
      JSON), [JsonProps], [QmHelper], [Decimal]; [LoginEnv] (plugin hook, user
      agents).
    - The database beyond keyed tables: [Engine], [Engines] and [UserEngine]
      (the pages of a search), [Collation], [SqlLowerOk].
    - The platform: [CallsAuth], [ChatPlatform], [Platform] (its other
      permissions), [FileStore].
    - Settings: [UserConfig], [LoginConfig], [SessionConfig], [WebConfig].

    ** Not modelled

    The chat platform itself (channels, posts, teams, plugins, jobs), its
    generated store layers and mocks; the SQLBoiler code in
    server/public/lms_models (generated; its record shapes are used); DNS
    resolution and the creation of rtcd credentials; JSON coding and the table
    of paths of the routers; headers and cookies of an answer; messages between
    the nodes of a cluster; log lines, metrics and audit records; LDAP, SAML and
    OAuth logins, magic links and the login that creates the first account; the
    web frontend and the deployment files.

    Left out of what is modelled: the keys of the learning system into users
    and files, as far as a statement would be refused for one ([us_delete] does
    take the rows of a deleted user along); the offset of Asia/Bangkok before
    April 1920 ([vnOffset] is UTC+7 at all times); an error of RowsAffected in
    the cleanup of sessions, which the driver never returns; and a rollback
    that fails in the delete of an access token. *)

From stdpp Require Export base tactics option list gmap strings relations.
From Stdlib Require Export ZArith Lia.


(** ** Results and the state-and-error monad

    A Go function returning [(T, error)] that also mutates shared state is a
    function from the state to a result and the new state.  An error does NOT
    roll the state back: Go keeps whatever was mutated before the early
    return, and so does [m_bind]. *)

Inductive res (E A : Type) : Type :=
  | Ok (a : A)
  | Err (e : E).
Arguments Ok {E A} _.
Arguments Err {E A} _.

Definition M (S E A : Type) : Type := S → res E A * S.

Section monad.
Context {S E : Type}.

Definition m_ret {A} (a : A) : M S E A := λ s, (Ok a, s).
Definition m_throw {A} (e : E) : M S E A := λ s, (Err e, s).
Definition m_bind {A B} (m : M S E A) (k : A → M S E B) : M S E B := λ s,
  match m s with
  | (Ok a, s') => k a s'
  | (Err e, s') => (Err e, s')
  end.
(** The call whose error the caller inspects or only logs. *)
Definition m_try {A} (m : M S E A) : M S E (res E A) := λ s,
  let '(r, s') := m s in (Ok r, s').
Definition m_gets {A} (f : S → A) : M S E A := λ s, (Ok (f s), s).
Definition m_modify (f : S → S) : M S E unit := λ s, (Ok tt, f s).

(** A Go [for range] loop whose body may return early with an error. *)
Fixpoint m_for {A} (l : list A) (body : A → M S E unit) : M S E unit :=
  match l with
  | [] => m_ret tt
  | x :: l' => m_bind (body x) (λ _, m_for l' body)
  end.
End monad.

Declare Scope go_scope.
Delimit Scope go_scope with go.
Notation "x <- m ;; k" := (m_bind m (λ x, k))
  (at level 100, m at next level, right associativity) : go_scope.
Notation "m ;;; k" := (m_bind m (λ _, k))
  (at level 100, right associativity) : go_scope.

(** ** Weakest preconditions of monadic code *)

Definition wp {S E A} (m : M S E A) (Q : res E A → S → Prop) (s : S) : Prop :=
  Q (fst (m s)) (snd (m s)).

(** Code that keeps a state predicate whatever it returns. *)
Definition preserves {S E A} (I : S → Prop) (m : M S E A) : Prop :=
  ∀ s, I s → I (snd (m s)).

(** Code that leaves a projection of the state untouched. *)
Definition frames {S E A T} (f : S → T) (m : M S E A) : Prop :=
  ∀ s, f (snd (m s)) = f s.

(** Code that never reports an error. *)
Definition no_err {S E A} (m : M S E A) : Prop := ∀ s, ∃ a, fst (m s) = Ok a.

Create HintDb go.

Section wp.
Context {S E : Type}.

Lemma wp_ret {A} (a : A) (Q : res E A → S → Prop) s :
  Q (Ok a) s → wp (m_ret a) Q s.
Proof. done. Qed.

Lemma wp_throw {A} e (Q : res E A → S → Prop) s :
  Q (Err e) s → wp (m_throw e) Q s.
Proof. done. Qed.

Lemma wp_bind {A B} (m : M S E A) (k : A → M S E B) Q s :
  wp m (λ r s', match r with Ok a => wp (k a) Q s' | Err e => Q (Err e) s' end) s →
  wp (m_bind m k) Q s.
Proof. unfold wp, m_bind. destruct (m s) as [[a|e] s']; done. Qed.

Lemma wp_mono {A} (m : M S E A) (Q Q' : res E A → S → Prop) s :
  wp m Q s → (∀ r s', Q r s' → Q' r s') → wp m Q' s.
Proof. unfold wp. auto. Qed.

Lemma wp_gets {A} (f : S → A) (Q : res E A → S → Prop) s :
  Q (Ok (f s)) s → wp (m_gets f) Q s.
Proof. done. Qed.

Lemma wp_modify f (Q : res E unit → S → Prop) s :
  Q (Ok tt) (f s) → wp (m_modify f) Q s.
Proof. done. Qed.

Lemma wp_try {A} (m : M S E A) (Q : res E (res E A) → S → Prop) s :
  wp m (λ r s', Q (Ok r) s') s → wp (m_try m) Q s.
Proof. unfold wp, m_try. by destruct (m s). Qed.

(** A preserved predicate rides along any postcondition. *)
Lemma wp_preserves {A} I (m : M S E A) s :
  preserves I m → I s → wp m (λ _ s', I s') s.
Proof. unfold preserves, wp. auto. Qed.

Lemma preserves_wp {A} I (m : M S E A) :
  (∀ s, I s → wp m (λ _ s', I s') s) → preserves I m.
Proof. unfold preserves, wp. auto. Qed.

Lemma preserves_ret {A} I (a : A) : preserves (S:=S) (E:=E) I (m_ret a).
Proof. by intros s. Qed.

Lemma preserves_throw {A} I e : preserves (S:=S) I (m_throw (A:=A) (E:=E) e).
Proof. by intros s. Qed.

Lemma preserves_gets {A} I (f : S → A) : preserves (E:=E) I (m_gets f).
Proof. by intros s. Qed.

Lemma preserves_bind {A B} I (m : M S E A) (k : A → M S E B) :
  preserves I m → (∀ a, preserves I (k a)) → preserves I (m_bind m k).
Proof.
  intros Hm Hk s Hs. specialize (Hm s Hs). unfold m_bind.
  destruct (m s) as [[a|e] s']; [by apply Hk | done].
Qed.

Lemma preserves_try {A} I (m : M S E A) : preserves I m → preserves I (m_try m).
Proof.
  intros Hm s Hs. specialize (Hm s Hs). unfold m_try. by destruct (m s).
Qed.

Lemma preserves_for {A} I (l : list A) (body : A → M S E unit) :
  (∀ x, x ∈ l → preserves I (body x)) → preserves I (m_for l body).
Proof.
  induction l as [|x l IH]; intros Hb; simpl; [by apply preserves_ret|].
  apply preserves_bind; [apply Hb; constructor|].
  intros _. apply IH. intros y Hy. apply Hb. by constructor.
Qed.

Lemma frames_ret {A T} (f : S → T) (a : A) : frames (E:=E) f (m_ret a).
Proof. by intros s. Qed.

Lemma frames_throw {A T} (f : S → T) e : frames f (m_throw (A:=A) (E:=E) e).
Proof. by intros s. Qed.

Lemma frames_gets {A T} (f : S → T) (g : S → A) : frames (E:=E) f (m_gets g).
Proof. by intros s. Qed.

Lemma frames_modify {T} (f : S → T) g :
  (∀ s, f (g s) = f s) → frames (E:=E) f (m_modify g).
Proof. intros Hg s. apply Hg. Qed.

Lemma frames_bind {A B T} (f : S → T) (m : M S E A) (k : A → M S E B) :
  frames f m → (∀ a, frames f (k a)) → frames f (m_bind m k).
Proof.
  intros Hm Hk s. specialize (Hm s). unfold m_bind.
  destruct (m s) as [[a|e] s']; simpl in *; [|done].
  by rewrite Hk.
Qed.

Lemma frames_try {A T} (f : S → T) (m : M S E A) : frames f m → frames f (m_try m).
Proof. intros Hm s. specialize (Hm s). unfold m_try. by destruct (m s). Qed.

Lemma frames_for {A T} (f : S → T) (l : list A) (body : A → M S E unit) :
  (∀ x, frames f (body x)) → frames f (m_for l body).
Proof.
  intros Hb. induction l; simpl; [apply frames_ret|].
  apply frames_bind; auto.
Qed.

Lemma no_err_ret {A} (a : A) : no_err (S:=S) (E:=E) (m_ret a).
Proof. intros s. by exists a. Qed.

Lemma no_err_gets {A} (f : S → A) : no_err (E:=E) (m_gets f).
Proof. intros s. by eexists. Qed.

Lemma no_err_modify f : no_err (S:=S) (E:=E) (m_modify f).
Proof. intros s. by eexists. Qed.

Lemma no_err_try {A} (m : M S E A) : no_err (m_try m).
Proof. intros s. unfold m_try. destruct (m s). by eexists. Qed.

Lemma no_err_bind {A B} (m : M S E A) (k : A → M S E B) :
  no_err m → (∀ a, no_err (k a)) → no_err (m_bind m k).
Proof.
  intros Hm Hk s. destruct (Hm s) as [a Ha]. unfold m_bind.
  destruct (m s) as [r s']. simpl in Ha. subst r. apply Hk.
Qed.

Lemma no_err_for {A} (l : list A) (body : A → M S E unit) :
  (∀ x, no_err (body x)) → no_err (m_for l body).
Proof.
  intros Hb. induction l; simpl; [apply no_err_ret|]. by apply no_err_bind.
Qed.

(** Framed code keeps every predicate of the framed projection. *)
Lemma frames_preserves {A T} (f : S → T) (P : T → Prop) (m : M S E A) :
  frames f m → preserves (λ s, P (f s)) m.
Proof. intros Hf s Hs. by rewrite Hf. Qed.
End wp.

#[export] Hint Resolve preserves_ret preserves_throw preserves_gets
  preserves_bind preserves_try frames_ret frames_throw frames_gets
  frames_bind frames_try frames_for
  no_err_ret no_err_gets no_err_modify no_err_try no_err_bind no_err_for : go.

(** ** Reachability by rule induction *)

Definition reachable {S} (step : S → S → Prop) (s0 s : S) : Prop := rtc step s0 s.

(** An inductive invariant holds in every reachable state. *)
Lemma reachable_invariant {S} (step : S → S → Prop) (I : S → Prop) s0 s :
  I s0 → (∀ a b, I a → step a b → I b) → reachable step s0 s → I s.
Proof. intros H0 Hstep Hr. induction Hr; eauto. Qed.

(** ** Go map iteration

    [for k, v := range m] visits the entries of [m] in an unspecified order.
    Every definition that ranges over a map takes the order from this class;
    its theorems hold for every order. *)
Class GoRange := {
  go_range : ∀ {V}, gmap string V → list (string * V);
  go_range_perm : ∀ {V} (m : gmap string V), go_range m ≡ₚ map_to_list m;
}.

(** The order of stdpp's own enumeration, used to evaluate examples. *)
#[export] Instance go_range_canonical : GoRange | 100 := {|
  go_range V m := map_to_list m;
  go_range_perm V m := Permutation_refl _;
|}.

Lemma elem_of_go_range `{GoRange} {V} (m : gmap string V) k v :
  (k, v) ∈ go_range m ↔ m !! k = Some v.
Proof. by rewrite go_range_perm, elem_of_map_to_list. Qed.

Lemma length_go_range `{GoRange} {V} (m : gmap string V) :
  length (go_range m) = size m.
Proof. by rewrite go_range_perm, length_map_to_list. Qed.

Lemma NoDup_go_range_keys `{GoRange} {V} (m : gmap string V) :
  NoDup (go_range m).*1.
Proof. rewrite go_range_perm. apply NoDup_fst_map_to_list. Qed.

(** ** Owner-guarded removal

    [if m[k] == v { delete(m, k) }], when [k] is the only key that can hold
    [v]: exactly the entries holding [v] go. *)

Lemma delete_owned_lookup {V} `{EqDecision V} (m : gmap string V) k v k' v' :
  (∀ i, m !! i = Some v → i = k) →
  (if decide (m !! k = Some v) then delete k m else m) !! k' = Some v' ↔
    m !! k' = Some v' ∧ v' ≠ v.
Proof.
  intros Honly. destruct (decide (m !! k = Some v)) as [Hd|Hd].
  - rewrite lookup_delete_Some. split.
    + intros [Hne Hk']. split; [done|]. intros ->. by apply Hne, eq_sym, Honly.
    + intros [Hk' Hne]. split; [|done]. intros ->. congruence.
  - split; [|by intros []]. intros Hk'. split; [done|]. intros ->.
    apply Hd. by rewrite <-(Honly _ Hk').
Qed.

(** ** Byte-wise string order (Go's [<] on strings) *)

Lemma ascii_ltb_trans a b c :
  Ascii.compare a b = Lt → Ascii.compare b c = Lt → Ascii.compare a c = Lt.
Proof. unfold Ascii.compare. rewrite !N.compare_lt_iff. lia. Qed.

Lemma string_ltb_trans a b c :
  String.ltb a b = true → String.ltb b c = true → String.ltb a c = true.
Proof.
  unfold String.ltb. revert b c.
  induction a as [|x a IH]; intros [|y b] [|z c]; simpl; try done.
  destruct (Ascii.compare x y) eqn:E1; [apply Ascii.compare_eq_iff in E1 as ->| |done].
  - destruct (Ascii.compare y z) eqn:E2; try done. apply IH.
  - intros _. destruct (Ascii.compare y z) eqn:E2; try done.
    + apply Ascii.compare_eq_iff in E2 as ->. by rewrite E1.
    + by rewrite (ascii_ltb_trans x y z).
Qed.

Lemma string_compare_refl a : String.compare a a = Eq.
Proof.
  induction a as [|x a IH]; simpl; [done|]. unfold Ascii.compare.
  by rewrite N.compare_refl.
Qed.

Lemma string_ltb_irrefl a : String.ltb a a = false.
Proof. unfold String.ltb. by rewrite string_compare_refl. Qed.

Lemma string_ltb_total a b : String.ltb a b = false → String.ltb b a = false → a = b.
Proof.
  unfold String.ltb. rewrite (String.compare_antisym b a).
  destruct (String.compare a b) eqn:E; simpl; try done.
  intros _ _. by apply String.compare_eq_iff.
Qed.

(** ** Machine integers *)

Definition uint32_max : Z := 4294967296.
Definition to_uint32 (z : Z) : Z := z `mod` uint32_max.

Lemma to_uint32_bound z : (0 ≤ to_uint32 z < uint32_max)%Z.
Proof. unfold to_uint32, uint32_max. apply Z.mod_pos_bound. lia. Qed.

(** Go's int64 arithmetic: the result modulo 2^64, in [-2^63, 2^63). *)
Definition int64_half : Z := 9223372036854775808.
Definition to_int64 (z : Z) : Z := (z + int64_half) `mod` (2 * int64_half) - int64_half.

Lemma to_int64_id z : (-int64_half ≤ z < int64_half)%Z → to_int64 z = z.
Proof. unfold to_int64, int64_half. intros. rewrite Z.mod_small; lia. Qed.

Lemma to_int64_bound z : (-int64_half ≤ to_int64 z < int64_half)%Z.
Proof.
  unfold to_int64, int64_half.
  pose proof (Z.mod_pos_bound (z + 9223372036854775808) (2 * 9223372036854775808) ltac:(lia)). lia.
Qed.

(** ** Generic tactics *)

(** Case analysis on the innermost [match] or [if] of the goal. *)
(** A decidable closed fact, by evaluating its decision procedure.  Maps and
    sets are compared as values, which is much cheaper than normalising the
    proposition itself. *)
Ltac by_computation := apply (bool_decide_unpack _); vm_compute; exact I.

Ltac case_step :=
  match goal with
  | |- context [match ?x with _ => _ end] => destruct x eqn:?
  end.

(** Chain of framed effects. *)
Ltac frames_tac :=
  repeat first
    [ progress intros
    | apply frames_bind | apply frames_ret | apply frames_throw
    | apply frames_gets | apply frames_try | apply frames_for
    | progress (auto with go)
    | case_step ].

(** Chain of effects that never fail. *)
Ltac no_err_tac :=
  repeat first
    [ progress intros
    | apply no_err_try | apply no_err_ret | apply no_err_gets | apply no_err_modify
    | apply no_err_bind | apply no_err_for
    | progress (auto with go)
    | case_step ].
