(* ===== verification/CallShards.v ===== *)
(** * Sharded call-state registry (server/channels/calls/shard.go)

    The registry is an array of maps; a call id selects its shard by FNV-1a.
    Call states are heap objects, so a map holds references ([cref]) and
    [deleteIf] compares references, as the Go code compares pointers.  The
    abstract specification is one flat map: [models r m] says the shards
    behave exactly like [m], and each operation refines the map operation.
    The shard locks make each of these operations atomic. *)

From S2P Require Import Prelude.

(** References to call states (Go's [*callState]). *)
Abbreviation cref := nat.

Section fnv.
Local Open Scope Z_scope.

(** One round: xor the byte in, multiply by the prime, on 32 bits. *)
Definition fnv1a_step (h : Z) (c : Ascii.ascii) : Z :=
  to_uint32 (Z.lxor h (Z.of_N (Ascii.N_of_ascii c)) * 16777619).

Fixpoint fnv1a_loop (h : Z) (s : string) : Z :=
  match s with
  | EmptyString => h
  | String c s' => fnv1a_loop (fnv1a_step h c) s'
  end.

Definition fnv1a (s : string) : Z := fnv1a_loop 2166136261 s.

Lemma fnv1a_loop_bound s h : 0 ≤ h < uint32_max → 0 ≤ fnv1a_loop h s < uint32_max.
Proof.
  revert h. induction s as [|c s IH]; intros h Hh; simpl; [done|].
  apply IH, to_uint32_bound.
Qed.

Lemma fnv1a_bound s : 0 ≤ fnv1a s < uint32_max.
Proof. apply fnv1a_loop_bound. unfold uint32_max. lia. Qed.
End fnv.

(** The published FNV-1a test vectors. *)
Example fnv1a_vectors :
  (fnv1a "", fnv1a "a", fnv1a "foobar") = (2166136261, 3826002220, 3214735720)%Z.
Proof. reflexivity. Qed.

(** ** One shard *)

Abbreviation callShard := (gmap string cref).

Definition newCallShard : callShard := ∅.

Definition shard_get (sh : callShard) (callID : string) : option cref := sh !! callID.

Definition getOrCreate (sh : callShard) (callID : string) (fresh : cref)
    : cref * bool * callShard :=
  match sh !! callID with
  | Some cs => (cs, false, sh)
  | None => (fresh, true, <[callID := fresh]> sh)
  end.

(** [ended] reads the referenced state; [fresh] is the result of [initFn]. *)
Definition getOrCreateLive (ended : cref → bool) (sh : callShard) (callID : string)
    (fresh : cref) : cref * bool * callShard :=
  match sh !! callID with
  | Some cs => if negb (ended cs) then (cs, false, sh)
               else (fresh, true, <[callID := fresh]> sh)
  | None => (fresh, true, <[callID := fresh]> sh)
  end.

Definition shard_delete (sh : callShard) (callID : string) : option cref * callShard :=
  match sh !! callID with
  | None => (None, sh)
  | Some cs => (Some cs, delete callID sh)
  end.

(** A missing entry reads as nil, which no target equals. *)
Definition shard_deleteIf (sh : callShard) (callID : string) (target : cref)
    : bool * callShard :=
  if decide (sh !! callID = Some target) then (true, delete callID sh) else (false, sh).

(** ** The registry *)

Abbreviation shardRegistry := (list callShard).

Definition newShardRegistry (n : Z) : shardRegistry :=
  replicate (Z.to_nat (if decide (n ≤ 0)%Z then 1%Z else n)) newCallShard.

Definition shardFor (r : shardRegistry) (callID : string) : nat :=
  Z.to_nat (fnv1a callID `mod` Z.of_nat (length r)).

Definition reg_get (r : shardRegistry) (callID : string) : option cref :=
  r !! shardFor r callID ≫= λ sh, shard_get sh callID.

(** Run a shard operation on the shard owning [callID]; the result of an
    empty registry (a Go panic) is [None]. *)
Definition on_shard {A} (r : shardRegistry) (callID : string)
    (op : callShard → A * callShard) : option (A * shardRegistry) :=
  sh ← r !! shardFor r callID;
  let '(a, sh') := op sh in
  Some (a, <[shardFor r callID := sh']> r).

Definition reg_delete (r : shardRegistry) (callID : string) :=
  on_shard r callID (λ sh, shard_delete sh callID).

Definition reg_deleteIf (r : shardRegistry) (callID : string) (target : cref) :=
  on_shard r callID (λ sh, shard_deleteIf sh callID target).

Definition reg_getOrCreateLive (ended : cref → bool) (r : shardRegistry)
    (callID : string) (fresh : cref) :=
  on_shard r callID (λ sh, getOrCreateLive ended sh callID fresh).

Definition reg_all `{GoRange} (r : shardRegistry) : list cref :=
  mjoin ((λ sh, (go_range sh).*2) <$> r).

(** ** The flat-map specification *)

Record models (r : shardRegistry) (m : gmap string cref) : Prop := {
  models_len : 0 < length r;
  models_placed : ∀ i sh id, r !! i = Some sh → is_Some (sh !! id) → i = shardFor r id;
  models_get : ∀ id, reg_get r id = m !! id;
}.

Lemma shardFor_lt r callID : 0 < length r → shardFor r callID < length r.
Proof.
  intros Hlen. unfold shardFor.
  pose proof (Z.mod_pos_bound (fnv1a callID) (Z.of_nat (length r)) ltac:(lia)). lia.
Qed.

Lemma shardFor_lookup r callID : 0 < length r → is_Some (r !! shardFor r callID).
Proof. intros H. apply lookup_lt_is_Some, shardFor_lt, H. Qed.

(** The slot of an id after one shard was rewritten. *)
Lemma shardFor_insert r i sh id : shardFor (<[i := sh]> r) id = shardFor r id.
Proof. unfold shardFor. by rewrite length_insert. Qed.

Lemma newShardRegistry_models n : models (newShardRegistry n) ∅.
Proof.
  unfold newShardRegistry. set (k := Z.to_nat _).
  assert (0 < k) by (unfold k; case_decide; lia).
  split.
  - by rewrite length_replicate.
  - intros i sh id [-> _]%lookup_replicate. unfold newCallShard.
    rewrite lookup_empty. by intros [? ?].
  - intros id. unfold reg_get, shard_get. rewrite lookup_empty.
    destruct (replicate k newCallShard !! _) as [sh|] eqn:E; [|done].
    apply lookup_replicate in E as [-> _]. apply lookup_empty.
Qed.

(** Rewriting the owning shard at its own id only changes that id. *)
Lemma models_update r m id sh sh' (v : option cref) :
  models r m → r !! shardFor r id = Some sh →
  (∀ id', id' ≠ id → sh' !! id' = sh !! id') → sh' !! id = v →
  models (<[shardFor r id := sh']> r) (partial_alter (λ _, v) id m).
Proof.
  intros [Hlen Hpl Hget] Hsh Hother Hid. split.
  - by rewrite length_insert.
  - intros i sh0 id' Hi Hsome. rewrite shardFor_insert.
    destruct (decide (i = shardFor r id)) as [->|Hne].
    + rewrite list_lookup_insert_eq in Hi by by apply shardFor_lt. simplify_eq.
      destruct (decide (id' = id)) as [->|Hid']; [done|].
      rewrite Hother in Hsome by done. eauto.
    + rewrite list_lookup_insert_ne in Hi by done. eauto.
  - intros id'. unfold reg_get, shard_get. rewrite shardFor_insert.
    destruct (decide (shardFor r id' = shardFor r id)) as [Heq|Hne].
    + rewrite Heq, list_lookup_insert_eq by by apply shardFor_lt. simpl.
      destruct (decide (id' = id)) as [->|Hid'].
      * by rewrite lookup_partial_alter_eq.
      * rewrite Hother, lookup_partial_alter_ne by done. rewrite <-Hget.
        unfold reg_get, shard_get. by rewrite Heq, Hsh.
    + rewrite list_lookup_insert_ne by done.
      rewrite lookup_partial_alter_ne by congruence. by rewrite <-Hget.
Qed.

Lemma models_owner r m id :
  models r m → ∃ sh, r !! shardFor r id = Some sh ∧ sh !! id = m !! id.
Proof.
  intros [Hlen _ Hget]. destruct (shardFor_lookup r id Hlen) as [sh Hsh].
  exists sh. split; [done|]. rewrite <-Hget. unfold reg_get. by rewrite Hsh.
Qed.

Lemma reg_deleteIf_models r m id target :
  models r m → ∃ r', reg_deleteIf r id target = Some (bool_decide (m !! id = Some target), r') ∧
    models r' (if decide (m !! id = Some target) then delete id m else m).
Proof.
  intros Hm. destruct (models_owner r m id Hm) as (sh & Hsh & Hget).
  unfold reg_deleteIf, on_shard, shard_deleteIf. rewrite Hsh; simpl. rewrite Hget.
  case_decide as Hd; (eexists; split; [rewrite ?bool_decide_true, ?bool_decide_false by done; done|]).
  - eapply models_update; [done..| |]; [|apply lookup_delete_eq].
    intros id' Hne. by rewrite lookup_delete_ne.
  - by rewrite list_insert_id.
Qed.

Lemma reg_delete_models r m id :
  models r m → ∃ r', reg_delete r id = Some (m !! id, r') ∧ models r' (delete id m).
Proof.
  intros Hm. destruct (models_owner r m id Hm) as (sh & Hsh & Hget).
  unfold reg_delete, on_shard, shard_delete. rewrite Hsh; simpl. rewrite Hget.
  destruct (m !! id) as [c|] eqn:E; (eexists; split; [done|]).
  - eapply models_update; [done..| |]; [|apply lookup_delete_eq].
    intros id' Hne. by rewrite lookup_delete_ne.
  - rewrite list_insert_id by done. by rewrite delete_id.
Qed.

Lemma reg_getOrCreateLive_models (ended : cref → bool) r m id fresh :
  models r m → ∃ r',
    match m !! id with
    | Some c => if ended c
                then reg_getOrCreateLive ended r id fresh = Some (fresh, true, r') ∧
                     models r' (<[id := fresh]> m)
                else reg_getOrCreateLive ended r id fresh = Some (c, false, r') ∧ models r' m
    | None => reg_getOrCreateLive ended r id fresh = Some (fresh, true, r') ∧
              models r' (<[id := fresh]> m)
    end.
Proof.
  intros Hm. destruct (models_owner r m id Hm) as (sh & Hsh & Hget).
  assert (models (<[shardFor r id := <[id := fresh]> sh]> r) (<[id := fresh]> m)) as Hins.
  { eapply models_update; [done..| |]; [|apply lookup_insert_eq].
    intros id' Hne. by rewrite lookup_insert_ne. }
  unfold reg_getOrCreateLive, on_shard, getOrCreateLive. rewrite Hsh; simpl. rewrite Hget.
  destruct (m !! id) as [c|] eqn:E; [destruct (ended c); simpl|]; try (by eexists).
  eexists. split; [done|]. by rewrite list_insert_id.
Qed.

(** [(go_range sh)] over all shards, as pairs: every entry exactly once. *)
Lemma reg_pairs_perm `{GoRange} r m :
  models r m → mjoin (go_range <$> r) ≡ₚ map_to_list m.
Proof.
  intros [Hlen Hpl Hget]. apply NoDup_Permutation.
  - assert (∀ i (l : shardRegistry), (∀ j sh, l !! j = Some sh → r !! (i + j) = Some sh) →
      NoDup (mjoin (go_range <$> l))) as Hnd; [|apply (Hnd 0); auto].
    intros i l. revert i. induction l as [|sh l IH]; intros i Hl; simpl; [constructor|].
    apply NoDup_app. split; [rewrite go_range_perm; apply NoDup_map_to_list|]. split.
    + intros [id c] Hin Hin'. apply elem_of_go_range in Hin.
      apply list_elem_of_join in Hin' as (l' & Hc & (sh' & -> & [j Hj]%list_elem_of_lookup)%list_elem_of_fmap).
      apply elem_of_go_range in Hc.
      assert (i = shardFor r id).
      { eapply (Hpl i sh); [|by eexists]. rewrite <-(Nat.add_0_r i). by apply Hl. }
      assert (i + S j = shardFor r id) by (eapply Hpl; [by apply Hl|by eexists]). lia.
    + apply (IH (S i)). intros j sh' Hj. replace (S i + j) with (i + S j) by lia. by apply Hl.
  - apply NoDup_map_to_list.
  - intros [id c]. rewrite elem_of_map_to_list, <-Hget. split.
    + intros (l' & Hc & (sh & -> & [i Hi]%list_elem_of_lookup)%list_elem_of_fmap)%list_elem_of_join.
      apply elem_of_go_range in Hc. unfold reg_get, shard_get.
      rewrite <-(Hpl i sh id) by eauto. by rewrite Hi.
    + unfold reg_get, shard_get. destruct (r !! shardFor r id) as [sh|] eqn:Hsh; [|done].
      simpl. intros Hc. apply list_elem_of_join. exists (go_range sh).
      split; [by apply elem_of_go_range|]. apply list_elem_of_fmap. exists sh.
      split; [done|]. by eapply list_elem_of_lookup_2.
Qed.

Lemma reg_all_perm `{GoRange} r m : models r m → reg_all r ≡ₚ (map_to_list m).*2.
Proof.
  intros Hm. rewrite <-(reg_pairs_perm r m Hm). unfold reg_all.
  clear. induction r as [|sh r IH]; simpl; [done|]. by rewrite fmap_app, IH.
Qed.

Lemma elem_of_reg_all `{GoRange} r m c :
  models r m → c ∈ reg_all r ↔ ∃ id, m !! id = Some c.
Proof.
  intros Hm. rewrite (reg_all_perm r m Hm), list_elem_of_fmap. split.
  - intros ([id c'] & -> & Hin). exists id. by apply elem_of_map_to_list.
  - intros [id Hid]. exists (id, c). split; [done|]. by apply elem_of_map_to_list.
Qed.

(** ** Refinement: the sharded registry is one map *)

Inductive regOp :=
  | OpGet (callID : string)
  | OpDelete (callID : string)
  | OpDeleteIf (callID : string) (target : cref)
  | OpGetOrCreateLive (ended : cref → bool) (callID : string) (fresh : cref).

(** What an operation answers: a lookup or a creation its reference, a
    deletion the removed one, a guarded deletion whether it removed. *)
Inductive regAnswer :=
  | ARef (r : option cref)
  | AFlag (b : bool)
  | ACreated (r : cref) (created : bool)
  | APanic.

Definition shard_exec (op : regOp) (r : shardRegistry) : regAnswer * shardRegistry :=
  match op with
  | OpGet id => (ARef (reg_get r id), r)
  | OpDelete id => match reg_delete r id with Some (o, r') => (ARef o, r') | None => (APanic, r) end
  | OpDeleteIf id t =>
      match reg_deleteIf r id t with Some (b, r') => (AFlag b, r') | None => (APanic, r) end
  | OpGetOrCreateLive e id f =>
      match reg_getOrCreateLive e r id f with
      | Some (c, b, r') => (ACreated c b, r') | None => (APanic, r) end
  end.

(** The same operations on a single map. *)
Definition map_exec (op : regOp) (m : gmap string cref) : regAnswer * gmap string cref :=
  match op with
  | OpGet id => (ARef (m !! id), m)
  | OpDelete id => (ARef (m !! id), delete id m)
  | OpDeleteIf id t => if decide (m !! id = Some t) then (AFlag true, delete id m) else (AFlag false, m)
  | OpGetOrCreateLive e id f =>
      match m !! id with
      | Some c => if e c then (ACreated f true, <[id := f]> m) else (ACreated c false, m)
      | None => (ACreated f true, <[id := f]> m)
      end
  end.

Fixpoint exec_all {T} (exec : regOp → T → regAnswer * T) (ops : list regOp) (t : T)
    : list regAnswer * T :=
  match ops with
  | [] => ([], t)
  | op :: ops' => let '(a, t') := exec op t in
                  let '(l, t'') := exec_all exec ops' t' in (a :: l, t'')
  end.

Lemma shard_exec_models op r m :
  models r m → (shard_exec op r).1 = (map_exec op m).1 ∧ models (shard_exec op r).2 (map_exec op m).2.
Proof.
  intros Hm. destruct op as [id|id|id t|e id f]; simpl.
  - by rewrite (models_get _ _ Hm).
  - by destruct (reg_delete_models r m id Hm) as (r' & -> & ?).
  - destruct (reg_deleteIf_models r m id t Hm) as (r' & -> & Hr').
    destruct (decide (m !! id = Some t)); simpl; split; try done;
      by rewrite ?bool_decide_true, ?bool_decide_false by done.
  - destruct (reg_getOrCreateLive_models e r m id f Hm) as (r' & Hr').
    destruct (m !! id) as [c|]; [destruct (e c)|]; by destruct Hr' as [-> ?].
Qed.

(** C35: sharding is invisible.  Started empty with any configured number of
    shards, the registry answers every sequence of lookups, creations,
    deletions and owner-guarded deletions exactly as one map would, never
    panics, and afterwards ranging over it visits the map's calls, each
    exactly once. *)
Theorem shard_registry_refines_map `{GoRange} (n : Z) (ops : list regOp) :
  let '(answers, r) := exec_all shard_exec ops (newShardRegistry n) in
  let '(expected, m) := exec_all map_exec ops ∅ in
  answers = expected ∧ (APanic ∉ answers) ∧ (∀ id, reg_get r id = m !! id) ∧
  reg_all r ≡ₚ (map_to_list m).*2.
Proof.
  assert (∀ r m, models r m →
    let '(answers, r') := exec_all shard_exec ops r in
    let '(expected, m') := exec_all map_exec ops m in
    answers = expected ∧ (APanic ∉ expected) ∧ models r' m') as Hsim.
  { induction ops as [|op ops IH]; intros r m Hm; simpl.
    { split_and!; [done|by intros ?%not_elem_of_nil|done]. }
    destruct (shard_exec_models op r m Hm) as [Ha Hm'].
    destruct (shard_exec op r) as [a r1], (map_exec op m) as [b m1] eqn:Eb; simpl in *. subst a.
    specialize (IH r1 m1 Hm'). destruct (exec_all shard_exec ops r1), (exec_all map_exec ops m1).
    destruct IH as (-> & Hp & ?). split_and!; [done| |done].
    intros [<-|?]%elem_of_cons; [|done].
    destruct op; simpl in Eb; repeat case_match; done. }
  specialize (Hsim _ _ (newShardRegistry_models n)).
  destruct (exec_all shard_exec ops (newShardRegistry n)) as [answers r],
    (exec_all map_exec ops ∅) as [expected m]. destruct Hsim as (-> & Hp & Hm).
  split_and!; [done|done|apply Hm|by apply reg_all_perm].
Qed.
