(* ===== verification/CallState.v ===== *)
(** * Live call state (server/channels/calls/session.go and state.go)

    A call owns two maps from ids to session POINTERS: [sessions] (by stable
    session id) and [byConn] (by current connection id).  The same session
    object is reachable through both, so sessions live in a heap
    ([gmap sref session]) and the maps hold references.  Each operation below
    runs under the call's lock in the source and is atomic here.

    [call_wf] is the component's invariant; the section "Re-hosting" proves
    that the successor of a leaving host does not depend on Go's map order. *)

From S2P Require Import Prelude.

(** References to sessions (Go's [*session]). *)
Abbreviation sref := nat.

(** ** session.go *)

Record session := Session {
  userID : string;
  channelID : string;
  callID : string;
  sessionID : string;
  connID : string;
  unmuted : bool;
  screenOn : bool;
  videoOn : bool;
  voiceOn : bool;
  raisedHandAt : Z;
  startAt : Z;
  rtcClosed : Z;
  removed : Z;
}.

Abbreviation sheap := (gmap sref session).

Definition set_callID (v : string) (s : session) : session :=
  Session (userID s) (channelID s) v (sessionID s) (connID s) (unmuted s) (screenOn s)
    (videoOn s) (voiceOn s) (raisedHandAt s) (startAt s) (rtcClosed s) (removed s).
Definition set_connID (v : string) (s : session) : session :=
  Session (userID s) (channelID s) (callID s) (sessionID s) v (unmuted s) (screenOn s)
    (videoOn s) (voiceOn s) (raisedHandAt s) (startAt s) (rtcClosed s) (removed s).
Definition set_unmuted (v : bool) (s : session) : session :=
  Session (userID s) (channelID s) (callID s) (sessionID s) (connID s) v (screenOn s)
    (videoOn s) (voiceOn s) (raisedHandAt s) (startAt s) (rtcClosed s) (removed s).
Definition set_screenOn (v : bool) (s : session) : session :=
  Session (userID s) (channelID s) (callID s) (sessionID s) (connID s) (unmuted s) v
    (videoOn s) (voiceOn s) (raisedHandAt s) (startAt s) (rtcClosed s) (removed s).
Definition set_videoOn (v : bool) (s : session) : session :=
  Session (userID s) (channelID s) (callID s) (sessionID s) (connID s) (unmuted s) (screenOn s)
    v (voiceOn s) (raisedHandAt s) (startAt s) (rtcClosed s) (removed s).
Definition set_voiceOn (v : bool) (s : session) : session :=
  Session (userID s) (channelID s) (callID s) (sessionID s) (connID s) (unmuted s) (screenOn s)
    (videoOn s) v (raisedHandAt s) (startAt s) (rtcClosed s) (removed s).
Definition set_raisedHandAt (v : Z) (s : session) : session :=
  Session (userID s) (channelID s) (callID s) (sessionID s) (connID s) (unmuted s) (screenOn s)
    (videoOn s) (voiceOn s) v (startAt s) (rtcClosed s) (removed s).

(** [atomic.CompareAndSwapInt32(&s.rtcClosed, 0, 1)]. *)
Definition markRTCclosed (s : session) : bool * session :=
  if decide (rtcClosed s = 0%Z) then
    (true, Session (userID s) (channelID s) (callID s) (sessionID s) (connID s) (unmuted s)
       (screenOn s) (videoOn s) (voiceOn s) (raisedHandAt s) (startAt s) 1 (removed s))
  else (false, s).

Definition markRemoved (s : session) : bool * session :=
  if decide (removed s = 0%Z) then
    (true, Session (userID s) (channelID s) (callID s) (sessionID s) (connID s) (unmuted s)
       (screenOn s) (videoOn s) (voiceOn s) (raisedHandAt s) (startAt s) (rtcClosed s) 1)
  else (false, s).

Record SessionView := {
  sv_ID : string;
  sv_UserID : string;
  sv_ChannelID : string;
  sv_Unmuted : bool;
  sv_VoiceOn : bool;
  sv_ScreenOn : bool;
  sv_VideoOn : bool;
  sv_RaisedHand : Z;
  sv_StartAt : Z;
  sv_IsHost : bool;
}.

Definition view (s : session) (isHost : bool) : SessionView := {|
  sv_ID := sessionID s;
  sv_UserID := userID s;
  sv_ChannelID := channelID s;
  sv_Unmuted := unmuted s;
  sv_VoiceOn := voiceOn s;
  sv_ScreenOn := screenOn s;
  sv_VideoOn := videoOn s;
  sv_RaisedHand := raisedHandAt s;
  sv_StartAt := startAt s;
  sv_IsHost := isHost;
|}.

(** ** state.go *)

(** model.CallJob, whose pointers a call carries for the recording phase. *)
Record CallJob := {
  job_ID : string; job_CallID : string; job_Type : string; job_StartAt : Z; job_EndAt : Z;
  job_Props : string; job_Err : string; job_CreateAt : Z; job_UpdateAt : Z;
}.

Record callState := CallState {
  cs_callID : string;
  cs_channelID : string;
  cs_rtcdHost : string;
  cs_startAt : Z;
  cs_sessions : gmap string sref;
  cs_byConn : gmap string sref;
  cs_hostSessionID : string;
  cs_endAt : Z;
  cs_recording : option CallJob;
  cs_transcription : option CallJob;
  cs_peakParticipants : Z;
}.

Definition with_maps (ss bc : gmap string sref) (host : string) (peak : Z) (cs : callState) :=
  CallState (cs_callID cs) (cs_channelID cs) (cs_rtcdHost cs) (cs_startAt cs) ss bc host
    (cs_endAt cs) (cs_recording cs) (cs_transcription cs) peak.

Definition with_endAt (v : Z) (cs : callState) :=
  CallState (cs_callID cs) (cs_channelID cs) (cs_rtcdHost cs) (cs_startAt cs) (cs_sessions cs)
    (cs_byConn cs) (cs_hostSessionID cs) v (cs_recording cs) (cs_transcription cs)
    (cs_peakParticipants cs).

(** [now] is the [model.GetMillis()] read by the constructor. *)
Definition newCallState (callID channelID rtcdHost : string) (now : Z) : callState :=
  CallState callID channelID rtcdHost now ∅ ∅ "" 0 None None 0.

Definition participants (cs : callState) : Z := Z.of_nat (size (cs_sessions cs)).

Definition markEnded (now : Z) (cs : callState) : bool * callState :=
  if decide (0 < cs_endAt cs)%Z then (false, cs) else (true, with_endAt now cs).

Definition ended (cs : callState) : bool := bool_decide (0 < cs_endAt cs)%Z.
Definition endedAt (cs : callState) : Z := cs_endAt cs.
Definition peak (cs : callState) : Z := cs_peakParticipants cs.

(** Field reads through a pointer. *)
Definition sess_connID (hs : sheap) (p : sref) : string := default "" (connID <$> hs !! p).
Definition sess_startAt (hs : sheap) (p : sref) : Z := default 0%Z (startAt <$> hs !! p).
Definition sess_userID (hs : sheap) (p : sref) : string := default "" (userID <$> hs !! p).
Definition sess_screenOn (hs : sheap) (p : sref) : bool := default false (screenOn <$> hs !! p).

(** [None] is [ErrMaxParticipants]; [Some prev] the replaced session, if any. *)
Definition addSession (hs : sheap) (cs : callState) (sid : string) (s : sref) (limit : Z)
    : option (option sref) * callState :=
  if bool_decide (cs_sessions cs !! sid = None) && bool_decide (0 < limit)%Z
     && bool_decide (limit ≤ Z.of_nat (size (cs_sessions cs)))%Z
  then (None, cs)
  else
    let prev := cs_sessions cs !! sid in
    let ss := <[sid := s]> (cs_sessions cs) in
    let c := sess_connID hs s in
    let bc := if decide (c ≠ "") then <[c := s]> (cs_byConn cs) else cs_byConn cs in
    let host := if decide (cs_hostSessionID cs = "") then sid else cs_hostSessionID cs in
    let n := Z.of_nat (size ss) in
    let pk := if decide (cs_peakParticipants cs < n)%Z then n else cs_peakParticipants cs in
    (Some prev, with_maps ss bc host pk cs).

(** The successor loop of removeSession, over the entries in map order: one
    pass keeping the best id (empty: none yet) and its start time. *)
Definition rehost_step (hs : sheap) (best : string * Z) (e : string * sref) : string * Z :=
  let '(bestID, bestStart) := best in
  let '(id, other) := e in
  if bool_decide (bestID = "") || bool_decide (sess_startAt hs other < bestStart)%Z
     || (bool_decide (sess_startAt hs other = bestStart) && String.ltb id bestID)
  then (id, sess_startAt hs other)
  else (bestID, bestStart).

Definition rehost (hs : sheap) (entries : list (string * sref)) : string :=
  (foldl (rehost_step hs) ("", 0%Z) entries).1.

Definition removeSession `{GoRange} (hs : sheap) (cs : callState) (sid : string)
    : option (sref * string) * callState :=
  match cs_sessions cs !! sid with
  | None => (None, cs)
  | Some s =>
      let ss := delete sid (cs_sessions cs) in
      let c := sess_connID hs s in
      let bc := if decide (c ≠ "") then delete c (cs_byConn cs) else cs_byConn cs in
      let host := if decide (cs_hostSessionID cs = sid) then rehost hs (go_range ss)
                  else cs_hostSessionID cs in
      (Some (s, c), with_maps ss bc host (cs_peakParticipants cs) cs)
  end.

Definition setConn (hs : sheap) (cs : callState) (sid newConnID : string)
    : bool * sheap * callState :=
  match cs_sessions cs !! sid with
  | None => (false, hs, cs)
  | Some s =>
      let c := sess_connID hs s in
      let bc := if decide (c ≠ "") then delete c (cs_byConn cs) else cs_byConn cs in
      let hs' := alter (set_connID newConnID) s hs in
      let bc' := if decide (newConnID ≠ "") then <[newConnID := s]> bc else bc in
      (true, hs', with_maps (cs_sessions cs) bc' (cs_hostSessionID cs) (cs_peakParticipants cs) cs)
  end.

Definition connIDFor (hs : sheap) (cs : callState) (sid : string) : string :=
  match cs_sessions cs !! sid with Some s => sess_connID hs s | None => "" end.

Definition cs_get (cs : callState) (sid : string) : option sref := cs_sessions cs !! sid.

Definition findByConn (cs : callState) (conn : string) : option sref := cs_byConn cs !! conn.

Definition mutate (hs : sheap) (cs : callState) (sid : string) (fn : session → session)
    : bool * sheap :=
  match cs_sessions cs !! sid with
  | None => (false, hs)
  | Some s => (true, alter fn s hs)
  end.

Definition screenSharer `{GoRange} (hs : sheap) (cs : callState) : option sref :=
  match list_find (λ e : string * sref, sess_screenOn hs e.2 = true) (go_range (cs_sessions cs)) with
  | Some (_, (_, s)) => Some s
  | None => None
  end.

Definition hostUserID (hs : sheap) (cs : callState) : string :=
  if decide (cs_hostSessionID cs = "") then ""
  else match cs_sessions cs !! cs_hostSessionID cs with
       | Some s => sess_userID hs s
       | None => ""
       end.

Definition setHostByUser `{GoRange} (hs : sheap) (cs : callState) (user : string)
    : bool * callState :=
  match list_find (λ e : string * sref, sess_userID hs e.2 = user) (go_range (cs_sessions cs)) with
  | Some (_, (id, _)) =>
      (true, with_maps (cs_sessions cs) (cs_byConn cs) id (cs_peakParticipants cs) cs)
  | None => (false, cs)
  end.

Definition snapshot `{GoRange} (hs : sheap) (cs : callState) : list SessionView * string :=
  (omap (λ e : string * sref,
     (λ s, view s (bool_decide (e.1 = cs_hostSessionID cs))) <$> hs !! e.2)
     (go_range (cs_sessions cs)), cs_hostSessionID cs).

Definition sessionIDs `{GoRange} (cs : callState) : list string := (go_range (cs_sessions cs)).*1.

Record CallStateView := {
  csv_CallID : string;
  csv_ChannelID : string;
  csv_StartAt : Z;
  csv_EndAt : Z;
  csv_RTCDHost : string;
  csv_Sessions : list SessionView;
  csv_Participants : Z;
  csv_HostSessionID : string;
}.

(** ** The call invariant *)

Record call_wf (hs : sheap) (cs : callState) : Prop := {
  wf_sess : ∀ sid s, cs_sessions cs !! sid = Some s →
    ∃ x, hs !! s = Some x ∧ sessionID x = sid ∧ callID x = cs_callID cs ∧
         channelID x = cs_channelID cs;
  wf_nonempty : cs_sessions cs !! "" = None;
  wf_host : if decide (cs_sessions cs = ∅) then cs_hostSessionID cs = ""
            else is_Some (cs_sessions cs !! cs_hostSessionID cs);
  wf_peak : (Z.of_nat (size (cs_sessions cs)) ≤ cs_peakParticipants cs)%Z;
}.

(** The connection index is exact: it holds every live session under its
    current connection and nothing else. *)
Record conn_wf (hs : sheap) (cs : callState) : Prop := {
  cw_sound : ∀ c s, cs_byConn cs !! c = Some s →
    ∃ x, hs !! s = Some x ∧ connID x = c ∧ c ≠ "" ∧ cs_sessions cs !! sessionID x = Some s;
  cw_complete : ∀ sid s x, cs_sessions cs !! sid = Some s → hs !! s = Some x →
    connID x ≠ "" → cs_byConn cs !! connID x = Some s;
}.

Lemma wf_host_empty hs cs : call_wf hs cs → cs_hostSessionID cs = "" ↔ cs_sessions cs = ∅.
Proof.
  intros [_ Hne Hh _]. case_decide as Hd; split; try done.
  intros Heq. rewrite Heq, Hne in Hh. by destruct Hh.
Qed.

Lemma newCallState_wf hs id ch host now : call_wf hs (newCallState id ch host now).
Proof. by split. Qed.

Lemma newCallState_conn_wf hs id ch host now : conn_wf hs (newCallState id ch host now).
Proof. by split; simpl; intros. Qed.

(** Two ids of one call never share a session object. *)
Lemma wf_sess_inj hs cs i j s :
  call_wf hs cs → cs_sessions cs !! i = Some s → cs_sessions cs !! j = Some s → i = j.
Proof.
  intros [Hs _ _ _] Hi Hj. destruct (Hs _ _ Hi) as (x & Hx & <- & _).
  destruct (Hs _ _ Hj) as (y & Hy & <- & _). by simplify_eq.
Qed.

(** ** Re-hosting *)

Definition senior (a b : string * Z) : Prop :=
  (a.2 < b.2)%Z ∨ (a.2 = b.2 ∧ String.ltb a.1 b.1 = true).

Lemma senior_trans a b c : senior a b → senior b c → senior a c.
Proof.
  intros [H1|[H1 H1']] [H2|[H2 H2']]; try (left; lia).
  right. split; [lia|]. by eapply string_ltb_trans.
Qed.

Lemma senior_irrefl a : ¬ senior a a.
Proof. intros [?|[_ H]]; [lia|]. by rewrite string_ltb_irrefl in H. Qed.

Lemma senior_total a b : ¬ senior a b → ¬ senior b a → a = b.
Proof.
  destruct a as [i x], b as [j y]. unfold senior; simpl. intros H1 H2.
  assert (x = y) as -> by lia. f_equal. apply string_ltb_total.
  - destruct (String.ltb i j) eqn:E; [exfalso; tauto|done].
  - destruct (String.ltb j i) eqn:E; [exfalso; tauto|done].
Qed.

Definition tenure (hs : sheap) (e : string * sref) : string * Z := (e.1, sess_startAt hs e.2).

Lemma rehost_step_spec hs best e :
  rehost_step hs best e =
    if bool_decide (best.1 = "") || bool_decide (sess_startAt hs e.2 < best.2)%Z
       || (bool_decide (sess_startAt hs e.2 = best.2) && String.ltb e.1 best.1)
    then tenure hs e else best.
Proof. by destruct best, e. Qed.

(** Once a real id is held, the loop returns the most senior candidate. *)
Lemma rehost_fold_spec hs l b :
  b.1 ≠ "" → Forall (λ e : string * sref, e.1 ≠ "") l →
  let r := foldl (rehost_step hs) b l in
  (r = b ∨ r ∈ tenure hs <$> l) ∧ r.1 ≠ "" ∧
  ¬ senior b r ∧ (∀ e, e ∈ l → ¬ senior (tenure hs e) r).
Proof.
  revert b. induction l as [|e l IH]; intros b Hb Hl; simpl.
  { split_and!; [by left|done|apply senior_irrefl|]. intros e He. by apply not_elem_of_nil in He. }
  apply Forall_cons in Hl as [He Hl]. rewrite rehost_step_spec.
  rewrite (bool_decide_false (b.1 = "")) by done. simpl.
  destruct (bool_decide (sess_startAt hs e.2 < b.2)%Z
     || (bool_decide (sess_startAt hs e.2 = b.2) && String.ltb e.1 b.1)) eqn:E.
  - assert (senior (tenure hs e) b) as Hsen.
    { apply orb_true_iff in E as [E|[E E']%andb_true_iff]; apply bool_decide_eq_true in E;
        [by left|by right]. }
    destruct (IH (tenure hs e) He Hl) as (Hin & Hne & Hb' & Hall).
    split_and!; [|done| |].
    + right. rewrite elem_of_cons. destruct Hin as [->|Hin]; auto.
    + intros Hbr. eapply Hb', senior_trans; eauto.
    + intros e' [->|He']%elem_of_cons; auto.
  - destruct (IH b Hb Hl) as (Hin & Hne & Hb' & Hall). split_and!; [|done|done|].
    + destruct Hin as [->|Hin]; [by left|]. right. rewrite elem_of_cons. auto.
    + intros e' [->|He']%elem_of_cons; [|auto]. intros Hsen.
      apply orb_false_iff in E as [E1 E2]. apply bool_decide_eq_false in E1.
      apply andb_false_iff in E2. rewrite bool_decide_eq_false in E2.
      assert (¬ senior (tenure hs e) b) as Hnb.
      { intros [?|[? Hlt]]; simpl in *; [lia|]. destruct E2 as [?|E2]; [lia|congruence]. }
      destruct Hin as [Hr|Hin]; [by rewrite Hr in Hsen|].
      assert (senior (tenure hs e) b ∨ tenure hs e = b ∨ senior b (tenure hs e)) as [?|[Heq|?]].
      { destruct (decide (senior b (tenure hs e))) as [?|Hn]; [by auto|].
        right; left. by apply senior_total. }
      all: try done.
      * by rewrite Heq in Hsen.
      * apply Hb'. by eapply senior_trans.
Qed.

Lemma rehost_spec hs l :
  Forall (λ e : string * sref, e.1 ≠ "") l → l ≠ [] →
  ∃ e, e ∈ l ∧ rehost hs l = e.1 ∧ ∀ e', e' ∈ l → ¬ senior (tenure hs e') (tenure hs e).
Proof.
  destruct l as [|e l]; [done|]. intros Hl _. apply Forall_cons in Hl as [He Hl].
  unfold rehost. cbn [foldl]. rewrite rehost_step_spec. simpl.
  destruct (rehost_fold_spec hs l (tenure hs e) He Hl) as (Hin & _ & Hfirst & Hall).
  set (r := foldl _ _ _) in *.
  assert (∃ e0, e0 ∈ e :: l ∧ r = tenure hs e0) as (e0 & He0 & Hr).
  { destruct Hin as [->|([? ?] & -> & ?)%list_elem_of_fmap].
    - exists e. split; [by left|done].
    - eexists. split; [by right|done]. }
  exists e0. rewrite Hr in *. split_and!; [done|done|].
  intros e' [->|He']%elem_of_cons; auto.
Qed.

(** Go's map order cannot influence the successor. *)
Lemma rehost_perm hs l l' :
  Forall (λ e : string * sref, e.1 ≠ "") l → l ≡ₚ l' → rehost hs l = rehost hs l'.
Proof.
  intros Hl Hp. destruct (decide (l = [])) as [->|Hne].
  { by apply Permutation_nil_l in Hp as ->. }
  assert (l' ≠ []) as Hne' by (intros ->; by apply Permutation_nil_r in Hp).
  assert (Forall (λ e : string * sref, e.1 ≠ "") l') as Hl' by by rewrite <-Hp.
  destruct (rehost_spec hs l Hl Hne) as (e & He & -> & Hmin).
  destruct (rehost_spec hs l' Hl' Hne') as (e' & He' & -> & Hmin').
  assert (tenure hs e = tenure hs e') as Heq.
  { apply senior_total; [apply Hmin'; by rewrite <-Hp|apply Hmin; by rewrite Hp]. }
  by injection Heq.
Qed.

Lemma go_range_nonempty_keys `{GoRange} (m : gmap string sref) :
  m !! "" = None → Forall (λ e : string * sref, e.1 ≠ "") (go_range m).
Proof.
  intros Hm. apply Forall_forall. intros [k v] Hin%elem_of_go_range. simpl.
  intros ->. by rewrite Hm in Hin.
Qed.

(** Re-hosting a nonempty map elects one of its ids. *)
Lemma rehost_in `{GoRange} hs (m : gmap string sref) :
  m !! "" = None → m ≠ ∅ → is_Some (m !! rehost hs (go_range m)).
Proof.
  intros Hne Hm. destruct (rehost_spec hs (go_range m)) as (e & He & -> & _).
  - by apply go_range_nonempty_keys.
  - intros Hnil. apply Hm. apply map_size_empty_iff. by rewrite <-length_go_range, Hnil.
  - destruct e as [k v]. apply elem_of_go_range in He. by eexists.
Qed.

(** ** The operations preserve the invariants *)

(** Heaps that agree on the identity fields of every allocated session. *)
Definition ids_kept (hs hs' : sheap) : Prop := ∀ s x, hs !! s = Some x →
  ∃ x', hs' !! s = Some x' ∧ sessionID x' = sessionID x ∧ callID x' = callID x ∧
        channelID x' = channelID x ∧ startAt x' = startAt x ∧ userID x' = userID x.

Lemma ids_kept_refl hs : ids_kept hs hs.
Proof. intros s x Hx. by exists x. Qed.

(** Field updates that keep who a session belongs to. *)
Definition identity_kept (f : session → session) : Prop := ∀ x,
  sessionID (f x) = sessionID x ∧ callID (f x) = callID x ∧ channelID (f x) = channelID x ∧
  startAt (f x) = startAt x ∧ userID (f x) = userID x.

Lemma ids_kept_alter hs f s0 :
  identity_kept f →
  ids_kept hs (alter f s0 hs).
Proof.
  intros Hf s x Hx. rewrite lookup_alter. case_decide as Hd.
  - subst. rewrite Hx. exists (f x). split; [done|apply Hf].
  - by exists x.
Qed.

Lemma ids_kept_insert hs s0 x0 : hs !! s0 = None → ids_kept hs (<[s0 := x0]> hs).
Proof.
  intros Hn s x Hx. exists x. rewrite lookup_insert_ne; [done|]. intros ->. by rewrite Hn in Hx.
Qed.

Lemma call_wf_ids_kept hs hs' cs : ids_kept hs hs' → call_wf hs cs → call_wf hs' cs.
Proof.
  intros Hk [Hs Hne Hh Hp]. split; try done. intros sid s Hin.
  destruct (Hs _ _ Hin) as (x & Hx & H1 & H2 & H3).
  destruct (Hk _ _ Hx) as (x' & Hx' & ? & ? & ? & _). exists x'. by split_and!; try congruence.
Qed.

Lemma markEnded_wf hs now cs : call_wf hs cs → call_wf hs (markEnded now cs).2.
Proof. unfold markEnded. case_decide; [done|]. by intros [? ? ? ?]; split. Qed.

Lemma addSession_wf hs cs sid s limit x :
  call_wf hs cs → sid ≠ "" → hs !! s = Some x → sessionID x = sid →
  callID x = cs_callID cs → channelID x = cs_channelID cs →
  call_wf hs (addSession hs cs sid s limit).2.
Proof.
  intros Hwf Hne Hx Hid Hc Hch. unfold addSession.
  destruct (_ && _ && _); simpl; [done|]. pose proof (wf_host_empty _ _ Hwf) as Hemp.
  destruct Hwf as [Hs Hn Hh Hp]. split; simpl.
  - intros i r [[<- <-]|[Hi Hr]]%lookup_insert_Some; [|by eauto]. exists x. by split_and!.
  - by rewrite lookup_insert_ne.
  - rewrite decide_False by apply insert_non_empty.
    destruct (decide (cs_hostSessionID cs = "")) as [Hhost|Hhost]; [by rewrite lookup_insert_eq|].
    rewrite decide_False in Hh by (by rewrite <-Hemp).
    destruct (decide (sid = cs_hostSessionID cs)) as [->|Hd]; [by rewrite lookup_insert_eq|].
    by rewrite lookup_insert_ne.
  - clear Hh. case_decide; lia.
Qed.

(** What an insertion changes: with a limit, the call never outgrows it. *)
Lemma addSession_spec hs cs sid s limit o cs' :
  addSession hs cs sid s limit = (o, cs') →
  cs_callID cs' = cs_callID cs ∧ cs_channelID cs' = cs_channelID cs ∧
  cs_endAt cs' = cs_endAt cs ∧ (is_Some o → cs_sessions cs' !! sid = Some s) ∧
  (participants cs' = participants cs ∨
   (participants cs' = participants cs + 1 ∧ (0 < limit → participants cs < limit)))%Z.
Proof.
  unfold addSession. destruct (_ && _ && _) eqn:E; intros [= <- <-]; simpl.
  { split_and!; try done. by left. }
  split_and!; try done; [by rewrite lookup_insert_eq|].
  unfold participants; simpl. rewrite map_size_insert.
  destruct (cs_sessions cs !! sid) eqn:Es; simpl; [by left|right]. split; [lia|].
  intros Hl. rewrite (bool_decide_true (0 < limit)%Z) in E by done. simpl in E.
  apply bool_decide_eq_false in E. lia.
Qed.

Lemma addSession_conn_wf hs cs sid s limit x :
  conn_wf hs cs → cs_sessions cs !! sid = None → hs !! s = Some x → sessionID x = sid →
  cs_byConn cs !! connID x = None →
  conn_wf hs (addSession hs cs sid s limit).2.
Proof.
  intros [Hsd Hcp] Hfresh Hx Hid Hbc. unfold addSession.
  destruct (_ && _ && _); simpl; [done|].
  assert (sess_connID hs s = connID x) as -> by (unfold sess_connID; by rewrite Hx).
  split; simpl.
  - intros c r Hc. case_decide as Hd; [apply lookup_insert_Some in Hc as [[<- <-]|[Hne Hc]]|].
    + exists x. rewrite Hid, lookup_insert_eq. by split_and!.
    + destruct (Hsd _ _ Hc) as (y & Hy & ? & ? & Hin). exists y. split_and!; try done.
      rewrite lookup_insert_ne; [done|]. intros ->. congruence.
    + destruct (Hsd _ _ Hc) as (y & Hy & ? & ? & Hin). exists y. split_and!; try done.
      rewrite lookup_insert_ne; [done|]. intros ->. congruence.
  - intros i r y Hi Hy Hne. apply lookup_insert_Some in Hi as [[<- <-]|[Hi Hr]].
    + simplify_eq. by rewrite decide_True, lookup_insert_eq.
    + pose proof (Hcp _ _ _ Hr Hy Hne) as Hold. case_decide; [|done].
      rewrite lookup_insert_ne; [done|]. intros Heq. by rewrite Heq, Hold in Hbc.
Qed.

Lemma removeSession_wf `{GoRange} hs cs sid :
  call_wf hs cs → call_wf hs (removeSession hs cs sid).2.
Proof.
  intros Hwf. unfold removeSession.
  destruct (cs_sessions cs !! sid) as [s|] eqn:E; simpl; [|done].
  destruct Hwf as [Hs Hn Hh Hp].
  assert (delete sid (cs_sessions cs) !! "" = None) as Hn'.
  { apply lookup_delete_None. by right. }
  split; simpl; [|done| |].
  - intros i r [Hi Hr]%lookup_delete_Some. eauto.
  - rewrite decide_False in Hh by (intros Hemp; by rewrite Hemp in E).
    case_decide as Hemp; [|case_decide as Hd; [by apply rehost_in|]].
    + case_decide as Hd; [rewrite Hemp; unfold rehost|].
      * assert (go_range (∅ : gmap string sref) = []) as ->; [|done].
        apply Permutation_nil_r. by rewrite go_range_perm, map_to_list_empty.
      * destruct Hh as [h Hh]. assert (delete sid (cs_sessions cs) !! cs_hostSessionID cs = Some h)
          as Hh' by by rewrite lookup_delete_ne. by rewrite Hemp in Hh'.
    + by rewrite lookup_delete_ne.
  - rewrite map_size_delete, E. lia.
Qed.

Lemma removeSession_conn_wf `{GoRange} hs cs sid :
  call_wf hs cs → conn_wf hs cs → conn_wf hs (removeSession hs cs sid).2.
Proof.
  intros Hwf [Hsd Hcp]. unfold removeSession.
  destruct (cs_sessions cs !! sid) as [s|] eqn:E; simpl; [|done].
  destruct (wf_sess _ _ Hwf _ _ E) as (x & Hx & Hid & _).
  assert (sess_connID hs s = connID x) as -> by (unfold sess_connID; by rewrite Hx).
  split; simpl.
  - intros c r Hc.
    assert (cs_byConn cs !! c = Some r ∧ r ≠ s) as [Hc' Hrs].
    { case_decide as Hd.
      - apply lookup_delete_Some in Hc as [Hne Hc]. split; [done|]. intros ->.
        destruct (Hsd _ _ Hc) as (y & Hy & ? & _). congruence.
      - split; [done|]. intros ->. destruct (Hsd _ _ Hc) as (y & Hy & ? & ? & _). congruence. }
    destruct (Hsd _ _ Hc') as (y & Hy & ? & ? & Hin). exists y. split_and!; try done.
    rewrite lookup_delete_ne; [done|]. intros ->. congruence.
  - intros i r y [Hi Hr]%lookup_delete_Some Hy Hne. pose proof (Hcp _ _ _ Hr Hy Hne) as Hold.
    case_decide; [|done]. rewrite lookup_delete_ne; [done|]. intros Heq.
    pose proof (Hcp _ _ _ E Hx ltac:(done)) as Hs'. rewrite Heq in Hs'.
    assert (r = s) as -> by congruence. apply Hi. by apply (wf_sess_inj hs cs _ _ s).
Qed.

Lemma setConn_ids_kept hs cs sid c : ids_kept hs (setConn hs cs sid c).1.2.
Proof.
  unfold setConn. destruct (cs_sessions cs !! sid); simpl; [|apply ids_kept_refl].
  by apply ids_kept_alter.
Qed.

Lemma setConn_wf hs cs sid c :
  call_wf hs cs → call_wf (setConn hs cs sid c).1.2 (setConn hs cs sid c).2.
Proof.
  intros Hwf. apply (call_wf_ids_kept hs); [apply setConn_ids_kept|].
  unfold setConn. destruct (cs_sessions cs !! sid); simpl; [|done].
  destruct Hwf. by split.
Qed.

Lemma setConn_conn_wf hs cs sid c :
  call_wf hs cs → conn_wf hs cs → cs_byConn cs !! c = None →
  conn_wf (setConn hs cs sid c).1.2 (setConn hs cs sid c).2.
Proof.
  intros Hwf [Hsd Hcp] Hfresh. unfold setConn.
  destruct (cs_sessions cs !! sid) as [s|] eqn:E; simpl; [|done].
  destruct (wf_sess _ _ Hwf _ _ E) as (x & Hx & Hid & _).
  assert (sess_connID hs s = connID x) as -> by (unfold sess_connID; by rewrite Hx).
  assert (∀ k r, cs_byConn cs !! k = Some r → r = s → k = connID x) as Hone.
  { intros k r Hk ->. destruct (Hsd _ _ Hk) as (y & ? & ? & _). congruence. }
  split; simpl.
  - intros k r Hk.
    assert ((c ≠ "" ∧ k = c ∧ r = s) ∨ (cs_byConn cs !! k = Some r ∧ r ≠ s)) as [(?&->&->)|[Hk' Hrs]].
    { case_decide as Hc; [apply lookup_insert_Some in Hk as [[<- <-]|[Hne Hk]]; [by left|]|];
        right; case_decide as Hd.
      - apply lookup_delete_Some in Hk as [Hd' Hk]. split; [done|]. intros Heq. by apply Hd', eq_sym, (Hone _ r).
      - split; [done|]. intros ->. destruct (Hsd _ _ Hk) as (y & ? & ? & ? & _). congruence.
      - apply lookup_delete_Some in Hk as [Hd' Hk]. split; [done|]. intros Heq. by apply Hd', eq_sym, (Hone _ r).
      - split; [done|]. intros ->. destruct (Hsd _ _ Hk) as (y & ? & ? & ? & _). congruence. }
    + exists (set_connID c x). rewrite lookup_alter_eq, Hx. simpl. rewrite Hid. done.
    + destruct (Hsd _ _ Hk') as (y & Hy & ? & ? & Hin). exists y.
      rewrite lookup_alter_ne by done. done.
  - intros i r y Hi Hy Hne. rewrite lookup_alter in Hy. case_decide as Hd.
    + subst r. rewrite Hx in Hy. simplify_eq/=. by rewrite decide_True, lookup_insert_eq.
    + pose proof (Hcp _ _ _ Hi Hy Hne) as Hold.
      assert (connID y ≠ c) by (intros Hyc; rewrite Hyc in Hold; congruence).
      assert (connID y ≠ connID x) as Hxy.
      { intros Heq. apply Hd. destruct (Hsd _ _ Hold) as (z & ? & ? & ? & _).
        pose proof (Hcp _ _ _ E Hx) as Hs'. rewrite <-Heq in Hs'. specialize (Hs' ltac:(done)). congruence. }
      case_decide; [rewrite lookup_insert_ne by done|]; case_decide; try done;
        by rewrite lookup_delete_ne.
Qed.

Lemma setHostByUser_wf `{GoRange} hs cs u :
  call_wf hs cs → call_wf hs (setHostByUser hs cs u).2.
Proof.
  intros [Hs Hn Hh Hp]. unfold setHostByUser.
  destruct (list_find _ _) as [[i [id s]]|] eqn:E; simpl; [|done].
  apply list_find_Some in E as (Hin & _ & _). apply list_elem_of_lookup_2, elem_of_go_range in Hin.
  split; simpl; try done. rewrite decide_False; [by eexists|]. intros Hd. by rewrite Hd in Hin.
Qed.

Lemma setHostByUser_conn_wf `{GoRange} hs cs u :
  conn_wf hs cs → conn_wf hs (setHostByUser hs cs u).2.
Proof.
  intros [Hs Hn]. unfold setHostByUser.
  destruct (list_find _ _) as [[i [id s]]|] eqn:E; simpl; by split.
Qed.

(** ** The successor of a leaving host *)

(** the next host is well defined.  When a session leaves, the result does
    not depend on Go's map order; if it was the host and others remain, the
    new host is the one that has been in the call longest, ties going to the
    smaller id; a leaving non-host changes nothing about the host. *)
Theorem removeSession_successor (g1 g2 : GoRange) hs cs sid :
  call_wf hs cs →
  @removeSession g1 hs cs sid = @removeSession g2 hs cs sid ∧
  ∀ s, cs_sessions cs !! sid = Some s → let cs' := (@removeSession g1 hs cs sid).2 in
    (cs_hostSessionID cs ≠ sid → cs_hostSessionID cs' = cs_hostSessionID cs) ∧
    (cs_hostSessionID cs = sid → cs_sessions cs' ≠ ∅ →
     ∃ h, cs_sessions cs' !! cs_hostSessionID cs' = Some h ∧
       ∀ id s', cs_sessions cs' !! id = Some s' →
         (sess_startAt hs h < sess_startAt hs s')%Z ∨
         (sess_startAt hs h = sess_startAt hs s' ∧ String.ltb id (cs_hostSessionID cs') = false)).
Proof.
  intros Hwf. assert (delete sid (cs_sessions cs) !! "" = None) as Hne.
  { apply lookup_delete_None. right. apply Hwf. }
  split.
  - unfold removeSession. destruct (cs_sessions cs !! sid); [|done].
    destruct (decide (cs_hostSessionID cs = sid)); [|done]. do 2 f_equal.
    apply rehost_perm; [by apply go_range_nonempty_keys|].
    by rewrite (@go_range_perm g1), (@go_range_perm g2).
  - intros s Hs. unfold removeSession. rewrite Hs. simpl. split; [by intros ?; rewrite decide_False|].
    intros Hh Hleft. rewrite decide_True by done.
    destruct (rehost_spec hs (@go_range g1 _ (delete sid (cs_sessions cs)))) as ([k h] & Hin & -> & Hmin).
    + by apply go_range_nonempty_keys.
    + intros Hnil. apply Hleft, map_size_empty_iff. by rewrite <-(@length_go_range g1), Hnil.
    + exists h. simpl. split; [by apply elem_of_go_range in Hin|].
      intros id s' Hs'. specialize (Hmin (id, s')). unfold senior, tenure in Hmin. simpl in Hmin.
      assert (¬ ((sess_startAt hs s' < sess_startAt hs h)%Z ∨
        sess_startAt hs s' = sess_startAt hs h ∧ String.ltb id k = true)) as Hno.
      { apply Hmin. by apply elem_of_go_range. }
      destruct (Z.lt_trichotomy (sess_startAt hs h) (sess_startAt hs s')) as [?|[Heq|?]];
        [by left|right|exfalso; tauto].
      split; [done|]. destruct (String.ltb id k) eqn:E; [|done]. exfalso. apply Hno. by right.
Qed.

Lemma removeSession_successor_witness :
  let s id t := Session "u" "ch" "c" id id true false false false 0 t 0 0 in
  let hs : sheap := {[0 := s "a" 5%Z; 1 := s "b" 7%Z; 2 := s "c" 7%Z]} in
  let cs := CallState "c" "ch" "" 1 {["a" := 0; "b" := 1; "c" := 2]}
              {["a" := 0; "b" := 1; "c" := 2]} "a" 0 None None 3 in
  ∃ h, cs_sessions (removeSession hs cs "a").2 !! cs_hostSessionID (removeSession hs cs "a").2 = Some h.
Proof.
  intros s hs cs. destruct (removeSession_successor go_range_canonical go_range_canonical hs cs "a")
    as [_ Hnext].
  - split.
    + intros sid p Hp. unfold cs in Hp. cbn [cs_sessions] in Hp.
      apply lookup_insert_Some in Hp as [[<- <-]|[_ Hp]]; [by exists (s "a" 5%Z)|].
      apply lookup_insert_Some in Hp as [[<- <-]|[_ Hp]]; [by exists (s "b" 7%Z)|].
      apply lookup_singleton_Some in Hp as [<- <-]. by exists (s "c" 7%Z).
    + reflexivity.
    + vm_compute. by eexists.
    + vm_compute. discriminate.
  - destruct (Hnext 0 eq_refl) as [_ Hhost].
    destruct (Hhost eq_refl) as (h & Hh & _); [vm_compute; discriminate|]. by exists h.
Defined.
