(* ===== verification/SessionIndex.v ===== *)
(** * Reverse indexes (server/channels/calls/registry.go and channel_index.go)

    [sessionRegistry] maps session ids and connection ids to the owning call
    state; [channelIndex] maps a channel to its current call state.  Both hold
    references, and [ci_deleteIf] is guarded by reference identity. *)

From S2P Require Import Prelude.
From S2P Require Import CallShards.

(** ** registry.go *)

Record sessionRegistry := Registry {
  bySession : gmap string cref;
  byConn : gmap string cref;
}.

Definition newSessionRegistry : sessionRegistry := Registry ∅ ∅.

Definition link (r : sessionRegistry) (sid conn : string) (cs : cref) : sessionRegistry :=
  Registry (<[sid := cs]> (bySession r))
    (if decide (conn ≠ "") then <[conn := cs]> (byConn r) else byConn r).

Definition unlink (r : sessionRegistry) (sid conn : string) : sessionRegistry :=
  Registry (delete sid (bySession r)) (delete conn (byConn r)).

Definition repoint (r : sessionRegistry) (sid oldConn newConn : string) (cs : cref)
    : sessionRegistry :=
  let bc := delete oldConn (byConn r) in
  Registry (<[sid := cs]> (bySession r))
    (if decide (newConn ≠ "") then <[newConn := cs]> bc else bc).

Definition bySessionID (r : sessionRegistry) (sid : string) : option cref := bySession r !! sid.
Definition byConnID (r : sessionRegistry) (conn : string) : option cref := byConn r !! conn.

(** ** channel_index.go *)

Abbreviation channelIndex := (gmap string cref).

Definition newChannelIndex : channelIndex := ∅.

Definition ci_get (ci : channelIndex) (channel : string) : option cref := ci !! channel.

Definition getLive (ended : cref → bool) (ci : channelIndex) (channel : string) : option cref :=
  match ci_get ci channel with
  | Some cs => if ended cs then None else Some cs
  | None => None
  end.

Definition ci_set (ci : channelIndex) (channel : string) (cs : cref) : channelIndex :=
  <[channel := cs]> ci.

Definition ci_deleteIf (ci : channelIndex) (channel : string) (target : cref)
    : bool * channelIndex :=
  if decide (ci !! channel = Some target) then (true, delete channel ci) else (false, ci).

Lemma ci_deleteIf_map ci channel target :
  (ci_deleteIf ci channel target).2 =
    if decide (ci !! channel = Some target) then delete channel ci else ci.
Proof. unfold ci_deleteIf. by case_decide. Qed.

(** The number of start locks, and the stripe a channel takes. *)
Definition newChannelLockTable (n : Z) : Z := if decide (n ≤ 0)%Z then 64%Z else n.
Definition lockFor (locks : Z) (channel : string) : Z := fnv1a channel `mod` locks.

Lemma lockFor_bound n channel :
  (0 ≤ lockFor (newChannelLockTable n) channel < newChannelLockTable n)%Z.
Proof. unfold lockFor, newChannelLockTable. apply Z.mod_pos_bound. case_decide; lia. Qed.

Lemma link_bySession r sid c cs k :
  bySession (link r sid c cs) !! k = if decide (sid = k) then Some cs else bySession r !! k.
Proof. unfold link; simpl. by rewrite lookup_insert. Qed.

Lemma link_byConn r sid c cs k :
  byConn (link r sid c cs) !! k =
    if decide (c ≠ "" ∧ c = k) then Some cs else byConn r !! k.
Proof.
  unfold link; simpl. destruct (decide (c ≠ "")) as [Hc|Hc].
  - rewrite lookup_insert. destruct (decide (c = k)), (decide (c ≠ "" ∧ c = k)); naive_solver.
  - rewrite decide_False by naive_solver. done.
Qed.

Lemma unlink_bySession r sid c k :
  bySession (unlink r sid c) !! k = if decide (sid = k) then None else bySession r !! k.
Proof. unfold unlink; simpl. by rewrite lookup_delete. Qed.

Lemma unlink_byConn r sid c k :
  byConn (unlink r sid c) !! k = if decide (c = k) then None else byConn r !! k.
Proof. unfold unlink; simpl. by rewrite lookup_delete. Qed.

Lemma repoint_bySession r sid o n cs k :
  bySession (repoint r sid o n cs) !! k = if decide (sid = k) then Some cs else bySession r !! k.
Proof. unfold repoint; simpl. by rewrite lookup_insert. Qed.

Lemma repoint_byConn r sid o n cs k :
  byConn (repoint r sid o n cs) !! k =
    if decide (n ≠ "" ∧ n = k) then Some cs
    else if decide (o = k) then None else byConn r !! k.
Proof.
  unfold repoint; simpl. destruct (decide (n ≠ "")) as [Hn|Hn].
  - rewrite lookup_insert, lookup_delete.
    destruct (decide (n = k)), (decide (n ≠ "" ∧ n = k)); naive_solver.
  - rewrite decide_False by naive_solver. by rewrite lookup_delete.
Qed.

