(* ===== verification/CallsConfig.v ===== *)
(** * Calls configuration (server/channels/calls/config.go)

    A settings field is a Go pointer: [None] is nil.  The accessors choose
    the default of an unset field. *)

From S2P Require Import Prelude.

Record CallsSettings := {
  Enable : option bool;
  RTCDServiceURL : option string;
  ICEServers : option string;
  MaxCallParticipants : option Z;
  AllowScreenSharing : option bool;
  AllowRecording : option bool;
  EnableRinging : option bool;
  EnableVideo : option bool;
  EnableReactions : option bool;
  HostControlsAllowed : option bool;
  GroupCallsAllowed : option bool;
  StateShardCount : option Z;
}.

Definition defaultShardCount : Z := 64.

Definition enabled (c : CallsSettings) : bool := default false (Enable c).
Definition rtcdURL (c : CallsSettings) : string := default "" (RTCDServiceURL c).
Definition maxParticipants (c : CallsSettings) : Z := default 0%Z (MaxCallParticipants c).
Definition allowScreenSharing (c : CallsSettings) : bool := default true (AllowScreenSharing c).
Definition allowRecording (c : CallsSettings) : bool := default false (AllowRecording c).
Definition enableRinging (c : CallsSettings) : bool := default true (EnableRinging c).
Definition enableVideo (c : CallsSettings) : bool := default true (EnableVideo c).
Definition enableReactions (c : CallsSettings) : bool := default true (EnableReactions c).
Definition hostControlsAllowed (c : CallsSettings) : bool := default true (HostControlsAllowed c).
Definition groupCallsAllowed (c : CallsSettings) : bool := default true (GroupCallsAllowed c).

Definition shardCountFor (cs : option CallsSettings) : Z :=
  match cs with
  | None => defaultShardCount
  | Some c => match StateShardCount c with
              | None => defaultShardCount
              | Some n => if decide (n ≤ 0)%Z then defaultShardCount else n
              end
  end.

Lemma shardCountFor_pos cs : (0 < shardCountFor cs)%Z.
Proof.
  unfold shardCountFor, defaultShardCount. destruct cs as [c|]; [|lia].
  destruct (StateShardCount c); [|lia]. case_decide; lia.
Qed.
