(* ===== verification/CallStore.v ===== *)
(** * Durable call records (server/public/model/calls.go and
      server/channels/store/sqlstore/lms_store/call*_store.go)

    The four calls tables, each keyed by its primary key.  A statement takes
    [fault]: the database reports an error for it (connection lost, ...), in
    which case nothing is written.  [now] is the [GetMillis()] the model's
    PreSave/PreUpdate hooks read. *)

From S2P Require Import Prelude.

(** ** model/calls.go *)

Record Call := {
  call_ID : string; call_ChannelID : string; call_OwnerID : string; call_PostID : string;
  call_StartAt : Z; call_EndAt : Z; call_CreateAt : Z; call_UpdateAt : Z;
}.

Record CallSession := {
  cses_ID : string; cses_CallID : string; cses_UserID : string; cses_ConnID : string;
  cses_StartAt : Z; cses_EndAt : Z; cses_CreateAt : Z; cses_UpdateAt : Z;
}.

Record CallStat := {
  stat_ID : string; stat_CallID : string; stat_ChannelID : string; stat_Participants : Z;
  stat_PeakParticipants : Z; stat_DurationSeconds : Z; stat_CreateAt : Z;
}.

Record CallsChannel := {
  cc_ChannelID : string; cc_Enabled : bool; cc_MaxParticipants : Z;
  cc_AllowScreenSharing : bool; cc_AllowRecording : bool; cc_CreateAt : Z; cc_UpdateAt : Z;
}.

(** A validation failure is the AppError's message id. *)
Definition Call_IsValid (c : Call) : option string :=
  if decide (call_ID c = "") then Some "model.calls.id.app_error"
  else if decide (call_ChannelID c = "") then Some "model.calls.channel_id.app_error"
  else if decide (call_OwnerID c = "") then Some "model.calls.owner_id.app_error"
  else if decide (call_CreateAt c = 0%Z) then Some "model.calls.create_at.app_error"
  else None.

Definition Call_PreSave (now : Z) (c : Call) : Call := {|
  call_ID := call_ID c; call_ChannelID := call_ChannelID c; call_OwnerID := call_OwnerID c;
  call_PostID := call_PostID c; call_StartAt := call_StartAt c; call_EndAt := call_EndAt c;
  call_CreateAt := if decide (call_CreateAt c = 0%Z) then now else call_CreateAt c;
  call_UpdateAt := now |}.

Definition Call_PreUpdate (now : Z) (c : Call) : Call := {|
  call_ID := call_ID c; call_ChannelID := call_ChannelID c; call_OwnerID := call_OwnerID c;
  call_PostID := call_PostID c; call_StartAt := call_StartAt c; call_EndAt := call_EndAt c;
  call_CreateAt := call_CreateAt c; call_UpdateAt := now |}.

Definition with_PostID (p : string) (c : Call) : Call := {|
  call_ID := call_ID c; call_ChannelID := call_ChannelID c; call_OwnerID := call_OwnerID c;
  call_PostID := p; call_StartAt := call_StartAt c; call_EndAt := call_EndAt c;
  call_CreateAt := call_CreateAt c; call_UpdateAt := call_UpdateAt c |}.

Definition with_EndAt (e : Z) (c : Call) : Call := {|
  call_ID := call_ID c; call_ChannelID := call_ChannelID c; call_OwnerID := call_OwnerID c;
  call_PostID := call_PostID c; call_StartAt := call_StartAt c; call_EndAt := e;
  call_CreateAt := call_CreateAt c; call_UpdateAt := call_UpdateAt c |}.

Definition CallSession_IsValid (s : CallSession) : option string :=
  if decide (cses_ID s = "") then Some "model.call_session.id.app_error"
  else if decide (cses_CallID s = "") then Some "model.call_session.call_id.app_error"
  else if decide (cses_UserID s = "") then Some "model.call_session.user_id.app_error"
  else if decide (cses_ConnID s = "") then Some "model.call_session.conn_id.app_error"
  else if decide (cses_CreateAt s = 0%Z) then Some "model.call_session.create_at.app_error"
  else None.

Definition CallSession_PreSave (now : Z) (s : CallSession) : CallSession := {|
  cses_ID := cses_ID s; cses_CallID := cses_CallID s; cses_UserID := cses_UserID s;
  cses_ConnID := cses_ConnID s; cses_StartAt := cses_StartAt s; cses_EndAt := cses_EndAt s;
  cses_CreateAt := if decide (cses_CreateAt s = 0%Z) then now else cses_CreateAt s;
  cses_UpdateAt := now |}.

(** SET endat = e, updateat = e. *)
Definition close_row (e : Z) (s : CallSession) : CallSession := {|
  cses_ID := cses_ID s; cses_CallID := cses_CallID s; cses_UserID := cses_UserID s;
  cses_ConnID := cses_ConnID s; cses_StartAt := cses_StartAt s; cses_EndAt := e;
  cses_CreateAt := cses_CreateAt s; cses_UpdateAt := e |}.

Definition CallsChannel_PreSave (now : Z) (cc : CallsChannel) : CallsChannel := {|
  cc_ChannelID := cc_ChannelID cc; cc_Enabled := cc_Enabled cc;
  cc_MaxParticipants := cc_MaxParticipants cc;
  cc_AllowScreenSharing := cc_AllowScreenSharing cc; cc_AllowRecording := cc_AllowRecording cc;
  cc_CreateAt := if decide (cc_CreateAt cc = 0%Z) then now else cc_CreateAt cc;
  cc_UpdateAt := now |}.

(** ** The stores *)

Inductive storeError :=
  | ErrNotFound (entity id : string)
  | ErrInvalidModel (appErrorID : string)
  | ErrInvalidInput (entity field value : string)
  | ErrConflict (resource meta : string)
  | ErrDatabase (msg : string).

Definition IsErrNotFound (e : storeError) : bool :=
  match e with ErrNotFound _ _ => true | _ => false end.

Record callsDB := CallsDB {
  tbl_calls : gmap string Call;
  tbl_sessions : gmap string CallSession;
  tbl_stats : gmap string CallStat;
  tbl_channels : gmap string CallsChannel;
}.

Definition empty_callsDB : callsDB := CallsDB ∅ ∅ ∅ ∅.

Definition with_tbl_calls t db := CallsDB t (tbl_sessions db) (tbl_stats db) (tbl_channels db).
Definition with_tbl_sessions t db := CallsDB (tbl_calls db) t (tbl_stats db) (tbl_channels db).
Definition with_tbl_stats t db := CallsDB (tbl_calls db) (tbl_sessions db) t (tbl_channels db).
Definition with_tbl_channels t db := CallsDB (tbl_calls db) (tbl_sessions db) (tbl_stats db) t.

Definition CallStore_Get (fault : bool) (db : callsDB) (id : string) : res storeError Call :=
  if fault then Err (ErrDatabase "failed to find call")
  else match tbl_calls db !! id with
       | None => Err (ErrNotFound "Call" id)
       | Some c => Ok c
       end.

Definition CallStore_Save (fault : bool) (now : Z) (db : callsDB) (call : Call)
    : res storeError Call * callsDB :=
  let c := Call_PreSave now call in
  match Call_IsValid c with
  | Some e => (Err (ErrInvalidModel e), db)
  | None =>
      if fault || bool_decide (is_Some (tbl_calls db !! call_ID c))
      then (Err (ErrDatabase "failed to save call"), db)
      else (Ok c, with_tbl_calls (<[call_ID c := c]> (tbl_calls db)) db)
  end.

(** UPDATE writes every column but id and createat. *)
Definition CallStore_Update (fault : bool) (now : Z) (db : callsDB) (call : Call)
    : res storeError Call * callsDB :=
  let c := Call_PreUpdate now call in
  if fault then (Err (ErrDatabase "failed to update call"), db)
  else match tbl_calls db !! call_ID c with
       | None => (Err (ErrNotFound "Call" (call_ID c)), db)
       | Some old =>
           let row := {| call_ID := call_ID old; call_ChannelID := call_ChannelID c;
             call_OwnerID := call_OwnerID c; call_PostID := call_PostID c;
             call_StartAt := call_StartAt c; call_EndAt := call_EndAt c;
             call_CreateAt := call_CreateAt old; call_UpdateAt := call_UpdateAt c |} in
           (Ok c, with_tbl_calls (<[call_ID c := row]> (tbl_calls db)) db)
       end.

Definition CallSessionStore_Save (fault : bool) (now : Z) (db : callsDB) (sess : CallSession)
    : res storeError CallSession * callsDB :=
  let s := CallSession_PreSave now sess in
  match CallSession_IsValid s with
  | Some e => (Err (ErrInvalidModel e), db)
  | None =>
      if fault || bool_decide (is_Some (tbl_sessions db !! cses_ID s))
      then (Err (ErrDatabase "failed to save call session"), db)
      else (Ok s, with_tbl_sessions (<[cses_ID s := s]> (tbl_sessions db)) db)
  end.

(** UPDATE ... SET endat, updateat WHERE [P]: the closed rows and their count. *)
Definition close_where (P : CallSession → bool) (endAt : Z) (db : callsDB) : Z * callsDB :=
  (Z.of_nat (size (filter (λ kv, P kv.2 = true) (tbl_sessions db))),
   with_tbl_sessions ((λ s, if P s then close_row endAt s else s) <$> tbl_sessions db) db).

Definition open_for (call conn : string) (s : CallSession) : bool :=
  bool_decide (cses_CallID s = call) && bool_decide (cses_ConnID s = conn)
  && bool_decide (cses_EndAt s = 0%Z).

Definition open_in (call : string) (s : CallSession) : bool :=
  bool_decide (cses_CallID s = call) && bool_decide (cses_EndAt s = 0%Z).

Definition CallSessionStore_EndSession (fault : bool) (db : callsDB)
    (call conn : string) (endAt : Z) : res storeError Z * callsDB :=
  if fault then (Err (ErrDatabase "failed to end call session"), db)
  else let '(n, db') := close_where (open_for call conn) endAt db in (Ok n, db').

Definition CallSessionStore_EndOpenSessions (fault : bool) (db : callsDB)
    (call : string) (endAt : Z) : res storeError Z * callsDB :=
  if fault then (Err (ErrDatabase "failed to end open call sessions"), db)
  else let '(n, db') := close_where (open_in call) endAt db in (Ok n, db').

Definition CallStatStore_Save (fault : bool) (now : Z) (db : callsDB) (stat : CallStat)
    : res storeError CallStat * callsDB :=
  let st := {| stat_ID := stat_ID stat; stat_CallID := stat_CallID stat;
    stat_ChannelID := stat_ChannelID stat; stat_Participants := stat_Participants stat;
    stat_PeakParticipants := stat_PeakParticipants stat;
    stat_DurationSeconds := stat_DurationSeconds stat;
    stat_CreateAt := if decide (stat_CreateAt stat = 0%Z) then now else stat_CreateAt stat |} in
  if fault || bool_decide (is_Some (tbl_stats db !! stat_ID st))
  then (Err (ErrDatabase "failed to save call stat"), db)
  else (Ok st, with_tbl_stats (<[stat_ID st := st]> (tbl_stats db)) db).

Definition CallsChannelStore_Get (fault : bool) (db : callsDB) (channel : string)
    : res storeError CallsChannel :=
  if fault then Err (ErrDatabase "failed to find calls channel")
  else match tbl_channels db !! channel with
       | None => Err (ErrNotFound "CallsChannel" channel)
       | Some cc => Ok cc
       end.

(** INSERT ... ON CONFLICT DO UPDATE keeps the stored createat. *)
Definition CallsChannelStore_Save (fault : bool) (now : Z) (db : callsDB) (cc : CallsChannel)
    : res storeError CallsChannel * callsDB :=
  let c := CallsChannel_PreSave now cc in
  if fault then (Err (ErrDatabase "failed to save calls channel"), db)
  else
    let row := match tbl_channels db !! cc_ChannelID c with
               | None => c
               | Some old => {| cc_ChannelID := cc_ChannelID c; cc_Enabled := cc_Enabled c;
                   cc_MaxParticipants := cc_MaxParticipants c;
                   cc_AllowScreenSharing := cc_AllowScreenSharing c;
                   cc_AllowRecording := cc_AllowRecording c;
                   cc_CreateAt := cc_CreateAt old; cc_UpdateAt := cc_UpdateAt c |}
               end in
    (Ok c, with_tbl_channels (<[cc_ChannelID c := row]> (tbl_channels db)) db).

(** ** Boundary lemmas *)

(** The open rows of one call session, and of a whole call. *)
Definition open_rows (db : callsDB) (P : CallSession → bool) : gmap string CallSession :=
  filter (λ kv, P kv.2 = true) (tbl_sessions db).

Lemma close_where_lookup P e db k :
  tbl_sessions (close_where P e db).2 !! k =
    (λ s, if P s then close_row e s else s) <$> tbl_sessions db !! k.
Proof. unfold close_where; simpl. apply lookup_fmap. Qed.

Lemma lookup_open_rows db P k s :
  open_rows db P !! k = Some s ↔ tbl_sessions db !! k = Some s ∧ P s = true.
Proof. unfold open_rows. by rewrite map_lookup_filter_Some. Qed.

(** Closing rows whose [P] needs endat = 0 leaves none of them open. *)
Lemma close_where_none_open P e db :
  (0 < e)%Z → (∀ s, P s = true → cses_EndAt s = 0%Z) →
  open_rows (close_where P e db).2 P = ∅.
Proof.
  intros He HP. apply map_eq. intros k. rewrite lookup_empty. apply eq_None_not_Some.
  intros [s Hs]. apply lookup_open_rows in Hs as [Hs HPs].
  rewrite close_where_lookup in Hs. destruct (tbl_sessions db !! k) as [s0|]; [|done].
  simpl in Hs. destruct (P s0) eqn:E; simplify_eq; [|congruence].
  apply HP in HPs. simpl in HPs. lia.
Qed.

Lemma open_for_endAt call conn s : open_for call conn s = true → cses_EndAt s = 0%Z.
Proof. unfold open_for. by intros [_ ?%bool_decide_eq_true]%andb_true_iff. Qed.

Lemma open_in_endAt call s : open_in call s = true → cses_EndAt s = 0%Z.
Proof. unfold open_in. by intros [_ ?%bool_decide_eq_true]%andb_true_iff. Qed.

Lemma open_for_true call conn s :
  open_for call conn s = true ↔ cses_CallID s = call ∧ cses_ConnID s = conn ∧ cses_EndAt s = 0%Z.
Proof. unfold open_for. rewrite !andb_true_iff, !bool_decide_eq_true. tauto. Qed.

Lemma open_in_true call s :
  open_in call s = true ↔ cses_CallID s = call ∧ cses_EndAt s = 0%Z.
Proof. unfold open_in. rewrite !andb_true_iff, !bool_decide_eq_true. tauto. Qed.
