(* ===== verification/GoString.v ===== *)
(** * Go string functions

    A Go string is a byte sequence, so is a Rocq [string].  This file gives
    the functions of Go's standard library (strings, net, net/url) the
    source calls, as far as it calls them, and their lemmas. *)

From Stdlib Require Import Ascii.
From S2P Require Import Prelude.

Local Open Scope string_scope.

#[global] Arguments String.append : simpl nomatch.

Definition chr (n : N) : Ascii.ascii := Ascii.ascii_of_N n.
Definition ord (c : Ascii.ascii) : N := Ascii.N_of_ascii c.

Definition colon : Ascii.ascii := ":"%char.
Definition at_sign : Ascii.ascii := "@"%char.
Definition question : Ascii.ascii := "?"%char.
Definition hash : Ascii.ascii := "#"%char.
Definition comma : Ascii.ascii := ","%char.
Definition slash : Ascii.ascii := "/"%char.
Definition percent : Ascii.ascii := "%"%char.
Definition lbracket : Ascii.ascii := "["%char.
Definition rbracket : Ascii.ascii := "]"%char.

Fixpoint has_char (c : Ascii.ascii) (s : string) : bool :=
  match s with
  | EmptyString => false
  | String x s' => if Ascii.eqb x c then true else has_char c s'
  end.

Fixpoint all_chars (p : Ascii.ascii → bool) (s : string) : bool :=
  match s with
  | EmptyString => true
  | String x s' => p x && all_chars p s'
  end.

(** [strings.Cut(s, sep)] for a one-byte separator. *)
Fixpoint cut (c : Ascii.ascii) (s : string) : string * string * bool :=
  match s with
  | EmptyString => ("", "", false)
  | String x s' =>
      if Ascii.eqb x c then ("", s', true)
      else let '(a, b, found) := cut c s' in (String x a, b, found)
  end.

(** [i := strings.LastIndex(s, sep)]; [(s[:i], s[i+1:])] when [i != -1]. *)
Fixpoint cut_last (c : Ascii.ascii) (s : string) : option (string * string) :=
  match s with
  | EmptyString => None
  | String x s' =>
      match cut_last c s' with
      | Some (a, b) => Some (String x a, b)
      | None => if Ascii.eqb x c then Some ("", s') else None
      end
  end.

(** [strings.Split(s, sep)] for a one-byte separator. *)
Fixpoint split (c : Ascii.ascii) (s : string) : list string :=
  match s with
  | EmptyString => [""]
  | String x s' =>
      if Ascii.eqb x c then "" :: split c s'
      else match split c s' with
           | [] => [String x ""]
           | w :: ws => String x w :: ws
           end
  end.

Fixpoint string_rev (s acc : string) : string :=
  match s with
  | EmptyString => acc
  | String x s' => string_rev s' (String x acc)
  end.

Fixpoint strip_prefix (p s : string) : option string :=
  match p, s with
  | EmptyString, _ => Some s
  | String x p', String y s' => if Ascii.eqb x y then strip_prefix p' s' else None
  | String _ _, EmptyString => None
  end.

Definition bytes (l : list N) : string := foldr (λ n s, String (chr n) s) "" l.

(** The UTF-8 encodings of the code points [unicode.IsSpace] accepts. *)
Definition space_encodings : list string :=
  map bytes ([[9]; [10]; [11]; [12]; [13]; [32]; [194; 133]; [194; 160]; [225; 154; 128];
    [226; 128; 128]; [226; 128; 129]; [226; 128; 130]; [226; 128; 131]; [226; 128; 132];
    [226; 128; 133]; [226; 128; 134]; [226; 128; 135]; [226; 128; 136]; [226; 128; 137];
    [226; 128; 138]; [226; 128; 168]; [226; 128; 169]; [226; 128; 175]; [226; 129; 159];
    [227; 128; 128]])%N.

Fixpoint strip_first (ps : list string) (s : string) : option string :=
  match ps with
  | [] => None
  | p :: ps' => match strip_prefix p s with Some r => Some r | None => strip_first ps' s end
  end.

(** Strip the patterns from the front; [fuel] bounds the number of strips. *)
Fixpoint strip_all (fuel : nat) (ps : list string) (s : string) : string :=
  match fuel with
  | O => s
  | S f => match strip_first ps s with Some r => strip_all f ps r | None => s end
  end.

(** [strings.TrimSpace]: every strip removes a byte, so the length is enough
    fuel.  The end is trimmed on the reversed string. *)
Definition TrimSpace (s : string) : string :=
  let l := strip_all (String.length s) space_encodings s in
  let r := strip_all (String.length l) (map (λ p, string_rev p "") space_encodings)
             (string_rev l "") in
  string_rev r "".

Definition is_lower (c : Ascii.ascii) : bool := (97 <=? ord c)%N && (ord c <=? 122)%N.
Definition is_upper (c : Ascii.ascii) : bool := (65 <=? ord c)%N && (ord c <=? 90)%N.
Definition is_digit (c : Ascii.ascii) : bool := (48 <=? ord c)%N && (ord c <=? 57)%N.
Definition is_alpha (c : Ascii.ascii) : bool := is_lower c || is_upper c.
Definition is_hex (c : Ascii.ascii) : bool :=
  is_digit c || ((97 <=? ord c)%N && (ord c <=? 102)%N) || ((65 <=? ord c)%N && (ord c <=? 70)%N).

(** [strings.ToLower] on an ASCII string. *)
Definition lower_char (c : Ascii.ascii) : Ascii.ascii := if is_upper c then chr (ord c + 32) else c.
Fixpoint ToLowerASCII (s : string) : string :=
  match s with EmptyString => "" | String x s' => String (lower_char x) (ToLowerASCII s') end.

Definition is_ctl (c : Ascii.ascii) : bool := (ord c <? 32)%N || (ord c =? 127)%N.

Definition count_char (c : Ascii.ascii) (s : string) : nat :=
  length (split c s) - 1.

(** Percent escapes are followed by two hex digits (url.unescape). *)
Fixpoint escapes_ok (s : string) : bool :=
  match s with
  | EmptyString => true
  | String x s' =>
      if Ascii.eqb x percent then
        match s' with
        | String a (String b r) => is_hex a && is_hex b && escapes_ok r
        | _ => false
        end
      else escapes_ok s'
  end.

(** url.getScheme: the scheme before the first ':' when the prefix is one;
    [None] is the "missing protocol scheme" error. *)
Fixpoint getScheme_loop (first : bool) (pre s raw : string) : option (string * string) :=
  match s with
  | EmptyString => Some ("", raw)
  | String c s' =>
      if is_alpha c then getScheme_loop false (pre ++ String c "") s' raw
      else if is_digit c || Ascii.eqb c "+"%char || Ascii.eqb c "-"%char || Ascii.eqb c "."%char then
        if first then Some ("", raw) else getScheme_loop false (pre ++ String c "") s' raw
      else if Ascii.eqb c colon then if first then None else Some (pre, s')
      else Some ("", raw)
  end.
Definition getScheme (raw : string) : option (string * string) := getScheme_loop true "" raw raw.

Record URL := {
  u_Scheme : string;
  u_Opaque : string;
  u_ForceQuery : bool;
  u_RawQuery : string;
}.

(** [url.Parse], as far as an opaque URL is concerned: the fields Scheme,
    Opaque, ForceQuery and RawQuery.  A rooted rest ("/...") leaves Opaque
    empty whether or not its authority parses; a URL without a scheme has an
    empty Scheme or is an error, and the caller refuses both alike. *)
Definition url_Parse (rawURL : string) : option URL :=
  let '(u, frag, _) := cut hash rawURL in
  if has_char (chr 127) u || negb (all_chars (λ c, negb (is_ctl c)) u) then None
  else if decide (u = "*") then Some {| u_Scheme := ""; u_Opaque := ""; u_ForceQuery := false; u_RawQuery := "" |}
  else match getScheme u with
  | None => None
  | Some (sch, rest) =>
      let scheme := ToLowerASCII sch in
      let '(rest, rawQuery, force) :=
        if bool_decide (cut_last question rest = Some (fst (fst (cut question rest)), ""))
        then (fst (fst (cut question rest)), "", true)
        else let '(a, b, _) := cut question rest in (a, b, false) in
      let opaque := match rest with
                    | String c _ => if Ascii.eqb c slash then "" else
                                      if decide (scheme = "") then "" else rest
                    | EmptyString => ""
                    end in
      if escapes_ok frag then
        Some {| u_Scheme := scheme; u_Opaque := opaque; u_ForceQuery := force; u_RawQuery := rawQuery |}
      else None
  end.

(** ** Lemmas *)

Lemma has_char_app c a b : has_char c (a ++ b) = has_char c a || has_char c b.
Proof. induction a as [|x a IH]; simpl; [done|]. by destruct (Ascii.eqb x c). Qed.

Lemma all_chars_app p a b : all_chars p (a ++ b) = all_chars p a && all_chars p b.
Proof. induction a as [|x a IH]; simpl; [done|]. by rewrite IH, andb_assoc. Qed.

Lemma string_app_assoc (a b c : string) : (a ++ b) ++ c = a ++ (b ++ c).
Proof. induction a as [|x a IH]; simpl; [done|]. by rewrite IH. Qed.

Lemma string_app_nil (a : string) : a ++ "" = a.
Proof. induction a as [|x a IH]; simpl; [done|]. by rewrite IH. Qed.

Lemma cut_found c a b : has_char c a = false → cut c (a ++ String c b) = (a, b, true).
Proof.
  induction a as [|x a IH]; simpl; intros H; [by rewrite Ascii.eqb_refl|].
  destruct (Ascii.eqb x c); [done|]. by rewrite IH.
Qed.

Lemma cut_missing c s : has_char c s = false → cut c s = (s, "", false).
Proof.
  induction s as [|x s IH]; simpl; [done|]. destruct (Ascii.eqb x c); [done|].
  intros H. by rewrite IH.
Qed.

Lemma cut_spec c s : let '(a, b, found) := cut c s in
  has_char c a = false ∧ s = if found : bool then a ++ String c b else a.
Proof.
  induction s as [|x s IH]; simpl; [done|]. destruct (Ascii.eqb x c) eqn:E.
  - apply Ascii.eqb_eq in E as ->. by split.
  - destruct (cut c s) as [[a b] f]. destruct IH as [H1 H2]. simpl. rewrite E.
    split; [done|]. destruct f; simpl; by f_equal.
Qed.

Lemma cut_last_none c s : has_char c s = false → cut_last c s = None.
Proof.
  induction s as [|x s IH]; simpl; [done|]. destruct (Ascii.eqb x c); [done|].
  intros H. by rewrite IH.
Qed.

Lemma cut_last_found c a b : has_char c b = false → cut_last c (a ++ String c b) = Some (a, b).
Proof.
  intros Hb. induction a as [|x a IH]; simpl.
  - by rewrite cut_last_none, Ascii.eqb_refl.
  - by rewrite IH.
Qed.

Lemma cut_last_spec c s a b :
  cut_last c s = Some (a, b) → s = a ++ String c b ∧ has_char c b = false.
Proof.
  revert a b. induction s as [|x s IH]; simpl; intros a b H; [done|].
  destruct (cut_last c s) as [[a' b']|] eqn:E.
  - simplify_eq. destruct (IH a' b eq_refl) as [-> ?]. done.
  - destruct (Ascii.eqb x c) eqn:Ex; [|done]. simplify_eq.
    apply Ascii.eqb_eq in Ex as ->. split; [done|].
    clear IH. induction b as [|y b IHb]; simpl in *; [done|].
    destruct (cut_last c b) as [[? ?]|]; [done|].
    destruct (Ascii.eqb y c); [done|]. auto.
Qed.

(** ** net.JoinHostPort and net.SplitHostPort *)

Definition JoinHostPort (host port : string) : string :=
  if has_char colon host || has_char percent host
  then String lbracket host ++ String rbracket (String colon port)
  else host ++ String colon port.

(** [None] is the AddrError. *)
Definition SplitHostPort (hostport : string) : option (string * string) :=
  match cut_last colon hostport with
  | None => None
  | Some (before, port) =>
      match before with
      | String c inner =>
          if Ascii.eqb c lbracket then
            match cut rbracket inner with
            | (host, rest, true) =>
                if decide (rest = "") then
                  if has_char lbracket host || has_char lbracket port || has_char rbracket port
                  then None else Some (host, port)
                else None
            | _ => None
            end
          else if has_char colon before || has_char lbracket before || has_char rbracket before
               || has_char lbracket port || has_char rbracket port then None
          else Some (before, port)
      | EmptyString =>
          if has_char lbracket port || has_char rbracket port then None else Some ("", port)
      end
  end.

(** Bytes of a dotted IPv4 address or a port number. *)
Definition addr_safe (s : string) : bool :=
  all_chars (λ c, negb (Ascii.eqb c colon) && negb (Ascii.eqb c percent)
                  && negb (Ascii.eqb c lbracket) && negb (Ascii.eqb c rbracket)) s.

Lemma all_chars_has p c s : all_chars p s = true → p c = false → has_char c s = false.
Proof.
  intros Hs Hc. induction s as [|x s IH]; simpl in *; [done|].
  apply andb_true_iff in Hs as [Hx Hs]. destruct (Ascii.eqb x c) eqn:E; [|auto].
  apply Ascii.eqb_eq in E as ->. congruence.
Qed.

Lemma all_chars_mono (p q : ascii → bool) s :
  (∀ c, p c = true → q c = true) → all_chars p s = true → all_chars q s = true.
Proof.
  intros Hpq. induction s as [|x s IH]; simpl; [done|].
  intros [? ?]%andb_true_iff. rewrite Hpq, IH; done.
Qed.

Lemma SplitJoinHostPort host port :
  addr_safe host = true → addr_safe port = true →
  SplitHostPort (JoinHostPort host port) = Some (host, port).
Proof.
  intros Hh Hp.
  assert (∀ s c, addr_safe s = true → c = colon ∨ c = percent ∨ c = lbracket ∨ c = rbracket →
    has_char c s = false) as Hno.
  { intros s c Hs Hc. eapply all_chars_has; [done|]. by destruct Hc as [->|[->|[->| ->]]]. }
  unfold JoinHostPort. rewrite (Hno _ colon), (Hno _ percent) by auto. simpl.
  unfold SplitHostPort. rewrite cut_last_found by auto.
  rewrite (Hno port lbracket), (Hno port rbracket) by auto. destruct host as [|c0 host]; [done|].
  pose proof (Hno (String c0 host) lbracket Hh ltac:(auto)) as Hl. simpl in Hl.
  destruct (Ascii.eqb c0 lbracket); [done|].
  rewrite (Hno _ colon), (Hno (String c0 host) rbracket) by auto.
  by rewrite (Hno (String c0 host) lbracket) by auto.
Qed.
