(* ===== verification/GoUtf8.v ===== *)
(** * UTF-8 as Go's [range] over a string sees it

    [runes] is the decoding of package unicode/utf8: an ill-formed byte is the
    replacement rune and takes one byte.  [IsValidId] is model.IsValidId
    (server/public/model/utils.go); the class of letters and numbers above
    ASCII comes from Go's Unicode tables and is the parameter [UnicodeTables]. *)

From Stdlib Require Import Ascii.
From S2P Require Import Prelude.
From S2P Require Import GoString.

Local Open Scope string_scope.

Definition byte_z (c : ascii) : Z := Z.of_N (N_of_ascii c).
Definition within_z (lo hi x : Z) : bool := (lo <=? x)%Z && (x <=? hi)%Z.
Definition cont (c : ascii) : bool := within_z 128 191 (byte_z c).

Definition RuneError : Z := 65533.

(** The two-, three- and four-byte sequences of utf8.DecodeRune. *)
Definition rune2 (a b : ascii) : option Z :=
  if within_z 194 223 (byte_z a) && cont b
  then Some (Z.land (byte_z a) 31 * 64 + Z.land (byte_z b) 63)%Z else None.

Definition second3_ok (a b : ascii) : bool :=
  let x := byte_z a in let y := byte_z b in
  (bool_decide (x = 224%Z) && within_z 160 191 y)
  || (bool_decide (x = 237%Z) && within_z 128 159 y)
  || ((within_z 225 236 x || within_z 238 239 x) && within_z 128 191 y).

Definition rune3 (a b c : ascii) : option Z :=
  if second3_ok a b && cont c
  then Some (Z.land (byte_z a) 15 * 4096 + Z.land (byte_z b) 63 * 64 + Z.land (byte_z c) 63)%Z
  else None.

Definition second4_ok (a b : ascii) : bool :=
  let x := byte_z a in let y := byte_z b in
  (bool_decide (x = 240%Z) && within_z 144 191 y)
  || (bool_decide (x = 244%Z) && within_z 128 143 y)
  || (within_z 241 243 x && within_z 128 191 y).

Definition rune4 (a b c d : ascii) : option Z :=
  if second4_ok a b && cont c && cont d
  then Some (Z.land (byte_z a) 7 * 262144 + Z.land (byte_z b) 63 * 4096
             + Z.land (byte_z c) 63 * 64 + Z.land (byte_z d) 63)%Z
  else None.

Fixpoint runes (s : string) : list Z :=
  match s with
  | EmptyString => []
  | String a s1 =>
      if (byte_z a <? 128)%Z then byte_z a :: runes s1 else
      match s1 with
      | EmptyString => [RuneError]
      | String b s2 =>
          match rune2 a b with
          | Some r => r :: runes s2
          | None =>
              match s2 with
              | EmptyString => RuneError :: runes s1
              | String c s3 =>
                  match rune3 a b c with
                  | Some r => r :: runes s3
                  | None =>
                      match s3 with
                      | EmptyString => RuneError :: runes s1
                      | String d s4 =>
                          match rune4 a b c d with
                          | Some r => r :: runes s4
                          | None => RuneError :: runes s1
                          end
                      end
                  end
              end
          end
      end
  end.

Definition rune_count (s : string) : nat := length (runes s).

(** Every rune takes at least one byte. *)
Lemma runes_cons a s :
  ∃ r t, runes (String a s) = r :: runes t ∧ (String.length t ≤ String.length s)%nat.
Proof.
  cbn [runes]. destruct (byte_z a <? 128)%Z; [by exists (byte_z a), s|].
  destruct s as [|b s2]; [by exists RuneError, ""|].
  destruct (rune2 a b) as [r|]; [exists r, s2; simpl; auto with lia|].
  destruct s2 as [|c s3]; [by exists RuneError, (String b "")|].
  destruct (rune3 a b c) as [r|]; [exists r, s3; simpl; auto with lia|].
  destruct s3 as [|d s4]; [by exists RuneError, (String b (String c ""))|].
  destruct (rune4 a b c d) as [r|]; [exists r, s4; simpl; auto with lia|].
  by exists RuneError, (String b (String c (String d s4))).
Qed.

(** A string never has more characters than bytes. *)
Lemma rune_count_le_length s : (rune_count s ≤ String.length s)%nat.
Proof.
  unfold rune_count. remember (String.length s) as n eqn:Hn. revert s Hn.
  induction n as [n IH] using lt_wf_ind. intros [|a s] Hn; [simpl; lia|].
  destruct (runes_cons a s) as (r & t & -> & Ht). simpl in *.
  pose proof (IH (String.length t) ltac:(lia) t eq_refl). lia.
Qed.

Class UnicodeTables := unicode_letter_or_number : Z → bool.

Definition ascii_letter_or_number (r : Z) : bool :=
  within_z 48 57 r || within_z 65 90 r || within_z 97 122 r.

Definition rune_alnum `{UnicodeTables} (r : Z) : bool :=
  if (r <? 128)%Z then ascii_letter_or_number r else unicode_letter_or_number r.

Definition IsValidId `{UnicodeTables} (value : string) : bool :=
  bool_decide (String.length value = 26) && forallb rune_alnum (runes value).

Example runes_vietnamese : rune_count "Nguyễn" = 6 ∧ String.length "Nguyễn" = 8.
Proof. vm_compute. done. Qed.
