(* ===== verification/GoRunes.v ===== *)
(** * Strings rebuilt from runes

    [EncodeRune] is utf8.AppendRune, [strings_Map] is strings.Map (a negative
    rune drops the character, an ill-formed byte becomes the replacement rune)
    and [ToLower] strings.ToLower.  The lower case of the runes above ASCII is
    a table of Go's unicode package and the parameter [UnicodeLower]. *)

From Stdlib Require Import Ascii.
From S2P Require Import Prelude.
From S2P Require Import GoString.
From S2P Require Import GoUtf8.

Local Open Scope string_scope.

(** ** Encoding *)

Definition byte_chr (x : Z) : ascii := ascii_of_N (Z.to_N x).

Definition rune_valid (r : Z) : bool :=
  within_z 0 55295 r || within_z 57344 1114111 r.

(** A continuation byte: six bits of the rune from bit [k] on. *)
Definition cont_byte (r k : Z) : ascii := byte_chr (Z.lor 128 (Z.land (Z.shiftr r k) 63)).

Definition EncodeRune (r : Z) : string :=
  let r := if rune_valid r then r else RuneError in
  if (r <=? 127)%Z then String (byte_chr r) ""
  else if (r <=? 2047)%Z then String (byte_chr (Z.lor 192 (Z.shiftr r 6))) (String (cont_byte r 0) "")
  else if (r <=? 65535)%Z then
    String (byte_chr (Z.lor 224 (Z.shiftr r 12))) (String (cont_byte r 6) (String (cont_byte r 0) ""))
  else
    String (byte_chr (Z.lor 240 (Z.shiftr r 18)))
      (String (cont_byte r 12) (String (cont_byte r 6) (String (cont_byte r 0) ""))).

(** [string(runes)] *)
Definition of_runes (l : list Z) : string := foldr (λ r s, EncodeRune r +:+ s) "" l.

Definition strings_Map (mapping : Z → Z) (s : string) : string :=
  of_runes (filter (λ r, (0 ≤ r)%Z) (mapping <$> runes s)).

(** ** Lower case *)

Class UnicodeLower := unicode_to_lower : Z → Z.

Definition rune_lower `{UnicodeLower} (r : Z) : Z :=
  if (r <? 128)%Z then (if within_z 65 90 r then r + 32 else r)%Z else unicode_to_lower r.

Definition ToLower `{UnicodeLower} (s : string) : string := strings_Map rune_lower s.

(** What the tables say: above ASCII only the dotted capital I and the Kelvin
    sign have a lower case in ASCII, and every lower case is a rune. *)
Class UnicodeLowerOk `{UnicodeLower} :=
  unicode_lower_ascii : ∀ r, (128 ≤ r)%Z → (unicode_to_lower r < 128)%Z →
    unicode_to_lower r = 105%Z ∨ unicode_to_lower r = 107%Z.

(** [isLower] of model/utils.go *)
Definition isLower `{UnicodeLower} (s : string) : bool := bool_decide (ToLower s = s).

(** ** ASCII characters *)

Lemma byte_chr_z c : byte_chr (byte_z c) = c.
Proof. unfold byte_chr, byte_z. rewrite N2Z.id. apply ascii_N_embedding. Qed.

Lemma byte_z_chr x : (0 ≤ x < 256)%Z → byte_z (byte_chr x) = x.
Proof. intros Hx. unfold byte_chr, byte_z. rewrite N_ascii_embedding by lia. lia. Qed.

Lemma byte_z_range c : (0 ≤ byte_z c < 256)%Z.
Proof. unfold byte_z. pose proof (N_ascii_bounded c). lia. Qed.

Lemma EncodeRune_ascii r : (0 ≤ r < 128)%Z → EncodeRune r = String (byte_chr r) "".
Proof.
  intros Hr. unfold EncodeRune, rune_valid, within_z.
  replace (0 <=? r)%Z with true by lia. replace (r <=? 55295)%Z with true by lia. simpl.
  by replace (r <=? 127)%Z with true by lia.
Qed.

Lemma cont_byte_high r k : (128 ≤ byte_z (cont_byte r k))%Z.
Proof.
  unfold cont_byte.
  assert (0 ≤ Z.land (Z.shiftr r k) 63 < 64)%Z as Hl.
  { change 63%Z with (Z.ones 6). rewrite Z.land_ones by lia. apply Z.mod_pos_bound. lia. }
  assert (Z.lor 128 (Z.land (Z.shiftr r k) 63) = 128 + Z.land (Z.shiftr r k) 63)%Z as ->.
  { rewrite <-Z.lxor_lor, <-Z.add_nocarry_lxor; try done;
      (apply Z.bits_inj'; intros n Hn; rewrite Z.land_spec, Z.bits_0;
       destruct (decide (n = 7)%Z) as [->|Hne];
       [rewrite (Z.bits_above_log2 (Z.land _ 63)); [apply andb_false_r|lia|];
        destruct (decide (Z.land (Z.shiftr r k) 63 = 0)%Z) as [->|]; [simpl; lia|];
        apply Z.log2_lt_pow2; lia
       |change 128%Z with (2 ^ 7)%Z; rewrite Z.pow2_bits_false by done; done]). }
  rewrite byte_z_chr by lia. lia.
Qed.

Lemma byte_lor_high a x : (a = 192 ∨ a = 224 ∨ a = 240)%Z → (0 ≤ x < 256)%Z →
  (128 ≤ byte_z (byte_chr (Z.lor a x)))%Z.
Proof.
  intros Ha Hx. assert (Z.testbit a 7 = true ∧ 0 ≤ a < 256)%Z as [Hb Ha'].
  { destruct Ha as [->|[->| ->]]; split; done. }
  assert (0 ≤ Z.lor a x < 256)%Z as Hr.
  { split; [apply Z.lor_nonneg; lia|].
    destruct (decide (Z.lor a x = 0)%Z) as [->|]; [done|].
    pose proof (proj2 (Z.lor_nonneg a x)). change 256%Z with (2 ^ 8)%Z. apply Z.log2_lt_pow2; [lia|].
    rewrite Z.log2_lor by lia. apply Z.max_lub_lt;
      (destruct (decide (a = 0)%Z); destruct (decide (x = 0)%Z); subst; try (simpl; lia);
       apply Z.log2_lt_pow2; lia). }
  rewrite byte_z_chr by done.
  destruct (Z.le_gt_cases 128 (Z.lor a x)) as [|Hlt]; [done|].
  assert (Z.testbit (Z.lor a x) 7 = true) as Ht by (by rewrite Z.lor_spec, Hb).
  destruct (decide (Z.lor a x = 0)%Z) as [E|]; [by rewrite E in Ht|].
  rewrite Z.bits_above_log2 in Ht; [done|lia|].
  change 128%Z with (2 ^ 7)%Z in Hlt. apply Z.log2_lt_pow2; lia.
Qed.

Lemma byte_z_inj c d : byte_z c = byte_z d → c = d.
Proof. intros Heq. by rewrite <-(byte_chr_z c), <-(byte_chr_z d), Heq. Qed.

Lemma has_char_single c x t : (byte_z c < 128)%Z → (128 ≤ byte_z x)%Z → has_char c (String x t) = has_char c t.
Proof. intros Hc Hx. simpl. destruct (Ascii.eqb_spec x c) as [->|]; [lia|done]. Qed.

Lemma shiftr_bound r k n : (0 ≤ k)%Z → (0 ≤ r < 2 ^ (k + n))%Z → (0 ≤ n)%Z → (0 ≤ Z.shiftr r k < 2 ^ n)%Z.
Proof.
  intros Hk Hr Hn. rewrite Z.shiftr_div_pow2 by lia. rewrite Z.pow_add_r in Hr by lia.
  split; [apply Z.div_pos; lia|]. apply Z.div_lt_upper_bound; lia.
Qed.

(** An encoded rune above ASCII has no ASCII byte. *)
Lemma EncodeRune_high c r : (byte_z c < 128)%Z → ¬ (0 ≤ r < 128)%Z → has_char c (EncodeRune r) = false.
Proof.
  intros Hc Hr. unfold EncodeRune.
  set (r' := if rune_valid r then r else RuneError).
  assert (128 ≤ r' ≤ 1114111)%Z as Hr'.
  { subst r'. unfold rune_valid, within_z, RuneError.
    destruct (_ || _) eqn:E; [|lia]. apply orb_true_iff in E. rewrite !andb_true_iff in E. lia. }
  clearbody r'. rewrite (proj2 (Z.leb_gt r' 127)) by lia.
  destruct (Z.leb_spec r' 2047).
  { pose proof (shiftr_bound r' 6 5 ltac:(lia) ltac:(lia) ltac:(lia)).
    by rewrite !has_char_single by first [done|apply cont_byte_high|apply byte_lor_high; [tauto|lia]]. }
  destruct (Z.leb_spec r' 65535).
  { pose proof (shiftr_bound r' 12 4 ltac:(lia) ltac:(lia) ltac:(lia)).
    by rewrite !has_char_single by first [done|apply cont_byte_high|apply byte_lor_high; [tauto|lia]]. }
  pose proof (shiftr_bound r' 18 3 ltac:(lia) ltac:(lia) ltac:(lia)).
  by rewrite !has_char_single by first [done|apply cont_byte_high|apply byte_lor_high; [tauto|lia]].
Qed.

Lemma has_char_of_runes c l : (byte_z c < 128)%Z → has_char c (of_runes l) = true ↔ byte_z c ∈ l.
Proof.
  intros Hc. induction l as [|r l IH]; simpl; [by rewrite elem_of_nil|].
  rewrite has_char_app, orb_true_iff, IH, elem_of_cons.
  destruct (decide (0 ≤ r < 128)%Z) as [Hr|Hr].
  - rewrite EncodeRune_ascii by done. simpl.
    destruct (Ascii.eqb_spec (byte_chr r) c) as [<-|Hne].
    + rewrite byte_z_chr by lia. tauto.
    + assert (byte_z c ≠ r) by (intros <-; by rewrite byte_chr_z in Hne). intuition congruence.
  - rewrite EncodeRune_high by done. pose proof (byte_z_range c).
    assert (byte_z c ≠ r) by lia. intuition congruence.
Qed.

Lemma cont_high c : cont c = true → (128 ≤ byte_z c < 192)%Z.
Proof. unfold cont, within_z. rewrite andb_true_iff. lia. Qed.

Lemma land_low x n : (0 ≤ n)%Z → Z.land x (Z.ones n) = (x mod 2 ^ n)%Z.
Proof. intros Hn. by apply Z.land_ones. Qed.

Ltac bits_to_mod :=
  repeat match goal with
  | |- context [Z.land ?x 7] => change (Z.land x 7) with (Z.land x (Z.ones 3)); rewrite (land_low x 3) by lia
  | |- context [Z.land ?x 15] => change (Z.land x 15) with (Z.land x (Z.ones 4)); rewrite (land_low x 4) by lia
  | |- context [Z.land ?x 31] => change (Z.land x 31) with (Z.land x (Z.ones 5)); rewrite (land_low x 5) by lia
  | |- context [Z.land ?x 63] => change (Z.land x 63) with (Z.land x (Z.ones 6)); rewrite (land_low x 6) by lia
  end; change (2 ^ 3)%Z with 8%Z; change (2 ^ 4)%Z with 16%Z; change (2 ^ 5)%Z with 32%Z;
  change (2 ^ 6)%Z with 64%Z.

Lemma rune2_high a b r : rune2 a b = Some r → (128 ≤ r)%Z ∧ (128 ≤ byte_z a)%Z ∧ (128 ≤ byte_z b)%Z.
Proof.
  unfold rune2, within_z. destruct (_ && _) eqn:E; [|done]. rewrite !andb_true_iff in E.
  destruct E as [[E1 E2] E3%cont_high]. intros [= <-]. bits_to_mod. split_and!; Z.to_euclidean_division_equations; lia.
Qed.

Lemma rune3_high a b c r : rune3 a b c = Some r →
  (128 ≤ r)%Z ∧ (128 ≤ byte_z a)%Z ∧ (128 ≤ byte_z b)%Z ∧ (128 ≤ byte_z c)%Z.
Proof.
  unfold rune3, second3_ok, within_z. destruct (_ && _) eqn:E; [|done].
  apply andb_true_iff in E as [E E3%cont_high]. intros [= <-]. bits_to_mod.
  rewrite !orb_true_iff, !andb_true_iff, !orb_true_iff, !andb_true_iff, !bool_decide_eq_true in E.
  split_and!; Z.to_euclidean_division_equations; lia.
Qed.

Lemma rune4_high a b c d r : rune4 a b c d = Some r →
  (128 ≤ r)%Z ∧ (128 ≤ byte_z a)%Z ∧ (128 ≤ byte_z b)%Z ∧ (128 ≤ byte_z c)%Z ∧ (128 ≤ byte_z d)%Z.
Proof.
  unfold rune4, second4_ok, within_z. destruct (_ && _) eqn:E; [|done].
  apply andb_true_iff in E as [E E4%cont_high]. apply andb_true_iff in E as [E E3%cont_high].
  intros [= <-]. bits_to_mod.
  rewrite !orb_true_iff, !andb_true_iff, !bool_decide_eq_true in E.
  split_and!; Z.to_euclidean_division_equations; lia.
Qed.

(** An ASCII byte of a string is one of its runes, and the other way round. *)
Lemma elem_of_runes_ascii c s : (byte_z c < 128)%Z → byte_z c ∈ runes s ↔ has_char c s = true.
Proof.
  intros Hc. remember (String.length s) as n eqn:Hn. revert s Hn.
  induction n as [n IH] using lt_wf_ind. intros [|a s1] ->; [simpl; by rewrite elem_of_nil|].
  assert (∀ t, (String.length t < String.length (String a s1))%nat → byte_z c ∈ runes t ↔ has_char c t = true) as IHt.
  { intros t Ht. by eapply IH. }
  clear IH. cbn [runes]. destruct (Z.ltb_spec (byte_z a) 128) as [Ha|Ha].
  { rewrite elem_of_cons, IHt by (simpl; lia). simpl.
    destruct (Ascii.eqb_spec a c) as [->|Hne]; [tauto|].
    assert (byte_z c ≠ byte_z a) by (intros E%byte_z_inj; congruence). intuition congruence. }
  rewrite (has_char_single c a s1) by done.
  assert (byte_z c ∈ RuneError :: runes s1 ↔ has_char c s1 = true) as Herr.
  { rewrite elem_of_cons, IHt by (simpl; lia). unfold RuneError. split; [intros [|]; [lia|done]|tauto]. }
  destruct s1 as [|b s2]; [exact Herr|].
  destruct (rune2 a b) as [r|] eqn:E2.
  { apply rune2_high in E2 as (? & _ & ?). rewrite elem_of_cons, has_char_single, IHt by (simpl; lia).
    split; [intros [|]; [lia|done]|tauto]. }
  destruct s2 as [|d s3]; [exact Herr|].
  destruct (rune3 a b d) as [r|] eqn:E3.
  { apply rune3_high in E3 as (? & _ & ? & ?). rewrite elem_of_cons, !has_char_single, IHt by (simpl; lia).
    split; [intros [|]; [lia|done]|tauto]. }
  destruct s3 as [|e s4]; [exact Herr|].
  destruct (rune4 a b d e) as [r|] eqn:E4; [|exact Herr].
  apply rune4_high in E4 as (? & _ & ? & ? & ?). rewrite elem_of_cons, !has_char_single, IHt by (simpl; lia).
  split; [intros [|]; [lia|done]|tauto].
Qed.

(** A string of ASCII characters is its own list of runes. *)
Definition is_ascii (s : string) : bool := all_chars (λ c, (byte_z c <? 128)%Z) s.

Lemma of_runes_ascii_cons x l : (0 ≤ x < 128)%Z → of_runes (x :: l) = String (byte_chr x) (of_runes l).
Proof. intros Hx. simpl. by rewrite EncodeRune_ascii. Qed.

Lemma runes_of_ascii s : is_ascii s = true → of_runes (runes s) = s.
Proof.
  unfold is_ascii. induction s as [|a s IH]; [done|]. cbn [all_chars runes].
  intros [Ha Hs]%andb_true_iff. rewrite Ha. pose proof (byte_z_range a).
  rewrite of_runes_ascii_cons by lia. by rewrite IH, byte_chr_z.
Qed.
