(* ===== verification/IceServers.v ===== *)
(** * ICE server parsing (server/channels/calls/ice_servers.go)

    A configured entry is an opaque URL [scheme:[user:pass@]host[?query]].
    [parseICEServer] moves the userinfo into the credential fields;
    [redactICEEntry] is what the code may log of an entry it refuses. *)

From Stdlib Require Import Ascii.
From S2P Require Import Prelude.
From S2P Require Import GoString.
From S2P Require Import CallsConfig.

Local Open Scope string_scope.

(** The map {"urls": [...], "username": ..., "credential": ...}; the last two
    keys are set together or not at all. *)
Record ICEServer := {
  urls : list string;
  credentials : option (string * string);
}.

Definition ice_scheme_ok (s : string) : bool :=
  bool_decide (s = "stun") || bool_decide (s = "turn") || bool_decide (s = "turns").

Definition parseICEServer (entry : string) : option ICEServer :=
  match url_Parse entry with
  | None => None
  | Some u =>
    if negb (ice_scheme_ok (u_Scheme u)) then None
    else if decide (u_Opaque u = "") then None
    else
      let '(userinfo, rest) := match cut_last at_sign (u_Opaque u) with
                               | Some (a, b) => (a, b)
                               | None => ("", u_Opaque u)
                               end in
      if decide (rest = "") then None
      else
        let final := u_Scheme u ++ String colon rest in
        let final := if u_ForceQuery u || negb (bool_decide (u_RawQuery u = ""))
                     then final ++ String question (u_RawQuery u) else final in
        if decide (userinfo = "") then Some {| urls := [final]; credentials := None |}
        else
          let '(user, pass, found) := cut colon userinfo in
          if negb found || bool_decide (user = "") || bool_decide (pass = "") then None
          else Some {| urls := [final]; credentials := Some (user, pass) |}
  end.

(** [None] is a nil slice: nothing configured. *)
Definition iceServers (cfg : CallsSettings) : list ICEServer :=
  match ICEServers cfg with
  | None => []
  | Some s => if decide (s = "") then [] else
      omap (λ entry, let entry := TrimSpace entry in
                     if decide (entry = "") then None else parseICEServer entry)
        (split comma s)
  end.

Definition redactICEEntry (entry : string) : string :=
  let '(scheme, rest, found) := cut colon entry in
  if negb found then entry
  else match cut_last at_sign rest with
       | Some (ui, host) =>
           let '(_, _, hasPass) := cut colon ui in
           if hasPass : bool then scheme ++ ":***:***@" ++ host else scheme ++ ":***@" ++ host
       | None => entry
       end.

(** ** Correctness *)

(** Bytes that never split or invalidate an opaque URL. *)
Definition plain (s : string) : bool :=
  all_chars (λ c, negb (is_ctl c) && negb (Ascii.eqb c hash) && negb (Ascii.eqb c question)) s.

Lemma plain_no c s : plain s = true → (c = hash ∨ c = question ∨ c = chr 127) → has_char c s = false.
Proof. intros Hs Hc. eapply all_chars_has; [done|]. by destruct Hc as [->|[->| ->]]. Qed.

(** A case analysis on the three accepted schemes. *)
Lemma ice_scheme_cases s : ice_scheme_ok s = true → s = "stun" ∨ s = "turn" ∨ s = "turns".
Proof. unfold ice_scheme_ok. rewrite !orb_true_iff, !bool_decide_eq_true. tauto. Qed.

Definition query_suffix (query : string) : string :=
  if decide (query = "") then "" else String question query.

(** The opaque part and the query of [scheme:rest?query]. *)
Lemma url_Parse_opaque scheme c0 rest query :
  ice_scheme_ok scheme = true → Ascii.eqb c0 slash = false →
  plain (String c0 rest) = true → plain query = true →
  url_Parse (scheme ++ String colon (String c0 rest ++ query_suffix query)) =
    Some {| u_Scheme := scheme; u_Opaque := String c0 rest; u_ForceQuery := false;
            u_RawQuery := query |}.
Proof.
  intros Hs Hc Hp Hq. set (r := String c0 rest ++ query_suffix query).
  set (ok := λ c, negb (is_ctl c) && negb (Ascii.eqb c hash)).
  assert (all_chars ok (scheme ++ String colon r) = true) as Hall.
  { rewrite all_chars_app. change (all_chars ok (String colon r)) with (all_chars ok r).
    unfold r. rewrite all_chars_app.
    assert (∀ s, plain s = true → all_chars ok s = true) as Hpl.
    { intros s. apply all_chars_mono. by intros c [? ?]%andb_true_iff. }
    rewrite (Hpl _ Hp). unfold query_suffix. case_decide; [|cbn [all_chars]; rewrite (Hpl _ Hq)];
      by destruct (ice_scheme_cases _ Hs) as [->|[->| ->]]. }
  assert (getScheme (scheme ++ String colon r) = Some (scheme, r)) as Hg.
  { unfold getScheme. by destruct (ice_scheme_cases _ Hs) as [->|[->| ->]]. }
  assert (ToLowerASCII scheme = scheme ∧ scheme ≠ "" ∧ scheme ++ String colon r ≠ "*") as (Hl & Hne & Hst).
  { by destruct (ice_scheme_cases _ Hs) as [->|[->| ->]]. }
  unfold url_Parse. rewrite cut_missing by by apply (all_chars_has ok).
  rewrite (all_chars_has ok (chr 127)) by done.
  rewrite (all_chars_mono ok (λ c, negb (is_ctl c)) _ ltac:(by intros c [? ?]%andb_true_iff) Hall).
  rewrite decide_False by done. rewrite Hg, Hl.
  assert (has_char question (String c0 rest) = false) as Hnq by (eapply plain_no; eauto).
  unfold r, query_suffix. case_decide as Hqe; [subst query; rewrite string_app_nil|].
  - rewrite cut_last_none, cut_missing by done. rewrite bool_decide_false by done.
    simpl. rewrite Hc, decide_False; done.
  - rewrite cut_last_found by (eapply plain_no; eauto). rewrite cut_found by done. simpl.
    rewrite bool_decide_false by congruence. rewrite Hc, decide_False; done.
Qed.

(** The returned entry of a well-formed TURN URL. *)
Lemma parse_with_userinfo scheme user pass host query :
  ice_scheme_ok scheme = true → plain user = true → plain pass = true → plain host = true →
  plain query = true → has_char slash user = false →
  has_char colon user = false → has_char at_sign host = false →
  user ≠ "" → pass ≠ "" → host ≠ "" →
  parseICEServer (scheme ++ String colon
      ((user ++ String colon (pass ++ String at_sign host)) ++ query_suffix query)) =
    Some {| urls := [scheme ++ String colon (host ++ query_suffix query)];
            credentials := Some (user, pass) |}.
Proof.
  intros Hs Hu Hp Hh Hq Hsl Hcu Hat Hune Hpne Hhne. unfold parseICEServer.
  destruct user as [|c0 user]; [done|].
  assert (plain (String c0 (user ++ String colon (pass ++ String at_sign host))) = true) as Hpl.
  { unfold plain in *. cbn [all_chars] in *. rewrite !all_chars_app. cbn [all_chars].
    rewrite all_chars_app. cbn [all_chars]. rewrite Hp, Hh.
    apply andb_true_iff in Hu as [-> ->]. done. }
  assert (Ascii.eqb c0 slash = false) as Hc0.
  { simpl in Hsl. by destruct (Ascii.eqb c0 slash). }
  change (String c0 user ++ String colon (pass ++ String at_sign host))
    with (String c0 (user ++ String colon (pass ++ String at_sign host))).
  rewrite url_Parse_opaque by done. cbn [u_Scheme u_Opaque u_ForceQuery u_RawQuery].
  rewrite Hs, decide_False by done.
  change (String c0 (user ++ String colon (pass ++ String at_sign host)))
    with (String c0 user ++ (String colon pass ++ String at_sign host)).
  rewrite <-string_app_assoc, cut_last_found by done.
  rewrite decide_False by done. simpl negb. rewrite decide_False by done.
  rewrite cut_found by done. simpl negb.
  rewrite !bool_decide_false by done. cbn [orb].
  unfold query_suffix. case_decide as Hqe.
  - subst. rewrite bool_decide_true by done. simpl. by rewrite string_app_nil.
  - rewrite bool_decide_false by done. simpl. by rewrite string_app_assoc.
Qed.

(** ** Theorems *)

(** a well-formed TURN entry [scheme:user:pass@host?query] reaches the
    browser as the URL without its userinfo, the query kept, and the
    credentials in their own fields; the password may contain any ordinary
    byte, colons and at-signs included. *)
Theorem ice_credentials_split scheme user pass host query :
  ice_scheme_ok scheme = true → plain user = true → plain pass = true → plain host = true →
  plain query = true → has_char slash user = false →
  has_char colon user = false → has_char at_sign host = false →
  user ≠ "" → pass ≠ "" → host ≠ "" →
  parseICEServer (scheme ++ String colon
      ((user ++ String colon (pass ++ String at_sign host)) ++ query_suffix query)) =
    Some {| urls := [scheme ++ String colon (host ++ query_suffix query)];
            credentials := Some (user, pass) |}.
Proof. apply parse_with_userinfo. Qed.

(** no accepted entry leaks its userinfo into the URL.  Whatever is
    configured, an accepted entry yields one URL of an ICE scheme whose host
    part is not empty and holds no at-sign, and its credentials, when there
    are any, are two nonempty strings. *)
Theorem ice_url_has_no_userinfo entry s :
  parseICEServer entry = Some s →
  ∃ scheme host tail, ice_scheme_ok scheme = true ∧
    urls s = [(scheme ++ String colon host) ++ tail] ∧ host ≠ "" ∧ has_char at_sign host = false ∧
    (tail = "" ∨ ∃ q, tail = String question q) ∧
    ∀ user pass, credentials s = Some (user, pass) →
      user ≠ "" ∧ pass ≠ "" ∧ has_char colon user = false.
Proof.
  unfold parseICEServer. destruct (url_Parse entry) as [u|]; [|done].
  destruct (negb _) eqn:Es; [done|]. apply negb_false_iff in Es.
  destruct (decide (u_Opaque u = "")); [done|].
  destruct (match cut_last at_sign (u_Opaque u) with Some (a, b) => (a, b) | None => ("", u_Opaque u) end)
    as [userinfo rest] eqn:Ecut.
  assert (has_char at_sign rest = false) as Hat.
  { destruct (cut_last at_sign (u_Opaque u)) as [[a b]|] eqn:E; simplify_eq.
    - by apply cut_last_spec in E as [_ ?].
    - destruct (has_char at_sign (u_Opaque u)) eqn:Eh; [|done].
      exfalso. clear -E Eh. revert E Eh. generalize (u_Opaque u). intros t.
      induction t as [|x t IH]; simpl; [done|]. destruct (cut_last at_sign t) as [[??]|]; [done|].
      destruct (Ascii.eqb x at_sign); [done|]. auto. }
  destruct (decide (rest = "")); [done|].
  set (tail := if u_ForceQuery u || negb (bool_decide (u_RawQuery u = ""))
               then String question (u_RawQuery u) else "").
  assert ((if u_ForceQuery u || negb (bool_decide (u_RawQuery u = ""))
           then (u_Scheme u ++ String colon rest) ++ String question (u_RawQuery u)
           else u_Scheme u ++ String colon rest) = (u_Scheme u ++ String colon rest) ++ tail) as ->.
  { unfold tail. destruct (_ || _); [done|]. by rewrite string_app_nil. }
  assert (tail = "" ∨ ∃ q, tail = String question q) as Htail.
  { unfold tail. destruct (_ || _); [right; by eexists|by left]. }
  clearbody tail. destruct (decide (userinfo = "")).
  - intros [= <-]. exists (u_Scheme u), rest, tail. split_and!; try done.
  - destruct (cut colon userinfo) as [[user pass] found] eqn:Ec.
    destruct (negb found || _ || _) eqn:Eb; [done|]. intros [= <-].
    exists (u_Scheme u), rest, tail. split_and!; try done. simpl. intros ? ? [= <- <-].
    apply orb_false_iff in Eb as [[_ Hu%bool_decide_eq_false]%orb_false_iff Hp%bool_decide_eq_false].
    split_and!; [done..|]. pose proof (cut_spec colon userinfo) as Hcs. rewrite Ec in Hcs. apply Hcs.
Qed.

(** What is logged of a refused entry does not depend on its credentials:
    for a scheme without colon and a host without at-sign, the redacted text
    of [scheme:user:pass@host] is the same for every user and password,
    whatever bytes they contain. *)
Theorem redactICEEntry_hides scheme user pass host :
  has_char colon scheme = false → has_char at_sign host = false →
  redactICEEntry (scheme ++ String colon ((user ++ String colon pass) ++ String at_sign host)) =
    scheme ++ ":***:***@" ++ host.
Proof.
  intros Hs Hh. unfold redactICEEntry. rewrite cut_found by done. simpl negb.
  rewrite cut_last_found by done.
  assert ((cut colon (user ++ String colon pass)).2 = true) as Hp.
  { clear. induction user as [|x user IH]; simpl; [done|].
    destruct (Ascii.eqb x colon); [done|]. by destruct (cut colon _) as [[??]?]. }
  destruct (cut colon (user ++ String colon pass)) as [[? ?] f]. simpl in Hp. by subst f.
Qed.

(** The split of the userinfo is at its first colon: a username containing a
    colon loses its tail to the password. *)
Example ice_username_with_colon :
  parseICEServer "turn:a:b:secret@turn.example.net" =
    Some {| urls := ["turn:turn.example.net"]; credentials := Some ("a", "b:secret") |}.
Proof. vm_compute. reflexivity. Qed.

(** Witnesses. *)
Lemma ice_credentials_split_witness :
  parseICEServer "turn:alice:s3cr3t@turn.example.net:3478?transport=tcp" =
    Some {| urls := ["turn:turn.example.net:3478?transport=tcp"];
            credentials := Some ("alice", "s3cr3t") |}.
Proof.
  apply (ice_credentials_split "turn" "alice" "s3cr3t" "turn.example.net:3478" "transport=tcp");
    first [reflexivity|discriminate].
Defined.

Lemma ice_url_has_no_userinfo_witness :
  ∃ scheme host tail, ice_scheme_ok scheme = true ∧
    urls {| urls := ["turns:h?transport=tcp"]; credentials := Some ("u", "p") |} =
      [(scheme ++ String colon host) ++ tail] ∧ has_char at_sign host = false.
Proof.
  destruct (ice_url_has_no_userinfo "turns:u:p@h?transport=tcp"
    {| urls := ["turns:h?transport=tcp"]; credentials := Some ("u", "p") |})
    as (scheme & host & tail & Hs & Hu & _ & Hat & _); [reflexivity|].
  exists scheme, host, tail. split; [exact Hs|]. split; [exact Hu|exact Hat].
Defined.

Lemma redactICEEntry_hides_witness :
  redactICEEntry "turn:bob:hunter2@turn.example.net" = "turn:***:***@turn.example.net".
Proof. apply (redactICEEntry_hides "turn" "bob" "hunter2" "turn.example.net"); reflexivity. Defined.
