(* ===== verification/RtcdPool.v ===== *)
(** * The rtcd host pool (server/channels/calls/rtcd_client.go)

    The manager keeps one client per rtcd host.  A client is an interface in
    the source ([RTCDClient]); here it is a class over the client's state, so
    the manager's theorems hold for every implementation, and [RtcdConn]
    gives the adapter of rtcd_conn.go as an instance. *)

From S2P Require Import Prelude.
From S2P Require Import GoString.

(** The interface: each call may change the client's own state.  [heal_spec]
    is the contract written on the interface: Heal "returns whether the
    client is connected afterwards". *)
Class RTCDClient (C Msg : Type) := {
  Connected : C → bool;
  Heal : C → bool * C;
  Send : C → Msg → option string * C;
  Close : C → option string * C;
  heal_spec : ∀ c, (Heal c).1 = Connected (Heal c).2;
}.

Section pool.
Context {C Msg : Type} `{RTCDClient C Msg} `{GoRange}.

Record rtcdHost := RtcdHost { ip : string; client : C; flagged : bool }.

Record rtcdClientManager := Manager {
  rtcdPort : string;
  hosts : gmap string rtcdHost;
}.

Definition setFlagged (v : bool) (h : rtcdHost) : rtcdHost := RtcdHost (ip h) (client h) v.
Definition set_client (c : C) (h : rtcdHost) : rtcdHost := RtcdHost (ip h) c (flagged h).
Definition with_hosts (hs : gmap string rtcdHost) (m : rtcdClientManager) : rtcdClientManager :=
  Manager (rtcdPort m) hs.

Definition healthy (h : rtcdHost) : bool := negb (flagged h) && Connected (client h).

(** [rnd] is the value of [rand.Intn] before reduction to its range. *)
Definition pickHealthyHost (rnd : nat) (m : rtcdClientManager) : option string :=
  let hs := filter (λ h, healthy h = true) (go_range (hosts m)).*2 in
  if decide (hs = []) then None
  else h ← hs !! (rnd mod length hs); Some (JoinHostPort (ip h) (rtcdPort m)).

(** The candidates are collected first and healed afterwards. *)
Definition heal_candidates (m : rtcdClientManager) : list string :=
  (filter (λ e : string * rtcdHost, negb (flagged e.2) && negb (Connected (client e.2)) = true)
     (go_range (hosts m))).*1.

Definition heal_host (m : rtcdClientManager) (k : string) : rtcdClientManager :=
  with_hosts (alter (λ h, set_client (Heal (client h)).2 h) k (hosts m)) m.

Definition GetHostForNewCall (rnd1 rnd2 : nat) (m : rtcdClientManager)
    : option string * rtcdClientManager :=
  match pickHealthyHost rnd1 m with
  | Some host => (Some host, m)
  | None =>
      let m' := foldl heal_host m (heal_candidates m) in
      (pickHealthyHost rnd2 m', m')
  end.

(** The map key of the host an address names. *)
Definition host_of_addr (hostAddr : string) : string :=
  match SplitHostPort hostAddr with Some (host, _) => host | None => hostAddr end.

Definition clientForHost (hostAddr : string) (m : rtcdClientManager) : option rtcdHost :=
  hosts m !! host_of_addr hostAddr.

Definition SendToHost (hostAddr : string) (msg : Msg) (m : rtcdClientManager)
    : option string * rtcdClientManager :=
  match clientForHost hostAddr m with
  | None => (Some ("rtcd host not found: " +:+ host_of_addr hostAddr), m)
  | Some h =>
      let '(err, c) := Send (client h) msg in
      (err, with_hosts (<[host_of_addr hostAddr := set_client c h]> (hosts m)) m)
  end.

(** [false]: the host already exists and is kept. *)
Definition addHost (i : string) (c : C) (m : rtcdClientManager) : bool * rtcdClientManager :=
  match hosts m !! i with
  | Some _ => (false, m)
  | None => (true, with_hosts (<[i := RtcdHost i c false]> (hosts m)) m)
  end.

(** The flag update of one round of the checker. *)
Definition reflag (ips : list string) (k : string) (h : rtcdHost) : rtcdHost :=
  let inDNS := bool_decide (k ∈ ips) in
  if negb inDNS && negb (flagged h) then setFlagged true h
  else if inDNS && flagged h then setFlagged false h
  else h.

(** One tick of the hosts checker: [resolved] is the DNS answer ([None]: the
    lookup failed), [newClient] the factory ([None]: it failed). *)
Definition hostsChecker_tick (resolved : option (list string)) (newClient : string → option C)
    (m : rtcdClientManager) : rtcdClientManager :=
  match resolved with
  | None => m
  | Some ips =>
      let m := with_hosts (map_imap (λ k h, Some (reflag ips k h)) (hosts m)) m in
      foldl (λ m i, match hosts m !! i with
                    | Some _ => m
                    | None => match newClient i with
                              | None => m
                              | Some c => (addHost i c m).2
                              end
                    end) m ips
  end.

(** Close every client; the first error is reported, the map is emptied. *)
Definition closeAllHostsLocked (m : rtcdClientManager) : option string * rtcdClientManager :=
  (foldl (λ (err : option string) e, match err with
                   | Some x => Some x
                   | None => (Close (client e.2)).1
                   end) None (go_range (hosts m)), with_hosts ∅ m).

(** The manager's invariant: a host is stored under its own ip. *)
Definition pool_wf (m : rtcdClientManager) : Prop := ∀ k h, hosts m !! k = Some h → ip h = k.

Lemma pickHealthyHost_some rnd m addr :
  pickHealthyHost rnd m = Some addr →
  ∃ k h, hosts m !! k = Some h ∧ healthy h = true ∧ addr = JoinHostPort (ip h) (rtcdPort m).
Proof.
  unfold pickHealthyHost. case_decide as Hd; [done|].
  intros (h & Hh & Heq)%bind_Some. simplify_eq. apply list_elem_of_lookup_2 in Hh.
  apply list_elem_of_filter in Hh as [Hheal ([k h'] & -> & Hin)%list_elem_of_fmap].
  apply elem_of_go_range in Hin. eauto.
Qed.

Lemma pickHealthyHost_none rnd m :
  pickHealthyHost rnd m = None ↔ ∀ k h, hosts m !! k = Some h → healthy h = false.
Proof.
  unfold pickHealthyHost. case_decide as Hd; split; intros Hp; try done.
  - intros k h Hk. destruct (healthy h) eqn:E; [|done]. exfalso.
    assert (h ∈ filter (λ h, healthy h = true) (go_range (hosts m)).*2) as Hin.
    { apply list_elem_of_filter. split; [done|]. apply list_elem_of_fmap.
      exists (k, h). split; [done|]. by apply elem_of_go_range. }
    rewrite Hd in Hin. by apply not_elem_of_nil in Hin.
  - exfalso. set (l := filter _ _) in *. destruct l as [|h l'] eqn:El; [done|].
    assert (is_Some ((h :: l') !! (rnd mod length (h :: l')))) as [x Hx].
    { apply lookup_lt_is_Some. apply Nat.mod_upper_bound. done. }
    by rewrite Hx in Hp.
  - exfalso. apply Hd. destruct (filter _ _) as [|h l'] eqn:El; [done|].
    assert (h ∈ filter (λ h, healthy h = true) (go_range (hosts m)).*2) as Hin
      by (rewrite El; by left).
    apply list_elem_of_filter in Hin as [Hheal ([k h'] & -> & Hin)%list_elem_of_fmap].
    apply elem_of_go_range in Hin. simpl in *. by rewrite (Hp _ _ Hin) in Hheal.
Qed.

Lemma heal_fold_lookup ks m k :
  NoDup ks →
  hosts (foldl heal_host m ks) !! k =
    (λ h, if decide (k ∈ ks) then set_client (Heal (client h)).2 h else h) <$> hosts m !! k.
Proof.
  revert m. induction ks as [|k0 ks IH]; intros m Hnd; simpl.
  { by destruct (hosts m !! k). }
  apply NoDup_cons in Hnd as [Hk0 Hnd]. rewrite IH by done. unfold heal_host; simpl.
  rewrite lookup_alter. destruct (decide (k0 = k)) as [->|Hne].
  - destruct (hosts m !! k); simpl; [|done].
    rewrite decide_False by done. by rewrite decide_True by by left.
  - destruct (hosts m !! k); simpl; [|done]. f_equal. apply decide_ext.
    rewrite elem_of_cons. split; [by right|]. by intros [->|?].
Qed.

Lemma heal_candidates_spec m k :
  k ∈ heal_candidates m ↔
    ∃ h, hosts m !! k = Some h ∧ flagged h = false ∧ Connected (client h) = false.
Proof.
  unfold heal_candidates. rewrite list_elem_of_fmap. split.
  - intros ([k' h] & -> & [Hf Hin]%list_elem_of_filter). apply elem_of_go_range in Hin.
    exists h. apply andb_true_iff in Hf as [?%negb_true_iff ?%negb_true_iff]. done.
  - intros (h & Hk & Hf & Hc). exists (k, h). split; [done|].
    apply list_elem_of_filter. simpl. rewrite Hf, Hc. split; [done|]. by apply elem_of_go_range.
Qed.

Lemma heal_candidates_NoDup m : NoDup (heal_candidates m).
Proof.
  unfold heal_candidates. eapply sublist_NoDup; [apply (NoDup_go_range_keys (hosts m))|].
  apply fmap_sublist, sublist_filter.
Qed.

(** ** Choosing a host *)

(** One host after the healing pass. *)
Definition healed (h : rtcdHost) : rtcdHost :=
  if negb (flagged h) && negb (Connected (client h)) then set_client (Heal (client h)).2 h else h.

Lemma heal_pass_lookup m k :
  hosts (foldl heal_host m (heal_candidates m)) !! k = healed <$> hosts m !! k.
Proof.
  rewrite heal_fold_lookup by apply heal_candidates_NoDup.
  destruct (hosts m !! k) as [h|] eqn:E; simpl; [|done]. f_equal. unfold healed.
  destruct (negb (flagged h) && negb (Connected (client h))) eqn:Eh.
  - rewrite decide_True; [done|]. apply heal_candidates_spec. exists h.
    apply andb_true_iff in Eh as [?%negb_true_iff ?%negb_true_iff]. done.
  - rewrite decide_False; [done|]. intros (h' & Hh' & Hf & Hc)%heal_candidates_spec.
    simplify_eq. by rewrite Hf, Hc in Eh.
Qed.

Lemma heal_fold_port m ks : rtcdPort (foldl heal_host m ks) = rtcdPort m.
Proof. revert m. induction ks as [|k ks IH]; intros m; simpl; [done|]. by rewrite IH. Qed.

Lemma GetHost_spec rnd1 rnd2 m res m' :
  GetHostForNewCall rnd1 rnd2 m = (res, m') →
  (∀ k h, hosts m !! k = Some h → flagged h = true → hosts m' !! k = Some h) ∧
  (∀ k, is_Some (hosts m' !! k) ↔ is_Some (hosts m !! k)) ∧
  match res with
  | Some addr => ∃ k h, hosts m' !! k = Some h ∧ flagged h = false ∧
      Connected (client h) = true ∧ addr = JoinHostPort (ip h) (rtcdPort m')
  | None => ∀ k h, hosts m !! k = Some h →
      flagged h = true ∨ (Connected (client h) = false ∧ (Heal (client h)).1 = false)
  end.
Proof.
  unfold GetHostForNewCall. destruct (pickHealthyHost rnd1 m) as [a|] eqn:E1; intros [= <- <-].
  - split_and!; [done|done|]. apply pickHealthyHost_some in E1 as (k & h & Hk & Hh & ->).
    apply andb_true_iff in Hh as [?%negb_true_iff ?]. by exists k, h.
  - set (m1 := foldl heal_host m (heal_candidates m)).
    assert (∀ k, hosts m1 !! k = healed <$> hosts m !! k) as Hl by apply heal_pass_lookup.
    split_and!.
    + intros k h Hk Hf. rewrite Hl, Hk. simpl. unfold healed. by rewrite Hf.
    + intros k. rewrite Hl. by rewrite fmap_is_Some.
    + destruct (pickHealthyHost rnd2 m1) as [addr|] eqn:E2.
      * apply pickHealthyHost_some in E2 as (k & h & Hk & Hh & ->).
        apply andb_true_iff in Hh as [?%negb_true_iff ?]. by exists k, h.
      * rewrite pickHealthyHost_none in E1. rewrite pickHealthyHost_none in E2.
        intros k h Hk. pose proof (E1 _ _ Hk) as Hh. destruct (flagged h) eqn:Ef; [by left|right].
        unfold healthy in Hh. rewrite Ef in Hh. simpl in Hh. split; [done|].
        assert (hosts m1 !! k = Some (set_client (Heal (client h)).2 h)) as Hk1.
        { rewrite Hl, Hk. simpl. unfold healed. by rewrite Ef, Hh. }
        pose proof (E2 _ _ Hk1) as Hh1. unfold healthy in Hh1. simpl in Hh1. rewrite Ef in Hh1.
        by rewrite heal_spec.
Qed.

(** the host of a new call is healthy.  GetHostForNewCall returns the
    address of a host that is not flagged for removal and whose client is
    connected when it returns; it reports an error only when, after every
    disconnected unflagged client was healed, none of the pool's unflagged
    clients is connected; clients of flagged hosts are never touched. *)
Theorem GetHostForNewCall_healthy rnd1 rnd2 m res m' :
  GetHostForNewCall rnd1 rnd2 m = (res, m') →
  (∀ k h, hosts m !! k = Some h → flagged h = true → hosts m' !! k = Some h) ∧
  (∀ k, is_Some (hosts m' !! k) ↔ is_Some (hosts m !! k)) ∧
  match res with
  | Some addr => ∃ k h, hosts m' !! k = Some h ∧ flagged h = false ∧
      Connected (client h) = true ∧ addr = JoinHostPort (ip h) (rtcdPort m')
  | None => ∀ k h, hosts m !! k = Some h →
      flagged h = true ∨ (Connected (client h) = false ∧ (Heal (client h)).1 = false)
  end.
Proof. apply GetHost_spec. Qed.

(** The address handed to a call routes back to the same host: in a pool
    of IPv4 hosts, SendToHost on the address chosen for a new call sends
    through that very host's client. *)
Theorem call_host_address_routes_back rnd1 rnd2 m addr m' :
  pool_wf m → (∀ k, is_Some (hosts m !! k) → addr_safe k = true) → addr_safe (rtcdPort m) = true →
  GetHostForNewCall rnd1 rnd2 m = (Some addr, m') →
  ∃ h, clientForHost addr m' = Some h ∧ healthy h = true.
Proof.
  intros Hwf Hsafe Hport Hget. destruct (GetHost_spec _ _ _ _ _ Hget) as (_ & Hdom & Hres).
  destruct Hres as (k & h & Hk & Hf & Hc & ->). exists h.
  assert (ip h = k ∧ rtcdPort m' = rtcdPort m) as [Hip Hp].
  { unfold GetHostForNewCall in Hget. destruct (pickHealthyHost rnd1 m); simplify_eq.
    - split; [by apply Hwf|done].
    - rewrite heal_fold_port. split; [|done]. rewrite heal_pass_lookup in Hk.
      destruct (hosts m !! k) as [h0|] eqn:E; simplify_eq/=. unfold healed.
      destruct (_ && _); simpl; by apply Hwf. }
  split.
  - unfold clientForHost, host_of_addr. rewrite SplitJoinHostPort; [by rewrite Hip| |by rewrite Hp].
    rewrite Hip. apply Hsafe, Hdom. by eexists.
  - unfold healthy. by rewrite Hf, Hc.
Qed.

(** ** The hosts checker *)

Definition reflag_all (ips : list string) (m : rtcdClientManager) : rtcdClientManager :=
  with_hosts (map_imap (λ k h, Some (reflag ips k h)) (hosts m)) m.

Lemma reflag_spec ips k h :
  reflag ips k h = setFlagged (negb (bool_decide (k ∈ ips))) h.
Proof.
  unfold reflag. destruct h as [i c f]. destruct (bool_decide (k ∈ ips)), f; done.
Qed.

(** Adding the resolved hosts keeps the known ones and adds the others. *)
Lemma add_fold_lookup ips newClient m k :
  hosts (foldl (λ m i, match hosts m !! i with
                       | Some _ => m
                       | None => match newClient i with
                                 | None => m
                                 | Some c => (addHost i c m).2
                                 end
                       end) m ips) !! k =
    match hosts m !! k with
    | Some h => Some h
    | None => if decide (k ∈ ips) then (λ c, RtcdHost k c false) <$> newClient k else None
    end.
Proof.
  revert m. induction ips as [|i ips IH]; intros m; simpl.
  { by destruct (hosts m !! k). }
  rewrite IH. clear IH. destruct (hosts m !! i) as [hi|] eqn:Ei.
  - destruct (hosts m !! k) eqn:Ek; [done|]. assert (k ≠ i) by congruence.
    destruct (decide (k ∈ ips)), (decide (k ∈ i :: ips)); try done; exfalso; set_solver.
  - destruct (newClient i) as [c|] eqn:Ec.
    + unfold addHost. rewrite Ei. simpl. rewrite lookup_insert. destruct (decide (i = k)) as [->|Hne].
      * rewrite Ei, decide_True by by left. by rewrite Ec.
      * destruct (hosts m !! k); [done|].
        destruct (decide (k ∈ ips)), (decide (k ∈ i :: ips)); try done; exfalso; set_solver.
    + destruct (hosts m !! k) eqn:Ek; [done|].
      destruct (decide (k ∈ ips)), (decide (k ∈ i :: ips)); try done; [exfalso; set_solver|].
      assert (k = i) as -> by set_solver. by rewrite Ec.
Qed.

(** one round of the hosts checker makes the pool follow DNS.  A failed
    lookup changes nothing.  Otherwise a known host keeps its client and is
    flagged exactly when DNS no longer lists it; a listed host that was not
    known is added unflagged when its client can be built; nothing else is
    added and nothing is removed. *)
Theorem hostsChecker_follows_dns resolved newClient m k :
  hosts (hostsChecker_tick resolved newClient m) !! k =
    match resolved with
    | None => hosts m !! k
    | Some ips =>
        match hosts m !! k with
        | Some h => Some (setFlagged (negb (bool_decide (k ∈ ips))) h)
        | None => if decide (k ∈ ips) then (λ c, RtcdHost k c false) <$> newClient k else None
        end
    end.
Proof.
  destruct resolved as [ips|]; [|done]. unfold hostsChecker_tick. rewrite add_fold_lookup.
  simpl. rewrite map_lookup_imap. destruct (hosts m !! k) as [h|]; simpl; [|done].
  by rewrite reflag_spec.
Qed.
End pool.

Arguments rtcdHost : clear implicits.
Arguments rtcdClientManager : clear implicits.

(** ** Witnesses *)

(** A client that reconnects when it is healed. *)
#[local] Instance flaky_client : RTCDClient bool unit := {|
  Connected c := c; Heal c := (true, true); Send c _ := (None, c); Close c := (None, false);
  heal_spec c := eq_refl |}.

Definition flaky_pool : rtcdClientManager bool :=
  Manager "8045" {["10.0.0.1" := RtcdHost "10.0.0.1" false false;
                   "10.0.0.2" := RtcdHost "10.0.0.2" true true]}.

Lemma GetHostForNewCall_healthy_witness :
  ∃ k h, hosts (GetHostForNewCall 0 0 flaky_pool).2 !! k = Some h ∧ flagged h = false ∧
    Connected (client h) = true ∧
    "10.0.0.1:8045" = JoinHostPort (ip h) (rtcdPort (GetHostForNewCall 0 0 flaky_pool).2).
Proof.
  apply (GetHostForNewCall_healthy 0 0 flaky_pool (Some "10.0.0.1:8045")
    (GetHostForNewCall 0 0 flaky_pool).2). vm_compute. reflexivity.
Defined.

Lemma call_host_address_routes_back_witness :
  ∃ h, clientForHost "10.0.0.1:8045" (GetHostForNewCall 0 0 flaky_pool).2 = Some h ∧ healthy h = true.
Proof.
  apply (call_host_address_routes_back 0 0 flaky_pool); [| |reflexivity|vm_compute; reflexivity].
  - intros k h Hk. unfold flaky_pool in Hk. simpl in Hk. apply lookup_insert_Some in Hk as [[<- <-]|[_ Hk]]; [reflexivity|].
    apply lookup_singleton_Some in Hk as [<- <-]. reflexivity.
  - intros k [h Hk]. unfold flaky_pool in Hk. simpl in Hk. apply lookup_insert_Some in Hk as [[<- <-]|[_ Hk]]; [reflexivity|].
    apply lookup_singleton_Some in Hk as [<- <-]. reflexivity.
Defined.
