(* ===== verification/CallsWorld.v ===== *)
(** * The state of the calls service (server/channels/calls/service.go)

    [world] is everything a handler can read or change.  Its [core] is the
    service's own shared memory: the heap of call states, the heap of
    sessions, the shard registry, the session index and the channel index.
    Its [outer] part is what the service talks to: the configuration, the
    rtcd pool, the database, the websocket hub and the pending timers.

    [CallsEnv] collects what the code takes from outside src/: the clock, the
    id generator, the database's faults, the app's post bridge and Go's JSON
    codec.  A handler consumes clock and fault values in the order it asks
    for them ([ticks]). *)

From S2P Require Import Prelude.
From S2P Require Import GoString.
From S2P Require Import CallShards.
From S2P Require Import CallState.
From S2P Require Import SessionIndex.
From S2P Require Import CallsConfig.
From S2P Require Import IceServers.
From S2P Require Import CallStore.
From S2P Require Import RtcdPool.

Local Open Scope string_scope.

(** ** Values and messages *)

#[local] Set Warnings "-register-all".

(** A Go [any] that holds JSON-like data. *)
Inductive any :=
  | ANil
  | ABool (b : bool)
  | AInt (z : Z)
  | ANum (literal : string)
  | AStr (s : string)
  | AArr (l : list any)
  | AObj (l : list (string * any)).

Abbreviation anymap := (gmap string any).

(** [v, _ := data[k].(string)]. *)
Definition str_field (data : anymap) (k : string) : string :=
  match data !! k with Some (AStr s) => s | _ => "" end.

Definition any_field (data : anymap) (k : string) : any := default ANil (data !! k).

(** rtc.Message and its type codes (rtcd/service/rtc/msg.go). *)
Definition ICEMessage : Z := 1.
Definition SDPMessage : Z := 2.
Definition MuteMessage : Z := 3.
Definition UnmuteMessage : Z := 4.
Definition ScreenOnMessage : Z := 5.
Definition ScreenOffMessage : Z := 6.
Definition VoiceOnMessage : Z := 7.
Definition VoiceOffMessage : Z := 8.
Definition VideoOnMessage : Z := 9.
Definition VideoOffMessage : Z := 10.

(** [None] data is a nil slice. *)
Record rtcMessage := RtcMessage {
  GroupID : string; rm_UserID : string; rm_SessionID : string; rm_CallID : string;
  rm_Type : Z; rm_Data : option string;
}.

(** The dynamic types a ClientMessage's Data takes. *)
Inductive messageData :=
  | DataAny (m : list (string * any))
  | DataStr (m : gmap string string)
  | DataRTC (m : rtcMessage)
  | DataOther.

Record ClientMessage := { cm_Type : string; cm_Data : messageData }.

Definition ClientMessageJoin := "join".
Definition ClientMessageLeave := "leave".
Definition ClientMessageRTC := "rtc".
Definition ClientMessageHello := "hello".
Definition ClientMessageReconnect := "reconnect".
Definition ClientMessageClose := "close".
Definition ClientMessageVAD := "vad".

Definition rtcEnvelope (sessionID callID userID : string) (msgType : Z) (data : option string)
    : ClientMessage := {|
  cm_Type := ClientMessageRTC;
  cm_Data := DataRTC (RtcMessage "default" userID sessionID callID msgType data) |}.

(** model.WebsocketBroadcast, the scopes the service uses. *)
Inductive scope :=
  | ToConnection (id : string)
  | ToChannel (id : string)
  | ToUser (id : string).

Record hubEvent := HubEvent { ev_name : string; ev_data : list (string * any); ev_scope : scope }.

Record emojiData := { Name : string; Skin : string; Unified : string; Literal : string }.

Definition toMap (ed : emojiData) : any :=
  AObj [("name", AStr (Name ed)); ("skin", AStr (Skin ed)); ("unified", AStr (Unified ed));
        ("literal", AStr (Literal ed))].

(** ** Errors (api.go, channels.go) *)

Inductive goerr :=
  | ErrCallsDisabled | ErrNoSFUHost | ErrCallNotFound | ErrCallEnded | ErrMaxParticipants
  | ErrSessionNotFound | ErrNotCallHost | ErrChannelCallsDisabled
  | ErrNew (text : string)
  | ErrStore (e : storeError)
  | ErrWrap (pre : string) (e : goerr) (post : string).

#[export] Instance storeError_eq_dec : EqDecision storeError.
Proof. solve_decision. Defined.
#[export] Instance goerr_eq_dec : EqDecision goerr.
Proof. solve_decision. Defined.

(** [errors.Is] follows %w wrapping. *)
Fixpoint errors_Is (e target : goerr) : bool :=
  bool_decide (e = target) || match e with ErrWrap _ e' _ => errors_Is e' target | _ => false end.

Fixpoint err_text (e : goerr) : string :=
  match e with
  | ErrCallsDisabled => "calls: feature is disabled"
  | ErrNoSFUHost => "calls: no rtcd host available"
  | ErrCallNotFound => "calls: call not found"
  | ErrCallEnded => "calls: call has ended"
  | ErrMaxParticipants => "calls: maximum participants reached"
  | ErrSessionNotFound => "calls: session not found"
  | ErrNotCallHost => "calls: only the host can perform this action"
  | ErrChannelCallsDisabled => "calls: calls are disabled for this channel"
  | ErrNew t => t
  | ErrStore (ErrNotFound en id) => "resource '" ++ en ++ "' not found, id: " ++ id
  | ErrStore (ErrInvalidModel id) => id
  | ErrStore (ErrInvalidInput en f v) =>
      "invalid input: entity: " ++ en ++ " field: " ++ f ++ " value: " ++ v
  | ErrStore (ErrConflict r m) => r ++ "exists " ++ m
  | ErrStore (ErrDatabase m) => m
  | ErrWrap pre e' post => pre ++ err_text e' ++ post
  end.

(** ** The environment *)

Class CallsEnv := {
  clock : nat → Z;
  new_id : nat → string;
  db_fault : nat → bool;
  rand_int : nat → nat;
  (** [None]: no post bridge; otherwise the result of the n-th creation. *)
  create_post : option (nat → option string);
  json_Marshal : any → option string;
  json_Unmarshal_emoji : string → option emojiData;
  json_Marshal_state : CallStateView → option string;
  strconv_Quote : string → string;
}.

(** What the service relies on: time stamps are positive, ids are unique and
    not empty. *)
Class CallsEnvOk `{CallsEnv} : Prop := {
  clock_pos : ∀ n, (0 < clock n)%Z;
  new_id_inj : ∀ i j, new_id i = new_id j → i = j;
  new_id_nonempty : ∀ i, new_id i ≠ "";
}.

(** ** The world *)

Record core := Core {
  calls : gmap cref callState;
  sess : sheap;
  shards : shardRegistry;
  index : sessionRegistry;
  channelCalls : channelIndex;
  nextId : nat;
}.

(** What the service asked the app's post bridge to do. *)
Inductive postEvent :=
  | PostCreated (channelID ownerID postID : string) (startAt : Z)
  | PostEnded (postID : string) (endAt : Z) (participants : list string).

(** A pending [time.AfterFunc] of HandleWSDisconnect. *)
Record timer := Timer { t_cs : cref; t_sess : sref; t_conn : string }.

Section world.
Context {C : Type} `{RTCDClient C ClientMessage} `{GoRange} `{CallsEnv}.

Record outer := Outer {
  cfg : CallsSettings;
  rtcd : option (rtcdClientManager C);
  rtcdKick : bool;
  db : callsDB;
  hub : list hubEvent;
  posts : list postEvent;
  timers : list timer;
  ticks : nat;
}.

Record world := World { w_core : core; w_out : outer }.

Abbreviation CM := (M world goerr).

Definition with_calls v c := Core v (sess c) (shards c) (index c) (channelCalls c) (nextId c).
Definition with_sess v c := Core (calls c) v (shards c) (index c) (channelCalls c) (nextId c).
Definition with_shards v c := Core (calls c) (sess c) v (index c) (channelCalls c) (nextId c).
Definition with_index v c := Core (calls c) (sess c) (shards c) v (channelCalls c) (nextId c).
Definition with_channelCalls v c := Core (calls c) (sess c) (shards c) (index c) v (nextId c).
Definition with_nextId v c := Core (calls c) (sess c) (shards c) (index c) (channelCalls c) v.

Definition upd_core (f : core → core) (w : world) : world := World (f (w_core w)) (w_out w).
Definition upd_out (f : outer → outer) (w : world) : world := World (w_core w) (f (w_out w)).

Definition with_rtcd v o :=
  Outer (cfg o) v (rtcdKick o) (db o) (hub o) (posts o) (timers o) (ticks o).
Definition with_rtcdKick v o :=
  Outer (cfg o) (rtcd o) v (db o) (hub o) (posts o) (timers o) (ticks o).
Definition with_db v o :=
  Outer (cfg o) (rtcd o) (rtcdKick o) v (hub o) (posts o) (timers o) (ticks o).
Definition with_hub v o :=
  Outer (cfg o) (rtcd o) (rtcdKick o) (db o) v (posts o) (timers o) (ticks o).
Definition with_posts v o :=
  Outer (cfg o) (rtcd o) (rtcdKick o) (db o) (hub o) v (timers o) (ticks o).
Definition with_timers v o :=
  Outer (cfg o) (rtcd o) (rtcdKick o) (db o) (hub o) (posts o) v (ticks o).
Definition with_ticks v o :=
  Outer (cfg o) (rtcd o) (rtcdKick o) (db o) (hub o) (posts o) (timers o) v.

Definition modify_core (f : core → core) : CM unit := m_modify (upd_core f).
Definition modify_out (f : outer → outer) : CM unit := m_modify (upd_out f).
Definition read {A} (f : core → A) : CM A := m_gets (λ w, f (w_core w)).
Definition read_out {A} (f : outer → A) : CM A := m_gets (λ w, f (w_out w)).

Open Scope go_scope.

(** The next tick of the environment. *)
Definition tick : CM nat :=
  n <- read_out ticks ;; modify_out (λ o, with_ticks (S n) o) ;;; m_ret n.

Definition GetMillis : CM Z := n <- tick ;; m_ret (clock n).
Definition fault : CM bool := n <- tick ;; m_ret (db_fault n).
Definition randn : CM nat := n <- tick ;; m_ret (rand_int n).

Definition NewId : CM string :=
  n <- read nextId ;; modify_core (with_nextId (S n)) ;;; m_ret (new_id n).

(** ** Pointers to call states *)

Definition nilCall : callState := newCallState "" "" "" 0.

Definition call_at (c : core) (r : cref) : callState := default nilCall (calls c !! r).

(** Run a read-only method of [r]. *)
Definition ask {A} (r : cref) (f : sheap → callState → A) : CM A :=
  read (λ c, f (sess c) (call_at c r)).

(** Run a mutating method of [r] under its lock. *)
Definition on_call {A} (r : cref) (f : sheap → callState → A * sheap * callState) : CM A :=
  x <- ask r f ;;
  let '(a, hs, cs) := x in
  modify_core (λ c, with_sess hs (with_calls (alter (λ _, cs) r (calls c)) c)) ;;; m_ret a.

Definition ended_at (c : core) (r : cref) : bool := ended (call_at c r).

(** ** Database statements *)

Definition store_read {A} (f : bool → callsDB → res storeError A) : CM A :=
  ft <- fault ;; d <- read_out db ;;
  match f ft d with Ok a => m_ret a | Err e => m_throw (ErrStore e) end.

Definition store_write {A} (f : bool → callsDB → res storeError A * callsDB) : CM A :=
  ft <- fault ;; d <- read_out db ;;
  let '(r, d') := f ft d in
  modify_out (with_db d') ;;;
  match r with Ok a => m_ret a | Err e => m_throw (ErrStore e) end.

(** Saves run a PreSave hook that reads the clock. *)
Definition store_save {A} (f : bool → Z → callsDB → res storeError A * callsDB) : CM A :=
  now <- GetMillis ;; store_write (λ ft d, f ft now d).

(** ** The hub *)

Definition broadcast (event : string) (data : list (string * any)) (sc : scope) : CM unit :=
  modify_out (λ o, with_hub (HubEvent event data sc :: hub o) o).

Definition publishTo (event : string) (data : list (string * any)) (connID : string) : CM unit :=
  broadcast event data (ToConnection connID).

Definition publishChannel (channelID event : string) (data : list (string * any)) : CM unit :=
  broadcast event data (ToChannel channelID).

Definition sendError (connID msg : string) : CM unit :=
  broadcast "error" [("data", AStr msg); ("connID", AStr connID)] (ToConnection connID).

(** ** The SFU *)

Definition rtcdManager : CM (option (rtcdClientManager C)) := read_out rtcd.

Definition sendToHost (r : cref) (msg : ClientMessage) : CM unit :=
  mgr <- rtcdManager ;;
  host <- ask r (λ _ cs, cs_rtcdHost cs) ;;
  match mgr with
  | None => m_throw ErrNoSFUHost
  | Some m =>
      if decide (host = "") then m_throw ErrNoSFUHost
      else
        let '(err, m') := SendToHost host msg m in
        modify_out (with_rtcd (Some m')) ;;;
        match err with None => m_ret tt | Some t => m_throw (ErrNew t) end
  end.

(** The effects on the outer world leave the core alone. *)
Lemma frames_modify_out f : frames (E:=goerr) w_core (modify_out f).
Proof. by apply frames_modify. Qed.
Lemma frames_tick : frames w_core tick.
Proof. by intros w. Qed.
Lemma frames_GetMillis : frames w_core GetMillis.
Proof. by intros w. Qed.
Lemma frames_fault : frames w_core fault.
Proof. by intros w. Qed.
Lemma frames_randn : frames w_core randn.
Proof. by intros w. Qed.
Lemma frames_read {A} (f : core → A) : frames (E:=goerr) w_core (read f).
Proof. by intros w. Qed.
Lemma frames_read_out {A} (f : outer → A) : frames (E:=goerr) w_core (read_out f).
Proof. by intros w. Qed.
Lemma frames_ask {A} r (f : sheap → callState → A) : frames (E:=goerr) w_core (ask r f).
Proof. by intros w. Qed.
Lemma frames_broadcast e d s : frames w_core (broadcast e d s).
Proof. by intros w. Qed.
Lemma frames_publishTo e d c : frames w_core (publishTo e d c).
Proof. by intros w. Qed.
Lemma frames_publishChannel c e d : frames w_core (publishChannel c e d).
Proof. by intros w. Qed.
Lemma frames_sendError c m : frames w_core (sendError c m).
Proof. by intros w. Qed.

Lemma no_err_modify_out f : no_err (E:=goerr) (modify_out f).
Proof. apply no_err_modify. Qed.
Lemma no_err_modify_core f : no_err (E:=goerr) (modify_core f).
Proof. apply no_err_modify. Qed.
Lemma no_err_tick : no_err tick.
Proof. intros w. by eexists. Qed.
Lemma no_err_GetMillis : no_err GetMillis.
Proof. intros w. by eexists. Qed.
Lemma no_err_NewId : no_err NewId.
Proof. intros w. by eexists. Qed.
Lemma no_err_read {A} (f : core → A) : no_err (E:=goerr) (read f).
Proof. apply no_err_gets. Qed.
Lemma no_err_read_out {A} (f : outer → A) : no_err (E:=goerr) (read_out f).
Proof. apply no_err_gets. Qed.
Lemma no_err_ask {A} r (f : sheap → callState → A) : no_err (E:=goerr) (ask r f).
Proof. apply no_err_gets. Qed.
Lemma no_err_broadcast e d s : no_err (broadcast e d s).
Proof. apply no_err_modify. Qed.

Hint Resolve frames_modify_out frames_tick frames_GetMillis frames_fault frames_randn
  frames_read frames_read_out frames_ask frames_broadcast frames_publishTo
  frames_publishChannel frames_sendError : go.

Lemma frames_store_read {A} (f : bool → callsDB → res storeError A) :
  frames w_core (store_read f).
Proof. unfold store_read. frames_tac. Qed.
Lemma frames_store_write {A} (f : bool → callsDB → res storeError A * callsDB) :
  frames w_core (store_write f).
Proof. unfold store_write. frames_tac. Qed.
Lemma frames_store_save {A} (f : bool → Z → callsDB → res storeError A * callsDB) :
  frames w_core (store_save f).
Proof. unfold store_save. apply frames_bind; [auto with go|]. intros. apply frames_store_write. Qed.
Lemma frames_sendToHost r m : frames w_core (sendToHost r m).
Proof. unfold sendToHost, rtcdManager. frames_tac. Qed.
End world.

#[export] Hint Resolve frames_modify_out frames_tick frames_GetMillis frames_fault frames_randn
  frames_read frames_read_out frames_ask frames_broadcast frames_publishTo
  frames_publishChannel frames_sendError frames_store_read frames_store_write
  frames_store_save frames_sendToHost no_err_modify_out no_err_modify_core no_err_tick
  no_err_GetMillis no_err_NewId no_err_read no_err_read_out no_err_ask no_err_broadcast : go.

Arguments world : clear implicits.
Arguments outer : clear implicits.
