(* ===== verification/CallsService.v ===== *)
(** * Handlers of the calls service (server/channels/calls)

    One definition per operation of api.go, client_messages.go,
    host_controls.go, lifecycle.go, rtcd_relay.go, channels.go and posts.go,
    with the guards, the early returns and the effects in the order of the
    source.  A handler runs as one transition; the interleavings the locks
    allow are studied in [JoinRace]. *)

From S2P Require Import Prelude.
From S2P Require Import GoString.
From S2P Require Import CallShards.
From S2P Require Import CallState.
From S2P Require Import SessionIndex.
From S2P Require Import CallsConfig.
From S2P Require Import IceServers.
From S2P Require Import CallStore.
From S2P Require Import RtcdPool.
From S2P Require Import CallsWorld.

Local Open Scope string_scope.
Local Open Scope go_scope.

Record StartResult := { sr_CallID : string; sr_RTCDHost : string; sr_StartAt : Z }.

Record CallsChannelView := {
  ccv_ChannelID : string; ccv_Enabled : bool; ccv_MaxParticipants : Z;
  ccv_AllowScreenSharing : bool; ccv_AllowRecording : bool;
}.

Record ConfigView := {
  cv_Enabled : bool; cv_MaxCallParticipants : Z; cv_AllowScreenSharing : bool;
  cv_AllowRecording : bool; cv_EnableRinging : bool; cv_HostControlsAllowed : bool;
  cv_GroupCallsAllowed : bool; cv_EnableVideo : bool; cv_EnableReactions : bool;
  cv_ICEServers : list ICEServer;
}.

(** ws_protocol.go: the message types a browser may send. *)
Definition validMsgTypes : list string :=
  ["join"; "leave"; "reconnect"; "sdp"; "ice"; "mute"; "unmute"; "voice_on"; "voice_off";
   "screen_on"; "screen_off"; "video_on"; "video_off"; "raise_hand"; "unraise_hand"; "react";
   "caption"; "metric"; "call_state"; "ping"].

Definition isValidMsgType (t : string) : bool := bool_decide (t ∈ validMsgTypes).

Definition ice_to_any (s : ICEServer) : any :=
  AObj (("urls", AArr (map AStr (urls s))) ::
    match credentials s with
    | None => []
    | Some (u, p) => [("username", AStr u); ("credential", AStr p)]
    end).

(** The sessionID map of a Close payload; non-string values are dropped. *)
Definition closeMessageData (d : messageData) : option (gmap string string) :=
  match d with
  | DataStr m => Some m
  | DataAny m => Some (list_to_map (omap (λ kv : string * any,
                   match kv.2 with AStr v => Some (kv.1, v) | _ => None end) m))
  | _ => None
  end.

Section service.
Context {C : Type} `{RTCDClient C ClientMessage} `{GoRange} `{CallsEnv}.

Abbreviation CM := (M (world C) goerr).

(** ** Allocation and pointer reads *)

Definition alloc_call (cs : callState) : CM cref :=
  r <- read (λ c, fresh (dom (calls c))) ;;
  modify_core (λ c, with_calls (<[r := cs]> (calls c)) c) ;;; m_ret r.

Definition alloc_sess (x : session) : CM sref :=
  p <- read (λ c, fresh (dom (sess c))) ;;
  modify_core (λ c, with_sess (<[p := x]> (sess c)) c) ;;; m_ret p.

Definition nilSession : session := Session "" "" "" "" "" false false false false 0 0 0 0.
Definition deref (p : sref) : CM session := read (λ c, default nilSession (sess c !! p)).

Definition setfield (p : sref) (f : session → session) : CM unit :=
  modify_core (λ c, with_sess (alter f p (sess c)) c).

(** A method that reads and writes the shard registry; an empty registry
    would panic and is excluded by [newShardRegistry]. *)
Definition on_shards {A} (dflt : A) (f : core → option (A * shardRegistry)) : CM A :=
  x <- read f ;;
  match x with
  | None => m_ret dflt
  | Some (a, sh) => modify_core (with_shards sh) ;;; m_ret a
  end.

Definition on_index (f : sessionRegistry → sessionRegistry) : CM unit :=
  modify_core (λ c, with_index (f (index c)) c).

Definition shards_get (callID : string) : CM (option cref) :=
  read (λ c, reg_get (shards c) callID).

Definition channelCalls_get (channelID : string) : CM (option cref) :=
  read (λ c, ci_get (channelCalls c) channelID).

Definition sfu_leave (sid : string) : ClientMessage :=
  {| cm_Type := ClientMessageLeave; cm_Data := DataStr {["sessionID" := sid]} |}.

(** ** posts.go *)

Definition createCallPost (r : cref) (ownerID : string) : CM string :=
  match create_post with
  | None => m_ret ""
  | Some f =>
      n <- tick ;;
      info <- ask r (λ _ cs, (cs_channelID cs, cs_startAt cs)) ;;
      match f n with
      | None => m_ret ""
      | Some postID =>
          modify_out (λ o, with_posts (PostCreated info.1 ownerID postID info.2 :: posts o) o) ;;;
          m_ret postID
      end
  end.

Definition endCallPost (postID : string) (participants : list string) : CM unit :=
  if decide (postID = "") then m_ret tt
  else match create_post with
       | None => m_ret tt
       | Some _ =>
           now <- GetMillis ;;
           modify_out (λ o, with_posts (PostEnded postID now participants :: posts o) o)
       end.

(** ** api.go *)

Definition start_result (cs : callState) : StartResult :=
  {| sr_CallID := cs_callID cs; sr_RTCDHost := cs_rtcdHost cs; sr_StartAt := cs_startAt cs |}.

Definition assign_host : CM string :=
  mgr <- rtcdManager ;;
  match mgr with
  | None => m_ret ""
  | Some m =>
      r1 <- randn ;; r2 <- randn ;;
      let '(h, m') := GetHostForNewCall r1 r2 m in
      modify_out (with_rtcd (Some m')) ;;;
      match h with
      | Some h => m_ret h
      | None => m_throw (ErrWrap "" ErrNoSFUHost ": no healthy rtcd host available")
      end
  end.

(** The second half of StartCall: persist the row, give the channel its
    entry, create the post and announce.  A failed insert takes the call
    back out of its shard. *)
Definition commit_call (channelID ownerID postID rtcdHost callID : string) (now : Z)
    (state : cref) : CM StartResult :=
  saved <- m_try (store_save (λ ft t d, CallStore_Save ft t d {|
    call_ID := callID; call_ChannelID := channelID; call_OwnerID := ownerID;
    call_PostID := postID; call_StartAt := now; call_EndAt := 0; call_CreateAt := now;
    call_UpdateAt := 0 |})) ;;
  match saved with
  | Err e =>
      on_shards false (λ c, reg_deleteIf (shards c) callID state) ;;;
      m_throw (ErrWrap "calls: failed to persist call: " e "")
  | Ok call =>
      modify_core (λ c, with_channelCalls (ci_set (channelCalls c) channelID state) c) ;;;
      post <- createCallPost state ownerID ;;
      (if decide (post = "") then m_ret tt
       else m_try (store_save (λ ft t d, CallStore_Update ft t d (with_PostID post call))) ;;;
            m_ret tt) ;;;
      broadcast "call_start"
        [("channel_id", AStr channelID); ("call_id", AStr callID); ("start_at", AInt now);
         ("rtcd_host", AStr rtcdHost); ("post_id", AStr post); ("owner_id", AStr ownerID)]
        (ToChannel channelID) ;;;
      m_ret {| sr_CallID := callID; sr_RTCDHost := rtcdHost; sr_StartAt := now |}
  end.

Definition StartCall (channelID ownerID postID : string) : CM StartResult :=
  conf <- read_out cfg ;;
  if negb (enabled conf) then m_throw ErrCallsDisabled
  else if bool_decide (channelID = "") || bool_decide (ownerID = "") then
    m_throw (ErrNew "calls: channelID and ownerID are required")
  else
  live <- read (λ c, getLive (ended_at c) (channelCalls c) channelID) ;;
  match live with
  | Some r => ask r (λ _ cs, start_result cs)
  | None =>
    rtcdHost <- assign_host ;;
    now <- GetMillis ;;
    callID <- NewId ;;
    created_at <- GetMillis ;;
    r <- alloc_call (newCallState callID channelID rtcdHost created_at) ;;
    st <- on_shards (r, true) (λ c, reg_getOrCreateLive (ended_at c) (shards c) callID r) ;;
    let '(state, created) := st in
    if negb created then ask state (λ _ cs, start_result cs)
    else commit_call channelID ownerID postID rtcdHost callID now state
  end.

(** The per-session part of the end-of-call teardown. *)
Definition close_session (r : cref) (sid : string) : CM unit :=
  m_try (sendToHost r (sfu_leave sid)) ;;;
  conn <- ask r (λ hs cs, connIDFor hs cs sid) ;;
  on_index (λ ix, unlink ix sid conn).

(** The end boundary and the statistics row; the result is the post id. *)
Definition persist_end (callID channelID : string) (participantCount pk startAt now : Z) : CM string :=
  got <- m_try (store_read (λ ft d, CallStore_Get ft d callID)) ;;
  match got with
  | Err _ => m_ret ""
  | Ok call =>
      m_try (store_save (λ ft t d, CallStore_Update ft t d (with_EndAt now call))) ;;;
      statID <- NewId ;;
      m_try (store_save (λ ft t d, CallStatStore_Save ft t d {|
        stat_ID := statID; stat_CallID := callID; stat_ChannelID := channelID;
        stat_Participants := participantCount; stat_PeakParticipants := pk;
        stat_DurationSeconds := Z.quot (now - startAt) 1000; stat_CreateAt := now |})) ;;;
      m_ret (call_PostID call)
  end.

(** Both generation-guarded removals; the result is [owned]. *)
Definition unregister (r : cref) (info : callState) : CM bool :=
  on_shards false (λ c, reg_deleteIf (shards c) (cs_callID info) r) ;;;
  owned <- read (λ c, (ci_deleteIf (channelCalls c) (cs_channelID info) r).1) ;;
  modify_core (λ c, with_channelCalls (ci_deleteIf (channelCalls c) (cs_channelID info) r).2 c) ;;;
  m_ret owned.

Definition endCallState (r : cref) (now : Z) : CM unit :=
  first <- on_call r (λ hs cs, let '(b, cs') := markEnded now cs in (b, hs, cs')) ;;
  if negb first then m_throw ErrCallEnded
  else
  views <- ask r (λ hs cs, (snapshot hs cs).1) ;;
  ids <- ask r (λ _ cs, sessionIDs cs) ;;
  info <- ask r (λ _ cs, cs) ;;
  owned <- unregister r info ;;
  post <- persist_end (cs_callID info) (cs_channelID info) (Z.of_nat (length views))
            (peak info) (cs_startAt info) now ;;
  endCallPost post (map sv_UserID views) ;;;
  m_for ids (close_session r) ;;;
  m_try (store_write (λ ft d,
    CallSessionStore_EndOpenSessions ft d (cs_callID info) now)) ;;;
  if owned : bool then
    broadcast "call_end"
      [("channel_id", AStr (cs_channelID info)); ("call_id", AStr (cs_callID info));
       ("end_at", AInt now)] (ToChannel (cs_channelID info))
  else m_ret tt.

Definition EndCall (callID : string) : CM unit :=
  o <- shards_get callID ;;
  match o with
  | None => m_throw ErrCallNotFound
  | Some r => now <- GetMillis ;; endCallState r now
  end.

Definition callStateView (r : cref) : CM CallStateView :=
  ask r (λ hs cs, let '(views, host) := snapshot hs cs in {|
    csv_CallID := cs_callID cs; csv_ChannelID := cs_channelID cs; csv_StartAt := cs_startAt cs;
    csv_EndAt := endedAt cs; csv_RTCDHost := cs_rtcdHost cs; csv_Sessions := views;
    csv_Participants := Z.of_nat (length views); csv_HostSessionID := host |}).

Definition GetCallState (callID : string) : CM CallStateView :=
  o <- shards_get callID ;;
  match o with None => m_throw ErrCallNotFound | Some r => callStateView r end.

Definition GetCallStateByChannel (channelID : string) : CM CallStateView :=
  o <- channelCalls_get channelID ;;
  match o with None => m_throw ErrCallNotFound | Some r => callStateView r end.

Definition HasRTCD : CM bool := m <- rtcdManager ;; m_ret (bool_decide (is_Some m)).

Definition GetConfig : CM ConfigView :=
  c <- read_out cfg ;; up <- HasRTCD ;;
  m_ret {| cv_Enabled := enabled c && up; cv_MaxCallParticipants := maxParticipants c;
    cv_AllowScreenSharing := allowScreenSharing c; cv_AllowRecording := allowRecording c;
    cv_EnableRinging := enableRinging c; cv_HostControlsAllowed := hostControlsAllowed c;
    cv_GroupCallsAllowed := groupCallsAllowed c; cv_EnableVideo := enableVideo c;
    cv_EnableReactions := enableReactions c; cv_ICEServers := iceServers c |}.

(** ** channels.go *)

Definition GetCallsChannel (channelID : string) : CM CallsChannelView :=
  got <- m_try (store_read (λ ft d, CallsChannelStore_Get ft d channelID)) ;;
  m_ret match got with
  | Ok cc => {| ccv_ChannelID := channelID; ccv_Enabled := cc_Enabled cc;
      ccv_MaxParticipants := cc_MaxParticipants cc;
      ccv_AllowScreenSharing := cc_AllowScreenSharing cc;
      ccv_AllowRecording := cc_AllowRecording cc |}
  | Err _ => {| ccv_ChannelID := channelID; ccv_Enabled := true; ccv_MaxParticipants := 0;
      ccv_AllowScreenSharing := false; ccv_AllowRecording := false |}
  end.

Definition SetCallsChannelEnabled (channelID : string) (enabled : bool) (userID : string) : CM unit :=
  if decide (channelID = "") then m_throw (ErrNew "calls: channelID is required")
  else
  now <- GetMillis ;;
  store_save (λ ft t d, CallsChannelStore_Save ft t d {|
    cc_ChannelID := channelID; cc_Enabled := enabled; cc_MaxParticipants := 0;
    cc_AllowScreenSharing := true; cc_AllowRecording := false; cc_CreateAt := now;
    cc_UpdateAt := now |}) ;;;
  publishChannel channelID (if enabled then "channel_enable_voice" else "channel_disable_voice")
    [("channel_id", AStr channelID); ("user_id", AStr userID)].

Definition callsEnabledForChannel (channelID : string) : CM bool :=
  v <- GetCallsChannel channelID ;; m_ret (ccv_Enabled v).

Definition state_view (hs : sheap) (cs : callState) : CallStateView :=
  let '(views, host) := snapshot hs cs in {|
    csv_CallID := cs_callID cs; csv_ChannelID := cs_channelID cs; csv_StartAt := cs_startAt cs;
    csv_EndAt := 0; csv_RTCDHost := cs_rtcdHost cs; csv_Sessions := views;
    csv_Participants := Z.of_nat (length views); csv_HostSessionID := host |}.

Definition GetCallStates : CM (list CallStateView) :=
  read (λ c, omap (λ r, let cs := call_at c r in
                        if ended cs then None else Some (state_view (sess c) cs))
               (reg_all (shards c))).

Definition DismissNotification (channelID userID : string) : CM unit :=
  if bool_decide (channelID = "") || bool_decide (userID = "") then
    m_throw (ErrNew "calls: channelID and userID are required")
  else broadcast "user_dismissed_notification"
         [("channel_id", AStr channelID); ("user_id", AStr userID)] (ToUser userID).

(** ** client_messages.go *)

Definition sendCallState (r : cref) (connID : string) : CM unit :=
  v <- ask r state_view ;;
  match json_Marshal_state v with
  | None => m_ret tt
  | Some encoded => publishTo "call_state" [("call", AStr encoded)] connID
  end.

(** The shared teardown; [s] is the pointer the caller resolved. *)
Definition teardownSession (r : cref) (s : sref) : CM unit :=
  x <- deref s ;;
  rem <- on_call r (λ hs cs, let '(o, cs') := removeSession hs cs (sessionID x) in (o, hs, cs')) ;;
  match rem with
  | None => m_ret tt
  | Some (_, lastConnID) =>
      on_index (λ ix, unlink ix (sessionID x) lastConnID) ;;;
      m_try (sendToHost r (sfu_leave (sessionID x))) ;;;
      t <- GetMillis ;;
      m_try (store_write (λ ft d,
        CallSessionStore_EndSession ft d (callID x) (sessionID x) t)) ;;;
      chan <- ask r (λ _ cs, cs_channelID cs) ;;
      publishChannel chan "user_left"
        [("user_id", AStr (userID x)); ("session_id", AStr (sessionID x))] ;;;
      n <- ask r (λ _ cs, participants cs) ;;
      if decide (n = 0%Z) then now <- GetMillis ;; m_try (endCallState r now) ;;; m_ret tt
      else m_ret tt
  end.

(** shard.go: insert only into a registered call that has not ended. *)
Definition addSessionIfLive (callID sid : string) (s : sref) (limit : Z)
    : CM (cref * option sref) :=
  o <- shards_get callID ;;
  match o with
  | None => m_throw ErrCallNotFound
  | Some r =>
      e <- ask r (λ _ cs, ended cs) ;;
      if e : bool then m_throw ErrCallNotFound
      else
        added <- on_call r (λ hs cs, let '(o, cs') := addSession hs cs sid s limit in (o, hs, cs')) ;;
        match added with
        | None => m_throw ErrMaxParticipants
        | Some prev => m_ret (r, prev)
        end
  end.

(** The retry loop of handleJoin; the result is the last generation's id. *)
Fixpoint join_attempts (n : nat) (channelID userID sid : string) (s : sref) (max : Z)
    : CM (option (cref * string)) :=
  match n with
  | O => m_ret None
  | S n' =>
      res <- StartCall channelID userID "" ;;
      setfield s (set_callID (sr_CallID res)) ;;;
      added <- m_try (addSessionIfLive (sr_CallID res) sid s max) ;;
      match added with
      | Ok (r, _) => m_ret (Some (r, sr_CallID res))
      | Err e => if errors_Is e ErrCallNotFound
                 then join_attempts n' channelID userID sid s max
                 else m_throw e
      end
  end.

Definition sfu_join (callID userID connID channelID : string) : ClientMessage :=
  {| cm_Type := ClientMessageJoin;
     cm_Data := DataAny [("callID", AStr callID); ("userID", AStr userID);
       ("sessionID", AStr connID); ("channelID", AStr channelID);
       ("av1Support", ABool false); ("dcSignaling", ABool false)] |}.

(** Everything after the insertion. *)
Definition announce_join (r : cref) (callID channelID connID userID : string) (now : Z) : CM unit :=
  on_index (λ ix, link ix connID connID r) ;;;
  rowID <- NewId ;;
  m_try (store_save (λ ft t d, CallSessionStore_Save ft t d {|
    cses_ID := rowID; cses_CallID := callID; cses_UserID := userID; cses_ConnID := connID;
    cses_StartAt := now; cses_EndAt := 0; cses_CreateAt := now; cses_UpdateAt := now |})) ;;;
  m_try (sendToHost r (sfu_join callID userID connID channelID)) ;;;
  c <- read_out cfg ;;
  publishTo "join" [("connID", AStr connID); ("iceServers", AArr (map ice_to_any (iceServers c)))]
    connID ;;;
  publishChannel channelID "user_joined" [("user_id", AStr userID); ("session_id", AStr connID)] ;;;
  sendCallState r connID.

(** Start one background initialization of the rtcd manager: the flag says
    an attempt is in flight; the attempt itself ends in an environment step. *)
Definition kickRTCDInit : CM unit :=
  mgr <- rtcdManager ;; c <- read_out cfg ;; busy <- read_out rtcdKick ;;
  if bool_decide (is_Some mgr) || bool_decide (rtcdURL c = "") || busy then m_ret tt
  else modify_out (with_rtcdKick true).

Definition limit_reached (channelID : string) (max : Z) : CM bool :=
  if decide (0 < max)%Z then
    o <- channelCalls_get channelID ;;
    match o with
    | None => m_ret false
    | Some r => n <- ask r (λ _ cs, participants cs) ;; m_ret (bool_decide (max ≤ n)%Z)
    end
  else m_ret false.

Definition new_session (userID channelID connID : string) (now : Z) : session :=
  Session userID channelID "" connID connID true false false false 0 now 0 0.

Definition handleJoin (connID userID : string) (data : anymap) : CM unit :=
  let channelID := str_field data "channelID" in
  if decide (channelID = "") then m_throw (ErrNew "calls: channelID is required")
  else
  c <- read_out cfg ;;
  if negb (enabled c) then m_throw ErrCallsDisabled
  else
  allowed <- callsEnabledForChannel channelID ;;
  if negb allowed then m_throw ErrChannelCallsDisabled
  else
  mgr <- rtcdManager ;;
  if decide (mgr = None) then
    kickRTCDInit ;;; m_throw (ErrNew "calls: rtcd service is not configured")
  else
  let max := maxParticipants c in
  full <- limit_reached channelID max ;;
  if full : bool then m_throw ErrMaxParticipants
  else
  now <- GetMillis ;;
  s <- alloc_sess (new_session userID channelID connID now) ;;
  joined <- join_attempts 3 channelID userID connID s max ;;
  match joined with
  | None => m_throw ErrCallNotFound
  | Some (r, callID) => announce_join r callID channelID connID userID now
  end.

Definition handleLeave (connID userID : string) (data : anymap) : CM unit :=
  let channelID := str_field data "channelID" in
  if decide (channelID = "") then m_throw (ErrNew "calls: channelID is required")
  else
  o <- channelCalls_get channelID ;;
  match o with
  | None => m_ret tt
  | Some r =>
      so <- ask r (λ _ cs, findByConn cs connID) ;;
      match so with None => m_ret tt | Some s => teardownSession r s end
  end.

Definition handleReconnect (connID userID_ : string) (data : anymap) : CM unit :=
  let channelID := str_field data "channelID" in
  let originalConnID := str_field data "originalConnID" in
  if bool_decide (channelID = "") || bool_decide (originalConnID = "") then
    m_throw (ErrNew "calls: channelID and originalConnID are required")
  else
  o <- channelCalls_get channelID ;;
  match o with
  | None => m_throw ErrCallNotFound
  | Some r =>
      so <- ask r (λ _ cs, cs_get cs originalConnID) ;;
      match so with
      | None => m_throw ErrSessionNotFound
      | Some s =>
          x <- deref s ;;
          if decide (userID x ≠ userID_) then m_throw ErrSessionNotFound
          else
          ok <- on_call r (λ hs cs, setConn hs cs (sessionID x) connID) ;;
          if negb ok then m_throw ErrSessionNotFound
          else
          on_index (λ ix, repoint ix (sessionID x) originalConnID connID r) ;;;
          m_try (sendToHost r {| cm_Type := ClientMessageReconnect;
                                 cm_Data := DataStr {["sessionID" := originalConnID]} |}) ;;;
          sendCallState r connID
      end
  end.

Definition sessionByConn (connID : string) : CM (sref * cref) :=
  o <- read (λ c, byConnID (index c) connID) ;;
  match o with
  | None => m_throw ErrSessionNotFound
  | Some r =>
      so <- ask r (λ _ cs, findByConn cs connID) ;;
      match so with
      | None => m_throw ErrSessionNotFound
      | Some s => m_ret (s, r)
      end
  end.

Definition encode_payload (payload : any) : CM string :=
  match json_Marshal payload with
  | None => m_throw (ErrNew "calls: failed to encode rtc payload")
  | Some b => m_ret b
  end.

(** rtcPayload: a nil payload stays nil, a string is sent as it is. *)
Definition rtcPayload (data : anymap) : CM (option string) :=
  match any_field data "data" with
  | ANil => m_ret None
  | AStr v => m_ret (Some v)
  | payload => b <- encode_payload payload ;; m_ret (Some b)
  end.

Definition handleRTCRelay (connID userID : string) (msgType : Z) (data : anymap) : CM unit :=
  raw <- match any_field data "data" with
         | AStr v => m_ret v
         | payload => encode_payload payload
         end ;;
  sr <- sessionByConn connID ;;
  x <- deref sr.1 ;;
  callID <- ask sr.2 (λ _ cs, cs_callID cs) ;;
  sendToHost sr.2 (rtcEnvelope (sessionID x) callID userID msgType (Some raw)).

(** The common tail of the presence toggles: tell the SFU, then the state,
    then the channel. *)
Definition toggle (s : sref) (r : cref) (userID : string) (msgType : Z) (raw : option string)
    (set : session → session) (event : string) : CM unit :=
  x <- deref s ;;
  info <- ask r (λ _ cs, (cs_callID cs, cs_channelID cs)) ;;
  sendToHost r (rtcEnvelope (sessionID x) info.1 userID msgType raw) ;;;
  on_call r (λ hs cs, let '(b, hs') := mutate hs cs (sessionID x) set in (b, hs', cs)) ;;;
  publishChannel info.2 event [("userID", AStr userID); ("session_id", AStr (sessionID x))].

Definition handleMuteToggle (connID userID : string) (un : bool) : CM unit :=
  sr <- sessionByConn connID ;;
  toggle sr.1 sr.2 userID (if un then UnmuteMessage else MuteMessage) None (set_unmuted un)
    (if un then "user_unmuted" else "user_muted").

Definition handleScreenToggle (connID userID : string) (on : bool) (data : anymap) : CM unit :=
  c <- read_out cfg ;;
  if on && negb (allowScreenSharing c) then
    m_throw (ErrNew "calls: screen sharing is not allowed")
  else
  sr <- sessionByConn connID ;;
  x <- deref sr.1 ;;
  sharer <- ask sr.2 (λ hs cs, screenSharer hs cs ≫= λ p, sessionID <$> hs !! p) ;;
  if on && match sharer with Some id => negb (bool_decide (id = sessionID x)) | None => false end then
    m_throw (ErrNew "calls: someone else is already sharing their screen")
  else
  raw <- (if on then rtcPayload data else m_ret None) ;;
  toggle sr.1 sr.2 userID (if on then ScreenOnMessage else ScreenOffMessage) raw (set_screenOn on)
    (if on then "user_screen_on" else "user_screen_off").

Definition handleVideoToggle (connID userID : string) (on : bool) (data : anymap) : CM unit :=
  sr <- sessionByConn connID ;;
  raw <- (if on then rtcPayload data else m_ret None) ;;
  toggle sr.1 sr.2 userID (if on then VideoOnMessage else VideoOffMessage) raw (set_videoOn on)
    (if on then "user_video_on" else "user_video_off").

Definition handleRaiseHand (connID userID : string) (raised : bool) : CM unit :=
  sr <- sessionByConn connID ;;
  raisedAt <- (if raised then GetMillis else m_ret 0%Z) ;;
  x <- deref sr.1 ;;
  on_call sr.2 (λ hs cs, let '(b, hs') := mutate hs cs (sessionID x) (set_raisedHandAt raisedAt)
                         in (b, hs', cs)) ;;;
  chan <- ask sr.2 (λ _ cs, cs_channelID cs) ;;
  publishChannel chan (if raised then "user_raise_hand" else "user_unraise_hand")
    [("userID", AStr userID); ("session_id", AStr (sessionID x)); ("raised_hand", AInt raisedAt)].

Definition decode_emoji (raw : any) : CM emojiData :=
  match match raw with
        | AStr v => json_Unmarshal_emoji v
        | _ => json_Marshal raw ≫= json_Unmarshal_emoji
        end with
  | None => m_throw (ErrNew "calls: invalid reaction data")
  | Some e => m_ret e
  end.

Definition handleReact (connID userID : string) (data : anymap) : CM unit :=
  sr <- sessionByConn connID ;;
  emoji <- decode_emoji (any_field data "data") ;;
  if bool_decide (Name emoji = "") && bool_decide (Literal emoji = "") then
    m_throw (ErrNew "calls: empty reaction")
  else
  x <- deref sr.1 ;;
  chan <- ask sr.2 (λ _ cs, cs_channelID cs) ;;
  t <- GetMillis ;;
  publishChannel chan "user_reacted"
    [("user_id", AStr userID); ("session_id", AStr (sessionID x)); ("emoji", toMap emoji);
     ("timestamp", AInt t)].

Definition handleCallStateRequest (connID userID : string) (data : anymap) : CM unit :=
  let channelID := str_field data "channelID" in
  if decide (channelID = "") then m_throw (ErrNew "calls: channelID is required")
  else
  o <- channelCalls_get channelID ;;
  match o with None => m_throw ErrCallNotFound | Some r => sendCallState r connID end.

(** The switch of HandleClientMessage; unknown and ignored actions do nothing. *)
Definition dispatch (connID userID action : string) (data : anymap) : CM unit :=
  if decide (action = "join") then handleJoin connID userID data
  else if decide (action = "leave") then handleLeave connID userID data
  else if decide (action = "reconnect") then handleReconnect connID userID data
  else if decide (action = "sdp") then handleRTCRelay connID userID SDPMessage data
  else if decide (action = "ice") then handleRTCRelay connID userID ICEMessage data
  else if decide (action = "mute") then handleMuteToggle connID userID false
  else if decide (action = "unmute") then handleMuteToggle connID userID true
  else if decide (action = "screen_on") then handleScreenToggle connID userID true data
  else if decide (action = "screen_off") then handleScreenToggle connID userID false ∅
  else if decide (action = "video_on") then handleVideoToggle connID userID true data
  else if decide (action = "video_off") then handleVideoToggle connID userID false data
  else if decide (action = "raise_hand") then handleRaiseHand connID userID true
  else if decide (action = "unraise_hand") then handleRaiseHand connID userID false
  else if decide (action = "react") then handleReact connID userID data
  else if decide (action = "call_state") then handleCallStateRequest connID userID data
  else m_ret tt.

Definition HandleClientMessage (connID userID action : string) (data : anymap) : CM unit :=
  if bool_decide (userID = "") || bool_decide (connID = "") then m_ret tt
  else if negb (isValidMsgType action) then
    sendError connID ("calls: unknown message type " ++ strconv_Quote action)
  else
    r <- m_try (dispatch connID userID action data) ;;
    match r with
    | Ok _ => m_ret tt
    | Err e => sendError connID (err_text e)
    end.
End service.
