(* ===== verification/CallsControl.v ===== *)
(** * Host controls, SFU relay, watchdogs and the step relation

    The remaining entry points of the service (host_controls.go,
    rtcd_relay.go, lifecycle.go) and [step]: one transition per entry point,
    with everything outside the service (configuration changes, pool
    connectivity, timers firing) as environment transitions. *)

From S2P Require Import Prelude.
From S2P Require Import GoString.
From S2P Require Import CallShards.
From S2P Require Import CallState.
From S2P Require Import SessionIndex.
From S2P Require Import CallsConfig.
From S2P Require Import IceServers.
From S2P Require Import CallStore.
From S2P Require Import RtcdPool.
From S2P Require Import CallsWorld.
From S2P Require Import CallsService.

Local Open Scope string_scope.
Local Open Scope go_scope.

Section control.
Context {C : Type} `{RTCDClient C ClientMessage} `{GoRange} `{CallsEnv}.

Abbreviation CM := (M (world C) goerr).

(** ** host_controls.go *)

Definition callForHostAction (callID requester : string) : CM cref :=
  o <- shards_get callID ;;
  match o with
  | None => m_throw ErrCallNotFound
  | Some r =>
      h <- ask r hostUserID ;;
      if decide (h ≠ requester) then m_throw ErrNotCallHost else m_ret r
  end.

Definition MakeHost (callID requester newHost : string) : CM unit :=
  r <- callForHostAction callID requester ;;
  ok <- on_call r (λ hs cs, let '(b, cs') := setHostByUser hs cs newHost in (b, hs, cs')) ;;
  if negb ok then m_throw ErrSessionNotFound
  else
  info <- ask r (λ _ cs, (cs_channelID cs, cs_callID cs)) ;;
  publishChannel info.1 "call_host_changed"
    [("hostID", AStr newHost); ("call_id", AStr info.2)].

(** [sess, ok := cs.get(sessionID); if !ok return ErrSessionNotFound]. *)
Definition get_session (r : cref) (sid : string) : CM sref :=
  so <- ask r (λ _ cs, cs_get cs sid) ;;
  match so with None => m_throw ErrSessionNotFound | Some s => m_ret s end.

Definition with_prefix {A} (pre : string) (m : CM A) : CM A :=
  r <- m_try m ;;
  match r with Ok a => m_ret a | Err e => m_throw (ErrWrap pre e "") end.

Definition host_mutate (r : cref) (sid : string) (f : session → session) : CM bool :=
  on_call r (λ hs cs, let '(b, hs') := mutate hs cs sid f in (b, hs', cs)).

Definition muteOne (r : cref) (sid : string) : CM unit :=
  s <- get_session r sid ;;
  x <- deref s ;;
  info <- ask r (λ _ cs, (cs_channelID cs, cs_callID cs)) ;;
  with_prefix "calls: failed to mute SFU session: "
    (sendToHost r (rtcEnvelope sid info.2 (userID x) MuteMessage None)) ;;;
  host_mutate r sid (set_unmuted false) ;;;
  conn <- ask r (λ hs cs, connIDFor hs cs sid) ;;
  publishTo "host_mute" [("channel_id", AStr info.1); ("session_id", AStr sid)] conn ;;;
  publishChannel info.1 "user_muted" [("userID", AStr (userID x)); ("session_id", AStr sid)].

Definition MuteSession (callID requester sid : string) : CM unit :=
  r <- callForHostAction callID requester ;; muteOne r sid.

Definition MuteOthers (callID requester : string) : CM unit :=
  r <- callForHostAction callID requester ;;
  views <- ask r (λ hs cs, (snapshot hs cs).1) ;;
  m_for views (λ v,
    if negb (sv_Unmuted v) || bool_decide (sv_UserID v = requester) then m_ret tt
    else m_try (muteOne r (sv_ID v)) ;;; m_ret tt).

Definition ScreenOff (callID requester sid : string) : CM unit :=
  r <- callForHostAction callID requester ;;
  s <- get_session r sid ;;
  x <- deref s ;;
  info <- ask r (λ _ cs, (cs_channelID cs, cs_callID cs)) ;;
  with_prefix "calls: failed to stop screen on SFU: "
    (sendToHost r (rtcEnvelope sid info.2 (userID x) ScreenOffMessage None)) ;;;
  host_mutate r sid (set_screenOn false) ;;;
  conn <- ask r (λ hs cs, connIDFor hs cs sid) ;;
  publishTo "host_screen_off" [("channel_id", AStr info.1); ("session_id", AStr sid)] conn ;;;
  publishChannel info.1 "user_screen_off"
    [("userID", AStr (userID x)); ("session_id", AStr sid)].

Definition LowerHand (callID requester sid : string) : CM unit :=
  r <- callForHostAction callID requester ;;
  s <- get_session r sid ;;
  x <- deref s ;;
  host_mutate r sid (set_raisedHandAt 0) ;;;
  chan <- ask r (λ _ cs, cs_channelID cs) ;;
  conn <- ask r (λ hs cs, connIDFor hs cs sid) ;;
  publishTo "host_lower_hand"
    [("channel_id", AStr chan); ("session_id", AStr sid); ("host_id", AStr requester)] conn ;;;
  publishChannel chan "user_unraise_hand"
    [("userID", AStr (userID x)); ("session_id", AStr sid); ("raised_hand", AInt 0)].

(** A compare-and-swap on the session object; [true] for the first caller. *)
Definition cas_session (p : sref) (f : session → bool * session) : CM bool :=
  x <- deref p ;;
  setfield p (λ y, (f y).2) ;;; m_ret (f x).1.

Definition RemoveSession (callID requester sid : string) : CM unit :=
  r <- callForHostAction callID requester ;;
  s <- get_session r sid ;;
  won <- cas_session s markRemoved ;;
  if negb won then m_ret tt
  else
  x <- deref s ;;
  chan <- ask r (λ _ cs, cs_channelID cs) ;;
  conn <- ask r (λ hs cs, connIDFor hs cs sid) ;;
  publishTo "host_removed" [("channel_id", AStr chan); ("session_id", AStr sid)] conn ;;;
  publishChannel chan "user_removed"
    [("user_id", AStr (userID x)); ("session_id", AStr sid); ("host_id", AStr requester)] ;;;
  teardownSession r s.

Definition EndCallByHost (callID requester : string) : CM unit :=
  callForHostAction callID requester ;;; EndCall callID.

(** ** rtcd_relay.go *)

Definition relayRTCMessage (m : rtcMessage) : CM unit :=
  o <- read (λ c, bySessionID (index c) (rm_SessionID m)) ;;
  match o with
  | None => m_ret tt
  | Some r =>
      if bool_decide (rm_Type m = VoiceOnMessage) || bool_decide (rm_Type m = VoiceOffMessage) then
        let voiceOn := bool_decide (rm_Type m = VoiceOnMessage) in
        host_mutate r (rm_SessionID m) (set_voiceOn voiceOn) ;;;
        chan <- ask r (λ _ cs, cs_channelID cs) ;;
        publishChannel chan (if voiceOn then "user_voice_on" else "user_voice_off")
          [("userID", AStr (rm_UserID m)); ("session_id", AStr (rm_SessionID m))]
      else
        match rm_Data m with
        | None => m_ret tt
        | Some d =>
            conn <- ask r (λ hs cs, connIDFor hs cs (rm_SessionID m)) ;;
            publishTo "signal" [("data", AStr d); ("connID", AStr (rm_SessionID m))] conn
        end
  end.

Definition handle_close (d : messageData) : CM unit :=
  match closeMessageData d with
  | None => m_ret tt
  | Some data =>
      let sid := default "" (data !! "sessionID") in
      if decide (sid = "") then m_ret tt
      else
      o <- read (λ c, bySessionID (index c) sid) ;;
      match o with
      | None => m_ret tt
      | Some r =>
          so <- ask r (λ _ cs, cs_get cs sid) ;;
          match so with
          | None => m_ret tt
          | Some s =>
              won <- cas_session s markRTCclosed ;;
              if won : bool then teardownSession r s else m_ret tt
          end
      end
  end.

Definition handleRTCDMessage (msg : ClientMessage) : CM unit :=
  if bool_decide (cm_Type msg = ClientMessageRTC) || bool_decide (cm_Type msg = ClientMessageVAD) then
    match cm_Data msg with
    | DataRTC m => relayRTCMessage m
    | _ => m_ret tt
    end
  else if decide (cm_Type msg = ClientMessageClose) then handle_close (cm_Data msg)
  else m_ret tt.

(** ** lifecycle.go *)

Definition HandleWSDisconnect (connID : string) : CM unit :=
  if decide (connID = "") then m_ret tt
  else
  o <- read (λ c, byConnID (index c) connID) ;;
  match o with
  | None => m_ret tt
  | Some r =>
      so <- ask r (λ _ cs, findByConn cs connID) ;;
      match so with
      | None => m_ret tt
      | Some s => modify_out (λ o, with_timers (Timer r s connID :: timers o) o)
      end
  end.

(** The deferred half, run when the grace window is over. *)
Definition timer_fires (t : timer) : CM unit :=
  cur <- ask (t_cs t) (λ _ cs, findByConn cs (t_conn t)) ;;
  e <- ask (t_cs t) (λ _ cs, ended cs) ;;
  if bool_decide (cur ≠ Some (t_sess t)) || e then m_ret tt
  else teardownSession (t_cs t) (t_sess t).

Definition reapIdleCalls : CM unit :=
  rs <- read (λ c, reg_all (shards c)) ;;
  m_for rs (λ r,
    e <- ask r (λ _ cs, ended cs) ;;
    n <- ask r (λ _ cs, participants cs) ;;
    if e || bool_decide (0 < n)%Z then m_ret tt
    else now <- GetMillis ;; m_try (endCallState r now) ;;; m_ret tt).

(** ** Entry points *)

Inductive request :=
  | ReqMessage (connID userID action : string) (data : anymap)
  | ReqStartCall (channelID ownerID postID : string)
  | ReqEndCall (callID : string)
  | ReqMakeHost (callID requester newHost : string)
  | ReqMute (callID requester sid : string)
  | ReqMuteOthers (callID requester : string)
  | ReqScreenOff (callID requester sid : string)
  | ReqLowerHand (callID requester sid : string)
  | ReqRemove (callID requester sid : string)
  | ReqEndByHost (callID requester : string)
  | ReqSetEnabled (channelID : string) (enabled : bool) (userID : string)
  | ReqDismiss (channelID userID : string)
  | ReqRTCD (msg : ClientMessage)
  | ReqDisconnect (connID : string)
  | ReqReap.

Definition ignore {A} (m : CM A) : CM unit := m_try m ;;; m_ret tt.

Definition serve (q : request) : CM unit :=
  match q with
  | ReqMessage conn u a d => HandleClientMessage conn u a d
  | ReqStartCall ch o p => ignore (StartCall ch o p)
  | ReqEndCall id => ignore (EndCall id)
  | ReqMakeHost id r n => ignore (MakeHost id r n)
  | ReqMute id r s => ignore (MuteSession id r s)
  | ReqMuteOthers id r => ignore (MuteOthers id r)
  | ReqScreenOff id r s => ignore (ScreenOff id r s)
  | ReqLowerHand id r s => ignore (LowerHand id r s)
  | ReqRemove id r s => ignore (RemoveSession id r s)
  | ReqEndByHost id r => ignore (EndCallByHost id r)
  | ReqSetEnabled ch e u => ignore (SetCallsChannelEnabled ch e u)
  | ReqDismiss ch u => ignore (DismissNotification ch u)
  | ReqRTCD m => handleRTCDMessage m
  | ReqDisconnect conn => HandleWSDisconnect conn
  | ReqReap => reapIdleCalls
  end.

(** One transition: a request, a pending timer, or the environment changing
    the configuration, the pool, the init flag or the database. *)
Inductive step : world C → world C → Prop :=
  | step_request q w : step w (snd (serve q w))
  | step_timer pre t post w :
      timers (w_out w) = (pre ++ t :: post)%list →
      step w (snd (timer_fires t (upd_out (with_timers (pre ++ post)%list) w)))
  | step_env w o' : timers o' = timers (w_out w) → step w (World (w_core w) o').

(** service.go New: empty registries, [n] shards. *)
Definition init_core (n : Z) : core :=
  Core ∅ ∅ (newShardRegistry n) newSessionRegistry newChannelIndex 0.

Definition init_world (conf : CallsSettings) (pool : option (rtcdClientManager C)) : world C :=
  World (init_core (shardCountFor (Some conf)))
    (Outer conf pool false empty_callsDB [] [] [] 0).
End control.
