(* ===== verification/CallsInv.v ===== *)
(** * The service invariant

    [Inv] ties the shard registry, the channel index and the heaps together;
    it holds initially and every transition keeps it, whatever the browsers,
    the SFU, the database and the timers do.  Its main consequence is the
    service's central promise: at most one live call per channel. *)

From S2P Require Import Prelude.
From S2P Require Import GoString.
From S2P Require Import CallShards.
From S2P Require Import CallState.
From S2P Require Import SessionIndex.
From S2P Require Import CallsConfig.
From S2P Require Import IceServers.
From S2P Require Import CallStore.
From S2P Require Import RtcdPool.
From S2P Require Import CallsWorld.
From S2P Require Import CallsService.
From S2P Require Import CallsControl.

Section inv.
Context {C : Type} `{RTCDClient C ClientMessage} `{GoRange} `{!CallsEnv, !CallsEnvOk}.

(** A bound on the participants of a call; [L ≤ 0] asks for none. *)
Context (L : Z).

Definition within (n : Z) : Prop := (0 < L → n ≤ L)%Z.

(** ** Statement *)

(** [m] is the registry's content as one map. *)
Record reg_inv (c : core) (m : gmap string cref) : Prop := {
  ri_slot : ∀ id r, m !! id = Some r → ∃ cs, calls c !! r = Some cs ∧ cs_callID cs = id ∧
    cs_endAt cs = 0%Z ∧ channelCalls c !! cs_channelID cs = Some r;
  ri_chan : ∀ ch r, channelCalls c !! ch = Some r → ∃ cs, calls c !! r = Some cs ∧
    cs_channelID cs = ch ∧ m !! cs_callID cs = Some r;
  ri_wf : ∀ r cs, calls c !! r = Some cs → call_wf (sess c) cs;
  ri_ids : ∀ r cs, calls c !! r = Some cs → ∃ k, k < nextId c ∧ cs_callID cs = new_id k;
  ri_limit : ∀ r cs, calls c !! r = Some cs → within (participants cs);
}.

Definition core_inv (c : core) : Prop := ∃ m, models (shards c) m ∧ reg_inv c m.

Definition Inv (w : world C) : Prop := core_inv (w_core w).

Lemma init_core_inv n : core_inv (init_core n).
Proof. exists ∅. split; [apply newShardRegistry_models|]. by split. Qed.

(** ** Preservation by the primitives *)

Lemma frames_Inv {A} (p : M (world C) goerr A) : frames w_core p → preserves Inv p.
Proof. intros Hf. by apply (frames_preserves w_core core_inv). Qed.

(** A change of heaps, index and counter that keeps what [Inv] reads. *)
Lemma core_inv_heap c c' :
  core_inv c → shards c' = shards c → channelCalls c' = channelCalls c → nextId c ≤ nextId c' →
  (∀ r cs, calls c' !! r = Some cs → ∃ cs0, calls c !! r = Some cs0 ∧
     cs_callID cs = cs_callID cs0 ∧ cs_channelID cs = cs_channelID cs0 ∧
     cs_endAt cs = cs_endAt cs0 ∧ (within (participants cs0) → within (participants cs))) →
  (∀ r, is_Some (calls c !! r) → is_Some (calls c' !! r)) →
  (∀ r cs, calls c' !! r = Some cs → call_wf (sess c') cs) →
  core_inv c'.
Proof.
  intros (m & Hm & [Hslot Hchan Hwf Hids Hlim]) Hs Hcc Hn Hback Hdom Hwf'.
  exists m. rewrite Hs. split; [done|]. split.
  - intros id r Hid. destruct (Hslot _ _ Hid) as (cs & Hcs & ? & ? & ?).
    destruct (Hdom r) as [cs' Hcs']; [by eexists|]. destruct (Hback _ _ Hcs') as (cs0 & ? & ? & ? & ? & _).
    exists cs'. rewrite Hcc. simplify_eq. split_and!; congruence.
  - intros ch r Hch. rewrite Hcc in Hch. destruct (Hchan _ _ Hch) as (cs & Hcs & ? & ?).
    destruct (Hdom r) as [cs' Hcs']; [by eexists|]. destruct (Hback _ _ Hcs') as (cs0 & ? & ? & ? & ? & _).
    exists cs'. simplify_eq. split_and!; congruence.
  - done.
  - intros r cs Hcs. destruct (Hback _ _ Hcs) as (cs0 & Hcs0 & Hid & _).
    destruct (Hids _ _ Hcs0) as (k & Hk & Heq). exists k. split; [lia|congruence].
  - intros r cs Hcs. destruct (Hback _ _ Hcs) as (cs0 & Hcs0 & _ & _ & _ & Hl). eauto.
Qed.

(** A method that keeps the call's identity, its end mark and its invariant. *)
Definition calm {A} (f : sheap → callState → A * sheap * callState) : Prop :=
  ∀ hs cs, call_wf hs cs →
    ids_kept hs (f hs cs).1.2 ∧ call_wf (f hs cs).1.2 (f hs cs).2 ∧
    cs_callID (f hs cs).2 = cs_callID cs ∧ cs_channelID (f hs cs).2 = cs_channelID cs ∧
    cs_endAt (f hs cs).2 = cs_endAt cs ∧ (participants (f hs cs).2 ≤ participants cs)%Z.

Lemma preserves_on_call {A} r (f : sheap → callState → A * sheap * callState) :
  calm f → preserves Inv (on_call r f).
Proof.
  intros Hf w HI. unfold Inv. unfold on_call, ask, read, modify_core, m_bind, m_gets, m_modify, m_ret; simpl.
  set (cs := call_at (w_core w) r).
  assert (call_wf (sess (w_core w)) cs) as Hcs.
  { unfold cs, call_at. destruct (calls (w_core w) !! r) as [x|] eqn:E; simpl.
    - destruct HI as (m & _ & Hr). by eapply ri_wf.
    - apply newCallState_wf. }
  destruct (Hf _ _ Hcs) as (Hk & Hwf & Hid & Hch & He & Hp).
  destruct (f (sess (w_core w)) cs) as [[a hs'] cs'] eqn:Ef; simpl in *.
  apply (core_inv_heap (w_core w)); simpl; try done.
  - intros r' x Hx. rewrite lookup_alter in Hx. case_decide; [subst r'|by exists x; eauto 10].
    unfold cs, call_at in *. destruct (calls (w_core w) !! r) as [y|] eqn:E; simplify_eq/=.
    exists y. split_and!; try done. unfold within. intros Hy Hl. specialize (Hy Hl). lia.
  - intros r' Hr'. rewrite lookup_alter. case_decide; [subst; by apply fmap_is_Some|done].
  - intros r' x Hx. rewrite lookup_alter in Hx. case_decide.
    + subst r'. destruct (calls (w_core w) !! r); simplify_eq/=. done.
    + apply (call_wf_ids_kept (sess (w_core w))); [done|].
      destruct HI as (m & _ & Hr). by eapply ri_wf.
Qed.

(** The calls themselves are untouched. *)
Lemma core_inv_calls c c' :
  core_inv c → calls c' = calls c → shards c' = shards c → channelCalls c' = channelCalls c →
  nextId c ≤ nextId c' → ids_kept (sess c) (sess c') → core_inv c'.
Proof.
  intros Hc Heq Hs Hcc Hn Hk. apply (core_inv_heap c); try done; rewrite Heq; [by eauto 10|done|].
  intros r cs Hcs. apply (call_wf_ids_kept (sess c)); [done|].
  destruct Hc as (m & _ & []). eauto.
Qed.

Lemma preserves_on_index f : preserves Inv (on_index f).
Proof. intros w HI. by apply (core_inv_calls (w_core w)); try apply ids_kept_refl. Qed.

Lemma preserves_NewId : preserves Inv NewId.
Proof.
  intros w HI. by apply (core_inv_calls (w_core w)); simpl; eauto using ids_kept_refl.
Qed.

Lemma preserves_setfield p f : identity_kept f → preserves Inv (setfield p f).
Proof.
  intros Hf w HI. apply (core_inv_calls (w_core w)); simpl; eauto using ids_kept_alter.
Qed.

Lemma preserves_cas_session p f :
  identity_kept (λ x, (f x).2) →
  preserves Inv (cas_session p f).
Proof.
  intros Hf. unfold cas_session. apply preserves_bind; [by apply frames_Inv, frames_read|].
  intros x. apply preserves_bind; [by apply preserves_setfield|]. intros _. apply preserves_ret.
Qed.

Lemma preserves_markRemoved p : preserves Inv (cas_session p markRemoved).
Proof. apply preserves_cas_session. intros x. unfold markRemoved. by case_decide. Qed.

Lemma preserves_markRTCclosed p : preserves Inv (cas_session p markRTCclosed).
Proof. apply preserves_cas_session. intros x. unfold markRTCclosed. by case_decide. Qed.

(** ** The mutating methods are calm *)

Lemma calm_mutate sid f :
  identity_kept f →
  calm (λ hs cs, let '(b, hs') := mutate hs cs sid f in (b, hs', cs)).
Proof.
  intros Hf hs cs Hwf. unfold mutate. destruct (cs_sessions cs !! sid); simpl.
  - split_and!; try done; [by apply ids_kept_alter|].
    eapply call_wf_ids_kept; [by apply ids_kept_alter|done].
  - split_and!; try done. apply ids_kept_refl.
Qed.

Lemma calm_removeSession sid :
  calm (λ hs cs, let '(o, cs') := removeSession hs cs sid in (o, hs, cs')).
Proof.
  intros hs cs Hwf. pose proof (removeSession_wf hs cs sid Hwf) as Hwf'.
  unfold removeSession in *. destruct (cs_sessions cs !! sid) eqn:E; simpl in *;
    split_and!; try done; try apply ids_kept_refl.
  unfold participants; simpl. rewrite map_size_delete, E. lia.
Qed.

Lemma calm_setHostByUser u :
  calm (λ hs cs, let '(b, cs') := setHostByUser hs cs u in (b, hs, cs')).
Proof.
  intros hs cs Hwf. pose proof (setHostByUser_wf hs cs u Hwf) as Hwf'.
  unfold setHostByUser in *. destruct (list_find _ _) as [[? [? ?]]|]; simpl in *;
    split_and!; try done; apply ids_kept_refl.
Qed.

Lemma calm_setConn sid c : calm (λ hs cs, setConn hs cs sid c).
Proof.
  intros hs cs Hwf. pose proof (setConn_ids_kept hs cs sid c) as Hk.
  pose proof (setConn_wf hs cs sid c Hwf) as Hwf'.
  unfold setConn in *. destruct (cs_sessions cs !! sid); simpl in *; by split_and!.
Qed.
End inv.

#[export] Hint Resolve preserves_on_index preserves_NewId calm_removeSession calm_setHostByUser
  calm_setConn : go.
#[export] Hint Resolve preserves_on_call : go.
#[export] Hint Extern 2 (preserves (Inv _) _) => apply frames_Inv; solve [auto with go] : go.
#[export] Hint Extern 2 (calm (λ _ _, let '(_, _) := mutate _ _ _ _ in _)) =>
  apply calm_mutate; by intros : go.
#[export] Hint Resolve preserves_markRemoved preserves_markRTCclosed : go.

(** Symbolic execution of a handler against a preserved predicate. *)
Ltac preserve :=
  repeat first
    [ progress intros
    | solve [auto with go]
    | apply preserves_bind
    | apply preserves_try
    | apply preserves_for
    | case_step ].
