(* ===== verification/CallsSafety.v ===== *)
(** * Every transition keeps the service invariant

    The compound operations (end of call, start of call, join) leave [Inv] for
    a while: a call is marked before it is unregistered, a call is registered
    before its channel entry exists.  [unregister_ends] and [pending] describe
    those windows; [step_Inv] closes the rule induction over [step]. *)

From S2P Require Import Prelude.
From S2P Require Import GoString.
From S2P Require Import CallShards.
From S2P Require Import CallState.
From S2P Require Import SessionIndex.
From S2P Require Import CallsConfig.
From S2P Require Import IceServers.
From S2P Require Import CallStore.
From S2P Require Import RtcdPool.
From S2P Require Import CallsWorld.
From S2P Require Import CallsService.
From S2P Require Import CallsControl.
From S2P Require Import CallsInv.

Local Open Scope string_scope.
Local Open Scope go_scope.

Section safety.
Context {C : Type} `{RTCDClient C ClientMessage} `{GoRange} `{!CallsEnv, !CallsEnvOk}.

Context (L : Z).

Abbreviation CM := (M (world C) goerr).
Abbreviation Inv := (CallsInv.Inv L).
Abbreviation core_inv := (CallsInv.core_inv L).
Abbreviation reg_inv := (CallsInv.reg_inv L).
Abbreviation keeps p := (preserves (Inv : world C → Prop) p).
Abbreviation within := (CallsInv.within L).

(** ** Evaluating the primitives *)

Lemma wp_frames {A} (p : CM A) (Q : res goerr A → world C → Prop) w :
  frames w_core p → (∀ r w', w_core w' = w_core w → Q r w') → wp p Q w.
Proof. intros Hf HQ. unfold wp. apply HQ, Hf. Qed.

Lemma wp_bind_frames {A B} (p : CM A) (k : A → CM B) (Q : res goerr B → core → Prop) w :
  frames w_core p → (∀ e, Q (Err e) (w_core w)) →
  (∀ a w', w_core w' = w_core w → wp (k a) (λ r v, Q r (w_core v)) w') →
  wp (m_bind p k) (λ r v, Q r (w_core v)) w.
Proof.
  intros Hf He Hk. apply wp_bind, wp_frames; [done|]. intros [a|e] w' Hw; [by apply Hk|].
  rewrite Hw. apply He.
Qed.

Lemma wp_bind_calm {A B} (p : CM A) (k : A → CM B) (Q : res goerr B → world C → Prop) w :
  frames w_core p → no_err p →
  (∀ a w', w_core w' = w_core w → wp (k a) Q w') → wp (m_bind p k) Q w.
Proof.
  intros Hf Hn Hk. apply wp_bind. unfold wp at 1. specialize (Hf w).
  destruct (Hn w) as [a ->]. by apply Hk.
Qed.

Lemma wp_bind_try_frames {A B} (p : CM A) (k : res goerr A → CM B)
    (Q : res goerr B → core → Prop) w :
  frames w_core p →
  (∀ a w', w_core w' = w_core w → wp (k a) (λ r v, Q r (w_core v)) w') →
  wp (m_bind (m_try p) k) (λ r v, Q r (w_core v)) w.
Proof. intros Hf Hk. apply wp_bind, wp_try, wp_frames; [done|]. auto. Qed.

Lemma wp_GetMillis (Q : res goerr Z → world C → Prop) w :
  (∀ t w', w_core w' = w_core w → Q (Ok t) w') → wp GetMillis Q w.
Proof. intros HQ. by apply HQ. Qed.

Lemma wp_read {A} (f : core → A) (Q : res goerr A → world C → Prop) w :
  Q (Ok (f (w_core w))) w → wp (read f) Q w.
Proof. done. Qed.

Lemma wp_ask {A} r (f : sheap → callState → A) (Q : res goerr A → world C → Prop) w :
  Q (Ok (f (sess (w_core w)) (call_at (w_core w) r))) w → wp (ask r f) Q w.
Proof. done. Qed.

Lemma wp_modify_core f (Q : res goerr unit → world C → Prop) w :
  Q (Ok tt) (upd_core f w) → wp (modify_core f) Q w.
Proof. done. Qed.

Lemma wp_on_call {A} r (f : sheap → callState → A * sheap * callState)
    (Q : res goerr A → world C → Prop) w :
  (let '(a, hs, cs) := f (sess (w_core w)) (call_at (w_core w) r) in
   Q (Ok a) (upd_core (λ c, with_sess hs (with_calls (alter (λ _, cs) r (calls c)) c)) w)) →
  wp (on_call r f) Q w.
Proof.
  unfold on_call, ask, read, modify_core, wp, m_bind, m_gets, m_modify, m_ret; simpl.
  by destruct (f _ _) as [[??]?].
Qed.

(** The owner-guarded shard removal, against the flat map. *)
Lemma wp_shards_deleteIf id r m (Q : res goerr bool → world C → Prop) w :
  models (shards (w_core w)) m →
  (∀ sh, models sh (if decide (m !! id = Some r) then delete id m else m) →
    Q (Ok (bool_decide (m !! id = Some r))) (upd_core (with_shards sh) w)) →
  wp (on_shards false (λ c, reg_deleteIf (shards c) id r)) Q w.
Proof.
  intros Hm HQ. destruct (reg_deleteIf_models _ _ id r Hm) as (sh & Heq & Hsh).
  unfold on_shards. apply wp_bind, wp_read. rewrite Heq.
  apply wp_bind, wp_modify_core, wp_ret, HQ, Hsh.
Qed.

(** ** End of call *)

(** The two removals restore the invariant after the end mark. *)
Lemma unregister_ends r now c0 (w : world C) :
  core_inv c0 →
  w_core w = with_calls (alter (with_endAt now) r (calls c0)) c0 →
  Inv (snd (unregister r (call_at (w_core w) r) w)).
Proof.
  intros (m & Hm & Hinv) Hw. destruct Hinv as [Hslot Hchan Hwf Hids Hlim].
  set (info := call_at (w_core w) r).
  assert (∀ cs, calls c0 !! r = Some cs → info = with_endAt now cs) as Hinfo.
  { intros cs Hcs. unfold info, call_at. by rewrite Hw; simpl; rewrite lookup_alter_eq, Hcs. }
  assert (∀ id, m !! id = Some r → id = cs_callID info) as Hown.
  { intros id Hr. destruct (Hslot _ _ Hr) as (cs & Hcs & <- & _). by rewrite (Hinfo _ Hcs). }
  assert (∀ ch, channelCalls c0 !! ch = Some r → ch = cs_channelID info) as Hownc.
  { intros ch Hr. destruct (Hchan _ _ Hr) as (cs & Hcs & <- & _). by rewrite (Hinfo _ Hcs). }
  change (wp (unregister r info) (λ _ w', Inv w') w). unfold unregister.
  apply wp_bind, (wp_shards_deleteIf _ _ m); [by rewrite Hw|]. intros sh Hsh.
  apply wp_bind, wp_read, wp_bind, wp_modify_core, wp_ret.
  eexists. split; [exact Hsh|]. simpl. rewrite ci_deleteIf_map, Hw. split; simpl.
  - intros id r' [Hid Hne]%delete_owned_lookup; [|done].
    destruct (Hslot _ _ Hid) as (cs & Hcs & ? & ? & Hcc). exists cs.
    rewrite lookup_alter_ne by done. split_and!; try done. by apply delete_owned_lookup.
  - intros ch r' [Hch Hne]%delete_owned_lookup; [|done].
    destruct (Hchan _ _ Hch) as (cs & Hcs & ? & Hid). exists cs.
    rewrite lookup_alter_ne by done. split_and!; try done. by apply delete_owned_lookup.
  - intros r' cs Hcs. rewrite lookup_alter in Hcs. case_decide; [subst|by eauto].
    destruct (calls c0 !! r') as [cs0|] eqn:E; simplify_eq/=.
    destruct (Hwf _ _ E). by split.
  - intros r' cs Hcs. rewrite lookup_alter in Hcs. case_decide; [subst|by eauto].
    destruct (calls c0 !! r') as [cs0|] eqn:E; simplify_eq/=. apply (Hids _ _ E).
  - intros r' cs Hcs. rewrite lookup_alter in Hcs. case_decide; [subst|by eauto].
    destruct (calls c0 !! r') as [cs0|] eqn:E; simplify_eq/=. apply (Hlim _ _ E).
Qed.

Lemma alter_call_at c r f :
  alter (λ _, f (call_at c r)) r (calls c) = alter f r (calls c).
Proof.
  apply map_eq. intros k. rewrite !lookup_alter. case_decide; [subst|done].
  unfold call_at. by destruct (calls c !! k).
Qed.

Lemma upd_call_same r w :
  upd_core (C:=C) (λ c, with_sess (sess (w_core w))
    (with_calls (alter (λ _, call_at (w_core w) r) r (calls c)) c)) w = w.
Proof.
  destruct w as [[cl se sh ix cc ni] o]. unfold upd_core; simpl. do 2 f_equal.
  unfold with_sess, with_calls; simpl. f_equal.
  apply map_eq. intros k. rewrite lookup_alter. case_decide; [subst|done].
  unfold call_at; simpl. by destruct (cl !! _).
Qed.

Lemma preserves_persist_end a b n p s t : keeps (persist_end a b n p s t).
Proof. unfold persist_end. preserve. Qed.

Lemma preserves_close_session r sid : keeps (close_session r sid).
Proof. unfold close_session. preserve. Qed.

Lemma frames_endCallPost p l : frames w_core (endCallPost (C:=C) p l).
Proof. unfold endCallPost. frames_tac. Qed.

Lemma frames_createCallPost r o : frames w_core (createCallPost (C:=C) r o).
Proof. unfold createCallPost. frames_tac. Qed.

Lemma no_err_createCallPost r o : no_err (createCallPost (C:=C) r o).
Proof. unfold createCallPost. no_err_tac. Qed.

Hint Resolve no_err_createCallPost preserves_persist_end preserves_close_session frames_endCallPost
  frames_createCallPost : go.

Lemma preserves_endCallState r now : keeps (endCallState r now).
Proof.
  apply preserves_wp. intros w HI. unfold endCallState.
  apply wp_bind, wp_on_call. unfold markEnded.
  destruct (decide (0 < _)%Z) as [He|He]; simpl.
  - apply wp_throw. by rewrite upd_call_same.
  - do 3 apply wp_bind, wp_ask. apply wp_bind. unfold wp at 1. set (w1 := upd_core _ w).
    assert (w_core w1 = with_calls (alter (with_endAt now) r (calls (w_core w))) (w_core w)) as Hw1.
    { unfold w1; simpl. by rewrite (alter_call_at (w_core w) r (with_endAt now)). }
    pose proof (unregister_ends r now _ w1 HI Hw1) as HI1.
    destruct (unregister r (call_at (w_core w1) r) w1) as [[owned|e] w2]; simpl in *; [|done].
    apply wp_preserves; [|done]. clear. preserve.
Qed.

(** ** Start of call *)

(** A call that is registered under its id but has no channel entry yet. *)
Definition pending (m : gmap string cref) (ch id : string) (r : cref) (c : core) : Prop :=
  models (shards c) (<[id := r]> m) ∧ reg_inv c m ∧ m !! id = None ∧
    channelCalls c !! ch = None ∧
    ∃ cs, calls c !! r = Some cs ∧ cs_callID cs = id ∧ cs_channelID cs = ch ∧ cs_endAt cs = 0%Z.

(** The call a successful start hands out: registered, live, in its channel. *)
Definition started (ch : string) (res : StartResult) (c : core) : Prop :=
  ∃ r cs, reg_get (shards c) (sr_CallID res) = Some r ∧ channelCalls c !! ch = Some r ∧
    calls c !! r = Some cs ∧ cs_callID cs = sr_CallID res ∧ cs_channelID cs = ch ∧
    cs_endAt cs = 0%Z.

Lemma pending_abort m ch id r w (Q : res goerr bool → world C → Prop) :
  pending m ch id r (w_core w) →
  (∀ b w', Inv w' → sess (w_core w') = sess (w_core w) →
    calls (w_core w') = calls (w_core w) → channelCalls (w_core w') = channelCalls (w_core w) →
    models (shards (w_core w')) m → Q (Ok b) w') →
  wp (on_shards false (λ c, reg_deleteIf (shards c) id r)) Q w.
Proof.
  intros (Hm & Hinv & Hid & _) HQ. apply (wp_shards_deleteIf _ _ _ _ _ Hm).
  intros sh Hsh. rewrite decide_True in Hsh by apply lookup_insert_eq.
  rewrite delete_insert_id in Hsh by done. apply HQ; try done. exists m. split; [done|]. by destruct Hinv.
Qed.

Lemma pending_commit m ch id r c :
  pending m ch id r c → core_inv (with_channelCalls (ci_set (channelCalls c) ch r) c).
Proof.
  intros (Hm & [Hslot Hchan Hwf Hids Hlim] & Hid & Hch & cs & Hcs & Hcid & Hcch & He).
  exists (<[id := r]> m). split; [done|]. unfold ci_set. split; simpl; try done.
  - intros id' r' [[<- <-]|[Hne Hr']]%lookup_insert_Some.
    + exists cs. rewrite Hcch, lookup_insert_eq. done.
    + destruct (Hslot _ _ Hr') as (cs' & ? & ? & ? & Hcc). exists cs'. split_and!; try done.
      rewrite lookup_insert_ne; [done|]. intros Heq. congruence.
  - intros ch' r' [[<- <-]|[Hne Hr']]%lookup_insert_Some.
    + exists cs. rewrite Hcid, lookup_insert_eq. done.
    + destruct (Hchan _ _ Hr') as (cs' & ? & ? & Hcc). exists cs'. split_and!; try done.
      rewrite lookup_insert_ne; [done|]. intros Heq. congruence.
Qed.

(** Allocating and registering a call under a new id never finds another
    call in the slot: [created] is always true. *)
Lemma register_pending m ch id r cs c sh0 :
  models (shards c) m → reg_inv c m → channelCalls c !! ch = None → calls c !! r = None →
  id = new_id (nextId c) → cs_callID cs = id → cs_channelID cs = ch → cs_endAt cs = 0%Z →
  call_wf (sess c) cs → cs_sessions cs = ∅ →
  let c1 := with_calls (<[r := cs]> (calls c)) (with_nextId (S (nextId c)) c) in
  sh0 = shards c1 →
  ∃ sh, reg_getOrCreateLive (ended_at c1) sh0 id r = Some (r, true, sh) ∧
    pending m ch id r (with_shards sh c1).
Proof.
  intros Hm [Hslot Hchan Hwf Hids Hlim] Hch Hr Hid Hcid Hcch He Hcswf Hemp c1 ->.
  assert (m !! id = None) as Hnone.
  { destruct (m !! id) as [r'|] eqn:E; [|done]. destruct (Hslot _ _ E) as (cs' & Hcs' & Hid' & _).
    destruct (Hids _ _ Hcs') as (k & Hk & Heq). assert (k = nextId c); [|lia].
    apply new_id_inj. congruence. }
  destruct (reg_getOrCreateLive_models (ended_at c1) _ _ id r Hm) as (sh & Hsh).
  rewrite Hnone in Hsh. destruct Hsh as [Heq Hsh]. exists sh. split; [exact Heq|].
  assert (∀ r' cs', calls c !! r' = Some cs' → <[r := cs]> (calls c) !! r' = Some cs') as Hkeep.
  { intros r' cs' Hr'. rewrite lookup_insert_ne; [done|]. intros ->. congruence. }
  unfold pending. simpl. split_and!; try done; [split; simpl|exists cs; by rewrite lookup_insert_eq].
  - intros id' r' Hr'. destruct (Hslot _ _ Hr') as (cs' & ? & ?). eauto.
  - intros ch' r' Hr'. destruct (Hchan _ _ Hr') as (cs' & ? & ?). eauto.
  - intros r' cs' [[<- <-]|[Hne Hr']]%lookup_insert_Some; eauto.
  - intros r' cs' [[<- <-]|[Hne Hr']]%lookup_insert_Some.
    + exists (nextId c). split; [lia|congruence].
    + destruct (Hids _ _ Hr') as (k & ? & ?). exists k. split; [lia|done].
  - intros r' cs' [[<- <-]|[Hne Hr']]%lookup_insert_Some; [|by eauto].
    unfold participants. rewrite Hemp. intros ?. rewrite map_size_empty. lia.
Qed.

Lemma pending_started m ch id r c res :
  pending m ch id r c → sr_CallID res = id →
  started ch res (with_channelCalls (ci_set (channelCalls c) ch r) c).
Proof.
  intros (Hm & _ & _ & _ & cs & Hcs & Hcid & Hcch & He) Hres. exists r, cs; simpl.
  rewrite (models_get _ _ Hm), Hres, lookup_insert_eq. unfold ci_set.
  by rewrite lookup_insert_eq, Hcid.
Qed.

(** Every channel entry is a registered live call. *)
Lemma channel_entry ch r c :
  core_inv c → channelCalls c !! ch = Some r →
  ∃ cs, calls c !! r = Some cs ∧ cs_channelID cs = ch ∧ cs_endAt cs = 0%Z ∧
    reg_get (shards c) (cs_callID cs) = Some r.
Proof.
  intros (m & Hm & [Hslot Hchan _ _ _]) Hch. destruct (Hchan _ _ Hch) as (cs & Hcs & ? & Hid).
  exists cs. destruct (Hslot _ _ Hid) as (cs' & Hcs' & _ & He & _). simplify_eq.
  by rewrite (models_get _ _ Hm).
Qed.

Lemma getLive_entry c ch :
  core_inv c → getLive (ended_at c) (channelCalls c) ch = channelCalls c !! ch.
Proof.
  intros Hc. unfold getLive, ci_get. destruct (channelCalls c !! ch) as [r|] eqn:E; [|done].
  destruct (channel_entry _ _ _ Hc E) as (cs & Hcs & _ & He & _).
  unfold ended_at, ended, call_at. by rewrite Hcs, bool_decide_false by (simpl; lia).
Qed.

(** The specification of StartCall the join loop relies on. *)
Record start_post (m : gmap string cref) (ch : string) (c0 : core) (r : res goerr StartResult) (c : core) : Prop := {
  sp_inv : core_inv c;
  sp_sess : sess c = sess c0;
  sp_calls : ∀ r cs, calls c !! r = Some cs → calls c0 !! r = Some cs ∨ cs_sessions cs = ∅;
  sp_started : ∀ res, r = Ok res → started ch res c;
  sp_err : ∀ e, r = Err e → models (shards c) m ∧ channelCalls c = channelCalls c0;
}.

Lemma commit_call_spec m ch owner p host callID now r (w : world C) :
  pending m ch callID r (w_core w) →
  wp (commit_call ch owner p host callID now r)
    (λ res w', start_post m ch (w_core w) res (w_core w')) w.
Proof.
  intros Hp. unfold commit_call. apply wp_bind_try_frames; [auto with go|].
  intros [call|e] w1 Hw1; rewrite <-Hw1 in *.
  - apply wp_bind, wp_modify_core. set (w2 := upd_core _ w1).
    apply wp_bind_calm; [auto with go..|]. intros post w3 Hw3.
    apply wp_bind_calm; [frames_tac|no_err_tac|]. intros _ w4 Hw4.
    apply wp_bind_calm; [auto with go..|]. intros _ w5 Hw5.
    apply wp_ret. rewrite Hw5, Hw4, Hw3. split; [by eapply pending_commit|done|by left| |done].
    intros res [= <-]. by eapply pending_started.
  - apply wp_bind, (pending_abort _ _ _ _ _ _ Hp). intros b w2 HI Hs Hc Hcc Hm.
    apply wp_throw. split; [done..| |done|done]. rewrite Hc. by left.
Qed.

Lemma frames_assign_host : frames w_core (assign_host (C:=C)).
Proof. unfold assign_host, rtcdManager. frames_tac. Qed.

Lemma StartCall_spec m ch owner p (w : world C) :
  models (shards (w_core w)) m → reg_inv (w_core w) m →
  wp (StartCall ch owner p) (λ res w', start_post m ch (w_core w) res (w_core w')) w.
Proof.
  intros Hm Hr. assert (core_inv (w_core w)) as HI by by exists m.
  unfold StartCall.
  assert (∀ e, start_post m ch (w_core w) (Err e) (w_core w)) as Herr by (by intros; split; auto).
  apply wp_bind_frames; [auto with go|done|]. intros conf w1 Hw1. rewrite <-Hw1 in HI, Hm, Hr, Herr |- *.
  destruct (negb _); [by apply wp_throw|]. destruct (_ || _); [by apply wp_throw|].
  apply wp_bind, wp_read. rewrite (getLive_entry _ _ HI).
  destruct (channelCalls (w_core w1) !! ch) as [r|] eqn:Hch.
  { apply wp_ask. destruct (channel_entry _ _ _ HI Hch) as (cs & Hcs & Hcc & He & Hg).
    split; [done..|by left| |done]. intros res [= <-]. unfold call_at. rewrite Hcs. by exists r, cs. }
  apply wp_bind_frames; [apply frames_assign_host|done|]. intros host w2 Hw2.
  rewrite <-Hw2 in HI, Hm, Hr, Herr, Hch |- *.
  apply wp_bind_frames; [auto with go|done|]. intros now w3 Hw3.
  rewrite <-Hw3 in HI, Hm, Hr, Herr, Hch |- *. clear w w1 w2 Hw1 Hw2 Hw3.
  unfold NewId. apply wp_bind, wp_bind, wp_read, wp_bind, wp_modify_core, wp_ret.
  apply wp_bind, wp_GetMillis. intros t w4 Hw4. clear Herr.
  unfold alloc_call. apply wp_bind, wp_bind, wp_read, wp_bind, wp_modify_core, wp_ret.
  unfold on_shards. apply wp_bind, wp_bind, wp_read.
  assert (Hnew : fresh (dom (calls (w_core w4))) ∉ dom (calls (w_core w4))) by apply is_fresh.
  revert Hnew. set (r := fresh _). intros Hnew%not_elem_of_dom.
  set (w5 := upd_core _ w4).
  assert (∃ id cs, w_core w5 = with_calls (<[r := cs]> (calls (w_core w3)))
            (with_nextId (S (nextId (w_core w3))) (w_core w3)) ∧
          id = new_id (nextId (w_core w3)) ∧ cs = newCallState id ch host t) as (id & cs & Hw5 & Hid & Hcs).
  { eexists _, _. split_and!; [|done..]. unfold w5; simpl. by rewrite Hw4. }
  rewrite Hw4 in Hnew. rewrite Hw5, <-Hid.
  destruct (register_pending m ch id r cs (w_core w3) (shards (w_core w3))) as (sh & Hreg & Hpend);
    [done..|by subst cs|by subst cs|by subst cs|subst cs; apply newCallState_wf|by subst cs|done|].
  simpl in Hreg |- *. rewrite Hreg. apply wp_bind, wp_modify_core, wp_ret. simpl.
  clearbody w5. eapply wp_mono; [apply (commit_call_spec m _ _ _ _ id); simpl; by rewrite Hw5|].
  intros res w6 [? Hs Hc ? He]. simpl in Hs, Hc, He. rewrite Hw5 in Hs, Hc, He. split; [done|done| |done|done].
  intros r' cs' [Hr'|?]%Hc; [|by right]. simpl in Hr'.
  apply lookup_insert_Some in Hr' as [[<- <-]|[_ ?]]; [right; by subst cs|by left].
Qed.

(** ** Joining *)

(** A freshly allocated session no call refers to. *)
Record joining (sid ch : string) (p : sref) (c : core) : Prop := {
  j_inv : core_inv c;
  j_sess : ∃ x, sess c !! p = Some x ∧ sessionID x = sid ∧ channelID x = ch;
  j_free : ∀ r cs k, calls c !! r = Some cs → cs_sessions cs !! k ≠ Some p;
}.

Lemma joining_started m sid ch p c0 c res :
  joining sid ch p c0 → start_post m ch c0 (Ok res) c → joining sid ch p c.
Proof.
  intros [_ Hx Hfree] [HI Hs Hc _ _]. split; [done|by rewrite Hs|].
  intros r cs k [Hr|He]%Hc; [by eapply Hfree|]. by rewrite He.
Qed.

Lemma joining_set_callID sid ch p c v :
  joining sid ch p c → joining sid ch p (with_sess (alter (set_callID v) p (sess c)) c).
Proof.
  intros [(m & Hm & [Hslot Hchan Hwf Hids Hlim]) (x & Hx & Hsid & Hch) Hfree]. split; simpl; [|..|done].
  - exists m. split; [done|]. split; simpl; try done. intros r cs Hcs.
    destruct (Hwf _ _ Hcs) as [Hs ? ? ?]. split; try done. intros i q Hi.
    rewrite lookup_alter_ne; [by apply Hs|]. intros ->. by eapply Hfree.
  - exists (set_callID v x). by rewrite lookup_alter_eq, Hx.
Qed.

(** What a successful insertion establishes. *)
Definition joined (sid ch : string) (p : sref) (r : cref) (id : string) (c : core) : Prop :=
  ∃ cs, calls c !! r = Some cs ∧ cs_callID cs = id ∧ cs_channelID cs = ch ∧ cs_endAt cs = 0%Z ∧
    cs_sessions cs !! sid = Some p ∧ channelCalls c !! ch = Some r.

(** A configured maximum that enforces the bound [L]. *)
Definition limit_ok (max : Z) : Prop := (0 < L → 0 < max ≤ L)%Z.

(** Inserting into a started call either succeeds or hits the limit. *)
Lemma addSessionIfLive_started sid ch p res max (w : world C) :
  limit_ok max → sid ≠ "" → joining sid ch p (w_core w) → started ch res (w_core w) →
  (∃ x, sess (w_core w) !! p = Some x ∧ callID x = sr_CallID res) →
  wp (addSessionIfLive (sr_CallID res) sid p max) (λ a w', Inv w' ∧
    match a with
    | Ok (r, _) => joined sid ch p r (sr_CallID res) (w_core w')
    | Err e => e = ErrMaxParticipants
    end) w.
Proof.
  intros Hmax Hsid [HI (x & Hx & Hxs & Hxc) Hfree] (r & cs & Hg & Hch & Hcs & Hid & Hcc & He) (x' & Hx' & Hxid).
  simplify_eq. unfold addSessionIfLive. apply wp_bind, wp_read. rewrite Hg.
  assert (call_at (w_core w) r = cs) as Hat by (unfold call_at; by rewrite Hcs).
  apply wp_bind, wp_ask. rewrite Hat. unfold ended. rewrite bool_decide_false by lia.
  apply wp_bind, wp_on_call. rewrite Hat.
  assert (call_wf (sess (w_core w)) cs) as Hwf by (destruct HI as (? & ? & []); eauto).
  pose proof (addSession_wf _ _ (sessionID x) p max x Hwf Hsid Hx eq_refl
                ltac:(congruence) ltac:(congruence)) as Hwf'.
  destruct (addSession _ _ _ _ _) as [o cs'] eqn:Ea. simpl in Hwf'.
  destruct (addSession_spec _ _ _ _ _ _ _ Ea) as (Hi' & Hc' & He' & Hin & Hsize).
  assert (Inv (upd_core (λ c, with_sess (sess (w_core w))
    (with_calls (alter (λ _, cs') r (calls c)) c)) w)) as HI'.
  { apply (core_inv_heap _ (w_core w)); simpl; try done.
    - intros r' y. rewrite lookup_alter. case_decide; [subst r'|by eauto 10].
      rewrite Hcs. intros [= <-]. exists cs. split_and!; try done.
      intros Hl HL. specialize (Hl HL). specialize (Hmax HL). lia.
    - intros r' Hr'. rewrite lookup_alter. case_decide; [subst r'; by apply fmap_is_Some|done].
    - intros r' y. rewrite lookup_alter. case_decide; [subst r'|destruct HI as (? & ? & []); eauto].
      rewrite Hcs. by intros [= <-]. }
  destruct o as [prev|]; [|by apply wp_throw]. apply wp_ret. split; [done|].
  exists cs'. simpl. rewrite lookup_alter_eq, Hcs. split_and!; try congruence; [done|by apply Hin].
Qed.

(** The retry loop: the first attempt decides. *)
Lemma join_attempts_spec n ch user sid p max (w : world C) :
  limit_ok max → sid ≠ "" → joining sid ch p (w_core w) →
  wp (join_attempts n ch user sid p max) (λ a w', Inv w' ∧
    match a with
    | Ok (Some (r, id)) => joined sid ch p r id (w_core w')
    | Ok None => n = 0
    | Err _ => True
    end) w.
Proof.
  intros Hmax Hsid Hj. destruct n as [|n]; simpl; [apply wp_ret; by destruct Hj|].
  destruct (j_inv _ _ _ _ Hj) as (m & Hm & Hr).
  apply wp_bind. eapply wp_mono; [by apply (StartCall_spec m)|].
  intros [res|e] w1 Hpost; [|split; [by eapply sp_inv|done]].
  pose proof (joining_started _ _ _ _ _ _ _ Hj Hpost) as Hj1.
  pose proof (sp_started _ _ _ _ _ Hpost _ eq_refl) as Hst.
  apply wp_bind. unfold setfield. apply wp_modify_core.
  pose proof (joining_set_callID _ _ _ _ (sr_CallID res) Hj1) as Hj2.
  apply wp_bind, wp_try. eapply wp_mono.
  { apply (addSessionIfLive_started sid ch p res); [done|done|exact Hj2|exact Hst|].
    destruct Hj1 as [_ (x & Hx & _) _]. exists (set_callID (sr_CallID res) x). simpl.
    by rewrite lookup_alter_eq, Hx. }
  intros [[r prev]|e] w2 [HI2 Ha]; simpl; [by apply wp_ret|].
  subst e. by apply wp_throw.
Qed.

Lemma alloc_sess_joining sid ch x (w : world C) (Q : res goerr sref → world C → Prop) :
  Inv w → sessionID x = sid → channelID x = ch →
  (∀ p w', joining sid ch p (w_core w') → sess (w_core w') !! p = Some x →
    Q (Ok p) w') → wp (alloc_sess x) Q w.
Proof.
  intros (m & Hm & [Hslot Hchan Hwf Hids Hlim]) Hsid Hch HQ.
  assert (Hnew : fresh (dom (sess (w_core w))) ∉ dom (sess (w_core w))) by apply is_fresh.
  apply not_elem_of_dom in Hnew.
  unfold alloc_sess. apply wp_bind, wp_read, wp_bind, wp_modify_core, wp_ret, HQ; simpl;
    [|by rewrite lookup_insert_eq].
  split; simpl.
  - exists m. split; [done|]. split; simpl; try done. intros r cs Hcs.
    eapply call_wf_ids_kept; [by apply ids_kept_insert|eauto].
  - exists x. by rewrite lookup_insert_eq.
  - intros r cs k Hcs Hk. destruct (wf_sess _ _ (Hwf _ _ Hcs) _ _ Hk) as (y & Hy & _). congruence.
Qed.

Lemma preserves_StartCall ch o p : keeps (StartCall ch o p).
Proof.
  apply preserves_wp. intros w (m & Hm & Hr). eapply wp_mono; [by apply (StartCall_spec m)|].
  by intros r w' [].
Qed.

Lemma frames_sendCallState r c : frames w_core (sendCallState (C:=C) r c).
Proof. unfold sendCallState. frames_tac. Qed.

Lemma frames_GetCallsChannel ch : frames w_core (GetCallsChannel (C:=C) ch).
Proof. unfold GetCallsChannel. frames_tac. Qed.

Lemma frames_kickRTCDInit : frames w_core (kickRTCDInit (C:=C)).
Proof. unfold kickRTCDInit, rtcdManager. frames_tac. Qed.

Hint Resolve preserves_endCallState preserves_StartCall frames_sendCallState
  frames_GetCallsChannel frames_kickRTCDInit : go.

Lemma frames_limit_reached ch m : frames w_core (limit_reached (C:=C) ch m).
Proof. unfold limit_reached, channelCalls_get. frames_tac. Qed.

Lemma preserves_announce_join r id ch conn u t : keeps (announce_join r id ch conn u t).
Proof. unfold announce_join. preserve. Qed.

Lemma preserves_teardownSession r p : keeps (teardownSession r p).
Proof. unfold teardownSession, deref. preserve. Qed.

Hint Resolve preserves_announce_join preserves_teardownSession frames_limit_reached : go.

(** The configuration enforces the bound. *)
Definition capped (w : world C) : Prop := limit_ok (maxParticipants (cfg (w_out w))).

Lemma handleJoin_Inv conn u d (w : world C) :
  conn ≠ "" → capped w → Inv w → wp (handleJoin conn u d) (λ _ w', Inv w') w.
Proof.
  intros Hconn Hcap HI. unfold handleJoin, callsEnabledForChannel, rtcdManager.
  case_step; [done|]. apply wp_bind, wp_gets. fold (capped w) in Hcap. revert Hcap. unfold capped.
  generalize (cfg (w_out w)). intros conf Hcap. apply wp_preserves; [|done]. clear HI w.
  case_step; [auto with go|].
  apply preserves_bind; [apply frames_Inv; frames_tac|]. intros allowed.
  case_step; [auto with go|]. apply preserves_bind; [auto with go|]. intros mgr.
  case_step; [preserve|]. apply preserves_bind; [auto with go|]. intros [];
    [auto with go|]. apply preserves_bind; [auto with go|]. intros now.
  apply preserves_wp. intros w HI. apply wp_bind.
  eapply alloc_sess_joining; [done..|]. intros p w1 Hj _.
  apply wp_bind. eapply wp_mono; [by eapply join_attempts_spec|].
  intros [[[r id]|]|e] w2 [HI2 _]; [|by apply wp_throw|done].
  by apply wp_preserves; [auto with go|].
Qed.
(** ** Every entry point *)

Lemma preserves_toggle p r u t raw f ev :
  identity_kept f →
  keeps (toggle p r u t raw f ev).
Proof.
  intros Hf. unfold toggle, deref. preserve; apply preserves_on_call; by apply calm_mutate.
Qed.

Lemma preserves_host_mutate r sid f :
  identity_kept f →
  keeps (host_mutate r sid f).
Proof. intros Hf. apply preserves_on_call. by apply calm_mutate. Qed.

Lemma frames_sessionByConn conn : frames w_core (sessionByConn (C:=C) conn).
Proof. unfold sessionByConn. frames_tac. Qed.

Lemma frames_encode_payload a : frames w_core (encode_payload (C:=C) a).
Proof. unfold encode_payload. frames_tac. Qed.

Lemma frames_decode_emoji a : frames w_core (decode_emoji (C:=C) a).
Proof. unfold decode_emoji. frames_tac. Qed.

Lemma frames_callForHostAction id u : frames w_core (callForHostAction (C:=C) id u).
Proof. unfold callForHostAction, shards_get. frames_tac. Qed.

Lemma frames_get_session r sid : frames w_core (get_session (C:=C) r sid).
Proof. unfold get_session. frames_tac. Qed.

Hint Resolve frames_sessionByConn frames_encode_payload frames_decode_emoji
  frames_callForHostAction frames_get_session : go.
Hint Extern 2 (preserves (CallsInv.Inv _) (toggle _ _ _ _ _ _ _)) => by apply preserves_toggle : go.
Hint Extern 2 (preserves (CallsInv.Inv _) (host_mutate _ _ _)) => by apply preserves_host_mutate : go.

Lemma frames_rtcPayload d : frames w_core (rtcPayload (C:=C) d).
Proof. unfold rtcPayload. frames_tac. Qed.
Hint Resolve frames_rtcPayload : go.

Lemma preserves_with_prefix {A} p (m : CM A) : keeps m → keeps (with_prefix p m).
Proof. intros Hm. unfold with_prefix. preserve. Qed.

Lemma preserves_handleReconnect conn u d : keeps (handleReconnect conn u d).
Proof. unfold handleReconnect, channelCalls_get, deref. preserve. Qed.

Lemma preserves_handleLeave conn u d : keeps (handleLeave conn u d).
Proof. unfold handleLeave, channelCalls_get. preserve. Qed.

Hint Resolve preserves_handleReconnect preserves_handleLeave : go.

Lemma dispatch_Inv conn u a d (w : world C) :
  conn ≠ "" → capped w → Inv w → wp (dispatch conn u a d) (λ _ w', Inv w') w.
Proof.
  intros Hconn Hcap HI. unfold dispatch. destruct (decide (a = "join")); [by apply handleJoin_Inv|].
  apply wp_preserves; [|done]. clear.
  unfold handleRTCRelay, handleMuteToggle, handleScreenToggle, handleVideoToggle,
    handleRaiseHand, handleReact, handleCallStateRequest, deref, channelCalls_get.
  repeat (case_decide; [preserve|]). preserve.
Qed.

Lemma HandleClientMessage_Inv conn u a d (w : world C) :
  capped w → Inv w → wp (HandleClientMessage conn u a d) (λ _ w', Inv w') w.
Proof.
  intros Hcap HI. unfold HandleClientMessage. destruct (bool_decide (u = "") || _) eqn:E; [done|].
  apply orb_false_iff in E as [_ E%bool_decide_eq_false].
  destruct (negb _); [by apply wp_preserves; [auto with go|]|].
  apply wp_bind, wp_try. eapply wp_mono; [by apply dispatch_Inv|].
  intros r w' HI'. apply wp_preserves; [preserve|done].
Qed.

Lemma preserves_muteOne r sid : keeps (muteOne r sid).
Proof. unfold muteOne, deref. preserve; apply preserves_with_prefix; auto with go. Qed.
Hint Resolve preserves_muteOne : go.

Lemma preserves_EndCall id : keeps (EndCall id).
Proof. unfold EndCall, shards_get. preserve. Qed.
Hint Resolve preserves_EndCall : go.

Lemma preserves_ignore {A} (m : CM A) : keeps m → keeps (ignore m).
Proof. intros Hm. unfold ignore. preserve. Qed.

Lemma preserves_handleRTCDMessage m : keeps (handleRTCDMessage m).
Proof. unfold handleRTCDMessage, handle_close, relayRTCMessage. preserve. Qed.

Lemma preserves_timer_fires t : keeps (timer_fires t).
Proof. unfold timer_fires. preserve. Qed.

Lemma serve_Inv q (w : world C) : capped w → Inv w → Inv (snd (serve q w)).
Proof.
  intros Hcap HI. destruct q; simpl; [by apply HandleClientMessage_Inv|..];
    revert w Hcap HI; intros w _; revert w;
    match goal with |- ∀ w, _ w → _ (snd (?p w)) => change (keeps p) end;
    try apply preserves_ignore; auto using preserves_handleRTCDMessage with go.
  - unfold MakeHost. preserve.
  - unfold MuteSession. preserve.
  - unfold MuteOthers. preserve.
  - unfold ScreenOff, deref. preserve; apply preserves_with_prefix; auto with go.
  - unfold LowerHand, deref. preserve.
  - unfold RemoveSession, deref. preserve.
  - unfold EndCallByHost. preserve.
  - unfold SetCallsChannelEnabled. preserve.
  - unfold DismissNotification. preserve.
  - unfold HandleWSDisconnect. preserve.
  - unfold reapIdleCalls. preserve.
Qed.

Lemma step_Inv w w' : capped w → Inv w → step (C:=C) w w' → Inv w'.
Proof.
  intros Hcap HI Hs. revert Hcap HI. destruct Hs as [q w|pre t post w Ht|w o' Ho]; intros Hcap HI.
  - by apply serve_Inv.
  - by apply preserves_timer_fires.
  - done.
Qed.

(** Every world reachable while the configuration enforces the bound. *)
Lemma reachable_capped_Inv conf pool w :
  reachable (λ a b, capped a ∧ step a b) (init_world (C:=C) conf pool) w → Inv w.
Proof.
  intros Hr. eapply reachable_invariant; [| |done].
  - apply init_core_inv.
  - intros a b HI [Hcap Hs]. by eapply step_Inv.
Qed.
End safety.

(** Without a bound every reachable world satisfies the invariant. *)
Lemma reachable_Inv `{RTCDClient C ClientMessage, GoRange, !CallsEnv, !CallsEnvOk} conf pool
    (w : world C) :
  reachable step (init_world conf pool) w → Inv 0 w.
Proof.
  intros Hr. apply (reachable_capped_Inv 0 conf pool). eapply (rtc_congruence id); [|exact Hr].
  intros a b Hs. split; [|done]. intros ?. lia.
Qed.
