(* ===== verification/CallsDemo.v ===== *)
(** * A concrete environment

    Instances that make the handlers run: a clock that ticks, readable ids, a
    database without faults, an app that creates posts, and rtcd clients that
    are just a connectivity flag.  The examples evaluate whole scenarios; the
    witnesses of the service theorems use the same instances. *)

From S2P Require Import Prelude.
From S2P Require Import GoString.
From S2P Require Import CallShards.
From S2P Require Import CallState.
From S2P Require Import SessionIndex.
From S2P Require Import CallsConfig.
From S2P Require Import IceServers.
From S2P Require Import CallStore.
From S2P Require Import RtcdPool.
From S2P Require Import CallsWorld.
From S2P Require Import CallsService.
From S2P Require Import CallsControl.
From stdpp Require Import pretty.

Local Open Scope string_scope.

#[export] Instance demo_client : RTCDClient bool ClientMessage := {|
  Connected c := c;
  Heal c := (c, c);
  Send c _ := if c then (None, c) else (Some "rtcd: not connected", c);
  Close c := (None, false);
  heal_spec c := eq_refl;
|}.

(** 26 characters for the first ten ids. *)
Definition demo_id (n : nat) : string := "callcallcallcallcallcall0" +:+ pretty n.

#[export] Instance demo_env : CallsEnv := {|
  clock n := Z.of_nat (S n);
  new_id := demo_id;
  db_fault _ := false;
  rand_int n := n;
  create_post := Some (λ n, Some ("post" +:+ pretty n));
  json_Marshal a := match a with AStr s => Some s | _ => Some "{}" end;
  json_Unmarshal_emoji s := Some {| Name := s; Skin := ""; Unified := ""; Literal := "" |};
  json_Marshal_state v := Some (csv_CallID v);
  strconv_Quote s := s;
|}.

#[export] Instance demo_env_ok : CallsEnvOk.
Proof.
  split.
  - intros n. simpl. lia.
  - intros i j Hij. simpl in Hij. unfold demo_id in Hij. simpl in Hij. injection Hij as Hij.
    by apply (inj pretty) in Hij.
  - done.
Qed.

Definition demo_conf : CallsSettings := {|
  Enable := Some true; RTCDServiceURL := Some "http://rtcd:8045"; ICEServers := None;
  MaxCallParticipants := Some 2%Z; AllowScreenSharing := None; AllowRecording := None;
  EnableRinging := None; EnableVideo := None; EnableReactions := None;
  HostControlsAllowed := None; GroupCallsAllowed := None; StateShardCount := Some 4%Z |}.

Definition demo_pool : rtcdClientManager bool :=
  Manager "8045" {["10.0.0.1" := RtcdHost "10.0.0.1" true false]}.

Definition demo_init : world bool := init_world demo_conf (Some demo_pool).

Definition demo_run (qs : list request) : world bool :=
  foldl (λ w q, snd (serve q w)) demo_init qs.

Definition demo_join (conn user channel : string) : request :=
  ReqMessage conn user "join" {["channelID" := AStr channel]}.

Lemma demo_reachable qs : reachable step demo_init (demo_run qs).
Proof.
  unfold demo_run. rewrite <-(reverse_involutive qs). generalize (reverse qs). clear qs.
  intros qs. induction qs as [|q qs IH]; simpl; [apply rtc_refl|].
  rewrite reverse_cons, foldl_app. simpl. eapply rtc_r; [exact IH|]. constructor.
Qed.

(** The live sessions of a channel's call, with their connections. *)
Definition demo_members (w : world bool) (channel : string) : list (string * string) :=
  match channelCalls (w_core w) !! channel with
  | None => []
  | Some r => (λ e, (e.1, sess_connID (sess (w_core w)) e.2)) <$>
                map_to_list (cs_sessions (call_at (w_core w) r))
  end.

(** Two users share a channel's call and a third is over the limit. *)
Example demo_limit :
  demo_members (demo_run [demo_join "k1" "u1" "ch"; demo_join "k2" "u2" "ch";
                          demo_join "k3" "u3" "ch"]) "ch" = [("k1", "k1"); ("k2", "k2")].
Proof. vm_compute. reflexivity. Qed.

(** The last leave ends the call and closes its row. *)
Example demo_last_leave :
  let w := demo_run [demo_join "k1" "u1" "ch";
                     ReqMessage "k1" "u1" "leave" {["channelID" := AStr "ch"]}] in
  demo_members w "ch" = [] ∧
  (call_EndAt <$> tbl_calls (db (w_out w)) !! demo_id 0) = Some 16%Z ∧
  shards (w_core w) = newShardRegistry 4.
Proof. vm_compute. done. Qed.
