(* ===== verification/CallsEnd.v ===== *)
(** * The end of a call

    What [endCallState] leaves behind: the mark is set once and for all, the
    two registries forget the call, the session index forgets its sessions,
    and (when the database reports no fault) the call row and every open
    session row carry the end time. *)

From S2P Require Import Prelude.
From S2P Require Import GoString.
From S2P Require Import CallShards.
From S2P Require Import CallState.
From S2P Require Import SessionIndex.
From S2P Require Import CallsConfig.
From S2P Require Import IceServers.
From S2P Require Import CallStore.
From S2P Require Import RtcdPool.
From S2P Require Import CallsWorld.
From S2P Require Import CallsService.
From S2P Require Import CallsControl.
From S2P Require Import CallsInv.
From S2P Require Import CallsSafety.
From S2P Require Import CallsDemo.

Local Open Scope string_scope.
Local Open Scope go_scope.

Section ending.
Context {C : Type} `{RTCDClient C ClientMessage} `{GoRange} `{!CallsEnv, !CallsEnvOk}.

Abbreviation CM := (M (world C) goerr).

(** ** Framing of the parts a handler leaves alone *)

Definition w_calls (w : world C) := calls (w_core w).
Definition w_index (w : world C) := index (w_core w).
Definition w_regs (w : world C) := (shards (w_core w), channelCalls (w_core w)).
Definition w_db (w : world C) := db (w_out w).

Lemma frames_core_part {A T} (f : core → T) (m : CM A) :
  frames w_core m → frames (λ w, f (w_core w)) m.
Proof. intros Hm w. by rewrite Hm. Qed.

Lemma frames_calls {A} (m : CM A) : frames w_core m → frames w_calls m.
Proof. apply (frames_core_part calls). Qed.
Lemma frames_index {A} (m : CM A) : frames w_core m → frames w_index m.
Proof. apply (frames_core_part index). Qed.
Lemma frames_regs {A} (m : CM A) : frames w_core m → frames w_regs m.
Proof. apply (frames_core_part (λ c, (shards c, channelCalls c))). Qed.

Lemma frames_core_out {T} (g : outer C → T) (f : core → core) :
  frames (E:=goerr) (λ w, g (w_out w)) (modify_core f).
Proof. by intros w. Qed.

Hint Resolve frames_calls frames_index frames_regs : go.
Hint Extern 1 (frames w_db (modify_core _)) => apply (frames_core_out db) : go.
Hint Extern 1 (frames _ (modify_out _)) => apply frames_modify; by intros [] : go.
Hint Extern 1 (frames _ (modify_core _)) => apply frames_modify; by intros [] : go.
Hint Extern 1 (frames _ (read _)) => apply frames_gets : go.
Hint Extern 1 (frames _ (read_out _)) => apply frames_gets : go.
Hint Extern 1 (frames _ (ask _ _)) => apply frames_gets : go.

Lemma frames_db_tick : frames w_db tick.
Proof. by intros w. Qed.
Lemma frames_db_GetMillis : frames w_db GetMillis.
Proof. by intros w. Qed.
Lemma frames_db_NewId : frames w_db NewId.
Proof. by intros w. Qed.
Lemma frames_db_broadcast e d s : frames w_db (broadcast e d s).
Proof. by intros w. Qed.
Lemma frames_db_sendToHost r m : frames w_db (sendToHost r m).
Proof. unfold sendToHost, rtcdManager. frames_tac. Qed.
Hint Resolve frames_db_tick frames_db_GetMillis frames_db_NewId frames_db_broadcast
  frames_db_sendToHost : go.

Lemma frames_calls_NewId : frames w_calls NewId.
Proof. by intros w. Qed.
Lemma frames_index_NewId : frames w_index NewId.
Proof. by intros w. Qed.
Lemma frames_regs_NewId : frames w_regs NewId.
Proof. by intros w. Qed.
Hint Resolve frames_calls_NewId frames_index_NewId frames_regs_NewId frames_endCallPost : go.

Lemma frames_persist_end_calls a b n p s t : frames w_calls (persist_end a b n p s t).
Proof. unfold persist_end. frames_tac. Qed.
Lemma frames_persist_end_index a b n p s t : frames w_index (persist_end a b n p s t).
Proof. unfold persist_end. frames_tac. Qed.
Lemma frames_persist_end_regs a b n p s t : frames w_regs (persist_end a b n p s t).
Proof. unfold persist_end. frames_tac. Qed.
Lemma no_err_persist_end a b n p s t : no_err (persist_end (C:=C) a b n p s t).
Proof. unfold persist_end. no_err_tac. Qed.
Lemma no_err_endCallPost p l : no_err (endCallPost (C:=C) p l).
Proof. unfold endCallPost. no_err_tac. Qed.
Lemma frames_endCallPost_db p l : frames w_db (endCallPost p l).
Proof. unfold endCallPost. frames_tac. Qed.
Lemma frames_close_session_calls r sid : frames w_calls (close_session r sid).
Proof. unfold close_session, on_index. frames_tac. Qed.
Lemma frames_close_session_regs r sid : frames w_regs (close_session r sid).
Proof. unfold close_session, on_index. frames_tac. Qed.
Lemma frames_close_session_db r sid : frames w_db (close_session r sid).
Proof. unfold close_session, on_index. frames_tac. Qed.
Lemma no_err_close_session r sid : no_err (close_session (C:=C) r sid).
Proof. unfold close_session, on_index. no_err_tac. Qed.
Lemma no_err_on_shards {A} (d : A) f : no_err (on_shards (C:=C) d f).
Proof. unfold on_shards. no_err_tac. Qed.
Lemma no_err_unregister r i : no_err (unregister (C:=C) r i).
Proof. unfold unregister. apply no_err_bind; [apply no_err_on_shards|]. no_err_tac. Qed.
Lemma frames_on_shards {A} (d : A) f : frames w_calls (on_shards d f).
Proof. unfold on_shards. frames_tac. Qed.
Lemma frames_on_shards_index {A} (d : A) f : frames w_index (on_shards d f).
Proof. unfold on_shards. frames_tac. Qed.
Lemma frames_on_shards_db {A} (d : A) f : frames w_db (on_shards d f).
Proof. unfold on_shards. frames_tac. Qed.

(** ** The effect on the shared memory *)

(** The index after the sessions [ids] of [cs] were closed. *)
Definition unlink_all (hs : sheap) (cs : callState) (ids : list string) (ix : sessionRegistry)
    : sessionRegistry := foldl (λ ix sid, unlink ix sid (connIDFor hs cs sid)) ix ids.

Lemma close_session_core r sid (w : world C) :
  w_core (snd (close_session r sid w)) =
    with_index (unlink (index (w_core w)) sid (connIDFor (sess (w_core w)) (call_at (w_core w) r) sid))
      (w_core w).
Proof.
  change (wp (close_session r sid) (λ _ w', w_core w' = with_index (unlink (index (w_core w)) sid
    (connIDFor (sess (w_core w)) (call_at (w_core w) r) sid)) (w_core w)) w).
  unfold close_session. apply wp_bind_calm; [auto with go..|]. intros _ w1 Hw1.
  apply wp_bind, wp_ask. unfold on_index. apply wp_modify_core. simpl. by rewrite Hw1.
Qed.

Lemma close_all_core r ids (w : world C) :
  w_core (snd (m_for ids (close_session r) w)) =
    with_index (unlink_all (sess (w_core w)) (call_at (w_core w) r) ids (index (w_core w)))
      (w_core w).
Proof.
  revert w. induction ids as [|sid ids IH]; intros w; simpl; [by destruct w as [[] ?]|].
  unfold m_bind. destruct (no_err_close_session r sid w) as [[] Ha].
  pose proof (close_session_core r sid w) as Hc.
  destruct (close_session r sid w) as [x w1]; simpl in Ha, Hc. subst x.
  rewrite IH, Hc. by destruct (w_core w).
Qed.

Lemma unlink_all_bySession hs cs ids ix sid :
  bySession (unlink_all hs cs ids ix) !! sid =
    if decide (sid ∈ ids) then None else bySession ix !! sid.
Proof.
  revert ix. induction ids as [|i ids IH]; intros ix; simpl; [done|]. rewrite IH.
  rewrite unlink_bySession. destruct (decide (sid ∈ ids)), (decide (i = sid)),
    (decide (sid ∈ i :: ids)); try done; exfalso; set_solver.
Qed.

Lemma unlink_all_byConn hs cs ids ix c :
  byConn (unlink_all hs cs ids ix) !! c =
    if decide (c ∈ connIDFor hs cs <$> ids) then None else byConn ix !! c.
Proof.
  revert ix. induction ids as [|i ids IH]; intros ix; simpl; [done|]. rewrite IH.
  rewrite unlink_byConn. destruct (decide (c ∈ connIDFor hs cs <$> ids)),
    (decide (connIDFor hs cs i = c)), (decide (c ∈ connIDFor hs cs i :: _)); try done;
    exfalso; set_solver.
Qed.

(** The shared memory after the end of call [r]. *)
Record ended_core (r : cref) (now : Z) (m : gmap string cref) (c c' : core) : Prop := {
  ec_calls : calls c' = alter (with_endAt now) r (calls c);
  ec_sess : sess c' = sess c;
  ec_shards : models (shards c')
    (if decide (m !! cs_callID (call_at c r) = Some r) then delete (cs_callID (call_at c r)) m else m);
  ec_chan : channelCalls c' = (ci_deleteIf (channelCalls c) (cs_channelID (call_at c r)) r).2;
  ec_index : index c' = unlink_all (sess c) (call_at c r) (sessionIDs (call_at c r)) (index c);
}.

Lemma persist_end_core a b n p s t (w : world C) :
  ∃ k, w_core (snd (persist_end a b n p s t w)) = with_nextId k (w_core w).
Proof.
  change (wp (persist_end a b n p s t) (λ _ w', ∃ k, w_core w' = with_nextId k (w_core w)) w).
  unfold persist_end. apply wp_bind_calm; [auto with go..|]. intros [call|] w1 Hw1.
  - apply wp_bind_calm; [auto with go..|]. intros _ w2 Hw2. rewrite <-Hw1, <-Hw2.
    unfold NewId. apply wp_bind, wp_bind, wp_read, wp_bind, wp_modify_core, wp_ret.
    apply wp_bind_calm; [auto with go..|]. intros _ w3 Hw3. apply wp_ret. rewrite Hw3. by eexists.
  - apply wp_ret. exists (nextId (w_core w)). rewrite Hw1. by destruct (w_core w).
Qed.

Lemma wp_unregister r info m (w : world C) (Q : res goerr bool → world C → Prop) :
  models (shards (w_core w)) m →
  (∀ b sh, models sh (if decide (m !! cs_callID info = Some r) then delete (cs_callID info) m else m) →
    Q (Ok b) (upd_core (λ c, with_channelCalls (ci_deleteIf (channelCalls c) (cs_channelID info) r).2
                               (with_shards sh c)) w)) →
  wp (unregister r info) Q w.
Proof.
  intros Hm HQ. unfold unregister. apply wp_bind, (wp_shards_deleteIf _ _ m); [done|].
  intros sh Hsh. apply wp_bind, wp_read, wp_bind, wp_modify_core, wp_ret. simpl.
  by apply (HQ _ sh).
Qed.

Lemma wp_calm {A} (p : CM A) (Q : res goerr A → world C → Prop) w :
  frames w_core p → no_err p → (∀ a w', w_core w' = w_core w → Q (Ok a) w') → wp p Q w.
Proof. intros Hf Hn HQ. unfold wp. specialize (Hf w). destruct (Hn w) as [a ->]. by apply HQ. Qed.

Lemma wp_persist_end a b n p s t (w : world C) (Q : res goerr string → world C → Prop) :
  (∀ post k w', w_core w' = with_nextId k (w_core w) → Q (Ok post) w') →
  wp (persist_end a b n p s t) Q w.
Proof.
  intros HQ. unfold wp. destruct (no_err_persist_end a b n p s t w) as [post ->].
  destruct (persist_end_core a b n p s t w) as [k Hk]. by eapply HQ.
Qed.

Lemma wp_close_all r ids (w : world C) (Q : res goerr unit → world C → Prop) :
  (∀ w', w_core w' = with_index (unlink_all (sess (w_core w)) (call_at (w_core w) r) ids
      (index (w_core w))) (w_core w) → Q (Ok tt) w') →
  wp (m_for ids (close_session r)) Q w.
Proof.
  intros HQ. unfold wp.
  destruct (no_err_for ids (close_session r) (no_err_close_session r) w) as [[] ->].
  apply HQ, close_all_core.
Qed.

Lemma endCallState_live r cs now m (w : world C) :
  calls (w_core w) !! r = Some cs → ended cs = false → models (shards (w_core w)) m →
  wp (endCallState r now) (λ res w', res = Ok tt ∧ ended_core r now m (w_core w) (w_core w')) w.
Proof.
  intros Hcs He Hm. unfold endCallState. apply wp_bind, wp_on_call. unfold markEnded.
  assert (call_at (w_core w) r = cs) as Hat by (unfold call_at; by rewrite Hcs). rewrite Hat.
  apply bool_decide_eq_false in He. rewrite decide_False by done. simpl.
  set (w1 := upd_core _ w).
  assert (call_at (w_core w1) r = with_endAt now cs) as Hat1.
  { unfold w1, call_at; simpl. by rewrite lookup_alter_eq, Hcs. }
  apply wp_bind, wp_ask, wp_bind, wp_ask, wp_bind, wp_ask. rewrite Hat1.
  apply wp_bind, (wp_unregister _ _ m); [done|]. intros owned sh Hsh. simpl in Hsh.
  apply wp_bind, wp_persist_end. intros post k w2 Hw2.
  apply wp_bind_calm; [apply frames_endCallPost|apply no_err_endCallPost|]. intros _ w3 Hw3.
  apply wp_bind, wp_close_all. intros w4 Hw4.
  apply wp_bind_calm; [auto with go..|]. intros _ w5 Hw5.
  apply wp_calm; [frames_tac|no_err_tac|]. intros [] w6 Hw6. split; [done|].
  assert (call_at (w_core w3) r = with_endAt now cs) as Hat3 by by rewrite Hw3, Hw2.
  rewrite Hw6, Hw5, Hw4, Hat3, Hw3, Hw2. split; simpl; rewrite ?Hat; try done.
  by rewrite <-Hat, (alter_call_at (w_core w) r (with_endAt now)).
Qed.

(** A call that already has an end mark is left alone. *)
Lemma endCallState_ended r now (w : world C) :
  ended (call_at (w_core w) r) = true → endCallState r now w = (Err ErrCallEnded, w).
Proof.
  intros He%bool_decide_eq_true. unfold endCallState, on_call, ask, read, modify_core.
  unfold m_bind, m_gets, m_modify, m_ret, m_throw. unfold markEnded.
  rewrite decide_True by done. simpl. by rewrite upd_call_same.
Qed.

Lemma wp_GetMillis_val (Q : res goerr Z → world C → Prop) w :
  (∀ n w', w_core w' = w_core w → Q (Ok (clock n)) w') → wp GetMillis Q w.
Proof. intros HQ. by apply HQ. Qed.

(** ** The effect on the database *)

Definition no_faults : Prop := ∀ n, db_fault n = false.

Lemma wp_bind_db {A B} (p : CM A) (k : A → CM B) (Q : res goerr B → world C → Prop) w :
  frames w_db p → no_err p →
  (∀ a w', w_db w' = w_db w → wp (k a) Q w') → wp (m_bind p k) Q w.
Proof.
  intros Hf Hn Hk. apply wp_bind. unfold wp at 1. specialize (Hf w).
  destruct (Hn w) as [a ->]. by apply Hk.
Qed.

Lemma wp_store_read {A} (f : bool → callsDB → res storeError A) (Q : res goerr A → world C → Prop) w :
  no_faults → (∀ w', w_db w' = w_db w →
    Q (match f false (w_db w) with Ok a => Ok a | Err e => Err (ErrStore e) end) w') →
  wp (store_read f) Q w.
Proof.
  intros Hnf HQ. unfold store_read, fault, read_out, m_bind, m_gets, m_modify, m_ret, wp; simpl.
  rewrite Hnf. change (db (w_out w)) with (w_db w). revert HQ.
  destruct (f false (w_db w)); simpl; intros HQ; by apply HQ.
Qed.

Lemma wp_store_write {A} (f : bool → callsDB → res storeError A * callsDB)
    (Q : res goerr A → world C → Prop) w :
  no_faults → (∀ w', w_db w' = (f false (w_db w)).2 →
    Q (match (f false (w_db w)).1 with Ok a => Ok a | Err e => Err (ErrStore e) end) w') →
  wp (store_write f) Q w.
Proof.
  intros Hnf HQ. unfold store_write, fault, read_out, m_bind, m_gets, m_modify, m_ret, wp; simpl.
  rewrite Hnf. change (db (w_out w)) with (w_db w). revert HQ.
  destruct (f false (w_db w)) as [[a|e] d]; simpl; intros HQ; by apply HQ.
Qed.

Lemma wp_store_save {A} (f : bool → Z → callsDB → res storeError A * callsDB)
    (Q : res goerr A → world C → Prop) w :
  no_faults → (∀ t w', (0 < t)%Z → w_db w' = (f false t (w_db w)).2 →
    Q (match (f false t (w_db w)).1 with Ok a => Ok a | Err e => Err (ErrStore e) end) w') →
  wp (store_save f) Q w.
Proof.
  intros Hnf HQ. unfold store_save. apply wp_bind. unfold GetMillis, tick, wp; simpl.
  apply (wp_store_write (λ ft d, f ft _ d)); [done|]. intros w' Hw'. apply HQ; [apply clock_pos|done].
Qed.

(** The row of a call after its end was persisted at [now]. *)
Definition row_ended (now : Z) (row row' : Call) : Prop :=
  call_ID row' = call_ID row ∧ call_ChannelID row' = call_ChannelID row ∧
  call_OwnerID row' = call_OwnerID row ∧ call_PostID row' = call_PostID row ∧
  call_StartAt row' = call_StartAt row ∧ call_CreateAt row' = call_CreateAt row ∧
  call_EndAt row' = now.

Lemma persist_end_db id ch n p st now (w : world C) (Q : res goerr string → world C → Prop) :
  no_faults →
  (∀ post w', tbl_sessions (w_db w') = tbl_sessions (w_db w) →
    (∀ row, tbl_calls (w_db w) !! id = Some row → call_ID row = id →
      post = call_PostID row ∧ ∃ row', tbl_calls (w_db w') !! id = Some row' ∧ row_ended now row row') →
    Q (Ok post) w') →
  wp (persist_end id ch n p st now) Q w.
Proof.
  intros Hnf HQ. unfold persist_end. apply wp_bind, wp_try, wp_store_read; [done|].
  intros w1 Hw1. unfold CallStore_Get.
  destruct (tbl_calls (w_db w) !! id) as [row|] eqn:Hrow; [|apply wp_ret, HQ; [by rewrite Hw1|done]].
  apply wp_bind, wp_try, wp_store_save; [done|]. intros t w2 Ht Hw2.
  apply wp_bind_db; [auto with go..|]. intros statID w3 Hw3.
  apply wp_bind, wp_try, wp_store_save; [done|]. intros t' w4 _ Hw4. apply wp_ret, HQ.
  - rewrite Hw4. unfold CallStatStore_Save. simpl.
    destruct (bool_decide _); simpl; rewrite Hw3, Hw2, Hw1; unfold CallStore_Update; simpl;
      by destruct (tbl_calls (w_db w) !! call_ID row).
  - intros row0 [= <-] Hid. split; [done|].
    assert (tbl_calls (w_db w4) = tbl_calls (w_db w2)) as ->.
    { rewrite Hw4, <-Hw3. unfold CallStatStore_Save; simpl. by destruct (bool_decide _). }
    rewrite Hw2, Hw1. unfold CallStore_Update; simpl. rewrite Hid, Hrow; simpl.
    rewrite lookup_insert_eq. by eexists.
Qed.

Lemma frames_unregister_db r i : frames w_db (unregister r i).
Proof. unfold unregister. apply frames_bind; [apply frames_on_shards_db|]. intros. frames_tac. Qed.

Lemma endCallState_db r cs now (w : world C) :
  no_faults → calls (w_core w) !! r = Some cs → ended cs = false →
  wp (endCallState r now) (λ _ w',
    tbl_sessions (w_db w') = (λ s, if open_in (cs_callID cs) s then close_row now s else s)
                               <$> tbl_sessions (w_db w) ∧
    (∀ row, tbl_calls (w_db w) !! cs_callID cs = Some row → call_ID row = cs_callID cs →
      ∃ row', tbl_calls (w_db w') !! cs_callID cs = Some row' ∧ row_ended now row row')) w.
Proof.
  intros Hnf Hcs He. unfold endCallState. apply wp_bind, wp_on_call. unfold markEnded.
  assert (call_at (w_core w) r = cs) as Hat by (unfold call_at; by rewrite Hcs). rewrite Hat.
  apply bool_decide_eq_false in He. rewrite decide_False by done. simpl.
  set (w1 := upd_core _ w).
  assert (call_at (w_core w1) r = with_endAt now cs) as Hat1.
  { unfold w1, call_at; simpl. by rewrite lookup_alter_eq, Hcs. }
  apply wp_bind, wp_ask, wp_bind, wp_ask, wp_bind, wp_ask. rewrite Hat1. simpl.
  apply wp_bind_db; [apply frames_unregister_db|apply no_err_unregister|]. intros owned w2 Hw2.
  apply wp_bind, persist_end_db; [done|]. intros post w3 Hs3 Hc3.
  apply wp_bind_db; [apply frames_endCallPost_db|apply no_err_endCallPost|]. intros _ w4 Hw4.
  apply wp_bind_db; [apply frames_for, frames_close_session_db|apply no_err_for, no_err_close_session|].
  intros _ w5 Hw5. apply wp_bind, wp_try, wp_store_write; [done|]. intros w6 Hw6.
  match goal with |- wp ?p _ _ => assert (frames w_db p) as Hf by (destruct owned; auto with go) end.
  unfold wp. rewrite (Hf w6), Hw6, Hw5, Hw4. simpl.
  change (w_db w1) with (w_db w) in Hw2. rewrite Hw2 in Hs3, Hc3. split; [by rewrite Hs3|].
  intros row Hrow Hid. by destruct (Hc3 _ Hrow Hid).
Qed.

(** ** Tearing one session down *)

Lemma participants_zero cs : participants cs = 0%Z ↔ cs_sessions cs = ∅.
Proof.
  unfold participants. split; [intros Hz; apply map_size_empty_iff; lia|].
  intros ->. by rewrite map_size_empty.
Qed.

(** The memory after the session [sid] left call [r]: the last one takes the
    call with it. *)
Record torn_core (r : cref) (sid : string) (cs' : callState) (m : gmap string cref) (c c' : core)
    : Prop := {
  tc_others : ∀ r', r' ≠ r → calls c' !! r' = calls c !! r';
  tc_sess : sess c' = sess c;
  tc_index : bySession (index c') !! sid = None;
  tc_empty : cs_sessions cs' = ∅ →
    (∃ now, (0 < now)%Z ∧ calls c' !! r = Some (with_endAt now cs')) ∧
    models (shards c') (if decide (m !! cs_callID cs' = Some r) then delete (cs_callID cs') m else m) ∧
    channelCalls c' = (ci_deleteIf (channelCalls c) (cs_channelID cs') r).2;
  tc_left : cs_sessions cs' ≠ ∅ →
    calls c' !! r = Some cs' ∧ shards c' = shards c ∧ channelCalls c' = channelCalls c;
}.

Lemma teardownSession_core r s x cs m (w : world C) :
  calls (w_core w) !! r = Some cs → sess (w_core w) !! s = Some x →
  cs_sessions cs !! sessionID x = Some s → ended cs = false → models (shards (w_core w)) m →
  wp (teardownSession r s) (λ res w', res = Ok tt ∧
    torn_core r (sessionID x) (removeSession (sess (w_core w)) cs (sessionID x)).2 m
      (w_core w) (w_core w')) w.
Proof.
  intros Hcs Hs Hin He Hm. unfold teardownSession. apply wp_bind, wp_read. rewrite Hs. simpl.
  assert (call_at (w_core w) r = cs) as Hat by (unfold call_at; by rewrite Hcs).
  apply wp_bind, wp_on_call. rewrite Hat.
  set (cs' := (removeSession (sess (w_core w)) cs (sessionID x)).2).
  assert (∃ lc, removeSession (sess (w_core w)) cs (sessionID x) = (Some (s, lc), cs')) as [lc Hrem].
  { unfold cs', removeSession. rewrite Hin. by eexists. }
  rewrite Hrem. set (w1 := upd_core _ w). apply wp_bind, wp_modify_core. set (w2 := upd_core _ w1).
  assert (calls (w_core w2) !! r = Some cs') as Hcs2 by (simpl; by rewrite lookup_alter_eq, Hcs).
  assert (∀ r', r' ≠ r → calls (w_core w2) !! r' = calls (w_core w) !! r') as Hoth
    by (intros r' Hr'; simpl; by rewrite lookup_alter_ne).
  assert (bySession (index (w_core w2)) !! sessionID x = None) as Hix
    by (simpl; by rewrite lookup_delete_eq).
  assert (ended cs' = false) as He'.
  { unfold cs', removeSession. by rewrite Hin. }
  clearbody cs'.
  apply wp_bind_calm; [auto with go..|]. intros _ w3 Hw3.
  apply wp_bind_calm; [auto with go..|]. intros t w4 Hw4.
  apply wp_bind_calm; [auto with go..|]. intros _ w5 Hw5.
  apply wp_bind, wp_ask. apply wp_bind_calm; [auto with go|apply no_err_broadcast|]. intros _ w6 Hw6.
  apply wp_bind, wp_ask.
  assert (w_core w6 = w_core w2) as Hw by by rewrite Hw6, Hw5, Hw4, Hw3.
  assert (call_at (w_core w6) r = cs') as Hat6 by (unfold call_at; by rewrite Hw, Hcs2).
  rewrite Hat6. destruct (decide (participants cs' = 0%Z)) as [Hz|Hz]; rewrite participants_zero in Hz.
  - apply wp_bind, wp_GetMillis_val. intros n w7 Hw7. apply wp_bind, wp_try.
    eapply wp_mono; [apply (endCallState_live r cs' _ m); [by rewrite Hw7, Hw|done|by rewrite Hw7, Hw]|].
    intros res w8 [_ [Hc Hse Hsh Hch Hi]]. apply wp_ret. split; [done|]. rewrite Hw7 in *.
    rewrite Hat6 in Hsh, Hch, Hi. rewrite Hw in *. split; [| | | |done].
    + intros r' Hr'. rewrite Hc, lookup_alter_ne by done. by apply Hoth.
    + done.
    + rewrite Hi, unlink_all_bySession. by destruct (decide (_ ∈ _)).
    + intros _. split_and!; [|done|done]. exists (clock n). split; [apply clock_pos|].
      by rewrite Hc, lookup_alter_eq, Hcs2.
  - apply wp_ret. split; [done|]. rewrite Hw. by split.
Qed.

(** A session that is no longer in the call is left alone. *)
Lemma teardownSession_gone r s (w : world C) :
  cs_sessions (call_at (w_core w) r) !! sessionID (default nilSession (sess (w_core w) !! s)) = None →
  teardownSession r s w = (Ok tt, w).
Proof.
  intros Hgone. unfold teardownSession, deref, on_call, ask, read, modify_core.
  unfold m_bind, m_gets, m_modify, m_ret. unfold removeSession. rewrite Hgone. simpl.
  by rewrite upd_call_same.
Qed.
End ending.
