(* ===== verification/CallsProps.v ===== *)
(** * Properties of the calls service

    The theorems a client of the service relies on, for every world the
    transitions of [step] can reach.  Each is followed by a witness that
    applies it to a scenario of [CallsDemo]. *)

From S2P Require Import Prelude.
From S2P Require Import GoString.
From S2P Require Import CallShards.
From S2P Require Import CallState.
From S2P Require Import SessionIndex.
From S2P Require Import CallsConfig.
From S2P Require Import IceServers.
From S2P Require Import CallStore.
From S2P Require Import RtcdPool.
From S2P Require Import CallsWorld.
From S2P Require Import CallsService.
From S2P Require Import CallsControl.
From S2P Require Import CallsInv.
From S2P Require Import CallsSafety.
From S2P Require Import CallsDemo.
From S2P Require Import CallsEnd.

Local Open Scope string_scope.
Local Open Scope go_scope.

Section props.
Context {C : Type} `{RTCDClient C ClientMessage} `{GoRange} `{!CallsEnv, !CallsEnvOk}.

Abbreviation registered w id r := (reg_get (shards (w_core w)) id = Some r).

(** C1: at most one live call per channel.  In every reachable world the
    calls in the shard registry are live, each is the entry of its own
    channel, and two registered calls of one channel are the same call. *)
Theorem one_live_call_per_channel conf pool (w : world C) :
  reachable step (init_world conf pool) w →
  (∀ r, r ∈ reg_all (shards (w_core w)) →
     ended (call_at (w_core w) r) = false ∧
     channelCalls (w_core w) !! cs_channelID (call_at (w_core w) r) = Some r ∧
     registered w (cs_callID (call_at (w_core w) r)) r) ∧
  (∀ id1 id2 r1 r2, registered w id1 r1 → registered w id2 r2 →
     cs_channelID (call_at (w_core w) r1) = cs_channelID (call_at (w_core w) r2) →
     id1 = id2 ∧ r1 = r2).
Proof.
  intros (m & Hm & Hr)%reachable_Inv.
  assert (∀ id r, m !! id = Some r → ∃ cs, call_at (w_core w) r = cs ∧ cs_callID cs = id ∧
    cs_endAt cs = 0%Z ∧ channelCalls (w_core w) !! cs_channelID cs = Some r) as Hslot.
  { intros id r Hid. destruct (ri_slot _ _ _ Hr _ _ Hid) as (cs & Hcs & ?). exists cs.
    unfold call_at. by rewrite Hcs. }
  split.
  - intros r [id Hid]%(elem_of_reg_all _ m); [|done].
    destruct (Hslot _ _ Hid) as (cs & -> & Hci & He & Hcc).
    unfold ended. rewrite bool_decide_false by lia. split_and!; try done.
    by rewrite (models_get _ _ Hm), Hci.
  - intros id1 id2 r1 r2. rewrite !(models_get _ _ Hm). intros Hr1 Hr2 Hch.
    destruct (Hslot _ _ Hr1) as (cs1 & Heq1 & Hi1 & _ & Hc1).
    destruct (Hslot _ _ Hr2) as (cs2 & Heq2 & Hi2 & _ & Hc2). subst cs1 cs2.
    rewrite Hch in Hc1. assert (r1 = r2) as -> by congruence. split; [congruence|done].
Qed.

(** C5: every call of every reachable world is well formed.  Its sessions
    are filed under their own session id and belong to this call and its
    channel; it has a host exactly when it has a session, and the host is
    one of the sessions; the recorded peak covers the current count. *)
Theorem reachable_calls_well_formed conf pool (w : world C) r cs :
  reachable step (init_world conf pool) w → calls (w_core w) !! r = Some cs →
  (∀ sid p, cs_sessions cs !! sid = Some p → ∃ x, sess (w_core w) !! p = Some x ∧
     sessionID x = sid ∧ callID x = cs_callID cs ∧ channelID x = cs_channelID cs) ∧
  (cs_hostSessionID cs = "" ↔ cs_sessions cs = ∅) ∧
  (cs_sessions cs ≠ ∅ → is_Some (cs_sessions cs !! cs_hostSessionID cs)) ∧
  (participants cs ≤ peak cs)%Z.
Proof.
  intros (m & Hm & Hr)%reachable_Inv Hcs. pose proof (ri_wf _ _ _ Hr _ _ Hcs) as Hwf.
  split_and!; [apply Hwf|by eapply wf_host_empty| |apply Hwf].
  intros Hne. pose proof (wf_host _ _ Hwf) as Hh. by rewrite decide_False in Hh.
Qed.

(** C4: while the configured maximum is positive and at most [L], no call
    ever holds more than [L] participants, whatever joins, reconnects and
    leaves arrive. *)
Theorem participant_limit L conf pool (w : world C) r cs :
  (0 < L)%Z →
  reachable (λ a b, (0 < maxParticipants (cfg (w_out a)) ≤ L)%Z ∧ step a b)
    (init_world conf pool) w →
  calls (w_core w) !! r = Some cs → (participants cs ≤ L)%Z.
Proof.
  intros HL Hr Hcs. assert (Inv L w) as (m & _ & Hinv).
  { apply (reachable_capped_Inv L conf pool). eapply (rtc_congruence id); [|exact Hr].
    intros a b [? Hs]. split; [|done]. by intros ?. }
  by apply (ri_limit _ _ _ Hinv _ _ Hcs).
Qed.

(** C3: StartCall either hands out a registered live call of the requested
    channel, or reports an error and leaves the shard registry and the
    channel index exactly as they were (a failed insert rolls back). *)
Theorem StartCall_correct conf pool ch owner p (w w' : world C) res :
  reachable step (init_world conf pool) w → StartCall ch owner p w = (res, w') →
  match res with
  | Ok sr => ∃ r cs, registered w' (sr_CallID sr) r ∧ channelCalls (w_core w') !! ch = Some r ∧
      calls (w_core w') !! r = Some cs ∧ cs_callID cs = sr_CallID sr ∧ cs_channelID cs = ch ∧
      ended cs = false
  | Err _ => channelCalls (w_core w') = channelCalls (w_core w) ∧
      ∀ id, reg_get (shards (w_core w')) id = reg_get (shards (w_core w)) id
  end.
Proof.
  intros (m & Hm & Hr)%reachable_Inv Hrun.
  pose proof (StartCall_spec 0 m ch owner p w Hm Hr) as Hs. unfold wp in Hs. rewrite Hrun in Hs.
  destruct res as [sr|e]; destruct Hs as [_ _ _ Hok Herr].
  - destruct (Hok _ eq_refl) as (r & cs & ? & ? & ? & ? & ? & He). exists r, cs.
    split_and!; try done. unfold ended. by rewrite He.
  - destruct (Herr _ eq_refl) as [Hm' Hcc]. split; [done|]. intros id.
    by rewrite (models_get _ _ Hm'), (models_get _ _ Hm).
Qed.

(** starting a call in a channel that has one is free of effects: the
    existing call is returned and nothing else changes, neither memory nor
    database nor what the clients are told. *)
Theorem StartCall_reuses_live_call conf pool ch owner p (w : world C) r :
  reachable step (init_world conf pool) w →
  enabled (cfg (w_out w)) = true → ch ≠ "" → owner ≠ "" →
  channelCalls (w_core w) !! ch = Some r →
  StartCall ch owner p w = (Ok (start_result (call_at (w_core w) r)), w).
Proof.
  intros HI%reachable_Inv He Hch Ho Hcc. unfold StartCall, read_out, read, ask, m_bind, m_gets.
  rewrite He, !bool_decide_false by done. simpl. by rewrite (getLive_entry 0), Hcc by done.
Qed.

(** C2: EndCall on a registered call, without database faults, succeeds and
    is complete: the call carries its end time, both registries have
    forgotten it, none of its sessions is left in the session index, no
    session row of the call is open, and the call row has the same end
    time. *)
Theorem EndCall_complete conf pool id r cs (w w' : world C) res :
  reachable step (init_world conf pool) w → no_faults → registered w id r →
  calls (w_core w) !! r = Some cs → EndCall id w = (res, w') →
  let now := clock (ticks (w_out w)) in
  res = Ok tt ∧ calls (w_core w') !! r = Some (with_endAt now cs) ∧
  reg_get (shards (w_core w')) id = None ∧
  channelCalls (w_core w') !! cs_channelID cs = None ∧
  (∀ sid, is_Some (cs_sessions cs !! sid) →
     bySession (index (w_core w')) !! sid = None ∧
     byConn (index (w_core w')) !! connIDFor (sess (w_core w)) cs sid = None) ∧
  open_rows (db (w_out w')) (open_in id) = ∅ ∧
  (∀ row, tbl_calls (db (w_out w)) !! id = Some row → call_ID row = id →
     ∃ row', tbl_calls (db (w_out w')) !! id = Some row' ∧ row_ended now row row').
Proof.
  intros (m & Hm & Hr)%reachable_Inv Hnf Hreg Hcs Hrun now.
  rewrite (models_get _ _ Hm) in Hreg.
  destruct (ri_slot _ _ _ Hr _ _ Hreg) as (cs0 & Hcs0 & Hid & He & Hcc).
  rewrite Hcs in Hcs0. injection Hcs0 as <-.
  assert (ended cs = false) as Hnot by (unfold ended; by rewrite He).
  assert (EndCall id w = endCallState r now (upd_out (with_ticks (S (ticks (w_out w)))) w)) as Heq.
  { unfold EndCall, shards_get, read, m_bind, m_gets. by rewrite (models_get _ _ Hm), Hreg. }
  set (w1 := upd_out _ w) in Heq. rewrite Heq in Hrun.
  pose proof (endCallState_live r cs now m w1 Hcs Hnot Hm) as Hcore.
  pose proof (endCallState_db r cs now w1 Hnf Hcs Hnot) as Hdb.
  unfold wp in Hcore, Hdb. rewrite Hrun in Hcore, Hdb. simpl in Hcore, Hdb.
  destruct Hcore as [-> [Hc Hse Hsh Hch Hix]]. destruct Hdb as [Hs Hrow].
  assert (call_at (w_core w) r = cs) as Hat by (unfold call_at; by rewrite Hcs).
  rewrite Hat in Hsh, Hch, Hix. rewrite Hid in *.
  rewrite decide_True in Hsh by done. split_and!; [done| | | | | |done].
  - by rewrite Hc, lookup_alter_eq, Hcs.
  - by rewrite (models_get _ _ Hsh), lookup_delete_eq.
  - rewrite Hch, ci_deleteIf_map, decide_True by done. by rewrite lookup_delete_eq.
  - intros sid Hsid. assert (sid ∈ sessionIDs cs) as Hin.
    { destruct Hsid as [p Hp]. apply list_elem_of_fmap. exists (sid, p). split; [done|].
      by apply elem_of_go_range. }
    rewrite Hix, unlink_all_bySession, unlink_all_byConn, !decide_True; [done| |done].
    apply list_elem_of_fmap. by exists sid.
  - apply map_eq. intros k. rewrite lookup_empty. apply eq_None_not_Some. intros [s' Hk].
    apply lookup_open_rows in Hk as [Hk Hopen]. unfold w_db in Hs. rewrite Hs, lookup_fmap in Hk.
    destruct (tbl_sessions _ !! k) as [s|]; simplify_eq/=.
    destruct (open_in _ s) eqn:Eo; [|congruence].
    apply open_in_true in Hopen as [_ Hz]. simpl in Hz. pose proof (clock_pos (ticks (w_out w))). lia.
Qed.

(** a call ends exactly once.  The first end of a live call succeeds;
    whatever tries to end it again (a second request, the reaper, the last
    participant leaving) is told ErrCallEnded and changes nothing. *)
Theorem call_ends_once r cs now now' (w : world C) conf pool :
  reachable step (init_world conf pool) w → calls (w_core w) !! r = Some cs → (0 < now)%Z →
  (ended cs = false → fst (endCallState r now w) = Ok tt) ∧
  let w1 := snd (endCallState r now w) in
  endCallState r now' w1 = (Err ErrCallEnded, w1).
Proof.
  intros (m & Hm & _)%reachable_Inv Hcs Hnow.
  destruct (ended cs) eqn:He.
  - split; [done|]. assert (endCallState r now w = (Err ErrCallEnded, w)) as ->.
    { apply endCallState_ended. unfold call_at. by rewrite Hcs. }
    apply endCallState_ended. unfold call_at. simpl. by rewrite Hcs.
  - destruct (endCallState_live r cs now m w Hcs He Hm) as [Hok [Hc _ _ _ _]].
    split; [done|]. apply endCallState_ended. unfold call_at.
    rewrite Hc, lookup_alter_eq, Hcs. simpl. by apply bool_decide_eq_true.
Qed.

(** C6: a session is torn down exactly once.  When the leave, the SFU's
    close, the host's removal and the disconnect timer race for one session,
    the first removes it from the call and from the session index, and ends
    the call if nobody is left; every later one changes nothing. *)
Theorem teardown_once conf pool r s x cs (w : world C) :
  reachable step (init_world conf pool) w →
  calls (w_core w) !! r = Some cs → ended cs = false →
  cs_sessions cs !! sessionID x = Some s → sess (w_core w) !! s = Some x →
  let w1 := snd (teardownSession r s w) in
  teardownSession r s w1 = (Ok tt, w1) ∧
  bySession (index (w_core w1)) !! sessionID x = None ∧
  ∃ cs1, calls (w_core w1) !! r = Some cs1 ∧
    cs_sessions cs1 = delete (sessionID x) (cs_sessions cs) ∧
    (ended cs1 = true ↔ cs_sessions cs1 = ∅).
Proof.
  intros (m & Hm & _)%reachable_Inv Hcs He Hin Hs w1.
  destruct (teardownSession_core r s x cs m w Hcs Hs Hin He Hm) as [_ [_ Hsess Hix Hemp Hleft]].
  change (snd (teardownSession r s w)) with w1 in Hix, Hsess, Hemp, Hleft.
  set (cs' := (removeSession _ _ _).2) in *.
  assert (cs_sessions cs' = delete (sessionID x) (cs_sessions cs) ∧ cs_endAt cs' = cs_endAt cs)
    as [Hd Hend] by (unfold cs', removeSession; by rewrite Hin).
  assert (∃ cs1, calls (w_core w1) !! r = Some cs1 ∧
    cs_sessions cs1 = delete (sessionID x) (cs_sessions cs) ∧
    (ended cs1 = true ↔ cs_sessions cs1 = ∅)) as (cs1 & Hcs1 & Hd1 & Hiff).
  { destruct (decide (cs_sessions cs' = ∅)) as [Hz|Hz].
    - destruct (Hemp Hz) as ((now & Hnow & Hc) & _). exists (with_endAt now cs').
      split_and!; [done|done|]. split; [done|]. intros _. by apply bool_decide_eq_true.
    - destruct (Hleft Hz) as (Hc & _). exists cs'. split_and!; [done|done|].
      split; [|done]. unfold ended in *. by rewrite Hend, He. }
  split_and!; [|done|by exists cs1]. apply teardownSession_gone. rewrite Hsess, Hs. simpl.
  unfold call_at. rewrite Hcs1. simpl. by rewrite Hd1, lookup_delete_eq.
Qed.

(** only the host's user can run a host control.  Every other requester
    gets ErrNotCallHost, a call that is not registered ErrCallNotFound, and
    in both cases the whole world (memory, database, events, SFU) is
    unchanged. *)
Theorem host_controls_need_host callID requester target (w : world C) :
  (∀ r, registered w callID r → hostUserID (sess (w_core w)) (call_at (w_core w) r) ≠ requester) →
  ∃ e, e = (match reg_get (shards (w_core w)) callID with
            | Some _ => ErrNotCallHost | None => ErrCallNotFound end) ∧
    Forall (λ p : M (world C) goerr unit, p w = (Err e, w))
      [MakeHost callID requester target; MuteSession callID requester target;
       MuteOthers callID requester; ScreenOff callID requester target;
       LowerHand callID requester target; RemoveSession callID requester target;
       EndCallByHost callID requester].
Proof.
  intros Hno. eexists. split; [done|].
  assert (callForHostAction callID requester w = (Err (match reg_get (shards (w_core w)) callID with
            | Some _ => ErrNotCallHost | None => ErrCallNotFound end), w)) as Hdeny.
  { unfold callForHostAction, shards_get, read, ask, m_bind, m_gets.
    destruct (reg_get (shards (w_core w)) callID) as [r|] eqn:E; [|done]. simpl.
    rewrite decide_True; [done|]. by apply Hno. }
  repeat constructor; unfold MakeHost, MuteSession, MuteOthers, ScreenOff, LowerHand,
    RemoveSession, EndCallByHost, m_bind at 1; by rewrite Hdeny.
Qed.
End props.

(** ** Witnesses *)

Definition scene : list request := [demo_join "k1" "u1" "ch"; demo_join "k2" "u2" "ch"].
Definition w_scene : world bool := demo_run scene.

Lemma scene_reachable : reachable step (init_world demo_conf (Some demo_pool)) w_scene.
Proof. apply demo_reachable. Qed.

Abbreviation scene_call := (call_at (w_core w_scene) 0).
Definition scene_sess (p : sref) : session := default nilSession (sess (w_core w_scene) !! p).

Lemma one_live_call_per_channel_witness :
  channelCalls (w_core w_scene) !! cs_channelID scene_call = Some 0.
Proof.
  destruct (one_live_call_per_channel demo_conf (Some demo_pool) w_scene scene_reachable) as [Hall _].
  destruct (Hall 0) as (_ & Hch & _); [|exact Hch].
  assert (reg_all (shards (w_core w_scene)) = [0]) as -> by (vm_compute; reflexivity). left.
Defined.

Lemma reachable_calls_well_formed_witness :
  is_Some (cs_sessions scene_call !! cs_hostSessionID scene_call).
Proof.
  destruct (reachable_calls_well_formed demo_conf (Some demo_pool) w_scene 0 scene_call scene_reachable)
    as (_ & _ & Hhost & _); [vm_compute; reflexivity|].
  apply Hhost. vm_compute. discriminate.
Defined.

Lemma participant_limit_witness : (participants scene_call ≤ 2)%Z.
Proof.
  apply (participant_limit 2 demo_conf (Some demo_pool) w_scene 0 scene_call); [lia| |vm_compute; reflexivity].
  eapply rtc_l; [split; [vm_compute; split; congruence|apply (step_request (demo_join "k1" "u1" "ch"))]|].
  eapply rtc_l; [split; [vm_compute; split; congruence|apply (step_request (demo_join "k2" "u2" "ch"))]|].
  apply rtc_refl.
Defined.

Lemma StartCall_correct_witness :
  let w' := snd (StartCall "other" "u1" "" w_scene) in
  ∃ r cs, channelCalls (w_core w') !! "other" = Some r ∧ calls (w_core w') !! r = Some cs ∧
    cs_channelID cs = "other" ∧ ended cs = false.
Proof.
  intros w'. pose proof (StartCall_correct demo_conf (Some demo_pool) "other" "u1" "" w_scene w'
    (fst (StartCall "other" "u1" "" w_scene)) scene_reachable (surjective_pairing _)) as Hs.
  assert (fst (StartCall "other" "u1" "" w_scene) =
    Ok {| sr_CallID := demo_id 3; sr_RTCDHost := "10.0.0.1:8045"; sr_StartAt := 20 |}) as Hok
    by (vm_compute; reflexivity).
  rewrite Hok in Hs. destruct Hs as (r & cs & _ & Hch & Hcs & _ & Hcc & He).
  exists r, cs. split_and!; [exact Hch|exact Hcs|exact Hcc|exact He].
Defined.

Lemma StartCall_reuses_live_call_witness :
  StartCall "ch" "u9" "" w_scene = (Ok (start_result scene_call), w_scene).
Proof.
  apply (StartCall_reuses_live_call demo_conf (Some demo_pool) "ch" "u9" "" w_scene 0 scene_reachable);
    [vm_compute; reflexivity|done|done|vm_compute; reflexivity].
Defined.

Lemma EndCall_complete_witness :
  open_rows (db (w_out (snd (EndCall (demo_id 0) w_scene)))) (open_in (demo_id 0)) = ∅.
Proof.
  eapply (EndCall_complete demo_conf (Some demo_pool) (demo_id 0) 0 scene_call w_scene _
    (fst (EndCall (demo_id 0) w_scene)) scene_reachable); [done|vm_compute; reflexivity..|].
  apply surjective_pairing.
Defined.

Lemma call_ends_once_witness :
  fst (endCallState 0 50 w_scene) = Ok tt ∧
  fst (endCallState 0 60 (snd (endCallState 0 50 w_scene))) = Err ErrCallEnded.
Proof.
  destruct (call_ends_once 0 scene_call 50 60 w_scene demo_conf (Some demo_pool) scene_reachable)
    as [Hok Hagain]; [vm_compute; reflexivity|lia|].
  split; [apply Hok; vm_compute; reflexivity|]. cbv zeta in Hagain. by rewrite Hagain.
Defined.

Lemma teardown_once_witness :
  teardownSession 0 1 (snd (teardownSession 0 1 w_scene)) =
    (Ok tt, snd (teardownSession 0 1 w_scene)).
Proof.
  apply (teardown_once demo_conf (Some demo_pool) 0 1 (scene_sess 1) scene_call w_scene scene_reachable);
    vm_compute; reflexivity.
Defined.

Lemma host_controls_need_host_witness :
  MuteSession (demo_id 0) "u2" "k1" w_scene = (Err ErrNotCallHost, w_scene).
Proof.
  destruct (host_controls_need_host (demo_id 0) "u2" "k1" w_scene) as (e & He & Hall).
  - intros r. assert (reg_get (shards (w_core w_scene)) (demo_id 0) = Some 0) as -> by (vm_compute; reflexivity).
    intros [= <-]. vm_compute. discriminate.
  - assert (reg_get (shards (w_core w_scene)) (demo_id 0) = Some 0) as Hg by (vm_compute; reflexivity).
    rewrite Hg in He. rewrite <-He. rewrite Forall_forall in Hall. apply Hall.
    right. left.
Defined.
