(* ===== verification/JoinRace.v ===== *)
(** * Joins, leaves and call ends as interleaved critical sections

    The service files run a handler in one step.  Here the three routines that
    meet on one call state run as threads, one critical section at a time:
    [joiner] is addSessionIfLive (shard.go) followed by [index.link],
    [leaver] is teardownSession (client_messages.go) and [ender] is
    endCallState (api.go), which a leaver of the last session enters.  The
    shard mutex is held across steps; the call mutex and the index mutex
    protect one step each.  Messages and database writes have no part in the
    race and are left to [CallsService]. *)

From S2P Require Import Prelude.
From S2P Require Import CallShards.
From S2P Require Import CallState.
From S2P Require Import SessionIndex.
From S2P Require Import CallsWorld.

Local Open Scope string_scope.
Local Open Scope nat_scope.

(** ** Threads *)

Inductive thread :=
  (* addSessionIfLive; the last argument of JUnlock is its result *)
  | JLock (sid : string) (s : sref) (limit : Z)
  | JCheck (sid : string) (s : sref) (limit : Z)
  | JAdd (sid : string) (s : sref) (limit : Z)
  | JUnlock (sid : string) (s : sref) (result : res goerr (option sref))
  | JLink (sid : string) (s : sref) (prev : option sref)
  | JDone (result : res goerr (option sref))
  (* teardownSession; [now] is the GetMillis of the call end *)
  | TRemove (s : sref) (now : Z)
  | TUnlink (sid conn : string) (now : Z)
  | TCount (now : Z)
  | TDone
  (* endCallState *)
  | EMark (now : Z)
  | ESnapshot (now : Z)
  | ESessionIDs (now : Z) (views : list SessionView)
  | EShard (now : Z) (views : list SessionView) (ids : list string)
  | EChannel (now : Z) (views : list SessionView) (ids : list string)
  | ECloseLegs (now : Z) (views : list SessionView) (ids : list string) (owned : bool)
  | EDone (result : res goerr unit).

Definition joiner (sid : string) (s : sref) (limit : Z) : thread := JLock sid s limit.
Definition leaver (s : sref) (now : Z) : thread := TRemove s now.
Definition ender (now : Z) : thread := EMark now.

(** The memory the threads share: one call [r_call], reached through [r_ref]. *)
Record race := Race {
  r_sess : sheap;
  r_ref : cref;
  r_call : callState;
  r_shard : callShard;
  r_lock : option nat;
  r_channels : channelIndex;
  r_index : sessionRegistry;
  r_threads : list thread;
}.

Section steps.
Context `{GoRange}.

Definition set_lock (o : option nat) (st : race) : race :=
  Race (r_sess st) (r_ref st) (r_call st) (r_shard st) o (r_channels st) (r_index st)
    (r_threads st).
Definition set_call (cs : callState) (st : race) : race :=
  Race (r_sess st) (r_ref st) cs (r_shard st) (r_lock st) (r_channels st) (r_index st)
    (r_threads st).
Definition set_shard (sh : callShard) (st : race) : race :=
  Race (r_sess st) (r_ref st) (r_call st) sh (r_lock st) (r_channels st) (r_index st)
    (r_threads st).
Definition set_channels (ci : channelIndex) (st : race) : race :=
  Race (r_sess st) (r_ref st) (r_call st) (r_shard st) (r_lock st) ci (r_index st)
    (r_threads st).
Definition set_index (ix : sessionRegistry) (st : race) : race :=
  Race (r_sess st) (r_ref st) (r_call st) (r_shard st) (r_lock st) (r_channels st) ix
    (r_threads st).
Definition set_thread (i : nat) (t : thread) (st : race) : race :=
  Race (r_sess st) (r_ref st) (r_call st) (r_shard st) (r_lock st) (r_channels st)
    (r_index st) (<[i := t]> (r_threads st)).

(** One critical section of addSessionIfLive and the link after it. *)
Definition join_step (i : nat) (t : thread) (st : race) : option (thread * race) :=
  match t with
  | JLock sid s limit =>
      match r_lock st with
      | None => Some (JCheck sid s limit, set_lock (Some i) st)
      | Some _ => None
      end
  | JCheck sid s limit =>
      match shard_get (r_shard st) (cs_callID (r_call st)) with
      | Some r => if decide (r = r_ref st) then
                    if ended (r_call st) then Some (JUnlock sid s (Err ErrCallNotFound), st)
                    else Some (JAdd sid s limit, st)
                  else None
      | None => Some (JUnlock sid s (Err ErrCallNotFound), st)
      end
  | JAdd sid s limit =>
      match addSession (r_sess st) (r_call st) sid s limit with
      | (None, cs) => Some (JUnlock sid s (Err ErrMaxParticipants), set_call cs st)
      | (Some prev, cs) => Some (JUnlock sid s (Ok prev), set_call cs st)
      end
  | JUnlock sid s (Ok prev) => Some (JLink sid s prev, set_lock None st)
  | JUnlock sid s (Err e) => Some (JDone (Err e), set_lock None st)
  | JLink sid s prev =>
      Some (JDone (Ok prev),
            set_index (link (r_index st) sid (sess_connID (r_sess st) s) (r_ref st)) st)
  | _ => None
  end.

(** One critical section of teardownSession. *)
Definition leave_step (t : thread) (st : race) : option (thread * race) :=
  match t with
  | TRemove s now =>
      match removeSession (r_sess st) (r_call st)
              (default "" (sessionID <$> r_sess st !! s)) with
      | (None, cs) => Some (TDone, set_call cs st)
      | (Some (_, conn), cs) =>
          Some (TUnlink (default "" (sessionID <$> r_sess st !! s)) conn now, set_call cs st)
      end
  | TUnlink sid conn now => Some (TCount now, set_index (unlink (r_index st) sid conn) st)
  | TCount now =>
      Some (if decide (participants (r_call st) = 0%Z) then EMark now else TDone, st)
  | _ => None
  end.

(** One critical section of endCallState. *)
Definition end_step (t : thread) (st : race) : option (thread * race) :=
  match t with
  | EMark now =>
      match markEnded now (r_call st) with
      | (true, cs) => Some (ESnapshot now, set_call cs st)
      | (false, cs) => Some (EDone (Err ErrCallEnded), set_call cs st)
      end
  | ESnapshot now => Some (ESessionIDs now (snapshot (r_sess st) (r_call st)).1, st)
  | ESessionIDs now views => Some (EShard now views (sessionIDs (r_call st)), st)
  | EShard now views ids =>
      match r_lock st with
      | None =>
          Some (EChannel now views ids,
                set_shard (shard_deleteIf (r_shard st) (cs_callID (r_call st)) (r_ref st)).2 st)
      | Some _ => None
      end
  | EChannel now views ids =>
      let '(owned, ci) := ci_deleteIf (r_channels st) (cs_channelID (r_call st)) (r_ref st) in
      Some (ECloseLegs now views ids owned, set_channels ci st)
  | ECloseLegs now views (id :: ids) owned =>
      Some (ECloseLegs now views ids owned,
            set_index (unlink (r_index st) id (connIDFor (r_sess st) (r_call st) id)) st)
  | ECloseLegs _ _ [] _ => Some (EDone (Ok tt), st)
  | _ => None
  end.

Definition thread_step (i : nat) (t : thread) (st : race) : option (thread * race) :=
  match t with
  | JLock _ _ _ | JCheck _ _ _ | JAdd _ _ _ | JUnlock _ _ _ | JLink _ _ _ | JDone _ =>
      join_step i t st
  | TRemove _ _ | TUnlink _ _ _ | TCount _ | TDone => leave_step t st
  | EMark _ | ESnapshot _ | ESessionIDs _ _ | EShard _ _ _ | EChannel _ _ _
  | ECloseLegs _ _ _ _ | EDone _ => end_step t st
  end.

(** Thread [i] runs its next critical section; [None]: it is blocked or done. *)
Definition run_thread (i : nat) (st : race) : option race :=
  t ← r_threads st !! i; '(t', st') ← thread_step i t st; Some (set_thread i t' st').

Definition rstep (st st' : race) : Prop := ∃ i, run_thread i st = Some st'.

Definition run_order (order : list nat) (st : race) : option race :=
  foldl (λ o i, o ≫= run_thread i) (Some st) order.

Definition finished (t : thread) : bool :=
  match t with JDone _ | TDone | EDone _ => true | _ => false end.
End steps.

(** ** Work left in a state *)

(** Threads that may still insert a session. *)
Definition inserting (t : thread) : bool :=
  match t with JLock _ _ _ | JCheck _ _ _ | JAdd _ _ _ => true | _ => false end.

(** Threads inside the shard's critical section. *)
Definition holds_lock (t : thread) : bool :=
  match t with JCheck _ _ _ | JAdd _ _ _ | JUnlock _ _ _ => true | _ => false end.

(** Critical sections a thread still has to run, when a call never holds more
    than [b] sessions. *)
Definition thread_work (b : nat) (t : thread) : nat :=
  match t with
  | JLock _ _ _ => 5 | JCheck _ _ _ => 4 | JAdd _ _ _ => 3 | JUnlock _ _ _ => 2
  | JLink _ _ _ => 1 | JDone _ => 0
  | TRemove _ _ => b + 10 | TUnlink _ _ _ => b + 9 | TCount _ => b + 8 | TDone => 0
  | EMark _ => b + 7 | ESnapshot _ => b + 6 | ESessionIDs _ _ => b + 5
  | EShard _ _ ids => length ids + 4 | EChannel _ _ ids => length ids + 3
  | ECloseLegs _ _ ids _ => length ids + 1 | EDone _ => 0
  end.

Definition count_inserting (l : list thread) : nat :=
  sum_list ((λ t, if inserting t then 1 else 0) <$> l).

(** The bound on the sessions of the call over the whole run. *)
Definition session_bound (st : race) : nat :=
  size (cs_sessions (r_call st)) + count_inserting (r_threads st).

Definition work (b : nat) (st : race) : nat := sum_list (thread_work b <$> r_threads st).

Record race_ok (b : nat) (st : race) : Prop := {
  ro_lock : ∀ i t, r_threads st !! i = Some t → (r_lock st = Some i ↔ holds_lock t = true);
  ro_held : ∀ i, r_lock st = Some i → i < length (r_threads st);
  ro_slot : ∀ r, r_shard st !! cs_callID (r_call st) = Some r → r = r_ref st;
  ro_bound : session_bound st ≤ b;
}.

(** Threads before their first step. *)
Definition fresh_thread (t : thread) : bool :=
  match t with JLock _ _ _ | TRemove _ _ | EMark _ => true | _ => false end.

Definition race_start (st : race) : Prop :=
  r_lock st = None ∧ Forall fresh_thread (r_threads st) ∧
  r_shard st !! cs_callID (r_call st) ∈ [None; Some (r_ref st)].

Lemma sum_list_insert (f : thread → nat) l i t t' :
  l !! i = Some t → sum_list (f <$> <[i := t']> l) + f t = sum_list (f <$> l) + f t'.
Proof.
  revert i. induction l as [|x l IH]; intros [|i] Hi; simplify_eq/=; [lia|].
  specialize (IH _ Hi). lia.
Qed.

Section race_proofs.
Context `{GoRange}.

Lemma addSession_size hs cs sid s limit o cs' :
  addSession hs cs sid s limit = (o, cs') →
  size (cs_sessions cs') ≤ S (size (cs_sessions cs)) ∧ cs_callID cs' = cs_callID cs.
Proof.
  unfold addSession. destruct (_ && _ && _); intros [= <- <-]; simpl; [split; lia || done|].
  rewrite map_size_insert. destruct (cs_sessions cs !! sid); simpl; split; lia || done.
Qed.

Lemma removeSession_size hs cs sid o cs' :
  removeSession hs cs sid = (o, cs') →
  size (cs_sessions cs') ≤ size (cs_sessions cs) ∧ cs_callID cs' = cs_callID cs.
Proof.
  unfold removeSession. destruct (_ !! sid) eqn:E; intros [= <- <-]; simpl; (split; [|done]); [|lia].
  rewrite map_size_delete, E. simpl. lia.
Qed.

Lemma markEnded_frame now cs ok cs' :
  markEnded now cs = (ok, cs') →
  cs_sessions cs' = cs_sessions cs ∧ cs_callID cs' = cs_callID cs.
Proof. unfold markEnded. destruct (decide _); by intros [= <- <-]. Qed.

(** What one critical section does, whoever runs it. *)
Record section_ok (b i : nat) (t t' : thread) (st st' : race) : Prop := {
  so_work : size (cs_sessions (r_call st)) ≤ b → thread_work b t' < thread_work b t;
  so_grow : size (cs_sessions (r_call st')) + (if inserting t' then 1 else 0) ≤
            size (cs_sessions (r_call st)) + (if inserting t then 1 else 0);
  so_id : cs_callID (r_call st') = cs_callID (r_call st);
  so_ref : r_ref st' = r_ref st;
  so_threads : r_threads st' = r_threads st;
  so_shard : r_shard st' = r_shard st ∨ r_shard st' = delete (cs_callID (r_call st)) (r_shard st);
  so_lock : (holds_lock t' = holds_lock t ∧ r_lock st' = r_lock st) ∨
            (holds_lock t = false ∧ holds_lock t' = true ∧ r_lock st = None ∧ r_lock st' = Some i) ∨
            (holds_lock t = true ∧ holds_lock t' = false ∧ r_lock st' = None);
}.

Lemma shard_deleteIf_cases sh id r :
  (shard_deleteIf sh id r).2 = sh ∨ (shard_deleteIf sh id r).2 = delete id sh.
Proof. unfold shard_deleteIf. destruct (decide _); simpl; auto. Qed.

Ltac section_tac := split; simpl; try lia; auto 6 using shard_deleteIf_cases.

Lemma join_step_ok b i t t' st st' :
  join_step i t st = Some (t', st') → section_ok b i t t' st st'.
Proof.
  intros Hs. destruct t; simpl in Hs; try done.
  - destruct (r_lock st) eqn:E; simplify_eq. section_tac.
  - destruct (shard_get _ _); [|simplify_eq; section_tac].
    destruct (decide _); [|done]. destruct (ended _); simplify_eq; section_tac.
  - destruct (addSession _ _ _ _ _) as [o cs] eqn:E.
    pose proof (addSession_size _ _ _ _ _ _ _ E) as [? ?].
    destruct o; simplify_eq; section_tac.
  - destruct result; simplify_eq; section_tac.
  - simplify_eq. section_tac.
Qed.

Lemma leave_step_ok b i t t' st st' :
  leave_step t st = Some (t', st') → section_ok b i t t' st st'.
Proof.
  intros Hs. destruct t; simpl in Hs; try done.
  - destruct (removeSession _ _ _) as [o cs] eqn:E.
    pose proof (removeSession_size _ _ _ _ _ E) as [? ?].
    destruct o as [[? ?]|]; simplify_eq; section_tac.
  - simplify_eq. section_tac.
  - destruct (decide _); simplify_eq; section_tac.
Qed.

Lemma end_step_ok b i t t' st st' :
  end_step t st = Some (t', st') → section_ok b i t t' st st'.
Proof.
  intros Hs. destruct t; simpl in Hs; try done.
  - destruct (markEnded _ _) as [ok cs] eqn:E.
    pose proof (markEnded_frame _ _ _ _ E) as [Hs1 ?].
    destruct ok; simplify_eq; section_tac; rewrite Hs1; lia.
  - simplify_eq. section_tac.
  - simplify_eq. section_tac.
    unfold sessionIDs. rewrite length_fmap, length_go_range. lia.
  - destruct (r_lock st) eqn:E; simplify_eq. section_tac.
  - destruct (ci_deleteIf _ _ _); simplify_eq. section_tac.
  - destruct ids; simplify_eq; section_tac.
Qed.

Lemma thread_step_ok b i t t' st st' :
  thread_step i t st = Some (t', st') → section_ok b i t t' st st'.
Proof.
  destruct t; simpl thread_step; eauto using join_step_ok, leave_step_ok, end_step_ok.
Qed.

Lemma run_thread_inv i st st' :
  run_thread i st = Some st' →
  ∃ t t' st1, r_threads st !! i = Some t ∧ thread_step i t st = Some (t', st1) ∧
              st' = set_thread i t' st1.
Proof.
  unfold run_thread. intros Hs. apply bind_Some in Hs as (t & Ht & Hs).
  apply bind_Some in Hs as ([t' st1] & Hst & Hs). simplify_eq. eauto 6.
Qed.

Lemma race_ok_step b st st' :
  race_ok b st → rstep st st' → race_ok b st' ∧ work b st' < work b st.
Proof.
  intros [Hlock Hheld Hslot Hb] [i Hi]. apply run_thread_inv in Hi as (t & t' & st1 & Ht & Hs & ->).
  apply (thread_step_ok b) in Hs as [Hw Hg Hid Href Hth Hsh Hl].
  pose proof (sum_list_insert (λ t, if inserting t then 1 else 0) _ _ _ t' Ht) as Hc.
  pose proof (sum_list_insert (thread_work b) _ _ _ t' Ht) as Hk.
  unfold session_bound, count_inserting, work in *. simpl. rewrite Hth.
  split; [|specialize (Hw ltac:(lia)); lia].
  pose proof (lookup_lt_Some _ _ _ Ht) as Hlt.
  pose proof (Hlock i t Ht) as Hti.
  split; simpl; rewrite ?Hth.
  - intros j u Hu. destruct (decide (j = i)) as [->|Hne].
    + rewrite list_lookup_insert_eq in Hu by done. simplify_eq.
      destruct Hl as [[-> ->]|[(_ & -> & _ & ->)|(_ & -> & ->)]]; [done|by intuition|by intuition].
    + rewrite list_lookup_insert_ne in Hu by done. specialize (Hlock j u Hu).
      destruct Hl as [[_ ->]|[(_ & _ & HN & ->)|(HT & _ & ->)]]; [done| |].
      * rewrite HN in Hlock. intuition congruence.
      * apply Hti in HT. rewrite HT in Hlock. intuition congruence.
  - rewrite length_insert. intros j Hj.
    destruct Hl as [[_ Hl]|[(_ & _ & _ & Hl)|(_ & _ & Hl)]]; rewrite Hl in Hj; simplify_eq; eauto.
  - rewrite Hid, Href. intros r Hr. apply Hslot. destruct Hsh as [Hsh|Hsh]; rewrite Hsh in Hr; [done|].
    by apply lookup_delete_Some in Hr as [].
  - unfold session_bound, count_inserting. simpl. rewrite Hth. lia.
Qed.

Lemma race_start_ok st : race_start st → race_ok (session_bound st) st.
Proof.
  intros (Hl & Hf & Hs). split; [| |intros r Hr; rewrite Hr, !elem_of_cons in Hs; set_solver|done].
  - intros i t Ht. rewrite Hl. rewrite Forall_lookup in Hf. specialize (Hf i t Ht).
    by destruct t.
  - by rewrite Hl.
Qed.

(** A thread that is not finished waits for the shard mutex at most. *)
Lemma thread_progress b i t st :
  race_ok b st → r_threads st !! i = Some t → finished t = false →
  (holds_lock t = true ∨ r_lock st = None) → is_Some (thread_step i t st).
Proof.
  intros [_ _ Hslot _] Ht Hf Hl.
  destruct t; simpl in *; try done; try (destruct Hl as [| ->]; done).
  - unfold shard_get. destruct (_ !! _) as [r|] eqn:E; [|done].
    rewrite (decide_True _ _ (Hslot _ eq_refl)). by destruct (ended _).
  - by destruct (addSession _ _ _ _ _) as [[]].
  - by destruct result.
  - by destruct (removeSession _ _ _) as [[[]|]].
  - by destruct (markEnded _ _) as [[]].
  - by destruct (ci_deleteIf _ _ _).
  - by destruct ids.
Qed.

Lemma race_progress b st :
  race_ok b st → (∀ st', ¬ rstep st st') → Forall (λ t, finished t = true) (r_threads st).
Proof.
  intros Hok Hstuck. apply Forall_lookup. intros i t Ht.
  destruct (finished t) eqn:Hf; [done|]. exfalso.
  assert (∃ j u, r_threads st !! j = Some u ∧ is_Some (thread_step j u st)) as (j & u & Hu & [[u' st1] Hs]).
  { destruct (r_lock st) as [j|] eqn:El.
    - destruct (lookup_lt_is_Some_2 (r_threads st) j) as [u Hu]; [by eapply ro_held|].
      exists j, u. split; [done|]. pose proof (proj1 (ro_lock _ _ Hok _ _ Hu) El) as Hh.
      eapply thread_progress; [done|done| |by left]. by destruct u.
    - exists i, t. split; [done|]. eapply thread_progress; eauto. }
  apply (Hstuck (set_thread j u' st1)). exists j. unfold run_thread. by rewrite Hu; simpl; rewrite Hs.
Qed.

(** C25: No schedule of joins, leaves and call ends runs forever or deadlocks:
    from any start the number of critical sections is bounded, and when no
    thread can move every join has returned its result, every leave is done
    and every call end has returned, so the shard mutex held across the call
    mutex never blocks for good. *)
Theorem every_schedule_finishes st :
  race_start st →
  (∀ n st', nsteps rstep n st st' → n ≤ work (session_bound st) st) ∧
  (∀ st', rtc rstep st st' → (∀ st'', ¬ rstep st' st'') →
          Forall (λ t, finished t = true) (r_threads st')).
Proof.
  intros Hst. apply race_start_ok in Hst. set (b := session_bound st) in *. clearbody b.
  split.
  - intros n st' Hn. induction Hn as [|n x y z Hxy Hyz IH]; [lia|].
    apply (race_ok_step b) in Hxy as [Hok Hlt]; [|done]. specialize (IH Hok). lia.
  - intros st' Hr. apply race_progress with b.
    eapply (reachable_invariant rstep (race_ok b)); [done| |exact Hr].
    intros x y Hx Hy. by apply (race_ok_step b) in Hy as [].
Qed.
End race_proofs.

(** ** Limits and ends under interleaving *)

(** The threads that won the race to end the call. *)
Definition winner (t : thread) : bool :=
  match t with
  | ESnapshot _ | ESessionIDs _ _ | EShard _ _ _ | EChannel _ _ _ | ECloseLegs _ _ _ _
  | EDone (Ok _) => true
  | _ => false
  end.

(** The end times a thread may still record are positive (epoch milliseconds). *)
Definition end_time_ok (t : thread) : Prop :=
  match t with
  | TRemove _ now | TUnlink _ _ now | TCount now | EMark now => (0 < now)%Z
  | _ => True
  end.

Definition limit_ok (L : Z) (t : thread) : Prop :=
  match t with
  | JLock _ _ limit | JCheck _ _ limit | JAdd _ _ limit => limit = L
  | _ => True
  end.

Definition count_winners (l : list thread) : nat :=
  sum_list ((λ t, if winner t then 1 else 0) <$> l).

Record race_safe (L : Z) (st : race) : Prop := {
  rs_limit : (0 < L)%Z → (participants (r_call st) ≤ L)%Z;
  rs_limits : Forall (limit_ok L) (r_threads st);
  rs_times : Forall end_time_ok (r_threads st);
  rs_live : ended (r_call st) = false → count_winners (r_threads st) = 0;
  rs_once : count_winners (r_threads st) ≤ 1;
}.

Section race_safety.
Context `{GoRange}.

Record section_safe (L : Z) (t t' : thread) (st st' : race) : Prop := {
  ss_limit : (0 < L)%Z → (participants (r_call st) ≤ L)%Z → (participants (r_call st') ≤ L)%Z;
  ss_limits : limit_ok L t';
  ss_times : end_time_ok t';
  ss_threads : r_threads st' = r_threads st;
  ss_end : (winner t' = winner t ∧ cs_endAt (r_call st') = cs_endAt (r_call st)) ∨
           (winner t = false ∧ winner t' = true ∧
            ended (r_call st) = false ∧ ended (r_call st') = true);
}.

Lemma addSession_limit hs cs sid s L o cs' :
  addSession hs cs sid s L = (o, cs') →
  cs_endAt cs' = cs_endAt cs ∧
  ((0 < L)%Z → (participants cs ≤ L)%Z → (participants cs' ≤ L)%Z).
Proof.
  unfold addSession, participants.
  destruct (cs_sessions cs !! sid) eqn:E; simpl.
  - intros [= <- <-]; simpl. split; [done|]. by rewrite map_size_insert, E.
  - destruct (bool_decide _) eqn:E1; simpl; [destruct (bool_decide (L ≤ _)%Z) eqn:E2; simpl|];
      intros [= <- <-]; simpl; (split; [done|]); rewrite ?map_size_insert, ?E; simpl;
      rewrite ?bool_decide_eq_true, ?bool_decide_eq_false in *; lia.
Qed.

Lemma removeSession_limit hs cs sid o cs' :
  removeSession hs cs sid = (o, cs') →
  cs_endAt cs' = cs_endAt cs ∧ (participants cs' ≤ participants cs)%Z.
Proof.
  intros Hr. pose proof (removeSession_size _ _ _ _ _ Hr) as [? _]. unfold participants.
  split; [|lia]. revert Hr. unfold removeSession. by destruct (_ !! sid); intros [= <- <-].
Qed.

Lemma thread_step_safe L i t t' st st' :
  thread_step i t st = Some (t', st') → limit_ok L t → end_time_ok t →
  section_safe L t t' st st'.
Proof.
  intros Hs Hl Ht. destruct t; simpl in *; try done.
  - destruct (r_lock st); simplify_eq; split; simpl; auto.
  - destruct (shard_get _ _); [|simplify_eq; split; simpl; auto].
    destruct (decide _); [|done]. destruct (ended _); simplify_eq; split; simpl; auto.
  - subst limit. destruct (addSession _ _ _ _ _) as [o cs] eqn:E.
    apply addSession_limit in E as [E ?].
    destruct o; simplify_eq; split; simpl; auto.
  - destruct result; simplify_eq; split; simpl; auto.
  - simplify_eq; split; simpl; auto.
  - destruct (removeSession _ _ _) as [o cs] eqn:E. apply removeSession_limit in E as [E ?].
    destruct o as [[? ?]|]; simplify_eq; split; simpl; auto; lia.
  - simplify_eq; split; simpl; auto.
  - destruct (decide _); simplify_eq; split; simpl; auto.
  - unfold markEnded in Hs. destruct (decide (0 < cs_endAt (r_call st))%Z) as [E|E]; simplify_eq;
      split; simpl; auto.
    right. unfold ended. simpl. rewrite bool_decide_false, bool_decide_true by done. done.
  - simplify_eq; split; simpl; auto.
  - simplify_eq; split; simpl; auto.
  - destruct (r_lock st); simplify_eq; split; simpl; auto.
  - destruct (ci_deleteIf _ _ _); simplify_eq; split; simpl; auto.
  - destruct ids; simplify_eq; split; simpl; auto.
Qed.

Lemma race_safe_step L st st' : race_safe L st → rstep st st' → race_safe L st'.
Proof.
  intros [Hp Hls Hts Hlive Honce] [i Hi].
  apply run_thread_inv in Hi as (t & t' & st1 & Ht & Hs & ->).
  pose proof (Forall_lookup_1 _ _ _ _ Hls Ht) as Hl. pose proof (Forall_lookup_1 _ _ _ _ Hts Ht) as Hn.
  destruct (thread_step_safe L _ _ _ _ _ Hs Hl Hn) as [S1 S2 S3 S4 S5].
  pose proof (sum_list_insert (λ t, if winner t then 1 else 0) _ _ _ t' Ht) as Hc.
  split; unfold count_winners in *; cbn [r_call r_threads set_thread]; rewrite ?S4.
  - auto.
  - by apply Forall_insert.
  - by apply Forall_insert.
  - destruct S5 as [[Hw He]|(W1 & W2 & E1 & E2)]; [|congruence].
    unfold ended in *. rewrite He. intros E. specialize (Hlive E). rewrite Hw in Hc. lia.
  - destruct S5 as [[Hw He]|(W1 & W2 & E1 & E2)]; [rewrite Hw in Hc; lia|].
    rewrite W1, W2 in Hc. specialize (Hlive E1). lia.
Qed.

Lemma count_winners_le (l : list thread) i j t u :
  count_winners l ≤ 1 → l !! i = Some t → l !! j = Some u →
  winner t = true → winner u = true → i = j.
Proof.
  intros Hc Ht Hu Wt Wu. destruct (decide (i = j)) as [|Hne]; [done|exfalso].
  pose proof (sum_list_insert (λ t, if winner t then 1 else 0) _ _ _ TDone Ht) as H1.
  assert (<[i := TDone]> l !! j = Some u) as Hu' by by rewrite list_lookup_insert_ne.
  pose proof (sum_list_insert (λ t, if winner t then 1 else 0) _ _ _ TDone Hu') as H2.
  unfold count_winners in Hc. simpl in *. rewrite Wt in H1. rewrite Wu in H2. lia.
Qed.

(** C24: Whatever the interleaving of joins, leaves and ends on a live call,
    the participant limit the joins carry is never exceeded, and at most one
    routine gets past markEnded, so the end of the call is persisted and
    announced by one of them only. *)
Theorem races_keep_limit_and_end_once L st st' :
  race_start st → ended (r_call st) = false →
  Forall (limit_ok L) (r_threads st) → Forall end_time_ok (r_threads st) →
  (0 < L)%Z → (participants (r_call st) ≤ L)%Z →
  rtc rstep st st' →
  (participants (r_call st') ≤ L)%Z ∧
  (∀ i j t u, r_threads st' !! i = Some t → r_threads st' !! j = Some u →
              winner t = true → winner u = true → i = j).
Proof.
  intros (_ & Hf & _) Hend Hl Ht HL Hp Hr.
  assert (race_safe L st') as [Hp' _ _ _ Ho].
  { eapply (reachable_invariant rstep (race_safe L)); [|apply race_safe_step|exact Hr].
    assert (count_winners (r_threads st) = 0) as Hz.
    { unfold count_winners. clear -Hf. induction Hf as [|t l Ht _ IH]; simpl; [done|].
      by destruct t. }
    split; auto; lia. }
  split; [auto|]. intros i j t u. by apply count_winners_le.
Qed.
End race_safety.

(** ** The race of a join with the end of the call *)

Module Zombie.
Definition alice : session :=
  Session "ua" "ch" "call" "a" "a" true false false false 0 1 0 0.
Definition bob : session :=
  Session "ub" "ch" "call" "b" "b" true false false false 0 2 0 0.

(** Alice is alone in a registered live call; she leaves while Bob joins. *)
Definition start : race := {|
  r_sess := {[0 := alice; 1 := bob]};
  r_ref := 7;
  r_call := CallState "call" "ch" "h" 1 {["a" := 0]} {["a" := 0]} "a" 0 None None 1;
  r_shard := {["call" := 7]};
  r_lock := None;
  r_channels := {["ch" := 7]};
  r_index := Registry {["a" := 7]} {["a" := 7]};
  r_threads := [leaver 0 10; joiner "b" 1 2];
|}.

(** Alice's teardown sees no participant; Bob finds the call live; the call
    ends and lists its sessions; Bob is inserted; the end completes. *)
Definition order : list nat := [0; 0; 0; 1; 1; 0; 0; 0; 1; 1; 1; 0; 0; 0].

Definition final : race := default start (run_order order start).

Lemma start_fresh : race_start start.
Proof. split; [done|]. split; [repeat constructor|]. vm_compute. right. left. Qed.

Lemma run_order_rtc order0 st st' : run_order order0 st = Some st' → rtc rstep st st'.
Proof.
  revert st. induction order0 as [|i l IH]; intros st; unfold run_order; simpl.
  - intros [= ->]. apply rtc_refl.
  - destruct (run_thread i st) as [st1|] eqn:E; simpl.
    + intros Hr. eapply rtc_l; [by exists i|]. by apply IH.
    + intros Hr. exfalso. revert Hr. clear. induction l; simpl; [done|auto].
Qed.
End Zombie.

(** Holding the shard lock around addSessionIfLive does not keep a join
    out of a call whose teardown has begun: markEnded takes the call lock
    only, so it can run between the liveness check and the insert.  The join
    succeeds, and Bob ends up in a call that is ended, in neither registry,
    and with the session index pointing at it. *)
Theorem join_enters_ended_call :
  race_start Zombie.start ∧
  rtc rstep Zombie.start Zombie.final ∧
  r_threads Zombie.final = [EDone (Ok tt); JDone (Ok None)] ∧
  ended (r_call Zombie.final) = true ∧
  cs_sessions (r_call Zombie.final) = {["b" := 1]} ∧
  r_shard Zombie.final = ∅ ∧ r_channels Zombie.final = ∅ ∧
  r_index Zombie.final = Registry {["b" := 7]} {["b" := 7]}.
Proof.
  split; [apply Zombie.start_fresh|]. split.
  - apply (Zombie.run_order_rtc Zombie.order). vm_compute. reflexivity.
  - vm_compute. done.
Qed.

Lemma every_schedule_finishes_witness :
  race_start Zombie.start ∧
  (∀ n st', nsteps rstep n Zombie.start st' → n ≤ work 2 Zombie.start).
Proof.
  split; [apply Zombie.start_fresh|].
  exact (proj1 (every_schedule_finishes Zombie.start Zombie.start_fresh)).
Defined.

Lemma races_keep_limit_and_end_once_witness :
  rtc rstep Zombie.start Zombie.final ∧ (participants (r_call Zombie.final) ≤ 2)%Z.
Proof.
  assert (rtc rstep Zombie.start Zombie.final) as Hr.
  { apply (Zombie.run_order_rtc Zombie.order). vm_compute. reflexivity. }
  split; [exact Hr|].
  refine (proj1 (races_keep_limit_and_end_once 2 Zombie.start Zombie.final Zombie.start_fresh
                   _ _ _ _ _ Hr)).
  - vm_compute. reflexivity.
  - repeat constructor.
  - repeat constructor.
  - reflexivity.
  - vm_compute. discriminate.
Defined.
