(* ===== verification/CallsLeak.v ===== *)
(** * Calls the backstops cannot end

    The session index is keyed by connection and session ids, and registry.go
    takes these to be globally unique.  A session id is the connection id at
    join time, so one connection that joins the calls of two channels files
    both sessions under one key.  Leaving the second call then removes the
    only entry, and the first call keeps a participant no SFU message and no
    websocket close can find, while the reaper skips it because it is not
    empty.

    [lost] says of a world that a participant is in this state.  Every backstop
    keeps it ([lost_step]), whatever the other calls do meanwhile: what the
    backstops do to them is [mild] to the call of the participant. *)

From S2P Require Import Prelude.
From S2P Require Import GoString.
From S2P Require Import CallShards.
From S2P Require Import CallState.
From S2P Require Import SessionIndex.
From S2P Require Import CallsConfig.
From S2P Require Import IceServers.
From S2P Require Import CallStore.
From S2P Require Import RtcdPool.
From S2P Require Import CallsWorld.
From S2P Require Import CallsService.
From S2P Require Import CallsControl.
From S2P Require Import CallsInv.
From S2P Require Import CallsSafety.
From S2P Require Import CallsDemo.

Local Open Scope string_scope.
Local Open Scope go_scope.

(** ** The backstops *)

(** What happens without any user acting: SFU messages, websockets closing,
    the reaper, pending timers, and the environment. *)
Definition backstop (q : request) : bool :=
  match q with ReqRTCD _ | ReqDisconnect _ | ReqReap => true | _ => false end.

Section leak.
Context {C : Type} `{RTCDClient C ClientMessage} `{GoRange} `{!CallsEnv}.

Inductive backstop_step : world C → world C → Prop :=
  | bs_request q w : backstop q = true → backstop_step w (snd (serve q w))
  | bs_timer pre t post w :
      timers (w_out w) = (pre ++ t :: post)%list →
      backstop_step w (snd (timer_fires t (upd_out (with_timers (pre ++ post)%list) w)))
  | bs_env w o' : timers o' = timers (w_out w) → backstop_step w (World (w_core w) o').

Lemma backstop_step_step w w' : backstop_step w w' → step w w'.
Proof. destruct 1; by constructor. Qed.

(** ** What leaves a participant alone *)

(** The id of the session object at a pointer. *)
Definition id_at (c : core) (p : sref) : string := sessionID (default nilSession (sess c !! p)).

(** The participant [k] of the call [r0]. *)
Context (r0 : cref) (k : string).

(** No backstop finds the participant: neither its key nor any connection
    leads to it through the index. *)
Record unfindable (c : core) (cs : callState) : Prop := {
  uf_call : calls c !! r0 = Some cs;
  uf_live : ended cs = false;
  uf_here : is_Some (cs_sessions cs !! k);
  uf_others : ∀ j s, cs_sessions cs !! j = Some s → j ≠ k → id_at c s ≠ k;
  uf_session : bySessionID (index c) k ≠ Some r0;
  uf_conns : ∀ conn s, byConnID (index c) conn = Some r0 → findByConn cs conn = Some s → id_at c s ≠ k;
  uf_registered : ∃ m, models (shards c) m ∧ m !! cs_callID cs = Some r0;
  uf_channel : channelCalls c !! cs_channelID cs = Some r0;
}.

(** And no pending timer is about it. *)
Definition lost (id ch : string) (w : world C) : Prop :=
  (∃ cs, unfindable (w_core w) cs ∧ cs_callID cs = id ∧ cs_channelID cs = ch) ∧
  ∀ t, t ∈ timers (w_out w) → t_cs t = r0 → id_at (w_core w) (t_sess t) ≠ k.

(** What may happen around the call. *)
Record mild (c c' : core) : Prop := {
  mi_call : calls c' !! r0 = calls c !! r0;
  mi_ids : ∀ p, id_at c' p = id_at c p;
  mi_session : ∀ x, bySession (index c') !! x = Some r0 → bySession (index c) !! x = Some r0;
  mi_conn : ∀ x, byConn (index c') !! x = Some r0 → byConn (index c) !! x = Some r0;
  mi_registered : ∀ id m, models (shards c) m → m !! id = Some r0 → ∃ m', models (shards c') m' ∧ m' !! id = Some r0;
  mi_channel : ∀ ch, channelCalls c !! ch = Some r0 → channelCalls c' !! ch = Some r0;
}.

Lemma mild_refl c : mild c c.
Proof. split; eauto. Qed.

Lemma mild_trans a b c : mild a b → mild b c → mild a c.
Proof.
  intros [] []. split; eauto; try congruence. intros id m Hm Hid.
  edestruct mi_registered0 as (m' & Hm' & Hid'); eauto.
Qed.

Definition gentle {A} (m : M (world C) goerr A) : Prop :=
  ∀ w, mild (w_core w) (w_core (m w).2) ∧ timers (w_out (m w).2) = timers (w_out w).

Lemma gentle_bind {A B} (m : M (world C) goerr A) (f : A → M (world C) goerr B) :
  gentle m → (∀ a, gentle (f a)) → gentle (m_bind m f).
Proof.
  intros Hm Hf w. unfold m_bind. destruct (Hm w) as [Hc Ht]. destruct (m w) as [[a|e] w1]; [|done].
  destruct (Hf a w1) as [Hc1 Ht1]. split; [by eapply mild_trans|by rewrite Ht1].
Qed.

Lemma gentle_pure {A} (m : M (world C) goerr A) : (∀ w, (m w).2 = w) → gentle m.
Proof. intros Hm w. rewrite Hm. split; [apply mild_refl|done]. Qed.

Lemma gentle_try {A} (m : M (world C) goerr A) : gentle m → gentle (m_try m).
Proof. intros Hm w. specialize (Hm w). unfold m_try. by destruct (m w) as [[]]. Qed.

Lemma gentle_for {A} (l : list A) (body : A → M (world C) goerr unit) : (∀ x, gentle (body x)) → gentle (m_for l body).
Proof.
  intros Hb. induction l as [|x l IH]; [by apply gentle_pure|]. apply gentle_bind; [apply Hb|done].
Qed.

Lemma gentle_out (f : outer C → outer C) : (∀ o, timers (f o) = timers o) → gentle (modify_out f).
Proof. intros Hf w. split; [apply mild_refl|apply Hf]. Qed.

Lemma gentle_core (f : core → core) : (∀ c, mild c (f c)) → gentle (modify_core f).
Proof. intros Hf w. split; [apply Hf|done]. Qed.

Lemma id_at_alter f p (c : core) q : identity_kept f → id_at (with_sess (alter f p (sess c)) c) q = id_at c q.
Proof.
  intros Hf. unfold id_at. cbn. rewrite lookup_alter. case_decide; [|done]. subst q.
  destruct (sess c !! p) as [x|]; [|done]. apply Hf.
Qed.

Lemma gentle_setfield p f : identity_kept f → gentle (setfield p f).
Proof. intros Hf. apply gentle_core. intros c. split; eauto. intros q. by apply id_at_alter. Qed.

(** A method of another call, or one that leaves the call as it is. *)
Lemma gentle_on_call {A} r (f : sheap → callState → A * sheap * callState) :
  (∀ hs cs p, sessionID (default nilSession ((f hs cs).1.2 !! p)) = sessionID (default nilSession (hs !! p))) →
  (∀ hs cs, r = r0 → (f hs cs).2 = cs) → gentle (on_call r f).
Proof.
  intros Hid Hsame w. unfold on_call, ask, read, modify_core, m_bind, m_gets, m_modify, m_ret. cbn.
  specialize (Hid (sess (w_core w)) (call_at (w_core w) r)).
  specialize (Hsame (sess (w_core w)) (call_at (w_core w) r)).
  destruct (f _ _) as [[a hs] cs]. cbn in *. split; [|done]. split; cbn; eauto.
  rewrite lookup_alter. case_decide as Hr; [|done]. rewrite (Hsame Hr), Hr. unfold call_at.
  by destruct (calls (w_core w) !! r0).
Qed.

Lemma gentle_unlink sid conn : gentle (on_index (λ ix, unlink ix sid conn)).
Proof.
  apply gentle_core. intros c. split; eauto; cbn; intros x [_ Hx]%lookup_delete_Some; done.
Qed.

(** Both removals are guarded by the call they remove. *)
Lemma gentle_unregister r info : r ≠ r0 → gentle (unregister r info).
Proof.
  intros Hr. unfold unregister. apply gentle_bind.
  { intros w. split; [|by unfold on_shards, read, m_bind, m_gets; destruct (reg_deleteIf _ _ _) as [[]|]].
    unfold on_shards, read, m_bind, m_gets. destruct (reg_deleteIf _ _ _) as [[b sh]|] eqn:Hd; [|apply mild_refl].
    split; cbn; eauto. intros id m Hm Hid. cbn in Hd.
    destruct (reg_deleteIf_models _ _ (cs_callID info) r Hm) as (sh' & Heq & Hsh). rewrite Hd in Heq. injection Heq as _ <-.
    eexists. split; [exact Hsh|]. case_decide as Hc; [|done]. rewrite lookup_delete_ne; [done|]. congruence. }
  intros _. apply gentle_bind; [by apply gentle_pure|]. intros owned. apply gentle_bind; [|intros _; by apply gentle_pure].
  apply gentle_core. intros c. split; eauto. cbn. intros ch Hch. rewrite ci_deleteIf_map. case_decide; [|done].
  rewrite lookup_delete_ne; [done|]. congruence.
Qed.
End leak.

Create HintDb gentle.
#[export] Hint Resolve gentle_unlink gentle_unregister : gentle.

(** Take an operation apart. *)
Ltac gentle_tac :=
  repeat first
    [ progress intros
    | solve [auto with gentle]
    | apply gentle_bind | apply gentle_try | apply gentle_for
    | by apply gentle_pure
    | by apply gentle_out
    | case_step ].

Section lost.
Context {C : Type} `{RTCDClient C ClientMessage} `{GoRange} `{!CallsEnv}.
Context (r0 : cref) (k : string).
Abbreviation gentle := (gentle (C:=C) r0).
Abbreviation lost := (lost (C:=C) r0 k).

Lemma gentle_sendToHost r msg : gentle (sendToHost r msg).
Proof. unfold sendToHost, rtcdManager, ask. gentle_tac. Qed.
Lemma gentle_GetMillis : gentle GetMillis.
Proof. unfold GetMillis, tick. gentle_tac. Qed.
Lemma gentle_write {A} (f : bool → callsDB → res storeError A * callsDB) : gentle (store_write f).
Proof. unfold store_write, fault, tick. gentle_tac. Qed.
Lemma gentle_publish ch e d : gentle (publishChannel ch e d).
Proof. unfold publishChannel, broadcast. gentle_tac. Qed.
Lemma gentle_publishTo e d c : gentle (publishTo e d c).
Proof. unfold publishTo, broadcast. gentle_tac. Qed.
#[local] Hint Resolve gentle_sendToHost gentle_GetMillis gentle_write gentle_publish gentle_publishTo : gentle.

Lemma gentle_NewId : gentle NewId.
Proof.
  unfold NewId. apply gentle_bind; [by apply gentle_pure|]. intros n.
  apply gentle_bind; [|intros _; by apply gentle_pure]. apply gentle_core. intros c. by split; eauto.
Qed.
#[local] Hint Resolve gentle_NewId : gentle.

Lemma gentle_persist_end a b n p s t : gentle (persist_end a b n p s t).
Proof. unfold persist_end, store_read, store_save, fault, tick. gentle_tac. Qed.
Lemma gentle_endCallPost p l : gentle (endCallPost p l).
Proof. unfold endCallPost. gentle_tac. Qed.
Lemma gentle_close_session r sid : gentle (close_session r sid).
Proof. unfold close_session, ask. gentle_tac. Qed.
#[local] Hint Resolve gentle_persist_end gentle_endCallPost gentle_close_session : gentle.

(** Another call may end. *)
Lemma gentle_endCallState r now : r ≠ r0 → gentle (endCallState r now).
Proof.
  intros Hr. unfold endCallState. apply gentle_bind.
  { apply gentle_on_call; [|done]. intros hs cs p. by destruct (markEnded now cs). }
  unfold ask, broadcast. gentle_tac.
Qed.
#[local] Hint Resolve gentle_endCallState : gentle.

(** Somebody may leave another call. *)
Lemma gentle_teardown_other r s : r ≠ r0 → gentle (teardownSession r s).
Proof.
  intros Hr. unfold teardownSession. apply gentle_bind; [by apply gentle_pure|]. intros x. apply gentle_bind.
  { apply gentle_on_call; [|done]. intros hs cs p. by destruct (removeSession hs cs (sessionID x)). }
  unfold ask. gentle_tac.
Qed.

(** ** The participant stays *)

Lemma mild_lost id ch (w w' : world C) :
  lost id ch w → mild r0 (w_core w) (w_core w') → (∀ t, t ∈ timers (w_out w') → t ∈ timers (w_out w)) → lost id ch w'.
Proof.
  intros [(cs & [] & Hid & Hch) Ht] [] Htm. split.
  - exists cs. split; [|done]. split; try done.
    + by rewrite mi_call0.
    + intros j s. rewrite mi_ids0. eauto.
    + intros Hk. by apply uf_session0, mi_session0.
    + intros conn s Hc. rewrite mi_ids0. apply mi_conn0 in Hc. eauto.
    + destruct uf_registered0 as (m & Hm & Hr). eauto.
    + auto.
  - intros t Hin Hr. rewrite mi_ids0. auto.
Qed.

Lemma gentle_keeps {A} id ch (m : M (world C) goerr A) : gentle m → preserves (lost id ch) m.
Proof. intros Hm w Hw. destruct (Hm w) as [Hc Ht]. eapply mild_lost; [done|done|]. by rewrite Ht. Qed.

(** The call is not empty, so leaving it does not end it. *)
Lemma lost_participants id ch (w : world C) : lost id ch w → (0 < participants (call_at (w_core w) r0))%Z.
Proof.
  intros [(cs & [] & _) _]. unfold call_at. rewrite uf_call0. change (default nilCall (Some cs)) with cs. unfold participants.
  destruct uf_here0 as [s Hs]. assert (size (cs_sessions cs) ≠ 0); [|lia].
  intros Hz%map_size_empty_inv. by rewrite Hz, lookup_empty in Hs.
Qed.

(** Another participant may leave the call. *)
Lemma remove_other id ch sid :
  sid ≠ k → preserves (lost id ch) (on_call r0 (λ hs cs, let '(o, cs') := removeSession hs cs sid in (o, hs, cs'))).
Proof.
  intros Hne w [(cs & [] & Hid & Hch) Ht]. unfold on_call, ask, read, modify_core, m_bind, m_gets, m_modify, m_ret. cbn.
  assert (call_at (w_core w) r0 = cs) as -> by (unfold call_at; by rewrite uf_call0).
  unfold removeSession. destruct (cs_sessions cs !! sid) as [s|] eqn:Hs.
  2: { cbn. split; [|done]. exists cs. split; [|done]. split; try done. cbn. by rewrite lookup_alter, decide_True, uf_call0. }
  cbn. split; [|done]. eexists. split; [split|].
  - cbn. by rewrite lookup_alter, decide_True, uf_call0.
  - done.
  - cbn. by rewrite lookup_delete_ne.
  - cbn. intros j p [_ Hj]%lookup_delete_Some. by apply uf_others0.
  - done.
  - cbn. intros conn p Hc Hp. eapply uf_conns0; [done|]. unfold findByConn in *. cbn in Hp.
    case_decide; [by apply lookup_delete_Some in Hp as []|done].
  - done.
  - done.
  - done.
Qed.

Lemma keeps_teardown id ch r s (w : world C) :
  lost id ch w → (r = r0 → id_at (w_core w) s ≠ k) → lost id ch (teardownSession r s w).2.
Proof.
  intros Hw Hs. destruct (decide (r = r0)) as [->|Hr]; [|by apply (gentle_keeps id ch), Hw; apply gentle_teardown_other].
  specialize (Hs eq_refl). unfold teardownSession, deref, read. unfold m_bind at 1, m_gets. fold (id_at (w_core w) s).
  apply (preserves_bind (lost id ch)); [by apply remove_other| |done]. intros [[p conn]|]; [|apply preserves_ret].
  do 6 (apply preserves_bind; [apply gentle_keeps; unfold ask; gentle_tac|intros ?]).
  intros w1 Hw1. unfold ask, read, m_bind, m_gets. rewrite decide_False; [done|].
  pose proof (lost_participants _ _ _ Hw1). lia.
Qed.

(** ** Every backstop keeps it *)

Lemma gentle_cas p (f : session → bool * session) : identity_kept (λ x, (f x).2) → gentle (cas_session p f).
Proof.
  intros Hf. unfold cas_session, deref. apply gentle_bind; [by apply gentle_pure|]. intros x.
  apply gentle_bind; [by apply gentle_setfield|]. intros _. by apply gentle_pure.
Qed.

Lemma gentle_host_mutate r sid f : identity_kept f → gentle (host_mutate r sid f).
Proof.
  intros Hf. unfold host_mutate. apply gentle_on_call; intros hs cs.
  - intros p. unfold mutate. destruct (cs_sessions cs !! sid) as [s|]; [|done]. cbn.
    by apply (id_at_alter f s (with_sess hs (init_core 1)) p).
  - intros _. unfold mutate. by destruct (cs_sessions cs !! sid).
Qed.

Lemma gentle_relay m : gentle (relayRTCMessage m).
Proof.
  unfold relayRTCMessage, ask. apply gentle_bind; [by apply gentle_pure|]. intros [r|]; [|by apply gentle_pure].
  destruct (_ || _); [|gentle_tac]. apply gentle_bind; [by apply gentle_host_mutate|]. gentle_tac.
Qed.

(** What a key of the index leads to in the call is somebody else. *)
Lemma found_other id ch (w : world C) sid s :
  lost id ch w → bySessionID (index (w_core w)) sid = Some r0 → cs_get (call_at (w_core w) r0) sid = Some s →
  id_at (w_core w) s ≠ k.
Proof.
  intros [(cs & [] & _) _] Hix. unfold call_at. rewrite uf_call0. cbn. intros Hs.
  eapply uf_others0; [exact Hs|]. by intros ->.
Qed.

Lemma keeps_close id ch d : preserves (lost id ch) (handle_close d).
Proof.
  unfold handle_close. destruct (closeMessageData d) as [data|]; [|apply preserves_ret].
  destruct (decide _); [apply preserves_ret|]. intros w Hw. unfold ask, read, m_bind at 1, m_gets.
  destruct (bySessionID _ _) as [r|] eqn:Hix; [|done]. unfold m_bind at 1.
  destruct (cs_get _ _) as [s|] eqn:Hs; [|done].
  pose proof (gentle_cas s markRTCclosed ltac:(intros x; unfold markRTCclosed; by case_decide) w) as [Hc Ht].
  unfold m_bind. destruct (cas_session s markRTCclosed w) as [[won|e] w1]; cbn [snd] in Hc, Ht.
  - assert (lost id ch w1) as Hw1 by (eapply mild_lost; [done|done|by rewrite Ht]). destruct won; [|done].
    apply keeps_teardown; [done|]. intros ->. rewrite (mi_ids _ _ _ Hc). by eapply found_other.
  - cbn [snd]. eapply mild_lost; [done|done|by rewrite Ht].
Qed.

Lemma keeps_disconnect id ch conn : preserves (lost id ch) (HandleWSDisconnect conn).
Proof.
  unfold HandleWSDisconnect. destruct (decide _); [apply preserves_ret|]. intros w Hw.
  unfold ask, read, m_bind, m_gets. destruct (byConnID _ _) as [r|] eqn:Hix; [|done].
  destruct (findByConn _ _) as [s|] eqn:Hs; [|done]. destruct Hw as [Hcall Ht]. split; [done|].
  intros t [->|Hin]%elem_of_cons Hr; [|by apply Ht]. cbn in *. subst r. destruct Hcall as (cs & [] & _).
  unfold call_at in Hs. rewrite uf_call0 in Hs. eauto.
Qed.

Lemma keeps_reap id ch : preserves (lost id ch) reapIdleCalls.
Proof.
  unfold reapIdleCalls. apply preserves_bind; [apply preserves_gets|]. intros rs. apply preserves_for. intros r _ w Hw.
  unfold ask, read. unfold m_bind at 1, m_gets. unfold m_bind at 1.
  destruct (decide (r = r0)) as [->|Hr].
  - rewrite (bool_decide_true (_ < _)%Z) by (by eapply lost_participants). by rewrite orb_true_r.
  - destruct (_ || _); [done|]. apply (gentle_keeps id ch); [|done]. gentle_tac.
Qed.

Lemma keeps_timer id ch pre t post (w : world C) :
  lost id ch w → timers (w_out w) = (pre ++ t :: post)%list →
  lost id ch (timer_fires t (upd_out (with_timers (pre ++ post)%list) w)).2.
Proof.
  intros [Hcall Ht] Htm. unfold timer_fires, ask, read, m_bind, m_gets.
  assert (lost id ch (upd_out (with_timers (pre ++ post)%list) w)) as Hw.
  { split; [exact Hcall|]. intros u Hu. apply Ht. rewrite Htm. cbn in Hu.
    rewrite elem_of_app, elem_of_cons. apply elem_of_app in Hu. tauto. }
  destruct (_ || _); [done|]. apply keeps_teardown; [done|]. intros Hr. apply Ht; [|done].
  rewrite Htm. apply elem_of_app. right. left.
Qed.

Lemma lost_step id ch w w' : lost id ch w → backstop_step w w' → lost id ch w'.
Proof.
  intros Hw Hs. destruct Hs as [q w Hq|pre t post w Htm|w o' Ho].
  - destruct q; try done; simpl.
    + unfold handleRTCDMessage. destruct (_ || _); [|destruct (decide _); [by apply keeps_close|done]].
      destruct (cm_Data msg); try done. apply (gentle_keeps id ch); [apply gentle_relay|done].
    + by apply keeps_disconnect.
    + by apply keeps_reap.
  - by apply keeps_timer.
  - destruct Hw as [Hcall Ht]. split; [exact Hcall|]. cbn. by rewrite Ho.
Qed.

Lemma lost_forever id ch w w' : lost id ch w → rtc backstop_step w w' → lost id ch w'.
Proof. intros Hw Hr. induction Hr; eauto using lost_step. Qed.
End lost.
(** ** One connection in two calls *)

Definition leave_req (conn user channel : string) : request :=
  ReqMessage conn user "leave" {["channelID" := AStr channel]}.

(** k1 joins the calls of two channels and leaves the second. *)
Definition orphan_world : world bool :=
  demo_run [demo_join "k1" "u1" "ch1"; demo_join "k1" "u1" "ch2"; leave_req "k1" "u1" "ch2"].

Definition orphan : callState := call_at (w_core orphan_world) 0.

(** The call is live and in both registries, with the participant in it. *)
Definition stays {C} (r : cref) (k id ch : string) (w : world C) : Prop :=
  ∃ cs, calls (w_core w) !! r = Some cs ∧ cs_callID cs = id ∧ cs_channelID cs = ch ∧ ended cs = false ∧
    is_Some (cs_sessions cs !! k) ∧ reg_get (shards (w_core w)) id = Some r ∧ channelCalls (w_core w) !! ch = Some r.

Lemma lost_stays {C} r k id ch (w : world C) : lost r k id ch w → stays r k id ch w.
Proof.
  intros [(cs & [] & <- & <-) _]. exists cs. split_and!; try done.
  destruct uf_registered0 as (m & Hm & Hr). by rewrite (models_get _ _ Hm).
Qed.

Lemma registered_demo qs ch r :
  channelCalls (w_core (demo_run qs)) !! ch = Some r →
  ∃ m, models (shards (w_core (demo_run qs))) m ∧ m !! cs_callID (call_at (w_core (demo_run qs)) r) = Some r.
Proof.
  pose proof (demo_reachable qs) as Hr. generalize dependent (demo_run qs). intros w Hr Hch.
  destruct (reachable_Inv _ _ w Hr) as (m & Hm & Hri).
  destruct (ri_chan _ _ _ Hri _ _ Hch) as (cs & Hcs & _ & Hid).
  exists m. split; [exact Hm|]. unfold call_at. by rewrite Hcs.
Qed.

Lemma orphan_lost : lost 0 "k1" (cs_callID orphan) "ch1" orphan_world.
Proof.
  split; [exists orphan; split; [split|split]|]; try (vm_compute; reflexivity).
  - vm_compute. by eexists.
  - intros j s Hj Hne. assert (cs_sessions orphan = {["k1" := 0]}) as E by (vm_compute; reflexivity).
    rewrite E in Hj. apply lookup_singleton_Some in Hj as [<- _]. by destruct Hne.
  - vm_compute. discriminate.
  - intros conn s Hc. assert (byConn (index (w_core orphan_world)) = ∅) as E by (vm_compute; reflexivity).
    unfold byConnID in Hc. rewrite E, lookup_empty in Hc. discriminate Hc.
  - assert (channelCalls (w_core orphan_world) !! "ch1" = Some 0) as Hch by (vm_compute; reflexivity).
    apply (registered_demo _ _ _ Hch).
  - intros t. assert (timers (w_out orphan_world) = []) as -> by (vm_compute; reflexivity).
    intros Ht%elem_of_nil. destruct Ht.
Qed.

(** C26: A call can lose every way to end by itself.  A participant that the
    session index leads to neither by its key nor by a connection of its call,
    and that no pending timer is about, stays in its call through every
    sequence of SFU messages, websocket closes, timers and reaper runs; the
    call never ends, and stays registered and its channel's call.  The service
    gets into such a state when one connection joins the calls of two channels
    and leaves the second: the run [orphan_world]. *)
Theorem orphaned_call_never_ends :
  (∀ C `(RTCDClient C ClientMessage) `(GoRange) (env : CallsEnv) r k id ch (w w' : world C),
     lost r k id ch w → rtc backstop_step w w' → stays r k id ch w') ∧
  reachable step demo_init orphan_world ∧ lost 0 "k1" (cs_callID orphan) "ch1" orphan_world.
Proof.
  split; [|split; [apply demo_reachable|exact orphan_lost]].
  intros C rc gr env r k id ch w w' Hw Hr. apply lost_stays. by eapply lost_forever.
Qed.

(** The run: whatever the backstops do from there, k1 stays in its call. *)
Lemma orphaned_call_never_ends_witness :
  cs_callID orphan ≠ "" ∧
  ∀ w', rtc backstop_step orphan_world w' → stays 0 "k1" (cs_callID orphan) "ch1" w'.
Proof.
  split; [vm_compute; discriminate|]. intros w'.
  exact (proj1 orphaned_call_never_ends _ _ _ _ _ _ _ _ _ _ orphan_lost).
Defined.

(** A second reconnect drops the entry of the first connection, not of the
    current one: k2 still leads to the call after the session moved to k3. *)
Definition reconnect_req (conn user channel original : string) : request :=
  ReqMessage conn user "reconnect"
    {["channelID" := AStr channel; "originalConnID" := AStr original]}.

Example stale_connection_entry :
  let w := demo_run [demo_join "k1" "u1" "ch1"; reconnect_req "k2" "u1" "ch1" "k1";
                     reconnect_req "k3" "u1" "ch1" "k1"] in
  (byConnID (index (w_core w)) <$> ["k1"; "k2"; "k3"]) = [None; Some 0; Some 0] ∧
  findByConn (call_at (w_core w) 0) "k2" = None.
Proof. vm_compute. done. Qed.
