(* ===== verification/RtcdConn.v ===== *)
(** * The rtcd control connection (server/channels/calls/rtcd_conn.go)

    [adapter] is rtcdClientAdapter: the live client of the rtcd library, if
    any, the two stable bridge channels and the throttle of Heal.  The library
    itself (github.com/mattermost/rtcd/service) is not part of the repository
    and is the class [RtcdLib]; [RtcdLibOk] is what its documentation promises
    of Connect.  The adapter implements the interface the host pool is proved
    against: [adapter_client] is an instance of [RtcdPool.RTCDClient]. *)

From Stdlib Require Import Sorting.Sorted.
From S2P Require Import Prelude.
From S2P Require Import CallShards.
From S2P Require Import CallState.
From S2P Require Import CallsWorld.
From S2P Require Import RtcdPool.
From S2P Require Import GoString.

Local Open Scope string_scope.
Local Open Scope go_scope.

(** rtcd.ClientConfig. *)
Record ClientConfig := {
  ClientID : string; AuthKey : string; URL : string; ReconnectInterval : Z;
}.

(** The library's client.  [NewClient] takes the occasion of the call, since
    its outcome depends on the network. *)
Class RtcdLib (K : Type) := {
  NewClient : ClientConfig → nat → string + K;
  lib_Connect : K → option string * K;
  lib_Register : K → string → string → option string * K;
  lib_Connected : K → bool;
  lib_Send : K → ClientMessage → option string * K;
  lib_Close : K → option string * K;
}.

(** Connect returns nil once the control socket is open. *)
Class RtcdLibOk (K : Type) `{RtcdLib K} := {
  lib_connect_ok : ∀ k k', lib_Connect k = (None, k') → lib_Connected k' = true;
}.

(** The clock in nanoseconds, by the order of the reads. *)
Class Clock := { now_ns : nat → Z }.
Class ClockOk `{Clock} := { now_mono : ∀ n, (now_ns n ≤ now_ns (S n))%Z }.

Definition second : Z := 1000000000.
Definition healThrottle : Z := 5 * second.

(** The zero [time.Time] (January 1 of year 1), and [time.Since], whose
    result saturates at the range of a Duration. *)
Definition zeroTime : Z := (-62135596800) * second.
Definition time_Since (now t : Z) : Z :=
  Z.max (- int64_half) (Z.min (int64_half - 1) (now - t)).

Record adapter (K : Type) := Adapter {
  ad_cfg : ClientConfig;
  ad_client : option K;
  ad_outCh : list ClientMessage;
  ad_errCh : list string;
  ad_bridgesClosed : bool;
  ad_lastHealAt : Z;
  ad_ticks : nat;
}.
Arguments Adapter {K} _ _ _ _ _ _ _.
Arguments ad_cfg {K} _. Arguments ad_client {K} _. Arguments ad_outCh {K} _.
Arguments ad_errCh {K} _. Arguments ad_bridgesClosed {K} _. Arguments ad_lastHealAt {K} _.
Arguments ad_ticks {K} _.

Section adapter.
Context {K : Type} `{RtcdLib K, Clock}.

Abbreviation AM := (M (adapter K) string).

Definition with_client (o : option K) (a : adapter K) : adapter K :=
  Adapter (ad_cfg a) o (ad_outCh a) (ad_errCh a) (ad_bridgesClosed a) (ad_lastHealAt a) (ad_ticks a).
Definition with_lastHealAt (t : Z) (a : adapter K) : adapter K :=
  Adapter (ad_cfg a) (ad_client a) (ad_outCh a) (ad_errCh a) (ad_bridgesClosed a) t (ad_ticks a).
Definition with_ad_ticks (n : nat) (a : adapter K) : adapter K :=
  Adapter (ad_cfg a) (ad_client a) (ad_outCh a) (ad_errCh a) (ad_bridgesClosed a)
    (ad_lastHealAt a) n.

Definition newRTCDClientAdapter (cfg : ClientConfig) (n : nat) : adapter K :=
  Adapter cfg None [] [] false zeroTime n.

(** One read of the environment: the clock or the network. *)
Definition occasion : AM nat :=
  n <- m_gets ad_ticks ;; m_modify (with_ad_ticks (S n)) ;;; m_ret n.
Definition Now : AM Z := n <- occasion ;; m_ret (now_ns n).

Definition isConnected (a : adapter K) : bool :=
  match ad_client a with Some k => lib_Connected k | None => false end.

(** [strings.Contains(err.Error(), "already registered")]. *)
Definition isAlreadyRegisteredErr (err : option string) : bool :=
  match err with
  | Some t => bool_decide (is_Some (Strings.String.index 0 "already registered" t))
  | None => false
  end.

(** Register's error never decides anything: it is logged unless it says the
    client is registered already. *)
Definition reconnectCallback (a : adapter K) (k : K) : K :=
  snd (lib_Register k (ClientID (ad_cfg a)) (AuthKey (ad_cfg a))).

(** The creation of the internal client: connect with the stored credentials
    first, register and connect again when that fails. *)
Definition build_client (cfg : ClientConfig) (n : nat) : string + K :=
  match NewClient cfg n with
  | inl err => inl ("rtcd: failed to create client: " +:+ err)
  | inr k0 =>
      match lib_Connect k0 with
      | (None, k1) => inr k1
      | (Some _, k1) =>
          match lib_Connect (lib_Register k1 (ClientID cfg) (AuthKey cfg)).2 with
          | (None, k2) => inr k2
          | (Some err, _) => inl ("rtcd: failed to connect after register: " +:+ err)
          end
      end
  end.

Definition connectInternal (force : bool) : AM bool :=
  o <- m_gets ad_client ;;
  if bool_decide (is_Some o) && negb force then a <- m_gets id ;; m_ret (isConnected a)
  else
  m_modify (with_client None) ;;;
  cfg <- m_gets ad_cfg ;;
  n <- occasion ;;
  match build_client cfg n with
  | inl err => m_throw err
  | inr k => m_modify (with_client (Some k)) ;;; m_ret true
  end.

Definition Connect : AM unit := connectInternal false ;;; m_ret tt.

(** The throttled half of Heal, under the lock: [Some] answer, or [None] when
    this caller is to rebuild. *)
Definition heal_gate : AM (option bool) :=
  up <- m_gets isConnected ;;
  if up : bool then m_ret (Some true)
  else
  last <- m_gets ad_lastHealAt ;;
  now <- Now ;;
  if decide (time_Since now last < healThrottle)%Z then
    up' <- m_gets isConnected ;; m_ret (Some up')
  else
    t <- Now ;; m_modify (with_lastHealAt t) ;;; m_ret None.

(** The rebuild; its error is logged and reported as not connected. *)
Definition heal_rebuild : AM bool :=
  r <- m_try (connectInternal true) ;;
  m_ret match r with Ok b => b | Err _ => false end.

Definition Heal : AM bool :=
  g <- heal_gate ;;
  match g with Some b => m_ret b | None => heal_rebuild end.

Definition clientOrConnect : AM K :=
  up <- m_gets isConnected ;;
  (if up : bool then m_ret tt else Connect) ;;;
  o <- m_gets ad_client ;;
  match o with
  | None => m_throw "rtcd: client closed during connect"
  | Some k => m_ret k
  end.

(** The Send of the adapter runs on the client it obtained, which the library
    updates in place. *)
Definition adapter_Send (msg : ClientMessage) : AM unit :=
  k <- clientOrConnect ;;
  let '(err, k') := lib_Send k msg in
  m_modify (with_client (Some k')) ;;;
  match err with None => m_ret tt | Some t => m_throw t end.

Definition closeBridges (a : adapter K) : adapter K :=
  Adapter (ad_cfg a) (ad_client a) (ad_outCh a) (ad_errCh a) true (ad_lastHealAt a) (ad_ticks a).

Definition adapter_Close : AM unit :=
  o <- m_gets ad_client ;;
  match o with
  | None => m_modify closeBridges
  | Some k =>
      m_modify (with_client None) ;;;
      m_modify closeBridges ;;;
      match (lib_Close k).1 with None => m_ret tt | Some t => m_throw t end
  end.

(** One message of a pump: [None] is the panic of a send on a closed channel
    (a [select] with a default does not guard against it). *)
Definition pump_out (msg : ClientMessage) (a : adapter K) : option (adapter K) :=
  if ad_bridgesClosed a then None
  else Some (if decide (length (ad_outCh a) < 64)
             then Adapter (ad_cfg a) (ad_client a) (ad_outCh a ++ [msg]) (ad_errCh a)
                    (ad_bridgesClosed a) (ad_lastHealAt a) (ad_ticks a)
             else a).

Definition pump_err (err : string) (a : adapter K) : option (adapter K) :=
  if ad_bridgesClosed a then None
  else Some (if decide (length (ad_errCh a) < 32)
             then Adapter (ad_cfg a) (ad_client a) (ad_outCh a) (ad_errCh a ++ [err])
                    (ad_bridgesClosed a) (ad_lastHealAt a) (ad_ticks a)
             else a).
(** ** Sequences of operations *)

Inductive adapter_op := OpConnect | OpHeal | OpSend (msg : ClientMessage) | OpClose.

Definition run_op (op : adapter_op) (a : adapter K) : adapter K :=
  match op with
  | OpConnect => snd (Connect a)
  | OpHeal => snd (Heal a)
  | OpSend msg => snd (adapter_Send msg a)
  | OpClose => snd (adapter_Close a)
  end.

Definition run_ops (ops : list adapter_op) (a : adapter K) : adapter K :=
  foldl (λ a op, run_op op a) a ops.

(** The times at which Heal went on to rebuild. *)
Fixpoint rebuilds (ops : list adapter_op) (a : adapter K) : list Z :=
  match ops with
  | [] => []
  | op :: ops' =>
      (match op, heal_gate a with
       | OpHeal, (Ok None, a') => [ad_lastHealAt a']
       | _, _ => []
       end ++ rebuilds ops' (run_op op a))%list
  end.

(** ** What the operations leave alone *)

Lemma connectInternal_frames {T} (f : adapter K → T) force :
  (∀ o a, f (with_client o a) = f a) → (∀ n a, f (with_ad_ticks n a) = f a) →
  frames f (connectInternal force).
Proof.
  intros Hc Ht. unfold connectInternal, occasion.
  frames_tac; apply frames_modify; auto.
Qed.

Lemma Connect_frames {T} (f : adapter K → T) :
  (∀ o a, f (with_client o a) = f a) → (∀ n a, f (with_ad_ticks n a) = f a) →
  frames f Connect.
Proof.
  intros Hc Ht. apply frames_bind; [by apply connectInternal_frames|]. intros. apply frames_ret.
Qed.

Lemma adapter_Send_frames {T} (f : adapter K → T) msg :
  (∀ o a, f (with_client o a) = f a) → (∀ n a, f (with_ad_ticks n a) = f a) →
  frames f (adapter_Send msg).
Proof.
  intros Hc Ht. unfold adapter_Send, clientOrConnect.
  frames_tac; first [by apply Connect_frames | apply frames_modify; auto].
Qed.

Lemma heal_rebuild_frames {T} (f : adapter K → T) :
  (∀ o a, f (with_client o a) = f a) → (∀ n a, f (with_ad_ticks n a) = f a) →
  frames f heal_rebuild.
Proof.
  intros Hc Ht. unfold heal_rebuild. apply frames_bind; [|intros; apply frames_ret].
  apply frames_try. by apply connectInternal_frames.
Qed.

Lemma adapter_Close_frames_heal : frames ad_lastHealAt adapter_Close.
Proof. unfold adapter_Close. frames_tac; by apply frames_modify. Qed.

(** The gate: either an answer and no trace but the clock reads, or the
    throttle was open and the time of this rebuild is recorded. *)
Lemma heal_gate_spec a :
  (∃ b n, heal_gate a = (Ok (Some b), with_ad_ticks n a) ∧ b = isConnected a) ∨
  (heal_gate a = (Ok None, with_lastHealAt (now_ns (S (ad_ticks a)))
                             (with_ad_ticks (S (S (ad_ticks a))) a)) ∧
   (healThrottle ≤ now_ns (ad_ticks a) - ad_lastHealAt a)%Z).
Proof.
  unfold heal_gate, Now, occasion, m_bind, m_gets, m_modify, m_ret. simpl.
  destruct (isConnected a) eqn:E.
  - left. exists true, (ad_ticks a). by destruct a.
  - destruct (decide _) as [Hd|Hd].
    + left. exists false, (S (ad_ticks a)). split; [|done].
      unfold isConnected in *. simpl. by rewrite E.
    + right. split; [done|]. unfold time_Since, healThrottle, second, int64_half in *. lia.
Qed.

Lemma Heal_lastHealAt a :
  ad_lastHealAt (snd (Heal a)) = ad_lastHealAt (snd (heal_gate a)).
Proof.
  unfold Heal, m_bind. destruct (heal_gate a) as [[[b|]|e] a']; [done| |done].
  apply (heal_rebuild_frames ad_lastHealAt); done.
Qed.

Lemma run_op_lastHealAt op a :
  ad_lastHealAt (run_op op a) = ad_lastHealAt a ∨
  (op = OpHeal ∧ ∃ t, heal_gate a = (Ok None, t) ∧ ad_lastHealAt (run_op op a) = ad_lastHealAt t).
Proof.
  destruct op; simpl.
  - left. by apply (Connect_frames ad_lastHealAt).
  - rewrite Heal_lastHealAt. destruct (heal_gate_spec a) as [(b & n & -> & _)|[-> _]]; [by left|].
    right. split; [done|]. by eexists.
  - left. by apply (adapter_Send_frames ad_lastHealAt).
  - left. apply adapter_Close_frames_heal.
Qed.

(** ** The throttle *)

(** Every recorded time is at least a throttle after [last]. *)
Lemma rebuilds_spaced `{!ClockOk} ops a :
  Sorted (λ x y, (x + healThrottle ≤ y)%Z) (ad_lastHealAt a :: rebuilds ops a).
Proof.
  revert a. induction ops as [|op ops IH]; intros a; simpl; [repeat constructor|].
  specialize (IH (run_op op a)).
  destruct (run_op_lastHealAt op a) as [He|(-> & a' & Hg & He)]; rewrite He in IH.
  - destruct op; simpl; try done.
    destruct (heal_gate_spec a) as [(b & n & -> & _)|[Hg Ht]]; [done|].
    exfalso. simpl in He. rewrite Heal_lastHealAt, Hg in He. simpl in He.
    pose proof (now_mono (ad_ticks a)). unfold healThrottle, second in Ht. lia.
  - rewrite Hg. simpl. constructor; [done|]. constructor.
    destruct (heal_gate_spec a) as [(b & n & Hg' & _)|[Hg' Ht]]; rewrite Hg' in Hg; simplify_eq.
    simpl. pose proof (now_mono (ad_ticks a)). lia.
Qed.

(** The throttle of Heal holds over every sequence of operations on one
    adapter: two forced rebuilds are at least five seconds apart, whatever
    connects, sends and closes happen in between, so a storm of joins cannot
    rebuild a reconnecting client in a loop. *)
Theorem heal_rebuilds_throttled `{!ClockOk} ops a :
  Sorted (λ x y, (x + healThrottle ≤ y)%Z) (rebuilds ops a).
Proof. by destruct (Sorted_inv (rebuilds_spaced ops a)). Qed.

(** ** The contract of the interface *)

Lemma connectInternal_connected `{!RtcdLibOk K} force a b a' :
  connectInternal force a = (Ok b, a') → b = isConnected a'.
Proof.
  unfold connectInternal, occasion, m_bind, m_gets, m_modify, m_ret, m_throw. simpl.
  destruct (_ && _); [intros [= <- <-]; done|]. unfold build_client.
  destruct (NewClient _ _) as [?|k0]; [done|].
  destruct (lib_Connect k0) as [[?|] k1] eqn:E1.
  - destruct (lib_Connect (lib_Register _ _ _).2) as [[?|] k2] eqn:E2; [done|].
    intros [= <- <-]. unfold isConnected; simpl. symmetry. by eapply lib_connect_ok.
  - intros [= <- <-]. unfold isConnected; simpl. symmetry. by eapply lib_connect_ok.
Qed.

Lemma connectInternal_force_fails a e a' :
  connectInternal true a = (Err e, a') → isConnected a' = false.
Proof.
  unfold connectInternal, occasion, m_bind, m_gets, m_modify, m_ret, m_throw. simpl.
  rewrite andb_false_r. simpl. destruct (build_client _ _); [|done]. by intros [= _ <-].
Qed.

(** Heal returns whether the adapter is connected afterwards. *)
Lemma Heal_connected `{!RtcdLibOk K} a : fst (Heal a) = Ok (isConnected (snd (Heal a))).
Proof.
  unfold Heal, m_bind.
  destruct (heal_gate_spec a) as [(b & n & -> & ->)|[-> _]]; [done|].
  unfold heal_rebuild, m_bind, m_try, m_ret.
  destruct (connectInternal true _) as [[b|e] a'] eqn:E; simpl; f_equal.
  - by eapply connectInternal_connected.
  - symmetry. by eapply connectInternal_force_fails.
Qed.

Definition bool_of (r : res string bool) : bool := match r with Ok b => b | Err _ => false end.
Definition err_of {A} (r : res string A) : option string :=
  match r with Ok _ => None | Err e => Some e end.

Lemma Heal_contract `{!RtcdLibOk K} a : bool_of (Heal a).1 = isConnected (Heal a).2.
Proof. by rewrite Heal_connected. Qed.

(** The adapter is an rtcd client of the pool. *)
#[export] Instance adapter_client `{!RtcdLibOk K} : RTCDClient (adapter K) ClientMessage := {|
  RtcdPool.Connected := isConnected;
  RtcdPool.Heal a := (bool_of (Heal a).1, (Heal a).2);
  RtcdPool.Send a msg := (err_of (adapter_Send msg a).1, (adapter_Send msg a).2);
  RtcdPool.Close a := (err_of (adapter_Close a).1, (adapter_Close a).2);
  heal_spec := Heal_contract;
|}.

(** ** After Close *)

Lemma run_op_closed op a : ad_bridgesClosed a = true → ad_bridgesClosed (run_op op a) = true.
Proof.
  intros Ha. destruct op; simpl.
  - by rewrite (Connect_frames ad_bridgesClosed).
  - unfold Heal, m_bind.
    destruct (heal_gate_spec a) as [(b & n & -> & _)|[-> _]]; [done|].
    by rewrite (heal_rebuild_frames ad_bridgesClosed).
  - by rewrite (adapter_Send_frames ad_bridgesClosed).
  - unfold adapter_Close, m_bind, m_gets, m_modify, m_ret, m_throw. simpl.
    destruct (ad_client a); simpl; [by destruct (lib_Close _).1|done].
Qed.

Lemma run_ops_closed ops a : ad_bridgesClosed a = true → ad_bridgesClosed (run_ops ops a) = true.
Proof.
  revert a. induction ops as [|op ops IH]; intros a Ha; [done|]. by apply IH, run_op_closed.
Qed.

Lemma adapter_Close_closed a :
  ad_bridgesClosed (snd (adapter_Close a)) = true ∧ ad_client (snd (adapter_Close a)) = None.
Proof.
  unfold adapter_Close, m_bind, m_gets, m_modify, m_ret, m_throw. simpl.
  destruct (ad_client a) eqn:E; simpl; [by destruct (lib_Close _).1|done].
Qed.

(** Close is not final.  When rtcd is reachable, a Send that reaches an
    adapter after its Close (a sender that looked the client up before the
    pool was closed) installs a new live client, while the bridge channels
    stay closed for good: the first message or error of that client makes
    its pump send on a closed channel, which panics. *)
Theorem send_after_close_panics a k msg :
  let a1 := snd (adapter_Close a) in
  build_client (ad_cfg a1) (ad_ticks a1) = inr k →
  (∃ k', ad_client (snd (adapter_Send msg a1)) = Some k') ∧
  ∀ ops m e, pump_out m (run_ops ops (run_op (OpSend msg) a1)) = None ∧
             pump_err e (run_ops ops (run_op (OpSend msg) a1)) = None.
Proof.
  intros a1 Hb. destruct (adapter_Close_closed a) as [Hcl Hno]. fold a1 in Hcl, Hno.
  split.
  - unfold adapter_Send, clientOrConnect, Connect, connectInternal, occasion, isConnected,
      m_bind, m_gets, m_modify, m_ret. rewrite Hno. simpl. rewrite Hno. simpl. rewrite Hb. simpl.
    destruct (lib_Send k msg) as [[?|] k']; simpl; by eexists.
  - intros ops m e. unfold pump_out, pump_err. by rewrite run_ops_closed by by apply run_op_closed.
Qed.
End adapter.

(** ** A library that always connects *)

#[local] Instance demo_lib : RtcdLib bool := {|
  NewClient _ _ := inr false;
  lib_Connect _ := (None, true);
  lib_Register k _ _ := (None, k);
  lib_Connected k := k;
  lib_Send k _ := (None, k);
  lib_Close _ := (None, false);
|}.

#[local] Instance demo_lib_ok : RtcdLibOk bool.
Proof. split. by intros k k' [= <-]. Qed.

(** One read per second. *)
#[local] Instance demo_clock : Clock := {| now_ns n := (Z.of_nat n * second)%Z |}.

#[local] Instance demo_clock_ok : ClockOk.
Proof. split. intros n. simpl. unfold second. lia. Qed.

Definition demo_cfg : ClientConfig :=
  {| ClientID := "id"; AuthKey := "key"; URL := "http://rtcd:8045"; ReconnectInterval := 0 |}.

Definition demo_msg : ClientMessage := {| cm_Type := "leave"; cm_Data := DataOther |}.

Lemma send_after_close_panics_witness :
  let a := run_op OpConnect (newRTCDClientAdapter (K:=bool) demo_cfg 0) in
  isConnected a = true ∧ pump_out demo_msg (run_op (OpSend demo_msg) (run_op OpClose a)) = None.
Proof.
  intros a. split; [vm_compute; reflexivity|].
  exact (proj1 (proj2 (send_after_close_panics a true demo_msg eq_refl) [] demo_msg "")).
Defined.

Lemma heal_rebuilds_throttled_witness :
  let a := newRTCDClientAdapter (K:=bool) demo_cfg 0 in
  let ops := [OpHeal; OpClose; OpHeal; OpClose; OpHeal; OpHeal; OpClose; OpHeal] in
  rebuilds ops a = [second; 7 * second]%Z ∧ Sorted (λ x y, (x + healThrottle ≤ y)%Z) (rebuilds ops a).
Proof.
  intros a ops. split; [|exact (heal_rebuilds_throttled ops a)]. vm_compute. reflexivity.
Defined.
