(* ===== verification/CallsApi.v ===== *)
(** * The REST layer of calls (server/channels/api4/calls_api)

    Each route handler is a computation over the service's world whose error
    is an [AppError].  [CallsAuth] is what the handlers take from the rest of
    the app: the requester's permissions and the channel lookup.  A request
    body is [None] when it is malformed and [Some None] when it is empty. *)

From S2P Require Import Prelude.
From S2P Require Import GoString.
From S2P Require Import CallShards.
From S2P Require Import CallState.
From S2P Require Import SessionIndex.
From S2P Require Import CallsConfig.
From S2P Require Import IceServers.
From S2P Require Import CallStore.
From S2P Require Import RtcdPool.
From S2P Require Import CallsWorld.
From S2P Require Import CallsService.
From S2P Require Import CallsControl.
From S2P Require Import CallsInv.
From S2P Require Import CallsSafety.
From S2P Require Import CallsDemo.

Local Open Scope string_scope.
Local Open Scope go_scope.

Record AppError := { ae_id : string; ae_detail : string; ae_status : Z }.

Definition StatusBadRequest : Z := 400.
Definition StatusForbidden : Z := 403.
Definition StatusNotFound : Z := 404.
Definition StatusInternalServerError : Z := 500.
Definition StatusServiceUnavailable : Z := 503.

(** The first sentinel that [errors.Is] finds decides the status. *)
Definition callsToAppError (e : goerr) : AppError :=
  let mk id status := {| ae_id := id; ae_detail := err_text e; ae_status := status |} in
  if errors_Is e ErrCallsDisabled then mk "app.calls.disabled.app_error" StatusForbidden
  else if errors_Is e ErrCallNotFound then mk "app.calls.not_found.app_error" StatusNotFound
  else if errors_Is e ErrSessionNotFound then mk "app.calls.session_not_found.app_error" StatusNotFound
  else if errors_Is e ErrCallEnded then mk "app.calls.ended.app_error" StatusBadRequest
  else if errors_Is e ErrMaxParticipants then mk "app.calls.max_participants.app_error" StatusForbidden
  else if errors_Is e ErrChannelCallsDisabled then mk "app.calls.channel_disabled.app_error" StatusForbidden
  else if errors_Is e ErrNotCallHost then mk "app.calls.not_host.app_error" StatusForbidden
  else if errors_Is e ErrNoSFUHost then mk "app.calls.no_sfu_host.app_error" StatusServiceUnavailable
  else mk "app.calls.internal_error" StatusInternalServerError.

(** model.IsValidId on the ASCII strings the route patterns let through. *)
Definition IsValidId (s : string) : bool :=
  bool_decide (String.length s = 26) && all_chars (λ c, is_alpha c || is_digit c) s.

Inductive Permission :=
  | PermissionReadChannel | PermissionManagePublicChannelMembers
  | PermissionManagePrivateChannelMembers | PermissionManageSystem.

Inductive ChannelType := ChannelTypeDirect | ChannelTypeGroup | ChannelTypeOther.

Class CallsAuth := {
  SessionHasPermissionTo : string → Permission → bool;
  SessionHasPermissionToChannel : string → string → Permission → bool;
  GetChannel : string → res AppError ChannelType;
}.

Definition permission_error : AppError :=
  {| ae_id := "api.context.permissions.app_error"; ae_detail := ""; ae_status := StatusForbidden |}.
Definition invalid_param (name : string) : AppError :=
  {| ae_id := "api.context.invalid_url_param.app_error"; ae_detail := name; ae_status := StatusBadRequest |}.
Definition invalid_body : AppError :=
  {| ae_id := "api.calls.invalid_body.app_error"; ae_detail := ""; ae_status := StatusBadRequest |}.

Record hostControlRequest := { hc_SessionID : string; hc_NewHostID : string }.

Section api.
Context {C : Type} `{RTCDClient C ClientMessage} `{GoRange} `{CallsEnv} `{CallsAuth}.

Abbreviation AM := (M (world C) AppError).

(** [if err := svc(...); err != nil { c.Err = callsToAppError(err); return }]. *)
Definition svc {A} (m : M (world C) goerr A) : AM A := λ w,
  match m w with
  | (Ok a, w') => (Ok a, w')
  | (Err e, w') => (Err (callsToAppError e), w')
  end.

(** A call whose own error the handler inspects. *)
Definition svc_try {A} (m : M (world C) goerr A) : AM (res goerr A) := λ w,
  let '(r, w') := m w in (Ok r, w').

Definition require (name : string) (valid : bool) : AM unit :=
  if valid then m_ret tt else m_throw (invalid_param name).

Definition require_channel_permission (user channelID : string) (p : Permission) : AM unit :=
  if SessionHasPermissionToChannel user channelID p then m_ret tt else m_throw permission_error.

Definition decodeOptionalJSON {A} (dflt : A) (body : option (option A)) : AM A :=
  match body with
  | None => m_throw invalid_body
  | Some o => m_ret (default dflt o)
  end.

(** ** calls.go *)

Definition getCallsConfig : AM ConfigView := svc GetConfig.

Definition getCallStates : AM (list CallStateView) := svc GetCallStates.

Definition startCall (user channelID : string) (body : option (option string)) : AM StartResult :=
  require "channel_id" (IsValidId channelID) ;;;
  require_channel_permission user channelID PermissionReadChannel ;;;
  v <- svc (GetCallsChannel channelID) ;;
  if negb (ccv_Enabled v) then m_throw (callsToAppError ErrChannelCallsDisabled)
  else
  postID <- decodeOptionalJSON "" body ;;
  svc (StartCall channelID user postID).

Definition getCallByChannel (user channelID : string) : AM CallStateView :=
  require "channel_id" (IsValidId channelID) ;;;
  require_channel_permission user channelID PermissionReadChannel ;;;
  svc (GetCallStateByChannel channelID).

Definition getCall (user callID : string) : AM CallStateView :=
  require "call_id" (IsValidId callID) ;;;
  state <- svc (GetCallState callID) ;;
  require_channel_permission user (csv_ChannelID state) PermissionReadChannel ;;;
  m_ret state.

(** The user is behind the host session of the view. *)
Definition is_host (state : CallStateView) (user : string) : bool :=
  negb (bool_decide (csv_HostSessionID state = "")) &&
  existsb (λ v, bool_decide (sv_ID v = csv_HostSessionID state) && bool_decide (sv_UserID v = user))
    (csv_Sessions state).

Definition endCall (user callID : string) : AM unit :=
  require "call_id" (IsValidId callID) ;;;
  state <- svc (GetCallState callID) ;;
  let isAdmin := SessionHasPermissionTo user PermissionManageSystem in
  let isHost := is_host state user in
  if negb isAdmin && negb isHost && bool_decide (0 < csv_Participants state)%Z then
    m_throw (callsToAppError ErrNotCallHost)
  else
  (if negb isAdmin && negb isHost
   then require_channel_permission user (csv_ChannelID state) PermissionReadChannel
   else m_ret tt) ;;;
  svc (EndCall callID).

Definition getCallsChannelEnabled (user channelID : string) : AM CallsChannelView :=
  require "channel_id" (IsValidId channelID) ;;;
  require_channel_permission user channelID PermissionReadChannel ;;;
  svc (GetCallsChannel channelID).

Definition may_toggle (user channelID : string) (t : ChannelType) : bool :=
  match t with
  | ChannelTypeOther =>
      existsb (SessionHasPermissionToChannel user channelID)
        [PermissionManagePublicChannelMembers; PermissionManagePrivateChannelMembers]
      || SessionHasPermissionTo user PermissionManageSystem
  | _ => SessionHasPermissionToChannel user channelID PermissionReadChannel
  end.

(** A body that does not decode means "enabled". *)
Definition setCallsChannelEnabled (user channelID : string) (body : option bool) : AM unit :=
  require "channel_id" (IsValidId channelID) ;;;
  t <- (λ w, (GetChannel channelID, w)) ;;
  if negb (may_toggle user channelID t) then m_throw permission_error
  else svc (SetCallsChannelEnabled channelID (default true body) user).

Definition dismissNotification (user channelID : string) : AM unit :=
  require "channel_id" (IsValidId channelID) ;;;
  svc (DismissNotification channelID user).

(** ** host_controls_api.go *)

(** Admins act under the current host's user id, when there is a host. *)
Definition requesterFor (user callID : string) : AM string :=
  if SessionHasPermissionTo user PermissionManageSystem then
    got <- svc_try (GetCallState callID) ;;
    m_ret match got with
    | Ok state =>
        if decide (csv_HostSessionID state = "") then user
        else match list_find (λ v, sv_ID v = csv_HostSessionID state) (csv_Sessions state) with
             | Some (_, v) => sv_UserID v
             | None => user
             end
    | Err _ => user
    end
  else m_ret user.

Definition resolveHostAction (callID : string) (body : option (option hostControlRequest))
    : AM hostControlRequest :=
  require "call_id" (IsValidId callID) ;;;
  decodeOptionalJSON {| hc_SessionID := ""; hc_NewHostID := "" |} body.

Definition host_action (user callID : string) (body : option (option hostControlRequest))
    (act : string → hostControlRequest → M (world C) goerr unit) : AM unit :=
  b <- resolveHostAction callID body ;;
  requester <- requesterFor user callID ;;
  svc (act requester b).

Definition hostMake user callID body :=
  host_action user callID body (λ q b, MakeHost callID q (hc_NewHostID b)).
Definition hostMute user callID body :=
  host_action user callID body (λ q b, MuteSession callID q (hc_SessionID b)).
Definition hostMuteOthers user callID body :=
  host_action user callID body (λ q _, MuteOthers callID q).
Definition hostScreenOff user callID body :=
  host_action user callID body (λ q b, ScreenOff callID q (hc_SessionID b)).
Definition hostLowerHand user callID body :=
  host_action user callID body (λ q b, LowerHand callID q (hc_SessionID b)).
Definition hostRemove user callID body :=
  host_action user callID body (λ q b, RemoveSession callID q (hc_SessionID b)).
Definition hostEnd user callID body :=
  host_action user callID body (λ q _, EndCallByHost callID q).
End api.

(** ** Authorization *)

Section auth.
Context {C : Type} `{RTCDClient C ClientMessage} `{GoRange} `{!CallsEnv, !CallsEnvOk} `{CallsAuth}.

(** The views of a well-formed call name its host exactly when the host's
    user is the one the service checks. *)
Lemma host_view hs cs v :
  call_wf hs cs → v ∈ (snapshot hs cs).1 → sv_ID v = cs_hostSessionID cs →
  sv_UserID v = hostUserID hs cs ∧ cs_sessions cs ≠ ∅.
Proof.
  intros Hwf Hv Hid. apply list_elem_of_omap in Hv as ([k p] & Hin & Hx).
  apply elem_of_go_range in Hin. simpl in Hx.
  destruct (hs !! p) as [x|] eqn:Ep; simplify_eq/=.
  destruct (wf_sess _ _ Hwf _ _ Hin) as (y & Hy & Hyid & _). simplify_eq.
  assert (cs_sessions cs ≠ ∅) as Hne by (intros Hemp; by rewrite Hemp in Hin).
  split; [|done]. unfold hostUserID.
  rewrite decide_False by (by rewrite (wf_host_empty _ _ Hwf)).
  rewrite <-Hid, Hin. unfold sess_userID. by rewrite Ep.
Qed.

Lemma host_view_exists hs cs :
  call_wf hs cs → cs_sessions cs ≠ ∅ →
  ∃ v, v ∈ (snapshot hs cs).1 ∧ sv_ID v = cs_hostSessionID cs.
Proof.
  intros Hwf Hne. pose proof (wf_host _ _ Hwf) as Hh. rewrite decide_False in Hh by done.
  destruct Hh as [p Hp]. destruct (wf_sess _ _ Hwf _ _ Hp) as (x & Hx & Hid & _).
  exists (view x (bool_decide (cs_hostSessionID cs = cs_hostSessionID cs))). split; [|done].
  apply list_elem_of_omap. exists (cs_hostSessionID cs, p). simpl. split; [by apply elem_of_go_range|].
  by rewrite Hx.
Qed.

Lemma snapshot_length hs cs : call_wf hs cs → Z.of_nat (length (snapshot hs cs).1) = participants cs.
Proof.
  intros Hwf. unfold snapshot, participants. simpl. rewrite <-length_go_range. f_equal.
  assert (∀ e, e ∈ go_range (cs_sessions cs) → is_Some (hs !! e.2)) as Hall.
  { intros [k p] He%elem_of_go_range. destruct (wf_sess _ _ Hwf _ _ He) as (x & ? & _). by exists x. }
  induction (go_range (cs_sessions cs)) as [|e l IH]; simpl; [done|].
  destruct (Hall e) as [x Hx]; [by left|]. rewrite Hx. simpl. f_equal. apply IH.
  intros e' He'. apply Hall. by right.
Qed.

Lemma GetCallState_registered id r (w : world C) :
  reg_get (shards (w_core w)) id = Some r →
  GetCallState id w =
    (Ok {| csv_CallID := cs_callID (call_at (w_core w) r);
           csv_ChannelID := cs_channelID (call_at (w_core w) r);
           csv_StartAt := cs_startAt (call_at (w_core w) r);
           csv_EndAt := endedAt (call_at (w_core w) r);
           csv_RTCDHost := cs_rtcdHost (call_at (w_core w) r);
           csv_Sessions := (snapshot (sess (w_core w)) (call_at (w_core w) r)).1;
           csv_Participants := Z.of_nat (length (snapshot (sess (w_core w)) (call_at (w_core w) r)).1);
           csv_HostSessionID := cs_hostSessionID (call_at (w_core w) r) |}, w).
Proof. intros Hr. unfold GetCallState, shards_get, read, m_bind, m_gets. by rewrite Hr. Qed.

Lemma registered_wf (w : world C) id r :
  Inv 0 w → reg_get (shards (w_core w)) id = Some r →
  call_wf (sess (w_core w)) (call_at (w_core w) r).
Proof.
  intros (m & Hm & Hr). rewrite (models_get _ _ Hm). intros Hid.
  destruct (ri_slot _ _ _ Hr _ _ Hid) as (cs & Hcs & _). unfold call_at. rewrite Hcs.
  by eapply ri_wf.
Qed.

(** C34: the DELETE route ends a call only for someone entitled to: a system
    admin, the user the service itself regards as the call's host, or, when
    nobody is in the call any more, a user who can read the channel. *)
Theorem endCall_authorized conf pool user callID (w w' : world C) :
  reachable step (init_world conf pool) w →
  endCall user callID w = (Ok tt, w') →
  ∃ r, reg_get (shards (w_core w)) callID = Some r ∧ let cs := call_at (w_core w) r in
    SessionHasPermissionTo user PermissionManageSystem = true ∨
    (cs_sessions cs ≠ ∅ ∧ hostUserID (sess (w_core w)) cs = user) ∨
    (cs_sessions cs = ∅ ∧
     SessionHasPermissionToChannel user (cs_channelID cs) PermissionReadChannel = true).
Proof.
  intros HI%reachable_Inv Hrun. unfold endCall, require, svc, m_bind, m_ret, m_throw in Hrun.
  destruct (IsValidId callID); [|done].
  destruct (reg_get (shards (w_core w)) callID) as [r|] eqn:Hreg.
  2: { unfold GetCallState, shards_get, read, m_bind, m_gets in Hrun. by rewrite Hreg in Hrun. }
  exists r. split; [done|]. rewrite (GetCallState_registered _ _ _ Hreg) in Hrun.
  pose proof (registered_wf _ _ _ HI Hreg) as Hwf. simpl in Hrun.
  destruct (SessionHasPermissionTo user PermissionManageSystem); [by left|right].
  destruct (is_host _ user) eqn:Eh.
  - left. apply andb_true_iff in Eh as [_ (v & Hv & [Hid%bool_decide_eq_true
      Hu%bool_decide_eq_true]%andb_true_iff)%existsb_exists].
    simpl in Hv, Hid. apply list_elem_of_In in Hv.
    destruct (host_view _ _ v Hwf Hv Hid) as [<- Hne]. done.
  - right. simpl in Hrun. destruct (bool_decide (0 < _)%Z) eqn:Ep; [done|].
    apply bool_decide_eq_false in Ep.
    assert (¬ (0 < participants (call_at (w_core w) r))%Z) as Hz
      by (rewrite <-(snapshot_length _ _ Hwf); exact Ep).
    split; [apply map_size_empty_iff; unfold participants in Hz; lia|].
    unfold require_channel_permission, m_ret, m_throw in Hrun.
    by destruct (SessionHasPermissionToChannel _ _ _).
Qed.

(** the id an admin acts under passes the service's host check exactly
    when the call has a participant; on a call nobody is in, an admin with a
    user id is turned away by every host control. *)
Theorem admin_acts_as_host conf pool user callID r (w : world C) :
  reachable step (init_world conf pool) w → user ≠ "" →
  SessionHasPermissionTo user PermissionManageSystem = true →
  reg_get (shards (w_core w)) callID = Some r →
  ∃ q, requesterFor user callID w = (Ok q, w) ∧
    callForHostAction callID q w =
      (if decide (cs_sessions (call_at (w_core w) r) = ∅) then Err ErrNotCallHost else Ok r, w).
Proof.
  intros HI%reachable_Inv Hu Hadm Hreg. pose proof (registered_wf _ _ _ HI Hreg) as Hwf.
  unfold requesterFor. rewrite Hadm. unfold svc_try, m_bind.
  rewrite (GetCallState_registered _ _ _ Hreg). unfold m_ret. eexists. split; [done|]. simpl.
  unfold callForHostAction, shards_get, read, ask, m_bind, m_gets, m_ret, m_throw.
  rewrite Hreg. cbv beta iota zeta. unfold read, m_gets. cbv beta iota. set (cs := call_at (w_core w) r) in *.
  destruct (decide (cs_sessions cs = ∅)) as [Hemp|Hne].
  - assert (hostUserID (sess (w_core w)) cs = "") as ->.
    { unfold hostUserID. by rewrite decide_True by (by apply (wf_host_empty _ _ Hwf)). }
    rewrite (decide_True (P := cs_hostSessionID cs = "")) by (by apply (wf_host_empty _ _ Hwf)).
    by rewrite decide_True.
  - rewrite (decide_False (P := cs_hostSessionID cs = "")) by (by rewrite (wf_host_empty _ _ Hwf)).
    destruct (list_find _ _) as [[i v]|] eqn:Ef.
    + apply list_find_Some in Ef as (Hin & Hid & _). apply list_elem_of_lookup_2 in Hin.
      destruct (host_view _ _ v Hwf Hin Hid) as [-> _]. by rewrite decide_False by tauto.
    + exfalso. apply list_find_None in Ef. destruct (host_view_exists _ _ Hwf Hne) as (v & Hv & Hid).
      rewrite Forall_forall in Ef. by apply (Ef v).
Qed.
End auth.


(** ** Witnesses *)

#[local] Instance demo_auth : CallsAuth := {|
  SessionHasPermissionTo u p := bool_decide (u = "admin");
  SessionHasPermissionToChannel u ch p := true;
  GetChannel ch := Ok ChannelTypeOther;
|}.

Definition api_scene : world bool := demo_run [demo_join "k1" "u1" "ch"; demo_join "k2" "u2" "ch"].

Lemma api_scene_reachable : reachable step (init_world demo_conf (Some demo_pool)) api_scene.
Proof. apply demo_reachable. Qed.

Lemma endCall_authorized_witness :
  ∃ r, reg_get (shards (w_core api_scene)) (demo_id 0) = Some r.
Proof.
  destruct (endCall_authorized demo_conf (Some demo_pool) "u1" (demo_id 0) api_scene
    (snd (endCall "u1" (demo_id 0) api_scene)) api_scene_reachable) as (r & Hr & _);
    [|exists r; exact Hr].
  assert (fst (endCall "u1" (demo_id 0) api_scene) = Ok tt) as Hok by (vm_compute; reflexivity).
  rewrite <-Hok. exact (surjective_pairing (endCall "u1" (demo_id 0) api_scene)).
Defined.

Lemma admin_acts_as_host_witness :
  ∃ q, requesterFor "admin" (demo_id 0) api_scene = (Ok q, api_scene).
Proof.
  destruct (admin_acts_as_host demo_conf (Some demo_pool) "admin" (demo_id 0) 0 api_scene
    api_scene_reachable) as (q & Hq & _); [done|vm_compute; reflexivity..|exists q; exact Hq].
Defined.
