(* ===== verification/GoTime.v ===== *)
(** * Dates and times (Go's package time)

    An instant is the number of seconds since 0001-01-01T00:00:00Z, Go's zero
    time.  [civil_of_days] is the package's division into cycles of 400, 100, 4
    and 1 years; [parse_date], [parse_datetime] and [parse_rfc3339] are
    [time.Parse] for the layouts "2006-01-02", "2006-01-02 15:04:05" and RFC
    3339, [format_date] and [format_rfc3339] are [Format] for the years 0 to
    9999. *)

From Stdlib Require Import Ascii.
From S2P Require Import Prelude.
From S2P Require Import GoString.

Local Open Scope string_scope.
Local Open Scope Z_scope.

(** ** The calendar *)

Definition is_leap (y : Z) : bool :=
  bool_decide (y `mod` 4 = 0) && (negb (bool_decide (y `mod` 100 = 0)) || bool_decide (y `mod` 400 = 0)).

Definition days_in_month (y m : Z) : Z :=
  if bool_decide (m = 2) then (if is_leap y then 29 else 28)
  else if bool_decide (m = 4) || bool_decide (m = 6) || bool_decide (m = 9) || bool_decide (m = 11)
       then 30 else 31.

(** Days from 0001-01-01 to the first of January of year [y]. *)
Definition days_before_year (y : Z) : Z :=
  let p := y - 1 in 365 * p + p / 4 - p / 100 + p / 400.

Fixpoint days_before_month (y : Z) (k : nat) : Z :=
  match k with O => 0 | S k' => days_before_month y k' + days_in_month y (Z.of_nat k) end.

Definition valid_date (y m d : Z) : bool :=
  (1 <=? m) && (m <=? 12) && (1 <=? d) && (d <=? days_in_month y m).

Definition days_of_civil (y m d : Z) : Z :=
  days_before_year y + days_before_month y (Z.to_nat (m - 1)) + (d - 1).

(** The month and day of a zero-based day of the year. *)
Fixpoint month_day (y : Z) (m : Z) (fuel : nat) (yday : Z) : Z * Z :=
  match fuel with
  | O => (m, yday + 1)
  | S fuel' => if yday <? days_in_month y m then (m, yday + 1)
               else month_day y (m + 1) fuel' (yday - days_in_month y m)
  end.

Definition civil_of_days (n : Z) : Z * Z * Z :=
  let n400 := n / 146097 in
  let r := n - 146097 * n400 in
  let n100 := Z.min 3 (r / 36524) in
  let r := r - 36524 * n100 in
  let n4 := r / 1461 in
  let r := r - 1461 * n4 in
  let n1 := Z.min 3 (r / 365) in
  let yday := r - 365 * n1 in
  let y := 400 * n400 + 100 * n100 + 4 * n4 + n1 + 1 in
  let '(m, d) := month_day y 1 11 yday in (y, m, d).

(** The leap rule has a period of 400 years of 146097 days. *)
Lemma is_leap_shift q y : is_leap (400 * q + y) = is_leap y.
Proof.
  unfold is_leap.
  assert ((400 * q + y) `mod` 4 = y `mod` 4) as ->
    by (replace (400 * q + y) with (y + (100 * q) * 4) by lia; by rewrite Z_mod_plus_full).
  assert ((400 * q + y) `mod` 100 = y `mod` 100) as ->
    by (replace (400 * q + y) with (y + (4 * q) * 100) by lia; by rewrite Z_mod_plus_full).
  by replace ((400 * q + y) `mod` 400) with (y `mod` 400)
    by (replace (400 * q + y) with (y + q * 400) by lia; by rewrite Z_mod_plus_full).
Qed.

Lemma days_in_month_shift q y m : days_in_month (400 * q + y) m = days_in_month y m.
Proof. unfold days_in_month. by rewrite is_leap_shift. Qed.

Lemma days_before_month_shift q y k : days_before_month (400 * q + y) k = days_before_month y k.
Proof. induction k as [|k IH]; cbn [days_before_month]; [done|]. by rewrite IH, days_in_month_shift. Qed.

Lemma days_before_year_shift q y : days_before_year (400 * q + y) = 146097 * q + days_before_year y.
Proof.
  unfold days_before_year.
  replace (400 * q + y - 1) with (y - 1 + (100 * q) * 4) at 2 by lia.
  replace (400 * q + y - 1) with (y - 1 + (4 * q) * 100) at 2 by lia.
  replace (400 * q + y - 1) with (y - 1 + q * 400) at 2 by lia.
  rewrite !Z.div_add by lia. lia.
Qed.

Lemma days_of_civil_shift q y m d :
  days_of_civil (400 * q + y) m d = 146097 * q + days_of_civil y m d.
Proof. unfold days_of_civil. rewrite days_before_year_shift, days_before_month_shift. lia. Qed.

Lemma month_day_shift q y m f n : month_day (400 * q + y) m f n = month_day y m f n.
Proof.
  revert m n. induction f as [|f IH]; intros m n; cbn [month_day]; [done|].
  rewrite days_in_month_shift, IH. done.
Qed.

Lemma civil_of_days_shift q n :
  civil_of_days (146097 * q + n) =
    let '(y, m, d) := civil_of_days n in (400 * q + y, m, d).
Proof.
  unfold civil_of_days.
  assert ((146097 * q + n) / 146097 = q + n / 146097) as ->.
  { replace (146097 * q + n) with (n + q * 146097) by lia. rewrite Z.div_add by lia. lia. }
  replace (146097 * q + n - 146097 * (q + n / 146097)) with (n - 146097 * (n / 146097)) by lia.
  set (r := n - 146097 * (n / 146097)). set (n100 := Z.min 3 (r / 36524)).
  set (r1 := r - 36524 * n100). set (n4 := r1 / 1461). set (r2 := r1 - 1461 * n4).
  set (n1 := Z.min 3 (r2 / 365)).
  replace (400 * (q + n / 146097) + 100 * n100 + 4 * n4 + n1 + 1)
    with (400 * q + (400 * (n / 146097) + 100 * n100 + 4 * n4 + n1 + 1)) by lia.
  rewrite month_day_shift. by destruct (month_day _ _ _ _).
Qed.

(** Within one period the division finds the year and the day of the year. *)
Definition year_yday (n : Z) : Z * Z :=
  let n400 := n / 146097 in
  let r := n - 146097 * n400 in
  let n100 := Z.min 3 (r / 36524) in
  let r := r - 36524 * n100 in
  let n4 := r / 1461 in
  let r := r - 1461 * n4 in
  let n1 := Z.min 3 (r / 365) in
  (400 * n400 + 100 * n100 + 4 * n4 + n1 + 1, r - 365 * n1).

Lemma civil_of_days_split n :
  civil_of_days n = let '(y, k) := year_yday n in let '(m, d) := month_day y 1 11 k in (y, m, d).
Proof. done. Qed.

Lemma is_leap_spec y : is_leap y = true ↔ y `mod` 4 = 0 ∧ (y `mod` 100 ≠ 0 ∨ y `mod` 400 = 0).
Proof.
  unfold is_leap. rewrite andb_true_iff, orb_true_iff, negb_true_iff, bool_decide_eq_false,
    !bool_decide_eq_true. done.
Qed.

Lemma year_yday_period y k :
  1 ≤ y ≤ 400 → 0 ≤ k ≤ 365 → (k = 365 → is_leap y = true) →
  year_yday (days_before_year y + k) = (y, k).
Proof.
  intros Hy Hk Hleap. set (a := (y - 1) / 100). set (b := (y - 1 - 100 * a) / 4).
  set (c := y - 1 - 100 * a - 4 * b).
  assert (0 ≤ a ≤ 3 ∧ 0 ≤ b ≤ 24 ∧ 0 ≤ c ≤ 3) as (Ha & Hb & Hc).
  { unfold c, b, a. Z.to_euclidean_division_equations. lia. }
  assert (y = 100 * a + 4 * b + c + 1) as Hyeq by (unfold c; lia).
  assert (k = 365 → c = 3 ∧ (b ≤ 23 ∨ a = 3)) as Hk'.
  { intros He. apply Hleap, is_leap_spec in He as [H4 Hc100]. clear Hleap.
    clearbody a b c. Z.to_euclidean_division_equations. lia. }
  clear Hleap. clearbody a b c. subst y.
  assert (days_before_year (100 * a + 4 * b + c + 1) = 36524 * a + 1461 * b + 365 * c) as ->.
  { unfold days_before_year. Z.to_euclidean_division_equations. lia. }
  unfold year_yday. set (n := 36524 * a + 1461 * b + 365 * c + k).
  assert (n / 146097 = 0) as -> by (apply Z.div_small; unfold n; lia).
  replace (n - 146097 * 0) with n by lia.
  assert (Z.min 3 (n / 36524) = a) as ->.
  { unfold n. Z.to_euclidean_division_equations. lia. }
  replace (n - 36524 * a) with (1461 * b + 365 * c + k) by (unfold n; lia).
  assert ((1461 * b + 365 * c + k) / 1461 = b) as ->.
  { Z.to_euclidean_division_equations. lia. }
  replace (1461 * b + 365 * c + k - 1461 * b) with (365 * c + k) by lia.
  assert (Z.min 3 ((365 * c + k) / 365) = c) as ->.
  { Z.to_euclidean_division_equations. lia. }
  f_equal; lia.
Qed.

Lemma days_in_month_bounds y m : 28 ≤ days_in_month y m ≤ 31.
Proof. unfold days_in_month. repeat case_match; lia. Qed.

(** The days of [j] months from month [m] on. *)
Fixpoint span (y m : Z) (j : nat) : Z :=
  match j with O => 0 | S j' => days_in_month y m + span y (m + 1) j' end.

Lemma span_snoc y m j : span y m (S j) = span y m j + days_in_month y (m + Z.of_nat j).
Proof.
  revert m. induction j as [|j IH]; intros m.
  - cbn [span]. replace (m + Z.of_nat 0) with m by lia. lia.
  - change (span y m (S (S j))) with (days_in_month y m + span y (m + 1) (S j)).
    rewrite IH. cbn [span]. replace (m + 1 + Z.of_nat j) with (m + Z.of_nat (S j)) by lia. lia.
Qed.

Lemma days_before_month_span y k : days_before_month y k = span y 1 k.
Proof.
  induction k as [|k IH]; [done|]. rewrite span_snoc. cbn [days_before_month]. rewrite IH.
  do 2 f_equal. lia.
Qed.

Lemma span_nonneg y m j : 0 ≤ span y m j.
Proof.
  revert m. induction j as [|j IH]; intros m; cbn [span]; [lia|].
  pose proof (days_in_month_bounds y m). specialize (IH (m + 1)). lia.
Qed.

(** The month loop finds the month and day of a day of the year. *)
Lemma month_day_span y m f j r :
  (j ≤ f)%nat → 0 ≤ r < days_in_month y (m + Z.of_nat j) →
  month_day y m f (span y m j + r) = (m + Z.of_nat j, r + 1).
Proof.
  revert m j. induction f as [|f IH]; intros m j Hj Hr.
  - assert (j = 0%nat) as -> by lia. cbn [month_day span]. f_equal; lia.
  - cbn [month_day]. destruct j as [|j].
    + cbn [span]. rewrite Z.add_0_r in *. destruct (_ <? _) eqn:E; [done|].
      apply Z.ltb_ge in E. lia.
    + cbn [span]. pose proof (span_nonneg y (m + 1) j). destruct (_ <? _) eqn:E.
      { apply Z.ltb_lt in E. lia. }
      replace (days_in_month y m + span y (m + 1) j + r - days_in_month y m)
        with (span y (m + 1) j + r) by lia.
      rewrite IH; [f_equal; lia|lia|]. by replace (m + 1 + Z.of_nat j) with (m + Z.of_nat (S j)) by lia.
Qed.

Lemma month_day_spec y m d :
  1 ≤ m ≤ 12 → 1 ≤ d ≤ days_in_month y m →
  month_day y 1 11 (days_before_month y (Z.to_nat (m - 1)) + (d - 1)) = (m, d).
Proof.
  intros Hm Hd. rewrite days_before_month_span.
  assert (1 + Z.of_nat (Z.to_nat (m - 1)) = m) as Heq by lia.
  rewrite month_day_span; [f_equal; lia|lia|]. rewrite Heq. lia.
Qed.

Lemma span_year y : span y 1 12 = if is_leap y then 366 else 365.
Proof. cbn [span]. unfold days_in_month. generalize (is_leap y). by intros []. Qed.

Lemma days_of_year y m d :
  1 ≤ m ≤ 12 → 1 ≤ d ≤ days_in_month y m →
  let k := days_before_month y (Z.to_nat (m - 1)) + (d - 1) in
  0 ≤ k ≤ 365 ∧ (k = 365 → is_leap y = true).
Proof.
  intros Hm Hd k. unfold k. rewrite days_before_month_span.
  assert (∀ j i, (i ≤ j)%nat → span y 1 i ≤ span y 1 j) as Hmono.
  { induction j as [|j IH]; intros i Hi; [by replace i with 0%nat by lia|].
    destruct (decide (i = S j)) as [->|]; [done|]. specialize (IH i ltac:(lia)).
    rewrite span_snoc. pose proof (days_in_month_bounds y (1 + Z.of_nat j)). lia. }
  specialize (Hmono 12%nat (S (Z.to_nat (m - 1))) ltac:(lia)).
  rewrite span_snoc, span_year in Hmono.
  replace (1 + Z.of_nat (Z.to_nat (m - 1))) with m in Hmono by lia.
  pose proof (span_nonneg y 1 (Z.to_nat (m - 1))).
  destruct (is_leap y); [split; [lia|done]|split; lia].
Qed.

Lemma civil_roundtrip_period y m d :
  1 ≤ y ≤ 400 → 1 ≤ m ≤ 12 → 1 ≤ d ≤ days_in_month y m →
  civil_of_days (days_of_civil y m d) = (y, m, d).
Proof.
  intros Hy Hm Hd. destruct (days_of_year y m d Hm Hd) as [Hk Hleap].
  rewrite civil_of_days_split. unfold days_of_civil. rewrite <-Z.add_assoc.
  rewrite year_yday_period by done. by rewrite month_day_spec.
Qed.

Lemma civil_roundtrip y m d :
  valid_date y m d = true → civil_of_days (days_of_civil y m d) = (y, m, d).
Proof.
  unfold valid_date. rewrite !andb_true_iff, !Z.leb_le. intros [[[? ?] ?] Hd].
  set (q := (y - 1) / 400). set (y0 := y - 400 * q).
  assert (1 ≤ y0 ≤ 400) as Hy0.
  { unfold y0, q. pose proof (Z.mod_pos_bound (y - 1) 400). pose proof (Z.div_mod (y - 1) 400). lia. }
  replace y with (400 * q + y0) in * by (unfold y0; lia). clearbody y0 q.
  rewrite days_in_month_shift in Hd. rewrite days_of_civil_shift, civil_of_days_shift.
  by rewrite civil_roundtrip_period by lia.
Qed.

(** Every day number is the date the division finds. *)
Lemma year_yday_split n :
  0 ≤ n < 146097 →
  let '(y, k) := year_yday n in
  1 ≤ y ≤ 400 ∧ days_before_year y + k = n ∧ 0 ≤ k ≤ 365 ∧ (k = 365 → is_leap y = true).
Proof.
  intros Hn. unfold year_yday. rewrite Z.div_small by done. rewrite !Z.mul_0_r, Z.sub_0_r.
  set (a := Z.min 3 (n / 36524)). set (b := (n - 36524 * a) / 1461).
  set (c := Z.min 3 ((n - 36524 * a - 1461 * b) / 365)).
  assert (0 ≤ a ≤ 3 ∧ 36524 * a ≤ n ∧ (a < 3 → n < 36524 * (a + 1))) as (Ha & Ha1 & Ha2)
    by (unfold a; Z.to_euclidean_division_equations; lia).
  assert (0 ≤ b ≤ 24 ∧ 1461 * b ≤ n - 36524 * a < 1461 * (b + 1)) as (Hb & Hb1 & Hb2)
    by (unfold b; clearbody a; Z.to_euclidean_division_equations; lia).
  assert (0 ≤ c ≤ 3 ∧ 365 * c ≤ n - 36524 * a - 1461 * b ∧ (c < 3 → n - 36524 * a - 1461 * b < 365 * (c + 1)))
    as (Hc & Hc1 & Hc2) by (unfold c; clearbody a b; Z.to_euclidean_division_equations; lia).
  clearbody a b c.
  assert (days_before_year (0 + 100 * a + 4 * b + c + 1) = 36524 * a + 1461 * b + 365 * c) as ->.
  { unfold days_before_year. Z.to_euclidean_division_equations. lia. }
  split_and!; [lia|lia|lia|lia|lia|]. intros Hk. apply is_leap_spec.
  assert (c = 3) as -> by lia.
  split; [replace (0 + 100 * a + 4 * b + 3 + 1) with ((25 * a + b + 1) * 4) by lia; apply Z_mod_mult|].
  destruct (decide (b = 24)) as [->|]; [right|left].
  - by assert (a = 3) as -> by lia.
  - replace (0 + 100 * a + 4 * b + 3 + 1) with (4 * b + 4 + a * 100) by lia.
    rewrite Z_mod_plus_full, Z.mod_small by lia. lia.
Qed.

Lemma month_day_total y m j r :
  0 ≤ r < span y m j → ∃ i q, (i < j)%nat ∧ r = span y m i + q ∧ 0 ≤ q < days_in_month y (m + Z.of_nat i).
Proof.
  revert m r. induction j as [|j IH]; intros m r Hr; [simpl in Hr; lia|].
  cbn [span] in Hr. destruct (decide (r < days_in_month y m)).
  - exists 0%nat, r. cbn [span]. rewrite Z.add_0_r. split_and!; lia.
  - destruct (IH (m + 1) (r - days_in_month y m)) as (i & q & Hi & Heq & Hq); [lia|].
    exists (S i), q. cbn [span]. replace (m + Z.of_nat (S i)) with (m + 1 + Z.of_nat i) by lia. split_and!; lia.
Qed.

Lemma civil_of_days_correct n :
  ∃ y m d, civil_of_days n = (y, m, d) ∧ valid_date y m d = true ∧ days_of_civil y m d = n.
Proof.
  set (q := n / 146097). set (n0 := n - 146097 * q).
  assert (0 ≤ n0 < 146097) as Hn0 by (unfold n0, q; Z.to_euclidean_division_equations; lia).
  replace n with (146097 * q + n0) by (unfold n0; lia). clearbody n0 q. clear n.
  pose proof (year_yday_split n0 Hn0) as Hy. destruct (year_yday n0) as [y k] eqn:Hyk.
  destruct Hy as (Hy & Heq & Hk & Hleap).
  destruct (month_day_total y 1 12 k) as (i & r & Hi & -> & Hr).
  { rewrite span_year. destruct (is_leap y) eqn:E; [lia|].
    destruct (decide (k = 365)) as [Hk1|]; [exfalso; specialize (Hleap Hk1); congruence|lia]. }
  assert (valid_date y (1 + Z.of_nat i) (r + 1) = true) as Hv.
  { unfold valid_date. rewrite !andb_true_iff, !Z.leb_le. split_and!; lia. }
  assert (days_of_civil y (1 + Z.of_nat i) (r + 1) = n0) as Hd.
  { unfold days_of_civil. rewrite days_before_month_span.
    replace (Z.to_nat (1 + Z.of_nat i - 1)) with i by lia. lia. }
  exists (400 * q + y), (1 + Z.of_nat i), (r + 1). split_and!.
  - rewrite civil_of_days_shift. rewrite <- Hd at 1. by rewrite civil_roundtrip.
  - unfold valid_date in *. by rewrite days_in_month_shift.
  - by rewrite days_of_civil_shift, Hd.
Qed.

(** ** Text *)

Definition digit_val (c : ascii) : option Z :=
  let z := Z.of_N (ord c) - 48 in if (0 <=? z) && (z <=? 9) then Some z else None.

Definition digit_char (z : Z) : ascii := chr (Z.to_N (48 + z)).

Definition digits2 (a b : ascii) : option Z :=
  x ← digit_val a; y ← digit_val b; Some (10 * x + y).

(** [time.Parse("2006-01-02", s)]: the days of the date since 0001-01-01. *)
Definition parse_date (s : string) : option Z :=
  match String.list_ascii_of_string s with
  | [y1; y2; y3; y4; s1; m1; m2; s2; d1; d2] =>
      yh ← digits2 y1 y2; yl ← digits2 y3 y4; m ← digits2 m1 m2; d ← digits2 d1 d2;
      let y := 100 * yh + yl in
      if Ascii.eqb s1 "-" && Ascii.eqb s2 "-" && valid_date y m d
      then Some (days_of_civil y m d) else None
  | _ => None
  end.

Definition two (z : Z) : list ascii := [digit_char (z / 10); digit_char (z mod 10)].

(** [Format("2006-01-02")] for the years 0 to 9999. *)
Definition format_date (n : Z) : string :=
  let '(y, m, d) := civil_of_days n in
  String.string_of_list_ascii ((two (y / 100) ++ two (y mod 100)) ++ "-"%char :: two m ++ "-"%char :: two d)%list.

Lemma digit_val_char z : 0 ≤ z ≤ 9 → digit_val (digit_char z) = Some z.
Proof.
  intros Hz. assert (z = 0 ∨ z = 1 ∨ z = 2 ∨ z = 3 ∨ z = 4 ∨ z = 5 ∨ z = 6 ∨ z = 7 ∨ z = 8 ∨ z = 9)
    as Hc by lia. by repeat destruct Hc as [->|Hc]; [..|rewrite Hc].
Qed.

Lemma digits2_two z : 0 ≤ z ≤ 99 → match two z with [a; b] => digits2 a b = Some z | _ => False end.
Proof.
  intros Hz. unfold two, digits2.
  rewrite (digit_val_char (z / 10)) by (Z.to_euclidean_division_equations; lia).
  rewrite (digit_val_char (z mod 10)) by (Z.to_euclidean_division_equations; lia).
  simpl. f_equal. Z.to_euclidean_division_equations; lia.
Qed.

Lemma list_ascii_of_string_of_list l : String.list_ascii_of_string (String.string_of_list_ascii l) = l.
Proof. induction l as [|c l IH]; simpl; [done|]. by rewrite IH. Qed.

(** A formatted date parses back to itself. *)
Lemma parse_format y m d :
  0 ≤ y ≤ 9999 → valid_date y m d = true →
  parse_date (format_date (days_of_civil y m d)) = Some (days_of_civil y m d).
Proof.
  intros Hy Hv. unfold format_date. rewrite civil_roundtrip by done.
  assert (1 ≤ m ≤ 12 ∧ 1 ≤ d ≤ 31) as [Hm Hd].
  { unfold valid_date in Hv. rewrite !andb_true_iff, !Z.leb_le in Hv.
    pose proof (days_in_month_bounds y m). lia. }
  unfold parse_date. rewrite list_ascii_of_string_of_list.
  pose proof (digits2_two (y / 100) ltac:(Z.to_euclidean_division_equations; lia)) as H1.
  pose proof (digits2_two (y mod 100) ltac:(Z.to_euclidean_division_equations; lia)) as H2.
  pose proof (digits2_two m ltac:(lia)) as H3. pose proof (digits2_two d ltac:(lia)) as H4.
  cbn [two app] in *. rewrite H1, H2, H3, H4. simpl.
  replace (100 * (y / 100) + y mod 100) with y by (Z.to_euclidean_division_equations; lia).
  by rewrite Hv.
Qed.

Lemma format_length n : String.length (format_date n) = 10%nat.
Proof. unfold format_date. by destruct (civil_of_days n) as [[??]?]. Qed.

Definition day : Z := 86400.

(** 1970-01-01T00:00:00Z. *)
Definition unix_epoch : Z := days_of_civil 1970 1 1 * day.

(** ** Times of day *)

(** The package's readers take a prefix of the text and give back the rest.
    One digit is enough unless the layout has a leading zero ([fixed]). *)
Definition getnum (fixed : bool) (s : list ascii) : option (Z * list ascii) :=
  match s with
  | a :: b :: rest =>
      match digit_val a, digit_val b with
      | Some x, Some y => Some (10 * x + y, rest)
      | Some x, None => if fixed then None else Some (x, b :: rest)
      | None, _ => None
      end
  | [a] => if fixed then None else (λ x, (x, [])) <$> digit_val a
  | [] => None
  end.

Definition lit (c : ascii) (s : list ascii) : option (list ascii) :=
  match s with a :: rest => if Ascii.eqb a c then Some rest else None | [] => None end.

Fixpoint cutspace (s : list ascii) : list ascii :=
  match s with a :: rest => if Ascii.eqb a " " then cutspace rest else s | [] => [] end.

(** A space of the layout stands for any number of them, but for none only at
    the end. *)
Definition skip_space (s : list ascii) : option (list ascii) :=
  match s with a :: _ => if Ascii.eqb a " " then Some (cutspace s) else None | [] => Some [] end.

Definition in_range (lo hi z : Z) : option unit := if (lo <=? z) && (z <=? hi) then Some tt else None.

Definition read_date (s : list ascii) : option (Z * list ascii) :=
  match s with
  | y1 :: y2 :: y3 :: y4 :: s =>
      yh ← digits2 y1 y2; yl ← digits2 y3 y4;
      s ← lit "-" s; '(m, s) ← getnum true s; s ← lit "-" s; '(d, s) ← getnum true s;
      if valid_date (100 * yh + yl) m d then Some (days_of_civil (100 * yh + yl) m d, s) else None
  | _ => None
  end.

(** The digits of a fraction; the first nine count. *)
Fixpoint read_fraction (weight : Z) (s : list ascii) : Z * list ascii :=
  match s with
  | a :: rest =>
      match digit_val a with
      | Some x => let '(n, r) := read_fraction (weight / 10) rest in (weight * x + n, r)
      | None => (0, s)
      end
  | [] => (0, [])
  end.

(** A fraction may follow the seconds though the layout has none. *)
Definition fraction (s : list ascii) : Z * list ascii :=
  match s with
  | a :: b :: rest =>
      if (Ascii.eqb a "." || Ascii.eqb a ",") && bool_decide (is_Some (digit_val b))
      then read_fraction 100000000 (b :: rest) else (0, s)
  | _ => (0, s)
  end.

(** Seconds and nanoseconds. *)
Definition read_clock (s : list ascii) : option (Z * Z * list ascii) :=
  '(h, s) ← getnum false s; s ← lit ":" s; '(m, s) ← getnum true s; s ← lit ":" s; '(c, s) ← getnum true s;
  _ ← in_range 0 23 h; _ ← in_range 0 59 m; _ ← in_range 0 59 c;
  let '(ns, s) := fraction s in Some (3600 * h + 60 * m + c, ns, s).

(** Seconds east of UTC; 24 hours and 60 minutes are let through. *)
Definition read_zone (s : list ascii) : option (Z * list ascii) :=
  match s with
  | a :: rest =>
      if Ascii.eqb a "Z" then Some (0, rest)
      else
      '(h, s) ← getnum true rest; s ← lit ":" s; '(m, s) ← getnum true s;
      _ ← in_range 0 24 h; _ ← in_range 0 60 m;
      if Ascii.eqb a "+" then Some (3600 * h + 60 * m, s)
      else if Ascii.eqb a "-" then Some (- (3600 * h + 60 * m), s) else None
  | [] => None
  end.

Definition at_end {A} (a : A) (s : list ascii) : option A := match s with [] => Some a | _ => None end.

(** The instant, and the nanoseconds beyond it. *)
Definition parse_rfc3339 (s : string) : option (Z * Z) :=
  '(n, s) ← read_date (String.list_ascii_of_string s); s ← lit "T" s;
  '(secs, ns, s) ← read_clock s; '(zone, s) ← read_zone s;
  at_end (n * day + secs - zone, ns) s.

(** A wall-clock reading, in seconds as if it were UTC. *)
Definition parse_datetime (s : string) : option Z :=
  '(n, s) ← read_date (String.list_ascii_of_string s); s ← skip_space s;
  '(secs, _, s) ← read_clock s; at_end (n * day + secs) s.

Definition show_date (n : Z) : list ascii :=
  let '(y, m, d) := civil_of_days n in
  ((two (y / 100) ++ two (y mod 100)) ++ "-"%char :: two m ++ "-"%char :: two d)%list.

Definition show_clock (secs : Z) : list ascii :=
  (two (secs / 3600) ++ ":"%char :: two (secs / 60 mod 60) ++ ":"%char :: two (secs mod 60))%list.

Definition show_zone (offset : Z) : list ascii :=
  if decide (offset = 0) then ["Z"%char]
  else (if offset <? 0 then "-"%char else "+"%char) ::
       (two (Z.abs offset / 3600) ++ ":"%char :: two (Z.abs offset / 60 mod 60))%list.

(** The instant [t] in a zone [offset] seconds east. *)
Definition format_rfc3339 (offset t : Z) : string :=
  String.string_of_list_ascii
    (show_date ((t + offset) / day) ++ "T"%char :: show_clock ((t + offset) mod day) ++ show_zone offset)%list.

Example parse_rfc3339_zone : parse_rfc3339 "2026-09-05T06:30:00.25+07:00" = Some (days_of_civil 2026 9 4 * day + 84600, 250000000).
Proof. vm_compute. reflexivity. Qed.
Example parse_rfc3339_lenient : parse_rfc3339 "2026-09-05T6:30:00,5Z" = Some (days_of_civil 2026 9 5 * day + 23400, 500000000).
Proof. vm_compute. reflexivity. Qed.
Example parse_rfc3339_date : parse_rfc3339 "2026-09-05" = None.
Proof. vm_compute. reflexivity. Qed.
Example parse_datetime_spaces : parse_datetime "2026-09-05   06:30:00" = Some (days_of_civil 2026 9 5 * day + 23400).
Proof. vm_compute. reflexivity. Qed.

(** ** Times read back *)

Lemma getnum_two fixed z rest : 0 ≤ z ≤ 99 → getnum fixed (two z ++ rest)%list = Some (z, rest).
Proof.
  intros Hz. unfold two. cbn [app getnum].
  rewrite (digit_val_char (z / 10)) by (Z.to_euclidean_division_equations; lia).
  rewrite (digit_val_char (z mod 10)) by (Z.to_euclidean_division_equations; lia).
  do 2 f_equal. Z.to_euclidean_division_equations; lia.
Qed.

Lemma lit_same c rest : lit c (c :: rest) = Some rest.
Proof. unfold lit. by rewrite Ascii.eqb_refl. Qed.

Lemma next_year y : days_before_year (y + 1) = days_before_year y + (if is_leap y then 366 else 365).
Proof.
  unfold days_before_year. destruct (is_leap y) eqn:E;
    [apply is_leap_spec in E|apply not_true_iff_false in E; rewrite is_leap_spec in E];
    Z.to_euclidean_division_equations; lia.
Qed.

(** A date lies in its year. *)
Lemma date_in_year y m d :
  valid_date y m d = true → days_before_year y ≤ days_of_civil y m d < days_before_year (y + 1).
Proof.
  unfold valid_date. rewrite !andb_true_iff, !Z.leb_le. intros Hv.
  destruct (days_of_year y m d ltac:(lia) ltac:(lia)) as [Hk Hl].
  unfold days_of_civil. split; [lia|]. rewrite next_year. destruct (is_leap y); [lia|].
  destruct (decide (days_before_month y (Z.to_nat (m - 1)) + (d - 1) = 365)) as [E|]; [by specialize (Hl E)|lia].
Qed.

(** The days of the years 0 to 9999. *)
Definition four_digits (n : Z) : Prop := days_before_year 0 ≤ n < days_before_year 10000.

Lemma four_digits_civil n :
  four_digits n → ∃ y m d, civil_of_days n = (y, m, d) ∧ valid_date y m d = true ∧ days_of_civil y m d = n ∧
    0 ≤ y ≤ 9999.
Proof.
  intros [Hlo Hhi]. destruct (civil_of_days_correct n) as (y & m & d & Hc & Hv & Hd).
  exists y, m, d. split_and!; try done.
  all: pose proof (date_in_year y m d Hv) as Hn; rewrite Hd in Hn;
    unfold days_before_year in *; Z.to_euclidean_division_equations; lia.
Qed.

Lemma read_show_date n rest : four_digits n → read_date (show_date n ++ rest)%list = Some (n, rest).
Proof.
  intros Hn. destruct (four_digits_civil n Hn) as (y & m & d & Hc & Hv & Hd & Hy).
  pose proof Hv as Hb. unfold valid_date in Hb. rewrite !andb_true_iff, !Z.leb_le in Hb.
  pose proof (days_in_month_bounds y m). unfold show_date. rewrite Hc, <- !app_assoc. cbn [app].
  pose proof (digits2_two (y / 100) ltac:(Z.to_euclidean_division_equations; lia)) as H1.
  pose proof (digits2_two (y mod 100) ltac:(Z.to_euclidean_division_equations; lia)) as H2.
  unfold two in H1, H2. unfold two at 1 2. cbn [app read_date]. rewrite H1, H2. cbn [mbind option_bind].
  rewrite lit_same. cbn [mbind option_bind]. rewrite <- app_assoc, getnum_two by lia. cbn [mbind option_bind app].
  rewrite lit_same. cbn [mbind option_bind]. rewrite getnum_two by lia. cbn [mbind option_bind].
  replace (100 * (y / 100) + y mod 100) with y by (Z.to_euclidean_division_equations; lia).
  by rewrite Hv, Hd.
Qed.

(** What may follow the seconds. *)
Definition no_fraction (rest : list ascii) : Prop := fraction rest = (0, rest).

Lemma read_show_clock secs rest :
  0 ≤ secs < day → no_fraction rest → read_clock (show_clock secs ++ rest)%list = Some (secs, 0, rest).
Proof.
  unfold day. intros Hs Hf. unfold show_clock, read_clock. rewrite <- app_assoc.
  rewrite getnum_two by (Z.to_euclidean_division_equations; lia). cbn [mbind option_bind app].
  rewrite lit_same. cbn [mbind option_bind]. rewrite <- app_assoc.
  rewrite getnum_two by (Z.to_euclidean_division_equations; lia). cbn [mbind option_bind app].
  rewrite lit_same. cbn [mbind option_bind].
  rewrite getnum_two by (Z.to_euclidean_division_equations; lia). cbn [mbind option_bind].
  assert (∀ lo hi z, lo ≤ z ≤ hi → in_range lo hi z = Some tt) as Hr.
  { intros lo hi z Hz. unfold in_range. by rewrite !(proj2 (Z.leb_le _ _)) by lia. }
  rewrite !Hr by (Z.to_euclidean_division_equations; lia). cbn [mbind option_bind]. rewrite Hf.
  do 3 f_equal. Z.to_euclidean_division_equations; lia.
Qed.

Lemma read_show_zone offset :
  offset mod 60 = 0 → Z.abs offset < day →
  read_zone (show_zone offset) = Some (offset, []) ∧ no_fraction (show_zone offset).
Proof.
  unfold day. intros Hm Ho. unfold show_zone. case_decide as Hz; [by subst|].
  assert (0 ≤ Z.abs offset / 3600 ≤ 23) as Hh by (Z.to_euclidean_division_equations; lia).
  assert (0 ≤ Z.abs offset / 60 mod 60 ≤ 59) as Hmin by (Z.to_euclidean_division_equations; lia).
  assert (3600 * (Z.abs offset / 3600) + 60 * (Z.abs offset / 60 mod 60) = Z.abs offset) as Hsum
    by (Z.to_euclidean_division_equations; lia).
  assert (∀ lo hi z, lo ≤ z ≤ hi → in_range lo hi z = Some tt) as Hr.
  { intros lo hi z Hb. unfold in_range. by rewrite !(proj2 (Z.leb_le _ _)) by lia. }
  assert (∀ c, Ascii.eqb c "Z" = false → read_zone (c :: (two (Z.abs offset / 3600) ++ ":"%char :: two (Z.abs offset / 60 mod 60)))%list
    = if Ascii.eqb c "+" then Some (Z.abs offset, []) else if Ascii.eqb c "-" then Some (- Z.abs offset, []) else None) as Hread.
  { intros c Hc. cbn [read_zone]. rewrite Hc. rewrite getnum_two by lia. cbn [mbind option_bind].
    rewrite lit_same. cbn [mbind option_bind]. rewrite <- (app_nil_r (two (Z.abs offset / 60 mod 60))).
    rewrite getnum_two by lia. cbn [mbind option_bind]. rewrite !Hr by lia. cbn [mbind option_bind]. by rewrite Hsum. }
  destruct (offset <? 0) eqn:E.
  - apply Z.ltb_lt in E. split; [|done]. rewrite Hread by done. cbn. do 2 f_equal. lia.
  - apply Z.ltb_ge in E. split; [|done]. rewrite Hread by done. cbn. do 2 f_equal. lia.
Qed.

(** An instant printed in a zone of whole minutes is read back. *)
Lemma parse_format_rfc3339 offset t :
  offset mod 60 = 0 → Z.abs offset < day → four_digits ((t + offset) / day) →
  parse_rfc3339 (format_rfc3339 offset t) = Some (t, 0).
Proof.
  intros Hm Ho Hy. destruct (read_show_zone offset Hm Ho) as [Hz Hf].
  unfold parse_rfc3339, format_rfc3339. rewrite list_ascii_of_string_of_list.
  rewrite read_show_date by done. cbn [mbind option_bind]. rewrite lit_same. cbn [mbind option_bind].
  rewrite read_show_clock; [|apply Z.mod_pos_bound; done|done]. cbn [mbind option_bind]. rewrite Hz.
  cbn [mbind option_bind at_end]. do 2 f_equal. unfold day. Z.to_euclidean_division_equations; lia.
Qed.

Lemma format_rfc3339_nonempty offset t : format_rfc3339 offset t ≠ "".
Proof. unfold format_rfc3339, show_date. by destruct (civil_of_days _) as [[??]?]. Qed.
