(* ===== verification/LmsDate.v ===== *)
(** * Calendar dates (server/public/utils/types.go)

    A [time.Time] is the number of seconds since 0001-01-01T00:00:00Z, Go's
    zero time; a [VnTime] is such an instant that stands for a calendar date.
    Calendar, parsing and formatting are those of [GoTime]. *)

From Stdlib Require Import Ascii.
From S2P Require Import Prelude.
From S2P Require Import GoString.
From S2P Require Import GoTime.

Local Open Scope string_scope.
Local Open Scope Z_scope.

(** ** VnTime *)

(** Asia/Bangkok, UTC+7 since 1920. *)
Definition vnOffset : Z := 7 * 3600.

(** UTC midnight of the calendar date [t] has in a zone [offset] seconds east. *)
Definition utcMidnight (offset t : Z) : Z := (t + offset) / day * day.

Definition is_midnight (t : Z) : Prop := t mod day = 0.

Lemma utcMidnight_midnight o t : is_midnight (utcMidnight o t).
Proof. unfold is_midnight, utcMidnight. apply Z_mod_mult. Qed.

Definition unquote (s : string) : string :=
  match String.list_ascii_of_string s with
  | q :: rest =>
      match reverse rest with
      | q' :: inner => if Ascii.eqb q (chr 34) && Ascii.eqb q' (chr 34)
                       then String.string_of_list_ascii (reverse inner) else s
      | [] => s
      end
  | [] => s
  end.

Definition quote (s : string) : string := (String (chr 34) s ++ String (chr 34) "")%string.

(** [None] is the error. *)
Definition VnTime_UnmarshalJSON (json : string) : option Z :=
  let s := unquote json in
  if decide (s = "" ∨ s = "null") then Some 0
  else match parse_date s with
       | Some n => Some (utcMidnight 0 (n * day))
       | None =>
           match parse_rfc3339 s with
           | Some (t, _) => Some (utcMidnight vnOffset t)
           | None =>
               match parse_datetime s with
               | Some wall => Some (utcMidnight vnOffset (wall - vnOffset))
               | None => None
               end
           end
       end.

Definition VnTime_MarshalJSON (t : Z) : string :=
  if decide (t = 0) then quote "" else quote (format_date (t / day)).

(** The driver's value: the instant itself, in UTC. *)
Definition VnTime_Value (t : Z) : Z := t.

Inductive dbValue := DbNil | DbTime (t : Z) | DbText (s : string) | DbOther.

Definition scanString (v : string) : option Z :=
  match (if decide (10 ≤ String.length v)%nat then parse_date (String.substring 0 10 v) else None) with
  | Some n => Some (utcMidnight 0 (n * day))
  | None =>
      match parse_datetime v with
      | Some t => Some (utcMidnight 0 t)
      | None => (λ p : Z * Z, utcMidnight vnOffset p.1) <$> parse_rfc3339 v
      end
  end.

Definition VnTime_Scan (v : dbValue) : option Z :=
  match v with
  | DbNil => Some 0
  | DbTime t => Some (utcMidnight 0 t)
  | DbText s => scanString s
  | DbOther => None
  end.

(** NullVnTime: [None] is the invalid value. *)
Definition of_zero (t : Z) : option Z := if decide (t = 0) then None else Some t.

Definition NewNullVnTime (dateStr : string) : option (option Z) :=
  if decide (dateStr = "") then Some None else of_zero <$> VnTime_UnmarshalJSON (quote dateStr).

Definition NullVnTime_MarshalJSON (n : option Z) : string :=
  match n with None => "null" | Some t => VnTime_MarshalJSON t end.

Definition NullVnTime_UnmarshalJSON (json : string) : option (option Z) :=
  if decide (json = quote "" ∨ json = "null") then Some None
  else of_zero <$> VnTime_UnmarshalJSON json.

Definition NullVnTime_Value (n : option Z) : dbValue :=
  match n with None => DbNil | Some t => DbTime (VnTime_Value t) end.

Definition NullVnTime_Scan (v : dbValue) : option (option Z) :=
  match v with DbNil => Some None | _ => of_zero <$> VnTime_Scan v end.

(** ** Theorems *)

Lemma list_reverse_snoc {A} (l : list A) x : reverse (l ++ [x])%list = x :: reverse l.
Proof. by rewrite reverse_app. Qed.

Lemma list_ascii_app a b :
  String.list_ascii_of_string (a ++ b)%string =
    (String.list_ascii_of_string a ++ String.list_ascii_of_string b)%list.
Proof. induction a as [|x a IH]; simpl; [done|]. by rewrite IH. Qed.

Lemma unquote_quote s : unquote (quote s) = s.
Proof.
  unfold unquote, quote.
  change (String (chr 34) s ++ String (chr 34) "")%string with (String (chr 34) (s ++ String (chr 34) "")%string).
  cbn [String.list_ascii_of_string]. rewrite list_ascii_app. cbn [String.list_ascii_of_string].
  rewrite list_reverse_snoc. rewrite Ascii.eqb_refl. cbn [andb].
  rewrite reverse_involutive. induction s as [|c s IH]; simpl; [done|]. by rewrite IH.
Qed.

(** C37: a calendar date survives the wire and the database.  For every date of
    the years 0 to 9999, the JSON a VnTime marshals to is read back as the
    same VnTime, the value it writes to a DATE column scans back to it, and
    both readings are UTC midnights. *)
Theorem VnTime_roundtrip y m d :
  0 ≤ y ≤ 9999 → valid_date y m d = true →
  let t := days_of_civil y m d * day in
  VnTime_UnmarshalJSON (VnTime_MarshalJSON t) = Some t ∧
  VnTime_Scan (DbTime (VnTime_Value t)) = Some t ∧ is_midnight t.
Proof.
  intros Hy Hv t. assert (utcMidnight 0 t = t) as Hmid.
  { unfold utcMidnight, t. rewrite Z.add_0_r, Z.div_mul by done. done. }
  split_and!; [|by unfold VnTime_Scan, VnTime_Value; rewrite Hmid|by rewrite <-Hmid; apply utcMidnight_midnight].
  unfold VnTime_MarshalJSON, VnTime_UnmarshalJSON. destruct (decide (t = 0)) as [->|Hz]; [done|].
  rewrite unquote_quote.
  assert (t / day = days_of_civil y m d) as -> by (unfold t, day; by rewrite Z.div_mul).
  rewrite decide_False; [rewrite parse_format by done; by f_equal|].
  pose proof (format_length (days_of_civil y m d)) as Hl.
  intros [Heq|Heq]; rewrite Heq in Hl; simpl in Hl; lia.
Qed.

(** Whatever text form a client sends and whatever the driver delivers,
    an accepted VnTime is the UTC midnight of a date; a full timestamp is
    filed under the date it falls on in Vietnam, one day later than in UTC
    from 17:00 UTC on. *)
Theorem VnTime_always_midnight :
  (∀ json t, VnTime_UnmarshalJSON json = Some t → is_midnight t) ∧
  (∀ v t, VnTime_Scan v = Some t → is_midnight t) ∧
  (∀ n secs, 0 ≤ secs < day →
     utcMidnight vnOffset (n * day + secs) =
       (if decide (secs < day - vnOffset) then n else n + 1) * day).
Proof.
  split_and!.
  - unfold VnTime_UnmarshalJSON. intros json t. repeat case_match; intros Heq; simplify_eq;
      first [done|apply utcMidnight_midnight].
  - intros [|t0|s|] t; simpl; intros Heq; simplify_eq; [done|apply utcMidnight_midnight|].
    unfold scanString in Heq. destruct (if decide _ then _ else _) as [n|];
      [|destruct (parse_datetime s); [|destruct (parse_rfc3339 s)]];
      simplify_eq/=; apply utcMidnight_midnight.
  - intros n secs Hs. unfold utcMidnight, vnOffset, day in *.
    case_decide; f_equal; Z.to_euclidean_division_equations; lia.
Qed.

Lemma VnTime_roundtrip_witness :
  VnTime_UnmarshalJSON (VnTime_MarshalJSON (days_of_civil 2026 9 5 * day)) =
    Some (days_of_civil 2026 9 5 * day).
Proof. apply (VnTime_roundtrip 2026 9 5); [lia|reflexivity]. Defined.

Example wire_form : VnTime_MarshalJSON (days_of_civil 2024 2 29 * day) = quote "2024-02-29".
Proof. vm_compute. reflexivity. Qed.
