(* ===== verification/LmsModel.v ===== *)
(** * Rows of the learning system (server/public/model_helper/lms.go)

    Per table: the row, field by field as the generated struct has it (a
    nullable column is an [option], a date or an integer a [Z], an amount of
    money a value of the decimal type [D]), its validation, the defaults set
    before an insert and the stamp set before an update.  A validation
    failure is the id of its AppError, always with status 400.

    [X_columns] lists the free-text columns of the table with their VARCHAR
    limits, from the migrations 000153 and 000154.  Go's [len] counts bytes,
    VARCHAR counts characters. *)

From S2P Require Import Prelude.
From S2P Require Import GoString.
From S2P Require Import GoUtf8.
From S2P Require Import GoTime.
From S2P Require Import LmsDate.

Local Open Scope string_scope.

(** ** Checks *)

(** [if c1 { return e1 }; if c2 { return e2 }; ...; return nil]. *)
Fixpoint first_error (l : list (bool * string)) : option string :=
  match l with
  | [] => None
  | (bad, e) :: l' => if bad : bool then Some e else first_error l'
  end.

Definition empty (s : string) : bool := bool_decide (s = "").
Definition longer (n : nat) (s : string) : bool := bool_decide (n < String.length s)%nat.
Definition opt_longer (n : nat) (s : option string) : bool :=
  match s with Some s => longer n s | None => false end.
Definition is_zero (t : Z) : bool := bool_decide (t = 0%Z).
Definition if_empty (s dflt : string) : string := if decide (s = "") then dflt else s.

(** A clock reading (Unix milliseconds) as a [time.Time] truncated to seconds. *)
Definition unix_ms (now : Z) : Z := (now / 1000 + 62135596800)%Z.

Definition ClassStatusOpen := "OPEN".
Definition ClassStatusClosed := "CLOSED".
Definition ClassStatusPaused := "PAUSED".
Definition ClassStatusActive := "ACTIVE".
Definition ClassStatusCompleted := "COMPLETED".

Definition ClassStatus_IsValid (c : string) : bool :=
  bool_decide (c ∈ [ClassStatusOpen; ClassStatusClosed; ClassStatusPaused; ClassStatusActive;
                    ClassStatusCompleted]).

Definition UserGender_IsValid (g : string) : bool := bool_decide (g ∈ ["male"; "female"]).
Definition StudentStatus_IsValid (s : string) : bool :=
  bool_decide (s ∈ ["ACTIVE"; "RESERVED"; "DROPPED"; "PENDING"]).

Section rows.
Context `{UnicodeTables} {D : Type}.

Definition bad_id (s : string) : bool := negb (empty s) && negb (IsValidId s).

(** ** The tables *)

(** *** Branch *)

Record Branch := {
  Branch_ID : string; Branch_Name : string; Branch_Address : option string;
  Branch_Phone : option string; Branch_Createat : Z; Branch_Updateat : Z;
}.

Definition BranchIsValid (b : Branch) : option string :=
  first_error [
    (bad_id (Branch_ID b), "model.lms.branch.id.app_error");
    (empty (Branch_Name b), "model.lms.branch.name.app_error");
    (longer 100 (Branch_Name b), "model.lms.branch.name.len.app_error");
    (opt_longer 200 (Branch_Address b), "model.lms.branch.address.len.app_error");
    (opt_longer 13 (Branch_Phone b), "model.lms.branch.phone.len.app_error")].

Definition BranchPreCreate (newId : string) (now : Z) (b : Branch) : Branch :=
  {| Branch_ID := if_empty (Branch_ID b) newId;
     Branch_Name := Branch_Name b;
     Branch_Address := Branch_Address b;
     Branch_Phone := Branch_Phone b;
     Branch_Createat := now;
     Branch_Updateat := now |}.

Definition BranchPreUpdate (now : Z) (b : Branch) : Branch :=
  {| Branch_ID := Branch_ID b;
     Branch_Name := Branch_Name b;
     Branch_Address := Branch_Address b;
     Branch_Phone := Branch_Phone b;
     Branch_Createat := Branch_Createat b;
     Branch_Updateat := now |}.

Definition Branch_columns (b : Branch) : list (string * nat) :=
  [(Branch_Name b, 100);
   (default "" (Branch_Address b), 200);
   (default "" (Branch_Phone b), 13)].

(** *** Course *)

Record Course := {
  Course_ID : string; Course_Name : string; Course_Code : string; Course_Level : option string;
  Course_AgeRange : option string; Course_TotalSessions : Z; Course_DurationPerSession : Z;
  Course_Fee : option D; Course_Description : option string; Course_Curriculum : option string;
  Course_Createat : Z; Course_Updateat : Z;
}.

Definition CourseIsValid (c : Course) : option string :=
  first_error [
    (bad_id (Course_ID c), "model.lms.course.id.app_error");
    (empty (Course_Code c), "model.lms.course.code.app_error");
    (longer 100 (Course_Code c), "model.lms.course.code.len.app_error");
    (empty (Course_Name c), "model.lms.course.name.app_error");
    (longer 100 (Course_Name c), "model.lms.course.name.len.app_error");
    (opt_longer 100 (Course_Level c), "model.lms.course.level.len.app_error");
    (opt_longer 100 (Course_AgeRange c), "model.lms.course.age_range.len.app_error");
    (opt_longer 500 (Course_Description c), "model.lms.course.description.len.app_error");
    (opt_longer 1000 (Course_Curriculum c), "model.lms.course.curriculum.len.app_error")].

Definition CoursePreCreate (newId : string) (now : Z) (c : Course) : Course :=
  {| Course_ID := if_empty (Course_ID c) newId;
     Course_Name := Course_Name c;
     Course_Code := Course_Code c;
     Course_Level := Course_Level c;
     Course_AgeRange := Course_AgeRange c;
     Course_TotalSessions := Course_TotalSessions c;
     Course_DurationPerSession := Course_DurationPerSession c;
     Course_Fee := Course_Fee c;
     Course_Description := Course_Description c;
     Course_Curriculum := Course_Curriculum c;
     Course_Createat := now;
     Course_Updateat := now |}.

Definition CoursePreUpdate (now : Z) (c : Course) : Course :=
  {| Course_ID := Course_ID c;
     Course_Name := Course_Name c;
     Course_Code := Course_Code c;
     Course_Level := Course_Level c;
     Course_AgeRange := Course_AgeRange c;
     Course_TotalSessions := Course_TotalSessions c;
     Course_DurationPerSession := Course_DurationPerSession c;
     Course_Fee := Course_Fee c;
     Course_Description := Course_Description c;
     Course_Curriculum := Course_Curriculum c;
     Course_Createat := Course_Createat c;
     Course_Updateat := now |}.

Definition Course_columns (c : Course) : list (string * nat) :=
  [(Course_Name c, 100);
   (Course_Code c, 100);
   (default "" (Course_Level c), 100);
   (default "" (Course_AgeRange c), 100);
   (default "" (Course_Description c), 500);
   (default "" (Course_Curriculum c), 1000)].

(** *** CourseLesson *)

Record CourseLesson := {
  CourseLesson_ID : string; CourseLesson_CourseID : string; CourseLesson_SessionNumber : Z;
  CourseLesson_Title : option string; CourseLesson_Unit : option string;
  CourseLesson_Pages : option string; CourseLesson_Objectives : option string;
  CourseLesson_Createat : Z; CourseLesson_Updateat : Z;
}.

Definition CourseLessonIsValid (cl : CourseLesson) : option string :=
  first_error [
    (bad_id (CourseLesson_ID cl), "model.lms.course_lesson.id.app_error");
    (empty (CourseLesson_CourseID cl), "model.lms.course_lesson.course_id.app_error");
    (opt_longer 200 (CourseLesson_Title cl), "model.lms.course_lesson.title.len.app_error");
    (opt_longer 100 (CourseLesson_Unit cl), "model.lms.course_lesson.unit.len.app_error");
    (opt_longer 100 (CourseLesson_Pages cl), "model.lms.course_lesson.pages.len.app_error");
    (opt_longer 500 (CourseLesson_Objectives cl), "model.lms.course_lesson.objectives.len.app_error")].

Definition CourseLessonPreCreate (newId : string) (now : Z) (cl : CourseLesson) : CourseLesson :=
  {| CourseLesson_ID := if_empty (CourseLesson_ID cl) newId;
     CourseLesson_CourseID := CourseLesson_CourseID cl;
     CourseLesson_SessionNumber := CourseLesson_SessionNumber cl;
     CourseLesson_Title := CourseLesson_Title cl;
     CourseLesson_Unit := CourseLesson_Unit cl;
     CourseLesson_Pages := CourseLesson_Pages cl;
     CourseLesson_Objectives := CourseLesson_Objectives cl;
     CourseLesson_Createat := now;
     CourseLesson_Updateat := now |}.

Definition CourseLessonPreUpdate (now : Z) (cl : CourseLesson) : CourseLesson :=
  {| CourseLesson_ID := CourseLesson_ID cl;
     CourseLesson_CourseID := CourseLesson_CourseID cl;
     CourseLesson_SessionNumber := CourseLesson_SessionNumber cl;
     CourseLesson_Title := CourseLesson_Title cl;
     CourseLesson_Unit := CourseLesson_Unit cl;
     CourseLesson_Pages := CourseLesson_Pages cl;
     CourseLesson_Objectives := CourseLesson_Objectives cl;
     CourseLesson_Createat := CourseLesson_Createat cl;
     CourseLesson_Updateat := now |}.

Definition CourseLesson_columns (cl : CourseLesson) : list (string * nat) :=
  [(default "" (CourseLesson_Title cl), 200);
   (default "" (CourseLesson_Unit cl), 100);
   (default "" (CourseLesson_Pages cl), 100);
   (default "" (CourseLesson_Objectives cl), 500)].

(** *** Class *)

Record Class := {
  Class_ID : string; Class_CourseID : string; Class_BranchID : string; Class_Name : string;
  Class_Code : string; Class_TeacherID : string; Class_Status : string;
  Class_Room : option string; Class_StartDate : Z; Class_EndDate : option Z;
  Class_Createat : Z; Class_Updateat : Z; Class_ChatChannelID : string;
}.

Definition ClassIsValid (c : Class) : option string :=
  first_error [
    (bad_id (Class_ID c), "model.lms.class.id.app_error");
    (empty (Class_Code c), "model.lms.class.code.app_error");
    (longer 100 (Class_Code c), "model.lms.class.code.len.app_error");
    (empty (Class_Name c), "model.lms.class.name.app_error");
    (longer 100 (Class_Name c), "model.lms.class.name.len.app_error");
    (negb (IsValidId (Class_CourseID c)), "model.lms.class.course_id.app_error");
    (negb (IsValidId (Class_TeacherID c)), "model.lms.class.teacher_id.app_error");
    (bad_id (Class_BranchID c), "model.lms.class.branch_id.app_error");
    (negb (ClassStatus_IsValid (Class_Status c)), "model.lms.class.status.len.app_error");
    (opt_longer 100 (Class_Room c), "model.lms.class.room.len.app_error")].

Definition ClassPreCreate (newId : string) (now : Z) (c : Class) : Class :=
  {| Class_ID := if_empty (Class_ID c) newId;
     Class_CourseID := Class_CourseID c;
     Class_BranchID := Class_BranchID c;
     Class_Name := Class_Name c;
     Class_Code := Class_Code c;
     Class_TeacherID := Class_TeacherID c;
     Class_Status := if_empty (Class_Status c) "OPEN";
     Class_Room := Class_Room c;
     Class_StartDate := Class_StartDate c;
     Class_EndDate := Class_EndDate c;
     Class_Createat := now;
     Class_Updateat := now;
     Class_ChatChannelID := Class_ChatChannelID c |}.

Definition ClassPreUpdate (now : Z) (c : Class) : Class :=
  {| Class_ID := Class_ID c;
     Class_CourseID := Class_CourseID c;
     Class_BranchID := Class_BranchID c;
     Class_Name := Class_Name c;
     Class_Code := Class_Code c;
     Class_TeacherID := Class_TeacherID c;
     Class_Status := Class_Status c;
     Class_Room := Class_Room c;
     Class_StartDate := Class_StartDate c;
     Class_EndDate := Class_EndDate c;
     Class_Createat := Class_Createat c;
     Class_Updateat := now;
     Class_ChatChannelID := Class_ChatChannelID c |}.

Definition Class_columns (c : Class) : list (string * nat) :=
  [(Class_Name c, 100);
   (Class_Code c, 100);
   (Class_Status c, 50);
   (default "" (Class_Room c), 100)].

(** *** StudentClass *)

Record StudentClass := {
  StudentClass_ID : string; StudentClass_StudentID : string; StudentClass_ClassID : string;
  StudentClass_EnrollmentAt : Z; StudentClass_Status : string; StudentClass_Createat : Z;
  StudentClass_Updateat : Z;
}.

Definition StudentClassIsValid (sc : StudentClass) : option string :=
  first_error [
    (bad_id (StudentClass_ID sc), "model.lms.student_class.id.app_error");
    (empty (StudentClass_StudentID sc), "model.lms.student_class.student_id.app_error");
    (empty (StudentClass_ClassID sc), "model.lms.student_class.class_id.app_error");
    (longer 50 (StudentClass_Status sc), "model.lms.student_class.status.len.app_error")].

Definition StudentClassPreCreate (newId : string) (now0 now : Z) (sc : StudentClass) : StudentClass :=
  {| StudentClass_ID := if_empty (StudentClass_ID sc) newId;
     StudentClass_StudentID := StudentClass_StudentID sc;
     StudentClass_ClassID := StudentClass_ClassID sc;
     StudentClass_EnrollmentAt := now0;
     StudentClass_Status := if_empty (StudentClass_Status sc) "ACTIVE";
     StudentClass_Createat := now;
     StudentClass_Updateat := now |}.

Definition StudentClassPreUpdate (now : Z) (sc : StudentClass) : StudentClass :=
  {| StudentClass_ID := StudentClass_ID sc;
     StudentClass_StudentID := StudentClass_StudentID sc;
     StudentClass_ClassID := StudentClass_ClassID sc;
     StudentClass_EnrollmentAt := StudentClass_EnrollmentAt sc;
     StudentClass_Status := StudentClass_Status sc;
     StudentClass_Createat := StudentClass_Createat sc;
     StudentClass_Updateat := now |}.

Definition StudentClass_columns (sc : StudentClass) : list (string * nat) :=
  [(StudentClass_Status sc, 50)].

(** *** LMSSession *)

Record LMSSession := {
  LMSSession_ID : string; LMSSession_Title : option string; LMSSession_ClassID : string;
  LMSSession_StartTime : Z; LMSSession_EndTime : Z; LMSSession_Room : option string;
  LMSSession_TeacherID : string; LMSSession_LessonID : string; LMSSession_Status : string;
  LMSSession_Date : Z; LMSSession_Createat : Z; LMSSession_Updateat : Z;
}.

Definition LMSSessionIsValid (s : LMSSession) : option string :=
  first_error [
    (bad_id (LMSSession_ID s), "model.lms.session.id.app_error");
    (empty (LMSSession_ClassID s), "model.lms.session.class_id.app_error");
    (empty (LMSSession_TeacherID s), "model.lms.session.teacher_id.app_error");
    (is_zero (LMSSession_Date s), "model.lms.session.date.app_error");
    (opt_longer 200 (LMSSession_Title s), "model.lms.session.title.len.app_error");
    (opt_longer 100 (LMSSession_Room s), "model.lms.session.room.len.app_error");
    (longer 50 (LMSSession_Status s), "model.lms.session.status.len.app_error")].

Definition LMSSessionPreCreate (newId : string) (now : Z) (s : LMSSession) : LMSSession :=
  {| LMSSession_ID := if_empty (LMSSession_ID s) newId;
     LMSSession_Title := LMSSession_Title s;
     LMSSession_ClassID := LMSSession_ClassID s;
     LMSSession_StartTime := LMSSession_StartTime s;
     LMSSession_EndTime := LMSSession_EndTime s;
     LMSSession_Room := LMSSession_Room s;
     LMSSession_TeacherID := LMSSession_TeacherID s;
     LMSSession_LessonID := LMSSession_LessonID s;
     LMSSession_Status := if_empty (LMSSession_Status s) "SCHEDULED";
     LMSSession_Date := LMSSession_Date s;
     LMSSession_Createat := now;
     LMSSession_Updateat := now |}.

Definition LMSSessionPreUpdate (now : Z) (s : LMSSession) : LMSSession :=
  {| LMSSession_ID := LMSSession_ID s;
     LMSSession_Title := LMSSession_Title s;
     LMSSession_ClassID := LMSSession_ClassID s;
     LMSSession_StartTime := LMSSession_StartTime s;
     LMSSession_EndTime := LMSSession_EndTime s;
     LMSSession_Room := LMSSession_Room s;
     LMSSession_TeacherID := LMSSession_TeacherID s;
     LMSSession_LessonID := LMSSession_LessonID s;
     LMSSession_Status := LMSSession_Status s;
     LMSSession_Date := LMSSession_Date s;
     LMSSession_Createat := LMSSession_Createat s;
     LMSSession_Updateat := now |}.

Definition LMSSession_columns (s : LMSSession) : list (string * nat) :=
  [(default "" (LMSSession_Title s), 200);
   (default "" (LMSSession_Room s), 100);
   (LMSSession_Status s, 50)].

(** *** Attendance *)

Record Attendance := {
  Attendance_ID : string; Attendance_SessionID : string; Attendance_StudentID : string;
  Attendance_Status : string; Attendance_Note : option string; Attendance_Locked : bool;
  Attendance_Createat : Z; Attendance_Updateat : Z;
}.

Definition AttendanceIsValid (a : Attendance) : option string :=
  first_error [
    (bad_id (Attendance_ID a), "model.lms.attendance.id.app_error");
    (empty (Attendance_SessionID a), "model.lms.attendance.session_id.app_error");
    (empty (Attendance_StudentID a), "model.lms.attendance.student_id.app_error");
    (empty (Attendance_Status a), "model.lms.attendance.status.app_error");
    (longer 50 (Attendance_Status a), "model.lms.attendance.status.len.app_error");
    (opt_longer 500 (Attendance_Note a), "model.lms.attendance.note.len.app_error")].

Definition AttendancePreCreate (newId : string) (now : Z) (a : Attendance) : Attendance :=
  {| Attendance_ID := if_empty (Attendance_ID a) newId;
     Attendance_SessionID := Attendance_SessionID a;
     Attendance_StudentID := Attendance_StudentID a;
     Attendance_Status := if_empty (Attendance_Status a) "PRESENT";
     Attendance_Note := Attendance_Note a;
     Attendance_Locked := Attendance_Locked a;
     Attendance_Createat := now;
     Attendance_Updateat := now |}.

Definition Attendance_columns (a : Attendance) : list (string * nat) :=
  [(Attendance_Status a, 50);
   (default "" (Attendance_Note a), 500)].

(** *** Lead *)

Record Lead := {
  Lead_ID : string; Lead_Name : string; Lead_Email : option string; Lead_Phone : option string;
  Lead_Age : option string; Lead_School : option string; Lead_Source : option string;
  Lead_Need : option string; Lead_Status : string; Lead_StudentID : option string;
  Lead_Notes : option string; Lead_TestDate : Z; Lead_TestResult : option string;
  Lead_TestScore : option Z; Lead_CounselorID : option string; Lead_Createat : Z;
  Lead_Updateat : Z;
}.

Definition LeadIsValid (l : Lead) : option string :=
  first_error [
    (bad_id (Lead_ID l), "model.lms.lead.id.app_error");
    (empty (Lead_Name l), "model.lms.lead.name.app_error");
    (longer 100 (Lead_Name l), "model.lms.lead.name.len.app_error");
    (opt_longer 13 (Lead_Phone l), "model.lms.lead.phone.len.app_error");
    (opt_longer 100 (Lead_Email l), "model.lms.lead.email.len.app_error");
    (opt_longer 100 (Lead_School l), "model.lms.lead.school.len.app_error");
    (opt_longer 100 (Lead_Source l), "model.lms.lead.source.len.app_error");
    (opt_longer 500 (Lead_Need l), "model.lms.lead.need.len.app_error");
    (longer 50 (Lead_Status l), "model.lms.lead.status.len.app_error");
    (opt_longer 500 (Lead_Notes l), "model.lms.lead.notes.len.app_error");
    (opt_longer 50 (Lead_TestResult l), "model.lms.lead.test_result.len.app_error")].

Definition LeadPreCreate (newId : string) (now : Z) (l : Lead) : Lead :=
  {| Lead_ID := if_empty (Lead_ID l) newId;
     Lead_Name := Lead_Name l;
     Lead_Email := Lead_Email l;
     Lead_Phone := Lead_Phone l;
     Lead_Age := Lead_Age l;
     Lead_School := Lead_School l;
     Lead_Source := Lead_Source l;
     Lead_Need := Lead_Need l;
     Lead_Status := if_empty (Lead_Status l) "NEW";
     Lead_StudentID := Lead_StudentID l;
     Lead_Notes := Lead_Notes l;
     Lead_TestDate := Lead_TestDate l;
     Lead_TestResult := Lead_TestResult l;
     Lead_TestScore := Lead_TestScore l;
     Lead_CounselorID := Lead_CounselorID l;
     Lead_Createat := now;
     Lead_Updateat := now |}.

Definition LeadPreUpdate (now : Z) (l : Lead) : Lead :=
  {| Lead_ID := Lead_ID l;
     Lead_Name := Lead_Name l;
     Lead_Email := Lead_Email l;
     Lead_Phone := Lead_Phone l;
     Lead_Age := Lead_Age l;
     Lead_School := Lead_School l;
     Lead_Source := Lead_Source l;
     Lead_Need := Lead_Need l;
     Lead_Status := Lead_Status l;
     Lead_StudentID := Lead_StudentID l;
     Lead_Notes := Lead_Notes l;
     Lead_TestDate := Lead_TestDate l;
     Lead_TestResult := Lead_TestResult l;
     Lead_TestScore := Lead_TestScore l;
     Lead_CounselorID := Lead_CounselorID l;
     Lead_Createat := Lead_Createat l;
     Lead_Updateat := now |}.

Definition Lead_columns (l : Lead) : list (string * nat) :=
  [(Lead_Name l, 100);
   (default "" (Lead_Email l), 100);
   (default "" (Lead_Phone l), 13);
   (default "" (Lead_Age l), 20);
   (default "" (Lead_School l), 100);
   (default "" (Lead_Source l), 100);
   (default "" (Lead_Need l), 500);
   (Lead_Status l, 50);
   (default "" (Lead_Notes l), 500);
   (default "" (Lead_TestResult l), 50)].

(** *** LeadActivity *)

Record LeadActivity := {
  LeadActivity_ID : string; LeadActivity_LeadID : string; LeadActivity_Type : string;
  LeadActivity_Content : option string; LeadActivity_NextFollowUp : Z;
  LeadActivity_Createat : Z; LeadActivity_Updateat : Z;
}.

Definition LeadActivityIsValid (la : LeadActivity) : option string :=
  first_error [
    (bad_id (LeadActivity_ID la), "model.lms.lead_activity.id.app_error");
    (empty (LeadActivity_LeadID la), "model.lms.lead_activity.lead_id.app_error");
    (empty (LeadActivity_Type la), "model.lms.lead_activity.type.app_error");
    (longer 50 (LeadActivity_Type la), "model.lms.lead_activity.type.len.app_error");
    (opt_longer 500 (LeadActivity_Content la), "model.lms.lead_activity.content.len.app_error")].

Definition LeadActivityPreCreate (newId : string) (now : Z) (la : LeadActivity) : LeadActivity :=
  {| LeadActivity_ID := if_empty (LeadActivity_ID la) newId;
     LeadActivity_LeadID := LeadActivity_LeadID la;
     LeadActivity_Type := LeadActivity_Type la;
     LeadActivity_Content := LeadActivity_Content la;
     LeadActivity_NextFollowUp := LeadActivity_NextFollowUp la;
     LeadActivity_Createat := now;
     LeadActivity_Updateat := now |}.

Definition LeadActivity_columns (la : LeadActivity) : list (string * nat) :=
  [(LeadActivity_Type la, 50);
   (default "" (LeadActivity_Content la), 500)].

(** *** FeePackage *)

Record FeePackage := {
  FeePackage_ID : string; FeePackage_Name : string; FeePackage_TotalFee : D;
  FeePackage_CourseID : string; FeePackage_SessionsIncluded : Z;
  FeePackage_DiscountPercent : option D; FeePackage_IsActive : bool; FeePackage_Createat : Z;
  FeePackage_Updateat : Z;
}.

Definition FeePackageIsValid (fp : FeePackage) : option string :=
  first_error [
    (bad_id (FeePackage_ID fp), "model.lms.fee_package.id.app_error");
    (empty (FeePackage_Name fp), "model.lms.fee_package.name.app_error");
    (longer 100 (FeePackage_Name fp), "model.lms.fee_package.name.len.app_error");
    (empty (FeePackage_CourseID fp), "model.lms.fee_package.course_id.app_error")].

Definition FeePackagePreCreate (newId : string) (now : Z) (fp : FeePackage) : FeePackage :=
  {| FeePackage_ID := if_empty (FeePackage_ID fp) newId;
     FeePackage_Name := FeePackage_Name fp;
     FeePackage_TotalFee := FeePackage_TotalFee fp;
     FeePackage_CourseID := FeePackage_CourseID fp;
     FeePackage_SessionsIncluded := FeePackage_SessionsIncluded fp;
     FeePackage_DiscountPercent := FeePackage_DiscountPercent fp;
     FeePackage_IsActive := FeePackage_IsActive fp;
     FeePackage_Createat := now;
     FeePackage_Updateat := now |}.

Definition FeePackagePreUpdate (now : Z) (fp : FeePackage) : FeePackage :=
  {| FeePackage_ID := FeePackage_ID fp;
     FeePackage_Name := FeePackage_Name fp;
     FeePackage_TotalFee := FeePackage_TotalFee fp;
     FeePackage_CourseID := FeePackage_CourseID fp;
     FeePackage_SessionsIncluded := FeePackage_SessionsIncluded fp;
     FeePackage_DiscountPercent := FeePackage_DiscountPercent fp;
     FeePackage_IsActive := FeePackage_IsActive fp;
     FeePackage_Createat := FeePackage_Createat fp;
     FeePackage_Updateat := now |}.

Definition FeePackage_columns (fp : FeePackage) : list (string * nat) :=
  [(FeePackage_Name fp, 100)].

(** *** Tuition *)

Record Tuition := {
  Tuition_ID : string; Tuition_StudentID : string; Tuition_ClassID : string;
  Tuition_FeePackageID : string; Tuition_TotalAmount : D; Tuition_DiscountAmount : D;
  Tuition_PaidAmount : D; Tuition_RemainingAmount : D; Tuition_Status : string;
  Tuition_DueDate : Z; Tuition_Note : option string; Tuition_PromotionalFee : option D;
  Tuition_DiscountValue : option D; Tuition_DiscountType : option string; Tuition_Createat : Z;
  Tuition_Updateat : Z;
}.

Definition TuitionIsValid (t : Tuition) : option string :=
  first_error [
    (bad_id (Tuition_ID t), "model.lms.tuition.id.app_error");
    (empty (Tuition_StudentID t), "model.lms.tuition.student_id.app_error");
    (empty (Tuition_ClassID t), "model.lms.tuition.class_id.app_error");
    (empty (Tuition_FeePackageID t), "model.lms.tuition.fee_package_id.app_error");
    (longer 50 (Tuition_Status t), "model.lms.tuition.status.len.app_error");
    (opt_longer 500 (Tuition_Note t), "model.lms.tuition.note.len.app_error");
    (opt_longer 50 (Tuition_DiscountType t), "model.lms.tuition.discount_type.len.app_error")].

Definition TuitionPreCreate (newId : string) (now : Z) (t : Tuition) : Tuition :=
  {| Tuition_ID := if_empty (Tuition_ID t) newId;
     Tuition_StudentID := Tuition_StudentID t;
     Tuition_ClassID := Tuition_ClassID t;
     Tuition_FeePackageID := Tuition_FeePackageID t;
     Tuition_TotalAmount := Tuition_TotalAmount t;
     Tuition_DiscountAmount := Tuition_DiscountAmount t;
     Tuition_PaidAmount := Tuition_PaidAmount t;
     Tuition_RemainingAmount := Tuition_RemainingAmount t;
     Tuition_Status := if_empty (Tuition_Status t) "PENDING";
     Tuition_DueDate := Tuition_DueDate t;
     Tuition_Note := Tuition_Note t;
     Tuition_PromotionalFee := Tuition_PromotionalFee t;
     Tuition_DiscountValue := Tuition_DiscountValue t;
     Tuition_DiscountType := Tuition_DiscountType t;
     Tuition_Createat := now;
     Tuition_Updateat := now |}.

Definition TuitionPreUpdate (now : Z) (t : Tuition) : Tuition :=
  {| Tuition_ID := Tuition_ID t;
     Tuition_StudentID := Tuition_StudentID t;
     Tuition_ClassID := Tuition_ClassID t;
     Tuition_FeePackageID := Tuition_FeePackageID t;
     Tuition_TotalAmount := Tuition_TotalAmount t;
     Tuition_DiscountAmount := Tuition_DiscountAmount t;
     Tuition_PaidAmount := Tuition_PaidAmount t;
     Tuition_RemainingAmount := Tuition_RemainingAmount t;
     Tuition_Status := Tuition_Status t;
     Tuition_DueDate := Tuition_DueDate t;
     Tuition_Note := Tuition_Note t;
     Tuition_PromotionalFee := Tuition_PromotionalFee t;
     Tuition_DiscountValue := Tuition_DiscountValue t;
     Tuition_DiscountType := Tuition_DiscountType t;
     Tuition_Createat := Tuition_Createat t;
     Tuition_Updateat := now |}.

Definition Tuition_columns (t : Tuition) : list (string * nat) :=
  [(Tuition_Status t, 50);
   (default "" (Tuition_Note t), 500);
   (default "" (Tuition_DiscountType t), 50)].

(** *** Payment *)

Record Payment := {
  Payment_ID : string; Payment_TuitionID : string; Payment_Amount : D; Payment_PaymentDate : Z;
  Payment_Method : string; Payment_ReceiptNumber : option string; Payment_PaidByID : string;
  Payment_Note : option string; Payment_Createat : Z; Payment_Updateat : Z;
}.

Definition PaymentIsValid (p : Payment) : option string :=
  first_error [
    (bad_id (Payment_ID p), "model.lms.payment.id.app_error");
    (empty (Payment_TuitionID p), "model.lms.payment.tuition_id.app_error");
    (empty (Payment_PaidByID p), "model.lms.payment.paid_by_id.app_error");
    (longer 50 (Payment_Method p), "model.lms.payment.method.len.app_error");
    (opt_longer 100 (Payment_ReceiptNumber p), "model.lms.payment.receipt_number.len.app_error");
    (opt_longer 500 (Payment_Note p), "model.lms.payment.note.len.app_error")].

Definition PaymentPreCreate (newId : string) (now0 now : Z) (p : Payment) : Payment :=
  {| Payment_ID := if_empty (Payment_ID p) newId;
     Payment_TuitionID := Payment_TuitionID p;
     Payment_Amount := Payment_Amount p;
     Payment_PaymentDate := if is_zero (Payment_PaymentDate p) then unix_ms now0 else Payment_PaymentDate p;
     Payment_Method := if_empty (Payment_Method p) "CASH";
     Payment_ReceiptNumber := Payment_ReceiptNumber p;
     Payment_PaidByID := Payment_PaidByID p;
     Payment_Note := Payment_Note p;
     Payment_Createat := now;
     Payment_Updateat := now |}.

Definition Payment_columns (p : Payment) : list (string * nat) :=
  [(Payment_Method p, 50);
   (default "" (Payment_ReceiptNumber p), 100);
   (default "" (Payment_Note p), 500)].

(** *** FeeRefund *)

Record FeeRefund := {
  FeeRefund_ID : string; FeeRefund_TuitionID : string; FeeRefund_Amount : D;
  FeeRefund_RefundDate : Z; FeeRefund_Reason : option string; FeeRefund_Status : string;
  FeeRefund_ApprovedByID : option string; FeeRefund_Createat : Z; FeeRefund_Updateat : Z;
}.

Definition FeeRefundIsValid (fr : FeeRefund) : option string :=
  first_error [
    (bad_id (FeeRefund_ID fr), "model.lms.fee_refund.id.app_error");
    (empty (FeeRefund_TuitionID fr), "model.lms.fee_refund.tuition_id.app_error");
    (opt_longer 500 (FeeRefund_Reason fr), "model.lms.fee_refund.reason.len.app_error");
    (longer 50 (FeeRefund_Status fr), "model.lms.fee_refund.status.len.app_error")].

Definition FeeRefundPreCreate (newId : string) (now0 now : Z) (fr : FeeRefund) : FeeRefund :=
  {| FeeRefund_ID := if_empty (FeeRefund_ID fr) newId;
     FeeRefund_TuitionID := FeeRefund_TuitionID fr;
     FeeRefund_Amount := FeeRefund_Amount fr;
     FeeRefund_RefundDate := if is_zero (FeeRefund_RefundDate fr) then unix_ms now0 else FeeRefund_RefundDate fr;
     FeeRefund_Reason := FeeRefund_Reason fr;
     FeeRefund_Status := if_empty (FeeRefund_Status fr) "PENDING";
     FeeRefund_ApprovedByID := FeeRefund_ApprovedByID fr;
     FeeRefund_Createat := now;
     FeeRefund_Updateat := now |}.

Definition FeeRefundPreUpdate (now : Z) (fr : FeeRefund) : FeeRefund :=
  {| FeeRefund_ID := FeeRefund_ID fr;
     FeeRefund_TuitionID := FeeRefund_TuitionID fr;
     FeeRefund_Amount := FeeRefund_Amount fr;
     FeeRefund_RefundDate := FeeRefund_RefundDate fr;
     FeeRefund_Reason := FeeRefund_Reason fr;
     FeeRefund_Status := FeeRefund_Status fr;
     FeeRefund_ApprovedByID := FeeRefund_ApprovedByID fr;
     FeeRefund_Createat := FeeRefund_Createat fr;
     FeeRefund_Updateat := now |}.

Definition FeeRefund_columns (fr : FeeRefund) : list (string * nat) :=
  [(default "" (FeeRefund_Reason fr), 500);
   (FeeRefund_Status fr, 50)].

(** *** PostCategory *)

Record PostCategory := {
  PostCategory_ID : string; PostCategory_Name : string; PostCategory_Slug : string;
  PostCategory_Createat : Z; PostCategory_Updateat : Z;
}.

Definition PostCategoryIsValid (pc : PostCategory) : option string :=
  first_error [
    (bad_id (PostCategory_ID pc), "model.lms.post_category.id.app_error");
    (empty (PostCategory_Name pc), "model.lms.post_category.name.app_error");
    (longer 100 (PostCategory_Name pc), "model.lms.post_category.name.len.app_error");
    (empty (PostCategory_Slug pc), "model.lms.post_category.slug.app_error");
    (longer 120 (PostCategory_Slug pc), "model.lms.post_category.slug.len.app_error")].

Definition PostCategoryPreCreate (newId : string) (now : Z) (pc : PostCategory) : PostCategory :=
  {| PostCategory_ID := if_empty (PostCategory_ID pc) newId;
     PostCategory_Name := PostCategory_Name pc;
     PostCategory_Slug := PostCategory_Slug pc;
     PostCategory_Createat := now;
     PostCategory_Updateat := now |}.

Definition PostCategoryPreUpdate (now : Z) (pc : PostCategory) : PostCategory :=
  {| PostCategory_ID := PostCategory_ID pc;
     PostCategory_Name := PostCategory_Name pc;
     PostCategory_Slug := PostCategory_Slug pc;
     PostCategory_Createat := PostCategory_Createat pc;
     PostCategory_Updateat := now |}.

Definition PostCategory_columns (pc : PostCategory) : list (string * nat) :=
  [(PostCategory_Name pc, 100);
   (PostCategory_Slug pc, 120)].

(** *** BlogPost *)

Record BlogPost := {
  BlogPost_ID : string; BlogPost_Title : string; BlogPost_Slug : string;
  BlogPost_Content : string; BlogPost_Excerpt : option string; BlogPost_CategoryID : string;
  BlogPost_AuthorID : string; BlogPost_Status : string; BlogPost_SeoTitle : option string;
  BlogPost_SeoDescription : option string; BlogPost_SeoKeywords : option string;
  BlogPost_PublishedAt : option Z; BlogPost_Createat : Z; BlogPost_Updateat : Z;
}.

Definition BlogPostIsValid (p : BlogPost) : option string :=
  first_error [
    (bad_id (BlogPost_ID p), "model.lms.blog_post.id.app_error");
    (empty (BlogPost_Title p), "model.lms.blog_post.title.app_error");
    (longer 200 (BlogPost_Title p), "model.lms.blog_post.title.len.app_error");
    (empty (BlogPost_Slug p), "model.lms.blog_post.slug.app_error");
    (longer 220 (BlogPost_Slug p), "model.lms.blog_post.slug.len.app_error");
    (empty (BlogPost_CategoryID p), "model.lms.blog_post.category_id.app_error");
    (empty (BlogPost_AuthorID p), "model.lms.blog_post.author_id.app_error");
    (opt_longer 500 (BlogPost_Excerpt p), "model.lms.blog_post.excerpt.len.app_error");
    (longer 50 (BlogPost_Status p), "model.lms.blog_post.status.len.app_error");
    (opt_longer 200 (BlogPost_SeoTitle p), "model.lms.blog_post.seo_title.len.app_error");
    (opt_longer 500 (BlogPost_SeoDescription p), "model.lms.blog_post.seo_description.len.app_error");
    (opt_longer 200 (BlogPost_SeoKeywords p), "model.lms.blog_post.seo_keywords.len.app_error")].

Definition BlogPostPreCreate (newId : string) (now : Z) (p : BlogPost) : BlogPost :=
  {| BlogPost_ID := if_empty (BlogPost_ID p) newId;
     BlogPost_Title := BlogPost_Title p;
     BlogPost_Slug := BlogPost_Slug p;
     BlogPost_Content := BlogPost_Content p;
     BlogPost_Excerpt := BlogPost_Excerpt p;
     BlogPost_CategoryID := BlogPost_CategoryID p;
     BlogPost_AuthorID := BlogPost_AuthorID p;
     BlogPost_Status := if_empty (BlogPost_Status p) "DRAFT";
     BlogPost_SeoTitle := BlogPost_SeoTitle p;
     BlogPost_SeoDescription := BlogPost_SeoDescription p;
     BlogPost_SeoKeywords := BlogPost_SeoKeywords p;
     BlogPost_PublishedAt := BlogPost_PublishedAt p;
     BlogPost_Createat := now;
     BlogPost_Updateat := now |}.

Definition BlogPostPreUpdate (now : Z) (p : BlogPost) : BlogPost :=
  {| BlogPost_ID := BlogPost_ID p;
     BlogPost_Title := BlogPost_Title p;
     BlogPost_Slug := BlogPost_Slug p;
     BlogPost_Content := BlogPost_Content p;
     BlogPost_Excerpt := BlogPost_Excerpt p;
     BlogPost_CategoryID := BlogPost_CategoryID p;
     BlogPost_AuthorID := BlogPost_AuthorID p;
     BlogPost_Status := BlogPost_Status p;
     BlogPost_SeoTitle := BlogPost_SeoTitle p;
     BlogPost_SeoDescription := BlogPost_SeoDescription p;
     BlogPost_SeoKeywords := BlogPost_SeoKeywords p;
     BlogPost_PublishedAt := BlogPost_PublishedAt p;
     BlogPost_Createat := BlogPost_Createat p;
     BlogPost_Updateat := now |}.

Definition BlogPost_columns (p : BlogPost) : list (string * nat) :=
  [(BlogPost_Title p, 200);
   (BlogPost_Slug p, 220);
   (default "" (BlogPost_Excerpt p), 500);
   (BlogPost_Status p, 50);
   (default "" (BlogPost_SeoTitle p), 200);
   (default "" (BlogPost_SeoDescription p), 500);
   (default "" (BlogPost_SeoKeywords p), 200)].

(** *** WeeklyReview *)

Record WeeklyReview := {
  WeeklyReview_ID : string; WeeklyReview_StudentID : string; WeeklyReview_ClassID : string;
  WeeklyReview_WeekNumber : Z; WeeklyReview_Content : string; WeeklyReview_Rating : option Z;
  WeeklyReview_CreatedBy : string; WeeklyReview_Createat : Z; WeeklyReview_Updateat : Z;
}.

Definition WeeklyReviewIsValid (wr : WeeklyReview) : option string :=
  first_error [
    (bad_id (WeeklyReview_ID wr), "model.lms.weekly_review.id.app_error");
    (empty (WeeklyReview_StudentID wr), "model.lms.weekly_review.student_id.app_error");
    (empty (WeeklyReview_ClassID wr), "model.lms.weekly_review.class_id.app_error");
    (empty (WeeklyReview_Content wr), "model.lms.weekly_review.content.app_error")].

Definition WeeklyReviewPreCreate (newId : string) (now : Z) (wr : WeeklyReview) : WeeklyReview :=
  {| WeeklyReview_ID := if_empty (WeeklyReview_ID wr) newId;
     WeeklyReview_StudentID := WeeklyReview_StudentID wr;
     WeeklyReview_ClassID := WeeklyReview_ClassID wr;
     WeeklyReview_WeekNumber := WeeklyReview_WeekNumber wr;
     WeeklyReview_Content := WeeklyReview_Content wr;
     WeeklyReview_Rating := WeeklyReview_Rating wr;
     WeeklyReview_CreatedBy := WeeklyReview_CreatedBy wr;
     WeeklyReview_Createat := now;
     WeeklyReview_Updateat := now |}.

Definition WeeklyReviewPreUpdate (now : Z) (wr : WeeklyReview) : WeeklyReview :=
  {| WeeklyReview_ID := WeeklyReview_ID wr;
     WeeklyReview_StudentID := WeeklyReview_StudentID wr;
     WeeklyReview_ClassID := WeeklyReview_ClassID wr;
     WeeklyReview_WeekNumber := WeeklyReview_WeekNumber wr;
     WeeklyReview_Content := WeeklyReview_Content wr;
     WeeklyReview_Rating := WeeklyReview_Rating wr;
     WeeklyReview_CreatedBy := WeeklyReview_CreatedBy wr;
     WeeklyReview_Createat := WeeklyReview_Createat wr;
     WeeklyReview_Updateat := now |}.

Definition WeeklyReview_columns (wr : WeeklyReview) : list (string * nat) :=
  [].

(** *** Homework *)

Record Homework := {
  Homework_ID : string; Homework_Title : string; Homework_Description : option string;
  Homework_SessionID : string; Homework_ClassID : string; Homework_CourseID : string;
  Homework_TeacherID : string; Homework_Deadline : Z; Homework_Createat : Z;
  Homework_FileID : string; Homework_Updateat : Z;
}.

Definition HomeworkIsValid (h : Homework) : option string :=
  first_error [
    (bad_id (Homework_ID h), "model.lms.homework.id.app_error");
    (empty (Homework_Title h), "model.lms.homework.title.app_error");
    (longer 200 (Homework_Title h), "model.lms.homework.title.len.app_error");
    (empty (Homework_ClassID h), "model.lms.homework.class_id.app_error");
    (empty (Homework_CourseID h), "model.lms.homework.course_id.app_error");
    (empty (Homework_TeacherID h), "model.lms.homework.teacher_id.app_error")].

Definition HomeworkPreCreate (newId : string) (now : Z) (h : Homework) : Homework :=
  {| Homework_ID := if_empty (Homework_ID h) newId;
     Homework_Title := Homework_Title h;
     Homework_Description := Homework_Description h;
     Homework_SessionID := Homework_SessionID h;
     Homework_ClassID := Homework_ClassID h;
     Homework_CourseID := Homework_CourseID h;
     Homework_TeacherID := Homework_TeacherID h;
     Homework_Deadline := Homework_Deadline h;
     Homework_Createat := now;
     Homework_FileID := Homework_FileID h;
     Homework_Updateat := now |}.

Definition HomeworkPreUpdate (now : Z) (h : Homework) : Homework :=
  {| Homework_ID := Homework_ID h;
     Homework_Title := Homework_Title h;
     Homework_Description := Homework_Description h;
     Homework_SessionID := Homework_SessionID h;
     Homework_ClassID := Homework_ClassID h;
     Homework_CourseID := Homework_CourseID h;
     Homework_TeacherID := Homework_TeacherID h;
     Homework_Deadline := Homework_Deadline h;
     Homework_Createat := Homework_Createat h;
     Homework_FileID := Homework_FileID h;
     Homework_Updateat := now |}.

Definition Homework_columns (h : Homework) : list (string * nat) :=
  [(Homework_Title h, 200)].

(** *** Submission *)

Record Submission := {
  Submission_ID : string; Submission_Title : string; Submission_StudentID : string;
  Submission_HomeworkID : string; Submission_Description : option string;
  Submission_FileID : string; Submission_Feedback : option string; Submission_Createat : Z;
  Submission_Updateat : Z;
}.

Definition SubmissionIsValid (s : Submission) : option string :=
  first_error [
    (bad_id (Submission_ID s), "model.lms.submission.id.app_error");
    (empty (Submission_StudentID s), "model.lms.submission.student_id.app_error");
    (empty (Submission_HomeworkID s), "model.lms.submission.homework_id.app_error");
    (longer 200 (Submission_Title s), "model.lms.submission.title.len.app_error");
    (opt_longer 500 (Submission_Description s), "model.lms.submission.description.len.app_error");
    (opt_longer 500 (Submission_Feedback s), "model.lms.submission.feedback.len.app_error")].

Definition SubmissionPreCreate (newId : string) (now : Z) (s : Submission) : Submission :=
  {| Submission_ID := if_empty (Submission_ID s) newId;
     Submission_Title := Submission_Title s;
     Submission_StudentID := Submission_StudentID s;
     Submission_HomeworkID := Submission_HomeworkID s;
     Submission_Description := Submission_Description s;
     Submission_FileID := Submission_FileID s;
     Submission_Feedback := Submission_Feedback s;
     Submission_Createat := now;
     Submission_Updateat := now |}.

Definition SubmissionPreUpdate (now : Z) (s : Submission) : Submission :=
  {| Submission_ID := Submission_ID s;
     Submission_Title := Submission_Title s;
     Submission_StudentID := Submission_StudentID s;
     Submission_HomeworkID := Submission_HomeworkID s;
     Submission_Description := Submission_Description s;
     Submission_FileID := Submission_FileID s;
     Submission_Feedback := Submission_Feedback s;
     Submission_Createat := Submission_Createat s;
     Submission_Updateat := now |}.

Definition Submission_columns (s : Submission) : list (string * nat) :=
  [(Submission_Title s, 200);
   (default "" (Submission_Description s), 500);
   (default "" (Submission_Feedback s), 500)].

(** *** ClassMedia *)

Record ClassMedia := {
  ClassMedia_ID : string; ClassMedia_ClassID : string; ClassMedia_SessionID : option string;
  ClassMedia_Title : option string; ClassMedia_FileURL : string; ClassMedia_FileType : string;
  ClassMedia_UploadedByID : string; ClassMedia_FileID : string; ClassMedia_Createat : Z;
  ClassMedia_Updateat : Z;
}.

Definition ClassMediaIsValid (cm : ClassMedia) : option string :=
  first_error [
    (bad_id (ClassMedia_ID cm), "model.lms.class_media.id.app_error");
    (empty (ClassMedia_ClassID cm), "model.lms.class_media.class_id.app_error");
    (empty (ClassMedia_FileURL cm), "model.lms.class_media.file_url.app_error");
    (empty (ClassMedia_FileType cm), "model.lms.class_media.file_type.app_error");
    (opt_longer 200 (ClassMedia_Title cm), "model.lms.class_media.title.len.app_error");
    (longer 500 (ClassMedia_FileURL cm), "model.lms.class_media.file_url.len.app_error");
    (longer 50 (ClassMedia_FileType cm), "model.lms.class_media.file_type.len.app_error")].

Definition ClassMediaPreCreate (newId : string) (now : Z) (cm : ClassMedia) : ClassMedia :=
  {| ClassMedia_ID := if_empty (ClassMedia_ID cm) newId;
     ClassMedia_ClassID := ClassMedia_ClassID cm;
     ClassMedia_SessionID := ClassMedia_SessionID cm;
     ClassMedia_Title := ClassMedia_Title cm;
     ClassMedia_FileURL := ClassMedia_FileURL cm;
     ClassMedia_FileType := ClassMedia_FileType cm;
     ClassMedia_UploadedByID := ClassMedia_UploadedByID cm;
     ClassMedia_FileID := ClassMedia_FileID cm;
     ClassMedia_Createat := now;
     ClassMedia_Updateat := now |}.

Definition ClassMedia_columns (cm : ClassMedia) : list (string * nat) :=
  [(default "" (ClassMedia_Title cm), 200);
   (ClassMedia_FileURL cm, 500);
   (ClassMedia_FileType cm, 50)].

(** *** AdditionalFee *)

Record AdditionalFee := {
  AdditionalFee_ID : string; AdditionalFee_TuitionID : string; AdditionalFee_Label : string;
  AdditionalFee_Amount : D; AdditionalFee_Createat : Z; AdditionalFee_Updateat : Z;
}.

Definition AdditionalFeeIsValid (af : AdditionalFee) : option string :=
  first_error [
    (bad_id (AdditionalFee_ID af), "model.lms.additional_fee.id.app_error");
    (empty (AdditionalFee_Label af), "model.lms.additional_fee.label.app_error");
    (longer 100 (AdditionalFee_Label af), "model.lms.additional_fee.label.len.app_error")].

Definition AdditionalFeePreCreate (newId : string) (now : Z) (af : AdditionalFee) : AdditionalFee :=
  {| AdditionalFee_ID := if_empty (AdditionalFee_ID af) newId;
     AdditionalFee_TuitionID := AdditionalFee_TuitionID af;
     AdditionalFee_Label := AdditionalFee_Label af;
     AdditionalFee_Amount := AdditionalFee_Amount af;
     AdditionalFee_Createat := now;
     AdditionalFee_Updateat := now |}.

Definition AdditionalFee_columns (af : AdditionalFee) : list (string * nat) :=
  [(AdditionalFee_Label af, 100)].

(** *** Task *)

Record Task := {
  Task_ID : string; Task_Title : string; Task_Description : option string;
  Task_AssigneeID : string; Task_CreatorID : string; Task_Deadline : Z; Task_Priority : string;
  Task_Status : string; Task_Notes : option string; Task_Createat : Z; Task_Updateat : Z;
}.

Definition TaskIsValid (t : Task) : option string :=
  first_error [
    (bad_id (Task_ID t), "model.lms.task.id.app_error");
    (empty (Task_Title t), "model.lms.task.title.app_error");
    (longer 200 (Task_Title t), "model.lms.task.title.len.app_error");
    (empty (Task_AssigneeID t), "model.lms.task.assignee_id.app_error");
    (empty (Task_CreatorID t), "model.lms.task.creator_id.app_error");
    (opt_longer 500 (Task_Description t), "model.lms.task.description.len.app_error");
    (longer 50 (Task_Priority t), "model.lms.task.priority.len.app_error");
    (longer 50 (Task_Status t), "model.lms.task.status.len.app_error");
    (opt_longer 500 (Task_Notes t), "model.lms.task.notes.len.app_error")].

Definition TaskPreCreate (newId : string) (now : Z) (t : Task) : Task :=
  {| Task_ID := if_empty (Task_ID t) newId;
     Task_Title := Task_Title t;
     Task_Description := Task_Description t;
     Task_AssigneeID := Task_AssigneeID t;
     Task_CreatorID := Task_CreatorID t;
     Task_Deadline := Task_Deadline t;
     Task_Priority := if_empty (Task_Priority t) "MEDIUM";
     Task_Status := if_empty (Task_Status t) "TODO";
     Task_Notes := Task_Notes t;
     Task_Createat := now;
     Task_Updateat := now |}.

Definition TaskPreUpdate (now : Z) (t : Task) : Task :=
  {| Task_ID := Task_ID t;
     Task_Title := Task_Title t;
     Task_Description := Task_Description t;
     Task_AssigneeID := Task_AssigneeID t;
     Task_CreatorID := Task_CreatorID t;
     Task_Deadline := Task_Deadline t;
     Task_Priority := Task_Priority t;
     Task_Status := Task_Status t;
     Task_Notes := Task_Notes t;
     Task_Createat := Task_Createat t;
     Task_Updateat := now |}.

Definition Task_columns (t : Task) : list (string * nat) :=
  [(Task_Title t, 200);
   (default "" (Task_Description t), 500);
   (Task_Priority t, 50);
   (Task_Status t, 50);
   (default "" (Task_Notes t), 500)].

(** *** Banner *)

Record Banner := {
  Banner_ID : string; Banner_Title : string; Banner_ImageURL : option string;
  Banner_LinkURL : option string; Banner_Position : Z; Banner_IsActive : bool;
  Banner_Createat : Z; Banner_Updateat : Z;
}.

Definition BannerIsValid (b : Banner) : option string :=
  first_error [
    (bad_id (Banner_ID b), "model.lms.banner.id.app_error");
    (empty (Banner_Title b), "model.lms.banner.title.app_error");
    (longer 200 (Banner_Title b), "model.lms.banner.title.len.app_error");
    (opt_longer 500 (Banner_ImageURL b), "model.lms.banner.image_url.len.app_error");
    (opt_longer 500 (Banner_LinkURL b), "model.lms.banner.link_url.len.app_error")].

Definition BannerPreCreate (newId : string) (now : Z) (b : Banner) : Banner :=
  {| Banner_ID := if_empty (Banner_ID b) newId;
     Banner_Title := Banner_Title b;
     Banner_ImageURL := Banner_ImageURL b;
     Banner_LinkURL := Banner_LinkURL b;
     Banner_Position := Banner_Position b;
     Banner_IsActive := Banner_IsActive b;
     Banner_Createat := now;
     Banner_Updateat := now |}.

Definition BannerPreUpdate (now : Z) (b : Banner) : Banner :=
  {| Banner_ID := Banner_ID b;
     Banner_Title := Banner_Title b;
     Banner_ImageURL := Banner_ImageURL b;
     Banner_LinkURL := Banner_LinkURL b;
     Banner_Position := Banner_Position b;
     Banner_IsActive := Banner_IsActive b;
     Banner_Createat := Banner_Createat b;
     Banner_Updateat := now |}.

Definition Banner_columns (b : Banner) : list (string * nat) :=
  [(Banner_Title b, 200);
   (default "" (Banner_ImageURL b), 500);
   (default "" (Banner_LinkURL b), 500)].

(** *** Notification *)

Record Notification := {
  Notification_ID : string; Notification_UserID : string; Notification_Title : string;
  Notification_Message : string; Notification_Type : option string; Notification_IsRead : bool;
  Notification_LinkURL : option string; Notification_Createat : Z; Notification_Updateat : Z;
}.

Definition NotificationIsValid (n : Notification) : option string :=
  first_error [
    (bad_id (Notification_ID n), "model.lms.notification.id.app_error");
    (empty (Notification_UserID n), "model.lms.notification.user_id.app_error");
    (empty (Notification_Title n), "model.lms.notification.title.app_error");
    (longer 200 (Notification_Title n), "model.lms.notification.title.len.app_error");
    (empty (Notification_Message n), "model.lms.notification.message.app_error");
    (longer 500 (Notification_Message n), "model.lms.notification.message.len.app_error");
    (opt_longer 50 (Notification_Type n), "model.lms.notification.type.len.app_error");
    (opt_longer 500 (Notification_LinkURL n), "model.lms.notification.link_url.len.app_error")].

Definition NotificationPreCreate (newId : string) (now : Z) (n : Notification) : Notification :=
  {| Notification_ID := if_empty (Notification_ID n) newId;
     Notification_UserID := Notification_UserID n;
     Notification_Title := Notification_Title n;
     Notification_Message := Notification_Message n;
     Notification_Type := Notification_Type n;
     Notification_IsRead := Notification_IsRead n;
     Notification_LinkURL := Notification_LinkURL n;
     Notification_Createat := now;
     Notification_Updateat := now |}.

Definition NotificationPreUpdate (now : Z) (n : Notification) : Notification :=
  {| Notification_ID := Notification_ID n;
     Notification_UserID := Notification_UserID n;
     Notification_Title := Notification_Title n;
     Notification_Message := Notification_Message n;
     Notification_Type := Notification_Type n;
     Notification_IsRead := Notification_IsRead n;
     Notification_LinkURL := Notification_LinkURL n;
     Notification_Createat := Notification_Createat n;
     Notification_Updateat := now |}.

Definition Notification_columns (n : Notification) : list (string * nat) :=
  [(Notification_Title n, 200);
   (Notification_Message n, 500);
   (default "" (Notification_Type n), 50);
   (default "" (Notification_LinkURL n), 500)].

(** *** Material *)

Record Material := {
  Material_ID : string; Material_Title : string; Material_Description : option string;
  Material_CourseID : string; Material_Unit : option string; Material_Visibility : string;
  Material_FileID : string; Material_UploadedByID : string; Material_Version : Z;
  Material_Createat : Z; Material_Updateat : Z;
}.

Definition MaterialIsValid (m : Material) : option string :=
  first_error [
    (bad_id (Material_ID m), "model.lms.material.id.app_error");
    (empty (Material_Title m), "model.lms.material.title.app_error");
    (longer 200 (Material_Title m), "model.lms.material.title.len.app_error");
    (empty (Material_CourseID m), "model.lms.material.course_id.app_error");
    (empty (Material_UploadedByID m), "model.lms.material.uploaded_by_id.app_error");
    (opt_longer 500 (Material_Description m), "model.lms.material.description.len.app_error");
    (opt_longer 100 (Material_Unit m), "model.lms.material.unit.len.app_error");
    (longer 50 (Material_Visibility m), "model.lms.material.visibility.len.app_error")].

Definition MaterialPreCreate (newId : string) (now : Z) (m : Material) : Material :=
  {| Material_ID := if_empty (Material_ID m) newId;
     Material_Title := Material_Title m;
     Material_Description := Material_Description m;
     Material_CourseID := Material_CourseID m;
     Material_Unit := Material_Unit m;
     Material_Visibility := if_empty (Material_Visibility m) "TEACHER_ONLY";
     Material_FileID := Material_FileID m;
     Material_UploadedByID := Material_UploadedByID m;
     Material_Version := Material_Version m;
     Material_Createat := now;
     Material_Updateat := now |}.

Definition MaterialPreUpdate (now : Z) (m : Material) : Material :=
  {| Material_ID := Material_ID m;
     Material_Title := Material_Title m;
     Material_Description := Material_Description m;
     Material_CourseID := Material_CourseID m;
     Material_Unit := Material_Unit m;
     Material_Visibility := Material_Visibility m;
     Material_FileID := Material_FileID m;
     Material_UploadedByID := Material_UploadedByID m;
     Material_Version := Material_Version m;
     Material_Createat := Material_Createat m;
     Material_Updateat := now |}.

Definition Material_columns (m : Material) : list (string * nat) :=
  [(Material_Title m, 200);
   (default "" (Material_Description m), 500);
   (default "" (Material_Unit m), 100);
   (Material_Visibility m, 50)].

(** ** What validation guarantees *)

Lemma first_error_none l : first_error l = None ↔ Forall (λ c : bool * string, c.1 = false) l.
Proof.
  induction l as [|[bad e] l IH]; simpl; [by split|].
  rewrite Forall_cons. simpl. destruct bad; [naive_solver|]. rewrite IH. naive_solver.
Qed.

(** A value fits a VARCHAR(n) column. *)
Definition fits (c : string * nat) : Prop := (rune_count c.1 ≤ c.2)%nat.

Lemma longer_fits n s : longer n s = false → fits (s, n).
Proof.
  intros Hl%bool_decide_eq_false. unfold fits. simpl. pose proof (rune_count_le_length s). lia.
Qed.

Lemma opt_longer_fits n s : opt_longer n s = false → fits (default "" s, n).
Proof.
  destruct s as [s|]; simpl; [apply longer_fits|]. intros _. unfold fits. simpl. unfold rune_count. simpl. lia.
Qed.

Lemma class_status_fits s : negb (ClassStatus_IsValid s) = false → fits (s, 50).
Proof.
  intros Hs%negb_false_iff%bool_decide_eq_true. unfold fits. simpl.
  repeat (apply elem_of_cons in Hs as [->|Hs]; [vm_compute; lia|]). by apply not_elem_of_nil in Hs.
Qed.

Hint Resolve longer_fits opt_longer_fits class_status_fits : go.

Ltac fits_tac :=
  intros Hv; apply first_error_none in Hv;
  repeat match goal with H : Forall _ (_ :: _) |- _ => apply Forall_cons in H as [? ?] end;
  simpl in *; repeat (apply Forall_cons; split); auto with go; apply Forall_nil; done.

Lemma Branch_fits (x : Branch) : BranchIsValid x = None → Forall fits (Branch_columns x).
Proof. fits_tac. Qed.

Lemma Course_fits (x : Course) : CourseIsValid x = None → Forall fits (Course_columns x).
Proof. fits_tac. Qed.

Lemma CourseLesson_fits (x : CourseLesson) : CourseLessonIsValid x = None → Forall fits (CourseLesson_columns x).
Proof. fits_tac. Qed.

Lemma Class_fits (x : Class) : ClassIsValid x = None → Forall fits (Class_columns x).
Proof. fits_tac. Qed.

Lemma StudentClass_fits (x : StudentClass) : StudentClassIsValid x = None → Forall fits (StudentClass_columns x).
Proof. fits_tac. Qed.

Lemma LMSSession_fits (x : LMSSession) : LMSSessionIsValid x = None → Forall fits (LMSSession_columns x).
Proof. fits_tac. Qed.

Lemma Attendance_fits (x : Attendance) : AttendanceIsValid x = None → Forall fits (Attendance_columns x).
Proof. fits_tac. Qed.

Lemma LeadActivity_fits (x : LeadActivity) : LeadActivityIsValid x = None → Forall fits (LeadActivity_columns x).
Proof. fits_tac. Qed.

Lemma FeePackage_fits (x : FeePackage) : FeePackageIsValid x = None → Forall fits (FeePackage_columns x).
Proof. fits_tac. Qed.

Lemma Tuition_fits (x : Tuition) : TuitionIsValid x = None → Forall fits (Tuition_columns x).
Proof. fits_tac. Qed.

Lemma Payment_fits (x : Payment) : PaymentIsValid x = None → Forall fits (Payment_columns x).
Proof. fits_tac. Qed.

Lemma FeeRefund_fits (x : FeeRefund) : FeeRefundIsValid x = None → Forall fits (FeeRefund_columns x).
Proof. fits_tac. Qed.

Lemma PostCategory_fits (x : PostCategory) : PostCategoryIsValid x = None → Forall fits (PostCategory_columns x).
Proof. fits_tac. Qed.

Lemma BlogPost_fits (x : BlogPost) : BlogPostIsValid x = None → Forall fits (BlogPost_columns x).
Proof. fits_tac. Qed.

Lemma WeeklyReview_fits (x : WeeklyReview) : WeeklyReviewIsValid x = None → Forall fits (WeeklyReview_columns x).
Proof. fits_tac. Qed.

Lemma Homework_fits (x : Homework) : HomeworkIsValid x = None → Forall fits (Homework_columns x).
Proof. fits_tac. Qed.

Lemma Submission_fits (x : Submission) : SubmissionIsValid x = None → Forall fits (Submission_columns x).
Proof. fits_tac. Qed.

Lemma ClassMedia_fits (x : ClassMedia) : ClassMediaIsValid x = None → Forall fits (ClassMedia_columns x).
Proof. fits_tac. Qed.

Lemma AdditionalFee_fits (x : AdditionalFee) : AdditionalFeeIsValid x = None → Forall fits (AdditionalFee_columns x).
Proof. fits_tac. Qed.

Lemma Task_fits (x : Task) : TaskIsValid x = None → Forall fits (Task_columns x).
Proof. fits_tac. Qed.

Lemma Banner_fits (x : Banner) : BannerIsValid x = None → Forall fits (Banner_columns x).
Proof. fits_tac. Qed.

Lemma Notification_fits (x : Notification) : NotificationIsValid x = None → Forall fits (Notification_columns x).
Proof. fits_tac. Qed.

Lemma Material_fits (x : Material) : MaterialIsValid x = None → Forall fits (Material_columns x).
Proof. fits_tac. Qed.

(** Every free-text column of a lead but its age. *)
Lemma Lead_fits (x : Lead) : LeadIsValid x = None →
Forall (λ c, fits c ∨ c = (default "" (Lead_Age x), 20%nat)) (Lead_columns x).
Proof.
  intros Hv. apply first_error_none in Hv.
  repeat match goal with H : Forall _ (_ :: _) |- _ => apply Forall_cons in H as [? ?] end.
  simpl in *. repeat (apply Forall_cons; split); auto with go.
Qed.
End rows.

Arguments Course : clear implicits.
Arguments FeePackage : clear implicits.
Arguments Tuition : clear implicits.
Arguments Payment : clear implicits.
Arguments FeeRefund : clear implicits.
Arguments AdditionalFee : clear implicits.

(** ** Theorems *)

(** validation protects the schema.  A row that passes IsValid fits every
    VARCHAR column of its table that takes free text, in characters, whatever
    bytes it is made of (the age column of leads apart, see
    [lead_age_unchecked]). *)
Theorem accepted_rows_fit_columns `{UnicodeTables} {D : Type} :
  (∀ x, BranchIsValid x = None → Forall fits (Branch_columns x)) ∧
  (∀ x : Course D, CourseIsValid x = None → Forall fits (Course_columns x)) ∧
  (∀ x, CourseLessonIsValid x = None → Forall fits (CourseLesson_columns x)) ∧
  (∀ x, ClassIsValid x = None → Forall fits (Class_columns x)) ∧
  (∀ x, StudentClassIsValid x = None → Forall fits (StudentClass_columns x)) ∧
  (∀ x, LMSSessionIsValid x = None → Forall fits (LMSSession_columns x)) ∧
  (∀ x, AttendanceIsValid x = None → Forall fits (Attendance_columns x)) ∧
  (∀ x, LeadIsValid x = None →
     Forall (λ c, fits c ∨ c = (default "" (Lead_Age x), 20%nat)) (Lead_columns x)) ∧
  (∀ x, LeadActivityIsValid x = None → Forall fits (LeadActivity_columns x)) ∧
  (∀ x : FeePackage D, FeePackageIsValid x = None → Forall fits (FeePackage_columns x)) ∧
  (∀ x : Tuition D, TuitionIsValid x = None → Forall fits (Tuition_columns x)) ∧
  (∀ x : Payment D, PaymentIsValid x = None → Forall fits (Payment_columns x)) ∧
  (∀ x : FeeRefund D, FeeRefundIsValid x = None → Forall fits (FeeRefund_columns x)) ∧
  (∀ x, PostCategoryIsValid x = None → Forall fits (PostCategory_columns x)) ∧
  (∀ x, BlogPostIsValid x = None → Forall fits (BlogPost_columns x)) ∧
  (∀ x, WeeklyReviewIsValid x = None → Forall fits (WeeklyReview_columns x)) ∧
  (∀ x, HomeworkIsValid x = None → Forall fits (Homework_columns x)) ∧
  (∀ x, SubmissionIsValid x = None → Forall fits (Submission_columns x)) ∧
  (∀ x, ClassMediaIsValid x = None → Forall fits (ClassMedia_columns x)) ∧
  (∀ x : AdditionalFee D, AdditionalFeeIsValid x = None → Forall fits (AdditionalFee_columns x)) ∧
  (∀ x, TaskIsValid x = None → Forall fits (Task_columns x)) ∧
  (∀ x, BannerIsValid x = None → Forall fits (Banner_columns x)) ∧
  (∀ x, NotificationIsValid x = None → Forall fits (Notification_columns x)) ∧
  (∀ x, MaterialIsValid x = None → Forall fits (Material_columns x)).
Proof.
  split_and!; eauto using Branch_fits, Course_fits, CourseLesson_fits, Class_fits,
    StudentClass_fits, LMSSession_fits, Attendance_fits, Lead_fits, LeadActivity_fits,
    FeePackage_fits, Tuition_fits, Payment_fits, FeeRefund_fits, PostCategory_fits, BlogPost_fits,
    WeeklyReview_fits, Homework_fits, Submission_fits, ClassMedia_fits, AdditionalFee_fits,
    Task_fits, Banner_fits, Notification_fits, Material_fits.
Qed.

#[local] Instance no_unicode : UnicodeTables := λ _, false.

Fixpoint repeat_string (n : nat) (s : string) : string :=
  match n with O => "" | S n' => s ++ repeat_string n' s end.

Definition long_age_lead : Lead :=
  {| Lead_ID := ""; Lead_Name := "An"; Lead_Email := None; Lead_Phone := None;
     Lead_Age := Some "between twenty and thirty years"; Lead_School := None;
     Lead_Source := None; Lead_Need := None; Lead_Status := "NEW"; Lead_StudentID := None;
     Lead_Notes := None; Lead_TestDate := 0; Lead_TestResult := None; Lead_TestScore := None;
     Lead_CounselorID := None; Lead_Createat := 0; Lead_Updateat := 0 |}.

(** A lead whose age overflows its VARCHAR(20) column passes validation: the
    insert fails in the database instead. *)
Example lead_age_unchecked :
  LeadIsValid long_age_lead = None ∧ ¬ Forall fits (Lead_columns long_age_lead).
Proof.
  split; [vm_compute; reflexivity|]. intros Hall. rewrite Forall_forall in Hall.
  assert (fits ("between twenty and thirty years", 20%nat)) as Hf.
  { apply Hall. repeat first [left|right]. }
  unfold fits in Hf. vm_compute in Hf. lia.
Qed.

Definition vietnamese_branch : Branch :=
  {| Branch_ID := ""; Branch_Name := repeat_string 12 "Nguyễn "; Branch_Address := None;
     Branch_Phone := None; Branch_Createat := 0; Branch_Updateat := 0 |}.

(** Bytes are not characters: a name of 84 characters is refused although its
    VARCHAR(100) column takes it. *)
Example name_refused_though_it_fits :
  BranchIsValid vietnamese_branch = Some "model.lms.branch.name.len.app_error" ∧
  Forall fits (Branch_columns vietnamese_branch).
Proof.
  split; [vm_compute; reflexivity|].
  repeat (apply Forall_cons; split); try apply Forall_nil; try done; unfold fits; vm_compute; lia.
Qed.
