(* ===== verification/LmsStore.v ===== *)
(** * Stores of the learning system (server/channels/store/sqlstore/lms_store)

    Every LMS store is the same template over one generated model: Get, Save
    (PreCreate, IsValid, INSERT with [boil.Infer]), Update (PreUpdate,
    IsValid, UPDATE of all columns, reload) and Delete (find, DELETE).  A
    [table] is what a store plugs into the template; the operations follow it
    statement by statement, with one fault flag per statement: the database
    may refuse any of them (a foreign key, a unique index, the connection).

    [defaults] is what INSERT does to columns with a database default: with
    [boil.Infer] a zero value is left out of the statement and the default is
    read back into the object.  [stored] is what a row holds of an object: a
    DATE column keeps the date of an instant, a NUMERIC column two decimals,
    and a value that does not fit is refused ([None]). *)

From S2P Require Import Prelude.
From S2P Require Import CallStore.

Local Open Scope string_scope.

(** ** Decimals (shopspring/decimal and PostgreSQL's NUMERIC) *)

Class Decimal (D : Type) := {
  dec_zero : D;
  dec_add : D → D → D;
  dec_sub : D → D → D;
  (** LessThanOrEqual *)
  dec_le : D → D → bool;
  (** [numeric k d]: [d] in a column of [k] digits before the point and two
      after it. *)
  numeric : nat → D → option D;
}.

(** GreaterThan *)
Definition dec_gt `{Decimal D} (a b : D) : bool := negb (dec_le a b).

Definition dec_sum `{Decimal D} (l : list D) : D := foldl dec_add dec_zero l.

Definition opt_numeric `{Decimal D} (k : nat) (d : option D) : option (option D) :=
  match d with None => Some None | Some d => Some <$> numeric k d end.

(** Documented behaviour: addition is exact, in a commutative group; a column
    rounds to two decimals, and an amount of two decimals ([exact]) comes back
    as it was; sums and differences of such amounts have two decimals. *)
Class DecimalOk (D : Type) `{Decimal D} := {
  exact : D → Prop;
  dec_add_comm : ∀ a b : D, dec_add a b = dec_add b a;
  dec_add_assoc : ∀ a b c : D, dec_add a (dec_add b c) = dec_add (dec_add a b) c;
  dec_add_zero : ∀ a : D, dec_add dec_zero a = a;
  dec_add_sub : ∀ a b : D, dec_add (dec_sub a b) b = a;
  exact_zero : exact dec_zero;
  exact_add : ∀ a b, exact a → exact b → exact (dec_add a b);
  exact_sub : ∀ a b, exact a → exact b → exact (dec_sub a b);
  numeric_exact : ∀ k a b, numeric k a = Some b → exact b;
  numeric_id : ∀ k a b, exact a → numeric k a = Some b → b = a;
  numeric_idem : ∀ k (a b : D), numeric k a = Some b → numeric k b = Some b;
}.

Section decimal.
Context `{DecimalOk D}.

Lemma dec_sum_acc (l : list D) a : foldl dec_add a l = dec_add a (dec_sum l).
Proof.
  unfold dec_sum. revert a. induction l as [|x l IH]; intros a; simpl.
  - by rewrite dec_add_comm, dec_add_zero.
  - rewrite IH, (IH (dec_add dec_zero x)), dec_add_zero, dec_add_assoc. done.
Qed.

Lemma dec_sum_cons x (l : list D) : dec_sum (x :: l) = dec_add x (dec_sum l).
Proof. unfold dec_sum at 1. simpl. by rewrite dec_sum_acc, dec_add_zero. Qed.

(** The sum of a set of rows does not depend on the order the query returns
    them in. *)
Lemma dec_sum_perm (l l' : list D) : l ≡ₚ l' → dec_sum l = dec_sum l'.
Proof.
  induction 1 as [|x l l' _ IH|x y l|l l' l'' _ IH _ IH']; [done| | |congruence].
  - by rewrite !dec_sum_cons, IH.
  - rewrite !dec_sum_cons, !dec_add_assoc. by rewrite (dec_add_comm y x).
Qed.

Lemma exact_sum (l : list D) : Forall exact l → exact (dec_sum l).
Proof.
  induction 1 as [|x l Hx _ IH]; [apply exact_zero|]. rewrite dec_sum_cons. by apply exact_add.
Qed.

End decimal.

(** Amounts in hundredths meet these laws. *)
Definition cents : Decimal Z := {|
  dec_zero := 0%Z; dec_add := Z.add; dec_sub := Z.sub; dec_le := Z.leb;
  numeric := λ k d, if decide (Z.abs d < 10 ^ Z.of_nat (k + 2))%Z then Some d else None;
|}.

Definition cents_ok : @DecimalOk Z cents.
Proof.
  refine {| exact := λ _, True |}; simpl; try lia; try done; intros;
    repeat (destruct (decide _); simplify_eq); try done.
Defined.

(** ** The template *)

Record table (X : Type) := Table {
  entity : string;
  row_id : X → string;
  isValid : X → option string;
  (** the PreCreate hook: new id, the two clock readings, the object *)
  preCreate : string → Z → Z → X → X;
  defaults : X → X;
  stored : X → option X;
}.
Arguments Table {X} _ _ _ _ _ _.
Arguments entity {X} _.
Arguments row_id {X} _ _.
Arguments isValid {X} _ _.
Arguments preCreate {X} _ _ _ _ _.
Arguments defaults {X} _ _.
Arguments stored {X} _ _.

Section template.
Context {X : Type} (T : table X).

Definition Store_Get (fault : bool) (rows : gmap string X) (id : string) : res storeError X :=
  if fault then Err (ErrDatabase "failed to get")
  else match rows !! id with
       | Some x => Ok x
       | None => Err (ErrNotFound (entity T) id)
       end.

(** The returned object holds the columns read back, the row what is stored. *)
Definition Store_Save (fault : bool) (newId : string) (now0 now : Z) (rows : gmap string X) (x : X)
    : res storeError X * gmap string X :=
  let x := preCreate T newId now0 now x in
  match isValid T x with
  | Some e => (Err (ErrInvalidModel e), rows)
  | None =>
      let x := defaults T x in
      match (if fault || bool_decide (is_Some (rows !! row_id T x)) then None else stored T x) with
      | None => (Err (ErrDatabase "failed to save"), rows)
      | Some row => (Ok x, <[row_id T x := row]> rows)
      end
  end.

(** [preUpdate] is the PreUpdate hook of the model.  The second fault hits the
    reload, when the row is already written. *)
Definition Store_Update (preUpdate : Z → X → X) (fault reload_fault : bool) (now : Z)
    (rows : gmap string X) (x : X)
    : res storeError X * gmap string X :=
  let x := preUpdate now x in
  match isValid T x with
  | Some e => (Err (ErrInvalidModel e), rows)
  | None =>
      match (if fault then None else stored T x) with
      | None => (Err (ErrDatabase "failed to update"), rows)
      | Some row =>
          match rows !! row_id T x with
          | None => (Err (ErrNotFound (entity T) (row_id T x)), rows)
          | Some _ =>
              (if reload_fault then Err (ErrDatabase "failed to reload") else Ok row,
               <[row_id T x := row]> rows)
          end
      end
  end.

Definition Store_Delete (find_fault delete_fault : bool) (rows : gmap string X) (id : string)
    : res storeError unit * gmap string X :=
  if find_fault then (Err (ErrDatabase "failed to find"), rows)
  else match rows !! id with
       | None => (Err (ErrNotFound (entity T) id), rows)
       | Some _ =>
           if delete_fault then (Err (ErrDatabase "failed to delete"), rows)
           else (Ok tt, delete id rows)
       end.

(** ** Requests against one table *)

Inductive storeOp :=
  | OpSave (fault : bool) (newId : string) (now0 now : Z) (x : X)
  | OpUpdate (hook : Z → X → X) (fault reload_fault : bool) (now : Z) (x : X)
  | OpDelete (find_fault delete_fault : bool) (id : string).

Definition run_op (rows : gmap string X) (op : storeOp) : gmap string X :=
  match op with
  | OpSave f i n0 n x => (Store_Save f i n0 n rows x).2
  | OpUpdate hook f rf n x => (Store_Update hook f rf n rows x).2
  | OpDelete ff df id => (Store_Delete ff df rows id).2
  end.

(** ** Laws of a table *)

(** A row fits the table: filed under its own id, accepted by IsValid, and
    stored without change. *)
Definition row_ok (id : string) (x : X) : Prop :=
  row_id T x = id ∧ isValid T x = None ∧ stored T x = Some x.

Definition rows_ok (rows : gmap string X) : Prop := ∀ id x, rows !! id = Some x → row_ok id x.

(** What the template needs of a table: storing and filling in defaults keep
    the id and the verdict of IsValid, and storing is idempotent.  [dated]:
    the dates IsValid looks at are dates, not instants within one. *)
Class TableOk (dated : X → Prop) := {
  stored_id : ∀ x y, stored T x = Some y → row_id T y = row_id T x;
  stored_valid : ∀ x y, stored T x = Some y → dated x → isValid T x = None → isValid T y = None;
  stored_idem : ∀ x y, stored T x = Some y → stored T y = Some y;
  defaults_id : ∀ x, row_id T (defaults T x) = row_id T x;
  defaults_valid : ∀ x, isValid T x = None → isValid T (defaults T x) = None;
  defaults_dated : ∀ x, dated x → dated (defaults T x);
}.

(** The object a request writes, after the hook of the model. *)
Definition op_dated (dated : X → Prop) (op : storeOp) : Prop :=
  match op with
  | OpSave _ i n0 n x => dated (preCreate T i n0 n x)
  | OpUpdate hook _ _ n x => dated (hook n x)
  | OpDelete _ _ _ => True
  end.

Section laws.
Context (dated : X → Prop) `{!TableOk dated}.

Lemma rows_ok_insert rows x row :
  rows_ok rows → dated x → isValid T x = None → stored T x = Some row →
  rows_ok (<[row_id T x := row]> rows).
Proof.
  intros Hrows Hd Hv Hs id y [[<- <-]|[_ Hy]]%lookup_insert_Some; [|by apply Hrows].
  split_and!; [by apply stored_id|by eapply stored_valid|by eapply stored_idem].
Qed.

Lemma run_op_ok rows op : op_dated dated op → rows_ok rows → rows_ok (run_op rows op).
Proof.
  intros Hd Hrows. destruct op as [f i n0 n x|hook f rf n x|ff df id]; simpl in *.
  - unfold Store_Save. destruct (isValid T _) eqn:Hv; [done|]. apply defaults_valid in Hv.
    destruct (f || _); [done|]. destruct (stored T _) eqn:Hs; [|done].
    apply rows_ok_insert; [done|by apply defaults_dated|done|done].
  - unfold Store_Update. destruct (isValid T _) eqn:Hv; [done|].
    destruct f; [done|]. destruct (stored T _) eqn:Hs; [|done].
    destruct (rows !! _); [|done]. by apply rows_ok_insert.
  - unfold Store_Delete. destruct ff; [done|]. destruct (rows !! id); [|done].
    destruct df; [done|]. simpl. intros id' y [_ Hy]%lookup_delete_Some. by apply Hrows.
Qed.

Lemma run_ops_ok ops rows :
  Forall (op_dated dated) ops → rows_ok rows → rows_ok (foldl run_op rows ops).
Proof.
  intros Hops. revert rows. induction Hops as [|op ops Hd _ IH]; intros rows Hr; [done|].
  by apply IH, run_op_ok.
Qed.

End laws.

(** What a save and an update did, read off their results. *)
Lemma Store_Save_spec f i n0 n rows x res rows' :
  Store_Save f i n0 n rows x = (res, rows') →
  match res with
  | Ok y => ∃ row, y = defaults T (preCreate T i n0 n x) ∧ isValid T (preCreate T i n0 n x) = None ∧
      rows !! row_id T y = None ∧ stored T y = Some row ∧ rows' = <[row_id T y := row]> rows
  | Err _ => rows' = rows
  end.
Proof.
  unfold Store_Save. destruct (isValid T _) eqn:Hv; intros Heq; [by simplify_eq|].
  destruct f; simpl in Heq; [by simplify_eq|].
  case_bool_decide as Hd; [by simplify_eq|]. destruct (stored T _) eqn:Hs; simplify_eq; [|done].
  exists x0. split_and!; [done|done|by apply eq_None_not_Some|done|done].
Qed.

Lemma Store_Update_spec hook f rf n rows x res rows' :
  Store_Update hook f rf n rows x = (res, rows') →
  match res with
  | Ok y => is_Some (rows !! row_id T (hook n x)) ∧ stored T (hook n x) = Some y ∧
      isValid T (hook n x) = None ∧ rows' = <[row_id T (hook n x) := y]> rows
  | Err _ => rows' = rows ∨ ∃ y, rf = true ∧ stored T (hook n x) = Some y ∧
      rows' = <[row_id T (hook n x) := y]> rows
  end.
Proof.
  unfold Store_Update. destruct (isValid T _) eqn:Hv; intros Heq; [simplify_eq; by left|].
  destruct f; simpl in Heq; [simplify_eq; by left|].
  destruct (stored T _) as [y|] eqn:Hs; [|simplify_eq; by left].
  destruct (rows !! _) eqn:Hr; [|simplify_eq; by left].
  destruct rf; simplify_eq; [right; eauto|]. split_and!; [by eexists|done|done|done].
Qed.

End template.

Arguments OpSave {X} _ _ _ _ _.
Arguments OpUpdate {X} _ _ _ _ _.
Arguments OpDelete {X} _ _ _.
