(* ===== verification/LmsTables.v ===== *)
(** * The tables of the learning system

    One [table] per store of server/channels/store/sqlstore/lms_store, and the
    Get, Save, Update and Delete the store has.  [X_defaults] fills in the
    database defaults of the migrations 000153 to 000155 for zero values,
    [X_stored] is the row an object becomes.  Amounts are NUMERIC(10,2). *)

From S2P Require Import Prelude.
From S2P Require Import GoUtf8.
From S2P Require Import GoTime.
From S2P Require Import LmsDate.
From S2P Require Import LmsModel.
From S2P Require Import CallStore.
From S2P Require Import LmsStore.

Local Open Scope string_scope.

Section tables.
Context `{UnicodeTables} `{Decimal D}.

(** ** Branch *)

Definition Branch_table : table (Branch) :=
  Table "Branch" Branch_ID BranchIsValid (λ i _ now, BranchPreCreate i now) id Some.

Definition BranchStore_Get := Store_Get Branch_table.
Definition BranchStore_Save := Store_Save Branch_table.
Definition BranchStore_Delete := Store_Delete Branch_table.

(** ** Course *)

Definition Course_stored (x : Course D) : option (Course D) :=
  fee ← opt_numeric 8 (Course_Fee x);
  Some {| Course_ID := Course_ID x;
          Course_Name := Course_Name x;
          Course_Code := Course_Code x;
          Course_Level := Course_Level x;
          Course_AgeRange := Course_AgeRange x;
          Course_TotalSessions := Course_TotalSessions x;
          Course_DurationPerSession := Course_DurationPerSession x;
          Course_Fee := fee;
          Course_Description := Course_Description x;
          Course_Curriculum := Course_Curriculum x;
          Course_Createat := Course_Createat x;
          Course_Updateat := Course_Updateat x |}.

Definition Course_table : table (Course D) :=
  Table "Course" Course_ID CourseIsValid (λ i _ now, CoursePreCreate i now) id Course_stored.

Definition CourseStore_Get := Store_Get Course_table.
Definition CourseStore_Save := Store_Save Course_table.
Definition CourseStore_Update := Store_Update Course_table CoursePreUpdate.
Definition CourseStore_Delete := Store_Delete Course_table.

(** ** CourseLesson *)

Definition CourseLesson_table : table (CourseLesson) :=
  Table "CourseLesson" CourseLesson_ID CourseLessonIsValid (λ i _ now, CourseLessonPreCreate i now) id Some.

Definition CourseLessonStore_Get := Store_Get CourseLesson_table.
Definition CourseLessonStore_Save := Store_Save CourseLesson_table.
Definition CourseLessonStore_Update := Store_Update CourseLesson_table CourseLessonPreUpdate.
Definition CourseLessonStore_Delete := Store_Delete CourseLesson_table.

(** ** Class *)

Definition Class_stored (x : Class) : option Class :=
  Some {| Class_ID := Class_ID x;
          Class_CourseID := Class_CourseID x;
          Class_BranchID := Class_BranchID x;
          Class_Name := Class_Name x;
          Class_Code := Class_Code x;
          Class_TeacherID := Class_TeacherID x;
          Class_Status := Class_Status x;
          Class_Room := Class_Room x;
          Class_StartDate := utcMidnight 0 (Class_StartDate x);
          Class_EndDate := utcMidnight 0 <$> Class_EndDate x;
          Class_Createat := Class_Createat x;
          Class_Updateat := Class_Updateat x;
          Class_ChatChannelID := Class_ChatChannelID x |}.

Definition Class_table : table (Class) :=
  Table "Class" Class_ID ClassIsValid (λ i _ now, ClassPreCreate i now) id Class_stored.

Definition ClassStore_Get := Store_Get Class_table.
Definition ClassStore_Save := Store_Save Class_table.
Definition ClassStore_Update := Store_Update Class_table ClassPreUpdate.
Definition ClassStore_Delete := Store_Delete Class_table.

(** ** StudentClass *)

Definition StudentClass_table : table (StudentClass) :=
  Table "StudentClass" StudentClass_ID StudentClassIsValid StudentClassPreCreate id Some.

Definition StudentClassStore_Get := Store_Get StudentClass_table.
Definition StudentClassStore_Save := Store_Save StudentClass_table.
Definition StudentClassStore_Delete := Store_Delete StudentClass_table.

(** ** LMSSession *)

Definition LMSSession_stored (x : LMSSession) : option LMSSession :=
  Some {| LMSSession_ID := LMSSession_ID x;
          LMSSession_Title := LMSSession_Title x;
          LMSSession_ClassID := LMSSession_ClassID x;
          LMSSession_StartTime := LMSSession_StartTime x;
          LMSSession_EndTime := LMSSession_EndTime x;
          LMSSession_Room := LMSSession_Room x;
          LMSSession_TeacherID := LMSSession_TeacherID x;
          LMSSession_LessonID := LMSSession_LessonID x;
          LMSSession_Status := LMSSession_Status x;
          LMSSession_Date := utcMidnight 0 (LMSSession_Date x);
          LMSSession_Createat := LMSSession_Createat x;
          LMSSession_Updateat := LMSSession_Updateat x |}.

Definition LMSSession_table : table (LMSSession) :=
  Table "LMSSession" LMSSession_ID LMSSessionIsValid (λ i _ now, LMSSessionPreCreate i now) id LMSSession_stored.

Definition LMSSessionStore_Get := Store_Get LMSSession_table.
Definition LMSSessionStore_Save := Store_Save LMSSession_table.
Definition LMSSessionStore_Update := Store_Update LMSSession_table LMSSessionPreUpdate.
Definition LMSSessionStore_Delete := Store_Delete LMSSession_table.

(** ** Attendance *)

Definition Attendance_table : table (Attendance) :=
  Table "Attendance" Attendance_ID AttendanceIsValid (λ i _ now, AttendancePreCreate i now) id Some.

Definition AttendanceStore_Get := Store_Get Attendance_table.
Definition AttendanceStore_Save := Store_Save Attendance_table.
Definition AttendanceStore_Delete := Store_Delete Attendance_table.

(** ** Lead *)

Definition Lead_stored (x : Lead) : option Lead :=
  Some {| Lead_ID := Lead_ID x;
          Lead_Name := Lead_Name x;
          Lead_Email := Lead_Email x;
          Lead_Phone := Lead_Phone x;
          Lead_Age := Lead_Age x;
          Lead_School := Lead_School x;
          Lead_Source := Lead_Source x;
          Lead_Need := Lead_Need x;
          Lead_Status := Lead_Status x;
          Lead_StudentID := Lead_StudentID x;
          Lead_Notes := Lead_Notes x;
          Lead_TestDate := utcMidnight 0 (Lead_TestDate x);
          Lead_TestResult := Lead_TestResult x;
          Lead_TestScore := Lead_TestScore x;
          Lead_CounselorID := Lead_CounselorID x;
          Lead_Createat := Lead_Createat x;
          Lead_Updateat := Lead_Updateat x |}.

Definition Lead_table : table (Lead) :=
  Table "Lead" Lead_ID LeadIsValid (λ i _ now, LeadPreCreate i now) id Lead_stored.

Definition LeadStore_Get := Store_Get Lead_table.
Definition LeadStore_Save := Store_Save Lead_table.
Definition LeadStore_Update := Store_Update Lead_table LeadPreUpdate.
Definition LeadStore_Delete := Store_Delete Lead_table.

(** ** LeadActivity *)

Definition LeadActivity_stored (x : LeadActivity) : option LeadActivity :=
  Some {| LeadActivity_ID := LeadActivity_ID x;
          LeadActivity_LeadID := LeadActivity_LeadID x;
          LeadActivity_Type := LeadActivity_Type x;
          LeadActivity_Content := LeadActivity_Content x;
          LeadActivity_NextFollowUp := utcMidnight 0 (LeadActivity_NextFollowUp x);
          LeadActivity_Createat := LeadActivity_Createat x;
          LeadActivity_Updateat := LeadActivity_Updateat x |}.

Definition LeadActivity_table : table (LeadActivity) :=
  Table "LeadActivity" LeadActivity_ID LeadActivityIsValid (λ i _ now, LeadActivityPreCreate i now) id LeadActivity_stored.

Definition LeadActivityStore_Get := Store_Get LeadActivity_table.
Definition LeadActivityStore_Save := Store_Save LeadActivity_table.

(** ** FeePackage *)

Definition FeePackage_defaults (x : FeePackage D) : FeePackage D :=
  {| FeePackage_ID := FeePackage_ID x;
     FeePackage_Name := FeePackage_Name x;
     FeePackage_TotalFee := FeePackage_TotalFee x;
     FeePackage_CourseID := FeePackage_CourseID x;
     FeePackage_SessionsIncluded := FeePackage_SessionsIncluded x;
     FeePackage_DiscountPercent := FeePackage_DiscountPercent x;
     FeePackage_IsActive := true;
     FeePackage_Createat := FeePackage_Createat x;
     FeePackage_Updateat := FeePackage_Updateat x |}.

Definition FeePackage_stored (x : FeePackage D) : option (FeePackage D) :=
  totalFee ← numeric 8 (FeePackage_TotalFee x);
  discountPercent ← opt_numeric 3 (FeePackage_DiscountPercent x);
  Some {| FeePackage_ID := FeePackage_ID x;
          FeePackage_Name := FeePackage_Name x;
          FeePackage_TotalFee := totalFee;
          FeePackage_CourseID := FeePackage_CourseID x;
          FeePackage_SessionsIncluded := FeePackage_SessionsIncluded x;
          FeePackage_DiscountPercent := discountPercent;
          FeePackage_IsActive := FeePackage_IsActive x;
          FeePackage_Createat := FeePackage_Createat x;
          FeePackage_Updateat := FeePackage_Updateat x |}.

Definition FeePackage_table : table (FeePackage D) :=
  Table "FeePackage" FeePackage_ID FeePackageIsValid (λ i _ now, FeePackagePreCreate i now) FeePackage_defaults FeePackage_stored.

Definition FeePackageStore_Get := Store_Get FeePackage_table.
Definition FeePackageStore_Save := Store_Save FeePackage_table.
Definition FeePackageStore_Delete := Store_Delete FeePackage_table.

(** ** Tuition *)

Definition Tuition_defaults (x : Tuition D) : Tuition D :=
  {| Tuition_ID := Tuition_ID x;
     Tuition_StudentID := Tuition_StudentID x;
     Tuition_ClassID := Tuition_ClassID x;
     Tuition_FeePackageID := Tuition_FeePackageID x;
     Tuition_TotalAmount := Tuition_TotalAmount x;
     Tuition_DiscountAmount := Tuition_DiscountAmount x;
     Tuition_PaidAmount := Tuition_PaidAmount x;
     Tuition_RemainingAmount := Tuition_RemainingAmount x;
     Tuition_Status := if_empty (Tuition_Status x) "UNPAID";
     Tuition_DueDate := Tuition_DueDate x;
     Tuition_Note := Tuition_Note x;
     Tuition_PromotionalFee := Some (default dec_zero (Tuition_PromotionalFee x));
     Tuition_DiscountValue := Some (default dec_zero (Tuition_DiscountValue x));
     Tuition_DiscountType := Tuition_DiscountType x;
     Tuition_Createat := Tuition_Createat x;
     Tuition_Updateat := Tuition_Updateat x |}.

Definition Tuition_stored (x : Tuition D) : option (Tuition D) :=
  totalAmount ← numeric 8 (Tuition_TotalAmount x);
  discountAmount ← numeric 8 (Tuition_DiscountAmount x);
  paidAmount ← numeric 8 (Tuition_PaidAmount x);
  remainingAmount ← numeric 8 (Tuition_RemainingAmount x);
  promotionalFee ← opt_numeric 8 (Tuition_PromotionalFee x);
  discountValue ← opt_numeric 8 (Tuition_DiscountValue x);
  Some {| Tuition_ID := Tuition_ID x;
          Tuition_StudentID := Tuition_StudentID x;
          Tuition_ClassID := Tuition_ClassID x;
          Tuition_FeePackageID := Tuition_FeePackageID x;
          Tuition_TotalAmount := totalAmount;
          Tuition_DiscountAmount := discountAmount;
          Tuition_PaidAmount := paidAmount;
          Tuition_RemainingAmount := remainingAmount;
          Tuition_Status := Tuition_Status x;
          Tuition_DueDate := utcMidnight 0 (Tuition_DueDate x);
          Tuition_Note := Tuition_Note x;
          Tuition_PromotionalFee := promotionalFee;
          Tuition_DiscountValue := discountValue;
          Tuition_DiscountType := Tuition_DiscountType x;
          Tuition_Createat := Tuition_Createat x;
          Tuition_Updateat := Tuition_Updateat x |}.

Definition Tuition_table : table (Tuition D) :=
  Table "Tuition" Tuition_ID TuitionIsValid (λ i _ now, TuitionPreCreate i now) Tuition_defaults Tuition_stored.

Definition TuitionStore_Get := Store_Get Tuition_table.
Definition TuitionStore_Save := Store_Save Tuition_table.
Definition TuitionStore_Update := Store_Update Tuition_table TuitionPreUpdate.
Definition TuitionStore_Delete := Store_Delete Tuition_table.

(** ** Payment *)

Definition Payment_stored (x : Payment D) : option (Payment D) :=
  amount ← numeric 8 (Payment_Amount x);
  Some {| Payment_ID := Payment_ID x;
          Payment_TuitionID := Payment_TuitionID x;
          Payment_Amount := amount;
          Payment_PaymentDate := utcMidnight 0 (Payment_PaymentDate x);
          Payment_Method := Payment_Method x;
          Payment_ReceiptNumber := Payment_ReceiptNumber x;
          Payment_PaidByID := Payment_PaidByID x;
          Payment_Note := Payment_Note x;
          Payment_Createat := Payment_Createat x;
          Payment_Updateat := Payment_Updateat x |}.

Definition Payment_table : table (Payment D) :=
  Table "Payment" Payment_ID PaymentIsValid PaymentPreCreate id Payment_stored.

Definition PaymentStore_Get := Store_Get Payment_table.
Definition PaymentStore_Save := Store_Save Payment_table.

(** ** FeeRefund *)

Definition FeeRefund_defaults (x : FeeRefund D) : FeeRefund D :=
  {| FeeRefund_ID := FeeRefund_ID x;
     FeeRefund_TuitionID := FeeRefund_TuitionID x;
     FeeRefund_Amount := FeeRefund_Amount x;
     FeeRefund_RefundDate := FeeRefund_RefundDate x;
     FeeRefund_Reason := FeeRefund_Reason x;
     FeeRefund_Status := if_empty (FeeRefund_Status x) "PENDING";
     FeeRefund_ApprovedByID := FeeRefund_ApprovedByID x;
     FeeRefund_Createat := FeeRefund_Createat x;
     FeeRefund_Updateat := FeeRefund_Updateat x |}.

Definition FeeRefund_stored (x : FeeRefund D) : option (FeeRefund D) :=
  amount ← numeric 8 (FeeRefund_Amount x);
  Some {| FeeRefund_ID := FeeRefund_ID x;
          FeeRefund_TuitionID := FeeRefund_TuitionID x;
          FeeRefund_Amount := amount;
          FeeRefund_RefundDate := utcMidnight 0 (FeeRefund_RefundDate x);
          FeeRefund_Reason := FeeRefund_Reason x;
          FeeRefund_Status := FeeRefund_Status x;
          FeeRefund_ApprovedByID := FeeRefund_ApprovedByID x;
          FeeRefund_Createat := FeeRefund_Createat x;
          FeeRefund_Updateat := FeeRefund_Updateat x |}.

Definition FeeRefund_table : table (FeeRefund D) :=
  Table "FeeRefund" FeeRefund_ID FeeRefundIsValid FeeRefundPreCreate FeeRefund_defaults FeeRefund_stored.

Definition FeeRefundStore_Get := Store_Get FeeRefund_table.
Definition FeeRefundStore_Save := Store_Save FeeRefund_table.
Definition FeeRefundStore_Delete := Store_Delete FeeRefund_table.

(** ** PostCategory *)

Definition PostCategory_table : table (PostCategory) :=
  Table "PostCategory" PostCategory_ID PostCategoryIsValid (λ i _ now, PostCategoryPreCreate i now) id Some.

Definition PostCategoryStore_Get := Store_Get PostCategory_table.
Definition PostCategoryStore_Save := Store_Save PostCategory_table.
Definition PostCategoryStore_Update := Store_Update PostCategory_table PostCategoryPreUpdate.
Definition PostCategoryStore_Delete := Store_Delete PostCategory_table.

(** ** BlogPost *)

Definition BlogPost_defaults (x : BlogPost) : BlogPost :=
  {| BlogPost_ID := BlogPost_ID x;
     BlogPost_Title := BlogPost_Title x;
     BlogPost_Slug := BlogPost_Slug x;
     BlogPost_Content := BlogPost_Content x;
     BlogPost_Excerpt := BlogPost_Excerpt x;
     BlogPost_CategoryID := BlogPost_CategoryID x;
     BlogPost_AuthorID := BlogPost_AuthorID x;
     BlogPost_Status := if_empty (BlogPost_Status x) "DRAFT";
     BlogPost_SeoTitle := BlogPost_SeoTitle x;
     BlogPost_SeoDescription := BlogPost_SeoDescription x;
     BlogPost_SeoKeywords := BlogPost_SeoKeywords x;
     BlogPost_PublishedAt := BlogPost_PublishedAt x;
     BlogPost_Createat := BlogPost_Createat x;
     BlogPost_Updateat := BlogPost_Updateat x |}.

Definition BlogPost_table : table (BlogPost) :=
  Table "BlogPost" BlogPost_ID BlogPostIsValid (λ i _ now, BlogPostPreCreate i now) BlogPost_defaults Some.

Definition BlogPostStore_Get := Store_Get BlogPost_table.
Definition BlogPostStore_Save := Store_Save BlogPost_table.
Definition BlogPostStore_Update := Store_Update BlogPost_table BlogPostPreUpdate.
Definition BlogPostStore_Delete := Store_Delete BlogPost_table.

(** ** WeeklyReview *)

Definition WeeklyReview_table : table (WeeklyReview) :=
  Table "WeeklyReview" WeeklyReview_ID WeeklyReviewIsValid (λ i _ now, WeeklyReviewPreCreate i now) id Some.

Definition WeeklyReviewStore_Get := Store_Get WeeklyReview_table.
Definition WeeklyReviewStore_Save := Store_Save WeeklyReview_table.
Definition WeeklyReviewStore_Update := Store_Update WeeklyReview_table WeeklyReviewPreUpdate.
Definition WeeklyReviewStore_Delete := Store_Delete WeeklyReview_table.

(** ** Homework *)

Definition Homework_stored (x : Homework) : option Homework :=
  Some {| Homework_ID := Homework_ID x;
          Homework_Title := Homework_Title x;
          Homework_Description := Homework_Description x;
          Homework_SessionID := Homework_SessionID x;
          Homework_ClassID := Homework_ClassID x;
          Homework_CourseID := Homework_CourseID x;
          Homework_TeacherID := Homework_TeacherID x;
          Homework_Deadline := utcMidnight 0 (Homework_Deadline x);
          Homework_Createat := Homework_Createat x;
          Homework_FileID := Homework_FileID x;
          Homework_Updateat := Homework_Updateat x |}.

Definition Homework_table : table (Homework) :=
  Table "Homework" Homework_ID HomeworkIsValid (λ i _ now, HomeworkPreCreate i now) id Homework_stored.

Definition HomeworkStore_Get := Store_Get Homework_table.
Definition HomeworkStore_Save := Store_Save Homework_table.
Definition HomeworkStore_Update := Store_Update Homework_table HomeworkPreUpdate.
Definition HomeworkStore_Delete := Store_Delete Homework_table.

(** ** Submission *)

Definition Submission_table : table (Submission) :=
  Table "Submission" Submission_ID SubmissionIsValid (λ i _ now, SubmissionPreCreate i now) id Some.

Definition SubmissionStore_Get := Store_Get Submission_table.
Definition SubmissionStore_Save := Store_Save Submission_table.
Definition SubmissionStore_Update := Store_Update Submission_table SubmissionPreUpdate.
Definition SubmissionStore_Delete := Store_Delete Submission_table.

(** ** ClassMedia *)

Definition ClassMedia_table : table (ClassMedia) :=
  Table "ClassMedium" ClassMedia_ID ClassMediaIsValid (λ i _ now, ClassMediaPreCreate i now) id Some.

Definition ClassMediaStore_Get := Store_Get ClassMedia_table.
Definition ClassMediaStore_Save := Store_Save ClassMedia_table.
Definition ClassMediaStore_Delete := Store_Delete (Table "ClassMedia" ClassMedia_ID ClassMediaIsValid (λ i _ now, ClassMediaPreCreate i now) id Some).

(** ** AdditionalFee *)

Definition AdditionalFee_stored (x : AdditionalFee D) : option (AdditionalFee D) :=
  amount ← numeric 8 (AdditionalFee_Amount x);
  Some {| AdditionalFee_ID := AdditionalFee_ID x;
          AdditionalFee_TuitionID := AdditionalFee_TuitionID x;
          AdditionalFee_Label := AdditionalFee_Label x;
          AdditionalFee_Amount := amount;
          AdditionalFee_Createat := AdditionalFee_Createat x;
          AdditionalFee_Updateat := AdditionalFee_Updateat x |}.

Definition AdditionalFee_table : table (AdditionalFee D) :=
  Table "AdditionalFee" AdditionalFee_ID AdditionalFeeIsValid (λ i _ now, AdditionalFeePreCreate i now) id AdditionalFee_stored.

Definition AdditionalFeeStore_Get := Store_Get AdditionalFee_table.
Definition AdditionalFeeStore_Save := Store_Save AdditionalFee_table.
Definition AdditionalFeeStore_Delete := Store_Delete AdditionalFee_table.

(** ** Task *)

Definition Task_defaults (x : Task) : Task :=
  {| Task_ID := Task_ID x;
     Task_Title := Task_Title x;
     Task_Description := Task_Description x;
     Task_AssigneeID := Task_AssigneeID x;
     Task_CreatorID := Task_CreatorID x;
     Task_Deadline := Task_Deadline x;
     Task_Priority := if_empty (Task_Priority x) "MEDIUM";
     Task_Status := if_empty (Task_Status x) "TODO";
     Task_Notes := Task_Notes x;
     Task_Createat := Task_Createat x;
     Task_Updateat := Task_Updateat x |}.

Definition Task_stored (x : Task) : option Task :=
  Some {| Task_ID := Task_ID x;
          Task_Title := Task_Title x;
          Task_Description := Task_Description x;
          Task_AssigneeID := Task_AssigneeID x;
          Task_CreatorID := Task_CreatorID x;
          Task_Deadline := utcMidnight 0 (Task_Deadline x);
          Task_Priority := Task_Priority x;
          Task_Status := Task_Status x;
          Task_Notes := Task_Notes x;
          Task_Createat := Task_Createat x;
          Task_Updateat := Task_Updateat x |}.

Definition Task_table : table (Task) :=
  Table "Task" Task_ID TaskIsValid (λ i _ now, TaskPreCreate i now) Task_defaults Task_stored.

Definition TaskStore_Get := Store_Get Task_table.
Definition TaskStore_Save := Store_Save Task_table.
Definition TaskStore_Update := Store_Update Task_table TaskPreUpdate.
Definition TaskStore_Delete := Store_Delete Task_table.

(** ** Banner *)

Definition Banner_defaults (x : Banner) : Banner :=
  {| Banner_ID := Banner_ID x;
     Banner_Title := Banner_Title x;
     Banner_ImageURL := Banner_ImageURL x;
     Banner_LinkURL := Banner_LinkURL x;
     Banner_Position := Banner_Position x;
     Banner_IsActive := true;
     Banner_Createat := Banner_Createat x;
     Banner_Updateat := Banner_Updateat x |}.

Definition Banner_table : table (Banner) :=
  Table "Banner" Banner_ID BannerIsValid (λ i _ now, BannerPreCreate i now) Banner_defaults Some.

Definition BannerStore_Get := Store_Get Banner_table.
Definition BannerStore_Save := Store_Save Banner_table.
Definition BannerStore_Update := Store_Update Banner_table BannerPreUpdate.
Definition BannerStore_Delete := Store_Delete Banner_table.

(** ** Notification *)

Definition Notification_table : table (Notification) :=
  Table "Notification" Notification_ID NotificationIsValid (λ i _ now, NotificationPreCreate i now) id Some.

Definition NotificationStore_Get := Store_Get Notification_table.
Definition NotificationStore_Save := Store_Save Notification_table.

(** ** Material *)

Definition Material_defaults (x : Material) : Material :=
  {| Material_ID := Material_ID x;
     Material_Title := Material_Title x;
     Material_Description := Material_Description x;
     Material_CourseID := Material_CourseID x;
     Material_Unit := Material_Unit x;
     Material_Visibility := if_empty (Material_Visibility x) "TEACHER_ONLY";
     Material_FileID := Material_FileID x;
     Material_UploadedByID := Material_UploadedByID x;
     Material_Version := if is_zero (Material_Version x) then 1 else Material_Version x;
     Material_Createat := Material_Createat x;
     Material_Updateat := Material_Updateat x |}.

Definition Material_table : table (Material) :=
  Table "Material" Material_ID MaterialIsValid (λ i _ now, MaterialPreCreate i now) Material_defaults Some.

Definition MaterialStore_Get := Store_Get Material_table.
Definition MaterialStore_Save := Store_Save Material_table.
Definition MaterialStore_Update := Store_Update Material_table MaterialPreUpdate.
Definition MaterialStore_Delete := Store_Delete Material_table.

End tables.

(** ** Laws *)

Lemma utcMidnight_idem t : utcMidnight 0 (utcMidnight 0 t) = utcMidnight 0 t.
Proof. unfold utcMidnight, day. rewrite !Z.add_0_r, Z.div_mul by done. done. Qed.

Lemma utcMidnight_date t : is_midnight t → utcMidnight 0 t = t.
Proof.
  unfold is_midnight, utcMidnight. intros Hm. rewrite Z.add_0_r.
  pose proof (Z.div_mod t day ltac:(done)). lia.
Qed.

Lemma first_error_ext l l' :
  Forall2 (λ c c' : bool * string, c.1 = false → c'.1 = false) l l' →
  first_error l = None → first_error l' = None.
Proof.
  rewrite !first_error_none. induction 1 as [|c c' l l' Hc _ IH]; [done|].
  rewrite !Forall_cons. naive_solver.
Qed.

Lemma longer_if_empty n s d :
  longer n d = false → longer n s = false → longer n (if_empty s d) = false.
Proof. unfold if_empty. by destruct (decide (s = "")). Qed.

Section laws.
Context `{UnicodeTables} `{DecimalOk D}.

Lemma opt_numeric_idem k (a b : option D) : opt_numeric k a = Some b → opt_numeric k b = Some b.
Proof.
  destruct a as [a|]; simpl; [|by intros [= <-]].
  destruct (numeric k a) as [c|] eqn:Hn; simpl; intros [= <-]. simpl. by erewrite numeric_idem.
Qed.

Lemma fmap_midnight_idem (o : option Z) :
  utcMidnight 0 <$> (utcMidnight 0 <$> o) = utcMidnight 0 <$> o.
Proof. destruct o; simpl; [|done]. by rewrite utcMidnight_idem. Qed.

Ltac unfold_stored H := unfold Course_stored,
  Class_stored,
  LMSSession_stored,
  Lead_stored,
  LeadActivity_stored,
  FeePackage_stored,
  Tuition_stored,
  Payment_stored,
  FeeRefund_stored,
  Homework_stored,
  AdditionalFee_stored,
  Task_stored in H.
Ltac unfold_stored_goal := unfold Course_stored,
  Class_stored,
  LMSSession_stored,
  Lead_stored,
  LeadActivity_stored,
  FeePackage_stored,
  Tuition_stored,
  Payment_stored,
  FeeRefund_stored,
  Homework_stored,
  AdditionalFee_stored,
  Task_stored.

(** Open the binds of a [stored] function in a hypothesis. *)
Ltac open_stored H :=
  repeat match type of H with
  | (_ ≫= _) = Some _ => apply bind_Some in H as (? & ? & H)
  end;
  injection H as <-.

Ltac table_ok_tac :=
  split;
  [ intros x y Hs; simpl in Hs; unfold_stored Hs; open_stored Hs; reflexivity
  | intros x y Hs _ Hv; simpl in Hs; unfold_stored Hs; open_stored Hs; exact Hv
  | intros x y Hs; simpl in Hs |- *; unfold_stored Hs; open_stored Hs;
    unfold_stored_goal; simpl;
    repeat (erewrite numeric_idem by eassumption; simpl);
    repeat (erewrite opt_numeric_idem by eassumption; simpl);
    rewrite ?utcMidnight_idem, ?fmap_midnight_idem; reflexivity
  | reflexivity
  | intros x Hv; first
      [ exact Hv
      | revert Hv; apply first_error_ext; repeat constructor; simpl; auto using longer_if_empty ]
  | done ].

#[export] Instance Branch_table_ok : TableOk Branch_table (λ _, True).
Proof. table_ok_tac. Qed.

#[export] Instance Course_table_ok : TableOk Course_table (λ _, True).
Proof. table_ok_tac. Qed.

#[export] Instance CourseLesson_table_ok : TableOk CourseLesson_table (λ _, True).
Proof. table_ok_tac. Qed.

#[export] Instance Class_table_ok : TableOk Class_table (λ _, True).
Proof. table_ok_tac. Qed.

#[export] Instance StudentClass_table_ok : TableOk StudentClass_table (λ _, True).
Proof. table_ok_tac. Qed.

#[export] Instance LMSSession_table_ok :
  TableOk LMSSession_table (λ x, is_midnight (LMSSession_Date x)).
Proof.
  split; [by intros x y [= <-]| |intros x y [= <-]; simpl; unfold_stored_goal; simpl;
    by rewrite utcMidnight_idem|done|by intros x|done].
  intros x y [= <-] Hd Hv. simpl. unfold LMSSessionIsValid. simpl. by rewrite utcMidnight_date.
Qed.
#[export] Instance Attendance_table_ok : TableOk Attendance_table (λ _, True).
Proof. table_ok_tac. Qed.

#[export] Instance Lead_table_ok : TableOk Lead_table (λ _, True).
Proof. table_ok_tac. Qed.

#[export] Instance LeadActivity_table_ok : TableOk LeadActivity_table (λ _, True).
Proof. table_ok_tac. Qed.

#[export] Instance FeePackage_table_ok : TableOk FeePackage_table (λ _, True).
Proof. table_ok_tac. Qed.

#[export] Instance Tuition_table_ok : TableOk Tuition_table (λ _, True).
Proof. table_ok_tac. Qed.

#[export] Instance Payment_table_ok : TableOk Payment_table (λ _, True).
Proof. table_ok_tac. Qed.

#[export] Instance FeeRefund_table_ok : TableOk FeeRefund_table (λ _, True).
Proof. table_ok_tac. Qed.

#[export] Instance PostCategory_table_ok : TableOk PostCategory_table (λ _, True).
Proof. table_ok_tac. Qed.

#[export] Instance BlogPost_table_ok : TableOk BlogPost_table (λ _, True).
Proof. table_ok_tac. Qed.

#[export] Instance WeeklyReview_table_ok : TableOk WeeklyReview_table (λ _, True).
Proof. table_ok_tac. Qed.

#[export] Instance Homework_table_ok : TableOk Homework_table (λ _, True).
Proof. table_ok_tac. Qed.

#[export] Instance Submission_table_ok : TableOk Submission_table (λ _, True).
Proof. table_ok_tac. Qed.

#[export] Instance ClassMedia_table_ok : TableOk ClassMedia_table (λ _, True).
Proof. table_ok_tac. Qed.

#[export] Instance AdditionalFee_table_ok : TableOk AdditionalFee_table (λ _, True).
Proof. table_ok_tac. Qed.

#[export] Instance Task_table_ok : TableOk Task_table (λ _, True).
Proof. table_ok_tac. Qed.

#[export] Instance Banner_table_ok : TableOk Banner_table (λ _, True).
Proof. table_ok_tac. Qed.

#[export] Instance Notification_table_ok : TableOk Notification_table (λ _, True).
Proof. table_ok_tac. Qed.

#[export] Instance Material_table_ok : TableOk Material_table (λ _, True).
Proof. table_ok_tac. Qed.

End laws.
