(* ===== verification/LmsRows.v ===== *)
(** * What the tables hold

    Whatever the stores are asked to do, a stored row is one the model
    accepts; and the flags INSERT leaves out. *)

From S2P Require Import Prelude.
From S2P Require Import GoUtf8.
From S2P Require Import GoTime.
From S2P Require Import LmsDate.
From S2P Require Import LmsModel.
From S2P Require Import CallStore.
From S2P Require Import LmsStore.
From S2P Require Import LmsTables.

Local Open Scope string_scope.

(** Every row any sequence of saves, updates and deletes leaves in the empty
    table is filed under its id, accepted by IsValid, and read back as it was
    stored.  [dated]: the dates that were written are dates. *)
Definition sound {X} (T : table X) (dated : X → Prop) : Prop :=
  ∀ ops id x, Forall (op_dated T dated) ops → foldl (run_op T) ∅ ops !! id = Some x → row_ok T id x.

Lemma table_sound {X} (T : table X) dated `{!TableOk T dated} : sound T dated.
Proof.
  intros ops id x Hops. apply (run_ops_ok T dated); [done|]. intros i y Hy. by rewrite lookup_empty in Hy.
Qed.

Section rows.
Context `{UnicodeTables} `{DecimalOk D}.

(** in every table of the learning system, whatever sequence of saves,
    updates (with any hook, any fault) and deletes ran, every stored row is
    filed under its own id, passes IsValid, and reads back unchanged. *)
Theorem stored_rows_sound :
  sound Branch_table (λ _, True) ∧
  sound Course_table (λ _, True) ∧
  sound CourseLesson_table (λ _, True) ∧
  sound Class_table (λ _, True) ∧
  sound StudentClass_table (λ _, True) ∧
  sound LMSSession_table (λ x, is_midnight (LMSSession_Date x)) ∧
  sound Attendance_table (λ _, True) ∧
  sound Lead_table (λ _, True) ∧
  sound LeadActivity_table (λ _, True) ∧
  sound FeePackage_table (λ _, True) ∧
  sound Tuition_table (λ _, True) ∧
  sound Payment_table (λ _, True) ∧
  sound FeeRefund_table (λ _, True) ∧
  sound PostCategory_table (λ _, True) ∧
  sound BlogPost_table (λ _, True) ∧
  sound WeeklyReview_table (λ _, True) ∧
  sound Homework_table (λ _, True) ∧
  sound Submission_table (λ _, True) ∧
  sound ClassMedia_table (λ _, True) ∧
  sound AdditionalFee_table (λ _, True) ∧
  sound Task_table (λ _, True) ∧
  sound Banner_table (λ _, True) ∧
  sound Notification_table (λ _, True) ∧
  sound Material_table (λ _, True).
Proof. split_and!; by apply table_sound, _. Qed.

(** a banner or a fee package cannot be created inactive.  The flag false
    is the zero value, [boil.Infer] leaves it out of the INSERT and the
    database default is TRUE: the row and the answer say active. *)
Theorem created_active :
  (∀ f i n0 n rows b y rows', BannerStore_Save f i n0 n rows b = (Ok y, rows') →
     Banner_IsActive y = true ∧ ∃ row, rows' !! Banner_ID y = Some row ∧ Banner_IsActive row = true) ∧
  (∀ f i n0 n rows (p : FeePackage D) y rows', FeePackageStore_Save f i n0 n rows p = (Ok y, rows') →
     FeePackage_IsActive y = true ∧
     ∃ row, rows' !! FeePackage_ID y = Some row ∧ FeePackage_IsActive row = true).
Proof.
  split; intros f i n0 n rows x y rows' Hs; apply Store_Save_spec in Hs as (row & -> & _ & _ & Hst & ->);
    (split; [done|]); exists row; (split; [apply lookup_insert_eq|]).
  - by injection Hst as <-.
  - simpl in Hst. unfold FeePackage_stored in Hst.
    repeat match type of Hst with (_ ≫= _) = Some _ => apply bind_Some in Hst as (? & ? & Hst) end.
    by injection Hst as <-.
Qed.

End rows.

(** ** Witnesses *)

#[local] Existing Instance cents.
#[local] Existing Instance cents_ok.
#[local] Instance no_unicode : UnicodeTables := λ _, false.

Abbreviation an_id := "abcdefghijklmnopqrstuvwxyz".

Definition hidden_banner : Banner :=
  {| Banner_ID := ""; Banner_Title := "Tet"; Banner_ImageURL := None; Banner_LinkURL := None;
     Banner_Position := 0; Banner_IsActive := false; Banner_Createat := 0; Banner_Updateat := 0 |}.

Abbreviation saved_banner := (BannerStore_Save false an_id 0 0 ∅ hidden_banner).

Lemma created_active_witness :
  ∃ y, saved_banner.1 = Ok y ∧ Banner_IsActive hidden_banner = false ∧ Banner_IsActive y = true.
Proof.
  assert (∃ y, saved_banner.1 = Ok y) as [y Hy] by (eexists; vm_compute; reflexivity).
  exists y. split; [exact Hy|]. split; [reflexivity|].
  destruct (created_active (D:=Z)) as [Hbanner _].
  refine (proj1 (Hbanner false an_id 0%Z 0%Z ∅ hidden_banner y saved_banner.2 _)).
  rewrite <-Hy. apply surjective_pairing.
Defined.

Lemma stored_rows_sound_witness :
  ∃ row, saved_banner.2 !! an_id = Some row ∧ BannerIsValid row = None.
Proof.
  assert (∃ row, saved_banner.2 !! an_id = Some row) as [row Hrow] by (eexists; vm_compute; reflexivity).
  exists row. split; [exact Hrow|].
  pose proof (stored_rows_sound (D:=Z)) as Hall.
  repeat match type of Hall with _ ∧ _ => destruct Hall as [? Hall] end.
  assert (sound Banner_table (λ _, True)) as Hbanner by assumption.
  destruct (Hbanner [OpSave false an_id 0%Z 0%Z hidden_banner] an_id row) as (_ & Hv & _).
  - repeat constructor.
  - exact Hrow.
  - exact Hv.
Defined.
