(* ===== verification/LmsApp.v ===== *)
(** * The world of the learning system's app layer (server/channels/app/lms)

    The tables the app operations below work on, the outside world (clock,
    fresh ids, statements the database refuses), and the statements as
    effects.  Every statement is its own transaction, as in the code: an
    operation that fails half-way leaves what its earlier statements wrote.

    Foreign keys between the tables are checked, and deletes cascade or are
    refused, as the migrations 000153, 000154 and 000164 say.  The keys into
    users and files are not checked here: a statement they refuse is among the
    faults. *)

From S2P Require Import Prelude.
From S2P Require Import GoUtf8.
From S2P Require Import LmsModel.
From S2P Require Import CallStore.
From S2P Require Import LmsStore.
From S2P Require Import LmsTables.

Local Open Scope string_scope.
Local Open Scope go_scope.

(** ** The database *)

(** The tables around teaching: what is offered, published and announced. *)
Record contentDB {D : Type} := ContentDB {
  db_branches : gmap string Branch;
  db_courses : gmap string (Course D);
  db_lessons : gmap string CourseLesson;
  db_packages : gmap string (FeePackage D);
  db_categories : gmap string PostCategory;
  db_posts : gmap string BlogPost;
  db_reviews : gmap string WeeklyReview;
  db_media : gmap string ClassMedia;
  db_tasks : gmap string Task;
  db_banners : gmap string Banner;
  db_notifications : gmap string Notification;
  db_materials : gmap string Material;
}.
Arguments contentDB : clear implicits.

Record lmsDB {D : Type} := LmsDB {
  db_classes : gmap string Class;
  db_enrolments : gmap string StudentClass;
  db_sessions : gmap string LMSSession;
  db_attendances : gmap string Attendance;
  db_tuitions : gmap string (Tuition D);
  db_payments : gmap string (Payment D);
  db_refunds : gmap string (FeeRefund D);
  db_fees : gmap string (AdditionalFee D);
  db_homeworks : gmap string Homework;
  db_submissions : gmap string Submission;
  db_leads : gmap string Lead;
  db_lead_activities : gmap string LeadActivity;
  db_content : contentDB D;
}.
Arguments lmsDB : clear implicits.

Definition no_content {D} : contentDB D := ContentDB _ ∅ ∅ ∅ ∅ ∅ ∅ ∅ ∅ ∅ ∅ ∅ ∅.

Definition empty_lmsDB {D} : lmsDB D := LmsDB _ ∅ ∅ ∅ ∅ ∅ ∅ ∅ ∅ ∅ ∅ ∅ ∅ no_content.

(** A table of the database. *)
Record lens (D X : Type) := Lens {
  tget : lmsDB D → gmap string X;
  tset : gmap string X → lmsDB D → lmsDB D;
}.
Arguments Lens {D X} _ _.
Arguments tget {D X} _ _.
Arguments tset {D X} _ _ _.

Definition Classes {D} : lens D Class := Lens db_classes (λ t '(LmsDB _ _ b c d e f g h i j k l z), LmsDB _ t b c d e f g h i j k l z).
Definition Enrolments {D} : lens D StudentClass := Lens db_enrolments (λ t '(LmsDB _ a _ c d e f g h i j k l z), LmsDB _ a t c d e f g h i j k l z).
Definition Sessions {D} : lens D LMSSession := Lens db_sessions (λ t '(LmsDB _ a b _ d e f g h i j k l z), LmsDB _ a b t d e f g h i j k l z).
Definition Attendances {D} : lens D Attendance := Lens db_attendances (λ t '(LmsDB _ a b c _ e f g h i j k l z), LmsDB _ a b c t e f g h i j k l z).
Definition Tuitions {D} : lens D (Tuition D) := Lens db_tuitions (λ t '(LmsDB _ a b c d _ f g h i j k l z), LmsDB _ a b c d t f g h i j k l z).
Definition Payments {D} : lens D (Payment D) := Lens db_payments (λ t '(LmsDB _ a b c d e _ g h i j k l z), LmsDB _ a b c d e t g h i j k l z).
Definition Refunds {D} : lens D (FeeRefund D) := Lens db_refunds (λ t '(LmsDB _ a b c d e f _ h i j k l z), LmsDB _ a b c d e f t h i j k l z).
Definition Fees {D} : lens D (AdditionalFee D) := Lens db_fees (λ t '(LmsDB _ a b c d e f g _ i j k l z), LmsDB _ a b c d e f g t i j k l z).
Definition Homeworks {D} : lens D Homework := Lens db_homeworks (λ t '(LmsDB _ a b c d e f g h _ j k l z), LmsDB _ a b c d e f g h t j k l z).
Definition Submissions {D} : lens D Submission := Lens db_submissions (λ t '(LmsDB _ a b c d e f g h i _ k l z), LmsDB _ a b c d e f g h i t k l z).
Definition Leads {D} : lens D Lead := Lens db_leads (λ t '(LmsDB _ a b c d e f g h i j _ l z), LmsDB _ a b c d e f g h i j t l z).
Definition LeadActivities {D} : lens D LeadActivity := Lens db_lead_activities (λ t '(LmsDB _ a b c d e f g h i j k _ z), LmsDB _ a b c d e f g h i j k t z).

(** A table of the content. *)
Definition content_lens {D X} (get : contentDB D → gmap string X)
    (set : gmap string X → contentDB D → contentDB D) : lens D X :=
  Lens (λ d, get (db_content d))
    (λ t '(LmsDB _ a b c d e f g h i j k l z), LmsDB _ a b c d e f g h i j k l (set t z)).

Definition Branches {D} : lens D Branch := content_lens db_branches (λ t '(ContentDB _ _ b c d e f g h i j k l), ContentDB _ t b c d e f g h i j k l).
Definition Courses {D} : lens D (Course D) := content_lens db_courses (λ t '(ContentDB _ a _ c d e f g h i j k l), ContentDB _ a t c d e f g h i j k l).
Definition CourseLessons {D} : lens D CourseLesson := content_lens db_lessons (λ t '(ContentDB _ a b _ d e f g h i j k l), ContentDB _ a b t d e f g h i j k l).
Definition FeePackages {D} : lens D (FeePackage D) := content_lens db_packages (λ t '(ContentDB _ a b c _ e f g h i j k l), ContentDB _ a b c t e f g h i j k l).
Definition PostCategories {D} : lens D PostCategory := content_lens db_categories (λ t '(ContentDB _ a b c d _ f g h i j k l), ContentDB _ a b c d t f g h i j k l).
Definition BlogPosts {D} : lens D BlogPost := content_lens db_posts (λ t '(ContentDB _ a b c d e _ g h i j k l), ContentDB _ a b c d e t g h i j k l).
Definition WeeklyReviews {D} : lens D WeeklyReview := content_lens db_reviews (λ t '(ContentDB _ a b c d e f _ h i j k l), ContentDB _ a b c d e f t h i j k l).
Definition ClassMedias {D} : lens D ClassMedia := content_lens db_media (λ t '(ContentDB _ a b c d e f g _ i j k l), ContentDB _ a b c d e f g t i j k l).
Definition Tasks {D} : lens D Task := content_lens db_tasks (λ t '(ContentDB _ a b c d e f g h _ j k l), ContentDB _ a b c d e f g h t j k l).
Definition Banners {D} : lens D Banner := content_lens db_banners (λ t '(ContentDB _ a b c d e f g h i _ k l), ContentDB _ a b c d e f g h i t k l).
Definition Notifications {D} : lens D Notification := content_lens db_notifications (λ t '(ContentDB _ a b c d e f g h i j _ l), ContentDB _ a b c d e f g h i j t l).
Definition Materials {D} : lens D Material := content_lens db_materials (λ t '(ContentDB _ a b c d e f g h i j k _), ContentDB _ a b c d e f g h i j k t).

(** What a lens owes: it reads and writes its own table only. *)
Class LensOk {D X} (L : lens D X) := {
  tget_tset : ∀ t d, tget L (tset L t d) = t;
  tset_tget : ∀ d, tset L (tget L d) d = d;
}.

Section lenses.
Context {D : Type}.

Ltac lens_tac := split; [by intros ? []|by intros []].
Ltac content_tac := split; [by intros ? [???????????? []]|by intros [???????????? []]].
#[export] Instance Classes_ok : LensOk (D:=D) Classes. Proof. lens_tac. Qed.
#[export] Instance Enrolments_ok : LensOk (D:=D) Enrolments. Proof. lens_tac. Qed.
#[export] Instance Sessions_ok : LensOk (D:=D) Sessions. Proof. lens_tac. Qed.
#[export] Instance Attendances_ok : LensOk (D:=D) Attendances. Proof. lens_tac. Qed.
#[export] Instance Tuitions_ok : LensOk (D:=D) Tuitions. Proof. lens_tac. Qed.
#[export] Instance Payments_ok : LensOk (D:=D) Payments. Proof. lens_tac. Qed.
#[export] Instance Refunds_ok : LensOk (D:=D) Refunds. Proof. lens_tac. Qed.
#[export] Instance Fees_ok : LensOk (D:=D) Fees. Proof. lens_tac. Qed.
#[export] Instance Homeworks_ok : LensOk (D:=D) Homeworks. Proof. lens_tac. Qed.
#[export] Instance Submissions_ok : LensOk (D:=D) Submissions. Proof. lens_tac. Qed.
#[export] Instance Leads_ok : LensOk (D:=D) Leads. Proof. lens_tac. Qed.
#[export] Instance LeadActivities_ok : LensOk (D:=D) LeadActivities. Proof. lens_tac. Qed.
#[export] Instance Branches_ok : LensOk (D:=D) Branches. Proof. content_tac. Qed.
#[export] Instance Courses_ok : LensOk (D:=D) Courses. Proof. content_tac. Qed.
#[export] Instance CourseLessons_ok : LensOk (D:=D) CourseLessons. Proof. content_tac. Qed.
#[export] Instance FeePackages_ok : LensOk (D:=D) FeePackages. Proof. content_tac. Qed.
#[export] Instance PostCategories_ok : LensOk (D:=D) PostCategories. Proof. content_tac. Qed.
#[export] Instance BlogPosts_ok : LensOk (D:=D) BlogPosts. Proof. content_tac. Qed.
#[export] Instance WeeklyReviews_ok : LensOk (D:=D) WeeklyReviews. Proof. content_tac. Qed.
#[export] Instance ClassMedias_ok : LensOk (D:=D) ClassMedias. Proof. content_tac. Qed.
#[export] Instance Tasks_ok : LensOk (D:=D) Tasks. Proof. content_tac. Qed.
#[export] Instance Banners_ok : LensOk (D:=D) Banners. Proof. content_tac. Qed.
#[export] Instance Notifications_ok : LensOk (D:=D) Notifications. Proof. content_tac. Qed.
#[export] Instance Materials_ok : LensOk (D:=D) Materials. Proof. content_tac. Qed.
End lenses.

(** The rows of one table that survive a cascade. *)
Definition keep {X} (P : X → bool) (m : gmap string X) : gmap string X :=
  filter (λ kv, P kv.2 = true) m.

Definition has {X} (m : gmap string X) (id : string) : bool := bool_decide (is_Some (m !! id)).

(** class_media.session_id: ON DELETE SET NULL. *)
Definition keep_session (sessions : gmap string LMSSession) (m : ClassMedia) : ClassMedia :=
  {| ClassMedia_ID := ClassMedia_ID m; ClassMedia_ClassID := ClassMedia_ClassID m;
     ClassMedia_SessionID := ClassMedia_SessionID m ≫= (λ s, if has sessions s then Some s else None);
     ClassMedia_Title := ClassMedia_Title m; ClassMedia_FileURL := ClassMedia_FileURL m;
     ClassMedia_FileType := ClassMedia_FileType m; ClassMedia_UploadedByID := ClassMedia_UploadedByID m;
     ClassMedia_FileID := ClassMedia_FileID m; ClassMedia_Createat := ClassMedia_Createat m;
     ClassMedia_Updateat := ClassMedia_Updateat m |}.

(** Reviews and media of a deleted class. *)
Definition cascade_content {D} (classes : gmap string Class) (sessions : gmap string LMSSession)
    (c : contentDB D) : contentDB D :=
  {| db_branches := db_branches c; db_courses := db_courses c; db_lessons := db_lessons c;
     db_packages := db_packages c; db_categories := db_categories c; db_posts := db_posts c;
     db_reviews := keep (λ r, has classes (WeeklyReview_ClassID r)) (db_reviews c);
     db_media := keep_session sessions <$> keep (λ m, has classes (ClassMedia_ClassID m)) (db_media c);
     db_tasks := db_tasks c; db_banners := db_banners c; db_notifications := db_notifications c;
     db_materials := db_materials c |}.

(** ON DELETE CASCADE: attendances and homework of a deleted session; payments,
    refunds and fees of a deleted tuition; enrolments, sessions, tuitions and
    homework of a deleted class; activities of a deleted lead. *)
Definition cascade {D} (d : lmsDB D) : lmsDB D :=
  let sessions := keep (λ s, has (db_classes d) (LMSSession_ClassID s)) (db_sessions d) in
  let tuitions := keep (λ t, has (db_classes d) (Tuition_ClassID t)) (db_tuitions d) in
  {| db_classes := db_classes d;
     db_enrolments := keep (λ e, has (db_classes d) (StudentClass_ClassID e)) (db_enrolments d);
     db_sessions := sessions;
     db_attendances := keep (λ a, has sessions (Attendance_SessionID a)) (db_attendances d);
     db_tuitions := tuitions;
     db_payments := keep (λ p, has tuitions (Payment_TuitionID p)) (db_payments d);
     db_refunds := keep (λ r, has tuitions (FeeRefund_TuitionID r)) (db_refunds d);
     db_fees := keep (λ f, has tuitions (AdditionalFee_TuitionID f)) (db_fees d);
     db_homeworks := keep (λ h, has (db_classes d) (Homework_ClassID h) && has sessions (Homework_SessionID h))
                       (db_homeworks d);
     db_submissions := db_submissions d;
     db_leads := db_leads d;
     db_lead_activities := keep (λ a, has (db_leads d) (LeadActivity_LeadID a)) (db_lead_activities d);
     db_content := cascade_content (db_classes d) sessions (db_content d) |}.

(** submissions.homework_id: ON DELETE SET NULL on a NOT NULL column, so the
    database refuses the statement that takes the homework of a submission
    away. *)
Definition takes_submitted_homework {D} (d d' : lmsDB D) : bool :=
  existsb (λ s, has (db_homeworks d) (Submission_HomeworkID s) && negb (has (db_homeworks d') (Submission_HomeworkID s)))
    (map_to_list (db_submissions d)).*2.

(** ** The outside world *)

(** Clock, ids and faults by the number of the effect that consults them. *)
Class LmsEnv := {
  lms_clock : nat → Z;
  lms_id : nat → string;
  lms_fault : nat → bool;
}.

Record lms_world (D : Type) := LmsWorld { lms_db : lmsDB D; lms_ticks : nat }.
Arguments LmsWorld {D} _ _.
Arguments lms_db {D} _.
Arguments lms_ticks {D} _.

(** model.AppError: the id of its message, its status, the wrapped error. *)
Record lmsError := LmsError { le_id : string; le_status : Z; le_cause : option storeError }.

Section app.
Context `{UnicodeTables} `{Decimal D} `{LmsEnv} `{GoRange}.

Abbreviation SM := (M (lms_world D) storeError).
Abbreviation LM := (M (lms_world D) lmsError).

(** ** Statements *)

Definition lift_res {A} (r : res storeError A) : SM A :=
  match r with Ok a => m_ret a | Err e => m_throw e end.

(** Run a statement that answers and rewrites one table. *)
Definition on_table {X A} (L : lens D X)
    (f : nat → lmsDB D → res storeError A * gmap string X) : SM A := λ w,
  let '(r, t) := f (lms_ticks w) (lms_db w) in
  (r, LmsWorld (tset L t (lms_db w)) (S (S (S (lms_ticks w))))).

Definition db_get {X} (T : table X) (L : lens D X) (id : string) : SM X :=
  on_table L (λ n d, (Store_Get T (lms_fault n) (tget L d) id, tget L d)).

(** [refs]: the foreign keys into modelled tables. *)
Definition db_save {X} (T : table X) (L : lens D X) (refs : lmsDB D → X → bool) (x : X) : SM X :=
  on_table L (λ n d, Store_Save T (lms_fault n || negb (refs d x)) (lms_id n) (lms_clock n)
                       (lms_clock (S n)) (tget L d) x).

Definition db_update {X} (T : table X) (L : lens D X) (hook : Z → X → X)
    (refs : lmsDB D → X → bool) (x : X) : SM X :=
  on_table L (λ n d, Store_Update T hook (lms_fault n || negb (refs d x)) (lms_fault (S n))
                       (lms_clock n) (tget L d) x).

(** Delete a row, and what [gone] says goes along with it. *)
Definition db_delete_with {X} (T : table X) (L : lens D X) (gone : string → lmsDB D → lmsDB D) (id : string)
    : SM unit :=
  on_table L (λ n d,
    Store_Delete T (lms_fault n)
      (lms_fault (S n) || takes_submitted_homework d (gone id (tset L (delete id (tget L d)) d)))
      (tget L d) id) ;;;
  m_modify (λ w, LmsWorld (gone id (lms_db w)) (lms_ticks w)).

Definition db_delete {X} (T : table X) (L : lens D X) (id : string) : SM unit :=
  db_delete_with T L (λ _, cascade) id.

(** DELETE FROM ... WHERE [P], of a table no key names. *)
Definition db_delete_all {X} (L : lens D X) (P : X → bool) : SM unit :=
  on_table L (λ n d, if lms_fault n then (Err (ErrDatabase "failed to delete"), tget L d)
                     else (Ok tt, keep (λ x, negb (P x)) (tget L d))).

(** SELECT ... WHERE [P]: without ORDER BY the rows come in any order. *)
Definition db_rows {X} (P : X → bool) (m : gmap string X) : list X :=
  filter (λ x, P x = true) (go_range m).*2.

Definition db_query {X} (L : lens D X) (P : X → bool) : SM (list X) :=
  on_table L (λ n d, (if lms_fault n then Err (ErrDatabase "failed to query")
                      else Ok (db_rows P (tget L d)), tget L d)).

(** ** Errors of the app layer *)

Definition app_error {A} (id : string) (status : Z) : LM A := m_throw (LmsError id status None).

Definition wrap {A} (classify : storeError → string * Z) (m : SM A) : LM A := λ w,
  match m w with
  | (Ok a, w') => (Ok a, w')
  | (Err e, w') => (Err (LmsError (classify e).1 (classify e).2 (Some e)), w')
  end.

(** NewAppError(..., id, ..., StatusInternalServerError).Wrap(err) *)
Definition internal (id : string) (_ : storeError) : string * Z := (id, 500%Z).

(** The switch on [errors.As(err, &nfErr)]. *)
Definition not_found_or (nf id : string) (e : storeError) : string * Z :=
  if IsErrNotFound e then (nf, 404%Z) else (id, 500%Z).

(** A statement whose error the caller inspects. *)
Definition attempt {A} (m : SM A) : LM (res storeError A) := λ w,
  let '(r, w') := m w in (Ok r, w').

(** ** Guards of the REST routes *)

Definition permission_error : lmsError := LmsError "api.context.permissions.app_error" 403 None.

(** [may]: the session has the permission the route asks for. *)
Definition guarded {S A} (may : bool) (m : M S lmsError A) : M S lmsError A :=
  if may then m else m_throw permission_error.

(** [c.RequireParam(name, web.RequireValidId)]. *)
Definition require_id {S A} (id : string) (m : M S lmsError A) : M S lmsError A :=
  if IsValidId id then m
  else m_throw (LmsError "api.context.invalid_url_param.app_error" 400 None).

(** ** What statements leave alone *)

Lemma frames_on_table_read {X A} (L : lens D X) `{!LensOk L} (f : nat → lmsDB D → res storeError A) :
  frames lms_db (on_table L (λ n d, (f n d, tget L d))).
Proof. intros [d n]. unfold on_table. simpl. apply tset_tget. Qed.

Lemma frames_db_get {X} (T : table X) (L : lens D X) `{!LensOk L} id :
  frames lms_db (db_get T L id).
Proof. apply frames_on_table_read. done. Qed.

Lemma frames_db_query {X} (L : lens D X) `{!LensOk L} P : frames lms_db (db_query L P).
Proof. apply frames_on_table_read. done. Qed.

Lemma frames_wrap {A T} (f : lms_world D → T) c (m : SM A) : frames f m → frames f (wrap c m).
Proof. intros Hm w. specialize (Hm w). unfold wrap. by destruct (m w) as [[]]. Qed.

Lemma frames_attempt {A T} (f : lms_world D → T) (m : SM A) : frames f m → frames f (attempt m).
Proof. intros Hm w. specialize (Hm w). unfold attempt. by destruct (m w). Qed.

Lemma frames_app_error {A T} (f : lms_world D → T) id st : frames f (app_error (A:=A) id st).
Proof. by intros w. Qed.

(** Inversion of a monadic run. *)
Lemma bind_inv {S E A B} (m : M S E A) (k : A → M S E B) w r w' :
  m_bind m k w = (r, w') →
  (∃ a w1, m w = (Ok a, w1) ∧ k a w1 = (r, w')) ∨ (∃ e, m w = (Err e, w') ∧ r = Err e).
Proof. unfold m_bind. destruct (m w) as [[a|e] w1]; intros Heq; simplify_eq; eauto. Qed.

Lemma wrap_inv {A} c (m : SM A) w r w' :
  wrap c m w = (r, w') →
  ∃ r0, m w = (r0, w') ∧
    r = match r0 with Ok a => Ok a | Err e => Err (LmsError (c e).1 (c e).2 (Some e)) end.
Proof. unfold wrap. destruct (m w) as [[a|e] w1]; intros Heq; simplify_eq; eauto. Qed.

(** The outcome of an INSERT on the table it writes. *)
Lemma db_save_inv {X} (T : table X) (L : lens D X) `{!LensOk L} refs x w r w' :
  db_save T L refs x w = (r, w') →
  match r with
  | Ok y => ∃ i n0 n row, y = defaults T (preCreate T i n0 n x) ∧
      tget L (lms_db w) !! row_id T y = None ∧ refs (lms_db w) x = true ∧ stored T y = Some row ∧
      lms_db w' = tset L (<[row_id T y := row]> (tget L (lms_db w))) (lms_db w)
  | Err _ => lms_db w' = lms_db w
  end.
Proof.
  unfold db_save, on_table. destruct (Store_Save _ _ _ _ _ _ _) as [r0 t] eqn:Hs.
  intros [= <- <-]. simpl. pose proof (Store_Save_spec _ _ _ _ _ _ _ _ _ Hs) as Hspec.
  destruct r0 as [y|e]; [|by rewrite Hspec, tset_tget].
  destruct Hspec as (row & -> & _ & Hnone & Hst & ->).
  destruct (refs (lms_db w) x) eqn:Hr; [by repeat eexists|].
  unfold Store_Save in Hs. rewrite orb_true_r in Hs. simpl in Hs. by destruct (isValid T _).
Qed.

Lemma db_update_inv {X} (T : table X) (L : lens D X) `{!LensOk L} hook refs x w r w' :
  db_update T L hook refs x w = (r, w') →
  let n := lms_clock (lms_ticks w) in
  match r with
  | Ok y => is_Some (tget L (lms_db w) !! row_id T (hook n x)) ∧ stored T (hook n x) = Some y ∧
      lms_db w' = tset L (<[row_id T (hook n x) := y]> (tget L (lms_db w))) (lms_db w)
  | Err _ => lms_db w' = lms_db w ∨ ∃ y, stored T (hook n x) = Some y ∧
      lms_db w' = tset L (<[row_id T (hook n x) := y]> (tget L (lms_db w))) (lms_db w)
  end.
Proof.
  unfold db_update, on_table. destruct (Store_Update _ _ _ _ _ _ _) as [r0 t] eqn:Hs.
  intros [= <- <-]. simpl. pose proof (Store_Update_spec _ _ _ _ _ _ _ _ _ Hs) as Hspec.
  destruct r0 as [y|e].
  - destruct Hspec as (Hi & Hst & _ & ->). done.
  - destruct Hspec as [->|(y & _ & Hst & ->)]; [left; apply tset_tget|right; eauto].
Qed.

End app.

#[export] Hint Resolve frames_on_table_read frames_db_get frames_db_query frames_wrap frames_attempt
  frames_app_error : go.
