(* ===== verification/LmsColumns.v ===== *)
(** * Column names (server/public/utils/columns_defs.go)

    The constants of every column type in the order of the source, and its
    IsValid, which accepts exactly these names. *)

From Stdlib Require Import Ascii.
From S2P Require Import Prelude.
From S2P Require Import GoString.

Local Open Scope string_scope.

(** A name in the lists below: letters, digits and underscores around a dot. *)
Definition column_char (c : Ascii.ascii) : bool :=
  is_lower c || is_digit c || Ascii.eqb c "_"%char || Ascii.eqb c "."%char.

Definition column_name (s : string) : bool :=
  negb (bool_decide (s = "")) && all_chars column_char s.

Class ColumnValidator := Column_IsValid : string → bool.

(** Every accepted name is a plain one. *)
Class PlainColumns (V : ColumnValidator) := plain_column : ∀ s, @Column_IsValid V s = true → column_name s = true.

Definition one_of (names : list string) : ColumnValidator := λ s, bool_decide (s ∈ names).

Lemma one_of_plain names : forallb column_name names = true → PlainColumns (one_of names).
Proof.
  intros Hall s Hs%bool_decide_eq_true. rewrite forallb_forall in Hall. apply Hall, list_elem_of_In, Hs.
Qed.

(** ** User *)

Definition UserColumn : list string :=
  ["users.id"; "users.createat"; "users.updateat"; "users.deleteat"; "users.username"; "users.password";
   "users.authdata"; "users.authservice"; "users.email"; "users.emailverified"; "users.nickname";
   "users.firstname"; "users.lastname"; "users.roles"; "users.allowmarketing"; "users.props";
   "users.notifyprops"; "users.lastpasswordupdate"; "users.lastpictureupdate"; "users.failedattempts";
   "users.locale"; "users.mfaactive"; "users.mfasecret"; "users.position"; "users.timezone";
   "users.remoteid"; "users.lastlogin"; "users.mfausedtimestamps"; "users.phone"; "users.parent_id"].

Definition UserColumn_IsValid : ColumnValidator := one_of UserColumn.

(** ** LMSSession *)

Definition LMSSessionColumn : list string :=
  ["lms_sessions.id"; "lms_sessions.title"; "lms_sessions.class_id"; "lms_sessions.start_time";
   "lms_sessions.end_time"; "lms_sessions.room"; "lms_sessions.teacher_id"; "lms_sessions.lesson_id";
   "lms_sessions.status"; "lms_sessions.date"; "lms_sessions.createat"; "lms_sessions.updateat"].

Definition LMSSessionColumn_IsValid : ColumnValidator := one_of LMSSessionColumn.

(** ** Class *)

Definition ClassColumn : list string :=
  ["classes.id"; "classes.course_id"; "classes.branch_id"; "classes.name"; "classes.code";
   "classes.teacher_id"; "classes.status"; "classes.room"; "classes.start_date"; "classes.createat";
   "classes.updateat"].

Definition ClassColumn_IsValid : ColumnValidator := one_of ClassColumn.

(** ** StudentClass *)

Definition StudentClassColumn : list string :=
  ["student_classes.id"; "student_classes.student_id"; "student_classes.class_id";
   "student_classes.enrollment_at"; "student_classes.status"; "student_classes.createat";
   "student_classes.updateat"].

Definition StudentClassColumn_IsValid : ColumnValidator := one_of StudentClassColumn.

(** ** Branch *)

Definition BranchColumn : list string :=
  ["branches.id"; "branches.name"; "branches.address"; "branches.phone"; "branches.createat";
   "branches.updateat"].

Definition BranchColumn_IsValid : ColumnValidator := one_of BranchColumn.

(** ** Attendance *)

Definition AttendanceColumn : list string :=
  ["attendances.id"; "attendances.session_id"; "attendances.student_id"; "attendances.status";
   "attendances.note"; "attendances.locked"; "attendances.createat"; "attendances.updateat"].

Definition AttendanceColumn_IsValid : ColumnValidator := one_of AttendanceColumn.

(** ** AdditionalFee *)

Definition AdditionalFeeColumn : list string :=
  ["additional_fees.id"; "additional_fees.tuition_id"; "additional_fees.label"; "additional_fees.amount";
   "additional_fees.createat"; "additional_fees.updateat"].

Definition AdditionalFeeColumn_IsValid : ColumnValidator := one_of AdditionalFeeColumn.

(** ** Banner *)

Definition BannerColumn : list string :=
  ["banners.id"; "banners.title"; "banners.image_url"; "banners.link_url"; "banners.position";
   "banners.is_active"; "banners.createat"; "banners.updateat"].

Definition BannerColumn_IsValid : ColumnValidator := one_of BannerColumn.

(** ** BlogPost *)

Definition BlogPostColumn : list string :=
  ["blog_posts.id"; "blog_posts.title"; "blog_posts.slug"; "blog_posts.content"; "blog_posts.excerpt";
   "blog_posts.category_id"; "blog_posts.author_id"; "blog_posts.status"; "blog_posts.seo_title";
   "blog_posts.seo_description"; "blog_posts.seo_keywords"; "blog_posts.published_at";
   "blog_posts.createat"; "blog_posts.updateat"].

Definition BlogPostColumn_IsValid : ColumnValidator := one_of BlogPostColumn.

(** ** ClassMedium *)

Definition ClassMediumColumn : list string :=
  ["class_media.id"; "class_media.class_id"; "class_media.session_id"; "class_media.title";
   "class_media.file_url"; "class_media.file_type"; "class_media.uploaded_by_id"; "class_media.file_id";
   "class_media.createat"; "class_media.updateat"].

Definition ClassMediumColumn_IsValid : ColumnValidator := one_of ClassMediumColumn.

(** ** CourseLesson *)

Definition CourseLessonColumn : list string :=
  ["course_lessons.id"; "course_lessons.course_id"; "course_lessons.session_number";
   "course_lessons.title"; "course_lessons.unit"; "course_lessons.pages"; "course_lessons.objectives";
   "course_lessons.createat"; "course_lessons.updateat"].

Definition CourseLessonColumn_IsValid : ColumnValidator := one_of CourseLessonColumn.

(** ** Course *)

Definition CourseColumn : list string :=
  ["courses.id"; "courses.name"; "courses.code"; "courses.level"; "courses.age_range";
   "courses.total_sessions"; "courses.duration_per_session"; "courses.fee"; "courses.description";
   "courses.curriculum"; "courses.createat"; "courses.updateat"].

Definition CourseColumn_IsValid : ColumnValidator := one_of CourseColumn.

(** ** FeePackage *)

Definition FeePackageColumn : list string :=
  ["fee_packages.id"; "fee_packages.name"; "fee_packages.total_fee"; "fee_packages.course_id";
   "fee_packages.sessions_included"; "fee_packages.discount_percent"; "fee_packages.is_active";
   "fee_packages.createat"; "fee_packages.updateat"].

Definition FeePackageColumn_IsValid : ColumnValidator := one_of FeePackageColumn.

(** ** FeeRefund *)

Definition FeeRefundColumn : list string :=
  ["fee_refunds.id"; "fee_refunds.tuition_id"; "fee_refunds.amount"; "fee_refunds.refund_date";
   "fee_refunds.reason"; "fee_refunds.status"; "fee_refunds.approved_by_id"; "fee_refunds.createat";
   "fee_refunds.updateat"].

Definition FeeRefundColumn_IsValid : ColumnValidator := one_of FeeRefundColumn.

(** ** Fileinfo *)

Definition FileinfoColumn : list string :=
  ["fileinfos.id"; "fileinfos.creatorid"; "fileinfos.postid"; "fileinfos.createat"; "fileinfos.updateat";
   "fileinfos.deleteat"; "fileinfos.path"; "fileinfos.thumbnailpath"; "fileinfos.previewpath";
   "fileinfos.name"; "fileinfos.extension"; "fileinfos.size"; "fileinfos.mimetype"; "fileinfos.width";
   "fileinfos.height"; "fileinfos.haspreviewimage"; "fileinfos.minipreview"; "fileinfos.content";
   "fileinfos.remoteid"; "fileinfos.archived"; "fileinfos.channelid"; "fileinfos.course_id";
   "fileinfos.version"; "fileinfos.visibility"].

Definition FileinfoColumn_IsValid : ColumnValidator := one_of FileinfoColumn.

(** ** Homework *)

Definition HomeworkColumn : list string :=
  ["homeworks.id"; "homeworks.title"; "homeworks.description"; "homeworks.session_id";
   "homeworks.class_id"; "homeworks.course_id"; "homeworks.teacher_id"; "homeworks.deadline";
   "homeworks.createat"; "homeworks.file_id"; "homeworks.updateat"].

Definition HomeworkColumn_IsValid : ColumnValidator := one_of HomeworkColumn.

(** ** LeadActivity *)

Definition LeadActivityColumn : list string :=
  ["lead_activities.id"; "lead_activities.lead_id"; "lead_activities.type"; "lead_activities.content";
   "lead_activities.next_follow_up"; "lead_activities.createat"; "lead_activities.updateat"].

Definition LeadActivityColumn_IsValid : ColumnValidator := one_of LeadActivityColumn.

(** ** Lead *)

Definition LeadColumn : list string :=
  ["leads.id"; "leads.name"; "leads.email"; "leads.phone"; "leads.age"; "leads.school"; "leads.source";
   "leads.need"; "leads.status"; "leads.student_id"; "leads.notes"; "leads.test_date";
   "leads.test_result"; "leads.test_score"; "leads.counselor_id"; "leads.createat"; "leads.updateat"].

Definition LeadColumn_IsValid : ColumnValidator := one_of LeadColumn.

(** ** Material *)

Definition MaterialColumn : list string :=
  ["materials.id"; "materials.title"; "materials.description"; "materials.course_id"; "materials.unit";
   "materials.visibility"; "materials.file_id"; "materials.uploaded_by_id"; "materials.version";
   "materials.createat"; "materials.updateat"].

Definition MaterialColumn_IsValid : ColumnValidator := one_of MaterialColumn.

(** ** Notification *)

Definition NotificationColumn : list string :=
  ["notifications.id"; "notifications.user_id"; "notifications.title"; "notifications.message";
   "notifications.type"; "notifications.is_read"; "notifications.link_url"; "notifications.createat";
   "notifications.updateat"].

Definition NotificationColumn_IsValid : ColumnValidator := one_of NotificationColumn.

(** ** Payment *)

Definition PaymentColumn : list string :=
  ["payments.id"; "payments.tuition_id"; "payments.amount"; "payments.payment_date"; "payments.method";
   "payments.receipt_number"; "payments.paid_by_id"; "payments.note"; "payments.createat";
   "payments.updateat"].

Definition PaymentColumn_IsValid : ColumnValidator := one_of PaymentColumn.

(** ** PostCategory *)

Definition PostCategoryColumn : list string :=
  ["post_categories.id"; "post_categories.name"; "post_categories.slug"; "post_categories.createat";
   "post_categories.updateat"].

Definition PostCategoryColumn_IsValid : ColumnValidator := one_of PostCategoryColumn.

(** ** Submission *)

Definition SubmissionColumn : list string :=
  ["submissions.id"; "submissions.title"; "submissions.student_id"; "submissions.homework_id";
   "submissions.description"; "submissions.file_id"; "submissions.feedback"; "submissions.createat";
   "submissions.updateat"].

Definition SubmissionColumn_IsValid : ColumnValidator := one_of SubmissionColumn.

(** ** Task *)

Definition TaskColumn : list string :=
  ["tasks.id"; "tasks.title"; "tasks.description"; "tasks.assignee_id"; "tasks.creator_id";
   "tasks.deadline"; "tasks.priority"; "tasks.status"; "tasks.notes"; "tasks.createat";
   "tasks.updateat"].

Definition TaskColumn_IsValid : ColumnValidator := one_of TaskColumn.

(** ** Tuition *)

Definition TuitionColumn : list string :=
  ["tuitions.id"; "tuitions.student_id"; "tuitions.class_id"; "tuitions.fee_package_id";
   "tuitions.total_amount"; "tuitions.discount_amount"; "tuitions.paid_amount";
   "tuitions.remaining_amount"; "tuitions.status"; "tuitions.due_date"; "tuitions.note";
   "tuitions.promotional_fee"; "tuitions.discount_value"; "tuitions.discount_type"; "tuitions.createat";
   "tuitions.updateat"].

Definition TuitionColumn_IsValid : ColumnValidator := one_of TuitionColumn.

(** ** WeeklyReview *)

Definition WeeklyReviewColumn : list string :=
  ["weekly_reviews.id"; "weekly_reviews.student_id"; "weekly_reviews.class_id";
   "weekly_reviews.week_number"; "weekly_reviews.content"; "weekly_reviews.rating";
   "weekly_reviews.created_by"; "weekly_reviews.createat"; "weekly_reviews.updateat"].

Definition WeeklyReviewColumn_IsValid : ColumnValidator := one_of WeeklyReviewColumn.

(** ** All of them are plain *)

#[export] Instance UserColumn_plain : PlainColumns UserColumn_IsValid.
Proof. by apply one_of_plain. Qed.
#[export] Instance LMSSessionColumn_plain : PlainColumns LMSSessionColumn_IsValid.
Proof. by apply one_of_plain. Qed.
#[export] Instance ClassColumn_plain : PlainColumns ClassColumn_IsValid.
Proof. by apply one_of_plain. Qed.
#[export] Instance StudentClassColumn_plain : PlainColumns StudentClassColumn_IsValid.
Proof. by apply one_of_plain. Qed.
#[export] Instance BranchColumn_plain : PlainColumns BranchColumn_IsValid.
Proof. by apply one_of_plain. Qed.
#[export] Instance AttendanceColumn_plain : PlainColumns AttendanceColumn_IsValid.
Proof. by apply one_of_plain. Qed.
#[export] Instance AdditionalFeeColumn_plain : PlainColumns AdditionalFeeColumn_IsValid.
Proof. by apply one_of_plain. Qed.
#[export] Instance BannerColumn_plain : PlainColumns BannerColumn_IsValid.
Proof. by apply one_of_plain. Qed.
#[export] Instance BlogPostColumn_plain : PlainColumns BlogPostColumn_IsValid.
Proof. by apply one_of_plain. Qed.
#[export] Instance ClassMediumColumn_plain : PlainColumns ClassMediumColumn_IsValid.
Proof. by apply one_of_plain. Qed.
#[export] Instance CourseLessonColumn_plain : PlainColumns CourseLessonColumn_IsValid.
Proof. by apply one_of_plain. Qed.
#[export] Instance CourseColumn_plain : PlainColumns CourseColumn_IsValid.
Proof. by apply one_of_plain. Qed.
#[export] Instance FeePackageColumn_plain : PlainColumns FeePackageColumn_IsValid.
Proof. by apply one_of_plain. Qed.
#[export] Instance FeeRefundColumn_plain : PlainColumns FeeRefundColumn_IsValid.
Proof. by apply one_of_plain. Qed.
#[export] Instance FileinfoColumn_plain : PlainColumns FileinfoColumn_IsValid.
Proof. by apply one_of_plain. Qed.
#[export] Instance HomeworkColumn_plain : PlainColumns HomeworkColumn_IsValid.
Proof. by apply one_of_plain. Qed.
#[export] Instance LeadActivityColumn_plain : PlainColumns LeadActivityColumn_IsValid.
Proof. by apply one_of_plain. Qed.
#[export] Instance LeadColumn_plain : PlainColumns LeadColumn_IsValid.
Proof. by apply one_of_plain. Qed.
#[export] Instance MaterialColumn_plain : PlainColumns MaterialColumn_IsValid.
Proof. by apply one_of_plain. Qed.
#[export] Instance NotificationColumn_plain : PlainColumns NotificationColumn_IsValid.
Proof. by apply one_of_plain. Qed.
#[export] Instance PaymentColumn_plain : PlainColumns PaymentColumn_IsValid.
Proof. by apply one_of_plain. Qed.
#[export] Instance PostCategoryColumn_plain : PlainColumns PostCategoryColumn_IsValid.
Proof. by apply one_of_plain. Qed.
#[export] Instance SubmissionColumn_plain : PlainColumns SubmissionColumn_IsValid.
Proof. by apply one_of_plain. Qed.
#[export] Instance TaskColumn_plain : PlainColumns TaskColumn_IsValid.
Proof. by apply one_of_plain. Qed.
#[export] Instance TuitionColumn_plain : PlainColumns TuitionColumn_IsValid.
Proof. by apply one_of_plain. Qed.
#[export] Instance WeeklyReviewColumn_plain : PlainColumns WeeklyReviewColumn_IsValid.
Proof. by apply one_of_plain. Qed.
