(* ===== verification/LmsQuery.v ===== *)
(** * Search filters (server/public/utils/query.go)

    A filter of a list request, the checks it could be given, and the query
    modifiers it turns into.  SQLBoiler assembles and runs the statement; here
    a statement is the sequence of modifiers the code applies, whose texts and
    arguments are the code's own.

    A nil receiver does not occur: every caller takes the address of a field
    or of an element of a slice. *)

From Stdlib Require Import Ascii.
From S2P Require Import Prelude.
From S2P Require Import GoString.
From S2P Require Import LmsColumns.

Local Open Scope string_scope.

(** ** Values and modifiers *)

(** A value of Go's [any] as encoding/json decodes it, or as the code builds it. *)
Inductive any :=
  | AnyNil
  | AnyBool (b : bool)
  | AnyNumber (literal : string)
  | AnyInt64 (z : Z)
  | AnyString (s : string)
  | AnySlice (l : list any)
  | AnyMap (l : list (string * any)).

(** What the code asks of the query builder. *)
Inductive qmod :=
  | SetLimit (n : Z)
  | SetOffset (n : Z)
  | AppendWhere (clause : string) (args : list any)
  | OrWhere (clause : string) (args : list any)
  | AppendOrderBy (s : string)
  | AppendInnerJoin (clause : string)
  | AppendLoad (relation : string).

(** ** Operators *)

(** The comparison operators of SQLBoiler's qmhelper. *)
Class QmHelper := { qm_EQ : string; qm_NEQ : string; qm_GT : string; qm_LT : string; qm_GTE : string; qm_LTE : string }.

Definition comparison_char (c : ascii) : bool :=
  Ascii.eqb c "="%char || Ascii.eqb c "!"%char || Ascii.eqb c "<"%char || Ascii.eqb c ">"%char.

Definition comparison (s : string) : bool := negb (String.eqb s "") && all_chars comparison_char s.

(** They are comparison operators of SQL. *)
Class QmHelperOk `{QmHelper} := qm_comparisons :
  forallb comparison [qm_EQ; qm_NEQ; qm_GT; qm_LT; qm_GTE; qm_LTE] = true.

#[export] Instance sql_operators : QmHelper :=
  {| qm_EQ := "="; qm_NEQ := "!="; qm_GT := ">"; qm_LT := "<"; qm_GTE := ">="; qm_LTE := "<=" |}.

#[export] Instance sql_operators_ok : QmHelperOk.
Proof. reflexivity. Qed.

Section query.
Context `{QmHelper}.

Definition OperatorEq : string := qm_EQ.
Definition OperatorNeq : string := qm_NEQ.
Definition OperatorGt : string := qm_GT.
Definition OperatorLt : string := qm_LT.
Definition OperatorGte : string := qm_GTE.
Definition OperatorLte : string := qm_LTE.
Definition OperatorIn : string := "IN".
Definition OperatorNotIn : string := "NOT IN".
Definition OperatorLike : string := "LIKE".
Definition OperatorILike : string := "ILIKE".
Definition OperatorNotLike : string := "NOT LIKE".
Definition OperatorNotILike : string := "NOT ILIKE".

Definition Operator_IsValid (o : string) : bool :=
  bool_decide (o ∈ [OperatorEq; OperatorNeq; OperatorGt; OperatorLt; OperatorGte; OperatorLte; OperatorIn;
                    OperatorNotIn; OperatorLike; OperatorILike; OperatorNotLike; OperatorNotILike]).

(** ** Conditions *)

Record WhereCond := { wc_Column : string; wc_Value : any; wc_Operator : string }.

(** [strings.Repeat(",?", n)]. *)
Fixpoint repeat_hole (n : nat) : string :=
  match n with 0%nat => "" | S n => ",?" ++ repeat_hole n end.

Definition SqlPlaceholders (n : Z) : string :=
  if (n <=? 0)%Z then "" else match repeat_hole (Z.to_nat n) with "" => "" | String _ s => s end.

(** The clause and its arguments. *)
Definition WhereCond_build (w : WhereCond) : string * list any :=
  let '(clause, args) :=
    if bool_decide (wc_Operator w = OperatorIn) || bool_decide (wc_Operator w = OperatorNotIn) then
      match wc_Value w with
      | AnySlice ((_ :: _) as v) =>
          (if bool_decide (wc_Operator w = OperatorIn)
           then wc_Column w ++ " IN (" ++ SqlPlaceholders (Z.of_nat (length v)) ++ ")"
           else wc_Column w ++ " NOT IN (" ++ SqlPlaceholders (Z.of_nat (length v)) ++ ")", v)
      | _ => ("", [])
      end
    else (wc_Column w ++ " " ++ wc_Operator w ++ " ?", [wc_Value w]) in
  if negb (String.eqb clause "") && negb (bool_decide (args = [])) then (clause, args) else ("TRUE", []).

Fixpoint build_loop (conds : list WhereCond) (sep : string) : string :=
  match conds with
  | [] => ""
  | [cond] => (WhereCond_build cond).1 ++ ")"
  | cond :: rest => (WhereCond_build cond).1 ++ " " ++ sep ++ " " ++ build_loop rest sep
  end.

Definition build (conds : list WhereCond) (sep : string) : string * list any :=
  match conds with
  | [] => ("TRUE", [])
  | _ => ("(" ++ build_loop conds sep, mbind (λ cond, (WhereCond_build cond).2) conds)
  end.

Definition where_mod (c : string * list any) : qmod := AppendWhere c.1 c.2.

Definition WhereCond_Apply (w : WhereCond) : list qmod := [where_mod (WhereCond_build w)].
Definition WhereAnds_Apply (w : list WhereCond) : list qmod := [where_mod (build w "AND")].
Definition WhereOrs_Apply (w : list WhereCond) : list qmod := [where_mod (build w "OR")].

(** ** Orderings *)

Record OrderBy := { ob_Column : string; ob_Dir : string }.

Definition OrderBy_String (o : OrderBy) : string := ob_Column o ++ " " ++ ob_Dir o.
Definition OrderBy_Apply (o : OrderBy) : list qmod := [AppendOrderBy (OrderBy_String o)].
Definition OrderBys_Apply (o : list OrderBy) : list qmod := mbind OrderBy_Apply o.

(** ** Filters *)

Record SearchOpts := {
  WhereAnds : list WhereCond;
  WhereOrs : list WhereCond;
  Orderings : list OrderBy;
  Limit : Z;
  Offset : Z;
  CountTotal : bool;
}.

Definition ExludePaginationForCount (s : SearchOpts) : SearchOpts :=
  {| Limit := -1; Offset := -1; WhereAnds := WhereAnds s; WhereOrs := WhereOrs s;
     Orderings := Orderings s; CountTotal := false |}.

Definition SearchOpts_Apply (s : SearchOpts) : list qmod :=
  (if (0 <? Limit s)%Z then [SetLimit (Limit s)] else []) ++
  (if (0 <=? Offset s)%Z then [SetOffset (Offset s)] else []) ++
  WhereAnds_Apply (WhereAnds s) ++ WhereOrs_Apply (WhereOrs s) ++ OrderBys_Apply (Orderings s).

Section validity.
Context `{ColumnValidator}.

Definition WhereCond_IsValid (w : WhereCond) : bool := Column_IsValid (wc_Column w) && Operator_IsValid (wc_Operator w).

Definition OrderBy_IsValid (o : OrderBy) : bool := Column_IsValid (ob_Column o).

(** The error, if any. *)
Definition SearchOpts_IsValid (s : SearchOpts) : option string :=
  if negb (forallb WhereCond_IsValid (WhereAnds s)) then Some "Invalid WhereAnds condition"
  else if negb (forallb WhereCond_IsValid (WhereOrs s)) then Some "Invalid WhereOrs condition"
  else if negb (forallb OrderBy_IsValid (Orderings s)) then Some "Invalid Orderings condition"
  else None.
End validity.
End query.

Arguments WhereCond_build : simpl never.
