(* ===== verification/LmsQueryProps.v ===== *)
(** * What a search filter says (laws of [LmsQuery])

    The text of a filter that passed IsValid can be read back: [read_where] is
    a reader for the clauses [build] prints, and it finds the columns, the
    operators and the number of placeholders of every condition.  Values never
    reach the text.  Texts that were not checked reach it unchanged. *)

From Stdlib Require Import Ascii.
From S2P Require Import Prelude.
From S2P Require Import GoString.
From S2P Require Import LmsColumns.
From S2P Require Import LmsQuery.

Local Open Scope string_scope.

Abbreviation spc := (" "%char).

(** ** The reader *)

(** A condition as its text shows it. *)
Inductive shape :=
  | Anything
  | Compare (column operator : string)
  | Member (column : string) (negated : bool) (holes : nat).

Definition holes_in (s : string) : nat := count_char question s.

Definition read_cond (toks : list string) : option shape :=
  match toks with
  | [t] => if String.eqb t "TRUE" then Some Anything else None
  | [c; o; h] =>
      if String.eqb o "IN" then Some (Member c false (holes_in h))
      else if String.eqb h "?" then Some (Compare c o) else None
  | [c; n; o; h] =>
      if String.eqb o "IN" then Some (Member c true (holes_in h))
      else if String.eqb h "?" then Some (Compare c (n ++ " " ++ o)) else None
  | _ => None
  end.

(** Split a list of words at the separator. *)
Fixpoint groups (sep : string) (toks : list string) : list (list string) :=
  match toks with
  | [] => [[]]
  | t :: rest =>
      if String.eqb t sep then [] :: groups sep rest
      else match groups sep rest with
           | g :: gs => (t :: g) :: gs
           | [] => [[t]]
           end
  end.

Fixpoint drop_last (s : string) : string :=
  match s with
  | "" => ""
  | String _ "" => ""
  | String c s' => String c (drop_last s')
  end.

Definition read_where (sep clause : string) : option (list shape) :=
  match strip_prefix "(" clause with
  | None => None
  | Some inner => mapM read_cond (groups sep (split spc (drop_last inner)))
  end.

(** ** What it should find *)

Section laws.
Context `{QmHelperOk} `{PlainColumns}.

Definition membership (w : WhereCond) : bool :=
  bool_decide (wc_Operator w = OperatorIn) || bool_decide (wc_Operator w = OperatorNotIn).

Definition cond_shape (w : WhereCond) : shape :=
  if membership w then
    match wc_Value w with
    | AnySlice ((_ :: _) as v) => Member (wc_Column w) (bool_decide (wc_Operator w = OperatorNotIn)) (length v)
    | _ => Anything
    end
  else Compare (wc_Column w) (wc_Operator w).

Definition cond_args (w : WhereCond) : list any :=
  if membership w then match wc_Value w with AnySlice v => v | _ => [] end else [wc_Value w].

(** What stands for the value in the text, if the condition is in it. *)
Definition cond_hole (w : WhereCond) : option string :=
  if membership w then
    match wc_Value w with
    | AnySlice ((_ :: _) as v) => Some ("(" ++ SqlPlaceholders (Z.of_nat (length v)) ++ ")")
    | _ => None
    end
  else Some "?".

(** The words of a condition. *)
Definition cond_words (w : WhereCond) : list string :=
  match cond_hole w with
  | None => ["TRUE"]
  | Some h => (wc_Column w :: split spc (wc_Operator w) ++ [h])%list
  end.

(** ** Texts *)

Definition free (c : ascii) (s : string) : Prop := has_char c s = false.

Lemma split_free c s : free c s → split c s = [s].
Proof.
  unfold free. induction s as [|x s IH]; simpl; [done|].
  destruct (Ascii.eqb x c) eqn:Heq; simpl; [done|]. intros Hs. by rewrite IH.
Qed.

Lemma split_cons c a b : free c a → split c (a ++ String c b) = a :: split c b.
Proof.
  unfold free. induction a as [|x a IH]; simpl; intros Ha.
  - by rewrite Ascii.eqb_refl.
  - destruct (Ascii.eqb x c) eqn:Heq; simpl in *; [done|]. by rewrite IH.
Qed.

Lemma split_some c a : split c a ≠ [].
Proof. destruct a as [|x a]; simpl; [done|]. destruct (Ascii.eqb x c); [done|]. by destruct (split c a). Qed.

Lemma split_words c a b : split c (a ++ String c b) = (split c a ++ split c b)%list.
Proof.
  induction a as [|x a IH]; simpl; [by rewrite Ascii.eqb_refl|].
  destruct (Ascii.eqb x c); [by rewrite IH|]. rewrite IH. pose proof (split_some c a).
  by destruct (split c a).
Qed.

Lemma drop_last_app a c : drop_last (a ++ String c "") = a.
Proof.
  induction a as [|x a IH]; simpl; [done|]. rewrite IH. by destruct a.
Qed.

Lemma column_free s c : column_name s = true → column_char c = false → free c s.
Proof. intros [_ Hs]%andb_prop Hc. by apply (all_chars_has column_char). Qed.

Lemma comparison_free s c : comparison s = true → comparison_char c = false → free c s.
Proof. intros [_ Hs]%andb_prop Hc. by apply (all_chars_has comparison_char). Qed.

Lemma repeat_hole_free n c : Ascii.eqb comma c = false → Ascii.eqb question c = false → free c (repeat_hole n).
Proof.
  unfold comma, question. intros Hc Hq. induction n as [|n IH]; [done|]. unfold free. cbn -[Ascii.eqb].
  by rewrite Hc, Hq.
Qed.

Lemma placeholders_cons n : SqlPlaceholders (Z.of_nat (S n)) = "?" ++ repeat_hole n.
Proof. unfold SqlPlaceholders. destruct (Z.leb_spec (Z.of_nat (S n)) 0); [lia|]. by rewrite Nat2Z.id. Qed.

Lemma holes_repeat n s : length (split question (repeat_hole n ++ s)) = (n + length (split question s))%nat.
Proof. induction n as [|n IH]; [done|]. simpl. by rewrite IH. Qed.

Lemma string_append_cons (a b : string) c : a ++ String c b = (a ++ String c "") ++ b.
Proof. by rewrite string_app_assoc. Qed.

(** ** One condition *)

Definition word_operators : list string := ["LIKE"; "ILIKE"; "NOT LIKE"; "NOT ILIKE"].

Lemma valid_operator o : Operator_IsValid o = true →
  comparison o = true ∨ o = "IN" ∨ o = "NOT IN" ∨ o ∈ word_operators.
Proof.
  intros Ho%bool_decide_eq_true. pose proof qm_comparisons as Hq. simpl in Hq.
  repeat (apply andb_prop in Hq as [? Hq]).
  repeat (apply elem_of_cons in Ho as [->|Ho]; [eauto; try set_solver|]). by apply not_elem_of_nil in Ho.
Qed.

Lemma comparison_not_word o : comparison o = true → has_char "N"%char o = false ∧ has_char spc o = false.
Proof. intros Ho. split; by apply comparison_free. Qed.

Lemma not_membership w : membership w = false → Operator_IsValid (wc_Operator w) = true →
  comparison (wc_Operator w) = true ∨ wc_Operator w ∈ word_operators.
Proof.
  unfold membership. intros Hm Ho. apply orb_false_elim in Hm as [Hi Hn].
  apply bool_decide_eq_false in Hi, Hn. destruct (valid_operator _ Ho) as [?|[?|[?|?]]]; [by left| | |by right]; done.
Qed.

Lemma clause_text w : column_name (wc_Column w) = true →
  WhereCond_build w =
  match cond_hole w with
  | None => ("TRUE", [])
  | Some h => (wc_Column w ++ String spc (wc_Operator w ++ String spc h), cond_args w)
  end.
Proof.
  intros Hc. unfold WhereCond_build, cond_hole, cond_args, membership.
  destruct (wc_Column w) as [|x col] eqn:Hcol; [discriminate Hc|].
  destruct (bool_decide_reflect (wc_Operator w = OperatorIn)) as [Hi|Hi];
    destruct (bool_decide_reflect (wc_Operator w = OperatorNotIn)) as [Hn|Hn]; simpl;
    try (destruct (wc_Value w) as [| | | | |[|v vs]|]; try done); try rewrite Hi; try rewrite Hn; done.
Qed.

Lemma hole_free w h : cond_hole w = Some h → free spc h.
Proof.
  unfold cond_hole. destruct (membership w); [|by intros [= <-]].
  destruct (wc_Value w) as [| | | | |[|v vs]|]; try done. intros [= <-]. cbn [length].
  rewrite placeholders_cons.
  change (has_char spc (repeat_hole (length vs) ++ ")") = false).
  by rewrite has_char_app, repeat_hole_free.
Qed.

Lemma split_clause w : column_name (wc_Column w) = true → split spc (WhereCond_build w).1 = cond_words w.
Proof.
  intros Hc. rewrite clause_text by done. unfold cond_words. destruct (cond_hole w) as [h|] eqn:Hh; [|done].
  cbn [fst]. rewrite split_cons, split_words, (split_free _ h); [done|by eapply hole_free|].
  by apply column_free.
Qed.

Lemma read_words w : WhereCond_IsValid w = true → read_cond (cond_words w) = Some (cond_shape w).
Proof.
  intros [_ Ho]%andb_prop. unfold cond_words, cond_hole, cond_shape.
  destruct (membership w) eqn:Hm.
  - unfold membership in Hm. destruct (wc_Value w) as [| | | | |[|v vs]|]; try done.
    assert (holes_in ("(" ++ SqlPlaceholders (Z.of_nat (length (v :: vs))) ++ ")") = length (v :: vs)) as Hn.
    { simpl length. rewrite placeholders_cons. unfold holes_in, count_char. cbn -[split].
      simpl. rewrite holes_repeat. simpl. lia. }
    apply orb_prop in Hm as [Hm|Hm]; apply bool_decide_eq_true in Hm as ->;
      [exact (f_equal (λ n, Some (Member (wc_Column w) false n)) Hn)
      |exact (f_equal (λ n, Some (Member (wc_Column w) true n)) Hn)].
  - destruct (not_membership _ Hm Ho) as [Hq|Hw].
    + destruct (comparison_not_word _ Hq) as [HN Hs]. rewrite split_free by done. simpl.
      destruct (String.eqb_spec (wc_Operator w) "IN") as [Heq|]; [|done].
      exfalso. unfold membership in Hm. by rewrite Heq in Hm.
    + unfold word_operators in Hw.
      repeat (apply elem_of_cons in Hw as [->|Hw]; [done|]). by apply not_elem_of_nil in Hw.
Qed.

(** ** The whole clause *)

Definition separator (sep : string) : Prop := sep = "AND" ∨ sep = "OR".

Lemma not_separator w sep : separator sep → WhereCond_IsValid w = true → sep ∉ cond_words w.
Proof.
  intros Hsep [Hc Ho]%andb_prop. apply plain_column in Hc.
  assert (∀ h, cond_hole w = Some h → h ≠ sep) as Hh.
  { intros h Hh ->. unfold cond_hole in Hh. destruct (membership w).
    - destruct (wc_Value w) as [| | | | |[|v vs]|]; try done. destruct Hsep; simplify_eq.
    - destruct Hsep; simplify_eq. }
  unfold cond_words. destruct (cond_hole w) as [h|] eqn:Hcase; [|destruct Hsep as [->| ->]; set_solver].
  specialize (Hh _ eq_refl). rewrite elem_of_cons, elem_of_app, list_elem_of_singleton.
  intros [Heq|[Hin|Heq]]; [|clear Hc|by subst h].
  - rewrite <- Heq in Hc. destruct Hsep as [->| ->]; done.
  - destruct (valid_operator _ Ho) as [Hq|[Heq|[Heq|Hw]]].
    + destruct (comparison_not_word _ Hq) as [HN Hs]. rewrite split_free in Hin by done.
      apply list_elem_of_singleton in Hin. rewrite <- Hin in Hq. destruct Hsep as [->| ->]; done.
    + rewrite Heq in Hin. destruct Hsep as [->| ->]; simpl in Hin; set_solver.
    + rewrite Heq in Hin. destruct Hsep as [->| ->]; simpl in Hin; set_solver.
    + unfold word_operators in Hw.
      repeat (apply elem_of_cons in Hw as [Heq|Hw];
        [rewrite Heq in Hin; destruct Hsep as [->| ->]; simpl in Hin; set_solver|]).
      by apply not_elem_of_nil in Hw.
Qed.

Lemma groups_free sep l : sep ∉ l → groups sep l = [l].
Proof.
  induction l as [|t l IH]; [done|]. intros [Ht Hl]%not_elem_of_cons. simpl.
  destruct (String.eqb_spec t sep); [by subst|]. by rewrite IH.
Qed.

Lemma groups_app sep l r : sep ∉ l → groups sep (l ++ sep :: r)%list = l :: groups sep r.
Proof.
  induction l as [|t l IH]; simpl; intros Hl.
  - by rewrite String.eqb_refl.
  - apply not_elem_of_cons in Hl as [Ht Hl]. destruct (String.eqb_spec t sep); [by subst|]. by rewrite IH.
Qed.

(** The loop without its closing parenthesis. *)
Fixpoint joined (conds : list WhereCond) (sep : string) : string :=
  match conds with
  | [] => ""
  | [cond] => (WhereCond_build cond).1
  | cond :: rest => (WhereCond_build cond).1 ++ " " ++ sep ++ " " ++ joined rest sep
  end.

Lemma build_loop_joined w conds sep : build_loop (w :: conds) sep = joined (w :: conds) sep ++ ")".
Proof.
  revert w. induction conds as [|v conds IH]; intros w; [done|].
  change (build_loop (w :: v :: conds) sep)
    with ((WhereCond_build w).1 ++ " " ++ sep ++ " " ++ build_loop (v :: conds) sep).
  rewrite IH. change (joined (w :: v :: conds) sep)
    with ((WhereCond_build w).1 ++ " " ++ sep ++ " " ++ joined (v :: conds) sep).
  by rewrite !string_app_assoc.
Qed.

Lemma read_joined sep w conds : separator sep → forallb WhereCond_IsValid (w :: conds) = true →
  mapM read_cond (groups sep (split spc (joined (w :: conds) sep))) = Some (cond_shape <$> w :: conds).
Proof.
  intros Hsep. revert w. induction conds as [|v conds IH]; intros w [Hw Hv]%andb_prop;
    pose proof Hw as [Hcol%plain_column _]%andb_prop.
  - simpl joined. rewrite split_clause, groups_free by eauto using not_separator.
    cbn [mapM]. by rewrite read_words.
  - change (joined (w :: v :: conds) sep)
      with ((WhereCond_build w).1 ++ String spc (sep ++ String spc (joined (v :: conds) sep))).
    rewrite split_words, split_clause by done.
    assert (split spc (sep ++ String spc (joined (v :: conds) sep)) = sep :: split spc (joined (v :: conds) sep)) as ->.
    { apply split_cons. by destruct Hsep as [->| ->]. }
    rewrite groups_app by eauto using not_separator. cbn [mapM]. rewrite read_words by done.
    by rewrite (IH v Hv).
Qed.

Definition holes (s : shape) : nat :=
  match s with Anything => 0 | Compare _ _ => 1 | Member _ _ n => n end.

Lemma build_args w : WhereCond_IsValid w = true →
  (WhereCond_build w).2 = cond_args w ∧ length (cond_args w) = holes (cond_shape w).
Proof.
  intros [Hc%plain_column _]%andb_prop. rewrite clause_text by done.
  unfold cond_hole, cond_args, cond_shape. destruct (membership w); [|done].
  by destruct (wc_Value w) as [| | | | |[|v vs]|].
Qed.

(** What a clause says of a list of conditions: it reads as them, and its
    placeholders are filled with their values, in order. *)
Definition says (sep : string) (conds : list WhereCond) (clause : string) (args : list any) : Prop :=
  (if bool_decide (conds = []) then clause = "TRUE"
   else read_where sep clause = Some (cond_shape <$> conds)) ∧
  args = mbind cond_args conds ∧
  length args = sum_list (holes ∘ cond_shape <$> conds).

Lemma build_says sep conds : separator sep → forallb WhereCond_IsValid conds = true →
  says sep conds (build conds sep).1 (build conds sep).2.
Proof.
  intros Hsep Hv. split.
  - case_bool_decide as Hnil; [by subst|]. destruct conds as [|w conds]; [done|].
    unfold build. cbn [fst]. unfold read_where. rewrite build_loop_joined.
    change (strip_prefix "(" ("(" ++ (joined (w :: conds) sep ++ ")"))) with (Some (joined (w :: conds) sep ++ ")")).
    cbv iota beta. change ")" with (String ")"%char ""). rewrite drop_last_app. by apply read_joined.
  - assert ((build conds sep).2 = mbind (λ cond, (WhereCond_build cond).2) conds) as -> by by destruct conds.
    clear sep Hsep. induction conds as [|w conds IH]; [done|]. apply andb_prop in Hv as [Hw Hv].
    destruct (IH Hv) as [Ha Hn]. destruct (build_args w Hw) as [Hb Hl]. csimpl. rewrite Ha, Hb. split; [done|].
    rewrite <- Ha, length_app, Hl, Hn. done.
Qed.

(** C40: A search that passed IsValid asks the database exactly what it says:
    its two clauses can be read back as its conditions, column by column and
    operator by operator, and values only stand for placeholders, one each and
    in order. *)
Theorem valid_search_says (opts : SearchOpts) :
  SearchOpts_IsValid opts = None →
  ∃ page order ands or_clause args or_args,
    SearchOpts_Apply opts = (page ++ [AppendWhere ands args; AppendWhere or_clause or_args] ++ order)%list ∧
    says "AND" (WhereAnds opts) ands args ∧ says "OR" (WhereOrs opts) or_clause or_args ∧
    order = (λ o, AppendOrderBy (OrderBy_String o)) <$> Orderings opts ∧
    Forall (λ o, column_name (ob_Column o) = true) (Orderings opts).
Proof.
  unfold SearchOpts_IsValid. intros Hv.
  destruct (forallb WhereCond_IsValid (WhereAnds opts)) eqn:Ha; [|done].
  destruct (forallb WhereCond_IsValid (WhereOrs opts)) eqn:Ho; [|done].
  destruct (forallb OrderBy_IsValid (Orderings opts)) eqn:Hord; [|done]. clear Hv.
  exists ((if (0 <? Limit opts)%Z then [SetLimit (Limit opts)] else []) ++
          (if (0 <=? Offset opts)%Z then [SetOffset (Offset opts)] else []))%list, (OrderBys_Apply (Orderings opts)).
  do 4 eexists. split_and!.
  - unfold SearchOpts_Apply, WhereAnds_Apply, WhereOrs_Apply, where_mod. by rewrite <- !app_assoc.
  - by apply build_says; [left|].
  - by apply build_says; [right|].
  - unfold OrderBys_Apply. clear Hord. induction (Orderings opts) as [|o l IH]; [done|]. csimpl. by rewrite IH.
  - apply Forall_forall. intros o Hin. apply plain_column. rewrite forallb_forall in Hord.
    apply Hord. by apply list_elem_of_In.
Qed.

(** A filter on an empty set does not filter: IN and NOT IN with no
    values, or with a value that is not a list, ask for every row. *)
Theorem empty_in_is_no_filter (w : WhereCond) :
  membership w = true → (∀ v vs, wc_Value w ≠ AnySlice (v :: vs)) → WhereCond_build w = ("TRUE", []).
Proof.
  intros Hm Hv. unfold WhereCond_build. unfold membership in Hm. rewrite Hm.
  destruct (wc_Value w) as [| | | | |[|v vs]|] eqn:Hw; try done. by destruct (Hv v vs).
Qed.

(** Nothing checks the direction of an ordering: a valid search appends
    any text to the statement. *)
Theorem direction_is_unchecked (column text : string) :
  Column_IsValid column = true → ∃ opts, SearchOpts_IsValid opts = None ∧
    AppendOrderBy (column ++ " " ++ text) ∈ SearchOpts_Apply opts.
Proof.
  intros Hc.
  exists {| WhereAnds := []; WhereOrs := []; Orderings := [{| ob_Column := column; ob_Dir := text |}];
            Limit := 0; Offset := -1; CountTotal := false |}.
  split.
  - unfold SearchOpts_IsValid, OrderBy_IsValid. simpl. by rewrite Hc.
  - unfold SearchOpts_Apply. simpl. unfold OrderBys_Apply, OrderBy_String. set_solver.
Qed.
End laws.

(** ** At concrete inputs *)

Definition due_tasks : SearchOpts :=
  {| WhereAnds :=
       [{| wc_Column := "tasks.status"; wc_Value := AnySlice [AnyString "TODO"; AnyString "OR 1=1"]; wc_Operator := "IN" |};
        {| wc_Column := "tasks.title"; wc_Value := AnyString "%x%"; wc_Operator := "NOT ILIKE" |}];
     WhereOrs := []; Orderings := [{| ob_Column := "tasks.deadline"; ob_Dir := "ASC" |}];
     Limit := 20; Offset := 0; CountTotal := true |}.

Lemma valid_search_says_witness :
  @SearchOpts_IsValid sql_operators TaskColumn_IsValid due_tasks = None ∧
  ∃ page order ands or_clause args or_args,
    SearchOpts_Apply due_tasks = (page ++ [AppendWhere ands args; AppendWhere or_clause or_args] ++ order)%list ∧
    says "AND" (WhereAnds due_tasks) ands args ∧ says "OR" (WhereOrs due_tasks) or_clause or_args ∧
    order = (λ o, AppendOrderBy (OrderBy_String o)) <$> Orderings due_tasks ∧
    Forall (λ o, column_name (ob_Column o) = true) (Orderings due_tasks).
Proof. split; [reflexivity|]. exact (@valid_search_says sql_operators sql_operators_ok TaskColumn_IsValid TaskColumn_plain due_tasks eq_refl). Defined.

Definition no_status : WhereCond := {| wc_Column := "tasks.status"; wc_Value := AnySlice []; wc_Operator := "IN" |}.

Lemma empty_in_is_no_filter_witness : WhereCond_build no_status = ("TRUE", []).
Proof. apply (empty_in_is_no_filter no_status); [reflexivity|]. intros v vs. discriminate. Defined.
