(* ===== verification/LmsContent.v ===== *)
(** * Courses, publications and announcements (server/channels/app/lms)

    banner.go, branch.go, course.go, course_lesson.go, task.go, material.go,
    weekly_review.go, class_media.go, fee_package.go, post.go, notification.go
    and the list requests of class.go, session.go, homework.go, tuition.go and
    payment.go, over the tables of [LmsApp].  A list request goes through the
    database's own search, the parameter [Engine].  Metrics are left out. *)

From stdpp Require Import sorting.
From S2P Require Import Prelude.
From S2P Require Import GoUtf8.
From S2P Require Import GoTime.
From S2P Require Import LmsModel.
From S2P Require Import CallStore.
From S2P Require Import LmsStore.
From S2P Require Import LmsTables.
From S2P Require Import LmsApp.
From S2P Require Import LmsColumns.
From S2P Require Import LmsQuery.

Local Open Scope string_scope.
Local Open Scope go_scope.

(** SELECT and SELECT COUNT over one table with the given modifiers; [None]
    when the statement fails.  The first argument numbers the statement. *)
Class Engine (D X : Type) := {
  sql_all : nat → list qmod → lmsDB D → option (list X);
  sql_count : nat → list qmod → lmsDB D → option Z;
}.

(** ORDER BY of a text column, which is up to the collation of the database. *)
Class Collation := { collate_le : string → string → bool }.

(** [time.Parse(time.RFC3339, s)] and UnixMilli. *)
Definition rfc3339_millis (s : string) : option Z :=
  (λ p : Z * Z, (p.1 - unix_epoch) * 1000 + p.2 / 1000000)%Z <$> parse_rfc3339 s.

(** *** What goes when a row of the content goes (ON DELETE CASCADE) *)

Definition set_content {D} (c : contentDB D) (d : lmsDB D) : lmsDB D :=
  let '(LmsDB _ a b e f g h i j k l m n _) := d in LmsDB _ a b e f g h i j k l m n c.

(** lessons, fee packages, materials, classes and homework of a course, and
    the tuitions of its fee packages. *)
Definition cascade_course {D} (id : string) (d : lmsDB D) : lmsDB D :=
  let c := db_content d in
  let of_course (k : string) := bool_decide (k = id) in
  let gone := keep (λ p, of_course (FeePackage_CourseID p)) (db_packages c) in
  cascade
  {| db_classes := keep (λ x, negb (of_course (Class_CourseID x))) (db_classes d);
     db_enrolments := db_enrolments d; db_sessions := db_sessions d; db_attendances := db_attendances d;
     db_tuitions := keep (λ t, negb (has gone (Tuition_FeePackageID t))) (db_tuitions d);
     db_payments := db_payments d; db_refunds := db_refunds d; db_fees := db_fees d;
     db_homeworks := keep (λ h, negb (of_course (Homework_CourseID h))) (db_homeworks d);
     db_submissions := db_submissions d; db_leads := db_leads d; db_lead_activities := db_lead_activities d;
     db_content :=
       {| db_branches := db_branches c; db_courses := db_courses c;
          db_lessons := keep (λ l, negb (of_course (CourseLesson_CourseID l))) (db_lessons c);
          db_packages := keep (λ p, negb (of_course (FeePackage_CourseID p))) (db_packages c);
          db_categories := db_categories c; db_posts := db_posts c; db_reviews := db_reviews c;
          db_media := db_media c; db_tasks := db_tasks c; db_banners := db_banners c;
          db_notifications := db_notifications c;
          db_materials := keep (λ m, negb (of_course (Material_CourseID m))) (db_materials c) |} |}.

Definition cascade_branch {D} (id : string) (d : lmsDB D) : lmsDB D :=
  cascade (tset Classes (keep (λ x, negb (bool_decide (Class_BranchID x = id))) (db_classes d)) d).

Definition cascade_package {D} (id : string) (d : lmsDB D) : lmsDB D :=
  cascade (tset Tuitions (keep (λ t, negb (bool_decide (Tuition_FeePackageID t = id))) (db_tuitions d)) d).

Definition cascade_category {D} (id : string) (d : lmsDB D) : lmsDB D :=
  tset BlogPosts (keep (λ p, negb (bool_decide (BlogPost_CategoryID p = id))) (db_posts (db_content d))) d.

Section content.
Context `{UnicodeTables} `{Decimal D} `{LmsEnv} `{GoRange} `{QmHelper} `{Collation}.

Abbreviation SM := (M (lms_world D) storeError).
Abbreviation LM := (M (lms_world D) lmsError).

(** ** Errors *)

(** A not-found error that does not wrap its cause. *)
Definition plain_not_found (nf id : string) (e : storeError) : lmsError :=
  if IsErrNotFound e then LmsError nf 404 None else LmsError id 500 (Some e).

Definition wrapE {A} (classify : storeError → lmsError) (m : SM A) : LM A := λ w,
  match m w with
  | (Ok a, w') => (Ok a, w')
  | (Err e, w') => (Err (classify e), w')
  end.

(** ** Statements *)

(** The Search of a store: the page, and the number of rows asked for. *)
Definition db_search {X} `{Engine D X} (L : lens D X) (what : string) (mods : list qmod) (opts : SearchOpts)
    : SM (list X * Z) :=
  items <- on_table L (λ n d,
    (match sql_all n (mods ++ SearchOpts_Apply opts) d with
     | Some l => Ok l
     | None => Err (ErrDatabase ("failed to search " ++ what)%string)
     end, tget L d)) ;;
  if CountTotal opts then
    total <- on_table L (λ n d,
      (match sql_count n (mods ++ SearchOpts_Apply (ExludePaginationForCount opts)) d with
       | Some z => Ok z
       | None => Err (ErrDatabase ("failed to count " ++ what)%string)
       end, tget L d)) ;;
    m_ret (items, total)
  else m_ret (items, Z.of_nat (length items)).

#[export] Instance sorted_by_dec {X} (le : X → X → bool) : RelDecision (λ a b, le a b = true).
Proof. intros a b. apply bool_eq_dec. Defined.

(** SELECT ... WHERE [P] ORDER BY [le]. *)
Definition db_sorted {X} (L : lens D X) (P : X → bool) (le : X → X → bool) : SM (list X) :=
  rows <- db_query L P ;; m_ret (merge_sort (λ a b, le a b = true) rows).

Definition all_rows {X} (_ : X) : bool := true.

(** No other row of the table has the same value in a UNIQUE column. *)
Definition unique_in {X} (T : table X) (key : X → string) (rows : gmap string X) (x : X) : bool :=
  forallb (λ e : string * X, bool_decide (e.1 = row_id T x) || negb (bool_decide (key e.2 = key x)))
    (map_to_list rows).

Definition free {X} (_ : lmsDB D) (_ : X) : bool := true.

(** ** banner.go *)

Definition GetBanner (id : string) : LM Banner :=
  wrapE (plain_not_found "app.lms.banner.not_found.app_error" "app.lms.banner.get.app_error")
    (db_get Banner_table Banners id).

Definition CreateBanner (banner : Banner) : LM Banner :=
  wrap (internal "app.lms.banner.create.app_error")
    (db_save Banner_table Banners free banner).

Definition Banner_with_id (id : string) (banner : Banner) : Banner :=
  {| Banner_ID := id; Banner_Title := Banner_Title banner; Banner_ImageURL := Banner_ImageURL banner;
     Banner_LinkURL := Banner_LinkURL banner; Banner_Position := Banner_Position banner;
     Banner_IsActive := Banner_IsActive banner; Banner_Createat := Banner_Createat banner;
     Banner_Updateat := Banner_Updateat banner |}.

Definition UpdateBanner (id : string) (banner : Banner) : LM Banner :=
  wrapE (plain_not_found "app.lms.banner.not_found.app_error" "app.lms.banner.update.app_error")
    (db_update Banner_table Banners BannerPreUpdate free (Banner_with_id id banner)).

Definition DeleteBanner (id : string) : LM unit :=
  wrapE (plain_not_found "app.lms.banner.not_found.app_error" "app.lms.banner.get.app_error")
    (db_get Banner_table Banners id) ;;;
  wrap (internal "app.lms.banner.delete.app_error") (db_delete Banner_table Banners id).

(** ORDER BY position ASC. *)
Definition BannerStore_GetAll : SM (list Banner) :=
  db_sorted Banners all_rows (λ a b, Banner_Position a <=? Banner_Position b)%Z.

Definition GetBanners : LM (list Banner) :=
  wrap (internal "app.lms.banner.get_all.app_error") BannerStore_GetAll.

(** ** branch.go *)

(** branches.name is UNIQUE. *)
Definition branch_refs (d : lmsDB D) (b : Branch) : bool :=
  unique_in Branch_table Branch_Name (db_branches (db_content d)) b.

Definition GetBranch (id : string) : LM Branch :=
  wrap (not_found_or "app.lms.branch.not_found" "app.lms.branch.get.app_error")
    (db_get Branch_table Branches id).

Definition CreateBranch (branch : Branch) : LM Branch :=
  wrap (internal "app.lms.branch.create.app_error")
    (db_save Branch_table Branches branch_refs branch).

Definition DeleteBranch (id : string) : LM unit :=
  wrap (not_found_or "app.lms.branch.not_found" "app.lms.branch.delete.app_error")
    (db_delete_with Branch_table Branches cascade_branch id).

Definition BranchStore_Search `{Engine D Branch} (opts : SearchOpts) : SM (list Branch * Z) :=
  db_search Branches "branches" [] opts.

Definition GetBranches `{Engine D Branch} (opts : SearchOpts) : LM (list Branch * Z) :=
  wrap (internal "app.lms.branch.get_all.app_error") (BranchStore_Search opts).

(** ** course.go *)

(** courses.name and courses.code are UNIQUE. *)
Definition course_refs (d : lmsDB D) (c : Course D) : bool :=
  unique_in Course_table Course_Name (db_courses (db_content d)) c &&
  unique_in Course_table Course_Code (db_courses (db_content d)) c.

Definition GetCourse (id : string) : LM (Course D) :=
  wrap (not_found_or "app.lms.course.not_found" "app.lms.course.get.app_error")
    (db_get Course_table Courses id).

Definition CreateCourse (course : Course D) : LM (Course D) :=
  wrap (internal "app.lms.course.create.app_error")
    (db_save Course_table Courses course_refs course).

Definition Course_with_id (id : string) (course : Course D) : Course D :=
  {| Course_ID := id; Course_Name := Course_Name course; Course_Code := Course_Code course;
     Course_Level := Course_Level course; Course_AgeRange := Course_AgeRange course;
     Course_TotalSessions := Course_TotalSessions course;
     Course_DurationPerSession := Course_DurationPerSession course; Course_Fee := Course_Fee course;
     Course_Description := Course_Description course; Course_Curriculum := Course_Curriculum course;
     Course_Createat := Course_Createat course; Course_Updateat := Course_Updateat course |}.

(** Not found is an internal error here. *)
Definition UpdateCourse (id : string) (course : Course D) : LM (Course D) :=
  wrap (internal "app.lms.course.update.app_error")
    (db_update Course_table Courses CoursePreUpdate course_refs (Course_with_id id course)).

Definition DeleteCourse (id : string) : LM unit :=
  wrap (not_found_or "app.lms.course.not_found" "app.lms.course.delete.app_error")
    (db_delete_with Course_table Courses cascade_course id).

(** ORDER BY name ASC. *)
Definition CourseStore_GetAll : SM (list (Course D)) :=
  db_sorted Courses all_rows (λ a b, collate_le (Course_Name a) (Course_Name b)).

Definition GetCourses : LM (list (Course D)) :=
  wrap (internal "app.lms.course.get_all.app_error") CourseStore_GetAll.

(** ORDER BY session_number ASC. *)
Definition CourseLessonStore_GetByCourse (courseID : string) : SM (list CourseLesson) :=
  db_sorted CourseLessons (λ l, bool_decide (CourseLesson_CourseID l = courseID))
    (λ a b, CourseLesson_SessionNumber a <=? CourseLesson_SessionNumber b)%Z.

Definition GetCourseWithLessons (id : string) : LM (Course D * list CourseLesson) :=
  course <- GetCourse id ;;
  lessons <- wrap (internal "app.lms.course.get_lessons.app_error") (CourseLessonStore_GetByCourse id) ;;
  m_ret (course, lessons).

(** ** course_lesson.go *)

Definition lesson_refs (d : lmsDB D) (l : CourseLesson) : bool :=
  has (db_courses (db_content d)) (CourseLesson_CourseID l).

Definition GetCourseLesson (id : string) : LM CourseLesson :=
  wrap (not_found_or "app.lms.course_lesson.not_found" "app.lms.course_lesson.get.app_error")
    (db_get CourseLesson_table CourseLessons id).

Definition CreateCourseLesson (lesson : CourseLesson) : LM CourseLesson :=
  wrap (internal "app.lms.course_lesson.create.app_error")
    (db_save CourseLesson_table CourseLessons lesson_refs lesson).

Definition CourseLesson_with_id (id : string) (lesson : CourseLesson) : CourseLesson :=
  {| CourseLesson_ID := id; CourseLesson_CourseID := CourseLesson_CourseID lesson;
     CourseLesson_SessionNumber := CourseLesson_SessionNumber lesson;
     CourseLesson_Title := CourseLesson_Title lesson; CourseLesson_Unit := CourseLesson_Unit lesson;
     CourseLesson_Pages := CourseLesson_Pages lesson;
     CourseLesson_Objectives := CourseLesson_Objectives lesson;
     CourseLesson_Createat := CourseLesson_Createat lesson;
     CourseLesson_Updateat := CourseLesson_Updateat lesson |}.

Definition UpdateCourseLesson (id : string) (lesson : CourseLesson) : LM CourseLesson :=
  wrap (not_found_or "app.lms.course_lesson.not_found" "app.lms.course_lesson.update.app_error")
    (db_update CourseLesson_table CourseLessons CourseLessonPreUpdate lesson_refs (CourseLesson_with_id id lesson)).

Definition DeleteCourseLesson (id : string) : LM unit :=
  wrap (not_found_or "app.lms.course_lesson.not_found" "app.lms.course_lesson.delete.app_error")
    (db_delete CourseLesson_table CourseLessons id).

(** ** task.go *)

Definition GetTask (id : string) : LM Task :=
  wrapE (plain_not_found "app.lms.task.not_found.app_error" "app.lms.task.get.app_error")
    (db_get Task_table Tasks id).

Definition CreateTask (task : Task) : LM Task :=
  wrap (internal "app.lms.task.create.app_error")
    (db_save Task_table Tasks free task).

Definition Task_with_id (id : string) (task : Task) : Task :=
  {| Task_ID := id; Task_Title := Task_Title task; Task_Description := Task_Description task;
     Task_AssigneeID := Task_AssigneeID task; Task_CreatorID := Task_CreatorID task;
     Task_Deadline := Task_Deadline task; Task_Priority := Task_Priority task;
     Task_Status := Task_Status task; Task_Notes := Task_Notes task;
     Task_Createat := Task_Createat task; Task_Updateat := Task_Updateat task |}.

Definition UpdateTask (id : string) (task : Task) : LM Task :=
  wrapE (plain_not_found "app.lms.task.not_found.app_error" "app.lms.task.update.app_error")
    (db_update Task_table Tasks TaskPreUpdate free (Task_with_id id task)).

Definition DeleteTask (id : string) : LM unit :=
  wrapE (plain_not_found "app.lms.task.not_found.app_error" "app.lms.task.get.app_error")
    (db_get Task_table Tasks id) ;;;
  wrap (internal "app.lms.task.delete.app_error") (db_delete Task_table Tasks id).

Definition TaskStore_Search `{Engine D Task} (opts : SearchOpts) : SM (list Task * Z) :=
  db_search Tasks "tasks" [] opts.

Definition GetTasks `{Engine D Task} (opts : SearchOpts) : LM (list Task * Z) :=
  wrap (internal "app.lms.task.get_all.app_error") (TaskStore_Search opts).

(** ** material.go *)

Definition material_refs (d : lmsDB D) (m : Material) : bool :=
  has (db_courses (db_content d)) (Material_CourseID m).

Definition GetMaterial (id : string) : LM Material :=
  wrapE (plain_not_found "app.lms.material.not_found.app_error" "app.lms.material.get.app_error")
    (db_get Material_table Materials id).

Definition CreateMaterial (m : Material) : LM Material :=
  wrap (internal "app.lms.material.create.app_error")
    (db_save Material_table Materials material_refs m).

Definition Material_with_id (id : string) (m : Material) : Material :=
  {| Material_ID := id; Material_Title := Material_Title m;
     Material_Description := Material_Description m; Material_CourseID := Material_CourseID m;
     Material_Unit := Material_Unit m; Material_Visibility := Material_Visibility m;
     Material_FileID := Material_FileID m; Material_UploadedByID := Material_UploadedByID m;
     Material_Version := Material_Version m; Material_Createat := Material_Createat m;
     Material_Updateat := Material_Updateat m |}.

Definition UpdateMaterial (id : string) (m : Material) : LM Material :=
  wrapE (plain_not_found "app.lms.material.not_found.app_error" "app.lms.material.update.app_error")
    (db_update Material_table Materials MaterialPreUpdate material_refs (Material_with_id id m)).

Definition DeleteMaterial (id : string) : LM unit :=
  wrapE (plain_not_found "app.lms.material.not_found.app_error" "app.lms.material.get.app_error")
    (db_get Material_table Materials id) ;;;
  wrap (internal "app.lms.material.delete.app_error") (db_delete Material_table Materials id).

Definition MaterialStore_Search `{Engine D Material} (opts : SearchOpts) : SM (list Material * Z) :=
  db_search Materials "materials" [] opts.

Definition GetMaterials `{Engine D Material} (opts : SearchOpts) : LM (list Material * Z) :=
  wrap (internal "app.lms.material.get_all.app_error") (MaterialStore_Search opts).

(** ** weekly_review.go *)

Definition review_refs (d : lmsDB D) (wr : WeeklyReview) : bool :=
  has (db_classes d) (WeeklyReview_ClassID wr).

Definition GetWeeklyReview (id : string) : LM WeeklyReview :=
  wrapE (plain_not_found "app.lms.weekly_review.not_found.app_error" "app.lms.weekly_review.get.app_error")
    (db_get WeeklyReview_table WeeklyReviews id).

Definition CreateWeeklyReview (wr : WeeklyReview) : LM WeeklyReview :=
  wrap (internal "app.lms.weekly_review.create.app_error")
    (db_save WeeklyReview_table WeeklyReviews review_refs wr).

Definition WeeklyReview_with_id (id : string) (wr : WeeklyReview) : WeeklyReview :=
  {| WeeklyReview_ID := id; WeeklyReview_StudentID := WeeklyReview_StudentID wr;
     WeeklyReview_ClassID := WeeklyReview_ClassID wr;
     WeeklyReview_WeekNumber := WeeklyReview_WeekNumber wr;
     WeeklyReview_Content := WeeklyReview_Content wr; WeeklyReview_Rating := WeeklyReview_Rating wr;
     WeeklyReview_CreatedBy := WeeklyReview_CreatedBy wr;
     WeeklyReview_Createat := WeeklyReview_Createat wr; WeeklyReview_Updateat := WeeklyReview_Updateat wr |}.

Definition UpdateWeeklyReview (id : string) (wr : WeeklyReview) : LM WeeklyReview :=
  wrapE (plain_not_found "app.lms.weekly_review.not_found.app_error" "app.lms.weekly_review.update.app_error")
    (db_update WeeklyReview_table WeeklyReviews WeeklyReviewPreUpdate review_refs (WeeklyReview_with_id id wr)).

Definition DeleteWeeklyReview (id : string) : LM unit :=
  wrapE (plain_not_found "app.lms.weekly_review.not_found.app_error" "app.lms.weekly_review.get.app_error")
    (db_get WeeklyReview_table WeeklyReviews id) ;;;
  wrap (internal "app.lms.weekly_review.delete.app_error") (db_delete WeeklyReview_table WeeklyReviews id).

Definition WeeklyReviewStore_Search `{Engine D WeeklyReview} (opts : SearchOpts) : SM (list WeeklyReview * Z) :=
  db_search WeeklyReviews "weekly reviews" [] opts.

Definition GetWeeklyReviews `{Engine D WeeklyReview} (opts : SearchOpts) : LM (list WeeklyReview * Z) :=
  wrap (internal "app.lms.weekly_review.get_all.app_error") (WeeklyReviewStore_Search opts).

(** ** class_media.go *)

Definition media_refs (d : lmsDB D) (m : ClassMedia) : bool :=
  has (db_classes d) (ClassMedia_ClassID m) &&
  match ClassMedia_SessionID m with Some s => has (db_sessions d) s | None => true end.

Definition MediaFileURL (fileID : string) : string := "/api/v4/lms/media/" ++ fileID.

Definition ClassMedia_with_url (url : string) (cm : ClassMedia) : ClassMedia :=
  {| ClassMedia_ID := ClassMedia_ID cm; ClassMedia_ClassID := ClassMedia_ClassID cm;
     ClassMedia_SessionID := ClassMedia_SessionID cm; ClassMedia_Title := ClassMedia_Title cm;
     ClassMedia_FileURL := url; ClassMedia_FileType := ClassMedia_FileType cm;
     ClassMedia_UploadedByID := ClassMedia_UploadedByID cm; ClassMedia_FileID := ClassMedia_FileID cm;
     ClassMedia_Createat := ClassMedia_Createat cm; ClassMedia_Updateat := ClassMedia_Updateat cm |}.

Definition canonical_media (cm : ClassMedia) : ClassMedia :=
  if negb (empty (ClassMedia_FileID cm)) && IsValidId (ClassMedia_FileID cm)
  then ClassMedia_with_url (MediaFileURL (ClassMedia_FileID cm)) cm else cm.

Definition CreateClassMedia (cm : ClassMedia) : LM ClassMedia :=
  wrap (internal "app.lms.class_media.create.app_error")
    (db_save ClassMedia_table ClassMedias media_refs (canonical_media cm)).

Definition DeleteClassMedia (id : string) : LM unit :=
  wrapE (plain_not_found "app.lms.class_media.not_found.app_error" "app.lms.class_media.get.app_error")
    (db_get ClassMedia_table ClassMedias id) ;;;
  wrap (internal "app.lms.class_media.delete.app_error") (db_delete ClassMedia_table ClassMedias id).

(** [One]: some row, or the not-found error. *)
Definition ClassMediaStore_GetByFileID (fileID : string) : SM ClassMedia :=
  rows <- db_query ClassMedias (λ m, bool_decide (ClassMedia_FileID m = fileID)) ;;
  match head rows with
  | Some m => m_ret m
  | None => m_throw (ErrNotFound "ClassMedium" fileID)
  end.

Definition GetClassMediaByFileID (fileID : string) : LM ClassMedia :=
  wrapE (plain_not_found "app.lms.class_media.not_found.app_error" "app.lms.class_media.get_by_file_id.app_error")
    (ClassMediaStore_GetByFileID fileID).

Definition ClassMediaStore_Search `{Engine D ClassMedia} (opts : SearchOpts) : SM (list ClassMedia * Z) :=
  db_search ClassMedias "class media" [] opts.

Definition GetClassMedia `{Engine D ClassMedia} (opts : SearchOpts) : LM (list ClassMedia * Z) :=
  wrap (internal "app.lms.class_media.get_all.app_error") (ClassMediaStore_Search opts).

(** ** fee_package.go *)

Definition package_refs (d : lmsDB D) (fp : FeePackage D) : bool :=
  has (db_courses (db_content d)) (FeePackage_CourseID fp).

Definition CreateFeePackage (fp : FeePackage D) : LM (FeePackage D) :=
  wrap (internal "app.lms.fee_package.create.app_error")
    (db_save FeePackage_table FeePackages package_refs fp).

Definition DeleteFeePackage (id : string) : LM unit :=
  wrapE (plain_not_found "app.lms.fee_package.not_found" "app.lms.fee_package.delete.app_error")
    (db_delete_with FeePackage_table FeePackages cascade_package id).

Definition FeePackageStore_Search `{Engine D (FeePackage D)} (opts : SearchOpts) : SM (list (FeePackage D) * Z) :=
  db_search FeePackages "fee packages" [] opts.

Definition GetFeePackages `{Engine D (FeePackage D)} (opts : SearchOpts) : LM (list (FeePackage D) * Z) :=
  wrap (internal "app.lms.fee_package.get_all.app_error") (FeePackageStore_Search opts).

(** ** post.go *)

(** post_categories.name and .slug are UNIQUE. *)
Definition category_refs (d : lmsDB D) (pc : PostCategory) : bool :=
  unique_in PostCategory_table PostCategory_Name (db_categories (db_content d)) pc &&
  unique_in PostCategory_table PostCategory_Slug (db_categories (db_content d)) pc.

(** ORDER BY name ASC. *)
Definition PostCategoryStore_GetAll : SM (list PostCategory) :=
  db_sorted PostCategories all_rows (λ a b, collate_le (PostCategory_Name a) (PostCategory_Name b)).

Definition GetPostCategories : LM (list PostCategory) :=
  wrap (internal "app.lms.post_category.get_all.app_error") PostCategoryStore_GetAll.

Definition CreatePostCategory (pc : PostCategory) : LM PostCategory :=
  wrap (internal "app.lms.post_category.create.app_error")
    (db_save PostCategory_table PostCategories category_refs pc).

Definition PostCategory_with_id (id : string) (pc : PostCategory) : PostCategory :=
  {| PostCategory_ID := id; PostCategory_Name := PostCategory_Name pc;
     PostCategory_Slug := PostCategory_Slug pc; PostCategory_Createat := PostCategory_Createat pc;
     PostCategory_Updateat := PostCategory_Updateat pc |}.

Definition UpdatePostCategory (id : string) (pc : PostCategory) : LM PostCategory :=
  wrap (not_found_or "app.lms.post_category.not_found" "app.lms.post_category.update.app_error")
    (db_update PostCategory_table PostCategories PostCategoryPreUpdate category_refs (PostCategory_with_id id pc)).

Definition DeletePostCategory (id : string) : LM unit :=
  wrap (not_found_or "app.lms.post_category.not_found" "app.lms.post_category.delete.app_error")
    (db_delete_with PostCategory_table PostCategories cascade_category id).

(** blog_posts.slug is UNIQUE. *)
Definition post_refs (d : lmsDB D) (p : BlogPost) : bool :=
  unique_in BlogPost_table BlogPost_Slug (db_posts (db_content d)) p &&
  has (db_categories (db_content d)) (BlogPost_CategoryID p).

Definition GetPost (id : string) : LM BlogPost :=
  wrap (not_found_or "app.lms.blog_post.not_found" "app.lms.blog_post.get.app_error")
    (db_get BlogPost_table BlogPosts id).

Definition BlogPostStore_Search `{Engine D BlogPost} (opts : SearchOpts) : SM (list BlogPost * Z) :=
  db_search BlogPosts "blog posts" [] opts.

Definition GetPosts `{Engine D BlogPost} (opts : SearchOpts) : LM (list BlogPost * Z) :=
  wrap (internal "app.lms.blog_post.get_all.app_error") (BlogPostStore_Search opts).

Definition BlogPost_published (id : string) (at_ : option Z) (post : BlogPost) : BlogPost :=
  {| BlogPost_ID := id; BlogPost_Title := BlogPost_Title post; BlogPost_Slug := BlogPost_Slug post;
     BlogPost_Content := BlogPost_Content post; BlogPost_Excerpt := BlogPost_Excerpt post;
     BlogPost_CategoryID := BlogPost_CategoryID post; BlogPost_AuthorID := BlogPost_AuthorID post;
     BlogPost_Status := BlogPost_Status post; BlogPost_SeoTitle := BlogPost_SeoTitle post;
     BlogPost_SeoDescription := BlogPost_SeoDescription post;
     BlogPost_SeoKeywords := BlogPost_SeoKeywords post; BlogPost_PublishedAt := at_;
     BlogPost_Createat := BlogPost_Createat post; BlogPost_Updateat := BlogPost_Updateat post |}.

(** A published post gets the time of the request. *)
Definition CreatePost (post : BlogPost) : LM BlogPost :=
  now <- m_gets (λ w, lms_clock (lms_ticks w)) ;;
  let post := if decide (BlogPost_Status post = "PUBLISHED") then BlogPost_published (BlogPost_ID post) (Some now) post
              else post in
  wrap (internal "app.lms.blog_post.create.app_error") (db_save BlogPost_table BlogPosts post_refs post).

Definition UpdatePost (id : string) (post : BlogPost) : LM BlogPost :=
  now <- m_gets (λ w, lms_clock (lms_ticks w)) ;;
  let published := if decide (BlogPost_Status post = "PUBLISHED" ∧ BlogPost_PublishedAt post = None)
                   then Some now else BlogPost_PublishedAt post in
  wrap (not_found_or "app.lms.blog_post.not_found" "app.lms.blog_post.update.app_error")
    (db_update BlogPost_table BlogPosts BlogPostPreUpdate post_refs (BlogPost_published id published post)).

Definition DeletePost (id : string) : LM unit :=
  wrap (not_found_or "app.lms.blog_post.not_found" "app.lms.blog_post.delete.app_error")
    (db_delete BlogPost_table BlogPosts id).

(** ORDER BY published_at DESC, where NULL comes first. *)
Definition later_published (a b : BlogPost) : bool :=
  match BlogPost_PublishedAt a, BlogPost_PublishedAt b with
  | None, _ => true
  | Some _, None => false
  | Some x, Some y => (y <=? x)%Z
  end.

Definition BlogPostStore_GetPublished : SM (list BlogPost) :=
  db_sorted BlogPosts (λ p, bool_decide (BlogPost_Status p = "PUBLISHED")) later_published.

(** ** notification.go *)

(** ORDER BY is_read ASC, createat DESC. *)
Definition unread_first (a b : Notification) : bool :=
  if Bool.eqb (Notification_IsRead a) (Notification_IsRead b)
  then (Notification_Createat b <=? Notification_Createat a)%Z else negb (Notification_IsRead a).

Definition NotificationStore_GetByUser (userID : string) : SM (list Notification) :=
  db_sorted Notifications (λ n, bool_decide (Notification_UserID n = userID)) unread_first.

Definition GetNotifications (userID : string) : LM (list Notification * Z) :=
  notifications <- wrap (internal "app.lms.notification.get_by_user.app_error")
                     (NotificationStore_GetByUser userID) ;;
  m_ret (notifications, Z.of_nat (length (filter (λ n, Notification_IsRead n = false) notifications))).

Definition Notification_read (n : Notification) : Notification :=
  {| Notification_ID := Notification_ID n; Notification_UserID := Notification_UserID n;
     Notification_Title := Notification_Title n; Notification_Message := Notification_Message n;
     Notification_Type := Notification_Type n; Notification_IsRead := true;
     Notification_LinkURL := Notification_LinkURL n; Notification_Createat := Notification_Createat n;
     Notification_Updateat := Notification_Updateat n |}.

(** Find, then UPDATE of the one column. *)
Definition NotificationStore_MarkAsRead (id : string) : SM unit :=
  n <- db_get Notification_table Notifications id ;;
  on_table Notifications (λ k d,
    if lms_fault k then (Err (ErrDatabase "failed to mark notification as read"), tget Notifications d)
    else (Ok tt, alter Notification_read (Notification_ID n) (tget Notifications d))).

(** Every error is an internal one, an unknown id too. *)
Definition MarkNotificationAsRead (id : string) : LM unit :=
  wrap (internal "app.lms.notification.mark_as_read.app_error") (NotificationStore_MarkAsRead id).

(** ** Lists of the other tables *)

Record ClassFilterOpts := { class_opts : SearchOpts; class_search : string }.

(** [fmt.Sprintf("%%%s%%", s)] *)
Definition infix_pattern (s : string) : string := "%" ++ s ++ "%".

Definition ilike (column s : string) : WhereCond :=
  {| wc_Column := column; wc_Value := AnyString (infix_pattern s); wc_Operator := OperatorILike |}.

Definition ClassStore_Search `{Engine D Class} (opts : ClassFilterOpts) : SM (list Class * Z) :=
  db_search Classes "classes" (if empty (class_search opts) then [] else WhereOrs_Apply [ilike "classes.name" (class_search opts)]) (class_opts opts).

Definition GetClasses `{Engine D Class} (opts : ClassFilterOpts) : LM (list Class * Z) :=
  wrap (internal "app.lms.class.get_all.app_error") (ClassStore_Search opts).

Definition LMSSessionStore_Search `{Engine D LMSSession} (opts : SearchOpts) : SM (list LMSSession * Z) :=
  db_search Sessions "lms sessions" [] opts.

Definition GetSessions `{Engine D LMSSession} (opts : SearchOpts) : LM (list LMSSession * Z) :=
  wrap (internal "app.lms.session.get_all.app_error") (LMSSessionStore_Search opts).

Definition HomeworkStore_Search `{Engine D Homework} (opts : SearchOpts) : SM (list Homework * Z) :=
  db_search Homeworks "homeworks" [] opts.

Definition GetHomework `{Engine D Homework} (opts : SearchOpts) : LM (list Homework * Z) :=
  wrap (internal "app.lms.homework.get_all.app_error") (HomeworkStore_Search opts).

Record LeadFilterOpts := { lead_opts : SearchOpts; lead_search : string }.

Definition LeadStore_Search `{Engine D Lead} (opts : LeadFilterOpts) : SM (list Lead * Z) :=
  db_search Leads "leads" (if empty (lead_search opts) then []
     else WhereOrs_Apply [ilike "leads.name" (lead_search opts); ilike "leads.phone" (lead_search opts);
                          ilike "leads.email" (lead_search opts)]) (lead_opts opts).

Definition GetLeads `{Engine D Lead} (opts : LeadFilterOpts) : LM (list Lead * Z) :=
  wrap (internal "app.lms.lead.get_all.app_error") (LeadStore_Search opts).

Record TuitionFilterOpts := { tuition_opts : SearchOpts; tuition_search : string }.

Definition student_named : string :=
  "(tuitions.student_id IN (SELECT id FROM users WHERE username ILIKE ?) OR " ++
  "tuitions.student_id IN (SELECT id FROM users WHERE first_name ILIKE ?) OR " ++
  "tuitions.student_id IN (SELECT id FROM users WHERE last_name ILIKE ?))".

Definition TuitionStore_Search `{Engine D (Tuition D)} (opts : TuitionFilterOpts) : SM (list (Tuition D) * Z) :=
  db_search Tuitions "tuitions" (if empty (tuition_search opts) then []
     else let p := AnyString ("%" ++ tuition_search opts ++ "%")%string in [OrWhere student_named [p; p; p]]) (tuition_opts opts).

Definition GetTuitions `{Engine D (Tuition D)} (opts : TuitionFilterOpts) : LM (list (Tuition D) * Z) :=
  wrap (internal "app.lms.tuition.get_all.app_error") (TuitionStore_Search opts).

(** A text for the payment date must be an RFC 3339 time, and is replaced by
    its milliseconds. *)
Definition payment_date (c : WhereCond) : option WhereCond :=
  if decide (wc_Column c = "payments.payment_date") then
    match wc_Value c with
    | AnyString s =>
        (λ t, {| wc_Column := wc_Column c; wc_Value := AnyInt64 t; wc_Operator := wc_Operator c |}) <$>
        rfc3339_millis s
    | _ => Some c
    end
  else Some c.

Fixpoint payment_dates (conds : list WhereCond) : option (list WhereCond) :=
  match conds with
  | [] => Some []
  | c :: rest =>
      match payment_date c, payment_dates rest with
      | Some c, Some rest => Some (c :: rest)
      | _, _ => None
      end
  end.

Definition PaymentStore_Search `{Engine D (Payment D)} (opts : SearchOpts) : SM (list (Payment D) * Z) :=
  match payment_dates (WhereAnds opts) with
  | None => m_throw (ErrDatabase "invalid payment date format")
  | Some ands =>
      match payment_dates (WhereOrs opts) with
      | None => m_throw (ErrDatabase "invalid payment date format")
      | Some ors =>
          db_search Payments "payments" []
            {| WhereAnds := ands; WhereOrs := ors; Orderings := Orderings opts; Limit := Limit opts;
               Offset := Offset opts; CountTotal := CountTotal opts |}
      end
  end.

Definition GetPayments `{Engine D (Payment D)} (opts : SearchOpts) : LM (list (Payment D) * Z) :=
  wrap (internal "app.lms.payment.get_all.app_error") (PaymentStore_Search opts).

(** ** public.go, the parts without users *)

Definition GetPublicCourses : LM (list (Course D)) :=
  wrap (internal "app.lms.public.get_courses.app_error") CourseStore_GetAll.

Definition GetPublicPosts : LM (list BlogPost) :=
  wrap (internal "app.lms.public.get_posts.app_error") BlogPostStore_GetPublished.

Definition Lead_new (lead : Lead) : Lead :=
  {| Lead_ID := Lead_ID lead; Lead_Name := Lead_Name lead; Lead_Email := Lead_Email lead;
     Lead_Phone := Lead_Phone lead; Lead_Age := Lead_Age lead; Lead_School := Lead_School lead;
     Lead_Source := Lead_Source lead; Lead_Need := Lead_Need lead; Lead_Status := "NEW";
     Lead_StudentID := Lead_StudentID lead; Lead_Notes := Lead_Notes lead;
     Lead_TestDate := Lead_TestDate lead; Lead_TestResult := Lead_TestResult lead;
     Lead_TestScore := Lead_TestScore lead; Lead_CounselorID := Lead_CounselorID lead;
     Lead_Createat := Lead_Createat lead; Lead_Updateat := Lead_Updateat lead |}.

Definition PublicRegister (lead : Lead) : LM Lead :=
  wrap (internal "app.lms.public.register.app_error") (db_save Lead_table Leads free (Lead_new lead)).

Definition contact_lead (name email phone message : string) : Lead :=
  {| Lead_ID := ""; Lead_Name := name; Lead_Email := Some email; Lead_Phone := Some phone;
     Lead_Age := None; Lead_School := None; Lead_Source := Some "WEBSITE"; Lead_Need := None;
     Lead_Status := "NEW"; Lead_StudentID := None; Lead_Notes := Some message; Lead_TestDate := 0;
     Lead_TestResult := None; Lead_TestScore := None; Lead_CounselorID := None; Lead_Createat := 0;
     Lead_Updateat := 0 |}.

Definition SubmitContact (name email phone message : string) : LM Lead :=
  wrap (internal "app.lms.public.contact.app_error")
    (db_save Lead_table Leads free (contact_lead name email phone message)).
End content.
