(* ===== verification/LmsSchedule.v ===== *)
(** * The teaching schedule (server/channels/app/lms/session.go)

    Sessions, weekly series and the teacher's conflicts.  An instant of the
    day is in Unix milliseconds, a date in seconds since year 1 (LmsDate). *)

From stdpp Require Import sorting.
From S2P Require Import Prelude.
From S2P Require Import GoString.
From S2P Require Import GoUtf8.
From S2P Require Import GoTime.
From S2P Require Import LmsDate.
From S2P Require Import LmsModel.
From S2P Require Import CallStore.
From S2P Require Import LmsStore.
From S2P Require Import LmsTables.
From S2P Require Import LmsApp.

Local Open Scope string_scope.
Local Open Scope go_scope.
Local Open Scope Z_scope.

Definition maxRepeatOccurrences : Z := 104.

Record SessionConflict := {
  cf_Date : string; cf_StartTimeMs : Z; cf_EndTimeMs : Z; cf_ClassID : string;
  cf_ClassName : string; cf_TeacherID : string; cf_TeacherName : string;
}.

(** ** Weekly series *)

(** The longest [time.Duration], in seconds: [Sub] saturates. *)
Definition maxDuration : Z := 9223372036.

Definition week : Z := 7 * day.
Definition week_ms : Z := 7 * 24 * 3600 * 1000.

(** The k-th clone of the base session. *)
Definition occurrence (s : LMSSession) (k : nat) : LMSSession :=
  match k with
  | O => s
  | S _ =>
      {| LMSSession_ID := ""; LMSSession_Title := LMSSession_Title s;
         LMSSession_ClassID := LMSSession_ClassID s;
         LMSSession_StartTime := to_int64 (LMSSession_StartTime s + to_int64 (Z.of_nat k * week_ms));
         LMSSession_EndTime := to_int64 (LMSSession_EndTime s + to_int64 (Z.of_nat k * week_ms));
         LMSSession_Room := LMSSession_Room s; LMSSession_TeacherID := LMSSession_TeacherID s;
         LMSSession_LessonID := LMSSession_LessonID s; LMSSession_Status := LMSSession_Status s;
         LMSSession_Date := LMSSession_Date s + 7 * Z.of_nat k * day;
         LMSSession_Createat := 0; LMSSession_Updateat := 0 |}
  end.

(** int(untilDate.Sub(baseDate).Hours()/24/7) + 1 *)
Definition weeks_between (base until : Z) : Z := Z.min (until - base) maxDuration / week + 1.

Definition expandWeeklyOccurrences (session : LMSSession) (repeatUntil : string)
    : res lmsError (list LMSSession) :=
  if decide (repeatUntil = "") then Ok [session]
  else match parse_date repeatUntil with
       | None => Err (LmsError "app.lms.session.repeat_until.app_error" 400 None)
       | Some n =>
           let baseDate := LMSSession_Date session in
           let untilDate := n * day in
           if bool_decide (untilDate < baseDate) then
             Err (LmsError "app.lms.session.repeat_until_before.app_error" 400 None)
           else
           let weeks := weeks_between baseDate untilDate in
           if bool_decide (maxRepeatOccurrences < weeks) then
             Err (LmsError "app.lms.session.repeat_too_many.app_error" 400 None)
           else Ok (occurrence session <$> seq 0 (Z.to_nat weeks))
       end.

(** ** Conflicts *)

Definition overlaps (occ existing : LMSSession) : bool :=
  bool_decide (LMSSession_StartTime occ < LMSSession_EndTime existing) &&
  bool_decide (LMSSession_StartTime existing < LMSSession_EndTime occ).

(** The WHERE clause of FindTeacherConflicts. *)
Definition conflict_row (teacherID : string) (startMs endMs : Z) (exclude : string) (s : LMSSession) : bool :=
  bool_decide (LMSSession_TeacherID s = teacherID) &&
  negb (bool_decide (LMSSession_Status s = "CANCELLED")) &&
  bool_decide (LMSSession_StartTime s < endMs) && bool_decide (startMs < LMSSession_EndTime s) &&
  (bool_decide (exclude = "") || negb (bool_decide (LMSSession_ID s = exclude))).

Definition conflictLimit : nat := 25.

Definition starts_before (a b : LMSSession) : Prop := LMSSession_StartTime a ≤ LMSSession_StartTime b.
#[export] Instance starts_before_dec : RelDecision starts_before.
Proof. intros a b. apply Z.le_dec. Defined.

(** for _, occ := range occurrences { if occ.StartTime < minStart ... } *)
Definition span_of (occs : list LMSSession) : Z * Z :=
  match occs with
  | [] => (0, 0)
  | o :: _ =>
      foldl (λ '(lo, hi) occ,
        (if bool_decide (LMSSession_StartTime occ < lo) then LMSSession_StartTime occ else lo,
         if bool_decide (hi < LMSSession_EndTime occ) then LMSSession_EndTime occ else hi))
        (LMSSession_StartTime o, LMSSession_EndTime o) occs
  end.

Section schedule.
Context `{UnicodeTables} `{Decimal D} `{LmsEnv} `{GoRange}.
(** teacherDisplayName reads the users table. *)
Context (teacherDisplayName : string → string).

Abbreviation SM := (M (lms_world D) storeError).
Abbreviation LM := (M (lms_world D) lmsError).

(** ORDER BY start_time LIMIT 25; ties come in any order. *)
Definition teacher_conflicts (teacherID : string) (startMs endMs : Z) (exclude : string)
    (m : gmap string LMSSession) : list LMSSession :=
  take conflictLimit (merge_sort starts_before (db_rows (conflict_row teacherID startMs endMs exclude) m)).

Definition FindTeacherConflicts (teacherID : string) (startMs endMs : Z) (exclude : string)
    : SM (list LMSSession) :=
  if decide (teacherID = "") then m_ret []
  else on_table Sessions (λ n d,
    (if lms_fault n then Err (ErrDatabase "failed to find teacher session conflicts")
     else Ok (teacher_conflicts teacherID startMs endMs exclude (db_sessions d)), db_sessions d)).

Fixpoint classNames_loop (sessions : list LMSSession) (names : gmap string string)
    : LM (gmap string string) :=
  match sessions with
  | [] => m_ret names
  | s :: rest =>
      let id := LMSSession_ClassID s in
      if decide (id = "") then classNames_loop rest names
      else match names !! id with
           | Some _ => classNames_loop rest names
           | None =>
               c <- attempt (db_get Class_table Classes id) ;;
               classNames_loop rest (<[id := match c with Ok c => Class_Name c | Err _ => "" end]> names)
           end
  end.

Definition classNamesForSessions (sessions : list LMSSession) : LM (gmap string string) :=
  classNames_loop sessions ∅.

Definition conflict_of (names : gmap string string) (teacherID : string) (existing : LMSSession)
    : SessionConflict :=
  {| cf_Date := format_date (LMSSession_Date existing / day);
     cf_StartTimeMs := LMSSession_StartTime existing; cf_EndTimeMs := LMSSession_EndTime existing;
     cf_ClassID := LMSSession_ClassID existing;
     cf_ClassName := default "" (names !! LMSSession_ClassID existing);
     cf_TeacherID := teacherID; cf_TeacherName := teacherDisplayName teacherID |}.

Definition checkOccurrenceConflicts (teacherID : string) (occs : list LMSSession) (exclude : string)
    : LM (list SessionConflict) :=
  if decide (teacherID = "" ∨ occs = []) then m_ret []
  else
  let '(minStart, maxEnd) := span_of occs in
  rows <- wrap (internal "app.lms.session.conflict_check.app_error")
            (FindTeacherConflicts teacherID minStart maxEnd exclude) ;;
  if decide (rows = []) then m_ret []
  else
  names <- classNamesForSessions rows ;;
  m_ret (conflict_of names teacherID <$>
           filter (λ existing, existsb (λ occ, overlaps occ existing) occs = true) rows).

(** ** Operations *)

Definition session_refs (d : lmsDB D) (s : LMSSession) : bool := has (db_classes d) (LMSSession_ClassID s).

Definition save_session : LMSSession → SM LMSSession := db_save LMSSession_table Sessions session_refs.

Definition GetSession (id : string) : LM LMSSession :=
  wrap (not_found_or "app.lms.session.not_found" "app.lms.session.get.app_error")
    (db_get LMSSession_table Sessions id).

Definition CreateSession (s : LMSSession) : LM LMSSession :=
  wrap (internal "app.lms.session.create.app_error") (save_session s).

Fixpoint save_all (occs : list LMSSession) : LM (list LMSSession) :=
  match occs with
  | [] => m_ret []
  | occ :: rest =>
      saved <- wrap (internal "app.lms.session.create.app_error") (save_session occ) ;;
      created <- save_all rest ;;
      m_ret (saved :: created)
  end.

(** The created sessions and the conflicts. *)
Definition CreateSessionsWithRepeat (session : option LMSSession) (repeatUntil : string) (force : bool)
    : LM (list LMSSession * list SessionConflict) :=
  match session with
  | None => app_error "api.lms.session.create_body.app_error" 400
  | Some s =>
      if empty (LMSSession_ClassID s) || empty (LMSSession_TeacherID s) || is_zero (LMSSession_Date s) then
        app_error "model.lms.session.class_id.app_error" 400
      else if bool_decide (LMSSession_EndTime s ≤ LMSSession_StartTime s) then
        app_error "app.lms.session.time_order.app_error" 400
      else
      match expandWeeklyOccurrences s repeatUntil with
      | Err e => m_throw e
      | Ok occs =>
          conflicts <- (if force then m_ret []
                        else checkOccurrenceConflicts (LMSSession_TeacherID s) occs "") ;;
          if decide (conflicts = []) then
            created <- save_all occs ;;
            m_ret (created, [])
          else m_ret ([], conflicts)
      end
  end.

Definition with_id (id : string) (s : LMSSession) : LMSSession :=
  {| LMSSession_ID := id; LMSSession_Title := LMSSession_Title s; LMSSession_ClassID := LMSSession_ClassID s;
     LMSSession_StartTime := LMSSession_StartTime s; LMSSession_EndTime := LMSSession_EndTime s;
     LMSSession_Room := LMSSession_Room s; LMSSession_TeacherID := LMSSession_TeacherID s;
     LMSSession_LessonID := LMSSession_LessonID s; LMSSession_Status := LMSSession_Status s;
     LMSSession_Date := LMSSession_Date s; LMSSession_Createat := LMSSession_Createat s;
     LMSSession_Updateat := LMSSession_Updateat s |}.

Definition with_lesson (lesson : string) (s : LMSSession) : LMSSession :=
  {| LMSSession_ID := LMSSession_ID s; LMSSession_Title := LMSSession_Title s;
     LMSSession_ClassID := LMSSession_ClassID s;
     LMSSession_StartTime := LMSSession_StartTime s; LMSSession_EndTime := LMSSession_EndTime s;
     LMSSession_Room := LMSSession_Room s; LMSSession_TeacherID := LMSSession_TeacherID s;
     LMSSession_LessonID := lesson; LMSSession_Status := LMSSession_Status s;
     LMSSession_Date := LMSSession_Date s; LMSSession_Createat := LMSSession_Createat s;
     LMSSession_Updateat := LMSSession_Updateat s |}.

(** An empty lesson id in the request keeps the stored one. *)
Definition carry_lesson (id : string) (s : LMSSession) : LM LMSSession :=
  if decide (LMSSession_LessonID s = "") then
    existing <- attempt (db_get LMSSession_table Sessions id) ;;
    m_ret match existing with Ok e => with_lesson (LMSSession_LessonID e) s | Err _ => s end
  else m_ret s.

Definition UpdateSession (id : string) (session : option LMSSession) (force : bool)
    : LM (option LMSSession * list SessionConflict) :=
  match session with
  | None => app_error "api.lms.session.update_body.app_error" 400
  | Some s =>
      let s := with_id id s in
      if negb (is_zero (LMSSession_EndTime s)) && negb (is_zero (LMSSession_StartTime s)) &&
         bool_decide (LMSSession_EndTime s ≤ LMSSession_StartTime s) then
        app_error "app.lms.session.time_order.app_error" 400
      else
      conflicts <- (if negb force && negb (empty (LMSSession_TeacherID s)) &&
                       negb (is_zero (LMSSession_StartTime s)) && negb (is_zero (LMSSession_EndTime s))
                    then checkOccurrenceConflicts (LMSSession_TeacherID s) [s] id else m_ret []) ;;
      if decide (conflicts = []) then
        s <- carry_lesson id s ;;
        updated <- wrap (not_found_or "app.lms.session.not_found" "app.lms.session.update.app_error")
                     (db_update LMSSession_table Sessions LMSSessionPreUpdate session_refs s) ;;
        m_ret (Some updated, [])
      else m_ret (None, conflicts)
  end.

Definition DeleteSession (id : string) : LM unit :=
  wrap (not_found_or "app.lms.session.not_found" "app.lms.session.delete.app_error")
    (db_delete LMSSession_table Sessions id).

End schedule.
