(* ===== verification/LmsScheduleProps.v ===== *)
(** * Properties of the teaching schedule

    Weekly series have the dates the request asks for; without [force] no
    teacher gets double-booked as long as the conflict query returns every
    row, and does when its LIMIT cuts the answer. *)

From stdpp Require Import sorting.
From S2P Require Import Prelude.
From S2P Require Import GoString.
From S2P Require Import GoUtf8.
From S2P Require Import GoTime.
From S2P Require Import LmsDate.
From S2P Require Import LmsModel.
From S2P Require Import CallStore.
From S2P Require Import LmsStore.
From S2P Require Import LmsTables.
From S2P Require Import LmsApp.
From S2P Require Import LmsSchedule.

Local Open Scope string_scope.
Local Open Scope go_scope.
Local Open Scope Z_scope.

(** ** Weekly series *)

(** Times of a real calendar: adding two years of weeks does not overflow. *)
Definition sane_times (s : LMSSession) : Prop :=
  0 ≤ LMSSession_StartTime s < 2 ^ 62 ∧ 0 ≤ LMSSession_EndTime s < 2 ^ 62.

Lemma occurrence_times s k :
  sane_times s → (k ≤ 104)%nat →
  LMSSession_StartTime (occurrence s k) = LMSSession_StartTime s + Z.of_nat k * week_ms ∧
  LMSSession_EndTime (occurrence s k) = LMSSession_EndTime s + Z.of_nat k * week_ms.
Proof.
  intros [Hs He] Hk. destruct k as [|k]; [simpl; lia|]. cbn [occurrence LMSSession_StartTime LMSSession_EndTime].
  assert (0 ≤ Z.of_nat (S k) * week_ms ≤ 104 * week_ms) as Hw by (unfold week_ms; lia).
  unfold week_ms in *. rewrite !(to_int64_id (Z.of_nat (S k) * _)) by (unfold int64_half; lia).
  rewrite !to_int64_id by (unfold int64_half; lia). done.
Qed.

Lemma occurrence_date s k : LMSSession_Date (occurrence s k) = LMSSession_Date s + 7 * Z.of_nat k * day.
Proof. destruct k; simpl; lia. Qed.

Lemma occurrence_teacher s k : LMSSession_TeacherID (occurrence s k) = LMSSession_TeacherID s.
Proof. by destruct k. Qed.

Lemma weeks_between_pos base until : base ≤ until → 1 ≤ weeks_between base until.
Proof.
  intros Hle. unfold weeks_between. pose proof (Z.div_pos (Z.min (until - base) maxDuration) week) as Hp.
  unfold maxDuration, week, day in *. lia.
Qed.

(** When the series is not too long the Duration did not saturate. *)
Lemma weeks_between_span base until :
  base ≤ until → weeks_between base until ≤ maxRepeatOccurrences →
  let weeks := weeks_between base until in
  7 * (weeks - 1) * day ≤ until - base < 7 * weeks * day.
Proof.
  intros Hle Hmax weeks. unfold weeks, weeks_between in *.
  assert (Z.min (until - base) maxDuration = until - base) as Hmin.
  { destruct (Z.min_spec (until - base) maxDuration) as [[_ ->]|[_ Hm]]; [done|].
    rewrite Hm in Hmax. exfalso. revert Hmax. by vm_compute. }
  rewrite Hmin. pose proof (Z.div_mod (until - base) week ltac:(done)).
  pose proof (Z.mod_pos_bound (until - base) week ltac:(done)).
  unfold week, day in *. lia.
Qed.

Lemma expand_inv s repeatUntil occs :
  expandWeeklyOccurrences s repeatUntil = Ok occs →
  (repeatUntil = "" ∧ occs = [s]) ∨
  ∃ n, parse_date repeatUntil = Some n ∧ LMSSession_Date s ≤ n * day ∧
    weeks_between (LMSSession_Date s) (n * day) ≤ maxRepeatOccurrences ∧
    occs = occurrence s <$> seq 0 (Z.to_nat (weeks_between (LMSSession_Date s) (n * day))).
Proof.
  unfold expandWeeklyOccurrences. destruct (decide _) as [->|_]; [intros [= <-]; by left|].
  destruct (parse_date _) as [n|]; [|done]. case_bool_decide as Hb; [done|].
  case_bool_decide as Hmax; [done|]. intros [= <-]. right. exists n. split_and!; [done|lia|lia|done].
Qed.

Lemma expand_lookup s repeatUntil occs :
  expandWeeklyOccurrences s repeatUntil = Ok occs →
  ∃ m, occs = occurrence s <$> seq 0 m ∧ (1 ≤ m ≤ 104)%nat.
Proof.
  intros [[_ ->]|(n & _ & Hb & Hmax & ->)]%expand_inv; [exists 1%nat; split; [done|lia]|].
  eexists. split; [done|]. pose proof (weeks_between_pos _ _ Hb).
  unfold maxRepeatOccurrences in Hmax. lia.
Qed.

(** a weekly series is the one the request describes.  It starts with the
    submitted session; the k-th row is k weeks later, in date and in both
    times, and otherwise the same lesson; every date is within repeat_until,
    the next week would not be, and there are at most 104 rows. *)
Theorem weekly_series s repeatUntil n occs :
  parse_date repeatUntil = Some n → sane_times s →
  expandWeeklyOccurrences s repeatUntil = Ok occs →
  occs !! 0%nat = Some s ∧ (length occs ≤ 104)%nat ∧
  LMSSession_Date s + 7 * Z.of_nat (length occs) * day > n * day ∧
  ∀ k occ, occs !! k = Some occ →
    LMSSession_Date occ = LMSSession_Date s + 7 * Z.of_nat k * day ∧
    LMSSession_Date occ ≤ n * day ∧
    LMSSession_StartTime occ = LMSSession_StartTime s + Z.of_nat k * week_ms ∧
    LMSSession_EndTime occ = LMSSession_EndTime s + Z.of_nat k * week_ms ∧
    LMSSession_ClassID occ = LMSSession_ClassID s ∧ LMSSession_TeacherID occ = LMSSession_TeacherID s ∧
    LMSSession_Room occ = LMSSession_Room s ∧ LMSSession_Title occ = LMSSession_Title s.
Proof.
  intros Hp Hsane [[-> _]|(n' & Hp' & Hb & Hmax & ->)]%expand_inv; [done|]. simplify_eq.
  pose proof (weeks_between_pos _ _ Hb) as Hpos. pose proof (weeks_between_span _ _ Hb Hmax) as Hspan.
  assert (weeks_between (LMSSession_Date s) (n * day) ≤ 104) as Hmax' by exact Hmax.
  revert Hpos Hspan Hmax'. generalize (weeks_between (LMSSession_Date s) (n * day)). clear Hmax.
  intros weeks Hpos Hspan Hmax. set (m := Z.to_nat weeks). assert (Z.of_nat m = weeks) as Hm by lia.
  clearbody m. rewrite length_fmap, length_seq.
  split_and!; [destruct m; [lia|done]|lia|unfold day in *; lia|].
  intros k occ. rewrite list_lookup_fmap. destruct (seq 0 m !! k) as [k'|] eqn:Hk; [|done].
  intros [= <-]. apply lookup_seq in Hk as [-> Hk]. rewrite Nat.add_0_l.
  destruct (occurrence_times s k Hsane ltac:(lia)) as [-> ->].
  rewrite occurrence_date, occurrence_teacher. split_and!; [done| |done|done|by destruct k..].
  assert (Z.of_nat k ≤ weeks - 1) by lia. unfold day in *. lia.
Qed.

(** ** Double booking *)

(** An existing session counts unless it is cancelled. *)
Definition active (s : LMSSession) : Prop := LMSSession_Status s ≠ "CANCELLED".

Lemma overlaps_true a b :
  overlaps a b = true ↔
    LMSSession_StartTime a < LMSSession_EndTime b ∧ LMSSession_StartTime b < LMSSession_EndTime a.
Proof. unfold overlaps. by rewrite andb_true_iff, !bool_decide_eq_true. Qed.

Lemma overlaps_sym a b : overlaps a b = overlaps b a.
Proof. unfold overlaps. apply andb_comm. Qed.

(** No two active sessions of the teacher overlap. *)
Definition clash_free (teacher : string) (rows : gmap string LMSSession) : Prop :=
  ∀ id1 id2 a b, rows !! id1 = Some a → rows !! id2 = Some b → id1 ≠ id2 →
    LMSSession_TeacherID a = teacher → LMSSession_TeacherID b = teacher →
    active a → active b → overlaps a b = false.

Lemma span_of_fold occs lo hi occ :
  let r := foldl (λ '(lo, hi) occ,
        (if bool_decide (LMSSession_StartTime occ < lo) then LMSSession_StartTime occ else lo,
         if bool_decide (hi < LMSSession_EndTime occ) then LMSSession_EndTime occ else hi)) (lo, hi) occs in
  r.1 ≤ lo ∧ hi ≤ r.2 ∧
  (occ ∈ occs → r.1 ≤ LMSSession_StartTime occ ∧ LMSSession_EndTime occ ≤ r.2).
Proof.
  revert lo hi. induction occs as [|o occs IH]; intros lo hi r; simpl in r.
  { unfold r. simpl. split_and!; [lia|lia|]. by intros ?%not_elem_of_nil. }
  specialize (IH (if bool_decide (LMSSession_StartTime o < lo) then LMSSession_StartTime o else lo)
    (if bool_decide (hi < LMSSession_EndTime o) then LMSSession_EndTime o else hi)).
  fold r in IH. clearbody r. simpl in IH. destruct IH as (Hlo & Hhi & Hin).
  rewrite bool_decide_decide in Hlo, Hhi. destruct (decide _) in Hlo; destruct (decide _) in Hhi;
    (split_and!; [lia|lia|]; intros [->|Ho]%elem_of_cons; [lia|by apply Hin]).
Qed.

Lemma span_of_covers occs occ :
  occ ∈ occs →
  (span_of occs).1 ≤ LMSSession_StartTime occ ∧ LMSSession_EndTime occ ≤ (span_of occs).2.
Proof.
  destruct occs as [|o occs]; [by intros ?%not_elem_of_nil|]. unfold span_of.
  apply (span_of_fold (o :: occs) _ _ occ).
Qed.

Section props.
Context `{UnicodeTables} `{DecimalOk D} `{LmsEnv} `{GoRange} (teacherDisplayName : string → string).

(** The rows the conflict query is asked for. *)
Definition span_rows (teacher : string) (occs : list LMSSession) (exclude : string)
    (rows : gmap string LMSSession) : list LMSSession :=
  db_rows (conflict_row teacher (span_of occs).1 (span_of occs).2 exclude) rows.

Lemma elem_of_db_rows {X} (P : X → bool) rows x :
  x ∈ db_rows P rows ↔ P x = true ∧ ∃ id, rows !! id = Some x.
Proof.
  unfold db_rows. rewrite list_elem_of_filter, list_elem_of_fmap.
  split; (intros [HP Hx]; split; [done|]).
  - destruct Hx as ([id y] & -> & Hy). exists id. by apply elem_of_go_range in Hy.
  - destruct Hx as [id Hx]. exists (id, x). split; [done|]. by apply elem_of_go_range.
Qed.

(** The answer of the query is the whole span, unless the LIMIT cuts it. *)
Lemma teacher_conflicts_all teacher lo hi exclude rows e :
  (length (db_rows (conflict_row teacher lo hi exclude) rows) ≤ conflictLimit)%nat →
  e ∈ teacher_conflicts teacher lo hi exclude rows ↔
    e ∈ db_rows (conflict_row teacher lo hi exclude) rows.
Proof.
  intros Hlen. unfold teacher_conflicts.
  pose proof (merge_sort_Permutation starts_before (db_rows (conflict_row teacher lo hi exclude) rows)) as Hp.
  rewrite take_ge by (by rewrite Hp). by rewrite Hp.
Qed.

Lemma teacher_conflicts_sub teacher lo hi exclude rows e :
  e ∈ teacher_conflicts teacher lo hi exclude rows →
  e ∈ db_rows (conflict_row teacher lo hi exclude) rows.
Proof.
  unfold teacher_conflicts. intros He. rewrite <-(merge_sort_Permutation starts_before).
  by eapply elem_of_take in He as (i & Hi & _); apply list_elem_of_lookup; exists i.
Qed.

Lemma frames_FindTeacherConflicts t lo hi ex :
  frames (lms_db (D:=D)) (FindTeacherConflicts t lo hi ex).
Proof.
  unfold FindTeacherConflicts. destruct (decide _); [auto with go|].
  apply (frames_on_table_read Sessions (λ n d, if lms_fault n then _ else _)).
Qed.

Lemma frames_classNames rows names : frames (lms_db (D:=D)) (classNames_loop rows names).
Proof.
  revert names. induction rows as [|s rows IH]; intros names; simpl; [auto with go|].
  destruct (decide _); [done|]. destruct (names !! _); [done|].
  apply frames_bind; [auto with go typeclass_instances|done].
Qed.

Lemma no_err_classNames rows names : no_err (S:=lms_world D) (classNames_loop rows names).
Proof.
  revert names. induction rows as [|s rows IH]; intros names; simpl; [auto with go|].
  destruct (decide _); [done|]. destruct (names !! _); [done|].
  apply no_err_bind; [|done]. intros w. unfold attempt. destruct (db_get _ _ _ w). by eexists.
Qed.

Definition clashing (occs : list LMSSession) (e : LMSSession) : bool :=
  existsb (λ occ, overlaps occ e) occs.

Lemma clashing_true occs e : clashing occs e = true ↔ ∃ occ, occ ∈ occs ∧ overlaps occ e = true.
Proof.
  unfold clashing. rewrite existsb_exists. split; intros (o & Ho & Hov); exists o; split; auto;
    by apply list_elem_of_In.
Qed.

(** What the check reports, and that it only reads. *)
Lemma check_conflicts_inv t occs ex (w w' : lms_world D) r :
  t ≠ "" → occs ≠ [] →
  checkOccurrenceConflicts teacherDisplayName t occs ex w = (r, w') →
  lms_db w' = lms_db w ∧
  ∀ cfs, r = Ok cfs → ∃ names, cfs = conflict_of teacherDisplayName names t <$>
    filter (λ e, clashing occs e = true)
      (teacher_conflicts t (span_of occs).1 (span_of occs).2 ex (db_sessions (lms_db w))).
Proof.
  intros Ht Hoccs. unfold checkOccurrenceConflicts. destruct (decide _) as [[?|?]|_]; [done..|].
  destruct (span_of occs) as [lo hi] eqn:Hspan. cbn [fst snd].
  intros [(rows & w1 & Hfind & Hk)|(e & Herr & ->)]%bind_inv.
  - apply wrap_inv in Hfind as ([rows0|e] & Hfind & [= ->]).
    assert (lms_db w1 = lms_db w) as Hw1.
    { pose proof (frames_FindTeacherConflicts t lo hi ex w) as Hf. by rewrite Hfind in Hf. }
    assert (rows0 = teacher_conflicts t lo hi ex (db_sessions (lms_db w))) as ->.
    { unfold FindTeacherConflicts, on_table in Hfind. destruct (decide _); [done|].
      by destruct (lms_fault _); simplify_eq. }
    destruct (decide (teacher_conflicts t lo hi ex (db_sessions (lms_db w)) = [])) as [Hnil|_].
    { rewrite Hnil. cbv [m_ret] in Hk. simplify_eq. split; [done|]. intros cfs [= <-]. by exists ∅. }
    apply bind_inv in Hk as [(names & w2 & Hn & Hk)|(e & Hn & ->)].
    + pose proof (frames_classNames (teacher_conflicts t lo hi ex (db_sessions (lms_db w))) ∅ w1) as Hf.
      unfold classNamesForSessions in Hn. rewrite Hn in Hf. simpl in Hf.
      cbv [m_ret] in Hk. injection Hk as <- <-. split; [congruence|]. intros cfs [= <-]. by exists names.
    + pose proof (no_err_classNames (teacher_conflicts t lo hi ex (db_sessions (lms_db w))) ∅ w1) as [? Hne].
      unfold classNamesForSessions in Hn. by rewrite Hn in Hne.
  - apply wrap_inv in Herr as (r0 & Hfind & _).
    pose proof (frames_FindTeacherConflicts t lo hi ex w) as Hf. rewrite Hfind in Hf. by split.
Qed.

(** The row a saved session becomes keeps its teacher and its times. *)
Lemma save_session_inv occ (w w' : lms_world D) r :
  save_session occ w = (r, w') →
  match r with
  | Ok _ => ∃ id row, db_sessions (lms_db w) !! id = None ∧
      db_sessions (lms_db w') = <[id := row]> (db_sessions (lms_db w)) ∧
      LMSSession_TeacherID row = LMSSession_TeacherID occ ∧
      LMSSession_StartTime row = LMSSession_StartTime occ ∧
      LMSSession_EndTime row = LMSSession_EndTime occ
  | Err _ => lms_db w' = lms_db w
  end.
Proof.
  intros Hs. apply db_save_inv in Hs; [|apply _]. destruct r as [y|e]; [|done].
  destruct Hs as (i & n0 & n & row & -> & Hnone & _ & [= <-] & ->).
  eexists _, _. split; [exact Hnone|]. by destruct (lms_db w).
Qed.

(** [occ] overlaps no active session of its teacher. *)
Definition fits_in (teacher : string) (rows : gmap string LMSSession) (occ : LMSSession) : Prop :=
  LMSSession_TeacherID occ = teacher → ∀ id e, rows !! id = Some e →
    LMSSession_TeacherID e = teacher → active e → overlaps occ e = false.

Lemma overlaps_times a b a' b' :
  LMSSession_StartTime a = LMSSession_StartTime a' → LMSSession_EndTime a = LMSSession_EndTime a' →
  LMSSession_StartTime b = LMSSession_StartTime b' → LMSSession_EndTime b = LMSSession_EndTime b' →
  overlaps a b = overlaps a' b'.
Proof. unfold overlaps. by intros -> -> -> ->. Qed.

Lemma save_all_clash_free teacher occs (w w' : lms_world D) r :
  ForallOrdPairs (λ a b, overlaps a b = false) occs →
  Forall (fits_in teacher (db_sessions (lms_db w))) occs →
  clash_free teacher (db_sessions (lms_db w)) →
  save_all occs w = (r, w') → clash_free teacher (db_sessions (lms_db w')).
Proof.
  intros Hpairs. revert w r. induction Hpairs as [|occ occs Hocc _ IH]; intros w r Hfit Hfree Hrun.
  { cbv [save_all m_ret] in Hrun. by simplify_eq. }
  apply Forall_cons in Hfit as [Hfo Hfit]. cbn [save_all] in Hrun.
  apply bind_inv in Hrun as [(y & w1 & Hs & Hrun)|(e & Hs & ->)];
    apply wrap_inv in Hs as (r0 & Hs & Hr0); apply save_session_inv in Hs; destruct r0 as [y0|e0]; try done;
    [|by rewrite Hs].
  destruct Hs as (id & row & Hnone & Hrows & Ht & Hst & Het).
  assert (clash_free teacher (db_sessions (lms_db w1)) ∧
          Forall (fits_in teacher (db_sessions (lms_db w1))) occs) as [Hfree1 Hfit1].
  { rewrite Hrows. split.
    - intros id1 id2 a b Ha Hb Hne Hta Htb Haa Hab.
      apply lookup_insert_Some in Ha as [[<- <-]|[Hn1 Ha]], Hb as [[<- <-]|[Hn2 Hb]]; [done| | |by eapply Hfree].
      + rewrite (overlaps_times row b occ b) by done. eapply Hfo; [congruence|done..].
      + rewrite overlaps_sym, (overlaps_times row a occ a) by done. eapply Hfo; [congruence|done..].
    - rewrite Forall_forall in *. intros o Ho Hto id' e He Hte Hae.
      apply lookup_insert_Some in He as [[<- <-]|[_ He]]; [|by eapply Hfit].
      rewrite overlaps_sym, (overlaps_times row o occ o) by done.
      by apply Hocc. }
  assert (∃ r1, save_all occs w1 = (r1, w')) as [r1 Hr1].
  { apply bind_inv in Hrun as [(c & w2 & Hc & Hk)|(e & Hc & _)]; [|by eexists].
    cbv [m_ret] in Hk. simplify_eq. by eexists. }
  by eapply IH.
Qed.

Lemma ordpairs_seq (f : nat → LMSSession) (P : LMSSession → LMSSession → Prop) i n :
  (∀ a b, (i ≤ a < b)%nat → (b < i + n)%nat → P (f a) (f b)) →
  ForallOrdPairs P (f <$> seq i n).
Proof.
  revert i. induction n as [|n IH]; intros i HP; simpl; constructor.
  - apply List.Forall_forall. intros x Hx%list_elem_of_In. apply list_elem_of_fmap in Hx as (b & -> & Hb).
    apply elem_of_seq in Hb. apply HP; lia.
  - apply IH. intros a b Hab Hb. apply HP; lia.
Qed.

(** What keeps the weeks of a series apart: a lesson of more than one week
    lasts a week at most. *)
Definition weekly_lesson (s : LMSSession) (occs : list LMSSession) : Prop :=
  (2 ≤ length occs)%nat → sane_times s ∧ LMSSession_EndTime s - LMSSession_StartTime s ≤ week_ms.

Lemma series_disjoint s repeatUntil occs :
  weekly_lesson s occs → expandWeeklyOccurrences s repeatUntil = Ok occs →
  ForallOrdPairs (λ a b, overlaps a b = false) occs.
Proof.
  intros Hweek (m & -> & Hm)%expand_lookup. apply ordpairs_seq. intros a b Hab Hb.
  destruct Hweek as [Hsane Hlen]; [rewrite length_fmap, length_seq; lia|].
  destruct (occurrence_times s a Hsane ltac:(lia)) as [Ha1 Ha2].
  destruct (occurrence_times s b Hsane ltac:(lia)) as [Hb1 Hb2].
  apply not_true_iff_false. rewrite overlaps_true, Ha1, Ha2, Hb1, Hb2.
  assert (Z.of_nat a * week_ms + week_ms ≤ Z.of_nat b * week_ms) by (unfold week_ms; lia). lia.
Qed.

(** An accepted series fits between the teacher's sessions, when the query saw
    them all. *)
Lemma accepted_fits teacher occs (w w1 : lms_world D) :
  teacher ≠ "" → occs ≠ [] → Forall (λ o, LMSSession_TeacherID o = teacher) occs →
  (length (span_rows teacher occs "" (db_sessions (lms_db w))) ≤ conflictLimit)%nat →
  checkOccurrenceConflicts teacherDisplayName teacher occs "" w = (Ok [], w1) →
  ∀ t, Forall (fits_in t (db_sessions (lms_db w1))) occs.
Proof.
  intros Ht Hne Hteach Hlim Hchk t. destruct (check_conflicts_inv _ _ _ _ _ _ Ht Hne Hchk) as [-> Hcfs].
  destruct (Hcfs [] eq_refl) as [names Hnil]. apply eq_sym, fmap_nil_inv in Hnil.
  rewrite Forall_forall in *. intros occ Ho Hto id e He Hte Hae.
  rewrite (Hteach occ Ho) in Hto. subst t. apply not_true_iff_false. intros Hov.
  assert (e ∈ []) as []%not_elem_of_nil. rewrite <-Hnil. apply list_elem_of_filter. split.
  - apply clashing_true. by exists occ.
  - apply teacher_conflicts_all; [done|]. apply elem_of_db_rows. split; [|by exists id].
    apply overlaps_true in Hov as [Hov1 Hov2]. destruct (span_of_covers occs occ Ho) as [Hlo Hhi].
    unfold conflict_row. rewrite (bool_decide_false (LMSSession_Status e = _)) by done.
    rewrite (bool_decide_true (LMSSession_TeacherID e = _)), (bool_decide_true (_ < (span_of _).2)),
      (bool_decide_true ((span_of _).1 < _)) by (done || lia). done.
Qed.

(** C7: no double booking.  A session, or a weekly series of sessions of at
    most a week each with times between 1970 and 2^62 ms, is created without
    force, and the teacher has at most 25 active sessions in its span.  Then
    every teacher's schedule is free of overlaps afterwards if it was before,
    whether the request succeeds, reports conflicts or fails half-way through
    the inserts.  Both limits are needed: [limit_hides_conflicts] and
    [long_lesson_overlaps_itself]. *)
Theorem no_double_booking s repeatUntil teacher (w w' : lms_world D) res :
  (∀ occs, expandWeeklyOccurrences s repeatUntil = Ok occs →
     weekly_lesson s occs ∧
     (length (span_rows (LMSSession_TeacherID s) occs "" (db_sessions (lms_db w))) ≤ conflictLimit)%nat) →
  clash_free teacher (db_sessions (lms_db w)) →
  CreateSessionsWithRepeat teacherDisplayName (Some s) repeatUntil false w = (res, w') →
  clash_free teacher (db_sessions (lms_db w')).
Proof.
  intros Hlim Hfree. unfold CreateSessionsWithRepeat.
  destruct (empty (LMSSession_ClassID s) || _ || _) eqn:Hempty; [intros [= <- <-]; done|].
  case_bool_decide; [intros [= <- <-]; done|].
  destruct (expandWeeklyOccurrences s repeatUntil) as [occs|e] eqn:Hexp; [|intros [= <- <-]; done].
  destruct (Hlim _ eq_refl) as [Hweek Hrows].
  assert (LMSSession_TeacherID s ≠ "") as Hteacher.
  { apply orb_false_iff in Hempty as [[_ He]%orb_false_iff _]. by apply bool_decide_eq_false in He. }
  destruct (expand_lookup _ _ _ Hexp) as (m & Hm & Hmb).
  assert (occs ≠ []) as Hne by (rewrite Hm; destruct m; [lia|done]).
  assert (Forall (λ o, LMSSession_TeacherID o = LMSSession_TeacherID s) occs) as Hteach.
  { rewrite Hm. apply Forall_fmap, Forall_forall. intros k _. simpl. apply occurrence_teacher. }
  intros [(cfs & w1 & Hchk & Hk)|(e & Hchk & ->)]%bind_inv.
  - assert (lms_db w1 = lms_db w) as Hw1 by (by eapply check_conflicts_inv in Hchk as [? _]).
    destruct (decide (cfs = [])) as [->|Hcne].
    + pose proof (accepted_fits _ _ _ _ Hteacher Hne Hteach Hrows Hchk) as Hfits.
      assert (∃ r1, save_all occs w1 = (r1, w')) as [r1 Hr1].
      { apply bind_inv in Hk as [(c & w2 & Hc & Hk)|(e & Hc & _)]; [|by eexists].
        cbv [m_ret] in Hk. simplify_eq. by eexists. }
      eapply save_all_clash_free; [by eapply series_disjoint|apply Hfits|by rewrite Hw1|done].
    + cbv [m_ret] in Hk. simplify_eq. by rewrite Hw1.
  - eapply check_conflicts_inv in Hchk as [-> _]; done.
Qed.

(** what a refused request reports, and that it changes nothing.  When a
    create answers with conflicts, no session was written, and every reported
    entry is an active session of the teacher that overlaps an occurrence. *)
Theorem conflicts_are_real s repeatUntil force (w w' : lms_world D) created cfs :
  CreateSessionsWithRepeat teacherDisplayName (Some s) repeatUntil force w = (Ok (created, cfs), w') →
  cfs ≠ [] →
  created = [] ∧ lms_db w' = lms_db w ∧ force = false ∧
  ∀ c, c ∈ cfs → ∃ occs occ id e, expandWeeklyOccurrences s repeatUntil = Ok occs ∧ occ ∈ occs ∧
    db_sessions (lms_db w) !! id = Some e ∧ active e ∧ LMSSession_TeacherID e = LMSSession_TeacherID s ∧
    overlaps occ e = true ∧ cf_StartTimeMs c = LMSSession_StartTime e ∧
    cf_EndTimeMs c = LMSSession_EndTime e ∧ cf_ClassID c = LMSSession_ClassID e.
Proof.
  unfold CreateSessionsWithRepeat. intros Hrun Hcne.
  destruct (empty (LMSSession_ClassID s) || _ || _) eqn:Hempty; [done|].
  case_bool_decide; [done|].
  destruct (expandWeeklyOccurrences s repeatUntil) as [occs|e] eqn:Hexp; [|done].
  assert (LMSSession_TeacherID s ≠ "") as Hteacher.
  { apply orb_false_iff in Hempty as [[_ He]%orb_false_iff _]. by apply bool_decide_eq_false in He. }
  destruct (expand_lookup _ _ _ Hexp) as (m & Hm & Hmb).
  assert (occs ≠ []) as Hne by (rewrite Hm; destruct m; [lia|done]). clear m Hm Hmb.
  apply bind_inv in Hrun as [(cfs' & w1 & Hchk & Hk)|(e & _ & ?)]; [|done].
  destruct (decide (cfs' = [])) as [->|Hne'].
  { apply bind_inv in Hk as [(c & w2 & _ & Hk)|(e & _ & ?)]; [|done]. cbv [m_ret] in Hk. by simplify_eq. }
  cbv [m_ret] in Hk. simplify_eq. destruct force; [cbv [m_ret] in Hchk; by simplify_eq|].
  eapply check_conflicts_inv in Hchk as [Hdb Hcfs]; [|done..]. split_and!; [done|done|done|].
  intros c Hc. destruct (Hcfs cfs eq_refl) as [names ->].
  apply list_elem_of_fmap in Hc as (e & -> & [Hcl He]%list_elem_of_filter).
  apply clashing_true in Hcl as (occ & Ho & Hov).
  apply teacher_conflicts_sub, elem_of_db_rows in He as [Hrow [id He]].
  exists occs, occ, id, e. unfold conflict_row in Hrow. rewrite !andb_true_iff in Hrow.
  destruct Hrow as ((((Ht%bool_decide_eq_true & Hact%negb_true_iff%bool_decide_eq_false) & _) & _) & _).
  done.
Qed.

(** Only the lesson of the request changes, and only when it has none. *)
Lemma carry_lesson_inv id s (w w' : lms_world D) s1 :
  carry_lesson id s w = (Ok s1, w') →
  lms_db w' = lms_db w ∧
  (s1 = s ∨ LMSSession_LessonID s = "" ∧
     ∃ old, db_sessions (lms_db w) !! id = Some old ∧ s1 = with_lesson (LMSSession_LessonID old) s).
Proof.
  unfold carry_lesson. destruct (decide (LMSSession_LessonID s = "")) as [Hle|];
    [|intros Hl; cbv [m_ret] in Hl; simplify_eq; auto].
  destruct w as [d n]. cbv [m_bind attempt db_get on_table m_ret Store_Get]. simpl. intros Hl.
  destruct (lms_fault _); simplify_eq; simpl; [by destruct d; auto|].
  destruct (db_sessions d !! id) as [old|] eqn:Hold; simplify_eq; simpl;
    (split; [by destruct d|]); [right; eauto|by left].
Qed.

(** what an update writes.  A successful UpdateSession leaves one row
    under the id of the route: the submitted fields, the stored lesson when
    the request names none, and the creation time of the request, whatever
    was stored. *)
Theorem UpdateSession_row id s force (w w' : lms_world D) row cfs :
  UpdateSession teacherDisplayName id (Some s) force w = (Ok (Some row, cfs), w') →
  cfs = [] ∧ db_sessions (lms_db w') = <[id := row]> (db_sessions (lms_db w)) ∧
  (∃ old, db_sessions (lms_db w) !! id = Some old ∧
     (LMSSession_LessonID row = LMSSession_LessonID s ∨
      LMSSession_LessonID s = "" ∧ LMSSession_LessonID row = LMSSession_LessonID old)) ∧
  LMSSession_ID row = id ∧ LMSSession_TeacherID row = LMSSession_TeacherID s ∧
  LMSSession_StartTime row = LMSSession_StartTime s ∧ LMSSession_EndTime row = LMSSession_EndTime s ∧
  LMSSession_Status row = LMSSession_Status s ∧ LMSSession_Createat row = LMSSession_Createat s.
Proof.
  unfold UpdateSession. intros Hrun. destruct (_ && _ && _); [done|].
  set (ck := negb force && _ && _ && _) in Hrun.
  apply bind_inv in Hrun as [(c & w1 & Hchk & Hk)|(e & _ & ?)]; [|done].
  assert (lms_db w1 = lms_db w) as Hw1.
  { destruct ck eqn:Hck; [|cbv [m_ret] in Hchk; by simplify_eq].
    assert (LMSSession_TeacherID (with_id id s) ≠ "") as Ht.
    { unfold ck in Hck. rewrite !andb_true_iff, negb_true_iff in Hck.
      destruct Hck as [[[_ He%negb_true_iff%bool_decide_eq_false] _] _]. done. }
    by eapply check_conflicts_inv in Hchk as [? _]. }
  clear Hchk ck. destruct (decide (c = [])) as [->|]; [|cbv [m_ret] in Hk; by simplify_eq].
  apply bind_inv in Hk as [(s1 & w2 & Hl & Hk)|(e & _ & ?)]; [|done].
  apply bind_inv in Hk as [(y & w3 & Hu & Hk)|(e & _ & ?)]; [|done].
  cbv [m_ret] in Hk. simplify_eq. apply wrap_inv in Hu as ([y1|e1] & Hu & Hy); [|done]. simplify_eq.
  apply carry_lesson_inv in Hl as [Hw2 Hs1]. rewrite Hw1 in Hw2, Hs1.
  apply db_update_inv in Hu; [|apply _]. rewrite Hw2 in Hu. simpl in Hu.
  destruct Hu as ([old Hold] & [= <-] & Hdb).
  assert (LMSSession_ID s1 = id) as Hid by (by destruct Hs1 as [->|(_ & o & _ & ->)]).
  rewrite Hid in *.
  split_and!; try done; [| |by destruct Hs1 as [->|(_ & o & _ & ->)]..].
  - rewrite Hdb. by destruct (lms_db w).
  - exists old. split; [done|]. destruct Hs1 as [->|(Hle & o & Ho & ->)]; [by left|].
    right. split; [done|]. simpl. congruence.
Qed.

End props.

(** ** The LIMIT of the conflict query *)

(** A decidable form of [clash_free]. *)
Definition clash_freeb (teacher : string) (rows : gmap string LMSSession) : bool :=
  let l := map_to_list rows in
  forallb (λ a, forallb (λ b,
    bool_decide (a.1 = b.1) || negb (bool_decide (LMSSession_TeacherID a.2 = teacher)) ||
    negb (bool_decide (LMSSession_TeacherID b.2 = teacher)) ||
    bool_decide (LMSSession_Status a.2 = "CANCELLED") || bool_decide (LMSSession_Status b.2 = "CANCELLED") ||
    negb (overlaps a.2 b.2)) l) l.

Lemma clash_freeb_spec teacher rows : clash_freeb teacher rows = true ↔ clash_free teacher rows.
Proof.
  unfold clash_freeb, clash_free, active. rewrite forallb_forall. setoid_rewrite forallb_forall.
  setoid_rewrite <-list_elem_of_In. split.
  - intros Hall i1 i2 a b Ha Hb Hne Hta Htb Haa Hab.
    specialize (Hall (i1, a) ltac:(by apply elem_of_map_to_list) (i2, b) ltac:(by apply elem_of_map_to_list)).
    simpl in Hall. rewrite !orb_true_iff, !negb_true_iff, !bool_decide_eq_true, !bool_decide_eq_false in Hall.
    naive_solver.
  - intros Hall [i1 a] Ha%elem_of_map_to_list [i2 b] Hb%elem_of_map_to_list. simpl.
    rewrite !orb_true_iff, !negb_true_iff, !bool_decide_eq_true, !bool_decide_eq_false.
    destruct (decide (i1 = i2)); [naive_solver|]. specialize (Hall i1 i2 a b Ha Hb).
    destruct (decide (LMSSession_TeacherID a = teacher)); [|naive_solver].
    destruct (decide (LMSSession_TeacherID b = teacher)); [|naive_solver].
    destruct (decide (LMSSession_Status a = "CANCELLED")); [naive_solver|].
    destruct (decide (LMSSession_Status b = "CANCELLED")); [naive_solver|]. naive_solver.
Qed.

#[local] Existing Instance cents.
#[local] Existing Instance cents_ok.
#[local] Instance no_unicode : UnicodeTables := λ _, false.

Definition letter (n : nat) : string := String (Ascii.ascii_of_nat (97 + n)) "".

(** A quiet world: every statement succeeds; ids count up. *)
#[local] Instance quiet : LmsEnv := {|
  lms_clock := λ n, 1700000000000 + Z.of_nat n;
  lms_id := λ n, "abcdefghijklmnopqrstuvwxy" +:+ letter n;
  lms_fault := λ _, false;
|}.

Definition hour : Z := 3600 * 1000.

Definition lesson (id : string) (start : Z) : LMSSession :=
  {| LMSSession_ID := id; LMSSession_Title := None; LMSSession_ClassID := "c1";
     LMSSession_StartTime := start * hour; LMSSession_EndTime := start * hour + hour;
     LMSSession_Room := None; LMSSession_TeacherID := "t1"; LMSSession_LessonID := "";
     LMSSession_Status := "SCHEDULED"; LMSSession_Date := 738521 * day;
     LMSSession_Createat := 0; LMSSession_Updateat := 0 |}.

Definition a_class : Class :=
  {| Class_ID := "c1"; Class_CourseID := ""; Class_BranchID := ""; Class_Name := "Math"; Class_Code := "";
     Class_TeacherID := "t1"; Class_Status := "OPEN"; Class_Room := None; Class_StartDate := 0;
     Class_EndDate := None; Class_Createat := 0; Class_Updateat := 0; Class_ChatChannelID := "" |}.

Definition world_with (sessions : list LMSSession) : lms_world Z :=
  LmsWorld (LmsDB _ {["c1" := a_class]} ∅ (list_to_map ((λ s, (LMSSession_ID s, s)) <$> sessions))
              ∅ ∅ ∅ ∅ ∅ ∅ ∅ ∅ ∅ no_content) 0.

(** The base session starts at hour 0; the existing ones at the hours
    10, 12, ..., 58 and, a week later, at hour 168. *)
Definition busy : list LMSSession :=
  ((λ k, lesson (letter k) (10 + 2 * Z.of_nat k)) <$> seq 0 25) ++ [lesson (letter 25) 168].

(** the LIMIT of 25 rows on the conflict query loses conflicts.  A teacher
    with 25 harmless sessions in the span and one that overlaps the second
    occurrence is booked twice by a request without force. *)
Theorem limit_hides_conflicts :
  let w := world_with busy in
  let '(res, w') := CreateSessionsWithRepeat (λ _, "") (Some (lesson "" 0)) (format_date (738521 + 7)) false w in
  (∃ created, res = Ok (created, []) ∧ length created = 2%nat) ∧
  clash_free "t1" (db_sessions (lms_db w)) ∧ ¬ clash_free "t1" (db_sessions (lms_db w')).
Proof.
  cbv zeta.
  destruct (CreateSessionsWithRepeat _ _ _ _ _) as [res w'] eqn:Hrun. vm_compute in Hrun.
  simplify_eq. split_and!; [by eexists|by apply clash_freeb_spec; vm_compute|].
  intros Hf%clash_freeb_spec. by vm_compute in Hf.
Qed.

(** A lesson that lasts eight days. *)
Definition long_lesson : LMSSession :=
  {| LMSSession_ID := ""; LMSSession_Title := None; LMSSession_ClassID := "c1";
     LMSSession_StartTime := 0; LMSSession_EndTime := 8 * 24 * hour;
     LMSSession_Room := None; LMSSession_TeacherID := "t1"; LMSSession_LessonID := "";
     LMSSession_Status := "SCHEDULED"; LMSSession_Date := 738521 * day;
     LMSSession_Createat := 0; LMSSession_Updateat := 0 |}.

(** The occurrences of a series are checked against the stored sessions only,
    not against each other.  A lesson longer than a week, repeated weekly in
    an empty school, is accepted without force and overlaps itself. *)
Theorem long_lesson_overlaps_itself :
  let '(res, w') :=
    CreateSessionsWithRepeat (λ _, "") (Some long_lesson) (format_date (738521 + 7)) false (world_with []) in
  (∃ created, res = Ok (created, []) ∧ length created = 2%nat) ∧ ¬ clash_free "t1" (db_sessions (lms_db w')).
Proof.
  destruct (CreateSessionsWithRepeat _ _ _ _ _) as [res w'] eqn:Hrun. vm_compute in Hrun.
  simplify_eq. split; [by eexists|]. intros Hf%clash_freeb_spec. by vm_compute in Hf.
Qed.

(** ** Witnesses *)

Abbreviation w_free := (world_with [lesson "s1" 10]).
Abbreviation w_taken := (world_with [lesson "s1" 168]).
Abbreviation two_weeks := "2023-01-09".
Abbreviation create_free :=
  (CreateSessionsWithRepeat (D:=Z) (λ _, "") (Some (lesson "" 0)) two_weeks false w_free).
Abbreviation create_taken :=
  (CreateSessionsWithRepeat (D:=Z) (λ _, "") (Some (lesson "" 0)) two_weeks false w_taken).
Abbreviation an_id := "abcdefghijklmnopqrstuvwxyz".
Abbreviation w_one := (world_with [lesson an_id 168]).
Abbreviation update_one :=
  (UpdateSession (D:=Z) (λ _, "") an_id (Some (lesson "" 5)) false w_one).

Lemma lesson_sane : sane_times (lesson "" 0).
Proof. by vm_compute. Qed.

Lemma weekly_series_witness :
  ∃ occs, expandWeeklyOccurrences (lesson "" 0) two_weeks = Ok occs ∧ length occs = 2%nat ∧
    occs !! 0%nat = Some (lesson "" 0).
Proof.
  eexists. split; [vm_compute; reflexivity|]. split; [reflexivity|].
  eapply (weekly_series (lesson "" 0) two_weeks 738528);
    [vm_compute; reflexivity|apply lesson_sane|vm_compute; reflexivity].
Defined.

Lemma no_double_booking_witness :
  clash_free "t1" (db_sessions (lms_db create_free.2)) ∧ size (db_sessions (lms_db create_free.2)) = 3%nat.
Proof.
  split; [|vm_compute; reflexivity].
  apply (no_double_booking (D:=Z) (λ _, "") (lesson "" 0) two_weeks "t1" w_free create_free.2 create_free.1).
  - intros occs Ho. vm_compute in Ho. injection Ho as <-. split.
    + intros _. split; [apply lesson_sane|]. vm_compute. discriminate.
    + apply Nat.leb_le. vm_compute. reflexivity.
  - apply clash_freeb_spec. vm_compute. reflexivity.
  - apply surjective_pairing.
Defined.

Lemma conflicts_are_real_witness :
  lms_db create_taken.2 = lms_db w_taken ∧ ∃ c, create_taken.1 = Ok ([], [c]).
Proof.
  assert (∃ c, create_taken.1 = Ok ([], [c])) as [c Hc] by (eexists; vm_compute; reflexivity).
  split; [|exists c; exact Hc].
  eapply (conflicts_are_real (D:=Z) (λ _, "") (lesson "" 0) two_weeks false w_taken create_taken.2 [] [c]).
  - rewrite <-Hc. apply surjective_pairing.
  - discriminate.
Defined.

Lemma UpdateSession_row_witness :
  ∃ row, update_one.1 = Ok (Some row, []) ∧
    db_sessions (lms_db update_one.2) = <[an_id := row]> (db_sessions (lms_db w_one)).
Proof.
  assert (∃ row, update_one.1 = Ok (Some row, [])) as [row Hrow] by (eexists; vm_compute; reflexivity).
  exists row. split; [exact Hrow|].
  eapply (UpdateSession_row (D:=Z) (λ _, "") an_id (lesson "" 5) false w_one update_one.2 row []).
  rewrite <-Hrow. apply surjective_pairing.
Defined.
