(* ===== verification/LmsTuition.v ===== *)
(** * Tuition and payments (server/channels/app/lms)

    tuition.go, payment.go, fee_refund.go and additional_fee.go.  A tuition
    carries the amounts derived from its payments; [CreatePayment] recomputes
    them in three further statements after the insert. *)

From S2P Require Import Prelude.
From S2P Require Import GoUtf8.
From S2P Require Import LmsModel.
From S2P Require Import CallStore.
From S2P Require Import LmsStore.
From S2P Require Import LmsTables.
From S2P Require Import LmsApp.

Local Open Scope string_scope.
Local Open Scope go_scope.

Section tuition.
Context `{UnicodeTables} `{Decimal D} `{LmsEnv} `{GoRange}.

Abbreviation SM := (M (lms_world D) storeError).
Abbreviation LM := (M (lms_world D) lmsError).

(** ** Keys into modelled tables *)

Definition tuition_refs (d : lmsDB D) (t : Tuition D) : bool :=
  has (db_classes d) (Tuition_ClassID t) && has (db_packages (db_content d)) (Tuition_FeePackageID t).
Definition payment_refs (d : lmsDB D) (p : Payment D) : bool := has (db_tuitions d) (Payment_TuitionID p).
Definition refund_refs (d : lmsDB D) (r : FeeRefund D) : bool := has (db_tuitions d) (FeeRefund_TuitionID r).
Definition fee_refs (d : lmsDB D) (f : AdditionalFee D) : bool := has (db_tuitions d) (AdditionalFee_TuitionID f).

(** ** Store queries *)

Definition of_tuition (id : string) (p : Payment D) : bool := bool_decide (Payment_TuitionID p = id).

Definition PaymentStore_GetByTuition (id : string) : SM (list (Payment D)) :=
  db_query Payments (of_tuition id).
Definition FeeRefundStore_GetByTuition (id : string) : SM (list (FeeRefund D)) :=
  db_query Refunds (λ r, bool_decide (FeeRefund_TuitionID r = id)).
Definition AdditionalFeeStore_GetByTuition (id : string) : SM (list (AdditionalFee D)) :=
  db_query Fees (λ f, bool_decide (AdditionalFee_TuitionID f = id)).

(** ** tuition.go *)

Definition GetTuition (id : string) : LM (Tuition D) :=
  wrap (not_found_or "app.lms.tuition.not_found" "app.lms.tuition.get.app_error")
    (db_get Tuition_table Tuitions id).

Record TuitionWithDetails := {
  twd_Tuition : Tuition D; twd_Payments : list (Payment D);
  twd_Refunds : list (FeeRefund D); twd_AdditionalFees : list (AdditionalFee D);
}.

Definition GetTuitionWithDetails (id : string) : LM TuitionWithDetails :=
  t <- GetTuition id ;;
  payments <- wrap (internal "app.lms.tuition.get_payments.app_error") (PaymentStore_GetByTuition id) ;;
  refunds <- wrap (internal "app.lms.tuition.get_refunds.app_error") (FeeRefundStore_GetByTuition id) ;;
  fees <- wrap (internal "app.lms.tuition.get_additional_fees.app_error") (AdditionalFeeStore_GetByTuition id) ;;
  m_ret {| twd_Tuition := t; twd_Payments := payments; twd_Refunds := refunds; twd_AdditionalFees := fees |}.

Definition CreateTuition (t : Tuition D) : LM (Tuition D) :=
  wrap (internal "app.lms.tuition.create.app_error") (db_save Tuition_table Tuitions tuition_refs t).

Definition Tuition_with_id (id : string) (t : Tuition D) : Tuition D :=
  {| Tuition_ID := id; Tuition_StudentID := Tuition_StudentID t; Tuition_ClassID := Tuition_ClassID t;
     Tuition_FeePackageID := Tuition_FeePackageID t; Tuition_TotalAmount := Tuition_TotalAmount t;
     Tuition_DiscountAmount := Tuition_DiscountAmount t; Tuition_PaidAmount := Tuition_PaidAmount t;
     Tuition_RemainingAmount := Tuition_RemainingAmount t; Tuition_Status := Tuition_Status t;
     Tuition_DueDate := Tuition_DueDate t; Tuition_Note := Tuition_Note t;
     Tuition_PromotionalFee := Tuition_PromotionalFee t; Tuition_DiscountValue := Tuition_DiscountValue t;
     Tuition_DiscountType := Tuition_DiscountType t; Tuition_Createat := Tuition_Createat t;
     Tuition_Updateat := Tuition_Updateat t |}.

Definition update_tuition (t : Tuition D) : SM (Tuition D) :=
  db_update Tuition_table Tuitions TuitionPreUpdate tuition_refs t.

Definition UpdateTuition (id : string) (t : Tuition D) : LM (Tuition D) :=
  wrap (not_found_or "app.lms.tuition.not_found" "app.lms.tuition.update.app_error")
    (update_tuition (Tuition_with_id id t)).

Definition DeleteTuition (id : string) : LM unit :=
  wrap (not_found_or "app.lms.tuition.not_found" "app.lms.tuition.delete.app_error")
    (db_delete Tuition_table Tuitions id).

(** ** payment.go *)

Definition GetTuitionPayments (id : string) : LM (list (Payment D)) :=
  wrap (internal "app.lms.payment.get_by_tuition.app_error") (PaymentStore_GetByTuition id).

Definition total_paid (payments : list (Payment D)) : D :=
  foldl (λ total p, dec_add total (Payment_Amount p)) dec_zero payments.

Definition settled_status (paid remaining : D) (status : string) : string :=
  if dec_le remaining dec_zero then "PAID"
  else if dec_gt paid dec_zero then "PARTIAL" else status.

(** The tuition after its payments have been summed up. *)
Definition settle (t : Tuition D) (paid : D) : Tuition D :=
  let remaining := dec_sub (Tuition_TotalAmount t) paid in
  {| Tuition_ID := Tuition_ID t; Tuition_StudentID := Tuition_StudentID t;
     Tuition_ClassID := Tuition_ClassID t; Tuition_FeePackageID := Tuition_FeePackageID t;
     Tuition_TotalAmount := Tuition_TotalAmount t; Tuition_DiscountAmount := Tuition_DiscountAmount t;
     Tuition_PaidAmount := paid; Tuition_RemainingAmount := remaining;
     Tuition_Status := settled_status paid remaining (Tuition_Status t);
     Tuition_DueDate := Tuition_DueDate t; Tuition_Note := Tuition_Note t;
     Tuition_PromotionalFee := Tuition_PromotionalFee t; Tuition_DiscountValue := Tuition_DiscountValue t;
     Tuition_DiscountType := Tuition_DiscountType t; Tuition_Createat := Tuition_Createat t;
     Tuition_Updateat := Tuition_Updateat t |}.

(** The statements of CreatePayment, one effect each. *)
Definition save_payment (p : Payment D) : LM (Payment D) :=
  wrap (internal "app.lms.payment.create.app_error") (db_save Payment_table Payments payment_refs p).

Definition sum_payments (t : Tuition D) (tuitionID : string) : LM (Tuition D) :=
  payments <- GetTuitionPayments tuitionID ;;
  m_ret (settle t (total_paid payments)).

Definition write_settled (t : Tuition D) : LM unit :=
  wrap (internal "app.lms.tuition.update.app_error") (update_tuition t) ;;; m_ret tt.

Definition updateTuitionAfterPayment (tuitionID : string) : LM unit :=
  t <- GetTuition tuitionID ;;
  t' <- sum_payments t tuitionID ;;
  write_settled t'.

Definition CreatePayment (p : Payment D) : LM (Payment D) :=
  saved <- save_payment p ;;
  updateTuitionAfterPayment (Payment_TuitionID p) ;;;
  m_ret saved.

(** ** fee_refund.go, additional_fee.go *)

Definition GetFeeRefunds (id : string) : LM (list (FeeRefund D)) :=
  wrap (internal "app.lms.fee_refund.get_by_tuition.app_error") (FeeRefundStore_GetByTuition id).

Definition CreateFeeRefund (r : FeeRefund D) : LM (FeeRefund D) :=
  wrap (internal "app.lms.fee_refund.create.app_error") (db_save FeeRefund_table Refunds refund_refs r).

Definition GetAdditionalFee (id : string) : LM (AdditionalFee D) :=
  wrap (not_found_or "app.lms.additional_fee.not_found" "app.lms.additional_fee.get.app_error")
    (db_get AdditionalFee_table Fees id).

Definition GetTuitionAdditionalFees (id : string) : LM (list (AdditionalFee D)) :=
  wrap (internal "app.lms.additional_fee.get_by_tuition.app_error") (AdditionalFeeStore_GetByTuition id).

Definition CreateAdditionalFee (f : AdditionalFee D) : LM (AdditionalFee D) :=
  wrap (internal "app.lms.additional_fee.create.app_error") (db_save AdditionalFee_table Fees fee_refs f).

Definition DeleteAdditionalFee (id : string) : LM unit :=
  wrap (not_found_or "app.lms.additional_fee.not_found" "app.lms.additional_fee.delete.app_error")
    (db_delete AdditionalFee_table Fees id).

(** ** Concurrent payments

    Requests run in parallel and the database serialises statements, not
    requests: a request is a program counter that moves one statement at a
    time. *)

Inductive payRequest :=
  | PaySave (p : Payment D)
  | PayGet (tuitionID : string)
  | PaySum (t : Tuition D) (tuitionID : string)
  | PayWrite (t : Tuition D)
  | PayDone.

(** The next statement of a request. *)
Definition pay_next (r : payRequest) : LM payRequest :=
  match r with
  | PaySave p => save_payment p ;;; m_ret (PayGet (Payment_TuitionID p))
  | PayGet id => t <- GetTuition id ;; m_ret (PaySum t id)
  | PaySum t id => t' <- sum_payments t id ;; m_ret (PayWrite t')
  | PayWrite t => write_settled t ;;; m_ret PayDone
  | PayDone => m_ret PayDone
  end.

(** One of the running requests executes its next statement successfully. *)
Inductive pay_step : lms_world D * list payRequest → lms_world D * list payRequest → Prop :=
  | pay_step_at i r r' w w' rs :
      rs !! i = Some r → r ≠ PayDone → pay_next r w = (Ok r', w') →
      pay_step (w, rs) (w', <[i := r']> rs).

End tuition.
