(* ===== verification/LmsTuitionProps.v ===== *)
(** * Properties of tuition and payments

    A payment settles its tuition; two payments at once can lose one of
    themselves in the tuition's amounts. *)

From S2P Require Import Prelude.
From S2P Require Import GoUtf8.
From S2P Require Import LmsModel.
From S2P Require Import CallStore.
From S2P Require Import LmsStore.
From S2P Require Import LmsTables.
From S2P Require Import LmsApp.
From S2P Require Import LmsTuition.

Local Open Scope string_scope.
Local Open Scope go_scope.

Section props.
Context `{UnicodeTables} `{DecimalOk D} `{LmsEnv} `{GoRange}.

Abbreviation W := (lms_world D).

(** ** Rows *)

Lemma Tuition_stored_inv (x y : Tuition D) :
  Tuition_stored x = Some y →
  numeric 8 (Tuition_TotalAmount x) = Some (Tuition_TotalAmount y) ∧
  numeric 8 (Tuition_PaidAmount x) = Some (Tuition_PaidAmount y) ∧
  numeric 8 (Tuition_RemainingAmount x) = Some (Tuition_RemainingAmount y) ∧
  Tuition_ID y = Tuition_ID x ∧ Tuition_Status y = Tuition_Status x.
Proof.
  unfold Tuition_stored. intros Hs.
  repeat match type of Hs with (_ ≫= _) = Some _ => apply bind_Some in Hs as (? & ? & Hs) end.
  injection Hs as <-. done.
Qed.

Lemma Payment_stored_inv (x y : Payment D) :
  Payment_stored x = Some y →
  numeric 8 (Payment_Amount x) = Some (Payment_Amount y) ∧
  Payment_ID y = Payment_ID x ∧ Payment_TuitionID y = Payment_TuitionID x.
Proof. unfold Payment_stored. intros (a & Ha & [= <-])%bind_Some. done. Qed.

Lemma total_paid_sum (l : list (Payment D)) : total_paid l = dec_sum (Payment_Amount <$> l).
Proof.
  unfold total_paid, dec_sum. generalize dec_zero as a.
  induction l as [|p l IH]; intros a; simpl; [done|]. apply IH.
Qed.

(** The payments of a tuition, in some order. *)
Definition payments_of (id : string) (rows : gmap string (Payment D)) : list (Payment D) :=
  filter (λ p, of_tuition id p = true) (map_to_list rows).*2.

Lemma db_rows_payments id rows : db_rows (of_tuition id) rows ≡ₚ payments_of id rows.
Proof.
  unfold db_rows, payments_of.
  apply (filter_Permutation (λ p, of_tuition id p = true)). by rewrite go_range_perm.
Qed.

(** Every stored amount has two decimals. *)
Definition amounts_exact (rows : gmap string (Payment D)) : Prop :=
  ∀ i p, rows !! i = Some p → exact (Payment_Amount p).

Lemma rows_ok_amounts rows : rows_ok Payment_table rows → amounts_exact rows.
Proof. intros Hok i p Hp. destruct (Hok _ _ Hp) as (_ & _ & (Hn & _)%Payment_stored_inv). by eapply numeric_exact. Qed.

Lemma payments_exact id rows :
  amounts_exact rows → Forall exact (Payment_Amount <$> payments_of id rows).
Proof.
  intros Hok. apply Forall_fmap, Forall_forall. intros p [_ Hp]%list_elem_of_filter. simpl.
  apply list_elem_of_fmap in Hp as ([i q] & -> & Hq%elem_of_map_to_list). by eapply Hok.
Qed.

(** ** Statements *)

Lemma save_payment_inv p (w w' : W) r :
  save_payment p w = (r, w') →
  match r with
  | Ok _ => ∃ row, db_payments (lms_db w) !! Payment_ID row = None ∧
      Payment_TuitionID row = Payment_TuitionID p ∧
      numeric 8 (Payment_Amount p) = Some (Payment_Amount row) ∧
      db_payments (lms_db w') = <[Payment_ID row := row]> (db_payments (lms_db w)) ∧
      db_tuitions (lms_db w') = db_tuitions (lms_db w)
  | Err _ => lms_db w' = lms_db w
  end.
Proof.
  intros (r0 & Hs & ->)%wrap_inv. apply db_save_inv in Hs; [|apply _]. destruct r0 as [y|e]; [|done].
  destruct Hs as (i & n0 & n & row & -> & Hnone & _ & Hst & ->).
  destruct (Payment_stored_inv _ _ Hst) as (Hn & Hid & Ht). simpl in Hst, Hn, Hid, Ht, Hnone.
  exists row. rewrite Hid. simpl. split_and!; [exact Hnone|done|done|by destruct (lms_db w)..].
Qed.

Lemma GetTuition_inv id (w w' : W) r :
  GetTuition id w = (r, w') →
  lms_db w' = lms_db w ∧ ∀ t, r = Ok t → db_tuitions (lms_db w) !! id = Some t.
Proof.
  intros Hg. pose proof (frames_wrap lms_db (not_found_or "app.lms.tuition.not_found" "app.lms.tuition.get.app_error")
    (db_get Tuition_table Tuitions id) (frames_db_get _ _ _) w) as Hf.
  unfold GetTuition in Hg. rewrite Hg in Hf. split; [done|].
  intros t ->. apply wrap_inv in Hg as (r0 & Hg & Hr). destruct r0; simplify_eq.
  unfold db_get, on_table, Store_Get in Hg. simpl in Hg.
  destruct (lms_fault _); [done|]. destruct (db_tuitions (lms_db w) !! id); by simplify_eq.
Qed.

Lemma sum_payments_inv t id (w w' : W) r :
  sum_payments t id w = (r, w') →
  lms_db w' = lms_db w ∧
  ∀ t', r = Ok t' → t' = settle t (dec_sum (Payment_Amount <$> payments_of id (db_payments (lms_db w)))).
Proof.
  unfold sum_payments, GetTuitionPayments, PaymentStore_GetByTuition. intros Hrun.
  set (c := internal _) in Hrun. clearbody c.
  pose proof (frames_wrap lms_db c (db_query Payments (of_tuition id)) (frames_db_query _ _) w) as Hf.
  apply bind_inv in Hrun as [(ps & w1 & Hq & Hk)|(e & Hq & ->)]; rewrite Hq in Hf; [|done].
  cbv [m_ret] in Hk. simplify_eq. split; [done|]. intros t' [= <-]. f_equal.
  apply wrap_inv in Hq as (r0 & Hq & Hr). unfold db_query, on_table in Hq.
  destruct (lms_fault _); simplify_eq. rewrite total_paid_sum.
  apply dec_sum_perm. by rewrite db_rows_payments.
Qed.

Lemma write_settled_inv t (w w' : W) r :
  write_settled t w = (r, w') →
  db_payments (lms_db w') = db_payments (lms_db w) ∧
  ((r ≠ Ok tt ∧ lms_db w' = lms_db w) ∨
   ∃ row, Tuition_stored (TuitionPreUpdate (lms_clock (lms_ticks w)) t) = Some row ∧
     db_tuitions (lms_db w') = <[Tuition_ID t := row]> (db_tuitions (lms_db w))).
Proof.
  intros [(y & w1 & Hu & Hk)|(e & Hu & ->)]%bind_inv.
  - cbv [m_ret] in Hk. simplify_eq. apply wrap_inv in Hu as (r0 & Hu & Hr). destruct r0; simplify_eq.
    apply db_update_inv in Hu; [|apply _]. destruct Hu as (_ & Hst & ->).
    split; [by destruct (lms_db w)|]. right. eexists. split; [done|]. by destruct (lms_db w).
  - apply wrap_inv in Hu as (r0 & Hu & Hr). destruct r0 as [|e0]; simplify_eq.
    apply db_update_inv in Hu; [|apply _]. destruct Hu as [->|(y & Hst & ->)]; [split; [done|by left]|].
    split; [by destruct (lms_db w)|]. right. exists y. split; [done|]. by destruct (lms_db w).
Qed.

(** ** Settling *)

(** The row a settled tuition becomes: the amounts as computed. *)
Lemma settled_row t paid now row :
  exact (Tuition_TotalAmount t) → exact paid →
  Tuition_stored (TuitionPreUpdate now (settle t paid)) = Some row →
  Tuition_PaidAmount row = paid ∧ Tuition_TotalAmount row = Tuition_TotalAmount t ∧
  Tuition_RemainingAmount row = dec_sub (Tuition_TotalAmount t) paid ∧
  Tuition_Status row = settled_status paid (dec_sub (Tuition_TotalAmount t) paid) (Tuition_Status t).
Proof.
  intros Ht Hp (Htot & Hpaid & Hrem & _ & Hst)%Tuition_stored_inv. simpl in *.
  apply numeric_id in Htot; [|done]. apply numeric_id in Hpaid; [|done].
  apply numeric_id in Hrem; [|by apply exact_sub]. done.
Qed.

(** C16: a successful CreatePayment settles the tuition.  One payment row is
    added; the tuition of the payment, and no other, is rewritten so that the
    paid amount is the sum of all its payments, paid and remaining add up to
    the total, and the status is PAID when nothing remains, PARTIAL when
    something was paid, and otherwise what it was. *)
Theorem CreatePayment_settles p saved (w w' : W) :
  rows_ok Payment_table (db_payments (lms_db w)) → rows_ok Tuition_table (db_tuitions (lms_db w)) →
  CreatePayment p w = (Ok saved, w') →
  let id := Payment_TuitionID p in
  ∃ old t row, db_tuitions (lms_db w) !! id = Some old ∧
    db_payments (lms_db w') = <[Payment_ID row := row]> (db_payments (lms_db w)) ∧
    db_payments (lms_db w) !! Payment_ID row = None ∧
    Payment_TuitionID row = id ∧ numeric 8 (Payment_Amount p) = Some (Payment_Amount row) ∧
    db_tuitions (lms_db w') = <[id := t]> (db_tuitions (lms_db w)) ∧
    Tuition_PaidAmount t = dec_sum (Payment_Amount <$> payments_of id (db_payments (lms_db w'))) ∧
    dec_add (Tuition_RemainingAmount t) (Tuition_PaidAmount t) = Tuition_TotalAmount t ∧
    Tuition_TotalAmount t = Tuition_TotalAmount old ∧
    Tuition_Status t =
      (if dec_le (Tuition_RemainingAmount t) dec_zero then "PAID"
       else if dec_gt (Tuition_PaidAmount t) dec_zero then "PARTIAL" else Tuition_Status old).
Proof.
  intros Hpok Htok Hrun id. unfold CreatePayment in Hrun.
  apply bind_inv in Hrun as [(s & w1 & Hs & Hrun)|(e & _ & ?)]; [|done].
  apply bind_inv in Hrun as [(u & w2 & Hu & Hk)|(e & _ & ?)]; [|done].
  cbv [m_ret] in Hk. simplify_eq. apply save_payment_inv in Hs as (row & Hnone & Ht & Hamount & Hps & Hts).
  unfold updateTuitionAfterPayment in Hu.
  apply bind_inv in Hu as [(old & w3 & Hg & Hu)|(e & _ & ?)]; [|done].
  apply bind_inv in Hu as [(t' & w4 & Hsum & Hwr)|(e & _ & ?)]; [|done].
  apply GetTuition_inv in Hg as [Hw3 Hold]. specialize (Hold old eq_refl). rewrite Hts in Hold.
  apply sum_payments_inv in Hsum as [Hw4 Hset]. specialize (Hset t' eq_refl). subst t'.
  destruct u. apply write_settled_inv in Hwr as [Hps' [[? _]|(t & Hst & Hts')]]; [done|].
  rewrite Hw4, Hw3 in Hps', Hts'. rewrite Hw3 in Hst. rewrite Hps in Hps', Hst. rewrite Hts in Hts'.
  destruct (Htok _ _ Hold) as (Hid & _ & (Htot & _)%Tuition_stored_inv). simpl in Hid.
  assert (amounts_exact (<[Payment_ID row := row]> (db_payments (lms_db w)))) as Hex.
  { intros i q [[_ <-]|[_ Hq]]%lookup_insert_Some; [by eapply numeric_exact|].
    by eapply rows_ok_amounts. }
  destruct (settled_row _ _ _ _ (numeric_exact _ _ _ Htot) (exact_sum _ (payments_exact _ _ Hex)) Hst)
    as (Hpaid & Htotal & Hrem & Hstatus).
  exists old, t, row. simpl in Hts'. rewrite Hid in Hts'. rewrite Hps', Hpaid, Hrem, Htotal.
  split_and!; try done. by rewrite dec_add_sub.
Qed.

(** what a failed CreatePayment leaves.  The error id tells the client
    which: with "app.lms.payment.create.app_error" the database is unchanged;
    with any other error the payment is stored although the request failed. *)
Theorem CreatePayment_error p e (w w' : W) :
  CreatePayment p w = (Err e, w') →
  (le_id e = "app.lms.payment.create.app_error" ∧ lms_db w' = lms_db w) ∨
  (le_id e ≠ "app.lms.payment.create.app_error" ∧
   ∃ row, Payment_TuitionID row = Payment_TuitionID p ∧
     db_payments (lms_db w) !! Payment_ID row = None ∧
     db_payments (lms_db w') = <[Payment_ID row := row]> (db_payments (lms_db w))).
Proof.
  intros Hrun. unfold CreatePayment in Hrun.
  apply bind_inv in Hrun as [(s & w1 & Hs & Hrun)|(e' & Hs & [= <-])].
  2: { left. split; [|by apply save_payment_inv in Hs].
       apply wrap_inv in Hs as ([|e0] & _ & Heq); by simplify_eq. }
  right. apply save_payment_inv in Hs as (row & Hnone & Ht & _ & Hps & _).
  apply bind_inv in Hrun as [(u & w2 & _ & Hk)|(e' & Hu & [= <-])]; [done|].
  unfold updateTuitionAfterPayment in Hu.
  apply bind_inv in Hu as [(old & w3 & Hg & Hu)|(e' & Hg & [= <-])].
  2: { apply GetTuition_inv in Hg as Hg'. destruct Hg' as [-> _]. split; [|by exists row].
       apply wrap_inv in Hg as ([|e0] & _ & Heq); simplify_eq. simpl. unfold not_found_or.
       by destruct (IsErrNotFound e0). }
  apply GetTuition_inv in Hg as [Hw3 _].
  apply bind_inv in Hu as [(t' & w4 & Hsum & Hwr)|(e' & Hsum & [= <-])].
  2: { apply sum_payments_inv in Hsum as Hsum'. destruct Hsum' as [-> _]. rewrite Hw3. split; [|by exists row].
       apply bind_inv in Hsum as [(ps & w5 & _ & ?)|(e' & Hq & [= <-])]; [done|].
       apply wrap_inv in Hq as ([|e0] & _ & Heq); by simplify_eq. }
  apply sum_payments_inv in Hsum as [Hw4 _]. apply write_settled_inv in Hwr as Hwr'.
  destruct Hwr' as [Hps' _]. rewrite Hw4, Hw3, Hps in Hps'. split; [|by exists row].
  apply bind_inv in Hwr as [(y & w5 & _ & ?)|(e' & Hq & [= <-])]; [done|].
  apply wrap_inv in Hq as ([|e0] & _ & Heq); by simplify_eq.
Qed.

(** ** Concurrent payments *)

(** Alone, the four steps of a request are CreatePayment. *)
Lemma CreatePayment_steps p saved (w w' : W) :
  CreatePayment p w = (Ok saved, w') → rtc pay_step (w, [PaySave p]) (w', [PayDone]).
Proof.
  unfold CreatePayment, updateTuitionAfterPayment. intros Hrun.
  apply bind_inv in Hrun as [(s & w1 & Hs & Hrun)|(e & _ & ?)]; [|done].
  apply bind_inv in Hrun as [(u & w2 & Hu & Hk)|(e & _ & ?)]; [|done].
  apply bind_inv in Hu as [(old & w3 & Hg & Hu)|(e & _ & ?)]; [|done].
  apply bind_inv in Hu as [(t' & w4 & Hsum & Hwr)|(e & _ & ?)]; [|done].
  cbv [m_ret] in Hk. simplify_eq. destruct u.
  eapply rtc_l; [eapply (pay_step_at 0); [done|done|]; simpl; unfold m_bind; by rewrite Hs|].
  eapply rtc_l; [eapply (pay_step_at 0); [done|done|]; simpl; unfold m_bind; by rewrite Hg|].
  eapply rtc_l; [eapply (pay_step_at 0); [done|done|]; simpl; unfold m_bind; by rewrite Hsum|].
  eapply rtc_l; [eapply (pay_step_at 0); [done|done|]; simpl; unfold m_bind; by rewrite Hwr|].
  apply rtc_refl.
Qed.

Definition running (r : payRequest (D:=D)) : bool := match r with PayDone => false | _ => true end.

(** Run the requests in the order of a schedule of their positions. *)
Fixpoint run_schedule (sched : list nat) (s : W * list payRequest) : option (W * list payRequest) :=
  match sched with
  | [] => Some s
  | i :: rest =>
      match s.2 !! i with
      | Some r =>
          if running r then
            match pay_next r s.1 with
            | (Ok r', w') => run_schedule rest (w', <[i := r']> s.2)
            | (Err _, _) => None
            end
          else None
      | None => None
      end
  end.

Lemma run_schedule_steps sched s s' : run_schedule sched s = Some s' → rtc pay_step s s'.
Proof.
  revert s. induction sched as [|i sched IH]; intros [w rs]; cbn [run_schedule fst snd].
  { intros [= <-]. apply rtc_refl. }
  destruct (rs !! i) as [r|] eqn:Hr; [|done]. destruct (running r) eqn:Hrun; [|done].
  destruct (pay_next r w) as [[r'|e] w'] eqn:Hn; [|done]. intros Hs%IH.
  eapply rtc_l; [|exact Hs]. eapply pay_step_at; [done| |done]. by intros ->.
Qed.

End props.

(** ** Two payments at once *)

#[local] Existing Instance cents.
#[local] Existing Instance cents_ok.
#[local] Instance no_unicode : UnicodeTables := λ _, false.

Local Open Scope Z_scope.

Definition letter (n : nat) : string := String (Ascii.ascii_of_nat (97 + n)%nat) "".
Abbreviation an_id := "abcdefghijklmnopqrstuvwxyz".

#[local] Instance quiet : LmsEnv := {|
  lms_clock := λ n, Z.of_nat n;
  lms_id := λ n, "abcdefghijklmnopqrstuvwxy" +:+ letter n;
  lms_fault := λ _, false;
|}.

(** A tuition of 1000.00, and a world that holds it. *)
Definition a_tuition : Tuition Z :=
  {| Tuition_ID := an_id; Tuition_StudentID := "st"; Tuition_ClassID := "c1"; Tuition_FeePackageID := "fp";
     Tuition_TotalAmount := 100000; Tuition_DiscountAmount := 0; Tuition_PaidAmount := 0;
     Tuition_RemainingAmount := 100000; Tuition_Status := "UNPAID"; Tuition_DueDate := 0;
     Tuition_Note := None; Tuition_PromotionalFee := None; Tuition_DiscountValue := None;
     Tuition_DiscountType := None; Tuition_Createat := 0; Tuition_Updateat := 0 |}.

Definition a_class : Class :=
  {| Class_ID := "c1"; Class_CourseID := ""; Class_BranchID := ""; Class_Name := "Math"; Class_Code := "";
     Class_TeacherID := "t1"; Class_Status := "OPEN"; Class_Room := None; Class_StartDate := 0;
     Class_EndDate := None; Class_Createat := 0; Class_Updateat := 0; Class_ChatChannelID := "" |}.

Definition a_package : FeePackage Z :=
  {| FeePackage_ID := "fp"; FeePackage_Name := "Term"; FeePackage_TotalFee := 100000; FeePackage_CourseID := "";
     FeePackage_SessionsIncluded := 24; FeePackage_DiscountPercent := None; FeePackage_IsActive := true;
     FeePackage_Createat := 0; FeePackage_Updateat := 0 |}.

Definition offered : contentDB Z := ContentDB _ ∅ ∅ ∅ {["fp" := a_package]} ∅ ∅ ∅ ∅ ∅ ∅ ∅ ∅.

Definition w_unpaid : lms_world Z :=
  LmsWorld (LmsDB _ {["c1" := a_class]} ∅ ∅ ∅ {[an_id := a_tuition]} ∅ ∅ ∅ ∅ ∅ ∅ ∅ offered) 0%nat.

Definition pay (amount : Z) : Payment Z :=
  {| Payment_ID := ""; Payment_TuitionID := an_id; Payment_Amount := amount; Payment_PaymentDate := 0;
     Payment_Method := ""; Payment_ReceiptNumber := None; Payment_PaidByID := "u1"; Payment_Note := None;
     Payment_Createat := 0; Payment_Updateat := 0 |}.

(** concurrent payments can lose one.  Two requests for one unpaid tuition
    of 1000.00, 300.00 and 200.00, interleave so that both succeed and both
    payments are stored, yet the tuition says 300.00 are paid. *)
Theorem concurrent_payments_lose_one :
  ∃ w' t, rtc pay_step (w_unpaid, [PaySave (pay 30000); PaySave (pay 20000)]) (w', [PayDone; PayDone]) ∧
    db_tuitions (lms_db w') !! an_id = Some t ∧
    Tuition_PaidAmount t = 30000%Z ∧ Tuition_RemainingAmount t = 70000%Z ∧
    dec_sum (Payment_Amount <$> payments_of an_id (db_payments (lms_db w'))) = 50000%Z.
Proof.
  destruct (run_schedule [0; 0; 0; 1; 1; 1; 1; 0]%nat
    (w_unpaid, [PaySave (pay 30000); PaySave (pay 20000)])) as [[w' rs]|] eqn:Hrun;
    vm_compute in Hrun; [|done].
  pose proof (run_schedule_steps [0; 0; 0; 1; 1; 1; 1; 0]%nat
    (w_unpaid, [PaySave (pay 30000); PaySave (pay 20000)])) as Hsteps.
  simplify_eq. eexists _, _. split; [apply Hsteps; vm_compute; reflexivity|].
  split_and!; vm_compute; reflexivity.
Qed.

(** ** Witnesses *)

Abbreviation pay_one := (CreatePayment (pay 30000) w_unpaid).
Abbreviation w_nothing := (LmsWorld (@empty_lmsDB Z) 0%nat).
Abbreviation pay_unknown := (CreatePayment (pay 30000) w_nothing).

Lemma CreatePayment_settles_witness :
  ∃ t, db_tuitions (lms_db pay_one.2) = <[an_id := t]> (db_tuitions (lms_db w_unpaid)) ∧
    Tuition_Status t = "PARTIAL" ∧ Tuition_PaidAmount t = 30000 ∧
    dec_sum (Payment_Amount <$> payments_of an_id (db_payments (lms_db pay_one.2))) = 30000.
Proof.
  assert (∃ saved, pay_one.1 = Ok saved) as [saved Hsaved] by (eexists; vm_compute; reflexivity).
  destruct (CreatePayment_settles (pay 30000) saved w_unpaid pay_one.2) as
    (old & t & row & Hold & Hps & _ & _ & _ & Hts & Hpaid & _ & Htot & Hst).
  - intros i p Hp. vm_compute in Hp. discriminate.
  - intros i t Ht. change (({[an_id := a_tuition]} : gmap string (Tuition Z)) !! i = Some t) in Ht.
    apply lookup_singleton_Some in Ht as [<- <-]. vm_compute. split_and!; reflexivity.
  - rewrite <-Hsaved. apply surjective_pairing.
  - exists t. split; [exact Hts|].
    assert (dec_sum (Payment_Amount <$> payments_of an_id (db_payments (lms_db pay_one.2))) = 30000) as Hsum
      by (vm_compute; reflexivity).
    assert (Some t = db_tuitions (lms_db pay_one.2) !! an_id) as Ht
      by (rewrite Hts; symmetry; apply lookup_insert_eq).
    vm_compute in Ht. injection Ht as ->. split_and!; first [exact Hsum|reflexivity].
Defined.

Lemma CreatePayment_error_witness :
  ∃ e, pay_unknown.1 = Err e ∧ le_id e = "app.lms.payment.create.app_error" ∧ lms_db pay_unknown.2 = empty_lmsDB.
Proof.
  assert (∃ e, pay_unknown.1 = Err e) as [e He] by (eexists; vm_compute; reflexivity).
  exists e. split; [exact He|].
  destruct (CreatePayment_error (pay 30000) e w_nothing pay_unknown.2) as [Hsame|[Hne _]].
  - rewrite <-He. apply surjective_pairing.
  - exact Hsame.
  - exfalso. vm_compute in He. injection He as <-. apply Hne. reflexivity.
Defined.
