(* ===== verification/LmsClass.v ===== *)
(** * Classes, enrolment, attendance and homework (server/channels/app/lms)

    class.go, attendance.go and homework.go over the tables of [LmsApp], with
    the queries of student_class_store.go, attendance_store.go and
    submission_store.go they use.  Neither table has a unique index on its
    natural key, so "one enrolment per student and class" and "one submission
    per student and homework" rest on the reads in front of the inserts. *)

From stdpp Require Import sorting.
From S2P Require Import Prelude.
From S2P Require Import GoUtf8.
From S2P Require Import LmsModel.
From S2P Require Import CallStore.
From S2P Require Import LmsStore.
From S2P Require Import LmsTables.
From S2P Require Import LmsApp.

Local Open Scope string_scope.
Local Open Scope go_scope.

Section classes.
Context `{UnicodeTables} `{Decimal D} `{LmsEnv} `{GoRange}.

Abbreviation SM := (M (lms_world D) storeError).
Abbreviation LM := (M (lms_world D) lmsError).

(** ** Keys *)

(** classes.name and classes.code are UNIQUE. *)
Definition class_refs (d : lmsDB D) (c : Class) : bool :=
  has (db_courses (db_content d)) (Class_CourseID c) && has (db_branches (db_content d)) (Class_BranchID c) &&
  forallb (λ e : string * Class,
    bool_decide (e.1 = Class_ID c) ||
    (negb (bool_decide (Class_Name e.2 = Class_Name c)) &&
     negb (bool_decide (Class_Code e.2 = Class_Code c)))) (map_to_list (db_classes d)).
Definition enrolment_refs (d : lmsDB D) (e : StudentClass) : bool :=
  has (db_classes d) (StudentClass_ClassID e).
Definition attendance_refs (d : lmsDB D) (a : Attendance) : bool :=
  has (db_sessions d) (Attendance_SessionID a).
Definition homework_refs (d : lmsDB D) (h : Homework) : bool :=
  has (db_classes d) (Homework_ClassID h) && has (db_sessions d) (Homework_SessionID h) &&
  has (db_courses (db_content d)) (Homework_CourseID h).
Definition submission_refs (d : lmsDB D) (s : Submission) : bool :=
  has (db_homeworks d) (Submission_HomeworkID s).

(** ** class.go *)

Definition GetClass (id : string) : LM Class :=
  wrap (not_found_or "app.lms.class.not_found" "app.lms.class.get.app_error")
    (db_get Class_table Classes id).

Definition CreateClass (c : Class) : LM Class :=
  wrap (internal "app.lms.class.create.app_error") (db_save Class_table Classes class_refs c).

Definition Class_with_id (id : string) (c : Class) : Class :=
  {| Class_ID := id; Class_CourseID := Class_CourseID c; Class_BranchID := Class_BranchID c;
     Class_Name := Class_Name c; Class_Code := Class_Code c; Class_TeacherID := Class_TeacherID c;
     Class_Status := Class_Status c; Class_Room := Class_Room c; Class_StartDate := Class_StartDate c;
     Class_EndDate := Class_EndDate c; Class_Createat := Class_Createat c;
     Class_Updateat := Class_Updateat c; Class_ChatChannelID := Class_ChatChannelID c |}.

Definition UpdateClass (id : string) (c : Class) : LM Class :=
  wrap (not_found_or "app.lms.class.not_found" "app.lms.class.update.app_error")
    (db_update Class_table Classes ClassPreUpdate class_refs (Class_with_id id c)).

Definition DeleteClass (id : string) : LM unit :=
  wrap (not_found_or "app.lms.class.not_found" "app.lms.class.delete.app_error")
    (db_delete Class_table Classes id).

(** *** Enrolment *)

Definition enrolled_as (studentID classID : string) (e : StudentClass) : bool :=
  bool_decide (StudentClass_StudentID e = studentID) && bool_decide (StudentClass_ClassID e = classID).

(** [One]: some row, or none. *)
Definition StudentClassStore_GetExisting (studentID classID : string) : SM (option StudentClass) :=
  rows <- db_query Enrolments (enrolled_as studentID classID) ;; m_ret (head rows).

Definition StudentClassStore_GetByClass (classID : string) : SM (list StudentClass) :=
  db_query Enrolments (λ e, bool_decide (StudentClass_ClassID e = classID)).

Definition new_enrolment (studentID classID status : string) : StudentClass :=
  {| StudentClass_ID := ""; StudentClass_StudentID := studentID; StudentClass_ClassID := classID;
     StudentClass_EnrollmentAt := 0; StudentClass_Status := status; StudentClass_Createat := 0;
     StudentClass_Updateat := 0 |}.

Definition save_enrolment (id : string) (e : StudentClass) : LM StudentClass :=
  wrap (internal id) (db_save StudentClass_table Enrolments enrolment_refs e).

(** An error of the read counts as "not enrolled". *)
Definition EnrollStudent (classID studentID : string) : LM StudentClass :=
  existing <- attempt (StudentClassStore_GetExisting studentID classID) ;;
  match existing with
  | Ok (Some _) => app_error "app.lms.class.already_enrolled" 409
  | _ => save_enrolment "app.lms.class.enroll.app_error" (new_enrolment studentID classID "active")
  end.

Definition GetClassStudents (classID : string) : LM (list StudentClass) :=
  wrap (internal "app.lms.class.get_students.app_error") (StudentClassStore_GetByClass classID).

Fixpoint EnrollStudents (classID : string) (studentIDs : list string) : LM (list StudentClass) :=
  match studentIDs with
  | [] => m_ret []
  | studentID :: rest =>
      existing <- attempt (StudentClassStore_GetExisting studentID classID) ;;
      match existing with
      | Ok (Some _) => EnrollStudents classID rest
      | _ =>
          saved <- save_enrolment "app.lms.class.enroll.app_error" (new_enrolment studentID classID "") ;;
          enrolled <- EnrollStudents classID rest ;;
          m_ret (saved :: enrolled)
      end
  end.

Definition UnenrollStudent (classID studentID : string) : LM StudentClass :=
  existing <- attempt (StudentClassStore_GetExisting studentID classID) ;;
  match existing with
  | Ok None => app_error "app.lms.class.not_enrolled" 404
  | Err e => m_throw (LmsError "app.lms.class.unenroll.app_error" 500 (Some e))
  | Ok (Some e) =>
      wrap (internal "app.lms.class.unenroll.app_error")
        (db_delete StudentClass_table Enrolments (StudentClass_ID e)) ;;;
      m_ret e
  end.

(** ** attendance.go *)

Definition in_session (sessionID : string) (a : Attendance) : bool :=
  bool_decide (Attendance_SessionID a = sessionID).

Definition GetAttendance (sessionID : string) : LM (list Attendance) :=
  wrap (internal "app.lms.attendance.get_by_session.app_error")
    (db_query Attendances (in_session sessionID)).

Definition Attendance_with_session (sessionID : string) (a : Attendance) : Attendance :=
  {| Attendance_ID := Attendance_ID a; Attendance_SessionID := sessionID;
     Attendance_StudentID := Attendance_StudentID a; Attendance_Status := Attendance_Status a;
     Attendance_Note := Attendance_Note a; Attendance_Locked := Attendance_Locked a;
     Attendance_Createat := Attendance_Createat a; Attendance_Updateat := Attendance_Updateat a |}.

Fixpoint save_attendance (sessionID : string) (records : list Attendance) : LM (list Attendance) :=
  match records with
  | [] => m_ret []
  | record :: rest =>
      s <- wrap (internal "app.lms.attendance.save.app_error")
             (db_save Attendance_table Attendances attendance_refs
                (Attendance_with_session sessionID record)) ;;
      saved <- save_attendance sessionID rest ;;
      m_ret (s :: saved)
  end.

Definition SaveAttendance (sessionID : string) (records : list Attendance) : LM (list Attendance) :=
  wrap (internal "app.lms.attendance.delete_existing.app_error")
    (db_delete_all Attendances (in_session sessionID)) ;;;
  save_attendance sessionID records.

(** ** homework.go *)

Definition GetHomeworkByID (id : string) : LM Homework :=
  wrap (not_found_or "app.lms.homework.not_found" "app.lms.homework.get.app_error")
    (db_get Homework_table Homeworks id).

(** ORDER BY createat DESC. *)
Definition newest_first (a b : Submission) : Prop := (Submission_Createat b ≤ Submission_Createat a)%Z.
#[export] Instance newest_first_dec : RelDecision newest_first.
Proof. intros a b. apply Z.le_dec. Defined.

Definition SubmissionStore_GetByHomework (id : string) : SM (list Submission) :=
  rows <- db_query Submissions (λ s, bool_decide (Submission_HomeworkID s = id)) ;;
  m_ret (merge_sort newest_first rows).

Definition submitted_as (homeworkID studentID : string) (s : Submission) : bool :=
  bool_decide (Submission_HomeworkID s = homeworkID) && bool_decide (Submission_StudentID s = studentID).

Definition SubmissionStore_GetByHomeworkAndStudent (homeworkID studentID : string) : SM Submission :=
  rows <- db_query Submissions (submitted_as homeworkID studentID) ;;
  match head rows with
  | Some s => m_ret s
  | None => m_throw (ErrNotFound "Submission" homeworkID)
  end.

Definition GetHomeworkSubmissions (id : string) : LM (list Submission) :=
  wrap (internal "app.lms.homework.get_submissions.app_error") (SubmissionStore_GetByHomework id).

Definition GetHomeworkByIDWithSubmissions (id : string) : LM (Homework * list Submission) :=
  hw <- GetHomeworkByID id ;;
  submissions <- GetHomeworkSubmissions id ;;
  m_ret (hw, submissions).

Definition save_homework (h : Homework) : LM Homework :=
  wrap (internal "app.lms.homework.create.app_error") (db_save Homework_table Homeworks homework_refs h).

Definition CreateHomework (h : Homework) : LM Homework := save_homework h.

Definition Homework_with_id (id : string) (h : Homework) : Homework :=
  {| Homework_ID := id; Homework_Title := Homework_Title h; Homework_Description := Homework_Description h;
     Homework_SessionID := Homework_SessionID h; Homework_ClassID := Homework_ClassID h;
     Homework_CourseID := Homework_CourseID h; Homework_TeacherID := Homework_TeacherID h;
     Homework_Deadline := Homework_Deadline h; Homework_Createat := Homework_Createat h;
     Homework_FileID := Homework_FileID h; Homework_Updateat := Homework_Updateat h |}.

Definition UpdateHomework (id : string) (h : Homework) : LM Homework :=
  wrap (not_found_or "app.lms.homework.not_found" "app.lms.homework.update.app_error")
    (db_update Homework_table Homeworks HomeworkPreUpdate homework_refs (Homework_with_id id h)).

Definition DeleteHomework (id : string) : LM unit :=
  wrap (not_found_or "app.lms.homework.not_found" "app.lms.homework.delete.app_error")
    (db_delete Homework_table Homeworks id).

(** The clone of BulkAssignHomework: no id, no times. *)
Definition homework_clone (h : Homework) : Homework :=
  {| Homework_ID := ""; Homework_Title := Homework_Title h; Homework_Description := Homework_Description h;
     Homework_SessionID := Homework_SessionID h; Homework_ClassID := Homework_ClassID h;
     Homework_CourseID := Homework_CourseID h; Homework_TeacherID := Homework_TeacherID h;
     Homework_Deadline := Homework_Deadline h; Homework_Createat := 0;
     Homework_FileID := Homework_FileID h; Homework_Updateat := 0 |}.

(** The loop never looks at the student ids; an error comes with the count of
    the homeworks created before it. *)
Fixpoint bulk_loop (h : Homework) (studentIDs : list string) (count : Z)
    : LM (Z * option lmsError) :=
  match studentIDs with
  | [] => m_ret (count, None)
  | _ :: rest => λ w,
      match save_homework (homework_clone h) w with
      | (Err e, w') => (Ok (count, Some e), w')
      | (Ok _, w') => bulk_loop h rest (count + 1)%Z w'
      end
  end.

Definition BulkAssignHomework (h : Homework) (studentIDs : list string) : LM (Z * option lmsError) :=
  bulk_loop h studentIDs 0%Z.

Definition Submission_for (homeworkID studentID : string) (s : Submission) : Submission :=
  {| Submission_ID := Submission_ID s; Submission_Title := Submission_Title s;
     Submission_StudentID := studentID; Submission_HomeworkID := homeworkID;
     Submission_Description := Submission_Description s; Submission_FileID := Submission_FileID s;
     Submission_Feedback := Submission_Feedback s; Submission_Createat := Submission_Createat s;
     Submission_Updateat := Submission_Updateat s |}.

Definition Submission_with_id (id : string) (s : Submission) : Submission :=
  {| Submission_ID := id; Submission_Title := Submission_Title s;
     Submission_StudentID := Submission_StudentID s; Submission_HomeworkID := Submission_HomeworkID s;
     Submission_Description := Submission_Description s; Submission_FileID := Submission_FileID s;
     Submission_Feedback := Submission_Feedback s; Submission_Createat := Submission_Createat s;
     Submission_Updateat := Submission_Updateat s |}.

Definition UpsertHomeworkSubmission (homeworkID studentID : string) (sub : Submission) : LM Submission :=
  let sub := Submission_for homeworkID studentID sub in
  existing <- attempt (SubmissionStore_GetByHomeworkAndStudent homeworkID studentID) ;;
  match existing with
  | Ok e =>
      wrap (internal "app.lms.homework.update_submission.app_error")
        (db_update Submission_table Submissions SubmissionPreUpdate submission_refs
           (Submission_with_id (Submission_ID e) sub))
  | Err _ =>
      wrap (internal "app.lms.homework.create_submission.app_error")
        (db_save Submission_table Submissions submission_refs sub)
  end.
End classes.
