(* ===== verification/LmsClassProps.v ===== *)
(** * Properties of enrolment, attendance and homework

    Enrolments stay unique as long as the database answers, and only then;
    saving the attendance of a session replaces it; resubmitting a homework
    overwrites the submission. *)

From S2P Require Import Prelude.
From S2P Require Import GoUtf8.
From S2P Require Import LmsModel.
From S2P Require Import CallStore.
From S2P Require Import LmsStore.
From S2P Require Import LmsTables.
From S2P Require Import LmsApp.
From S2P Require Import LmsClass.

Local Open Scope string_scope.
Local Open Scope go_scope.

(** At most one row per student and class. *)
Definition enrolled_once (rows : gmap string StudentClass) : Prop :=
  ∀ i j a b, rows !! i = Some a → rows !! j = Some b →
    StudentClass_StudentID a = StudentClass_StudentID b →
    StudentClass_ClassID a = StudentClass_ClassID b → i = j.

(** The student has a row in the class. *)
Definition is_enrolled (rows : gmap string StudentClass) (studentID classID : string) : Prop :=
  ∃ i e, rows !! i = Some e ∧ enrolled_as studentID classID e = true.

Lemma enrolled_as_spec s c e :
  enrolled_as s c e = true ↔ StudentClass_StudentID e = s ∧ StudentClass_ClassID e = c.
Proof. unfold enrolled_as. by rewrite andb_true_iff, !bool_decide_eq_true. Qed.

Lemma enrolled_once_subseteq rows rows' :
  rows' ⊆ rows → enrolled_once rows → enrolled_once rows'.
Proof. intros Hs Ho i j a b Hi Hj. apply (Ho i j a b); by eapply lookup_weaken. Qed.

(** A row for a pair that has none. *)
Lemma enrolled_once_insert rows i e :
  enrolled_once rows →
  ¬ is_enrolled rows (StudentClass_StudentID e) (StudentClass_ClassID e) →
  enrolled_once (<[i := e]> rows).
Proof.
  intros Ho Hn j k a b Hj Hk Hs Hc.
  apply lookup_insert_Some in Hj as [[<- <-]|[Hij Hj]], Hk as [[<- <-]|[Hik Hk]]; [done|..].
  - destruct Hn. exists k, b. by rewrite enrolled_as_spec.
  - destruct Hn. exists j, a. by rewrite enrolled_as_spec.
  - by eapply Ho.
Qed.

Lemma keep_subseteq {X} (P : X → bool) (m : gmap string X) : keep P m ⊆ m.
Proof. apply map_filter_subseteq. Qed.

Section props.
Context `{UnicodeTables} `{Decimal D} `{LmsEnv} `{GoRange}.

Abbreviation W := (lms_world D).
Abbreviation rows w := (db_enrolments (lms_db w)).

(** ** Enrolment *)

Lemma elem_of_rows_enrolled P (m : gmap string StudentClass) e :
  e ∈ db_rows P m ↔ P e = true ∧ ∃ i, m !! i = Some e.
Proof.
  unfold db_rows. rewrite list_elem_of_filter, list_elem_of_fmap. split.
  - intros [Hp ([i e'] & -> & Hi)]. rewrite elem_of_go_range in Hi. eauto.
  - intros [Hp [i Hi]]. split; [done|]. exists (i, e). by rewrite elem_of_go_range.
Qed.

(** The read in front of an enrolment: its answer is right unless it fails. *)
Lemma GetExisting_inv s c (w w' : W) r :
  attempt (StudentClassStore_GetExisting s c) w = (r, w') →
  lms_db w' = lms_db w ∧
  match r with
  | Ok (Ok (Some e)) => enrolled_as s c e = true ∧ ∃ i, rows w !! i = Some e
  | Ok (Ok None) => ¬ is_enrolled (rows w) s c
  | Ok (Err _) => lms_fault (lms_ticks w) = true
  | Err _ => False
  end.
Proof.
  unfold attempt, StudentClassStore_GetExisting, m_bind, db_query, on_table. simpl.
  destruct (lms_fault (lms_ticks w)) eqn:Hf; simpl.
  { intros [= <- <-]. simpl. destruct w as [[] ?]; done. }
  unfold m_ret. intros [= <- <-]. simpl. split; [by destruct w as [[] ?]|].
  destruct (head _) as [e|] eqn:Hh.
  - apply (elem_of_rows_enrolled (enrolled_as s c)).
    destruct (db_rows _ _); simplify_eq/=. constructor.
  - intros (i & e & Hi & He). assert (e ∈ db_rows (enrolled_as s c) (rows w)) as Hin.
    { apply elem_of_rows_enrolled. eauto. }
    destruct (db_rows _ _); [by apply elem_of_nil in Hin|done].
Qed.

Lemma save_enrolment_inv id e (w w' : W) r :
  save_enrolment id e w = (r, w') →
  match r with
  | Ok row => rows w !! StudentClass_ID row = None ∧
      StudentClass_StudentID row = StudentClass_StudentID e ∧
      StudentClass_ClassID row = StudentClass_ClassID e ∧
      rows w' = <[StudentClass_ID row := row]> (rows w)
  | Err _ => rows w' = rows w
  end.
Proof.
  intros (r0 & Hs & ->)%wrap_inv. apply db_save_inv in Hs; [|apply _].
  destruct r0 as [y|]; [|by rewrite Hs].
  destruct Hs as (i & n0 & n & row & -> & Hnone & _ & [= <-] & ->).
  simpl in *. split_and!; [done..|by destruct (lms_db w)].
Qed.

(** One student of a request. *)
Definition enrol_one (status classID studentID : string) : M W lmsError (option StudentClass) :=
  existing <- attempt (StudentClassStore_GetExisting studentID classID) ;;
  match existing with
  | Ok (Some _) => m_ret None
  | _ =>
      saved <- save_enrolment "app.lms.class.enroll.app_error"
                 (new_enrolment studentID classID status) ;;
      m_ret (Some saved)
  end.

Lemma EnrollStudents_cons c s l :
  ∀ w : W, EnrollStudents c (s :: l) w =
    (o <- enrol_one "" c s ;; enrolled <- EnrollStudents c l ;;
     m_ret (match o with Some e => e :: enrolled | None => enrolled end)) w.
Proof.
  intros w. simpl. unfold enrol_one, m_bind.
  destruct (attempt _ w) as [[[[e|]|e]|e] w1]; try done.
  - unfold m_ret. by destruct (EnrollStudents c l w1) as [[] ?].
  - by destruct (save_enrolment _ _ w1) as [[] w2].
  - by destruct (save_enrolment _ _ w1) as [[] w2].
Qed.

(** What enrolling did to the rows: old rows stay, new ones are asked for. *)
Record enrol_effect (classID : string) (ids : list string)
    (m m' : gmap string StudentClass) : Prop := {
  ee_once : enrolled_once m → enrolled_once m';
  ee_keeps : m ⊆ m';
  ee_new : ∀ i e, m' !! i = Some e → m !! i = None →
    StudentClass_ClassID e = classID ∧ StudentClass_StudentID e ∈ ids;
}.

Lemma enrol_effect_refl c ids m : enrol_effect c ids m m.
Proof. split; [done|done|]. congruence. Qed.

Lemma enrol_effect_trans c l1 l2 m1 m2 m3 :
  enrol_effect c l1 m1 m2 → enrol_effect c l2 m2 m3 → enrol_effect c (l1 ++ l2) m1 m3.
Proof.
  intros [A1 B1 C1] [A2 B2 C2]. split; [auto|by etrans|].
  intros i e H3 H1'. rewrite elem_of_app. destruct (m2 !! i) as [e'|] eqn:E2.
  - pose proof (lookup_weaken _ _ _ _ E2 B2). simplify_eq. destruct (C1 i e); auto.
  - destruct (C2 i e); auto.
Qed.

Lemma is_enrolled_subseteq m m' s c : m ⊆ m' → is_enrolled m s c → is_enrolled m' s c.
Proof. intros Hs (i & e & Hi & He). exists i, e. split; [by eapply lookup_weaken|done]. Qed.

Lemma enrol_one_effect st c s (w w' : W) r :
  (∀ n, lms_fault n = false) →
  enrol_one st c s w = (r, w') →
  enrol_effect c [s] (rows w) (rows w') ∧ ∀ o, r = Ok o → is_enrolled (rows w') s c.
Proof.
  intros Hnf Hrun. apply bind_inv in Hrun as [(x & w1 & Hg & Hk)|(e & Hg & ->)];
    apply GetExisting_inv in Hg as [Hdb Hg]; [|done].
  destruct x as [[e|]|e]; [..|by rewrite Hnf in Hg].
  - destruct Hg as [He [i Hi]]. unfold m_ret in Hk. simplify_eq. rewrite Hdb.
    split; [apply enrol_effect_refl|]. intros o _. by exists i, e.
  - rewrite <-Hdb in *. apply bind_inv in Hk as [(y & w2 & Hs & Hk)|(e & Hs & ->)];
      apply save_enrolment_inv in Hs.
    + unfold m_ret in Hk. simplify_eq. destruct Hs as (Hnone & Hst & Hcl & Hins).
      simpl in Hst, Hcl. rewrite Hins. split.
      * split.
        -- intros Ho. apply enrolled_once_insert; [done|]. by rewrite Hst, Hcl.
        -- by apply insert_subseteq.
        -- intros i e' [[<- <-]|[_ Hi]]%lookup_insert_Some Hn; [|congruence].
           rewrite list_elem_of_singleton. done.
      * intros o _. exists (StudentClass_ID y), y.
        rewrite lookup_insert_eq, enrolled_as_spec. done.
    + rewrite Hs. split; [apply enrol_effect_refl|done].
Qed.

(** On a database that answers its reads, enrolling a list of students,
    repetitions included, keeps the rows that were there, adds at most one row
    per student, adds rows for listed students of that class only, and when it
    succeeds every listed student is enrolled. *)
Theorem EnrollStudents_unique classID ids (w w' : W) r :
  (∀ n, lms_fault n = false) →
  EnrollStudents classID ids w = (r, w') →
  (enrolled_once (rows w) → enrolled_once (rows w')) ∧
  rows w ⊆ rows w' ∧
  (∀ i e, rows w' !! i = Some e → rows w !! i = None →
     StudentClass_ClassID e = classID ∧ StudentClass_StudentID e ∈ ids) ∧
  (∀ saved, r = Ok saved → ∀ s, s ∈ ids → is_enrolled (rows w') s classID).
Proof.
  intros Hnf Hrun.
  assert (enrol_effect classID ids (rows w) (rows w') ∧
    ∀ saved, r = Ok saved → ∀ s, s ∈ ids → is_enrolled (rows w') s classID) as [[] ?]; [|done].
  revert w w' r Hrun. induction ids as [|s ids IH]; intros w w' r Hrun.
  { unfold EnrollStudents, m_ret in Hrun. simplify_eq. split; [apply enrol_effect_refl|].
    intros saved _ s Hs. by apply elem_of_nil in Hs. }
  rewrite EnrollStudents_cons in Hrun.
  apply bind_inv in Hrun as [(o & w1 & Ho & Hk)|(e & Ho & ->)];
    apply enrol_one_effect in Ho as [He1 Hin]; [|done| |done].
  - apply bind_inv in Hk as [(es & w2 & Hes & Hk)|(e & Hes & ->)]; apply IH in Hes as [He2 Hall].
    + unfold m_ret in Hk. simplify_eq. split; [by eapply (enrol_effect_trans _ [s])|].
      intros saved _ x [->|Hx]%elem_of_cons; [|by eapply Hall].
      eapply is_enrolled_subseteq; [apply He2|by eapply Hin].
    + split; [by eapply (enrol_effect_trans _ [s])|done].
  - split; [|done]. eapply (enrol_effect_trans _ [s]); [done|apply enrol_effect_refl].
Qed.

(** ** Attendance *)

Abbreviation att w := (db_attendances (lms_db w)).

(** [a] is the row of a submitted record: a new one gets an id, a blank status
    counts as present, the session is the one of the route. *)
Definition row_of_record (sid : string) (x a : Attendance) : Prop :=
  Attendance_SessionID a = sid ∧ Attendance_StudentID a = Attendance_StudentID x ∧
  Attendance_Status a = if_empty (Attendance_Status x) "PRESENT" ∧
  Attendance_Note a = Attendance_Note x ∧ Attendance_Locked a = Attendance_Locked x ∧
  (Attendance_ID x ≠ "" → Attendance_ID a = Attendance_ID x).

Lemma row_of_precreate sid i n x :
  row_of_record sid x (AttendancePreCreate i n (Attendance_with_session sid x)).
Proof. split_and!; try done. intros Hx. cbn. unfold if_empty. by destruct (decide _). Qed.

(** The store refuses a record, in the last step to [w'], with the error of [r]. *)
Definition refused (sid : string) (record : Attendance) (e : lmsError) (w' : W) : Prop :=
  ∃ wk, lms_db wk = lms_db w' ∧
    wrap (internal "app.lms.attendance.save.app_error")
      (db_save Attendance_table Attendances attendance_refs (Attendance_with_session sid record)) wk = (Err e, w').

(** How far the saving got: to the end, or to the record that is refused. *)
Definition got_to (sid : string) (records saved : list Attendance) (r : res lmsError (list Attendance)) (w' : W) : Prop :=
  match r with
  | Ok l => l = saved ∧ length saved = length records
  | Err e => ∃ record, records !! length saved = Some record ∧ refused sid record e w'
  end.

(** The rows that were written are those of the records in front, one each,
    filed under their ids. *)
Lemma save_attendance_inv sid records (w w' : W) r :
  save_attendance sid records w = (r, w') →
  ∃ saved, got_to sid records saved r w' ∧
    Forall2 (row_of_record sid) (take (length saved) records) saved ∧
    NoDup (Attendance_ID <$> saved) ∧ (∀ a, a ∈ saved → att w !! Attendance_ID a = None) ∧
    ∀ i a, att w' !! i = Some a ↔ att w !! i = Some a ∨ (a ∈ saved ∧ Attendance_ID a = i).
Proof.
  revert w w' r. induction records as [|x records IH]; intros w w' r Hrun.
  { unfold save_attendance, m_ret in Hrun. simplify_eq. exists [].
    split_and!; [done..|constructor|constructor|by intros ? ?%elem_of_nil|].
    intros i a. rewrite elem_of_nil. tauto. }
  simpl in Hrun. apply bind_inv in Hrun as [(y & w1 & Hs & Hk)|(e & Hs & ->)]; pose proof Hs as Hw;
    apply wrap_inv in Hs as (r0 & Hs & Hr0); apply db_save_inv in Hs; try apply _;
    destruct r0 as [y0|]; simplify_eq.
  - destruct Hs as (i0 & n0 & n & row & -> & Hnone & _ & [= <-] & Hdb).
    set (y := AttendancePreCreate i0 n (Attendance_with_session sid x)) in *.
    change (defaults Attendance_table (preCreate Attendance_table i0 n0 n
              (Attendance_with_session sid x))) with y in *.
    assert (row_of_record sid x y) as Hy by apply row_of_precreate.
    change (att w !! Attendance_ID y = None) in Hnone.
    assert (att w1 = <[Attendance_ID y := y]> (att w)) as Hw1 by (rewrite Hdb; by destruct (lms_db w)).
    assert (∃ saved, got_to sid (x :: records) (y :: saved) r w' ∧
      Forall2 (row_of_record sid) (take (length saved) records) saved ∧
      NoDup (Attendance_ID <$> saved) ∧ (∀ a, a ∈ saved → att w1 !! Attendance_ID a = None) ∧
      ∀ i a, att w' !! i = Some a ↔ att w1 !! i = Some a ∨ (a ∈ saved ∧ Attendance_ID a = i))
      as (saved & Hlen & Hof & Hnd & Hnew & Hlook).
    { apply bind_inv in Hk as [(l & w2 & Hl & Hk)|(e & Hl & ->)]; apply IH in Hl as (saved & Hlen & Hrest);
        exists saved; [|by split].
      cbv [m_ret] in Hk. simplify_eq. split; [|done]. destruct Hlen as [-> Hlen]. split; [done|]. cbn. congruence. }
    exists (y :: saved). rewrite Hw1 in Hlook, Hnew. cbn [length take fmap list_fmap].
    split_and!.
    + done.
    + by constructor.
    + constructor; [|done]. intros (a & Ha & Hin)%list_elem_of_fmap. specialize (Hnew _ Hin).
      by rewrite <-Ha, lookup_insert_eq in Hnew.
    + intros a [->|Ha]%elem_of_cons; [done|]. by apply Hnew, lookup_insert_None in Ha as [].
    + intros i a. rewrite Hlook, lookup_insert_Some, elem_of_cons. split.
      * intros [[[<- <-]|[_ ?]]|[? ?]]; auto.
      * intros [Hi|[[->|Hin] <-]]; [|by left; left|by right].
        left. right. split; [|done]. intros <-. congruence.
  - exists []. split_and!; [exists x; split; [done|by exists w]|constructor|constructor|by intros ? ?%elem_of_nil|].
    intros i a. rewrite Hs, elem_of_nil. tauto.
Qed.

(** The attendance table after a save that wrote [saved]. *)
Definition attendance_is (sid : string) (saved : list Attendance)
    (m m' : gmap string Attendance) : Prop :=
  ∀ i a, m' !! i = Some a ↔
    if in_session sid a then a ∈ saved ∧ Attendance_ID a = i else m !! i = Some a.

Lemma keep_lookup {X} (P : X → bool) (m : gmap string X) i x :
  keep P m !! i = Some x ↔ m !! i = Some x ∧ P x = true.
Proof. unfold keep. by rewrite map_lookup_filter_Some. Qed.

Lemma delete_attendance_inv sid (w w' : W) r :
  db_delete_all Attendances (in_session sid) w = (r, w') →
  match r with
  | Ok _ => ∀ i a, att w' !! i = Some a ↔ att w !! i = Some a ∧ in_session sid a = false
  | Err _ => lms_db w' = lms_db w
  end.
Proof.
  unfold db_delete_all, on_table. destruct (lms_fault _); intros [= <- <-]; cbn; [by destruct (lms_db w)|].
  destruct (lms_db w). intros i a. cbn. by rewrite keep_lookup, negb_true_iff.
Qed.

(** The rows of the session are the saved ones, the other rows as before. *)
Lemma attendance_replaced sid saved (m m1 m' : gmap string Attendance) :
  Forall (λ a, in_session sid a = true) saved →
  (∀ i a, m1 !! i = Some a ↔ m !! i = Some a ∧ in_session sid a = false) →
  (∀ i a, m' !! i = Some a ↔ m1 !! i = Some a ∨ (a ∈ saved ∧ Attendance_ID a = i)) →
  attendance_is sid saved m m'.
Proof.
  intros Hin Hd Hlook i x. rewrite Hlook, Hd. rewrite Forall_forall in Hin.
  destruct (in_session sid x) eqn:E; [split; [intros [[_ ?]|?]; [congruence|done]|by right]|].
  split; [intros [[? ?]|[Hx _]]; [done|]|tauto]. by rewrite (Hin _ Hx) in E.
Qed.

Lemma records_in_session sid records saved :
  Forall2 (row_of_record sid) records saved → Forall (λ a, in_session sid a = true) saved.
Proof. induction 1 as [|x a ? ? (Ha & _)]; constructor; [|done]. unfold in_session. by rewrite Ha, bool_decide_true. Qed.

(** C36: Saving the attendance of a session replaces it: afterwards the rows of
    the session are one row per submitted record, in that order, with the
    record's student, note and lock and its status or PRESENT for a blank one,
    each under an id of its own; all other rows are as they were.  It is not
    atomic: when it fails after the delete, the old list is gone and there is
    one such row for each of the records before the one the store refused,
    whose error is the answer. *)
Theorem SaveAttendance_replaces sid records (w w' : W) r :
  SaveAttendance sid records w = (r, w') →
  (∃ e, r = Err e ∧ lms_db w' = lms_db w) ∨
  ∃ saved, got_to sid records saved r w' ∧
    Forall2 (row_of_record sid) (take (length saved) records) saved ∧
    NoDup (Attendance_ID <$> saved) ∧ attendance_is sid saved (att w) (att w').
Proof.
  intros Hrun. unfold SaveAttendance in Hrun.
  apply bind_inv in Hrun as [(u & w1 & Hd & Hk)|(e & Hd & ->)];
    apply wrap_inv in Hd as (r0 & Hd & Hr0); apply delete_attendance_inv in Hd;
    destruct r0; simplify_eq; [|left; eauto].
  right. apply save_attendance_inv in Hk as (saved & Hlen & Hof & Hnd & _ & Hlook).
  exists saved. split_and!; [done..|]. eapply attendance_replaced; [by eapply records_in_session|done..].
Qed.
End props.

(** ** Witnesses *)

#[local] Existing Instance cents.
#[local] Instance no_unicode : UnicodeTables := λ _, false.

Definition letter (n : nat) : string := String (Ascii.ascii_of_nat (97 + n)%nat) "".

(** Clock and ids that count; [fault] is the list of refused statements. *)
Definition counting (fault : nat → bool) : LmsEnv := {|
  lms_clock := λ n, Z.of_nat n;
  lms_id := λ n, "abcdefghijklmnopqrstuvwxy" +:+ letter n;
  lms_fault := fault;
|}.

#[local] Instance quiet : LmsEnv := counting (λ _, false).

Definition a_class : Class :=
  {| Class_ID := "c1"; Class_CourseID := ""; Class_BranchID := ""; Class_Name := "Math"; Class_Code := "";
     Class_TeacherID := "t1"; Class_Status := "OPEN"; Class_Room := None; Class_StartDate := 0;
     Class_EndDate := None; Class_Createat := 0; Class_Updateat := 0; Class_ChatChannelID := "" |}.

Definition a_session : LMSSession :=
  {| LMSSession_ID := "s1"; LMSSession_Title := None; LMSSession_ClassID := "c1";
     LMSSession_StartTime := 0; LMSSession_EndTime := 1; LMSSession_Room := None;
     LMSSession_TeacherID := "t1"; LMSSession_LessonID := ""; LMSSession_Status := "PLANNED";
     LMSSession_Date := 0; LMSSession_Createat := 0; LMSSession_Updateat := 0 |}.

Definition present (id student : string) : Attendance :=
  {| Attendance_ID := id; Attendance_SessionID := "s1"; Attendance_StudentID := student;
     Attendance_Status := "PRESENT"; Attendance_Note := None; Attendance_Locked := false;
     Attendance_Createat := 0; Attendance_Updateat := 0 |}.

Definition w_school : lms_world Z :=
  LmsWorld (LmsDB _ {["c1" := a_class]} ∅ {["s1" := a_session]} {["a1" := present "a1" "ann"]}
              ∅ ∅ ∅ ∅ ∅ ∅ ∅ ∅ no_content) 0.

Abbreviation enrol_three := (EnrollStudents "c1" ["ann"; "bob"; "ann"] w_school).

Lemma EnrollStudents_unique_witness :
  size (db_enrolments (lms_db enrol_three.2)) = 2 ∧ enrolled_once (db_enrolments (lms_db enrol_three.2)) ∧
  is_enrolled (db_enrolments (lms_db enrol_three.2)) "bob" "c1".
Proof.
  split; [vm_compute; reflexivity|].
  assert (∃ saved, enrol_three.1 = Ok saved) as [saved Hs] by (eexists; vm_compute; reflexivity).
  assert (∀ n, lms_fault n = false) as Hnf by (intros n; reflexivity).
  destruct (EnrollStudents_unique "c1" ["ann"; "bob"; "ann"] w_school enrol_three.2 enrol_three.1
              Hnf (surjective_pairing _)) as (Honce & _ & _ & Hin).
  split.
  - apply Honce. intros i j a b Hi. discriminate.
  - apply (Hin saved Hs). right. left.
Defined.

Abbreviation save_two := (SaveAttendance "s1" [present "" "bob"; present "" "eve"] w_school).

Lemma SaveAttendance_replaces_witness :
  ∃ bob eve, db_attendances (lms_db save_two.2) = {[Attendance_ID bob := bob; Attendance_ID eve := eve]} ∧
    row_of_record "s1" (present "" "bob") bob ∧ row_of_record "s1" (present "" "eve") eve.
Proof.
  assert (∃ bob eve, save_two.1 = Ok [bob; eve] ∧
    db_attendances (lms_db save_two.2) = {[Attendance_ID bob := bob; Attendance_ID eve := eve]}) as (bob & eve & Hs & Hm)
    by (do 2 eexists; split; vm_compute; reflexivity).
  exists bob, eve. split; [exact Hm|].
  destruct (SaveAttendance_replaces "s1" [present "" "bob"; present "" "eve"] w_school save_two.2
              save_two.1 (surjective_pairing _)) as [(e & He & _)|(saved & Hlen & Hof & _)]; rewrite Hs in *; [discriminate|].
  destruct Hlen as [<- _]. inversion Hof as [|? ? ? ? H1 H2]; subst. inversion H2; subst. split; assumption.
Defined.

(** One failing read is enough for a second enrolment: the error of
    GetExisting is taken for "not enrolled". *)
Definition enrol_under (env : LmsEnv) (classID studentID : string) (w : lms_world Z) : lms_world Z :=
  (EnrollStudent classID studentID w).2.

Definition flaky : LmsEnv := counting (λ n, bool_decide (n = 6)).

Example enroll_fails_open :
  (StudentClass_StudentID <$>
    (map_to_list (db_enrolments (lms_db (enrol_under flaky "c1" "ann"
       (enrol_under flaky "c1" "ann" w_school))))).*2) = ["ann"; "ann"].
Proof. vm_compute. reflexivity. Qed.

(** A resubmission rewrites the whole row: the teacher's feedback and the time
    of the first submission go. *)
Definition a_submission (feedback : option string) : Submission :=
  {| Submission_ID := ""; Submission_Title := "answer"; Submission_StudentID := "";
     Submission_HomeworkID := ""; Submission_Description := None; Submission_FileID := "f1";
     Submission_Feedback := feedback; Submission_Createat := 0; Submission_Updateat := 0 |}.

Definition a_homework : Homework :=
  {| Homework_ID := "h1"; Homework_Title := "t"; Homework_Description := None; Homework_SessionID := "s1";
     Homework_ClassID := "c1"; Homework_CourseID := "k"; Homework_TeacherID := "t1"; Homework_Deadline := 0;
     Homework_Createat := 0; Homework_FileID := ""; Homework_Updateat := 0 |}.

Definition a_course : Course Z :=
  {| Course_ID := "k"; Course_Name := "Math"; Course_Code := "M"; Course_Level := None; Course_AgeRange := None;
     Course_TotalSessions := 24; Course_DurationPerSession := 60; Course_Fee := None; Course_Description := None;
     Course_Curriculum := None; Course_Createat := 0; Course_Updateat := 0 |}.

Definition offered : contentDB Z := ContentDB _ ∅ {["k" := a_course]} ∅ ∅ ∅ ∅ ∅ ∅ ∅ ∅ ∅ ∅.

Definition w_homework : lms_world Z :=
  LmsWorld (LmsDB _ {["c1" := a_class]} ∅ {["s1" := a_session]} ∅ ∅ ∅ ∅ ∅ {["h1" := a_homework]} ∅ ∅ ∅ offered) 1.

(** Neither the homework of a submission nor its class can be deleted: the
    key of the submission is to become NULL, which its column does not
    allow. *)
Definition submitted : lms_world Z :=
  (UpsertHomeworkSubmission "h1" "ann" (a_submission None) w_homework).2.

Example submitted_homework_stays :
  (DeleteHomework "h1" submitted).1 =
    Err (LmsError "app.lms.homework.delete.app_error" 500 (Some (ErrDatabase "failed to delete"))) ∧
  (DeleteClass "c1" submitted).1 =
    Err (LmsError "app.lms.class.delete.app_error" 500 (Some (ErrDatabase "failed to delete"))) ∧
  size (db_submissions (lms_db submitted)) = 1 ∧ (DeleteClass "c1" w_homework).1 = Ok tt.
Proof. vm_compute. split_and!; reflexivity. Qed.

Example resubmission_drops_feedback :
  let w := (UpsertHomeworkSubmission "h1" "ann" (a_submission (Some "well done")) w_homework).2 in
  let w' := (UpsertHomeworkSubmission "h1" "ann" (a_submission None) w).2 in
  ((λ s, (Submission_Feedback s, Submission_Createat s)) <$>
     (map_to_list (db_submissions (lms_db w))).*2,
   (λ s, (Submission_Feedback s, Submission_Createat s)) <$>
     (map_to_list (db_submissions (lms_db w'))).*2) =
  ([(Some "well done", 5%Z)], [(None, 0%Z)]).
Proof. vm_compute. reflexivity. Qed.

(** A bulk assignment creates one homework per student, all alike: the student
    ids are not stored. *)
Example bulk_assign_forgets_students :
  let w := (BulkAssignHomework (homework_clone a_homework) ["ann"; "bob"] w_homework).2 in
  (Homework_Title <$> (map_to_list (delete "h1" (db_homeworks (lms_db w)))).*2) = ["t"; "t"].
Proof. vm_compute. reflexivity. Qed.
