(* ===== verification/LmsRoutes.v ===== *)
(** * The routes over the learning system's own tables (api4/lms_api)

    branch.go, course.go, session.go, fee_package.go, tuition.go, payment.go,
    post.go, homework.go, weekly_review.go, task.go, banner.go,
    notification.go, material.go and class_media.go, one definition per
    handler, and the lists of class.go and lead.go.  [may] is the permission of
    the session; a body is [None] when it is not JSON of the expected shape.
    The JSON body null, on which most handlers dereference a nil pointer, is
    left out.  The file store behind class media is the parameter [FileStore]. *)

From S2P Require Import Prelude.
From S2P Require Import GoUtf8.
From S2P Require Import LmsModel.
From S2P Require Import CallStore.
From S2P Require Import LmsStore.
From S2P Require Import LmsTables.
From S2P Require Import LmsApp.
From S2P Require Import LmsColumns.
From S2P Require Import LmsQuery.
From S2P Require Import LmsContent.
From S2P Require Import LmsSchedule.
From S2P Require Import LmsTuition.
From S2P Require Import LmsClass.

Local Open Scope string_scope.
Local Open Scope go_scope.

Definition PayloadParseError : string := "api.payload.parse.error".

(** GetFileInfo: when the file was deleted and where its bytes are; FileReader:
    the bytes. *)
Class FileStore := {
  GetFileInfo : nat → string → res lmsError (Z * string);
  FileReader : nat → string → res lmsError string;
}.

(** Decoding of a body: [error] is the id of the 400. *)
Definition with_body {S A B} (error : string) (b : option B) (k : B → M S lmsError A) : M S lmsError A :=
  match b with None => m_throw (LmsError error 400 None) | Some x => k x end.

Section routes.
Context `{UnicodeTables} `{Decimal D} `{LmsEnv} `{GoRange} `{QmHelper} `{Collation} `{FileStore}.
Context (teacherDisplayName : string → string).

Abbreviation LM := (M (lms_world D) lmsError).

(** A list of all rows, with its length. *)
Definition counted {X} (m : LM (list X)) : LM (list X * Z) :=
  l <- m ;; m_ret (l, Z.of_nat (length l)).

(** ** branch.go *)

Definition getBranches `{Engine D Branch} (may : bool) (opts : option SearchOpts) : LM (list Branch * Z) :=
  guarded may (with_body "api.lms.branch.get_body.app_error" opts GetBranches).
Definition createBranch (may : bool) (b : option Branch) : LM Branch :=
  guarded may (with_body "api.lms.branch.create_body.app_error" b CreateBranch).

(** ** course.go: the list asks for no permission *)

Definition getCourses : LM (list (Course D) * Z) := counted GetCourses.
Definition createCourse (may : bool) (b : option (Course D)) : LM (Course D) :=
  guarded may (with_body "api.lms.course.create_body.app_error" b CreateCourse).
Definition getCourse (may : bool) (id : string) : LM (Course D) := guarded may (require_id id (GetCourse id)).
Definition updateCourse (may : bool) (id : string) (b : option (Course D)) : LM (Course D) :=
  guarded may (require_id id (with_body "api.lms.course.update_body.app_error" b (UpdateCourse id))).
Definition deleteCourse (may : bool) (id : string) : LM unit := guarded may (require_id id (DeleteCourse id)).

(** ** session.go *)

Definition getSessions `{Engine D LMSSession} (may : bool) (opts : option SearchOpts) : LM (list LMSSession * Z) :=
  guarded may (with_body PayloadParseError opts GetSessions).

(** The status, and the sessions or the conflicts of a 409. *)
Definition session_answer {X} (status : Z) (r : X * list SessionConflict) : Z * (X + list SessionConflict) :=
  match r.2 with [] => (status, inl r.1) | conflicts => (409%Z, inr conflicts) end.

(** The session of the body may be missing. *)
Definition createSession (may : bool) (b : option (option LMSSession * string * bool))
    : LM (Z * (list LMSSession + list SessionConflict)) :=
  guarded may (with_body "api.lms.session.create_body.app_error" b (λ '(session, repeatUntil, force),
    match session with
    | None => m_throw (LmsError "api.lms.session.create_body.app_error" 400 None)
    | Some _ =>
        r <- CreateSessionsWithRepeat teacherDisplayName session repeatUntil force ;; m_ret (session_answer 201 r)
    end)).
Definition getSession (may : bool) (id : string) : LM LMSSession := guarded may (require_id id (GetSession id)).
Definition updateSession (may : bool) (id : string) (b : option (option LMSSession * bool))
    : LM (Z * (option LMSSession + list SessionConflict)) :=
  guarded may (require_id id (with_body "api.lms.session.update_body.app_error" b (λ '(session, force),
    match session with
    | None => m_throw (LmsError "api.lms.session.update_body.app_error" 400 None)
    | Some _ => r <- UpdateSession teacherDisplayName id session force ;; m_ret (session_answer 200 r)
    end))).
Definition deleteSession (may : bool) (id : string) : LM unit := guarded may (require_id id (DeleteSession id)).
Definition getAttendance (may : bool) (id : string) : LM (list Attendance) :=
  guarded may (require_id id (GetAttendance id)).
Definition saveAttendance (may : bool) (id : string) (b : option (list Attendance)) : LM (list Attendance) :=
  guarded may (require_id id (with_body "api.lms.session.attendance_body.app_error" b (SaveAttendance id))).

(** ** fee_package.go *)

Definition getFeePackages `{Engine D (FeePackage D)} (may : bool) (opts : option SearchOpts)
    : LM (list (FeePackage D) * Z) :=
  guarded may (with_body PayloadParseError opts GetFeePackages).
Definition createFeePackage (may : bool) (b : option (FeePackage D)) : LM (FeePackage D) :=
  guarded may (with_body "api.lms.fee_package.create_body.app_error" b CreateFeePackage).

(** ** tuition.go, payment.go *)

Definition getTuitions `{Engine D (Tuition D)} (may : bool) (opts : option TuitionFilterOpts)
    : LM (list (Tuition D) * Z) :=
  guarded may (with_body PayloadParseError opts GetTuitions).
Definition createTuition (may : bool) (b : option (Tuition D)) : LM (Tuition D) :=
  guarded may (with_body "api.lms.tuition.create_body.app_error" b CreateTuition).
Definition getTuition (may : bool) (id : string) : LM (Tuition D) := guarded may (require_id id (GetTuition id)).
Definition updateTuition (may : bool) (id : string) (b : option (Tuition D)) : LM (Tuition D) :=
  guarded may (require_id id (with_body "api.lms.tuition.update_body.app_error" b (UpdateTuition id))).
Definition deleteTuition (may : bool) (id : string) : LM unit := guarded may (require_id id (DeleteTuition id)).
Definition getTuitionPayments (may : bool) (id : string) : LM (list (Payment D)) :=
  guarded may (require_id id (GetTuitionPayments id)).

Definition Payment_with_tuition (id : string) (p : Payment D) : Payment D :=
  {| Payment_ID := Payment_ID p; Payment_TuitionID := id; Payment_Amount := Payment_Amount p;
     Payment_PaymentDate := Payment_PaymentDate p; Payment_Method := Payment_Method p;
     Payment_ReceiptNumber := Payment_ReceiptNumber p; Payment_PaidByID := Payment_PaidByID p;
     Payment_Note := Payment_Note p; Payment_Createat := Payment_Createat p; Payment_Updateat := Payment_Updateat p |}.

Definition createTuitionPayment (may : bool) (id : string) (b : option (Payment D)) : LM (Payment D) :=
  guarded may (require_id id (with_body "api.lms.tuition.payment_body.app_error" b (λ p,
    CreatePayment (Payment_with_tuition id p)))).
Definition getPayments `{Engine D (Payment D)} (may : bool) (opts : option SearchOpts) : LM (list (Payment D) * Z) :=
  guarded may (with_body PayloadParseError opts GetPayments).

(** ** post.go: the list of categories leaves its count at zero *)

Definition getPostCategories (may : bool) : LM (list PostCategory * Z) :=
  guarded may (l <- GetPostCategories ;; m_ret (l, 0%Z)).
Definition createPostCategory (may : bool) (b : option PostCategory) : LM PostCategory :=
  guarded may (with_body "api.lms.post.category_body.app_error" b CreatePostCategory).
Definition updatePostCategory (may : bool) (id : string) (b : option PostCategory) : LM PostCategory :=
  guarded may (require_id id (with_body "api.lms.post.category_body.app_error" b (UpdatePostCategory id))).
Definition deletePostCategory (may : bool) (id : string) : LM unit :=
  guarded may (require_id id (DeletePostCategory id)).
Definition getPosts `{Engine D BlogPost} (may : bool) (opts : option SearchOpts) : LM (list BlogPost * Z) :=
  guarded may (with_body PayloadParseError opts GetPosts).
Definition createPost (may : bool) (b : option BlogPost) : LM BlogPost :=
  guarded may (with_body "api.lms.post.create_body.app_error" b CreatePost).
Definition getPost (may : bool) (id : string) : LM BlogPost := guarded may (require_id id (GetPost id)).
Definition updatePost (may : bool) (id : string) (b : option BlogPost) : LM BlogPost :=
  guarded may (require_id id (with_body "api.lms.post.update_body.app_error" b (UpdatePost id))).
Definition deletePost (may : bool) (id : string) : LM unit := guarded may (require_id id (DeletePost id)).

(** ** homework.go *)

Definition getHomeworks `{Engine D Homework} (may : bool) (opts : option SearchOpts) : LM (list Homework * Z) :=
  guarded may (with_body PayloadParseError opts GetHomework).
Definition createHomework (may : bool) (b : option Homework) : LM Homework :=
  guarded may (with_body "api.lms.create_homework.bad_body.app_error" b CreateHomework).
Definition getHomework (may : bool) (id : string) : LM Homework := guarded may (require_id id (GetHomeworkByID id)).
Definition updateHomework (may : bool) (id : string) (b : option Homework) : LM Homework :=
  guarded may (require_id id (with_body "api.lms.update_homework.bad_body.app_error" b (UpdateHomework id))).
Definition deleteHomework (may : bool) (id : string) : LM unit := guarded may (require_id id (DeleteHomework id)).
Definition getHomeworkSubmissions (may : bool) (id : string) : LM (list Submission) :=
  guarded may (require_id id (GetHomeworkSubmissions id)).
Definition upsertHomeworkSubmission (may : bool) (id : string) (b : option Submission) : LM Submission :=
  guarded may (require_id id (with_body "api.lms.upsert_homework_submission.bad_body.app_error" b (λ s,
    UpsertHomeworkSubmission id (Submission_StudentID s) s))).
Definition bulkAssignHomework (may : bool) (b : option (Homework * list string)) : LM Z :=
  guarded may (with_body "api.lms.bulk_assign_homework.bad_body.app_error" b (λ '(h, studentIDs),
    r <- BulkAssignHomework h studentIDs ;;
    match r.2 with Some e => m_throw e | None => m_ret r.1 end)).

(** ** weekly_review.go *)

Definition getWeeklyReviews `{Engine D WeeklyReview} (may : bool) (opts : option SearchOpts)
    : LM (list WeeklyReview * Z) :=
  guarded may (with_body PayloadParseError opts GetWeeklyReviews).
Definition createWeeklyReview (may : bool) (b : option WeeklyReview) : LM WeeklyReview :=
  guarded may (with_body "api.lms.create_weekly_review.bad_body.app_error" b CreateWeeklyReview).
Definition getWeeklyReview (may : bool) (id : string) : LM WeeklyReview :=
  guarded may (require_id id (GetWeeklyReview id)).
Definition updateWeeklyReview (may : bool) (id : string) (b : option WeeklyReview) : LM WeeklyReview :=
  guarded may (require_id id (with_body "api.lms.update_weekly_review.bad_body.app_error" b (UpdateWeeklyReview id))).
Definition deleteWeeklyReview (may : bool) (id : string) : LM unit :=
  guarded may (require_id id (DeleteWeeklyReview id)).

(** ** task.go *)

Definition getTasks `{Engine D Task} (may : bool) (opts : option SearchOpts) : LM (list Task * Z) :=
  guarded may (with_body PayloadParseError opts GetTasks).
Definition createTask (may : bool) (b : option Task) : LM Task :=
  guarded may (with_body "api.lms.create_task.bad_body.app_error" b CreateTask).
Definition getTask (may : bool) (id : string) : LM Task := guarded may (require_id id (GetTask id)).
Definition updateTask (may : bool) (id : string) (b : option Task) : LM Task :=
  guarded may (require_id id (with_body "api.lms.update_task.bad_body.app_error" b (UpdateTask id))).
Definition deleteTask (may : bool) (id : string) : LM unit := guarded may (require_id id (DeleteTask id)).

(** ** banner.go *)

Definition getBanners (may : bool) : LM (list Banner * Z) := guarded may (counted GetBanners).
Definition createBanner (may : bool) (b : option Banner) : LM Banner :=
  guarded may (with_body "api.lms.banner.create_body.app_error" b CreateBanner).
Definition getBanner (may : bool) (id : string) : LM Banner := guarded may (require_id id (GetBanner id)).
Definition updateBanner (may : bool) (id : string) (b : option Banner) : LM Banner :=
  guarded may (require_id id (with_body "api.lms.banner.update_body.app_error" b (UpdateBanner id))).
Definition deleteBanner (may : bool) (id : string) : LM unit := guarded may (require_id id (DeleteBanner id)).

(** ** notification.go *)

Definition getNotifications (may : bool) (self : string) : LM (list Notification * Z) :=
  guarded may (GetNotifications self).
Definition markNotificationAsRead (may : bool) (id : string) : LM unit :=
  guarded may (require_id id (MarkNotificationAsRead id)).

(** ** material.go *)

Definition getMaterials `{Engine D Material} (may : bool) (opts : option SearchOpts) : LM (list Material * Z) :=
  guarded may (with_body PayloadParseError opts GetMaterials).
Definition createMaterial (may : bool) (b : option Material) : LM Material :=
  guarded may (with_body "api.lms.create_material.bad_body.app_error" b CreateMaterial).
Definition getMaterial (may : bool) (id : string) : LM Material := guarded may (require_id id (GetMaterial id)).
Definition updateMaterial (may : bool) (id : string) (b : option Material) : LM Material :=
  guarded may (require_id id (with_body "api.lms.update_material.bad_body.app_error" b (UpdateMaterial id))).
Definition deleteMaterial (may : bool) (id : string) : LM unit := guarded may (require_id id (DeleteMaterial id)).

(** ** class_media.go *)

Definition getClassMedia `{Engine D ClassMedia} (may : bool) (opts : option SearchOpts) : LM (list ClassMedia * Z) :=
  guarded may (with_body "api.lms.get_class_media.bad_body.app_error" opts GetClassMedia).
Definition createClassMedia (may : bool) (b : option ClassMedia) : LM ClassMedia :=
  guarded may (with_body "api.lms.create_class_media.bad_body.app_error" b CreateClassMedia).
Definition deleteClassMedia (may : bool) (id : string) : LM unit :=
  guarded may (require_id id (DeleteClassMedia id)).

(** Something outside the database is asked. *)
Definition ask_files {A} (f : nat → res lmsError A) : LM A :=
  r <- m_gets (λ w, f (lms_ticks w)) ;; match r with Ok a => m_ret a | Err e => m_throw e end.

Definition with_404 (e : lmsError) : lmsError := LmsError (le_id e) 404 (le_cause e).

(** The bytes of a file that some class media row names. *)
Definition getLmsMediaFile (may : bool) (file_id : string) : LM string :=
  guarded may (require_id file_id (
    GetClassMediaByFileID file_id ;;;
    info <- ask_files (λ n, GetFileInfo n file_id) ;;
    if decide (info.1 ≠ 0%Z) then m_throw (LmsError "app.file_info.get.app_error" 404 None)
    else ask_files (λ n, match FileReader n info.2 with Ok s => Ok s | Err e => Err (with_404 e) end))).

(** ** The lists of class.go and lead.go: the classes ask for no permission *)

Definition getClasses `{Engine D Class} (opts : option ClassFilterOpts) : LM (list Class * Z) :=
  with_body PayloadParseError opts GetClasses.
Definition getLeads `{Engine D Lead} (may : bool) (opts : option LeadFilterOpts) : LM (list Lead * Z) :=
  guarded may (with_body PayloadParseError opts GetLeads).
End routes.
