(* ===== verification/LmsChat.v ===== *)
(** * Class chat channels (server/channels/app/lms/chat.go and the class
    routes of server/channels/api4/lms_api/class.go)

    A class owns a private channel of the chat platform.  The platform is the
    class [ChatPlatform]: the operations chat.go calls, with the membership of
    a channel as the abstract state its laws ([ChatPlatformOk]) speak about.
    The routes compose these operations with those of [LmsClass]. *)

From Stdlib Require Import Ascii.
From S2P Require Import Prelude.
From S2P Require Import GoString.
From S2P Require Import GoUtf8.
From S2P Require Import LmsModel.
From S2P Require Import CallStore.
From S2P Require Import LmsStore.
From S2P Require Import LmsTables.
From S2P Require Import LmsApp.
From S2P Require Import LmsClass.

Local Open Scope string_scope.
Local Open Scope go_scope.

Definition TeachingTeamName : string := "teaching".
Definition OperationsTeamName : string := "operations".
Definition ClassChannelPrefix : string := "class-".

(** The statuses that mark a class as finished. *)
Definition ClosedClassStatuses (status : string) : bool :=
  bool_decide (status = "CLOSED") || bool_decide (status = "CANCELLED").

(** ** Channel names *)

(** [strings.ToLower] followed by the map to [a-z0-9-_]: of the runes above
    ASCII only the dotted capital I and the Kelvin sign have an ASCII lower
    case, every other one becomes a hyphen. *)
Definition name_rune (r : Z) : ascii :=
  if within_z 65 90 r then chr (Z.to_N (r + 32))
  else if within_z 97 122 r || within_z 48 57 r then chr (Z.to_N r)
  else if bool_decide (r = 45%Z) || bool_decide (r = 95%Z) then chr (Z.to_N r)
  else if bool_decide (r = 304%Z) then "i"%char
  else if bool_decide (r = 8490%Z) then "k"%char
  else "-"%char.

Definition of_chars (l : list ascii) : string := foldr String EmptyString l.

Definition classChannelName (code : string) : string :=
  ClassChannelPrefix +:+ of_chars (name_rune <$> runes code).

(** ** The chat platform *)

Record Team := { tm_Id : string; tm_Name : string; tm_DisplayName : string; tm_Type : string }.

Record Channel := {
  ch_Id : string; ch_TeamId : string; ch_Name : string; ch_DisplayName : string;
  ch_Type : string; ch_DeleteAt : Z;
}.

(** [None] as an error is success. *)
Class ChatPlatform (P : Type) := {
  GetTeamByName : P → string → res lmsError Team;
  CreateTeam : P → Team → res lmsError Team * P;
  (** the first [n] users with an LMS admin role, of a team or of all *)
  GetAdmins : P → option string → nat → res lmsError (list string);
  AddUserToTeam : P → string → string → option lmsError * P;
  GetChannel : P → string → res lmsError Channel;
  CreateChannel : P → Channel → res lmsError Channel * P;
  GetChannelByName : P → string → string → res lmsError Channel;
  AddChannelMember : P → string → Channel → option lmsError * P;
  GetChannelMembersPage : P → string → nat → nat → res lmsError (list string);
  RemoveUserFromChannel : P → string → string → Channel → option lmsError * P;
  PermanentDeleteChannel : P → Channel → option lmsError * P;
  chan_members : P → string → gset string;
}.

Class ChatPlatformOk (P : Type) `{ChatPlatform P} := {
  add_member_ok : ∀ p u ch id,
    chan_members (AddChannelMember p u ch).2 id =
      if decide (id = ch_Id ch ∧ (AddChannelMember p u ch).1 = None)
      then {[u]} ∪ chan_members p id else chan_members p id;
  remove_member_ok : ∀ p u by_ ch id,
    chan_members (RemoveUserFromChannel p u by_ ch).2 id =
      if decide (id = ch_Id ch ∧ (RemoveUserFromChannel p u by_ ch).1 = None)
      then chan_members p id ∖ {[u]} else chan_members p id;
  members_page_ok : ∀ p id n l, GetChannelMembersPage p id 0 n = Ok l →
    list_to_set l ⊆ chan_members p id ∧
    ((size (chan_members p id) ≤ n)%nat → chan_members p id ⊆ list_to_set l);
}.

(** The two worlds an operation may change. *)
Record chat_world (D P : Type) := ChatWorld { cw_lms : lms_world D; cw_chat : P }.
Arguments ChatWorld {D P} _ _.
Arguments cw_lms {D P} _.
Arguments cw_chat {D P} _.

Section chat.
Context `{UnicodeTables} `{Decimal D} `{LmsEnv} `{GoRange} `{ChatPlatform P}.

Abbreviation CHM := (M (chat_world D P) lmsError).

(** An operation of the LMS app, or of the platform. *)
Definition lms {A} (m : M (lms_world D) lmsError A) : CHM A := λ w,
  let '(r, l) := m (cw_lms w) in (r, ChatWorld l (cw_chat w)).
Definition ask_chat {A} (f : P → res lmsError A) : CHM A := λ w, (f (cw_chat w), w).
Definition do_chat {A} (f : P → res lmsError A * P) : CHM A := λ w,
  let '(r, p) := f (cw_chat w) in (r, ChatWorld (cw_lms w) p).
Definition on_chat (f : P → P) : CHM unit := m_modify (λ w, ChatWorld (cw_lms w) (f (cw_chat w))).

(** ** Teams *)

Definition addAdminsToTeam (teamID : string) : CHM unit :=
  existing <- m_try (ask_chat (λ p, GetAdmins p (Some teamID) 100)) ;;
  match existing with
  | Ok [] =>
      admins <- m_try (ask_chat (λ p, GetAdmins p None 200)) ;;
      match admins with
      | Ok l => m_for l (λ admin, on_chat (λ p, (AddUserToTeam p teamID admin).2))
      | Err _ => m_ret tt
      end
  | _ => m_ret tt
  end.

Definition ensureTeam (name displayName : string) (addAdmins : bool) : CHM string :=
  found <- m_try (ask_chat (λ p, GetTeamByName p name)) ;;
  match found with
  | Ok team =>
      (if addAdmins then addAdminsToTeam (tm_Id team) else m_ret tt) ;;; m_ret (tm_Id team)
  | Err e =>
      if negb (bool_decide (le_status e = 404%Z)) then m_throw e
      else
      created <- do_chat (λ p, CreateTeam p
        {| tm_Id := ""; tm_Name := name; tm_DisplayName := displayName; tm_Type := "I" |}) ;;
      (if addAdmins then addAdminsToTeam (tm_Id created) else m_ret tt) ;;; m_ret (tm_Id created)
  end.

Definition EnsureTeachingTeams : CHM (string * string) :=
  teaching <- ensureTeam TeachingTeamName "Giảng dạy" true ;;
  operations <- ensureTeam OperationsTeamName "Vận hành" false ;;
  m_ret (teaching, operations).

Definition adminUserIDs (teamID : string) : CHM (list string) :=
  admins <- m_try (ask_chat (λ p, GetAdmins p (Some teamID) 200)) ;;
  m_ret match admins with Ok l => l | Err _ => [] end.

(** ** Membership *)

(** The keys of [want]: the desired ids and the owner, without the empty id. *)
Definition wanted (desiredIDs : list string) (ownerID : string) : gmap string bool :=
  let want := foldl (λ m id, if decide (id ≠ "") then <[id := true]> m else m) ∅ desiredIDs in
  if decide (ownerID ≠ "") then <[ownerID := true]> want else want.

Definition add_members (ch : Channel) (ids : list string) (p : P) : P :=
  foldl (λ p id, (AddChannelMember p id ch).2) p ids.

Definition remove_unwanted (ch : Channel) (want : gmap string bool) (ownerID : string)
    (members : list string) (p : P) : P :=
  foldl (λ p u, if decide (want !! u = None) then (RemoveUserFromChannel p u ownerID ch).2 else p)
    p members.

Definition syncChannelMembership (ch : Channel) (desiredIDs : list string) (ownerID : string) : CHM unit :=
  let want := wanted desiredIDs ownerID in
  on_chat (add_members ch (go_range want).*1) ;;;
  members <- m_try (ask_chat (λ p, GetChannelMembersPage p (ch_Id ch) 0 500)) ;;
  match members with
  | Err _ => m_ret tt
  | Ok l => on_chat (remove_unwanted ch want ownerID l)
  end.

(** ** The channel of a class *)

Definition Class_with_channel (id : string) (c : Class) : Class :=
  {| Class_ID := Class_ID c; Class_CourseID := Class_CourseID c; Class_BranchID := Class_BranchID c;
     Class_Name := Class_Name c; Class_Code := Class_Code c; Class_TeacherID := Class_TeacherID c;
     Class_Status := Class_Status c; Class_Room := Class_Room c; Class_StartDate := Class_StartDate c;
     Class_EndDate := Class_EndDate c; Class_Createat := Class_Createat c;
     Class_Updateat := Class_Updateat c; Class_ChatChannelID := id |}.

(** The existing channel of the class, if it is linked and alive. *)
Definition linked_channel (c : Class) : CHM (option Channel) :=
  if decide (Class_ChatChannelID c = "") then m_ret None
  else
  ch <- m_try (ask_chat (λ p, GetChannel p (Class_ChatChannelID c))) ;;
  m_ret match ch with
        | Ok ch => if decide (ch_DeleteAt ch = 0%Z) then Some ch else None
        | Err _ => None
        end.

(** CreateChannel, or the channel that has the name already. *)
Definition create_or_reuse (channel : Channel) : CHM Channel :=
  created <- m_try (do_chat (λ p, CreateChannel p channel)) ;;
  match created with
  | Ok ch => m_ret ch
  | Err e =>
      existing <- m_try (ask_chat (λ p, GetChannelByName p (ch_Name channel) (ch_TeamId channel))) ;;
      match existing with Ok ch => m_ret ch | Err _ => m_throw e end
  end.

(** The channel, and the class object as the call leaves it: the source writes
    the channel id into the caller's object before it stores it.  (When the
    store refuses the row, the object's update time may differ.) *)
Definition EnsureClassChannel (c : Class) : CHM (Channel * Class) :=
  linked <- linked_channel c ;;
  match linked with
  | Some ch => m_ret (ch, c)
  | None =>
      teams <- EnsureTeachingTeams ;;
      created <- create_or_reuse
        {| ch_Id := ""; ch_TeamId := teams.1; ch_Name := classChannelName (Class_Code c);
           ch_DisplayName := if decide (Class_Name c = "") then Class_Code c else Class_Name c;
           ch_Type := "P"; ch_DeleteAt := 0 |} ;;
      admins <- adminUserIDs (ch_TeamId created) ;;
      syncChannelMembership created (Class_TeacherID c :: admins) (Class_TeacherID c) ;;;
      let c' := Class_with_channel (ch_Id created) c in
      stored <- m_try (lms (UpdateClass (Class_ID c) c')) ;;
      m_ret (created, match stored with Ok u => u | Err _ => c' end)
  end.

Definition SyncClassChannelMembership (c : Class) (studentUserIDs : list string) : CHM Class :=
  r <- EnsureClassChannel c ;;
  let '(channel, c') := r in
  admins <- adminUserIDs (ch_TeamId channel) ;;
  syncChannelMembership channel (Class_TeacherID c :: studentUserIDs ++ admins) (Class_TeacherID c) ;;;
  m_ret c'.

Definition clearChannelLink (c : Class) : CHM Class :=
  let c' := Class_with_channel "" c in
  stored <- m_try (lms (UpdateClass (Class_ID c) c')) ;;
  m_ret match stored with Ok u => u | Err _ => c' end.

Definition CloseClassChannel (c : Class) : CHM Class :=
  if decide (Class_ChatChannelID c = "") then m_ret c
  else
  channel <- m_try (ask_chat (λ p, GetChannel p (Class_ChatChannelID c))) ;;
  match channel with
  | Err _ => clearChannelLink c
  | Ok ch =>
      do_chat (λ p, let '(e, p') := PermanentDeleteChannel p ch in
        (match e with
         | None => Ok tt
         | Some e => Err (LmsError "app.lmschat.close.app_error" 500 (le_cause e))
         end, p')) ;;;
      clearChannelLink c
  end.

(** A chat call that may fail; the class object afterwards. *)
Definition chat_best_effort (c : Class) (m : CHM Class) : CHM Class :=
  r <- m_try m ;; m_ret match r with Ok c' => c' | Err _ => c end.

(** ** The routes (api4/lms_api/class.go)

    [may] is the manage-classes permission of the requester, and the bodies are
    decoded; a chat failure is logged and never fails a request. *)

Definition classStudentUserIDs (classID : string) : CHM (list string) :=
  enrolled <- m_try (lms (GetClassStudents classID)) ;;
  m_ret match enrolled with
        | Ok l => filter (λ id, id ≠ "") (StudentClass_StudentID <$> l)
        | Err _ => []
        end.

Definition createClass (may : bool) (c : Class) : CHM Class :=
  guarded may (
    created <- lms (CreateClass c) ;;
    chat_best_effort created (r <- EnsureClassChannel created ;; m_ret r.2)).

Definition sync_class (id : string) : CHM unit :=
  cls <- m_try (lms (GetClass id)) ;;
  match cls with
  | Ok c =>
      students <- classStudentUserIDs id ;;
      chat_best_effort c (SyncClassChannelMembership c students) ;;; m_ret tt
  | Err _ => m_ret tt
  end.

Definition updateClass (may : bool) (id : string) (c : Class) : CHM Class :=
  guarded may (require_id id (
    prior <- m_try (lms (GetClass id)) ;;
    let priorStatus := match prior with Ok p => Class_Status p | Err _ => "" end in
    updated <- lms (UpdateClass id c) ;;
    let nowFinished := ClosedClassStatuses (Class_Status updated) in
    let wasFinished := ClosedClassStatuses priorStatus in
    if nowFinished && negb (bool_decide (Class_ChatChannelID updated = "")) then
      chat_best_effort updated (CloseClassChannel updated)
    else if negb nowFinished && negb wasFinished then
      students <- classStudentUserIDs (Class_ID updated) ;;
      chat_best_effort updated (SyncClassChannelMembership updated students)
    else m_ret updated)).

Definition deleteClass (may : bool) (id : string) : CHM unit :=
  guarded may (require_id id (
    cls <- m_try (lms (GetClass id)) ;;
    match cls with
    | Ok c => chat_best_effort c (CloseClassChannel c) ;;; m_ret tt
    | Err _ => m_ret tt
    end ;;;
    lms (DeleteClass id))).

Definition enrollStudents (may : bool) (id : string) (studentIDs : list string)
    : CHM (list StudentClass) :=
  guarded may (require_id id (
    result <- lms (EnrollStudents id studentIDs) ;;
    sync_class id ;;;
    m_ret result)).

Definition unenrollStudent (may : bool) (id studentID : string) : CHM unit :=
  guarded may (require_id id (require_id studentID (
    lms (UnenrollStudent id studentID) ;;;
    sync_class id))).
End chat.
