(* ===== verification/LmsChatProps.v ===== *)
(** * Properties of the class chat channels

    Reconciling a channel gives it exactly the wanted members, as far as the
    platform cooperates.  Which channel that is, and which one the end of a
    class deletes, is less certain. *)

From S2P Require Import Prelude.
From S2P Require Import GoString.
From S2P Require Import GoUtf8.
From S2P Require Import LmsModel.
From S2P Require Import CallStore.
From S2P Require Import LmsStore.
From S2P Require Import LmsTables.
From S2P Require Import LmsApp.
From S2P Require Import LmsClass.
From S2P Require Import LmsChat.
From stdpp Require Import pretty.

Local Open Scope string_scope.
Local Open Scope go_scope.

Section props.
Context `{UnicodeTables} `{Decimal D} `{LmsEnv} `{GoRange} `{ChatPlatformOk P}.

Abbreviation CW := (chat_world D P).
Abbreviation members w id := (chan_members (cw_chat w) id).

(** ** Reconciling the members *)

(** Everybody the caller asks for, and the owner. *)
Definition wanted_set (desiredIDs : list string) (ownerID : string) : gset string :=
  list_to_set (filter (λ id, id ≠ "") (ownerID :: desiredIDs)).

Lemma wanted_fold_lookup l (m : gmap string bool) u :
  is_Some (foldl (λ m id, if decide (id ≠ "") then <[id := true]> m else m) m l !! u) ↔
    is_Some (m !! u) ∨ (u ≠ "" ∧ u ∈ l).
Proof.
  revert m. induction l as [|x l IH]; intros m; simpl; [rewrite elem_of_nil; tauto|].
  rewrite IH, elem_of_cons. destruct (decide (x ≠ "")) as [Hx|Hx].
  - rewrite lookup_insert_is_Some. destruct (decide (x = u)); naive_solver.
  - naive_solver.
Qed.

Lemma wanted_spec desired owner u :
  is_Some (wanted desired owner !! u) ↔ u ∈ wanted_set desired owner.
Proof.
  unfold wanted, wanted_set. rewrite elem_of_list_to_set, list_elem_of_filter, elem_of_cons.
  destruct (decide (owner ≠ "")) as [Ho|Ho].
  - rewrite lookup_insert_is_Some, wanted_fold_lookup, lookup_empty, is_Some_alt.
    destruct (decide (owner = u)); naive_solver.
  - rewrite wanted_fold_lookup, lookup_empty, is_Some_alt. naive_solver.
Qed.

Lemma elem_of_wanted_keys desired owner u :
  u ∈ (go_range (wanted desired owner)).*1 ↔ u ∈ wanted_set desired owner.
Proof.
  rewrite <-wanted_spec, list_elem_of_fmap. split.
  - intros ([k v] & -> & Hk%elem_of_go_range). by exists v.
  - intros [v Hv]. exists (u, v). by rewrite elem_of_go_range.
Qed.

Lemma add_members_spec ch ids p :
  (∀ id, id ≠ ch_Id ch → chan_members (add_members ch ids p) id = chan_members p id) ∧
  chan_members p (ch_Id ch) ⊆ chan_members (add_members ch ids p) (ch_Id ch) ∧
  (∀ u, u ∈ chan_members (add_members ch ids p) (ch_Id ch) → u ∈ chan_members p (ch_Id ch) ∨ u ∈ ids) ∧
  ((∀ q u, (AddChannelMember q u ch).1 = None) →
   ∀ u, u ∈ ids → u ∈ chan_members (add_members ch ids p) (ch_Id ch)).
Proof.
  revert p. induction ids as [|x ids IH]; intros p; simpl.
  { split_and!; [done|done|by left|]. intros _ u Hu. by apply elem_of_nil in Hu. }
  destruct (IH (AddChannelMember p x ch).2) as (A & B & C & E).
  pose proof (add_member_ok p x ch) as Hadd. split_and!.
  - intros id Hid. rewrite A by done. rewrite Hadd. by rewrite decide_False by naive_solver.
  - etrans; [|exact B]. rewrite Hadd. destruct (decide _); set_solver.
  - intros u [Hu|Hu]%C; [|right; by constructor]. rewrite Hadd in Hu.
    destruct (decide _); [|by left]. apply elem_of_union in Hu as [->%elem_of_singleton|Hu]; [|by left].
    right. constructor.
  - intros Hok u [->|Hu]%elem_of_cons; [|by apply E]. apply B. rewrite Hadd.
    rewrite decide_True by (by rewrite Hok). set_solver.
Qed.

Lemma remove_unwanted_spec ch want owner l p :
  (∀ id, id ≠ ch_Id ch → chan_members (remove_unwanted ch want owner l p) id = chan_members p id) ∧
  chan_members (remove_unwanted ch want owner l p) (ch_Id ch) ⊆ chan_members p (ch_Id ch) ∧
  (∀ u, is_Some (want !! u) → u ∈ chan_members p (ch_Id ch) →
     u ∈ chan_members (remove_unwanted ch want owner l p) (ch_Id ch)) ∧
  ((∀ q u b, (RemoveUserFromChannel q u b ch).1 = None) →
   ∀ u, u ∈ l → want !! u = None →
     u ∉ chan_members (remove_unwanted ch want owner l p) (ch_Id ch)).
Proof.
  revert p. induction l as [|x l IH]; intros p; simpl.
  { split_and!; try done. intros _ u Hu. by apply elem_of_nil in Hu. }
  pose proof (remove_member_ok p x owner ch) as Hrm.
  destruct (decide (want !! x = None)) as [Hx|Hx].
  - destruct (IH (RemoveUserFromChannel p x owner ch).2) as (A & B & C & E). split_and!.
    + intros id Hid. rewrite A by done. rewrite Hrm. by rewrite decide_False by naive_solver.
    + etrans; [exact B|]. rewrite Hrm. destruct (decide _); set_solver.
    + intros u Hu Hin. apply C; [done|]. rewrite Hrm. destruct (decide _); [|done].
      apply elem_of_difference. split; [done|]. intros ->%elem_of_singleton. by destruct Hu; simplify_eq.
    + intros Hok u [->|Hu]%elem_of_cons Hn; [|by apply E].
      intros Hin%B. rewrite Hrm, decide_True in Hin by (by rewrite Hok). set_solver.
  - destruct (IH p) as (A & B & C & E). split_and!; [done..|].
    intros Hok u [->|Hu]%elem_of_cons Hn; [done|by apply E].
Qed.

(** The platform accepts every change of this channel and lists its members. *)
Record reliable (ch : Channel) : Prop := {
  rel_add : ∀ p u, (AddChannelMember p u ch).1 = None;
  rel_remove : ∀ p u b, (RemoveUserFromChannel p u b ch).1 = None;
  rel_page : ∀ p n, ∃ l, GetChannelMembersPage p (ch_Id ch) 0 n = Ok l;
}.

(** Reconciling a class channel is exact when the platform accepts the
    changes and the channel has at most 500 members with the wanted ones:
    afterwards the members are the desired users and the owner, nobody else.
    Whatever the platform refuses, no wanted member is removed, nobody who was
    not asked for is added, no other channel changes, and the caller sees no
    error. *)
Theorem syncChannelMembership_exact ch desired owner (w w' : CW) r :
  syncChannelMembership ch desired owner w = (r, w') →
  let want := wanted_set desired owner in
  r = Ok tt ∧ cw_lms w' = cw_lms w ∧
  (∀ id, id ≠ ch_Id ch → members w' id = members w id) ∧
  (want ∩ members w (ch_Id ch) ⊆ members w' (ch_Id ch)) ∧
  (members w' (ch_Id ch) ⊆ members w (ch_Id ch) ∪ want) ∧
  (reliable ch → (size (members w (ch_Id ch) ∪ want) ≤ 500)%nat → members w' (ch_Id ch) = want).
Proof.
  intros Hrun want. subst want. set (want := wanted_set desired owner).
  unfold syncChannelMembership, on_chat, ask_chat, m_try, m_bind, m_modify in Hrun. simpl in Hrun.
  set (p1 := add_members _ _ _) in Hrun.
  destruct (add_members_spec ch (go_range (wanted desired owner)).*1 (cw_chat w)) as (A & B & C & E).
  fold p1 in A, B, C, E.
  assert (∀ u, u ∈ chan_members p1 (ch_Id ch) → u ∈ members w (ch_Id ch) ∪ want) as Hup.
  { intros u [Hu|Hu%elem_of_wanted_keys]%C; set_solver. }
  destruct (GetChannelMembersPage p1 (ch_Id ch) 0 500) as [l|e] eqn:Hpage; simpl in Hrun.
  - set (p2 := remove_unwanted _ _ _ _ _) in Hrun. injection Hrun as <- <-. simpl.
    destruct (remove_unwanted_spec ch (wanted desired owner) owner l p1) as (A2 & B2 & C2 & E2).
    fold p2 in A2, B2, C2, E2. split_and!; [done|done| | | |].
    + intros id Hid. by rewrite A2, A.
    + intros u [Hu Hin]%elem_of_intersection. apply C2; [by apply wanted_spec|by apply B].
    + intros u Hu. by apply Hup, B2.
    + intros [Ra Rr Rp] Hsz. apply set_eq. intros u. split.
      * intros Hu. destruct (wanted desired owner !! u) eqn:Hw; [by apply wanted_spec|].
        destruct (members_page_ok _ _ _ _ Hpage) as [_ Hall].
        exfalso. apply (E2 Rr u); [|done|done].
        rewrite <-(elem_of_list_to_set (C:=gset string)). apply Hall; [|by apply B2]. etrans; [|exact Hsz]. apply subseteq_size. exact Hup.
      * intros Hu. apply C2; [by apply wanted_spec|]. apply E; [done|by apply elem_of_wanted_keys].
  - injection Hrun as <- <-. simpl. split_and!; [done|done|done|set_solver|exact Hup|].
    intros [_ _ Rp]. destruct (Rp p1 500) as [l Hl]. congruence.
Qed.

(** ** Closing a class *)

Lemma lms_inv {A} (m : M (lms_world D) lmsError A) (w w' : CW) r :
  lms m w = (r, w') → m (cw_lms w) = (r, cw_lms w') ∧ cw_chat w' = cw_chat w.
Proof. unfold lms. destruct (m (cw_lms w)) as [r0 l]. by intros [= <- <-]. Qed.

Lemma frames_lms {A} (m : M (lms_world D) lmsError A) : frames (cw_chat (P:=P)) (lms m).
Proof. intros w. unfold lms. by destruct (m (cw_lms w)). Qed.

(** The row an update stores has the fields of the request. *)
Lemma UpdateClass_fields id c (w w' : lms_world D) u :
  UpdateClass id c w = (Ok u, w') →
  Class_Status u = Class_Status c ∧ Class_ChatChannelID u = Class_ChatChannelID c.
Proof.
  unfold UpdateClass. intros (r0 & Hu & Hr)%wrap_inv. apply db_update_inv in Hu; [|apply _].
  destruct r0; simplify_eq. destruct Hu as (_ & Hst & _). by injection Hst as <-.
Qed.

Lemma clearChannelLink_chat c : frames (cw_chat (P:=P)) (clearChannelLink (D:=D) c).
Proof. unfold clearChannelLink. pose proof @frames_lms. frames_tac; apply frames_lms. Qed.

Lemma CloseClassChannel_chat c ch (w : CW) :
  Class_ChatChannelID c ≠ "" → GetChannel (cw_chat w) (Class_ChatChannelID c) = Ok ch →
  cw_chat (CloseClassChannel c w).2 = (PermanentDeleteChannel (cw_chat w) ch).2.
Proof.
  intros Hne Hch. unfold CloseClassChannel. rewrite decide_False by done.
  unfold m_bind, m_try, ask_chat. rewrite Hch. unfold do_chat.
  destruct (PermanentDeleteChannel (cw_chat w) ch) as [[e|] p]; simpl; [done|].
  by rewrite clearChannelLink_chat.
Qed.

(** The end of a class deletes the channel the request names.  When an
    update to CLOSED succeeds, the channel of its chat_channel_id field is
    permanently deleted with all its messages, whichever channel that is; and
    when the field is empty, as in a form that does not send it, no channel is
    touched and the one of the class stays. *)
Theorem closing_deletes_named_channel may id c (w w' : CW) u :
  updateClass may id c w = (Ok u, w') → Class_Status c = "CLOSED" →
  (∀ ch, Class_ChatChannelID c ≠ "" → GetChannel (cw_chat w) (Class_ChatChannelID c) = Ok ch →
     cw_chat w' = (PermanentDeleteChannel (cw_chat w) ch).2) ∧
  (Class_ChatChannelID c = "" → cw_chat w' = cw_chat w).
Proof.
  unfold updateClass, guarded, require_id. intros Hrun Hcl.
  destruct may; [|done]. destruct (IsValidId id); [|done].
  apply bind_inv in Hrun as [(prior & w1 & Hp & Hrun)|(e & _ & [=])].
  pose proof (frames_try _ _ (frames_lms (GetClass id)) w) as Hf1. rewrite Hp in Hf1. simpl in Hf1.
  apply bind_inv in Hrun as [(u1 & w2 & Hu & Hrun)|(e & _ & [=])].
  apply lms_inv in Hu as [Hu Hf2]. apply UpdateClass_fields in Hu as [Hst Hid].
  rewrite Hst, Hcl in Hrun. change (ClosedClassStatuses "CLOSED") with true in Hrun.
  simpl in Hrun. rewrite Hid in Hrun. split.
  - intros ch Hne Hch. rewrite bool_decide_false in Hrun by done. simpl in Hrun.
    rewrite <-Hid in Hne, Hch. rewrite <-Hf1, <-Hf2 in Hch.
    pose proof (CloseClassChannel_chat u1 ch w2 Hne Hch) as Hdel.
    unfold chat_best_effort, m_bind, m_try in Hrun. destruct (CloseClassChannel u1 w2) as [r3 w4].
    unfold m_ret in Hrun. injection Hrun as _ <-. by rewrite <-Hf1, <-Hf2.
  - intros He. rewrite bool_decide_true in Hrun by done. simpl in Hrun.
    unfold m_ret in Hrun. injection Hrun as _ <-. by rewrite Hf2, Hf1.
Qed.
End props.

(** ** A small platform *)

Record demo_chat := DemoChat {
  dc_channels : gmap string Channel;
  dc_members : gmap string (gset string);
  dc_next : nat;
}.

Definition dc_of (p : demo_chat) (id : string) : gset string := default ∅ (dc_members p !! id).

Definition dc_named (p : demo_chat) (name team : string) : option Channel :=
  head (filter (λ ch, ch_Name ch = name ∧ ch_TeamId ch = team) (map_to_list (dc_channels p)).*2).

Definition dc_set_members (id : string) (s : gset string) (p : demo_chat) : demo_chat :=
  DemoChat (dc_channels p) (<[id := s]> (dc_members p)) (dc_next p).

Definition not_found : lmsError := LmsError "app.channel.get.existing.app_error" 404 None.

#[local] Instance demo_platform : ChatPlatform demo_chat := {|
  GetTeamByName _ name := Ok {| tm_Id := name; tm_Name := name; tm_DisplayName := name; tm_Type := "I" |};
  CreateTeam p t := (Ok t, p);
  GetAdmins _ _ _ := Ok ["adm"];
  AddUserToTeam p _ _ := (None, p);
  GetChannel p id := match dc_channels p !! id with Some ch => Ok ch | None => Err not_found end;
  CreateChannel p ch :=
    match dc_named p (ch_Name ch) (ch_TeamId ch) with
    | Some _ => (Err (LmsError "store.sql_channel.save_channel.exists.app_error" 400 None), p)
    | None =>
        let id := "chan" +:+ pretty (dc_next p) in
        let ch' := {| ch_Id := id; ch_TeamId := ch_TeamId ch; ch_Name := ch_Name ch;
                      ch_DisplayName := ch_DisplayName ch; ch_Type := ch_Type ch; ch_DeleteAt := 0 |} in
        (Ok ch', DemoChat (<[id := ch']> (dc_channels p)) (dc_members p) (S (dc_next p)))
    end;
  GetChannelByName p name team :=
    match dc_named p name team with Some ch => Ok ch | None => Err not_found end;
  AddChannelMember p u ch := (None, dc_set_members (ch_Id ch) ({[u]} ∪ dc_of p (ch_Id ch)) p);
  GetChannelMembersPage p id page n := Ok (take n (drop (page * n) (elements (dc_of p id))));
  RemoveUserFromChannel p u _ ch := (None, dc_set_members (ch_Id ch) (dc_of p (ch_Id ch) ∖ {[u]}) p);
  PermanentDeleteChannel p ch :=
    (None, DemoChat (delete (ch_Id ch) (dc_channels p)) (delete (ch_Id ch) (dc_members p)) (dc_next p));
  chan_members := dc_of;
|}.

Lemma dc_of_set p id s k : dc_of (dc_set_members id s p) k = if decide (k = id) then s else dc_of p k.
Proof.
  unfold dc_of, dc_set_members. simpl. destruct (decide (k = id)) as [->|Hne].
  - by rewrite lookup_insert_eq.
  - by rewrite lookup_insert_ne by done.
Qed.

#[local] Instance demo_platform_ok : ChatPlatformOk demo_chat.
Proof.
  split.
  - intros p u ch id. cbn. rewrite dc_of_set.
    destruct (decide (id = ch_Id ch)) as [->|Hne]; [by rewrite decide_True by done|].
    by rewrite decide_False by naive_solver.
  - intros p u b ch id. cbn. rewrite dc_of_set.
    destruct (decide (id = ch_Id ch)) as [->|Hne]; [by rewrite decide_True by done|].
    by rewrite decide_False by naive_solver.
  - intros p id n l [= <-]. simpl. rewrite drop_0. split.
    + intros u. rewrite elem_of_list_to_set. intros [i Hi]%list_elem_of_lookup.
      apply lookup_take_Some in Hi as [Hi _]. apply elem_of_elements. by eapply list_elem_of_lookup_2.
    + intros Hn. rewrite take_ge by done. intros u Hu. by rewrite elem_of_list_to_set, elem_of_elements.
Qed.

#[local] Existing Instance cents.
#[local] Instance no_unicode : UnicodeTables := λ _, false.
#[local] Instance quiet : LmsEnv := {|
  lms_clock := λ n, Z.of_nat n;
  lms_id := λ n, "abcdefghijklmnopqrstuvwx" +:+ pretty (10 + n);
  lms_fault := λ _, false;
|}.

(** Two classes with different codes, and their rooms. *)
Definition id_a : string := "aaaaaaaaaaaaaaaaaaaaaaaaaa".
Definition id_b : string := "bbbbbbbbbbbbbbbbbbbbbbbbbb".

Definition class_of (id code teacher : string) : Class :=
  {| Class_ID := id; Class_CourseID := id_a; Class_BranchID := id_a; Class_Name := "Class " +:+ code;
     Class_Code := code; Class_TeacherID := teacher; Class_Status := "OPEN"; Class_Room := None;
     Class_StartDate := 0; Class_EndDate := None; Class_Createat := 0; Class_Updateat := 0;
     Class_ChatChannelID := "" |}.

Definition a_course : Course Z :=
  {| Course_ID := id_a; Course_Name := "Math"; Course_Code := "M"; Course_Level := None; Course_AgeRange := None;
     Course_TotalSessions := 24; Course_DurationPerSession := 60; Course_Fee := None; Course_Description := None;
     Course_Curriculum := None; Course_Createat := 0; Course_Updateat := 0 |}.

Definition a_branch : Branch :=
  {| Branch_ID := id_a; Branch_Name := "Centre"; Branch_Address := None; Branch_Phone := None;
     Branch_Createat := 0; Branch_Updateat := 0 |}.

Definition offered : contentDB Z := ContentDB _ {[id_a := a_branch]} {[id_a := a_course]} ∅ ∅ ∅ ∅ ∅ ∅ ∅ ∅ ∅ ∅.

Definition two_classes : chat_world Z demo_chat :=
  ChatWorld (LmsWorld (LmsDB _ {[id_a := class_of id_a "Math 1" id_a; id_b := class_of id_b "MATH-1" id_b]}
                         ∅ ∅ ∅ ∅ ∅ ∅ ∅ ∅ ∅ ∅ ∅ offered) 0)
            (DemoChat ∅ ∅ 0).

Definition after_a : chat_world Z demo_chat := (enrollStudents true id_a ["ann"; "bob"] two_classes).2.
Definition after_b : chat_world Z demo_chat := (enrollStudents true id_b ["eve"] after_a).2.

(** Two classes can share one chat channel.  Class codes are unique, the
    channel names made of them are not: enrolling a student in the class
    "MATH-1" takes over the channel of the class "Math 1", links both classes
    to it, removes the teacher and the students of the first class from it,
    and lets the student of the second class in. *)
Theorem class_codes_share_channel :
  classChannelName "Math 1" = classChannelName "MATH-1" ∧
  dc_of (cw_chat after_a) "chan0" = {["adm"; id_a; "ann"; "bob"]} ∧
  dc_of (cw_chat after_b) "chan0" = {["adm"; id_b; "eve"]} ∧
  (Class_ChatChannelID <$> db_classes (lms_db (cw_lms after_b))) =
    {[id_a := "chan0"; id_b := "chan0"]}.
Proof. split_and!; by_computation. Qed.

(** ** Witnesses *)

Definition room : Channel :=
  {| ch_Id := "chan0"; ch_TeamId := "teaching"; ch_Name := "class-math-1"; ch_DisplayName := "Math";
     ch_Type := "P"; ch_DeleteAt := 0 |}.

Lemma demo_reliable : reliable (P:=demo_chat) room.
Proof. split; [done|done|]. intros p n. by eexists. Qed.

Abbreviation sync_room := (syncChannelMembership room ["zoe"; ""; "bob"] "tea" after_a).

Lemma syncChannelMembership_exact_witness :
  dc_of (cw_chat after_a) "chan0" ≠ dc_of (cw_chat sync_room.2) "chan0" ∧
  dc_of (cw_chat sync_room.2) "chan0" = {["tea"; "zoe"; "bob"]}.
Proof.
  split; [by_computation|].
  destruct (syncChannelMembership_exact room ["zoe"; ""; "bob"] "tea" after_a sync_room.2 sync_room.1
              (surjective_pairing _)) as (_ & _ & _ & _ & _ & Hexact).
  etrans; [apply (Hexact demo_reliable); by_computation|]. by_computation.
Defined.

Definition closing (channel : string) : Class :=
  {| Class_ID := id_b; Class_CourseID := id_a; Class_BranchID := id_a; Class_Name := "B";
     Class_Code := "MATH-1"; Class_TeacherID := id_b; Class_Status := "CLOSED"; Class_Room := None;
     Class_StartDate := 0; Class_EndDate := None; Class_Createat := 0; Class_Updateat := 0;
     Class_ChatChannelID := channel |}.

Abbreviation close_naming := (updateClass true id_b (closing "chan0") after_a).
Abbreviation close_silent := (updateClass true id_b (closing "") after_b).

(** Closing class B with the id of the channel of class A deletes that one. *)
Lemma closing_deletes_named_channel_witness :
  dc_of (cw_chat after_a) "chan0" ≠ ∅ ∧ dc_of (cw_chat close_naming.2) "chan0" = ∅ ∧
  dc_of (cw_chat close_silent.2) "chan0" = dc_of (cw_chat after_b) "chan0".
Proof.
  assert (∃ u, close_naming.1 = Ok u) as [u Hu] by (eexists; vm_compute; reflexivity).
  assert (∃ v, close_silent.1 = Ok v) as [v Hv] by (eexists; vm_compute; reflexivity).
  assert (∃ ch, GetChannel (cw_chat after_a) "chan0" = Ok ch ∧ ch_Id ch = "chan0") as (ch & Hch & Hid)
    by (eexists; vm_compute; split; reflexivity).
  destruct (closing_deletes_named_channel true id_b (closing "chan0") after_a close_naming.2 u) as [Hdel _].
  { rewrite <-Hu. apply surjective_pairing. }
  { reflexivity. }
  destruct (closing_deletes_named_channel true id_b (closing "") after_b close_silent.2 v) as [_ Hsame].
  { rewrite <-Hv. apply surjective_pairing. }
  { reflexivity. }
  split; [by_computation|]. split.
  - rewrite (Hdel ch ltac:(discriminate) Hch). cbn. rewrite Hid. by_computation.
  - by rewrite (Hsame eq_refl).
Defined.
