(* ===== verification/PhcParser.v ===== *)
(** * Password hash strings (server/channels/app/password/phcparser/parser.go)

    The parser of PHC strings [$id$v=version$name=value,...$salt$hash] over a
    reader of runes with one rune of push-back.  [Parse] follows the source
    token by token; its loop over the parameters takes fuel, one unit per rune
    of the input, which is enough ([Parse_no_fuel]).  [phc_string] is the format
    the package documents, and [Parse_phc_string] that parsing inverts it. *)

From stdpp Require Import strings.
From S2P Require Import Prelude.
From S2P Require Import GoString.
From S2P Require Import GoUtf8.
From S2P Require Import GoRunes.

Local Open Scope string_scope.
Local Open Scope go_scope.

Module Phc.

Record PHC := { Id : string; Version : string; Params : gmap string string; Salt : string; Hash : string }.

Definition empty_PHC : PHC := {| Id := ""; Version := ""; Params := ∅; Salt := ""; Hash := "" |}.

Definition MaxRunes : nat := 256.

(** ** The reader *)

(** bufio.Reader: the rune read last, which can be unread, and the rest. *)
Record reader := Reader { last_rune : option Z; input : list Z }.

(** [New]: io.LimitReader counts bytes. *)
Definition New (s : string) : reader := Reader None (runes (String.substring 0 MaxRunes s)).

(** [ParseError] carries the message, [ParseFuel] marks a loop cut short. *)
Inductive parseError := ParseError (msg : string) | ParseFuel.

Abbreviation P := (M reader parseError).

Definition eof : Z := 0.

Definition read : P Z := λ r,
  match input r with
  | [] => (Ok eof, Reader None [])
  | ch :: rest => (Ok ch, Reader (Some ch) rest)
  end.

Definition unread : P unit := λ r,
  match last_rune r with
  | Some ch => (Ok tt, Reader None (ch :: input r))
  | None => (Ok tt, r)
  end.

(** ** Tokens: one bit each, so that a set of them is expected at once *)

Definition Token := N.
Definition ILLEGAL : Token := 1%N.
Definition EOF : Token := 2%N.
Definition DOLLARSIGN : Token := 4%N.
Definition COMMA : Token := 8%N.
Definition EQUALSIGN : Token := 16%N.
Definition FUNCTIONID : Token := 32%N.
Definition PARAMNAME : Token := 64%N.
Definition PARAMVALUE : Token := 128%N.
Definition B64ENCODED : Token := 256%N.
Definition IDENT : Token := N.lor (N.lor FUNCTIONID PARAMNAME) (N.lor PARAMVALUE B64ENCODED).

Definition isLowercaseLetter (ch : Z) : bool := within_z 97 122 ch.
Definition isLetter (ch : Z) : bool := within_z 65 90 ch || within_z 97 122 ch.
Definition isDigit (ch : Z) : bool := within_z 48 57 ch.
Definition isB64 (ch : Z) : bool := isLetter ch || isDigit ch || (ch =? 43)%Z || (ch =? 47)%Z.
Definition isSymbol (ch : Z) : bool := (ch =? 47)%Z || (ch =? 43)%Z || (ch =? 46)%Z || (ch =? 45)%Z.
Definition isLowercaseLetterOrDigitOrMinus (ch : Z) : bool := isLowercaseLetter ch || isDigit ch || (ch =? 45)%Z.
Definition isLetterOrDigitOrSymbol (ch : Z) : bool := isLetter ch || isDigit ch || isSymbol ch.
Definition none (_ : Z) : bool := false.

(** ** Scanning *)

(** The loop of scanIdent: the runes written to the buffer, and the reader. *)
Fixpoint ident_loop (allowed : Z → bool) (l : list Z) : list Z * reader :=
  match l with
  | [] => ([], Reader None [])
  | ch :: rest =>
      if (ch =? eof)%Z then ([], Reader (Some ch) rest)
      else if allowed ch then let '(buf, r) := ident_loop allowed rest in (ch :: buf, r)
      else ([], Reader None (ch :: rest))
  end.

Definition scanIdent (allowed : Z → bool) : P (Token * string) :=
  first <- read ;;
  (λ r, let '(buf, r') := ident_loop allowed (input r) in
        (Ok (IDENT, of_runes (first :: buf)), r')).

Definition scan (allowed : Z → bool) : P (Token * string) :=
  ch <- read ;;
  if allowed ch then unread ;;; scanIdent allowed
  else m_ret (if (ch =? eof)%Z then (EOF, "")
              else if (ch =? 36)%Z then (DOLLARSIGN, of_runes [ch])
              else if (ch =? 44)%Z then (COMMA, of_runes [ch])
              else if (ch =? 61)%Z then (EQUALSIGN, of_runes [ch])
              else (ILLEGAL, of_runes [ch])).

Definition scanSeparator : P (Token * string) := scan none.

Definition allowed_runes (expected : Token) : Z → bool :=
  if (expected =? FUNCTIONID)%N || (expected =? PARAMNAME)%N then isLowercaseLetterOrDigitOrMinus
  else if (expected =? PARAMVALUE)%N then isLetterOrDigitOrSymbol
  else if (expected =? B64ENCODED)%N then isB64
  else none.

Definition parseToken (expected : Token) : P string :=
  t <- scan (allowed_runes expected) ;;
  if (N.land t.1 expected =? 0)%N then m_throw (ParseError "found a token, expected '$'") else m_ret t.2.

(** [fmt.Errorf] on the error of a step. *)
Definition or_fail {A} (msg : string) (m : P A) : P A := λ r,
  match m r with (Err ParseFuel, r') => (Err ParseFuel, r')
               | (Err _, r') => (Err (ParseError msg), r')
               | ok => ok end.

(** ** Parsing *)

Definition parseFunctionId : P string :=
  or_fail "expected '$'" (parseToken DOLLARSIGN) ;;;
  or_fail "expected a function identifier" (parseToken FUNCTIONID).

Definition parseHash : P string :=
  hash <- or_fail "expected the hash" (parseToken B64ENCODED) ;;
  or_fail "expected EOF" (parseToken EOF) ;;;
  m_ret hash.

Definition parseParamRHS : P string := parseToken EQUALSIGN ;;; parseToken PARAMVALUE.

Definition with_Version (v : string) (p : PHC) : PHC :=
  {| Id := Id p; Version := v; Params := Params p; Salt := Salt p; Hash := Hash p |}.
Definition with_Param (k v : string) (p : PHC) : PHC :=
  {| Id := Id p; Version := Version p; Params := <[k := v]> (Params p); Salt := Salt p; Hash := Hash p |}.
Definition with_Salt (s : string) (p : PHC) : PHC :=
  {| Id := Id p; Version := Version p; Params := Params p; Salt := s; Hash := Hash p |}.
Definition with_Hash (h : string) (p : PHC) : PHC :=
  {| Id := Id p; Version := Version p; Params := Params p; Salt := Salt p; Hash := h |}.

(** The loop after a parameter. *)
Fixpoint parse_params (fuel : nat) (out : PHC) : P PHC :=
  match fuel with
  | O => m_throw ParseFuel
  | S fuel =>
      t <- scanSeparator ;;
      if (t.1 =? EOF)%N then m_ret out
      else if (t.1 =? COMMA)%N then
        paramName <- parseToken PARAMNAME ;;
        paramValue <- or_fail "failed parsing value" parseParamRHS ;;
        parse_params fuel (with_Param paramName paramValue out)
      else if (t.1 =? DOLLARSIGN)%N then
        salt <- parseToken B64ENCODED ;;
        let out := with_Salt salt out in
        t' <- scanSeparator ;;
        if (t'.1 =? DOLLARSIGN)%N then hash <- parseHash ;; m_ret (with_Hash hash out)
        else if (t'.1 =? EOF)%N then m_ret out
        else m_throw (ParseError "expected either '$', or EOF")
      else m_throw (ParseError "expected either ',', '$' or EOF")
  end.

(** From the identifier that is a parameter name or the salt on. *)
Definition parse_tail (fuel : nat) (out : PHC) (paramNameOrSalt : string) : P PHC :=
  t <- scanSeparator ;;
  if (t.1 =? EQUALSIGN)%N then
    if decide (paramNameOrSalt = "v") then m_throw (ParseError "found 'v' as a parameter name")
    else
    paramValue <- or_fail "expected a value for parameter" (parseToken PARAMVALUE) ;;
    parse_params fuel (with_Param paramNameOrSalt paramValue out)
  else if (t.1 =? DOLLARSIGN)%N then
    hash <- parseHash ;; m_ret (with_Hash hash (with_Salt paramNameOrSalt out))
  else if (t.1 =? EOF)%N then m_ret (with_Salt paramNameOrSalt out)
  else m_throw (ParseError "expected either '$', or '=' or EOF").

Definition parse_version (fuel : nat) (out : PHC) : P PHC :=
  versionStr <- or_fail "failed parsing version string" parseParamRHS ;;
  let out := with_Version versionStr out in
  t <- scanSeparator ;;
  if (t.1 =? EOF)%N then m_ret out
  else if (t.1 =? DOLLARSIGN)%N then
    ident <- or_fail "expected a parameter name" (parseToken B64ENCODED) ;;
    parse_tail fuel out ident
  else m_throw (ParseError "expected '$' or EOF").

Definition parse_phc (fuel : nat) : P PHC :=
  id <- or_fail "failed to parse function ID" parseFunctionId ;;
  let out := {| Id := id; Version := ""; Params := ∅; Salt := ""; Hash := "" |} in
  t <- scanSeparator ;;
  if (t.1 =? EOF)%N then m_ret out
  else if (t.1 =? DOLLARSIGN)%N then
    ident <- or_fail "expected the version key, a parameter name or the salt" (parseToken B64ENCODED) ;;
    if decide (ident = "v") then parse_version fuel out else parse_tail fuel out ident
  else m_throw (ParseError "expected '$' or EOF").

Definition Parse (r : reader) : res parseError PHC := (parse_phc (S (length (input r))) r).1.

(** ** Termination *)

(** A step that gives back no more input than it was given, and has no fuel to
    run out of. *)
Definition consumes {A} (m : P A) : Prop :=
  ∀ r, (length (input (m r).2) ≤ length (input r))%nat ∧ (m r).1 ≠ Err ParseFuel.

Lemma consumes_ret {A} (a : A) : consumes (m_ret a).
Proof. by intros r. Qed.

Lemma consumes_throw {A} msg : consumes (m_throw (A:=A) (ParseError msg)).
Proof. by intros r. Qed.

Lemma consumes_bind {A B} (m : P A) (k : A → P B) :
  consumes m → (∀ a, consumes (k a)) → consumes (m_bind m k).
Proof.
  intros Hm Hk r. specialize (Hm r) as [Hl He]. unfold m_bind. destruct (m r) as [[a|e] r1]; simpl in *.
  - specialize (Hk a r1) as [Hl' He']. split; [lia|done].
  - split; [done|congruence].
Qed.

Lemma consumes_or_fail {A} msg (m : P A) : consumes m → consumes (or_fail msg m).
Proof.
  intros Hm r. specialize (Hm r) as [Hl He]. unfold or_fail.
  destruct (m r) as [[a|[|]] r1]; done.
Qed.

Lemma ident_loop_consumes allowed l : (length (input (ident_loop allowed l).2) ≤ length l)%nat.
Proof.
  induction l as [|ch l IH]; simpl; [done|]. destruct (_ =? _)%Z; [simpl; lia|].
  destruct (allowed ch); [|done]. destruct (ident_loop allowed l). simpl in *. lia.
Qed.

(** Every token but EOF takes at least one rune. *)
Lemma scan_consumes allowed r : allowed eof = false →
  ∃ t r', scan allowed r = (Ok t, r') ∧ (length (input r') ≤ length (input r))%nat ∧
    (t.1 ≠ EOF → (length (input r') < length (input r))%nat).
Proof.
  intros Heof. unfold scan, m_bind, read. destruct (input r) as [|ch rest] eqn:Hin.
  { rewrite Heof. simpl. by eexists _, _. }
  destruct (allowed ch) eqn:Hch.
  - unfold unread, scanIdent, m_bind, read. simpl.
    pose proof (ident_loop_consumes allowed rest). destruct (ident_loop allowed rest) as [buf r'].
    eexists _, _. split; [done|]. simpl in *. lia.
  - eexists _, _. split; [done|]. simpl. lia.
Qed.

Lemma allowed_not_eof expected : allowed_runes expected eof = false.
Proof. unfold allowed_runes. by repeat destruct (_ || _); repeat destruct (_ =? _)%N. Qed.

Lemma consumes_scan allowed : allowed eof = false → consumes (scan allowed).
Proof. intros Hal r. destruct (scan_consumes allowed r Hal) as (t & r' & -> & Hl & _). done. Qed.

Lemma consumes_token expected : consumes (parseToken expected).
Proof.
  apply consumes_bind; [apply consumes_scan, allowed_not_eof|]. intros t.
  destruct (_ =? _)%N; [apply consumes_throw|apply consumes_ret].
Qed.

Lemma consumes_separator : consumes scanSeparator.
Proof. by apply consumes_scan. Qed.

Lemma consumes_if {A} (b : bool) (m1 m2 : P A) : consumes m1 → consumes m2 → consumes (if b then m1 else m2).
Proof. by destruct b. Qed.

Create HintDb phc.
#[local] Hint Resolve consumes_ret consumes_throw consumes_bind consumes_or_fail consumes_token
  consumes_separator consumes_if : phc.

Lemma consumes_hash : consumes parseHash.
Proof. unfold parseHash. auto 10 with phc. Qed.

Lemma consumes_rhs : consumes parseParamRHS.
Proof. unfold parseParamRHS. auto 10 with phc. Qed.

#[local] Hint Resolve consumes_hash consumes_rhs : phc.

(** Steps, then a loop that had enough fuel before them. *)
Definition enough {A} (fuel : nat) (m : P A) : Prop :=
  ∀ r, (length (input r) < fuel)%nat → (m r).1 ≠ Err ParseFuel.

Lemma consumes_enough {A} fuel (m : P A) : consumes m → enough fuel m.
Proof. intros Hm r _. apply Hm. Qed.

Lemma enough_bind {A B} fuel (m : P A) (k : A → P B) :
  consumes m → (∀ a, enough fuel (k a)) → enough fuel (m_bind m k).
Proof.
  intros Hm Hk r Hr. specialize (Hm r) as [Hl He]. unfold m_bind.
  destruct (m r) as [[a|e] r1]; simpl in *; [apply Hk; lia|congruence].
Qed.

Lemma parse_params_enough fuel out : enough fuel (parse_params fuel out).
Proof.
  revert out. induction fuel as [|fuel IH]; intros out r Hr; [lia|]. cbn [parse_params].
  destruct (scan_consumes none r eq_refl) as (t & r1 & Hscan & _ & Hlt).
  unfold m_bind at 1. unfold scanSeparator at 1. rewrite Hscan.
  destruct (t.1 =? EOF)%N eqn:Heof; [done|]. apply N.eqb_neq, Hlt in Heof.
  destruct (t.1 =? COMMA)%N.
  - apply (enough_bind fuel); [auto with phc| |lia]. intros name.
    apply enough_bind; [auto with phc|]. intros value. apply IH.
  - apply (consumes_enough (length (input r))); [|lia]. destruct (t.1 =? DOLLARSIGN)%N; auto 15 with phc.
Qed.

Lemma enough_mono {A} n fuel (m : P A) : (n ≤ fuel)%nat → enough fuel m → enough n m.
Proof. intros Hle Hm r Hr. apply Hm. lia. Qed.

Lemma parse_tail_enough fuel out ident : enough fuel (parse_tail fuel out ident).
Proof.
  apply enough_bind; [auto with phc|]. intros t. destruct (_ =? _)%N.
  - destruct (decide _); [apply consumes_enough; auto with phc|].
    apply enough_bind; [auto with phc|]. intros value. apply parse_params_enough.
  - apply consumes_enough. auto 15 with phc.
Qed.

Lemma parse_version_enough fuel out : enough fuel (parse_version fuel out).
Proof.
  apply enough_bind; [auto with phc|]. intros version. apply enough_bind; [auto with phc|]. intros t.
  destruct (_ =? _)%N; [apply consumes_enough; auto with phc|].
  destruct (_ =? _)%N; [|apply consumes_enough; auto with phc].
  apply enough_bind; [auto with phc|]. intros ident. apply parse_tail_enough.
Qed.

(** The fuel of [Parse] is enough, whatever the input. *)
Lemma Parse_no_fuel r : Parse r ≠ Err ParseFuel.
Proof.
  unfold Parse. apply (λ H : enough _ _, H r (Nat.lt_succ_diag_r _)).
  apply enough_bind; [unfold parseFunctionId; auto with phc|]. intros id. apply enough_bind; [auto with phc|].
  intros t. destruct (_ =? _)%N; [apply consumes_enough; auto with phc|].
  destruct (_ =? _)%N; [|apply consumes_enough; auto with phc].
  apply enough_bind; [auto with phc|]. intros ident.
  destruct (decide _); [apply parse_version_enough|apply parse_tail_enough].
Qed.

(** ** Round trip *)

Definition codes (s : string) : list Z := byte_z <$> String.list_ascii_of_string s.
#[global] Arguments codes : simpl never.
Definition all_of (p : Z → bool) (s : string) : bool := all_chars (λ c, p (byte_z c)) s.

Definition param_string (kv : string * string) : string := kv.1 +:+ "=" +:+ kv.2.

Fixpoint more_params (l : list (string * string)) : string :=
  match l with [] => "" | kv :: l => "," +:+ param_string kv +:+ more_params l end.

Definition params_string (l : list (string * string)) : string :=
  match l with [] => "" | kv :: l => "$" +:+ param_string kv +:+ more_params l end.

Definition hash_string (hash : string) : string := if decide (hash = "") then "" else "$" +:+ hash.

Definition salt_string (salt hash : string) : string :=
  if decide (salt = "") then "" else "$" +:+ salt +:+ hash_string hash.

Definition version_string (version : string) : string :=
  if decide (version = "") then "" else "$v=" +:+ version.

(** The string of a PHC whose parameters are listed in the order [l]. *)
Definition phc_string (p : PHC) (l : list (string * string)) : string :=
  "$" +:+ Id p +:+ version_string (Version p) +:+ params_string l +:+ salt_string (Salt p) (Hash p).

(** A non-empty word of a class of characters. *)
Definition word (p : Z → bool) (s : string) : Prop := s ≠ "" ∧ all_of p s = true.

Record well_formed (p : PHC) (l : list (string * string)) : Prop := {
  wf_id : word isLowercaseLetterOrDigitOrMinus (Id p);
  wf_version : Version p ≠ "" → word isLetterOrDigitOrSymbol (Version p);
  wf_params : Params p = list_to_map l;
  wf_keys : NoDup l.*1;
  wf_names : Forall (λ kv, word isLowercaseLetterOrDigitOrMinus kv.1) l;
  wf_values : Forall (λ kv, word isLetterOrDigitOrSymbol kv.2) l;
  (** the first name is read as if it could be the salt or the version key *)
  wf_first : ∀ kv, head l = Some kv → all_of isB64 kv.1 = true ∧ kv.1 ≠ "v";
  wf_salt : Salt p ≠ "" → word isB64 (Salt p);
  wf_salt_v : Version p = "" → l = [] → Salt p ≠ "v";
  wf_hash : Hash p ≠ "" → Salt p ≠ "" ∧ word isB64 (Hash p);
  wf_length : (String.length (phc_string p l) ≤ MaxRunes)%nat;
}.

Lemma codes_cons c s : codes (String c s) = byte_z c :: codes s.
Proof. done. Qed.

Lemma codes_sep c s : codes (String c "" +:+ s) = byte_z c :: codes s.
Proof. done. Qed.

Lemma codes_app s t : codes (s +:+ t) = (codes s ++ codes t)%list.
Proof. unfold codes. induction s as [|c s IH]; [done|]. simpl. by f_equal. Qed.

Lemma runes_codes s : is_ascii s = true → runes s = codes s.
Proof.
  unfold is_ascii, codes. induction s as [|a s IH]; [done|]. cbn [all_chars runes].
  intros [Ha Hs]%andb_true_iff. rewrite Ha. simpl. by rewrite IH.
Qed.

Lemma substring_all s n : (String.length s ≤ n)%nat → String.substring 0 n s = s.
Proof.
  revert n. induction s as [|c s IH]; intros [|n]; simpl; intros Hn; try done; [lia|].
  by rewrite IH by lia.
Qed.

(** A class of ASCII characters without the separators. *)
Class TokenClass (p : Z → bool) := {
  class_ascii : ∀ ch, p ch = true → (0 < ch < 128)%Z;
  class_sep : p 36%Z = false ∧ p 44%Z = false ∧ p 61%Z = false;
}.

Ltac token_class :=
  split; [|by split_and!]; intros ch;
  unfold isLowercaseLetterOrDigitOrMinus, isLetterOrDigitOrSymbol, isB64, isSymbol, isLetter,
    isLowercaseLetter, isDigit, within_z; rewrite ?orb_true_iff, ?andb_true_iff; lia.

#[local] Instance class_function_id : TokenClass isLowercaseLetterOrDigitOrMinus. Proof. token_class. Qed.
#[local] Instance class_value : TokenClass isLetterOrDigitOrSymbol. Proof. token_class. Qed.
#[local] Instance class_b64 : TokenClass isB64. Proof. token_class. Qed.

(** What can follow an identifier: a separator or the end. *)
Definition at_separator (l : list Z) : Prop :=
  match l with [] => True | ch :: _ => ch = 36%Z ∨ ch = 44%Z ∨ ch = 61%Z end.

Section scanning.
Context (p : Z → bool) `{!TokenClass p}.

Lemma ident_loop_word w rest :
  all_of p w = true → at_separator rest → ident_loop p (codes w ++ rest)%list = (codes w, Reader None rest).
Proof.
  destruct class_sep as (S1 & S2 & S3). intros Hw Hr. induction w as [|c w IH].
  - destruct rest as [|ch rest]; [done|]. simpl in *.
    destruct Hr as [->|[->| ->]]; unfold eof; simpl; by rewrite ?S1, ?S2, ?S3.
  - simpl in Hw. apply andb_true_iff in Hw as [Hc Hw]. pose proof (class_ascii _ Hc).
    rewrite codes_cons. simpl. replace (byte_z c =? eof)%Z with false by (unfold eof; lia).
    rewrite Hc. by rewrite IH.
Qed.

Lemma word_ascii w : all_of p w = true → is_ascii w = true.
Proof.
  apply all_chars_mono. intros c Hc%class_ascii. lia.
Qed.

Lemma of_runes_codes w : is_ascii w = true → of_runes (codes w) = w.
Proof. intros Hw. rewrite <-runes_codes by done. by apply runes_of_ascii. Qed.

Lemma scan_word w rest last :
  word p w → at_separator rest →
  scan p (Reader last (codes w ++ rest)%list) = (Ok (IDENT, w), Reader None rest).
Proof.
  intros [Hne Hw] Hr. destruct w as [|c w]; [done|].
  pose proof (of_runes_codes _ (word_ascii _ Hw)) as Hof.
  simpl in Hw. apply andb_true_iff in Hw as [Hc Hw].
  rewrite codes_cons in *. unfold scan, m_bind, read. simpl. rewrite Hc.
  unfold unread, scanIdent, m_bind, read. simpl. rewrite ident_loop_word by done. by rewrite <-Hof.
Qed.

Lemma token_word expected w rest last :
  allowed_runes expected = p → N.land IDENT expected ≠ 0%N → word p w → at_separator rest →
  parseToken expected (Reader last (codes w ++ rest)%list) = (Ok w, Reader None rest).
Proof.
  intros Hal Hbit Hw Hr. unfold parseToken. rewrite Hal. unfold m_bind. rewrite scan_word by done.
  simpl. by rewrite (proj2 (N.eqb_neq _ _) Hbit).
Qed.

End scanning.

Lemma word_mono p q w : (∀ ch, p ch = true → q ch = true) → word p w → word q w.
Proof. intros Hpq [Hne Hw]. split; [done|]. by apply (all_chars_mono _ _ _ (λ c, Hpq (byte_z c))). Qed.

(** The strings that start with a separator, or are empty. *)
Lemma at_sep_equal s : at_separator (codes ("=" +:+ s)).
Proof. simpl. auto. Qed.

Lemma at_sep_hash hash : at_separator (codes (hash_string hash)).
Proof. unfold hash_string. destruct (decide _); simpl; auto. Qed.

Lemma at_sep_salt salt hash : at_separator (codes (salt_string salt hash)).
Proof. unfold salt_string. destruct (decide _); simpl; auto. Qed.

Lemma at_sep_more l s : at_separator (codes s) → at_separator (codes (more_params l +:+ s)).
Proof. destruct l; simpl; auto. Qed.

#[local] Hint Resolve at_sep_hash at_sep_salt at_sep_more : phc.

(** What is left after the parameters. *)
Definition finish (out : PHC) (salt hash : string) : PHC :=
  {| Id := Id out; Version := Version out; Params := Params out; Salt := salt; Hash := hash |}.

Lemma hash_parsed hash last :
  word isB64 hash → (parseHash (Reader last (codes hash))).1 = Ok hash.
Proof.
  intros Hw. unfold parseHash, m_bind, or_fail. rewrite <-(app_nil_r (codes hash)).
  by rewrite (token_word isB64) by done.
Qed.

Lemma after_salt out hash last :
  (hash ≠ "" → word isB64 hash) → Hash out = "" →
  ((t' <- scanSeparator ;;
    if (t'.1 =? DOLLARSIGN)%N then hash <- parseHash ;; m_ret (with_Hash hash out)
    else if (t'.1 =? EOF)%N then m_ret out
    else m_throw (ParseError "expected either '$', or EOF"))
     (Reader last (codes (hash_string hash)))).1 = Ok (finish out (Salt out) hash).
Proof.
  intros Hh Hout. unfold hash_string. destruct (decide (hash = "")) as [->|Hne].
  - simpl. destruct out; simpl in *; by subst.
  - rewrite codes_sep. unfold m_bind at 1. simpl. unfold m_bind.
    pose proof (hash_parsed hash (Some 36%Z) (Hh Hne)) as Hp.
    destruct (parseHash _) as [r r']. simpl in Hp. by subst r.
Qed.

Lemma params_parsed l : ∀ fuel out last salt hash,
  (length l < fuel)%nat →
  Forall (λ kv, word isLowercaseLetterOrDigitOrMinus kv.1) l →
  Forall (λ kv, word isLetterOrDigitOrSymbol kv.2) l →
  (salt ≠ "" → word isB64 salt) → (hash ≠ "" → salt ≠ "" ∧ word isB64 hash) →
  Salt out = "" → Hash out = "" →
  (parse_params fuel out (Reader last (codes (more_params l +:+ salt_string salt hash)))).1 =
    Ok (finish (foldl (λ o kv, with_Param kv.1 kv.2 o) out l) salt hash).
Proof.
  induction l as [|[k v] l IH]; intros fuel out last salt hash Hf Hk Hv Hs Hh Hos Hoh;
    (destruct fuel as [|fuel]; [simpl in Hf; lia|]); cbn [parse_params].
  - change (more_params [] +:+ salt_string salt hash) with (salt_string salt hash).
    unfold salt_string. destruct (decide (salt = "")) as [->|Hne].
    + simpl. assert (hash = "") as -> by (destruct (decide (hash = "")); naive_solver).
      destruct out; simpl in *; by subst.
    + rewrite codes_sep. unfold m_bind at 1. simpl. rewrite codes_app.
      unfold m_bind at 1. rewrite (token_word isB64) by auto with phc.
      etrans; [apply (after_salt (with_Salt salt out)); [intros Hn; by apply Hh|done]|]. done.
  - inversion_clear Hk as [|? ? Hk1 Hk2]. inversion_clear Hv as [|? ? Hv1 Hv2]. simpl in Hk1, Hv1.
    cbn [more_params]. unfold param_string. cbn [fst snd].
    rewrite !string_app_assoc, codes_sep. unfold m_bind at 1. simpl. rewrite codes_app.
    unfold m_bind at 1. rewrite (token_word isLowercaseLetterOrDigitOrMinus)
      by (try done; apply at_sep_equal).
    rewrite codes_cons. unfold m_bind at 1, or_fail, parseParamRHS. unfold m_bind at 1. simpl.
    rewrite codes_app, (token_word isLetterOrDigitOrSymbol) by auto with phc.
    by rewrite IH by (simpl in *; auto; lia).
Qed.

(** The identifier after the first '$' of the parameters or the salt, and what
    [parse_tail] makes of the rest. *)
Lemma tail_parsed p l fuel out :
  well_formed p l → Salt out = "" → Hash out = "" → (length l ≤ fuel)%nat →
  l ≠ [] ∨ Salt p ≠ "" →
  ∃ ident s, params_string l +:+ salt_string (Salt p) (Hash p) = "$" +:+ ident +:+ s ∧
    word isB64 ident ∧ at_separator (codes s) ∧ (ident = "v" → l = [] ∧ Salt p = "v") ∧
    (parse_tail fuel out ident (Reader None (codes s))).1 =
      Ok (finish (foldl (λ o kv, with_Param kv.1 kv.2 o) out l) (Salt p) (Hash p)).
Proof.
  intros Hwf Hos Hoh Hf Hne. destruct l as [|[k v] l].
  - destruct Hne as [|Hne]; [done|]. exists (Salt p), (hash_string (Hash p)).
    split_and!; [|by apply (wf_salt _ _ Hwf)|apply at_sep_hash|done|].
    { unfold salt_string. by rewrite decide_False. }
    pose proof (wf_hash _ _ Hwf) as Hh. unfold parse_tail, hash_string. destruct (decide (Hash p = "")) as [He|He].
    + simpl. unfold finish. rewrite He. by destruct out; simpl in *; subst.
    + rewrite codes_sep. unfold m_bind at 1. simpl. unfold m_bind.
      pose proof (hash_parsed (Hash p) (Some 36%Z) (proj2 (Hh He))) as Hp.
      destruct (parseHash _) as [r r']. simpl in Hp. by subst r.
  - destruct (wf_first _ _ Hwf (k, v) eq_refl) as [Hb Hv]. simpl in Hb, Hv.
    pose proof (wf_names _ _ Hwf) as Hk. pose proof (wf_values _ _ Hwf) as Hvs.
    inversion_clear Hk as [|? ? Hk1 Hk2]. inversion_clear Hvs as [|? ? Hv1 Hv2]. simpl in Hk1, Hv1.
    exists k, ("=" +:+ v +:+ more_params l +:+ salt_string (Salt p) (Hash p)). split_and!.
    + simpl. unfold param_string. simpl. by rewrite !string_app_assoc.
    + split; [apply Hk1|done].
    + apply at_sep_equal.
    + done.
    + unfold parse_tail. rewrite codes_sep. unfold m_bind at 1. simpl. rewrite decide_False by done.
      rewrite codes_app. unfold m_bind, or_fail.
      rewrite (token_word isLetterOrDigitOrSymbol) by auto with phc.
      apply params_parsed; try done; [by apply (wf_salt _ _ Hwf)|by apply (wf_hash _ _ Hwf)].
Qed.

(** What follows the function identifier, or the version. *)
Lemma body_parsed p l fuel out last msg (k : string → P PHC) :
  well_formed p l → Salt out = "" → Hash out = "" → (length l ≤ fuel)%nat →
  (∀ ident, (ident = "v" → l = [] ∧ Salt p = "v") → k ident = parse_tail fuel out ident) →
  ((t <- scanSeparator ;;
    if (t.1 =? EOF)%N then m_ret out
    else if (t.1 =? DOLLARSIGN)%N then
      ident <- or_fail msg (parseToken B64ENCODED) ;; k ident
    else m_throw (ParseError "expected '$' or EOF"))
     (Reader last (codes (params_string l +:+ salt_string (Salt p) (Hash p))))).1 =
    Ok (finish (foldl (λ o kv, with_Param kv.1 kv.2 o) out l) (Salt p) (Hash p)).
Proof.
  intros Hwf Hos Hoh Hf Hk. destruct (decide (l = [] ∧ Salt p = "")) as [[-> Hs]|Hne].
  - unfold salt_string. rewrite Hs, decide_True by done. simpl.
    assert (Hash p = "") as -> by (destruct (decide (Hash p = "")) as [|Hh]; [done|by apply (wf_hash _ _ Hwf) in Hh as [? _]]).
    unfold finish. by destruct out; simpl in *; subst.
  - destruct (tail_parsed p l fuel out) as (ident & s & Heq & Hw & Hat & Hv & Hp); try done.
    { destruct l; [right|by left]. naive_solver. }
    rewrite Heq, codes_sep. unfold m_bind at 1. simpl. rewrite codes_app. unfold m_bind, or_fail.
    rewrite (token_word isB64) by done. by rewrite Hk.
Qed.

Lemma length_codes s : length (codes s) = String.length s.
Proof. unfold codes. rewrite length_fmap. induction s; simpl; congruence. Qed.

Lemma length_string_app (s t : string) : String.length (s +:+ t) = (String.length s + String.length t)%nat.
Proof. induction s as [|c s IH]; [done|]. simpl. by rewrite IH. Qed.

Lemma more_params_length l : (length l ≤ String.length (more_params l))%nat.
Proof. induction l as [|kv l IH]; [done|]. simpl. rewrite length_string_app. lia. Qed.

Lemma params_length l : (length l ≤ S (String.length (params_string l)))%nat.
Proof.
  destruct l as [|kv l]; [simpl; lia|]. simpl. rewrite length_string_app. pose proof (more_params_length l). lia.
Qed.

Lemma with_params_Params l out :
  Params (foldl (λ o kv, with_Param kv.1 kv.2 o) out l) = foldl (λ m kv, <[kv.1 := kv.2]> m) (Params out) l.
Proof. revert out. induction l as [|kv l IH]; intros out; [done|]. simpl. by rewrite IH. Qed.

Lemma with_params_rest l out :
  Id (foldl (λ o kv, with_Param kv.1 kv.2 o) out l) = Id out ∧
  Version (foldl (λ o kv, with_Param kv.1 kv.2 o) out l) = Version out.
Proof. revert out. induction l as [|kv l IH]; intros out; [done|]. simpl. by destruct (IH (with_Param kv.1 kv.2 out)). Qed.

Lemma foldl_insert_list_to_map (l : list (string * string)) (m : gmap string string) :
  NoDup l.*1 → foldl (λ m kv, <[kv.1 := kv.2]> m) m l = list_to_map l ∪ m.
Proof.
  revert m. induction l as [|[k v] l IH]; intros m; simpl; [by rewrite (left_id_L ∅ _)|].
  intros [Hk Hnd]%NoDup_cons. rewrite IH by done.
  rewrite <-insert_union_l. symmetry. apply insert_union_r. by apply not_elem_of_list_to_map_1.
Qed.

Lemma finished p l out :
  well_formed p l → Id out = Id p → Version out = Version p → Params out = ∅ →
  finish (foldl (λ o kv, with_Param kv.1 kv.2 o) out l) (Salt p) (Hash p) = p.
Proof.
  intros Hwf Hi Hv Hp. unfold finish. rewrite with_params_Params.
  destruct (with_params_rest l out) as [-> ->].
  rewrite foldl_insert_list_to_map by apply (wf_keys _ _ Hwf).
  rewrite Hp, (right_id_L ∅ _), <-(wf_params _ _ Hwf), Hi, Hv. by destruct p.
Qed.

Lemma at_sep_body l salt hash : at_separator (codes (params_string l +:+ salt_string salt hash)).
Proof. destruct l; [apply at_sep_salt|simpl; auto]. Qed.

Lemma bind_ok {A B} (m : P A) (k : A → P B) a r r' : m r = (Ok a, r') → m_bind m k r = k a r'.
Proof. unfold m_bind. by intros ->. Qed.

Lemma or_fail_ok {A} msg (m : P A) a r r' : m r = (Ok a, r') → or_fail msg m r = (Ok a, r').
Proof. unfold or_fail. by intros ->. Qed.

Lemma separator_dollar s last :
  scanSeparator (Reader last (codes ("$" +:+ s))) = (Ok (DOLLARSIGN, "$"), Reader (Some 36%Z) (codes s)).
Proof. done. Qed.

Lemma token_equal s last :
  parseToken EQUALSIGN (Reader last (codes ("=" +:+ s))) = (Ok "=", Reader (Some 61%Z) (codes s)).
Proof. done. Qed.

Lemma is_ascii_app s t : is_ascii (s +:+ t) = is_ascii s && is_ascii t.
Proof. apply all_chars_app. Qed.

Lemma word_is_ascii q w `{!TokenClass q} : word q w → is_ascii w = true.
Proof. intros [_ Hw]. by apply (word_ascii q). Qed.

Lemma param_ascii kv :
  word isLowercaseLetterOrDigitOrMinus kv.1 → word isLetterOrDigitOrSymbol kv.2 →
  is_ascii (param_string kv) = true.
Proof.
  intros Hk Hv. unfold param_string. rewrite !is_ascii_app.
  by rewrite (word_is_ascii _ _ Hk), (word_is_ascii _ _ Hv).
Qed.

Lemma more_params_ascii l :
  Forall (λ kv, word isLowercaseLetterOrDigitOrMinus kv.1) l →
  Forall (λ kv, word isLetterOrDigitOrSymbol kv.2) l → is_ascii (more_params l) = true.
Proof.
  induction l as [|kv l IH]; [done|]. intros [Hk Hks]%Forall_cons [Hv Hvs]%Forall_cons.
  cbn [more_params]. by rewrite !is_ascii_app, param_ascii, IH.
Qed.

Lemma phc_string_ascii p l : well_formed p l → is_ascii (phc_string p l) = true.
Proof.
  intros Hwf. pose proof (wf_names _ _ Hwf) as Hn. pose proof (wf_values _ _ Hwf) as Hv.
  unfold phc_string. rewrite !is_ascii_app, !andb_true_iff. split_and!; [done| | | |].
  - apply (word_is_ascii _ _ (wf_id _ _ Hwf)).
  - unfold version_string. destruct (decide _) as [|Hne]; [done|]. rewrite is_ascii_app.
    by rewrite (word_is_ascii _ _ (wf_version _ _ Hwf Hne)).
  - destruct l as [|kv l]; [done|]. apply Forall_cons in Hn as [Hk Hn]. apply Forall_cons in Hv as [Hv Hvs].
    cbn [params_string]. by rewrite !is_ascii_app, param_ascii, more_params_ascii.
  - unfold salt_string, hash_string. destruct (decide _) as [|Hne]; [done|].
    rewrite !is_ascii_app, (word_is_ascii _ _ (wf_salt _ _ Hwf Hne)). destruct (decide _) as [|Hh]; [done|].
    destruct (wf_hash _ _ Hwf Hh) as [_ Hw]. by rewrite is_ascii_app, (word_is_ascii _ _ Hw).
Qed.

(** Parsing inverts printing. *)
Lemma Parse_phc_string p l : well_formed p l → Parse (New (phc_string p l)) = Ok p.
Proof.
  intros Hwf. pose proof (phc_string_ascii p l Hwf) as Hascii. unfold New, Parse.
  rewrite substring_all, runes_codes by (done || apply (wf_length _ _ Hwf)). simpl (input _).
  rewrite length_codes.
  assert (length l ≤ S (String.length (phc_string p l)))%nat as Hfuel.
  { unfold phc_string. rewrite !length_string_app. pose proof (params_length l). lia. }
  revert Hfuel. generalize (S (String.length (phc_string p l))). intros fuel Hfuel.
  unfold phc_string. rewrite codes_sep, codes_app. unfold parse_phc, parseFunctionId.
  unfold m_bind at 1, or_fail at 1. unfold m_bind at 1. simpl.
  unfold or_fail at 1. rewrite (token_word isLowercaseLetterOrDigitOrMinus);
    [|done|done|apply (wf_id _ _ Hwf)|].
  2: { unfold version_string. destruct (decide _); [apply at_sep_body|simpl; auto]. }
  unfold version_string. destruct (decide (Version p = "")) as [Hv|Hv].
  - set (out := {| Id := Id p; Version := ""; Params := ∅; Salt := ""; Hash := "" |}).
    etrans; [apply (body_parsed p l fuel out None _
               (λ ident, if decide (ident = "v") then parse_version fuel out else parse_tail fuel out ident))|]; try done.
    { intros ident Hi. destruct (decide _) as [->|]; [|done].
      by destruct (Hi eq_refl) as [-> ?%(wf_salt_v _ _ Hwf)]. }
    f_equal. by apply finished.
  - set (rest := params_string l +:+ salt_string (Salt p) (Hash p)).
    assert (("$v=" +:+ Version p) +:+ rest = "$" +:+ "v" +:+ "=" +:+ Version p +:+ rest) as -> by (by rewrite string_app_assoc).
    rewrite (bind_ok _ _ _ _ _ (separator_dollar _ _)). cbn [fst N.eqb Pos.eqb EOF DOLLARSIGN].
    erewrite bind_ok; [|apply or_fail_ok; rewrite codes_app; apply (token_word isB64); try done; apply at_sep_equal].
    rewrite decide_True by done. unfold parse_version.
    erewrite bind_ok; [|apply or_fail_ok; unfold parseParamRHS; rewrite (bind_ok _ _ _ _ _ (token_equal _ _)), codes_app;
      apply (token_word isLetterOrDigitOrSymbol); try done; [by apply (wf_version _ _ Hwf)|apply at_sep_body]].
    set (out := with_Version (Version p) {| Id := Id p; Version := ""; Params := ∅; Salt := ""; Hash := "" |}).
    etrans; [by apply (body_parsed p l fuel out None _ (parse_tail fuel out))|].
    f_equal. by apply finished.
Qed.

(** C38: Printing and parsing PHC strings round trip.  A PHC is [well_formed]
    when its parts are words of their alphabets, its parameters have distinct
    names, a hash comes with a salt, and what follows the id or the version
    can be told apart: the first parameter name has no hyphen and is not "v",
    nor is a salt right behind the id, since the identifier there is scanned
    as base64 and "v" is the version key (a hyphen there is refused, see
    [first_parameter_alphabet]).  Printed with its parameters in any order and
    within 256 characters it parses back to itself, so that two such PHCs with
    the same string are equal.  On every string, well formed or not, the
    parser terminates: its fuel, one unit per rune, never runs out. *)
Theorem phc_round_trip p l :
  well_formed p l →
  Parse (New (phc_string p l)) = Ok p ∧
  (∀ p' l', well_formed p' l' → phc_string p' l' = phc_string p l → p' = p) ∧
  (∀ s, Parse (New s) ≠ Err ParseFuel).
Proof.
  intros Hwf. split_and!; [by apply Parse_phc_string| |intros s; apply Parse_no_fuel].
  intros p' l' Hwf' Heq. pose proof (Parse_phc_string p' l' Hwf') as Hp'.
  rewrite Heq, Parse_phc_string in Hp' by done. congruence.
Qed.

Definition demo_params : list (string * string) := [("m", "120"); ("t", "5000"); ("keyid", "Hj5+dsK0")].

Definition demo_phc : PHC :=
  {| Id := "argon2id"; Version := "19"; Params := list_to_map demo_params;
     Salt := "4fXXG0spB92WPB1NitT8/OH0VKI"; Hash := "iPBVuORECm5biUsjq33hn9/7BKqy9aPWKhFfK2haEsM" |}.

Lemma demo_well_formed : well_formed demo_phc demo_params.
Proof.
  split; try done; try (by repeat constructor); try (by vm_compute; lia).
  - apply (bool_decide_unpack _). by vm_compute.
  - by intros kv [= <-].
Qed.

Lemma phc_round_trip_witness :
  Parse (New "$argon2id$v=19$m=120,t=5000,keyid=Hj5+dsK0$4fXXG0spB92WPB1NitT8/OH0VKI$iPBVuORECm5biUsjq33hn9/7BKqy9aPWKhFfK2haEsM") =
    Ok demo_phc.
Proof. exact (proj1 (phc_round_trip demo_phc demo_params demo_well_formed)). Defined.

(** The identifier behind the first '$' is scanned as base64, which is not the
    superset of the parameter names its comment says: a first name with a
    hyphen is refused, one with a capital accepted, and the other way round
    for the later names. *)
Example first_parameter_alphabet :
  (∃ e, Parse (New "$argon2id$key-id=1") = Err e) ∧ (∃ p, Parse (New "$argon2id$m=1,key-id=1") = Ok p) ∧
  (∃ p, Parse (New "$argon2id$M=1") = Ok p) ∧ (∃ e, Parse (New "$argon2id$m=1,M=1") = Err e).
Proof. split_and!; by eexists; vm_compute. Qed.

(** The limit counts bytes and cuts without an error: a string that is too
    long parses to a shorter hash. *)
Example long_hash_is_cut :
  ∃ p, Parse (New ("$id$salt$" +:+ of_runes (repeat 97%Z 300))) = Ok p ∧ String.length (Hash p) = 247%nat.
Proof. eexists. split; [by vm_compute|by vm_compute]. Qed.

End Phc.
