(* ===== verification/Hashers.v ===== *)
(** * Password hashing (server/channels/app/password/hashers)

    The PBKDF2 hasher and its PHC strings, the old bcrypt hasher, and the
    choice of the hasher from a stored hash.  The primitives of crypto/pbkdf2,
    crypto/rand and golang.org/x/crypto/bcrypt are the parameter [Crypto]. *)

From Stdlib Require Import Ascii.
From stdpp Require Import strings pretty.
From S2P Require Import Prelude.
From S2P Require Import GoString.
From S2P Require Import GoUtf8.
From S2P Require Import GoRunes.
From S2P Require Import PhcParser.

Local Open Scope string_scope.

(** ** base64.RawStdEncoding *)

Definition b64_char (n : Z) : ascii :=
  byte_chr (if n <? 26 then n + 65 else if n <? 52 then n + 71 else if n <? 62 then n - 4
            else if n =? 62 then 43 else 47)%Z.

Definition b64_value (c : ascii) : option Z :=
  let x := byte_z c in
  if within_z 65 90 x then Some (x - 65)%Z
  else if within_z 97 122 x then Some (x - 71)%Z
  else if within_z 48 57 x then Some (x + 4)%Z
  else if (x =? 43)%Z then Some 62%Z
  else if (x =? 47)%Z then Some 63%Z
  else None.

(** The sextets of a group of three bytes. *)
Definition sextets (a b c : Z) : list Z :=
  let n := (a * 65536 + b * 256 + c)%Z in [(n / 262144)%Z; (n / 4096 mod 64)%Z; (n / 64 mod 64)%Z; (n mod 64)%Z].

(** Two characters for one byte at the end, three for two. *)
Fixpoint b64_sextets (s : string) : list Z :=
  match s with
  | EmptyString => []
  | String a EmptyString => take 2 (sextets (byte_z a) 0 0)
  | String a (String b EmptyString) => take 3 (sextets (byte_z a) (byte_z b) 0)
  | String a (String b (String c s)) => (sextets (byte_z a) (byte_z b) (byte_z c) ++ b64_sextets s)%list
  end.

Definition b64_string (l : list Z) : string := foldr (λ n s, String (b64_char n) s) "" l.

Definition b64_encode (s : string) : string := b64_string (b64_sextets s).

Definition z_chr (x : Z) : ascii := byte_chr (x mod 256).

(** Groups of four values; two or three at the end, and the bits left over are
    not looked at. *)
Fixpoint b64_values (l : list Z) : option string :=
  match l with
  | [] => Some ""
  | [_] => None
  | [x; y] => let n := (x * 262144 + y * 4096)%Z in Some (String (z_chr (n / 65536)) "")
  | [x; y; z] =>
      let n := (x * 262144 + y * 4096 + z * 64)%Z in
      Some (String (z_chr (n / 65536)) (String (z_chr (n / 256)) ""))
  | x :: y :: z :: t :: l =>
      let n := (x * 262144 + y * 4096 + z * 64 + t)%Z in
      s ← b64_values l;
      Some (String (z_chr (n / 65536)) (String (z_chr (n / 256)) (String (z_chr n) s)))
  end.

(** Line breaks are skipped. *)
Definition b64_decode (s : string) : option string :=
  l ← mapM b64_value (filter (λ c, byte_z c ≠ 10%Z ∧ byte_z c ≠ 13%Z) (String.list_ascii_of_string s));
  b64_values l.

Lemma b64_value_char n : (0 ≤ n < 64)%Z → b64_value (b64_char n) = Some n ∧ Phc.isB64 (byte_z (b64_char n)) = true.
Proof.
  intros Hn.
  assert (forallb (λ k, bool_decide (b64_value (b64_char (Z.of_nat k)) = Some (Z.of_nat k)) &&
                        Phc.isB64 (byte_z (b64_char (Z.of_nat k)))) (seq 0 64) = true) as Hall by (by vm_compute).
  rewrite forallb_forall in Hall. specialize (Hall (Z.to_nat n)).
  rewrite in_seq, Z2Nat.id in Hall by lia. specialize (Hall ltac:(lia)).
  apply andb_true_iff in Hall as [Hv%bool_decide_eq_true Hb]. done.
Qed.

Lemma string_three_ind (P : string → Prop) :
  P "" → (∀ a, P (String a "")) → (∀ a b, P (String a (String b ""))) →
  (∀ a b c s, P s → P (String a (String b (String c s)))) → ∀ s, P s.
Proof.
  intros H0 H1 H2 H3. refine (fix go s := _). destruct s as [|a [|b [|c s]]]; [done|apply H1|apply H2|].
  apply H3, go.
Qed.

Lemma sextets_bound a b c : (0 ≤ a < 256)%Z → (0 ≤ b < 256)%Z → (0 ≤ c < 256)%Z →
  Forall (λ x, 0 ≤ x < 64)%Z (sextets a b c).
Proof.
  intros Ha Hb Hc. unfold sextets. repeat constructor; try (apply Z.mod_pos_bound; lia).
  - apply Z.div_pos; lia.
  - apply Z.div_lt_upper_bound; lia.
Qed.

Lemma sextets_sum a b c : (0 ≤ a < 256)%Z → (0 ≤ b < 256)%Z → (0 ≤ c < 256)%Z →
  let n := (a * 65536 + b * 256 + c)%Z in
  (n / 262144 * 262144 + n / 4096 mod 64 * 4096 + n / 64 mod 64 * 64 + n mod 64)%Z = n.
Proof. intros Ha Hb Hc n. subst n. Z.to_euclidean_division_equations. lia. Qed.

Lemma bytes_of_sum a b c : (0 ≤ a < 256)%Z → (0 ≤ b < 256)%Z → (0 ≤ c < 256)%Z →
  let n := (a * 65536 + b * 256 + c)%Z in
  ((n / 65536) mod 256 = a ∧ (n / 256) mod 256 = b ∧ n mod 256 = c)%Z.
Proof. intros Ha Hb Hc n. subst n. Z.to_euclidean_division_equations. lia. Qed.

Lemma b64_sextets_bound s : Forall (λ x, 0 ≤ x < 64)%Z (b64_sextets s).
Proof.
  pose proof byte_z_range as Hr. induction s as [|a|a b|a b c s IH] using string_three_ind; cbn [b64_sextets].
  - constructor.
  - apply Forall_take, sextets_bound; auto with lia.
  - apply Forall_take, sextets_bound; auto with lia.
  - apply Forall_app. split; [by apply sextets_bound|done].
Qed.

Lemma b64_values_sextets s : b64_values (b64_sextets s) = Some s.
Proof.
  pose proof byte_z_range as Hr. induction s as [|a|a b|a b c s IH] using string_three_ind; cbn [b64_sextets].
  - done.
  - pose proof (bytes_of_sum (byte_z a) 0 0 (Hr a) ltac:(lia) ltac:(lia)) as (H1 & _ & _).
    pose proof (Hr a) as Ha. cbn [take sextets b64_values]. do 2 f_equal. unfold z_chr.
    transitivity (byte_chr (byte_z a)); [|apply byte_chr_z]. f_equal.
    Z.to_euclidean_division_equations. lia.
  - pose proof (Hr a) as Ha. pose proof (Hr b) as Hb. cbn [take sextets b64_values]. unfold z_chr.
    do 2 f_equal; [|f_equal];
      [transitivity (byte_chr (byte_z a)); [|apply byte_chr_z]|transitivity (byte_chr (byte_z b)); [|apply byte_chr_z]];
      f_equal; Z.to_euclidean_division_equations; lia.
  - cbn [sextets app b64_values]. rewrite IH, sextets_sum by apply Hr. simpl. unfold z_chr.
    destruct (bytes_of_sum (byte_z a) (byte_z b) (byte_z c)) as (-> & -> & ->); try apply Hr.
    by rewrite !byte_chr_z.
Qed.

Lemma list_of_b64_string l : String.list_ascii_of_string (b64_string l) = b64_char <$> l.
Proof. induction l as [|n l IH]; [done|]. simpl. by rewrite IH. Qed.

Lemma b64_values_of_chars l : Forall (λ x, 0 ≤ x < 64)%Z l →
  mapM b64_value (filter (λ c, byte_z c ≠ 10%Z ∧ byte_z c ≠ 13%Z) (b64_char <$> l)) = Some l.
Proof.
  induction 1 as [|n l Hn _ IH]; [done|]. rewrite fmap_cons.
  destruct (b64_value_char n Hn) as [Hv Hb]. rewrite filter_cons_True.
  - simpl. by rewrite Hv, IH.
  - split; intros E; by rewrite E in Hb.
Qed.

Lemma b64_decode_encode s : b64_decode (b64_encode s) = Some s.
Proof.
  unfold b64_decode, b64_encode. rewrite list_of_b64_string, b64_values_of_chars by apply b64_sextets_bound.
  apply b64_values_sextets.
Qed.

Lemma b64_encode_chars s : Phc.all_of Phc.isB64 (b64_encode s) = true.
Proof.
  unfold b64_encode. induction (b64_sextets_bound s) as [|n l Hn _ IH]; [done|].
  unfold Phc.all_of in *. simpl. by rewrite (proj2 (b64_value_char n Hn)).
Qed.

Lemma b64_encode_length s : String.length (b64_encode s) = ((String.length s * 8 + 5) / 6)%nat.
Proof.
  assert (∀ l, String.length (b64_string l) = length l) as Hl by (induction l; simpl; congruence).
  unfold b64_encode. rewrite Hl. induction s as [|a|a b|a b c s IH] using string_three_ind; try done.
  cbn [b64_sextets]. rewrite length_app, IH. cbn [String.length].
  replace (S (S (S (String.length s))) * 8 + 5)%nat with (4 * 6 + (String.length s * 8 + 5))%nat by lia.
  by rewrite Nat.div_add_l by lia.
Qed.

(** ** Integers as strings *)

Definition Itoa (n : Z) : string := pretty n.

Fixpoint digits_value (acc : Z) (s : string) : option Z :=
  match s with
  | EmptyString => Some acc
  | String c s => if is_digit c then digits_value (acc * 10 + (byte_z c - 48))%Z s else None
  end.

(** strconv.Atoi: an optional sign, digits, and the range of int. *)
Definition Atoi (s : string) : option Z :=
  let '(sign, ds) := match s with
                     | String "-" t => ((-1)%Z, t)
                     | String "+" t => (1%Z, t)
                     | _ => (1%Z, s)
                     end in
  n ← (if decide (ds = "") then None else digits_value 0 ds);
  let v := (sign * n)%Z in
  if (-int64_half <=? v)%Z && (v <? int64_half)%Z then Some v else None.

Lemma pretty_N_char_digit d : (d < 10)%N → is_digit (pretty_N_char d) = true ∧ byte_z (pretty_N_char d) = (48 + Z.of_N d)%Z.
Proof.
  intros Hd. assert (d ∈ [0; 1; 2; 3; 4; 5; 6; 7; 8; 9]%N) as Hin by (rewrite !elem_of_cons; lia).
  revert Hd. clear -Hin. rewrite !elem_of_cons, elem_of_nil in Hin.
  repeat destruct Hin as [->|Hin]; done.
Qed.

Lemma digits_value_pretty x s : digits_value 0 (pretty_N_go x s) = digits_value (Z.of_N x) s.
Proof.
  revert s. induction (N.lt_wf_0 x) as [x _ IH]. intros s.
  destruct (decide (x = 0)%N) as [->|Hx]; [by rewrite pretty_N_go_0|].
  rewrite pretty_N_go_step by lia. rewrite IH by (apply N.div_lt; lia). cbn [digits_value].
  destruct (pretty_N_char_digit (x mod 10)) as [-> Hb]; [by apply N.mod_lt|]. rewrite Hb. f_equal.
  rewrite N2Z.inj_div, N2Z.inj_mod. change (Z.of_N 10) with 10%Z.
  pose proof (Z.div_mod (Z.of_N x) 10). lia.
Qed.

Lemma pretty_N_go_head x s : (0 < x)%N → ∃ c t, pretty_N_go x s = String c t ∧ is_digit c = true.
Proof.
  revert s. induction (N.lt_wf_0 x) as [x _ IH]. intros s Hx. rewrite pretty_N_go_step by done.
  destruct (decide (x / 10 = 0)%N) as [->|Hd].
  - rewrite pretty_N_go_0. eexists _, _. split; [done|]. apply pretty_N_char_digit. by apply N.mod_lt.
  - apply IH; [apply N.div_lt; lia|by apply N.neq_0_lt_0].
Qed.

(** A printed number is read back. *)
Lemma Atoi_Itoa n : (0 ≤ n < int64_half)%Z → Atoi (Itoa n) = Some n.
Proof.
  intros Hn. destruct (decide (n = 0)%Z) as [->|Hz]; [done|].
  assert (Itoa n = pretty_N_go (Z.to_N n) "") as ->.
  { unfold Itoa. destruct n as [|p|p]; [done| |lia]. done. }
  destruct (pretty_N_go_head (Z.to_N n) "") as (c & t & Hp & Hc); [lia|].
  pose proof (digits_value_pretty (Z.to_N n) "") as Hv. rewrite Hp in Hv |- *.
  change (digits_value (Z.of_N (Z.to_N n)) "") with (Some (Z.of_N (Z.to_N n))) in Hv.
  assert (Atoi (String c t) = (v ← digits_value 0 (String c t);
    if (-int64_half <=? 1 * v)%Z && (1 * v <? int64_half)%Z then Some (1 * v)%Z else None)) as ->.
  { unfold Atoi. destruct c as [[] [] [] [] [] [] [] []]; done. }
  rewrite Hv. cbn [mbind option_bind]. rewrite Z2N.id, Z.mul_1_l by lia.
  rewrite (proj2 (Z.leb_le _ _)), (proj2 (Z.ltb_lt _ _)) by (unfold int64_half in *; lia). done.
Qed.

(** ** The primitives *)

Inductive hashError :=
  | ErrPasswordTooLong
  | ErrMismatchedHashAndPassword
  | HashError (msg : string).

Class Crypto := {
  (** pbkdf2.Key(sha256.New, password, salt, iter, keyLength) *)
  pbkdf2_Key : string → string → Z → Z → res hashError string;
  (** io.ReadFull(rand.Reader, ...) of the given length; [nat] numbers the draws *)
  rand_bytes : nat → nat → option string;
  (** bcrypt.GenerateFromPassword and bcrypt.CompareHashAndPassword *)
  bcrypt_Generate : nat → string → Z → res hashError string;
  bcrypt_Compare : string → string → option hashError;
}.

(** Documented behaviour: a key has the length asked for, ReadFull fills the
    buffer, bcrypt refuses what is longer than 72 bytes. *)
Class CryptoOk `{Crypto} := {
  pbkdf2_key_length : ∀ p s w l k, pbkdf2_Key p s w l = Ok k → String.length k = Z.to_nat l;
  rand_length : ∀ n l s, rand_bytes n l = Some s → String.length s = l;
}.

Definition PasswordMaxLengthBytes : nat := 72.
Definition PBKDF2FunctionId : string := "pbkdf2".
Definition defaultPRFName : string := "SHA256".
Definition defaultWorkFactor : Z := 600000.
Definition defaultKeyLength : Z := 32.
Definition saltLenBytes : nat := 16.
Definition BCryptCost : Z := 10.

Definition too_long (password : string) : bool := (PasswordMaxLengthBytes <? String.length password)%nat.

(** ** The hashers *)

Record PBKDF2 := { workFactor : Z; keyLength : Z; phcHeader : string }.

Inductive PasswordHasher := HPBKDF2 (p : PBKDF2) | HBCrypt.

Definition NewPBKDF2 (w l : Z) : res hashError PBKDF2 :=
  if (w <=? 0)%Z then Err (HashError "work factor must be strictly positive")
  else if (l <=? 0)%Z then Err (HashError "key length must be strictly positive")
  else Ok {| workFactor := w; keyLength := l;
             phcHeader := "$" +:+ PBKDF2FunctionId +:+ "$f=" +:+ defaultPRFName +:+ ",w=" +:+ Itoa w
                          +:+ ",l=" +:+ Itoa l +:+ "$" |}.

(** [None] is the panic. *)
Definition DefaultPBKDF2 : option PBKDF2 :=
  match NewPBKDF2 defaultWorkFactor defaultKeyLength with Ok h => Some h | Err _ => None end.

Definition latest : PBKDF2 := default {| workFactor := 0; keyLength := 0; phcHeader := "" |} DefaultPBKDF2.

Definition latestHasher : PasswordHasher := HPBKDF2 latest.

Definition param (p : Phc.PHC) (k : string) : string := default "" (Phc.Params p !! k).

Definition NewPBKDF2FromPHC (phc : Phc.PHC) : res hashError PBKDF2 :=
  match Atoi (param phc "w") with
  | None => Err (HashError "invalid work factor parameter")
  | Some w =>
      match Atoi (param phc "l") with
      | None => Err (HashError "invalid key length parameter")
      | Some l => NewPBKDF2 w l
      end
  end.

Section hashers.
Context `{Crypto}.

Definition hashWithSalt (p : PBKDF2) (password salt : string) : res hashError string :=
  match pbkdf2_Key password salt (workFactor p) (keyLength p) with
  | Err _ => Err (HashError "failed hashing the password")
  | Ok hash => Ok (b64_encode hash)
  end.

(** [draw] numbers the random salt. *)
Definition PBKDF2_Hash (p : PBKDF2) (draw : nat) (password : string) : res hashError string :=
  if too_long password then Err ErrPasswordTooLong
  else match rand_bytes draw saltLenBytes with
       | None => Err (HashError "unable to generate salt for user")
       | Some salt =>
           match hashWithSalt p password salt with
           | Err _ => Err (HashError "failed to hash the password")
           | Ok hash => Ok (phcHeader p +:+ b64_encode salt +:+ "$" +:+ hash)
           end
       end.

Definition PBKDF2_IsPHCValid (p : PBKDF2) (phc : Phc.PHC) : bool :=
  bool_decide (Phc.Id phc = PBKDF2FunctionId) && bool_decide (size (Phc.Params phc) = 3%nat) &&
  bool_decide (param phc "f" = defaultPRFName) && bool_decide (param phc "w" = Itoa (workFactor p)) &&
  bool_decide (param phc "l" = Itoa (keyLength p)).

(** [None]: the password is the right one. *)
Definition PBKDF2_Compare (p : PBKDF2) (phc : Phc.PHC) (password : string) : option hashError :=
  if too_long password then Some ErrPasswordTooLong
  else if negb (PBKDF2_IsPHCValid p phc) then Some (HashError "the stored password does not comply")
  else match b64_decode (Phc.Salt phc) with
       | None => Some (HashError "failed decoding hash's salt")
       | Some salt =>
           match hashWithSalt p password salt with
           | Err _ => Some (HashError "failed to hash the password")
           | Ok newHash => if decide (Phc.Hash phc = newHash) then None else Some ErrMismatchedHashAndPassword
           end
       end.

Definition BCrypt_Hash (draw : nat) (password : string) : res hashError string :=
  bcrypt_Generate draw password BCryptCost.

Definition BCrypt_Compare (phc : Phc.PHC) (password : string) : option hashError :=
  if too_long password then Some ErrPasswordTooLong else bcrypt_Compare (Phc.Hash phc) password.

Definition CompareHashAndPassword (h : PasswordHasher) (phc : Phc.PHC) (password : string) : option hashError :=
  match h with HPBKDF2 p => PBKDF2_Compare p phc password | HBCrypt => BCrypt_Compare phc password end.

(** bcrypt takes the whole string as its hash. *)
Definition getOriginalHasher (phcString : string) : PasswordHasher * Phc.PHC :=
  (HBCrypt, Phc.with_Hash phcString Phc.empty_PHC).

Definition GetHasherFromPHCString (phcString : string) : res hashError (PasswordHasher * Phc.PHC) :=
  match Phc.Parse (Phc.New phcString) with
  | Err _ => Ok (getOriginalHasher phcString)
  | Ok phc =>
      if PBKDF2_IsPHCValid latest phc then Ok (latestHasher, phc)
      else if decide (Phc.Id phc = PBKDF2FunctionId) then
        match NewPBKDF2FromPHC phc with
        | Err _ => Err (HashError "the provided PHC string is PBKDF2, but is not valid")
        | Ok p => Ok (HPBKDF2 p, phc)
        end
      else Ok (getOriginalHasher phcString)
  end.

(** [hashers.Hash] *)
Definition Hash (draw : nat) (password : string) : res hashError string := PBKDF2_Hash latest draw password.

(** [hasher == latestHasher] *)
Definition IsLatestHasher (h : PasswordHasher) : bool :=
  match h with
  | HPBKDF2 p => bool_decide (workFactor p = workFactor latest) && bool_decide (keyLength p = keyLength latest) &&
                 bool_decide (phcHeader p = phcHeader latest)
  | HBCrypt => false
  end.

End hashers.

(** ** A hash can be checked, and cannot be hashed again *)

Lemma latest_eq : latest = {| workFactor := 600000; keyLength := 32; phcHeader := "$pbkdf2$f=SHA256,w=600000,l=32$" |}.
Proof. vm_compute. reflexivity. Qed.

Lemma latest_header : phcHeader latest = "$pbkdf2$f=SHA256,w=600000,l=32$".
Proof. by rewrite latest_eq. Qed.

Definition latest_params : list (string * string) := [("f", "SHA256"); ("w", "600000"); ("l", "32")].

(** The PHC a hash parses to. *)
Definition latest_phc (salt hash : string) : Phc.PHC :=
  {| Phc.Id := "pbkdf2"; Phc.Version := ""; Phc.Params := list_to_map latest_params;
     Phc.Salt := b64_encode salt; Phc.Hash := b64_encode hash |}.

Lemma b64_encode_ne s : s ≠ "" → b64_encode s ≠ "".
Proof. intros Hs Heq. apply Hs. pose proof (b64_decode_encode s) as Hd. rewrite Heq in Hd. by injection Hd. Qed.

Lemma b64_encode_inj s t : b64_encode s = b64_encode t → s = t.
Proof. intros Heq. pose proof (b64_decode_encode s) as Hs. rewrite Heq, b64_decode_encode in Hs. congruence. Qed.

Lemma latest_phc_string salt hash :
  String.length salt = 16%nat → String.length hash = 32%nat →
  Phc.phc_string (latest_phc salt hash) latest_params =
    phcHeader latest +:+ b64_encode salt +:+ "$" +:+ b64_encode hash.
Proof.
  intros Hs Hh. rewrite latest_header. unfold Phc.phc_string, Phc.salt_string, Phc.hash_string. simpl.
  rewrite !decide_False; [done|intros E; by apply (b64_encode_ne hash); [intros ->|]|].
  intros E. by apply (b64_encode_ne salt); [intros ->|].
Qed.

Lemma hash_string_length salt hash :
  String.length salt = 16%nat → String.length hash = 32%nat →
  String.length (phcHeader latest +:+ b64_encode salt +:+ "$" +:+ b64_encode hash) = 97%nat.
Proof.
  intros Hs Hh. rewrite latest_header, !Phc.length_string_app, !b64_encode_length, Hs, Hh. done.
Qed.

Lemma latest_phc_well_formed salt hash :
  String.length salt = 16%nat → String.length hash = 32%nat →
  Phc.well_formed (latest_phc salt hash) latest_params.
Proof.
  intros Hs Hh.
  assert (b64_encode salt ≠ "") by (apply b64_encode_ne; by intros ->).
  assert (b64_encode hash ≠ "") by (apply b64_encode_ne; by intros ->).
  split; try done; try (by repeat constructor).
  - by_computation.
  - by intros kv [= <-].
  - split; [done|apply b64_encode_chars].
  - split; [done|]. split; [done|apply b64_encode_chars].
  - rewrite latest_phc_string, hash_string_length by done. unfold Phc.MaxRunes. lia.
Qed.

Lemma latest_phc_valid salt hash : PBKDF2_IsPHCValid latest (latest_phc salt hash) = true.
Proof. rewrite latest_eq. vm_compute. reflexivity. Qed.

Section hash.
Context `{CryptoOk}.

Lemma Hash_inv draw p h :
  Hash draw p = Ok h →
  ∃ salt k, too_long p = false ∧ String.length salt = 16%nat ∧ String.length k = 32%nat ∧
    pbkdf2_Key p salt defaultWorkFactor defaultKeyLength = Ok k ∧
    h = phcHeader latest +:+ b64_encode salt +:+ "$" +:+ b64_encode k.
Proof.
  unfold Hash, PBKDF2_Hash, hashWithSalt. destruct (too_long p); [done|].
  destruct (rand_bytes draw saltLenBytes) as [salt|] eqn:Hr; [|done].
  replace (workFactor latest) with defaultWorkFactor by (by rewrite latest_eq).
  replace (keyLength latest) with defaultKeyLength by (by rewrite latest_eq).
  destruct (pbkdf2_Key _ _ _ _) as [k|e] eqn:Hk; [|done]. intros [= <-]. exists salt, k.
  split_and!; [done| |by apply pbkdf2_key_length in Hk|done|done].
  by apply rand_length in Hr.
Qed.

Lemma GetHasher_of_hash salt k :
  String.length salt = 16%nat → String.length k = 32%nat →
  GetHasherFromPHCString (phcHeader latest +:+ b64_encode salt +:+ "$" +:+ b64_encode k) =
    Ok (latestHasher, latest_phc salt k).
Proof.
  intros Hs Hk. unfold GetHasherFromPHCString.
  rewrite <-latest_phc_string, Phc.Parse_phc_string by (done || by apply latest_phc_well_formed).
  by rewrite latest_phc_valid.
Qed.

(** The stored string of a password accepts it. *)
Lemma Hash_accepts draw p h :
  Hash draw p = Ok h →
  ∃ phc, GetHasherFromPHCString h = Ok (latestHasher, phc) ∧ CompareHashAndPassword latestHasher phc p = None.
Proof.
  intros (salt & k & Hp & Hs & Hk & Hkey & ->)%Hash_inv. exists (latest_phc salt k).
  rewrite GetHasher_of_hash by done. split; [done|].
  unfold latestHasher, CompareHashAndPassword, PBKDF2_Compare. rewrite latest_phc_valid. simpl.
  rewrite b64_decode_encode. unfold hashWithSalt. rewrite Hp.
  replace (workFactor latest) with defaultWorkFactor by (by rewrite latest_eq).
  replace (keyLength latest) with defaultKeyLength by (by rewrite latest_eq).
  by rewrite Hkey, decide_True.
Qed.

(** A hash has 97 characters, more than the longest password. *)
Lemma Hash_too_long draw p h : Hash draw p = Ok h → too_long h = true.
Proof.
  intros (salt & k & _ & Hs & Hk & _ & ->)%Hash_inv. unfold too_long. rewrite hash_string_length by done. done.
Qed.

(** C39: A stored hash is checked with the hasher that made it, and is never
    hashed again.  The string [hashers.Hash] returns is read back as a PHC of
    the latest hasher, the password it was made from is accepted, only a
    password with the same derived key under the same salt is, and hashing the
    string itself is refused: it has 97 characters, 72 are allowed. *)
Theorem Hash_verifies draw p h :
  Hash draw p = Ok h →
  ∃ phc salt k, GetHasherFromPHCString h = Ok (latestHasher, phc) ∧
    pbkdf2_Key p salt defaultWorkFactor defaultKeyLength = Ok k ∧
    CompareHashAndPassword latestHasher phc p = None ∧
    (∀ q, CompareHashAndPassword latestHasher phc q = None →
       pbkdf2_Key q salt defaultWorkFactor defaultKeyLength = Ok k) ∧
    (∀ draw', Hash draw' h = Err ErrPasswordTooLong).
Proof.
  intros Hh. destruct (Hash_accepts draw p h Hh) as (phc & Hget & Hcmp).
  assert (∀ draw', Hash draw' h = Err ErrPasswordTooLong) as Hagain.
  { intros draw'. unfold Hash, PBKDF2_Hash. by rewrite (Hash_too_long _ _ _ Hh). }
  destruct (Hash_inv _ _ _ Hh) as (salt & k & _ & Hs & Hk & Hkey & ->).
  rewrite GetHasher_of_hash in Hget by done. injection Hget as <-.
  exists (latest_phc salt k), salt, k. split_and!; [by apply GetHasher_of_hash|done|done| |done].
  intros q. unfold CompareHashAndPassword, latestHasher, PBKDF2_Compare. destruct (too_long q); [done|].
  rewrite latest_phc_valid. simpl. rewrite b64_decode_encode. unfold hashWithSalt.
  replace (workFactor latest) with defaultWorkFactor by (by rewrite latest_eq).
  replace (keyLength latest) with defaultKeyLength by (by rewrite latest_eq).
  destruct (pbkdf2_Key q _ _ _) as [k'|e]; [|done]. destruct (decide _) as [Heq|]; [|done].
  intros _. by apply b64_encode_inj in Heq as ->.
Qed.

End hash.

(** ** A toy of the primitives *)

Fixpoint pad (n : nat) (s : string) : string :=
  match n with
  | O => ""
  | S n => match s with String c s => String c (pad n s) | EmptyString => String "0" (pad n "") end
  end.

Lemma pad_length n s : String.length (pad n s) = n.
Proof. revert s. induction n as [|n IH]; intros [|c s]; simpl; auto. Qed.

Definition toy_crypto : Crypto := {|
  pbkdf2_Key p s w l := Ok (pad (Z.to_nat l) (p +:+ s));
  rand_bytes n l := Some (pad l (pretty n));
  bcrypt_Generate n p cost :=
    if too_long p then Err ErrPasswordTooLong else Ok ("$2a$10$" +:+ pad 53 p);
  bcrypt_Compare h p := if decide (h = "$2a$10$" +:+ pad 53 p) then None else Some ErrMismatchedHashAndPassword;
|}.

Lemma toy_crypto_ok : @CryptoOk toy_crypto.
Proof. split; simpl; intros; simplify_eq; apply pad_length. Qed.

Lemma Hash_verifies_witness :
  ∃ h, @Hash toy_crypto 0 "Student@123" = Ok h ∧ @Hash toy_crypto 1 h = Err ErrPasswordTooLong ∧
    match GetHasherFromPHCString h with
    | Ok (hasher, phc) => @CompareHashAndPassword toy_crypto hasher phc "Student@123" = None
    | Err _ => False
    end.
Proof.
  destruct (@Hash toy_crypto 0 "Student@123") as [h|e] eqn:Hh; [|by vm_compute in Hh].
  exists h. split; [done|].
  destruct (@Hash_verifies toy_crypto toy_crypto_ok 0 "Student@123" h Hh) as (phc & salt & k & -> & _ & Hc & _ & Hr).
  split; [apply Hr|exact Hc].
Defined.
