(* ===== verification/PlatUser.v ===== *)
(** * Platform users (server/public/model/user.go)

    The user record and the methods the learning system relies on: validation,
    and the hooks the store runs before an insert ([PreSave], which hashes the
    password) and an update ([PreUpdate]).  A nil map of properties is the
    empty map; only the time zone tells nil from empty.

    net/mail's ParseAddress, x/text's language.Parse and the JSON of custom
    statuses and of string maps are the parameter [UserLib]. *)

From stdpp Require Import strings.
From S2P Require Import Prelude.
From S2P Require Import GoString.
From S2P Require Import GoUtf8.
From S2P Require Import GoRunes.
From S2P Require Import LmsModel.
From S2P Require Import Hashers.

Local Open Scope string_scope.

(** ** Data *)

Record User := {
  User_Id : string; User_CreateAt : Z; User_UpdateAt : Z; User_DeleteAt : Z; User_Username : string;
  User_Password : string; User_AuthData : option string; User_AuthService : string; User_Email : string;
  User_EmailVerified : bool; User_Nickname : string; User_FirstName : string; User_LastName : string;
  User_Position : string; User_Roles : string; User_AllowMarketing : bool; User_Props : gmap string string;
  User_NotifyProps : gmap string string; User_LastPasswordUpdate : Z; User_LastPictureUpdate : Z;
  User_FailedAttempts : Z; User_Locale : string; User_Timezone : option (gmap string string);
  User_MfaActive : bool; User_MfaSecret : string; User_RemoteId : option string; User_LastActivityAt : Z;
  User_IsBot : bool; User_BotDescription : string; User_BotLastIconUpdate : Z;
  User_TermsOfServiceId : string; User_TermsOfServiceCreateAt : Z; User_DisableWelcomeEmail : bool;
  User_LastLogin : Z; User_MfaUsedTimestamps : list string; User_Phone : option string;
  User_ParentId : option string;
}.

Record CustomStatus := { cs_Emoji : string; cs_Text : string; cs_Duration : string; cs_ExpiresAt : Z }.

Definition User_with_Id (v : string) (u : User) : User :=
  {| User_Id := v; User_CreateAt := User_CreateAt u; User_UpdateAt := User_UpdateAt u;
     User_DeleteAt := User_DeleteAt u; User_Username := User_Username u; User_Password := User_Password u;
     User_AuthData := User_AuthData u; User_AuthService := User_AuthService u; User_Email := User_Email u;
     User_EmailVerified := User_EmailVerified u; User_Nickname := User_Nickname u;
     User_FirstName := User_FirstName u; User_LastName := User_LastName u;
     User_Position := User_Position u; User_Roles := User_Roles u;
     User_AllowMarketing := User_AllowMarketing u; User_Props := User_Props u;
     User_NotifyProps := User_NotifyProps u; User_LastPasswordUpdate := User_LastPasswordUpdate u;
     User_LastPictureUpdate := User_LastPictureUpdate u; User_FailedAttempts := User_FailedAttempts u;
     User_Locale := User_Locale u; User_Timezone := User_Timezone u; User_MfaActive := User_MfaActive u;
     User_MfaSecret := User_MfaSecret u; User_RemoteId := User_RemoteId u;
     User_LastActivityAt := User_LastActivityAt u; User_IsBot := User_IsBot u;
     User_BotDescription := User_BotDescription u; User_BotLastIconUpdate := User_BotLastIconUpdate u;
     User_TermsOfServiceId := User_TermsOfServiceId u;
     User_TermsOfServiceCreateAt := User_TermsOfServiceCreateAt u;
     User_DisableWelcomeEmail := User_DisableWelcomeEmail u; User_LastLogin := User_LastLogin u;
     User_MfaUsedTimestamps := User_MfaUsedTimestamps u; User_Phone := User_Phone u;
     User_ParentId := User_ParentId u |}.

Definition User_with_UpdateAt (v : Z) (u : User) : User :=
  {| User_Id := User_Id u; User_CreateAt := User_CreateAt u; User_UpdateAt := v;
     User_DeleteAt := User_DeleteAt u; User_Username := User_Username u; User_Password := User_Password u;
     User_AuthData := User_AuthData u; User_AuthService := User_AuthService u; User_Email := User_Email u;
     User_EmailVerified := User_EmailVerified u; User_Nickname := User_Nickname u;
     User_FirstName := User_FirstName u; User_LastName := User_LastName u;
     User_Position := User_Position u; User_Roles := User_Roles u;
     User_AllowMarketing := User_AllowMarketing u; User_Props := User_Props u;
     User_NotifyProps := User_NotifyProps u; User_LastPasswordUpdate := User_LastPasswordUpdate u;
     User_LastPictureUpdate := User_LastPictureUpdate u; User_FailedAttempts := User_FailedAttempts u;
     User_Locale := User_Locale u; User_Timezone := User_Timezone u; User_MfaActive := User_MfaActive u;
     User_MfaSecret := User_MfaSecret u; User_RemoteId := User_RemoteId u;
     User_LastActivityAt := User_LastActivityAt u; User_IsBot := User_IsBot u;
     User_BotDescription := User_BotDescription u; User_BotLastIconUpdate := User_BotLastIconUpdate u;
     User_TermsOfServiceId := User_TermsOfServiceId u;
     User_TermsOfServiceCreateAt := User_TermsOfServiceCreateAt u;
     User_DisableWelcomeEmail := User_DisableWelcomeEmail u; User_LastLogin := User_LastLogin u;
     User_MfaUsedTimestamps := User_MfaUsedTimestamps u; User_Phone := User_Phone u;
     User_ParentId := User_ParentId u |}.

Definition User_with_DeleteAt (v : Z) (u : User) : User :=
  {| User_Id := User_Id u; User_CreateAt := User_CreateAt u; User_UpdateAt := User_UpdateAt u;
     User_DeleteAt := v; User_Username := User_Username u; User_Password := User_Password u;
     User_AuthData := User_AuthData u; User_AuthService := User_AuthService u; User_Email := User_Email u;
     User_EmailVerified := User_EmailVerified u; User_Nickname := User_Nickname u;
     User_FirstName := User_FirstName u; User_LastName := User_LastName u;
     User_Position := User_Position u; User_Roles := User_Roles u;
     User_AllowMarketing := User_AllowMarketing u; User_Props := User_Props u;
     User_NotifyProps := User_NotifyProps u; User_LastPasswordUpdate := User_LastPasswordUpdate u;
     User_LastPictureUpdate := User_LastPictureUpdate u; User_FailedAttempts := User_FailedAttempts u;
     User_Locale := User_Locale u; User_Timezone := User_Timezone u; User_MfaActive := User_MfaActive u;
     User_MfaSecret := User_MfaSecret u; User_RemoteId := User_RemoteId u;
     User_LastActivityAt := User_LastActivityAt u; User_IsBot := User_IsBot u;
     User_BotDescription := User_BotDescription u; User_BotLastIconUpdate := User_BotLastIconUpdate u;
     User_TermsOfServiceId := User_TermsOfServiceId u;
     User_TermsOfServiceCreateAt := User_TermsOfServiceCreateAt u;
     User_DisableWelcomeEmail := User_DisableWelcomeEmail u; User_LastLogin := User_LastLogin u;
     User_MfaUsedTimestamps := User_MfaUsedTimestamps u; User_Phone := User_Phone u;
     User_ParentId := User_ParentId u |}.

Definition User_with_Username (v : string) (u : User) : User :=
  {| User_Id := User_Id u; User_CreateAt := User_CreateAt u; User_UpdateAt := User_UpdateAt u;
     User_DeleteAt := User_DeleteAt u; User_Username := v; User_Password := User_Password u;
     User_AuthData := User_AuthData u; User_AuthService := User_AuthService u; User_Email := User_Email u;
     User_EmailVerified := User_EmailVerified u; User_Nickname := User_Nickname u;
     User_FirstName := User_FirstName u; User_LastName := User_LastName u;
     User_Position := User_Position u; User_Roles := User_Roles u;
     User_AllowMarketing := User_AllowMarketing u; User_Props := User_Props u;
     User_NotifyProps := User_NotifyProps u; User_LastPasswordUpdate := User_LastPasswordUpdate u;
     User_LastPictureUpdate := User_LastPictureUpdate u; User_FailedAttempts := User_FailedAttempts u;
     User_Locale := User_Locale u; User_Timezone := User_Timezone u; User_MfaActive := User_MfaActive u;
     User_MfaSecret := User_MfaSecret u; User_RemoteId := User_RemoteId u;
     User_LastActivityAt := User_LastActivityAt u; User_IsBot := User_IsBot u;
     User_BotDescription := User_BotDescription u; User_BotLastIconUpdate := User_BotLastIconUpdate u;
     User_TermsOfServiceId := User_TermsOfServiceId u;
     User_TermsOfServiceCreateAt := User_TermsOfServiceCreateAt u;
     User_DisableWelcomeEmail := User_DisableWelcomeEmail u; User_LastLogin := User_LastLogin u;
     User_MfaUsedTimestamps := User_MfaUsedTimestamps u; User_Phone := User_Phone u;
     User_ParentId := User_ParentId u |}.

Definition User_with_Password (v : string) (u : User) : User :=
  {| User_Id := User_Id u; User_CreateAt := User_CreateAt u; User_UpdateAt := User_UpdateAt u;
     User_DeleteAt := User_DeleteAt u; User_Username := User_Username u; User_Password := v;
     User_AuthData := User_AuthData u; User_AuthService := User_AuthService u; User_Email := User_Email u;
     User_EmailVerified := User_EmailVerified u; User_Nickname := User_Nickname u;
     User_FirstName := User_FirstName u; User_LastName := User_LastName u;
     User_Position := User_Position u; User_Roles := User_Roles u;
     User_AllowMarketing := User_AllowMarketing u; User_Props := User_Props u;
     User_NotifyProps := User_NotifyProps u; User_LastPasswordUpdate := User_LastPasswordUpdate u;
     User_LastPictureUpdate := User_LastPictureUpdate u; User_FailedAttempts := User_FailedAttempts u;
     User_Locale := User_Locale u; User_Timezone := User_Timezone u; User_MfaActive := User_MfaActive u;
     User_MfaSecret := User_MfaSecret u; User_RemoteId := User_RemoteId u;
     User_LastActivityAt := User_LastActivityAt u; User_IsBot := User_IsBot u;
     User_BotDescription := User_BotDescription u; User_BotLastIconUpdate := User_BotLastIconUpdate u;
     User_TermsOfServiceId := User_TermsOfServiceId u;
     User_TermsOfServiceCreateAt := User_TermsOfServiceCreateAt u;
     User_DisableWelcomeEmail := User_DisableWelcomeEmail u; User_LastLogin := User_LastLogin u;
     User_MfaUsedTimestamps := User_MfaUsedTimestamps u; User_Phone := User_Phone u;
     User_ParentId := User_ParentId u |}.

Definition User_with_Email (v : string) (u : User) : User :=
  {| User_Id := User_Id u; User_CreateAt := User_CreateAt u; User_UpdateAt := User_UpdateAt u;
     User_DeleteAt := User_DeleteAt u; User_Username := User_Username u; User_Password := User_Password u;
     User_AuthData := User_AuthData u; User_AuthService := User_AuthService u; User_Email := v;
     User_EmailVerified := User_EmailVerified u; User_Nickname := User_Nickname u;
     User_FirstName := User_FirstName u; User_LastName := User_LastName u;
     User_Position := User_Position u; User_Roles := User_Roles u;
     User_AllowMarketing := User_AllowMarketing u; User_Props := User_Props u;
     User_NotifyProps := User_NotifyProps u; User_LastPasswordUpdate := User_LastPasswordUpdate u;
     User_LastPictureUpdate := User_LastPictureUpdate u; User_FailedAttempts := User_FailedAttempts u;
     User_Locale := User_Locale u; User_Timezone := User_Timezone u; User_MfaActive := User_MfaActive u;
     User_MfaSecret := User_MfaSecret u; User_RemoteId := User_RemoteId u;
     User_LastActivityAt := User_LastActivityAt u; User_IsBot := User_IsBot u;
     User_BotDescription := User_BotDescription u; User_BotLastIconUpdate := User_BotLastIconUpdate u;
     User_TermsOfServiceId := User_TermsOfServiceId u;
     User_TermsOfServiceCreateAt := User_TermsOfServiceCreateAt u;
     User_DisableWelcomeEmail := User_DisableWelcomeEmail u; User_LastLogin := User_LastLogin u;
     User_MfaUsedTimestamps := User_MfaUsedTimestamps u; User_Phone := User_Phone u;
     User_ParentId := User_ParentId u |}.

Definition User_with_EmailVerified (v : bool) (u : User) : User :=
  {| User_Id := User_Id u; User_CreateAt := User_CreateAt u; User_UpdateAt := User_UpdateAt u;
     User_DeleteAt := User_DeleteAt u; User_Username := User_Username u; User_Password := User_Password u;
     User_AuthData := User_AuthData u; User_AuthService := User_AuthService u; User_Email := User_Email u;
     User_EmailVerified := v; User_Nickname := User_Nickname u; User_FirstName := User_FirstName u;
     User_LastName := User_LastName u; User_Position := User_Position u; User_Roles := User_Roles u;
     User_AllowMarketing := User_AllowMarketing u; User_Props := User_Props u;
     User_NotifyProps := User_NotifyProps u; User_LastPasswordUpdate := User_LastPasswordUpdate u;
     User_LastPictureUpdate := User_LastPictureUpdate u; User_FailedAttempts := User_FailedAttempts u;
     User_Locale := User_Locale u; User_Timezone := User_Timezone u; User_MfaActive := User_MfaActive u;
     User_MfaSecret := User_MfaSecret u; User_RemoteId := User_RemoteId u;
     User_LastActivityAt := User_LastActivityAt u; User_IsBot := User_IsBot u;
     User_BotDescription := User_BotDescription u; User_BotLastIconUpdate := User_BotLastIconUpdate u;
     User_TermsOfServiceId := User_TermsOfServiceId u;
     User_TermsOfServiceCreateAt := User_TermsOfServiceCreateAt u;
     User_DisableWelcomeEmail := User_DisableWelcomeEmail u; User_LastLogin := User_LastLogin u;
     User_MfaUsedTimestamps := User_MfaUsedTimestamps u; User_Phone := User_Phone u;
     User_ParentId := User_ParentId u |}.

Definition User_with_Roles (v : string) (u : User) : User :=
  {| User_Id := User_Id u; User_CreateAt := User_CreateAt u; User_UpdateAt := User_UpdateAt u;
     User_DeleteAt := User_DeleteAt u; User_Username := User_Username u; User_Password := User_Password u;
     User_AuthData := User_AuthData u; User_AuthService := User_AuthService u; User_Email := User_Email u;
     User_EmailVerified := User_EmailVerified u; User_Nickname := User_Nickname u;
     User_FirstName := User_FirstName u; User_LastName := User_LastName u;
     User_Position := User_Position u; User_Roles := v; User_AllowMarketing := User_AllowMarketing u;
     User_Props := User_Props u; User_NotifyProps := User_NotifyProps u;
     User_LastPasswordUpdate := User_LastPasswordUpdate u;
     User_LastPictureUpdate := User_LastPictureUpdate u; User_FailedAttempts := User_FailedAttempts u;
     User_Locale := User_Locale u; User_Timezone := User_Timezone u; User_MfaActive := User_MfaActive u;
     User_MfaSecret := User_MfaSecret u; User_RemoteId := User_RemoteId u;
     User_LastActivityAt := User_LastActivityAt u; User_IsBot := User_IsBot u;
     User_BotDescription := User_BotDescription u; User_BotLastIconUpdate := User_BotLastIconUpdate u;
     User_TermsOfServiceId := User_TermsOfServiceId u;
     User_TermsOfServiceCreateAt := User_TermsOfServiceCreateAt u;
     User_DisableWelcomeEmail := User_DisableWelcomeEmail u; User_LastLogin := User_LastLogin u;
     User_MfaUsedTimestamps := User_MfaUsedTimestamps u; User_Phone := User_Phone u;
     User_ParentId := User_ParentId u |}.

Definition User_with_Props (v : gmap string string) (u : User) : User :=
  {| User_Id := User_Id u; User_CreateAt := User_CreateAt u; User_UpdateAt := User_UpdateAt u;
     User_DeleteAt := User_DeleteAt u; User_Username := User_Username u; User_Password := User_Password u;
     User_AuthData := User_AuthData u; User_AuthService := User_AuthService u; User_Email := User_Email u;
     User_EmailVerified := User_EmailVerified u; User_Nickname := User_Nickname u;
     User_FirstName := User_FirstName u; User_LastName := User_LastName u;
     User_Position := User_Position u; User_Roles := User_Roles u;
     User_AllowMarketing := User_AllowMarketing u; User_Props := v; User_NotifyProps := User_NotifyProps u;
     User_LastPasswordUpdate := User_LastPasswordUpdate u;
     User_LastPictureUpdate := User_LastPictureUpdate u; User_FailedAttempts := User_FailedAttempts u;
     User_Locale := User_Locale u; User_Timezone := User_Timezone u; User_MfaActive := User_MfaActive u;
     User_MfaSecret := User_MfaSecret u; User_RemoteId := User_RemoteId u;
     User_LastActivityAt := User_LastActivityAt u; User_IsBot := User_IsBot u;
     User_BotDescription := User_BotDescription u; User_BotLastIconUpdate := User_BotLastIconUpdate u;
     User_TermsOfServiceId := User_TermsOfServiceId u;
     User_TermsOfServiceCreateAt := User_TermsOfServiceCreateAt u;
     User_DisableWelcomeEmail := User_DisableWelcomeEmail u; User_LastLogin := User_LastLogin u;
     User_MfaUsedTimestamps := User_MfaUsedTimestamps u; User_Phone := User_Phone u;
     User_ParentId := User_ParentId u |}.

Definition User_with_NotifyProps (v : gmap string string) (u : User) : User :=
  {| User_Id := User_Id u; User_CreateAt := User_CreateAt u; User_UpdateAt := User_UpdateAt u;
     User_DeleteAt := User_DeleteAt u; User_Username := User_Username u; User_Password := User_Password u;
     User_AuthData := User_AuthData u; User_AuthService := User_AuthService u; User_Email := User_Email u;
     User_EmailVerified := User_EmailVerified u; User_Nickname := User_Nickname u;
     User_FirstName := User_FirstName u; User_LastName := User_LastName u;
     User_Position := User_Position u; User_Roles := User_Roles u;
     User_AllowMarketing := User_AllowMarketing u; User_Props := User_Props u; User_NotifyProps := v;
     User_LastPasswordUpdate := User_LastPasswordUpdate u;
     User_LastPictureUpdate := User_LastPictureUpdate u; User_FailedAttempts := User_FailedAttempts u;
     User_Locale := User_Locale u; User_Timezone := User_Timezone u; User_MfaActive := User_MfaActive u;
     User_MfaSecret := User_MfaSecret u; User_RemoteId := User_RemoteId u;
     User_LastActivityAt := User_LastActivityAt u; User_IsBot := User_IsBot u;
     User_BotDescription := User_BotDescription u; User_BotLastIconUpdate := User_BotLastIconUpdate u;
     User_TermsOfServiceId := User_TermsOfServiceId u;
     User_TermsOfServiceCreateAt := User_TermsOfServiceCreateAt u;
     User_DisableWelcomeEmail := User_DisableWelcomeEmail u; User_LastLogin := User_LastLogin u;
     User_MfaUsedTimestamps := User_MfaUsedTimestamps u; User_Phone := User_Phone u;
     User_ParentId := User_ParentId u |}.

Definition User_with_FailedAttempts (v : Z) (u : User) : User :=
  {| User_Id := User_Id u; User_CreateAt := User_CreateAt u; User_UpdateAt := User_UpdateAt u;
     User_DeleteAt := User_DeleteAt u; User_Username := User_Username u; User_Password := User_Password u;
     User_AuthData := User_AuthData u; User_AuthService := User_AuthService u; User_Email := User_Email u;
     User_EmailVerified := User_EmailVerified u; User_Nickname := User_Nickname u;
     User_FirstName := User_FirstName u; User_LastName := User_LastName u;
     User_Position := User_Position u; User_Roles := User_Roles u;
     User_AllowMarketing := User_AllowMarketing u; User_Props := User_Props u;
     User_NotifyProps := User_NotifyProps u; User_LastPasswordUpdate := User_LastPasswordUpdate u;
     User_LastPictureUpdate := User_LastPictureUpdate u; User_FailedAttempts := v;
     User_Locale := User_Locale u; User_Timezone := User_Timezone u; User_MfaActive := User_MfaActive u;
     User_MfaSecret := User_MfaSecret u; User_RemoteId := User_RemoteId u;
     User_LastActivityAt := User_LastActivityAt u; User_IsBot := User_IsBot u;
     User_BotDescription := User_BotDescription u; User_BotLastIconUpdate := User_BotLastIconUpdate u;
     User_TermsOfServiceId := User_TermsOfServiceId u;
     User_TermsOfServiceCreateAt := User_TermsOfServiceCreateAt u;
     User_DisableWelcomeEmail := User_DisableWelcomeEmail u; User_LastLogin := User_LastLogin u;
     User_MfaUsedTimestamps := User_MfaUsedTimestamps u; User_Phone := User_Phone u;
     User_ParentId := User_ParentId u |}.

Definition User_with_LastLogin (v : Z) (u : User) : User :=
  {| User_Id := User_Id u; User_CreateAt := User_CreateAt u; User_UpdateAt := User_UpdateAt u;
     User_DeleteAt := User_DeleteAt u; User_Username := User_Username u; User_Password := User_Password u;
     User_AuthData := User_AuthData u; User_AuthService := User_AuthService u; User_Email := User_Email u;
     User_EmailVerified := User_EmailVerified u; User_Nickname := User_Nickname u;
     User_FirstName := User_FirstName u; User_LastName := User_LastName u;
     User_Position := User_Position u; User_Roles := User_Roles u;
     User_AllowMarketing := User_AllowMarketing u; User_Props := User_Props u;
     User_NotifyProps := User_NotifyProps u; User_LastPasswordUpdate := User_LastPasswordUpdate u;
     User_LastPictureUpdate := User_LastPictureUpdate u; User_FailedAttempts := User_FailedAttempts u;
     User_Locale := User_Locale u; User_Timezone := User_Timezone u; User_MfaActive := User_MfaActive u;
     User_MfaSecret := User_MfaSecret u; User_RemoteId := User_RemoteId u;
     User_LastActivityAt := User_LastActivityAt u; User_IsBot := User_IsBot u;
     User_BotDescription := User_BotDescription u; User_BotLastIconUpdate := User_BotLastIconUpdate u;
     User_TermsOfServiceId := User_TermsOfServiceId u;
     User_TermsOfServiceCreateAt := User_TermsOfServiceCreateAt u;
     User_DisableWelcomeEmail := User_DisableWelcomeEmail u; User_LastLogin := v;
     User_MfaUsedTimestamps := User_MfaUsedTimestamps u; User_Phone := User_Phone u;
     User_ParentId := User_ParentId u |}.

Definition UserEmailMaxLength : nat := 128.
Definition UserNicknameMaxRunes : nat := 64.
Definition UserPositionMaxRunes : nat := 128.
Definition UserFirstNameMaxRunes : nat := 64.
Definition UserLastNameMaxRunes : nat := 64.
Definition UserAuthDataMaxLength : nat := 128.
Definition UserNameMaxLength : nat := 64.
Definition UserNameMinLength : nat := 1.
Definition UserLocaleMaxLength : nat := 5.
Definition UserTimezoneMaxRunes : nat := 256.
Definition UserRolesMaxLength : nat := 256.
Definition CustomStatusTextMaxRunes : nat := 100.

Definition DefaultLocale : string := "en".
Definition UserAuthServiceEmail : string := "email".
Definition UserPropsKeyCustomStatus : string := "customStatus".
Definition MentionKeysNotifyProp : string := "mention_keys".

Definition SystemUserRoleId : string := "system_user".
Definition RoleLmsStudentRoleId : string := "lms_student".

Class UserLib := {
  (** the address, or an error *)
  ParseAddress : string → option string;
  language_Parse : string → bool;
  (** what json.Unmarshal leaves in the pointer, whatever its error *)
  status_of_json : string → option CustomStatus;
  json_of_status : CustomStatus → option string;
  json_of_map : gmap string string → string;
  (** lower(...) of PostgreSQL *)
  sql_lower : string → string;
}.

(** Documented behaviour: an address has a local part, an @ and a domain; an
    object without one of its members is not longer. *)
Class UserLibOk `{UserLib} := {
  address_has_at : ∀ s a, ParseAddress s = Some a → has_char at_sign a = true;
  json_map_delete : ∀ k m, (rune_count (json_of_map (delete k m)) ≤ rune_count (json_of_map m))%nat;
}.

(** ** Checks *)

(** [SafeDereference] *)
Definition deref (s : option string) : string := default "" s.

Definition username_char (r : Ascii.ascii) : bool :=
  is_lower r || is_digit r || bool_decide (byte_z r = 46%Z) || bool_decide (byte_z r = 45%Z) ||
  bool_decide (byte_z r = 95%Z).

(** [a-z0-9.-_:] *)
Definition username_char_remote (r : Ascii.ascii) : bool := username_char r || bool_decide (byte_z r = 58%Z).

Definition restrictedUsernames : list string := ["all"; "channel"; "matterbot"; "system"].

Definition username_length_ok (s : string) : bool :=
  (UserNameMinLength <=? String.length s)%nat && (String.length s <=? UserNameMaxLength)%nat.

Definition IsValidUsername (s : string) : bool :=
  username_length_ok s && negb (empty s) && all_chars username_char s &&
  negb (bool_decide (s ∈ restrictedUsernames)).

Definition IsValidUsernameAllowRemote (s : string) : bool :=
  username_length_ok s && all_chars username_char_remote s && negb (bool_decide (s ∈ restrictedUsernames)).

(** Rune ranges dropped from names. *)
Definition filterBlocklist (r : Z) : Z :=
  if bool_decide (r ∈ [832; 833; 6051; 6099; 8232; 8233; 8234; 8235; 8236; 8237; 8238; 8298; 8299; 8300;
                       8301; 8302; 8303; 65529; 65530; 65531; 65279; 65532])%Z
     || within_z 119155 119162 r || within_z 917504 917631 r
  then (-1)%Z else r.

Definition SanitizeUnicode (s : string) : string := strings_Map filterBlocklist s.

Definition IsRemote (u : User) : bool := negb (empty (deref (User_RemoteId u))).

Definition IsSSOUser (u : User) : bool :=
  negb (empty (User_AuthService u)) && negb (bool_decide (User_AuthService u = UserAuthServiceEmail)).

Definition ServiceGitlab : string := "gitlab".
Definition ServiceGoogle : string := "google".
Definition ServiceOffice365 : string := "office365".
Definition ServiceOpenid : string := "openid".
Definition UserAuthServiceLdap : string := "ldap".

Definition IsOAuthUser (u : User) : bool :=
  bool_decide (User_AuthService u ∈ [ServiceGitlab; ServiceGoogle; ServiceOffice365; ServiceOpenid]).

Definition IsLDAPUser (u : User) : bool := bool_decide (User_AuthService u = UserAuthServiceLdap).

Definition IsInRole (userRoles inRole : string) : bool := bool_decide (inRole ∈ split (chr 32) userRoles).

Section user.
Context `{UnicodeTables} `{UnicodeLower} `{UserLib} `{Crypto}.

Definition NormalizeUsername (s : string) : string := ToLower s.
Definition NormalizeEmail (s : string) : string := ToLower s.

Definition IsValidEmail (input : string) : bool :=
  isLower input &&
  match ParseAddress input with
  | None => false
  | Some address => bool_decide (address = input) && negb (1 <? count_char at_sign input)%nat
  end.

Definition IsValidLocale (locale : string) : bool :=
  empty locale || (negb (longer UserLocaleMaxLength locale) && language_Parse locale).

Definition GetCustomStatus (u : User) : option CustomStatus :=
  status_of_json (default "" (User_Props u !! UserPropsKeyCustomStatus)).

Definition ValidateCustomStatus (u : User) : bool :=
  match User_Props u !! UserPropsKeyCustomStatus with
  | Some status => empty status || bool_decide (is_Some (status_of_json status))
  | None => true
  end.

Definition opt_check (p : string → bool) (s : option string) : bool :=
  match s with Some s => p s | None => false end.

Definition invalid (field : string) : string := "model.user.is_valid." +:+ field +:+ ".app_error".

Definition User_checks (u : User) : list (bool * string) := [
  (negb (IsValidId (User_Id u)), invalid "id");
  (bool_decide (User_CreateAt u = 0%Z), invalid "create_at");
  (bool_decide (User_UpdateAt u = 0%Z), invalid "update_at");
  (negb (if IsRemote u then IsValidUsernameAllowRemote (User_Username u)
         else IsValidUsername (User_Username u)), invalid "username");
  (longer UserEmailMaxLength (User_Email u) || empty (User_Email u) ||
     (negb (IsValidEmail (User_Email u)) && negb (IsRemote u)), invalid "email");
  ((UserNicknameMaxRunes <? rune_count (User_Nickname u))%nat, invalid "nickname");
  ((UserPositionMaxRunes <? rune_count (User_Position u))%nat, invalid "position");
  ((UserFirstNameMaxRunes <? rune_count (User_FirstName u))%nat, invalid "first_name");
  ((UserLastNameMaxRunes <? rune_count (User_LastName u))%nat, invalid "last_name");
  (opt_longer UserAuthDataMaxLength (User_AuthData u), invalid "auth_data");
  (opt_check (λ a, negb (empty a) && empty (User_AuthService u)) (User_AuthData u), invalid "auth_data_type");
  (negb (empty (User_Password u)) && opt_check (λ a, negb (empty a)) (User_AuthData u), invalid "auth_data_pwd");
  (negb (IsValidLocale (User_Locale u)), invalid "locale");
  (opt_check (λ p, negb (IsValidId p)) (User_ParentId u), invalid "parent_id");
  (match User_Timezone u with
   | Some tz => negb (bool_decide (tz = ∅)) && (UserTimezoneMaxRunes <? rune_count (json_of_map tz))%nat
   | None => false
   end, invalid "timezone_limit");
  (longer UserRolesMaxLength (User_Roles u), "model.user.is_valid.roles_limit.app_error");
  (negb (ValidateCustomStatus u), "model.user.is_valid.invalidProperty.app_error")].

Definition User_IsValid (u : User) : option string := first_error (User_checks u).

(** ** Hooks *)

(** [now] in the unit of the expiry. *)
Definition CustomStatus_PreSave (now : Z) (cs : CustomStatus) : CustomStatus :=
  {| cs_Emoji := cs_Emoji cs;
     cs_Text := (if (CustomStatusTextMaxRunes <? rune_count (cs_Text cs))%nat
                 then of_runes (take CustomStatusTextMaxRunes (runes (cs_Text cs))) else cs_Text cs);
     cs_Duration := (if empty (cs_Duration cs) && negb (cs_ExpiresAt cs <? now)%Z
                     then "date_and_time" else cs_Duration cs);
     cs_ExpiresAt := cs_ExpiresAt cs |}.

Definition SetCustomStatus (cs : CustomStatus) (u : User) : User :=
  match json_of_status cs with
  | Some s => User_with_Props (<[UserPropsKeyCustomStatus := s]> (User_Props u)) u
  | None => u
  end.

(** The end of both hooks. *)
Definition clean_status (now : Z) (u : User) : User :=
  match GetCustomStatus u with
  | Some cs => SetCustomStatus (CustomStatus_PreSave now cs) u
  | None => u
  end.

Definition default_notifications : gmap string string := list_to_map [
  ("email", "true"); ("push", "mention"); ("desktop", "mention"); ("desktop_sound", "true");
  (MentionKeysNotifyProp, ""); ("channel", "true"); ("push_status", "online"); ("comments", "never");
  ("first_name", "false"); ("desktop_threads", "all"); ("email_threads", "all"); ("push_threads", "all")].

Definition DefaultUserTimezone : gmap string string := list_to_map [
  ("useAutomaticTimezone", "true"); ("automaticTimezone", ""); ("manualTimezone", "")].

(** What PreSave sets before the password: ids are fresh, [now] is the clock. *)
Definition PreSave_fields (newId newId' : string) (now : Z) (u : User) : User :=
  let created := if decide (User_CreateAt u = 0%Z) then now else User_CreateAt u in
  {| User_Id := if_empty (User_Id u) newId; User_CreateAt := created; User_UpdateAt := created;
     User_DeleteAt := User_DeleteAt u;
     User_Username := NormalizeUsername (SanitizeUnicode (if_empty (User_Username u) ("a" +:+ newId')));
     User_Password := User_Password u;
     User_AuthData := (if decide (User_AuthData u = Some "") then None else User_AuthData u);
     User_AuthService := User_AuthService u; User_Email := NormalizeEmail (User_Email u);
     User_EmailVerified := User_EmailVerified u; User_Nickname := SanitizeUnicode (User_Nickname u);
     User_FirstName := SanitizeUnicode (User_FirstName u);
     User_LastName := SanitizeUnicode (User_LastName u); User_Position := User_Position u;
     User_Roles := User_Roles u; User_AllowMarketing := User_AllowMarketing u; User_Props := User_Props u;
     User_NotifyProps := (if decide (User_NotifyProps u = ∅) then default_notifications else User_NotifyProps u);
     User_LastPasswordUpdate := created; User_LastPictureUpdate := User_LastPictureUpdate u;
     User_FailedAttempts := User_FailedAttempts u; User_Locale := if_empty (User_Locale u) DefaultLocale;
     User_Timezone := Some (default DefaultUserTimezone (User_Timezone u)); User_MfaActive := false;
     User_MfaSecret := User_MfaSecret u; User_RemoteId := User_RemoteId u;
     User_LastActivityAt := User_LastActivityAt u; User_IsBot := User_IsBot u;
     User_BotDescription := User_BotDescription u; User_BotLastIconUpdate := User_BotLastIconUpdate u;
     User_TermsOfServiceId := User_TermsOfServiceId u;
     User_TermsOfServiceCreateAt := User_TermsOfServiceCreateAt u;
     User_DisableWelcomeEmail := User_DisableWelcomeEmail u; User_LastLogin := User_LastLogin u;
     User_MfaUsedTimestamps := User_MfaUsedTimestamps u; User_Phone := User_Phone u;
     User_ParentId := User_ParentId u |}.

Definition PreSave (newId newId' : string) (now nanos : Z) (draw : nat) (u : User) : res string User :=
  let u := PreSave_fields newId newId' now u in
  if decide (User_Password u = "") then Ok (clean_status nanos u)
  else match Hash draw (User_Password u) with
       | Err ErrPasswordTooLong => Err "model.user.pre_save.password_too_long.app_error"
       | Err _ => Err "model.user.pre_save.password_hash.app_error"
       | Ok hashed => Ok (clean_status nanos (User_with_Password hashed u))
       end.

(** Without blank mention keys, and in lower case. *)
Definition clean_mention_keys (props : gmap string string) : gmap string string :=
  match props !! MentionKeysNotifyProp with
  | Some keys =>
      <[MentionKeysNotifyProp :=
          String.concat "," (map (λ k, ToLower k) (filter (λ k, k ≠ "") (split comma keys)))]> props
  | None => props
  end.

Definition PreUpdate (now nanos : Z) (u : User) : User :=
  clean_status nanos
  {| User_Id := User_Id u; User_CreateAt := User_CreateAt u; User_UpdateAt := now;
     User_DeleteAt := User_DeleteAt u;
     User_Username := NormalizeUsername (SanitizeUnicode (User_Username u));
     User_Password := User_Password u;
     User_AuthData := (if decide (User_AuthData u = Some "") then None else User_AuthData u);
     User_AuthService := User_AuthService u; User_Email := NormalizeEmail (User_Email u);
     User_EmailVerified := User_EmailVerified u;
     User_Nickname := SanitizeUnicode (SanitizeUnicode (User_Nickname u));
     User_FirstName := SanitizeUnicode (SanitizeUnicode (User_FirstName u));
     User_LastName := SanitizeUnicode (SanitizeUnicode (User_LastName u));
     User_Position := User_Position u; User_Roles := User_Roles u;
     User_AllowMarketing := User_AllowMarketing u; User_Props := User_Props u;
     User_NotifyProps := (if decide (User_NotifyProps u = ∅) then default_notifications else clean_mention_keys (User_NotifyProps u));
     User_LastPasswordUpdate := User_LastPasswordUpdate u;
     User_LastPictureUpdate := User_LastPictureUpdate u; User_FailedAttempts := User_FailedAttempts u;
     User_Locale := User_Locale u; User_Timezone := User_Timezone u; User_MfaActive := User_MfaActive u;
     User_MfaSecret := User_MfaSecret u; User_RemoteId := User_RemoteId u;
     User_LastActivityAt := User_LastActivityAt u; User_IsBot := User_IsBot u;
     User_BotDescription := SanitizeUnicode (SanitizeUnicode (User_BotDescription u));
     User_BotLastIconUpdate := User_BotLastIconUpdate u; User_TermsOfServiceId := User_TermsOfServiceId u;
     User_TermsOfServiceCreateAt := User_TermsOfServiceCreateAt u;
     User_DisableWelcomeEmail := User_DisableWelcomeEmail u; User_LastLogin := User_LastLogin u;
     User_MfaUsedTimestamps := User_MfaUsedTimestamps u; User_Phone := User_Phone u;
     User_ParentId := User_ParentId u |}.

Definition GetMentionKeys (u : User) : list string :=
  filter (λ k, k ≠ "") (map TrimSpace (split comma (default "" (User_NotifyProps u !! MentionKeysNotifyProp)))).

Definition UpdateMentionKeysFromUsername (oldUsername : string) (u : User) : User :=
  let keys := filter (λ k, k ≠ oldUsername ∧ k ≠ "@" +:+ oldUsername) (GetMentionKeys u) in
  User_with_NotifyProps
    (<[MentionKeysNotifyProp := if decide (keys = []) then "" else "," +:+ String.concat "," keys]> (User_NotifyProps u)) u.

(** [Sanitize] without options. *)
Definition Sanitize (u : User) : User :=
  {| User_Id := User_Id u; User_CreateAt := User_CreateAt u; User_UpdateAt := User_UpdateAt u;
     User_DeleteAt := User_DeleteAt u; User_Username := User_Username u; User_Password := "";
     User_AuthData := User_AuthData u; User_AuthService := User_AuthService u; User_Email := User_Email u;
     User_EmailVerified := User_EmailVerified u; User_Nickname := User_Nickname u;
     User_FirstName := User_FirstName u; User_LastName := User_LastName u;
     User_Position := User_Position u; User_Roles := User_Roles u;
     User_AllowMarketing := User_AllowMarketing u; User_Props := User_Props u;
     User_NotifyProps := User_NotifyProps u; User_LastPasswordUpdate := User_LastPasswordUpdate u;
     User_LastPictureUpdate := User_LastPictureUpdate u; User_FailedAttempts := User_FailedAttempts u;
     User_Locale := User_Locale u; User_Timezone := User_Timezone u; User_MfaActive := User_MfaActive u;
     User_MfaSecret := ""; User_RemoteId := User_RemoteId u; User_LastActivityAt := User_LastActivityAt u;
     User_IsBot := User_IsBot u; User_BotDescription := User_BotDescription u;
     User_BotLastIconUpdate := User_BotLastIconUpdate u; User_TermsOfServiceId := User_TermsOfServiceId u;
     User_TermsOfServiceCreateAt := User_TermsOfServiceCreateAt u;
     User_DisableWelcomeEmail := User_DisableWelcomeEmail u; User_LastLogin := 0%Z;
     User_MfaUsedTimestamps := []; User_Phone := User_Phone u; User_ParentId := User_ParentId u |}.
End user.
