(* ===== verification/LmsRoles.v ===== *)
(** * Roles and permissions (server/public/model/role.go, permission.go)

    The roles of the learning system, the table of roles, the check of a
    session's permission and the start-up migration that brings the table in
    line (channels/app/authorization.go, role.go, migrations.go,
    sqlstore/role_store.go).

    The table is filed under the role names, which are UNIQUE.  The other
    permissions of the platform and the schemes are the parameter [Platform]. *)

From stdpp Require Import strings.
From S2P Require Import Prelude.
From S2P Require Import GoString.
From S2P Require Import GoUtf8.
From S2P Require Import CallStore.
From S2P Require Import LmsStore.
From S2P Require Import LmsApp.
From S2P Require Import PlatUser.

Local Open Scope string_scope.
Local Open Scope go_scope.

(** ** strings.Fields *)

Definition flush (word : string) : list string := if String.eqb word "" then [] else [word].

(** Every step takes a byte, so the length is enough fuel. *)
Fixpoint fields_loop (fuel : nat) (word s : string) : list string :=
  match fuel with
  | O => flush word
  | S f =>
      match s with
      | "" => flush word
      | String c s' =>
          match strip_first space_encodings s with
          | Some r => flush word ++ fields_loop f "" r
          | None => fields_loop f (word ++ String c "") s'
          end
      end
  end%list.

Definition Fields (s : string) : list string := fields_loop (String.length s) "" s.

(** ** Permissions *)

Definition PermissionLmsManageBranches : string := "lms_manage_branches".
Definition PermissionLmsManageCourses : string := "lms_manage_courses".
Definition PermissionLmsManageClasses : string := "lms_manage_classes".
Definition PermissionLmsManageSessions : string := "lms_manage_sessions".
Definition PermissionLmsManageAttendance : string := "lms_manage_attendance".
Definition PermissionLmsManageLeads : string := "lms_manage_leads".
Definition PermissionLmsManageTuition : string := "lms_manage_tuition".
Definition PermissionLmsManagePosts : string := "lms_manage_posts".
Definition PermissionLmsManageHomework : string := "lms_manage_homework".
Definition PermissionLmsManageWeeklyReviews : string := "lms_manage_weekly_reviews".
Definition PermissionLmsManageMaterials : string := "lms_manage_materials".
Definition PermissionLmsManageTasks : string := "lms_manage_tasks".
Definition PermissionLmsManageBanners : string := "lms_manage_banners".
Definition PermissionLmsViewNotifications : string := "lms_view_notifications".
Definition PermissionLmsManageClassMedia : string := "lms_manage_class_media".
Definition PermissionLmsManageDashboard : string := "lms_manage_dashboard".
Definition PermissionLmsViewReports : string := "lms_view_reports".
Definition PermissionLmsManageStudents : string := "lms_manage_students".
Definition PermissionLmsManageUsers : string := "lms_manage_users".
Definition PermissionLmsManageFeePackages : string := "lms_manage_fee_packages".

Definition LearningSystemScopedPermissions : list string :=
  [PermissionLmsManageBranches; PermissionLmsManageCourses; PermissionLmsManageClasses;
   PermissionLmsManageSessions; PermissionLmsManageAttendance; PermissionLmsManageLeads;
   PermissionLmsManageTuition; PermissionLmsManagePosts; PermissionLmsManageHomework;
   PermissionLmsManageWeeklyReviews; PermissionLmsManageMaterials; PermissionLmsManageTasks;
   PermissionLmsManageBanners; PermissionLmsViewNotifications; PermissionLmsManageClassMedia;
   PermissionLmsManageDashboard; PermissionLmsViewReports; PermissionLmsManageStudents;
   PermissionLmsManageUsers; PermissionLmsManageFeePackages].

Definition lmsScopedPermissionIDs : list string := LearningSystemScopedPermissions.

(** ** Roles *)

Definition RoleLmsSuperAdminRoleId : string := "lms_super_admin".
Definition RoleLmsAdminRoleId : string := "lms_admin".
Definition RoleLmsCounselorRoleId : string := "lms_counselor".
Definition RoleLmsTeacherRoleId : string := "lms_teacher".
Definition RoleLmsAccountantRoleId : string := "lms_accountant".
Definition RoleLmsMarketingRoleId : string := "lms_marketing".
Definition RoleLmsParentRoleId : string := "lms_parent".
Definition SystemAdminRoleId : string := "system_admin".
Definition ChannelAdminRoleId : string := "channel_admin".

Record Role := {
  Role_Id : string; Role_Name : string; Role_DisplayName : string; Role_Description : string;
  Role_CreateAt : Z; Role_UpdateAt : Z; Role_DeleteAt : Z; Role_Permissions : list string;
  Role_SchemeManaged : bool; Role_BuiltIn : bool;
}.

Definition lms_role (name display description : string) (permissions : list string) : string * Role :=
  (name,
   {| Role_Id := ""; Role_Name := name; Role_DisplayName := display; Role_Description := description;
      Role_CreateAt := 0; Role_UpdateAt := 0; Role_DeleteAt := 0; Role_Permissions := permissions;
      Role_SchemeManaged := false; Role_BuiltIn := true |}).

Definition MakeDefaultLMSRoles : gmap string Role :=
  list_to_map [
    lms_role RoleLmsSuperAdminRoleId "LMS Super Admin"
      "Full access to all LMS features"
      lmsScopedPermissionIDs;
    lms_role RoleLmsAdminRoleId "LMS Admin"
      "Manage all LMS features including employees and users"
      lmsScopedPermissionIDs;
    lms_role RoleLmsCounselorRoleId "LMS Counselor"
      "Manage leads, students, and dashboard"
      [PermissionLmsManageLeads; PermissionLmsManageStudents; PermissionLmsManageDashboard];
    lms_role RoleLmsTeacherRoleId "LMS Teacher"
      "Manage sessions, attendance, homework, reviews, and class media"
      [PermissionLmsManageSessions; PermissionLmsManageAttendance; PermissionLmsManageStudents;
       PermissionLmsManageHomework; PermissionLmsManageWeeklyReviews; PermissionLmsManageMaterials;
       PermissionLmsManageClassMedia; PermissionLmsManageDashboard];
    lms_role RoleLmsAccountantRoleId "LMS Accountant"
      "Manage tuition, payments, and financial reports"
      [PermissionLmsManageTuition; PermissionLmsManageDashboard; PermissionLmsViewReports];
    lms_role RoleLmsMarketingRoleId "LMS Marketing"
      "Manage posts, banners, and marketing reports"
      [PermissionLmsManagePosts; PermissionLmsManageBanners; PermissionLmsManageLeads;
       PermissionLmsViewNotifications; PermissionLmsManageDashboard; PermissionLmsViewReports];
    lms_role RoleLmsParentRoleId "LMS Parent"
      "View dashboard"
      [PermissionLmsManageStudents; PermissionLmsManageSessions; PermissionLmsManageHomework;
       PermissionLmsManageWeeklyReviews; PermissionLmsManageClassMedia; PermissionLmsManageTuition;
       PermissionLmsManageDashboard];
    lms_role RoleLmsStudentRoleId "LMS Student"
      "View dashboard"
      [PermissionLmsManageSessions; PermissionLmsManageMaterials; PermissionLmsManageHomework;
       PermissionLmsManageWeeklyReviews; PermissionLmsManageDashboard]].

Definition RoleNameMaxLength : nat := 64.
Definition RoleDisplayNameMaxLength : nat := 128.
Definition RoleDescriptionMaxLength : nat := 1024.

Definition role_char (c : Ascii.ascii) : bool := is_lower c || is_digit c || Ascii.eqb c (chr 95).

(** [strings.TrimLeft] by a set of bytes leaves nothing iff all are in it. *)
Definition IsValidRoleName (roleName : string) : bool :=
  negb (String.eqb roleName "" || (RoleNameMaxLength <? String.length roleName)%nat) && all_chars role_char roleName.

(** The platform's other permissions, those scoped to channels and those a
    channel may moderate, the deprecated ones, and the query for the higher
    scope of channel roles ([None]: it failed). *)
Class Platform := {
  platform_permissions : list string;
  deprecated_permissions : list string;
  channel_scoped : list string;
  channel_moderated : list string;
  ChannelHigherScopedPermissions : list string → option (gmap string (string * list string));
}.

(** The table, by name. *)
Abbreviation role_rows := (gmap string Role).

Section roles.
Context `{Platform}.

Definition AllPermissions : list string := (platform_permissions ++ LearningSystemScopedPermissions)%list.

Definition Role_IsValidWithoutId (r : Role) : bool :=
  IsValidRoleName (Role_Name r) &&
  negb (String.eqb (Role_DisplayName r) "" || (RoleDisplayNameMaxLength <? String.length (Role_DisplayName r))%nat) &&
  (String.length (Role_Description r) <=? RoleDescriptionMaxLength)%nat &&
  forallb (λ p, bool_decide (p ∈ AllPermissions) || bool_decide (p ∈ deprecated_permissions)) (Role_Permissions r).

Definition with_permissions (now : Z) (permissions : list string) (r : Role) : Role :=
  {| Role_Id := Role_Id r; Role_Name := Role_Name r; Role_DisplayName := Role_DisplayName r;
     Role_Description := Role_Description r; Role_CreateAt := Role_CreateAt r; Role_UpdateAt := now;
     Role_DeleteAt := Role_DeleteAt r; Role_Permissions := permissions;
     Role_SchemeManaged := Role_SchemeManaged r; Role_BuiltIn := Role_BuiltIn r |}.

(** ** The store *)

(** Keep the first of equal ones. *)
Fixpoint first_of (seen l : list string) : list string :=
  match l with
  | [] => []
  | p :: rest => if decide (p ∈ seen) then first_of seen rest else p :: first_of (p :: seen) rest
  end.

(** The column: every permission after a space, which Fields reads back. *)
Definition permissions_column (l : list string) : string :=
  foldr (λ p s, " " ++ p ++ s) "" (first_of [] l).

Definition stored_role (id : string) (created now : Z) (r : Role) : Role :=
  {| Role_Id := id; Role_Name := Role_Name r; Role_DisplayName := Role_DisplayName r;
     Role_Description := Role_Description r; Role_CreateAt := created; Role_UpdateAt := now;
     Role_DeleteAt := Role_DeleteAt r; Role_Permissions := Fields (permissions_column (Role_Permissions r));
     Role_SchemeManaged := Role_SchemeManaged r; Role_BuiltIn := Role_BuiltIn r |}.

Definition RoleStore_GetByName (fault : bool) (rows : role_rows) (name : string) : res storeError Role :=
  if fault then Err (ErrDatabase "failed to find Roles")
  else match rows !! name with Some r => Ok r | None => Err (ErrNotFound "Role" name) end.

(** The name of the row with this id. *)
Definition name_of_id (rows : role_rows) (id : string) : option string :=
  head ((filter (λ e : string * Role, Role_Id e.2 = id) (map_to_list rows)).*1).

Definition RoleStore_Save (fault : bool) (newId : string) (now : Z) (rows : role_rows) (r : Role)
    : res storeError Role * role_rows :=
  if negb (Role_IsValidWithoutId r) then (Err (ErrInvalidInput "Role" "<any>" (Role_Name r)), rows)
  else if fault then (Err (ErrDatabase "failed to save Role"), rows)
  else if String.eqb (Role_Id r) "" then
    if bool_decide (is_Some (rows !! Role_Name r)) || bool_decide (is_Some (name_of_id rows newId))
    then (Err (ErrDatabase "failed to save Role"), rows)
    else let row := stored_role newId now now r in (Ok row, <[Role_Name r := row]> rows)
  else
    match name_of_id rows (Role_Id r) with
    | None => (Err (ErrDatabase "invalid number of updated rows, expected 1 but got 0"), rows)
    | Some old =>
        if negb (String.eqb old (Role_Name r)) && bool_decide (is_Some (rows !! Role_Name r))
        then (Err (ErrDatabase "failed to update Role"), rows)
        else let row := stored_role (Role_Id r) (Role_CreateAt r) now r in
             (Ok row, <[Role_Name r := row]> (delete old rows))
    end.

Section with_range.
Context `{GoRange}.

Definition RoleStore_GetByNames (fault : bool) (rows : role_rows) (names : list string) : option (list Role) :=
  if decide (names = []) then Some []
  else if fault then None
  else Some (filter (λ r, Role_Name r ∈ names) (go_range rows).*2).

(** ** What a session may do *)

Definition merged_permissions (higher_role : string) (higher own : list string) : list string :=
  filter (λ cp,
    (if decide (higher_role = ChannelAdminRoleId ∧ cp ∈ higher) then true
     else if decide (cp ∈ channel_moderated) then bool_decide (cp ∈ own) && bool_decide (cp ∈ higher)
     else bool_decide (cp ∈ higher)) = true) channel_scoped.

Definition MergeChannelHigherScopedPermissions (higher : string * list string) (r : Role) : Role :=
  with_permissions (Role_UpdateAt r) (merged_permissions higher.1 higher.2 (Role_Permissions r)) r.

Definition mergeChannelHigherScopedPermissions (roles : list Role) : option (list Role) :=
  match filter (λ r, Role_SchemeManaged r = true) roles with
  | [] => Some roles
  | managed =>
      match ChannelHigherScopedPermissions (Role_Name <$> managed) with
      | None => None
      | Some higher =>
          Some ((λ r, if Role_SchemeManaged r
                      then match higher !! Role_Name r with
                           | Some h => MergeChannelHigherScopedPermissions h r
                           | None => r
                           end
                      else r) <$> roles)
      end
  end.

Definition GetRolesByNames (fault : bool) (rows : role_rows) (names : list string) : option (list Role) :=
  match RoleStore_GetByNames fault rows names with
  | None => None
  | Some roles => mergeChannelHigherScopedPermissions roles
  end.

(** An error of the lookup denies. *)
Definition RolesGrantPermission (fault : bool) (rows : role_rows) (roleNames : list string) (permissionId : string)
    : bool :=
  match GetRolesByNames fault rows roleNames with
  | None => false
  | Some roles =>
      existsb (λ r, (Role_DeleteAt r =? 0)%Z && bool_decide (permissionId ∈ Role_Permissions r)) roles
  end.

(** The parts of a session the checks read. *)
Record Session := { Session_UserId : string; Session_Roles : string; Session_Local : bool }.

Definition SessionHasPermissionTo (fault : bool) (rows : role_rows) (session : Session) (permission : string) : bool :=
  if Session_Local session then true
  else RolesGrantPermission fault rows (Fields (Session_Roles session)) permission.

(** ** The migration *)

Record role_world := RoleWorld { rw_roles : role_rows; rw_system : gmap string string; rw_ticks : nat }.

Context `{LmsEnv}.

Definition LMSRolesCreationMigrationKey : string := "lms_roles_creation".

(** One role; the error that is collected, if any. *)
Definition migrate_role (entry : string * Role) (w : role_world) : option string * role_world :=
  let '(roleID, role) := entry in
  let n := rw_ticks w in
  let w := RoleWorld (rw_roles w) (rw_system w) (S (S n)) in
  match RoleStore_GetByName (lms_fault n) (rw_roles w) roleID with
  | Err e =>
      if IsErrNotFound e then
        let '(r, rows) := RoleStore_Save (lms_fault (S n)) (lms_id n) (lms_clock n) (rw_roles w) role in
        (match r with Ok _ => None | Err _ => Some "failed to create LMS role" end,
         RoleWorld rows (rw_system w) (rw_ticks w))
      else (Some "failed to check for LMS role", w)
  | Ok existing =>
      if decide (Role_Permissions existing = Role_Permissions role) then (None, w)
      else
        let '(r, rows) := RoleStore_Save (lms_fault (S n)) (lms_id n) (lms_clock n) (rw_roles w)
                            (with_permissions (lms_clock n) (Role_Permissions role) existing) in
        (match r with Ok _ => None | Err _ => Some "failed to update LMS role" end,
         RoleWorld rows (rw_system w) (rw_ticks w))
  end.

Fixpoint migrate_roles (entries : list (string * Role)) (w : role_world) : list string * role_world :=
  match entries with
  | [] => ([], w)
  | e :: rest =>
      let '(err, w) := migrate_role e w in
      let '(errs, w) := migrate_roles rest w in
      (match err with Some m => m :: errs | None => errs end, w)
  end.

(** The collected errors; an error of the first query stops it. *)
Definition doLMSRolesCreationMigration (w : role_world) : list string * role_world :=
  let n := rw_ticks w in
  let w := RoleWorld (rw_roles w) (rw_system w) (S n) in
  if lms_fault n then (["could not query migration"], w)
  else
    let '(errs, w) := migrate_roles (go_range MakeDefaultLMSRoles) w in
    let n := rw_ticks w in
    if lms_fault n then ((errs ++ ["failed to save LMS roles migration key"])%list, RoleWorld (rw_roles w) (rw_system w) (S n))
    else (errs, RoleWorld (rw_roles w) (<[LMSRolesCreationMigrationKey := "true"]> (rw_system w)) (S n)).
End with_range.
End roles.
