(* ===== verification/GoFields.v ===== *)
(** * Joined words and [strings.Fields]

    The words [Fields] finds hold no white space, and [Fields] reads a list of
    such words back from their join with blanks ([Fields_join]): the roles of
    an account are such a list. *)

From stdpp Require Import strings.
From S2P Require Import Prelude.
From S2P Require Import GoString.
From S2P Require Import GoUtf8.
From S2P Require Import LmsRoles.

Local Open Scope string_scope.

(** No white space starts at the front of [s]. *)
Definition starts_solid (s : string) : Prop := strip_first space_encodings s = None.

(** No white space starts anywhere in [w]. *)
Definition solid (w : string) : Prop := ∀ a b, w = a ++ b → b ≠ "" → starts_solid b.

(** A word as [Fields] finds it. *)
Definition field (w : string) : Prop := w ≠ "" ∧ solid w.

Lemma strip_first_None ps s : strip_first ps s = None ↔ Forall (λ p, strip_prefix p s = None) ps.
Proof.
  induction ps as [|p ps IH]; simpl; [by split|]. rewrite Forall_cons.
  destruct (strip_prefix p s) eqn:Hp; [split; [done|by intros []]|]. by rewrite IH; naive_solver.
Qed.

Lemma strip_prefix_app p s t : strip_prefix p (s ++ t) = None → strip_prefix p s = None.
Proof.
  revert s. induction p as [|x p IH]; intros [|y s]; simpl; try done. destruct (Ascii.eqb x y); [apply IH|done].
Qed.

Definition space : Ascii.ascii := Ascii.Ascii false false false false false true false false.

(** Without a blank in the pattern, a blank ends what it can match. *)
Fixpoint no_blank (s : string) : bool := match s with "" => true | String x s' => negb (Ascii.eqb x space) && no_blank s' end.

Lemma strip_prefix_blank p s t :
  no_blank p = true → strip_prefix p s = None → strip_prefix p (s ++ " " ++ t) = None.
Proof.
  revert s. induction p as [|x p IH]; intros [|y s]; simpl; try done.
  - intros [Hx%negb_true_iff _]%andb_true_iff _. by unfold space in Hx; rewrite Hx.
  - intros [_ Hp]%andb_true_iff. destruct (Ascii.eqb x y); [by apply IH|done].
Qed.

Lemma starts_solid_prefix s t : starts_solid (s ++ t) → starts_solid s.
Proof.
  unfold starts_solid. rewrite !strip_first_None. intros Ht. eapply Forall_impl; [exact Ht|].
  intros p. apply strip_prefix_app.
Qed.

(** The blank apart, no white space holds one. *)
Lemma starts_solid_blank s t : s ≠ "" → starts_solid s → starts_solid (s ++ " " ++ t).
Proof.
  unfold starts_solid. rewrite !strip_first_None, !Forall_forall. intros Hne Hs p Hp. specialize (Hs p Hp).
  assert (p = " " ∨ no_blank p = true) as [->|Hb]; [| |by apply strip_prefix_blank]; last first.
  { destruct s as [|y s]; [done|]. cbn [strip_prefix String.append] in *. by destruct (Ascii.eqb _ y). }
  assert (forallb (λ p, String.eqb p " " || no_blank p) space_encodings = true) as Hall by reflexivity.
  rewrite forallb_forall in Hall. apply list_elem_of_In, Hall, orb_true_iff in Hp as [Hp%String.eqb_eq|Hp]; auto.
Qed.

Lemma app_snoc (a : string) c s : (a ++ String c "") ++ s = a ++ String c s.
Proof. by rewrite string_app_assoc. Qed.

Lemma app_empty (a : string) : a ++ "" = a.
Proof. induction a as [|x a IH]; simpl; [done|by rewrite IH]. Qed.

Lemma length_joined (a b : string) : String.length (a ++ b) = String.length a + String.length b.
Proof. induction a as [|x a IH]; simpl; [done|by rewrite IH]. Qed.

Lemma snoc_split word c (a b : string) :
  word ++ String c "" = a ++ b → b ≠ "" → ∃ b', b = b' ++ String c "" ∧ word = a ++ b'.
Proof.
  revert word. induction a as [|x a IH]; intros word He Hb; [by exists word|].
  destruct word as [|y word]; simpl in He; injection He as -> He; [by destruct a, b|].
  destruct (IH _ He Hb) as (b' & -> & ->). by exists b'.
Qed.

(** ** The words that come out *)

Lemma flush_fields w : solid w → Forall field (flush w).
Proof.
  intros Hw. unfold flush. destruct (String.eqb w "") eqn:He; constructor; [|done].
  split; [by apply String.eqb_neq|done].
Qed.

Lemma loop_fields fuel word s :
  (∀ a b, word = a ++ b → b ≠ "" → starts_solid (b ++ s)) → Forall field (fields_loop fuel word s).
Proof.
  revert word s. induction fuel as [|f IH]; intros word s Hw.
  { apply flush_fields. intros a b Hab Hb. eapply starts_solid_prefix, Hw; eauto. }
  assert (solid word) as Hword by (intros a b Hab Hb; eapply starts_solid_prefix, Hw; eauto).
  destruct s as [|c s]; cbn [fields_loop]; [by apply flush_fields|].
  destruct (strip_first space_encodings (String c s)) as [r|] eqn:Hs.
  - apply Forall_app. split; [by apply flush_fields|]. apply IH. by intros [] [].
  - apply IH. intros a b Hab Hb. apply snoc_split in Hab as (b' & -> & ->); [|done]. rewrite app_snoc.
    destruct b' as [|y b']; [done|]. by apply (Hw a).
Qed.

Lemma Fields_fields s : Forall field (Fields s).
Proof. apply loop_fields. by intros [] []. Qed.

(** ** The words that go in *)

Lemma solid_tail c w : solid (String c w) → solid w.
Proof. intros Hw a b -> Hb. by apply (Hw (String c a)). Qed.

Lemma loop_word w word fuel t :
  solid w → fields_loop (String.length w + S fuel) word (w ++ " " ++ t) = (flush (word ++ w) ++ fields_loop fuel "" t)%list.
Proof.
  revert word. induction w as [|c w IH]; intros word Hw.
  { cbn. by rewrite app_empty. }
  assert (starts_solid (String c w ++ " " ++ t)) as Hc.
  { apply starts_solid_blank; [done|]. by apply (Hw ""). }
  change (String c w ++ " " ++ t) with (String c (w ++ " " ++ t)) in *. unfold starts_solid in Hc.
  cbn [String.length Nat.add fields_loop]. rewrite Hc, IH, app_snoc by (by eapply solid_tail). done.
Qed.

Lemma loop_last w word : solid w → fields_loop (String.length w) word w = flush (word ++ w).
Proof.
  revert word. induction w as [|c w IH]; intros word Hw; [cbn; by rewrite app_empty|].
  cbn [String.length fields_loop]. rewrite (Hw "" (String c w)) by done. by rewrite IH, app_snoc by (by eapply solid_tail).
Qed.

(** Fields reads joined words back. *)
Lemma Fields_join l : Forall field l → Fields (String.concat " " l) = l.
Proof.
  induction 1 as [|w l [Hne Hw] Hl IH]; [done|].
  assert (flush w = [w]) as Hf by (unfold flush; by rewrite (proj2 (String.eqb_neq w "") Hne)).
  destruct l as [|v l]; [cbn [String.concat]; unfold Fields; by rewrite loop_last|].
  change (String.concat " " (w :: v :: l)) with (w ++ " " ++ String.concat " " (v :: l)).
  unfold Fields in *. rewrite length_joined. cbn [String.length String.append].
  etrans; [by apply loop_word|]. cbn [String.append]. by rewrite Hf, IH.
Qed.
