(* ===== verification/LmsRolesProps.v ===== *)
(** * Who may do what (laws of [LmsRoles])

    The start-up migration leaves the roles of the learning system with their
    default permissions and every other role alone, and doing it again writes
    nothing.  After it a session may do what the defaults say. *)

From stdpp Require Import strings.
From S2P Require Import Prelude.
From S2P Require Import GoString.
From S2P Require Import GoUtf8.
From S2P Require Import CallStore.
From S2P Require Import LmsStore.
From S2P Require Import LmsApp.
From S2P Require Import PlatUser.
From S2P Require Import LmsRoles.

Local Open Scope string_scope.

Section migration.
Context `{Platform} `{GoRange} `{LmsEnv}.

(** ** The table *)

(** What the table keeps: rows under their names, unique ids, and texts that
    pass the checks of Save. *)
Definition fit (r : Role) : bool :=
  negb (String.eqb (Role_Id r) "") &&
  negb (String.eqb (Role_DisplayName r) "" || (RoleDisplayNameMaxLength <? String.length (Role_DisplayName r))%nat) &&
  (String.length (Role_Description r) <=? RoleDescriptionMaxLength)%nat.

Record table_ok (rows : role_rows) : Prop := {
  tok_name : ∀ k r, rows !! k = Some r → Role_Name r = k;
  tok_ids : ∀ k k' r r', rows !! k = Some r → rows !! k' = Some r' → Role_Id r = Role_Id r' → k = k';
  tok_fit : ∀ k r, rows !! k = Some r → fit r = true;
}.

(** Ids that will be drawn are new. *)
Definition fresh (n : nat) (rows : role_rows) : Prop :=
  ∀ m, (n ≤ m)%nat → lms_id m ≠ "" ∧ ∀ k r, rows !! k = Some r → Role_Id r ≠ lms_id m.

Lemma name_of_id_some rows k r : table_ok rows → rows !! k = Some r → name_of_id rows (Role_Id r) = Some k.
Proof.
  intros Hok Hk. unfold name_of_id.
  assert ((k, r) ∈ filter (λ e : string * Role, Role_Id e.2 = Role_Id r) (map_to_list rows)) as Hin.
  { apply list_elem_of_filter. split; [done|]. by apply elem_of_map_to_list. }
  destruct (filter _ _) as [|[k' r'] l] eqn:Hf; [by apply not_elem_of_nil in Hin|]. simpl. f_equal.
  assert ((k', r') ∈ filter (λ e : string * Role, Role_Id e.2 = Role_Id r) (map_to_list rows)) as Hin'.
  { rewrite Hf. left. }
  apply list_elem_of_filter in Hin' as [Hid Hin']. apply elem_of_map_to_list in Hin'.
  by eapply (tok_ids _ Hok).
Qed.

Lemma name_of_id_none rows id : (∀ k r, rows !! k = Some r → Role_Id r ≠ id) → name_of_id rows id = None.
Proof.
  intros Hno. unfold name_of_id. destruct (filter _ _) as [|[k r] l] eqn:Hf; [done|]. exfalso.
  assert ((k, r) ∈ filter (λ e : string * Role, Role_Id e.2 = id) (map_to_list rows)) as Hin.
  { rewrite Hf. left. }
  apply list_elem_of_filter in Hin as [Hid Hin]. apply elem_of_map_to_list in Hin. by apply (Hno _ _ Hin).
Qed.

(** ** The defaults *)

(** What makes a role of the learning system one the table takes as it is. *)
Definition default_ok (e : string * Role) : bool :=
  String.eqb (Role_Name e.2) e.1 && String.eqb (Role_Id e.2) "" && IsValidRoleName e.1 &&
  negb (String.eqb (Role_DisplayName e.2) "" || (RoleDisplayNameMaxLength <? String.length (Role_DisplayName e.2))%nat) &&
  (String.length (Role_Description e.2) <=? RoleDescriptionMaxLength)%nat &&
  forallb (λ p, bool_decide (p ∈ LearningSystemScopedPermissions)) (Role_Permissions e.2) &&
  bool_decide (Fields (permissions_column (Role_Permissions e.2)) = Role_Permissions e.2).

Lemma forallb_map {X} (f : string * X → bool) (m : gmap string X) k x :
  forallb f (map_to_list m) = true → m !! k = Some x → f (k, x) = true.
Proof.
  intros Hall Hk. rewrite forallb_forall in Hall. apply Hall. by apply list_elem_of_In, elem_of_map_to_list.
Qed.

Lemma defaults_ok : forallb default_ok (map_to_list MakeDefaultLMSRoles) = true.
Proof. vm_compute. reflexivity. Qed.

Lemma default_entry name role : MakeDefaultLMSRoles !! name = Some role → default_ok (name, role) = true.
Proof. apply forallb_map, defaults_ok. Qed.

Lemma lms_permissions_known l :
  forallb (λ p, bool_decide (p ∈ LearningSystemScopedPermissions)) l = true →
  forallb (λ p, bool_decide (p ∈ AllPermissions) || bool_decide (p ∈ deprecated_permissions)) l = true.
Proof.
  rewrite !forallb_forall. intros Hl p Hp. specialize (Hl p Hp). apply bool_decide_eq_true in Hl.
  apply orb_true_intro. left. apply bool_decide_eq_true. unfold AllPermissions. apply elem_of_app. by right.
Qed.

(** What a saved default looks like. *)
Definition synced (rows : role_rows) (e : string * Role) : Prop :=
  ∃ row, rows !! e.1 = Some row ∧ Role_Permissions row = Role_Permissions e.2.

Definition healthy : Prop :=
  (∀ n, lms_fault n = false) ∧ (∀ n m, lms_id n = lms_id m → n = m).

(** A write of Save on a table in order. *)
Lemma save_row rows name row n n' :
  table_ok rows → fresh n rows → (n ≤ n')%nat → Role_Name row = name → fit row = true →
  (∀ m, (n' ≤ m)%nat → Role_Id row ≠ lms_id m) →
  (∀ k r, rows !! k = Some r → Role_Id r = Role_Id row → k = name) →
  table_ok (<[name := row]> rows) ∧ fresh n' (<[name := row]> rows).
Proof.
  intros Hok Hfresh Hle Hname Hfit Hnew Hids. split; [split|].
  - intros k r [[<- <-]|[_ Hk]]%lookup_insert_Some; [done|by apply (tok_name _ Hok)].
  - intros k k' r r' [[<- <-]|[Hn Hk]]%lookup_insert_Some [[<- <-]|[Hn' Hk']]%lookup_insert_Some Heq;
      [done|by symmetry; eapply Hids|by eapply Hids|by eapply (tok_ids _ Hok)].
  - intros k r [[<- <-]|[_ Hk]]%lookup_insert_Some; [done|by eapply (tok_fit _ Hok)].
  - intros m Hm. destruct (Hfresh m ltac:(lia)) as [Hne Hno]. split; [done|].
    intros k r [[<- <-]|[_ Hk]]%lookup_insert_Some; [by apply Hnew|by eapply Hno].
Qed.

Lemma valid_default (r role : Role) :
  default_ok (Role_Name r, role) = true → Role_Permissions r = Role_Permissions role →
  negb (String.eqb (Role_DisplayName r) "" || (RoleDisplayNameMaxLength <? String.length (Role_DisplayName r))%nat) &&
  (String.length (Role_Description r) <=? RoleDescriptionMaxLength)%nat = true →
  Role_IsValidWithoutId r = true.
Proof.
  unfold default_ok. cbn [fst snd]. intros Hd Hp Ht. repeat (apply andb_prop in Hd as [Hd ?]).
  apply andb_prop in Ht as [Ht1 Ht2]. unfold Role_IsValidWithoutId.
  rewrite Ht1, Ht2, Hp, !andb_true_r. apply andb_true_intro. by split; [|apply lms_permissions_known].
Qed.

Lemma read_back (name : string) (role : Role) : default_ok (name, role) = true →
  Fields (permissions_column (Role_Permissions role)) = Role_Permissions role.
Proof.
  unfold default_ok. intros Hd. repeat (apply andb_prop in Hd as [Hd ?]).
  by eapply bool_decide_eq_true.
Qed.

Lemma default_parts (name : string) (role : Role) : default_ok (name, role) = true →
  Role_Name role = name ∧ Role_Id role = "" ∧
  negb (String.eqb (Role_DisplayName role) "" || (RoleDisplayNameMaxLength <? String.length (Role_DisplayName role))%nat) &&
  (String.length (Role_Description role) <=? RoleDescriptionMaxLength)%nat = true.
Proof.
  unfold default_ok. cbn [fst snd]. intros Hd. repeat (apply andb_prop in Hd as [Hd ?]).
  split_and!; [by apply String.eqb_eq|by apply String.eqb_eq|]. by apply andb_true_intro.
Qed.

(** What one round of the migration does to the table. *)
Definition brings_in_line (e : string * Role) (w w' : role_world) : Prop :=
  synced (rw_roles w') e ∧ (∀ k, k ≠ e.1 → rw_roles w' !! k = rw_roles w !! k) ∧
  (synced (rw_roles w) e → rw_roles w' = rw_roles w) ∧ rw_system w' = rw_system w.

Definition in_order (w : role_world) : Prop := table_ok (rw_roles w) ∧ fresh (rw_ticks w) (rw_roles w).

Lemma migrate_missing name role w :
  healthy → default_ok (name, role) = true → in_order w → rw_roles w !! name = None →
  ∃ w', migrate_role (name, role) w = (None, w') ∧ brings_in_line (name, role) w w' ∧ in_order w'.
Proof.
  intros [Hf Hinj] He [Hok Hfresh] Hrow. destruct w as [rows sys n]. simpl in *.
  pose proof (default_parts _ _ He) as (Hn & Hid & Ht). pose proof (read_back _ _ He) as Hback.
  destruct (Hfresh n ltac:(lia)) as [Hne Hno].
  set (row := stored_role (lms_id n) (lms_clock n) (lms_clock n) role).
  exists (RoleWorld (<[name := row]> rows) sys (S (S n))). split; [|split].
  - unfold migrate_role, RoleStore_GetByName. cbn [rw_roles rw_ticks rw_system]. rewrite Hf, Hrow. simpl.
    unfold RoleStore_Save. rewrite (valid_default role role) by (rewrite ?Hn; done). rewrite Hf, Hid, Hn. simpl.
    by rewrite Hrow, name_of_id_none.
  - unfold brings_in_line, synced. cbn [rw_roles rw_system fst snd]. split_and!; [|by intros k Hk; rewrite lookup_insert_ne| |done].
    + exists row. by rewrite lookup_insert_eq.
    + intros (r & Hr & _). congruence.
  - apply (save_row rows name row n (S (S n))); try done; [lia| | |].
    + unfold fit. apply andb_prop in Ht as [Ht1 Ht2]. rewrite !andb_true_iff. split_and!; try done.
      simpl. by apply negb_true_iff, String.eqb_neq.
    + intros m Hm Heq. apply Hinj in Heq. lia.
    + intros k r Hk Heq. by destruct (Hno k r Hk).
Qed.

Lemma migrate_existing name role existing w :
  healthy → default_ok (name, role) = true → in_order w → rw_roles w !! name = Some existing →
  ∃ w', migrate_role (name, role) w = (None, w') ∧ brings_in_line (name, role) w w' ∧ in_order w'.
Proof.
  intros [Hf Hinj] He [Hok Hfresh] Hrow. destruct w as [rows sys n]. simpl in *.
  pose proof (tok_name _ Hok _ _ Hrow) as Hname. pose proof (tok_fit _ Hok _ _ Hrow) as Hfit.
  unfold fit in Hfit. rewrite <- andb_assoc in Hfit. apply andb_prop in Hfit as [Hid Ht].
  pose proof (read_back _ _ He) as Hback.
  destruct (decide (Role_Permissions existing = Role_Permissions role)) as [Hsame|Hdiff].
  - exists (RoleWorld rows sys (S (S n))). split; [|split].
    + unfold migrate_role, RoleStore_GetByName. cbn [rw_roles rw_ticks rw_system].
      rewrite Hf, Hrow. by rewrite decide_True.
    + unfold brings_in_line, synced. cbn [rw_roles rw_system fst snd]. split_and!; eauto.
    + split; [done|]. cbn [rw_roles rw_ticks]. intros m Hm. apply Hfresh. simpl in *. lia.
  - set (row := stored_role (Role_Id existing) (Role_CreateAt existing) (lms_clock n)
                  (with_permissions (lms_clock n) (Role_Permissions role) existing)).
    assert (<[name := row]> (delete name rows) = <[name := row]> rows) as Hins by apply insert_delete_eq.
    exists (RoleWorld (<[name := row]> rows) sys (S (S n))). split; [|split].
    + unfold migrate_role, RoleStore_GetByName. cbn [rw_roles rw_ticks rw_system].
      rewrite Hf, Hrow, decide_False by done. unfold RoleStore_Save.
      rewrite (valid_default (with_permissions _ _ existing) role) by (simpl; rewrite ?Hname; done).
      rewrite Hf. cbn [Role_Id with_permissions Role_Name Role_CreateAt].
      apply negb_true_iff in Hid. rewrite Hid, (name_of_id_some _ name), Hname by done.
      rewrite String.eqb_refl. simpl. by rewrite <- Hins.
    + unfold brings_in_line, synced. cbn [rw_roles rw_system fst snd].
      split_and!; [|by intros k Hk; rewrite lookup_insert_ne| |done].
      * exists row. by rewrite lookup_insert_eq.
      * intros (r & Hr & Hp). congruence.
    + apply (save_row rows name row n (S (S n))); try done; [lia| | |].
      * unfold fit. rewrite <- andb_assoc. apply andb_true_intro. split; [|done].
        by simpl; apply negb_true_iff in Hid; rewrite Hid.
      * intros m Hm. simpl. apply (Hfresh m ltac:(lia)) in Hrow. done.
      * intros k r Hk Heq. by eapply (tok_ids _ Hok).
Qed.

Lemma migrate_one name role w :
  healthy → default_ok (name, role) = true → in_order w →
  ∃ w', migrate_role (name, role) w = (None, w') ∧ brings_in_line (name, role) w w' ∧ in_order w'.
Proof.
  intros Hh He Ho. destruct (rw_roles w !! name) eqn:Hrow;
    [by eapply migrate_existing|by eapply migrate_missing].
Qed.

Lemma migrate_all entries w :
  healthy → forallb default_ok entries = true → NoDup entries.*1 → in_order w →
  ∃ w', migrate_roles entries w = ([], w') ∧ in_order w' ∧
    (∀ e, e ∈ entries → synced (rw_roles w') e) ∧
    (∀ k, k ∉ entries.*1 → rw_roles w' !! k = rw_roles w !! k) ∧
    ((∀ e, e ∈ entries → synced (rw_roles w) e) → rw_roles w' = rw_roles w).
Proof.
  intros Hh. revert w. induction entries as [|[name role] entries IH]; intros w Hd Hnd Ho.
  - exists w. split_and!; try done. intros e He. by apply not_elem_of_nil in He.
  - apply andb_prop in Hd as [He Hd]. csimpl in Hnd. apply NoDup_cons in Hnd as [Hni Hnd].
    destruct (migrate_one name role w Hh He Ho) as (w1 & Hrun & (Hsync & Hkeep & Hsame & Hsys) & Ho1).
    destruct (IH w1 Hd Hnd Ho1) as (w2 & Hrest & Ho2 & Hall & Hout & Hstay).
    exists w2. split; [cbn [migrate_roles]; by rewrite Hrun, Hrest|]. split; [done|]. split_and!.
    + intros e [->|Hin]%elem_of_cons; [|by apply Hall].
      destruct Hsync as (row & Hrow & Hp). exists row. split; [|done]. by rewrite Hout.
    + intros k Hk. csimpl in Hk. apply not_elem_of_cons in Hk as [Hne Hk]. by rewrite Hout, Hkeep.
    + intros Hwas. assert (rw_roles w1 = rw_roles w) as Heq by (apply Hsame, Hwas; left).
      rewrite <- Heq. apply Hstay. intros e Hin. rewrite Heq. apply Hwas. by right.
Qed.

Lemma range_default_ok : forallb default_ok (go_range MakeDefaultLMSRoles) = true.
Proof.
  apply forallb_forall. intros [k x] Hin. apply list_elem_of_In, elem_of_go_range in Hin.
  by apply default_entry.
Qed.

(** On a table of roles in order the start-up migration without faults
    succeeds: every role of the learning system exists with its default
    permissions, every other role is as before, and running it again leaves
    the table as it is. *)
Theorem lms_roles_migration (w : role_world) :
  healthy → in_order w →
  ∃ w', doLMSRolesCreationMigration w = ([], w') ∧
    (∀ name role, MakeDefaultLMSRoles !! name = Some role →
       ∃ row, rw_roles w' !! name = Some row ∧ Role_Permissions row = Role_Permissions role) ∧
    (∀ name, MakeDefaultLMSRoles !! name = None → rw_roles w' !! name = rw_roles w !! name) ∧
    ∃ w'', doLMSRolesCreationMigration w' = ([], w'') ∧ rw_roles w'' = rw_roles w'.
Proof.
  intros Hh Ho.
  assert (∀ v, in_order v → ∃ v', doLMSRolesCreationMigration v = ([], v') ∧ in_order v' ∧
    (∀ e, e ∈ go_range MakeDefaultLMSRoles → synced (rw_roles v') e) ∧
    (∀ k, k ∉ (go_range MakeDefaultLMSRoles).*1 → rw_roles v' !! k = rw_roles v !! k) ∧
    ((∀ e, e ∈ go_range MakeDefaultLMSRoles → synced (rw_roles v) e) → rw_roles v' = rw_roles v)) as Hone.
  { intros [rows sys n] [Hok Hfresh]. pose proof Hh as [Hf _].
    destruct (migrate_all (go_range MakeDefaultLMSRoles) (RoleWorld rows sys (S n)) Hh range_default_ok)
      as ([rows' sys' n'] & Hrun & [Hok' Hfresh'] & Hall & Hout & Hstay).
    - apply NoDup_go_range_keys.
    - split; [done|]. intros m Hm. apply Hfresh. simpl in *. lia.
    - exists (RoleWorld rows' (<[LMSRolesCreationMigrationKey := "true"]> sys') (S n')).
      unfold doLMSRolesCreationMigration. cbn [rw_ticks rw_roles rw_system] in *. rewrite Hf, Hrun, Hf.
      split_and!; try done. split; [done|]. intros m Hm. apply Hfresh'. simpl in *. lia. }
  destruct (Hone w Ho) as (w' & Hrun & Ho' & Hall & Hout & _).
  destruct (Hone w' Ho') as (w'' & Hrun' & _ & _ & _ & Hstay).
  exists w'. split; [done|]. split_and!.
  - intros name role Hl. apply (Hall (name, role)). by apply elem_of_go_range.
  - intros name Hl. apply Hout. intros Hin. apply list_elem_of_fmap in Hin as ([k x] & -> & Hin).
    apply elem_of_go_range in Hin. simpl in Hl. by rewrite Hin in Hl.
  - exists w''. by split; [|apply Hstay].
Qed.

(** ** What the roles grant *)

(** A role that is in force and belongs to no scheme. *)
Definition plain_role (r : Role) : bool := (Role_DeleteAt r =? 0)%Z && negb (Role_SchemeManaged r).

Lemma single_role_grants rows name row p :
  (∀ k r, rows !! k = Some r → Role_Name r = k) → rows !! name = Some row → plain_role row = true →
  RolesGrantPermission false rows [name] p = bool_decide (p ∈ Role_Permissions row).
Proof.
  intros Hnames Hrow Hplain. apply andb_prop in Hplain as [Hdel Hscheme]. apply negb_true_iff in Hscheme.
  assert (∀ r, r ∈ filter (λ r, Role_Name r ∈ [name]) (go_range rows).*2 ↔ r = row) as Hmem.
  { intros r. rewrite list_elem_of_filter, list_elem_of_singleton, list_elem_of_fmap. split.
    - intros [Hn ([k r'] & -> & Hin)]. simpl in *. apply elem_of_go_range in Hin.
      rewrite (Hnames _ _ Hin) in Hn. by simplify_eq.
    - intros ->. split; [by apply Hnames in Hrow|]. exists (name, row). split; [done|]. by apply elem_of_go_range. }
  unfold RolesGrantPermission, GetRolesByNames, RoleStore_GetByNames. rewrite decide_False by done.
  unfold mergeChannelHigherScopedPermissions.
  destruct (filter (λ r, Role_SchemeManaged r = true) _) as [|r l] eqn:Hf.
  - apply eq_true_iff_eq. rewrite existsb_exists, bool_decide_eq_true. split.
    + intros (r & Hin & Hp). apply list_elem_of_In, Hmem in Hin as ->. apply andb_prop in Hp as [_ Hp].
      by apply bool_decide_eq_true in Hp.
    + intros Hp. exists row. split; [by apply list_elem_of_In, Hmem|]. rewrite Hdel. by apply bool_decide_eq_true.
  - exfalso. assert (r ∈ filter (λ r, Role_SchemeManaged r = true)
      (filter (λ r, Role_Name r ∈ [name]) (go_range rows).*2)) as Hin by (rewrite Hf; left).
    apply list_elem_of_filter in Hin as [Hm Hin]. apply Hmem in Hin as ->. congruence.
Qed.
(** A role of the session grants what it lists, whatever the other roles are. *)
Lemma role_grants rows names name row p :
  (∀ l, is_Some (ChannelHigherScopedPermissions l)) → name ∈ names → rows !! name = Some row → Role_Name row = name →
  plain_role row = true → p ∈ Role_Permissions row → RolesGrantPermission false rows names p = true.
Proof.
  intros Hhigher Hin Hrow Hname Hplain Hp. apply andb_prop in Hplain as [Hdel Hscheme%negb_true_iff].
  assert (row ∈ filter (λ r, Role_Name r ∈ names) (go_range rows).*2) as Hmem.
  { apply list_elem_of_filter. split; [by rewrite Hname|]. apply list_elem_of_fmap. exists (name, row).
    split; [done|]. by apply elem_of_go_range. }
  unfold RolesGrantPermission, GetRolesByNames, RoleStore_GetByNames.
  destruct (decide _) as [->|_]; [by apply not_elem_of_nil in Hin|].
  set (roles := filter _ _) in *. unfold mergeChannelHigherScopedPermissions.
  assert (∀ l, row ∈ l → existsb (λ r, (Role_DeleteAt r =? 0)%Z && bool_decide (p ∈ Role_Permissions r)) l = true) as Hex.
  { intros l Hl. apply existsb_exists. exists row. split; [by apply list_elem_of_In|]. rewrite Hdel. by apply bool_decide_eq_true. }
  destruct (filter _ roles) as [|m l]; [by apply Hex|]. destruct (Hhigher (Role_Name <$> m :: l)) as [higher ->].
  apply Hex. apply list_elem_of_fmap. exists row. by rewrite Hscheme.
Qed.
End migration.

(** ** A platform just started *)

Module Fresh.

#[export] Instance platform : Platform := {|
  platform_permissions := ["manage_system"];
  deprecated_permissions := [];
  channel_scoped := [];
  channel_moderated := [];
  ChannelHigherScopedPermissions _ := None;
|}.

Fixpoint xs (n : nat) : string := match n with 0 => "" | S n => "x" ++ xs n end.

#[export] Instance counting : LmsEnv := {|
  lms_clock := λ n, Z.of_nat n;
  lms_id := λ n, "r" ++ xs n;
  lms_fault := λ _, false;
|}.

Lemma healthy_counting : healthy.
Proof.
  split; [done|]. intros n m [= Heq]. revert m Heq. induction n as [|n IH]; intros [|m] Heq; simplify_eq/=; try done.
  f_equal. by apply IH.
Qed.

(** The administrator of the platform, and parents who may do nothing yet. *)
Definition old_role (id name : string) (permissions : list string) : Role :=
  {| Role_Id := id; Role_Name := name; Role_DisplayName := name; Role_Description := "";
     Role_CreateAt := 0; Role_UpdateAt := 0; Role_DeleteAt := 0; Role_Permissions := permissions;
     Role_SchemeManaged := false; Role_BuiltIn := true |}.

Definition before : role_world :=
  RoleWorld {["system_admin" := old_role "s1" "system_admin" ["manage_system"];
              "lms_parent" := old_role "p1" "lms_parent" []]} ∅ 0.

Lemma before_rows k r : rw_roles before !! k = Some r →
  (k = "system_admin" ∧ r = old_role "s1" "system_admin" ["manage_system"]) ∨
  (k = "lms_parent" ∧ r = old_role "p1" "lms_parent" []).
Proof.
  unfold before. simpl. intros [[<- <-]|[_ Hk]]%lookup_insert_Some; [by left|].
  apply lookup_singleton_Some in Hk as [<- <-]. by right.
Qed.

Lemma before_in_order : in_order before.
Proof.
  split; [split|].
  - by intros k r [[-> ->]|[-> ->]]%before_rows.
  - by intros k k' r r' [[-> ->]|[-> ->]]%before_rows [[-> ->]|[-> ->]]%before_rows.
  - by intros k r [[-> ->]|[-> ->]]%before_rows.
  - intros m _. split; [done|]. by intros k r [[-> ->]|[-> ->]]%before_rows.
Qed.
End Fresh.

Section fresh.
Import Fresh.

Definition may (roleNames permission : string) : bool :=
  SessionHasPermissionTo false (rw_roles (doLMSRolesCreationMigration before).2)
    {| Session_UserId := "u"; Session_Roles := roleNames; Session_Local := false |} permission.

(** Who may do what after the migration. *)
Example parents_may_manage_students : may "system_user lms_parent" PermissionLmsManageStudents = true.
Proof. vm_compute. reflexivity. Qed.
Example parents_may_not_manage_users : may "system_user lms_parent" PermissionLmsManageUsers = false.
Proof. vm_compute. reflexivity. Qed.
Example students_may_grade : may "lms_student" PermissionLmsManageWeeklyReviews = true.
Proof. vm_compute. reflexivity. Qed.
Example admins_may_not_manage_the_system : may "lms_super_admin" "manage_system" = false.
Proof. vm_compute. reflexivity. Qed.

Lemma lms_roles_migration_witness :
  healthy ∧ in_order before ∧
  ∃ w', doLMSRolesCreationMigration before = ([], w') ∧
    (∀ name role, MakeDefaultLMSRoles !! name = Some role →
       ∃ row, rw_roles w' !! name = Some row ∧ Role_Permissions row = Role_Permissions role) ∧
    (∀ name, MakeDefaultLMSRoles !! name = None → rw_roles w' !! name = rw_roles before !! name) ∧
    ∃ w'', doLMSRolesCreationMigration w' = ([], w'') ∧ rw_roles w'' = rw_roles w'.
Proof.
  exact (conj healthy_counting (conj before_in_order
    (lms_roles_migration before healthy_counting before_in_order))).
Defined.
End fresh.
