(* ===== verification/UserStore.v ===== *)
(** * The user store (sqlstore/user_store.go behind localcachelayer/user_layer.go)

    [UserStore_Save], [UserStore_Update], [UserStore_Get], [UserStore_GetAll]
    and [UserStore_PermanentDelete] are the SQL store; [CachedUserStore_Get] is
    the cache layer in front of [Get].  The layer passes every write through
    and drops a cached user only in [InvalidateProfileCacheForUser], which its
    callers have to run.  A user is cached as its generated serializer encodes
    it ([cached_copy]), and that serializer has no phone and no parent.

    [fault] is a statement the database or the connection refuses, a string
    PostgreSQL does not take among them; when an insert violates both unique
    indexes, [email_first] says which one the database reports. *)

From stdpp Require Import strings.
From S2P Require Import Prelude.
From S2P Require Import GoString.
From S2P Require Import GoUtf8.
From S2P Require Import GoRunes.
From S2P Require Import LmsModel.
From S2P Require Import Hashers.
From S2P Require Import PlatUser.
From S2P Require Import CallStore.

Local Open Scope string_scope.

(** ** Columns *)

Definition BinaryParamKey : string := "MM_BINARY_PARAMETERS".
Definition maxPropSizeBytes : nat := 1024 * 1024.
Definition AutoResponderMessageNotifyProp : string := "auto_responder_message".

Definition wrapBinaryParamStringMap (ok : bool) (props : gmap string string) : gmap string string :=
  <[BinaryParamKey := if ok then "true" else "false"]> props.

Definition map_bytes (m : gmap string string) : nat :=
  map_fold (λ k v n, String.length k + String.length v + n)%nat 0%nat m.

(** The map the driver writes: without the marker, which is deleted from the
    caller's map too.  [None]: too large. *)
Definition StringMap_Value (m : gmap string string) : option (gmap string string) :=
  let m := delete BinaryParamKey m in
  if (maxPropSizeBytes <? map_bytes m)%nat then None else Some m.

(** The widths of the VARCHAR columns. *)
Definition column_widths (u : User) : list (nat * string) := [
  (26, User_Id u); (64, User_Username u); (128, User_Password u); (128, deref (User_AuthData u));
  (32, User_AuthService u); (128, User_Email u); (64, User_Nickname u); (64, User_FirstName u);
  (64, User_LastName u); (128, User_Position u); (256, User_Roles u); (5, User_Locale u);
  (128, User_MfaSecret u); (26, deref (User_RemoteId u)); (13, deref (User_Phone u));
  (26, deref (User_ParentId u))]%nat.

Definition fits_columns (u : User) : bool :=
  forallb (λ c : nat * string, (rune_count c.2 <=? c.1)%nat) (column_widths u).

(** The caller's object after its maps were written. *)
Definition written (u : User) : User :=
  {| User_Id := User_Id u; User_CreateAt := User_CreateAt u; User_UpdateAt := User_UpdateAt u;
     User_DeleteAt := User_DeleteAt u; User_Username := User_Username u; User_Password := User_Password u;
     User_AuthData := User_AuthData u; User_AuthService := User_AuthService u; User_Email := User_Email u;
     User_EmailVerified := User_EmailVerified u; User_Nickname := User_Nickname u;
     User_FirstName := User_FirstName u; User_LastName := User_LastName u;
     User_Position := User_Position u; User_Roles := User_Roles u;
     User_AllowMarketing := User_AllowMarketing u; User_Props := delete BinaryParamKey (User_Props u);
     User_NotifyProps := delete BinaryParamKey (User_NotifyProps u);
     User_LastPasswordUpdate := User_LastPasswordUpdate u;
     User_LastPictureUpdate := User_LastPictureUpdate u; User_FailedAttempts := User_FailedAttempts u;
     User_Locale := User_Locale u; User_Timezone := delete BinaryParamKey <$> User_Timezone u;
     User_MfaActive := User_MfaActive u; User_MfaSecret := User_MfaSecret u;
     User_RemoteId := User_RemoteId u; User_LastActivityAt := User_LastActivityAt u;
     User_IsBot := User_IsBot u; User_BotDescription := User_BotDescription u;
     User_BotLastIconUpdate := User_BotLastIconUpdate u; User_TermsOfServiceId := User_TermsOfServiceId u;
     User_TermsOfServiceCreateAt := User_TermsOfServiceCreateAt u;
     User_DisableWelcomeEmail := User_DisableWelcomeEmail u; User_LastLogin := User_LastLogin u;
     User_MfaUsedTimestamps := User_MfaUsedTimestamps u; User_Phone := User_Phone u;
     User_ParentId := User_ParentId u |}.

(** What the row keeps: the fields that are columns. *)
Definition row_of (u : User) : User :=
  {| User_Id := User_Id u; User_CreateAt := User_CreateAt u; User_UpdateAt := User_UpdateAt u;
     User_DeleteAt := User_DeleteAt u; User_Username := User_Username u; User_Password := User_Password u;
     User_AuthData := User_AuthData u; User_AuthService := User_AuthService u; User_Email := User_Email u;
     User_EmailVerified := User_EmailVerified u; User_Nickname := User_Nickname u;
     User_FirstName := User_FirstName u; User_LastName := User_LastName u;
     User_Position := User_Position u; User_Roles := User_Roles u;
     User_AllowMarketing := User_AllowMarketing u; User_Props := User_Props u;
     User_NotifyProps := User_NotifyProps u; User_LastPasswordUpdate := User_LastPasswordUpdate u;
     User_LastPictureUpdate := User_LastPictureUpdate u; User_FailedAttempts := User_FailedAttempts u;
     User_Locale := User_Locale u; User_Timezone := User_Timezone u; User_MfaActive := User_MfaActive u;
     User_MfaSecret := User_MfaSecret u; User_RemoteId := User_RemoteId u; User_LastActivityAt := 0%Z;
     User_IsBot := false; User_BotDescription := ""; User_BotLastIconUpdate := 0%Z;
     User_TermsOfServiceId := ""; User_TermsOfServiceCreateAt := 0%Z; User_DisableWelcomeEmail := false;
     User_LastLogin := User_LastLogin u; User_MfaUsedTimestamps := User_MfaUsedTimestamps u;
     User_Phone := User_Phone u; User_ParentId := User_ParentId u |}.

Definition maps_fit (u : User) : bool :=
  forallb (λ m, bool_decide (is_Some (StringMap_Value m)))
    [User_Props u; User_NotifyProps u; default ∅ (User_Timezone u)].

Definition columns (u : User) : option User :=
  if maps_fit u && fits_columns u then Some (row_of (written u)) else None.

(** The joined bot columns of a row read back. *)
Definition with_bot (bots : gmap string (string * Z)) (u : User) : User :=
  let b := bots !! User_Id u in
  {| User_Id := User_Id u; User_CreateAt := User_CreateAt u; User_UpdateAt := User_UpdateAt u;
     User_DeleteAt := User_DeleteAt u; User_Username := User_Username u; User_Password := User_Password u;
     User_AuthData := User_AuthData u; User_AuthService := User_AuthService u; User_Email := User_Email u;
     User_EmailVerified := User_EmailVerified u; User_Nickname := User_Nickname u;
     User_FirstName := User_FirstName u; User_LastName := User_LastName u;
     User_Position := User_Position u; User_Roles := User_Roles u;
     User_AllowMarketing := User_AllowMarketing u; User_Props := User_Props u;
     User_NotifyProps := User_NotifyProps u; User_LastPasswordUpdate := User_LastPasswordUpdate u;
     User_LastPictureUpdate := User_LastPictureUpdate u; User_FailedAttempts := User_FailedAttempts u;
     User_Locale := User_Locale u; User_Timezone := User_Timezone u; User_MfaActive := User_MfaActive u;
     User_MfaSecret := User_MfaSecret u; User_RemoteId := User_RemoteId u;
     User_LastActivityAt := User_LastActivityAt u; User_IsBot := bool_decide (is_Some b);
     User_BotDescription := (default ("", 0%Z) b).1; User_BotLastIconUpdate := (default ("", 0%Z) b).2;
     User_TermsOfServiceId := User_TermsOfServiceId u;
     User_TermsOfServiceCreateAt := User_TermsOfServiceCreateAt u;
     User_DisableWelcomeEmail := User_DisableWelcomeEmail u; User_LastLogin := User_LastLogin u;
     User_MfaUsedTimestamps := User_MfaUsedTimestamps u; User_Phone := User_Phone u;
     User_ParentId := User_ParentId u |}.

(** msgp: 35 of the 37 fields; a nil time zone comes back as an empty map. *)
Definition cached_copy (u : User) : User :=
  {| User_Id := User_Id u; User_CreateAt := User_CreateAt u; User_UpdateAt := User_UpdateAt u;
     User_DeleteAt := User_DeleteAt u; User_Username := User_Username u; User_Password := User_Password u;
     User_AuthData := User_AuthData u; User_AuthService := User_AuthService u; User_Email := User_Email u;
     User_EmailVerified := User_EmailVerified u; User_Nickname := User_Nickname u;
     User_FirstName := User_FirstName u; User_LastName := User_LastName u;
     User_Position := User_Position u; User_Roles := User_Roles u;
     User_AllowMarketing := User_AllowMarketing u; User_Props := User_Props u;
     User_NotifyProps := User_NotifyProps u; User_LastPasswordUpdate := User_LastPasswordUpdate u;
     User_LastPictureUpdate := User_LastPictureUpdate u; User_FailedAttempts := User_FailedAttempts u;
     User_Locale := User_Locale u; User_Timezone := Some (default ∅ (User_Timezone u));
     User_MfaActive := User_MfaActive u; User_MfaSecret := User_MfaSecret u;
     User_RemoteId := User_RemoteId u; User_LastActivityAt := User_LastActivityAt u;
     User_IsBot := User_IsBot u; User_BotDescription := User_BotDescription u;
     User_BotLastIconUpdate := User_BotLastIconUpdate u; User_TermsOfServiceId := User_TermsOfServiceId u;
     User_TermsOfServiceCreateAt := User_TermsOfServiceCreateAt u;
     User_DisableWelcomeEmail := User_DisableWelcomeEmail u; User_LastLogin := User_LastLogin u;
     User_MfaUsedTimestamps := User_MfaUsedTimestamps u; User_Phone := None; User_ParentId := None |}.

(** ** Tables *)

Record user_db := UserDB {
  us_rows : gmap string User;
  us_bots : gmap string (string * Z);
  (** userProfileByIdsCache, and the ids to read from the master *)
  us_cache : gmap string User;
  us_invalidated : gset string;
}.

Definition with_rows (r : gmap string User) (d : user_db) : user_db :=
  UserDB r (us_bots d) (us_cache d) (us_invalidated d).

(** Another row has the same value in a unique column. *)
Definition clash {X} `{EqDecision X} (f : User → X) (rows : gmap string User) (u : User) : bool :=
  existsb (λ e : string * User, negb (bool_decide (e.1 = User_Id u)) && bool_decide (f e.2 = f u))
    (map_to_list rows).

Definition unique_violation (email_first : bool) (rows : gmap string User) (u : User) : option string :=
  let e := clash User_Email rows u in
  let n := clash User_Username rows u in
  if e && (email_first || negb n) then Some "email" else if n then Some "username" else None.

Definition unique_value (field : string) (u : User) : string :=
  if decide (field = "email") then User_Email u else User_Username u.

(** The other constraints: the unique auth data and the key of the parent. *)
Definition constraints_ok (rows : gmap string User) (u : User) : bool :=
  negb (match User_AuthData u with Some _ => clash User_AuthData rows u | None => false end) &&
  match User_ParentId u with
  | Some p => bool_decide (p = User_Id u) || bool_decide (is_Some (rows !! p))
  | None => true
  end.

Section store.
Context `{UnicodeTables} `{UnicodeLower} `{UserLib} `{Crypto}.

Definition validateAutoResponderMessageSize (maxPostSize : nat) (notifyProps : gmap string string) : bool :=
  (rune_count (default "" (notifyProps !! AutoResponderMessageNotifyProp)) <=? maxPostSize)%nat.

(** ** Save *)

(** The insert: its outcome, the caller's object, the rows.  The last login is
    not a column of the INSERT and starts at its default. *)
Definition UserStore_insert (fault email_first : bool) (maxPostSize : nat) (rows : gmap string User) (u : User)
    : res storeError User * User * gmap string User :=
  if negb (validateAutoResponderMessageSize maxPostSize (User_NotifyProps u))
  then (Err (ErrDatabase "Auto responder message size"), u, rows)
  else
  let u' := User_with_Props (wrapBinaryParamStringMap false (User_Props u)) u in
  match (if fault || bool_decide (is_Some (rows !! User_Id u')) then None else columns (User_with_LastLogin 0 u')) with
  | None => (Err (ErrDatabase "failed to save User"), written u', rows)
  | Some row =>
      match unique_violation email_first rows row with
      | Some field => (Err (ErrInvalidInput "User" field (unique_value field row)), written u', rows)
      | None =>
          if constraints_ok rows row
          then (Ok (written u'), written u', <[User_Id u' := row]> rows)
          else (Err (ErrDatabase "failed to save User"), written u', rows)
      end
  end.

Definition UserStore_Save (fault email_first : bool) (newId newId' : string) (now nanos : Z) (draw maxPostSize : nat)
    (rows : gmap string User) (user : User) : res storeError User * User * gmap string User :=
  if negb (empty (User_Id user)) && negb (IsRemote user)
  then (Err (ErrInvalidInput "User" "id" (User_Id user)), user, rows)
  else match PreSave newId newId' now nanos draw user with
       | Err e => (Err (ErrInvalidModel e), PreSave_fields newId newId' now user, rows)
       | Ok u =>
           match User_IsValid u with
           | Some e => (Err (ErrInvalidModel e), u, rows)
           | None => UserStore_insert fault email_first maxPostSize rows u
           end
       end.

(** ** Update *)

(** The fields an update takes from the stored row, whatever the caller says. *)
Definition keep_stored (old u : User) : User :=
  {| User_Id := User_Id u; User_CreateAt := User_CreateAt old; User_UpdateAt := User_UpdateAt u;
     User_DeleteAt := User_DeleteAt u; User_Username := User_Username u;
     User_Password := User_Password old; User_AuthData := User_AuthData old;
     User_AuthService := User_AuthService old; User_Email := User_Email u;
     User_EmailVerified := User_EmailVerified old; User_Nickname := User_Nickname u;
     User_FirstName := User_FirstName u; User_LastName := User_LastName u;
     User_Position := User_Position u; User_Roles := User_Roles u;
     User_AllowMarketing := User_AllowMarketing u; User_Props := User_Props u;
     User_NotifyProps := User_NotifyProps u; User_LastPasswordUpdate := User_LastPasswordUpdate old;
     User_LastPictureUpdate := User_LastPictureUpdate old; User_FailedAttempts := User_FailedAttempts old;
     User_Locale := User_Locale u; User_Timezone := User_Timezone u; User_MfaActive := User_MfaActive old;
     User_MfaSecret := User_MfaSecret old; User_RemoteId := User_RemoteId u;
     User_LastActivityAt := User_LastActivityAt u; User_IsBot := User_IsBot u;
     User_BotDescription := User_BotDescription u; User_BotLastIconUpdate := User_BotLastIconUpdate u;
     User_TermsOfServiceId := User_TermsOfServiceId u;
     User_TermsOfServiceCreateAt := User_TermsOfServiceCreateAt u;
     User_DisableWelcomeEmail := User_DisableWelcomeEmail u; User_LastLogin := User_LastLogin old;
     User_MfaUsedTimestamps := User_MfaUsedTimestamps old; User_Phone := User_Phone u;
     User_ParentId := User_ParentId old |}.

(** The lazy migration of SSO users, and the mention keys of a new name. *)
Definition after_keep (old u : User) : User :=
  let u := if IsSSOUser u then User_with_EmailVerified true u else u in
  if decide (User_Username u = User_Username old) then u
  else UpdateMentionKeysFromUsername (User_Username old) u.

(** Without [trustedUpdateData] roles and deactivation are kept too, and what a
    directory owns cannot be changed. *)
Definition untrusted (old u : User) : res storeError User :=
  let u := User_with_DeleteAt (User_DeleteAt old) (User_with_Roles (User_Roles old) u) in
  let u := if IsOAuthUser u then User_with_Email (User_Email old) u else u in
  if IsLDAPUser u && negb (bool_decide (User_Username u = User_Username old))
  then Err (ErrInvalidInput "User" "id" (User_Id u))
  else if IsLDAPUser u && negb (bool_decide (User_Email u = User_Email old))
  then Err (ErrInvalidInput "User" "email" (User_Id u))
  else Ok (if decide (User_Email u = User_Email old) then u else User_with_EmailVerified false u).

Definition merged (trusted : bool) (old u : User) : res storeError User :=
  let u := keep_stored old u in if trusted then Ok u else untrusted old u.

(** The result is sanitized, and so is the caller's object. *)
Definition UserStore_Update (trusted fault email_first : bool) (now nanos : Z) (maxPostSize : nat)
    (rows : gmap string User) (user : User) : res storeError User * gmap string User :=
  let u := PreUpdate now nanos user in
  match User_IsValid u with
  | Some e => (Err (ErrInvalidModel e), rows)
  | None =>
      if negb (validateAutoResponderMessageSize maxPostSize (User_NotifyProps u))
      then (Err (ErrDatabase "Auto responder message size"), rows)
      else match rows !! User_Id u with
           | None => (Err (ErrDatabase "failed to get User"), rows)
           | Some old =>
               match merged trusted old u with
               | Err e => (Err e, rows)
               | Ok u =>
                   let u := after_keep old u in
                   let u' := User_with_Props (wrapBinaryParamStringMap false (User_Props u)) u in
                   match (if fault then None else columns u') with
                   | None => (Err (ErrDatabase "failed to update User"), rows)
                   | Some row =>
                       match unique_violation email_first rows row with
                       | Some field =>
                           (Err (ErrConflict (if decide (field = "email") then "Email" else "Username")
                                   (unique_value field row)), rows)
                       | None =>
                           if constraints_ok rows row
                           then (Ok (Sanitize (written u')), <[User_Id u' := row]> rows)
                           else (Err (ErrDatabase "failed to update User"), rows)
                       end
                   end
               end
           end
  end.

(** ** Queries of the login *)

(** What a query finds, in any order, with the bot columns. *)
Definition users_where `{GoRange} (P : User → bool) (d : user_db) : list User :=
  with_bot (us_bots d) <$> filter (λ u, P u = true) (go_range (us_rows d)).*2.

Definition UserStore_GetByEmail `{GoRange} (fault : bool) (d : user_db) (email : string) : res storeError User :=
  if fault then Err (ErrDatabase "failed to get User")
  else match users_where (λ u, bool_decide (User_Email u = sql_lower email)) d with
       | [] => Err (ErrNotFound "User" email)
       | u :: _ => Ok u
       end.

Definition UserStore_GetForLogin `{GoRange} (fault : bool) (d : user_db) (loginId : string)
    (allowSignInWithUsername allowSignInWithEmail : bool) : res storeError User :=
  let by_name u := bool_decide (User_Username u = sql_lower loginId) in
  let by_email u := bool_decide (User_Email u = sql_lower loginId) in
  if negb allowSignInWithUsername && negb allowSignInWithEmail
  then Err (ErrDatabase "sign in with username and email are disabled")
  else if fault then Err (ErrDatabase "failed to find Users")
  else match users_where (λ u, (allowSignInWithUsername && by_name u) || (allowSignInWithEmail && by_email u)) d with
       | [] => Err (ErrDatabase "user not found")
       | [u] => Ok u
       | _ => Err (ErrDatabase "multiple users found")
       end.

End store.

(** ** Reads and deletes *)

Definition UserStore_Get (fault : bool) (d : user_db) (id : string) : res storeError User :=
  if fault then Err (ErrDatabase "failed to get User")
  else match us_rows d !! id with
       | None => Err (ErrNotFound "User" id)
       | Some u => Ok (with_bot (us_bots d) u)
       end.

(** [dropped]: the cache forgot the id, by its size or its expiry. *)
Definition CachedUserStore_Get (dropped fault : bool) (d : user_db) (id : string)
    : res storeError User * user_db :=
  match (if dropped then None else us_cache d !! id) with
  | Some u => (Ok u, d)
  | None =>
      let d := UserDB (us_rows d) (us_bots d) (delete id (us_cache d)) (us_invalidated d ∖ {[id]}) in
      match UserStore_Get fault d id with
      | Err e => (Err e, d)
      | Ok u => (Ok u, UserDB (us_rows d) (us_bots d) (<[id := cached_copy u]> (us_cache d)) (us_invalidated d))
      end
  end.

Definition InvalidateProfileCacheForUser (id : string) (d : user_db) : user_db :=
  UserDB (us_rows d) (us_bots d) (delete id (us_cache d)) ({[id]} ∪ us_invalidated d).

(** Rows changed in place; no row is no error. *)
Definition with_password (hashed : string) (now : Z) (u : User) : User :=
  {| User_Id := User_Id u; User_CreateAt := User_CreateAt u; User_UpdateAt := now;
     User_DeleteAt := User_DeleteAt u; User_Username := User_Username u; User_Password := hashed;
     User_AuthData := None; User_AuthService := ""; User_Email := User_Email u;
     User_EmailVerified := User_EmailVerified u; User_Nickname := User_Nickname u;
     User_FirstName := User_FirstName u; User_LastName := User_LastName u;
     User_Position := User_Position u; User_Roles := User_Roles u;
     User_AllowMarketing := User_AllowMarketing u; User_Props := User_Props u;
     User_NotifyProps := User_NotifyProps u; User_LastPasswordUpdate := now;
     User_LastPictureUpdate := User_LastPictureUpdate u; User_FailedAttempts := 0%Z;
     User_Locale := User_Locale u; User_Timezone := User_Timezone u; User_MfaActive := User_MfaActive u;
     User_MfaSecret := User_MfaSecret u; User_RemoteId := User_RemoteId u;
     User_LastActivityAt := User_LastActivityAt u; User_IsBot := User_IsBot u;
     User_BotDescription := User_BotDescription u; User_BotLastIconUpdate := User_BotLastIconUpdate u;
     User_TermsOfServiceId := User_TermsOfServiceId u;
     User_TermsOfServiceCreateAt := User_TermsOfServiceCreateAt u;
     User_DisableWelcomeEmail := User_DisableWelcomeEmail u; User_LastLogin := User_LastLogin u;
     User_MfaUsedTimestamps := User_MfaUsedTimestamps u; User_Phone := User_Phone u;
     User_ParentId := User_ParentId u |}.

Definition UserStore_UpdatePassword (fault : bool) (now : Z) (d : user_db) (id hashed : string)
    : res storeError unit * user_db :=
  if fault || (128 <? rune_count hashed)%nat then (Err (ErrDatabase "failed to update User"), d)
  else (Ok tt, with_rows (alter (with_password hashed now) id (us_rows d)) d).

(** attempts is an INTEGER column. *)
Definition UserStore_UpdateFailedPasswordAttempts (fault : bool) (d : user_db) (id : string) (attempts : Z)
    : res storeError unit * user_db :=
  if fault || negb (within_z (-2147483648) 2147483647 attempts) then (Err (ErrDatabase "failed to update User"), d)
  else (Ok tt, with_rows (alter (User_with_FailedAttempts attempts) id (us_rows d)) d).

(** The cache layer drops the user first. *)
Definition CachedUserStore_UpdateFailedPasswordAttempts (fault : bool) (d : user_db) (id : string) (attempts : Z)
    : res storeError unit * user_db :=
  UserStore_UpdateFailedPasswordAttempts fault (InvalidateProfileCacheForUser id d) id attempts.

(** In the collation's order of the user names, which is not modelled. *)
Definition UserStore_GetAll `{GoRange} (fault : bool) (d : user_db) : res storeError (list User) :=
  if fault then Err (ErrDatabase "failed to find Users")
  else Ok (with_bot (us_bots d) <$> (go_range (us_rows d)).*2).

(** Deleting a user clears the parent of the users below it; [blocked] is a
    foreign key of another table that refuses. *)
Definition orphaned (id : string) (u : User) : User :=
  {| User_Id := User_Id u; User_CreateAt := User_CreateAt u; User_UpdateAt := User_UpdateAt u;
     User_DeleteAt := User_DeleteAt u; User_Username := User_Username u; User_Password := User_Password u;
     User_AuthData := User_AuthData u; User_AuthService := User_AuthService u; User_Email := User_Email u;
     User_EmailVerified := User_EmailVerified u; User_Nickname := User_Nickname u;
     User_FirstName := User_FirstName u; User_LastName := User_LastName u;
     User_Position := User_Position u; User_Roles := User_Roles u;
     User_AllowMarketing := User_AllowMarketing u; User_Props := User_Props u;
     User_NotifyProps := User_NotifyProps u; User_LastPasswordUpdate := User_LastPasswordUpdate u;
     User_LastPictureUpdate := User_LastPictureUpdate u; User_FailedAttempts := User_FailedAttempts u;
     User_Locale := User_Locale u; User_Timezone := User_Timezone u; User_MfaActive := User_MfaActive u;
     User_MfaSecret := User_MfaSecret u; User_RemoteId := User_RemoteId u;
     User_LastActivityAt := User_LastActivityAt u; User_IsBot := User_IsBot u;
     User_BotDescription := User_BotDescription u; User_BotLastIconUpdate := User_BotLastIconUpdate u;
     User_TermsOfServiceId := User_TermsOfServiceId u;
     User_TermsOfServiceCreateAt := User_TermsOfServiceCreateAt u;
     User_DisableWelcomeEmail := User_DisableWelcomeEmail u; User_LastLogin := User_LastLogin u;
     User_MfaUsedTimestamps := User_MfaUsedTimestamps u; User_Phone := User_Phone u;
     User_ParentId := (if decide (User_ParentId u = Some id) then None else User_ParentId u) |}.

Definition UserStore_PermanentDelete (fault blocked : bool) (d : user_db) (id : string)
    : res storeError unit * user_db :=
  if fault || blocked then (Err (ErrDatabase "failed to delete User"), d)
  else (Ok tt, with_rows (orphaned id <$> delete id (us_rows d)) d).
