(* ===== verification/LmsUsers.v ===== *)
(** * Users, students and leads (server/channels/app/lms)

    student.go, user.go, lead.go and lead_activity.go over the user store and
    the tables of [LmsApp], and their REST routes.  A user is read through the
    cache of the store layer and written past it, as in the code: nothing here
    calls [InvalidateProfileCacheForUser].

    The props of a student are JSON under one key of the user's props; JSON
    values and their encoding are the parameter [JsonProps]. *)

From Stdlib Require Import Ascii.
From stdpp Require Import strings sorting.
From S2P Require Import Prelude.
From S2P Require Import GoString.
From S2P Require Import GoUtf8.
From S2P Require Import GoRunes.
From S2P Require Import LmsModel.
From S2P Require Import Hashers.
From S2P Require Import PlatUser.
From S2P Require Import CallStore.
From S2P Require Import LmsStore.
From S2P Require Import LmsTables.
From S2P Require Import LmsApp.
From S2P Require Import UserStore.

Local Open Scope string_scope.
Local Open Scope go_scope.

Definition studentPropsKey : string := "student".
Definition defaultStudentPassword : string := "Student@123".
Definition maxUsernameAttempts : nat := 20.

(** ** The world *)

Class UsersEnv := {
  (** a cached user the cache has lost, by the number of the effect *)
  cache_dropped : nat → string → bool;
  email_first : nat → bool;
  maxPostSize : nat;
}.

(** json.Marshal and json.Unmarshal of a [map[string]any]; null is [None]. *)
Class JsonProps (J : Type) := {
  marshal_props : gmap string J → option string;
  unmarshal_props : string → option (option (gmap string J));
}.

Record users_world (D : Type) := UsersWorld { uw_lms : lms_world D; uw_users : user_db }.
Arguments UsersWorld {D} _ _.
Arguments uw_lms {D} _.
Arguments uw_users {D} _.

(** [if b != "" { a = b }], for strings and for pointers to strings. *)
Definition or_else (b a : string) : string := if decide (b = "") then a else b.
Definition or_else_ptr (b a : option string) : option string :=
  match b with Some s => if decide (s = "") then a else b | None => a end.

Definition newest_activity (a b : LeadActivity) : Prop := (LeadActivity_Createat b ≤ LeadActivity_Createat a)%Z.
#[export] Instance newest_activity_dec : RelDecision newest_activity.
Proof. intros a b. apply Z.le_dec. Defined.

Section users.
Context `{UnicodeTables} `{UnicodeLower} `{UserLib} `{Crypto} `{Decimal D} `{LmsEnv} `{GoRange}.
Context `{UsersEnv} `{JsonProps J}.

Abbreviation US := (M (users_world D) storeError).
Abbreviation UM := (M (users_world D) lmsError).

(** ** Statements *)

Definition tick (w : lms_world D) : lms_world D := LmsWorld (lms_db w) (S (S (S (lms_ticks w)))).

Definition on_users {A} (f : nat → user_db → A * user_db) : M (users_world D) storeError A := λ w,
  let '(r, d) := f (lms_ticks (uw_lms w)) (uw_users w) in (Ok r, UsersWorld (tick (uw_lms w)) d).

(** The result of a statement becomes the error of the computation. *)
Definition or_throw {A} (m : US (res storeError A)) : US A :=
  r <- m ;; match r with Ok a => m_ret a | Err e => m_throw e end.

Definition us_get (id : string) : US User :=
  or_throw (on_users (λ n d, CachedUserStore_Get (cache_dropped n id) (lms_fault n) d id)).

Definition us_get_all : US (list User) :=
  or_throw (on_users (λ n d, (UserStore_GetAll (lms_fault n) d, d))).

(** With the caller's object as the call leaves it. *)
Definition us_save (u : User) : US (res storeError User * User) :=
  on_users (λ n d,
    let '(r, obj, rows) := UserStore_Save (lms_fault n) (email_first n) (lms_id n) (lms_id (S n)) (lms_clock n)
                             (lms_clock (S n)) n maxPostSize (us_rows d) u in
    ((r, obj), with_rows rows d)).

Definition us_update (trusted : bool) (u : User) : US User :=
  or_throw (on_users (λ n d,
    let '(r, rows) := UserStore_Update trusted (lms_fault n) (email_first n) (lms_clock n) (lms_clock (S n)) maxPostSize
                        (us_rows d) u in
    (r, with_rows rows d))).

(** Somebody the deleted user teaches: teacher_id is NOT NULL and its key says
    ON DELETE SET NULL, so the delete fails. *)
Definition teaches (id : string) (d : lmsDB D) : bool :=
  existsb (λ c, bool_decide (Class_TeacherID c = id)) (map_to_list (db_classes d)).*2 ||
  existsb (λ s, bool_decide (LMSSession_TeacherID s = id)) (map_to_list (db_sessions d)).*2.

Definition unlink_lead (id : string) (l : Lead) : Lead :=
  {| Lead_ID := Lead_ID l; Lead_Name := Lead_Name l; Lead_Email := Lead_Email l; Lead_Phone := Lead_Phone l;
     Lead_Age := Lead_Age l; Lead_School := Lead_School l; Lead_Source := Lead_Source l;
     Lead_Need := Lead_Need l; Lead_Status := Lead_Status l;
     Lead_StudentID := (if decide (Lead_StudentID l = Some id) then None else Lead_StudentID l);
     Lead_Notes := Lead_Notes l; Lead_TestDate := Lead_TestDate l; Lead_TestResult := Lead_TestResult l;
     Lead_TestScore := Lead_TestScore l;
     Lead_CounselorID := (if decide (Lead_CounselorID l = Some id) then None else Lead_CounselorID l);
     Lead_Createat := Lead_Createat l; Lead_Updateat := Lead_Updateat l |}.

Definition unlink_refund (id : string) (r : FeeRefund D) : FeeRefund D :=
  {| FeeRefund_ID := FeeRefund_ID r; FeeRefund_TuitionID := FeeRefund_TuitionID r;
     FeeRefund_Amount := FeeRefund_Amount r; FeeRefund_RefundDate := FeeRefund_RefundDate r;
     FeeRefund_Reason := FeeRefund_Reason r; FeeRefund_Status := FeeRefund_Status r;
     FeeRefund_ApprovedByID :=
       (if decide (FeeRefund_ApprovedByID r = Some id) then None else FeeRefund_ApprovedByID r);
     FeeRefund_Createat := FeeRefund_Createat r; FeeRefund_Updateat := FeeRefund_Updateat r |}.

Definition cascade_user_content (id : string) (c : contentDB D) : contentDB D :=
  let other (k : string) := negb (bool_decide (k = id)) in
  {| db_branches := db_branches c; db_courses := db_courses c; db_lessons := db_lessons c;
     db_packages := db_packages c; db_categories := db_categories c;
     db_posts := keep (λ p, other (BlogPost_AuthorID p)) (db_posts c);
     db_reviews := keep (λ r, other (WeeklyReview_StudentID r) && other (WeeklyReview_CreatedBy r)) (db_reviews c);
     db_media := keep (λ m, other (ClassMedia_UploadedByID m)) (db_media c);
     db_tasks := keep (λ t, other (Task_AssigneeID t) && other (Task_CreatorID t)) (db_tasks c);
     db_banners := db_banners c;
     db_notifications := keep (λ n, other (Notification_UserID n)) (db_notifications c);
     db_materials := keep (λ m, other (Material_UploadedByID m)) (db_materials c) |}.

(** The keys into users of the migrations 000153 and 000154. *)
Definition cascade_user (id : string) (d : lmsDB D) : lmsDB D :=
  cascade
  {| db_classes := db_classes d;
     db_enrolments := keep (λ e, negb (bool_decide (StudentClass_StudentID e = id))) (db_enrolments d);
     db_sessions := db_sessions d;
     db_attendances := keep (λ a, negb (bool_decide (Attendance_StudentID a = id))) (db_attendances d);
     db_tuitions := keep (λ t, negb (bool_decide (Tuition_StudentID t = id))) (db_tuitions d);
     db_payments := keep (λ p, negb (bool_decide (Payment_PaidByID p = id))) (db_payments d);
     db_refunds := unlink_refund id <$> db_refunds d;
     db_fees := db_fees d;
     db_homeworks := keep (λ h, negb (bool_decide (Homework_TeacherID h = id))) (db_homeworks d);
     db_submissions := keep (λ s, negb (bool_decide (Submission_StudentID s = id))) (db_submissions d);
     db_leads := unlink_lead id <$> db_leads d;
     db_lead_activities := db_lead_activities d;
     db_content := cascade_user_content id (db_content d) |}.

Definition us_delete (id : string) : US unit := λ w,
  let n := lms_ticks (uw_lms w) in
  let d := lms_db (uw_lms w) in
  match UserStore_PermanentDelete (lms_fault n) (teaches id d || takes_submitted_homework d (cascade_user id d))
          (uw_users w) id with
  | (Ok _, t) => (Ok tt, UsersWorld (tick (LmsWorld (cascade_user id d) n)) t)
  | (Err e, t) => (Err e, UsersWorld (tick (uw_lms w)) t)
  end.

(** An operation of the learning system's own tables. *)
Definition lmsU {A} (m : M (lms_world D) lmsError A) : UM A := λ w,
  let '(r, l) := m (uw_lms w) in (r, UsersWorld l (uw_users w)).

Definition wrapU {A} (classify : storeError → lmsError) (m : US A) : UM A := λ w,
  match m w with (Ok a, w') => (Ok a, w') | (Err e, w') => (Err (classify e), w') end.

(** [if store.IsErrNotFound(err) { ... }], whose error is not wrapped. *)
Definition nf_or (nf id : string) (e : storeError) : lmsError :=
  if IsErrNotFound e then LmsError nf 404 None else LmsError id 500 (Some e).
Definition internalU (id : string) (e : storeError) : lmsError := LmsError id 500 (Some e).
Definition failU {A} (id : string) (status : Z) : UM A := m_throw (LmsError id status None).

(** ** student.go *)

Definition username_rune (r : Z) : ascii :=
  if within_z 97 122 r || within_z 48 57 r || (r =? 46)%Z || (r =? 45)%Z || (r =? 95)%Z
  then byte_chr r else byte_chr 45.

Definition of_chars (l : list ascii) : string := foldr String EmptyString l.

Definition deriveUsernameFromEmail (email : string) : string :=
  let '(local, _, _) := cut at_sign email in
  of_chars (username_rune <$> runes (ToLower local)).

Definition GetStudent (id : string) : UM User :=
  wrapU (nf_or "app.lms.student.not_found.app_error" "app.lms.student.get.app_error") (us_get id).

(** The username conflict of a save, which is worth another try. *)
Definition username_taken (e : storeError) : bool :=
  match e with ErrInvalidInput "User" "username" _ => true | _ => false end.

(** The loop after an attempt; [tries] are left of [maxUsernameAttempts]. *)
Fixpoint retry_save (tries : nat) (base : string) (r : res storeError User) (user : User) : US User :=
  match r with
  | Ok saved => m_ret saved
  | Err e =>
      match tries with
      | O => m_throw e
      | S tries =>
          if negb (username_taken e) || empty base then m_throw e
          else
          let attempt := (maxUsernameAttempts - S tries)%nat in
          p <- us_save (User_with_Username (base +:+ Itoa (Z.of_nat attempt)) (User_with_Id "" user)) ;;
          retry_save tries base p.1 p.2
      end
  end.

Definition saveStudentWithUniqueUsername (user : User) : US User :=
  p <- us_save user ;;
  retry_save (maxUsernameAttempts - 1) (User_Username user) p.1 p.2.

Definition create_student_error (e : storeError) : lmsError :=
  match e with
  | ErrInvalidInput "User" "email" _ => LmsError "app.lms.student.email_exists.app_error" 400 (Some e)
  | ErrInvalidInput "User" "username" _ => LmsError "app.user.save.username_exists.app_error" 400 (Some e)
  | _ => LmsError "app.lms.student.create.app_error" 500 (Some e)
  end.

(** An empty username becomes the derived one, if that is valid. *)
Definition with_derived_username (user : User) : User :=
  let candidate := deriveUsernameFromEmail (User_Email user) in
  if empty (User_Username user) && IsValidUsername candidate then User_with_Username candidate user else user.

(** The user CreateStudent saves, before the props. *)
Definition new_student (user : User) : User :=
  User_with_Password defaultStudentPassword (User_with_EmailVerified true
    (User_with_Roles RoleLmsStudentRoleId (with_derived_username user))).

Definition CreateStudent (user : option User) (props : option (gmap string J)) : UM User :=
  match user with
  | None => failU "api.lms.create_student.bad_body.app_error" 400
  | Some user =>
      if decide (User_Email user = "") then failU "app.lms.student.email.app_error" 400
      else
      let user := new_student user in
      user' <- match props with
               | None => m_ret user
               | Some m =>
                   match marshal_props m with
                   | None => failU "app.lms.student.props_marshal.app_error" 400
                   | Some json => m_ret (User_with_Props (<[studentPropsKey := json]> (User_Props user)) user)
                   end
               end ;;
      wrapU create_student_error (saveStudentWithUniqueUsername user')
  end.

(** The fields of a student an update may change. *)
Definition merge_student (existing user : User) (now : Z) : User :=
  {| User_Id := User_Id existing; User_CreateAt := User_CreateAt existing; User_UpdateAt := now;
     User_DeleteAt := User_DeleteAt existing; User_Username := User_Username existing;
     User_Password := User_Password existing; User_AuthData := User_AuthData existing;
     User_AuthService := User_AuthService existing;
     User_Email := or_else (User_Email user) (User_Email existing);
     User_EmailVerified := User_EmailVerified existing;
     User_Nickname := or_else (User_Nickname user) (User_Nickname existing);
     User_FirstName := or_else (User_FirstName user) (User_FirstName existing);
     User_LastName := or_else (User_LastName user) (User_LastName existing);
     User_Position := or_else (User_Position user) (User_Position existing);
     User_Roles := or_else (User_Roles user) (User_Roles existing);
     User_AllowMarketing := User_AllowMarketing existing; User_Props := User_Props existing;
     User_NotifyProps := User_NotifyProps existing;
     User_LastPasswordUpdate := User_LastPasswordUpdate existing;
     User_LastPictureUpdate := User_LastPictureUpdate existing;
     User_FailedAttempts := User_FailedAttempts existing; User_Locale := User_Locale existing;
     User_Timezone := User_Timezone existing; User_MfaActive := User_MfaActive existing;
     User_MfaSecret := User_MfaSecret existing; User_RemoteId := User_RemoteId existing;
     User_LastActivityAt := User_LastActivityAt existing; User_IsBot := User_IsBot existing;
     User_BotDescription := User_BotDescription existing;
     User_BotLastIconUpdate := User_BotLastIconUpdate existing;
     User_TermsOfServiceId := User_TermsOfServiceId existing;
     User_TermsOfServiceCreateAt := User_TermsOfServiceCreateAt existing;
     User_DisableWelcomeEmail := User_DisableWelcomeEmail existing;
     User_LastLogin := User_LastLogin existing; User_MfaUsedTimestamps := User_MfaUsedTimestamps existing;
     User_Phone := or_else_ptr (User_Phone user) (User_Phone existing);
     User_ParentId := or_else_ptr (User_ParentId user) (User_ParentId existing) |}.

(** The stored props; what does not decode counts as no props. *)
Definition stored_props (existing : User) : gmap string J :=
  match User_Props existing !! studentPropsKey with
  | Some raw =>
      if decide (raw = "") then ∅
      else match unmarshal_props raw with Some (Some m) => m | _ => ∅ end
  | None => ∅
  end.

Definition UpdateStudent (user : option User) (props : option (gmap string J)) : UM User :=
  match user with
  | None => failU "api.lms.update_student.bad_body.app_error" 400
  | Some user =>
      existing <- wrapU (nf_or "app.lms.student.not_found.app_error" "app.lms.student.get.app_error")
                    (us_get (User_Id user)) ;;
      now <- m_gets (λ w, lms_clock (lms_ticks (uw_lms w))) ;;
      let existing := merge_student existing user now in
      existing' <- match props with
                   | None => m_ret existing
                   | Some m =>
                       match marshal_props (m ∪ stored_props existing) with
                       | None => failU "app.lms.student.props_marshal.app_error" 400
                       | Some json =>
                           m_ret (User_with_Props (<[studentPropsKey := json]> (User_Props existing)) existing)
                       end
                   end ;;
      wrapU (nf_or "app.lms.student.not_found.app_error" "app.lms.student.update.app_error") (us_update true existing')
  end.

Definition DeleteStudent (id : string) : UM unit :=
  wrapU (nf_or "app.lms.student.not_found.app_error" "app.lms.student.get.app_error") (us_get id) ;;;
  enrolments <- lmsU (wrap (internal "app.lms.student.get_enrollments.app_error")
                        (db_query Enrolments (λ e, bool_decide (StudentClass_StudentID e = id)))) ;;
  m_for enrolments (λ sc, lmsU (wrap (internal "app.lms.student.delete_enrollment.app_error")
                                  (db_delete StudentClass_table Enrolments (StudentClass_ID sc)))) ;;;
  wrapU (internalU "app.lms.student.delete.app_error") (us_delete id).

Definition GetConvertibleUsers : UM (list User) :=
  users <- wrapU (internalU "app.lms.student.get_all.app_error") us_get_all ;;
  m_ret (filter (λ u, User_DeleteAt u = 0%Z ∧ IsInRole (User_Roles u) RoleLmsStudentRoleId = false) users).

(** The callers' object is the one the store sanitized. *)
Definition ConvertUserToStudent (userID : string) : UM User :=
  user <- wrapU (nf_or "app.lms.student.not_found.app_error" "app.lms.student.get.app_error") (us_get userID) ;;
  wrapU (nf_or "app.lms.student.not_found.app_error" "app.lms.student.update.app_error")
    (us_update true (User_with_Roles (SystemUserRoleId +:+ " " +:+ RoleLmsStudentRoleId) user)).

Definition RevertStudentToUser (studentID : string) : UM User :=
  user <- wrapU (nf_or "app.lms.student.not_found.app_error" "app.lms.student.get.app_error") (us_get studentID) ;;
  wrapU (nf_or "app.lms.student.not_found.app_error" "app.lms.student.update.app_error")
    (us_update true (User_with_Props (delete studentPropsKey (User_Props user)) (User_with_Roles SystemUserRoleId user))).

(** ** user.go *)

Definition merge_user (existing user : User) : User :=
  {| User_Id := User_Id existing; User_CreateAt := User_CreateAt existing;
     User_UpdateAt := User_UpdateAt existing; User_DeleteAt := User_DeleteAt existing;
     User_Username := or_else (User_Username user) (User_Username existing);
     User_Password := User_Password existing; User_AuthData := User_AuthData existing;
     User_AuthService := User_AuthService existing;
     User_Email := or_else (User_Email user) (User_Email existing);
     User_EmailVerified := User_EmailVerified existing;
     User_Nickname := or_else (User_Nickname user) (User_Nickname existing);
     User_FirstName := or_else (User_FirstName user) (User_FirstName existing);
     User_LastName := or_else (User_LastName user) (User_LastName existing);
     User_Position := or_else (User_Position user) (User_Position existing);
     User_Roles := or_else (User_Roles user) (User_Roles existing);
     User_AllowMarketing := User_AllowMarketing existing; User_Props := User_Props existing;
     User_NotifyProps := User_NotifyProps existing;
     User_LastPasswordUpdate := User_LastPasswordUpdate existing;
     User_LastPictureUpdate := User_LastPictureUpdate existing;
     User_FailedAttempts := User_FailedAttempts existing; User_Locale := User_Locale existing;
     User_Timezone := User_Timezone existing; User_MfaActive := User_MfaActive existing;
     User_MfaSecret := User_MfaSecret existing; User_RemoteId := User_RemoteId existing;
     User_LastActivityAt := User_LastActivityAt existing; User_IsBot := User_IsBot existing;
     User_BotDescription := User_BotDescription existing;
     User_BotLastIconUpdate := User_BotLastIconUpdate existing;
     User_TermsOfServiceId := User_TermsOfServiceId existing;
     User_TermsOfServiceCreateAt := User_TermsOfServiceCreateAt existing;
     User_DisableWelcomeEmail := User_DisableWelcomeEmail existing;
     User_LastLogin := User_LastLogin existing; User_MfaUsedTimestamps := User_MfaUsedTimestamps existing;
     User_Phone := or_else_ptr (User_Phone user) (User_Phone existing);
     User_ParentId := User_ParentId existing |}.

Definition UpdateUser (user : User) : UM User :=
  existing <- wrapU (nf_or "app.lms.user.not_found.app_error" "app.lms.user.get.app_error") (us_get (User_Id user)) ;;
  wrapU (nf_or "app.lms.user.not_found.app_error" "app.lms.user.update.app_error") (us_update true (merge_user existing user)).

Definition DeleteUser (id : string) : UM unit :=
  wrapU (nf_or "app.lms.user.not_found.app_error" "app.lms.user.get.app_error") (us_get id) ;;;
  wrapU (internalU "app.lms.user.delete.app_error") (us_delete id).

(** Set DeleteAt to the clock, or to 0. *)
Definition set_active (active : bool) (id : string) : UM User :=
  user <- wrapU (nf_or "app.lms.user.not_found.app_error" "app.lms.user.get.app_error") (us_get id) ;;
  now <- m_gets (λ w, lms_clock (lms_ticks (uw_lms w))) ;;
  wrapU (internalU "app.lms.user.update.app_error")
    (us_update true (User_with_DeleteAt (if active then 0 else now)%Z (User_with_UpdateAt now user))).

Definition DeactivateUser (id : string) : UM User := set_active false id.
Definition ReactivateUser (id : string) : UM User := set_active true id.

(** ** lead.go and lead_activity.go *)

(** Keys of leads into users are among the faults. *)
Definition lead_refs (_ : lmsDB D) (_ : Lead) : bool := true.
Definition activity_refs (d : lmsDB D) (a : LeadActivity) : bool := has (db_leads d) (LeadActivity_LeadID a).

Definition GetLead (id : string) : UM Lead :=
  lmsU (wrap (not_found_or "app.lms.lead.not_found" "app.lms.lead.get.app_error") (db_get Lead_table Leads id)).

Definition CreateLead (lead : Lead) : UM Lead :=
  lmsU (wrap (internal "app.lms.lead.create.app_error") (db_save Lead_table Leads lead_refs lead)).

Definition Lead_with (id status : string) (student : option string) (l : Lead) : Lead :=
  {| Lead_ID := id; Lead_Name := Lead_Name l; Lead_Email := Lead_Email l; Lead_Phone := Lead_Phone l;
     Lead_Age := Lead_Age l; Lead_School := Lead_School l; Lead_Source := Lead_Source l;
     Lead_Need := Lead_Need l; Lead_Status := status; Lead_StudentID := student;
     Lead_Notes := Lead_Notes l; Lead_TestDate := Lead_TestDate l; Lead_TestResult := Lead_TestResult l;
     Lead_TestScore := Lead_TestScore l; Lead_CounselorID := Lead_CounselorID l;
     Lead_Createat := Lead_Createat l; Lead_Updateat := Lead_Updateat l |}.

Definition UpdateLead (id : string) (lead : Lead) : UM Lead :=
  lmsU (wrap (not_found_or "app.lms.lead.not_found" "app.lms.lead.update.app_error")
    (db_update Lead_table Leads LeadPreUpdate lead_refs (Lead_with id (Lead_Status lead) (Lead_StudentID lead) lead))).

Definition DeleteLead (id : string) : UM unit :=
  lmsU (wrap (not_found_or "app.lms.lead.not_found" "app.lms.lead.delete.app_error") (db_delete Lead_table Leads id)).

(** The zero value of model.User. *)
Definition zero_User : User :=
  {| User_Id := ""; User_CreateAt := 0%Z; User_UpdateAt := 0%Z; User_DeleteAt := 0%Z; User_Username := "";
     User_Password := ""; User_AuthData := None; User_AuthService := ""; User_Email := "";
     User_EmailVerified := false; User_Nickname := ""; User_FirstName := ""; User_LastName := "";
     User_Position := ""; User_Roles := ""; User_AllowMarketing := false; User_Props := ∅;
     User_NotifyProps := ∅; User_LastPasswordUpdate := 0%Z; User_LastPictureUpdate := 0%Z;
     User_FailedAttempts := 0%Z; User_Locale := ""; User_Timezone := None; User_MfaActive := false;
     User_MfaSecret := ""; User_RemoteId := None; User_LastActivityAt := 0%Z; User_IsBot := false;
     User_BotDescription := ""; User_BotLastIconUpdate := 0%Z; User_TermsOfServiceId := "";
     User_TermsOfServiceCreateAt := 0%Z; User_DisableWelcomeEmail := false; User_LastLogin := 0%Z;
     User_MfaUsedTimestamps := []; User_Phone := None; User_ParentId := None |}.

(** The user made of a lead. *)
Definition lead_user (lead : Lead) (hashed : string) : User :=
  {| User_Id := User_Id zero_User; User_CreateAt := User_CreateAt zero_User;
     User_UpdateAt := User_UpdateAt zero_User; User_DeleteAt := User_DeleteAt zero_User;
     User_Username := deref (Lead_Email lead); User_Password := hashed;
     User_AuthData := User_AuthData zero_User; User_AuthService := User_AuthService zero_User;
     User_Email := deref (Lead_Email lead); User_EmailVerified := User_EmailVerified zero_User;
     User_Nickname := User_Nickname zero_User; User_FirstName := Lead_Name lead;
     User_LastName := User_LastName zero_User; User_Position := User_Position zero_User;
     User_Roles := RoleLmsStudentRoleId; User_AllowMarketing := User_AllowMarketing zero_User;
     User_Props := User_Props zero_User; User_NotifyProps := User_NotifyProps zero_User;
     User_LastPasswordUpdate := User_LastPasswordUpdate zero_User;
     User_LastPictureUpdate := User_LastPictureUpdate zero_User;
     User_FailedAttempts := User_FailedAttempts zero_User; User_Locale := User_Locale zero_User;
     User_Timezone := User_Timezone zero_User; User_MfaActive := User_MfaActive zero_User;
     User_MfaSecret := User_MfaSecret zero_User; User_RemoteId := User_RemoteId zero_User;
     User_LastActivityAt := User_LastActivityAt zero_User; User_IsBot := User_IsBot zero_User;
     User_BotDescription := User_BotDescription zero_User;
     User_BotLastIconUpdate := User_BotLastIconUpdate zero_User;
     User_TermsOfServiceId := User_TermsOfServiceId zero_User;
     User_TermsOfServiceCreateAt := User_TermsOfServiceCreateAt zero_User;
     User_DisableWelcomeEmail := User_DisableWelcomeEmail zero_User;
     User_LastLogin := User_LastLogin zero_User;
     User_MfaUsedTimestamps := User_MfaUsedTimestamps zero_User; User_Phone := Lead_Phone lead;
     User_ParentId := User_ParentId zero_User |}.

Definition ConvertLeadToStudent (leadID : string) : UM (User * Lead) :=
  lead <- GetLead leadID ;;
  n <- m_gets (λ w, lms_ticks (uw_lms w)) ;;
  match BCrypt_Hash n defaultStudentPassword with
  | Err _ => failU "app.lms.lead.hash_password.app_error" 500
  | Ok hashed =>
      savedUser <- wrapU (internalU "app.lms.lead.create_user.app_error")
                     (p <- us_save (lead_user lead hashed) ;;
                      match p.1 with Ok u => m_ret u | Err e => m_throw e end) ;;
      updatedLead <- lmsU (wrap (internal "app.lms.lead.update.app_error")
                             (db_update Lead_table Leads LeadPreUpdate lead_refs
                                (Lead_with (Lead_ID lead) "ENROLLED" (Some (User_Id savedUser)) lead))) ;;
      m_ret (savedUser, updatedLead)
  end.

(** ORDER BY createat DESC. *)
Definition LeadActivityStore_GetByLead (leadID : string) : M (lms_world D) storeError (list LeadActivity) :=
  rows <- db_query LeadActivities (λ a, bool_decide (LeadActivity_LeadID a = leadID)) ;;
  m_ret (merge_sort newest_activity rows).

Definition GetLeadActivities (leadID : string) : UM (list LeadActivity) :=
  lmsU (wrap (internal "app.lms.lead_activity.get_by_lead.app_error") (LeadActivityStore_GetByLead leadID)).

Definition LeadActivity_with_lead (leadID : string) (a : LeadActivity) : LeadActivity :=
  {| LeadActivity_ID := LeadActivity_ID a; LeadActivity_LeadID := leadID; LeadActivity_Type := LeadActivity_Type a;
     LeadActivity_Content := LeadActivity_Content a; LeadActivity_NextFollowUp := LeadActivity_NextFollowUp a;
     LeadActivity_Createat := LeadActivity_Createat a; LeadActivity_Updateat := LeadActivity_Updateat a |}.

Definition CreateLeadActivity (leadID : string) (a : LeadActivity) : UM LeadActivity :=
  lmsU (wrap (internal "app.lms.lead_activity.create.app_error")
    (db_save LeadActivity_table LeadActivities activity_refs (LeadActivity_with_lead leadID a))).

(** ** The routes (api4/lms_api/student.go, user.go, lead.go)

    [may] is the manage-students, manage-users or manage-leads permission of
    the session, [self] its user; bodies are decoded. *)

Definition createStudent (may : bool) (user : option User) (props : option (gmap string J)) : UM User :=
  guarded may (CreateStudent user props).

Definition getStudent (may : bool) (id : string) : UM User := guarded may (require_id id (GetStudent id)).

Definition updateStudent (may : bool) (id : string) (user : option User) (props : option (gmap string J)) : UM User :=
  guarded may (require_id id (
    match user with
    | None => failU "api.lms.update_student.bad_body.app_error" 400
    | Some u => UpdateStudent (Some (User_with_Id id u)) props
    end)).

Definition deleteStudent (may : bool) (id : string) : UM unit := guarded may (require_id id (DeleteStudent id)).
Definition getConvertibleUsers (may : bool) : UM (list User) := guarded may GetConvertibleUsers.
Definition convertUserToStudent (may : bool) (id : string) : UM User :=
  guarded may (require_id id (ConvertUserToStudent id)).
Definition revertStudentToUser (may : bool) (id : string) : UM User :=
  guarded may (require_id id (RevertStudentToUser id)).

Definition updateUser (may : bool) (self id : string) (user : User) : UM User :=
  guarded may (require_id id (
    let user := User_with_Id id user in
    if decide (User_Roles user ≠ "" ∧ id = self) then failU "api.lms.update_user.self_role.app_error" 403
    else UpdateUser user)).

Definition deleteUser (may : bool) (id : string) : UM unit := guarded may (require_id id (DeleteUser id)).
Definition deactivateUser (may : bool) (id : string) : UM User := guarded may (require_id id (DeactivateUser id)).
Definition reactivateUser (may : bool) (id : string) : UM User := guarded may (require_id id (ReactivateUser id)).

Definition createLead (may : bool) (lead : Lead) : UM Lead := guarded may (CreateLead lead).
Definition getLead (may : bool) (id : string) : UM Lead := guarded may (require_id id (GetLead id)).
Definition updateLead (may : bool) (id : string) (lead : Lead) : UM Lead :=
  guarded may (require_id id (UpdateLead id lead)).
Definition deleteLead (may : bool) (id : string) : UM unit := guarded may (require_id id (DeleteLead id)).
Definition getLeadActivities (may : bool) (id : string) : UM (list LeadActivity) :=
  guarded may (require_id id (GetLeadActivities id)).
Definition createLeadActivity (may : bool) (id : string) (a : LeadActivity) : UM LeadActivity :=
  guarded may (require_id id (CreateLeadActivity id a)).
Definition convertLead (may : bool) (id : string) : UM (User * Lead) :=
  guarded may (require_id id (ConvertLeadToStudent id)).
End users.
