(* ===== verification/LmsUsersDemo.v ===== *)
(** * A concrete school

    Instances that make the user operations run: toy primitives, ids and a
    clock that count, a quiet database.  The witnesses of the theorems on
    users use them. *)

From stdpp Require Import pretty.
From S2P Require Import Prelude.
From S2P Require Import GoString.
From S2P Require Import GoUtf8.
From S2P Require Import GoRunes.
From S2P Require Import LmsModel.
From S2P Require Import Hashers.
From S2P Require Import PlatUser.
From S2P Require Import CallStore.
From S2P Require Import LmsStore.
From S2P Require Import LmsTables.
From S2P Require Import LmsApp.
From S2P Require Import UserStore.
From S2P Require Import LmsUsers.

Local Open Scope string_scope.

Module School.

#[local] Existing Instance cents.
#[export] Instance crypto : Crypto := toy_crypto.
#[export] Instance crypto_ok : CryptoOk := toy_crypto_ok.
#[export] Instance no_unicode : UnicodeTables := λ _, false.
#[export] Instance same_case : UnicodeLower := λ r, r.
#[export] Instance same_case_ok : UnicodeLowerOk.
Proof. intros r Hr Hl. unfold unicode_to_lower, same_case in Hl. lia. Qed.

#[export] Instance lib : UserLib := {|
  ParseAddress s := if has_char at_sign s then Some s else None;
  language_Parse _ := true;
  status_of_json _ := None;
  json_of_status _ := None;
  json_of_map _ := "{}";
  sql_lower s := s;
|}.

#[export] Instance lib_ok : UserLibOk.
Proof.
  split; [|done]. intros s a. cbn. destruct (has_char at_sign s) eqn:Hs; [|done]. by intros [= <-].
Qed.

#[export] Instance quiet : LmsEnv := {|
  lms_clock := λ n, Z.of_nat (S n);
  lms_id := λ n, pad 26 ("u" +:+ pretty n +:+ "x");
  lms_fault := λ _, false;
|}.

#[export] Instance cache : UsersEnv := {|
  cache_dropped _ _ := false;
  email_first _ := true;
  maxPostSize := 4000%nat;
|}.

#[export] Instance props : JsonProps string := {|
  marshal_props _ := Some "{}";
  unmarshal_props _ := Some (Some ∅);
|}.

(** A request body. *)
Definition body (email nickname roles : string) : User :=
  {| User_Id := User_Id zero_User; User_CreateAt := User_CreateAt zero_User;
     User_UpdateAt := User_UpdateAt zero_User; User_DeleteAt := User_DeleteAt zero_User;
     User_Username := User_Username zero_User; User_Password := User_Password zero_User;
     User_AuthData := User_AuthData zero_User; User_AuthService := User_AuthService zero_User;
     User_Email := email; User_EmailVerified := User_EmailVerified zero_User; User_Nickname := nickname;
     User_FirstName := User_FirstName zero_User; User_LastName := User_LastName zero_User;
     User_Position := User_Position zero_User; User_Roles := roles;
     User_AllowMarketing := User_AllowMarketing zero_User; User_Props := User_Props zero_User;
     User_NotifyProps := User_NotifyProps zero_User;
     User_LastPasswordUpdate := User_LastPasswordUpdate zero_User;
     User_LastPictureUpdate := User_LastPictureUpdate zero_User;
     User_FailedAttempts := User_FailedAttempts zero_User; User_Locale := User_Locale zero_User;
     User_Timezone := User_Timezone zero_User; User_MfaActive := User_MfaActive zero_User;
     User_MfaSecret := User_MfaSecret zero_User; User_RemoteId := User_RemoteId zero_User;
     User_LastActivityAt := User_LastActivityAt zero_User; User_IsBot := User_IsBot zero_User;
     User_BotDescription := User_BotDescription zero_User;
     User_BotLastIconUpdate := User_BotLastIconUpdate zero_User;
     User_TermsOfServiceId := User_TermsOfServiceId zero_User;
     User_TermsOfServiceCreateAt := User_TermsOfServiceCreateAt zero_User;
     User_DisableWelcomeEmail := User_DisableWelcomeEmail zero_User;
     User_LastLogin := User_LastLogin zero_User;
     User_MfaUsedTimestamps := User_MfaUsedTimestamps zero_User; User_Phone := User_Phone zero_User;
     User_ParentId := User_ParentId zero_User |}.

Definition nobody : users_world Z := UsersWorld (LmsWorld empty_lmsDB 0) (UserDB ∅ ∅ ∅ ∅).

Definition an : User := body "an@school.vn" "An" "".
Definition other_an : User := body "an@college.vn" "" "".

Definition created : res lmsError User * users_world Z := createStudent (J:=string) true (Some an) None nobody.

(** The id of the first student. *)
Definition an_id : string := lms_id 0.

(** A lead with an e-mail address. *)
Definition lead : Lead :=
  {| Lead_ID := ""; Lead_Name := "Binh"; Lead_Email := Some "binh@school.vn"; Lead_Phone := Some "0900000000";
     Lead_Age := None; Lead_School := None; Lead_Source := None; Lead_Need := None; Lead_Status := "NEW";
     Lead_StudentID := None; Lead_Notes := None; Lead_TestDate := 0%Z; Lead_TestResult := None;
     Lead_TestScore := None; Lead_CounselorID := None; Lead_Createat := 0%Z; Lead_Updateat := 0%Z |}.

Definition with_lead : users_world Z := (createLead true lead nobody).2.
Definition lead_id : string := lms_id 0.

(** Somebody looks the student up: the cache has the account now. *)
Definition seen : users_world Z := (getStudent true an_id created.2).2.

Definition deactivated : users_world Z := (DeactivateUser an_id seen).2.

Definition new_name : User := User_with_Id an_id (body "" "Anh" "").
Definition renamed : users_world Z := (UpdateUser new_name deactivated).2.

Definition promotion : User := body "" "" "system_admin".

End School.
