(* ===== verification/LmsUsersProps.v ===== *)
(** * Properties of users, students and leads

    What the user store guarantees of its rows; who can log in after a student
    was created, and who cannot be created; why no lead is ever converted; and
    what reading through a cache nobody invalidates does to later updates. *)

From stdpp Require Import pretty.
From S2P Require Import Prelude.
From S2P Require Import GoString.
From S2P Require Import GoUtf8.
From S2P Require Import GoRunes.
From S2P Require Import LmsModel.
From S2P Require Import PhcParser.
From S2P Require Import Hashers.
From S2P Require Import PlatUser.
From S2P Require Import CallStore.
From S2P Require Import LmsStore.
From S2P Require Import LmsTables.
From S2P Require Import LmsApp.
From S2P Require Import UserStore.
From S2P Require Import LmsUsers.
From S2P Require Import LmsUsersDemo.

Local Open Scope string_scope.

(** The table of TestDeriveUsernameFromEmail. *)
Example deriveUsername_tests :
  let _ : UnicodeLower := λ r, r in
  map deriveUsernameFromEmail ["nguyenan@sitename.me"; "Nguyen.An@Sitename.me"; "nguyen.an+01@sitename.me";
    "an_nguyen-99@x.com"; "ảnhnguyễn@x.com"; "nguyenan"; ""; "@x.com"] =
  ["nguyenan"; "nguyen.an"; "nguyen.an-01"; "an_nguyen-99"; "-nhnguy-n"; "nguyenan"; ""; ""].
Proof. vm_compute. reflexivity. Qed.

Section props.
Context `{UnicodeTables} `{UnicodeLower} `{UserLib} `{CryptoOk} `{Decimal D} `{LmsEnv} `{GoRange}.
Context `{UsersEnv} `{JsonProps J}.

Abbreviation UW := (users_world D).
Abbreviation rows w := (us_rows (uw_users w)).
Abbreviation tables w := (lms_db (uw_lms w)).

(** ** The store *)

Lemma clean_status_fields now u :
  let u' := clean_status now u in
  User_Id u' = User_Id u ∧ User_Username u' = User_Username u ∧ User_Email u' = User_Email u ∧
  User_RemoteId u' = User_RemoteId u ∧ User_Password u' = User_Password u ∧ User_Roles u' = User_Roles u ∧
  User_EmailVerified u' = User_EmailVerified u ∧ User_DeleteAt u' = User_DeleteAt u ∧
  User_Phone u' = User_Phone u ∧ User_ParentId u' = User_ParentId u.
Proof. unfold clean_status, SetCustomStatus. destruct (GetCustomStatus u); [|done]. by destruct (json_of_status _). Qed.

Lemma clean_status_props now u k :
  k ≠ UserPropsKeyCustomStatus → User_Props (clean_status now u) !! k = User_Props u !! k.
Proof.
  intros Hk. unfold clean_status, SetCustomStatus. destruct (GetCustomStatus _); [|done].
  destruct (json_of_status _); [|done]. cbn. by rewrite lookup_insert_ne.
Qed.

(** The object after PreSave: the password is hashed, once. *)
Lemma PreSave_Ok i i' now nanos draw u u' :
  PreSave i i' now nanos draw u = Ok u' →
  User_Id u' = if_empty (User_Id u) i ∧
  User_Username u' = NormalizeUsername (SanitizeUnicode (if_empty (User_Username u) ("a" +:+ i'))) ∧
  User_Email u' = NormalizeEmail (User_Email u) ∧ User_RemoteId u' = User_RemoteId u ∧
  User_Roles u' = User_Roles u ∧ User_EmailVerified u' = User_EmailVerified u ∧
  (User_Password u ≠ "" → Hash draw (User_Password u) = Ok (User_Password u')).
Proof.
  unfold PreSave. destruct (decide _) as [He|He].
  - intros [= <-]. destruct (clean_status_fields nanos (PreSave_fields i i' now u)) as (-> & -> & -> & -> & -> & -> & -> & _).
    by split_and!.
  - destruct (Hash draw _) as [h|[]] eqn:Hh; [|done..]. intros [= <-].
    destruct (clean_status_fields nanos (User_with_Password h (PreSave_fields i i' now u)))
      as (-> & -> & -> & -> & -> & -> & -> & _). by split_and!.
Qed.

Lemma PreSave_keeps i i' now nanos draw u u' :
  PreSave i i' now nanos draw u = Ok u' →
  User_ParentId u' = User_ParentId u ∧
  ∀ k, k ≠ UserPropsKeyCustomStatus → User_Props u' !! k = User_Props u !! k.
Proof.
  unfold PreSave. destruct (decide _) as [He|He].
  - intros [= <-]. destruct (clean_status_fields nanos (PreSave_fields i i' now u)) as (_ & _ & _ & _ & _ & _ & _ & _ & _ & ->).
    split; [done|]. intros k Hk. by rewrite clean_status_props.
  - destruct (Hash draw _) as [h|[]] eqn:Hh; [|done..]. intros [= <-].
    destruct (clean_status_fields nanos (User_with_Password h (PreSave_fields i i' now u)))
      as (_ & _ & _ & _ & _ & _ & _ & _ & _ & ->).
    split; [done|]. intros k Hk. by rewrite clean_status_props.
Qed.

(** What a save did, read off its outcome. *)
Lemma UserStore_Save_spec f ef i i' now nanos draw mx t u r obj t' :
  UserStore_Save f ef i i' now nanos draw mx t u = (r, obj, t') →
  match r with
  | Ok saved => ∃ u' row, PreSave i i' now nanos draw u = Ok u' ∧ User_IsValid u' = None ∧
      columns (User_with_LastLogin 0 (User_with_Props (wrapBinaryParamStringMap false (User_Props u')) u')) = Some row ∧
      t !! User_Id u' = None ∧ unique_violation ef t row = None ∧ constraints_ok t row = true ∧
      User_Id saved = User_Id u' ∧ t' = <[User_Id u' := row]> t
  | Err e => t' = t ∧ (username_taken e = true → User_Password u ≠ "" → Hash draw (User_Password u) = Ok (User_Password obj))
  end.
Proof.
  unfold UserStore_Save. destruct (_ && _); [by intros [= <- <- <-]|].
  destruct (PreSave _ _ _ _ _ u) as [u'|e] eqn:Hp; [|by intros [= <- <- <-]].
  destruct (User_IsValid u') eqn:Hv; [by intros [= <- <- <-]|].
  pose proof (PreSave_Ok _ _ _ _ _ _ _ Hp) as (_ & _ & _ & _ & _ & _ & Hpw).
  unfold UserStore_insert. destruct (negb _); [by intros [= <- <- <-]|]. cbv zeta.
  set (u1 := User_with_Props _ u').
  change (User_Id u1) with (User_Id u'). destruct (f || _) eqn:Hf; [by intros [= <- <- <-]|].
  apply orb_false_iff in Hf as [-> Hnone%bool_decide_eq_false].
  destruct (columns _) as [row|] eqn:Hc; [|by intros [= <- <- <-]].
  destruct (unique_violation ef t row) as [field|] eqn:Hu.
  { intros [= <- <- <-]. split; [done|]. intros _. exact Hpw. }
  destruct (constraints_ok t row) eqn:Hk; intros [= <- <- <-]; [|done].
  exists u', row. split_and!; try done. by apply eq_None_not_Some.
Qed.

Lemma us_save_inv u (w w' : UW) r :
  us_save u w = (r, w') →
  let n := lms_ticks (uw_lms w) in
  ∃ res obj t, r = Ok (res, obj) ∧ tables w' = tables w ∧ rows w' = t ∧
    UserStore_Save (lms_fault n) (email_first n) (lms_id n) (lms_id (S n)) (lms_clock n) (lms_clock (S n)) n
      maxPostSize (rows w) u = (res, obj, t).
Proof.
  unfold us_save, on_users. intros Hrun. cbv zeta.
  destruct (UserStore_Save _ _ _ _ _ _ _ _ _ _) as [[res obj] t] eqn:Hs. injection Hrun as <- <-.
  by exists res, obj, t.
Qed.

Lemma us_save_ok u (w w' : UW) e : us_save u w ≠ (Err e, w').
Proof. intros (res & obj & t & Heq & _)%us_save_inv. done. Qed.

(** The fields of a stored row. *)
Lemma columns_fields u row :
  columns u = Some row →
  User_Id row = User_Id u ∧ User_Username row = User_Username u ∧ User_Email row = User_Email u ∧
  User_Password row = User_Password u ∧ User_Roles row = User_Roles u ∧
  User_EmailVerified row = User_EmailVerified u ∧ User_DeleteAt row = User_DeleteAt u ∧
  User_Phone row = User_Phone u ∧ User_ParentId row = User_ParentId u ∧ User_RemoteId row = User_RemoteId u ∧
  fits_columns u = true.
Proof. unfold columns. destruct (_ && _) eqn:Hf; [|done]. apply andb_true_iff in Hf as [_ Hf]. by intros [= <-]. Qed.

Lemma columns_props u row k : columns u = Some row → k ≠ BinaryParamKey → User_Props row !! k = User_Props u !! k.
Proof. unfold columns. destruct (_ && _); [|done]. intros [= <-] Hk. cbn. by rewrite lookup_delete_ne. Qed.

Lemma columns_fits u row : columns u = Some row → fits_columns row = true.
Proof.
  intros Hc. pose proof (columns_fields _ _ Hc) as (_ & _ & _ & _ & _ & _ & _ & _ & _ & _ & Hf). revert Hc.
  unfold columns. destruct (_ && _); [|done]. by intros [= <-].
Qed.

(** ** Creating students *)

Definition same_users (w w' : UW) : Prop := tables w' = tables w ∧ rows w' = rows w.

Lemma same_users_trans w w1 w2 : same_users w w1 → same_users w1 w2 → same_users w w2.
Proof. intros [] []. split; congruence. Qed.

(** A retry saves an object whose password is a hash, and fails on it. *)
Lemma retry_fails u (w w' : UW) r draw p :
  User_Id u = "" → Hash draw p = Ok (User_Password u) → us_save u w = (r, w') →
  same_users w w' ∧ ∃ obj, r = Ok (Err (ErrInvalidModel "model.user.pre_save.password_too_long.app_error"), obj).
Proof.
  intros Hid Hh (res & obj & t & -> & Hl & Ht & Hs)%us_save_inv.
  pose proof (Hash_too_long _ _ _ Hh) as Hlong.
  assert (User_Password u ≠ "") as Hne by (intros E; by rewrite E in Hlong).
  unfold UserStore_Save, PreSave in Hs. rewrite Hid in Hs. simpl in Hs.
  rewrite decide_False in Hs by done. unfold Hash, PBKDF2_Hash in Hs. rewrite Hlong in Hs.
  injection Hs as <- <- Heq. split; [split; congruence|]. by eexists.
Qed.

#[local] Arguments retry_save : simpl never.

Lemma retry_step n base e u :
  retry_save (D:=D) (S n) base (Err e) u =
    if negb (username_taken e) || empty base then m_throw e
    else m_bind (us_save (User_with_Username (base +:+ Itoa (Z.of_nat (maxUsernameAttempts - S n))) (User_with_Id "" u)))
           (λ p, retry_save n base p.1 p.2).
Proof. done. Qed.

(** The save of a student comes down to its first insert. *)
Lemma saveStudent_spec u (w w' : UW) r :
  User_Password u ≠ "" → saveStudentWithUniqueUsername u w = (r, w') →
  (∃ saved obj, us_save u w = (Ok (Ok saved, obj), w') ∧ r = Ok saved) ∨
  (∃ e, r = Err e ∧ same_users w w' ∧
     (∀ v obj w1, us_save u w = (Ok (Err (ErrInvalidInput "User" "username" v), obj), w1) → User_Username u ≠ "" →
        e = ErrInvalidModel "model.user.pre_save.password_too_long.app_error")).
Proof.
  intros Hpw Hrun. unfold saveStudentWithUniqueUsername in Hrun.
  apply bind_inv in Hrun as [([res obj] & w1 & Hsave & Hrun)|(e & Hsave & _)].
  2: { by apply us_save_ok in Hsave. }
  destruct (us_save_inv _ _ _ _ Hsave) as (res' & obj' & t & [= <- <-] & Hl & <- & Hs).
  pose proof (UserStore_Save_spec _ _ _ _ _ _ _ _ _ _ _ _ _ Hs) as Hspec.
  destruct res as [saved|e].
  { injection Hrun as <- <-. left. by exists saved, obj. }
  destruct Hspec as [Hrows Hobj]. assert (same_users w w1) as Hsame by done. right.
  change (maxUsernameAttempts - 1)%nat with 19%nat in Hrun. cbn [fst snd] in Hrun. rewrite retry_step in Hrun.
  destruct (username_taken e) eqn:Ht; cbn [negb orb] in Hrun.
  - destruct (empty (User_Username u)) eqn:Hu.
    { injection Hrun as <- <-. exists e. split_and!; [done..|]. intros v o w2 _ Hne.
      by apply bool_decide_eq_true in Hu. }
    specialize (Hobj eq_refl Hpw).
    apply bind_inv in Hrun as [([res2 obj2] & w2 & Hsave2 & Hrun)|(e2 & Hsave2 & _)].
    2: { by apply us_save_ok in Hsave2. }
    eapply (retry_fails _ _ _ _ _ (User_Password u)) in Hsave2 as [Hsame2 (obj3 & [= -> ->])]; [|done|exact Hobj].
    cbn [fst snd] in Hrun. rewrite retry_step in Hrun. injection Hrun as <- <-.
    eexists. split; [done|]. split; [by eapply same_users_trans|done].
  - injection Hrun as <- <-. exists e. split_and!; [done..|].
    intros v o w2 Heq _. rewrite Hsave in Heq. injection Heq as -> _ _. done.
Qed.

Lemma bind_ret {A B} (a : A) (k : A → M UW lmsError B) w : m_bind (m_ret a) k w = k a w.
Proof. done. Qed.

Lemma wrapU_inv {A} c (m : M UW storeError A) w r w' :
  wrapU c m w = (r, w') →
  ∃ r0, m w = (r0, w') ∧ r = match r0 with Ok a => Ok a | Err e => Err (c e) end.
Proof. unfold wrapU. destruct (m w) as [[a|e] w1]; intros Heq; simplify_eq; eauto. Qed.

Lemma new_student_fields user :
  User_Password (new_student user) = defaultStudentPassword ∧ User_Roles (new_student user) = RoleLmsStudentRoleId ∧
  User_EmailVerified (new_student user) = true ∧ User_Email (new_student user) = User_Email user.
Proof. split_and!; [done..|]. simpl. unfold with_derived_username. by destruct (_ && _). Qed.

(** What CreateStudent hands to the store. *)
Record student_of (user u : User) : Prop := {
  so_username : User_Username u = User_Username (new_student user);
  so_password : User_Password u = defaultStudentPassword;
  so_roles : User_Roles u = RoleLmsStudentRoleId;
  so_verified : User_EmailVerified u = true;
  so_email : User_Email u = User_Email user;
  so_parent : User_ParentId u = User_ParentId user;
  so_delete : User_DeleteAt u = User_DeleteAt user;
  so_service : User_AuthService u = User_AuthService user;
  so_attempts : User_FailedAttempts u = User_FailedAttempts user;
  so_props : ∀ k, k ≠ studentPropsKey → User_Props u !! k = User_Props user !! k;
}.

Lemma CreateStudent_inv user props (w w' : UW) r :
  CreateStudent (J:=J) (Some user) props w = (r, w') →
  (∃ e, r = Err e ∧ w' = w) ∨
  ∃ u r0, student_of user u ∧ saveStudentWithUniqueUsername u w = (r0, w') ∧
    r = match r0 with Ok a => Ok a | Err e => Err (create_student_error e) end.
Proof.
  unfold CreateStudent. destruct (decide _); [intros [= <- <-]; eauto|]. intros Hrun.
  assert (∀ u, student_of user u → wrapU create_student_error (saveStudentWithUniqueUsername u) w = (r, w') →
            ∃ u r0, student_of user u ∧ saveStudentWithUniqueUsername u w = (r0, w') ∧
              r = match r0 with Ok a => Ok a | Err e => Err (create_student_error e) end) as Hsave.
  { intros u Hu (r0 & Hs & ->)%wrapU_inv. eauto 10. }
  assert (User_Props (new_student user) = User_Props user ∧ User_ParentId (new_student user) = User_ParentId user ∧
    User_DeleteAt (new_student user) = User_DeleteAt user ∧ User_AuthService (new_student user) = User_AuthService user ∧
    User_FailedAttempts (new_student user) = User_FailedAttempts user) as (Hp & Hpa & Hde & Hsv & Hat).
  { unfold new_student, with_derived_username. simpl. by destruct (_ && _). }
  assert (∀ j, student_of user (User_with_Props (<[studentPropsKey := j]> (User_Props (new_student user))) (new_student user)) ∧
    student_of user (new_student user)) as Hso.
  { intros j. destruct (new_student_fields user) as (? & ? & ? & ?). split; split; try done; intros k Hk; cbn.
    - rewrite lookup_insert_ne by done. exact (f_equal (lookup k) Hp).
    - exact (f_equal (lookup k) Hp). }
  destruct props as [m|]; [destruct (marshal_props m) as [json|]|].
  - right. rewrite bind_ret in Hrun. eapply Hsave; [|exact Hrun]. apply Hso.
  - injection Hrun as <- <-. left. eauto.
  - right. rewrite bind_ret in Hrun. eapply Hsave; [|exact Hrun]. apply (Hso "").
Qed.

(** A successful save, field by field. *)
Lemma us_save_row u saved obj (w w' : UW) :
  User_Password u ≠ "" → us_save u w = (Ok (Ok saved, obj), w') →
  ∃ row draw id, tables w' = tables w ∧ rows w !! User_Id saved = None ∧
    rows w' = <[User_Id saved := row]> (rows w) ∧
    User_Username row = NormalizeUsername (SanitizeUnicode (if_empty (User_Username u) ("a" +:+ id))) ∧
    User_Email row = NormalizeEmail (User_Email u) ∧ User_Roles row = User_Roles u ∧
    User_EmailVerified row = User_EmailVerified u ∧ Hash draw (User_Password u) = Ok (User_Password row) ∧
    User_ParentId row = User_ParentId u ∧
    (∀ k, k ≠ BinaryParamKey → k ≠ UserPropsKeyCustomStatus → User_Props row !! k = User_Props u !! k) ∧
    ∃ ef, unique_violation ef (rows w) row = None ∧ User_Id row = User_Id saved.
Proof.
  intros Hpw (res & obj' & t & [= <- <-] & Hl & <- & Hs)%us_save_inv.
  apply UserStore_Save_spec in Hs as (u' & row & Hp & _ & Hc & Hnone & Hu & _ & Hid & Hrows).
  apply PreSave_keeps in Hp as Hkeep. destruct Hkeep as [Hpar Hprops]. pose proof (λ k, columns_props _ _ k Hc) as Hcp.
  apply PreSave_Ok in Hp as (_ & Hn & He & _ & Hr & Hv & Hpass).
  apply columns_fields in Hc as (Hi & Hun & Hem & Hpa & Hro & Hve & _ & _ & Hpi & _). simpl in *.
  exists row, (lms_ticks (uw_lms w)), (lms_id (S (lms_ticks (uw_lms w)))). rewrite Hid. split_and!; try done.
  - by rewrite Hun.
  - by rewrite Hem.
  - by rewrite Hro.
  - by rewrite Hve.
  - rewrite Hpa. by apply Hpass.
  - by rewrite Hpi.
  - intros k Hb Hc. rewrite Hcp by done. unfold wrapBinaryParamStringMap. by rewrite lookup_insert_ne, Hprops.
  - exists (email_first (lms_ticks (uw_lms w))). by rewrite Hi.
Qed.

(** C11: A created student can log in.  When CreateStudent succeeds, one new row
    was inserted and nothing else changed; the account has the student role and
    a verified e-mail, its name is the one the request gives or the e-mail
    yields, never a suffixed one, and its stored password accepts Student@123
    with the hasher the login will pick.  When it fails, no row has changed. *)
Theorem CreateStudent_account user props (w w' : UW) r :
  CreateStudent (J:=J) (Some user) props w = (r, w') →
  tables w' = tables w ∧
  match r with
  | Err _ => rows w' = rows w
  | Ok saved => ∃ row phc, rows w !! User_Id saved = None ∧ rows w' = <[User_Id saved := row]> (rows w) ∧
      User_Roles row = RoleLmsStudentRoleId ∧ User_EmailVerified row = true ∧
      User_Email row = NormalizeEmail (User_Email user) ∧
      (User_Username (new_student user) ≠ "" →
         User_Username row = NormalizeUsername (SanitizeUnicode (User_Username (new_student user)))) ∧
      GetHasherFromPHCString (User_Password row) = Ok (latestHasher, phc) ∧
      CompareHashAndPassword latestHasher phc defaultStudentPassword = None
  end.
Proof.
  intros [(e & -> & ->)|(u & r0 & Hso & Hs & ->)]%CreateStudent_inv; [done|].
  assert (User_Password u ≠ "") as Hpw by (by rewrite (so_password _ _ Hso)).
  apply saveStudent_spec in Hs as [(saved & obj & Hsave & ->)|(e & -> & [Hl Hr] & _)]; [|done|done].
  apply us_save_row in Hsave as (row & draw & id & Hl & Hnone & Hrows & Hun & Hem & Hro & Hve & Hh & _ & _); [|done].
  rewrite (so_password _ _ Hso) in Hh. destruct (Hash_accepts _ _ _ Hh) as (phc & Hget & Hcmp).
  split; [done|]. exists row, phc. rewrite Hro, Hve, (so_roles _ _ Hso), (so_verified _ _ Hso), Hem, (so_email _ _ Hso).
  split_and!; try done. rewrite <-(so_username _ _ Hso). intros Hne. rewrite Hun. unfold if_empty.
  by rewrite decide_False.
Qed.

Lemma clash_false {X} `{EqDecision X} (f : User → X) t u :
  clash f t u = false ↔ ∀ id v, t !! id = Some v → id ≠ User_Id u → f v ≠ f u.
Proof.
  unfold clash. rewrite <-not_true_iff_false, existsb_exists. setoid_rewrite andb_true_iff.
  setoid_rewrite negb_true_iff. setoid_rewrite bool_decide_eq_true. setoid_rewrite bool_decide_eq_false. split.
  - intros Hn id v Hv Hid Heq. apply Hn. exists (id, v). split; [|done].
    apply list_elem_of_In. by apply elem_of_map_to_list.
  - intros Hall ([id v] & Hin%list_elem_of_In%elem_of_map_to_list & Hid & Heq). by eapply Hall.
Qed.

Lemma unique_violation_None ef t u :
  unique_violation ef t u = None ↔ clash User_Email t u = false ∧ clash User_Username t u = false.
Proof. unfold unique_violation. destruct (clash User_Email t u), (clash User_Username t u), ef; naive_solver. Qed.

(** A namesake is never created.  Once an account has the user name that
    the e-mail of a new student yields (or that the request gives), CreateStudent
    fails and changes nothing: the loop over suffixed names saves an object
    whose password the first attempt has already replaced by its hash, which is
    too long to be hashed again.  The suffixes are never reached. *)
Theorem namesake_never_created user props (w w' : UW) r id other :
  User_Username (new_student user) ≠ "" → rows w !! id = Some other →
  User_Username other = NormalizeUsername (SanitizeUnicode (User_Username (new_student user))) →
  CreateStudent (J:=J) (Some user) props w = (r, w') →
  (∃ e, r = Err e) ∧ tables w' = tables w ∧ rows w' = rows w.
Proof.
  intros Hne Hother Hname [(e & -> & ->)|(u & r0 & Hso & Hs & ->)]%CreateStudent_inv; [eauto|].
  assert (User_Password u ≠ "") as Hpw by (by rewrite (so_password _ _ Hso)).
  apply saveStudent_spec in Hs as [(saved & obj & Hsave & ->)|(e & -> & [Hl Hr] & _)]; [|eauto|done].
  apply us_save_row in Hsave as (row & draw & i & Hl & Hnone & Hrows & Hun & _ & _ & _ & _ & _ & _ & ef & Hv & Hid); [|done].
  exfalso. apply unique_violation_None in Hv as [_ Hv]. rewrite clash_false in Hv.
  apply (Hv id other Hother); [rewrite Hid; congruence|].
  rewrite Hun, Hname. unfold if_empty. rewrite (so_username _ _ Hso), decide_False by done. done.
Qed.
(** ** Converting leads *)

(** Neither lower case nor the blocklist makes an at sign or takes one away. *)
Lemma at_sign_strings_Map f s :
  (∀ r, f r = 64%Z ↔ r = 64%Z) → has_char at_sign (strings_Map f s) = has_char at_sign s.
Proof.
  intros Hf. apply eq_true_iff_eq. unfold strings_Map.
  rewrite has_char_of_runes, <-elem_of_runes_ascii by done. change (byte_z at_sign) with 64%Z.
  rewrite list_elem_of_filter, list_elem_of_fmap. split.
  - intros [_ (r & Heq & Hr)]. symmetry in Heq. apply Hf in Heq as ->. done.
  - intros Hin. split; [done|]. exists 64%Z. split; [symmetry; by apply Hf|done].
Qed.

Lemma at_sign_ToLower `{!UnicodeLowerOk} s : has_char at_sign (ToLower s) = has_char at_sign s.
Proof.
  apply at_sign_strings_Map. intros r. unfold rune_lower. destruct (Z.ltb_spec r 128).
  - unfold within_z. destruct ((65 <=? r) && (r <=? 90))%Z eqn:E; [|done].
    apply andb_true_iff in E. lia.
  - split; [|lia]. intros Heq. destruct (unicode_lower_ascii r) as [E|E]; lia.
Qed.

Lemma at_sign_SanitizeUnicode s : has_char at_sign (SanitizeUnicode s) = has_char at_sign s.
Proof.
  apply at_sign_strings_Map. intros r. unfold filterBlocklist. destruct (_ || _) eqn:E; [|done].
  split; [lia|]. intros ->. by vm_compute in E.
Qed.

(** A local user whose name is made from the e-mail is not valid. *)
Lemma email_no_username `{!UnicodeLowerOk, !UserLibOk} u e i :
  User_RemoteId u = None → User_Email u = NormalizeEmail e →
  User_Username u = NormalizeUsername (SanitizeUnicode (if_empty e i)) → User_IsValid u ≠ None.
Proof.
  intros Hrem He Hn Hv%first_error_none. rewrite Forall_lookup in Hv.
  pose proof (Hv 3%nat _ eq_refl) as Hun. pose proof (Hv 4%nat _ eq_refl) as Hem.
  unfold IsRemote in Hun, Hem. rewrite Hrem in Hun, Hem. simpl in Hun, Hem.
  rewrite andb_true_r in Hem. apply orb_false_iff in Hem as [[_ Hne%bool_decide_eq_false]%orb_false_iff Hem%negb_false_iff].
  apply negb_false_iff in Hun. unfold IsValidUsername in Hun. rewrite !andb_true_iff in Hun.
  destruct Hun as [[_ Hchars] _]. unfold IsValidEmail in Hem. apply andb_true_iff in Hem as [_ Hem].
  destruct (ParseAddress (User_Email u)) as [a|] eqn:Ha; [|done]. pose proof (address_has_at _ _ Ha) as Hat.
  apply andb_true_iff in Hem as [->%bool_decide_eq_true _]. rewrite He in *. unfold NormalizeEmail, NormalizeUsername in *.
  apply (all_chars_has _ at_sign) in Hchars; [|done].
  unfold if_empty in Hn. destruct (decide (e = "")) as [->|]; [done|].
  rewrite at_sign_ToLower in Hat. by rewrite Hn, at_sign_ToLower, at_sign_SanitizeUnicode, Hat in Hchars.
Qed.

Lemma frames_lmsU {A T} (f : lms_world D → T) (m : M (lms_world D) lmsError A) :
  frames f m → frames (λ w : UW, f (uw_lms w)) (lmsU m).
Proof. intros Hm w. specialize (Hm (uw_lms w)). unfold lmsU. by destruct (m (uw_lms w)). Qed.

Lemma lmsU_users {A} (m : M (lms_world D) lmsError A) : frames (λ w : UW, uw_users w) (lmsU m).
Proof. intros w. unfold lmsU. by destruct (m (uw_lms w)). Qed.

Lemma GetLead_same leadID (w w' : UW) r : GetLead leadID w = (r, w') → same_users w w'.
Proof.
  intros Hg. unfold GetLead in Hg. set (m := wrap _ _) in Hg.
  assert (frames lms_db m) as Hm by apply frames_wrap, frames_db_get, Leads_ok.
  pose proof (frames_lmsU lms_db m Hm w) as Hl. pose proof (lmsU_users m w) as Hu.
  rewrite Hg in Hl, Hu. simpl in Hl, Hu. split; congruence.
Qed.

(** C30: No lead is ever converted.  ConvertLeadToStudent takes the lead's
    e-mail as the user name; an e-mail has an at sign, a user name must not,
    and a lead without e-mail fails on the empty e-mail.  Every request fails,
    creates no account and leaves the lead as it was. *)
Theorem ConvertLeadToStudent_fails `{!UnicodeLowerOk, !UserLibOk} leadID (w w' : UW) r :
  ConvertLeadToStudent leadID w = (r, w') → (∃ e, r = Err e) ∧ tables w' = tables w ∧ rows w' = rows w.
Proof.
  intros Hrun. unfold ConvertLeadToStudent in Hrun.
  apply bind_inv in Hrun as [(lead & w1 & Hg & Hrun)|(e & Hg & ->)]; [|split; [eauto|by eapply GetLead_same]].
  apply GetLead_same in Hg as Hsame. cbn [m_bind m_gets] in Hrun.
  destruct (BCrypt_Hash _ _) as [hashed|he]; [|injection Hrun as <- <-; eauto].
  apply bind_inv in Hrun as [(saved & w2 & Hs & Hrun)|(e & Hs & ->)].
  - exfalso. apply wrapU_inv in Hs as (r0 & Hs & Hr0). destruct r0 as [|]; [|done]. clear Hr0 Hrun.
    apply bind_inv in Hs as [([res obj] & w3 & Hsave & Hs)|(e & Hsave & _)]; [|by apply us_save_ok in Hsave].
    destruct res as [su|]; [|done].
    apply us_save_inv in Hsave as (res' & obj' & t & [= <- <-] & _ & _ & Hst).
    apply UserStore_Save_spec in Hst as (u' & row & Hp & Hv & _).
    apply PreSave_Ok in Hp as (_ & Hun & Hem & Hrem & _).
    by eapply email_no_username.
  - split; [eauto|]. apply wrapU_inv in Hs as (r0 & Hs & Hr0). eapply same_users_trans; [done|].
    apply bind_inv in Hs as [([res obj] & w3 & Hsave & Hs)|(e0 & Hsave & _)]; [|by apply us_save_ok in Hsave].
    destruct res as [su|]; [by injection Hs as <- <-|].
    apply us_save_inv in Hsave as (res' & obj' & t & [= <- <-] & Hl & <- & Hst).
    apply UserStore_Save_spec in Hst as [Hst _]. injection Hs as <- <-. done.
Qed.
(** ** Updating users *)

Lemma PreUpdate_fields now nanos u :
  let u' := PreUpdate now nanos u in
  User_Id u' = User_Id u ∧ User_RemoteId u' = User_RemoteId u ∧ User_Roles u' = User_Roles u ∧
  User_DeleteAt u' = User_DeleteAt u ∧ User_Phone u' = User_Phone u.
Proof.
  unfold PreUpdate. cbv zeta. match goal with |- context [clean_status nanos ?v] =>
    destruct (clean_status_fields nanos v) as (-> & _ & _ & -> & _ & -> & _ & -> & -> & _) end. done.
Qed.

Lemma merged_id tr old u u1 : merged tr old u = Ok u1 → User_Id u1 = User_Id u.
Proof.
  unfold merged, untrusted. destruct tr; [by intros [= <-]|]. cbv zeta.
  set (u2 := if IsOAuthUser _ then _ else _). assert (User_Id u2 = User_Id u) as Hu2 by (subst u2; by destruct (IsOAuthUser _)).
  clearbody u2. repeat destruct (_ && _); [done..|]. destruct (decide _); intros [= <-]; done.
Qed.

(** A row written from an object, field by field. *)
Record row_from (u row : User) : Prop := {
  rf_id : User_Id row = User_Id u;
  rf_username : User_Username row = User_Username u;
  rf_email : User_Email row = User_Email u;
  rf_remote : User_RemoteId row = User_RemoteId u;
  rf_roles : User_Roles row = User_Roles u;
  rf_delete : User_DeleteAt row = User_DeleteAt u;
  rf_phone : User_Phone row = User_Phone u;
  rf_parent : User_ParentId row = User_ParentId u;
  rf_password : User_Password row = User_Password u;
  rf_service : User_AuthService row = User_AuthService u;
  rf_attempts : User_FailedAttempts row = User_FailedAttempts u;
  rf_props : ∀ k, k ≠ BinaryParamKey → User_Props row !! k = User_Props u !! k;
}.

Lemma after_keep_row old u b row :
  let u' := after_keep old u in
  columns (User_with_Props (wrapBinaryParamStringMap b (User_Props u')) u') = Some row → row_from u row.
Proof.
  cbv zeta. set (u' := after_keep _ _). unfold columns. destruct (_ && _); [|done]. intros [= <-].
  assert (∀ k, k ≠ BinaryParamKey → delete BinaryParamKey (wrapBinaryParamStringMap b (User_Props u)) !! k = User_Props u !! k)
    as Hprops.
  { intros k Hk. unfold wrapBinaryParamStringMap. by rewrite lookup_delete_ne, lookup_insert_ne. }
  subst u'. unfold after_keep. destruct (IsSSOUser u), (decide _); by split.
Qed.

(** What the merge keeps of the old row and of the new object. *)
Lemma merged_keeps tr old u u1 :
  merged tr old u = Ok u1 → User_Password u1 = User_Password old ∧ User_Props u1 = User_Props u.
Proof.
  unfold merged, untrusted. destruct tr; [by intros [= <-]|]. cbv zeta.
  set (u2 := if IsOAuthUser _ then _ else _).
  assert (User_Password u2 = User_Password old ∧ User_Props u2 = User_Props u) as Hu2
    by (subst u2; by destruct (IsOAuthUser _)).
  clearbody u2. repeat destruct (_ && _); [done..|]. destruct (decide _); intros [= <-]; done.
Qed.

Lemma PreUpdate_props now nanos u k :
  k ≠ UserPropsKeyCustomStatus → User_Props (PreUpdate now nanos u) !! k = User_Props u !! k.
Proof.
  intros Hk. unfold PreUpdate. by rewrite clean_status_props.
Qed.

Lemma UserStore_Update_spec tr f ef now nanos mx t u r t' :
  UserStore_Update tr f ef now nanos mx t u = (r, t') →
  match r with
  | Ok saved => ∃ old u1 row, t !! User_Id u = Some old ∧ User_IsValid (PreUpdate now nanos u) = None ∧
      merged tr old (PreUpdate now nanos u) = Ok u1 ∧ row_from u1 row ∧ fits_columns row = true ∧
      unique_violation ef t row = None ∧ constraints_ok t row = true ∧ t' = <[User_Id u := row]> t ∧
      User_Id u1 = User_Id u
  | Err _ => t' = t
  end.
Proof.
  unfold UserStore_Update. cbv zeta. destruct (PreUpdate_fields now nanos u) as (Hid & _).
  set (u1 := PreUpdate now nanos u) in *. destruct (User_IsValid u1) eqn:Hv; [by intros [= <- <-]|].
  destruct (negb _); [by intros [= <- <-]|]. rewrite Hid.
  destruct (t !! User_Id u) as [old|] eqn:Hold; [|by intros [= <- <-]].
  destruct (merged tr old u1) as [um|] eqn:Hm; [|by intros [= <- <-]].
  destruct f; [by intros [= <- <-]|]. set (u2 := after_keep _ _) in *.
  destruct (columns _) as [row|] eqn:Hc; [|by intros [= <- <-]].
  destruct (unique_violation _ _ _) eqn:Hu; [by intros [= <- <-]|].
  destruct (constraints_ok _ _) eqn:Hk; intros [= <- <-]; [|done].
  apply after_keep_row in Hc as Hrow. assert (User_Id um = User_Id u) as Hmid by (by rewrite <-Hid; eapply merged_id).
  exists old, um, row. split_and!; try done.
  - by apply columns_fits in Hc.
  - apply columns_fields in Hc as (Hi & _). rewrite (rf_id _ _ Hrow), Hmid in Hi. by rewrite Hi.
Qed.

Lemma us_update_inv tr u (w w' : UW) r :
  us_update tr u w = (r, w') →
  tables w' = tables w ∧ us_cache (uw_users w') = us_cache (uw_users w) ∧
  lms_ticks (uw_lms w') = S (S (S (lms_ticks (uw_lms w)))) ∧
  ∃ ef now nanos, UserStore_Update tr (lms_fault (lms_ticks (uw_lms w))) ef now nanos maxPostSize (rows w) u = (r, rows w').
Proof.
  unfold us_update, or_throw, on_users. intros Hrun.
  apply bind_inv in Hrun as [(res & w1 & Hs & Hrun)|(e & Hs & _)].
  - destruct (UserStore_Update _ _ _ _ _ _ _ _) as [r1 t] eqn:Hu. injection Hs as -> <-.
    assert (r = res ∧ w' = UsersWorld (tick (uw_lms w)) (with_rows t (uw_users w))) as [-> ->].
    { by destruct res; injection Hrun as <- <-. }
    split_and!; [done..|]. by do 3 eexists.
  - by destruct (UserStore_Update _ _ _ _ _ _ _ _).
Qed.

(** A user the cache still has is read from it. *)
Definition in_cache (id : string) (c : User) (w : UW) : Prop :=
  us_cache (uw_users w) !! id = Some c ∧ User_Id c = id.

Lemma us_get_cached id c (w : UW) :
  cache_dropped (lms_ticks (uw_lms w)) id = false → in_cache id c w →
  us_get id w = (Ok c, UsersWorld (tick (uw_lms w)) (uw_users w)).
Proof.
  intros Hd [Hc _]. unfold us_get, or_throw, on_users, CachedUserStore_Get, m_bind. simpl. by rewrite Hd, Hc.
Qed.

(** Reading a cached user, changing it and storing it: what is written comes
    from the cache, but for what the store keeps of the row. *)
Lemma cached_update c1 c2 (f : User → Z → User) id c (w w' : UW) saved :
  cache_dropped (lms_ticks (uw_lms w)) id = false → in_cache id c w → (∀ now, User_Id (f c now) = id) →
  m_bind (wrapU c1 (us_get id)) (λ user, m_bind (m_gets (λ w, lms_clock (lms_ticks (uw_lms w))))
    (λ now, wrapU c2 (us_update true (f user now)))) w = (Ok saved, w') →
  us_cache (uw_users w') = us_cache (uw_users w) ∧
  ∃ old row now, rows w !! id = Some old ∧ rows w' = <[id := row]> (rows w) ∧
    now = lms_clock (S (S (S (lms_ticks (uw_lms w))))) ∧
    User_Roles row = User_Roles (f c now) ∧ User_DeleteAt row = User_DeleteAt (f c now) ∧
    User_Phone row = User_Phone (f c now) ∧
    User_ParentId row = User_ParentId old ∧ User_Password row = User_Password old.
Proof.
  intros Hd Hc Hid Hrun.
  apply bind_inv in Hrun as [(u & w1 & Hg & Hrun)|(e & _ & [=])].
  apply wrapU_inv in Hg as (r0 & Hg & Hr0). rewrite (us_get_cached _ c) in Hg by done.
  injection Hg as <- <-. injection Hr0 as ->. unfold m_gets, m_bind in Hrun. simpl in Hrun.
  apply wrapU_inv in Hrun as (r1 & Hu & Hr1). destruct r1 as [s|]; [|done].
  apply us_update_inv in Hu as (_ & Hcache & _ & ef & now & nanos & Hu).
  apply UserStore_Update_spec in Hu as (old & u1 & row & Hold & _ & [= <-] & Hrow & _ & _ & _ & Ht & _).
  destruct (PreUpdate_fields now nanos (f c (lms_clock (S (S (S (lms_ticks (uw_lms w)))))))) as (_ & _ & Hro & Hde & Hph).
  rewrite Hid in *. split; [done|]. exists old, row, (lms_clock (S (S (S (lms_ticks (uw_lms w)))))).
  destruct Hrow. simpl in *. split_and!; try done; congruence.
Qed.

Lemma UpdateUser_cached user c (w w' : UW) saved :
  cache_dropped (lms_ticks (uw_lms w)) (User_Id user) = false → in_cache (User_Id user) c w →
  UpdateUser user w = (Ok saved, w') →
  ∃ old row, rows w !! User_Id user = Some old ∧ rows w' = <[User_Id user := row]> (rows w) ∧
    User_Roles row = or_else (User_Roles user) (User_Roles c) ∧ User_DeleteAt row = User_DeleteAt c ∧
    User_Phone row = or_else_ptr (User_Phone user) (User_Phone c) ∧
    User_ParentId row = User_ParentId old ∧ User_Password row = User_Password old.
Proof.
  intros Hd Hc Hrun. destruct (cached_update _ _ (λ c _, merge_user c user) _ c w w' saved Hd Hc (λ _, proj2 Hc) Hrun)
    as (_ & old & row & now & Hold & Hrows & _ & Hro & Hde & Hph & Hpa & Hpw).
  exists old, row. by split_and!.
Qed.

(** A deactivated user comes back with the next edit.  The learning system
    writes users past the cache and never drops them from it, so while a user
    who was active when the cache read it stays cached, DeactivateUser stores
    the time of deactivation, and a later UpdateUser, of the nickname say,
    stores the cached DeleteAt 0 again, with the cached roles, and without the
    phone number, which the cache does not hold.  The password and the parent
    come from the row. *)
Theorem deactivation_undone id c user (w w1 w2 : UW) a b :
  User_Id user = id → User_DeleteAt c = 0%Z → in_cache id c w → (∀ n, cache_dropped n id = false) →
  DeactivateUser id w = (Ok a, w1) → UpdateUser user w1 = (Ok b, w2) →
  ∃ row1 row2, rows w1 !! id = Some row1 ∧ User_DeleteAt row1 = lms_clock (S (S (S (lms_ticks (uw_lms w))))) ∧
    rows w2 !! id = Some row2 ∧ User_DeleteAt row2 = 0%Z ∧
    User_Roles row2 = or_else (User_Roles user) (User_Roles c) ∧
    User_Phone row2 = or_else_ptr (User_Phone user) (User_Phone c) ∧
    User_ParentId row2 = User_ParentId row1 ∧ User_Password row2 = User_Password row1.
Proof.
  intros <- Hzero Hc Hd Hdeact Hupd.
  destruct (cached_update _ _ (λ u now, User_with_DeleteAt now (User_with_UpdateAt now u)) _ c w w1 a (Hd _) Hc
    (λ _, proj2 Hc) Hdeact) as (Hcache & old & row1 & now & _ & Hrows & -> & _ & Hde & _).
  assert (in_cache (User_Id user) c w1) as Hc1 by (unfold in_cache; by rewrite Hcache).
  destruct (UpdateUser_cached _ _ _ _ _ (Hd _) Hc1 Hupd) as (old' & row2 & Hold' & Hrows' & Hro & Hde' & Hph & Hpa & Hpw).
  rewrite Hrows, lookup_insert_eq in Hold'. injection Hold' as <-. exists row1, row2.
  rewrite Hrows', Hrows, !lookup_insert_eq. split_and!; try done. congruence.
Qed.

End props.

(** ** The theorems at a concrete school *)

Section witnesses.
Import School.
#[local] Existing Instance cents.

Lemma CreateStudent_account_witness :
  ∃ saved row phc, (CreateStudent (J:=string) (Some an) None nobody).1 = Ok saved ∧
    us_rows (uw_users (CreateStudent (J:=string) (Some an) None nobody).2) !! User_Id saved = Some row ∧
    GetHasherFromPHCString (User_Password row) = Ok (latestHasher, phc) ∧
    CompareHashAndPassword latestHasher phc defaultStudentPassword = None.
Proof.
  pose proof (CreateStudent_account an None nobody _ _ (surjective_pairing (CreateStudent (J:=string) (Some an) None nobody)))
    as [_ Hr].
  assert (match (CreateStudent (J:=string) (Some an) None nobody).1 with Ok _ => True | Err _ => False end) as Hok
    by (vm_compute; exact I).
  destruct (CreateStudent (J:=string) (Some an) None nobody).1 as [saved|]; [|destruct Hok].
  destruct Hr as (row & phc & _ & Hrows & _ & _ & _ & _ & Hget & Hcmp).
  exists saved, row, phc. rewrite Hrows, lookup_insert_eq.
  split; [reflexivity|split; [reflexivity|exact (conj Hget Hcmp)]].
Defined.

(** Another An cannot come to the school. *)
Lemma namesake_never_created_witness :
  ∃ e, (CreateStudent (J:=string) (Some other_an) None created.2).1 = Err e.
Proof.
  assert (User_Username <$> us_rows (uw_users created.2) !! an_id = Some "an") as Ho by (vm_compute; reflexivity).
  apply fmap_Some in Ho as (other & Ho & Hn).
  destruct (namesake_never_created other_an None created.2 _ _ an_id other ltac:(by vm_compute) Ho
    ltac:(rewrite <-Hn; vm_compute; reflexivity)
    (surjective_pairing (CreateStudent (J:=string) (Some other_an) None created.2))) as [He _].
  exact He.
Defined.

(** A lead that is there and cannot be converted either. *)
Lemma ConvertLeadToStudent_fails_witness :
  is_Some (db_leads (lms_db (uw_lms with_lead)) !! lead_id) ∧
  ∃ e, (ConvertLeadToStudent lead_id with_lead).1 = Err e.
Proof.
  split; [apply (bool_decide_unpack _); vm_compute; exact I|].
  destruct (ConvertLeadToStudent_fails lead_id with_lead _ _ (surjective_pairing (ConvertLeadToStudent lead_id with_lead)))
    as [He _].
  exact He.
Defined.

(** The student is looked up, deactivated and renamed. *)
Lemma deactivation_undone_witness :
  ∃ row1 row2, us_rows (uw_users deactivated) !! an_id = Some row1 ∧ User_DeleteAt row1 = 10%Z ∧
    us_rows (uw_users renamed) !! an_id = Some row2 ∧ User_DeleteAt row2 = 0%Z.
Proof.
  assert (User_DeleteAt <$> us_cache (uw_users seen) !! an_id = Some 0%Z) as Hc by (vm_compute; reflexivity).
  assert (∀ n, cache_dropped n an_id = false) as Hdrop by reflexivity.
  assert (User_Id <$> us_cache (uw_users seen) !! an_id = Some an_id) as Hid by (vm_compute; reflexivity).
  apply fmap_Some in Hc as (c & Hc & Hzero). rewrite Hc in Hid. injection Hid as Hid.
  assert (match (DeactivateUser an_id seen).1 with Ok _ => True | Err _ => False end) as Ha by (vm_compute; exact I).
  assert (match (UpdateUser new_name deactivated).1 with Ok _ => True | Err _ => False end) as Hb by (vm_compute; exact I).
  pose proof (surjective_pairing (DeactivateUser an_id seen)) as Hda.
  pose proof (surjective_pairing (UpdateUser new_name deactivated)) as Hdb.
  destruct (DeactivateUser an_id seen).1 as [a|]; [|destruct Ha].
  destruct (UpdateUser new_name deactivated).1 as [b|]; [|destruct Hb].
  destruct (deactivation_undone an_id c new_name seen deactivated renamed a b eq_refl (eq_sym Hzero) (conj Hc Hid)
    Hdrop Hda Hdb) as (row1 & row2 & H1 & Ht & H2 & Hz & _).
  exists row1, row2. exact (conj H1 (conj Ht (conj H2 Hz))).
Defined.
End witnesses.
