(* ===== verification/LmsUsersInv.v ===== *)
(** * The users table as an invariant

    Whatever requests of the learning system run, in any order and with any
    database faults, the users table stays well formed ([users_ok]): rows are
    filed under their own ids, fit their columns, have a user name and an
    e-mail that pass validation and that no other row has, and a parent that
    exists; and the cache keeps users under their own ids. *)

From S2P Require Import Prelude.
From S2P Require Import GoString.
From S2P Require Import GoUtf8.
From S2P Require Import GoRunes.
From S2P Require Import LmsModel.
From S2P Require Import Hashers.
From S2P Require Import PlatUser.
From S2P Require Import CallStore.
From S2P Require Import LmsStore.
From S2P Require Import LmsTables.
From S2P Require Import LmsApp.
From S2P Require Import UserStore.
From S2P Require Import LmsUsers.
From S2P Require Import LmsUsersDemo.
From S2P Require Import LmsUsersProps.

Local Open Scope string_scope.

Section inv.
Context `{UnicodeTables} `{UnicodeLower} `{UserLib} `{CryptoOk} `{Decimal D} `{LmsEnv} `{GoRange}.
Context `{UsersEnv} `{JsonProps J}.

Abbreviation UW := (users_world D).

(** What validation says of the name and the address a user logs in with. *)
Definition login_ok (u : User) : bool :=
  (if IsRemote u then IsValidUsernameAllowRemote (User_Username u) else IsValidUsername (User_Username u)) &&
  (IsRemote u || IsValidEmail (User_Email u)).

Record users_ok (t : gmap string User) : Prop := {
  uo_row : ∀ id u, t !! id = Some u → User_Id u = id ∧ fits_columns u = true ∧ login_ok u = true;
  uo_unique : ∀ i j u v, t !! i = Some u → t !! j = Some v →
    User_Email u = User_Email v ∨ User_Username u = User_Username v → i = j;
  uo_parent : ∀ id u p, t !! id = Some u → User_ParentId u = Some p → is_Some (t !! p);
}.

Definition user_db_ok (w : UW) : Prop :=
  users_ok (us_rows (uw_users w)) ∧ ∀ id u, us_cache (uw_users w) !! id = Some u → User_Id u = id.

Lemma valid_login u : User_IsValid u = None → login_ok u = true.
Proof.
  unfold User_IsValid. rewrite first_error_none, Forall_lookup. intros Hv.
  pose proof (Hv 3%nat _ eq_refl) as Hun%negb_false_iff. pose proof (Hv 4%nat _ eq_refl) as Hem.
  simpl in Hun, Hem. unfold login_ok. rewrite Hun. apply orb_false_iff in Hem as [_ Hem].
  destruct (IsRemote u); [done|]. rewrite andb_true_r in Hem. by apply negb_false_iff in Hem.
Qed.

Lemma login_ok_ext u v :
  User_Username u = User_Username v → User_Email u = User_Email v → User_RemoteId u = User_RemoteId v →
  login_ok u = login_ok v.
Proof. unfold login_ok, IsRemote. by intros -> -> ->. Qed.

(** Writing a row the constraints accept. *)
Lemma users_ok_insert ef t row :
  users_ok t → login_ok row = true → fits_columns row = true → unique_violation ef t row = None →
  constraints_ok t row = true → users_ok (<[User_Id row := row]> t).
Proof.
  intros [Hrow Huniq Hparent] Hl Hf [He Hn]%unique_violation_None [_ Hp]%andb_true_iff.
  rewrite clash_false in He, Hn. split.
  - intros id u [[<- <-]|[_ Hu]]%lookup_insert_Some; [done|by apply Hrow].
  - intros i j u v [[<- <-]|[Hi Hu]]%lookup_insert_Some [[<- <-]|[Hj Hv]]%lookup_insert_Some Heq; [done| | |by eauto].
    + exfalso. destruct Heq; [by eapply (He _ _ Hv)|by eapply (Hn _ _ Hv)].
    + exfalso. destruct Heq; [by eapply (He _ _ Hu)|by eapply (Hn _ _ Hu)].
  - intros id u p [[<- <-]|[_ Hu]]%lookup_insert_Some Hpar.
    + rewrite Hpar in Hp. apply orb_true_iff in Hp as [->%bool_decide_eq_true|Hp%bool_decide_eq_true].
      * by rewrite lookup_insert_eq.
      * apply lookup_insert_is_Some'. by right.
    + apply lookup_insert_is_Some'. right. by eapply Hparent.
Qed.

Lemma orphaned_fields id u :
  User_Id (orphaned id u) = User_Id u ∧ User_Email (orphaned id u) = User_Email u ∧
  User_Username (orphaned id u) = User_Username u ∧ User_RemoteId (orphaned id u) = User_RemoteId u ∧
  User_ParentId (orphaned id u) = if decide (User_ParentId u = Some id) then None else User_ParentId u.
Proof. done. Qed.

Lemma orphaned_fits id u : fits_columns u = true → fits_columns (orphaned id u) = true.
Proof.
  unfold fits_columns. cbn. destruct (decide _); [|done].
  rewrite !andb_true_iff. intuition.
Qed.

Lemma users_ok_delete t id : users_ok t → users_ok (orphaned id <$> delete id t).
Proof.
  intros [Hrow Huniq Hparent].
  assert (∀ i u, (orphaned id <$> delete id t) !! i = Some u → ∃ v, u = orphaned id v ∧ id ≠ i ∧ t !! i = Some v) as Hinv.
  { intros i u. rewrite lookup_fmap. intros (v & Hv & ->)%fmap_Some. apply lookup_delete_Some in Hv as [Hne Hv]. eauto. }
  split.
  - intros i u (v & -> & _ & Hv)%Hinv. apply Hrow in Hv as (Hid & Hf & Hl). split_and!; [done|by apply orphaned_fits|].
    by rewrite (login_ok_ext _ v).
  - intros i j u v (u' & -> & _ & Hu)%Hinv (v' & -> & _ & Hv)%Hinv. exact (Huniq _ _ _ _ Hu Hv).
  - intros i u p (v & -> & _ & Hv)%Hinv. destruct (orphaned_fields id v) as (_ & _ & _ & _ & ->).
    destruct (decide _) as [|Hne]; [done|]. intros Hp. pose proof (Hparent _ _ _ Hv Hp) as [x Hx].
    exists (orphaned id x). rewrite lookup_fmap, lookup_delete_ne, Hx by congruence. done.
Qed.
(** ** Statements *)

#[local] Abbreviation keeps m := (preserves user_db_ok m).

Lemma keeps_same_users {A E} (m : M UW E A) : frames (λ w : UW, uw_users w) m → keeps m.
Proof. intros Hm w [Hr Hc]. unfold user_db_ok. by rewrite (Hm w). Qed.

Lemma keeps_or_throw {A} (m : M UW storeError (res storeError A)) : keeps m → keeps (or_throw m).
Proof. intros Hm. apply preserves_bind; [done|]. intros [a|e]; [apply preserves_ret|apply preserves_throw]. Qed.

Lemma keeps_wrapU {A} c (m : M UW storeError A) : keeps m → keeps (wrapU c m).
Proof. intros Hm w Hw. specialize (Hm w Hw). unfold wrapU. by destruct (m w) as [[]]. Qed.

Lemma keeps_lmsU {A} (m : M (lms_world D) lmsError A) : keeps (lmsU m).
Proof. apply keeps_same_users, lmsU_users. Qed.

Lemma keeps_on_users {A} (f : nat → user_db → A * user_db) :
  (∀ n l d, user_db_ok (UsersWorld l d) → user_db_ok (UsersWorld l (f n d).2)) → keeps (on_users f).
Proof.
  intros Hf [l d] Hw. unfold on_users. simpl. specialize (Hf (lms_ticks l) l d Hw). by destruct (f _ d).
Qed.

Lemma keeps_us_get id : keeps (us_get id).
Proof.
  apply keeps_or_throw, keeps_on_users. intros n l d [Hr Hc]. simpl in Hc. unfold CachedUserStore_Get.
  destruct (if cache_dropped n id then None else us_cache d !! id) as [u|]; [done|].
  assert (∀ i u, delete id (us_cache d) !! i = Some u → User_Id u = i) as Hdel.
  { intros i u [_ Hu]%lookup_delete_Some. by apply Hc. }
  unfold UserStore_Get. simpl. destruct (lms_fault n); [done|].
  destruct (us_rows d !! id) as [u|] eqn:Hu; [|done]. split; [done|]. simpl.
  intros i v [[<- <-]|[_ Hv]]%lookup_insert_Some; [|by apply Hdel]. by apply (uo_row _ Hr) in Hu as [? _].
Qed.

Lemma keeps_us_get_all : keeps us_get_all.
Proof. apply keeps_or_throw, keeps_on_users. done. Qed.

Lemma keeps_us_save u : keeps (us_save u).
Proof.
  apply keeps_on_users. intros n l d [Hr Hc]. destruct (UserStore_Save _ _ _ _ _ _ _ _ _ _) as [[r obj] t] eqn:Hs.
  split; [|done]. simpl. apply UserStore_Save_spec in Hs. destruct r as [saved|e]; [|by destruct Hs as [-> _]].
  destruct Hs as (u' & row & _ & Hv & Hcol & _ & Hu & Hk & _ & ->).
  apply columns_fits in Hcol as Hf. apply columns_fields in Hcol as (Hi & Hn & He & _ & _ & _ & _ & _ & _ & Hrem & _).
  change (User_Id u') with (User_Id (User_with_LastLogin 0 (User_with_Props
    (wrapBinaryParamStringMap false (User_Props u')) u'))). rewrite <-Hi.
  eapply users_ok_insert; [done| |done..]. rewrite (login_ok_ext row u'); [by apply valid_login|done..].
Qed.

Lemma keeps_us_update u : keeps (us_update true u).
Proof.
  apply keeps_or_throw, keeps_on_users. intros n l d [Hr Hc]. destruct (UserStore_Update _ _ _ _ _ _ _ _) as [r t] eqn:Hs.
  split; [|done]. simpl. apply UserStore_Update_spec in Hs. destruct r as [saved|e]; [|by subst].
  destruct Hs as (old & u1 & row & _ & Hv & [= <-] & Hrow & Hf & Hu & Hk & -> & Hid).
  rewrite <-Hid, <-(rf_id _ _ Hrow). eapply users_ok_insert; [done| |done..].
  erewrite (login_ok_ext row); [by apply valid_login|by destruct Hrow..].
Qed.

Lemma keeps_us_delete id : keeps (us_delete id).
Proof.
  intros w [Hr Hc]. unfold us_delete, UserStore_PermanentDelete. destruct (_ || _); [done|].
  split; [|done]. by apply users_ok_delete.
Qed.

(** ** Requests *)

(** The requests to the routes of students, users and leads. *)
Inductive userRequest :=
  | CreateStudentReq (may : bool) (user : option User) (props : option (gmap string J))
  | GetStudentReq (may : bool) (id : string)
  | UpdateStudentReq (may : bool) (id : string) (user : option User) (props : option (gmap string J))
  | DeleteStudentReq (may : bool) (id : string)
  | ConvertibleReq (may : bool)
  | ConvertUserReq (may : bool) (id : string)
  | RevertStudentReq (may : bool) (id : string)
  | UpdateUserReq (may : bool) (self id : string) (user : User)
  | DeleteUserReq (may : bool) (id : string)
  | DeactivateReq (may : bool) (id : string)
  | ReactivateReq (may : bool) (id : string)
  | CreateLeadReq (may : bool) (lead : Lead)
  | UpdateLeadReq (may : bool) (id : string) (lead : Lead)
  | DeleteLeadReq (may : bool) (id : string)
  | ConvertLeadReq (may : bool) (id : string)
  | CreateActivityReq (may : bool) (id : string) (a : LeadActivity).

Definition run_request (r : userRequest) (w : UW) : UW :=
  match r with
  | CreateStudentReq may u p => (createStudent may u p w).2
  | GetStudentReq may id => (getStudent may id w).2
  | UpdateStudentReq may id u p => (updateStudent may id u p w).2
  | DeleteStudentReq may id => (deleteStudent may id w).2
  | ConvertibleReq may => (getConvertibleUsers may w).2
  | ConvertUserReq may id => (convertUserToStudent may id w).2
  | RevertStudentReq may id => (revertStudentToUser may id w).2
  | UpdateUserReq may self id u => (updateUser may self id u w).2
  | DeleteUserReq may id => (deleteUser may id w).2
  | DeactivateReq may id => (deactivateUser may id w).2
  | ReactivateReq may id => (reactivateUser may id w).2
  | CreateLeadReq may l => (createLead may l w).2
  | UpdateLeadReq may id l => (updateLead may id l w).2
  | DeleteLeadReq may id => (deleteLead may id w).2
  | ConvertLeadReq may id => (convertLead may id w).2
  | CreateActivityReq may id a => (createLeadActivity may id a w).2
  end.

Lemma keeps_guarded {A} may (m : M UW lmsError A) : keeps m → keeps (guarded may m).
Proof. intros Hm. destruct may; [done|apply preserves_throw]. Qed.

Lemma keeps_require_id {A} id (m : M UW lmsError A) : keeps m → keeps (require_id id m).
Proof. intros Hm. unfold require_id. destruct (IsValidId id); [done|apply preserves_throw]. Qed.

Lemma keeps_retry tries base r u : keeps (retry_save tries base r u).
Proof.
  revert r u. induction tries as [|n IH]; intros [s|e] u; simpl; try apply preserves_ret; try apply preserves_throw.
  destruct (_ || _); [apply preserves_throw|]. apply preserves_bind; [apply keeps_us_save|]. intros p. apply IH.
Qed.

(** One step of taking a handler apart. *)
Ltac keep_step :=
  match goal with
  | |- keeps (guarded _ _) => apply keeps_guarded
  | |- keeps (require_id _ _) => apply keeps_require_id
  | |- keeps (m_bind _ _) => apply preserves_bind; [|intros ?]
  | |- keeps (m_ret _) => apply preserves_ret
  | |- keeps (m_throw _) => apply preserves_throw
  | |- keeps (failU _ _) => apply preserves_throw
  | |- keeps (m_gets _) => apply preserves_gets
  | |- keeps (m_for _ _) => apply preserves_for; intros ? _
  | |- keeps (wrapU _ _) => apply keeps_wrapU
  | |- keeps (lmsU _) => apply keeps_lmsU
  | |- keeps (us_get _) => apply keeps_us_get
  | |- keeps us_get_all => apply keeps_us_get_all
  | |- keeps (us_save _) => apply keeps_us_save
  | |- keeps (us_update true _) => apply keeps_us_update
  | |- keeps (us_delete _) => apply keeps_us_delete
  | |- keeps (retry_save _ _ _ _) => apply keeps_retry
  | |- keeps (match ?x with _ => _ end) => destruct x
  end.

Lemma run_request_ok (r : userRequest) (w : UW) : user_db_ok w → user_db_ok (run_request r w).
Proof.
  intros Hw.
  assert (∀ A (m : M UW lmsError A), keeps m → user_db_ok (m w).2) as Hk by (intros A m Hm; by apply Hm).
  destruct r; apply Hk.
  - unfold createStudent, CreateStudent, saveStudentWithUniqueUsername. repeat keep_step.
  - unfold getStudent, GetStudent. repeat keep_step.
  - unfold updateStudent, UpdateStudent. repeat keep_step.
  - unfold deleteStudent, DeleteStudent. repeat keep_step.
  - unfold getConvertibleUsers, GetConvertibleUsers. repeat keep_step.
  - unfold convertUserToStudent, ConvertUserToStudent. repeat keep_step.
  - unfold revertStudentToUser, RevertStudentToUser. repeat keep_step.
  - unfold updateUser, UpdateUser. repeat keep_step.
  - unfold deleteUser, DeleteUser. repeat keep_step.
  - unfold deactivateUser, DeactivateUser, set_active. repeat keep_step.
  - unfold reactivateUser, ReactivateUser, set_active. repeat keep_step.
  - unfold createLead, CreateLead. repeat keep_step.
  - unfold updateLead, UpdateLead. repeat keep_step.
  - unfold deleteLead, DeleteLead. repeat keep_step.
  - unfold convertLead, ConvertLeadToStudent, GetLead. repeat keep_step.
  - unfold createLeadActivity, CreateLeadActivity. repeat keep_step.
Qed.

(** The users table stays well formed.  Whatever requests of students,
    users and leads run, with any permissions, bodies and database faults, rows
    stay under their ids, within their columns, with a valid user name and
    e-mail that no other row has, and with parents that exist. *)
Theorem requests_keep_users (rs : list userRequest) (w : UW) :
  user_db_ok w → user_db_ok (foldl (λ w r, run_request r w) w rs).
Proof.
  revert w. induction rs as [|r rs IH]; intros w Hw; [exact Hw|]. by apply IH, run_request_ok.
Qed.

(** ** Roles *)

Lemma us_get_inv id (w w' : UW) r :
  user_db_ok w → us_get id w = (r, w') →
  us_rows (uw_users w') = us_rows (uw_users w) ∧ match r with Ok u => User_Id u = id | Err _ => True end.
Proof.
  intros [Hr Hc] Hrun. unfold us_get, or_throw in Hrun.
  apply bind_inv in Hrun as [(res & w1 & Hs & Hrun)|(e & Hs & ->)].
  2: { unfold on_users in Hs. by destruct (CachedUserStore_Get _ _ _ _). }
  assert (r = res ∧ w' = w1) as [-> ->] by (by destruct res; injection Hrun as <- <-). clear Hrun.
  unfold on_users, CachedUserStore_Get in Hs.
  destruct (if cache_dropped _ id then None else us_cache (uw_users w) !! id) as [u|] eqn:Hcache.
  { injection Hs as <- <-. split; [done|]. apply Hc. by destruct (cache_dropped _ id). }
  unfold UserStore_Get in Hs. simpl in Hs. destruct (lms_fault _); [by injection Hs as <- <-|].
  destruct (us_rows (uw_users w) !! id) as [u|] eqn:Hu; injection Hs as <- <-; [|done].
  split; [done|]. by apply (uo_row _ Hr) in Hu as [? _].
Qed.

Lemma nf_or_status nf id e : le_status (nf_or nf id e) = 404%Z ∨ le_status (nf_or nf id e) = 500%Z.
Proof. unfold nf_or. destruct (IsErrNotFound e); eauto. Qed.

(** An update of a student over the route: either nothing is stored, or the
    row of the id with the roles of the body and the old parent. *)
Lemma UpdateStudent_roles id u (w w' : UW) r :
  user_db_ok w → User_Roles u ≠ "" → UpdateStudent (J:=J) (Some (User_with_Id id u)) None w = (r, w') →
  match r with
  | Err e => (le_status e = 404%Z ∨ le_status e = 500%Z) ∧ us_rows (uw_users w') = us_rows (uw_users w)
  | Ok _ => ∃ old row, us_rows (uw_users w) !! id = Some old ∧
      us_rows (uw_users w') = <[id := row]> (us_rows (uw_users w)) ∧
      User_Roles row = User_Roles u ∧ User_ParentId row = User_ParentId old
  end.
Proof.
  intros Hok Hne Hrun. unfold UpdateStudent in Hrun.
  apply bind_inv in Hrun as [(c & w1 & Hg & Hrun)|(e & Hg & ->)];
    apply wrapU_inv in Hg as (r0 & Hg & Hr0); apply us_get_inv in Hg as [Hrows Hid]; try done.
  2: { split; [|done]. destruct r0; [done|]. injection Hr0 as ->. apply nf_or_status. }
  destruct r0 as [c'|]; [|done]. injection Hr0 as ->. simpl in Hid. cbn [m_bind m_gets] in Hrun.
  apply wrapU_inv in Hrun as (r1 & Hu & ->). apply us_update_inv in Hu as (_ & _ & _ & ef & now & nanos & Hu).
  apply UserStore_Update_spec in Hu. destruct r1 as [s|e]; [|split; [apply nf_or_status|by rewrite Hu]].
  destruct Hu as (old & u1 & row & Hold & _ & [= <-] & Hrow & _ & _ & _ & Ht & _).
  rewrite Hrows in *. change (User_Id (merge_student ?a ?b ?n)) with (User_Id a) in *. rewrite Hid in *.
  exists old, row. split_and!; [done|done| |by destruct Hrow].
  rewrite (rf_roles _ _ Hrow). simpl. destruct (PreUpdate_fields now nanos (merge_student c' (User_with_Id id u)
    (lms_clock (lms_ticks (uw_lms w1))))) as (_ & _ & -> & _). simpl. unfold or_else. by rewrite decide_False.
Qed.

(** The student route sets any role on any account.  updateUser refuses to
    change the roles of the user who sends the request; updateStudent checks
    neither that nor that the account is a student's: whoever may manage
    students can store the roles of the body for every id, their own and
    system_admin included.  A parent in the body is never stored. *)
Theorem student_route_sets_roles id u (w w' : UW) saved :
  user_db_ok w → User_Roles u ≠ "" → updateStudent true id (Some u) None w = (Ok saved, w') →
  (∃ old row, us_rows (uw_users w) !! id = Some old ∧ us_rows (uw_users w') = <[id := row]> (us_rows (uw_users w)) ∧
     User_Roles row = User_Roles u ∧ User_ParentId row = User_ParentId old) ∧
  ∀ w0 : UW, updateUser true id id u w0 = (Err (LmsError "api.lms.update_user.self_role.app_error" 403 None), w0).
Proof.
  intros Hok Hne Hrun. unfold updateStudent, updateUser, guarded, require_id in *.
  destruct (IsValidId id); [|done]. split; [|by intros w0; rewrite decide_True].
  by apply UpdateStudent_roles in Hrun.
Qed.

End inv.

(** ** The theorems at a concrete school *)

Section witnesses.
Import School.
#[local] Existing Instance cents.

Lemma nobody_ok : user_db_ok nobody.
Proof. split; [split|]; by intros ?. Qed.

Lemma getStudent_ok may id (w : users_world Z) : user_db_ok w → user_db_ok (getStudent may id w).2.
Proof. exact (run_request_ok (J:=string) (GetStudentReq may id) w). Qed.

Lemma createStudent_ok may u p (w : users_world Z) : user_db_ok w → user_db_ok (createStudent (J:=string) may u p w).2.
Proof. exact (run_request_ok (CreateStudentReq may u p) w). Qed.

Lemma seen_ok : user_db_ok seen.
Proof. exact (getStudent_ok _ _ _ (createStudent_ok true (Some an) None nobody nobody_ok)). Qed.

(** A student is created, promoted and deleted again. *)
Lemma requests_keep_users_witness :
  user_db_ok (foldl (λ w r, run_request r w) nobody
    [CreateStudentReq true (Some an) None; UpdateStudentReq true an_id (Some promotion) None;
     DeleteStudentReq true an_id]).
Proof. apply (requests_keep_users (J:=string)). exact nobody_ok. Defined.

(** The student becomes a system administrator, even by their own request. *)
Lemma student_route_sets_roles_witness :
  ∃ row, us_rows (uw_users (updateStudent (J:=string) true an_id (Some promotion) None seen).2) !! an_id = Some row ∧
    User_Roles row = "system_admin".
Proof.
  assert (match (updateStudent (J:=string) true an_id (Some promotion) None seen).1 with Ok _ => True | Err _ => False end)
    as Hok by (vm_compute; exact I).
  pose proof (surjective_pairing (updateStudent (J:=string) true an_id (Some promotion) None seen)) as Hp.
  assert (User_Roles promotion ≠ "") as Hne by discriminate.
  destruct (updateStudent (J:=string) true an_id (Some promotion) None seen).1 as [saved|]; [|destruct Hok].
  destruct (student_route_sets_roles (J:=string) an_id promotion seen _ saved seen_ok Hne Hp)
    as [(old & row & _ & Hrows & Hro & _) _].
  exists row. rewrite Hrows, lookup_insert_eq. exact (conj eq_refl Hro).
Defined.
End witnesses.
