(* ===== verification/LmsPublic.v ===== *)
(** * Forgotten passwords and the public routes (app/lms/public.go, api4/lms_api/public.go)

    The token of a reset lives in the props of the user, with the time it
    expires as an RFC 3339 text in the server's time zone.  The clock counts
    milliseconds since 1970.  The zone of the server is the parameter
    [ServerZone]. *)

From Stdlib Require Import Ascii.
From stdpp Require Import strings.
From S2P Require Import Prelude.
From S2P Require Import GoString.
From S2P Require Import GoUtf8.
From S2P Require Import GoRunes.
From S2P Require Import GoTime.
From S2P Require Import LmsModel.
From S2P Require Import Hashers.
From S2P Require Import PlatUser.
From S2P Require Import CallStore.
From S2P Require Import LmsStore.
From S2P Require Import LmsTables.
From S2P Require Import LmsApp.
From S2P Require Import LmsColumns.
From S2P Require Import LmsQuery.
From S2P Require Import LmsContent.
From S2P Require Import UserStore.
From S2P Require Import LmsUsers.

Local Open Scope string_scope.
Local Open Scope go_scope.

(** The offset of the server's zone at an instant, in seconds east of UTC. *)
Class ServerZone := { zone_offset : Z → Z }.

(** Zones of today: whole minutes, less than a day. *)
Class ServerZoneOk `{ServerZone} := {
  zone_minutes : ∀ t, (zone_offset t mod 60 = 0)%Z;
  zone_bound : ∀ t, (Z.abs (zone_offset t) < day)%Z;
}.

(** [hex.EncodeToString]. *)
Definition hex_digit (z : Z) : ascii := if (z <? 10)%Z then digit_char z else chr (Z.to_N (87 + z)).

Fixpoint hex_encode (s : string) : string :=
  match s with
  | "" => ""
  | String c s => let z := Z.of_N (ord c) in String (hex_digit (z / 16)) (String (hex_digit (z mod 16)) (hex_encode s))
  end.

Definition reset_token : string := "reset_token".
Definition reset_token_expiry : string := "reset_token_expiry".

(** A props entry; [u.Props[key]] of a missing key is the empty string. *)
Definition prop (u : User) (key : string) : string := default "" (User_Props u !! key).

(** [storedToken == token && storedExpiry != ""] *)
Definition holds_token (token : string) (u : User) : bool :=
  String.eqb (prop u reset_token) token && negb (empty (prop u reset_token_expiry)).

(** Nanoseconds since 0001-01-01 of a clock reading and of a parsed time. *)
Definition clock_nanos (now : Z) : Z := ((unix_epoch * 1000 + now) * 1000000)%Z.
Definition time_nanos (p : Z * Z) : Z := (p.1 * 1000000000 + p.2)%Z.

(** [time.Now().Add(1 * time.Hour).Unix()], as seconds since 0001-01-01. *)
Definition hour_from (now : Z) : Z := (unix_epoch + (now + 3600000) / 1000)%Z.

Section public.
Context `{UnicodeTables} `{UnicodeLower} `{UserLib} `{Crypto} `{Decimal D} `{LmsEnv} `{GoRange}.
Context `{UsersEnv} `{ServerZone}.

Abbreviation US := (M (users_world D) storeError).
Abbreviation UM := (M (users_world D) lmsError).

Definition us_get_by_email (email : string) : US User :=
  or_throw (on_users (λ n d, (UserStore_GetByEmail (lms_fault n) d email, d))).

Definition read_clock_ms {E} : M (users_world D) E Z := m_gets (λ w, lms_clock (lms_ticks (uw_lms w))).

(** ** SendPasswordReset *)

Definition with_token (token : string) (now : Z) (u : User) : User :=
  let expiry := hour_from now in
  User_with_Props (<[reset_token_expiry := format_rfc3339 (zone_offset expiry) expiry]>
    (<[reset_token := token]> (User_Props u))) u.

Definition send_token (user : User) : UM string :=
  b <- m_gets (λ w, rand_bytes (lms_ticks (uw_lms w)) 32) ;;
  match b with
  | None => failU "app.lms.public.generate_token.app_error" 500
  | Some b =>
      now <- read_clock_ms ;;
      let token := hex_encode b in
      wrapU (internalU "app.lms.public.update_user.app_error") (us_update false (with_token token now user)) ;;;
      m_ret token
  end.

(** An unknown address is no error: the token is empty. *)
Definition SendPasswordReset (email : string) : UM string := λ w,
  match us_get_by_email email w with
  | (Ok user, w') => send_token user w'
  | (Err e, w') =>
      if IsErrNotFound e then (Ok "", w')
      else (Err (internalU "app.lms.public.send_password_reset.app_error" e), w')
  end.

(** ** VerifyResetToken *)

Definition find_token (token : string) (users : list User) : option User :=
  List.find (holds_token token) users.

Definition VerifyResetToken (token : string) : UM bool :=
  if empty token then m_ret false
  else
  users <- wrapU (internalU "app.lms.public.get_users.app_error") us_get_all ;;
  match find_token token users with
  | None => m_ret false
  | Some u =>
      match parse_rfc3339 (prop u reset_token_expiry) with
      | None => m_ret false
      | Some expiry => now <- read_clock_ms ;; m_ret (clock_nanos now <? time_nanos expiry)%Z
      end
  end.

(** ** ResetPassword *)

Definition with_new_password (newPassword : string) (u : User) : User :=
  User_with_Password newPassword
    (User_with_Props (delete reset_token_expiry (delete reset_token (User_Props u))) u).

Definition ResetPassword (token newPassword : string) : UM unit :=
  if empty token || empty newPassword then failU "app.lms.public.reset_password.missing.app_error" 400
  else
  users <- wrapU (internalU "app.lms.public.get_users.app_error") us_get_all ;;
  match find_token token users with
  | None => failU "app.lms.public.reset_password.invalid_token.app_error" 400
  | Some u =>
      now <- read_clock_ms ;;
      match parse_rfc3339 (prop u reset_token_expiry) with
      | Some expiry =>
          if (time_nanos expiry <? clock_nanos now)%Z then failU "app.lms.public.reset_password.expired.app_error" 400
          else
          wrapU (internalU "app.lms.public.update_password.app_error")
            (us_update false (with_new_password newPassword u)) ;;; m_ret tt
      | None => failU "app.lms.public.reset_password.expired.app_error" 400
      end
  end.

(** ** The routes of public.go; [None] is a body that is not JSON *)

(** The token is not part of the answer, and nothing sends it. *)
Definition forgotPassword (email : option string) : UM unit :=
  match email with
  | None => failU "api.lms.public.forgot_password.bad_body.app_error" 400
  | Some email =>
      if empty email then failU "api.lms.public.forgot_password.missing_email.app_error" 400
      else SendPasswordReset email ;;; m_ret tt
  end.

Definition resetPassword (body : option (string * string)) : UM unit :=
  match body with
  | None => failU "api.lms.public.reset_password.bad_body.app_error" 400
  | Some (token, password) => ResetPassword token password
  end.

Definition verifyResetToken (token : string) : UM bool := VerifyResetToken token.

Definition getPublicCourses `{Collation} : UM (list (Course D)) := lmsU GetPublicCourses.
Definition getPublicPosts : UM (list BlogPost) := lmsU GetPublicPosts.

Definition publicRegister (body : option Lead) : UM Lead :=
  match body with
  | None => failU "api.lms.public.register.bad_body.app_error" 400
  | Some lead => lmsU (PublicRegister lead)
  end.

(** Name, e-mail, phone and message. *)
Definition publicContact (body : option (string * string * string * string)) : UM Lead :=
  match body with
  | None => failU "api.lms.public.contact.bad_body.app_error" 400
  | Some (name, email, phone, message) =>
      if empty name || empty message then failU "api.lms.public.contact.missing_fields.app_error" 400
      else lmsU (SubmitContact name email phone message)
  end.
End public.
