(* ===== verification/LmsPublicProps.v ===== *)
(** * Properties of the password reset

    A token is good for one hour and for one use; no reset ever changes a
    password. *)

From Stdlib Require Import Ascii.
From S2P Require Import Prelude.
From S2P Require Import GoString.
From S2P Require Import GoUtf8.
From S2P Require Import GoRunes.
From S2P Require Import GoTime.
From S2P Require Import LmsModel.
From S2P Require Import PhcParser.
From S2P Require Import Hashers.
From S2P Require Import PlatUser.
From S2P Require Import CallStore.
From S2P Require Import LmsStore.
From S2P Require Import LmsTables.
From S2P Require Import LmsApp.
From S2P Require Import UserStore.
From S2P Require Import LmsUsers.
From S2P Require Import LmsUsersDemo.
From S2P Require Import LmsUsersProps.
From S2P Require Import LmsPublic.

Local Open Scope string_scope.

Section props.
Context `{UnicodeTables} `{UnicodeLower} `{UserLib} `{CryptoOk} `{Decimal D} `{LmsEnv} `{GoRange}.
Context `{UsersEnv} `{ServerZoneOk}.

Abbreviation UW := (users_world D).
Abbreviation rows w := (us_rows (uw_users w)).

(** The passwords of all accounts. *)
Definition passwords (w : UW) : gmap string string := User_Password <$> rows w.

(** Rows are filed under their ids. *)
Definition filed (t : gmap string User) : Prop := ∀ id u, t !! id = Some u → User_Id u = id.

(** ** Steps *)

(** A statement on the users is one effect. *)
Lemma or_throw_on_users {A} (f : nat → user_db → res storeError A * user_db) (w w' : UW) r :
  or_throw (on_users f) w = (r, w') →
  f (lms_ticks (uw_lms w)) (uw_users w) = (r, uw_users w') ∧ uw_lms w' = tick (uw_lms w).
Proof.
  unfold or_throw, on_users, m_bind. destruct (f _ _) as [[a|e] d]; intros [= <- <-]; done.
Qed.

Lemma us_get_all_inv (w w' : UW) r :
  us_get_all w = (r, w') →
  r = UserStore_GetAll (lms_fault (lms_ticks (uw_lms w))) (uw_users w) ∧ uw_users w' = uw_users w ∧
  uw_lms w' = tick (uw_lms w).
Proof. intros [Hf Ht]%or_throw_on_users. by injection Hf as <- <-. Qed.

Lemma elem_of_range_rows {X} (t : gmap string X) x : x ∈ (go_range t).*2 ↔ ∃ id, t !! id = Some x.
Proof.
  rewrite list_elem_of_fmap. split.
  - intros ([id y] & -> & Hin%elem_of_go_range). by exists id.
  - intros [id Hin]. exists (id, x). split; [done|]. by apply elem_of_go_range.
Qed.

(** What is found by its token is a row of the table. *)
Lemma find_token_row token d users u :
  UserStore_GetAll false d = Ok users → find_token token users = Some u →
  ∃ id row, us_rows d !! id = Some row ∧ u = with_bot (us_bots d) row ∧ holds_token token row = true.
Proof.
  intros [= <-] [Hin Hh]%List.find_some. apply list_elem_of_In, list_elem_of_fmap in Hin as (row & -> & Hin).
  apply elem_of_range_rows in Hin as [id Hin]. by exists id, row.
Qed.

(** ** Nothing changes a password *)

Lemma us_update_passwords tr u (w w' : UW) r : us_update tr u w = (r, w') → passwords w' = passwords w.
Proof.
  intros (_ & _ & _ & ef & now & nanos & Hu)%us_update_inv. apply UserStore_Update_spec in Hu.
  unfold passwords. destruct r as [saved|]; [|by rewrite Hu].
  destruct Hu as (old & u1 & row & Hold & _ & Hm & Hrow & _ & _ & _ & -> & _).
  apply merged_keeps in Hm as [Hpw _]. rewrite fmap_insert, (rf_password _ _ Hrow), Hpw.
  apply insert_id. by rewrite lookup_fmap, Hold.
Qed.

(** What an update without faults stores under the id of the object. *)
Lemma us_update_props tr u (w w' : UW) saved :
  us_update tr u w = (Ok saved, w') →
  ∃ old row, rows w !! User_Id u = Some old ∧ rows w' = <[User_Id u := row]> (rows w) ∧
    User_Id row = User_Id u ∧
    ∀ k, k ≠ BinaryParamKey → k ≠ UserPropsKeyCustomStatus → User_Props row !! k = User_Props u !! k.
Proof.
  intros (_ & _ & _ & ef & now & nanos & Hu)%us_update_inv. apply UserStore_Update_spec in Hu.
  destruct Hu as (old & u1 & row & Hold & _ & Hm & Hrow & _ & _ & _ & Heq & Hid).
  exists old, row. split_and!; [done|done|by rewrite (rf_id _ _ Hrow)|].
  intros k Hb Hc. apply merged_keeps in Hm as [_ Hp]. rewrite (rf_props _ _ Hrow k Hb), Hp. by apply PreUpdate_props.
Qed.

Lemma reset_keys :
  reset_token ≠ BinaryParamKey ∧ reset_token ≠ UserPropsKeyCustomStatus ∧
  reset_token_expiry ≠ BinaryParamKey ∧ reset_token_expiry ≠ UserPropsKeyCustomStatus ∧
  reset_token_expiry ≠ reset_token.
Proof. done. Qed.

(** A reset that gets as far as the update. *)
Lemma ResetPassword_inv token newPassword (w w' : UW) r :
  ResetPassword token newPassword w = (r, w') →
  (rows w' = rows w ∧ ∃ e, r = Err e) ∨
  ∃ users u w1 r1, UserStore_GetAll false (uw_users w) = Ok users ∧ find_token token users = Some u ∧
    uw_users w1 = uw_users w ∧ us_update false (with_new_password newPassword u) w1 = (r1, w') ∧
    (r = Ok tt → ∃ saved, r1 = Ok saved).
Proof.
  unfold ResetPassword. destruct (_ || _); [intros [= <- <-]; left; eauto|]. intros Hrun.
  apply bind_inv in Hrun as [(users & w1 & Hall & Hrun)|(e & Hall & ->)];
    apply wrapU_inv in Hall as (r0 & Hall & Hr0);
    apply us_get_all_inv in Hall as (Hr & Hu & _).
  2: { left. rewrite Hu. eauto. }
  destruct r0 as [users0|]; [|done]. injection Hr0 as ->.
  assert (UserStore_GetAll false (uw_users w) = Ok users0) as Hget.
  { revert Hr. unfold UserStore_GetAll. by destruct (lms_fault _). }
  destruct (find_token token users0) as [u|] eqn:Hf; [|injection Hrun as <- <-; left; rewrite Hu; eauto].
  apply bind_inv in Hrun as [(now & w2 & Hnow & Hrun)|(e & Hnow & _)]; [|done].
  injection Hnow as <- <-.
  destruct (parse_rfc3339 _) as [expiry|]; [|injection Hrun as <- <-; left; rewrite Hu; eauto].
  destruct (_ <? _)%Z; [injection Hrun as <- <-; left; rewrite Hu; eauto|].
  right. apply bind_inv in Hrun as [(saved & w3 & Hup & Hrun)|(e & Hup & ->)];
    apply wrapU_inv in Hup as (r1 & Hup & Hr1).
  - injection Hrun as <- <-. exists users0, u, w1, r1. split_and!; try done. intros _.
    destruct r1; [eauto|done].
  - exists users0, u, w1, r1. by split_and!.
Qed.

(** Whatever the request, every account keeps the password it had. *)
Lemma ResetPassword_passwords token newPassword (w : UW) : passwords (ResetPassword token newPassword w).2 = passwords w.
Proof.
  destruct (ResetPassword token newPassword w) as [r w'] eqn:Hrun.
  apply ResetPassword_inv in Hrun as [(Heq & _)|(users & u & w1 & r1 & _ & _ & Hw1 & Hup & _)]; unfold passwords; cbn [snd].
  - by rewrite Heq.
  - apply us_update_passwords in Hup. unfold passwords in Hup. by rewrite Hup, Hw1.
Qed.

(** A reset that reports success has taken the token away from the account
    that held it, and done nothing else. *)
Lemma ResetPassword_done token newPassword (w w' : UW) :
  filed (rows w) → ResetPassword token newPassword w = (Ok tt, w') →
  ∃ users id old row, UserStore_GetAll false (uw_users w) = Ok users ∧
    find_token token users = Some (with_bot (us_bots (uw_users w)) old) ∧ rows w !! id = Some old ∧
    rows w' = <[id := row]> (rows w) ∧ User_Props row !! reset_token = None ∧ User_Props row !! reset_token_expiry = None.
Proof.
  intros Hfiled [[_ (e & ?)]|(users & u & w1 & r1 & Hget & Hf & Hw1 & Hup & Hok)]%ResetPassword_inv; [done|].
  destruct (Hok eq_refl) as [saved ->]. apply us_update_props in Hup as (old & row & Hold & Hrows & Hid & Hp).
  destruct (find_token_row _ _ _ _ Hget Hf) as (id & row0 & Hrow0 & -> & Hh).
  assert (User_Id (with_new_password newPassword (with_bot (us_bots (uw_users w)) row0)) = id) as Hn
    by exact (Hfiled _ _ Hrow0).
  rewrite Hn in *. destruct reset_keys as (K1 & K2 & K3 & K4 & K5).
  exists users, id, row0, row. rewrite Hrows, Hw1. split_and!; try done; rewrite Hp by done; cbn.
  - by rewrite lookup_delete_ne, lookup_delete_eq.
  - by rewrite lookup_delete_eq.
Qed.

(** ** The hour of a token *)

(** The account of an address. *)
Lemma GetByEmail_row f d email u :
  UserStore_GetByEmail f d email = Ok u →
  ∃ id row, us_rows d !! id = Some row ∧ u = with_bot (us_bots d) row ∧ User_Email row = sql_lower email.
Proof.
  unfold UserStore_GetByEmail. destruct f; [done|]. destruct (users_where _ d) as [|v l] eqn:Hl; [done|].
  intros [= ->]. assert (u ∈ users_where (λ u, bool_decide (User_Email u = sql_lower email)) d) as Hin by (rewrite Hl; constructor).
  unfold users_where in Hin.
  apply list_elem_of_fmap in Hin as (row & -> & [Hem%bool_decide_eq_true Hin]%list_elem_of_filter).
  apply elem_of_range_rows in Hin as [id Hin]. by exists id, row.
Qed.

(** The clock a request reads after its first statement. *)
Definition clock_after_read (w : UW) : Z := lms_clock (S (S (S (lms_ticks (uw_lms w))))).

(** A token that was handed out is on file, with its hour, at the account of
    the address. *)
Lemma SendPasswordReset_stored email token (w w' : UW) :
  filed (rows w) → SendPasswordReset email w = (Ok token, w') → token ≠ "" →
  let expiry := hour_from (clock_after_read w) in
  ∃ id old row, rows w !! id = Some old ∧ User_Email old = sql_lower email ∧ rows w' = <[id := row]> (rows w) ∧
    User_Id row = id ∧ User_Password row = User_Password old ∧ prop row reset_token = token ∧
    prop row reset_token_expiry = format_rfc3339 (zone_offset expiry) expiry.
Proof.
  intros Hfiled Hrun Hne. unfold SendPasswordReset in Hrun.
  destruct (us_get_by_email email w) as [[user|e] w1] eqn:Hget; [|by destruct (IsErrNotFound e); simplify_eq].
  apply or_throw_on_users in Hget as [Hget Ht]. injection Hget as Hget Hu.
  apply GetByEmail_row in Hget as (id & old & Hold & -> & Hem).
  assert (User_Id (with_bot (us_bots (uw_users w)) old) = id) as Hid by exact (Hfiled _ _ Hold).
  unfold send_token in Hrun. apply bind_inv in Hrun as [(b & w2 & Hb & Hrun)|(e & Hb & _)]; [|done].
  injection Hb as Hb <-. destruct b as [b|]; [|done].
  apply bind_inv in Hrun as [(now & w2 & Hnow & Hrun)|(e & Hnow & _)]; [|done]. injection Hnow as Hnow <-.
  apply bind_inv in Hrun as [(saved & w3 & Hup & Hrun)|(e & Hup & ?)]; [|done].
  unfold m_ret in Hrun. injection Hrun as <- <-. apply wrapU_inv in Hup as (r1 & Hup & Hr1). destruct r1 as [saved1|]; [|done].
  apply us_update_passwords in Hup as Hpws.
  apply us_update_props in Hup as (old' & row & _ & Hrows & Hrid & Hp).
  change (User_Id (with_token (hex_encode b) now (with_bot (us_bots (uw_users w)) old)))
    with (User_Id (with_bot (us_bots (uw_users w)) old)) in *. rewrite Hid in *.
  unfold clock_after_read. rewrite <- Hu in *.
  assert (lms_clock (S (S (S (lms_ticks (uw_lms w))))) = now) as Hclock by (rewrite <- Hnow, Ht; done).
  rewrite Hclock. destruct reset_keys as (K1 & K2 & K3 & K4 & K5).
  exists id, old, row. split_and!; try done.
  - unfold passwords in Hpws. rewrite Hrows in Hpws. apply (f_equal (lookup id)) in Hpws.
    rewrite <- Hu, !lookup_fmap, lookup_insert_eq, Hold in Hpws. by injection Hpws.
  - unfold prop. rewrite Hp by done. cbn. by rewrite lookup_insert_ne, lookup_insert_eq.
  - unfold prop. rewrite Hp by done. cbn. by rewrite lookup_insert_eq.
Qed.

(** Only that account holds the token. *)
Lemma find_stored_token token id row t bots c i :
  let d := UserDB (<[id := row]> t) bots c i in
  prop row reset_token = token → prop row reset_token_expiry ≠ "" →
  (∀ j u, t !! j = Some u → prop u reset_token ≠ token) →
  ∃ users, UserStore_GetAll false d = Ok users ∧ find_token token users = Some (with_bot bots row).
Proof.
  intros d Ht He Hfresh. eexists. split; [done|].
  assert (holds_token token row = true) as Hh.
  { unfold holds_token, empty. rewrite Ht, String.eqb_refl. cbn. by apply negb_true_iff, bool_decide_eq_false. }
  destruct (find_token token (with_bot (us_bots d) <$> (go_range (us_rows d)).*2)) as [u|] eqn:Hf.
  - destruct (find_token_row token d _ u eq_refl Hf) as (j & row' & Hj & -> & Hh'). f_equal. cbn in Hj |- *. f_equal.
    destruct (decide (j = id)) as [->|Hne]; [rewrite lookup_insert_eq in Hj; congruence|].
    rewrite lookup_insert_ne in Hj by done. exfalso. apply (Hfresh _ _ Hj).
    unfold holds_token in Hh'. apply andb_true_iff in Hh' as [Hh' _]. by apply String.eqb_eq in Hh'.
  - exfalso. assert (holds_token token (with_bot bots row) = false) as Hn; [|by change (holds_token token row = false) in Hn; congruence].
    apply (List.find_none _ _ Hf), list_elem_of_In, list_elem_of_fmap. exists row. split; [done|].
    apply elem_of_range_rows. exists id. apply lookup_insert_eq.
Qed.

(** The second in which the hour of a token ends, in milliseconds. *)
Definition end_of_hour (now : Z) : Z := ((now + 3600000) / 1000 * 1000)%Z.

(** What a request that presents a handed out token finds. *)
Lemma issued_token email token (w w1 : UW) :
  filed (rows w) → (∀ id u, rows w !! id = Some u → prop u reset_token ≠ token) → token ≠ "" →
  SendPasswordReset email w = (Ok token, w1) →
  let now := clock_after_read w in
  four_digits ((hour_from now + zone_offset (hour_from now)) / day)%Z →
  ∃ id old row users expiry, rows w !! id = Some old ∧ User_Email old = sql_lower email ∧
    rows w1 = <[id := row]> (rows w) ∧ User_Id row = id ∧ User_Password row = User_Password old ∧
    UserStore_GetAll false (uw_users w1) = Ok users ∧
    find_token token users = Some (with_bot (us_bots (uw_users w1)) row) ∧
    parse_rfc3339 (prop (with_bot (us_bots (uw_users w1)) row) reset_token_expiry) = Some expiry ∧
    time_nanos expiry = clock_nanos (end_of_hour now).
Proof.
  intros Hfiled Hfresh Hne Hsend now Hy.
  destruct (SendPasswordReset_stored _ _ _ _ Hfiled Hsend Hne) as (id & old & row & Hold & Hem & Hrows & Hid & Hpw & Ht & He).
  fold now in He. destruct (uw_users w1) as [t bots c i] eqn:Hw1. cbn in Hrows. subst t.
  destruct (find_stored_token token id row (rows w) bots c i Ht) as (users & Hget & Hfind);
    [rewrite He; apply format_rfc3339_nonempty|done|].
  exists id, old, row, users. change (prop (with_bot _ row) reset_token_expiry) with (prop row reset_token_expiry).
  rewrite He, parse_format_rfc3339; [|apply zone_minutes|apply zone_bound|done].
  eexists. split_and!; try done. unfold time_nanos, clock_nanos, hour_from, end_of_hour. cbn [fst snd]. generalize ((now + 3600000) / 1000)%Z. intros k. lia.
Qed.

(** A token is good for an hour.  When SendPasswordReset hands out a token
    that nobody had, and the accounts stay as they are, VerifyResetToken
    accepts it exactly while the clock is before the second in which the hour
    ends. *)
Theorem token_lives_an_hour email token (w w1 w2 : UW) :
  filed (rows w) → (∀ id u, rows w !! id = Some u → prop u reset_token ≠ token) → token ≠ "" →
  SendPasswordReset email w = (Ok token, w1) → uw_users w2 = uw_users w1 →
  let now := clock_after_read w in
  four_digits ((hour_from now + zone_offset (hour_from now)) / day)%Z →
  lms_fault (lms_ticks (uw_lms w2)) = false →
  (VerifyResetToken token w2).1 = Ok (clock_after_read w2 <? end_of_hour now)%Z.
Proof.
  intros Hfiled Hfresh Hne Hsend Hw2 now Hy Hf.
  destruct (issued_token _ _ _ _ Hfiled Hfresh Hne Hsend Hy)
    as (id & old & row & users & expiry & _ & _ & _ & _ & _ & Hget & Hfind & Hpar & Hend).
  unfold VerifyResetToken, empty. rewrite bool_decide_eq_false_2 by done.
  unfold m_bind, wrapU, us_get_all, or_throw, on_users, m_bind. rewrite Hw2, Hf, Hget. cbn.
  rewrite Hfind, Hpar. cbn. rewrite Hend. fold (clock_after_read w2). unfold clock_nanos. f_equal.
  subst now. destruct (Z.ltb_spec (clock_after_read w2) (end_of_hour (clock_after_read w))); [apply Z.ltb_lt|apply Z.ltb_ge]; lia.
Qed.

(** The world a request reads the users of. *)
Definition after_read (w : UW) : UW := UsersWorld (tick (uw_lms w)) (uw_users w).

(** A reset of a token somebody holds is refused when its hour is over, and
    otherwise is the update of that account. *)
Lemma ResetPassword_run token newPassword (w : UW) users u expiry :
  token ≠ "" → newPassword ≠ "" → lms_fault (lms_ticks (uw_lms w)) = false →
  UserStore_GetAll false (uw_users w) = Ok users → find_token token users = Some u →
  parse_rfc3339 (prop u reset_token_expiry) = Some expiry →
  ResetPassword token newPassword w =
    if (time_nanos expiry <? clock_nanos (clock_after_read w))%Z
    then (Err (LmsError "app.lms.public.reset_password.expired.app_error" 400 None), after_read w)
    else match us_update false (with_new_password newPassword u) (after_read w) with
         | (Ok _, w') => (Ok tt, w')
         | (Err e, w') => (Err (internalU "app.lms.public.update_password.app_error" e), w')
         end.
Proof.
  intros Ht Hp Hf Hget Hfind Hpar. unfold ResetPassword, empty.
  rewrite (bool_decide_eq_false_2 (token = "")), (bool_decide_eq_false_2 (newPassword = "")) by done. cbn [orb].
  unfold m_bind at 1, wrapU at 1, us_get_all, or_throw, on_users, m_bind at 1. rewrite Hf, Hget. cbn [m_ret].
  rewrite Hfind. unfold m_bind at 1, read_clock_ms, m_gets. rewrite Hpar. fold (after_read w).
  change (lms_clock (lms_ticks (uw_lms (after_read w)))) with (clock_after_read w).
  destruct (_ <? _)%Z; [done|]. unfold m_bind, wrapU. by destruct (us_update _ _ _) as [[saved|e] w'].
Qed.

(** C15: Resetting a forgotten password changes no password.  No reset does,
    whatever its token.  A token that SendPasswordReset hands out for an
    address, one nobody had and with the accounts as they were since, is
    looked up at the account of the address; up to the end of its hour the
    reset succeeds exactly when the store takes the update of that account,
    after it the reset is refused.  A reset that succeeds has taken the token
    and its hour away, and has left the account with the password it had
    before the token was asked for. *)
Theorem password_reset_is_void email token newPassword (w w1 w2 w3 : UW) r :
  filed (rows w) → (∀ id u, rows w !! id = Some u → prop u reset_token ≠ token) → token ≠ "" → newPassword ≠ "" →
  SendPasswordReset email w = (Ok token, w1) → uw_users w2 = uw_users w1 →
  let now := clock_after_read w in
  four_digits ((hour_from now + zone_offset (hour_from now)) / day)%Z →
  lms_fault (lms_ticks (uw_lms w2)) = false →
  ResetPassword token newPassword w2 = (r, w3) →
  (∀ t p (v : UW), passwords (ResetPassword t p v).2 = passwords v) ∧ passwords w3 = passwords w ∧
  ∃ id old row, rows w !! id = Some old ∧ User_Email old = sql_lower email ∧ rows w1 = <[id := row]> (rows w) ∧
    ((end_of_hour now < clock_after_read w2)%Z →
       r = Err (LmsError "app.lms.public.reset_password.expired.app_error" 400 None) ∧ rows w3 = rows w1) ∧
    ((clock_after_read w2 ≤ end_of_hour now)%Z →
       r = Ok tt ↔
       ∃ saved, (us_update false (with_new_password newPassword (with_bot (us_bots (uw_users w1)) row)) (after_read w2)).1
                = Ok saved) ∧
    (r = Ok tt → ∃ row', rows w3 = <[id := row']> (rows w) ∧ User_Props row' !! reset_token = None ∧
       User_Props row' !! reset_token_expiry = None ∧ User_Password row' = User_Password old).
Proof.
  intros Hfiled Hfresh Hne Hnp Hsend Hw2 now Hy Hf Hrun. split; [intros t p v; apply ResetPassword_passwords|].
  destruct (issued_token _ _ _ _ Hfiled Hfresh Hne Hsend Hy)
    as (id & old & row & users & expiry & Hold & Hem & Hrows & Hid & Hpw & Hget & Hfind & Hpar & Hend).
  assert (passwords w1 = passwords w) as Hp1.
  { unfold passwords. rewrite Hrows, fmap_insert, Hpw. apply insert_id. by rewrite lookup_fmap, Hold. }
  assert (passwords w3 = passwords w) as Hp3.
  { pose proof (ResetPassword_passwords token newPassword w2) as Hp. rewrite Hrun in Hp. cbn [snd] in Hp.
    rewrite Hp, <- Hp1. unfold passwords. by rewrite Hw2. }
  split; [done|]. rewrite <- Hw2 in Hget.
  pose proof (ResetPassword_run token newPassword w2 users _ expiry Hne Hnp Hf Hget Hfind Hpar) as Hres.
  rewrite Hrun, Hend in Hres. unfold clock_nanos in Hres. subst now.
  exists id, old, row. do 3 (split; [done|]). split; [|split].
  - intros Hlate. rewrite (proj2 (Z.ltb_lt _ _)) in Hres by lia. injection Hres as -> ->. by rewrite <- Hw2.
  - intros Hearly. rewrite (proj2 (Z.ltb_ge _ _)) in Hres by lia.
    destruct (us_update _ _ _) as [[saved|e] w4]; injection Hres as -> ->; cbn; [by split; eauto|].
    split; [done|]. by intros [saved ?].
  - intros ->. assert (filed (rows w2)) as Hfiled2.
    { rewrite Hw2, Hrows. intros k u [[<- <-]|[_ Hu]]%lookup_insert_Some; [done|by apply Hfiled]. }
    destruct (ResetPassword_done _ _ _ _ Hfiled2 Hrun) as (users' & id' & old' & row' & Hget' & Hfind' & Hold' & Hrows3 & Hn1 & Hn2).
    rewrite Hget in Hget'. injection Hget' as <-. rewrite Hfind, Hw2 in Hfind'.
    assert (id' = id) as ->.
    { rewrite <- (Hfiled2 _ _ Hold'), <- Hid. by injection Hfind'. }
    exists row'. rewrite Hrows3, Hw2, Hrows, insert_insert_eq. split_and!; try done.
    unfold passwords in Hp3. rewrite Hrows3, Hw2, Hrows, insert_insert_eq in Hp3. apply (f_equal (lookup id)) in Hp3.
    rewrite !lookup_fmap, lookup_insert_eq, Hold in Hp3. by injection Hp3.
Qed.
End props.

(** ** At the concrete school *)

Definition filedb (t : gmap string User) : bool :=
  forallb (λ e : string * User, bool_decide (User_Id e.2 = e.1)) (map_to_list t).

Lemma filedb_ok t : filedb t = true → filed t.
Proof.
  unfold filedb. rewrite List.forallb_forall. intros Hf id u Hu.
  apply elem_of_map_to_list, list_elem_of_In in Hu. apply Hf in Hu. by apply bool_decide_eq_true in Hu.
Qed.

Definition freshb (token : string) (t : gmap string User) : bool :=
  forallb (λ e : string * User, negb (String.eqb (prop e.2 reset_token) token)) (map_to_list t).

Lemma freshb_ok token t : freshb token t = true → ∀ id u, t !! id = Some u → prop u reset_token ≠ token.
Proof.
  unfold freshb. rewrite List.forallb_forall. intros Hf id u Hu Ht.
  apply elem_of_map_to_list, list_elem_of_In in Hu. apply Hf in Hu. cbn in Hu.
  by rewrite Ht, String.eqb_refl in Hu.
Qed.

Module Forgetful.
Import School.
#[local] Existing Instance cents.
#[export] Instance vietnam : ServerZone := {| zone_offset _ := 25200%Z |}.
#[export] Instance vietnam_ok : ServerZoneOk.
Proof. by split. Qed.

Definition asked : res lmsError string * users_world Z := SendPasswordReset "an@school.vn" created.2.
Definition token : string := match asked.1 with Ok t => t | Err _ => "" end.
Abbreviation reset := (ResetPassword token "NewPass@456" asked.2).

Example token_shape : String.length token = 64.
Proof. vm_compute. reflexivity. Qed.

Lemma asked_token : asked = (Ok token, asked.2).
Proof.
  assert (asked.1 = Ok token) as Ht by (vm_compute; reflexivity).
  exact (eq_trans (surjective_pairing asked) (f_equal (λ r, (r, asked.2)) Ht)).
Defined.

(** The reset succeeds, and the old password is still the one on file. *)
Lemma password_reset_is_void_witness :
  reset.1 = Ok tt ∧ passwords reset.2 = passwords created.2 ∧
  ∃ id row', us_rows (uw_users reset.2) = <[id := row']> (us_rows (uw_users created.2)) ∧
    User_Props row' !! reset_token = None.
Proof.
  assert (reset.1 = Ok tt) as Hr by (vm_compute; reflexivity). split; [exact Hr|].
  destruct (password_reset_is_void "an@school.vn" token "NewPass@456" created.2 asked.2 asked.2 reset.2 reset.1)
    as (_ & Hp & id & old & row & _ & _ & _ & _ & _ & Hdone).
  - apply filedb_ok. vm_compute. reflexivity.
  - apply freshb_ok. vm_compute. reflexivity.
  - vm_compute. discriminate.
  - discriminate.
  - exact asked_token.
  - reflexivity.
  - vm_compute. split; [discriminate|reflexivity].
  - reflexivity.
  - apply surjective_pairing.
  - split; [exact Hp|]. destruct (Hdone Hr) as (row' & Hrows & Hn & _). exists id, row'. exact (conj Hrows Hn).
Defined.

Lemma token_lives_an_hour_witness : (VerifyResetToken token asked.2).1 = Ok true.
Proof.
  refine (eq_trans (token_lives_an_hour "an@school.vn" token created.2 asked.2 asked.2 _ _ _
    asked_token eq_refl _ eq_refl) _).
  - apply filedb_ok. vm_compute. reflexivity.
  - apply freshb_ok. vm_compute. reflexivity.
  - vm_compute. discriminate.
  - vm_compute. split; [discriminate|reflexivity].
  - vm_compute. reflexivity.
Defined.
End Forgetful.
