(* ===== verification/LmsDbInv.v ===== *)
(** * The database of the learning system as an invariant

    [db_ok]: in every table the rows are filed under their ids, pass IsValid
    and read back unchanged, and the keys into other tables name rows that
    exist.  Every statement of the app layer keeps it ([keeps_db_save] and its
    siblings), cascades included. *)

From stdpp Require Import strings.
From S2P Require Import Prelude.
From S2P Require Import GoUtf8.
From S2P Require Import GoTime.
From S2P Require Import LmsDate.
From S2P Require Import LmsModel.
From S2P Require Import CallStore.
From S2P Require Import LmsStore.
From S2P Require Import LmsTables.
From S2P Require Import LmsApp.
From S2P Require Import LmsColumns.
From S2P Require Import LmsQuery.
From S2P Require Import LmsContent.
From S2P Require Import LmsSchedule.
From S2P Require Import LmsTuition.
From S2P Require Import LmsClass.
From S2P Require Import LmsUsers.

Local Open Scope string_scope.

(** ** Keys *)

(** Every row names a row of the other table. *)
Definition fk {X Y} (rows : gmap string X) (col : X → string) (target : gmap string Y) : Prop :=
  ∀ id x, rows !! id = Some x → has target (col x) = true.

Lemma has_insert {Y} (t : gmap string Y) k y i : has t i = true → has (<[k := y]> t) i = true.
Proof.
  unfold has. rewrite !bool_decide_eq_true. intros Hi. destruct (decide (k = i)) as [->|Hk].
  - rewrite lookup_insert_eq. eauto.
  - by rewrite lookup_insert_ne.
Qed.

Lemma fk_insert {X Y} (rows : gmap string X) col (t : gmap string Y) k x :
  fk rows col t → has t (col x) = true → fk (<[k := x]> rows) col t.
Proof. intros Hf Hx id y [[<- <-]|[_ Hy]]%lookup_insert_Some; [done|by eapply Hf]. Qed.

Lemma fk_grow {X Y} (rows : gmap string X) col (t : gmap string Y) k y : fk rows col t → fk rows col (<[k := y]> t).
Proof. intros Hf id x Hx. apply has_insert. by eapply Hf. Qed.

Lemma keep_Some {X} (P : X → bool) (m : gmap string X) id x : keep P m !! id = Some x ↔ m !! id = Some x ∧ P x = true.
Proof. apply map_lookup_filter_Some. Qed.

(** A key that may be NULL. *)
Definition opt_fk {X Y} (rows : gmap string X) (col : X → option string) (target : gmap string Y) : Prop :=
  ∀ id x k, rows !! id = Some x → col x = Some k → has target k = true.

Lemma opt_fk_insert {X Y} (rows : gmap string X) col (t : gmap string Y) k x :
  opt_fk rows col t → (∀ i, col x = Some i → has t i = true) → opt_fk (<[k := x]> rows) col t.
Proof. intros Hf Hx id y i [[<- <-]|[_ Hy]]%lookup_insert_Some; [auto|by eapply Hf]. Qed.

Lemma opt_fk_grow {X Y} (rows : gmap string X) col (t : gmap string Y) k y : opt_fk rows col t → opt_fk rows col (<[k := y]> t).
Proof. intros Hf id x i Hx Hi. apply has_insert. by eapply Hf. Qed.

(** What survives a filter on the key has it. *)
Lemma fk_kept {X Y} (rows : gmap string X) col (t : gmap string Y) (P : X → bool) :
  (∀ x, P x = true → has t (col x) = true) → fk (keep P rows) col t.
Proof. intros HP id x [_ Hx]%keep_Some. auto. Qed.

Lemma fk_keep {X Y} (rows : gmap string X) col (t : gmap string Y) (P : X → bool) : fk rows col t → fk (keep P rows) col t.
Proof. intros Hf id x [Hx _]%keep_Some. by eapply Hf. Qed.

Lemma fk_sub {X Y} (rows rows' : gmap string X) col (t : gmap string Y) : rows' ⊆ rows → fk rows col t → fk rows' col t.
Proof. intros Hsub Hf id x Hx. eapply Hf, lookup_weaken; eauto. Qed.

(** ** Rows *)

Section inv.
Context `{UnicodeTables} `{DecimalOk D}.

Lemma rows_ok_sub {X} (T : table X) (rows rows' : gmap string X) : rows' ⊆ rows → rows_ok T rows → rows_ok T rows'.
Proof. intros Hsub Hr id x Hx. eapply Hr, lookup_weaken; eauto. Qed.

Lemma keep_sub {X} (P : X → bool) (m : gmap string X) : keep P m ⊆ m.
Proof. apply map_filter_subseteq. Qed.

Lemma rows_ok_keep {X} (T : table X) P (rows : gmap string X) : rows_ok T rows → rows_ok T (keep P rows).
Proof. apply rows_ok_sub, keep_sub. Qed.

Lemma rows_ok_fmap {X} (T : table X) (f : X → X) (rows : gmap string X) :
  (∀ id x, row_ok T id x → row_ok T id (f x)) → rows_ok T rows → rows_ok T (f <$> rows).
Proof. intros Hf Hr id y. rewrite lookup_fmap. intros (x & Hx & ->)%fmap_Some. by apply Hf, Hr. Qed.

Record rows_sound (d : lmsDB D) : Prop := {
  rs_classes : rows_ok Class_table (db_classes d);
  rs_enrolments : rows_ok StudentClass_table (db_enrolments d);
  rs_sessions : rows_ok LMSSession_table (db_sessions d);
  rs_attendances : rows_ok Attendance_table (db_attendances d);
  rs_tuitions : rows_ok Tuition_table (db_tuitions d);
  rs_payments : rows_ok Payment_table (db_payments d);
  rs_refunds : rows_ok FeeRefund_table (db_refunds d);
  rs_fees : rows_ok AdditionalFee_table (db_fees d);
  rs_homeworks : rows_ok Homework_table (db_homeworks d);
  rs_submissions : rows_ok Submission_table (db_submissions d);
  rs_leads : rows_ok Lead_table (db_leads d);
  rs_activities : rows_ok LeadActivity_table (db_lead_activities d);
  rs_branches : rows_ok Branch_table (db_branches (db_content d));
  rs_courses : rows_ok Course_table (db_courses (db_content d));
  rs_lessons : rows_ok CourseLesson_table (db_lessons (db_content d));
  rs_packages : rows_ok FeePackage_table (db_packages (db_content d));
  rs_categories : rows_ok PostCategory_table (db_categories (db_content d));
  rs_posts : rows_ok BlogPost_table (db_posts (db_content d));
  rs_reviews : rows_ok WeeklyReview_table (db_reviews (db_content d));
  rs_media : rows_ok ClassMedia_table (db_media (db_content d));
  rs_tasks : rows_ok Task_table (db_tasks (db_content d));
  rs_banners : rows_ok Banner_table (db_banners (db_content d));
  rs_notifications : rows_ok Notification_table (db_notifications (db_content d));
  rs_materials : rows_ok Material_table (db_materials (db_content d));
}.

(** The keys a cascade of [LmsApp] restores. *)
Record class_keys (d : lmsDB D) : Prop := {
  ck_enrolments : fk (db_enrolments d) StudentClass_ClassID (db_classes d);
  ck_sessions : fk (db_sessions d) LMSSession_ClassID (db_classes d);
  ck_attendances : fk (db_attendances d) Attendance_SessionID (db_sessions d);
  ck_tuitions : fk (db_tuitions d) Tuition_ClassID (db_classes d);
  ck_payments : fk (db_payments d) Payment_TuitionID (db_tuitions d);
  ck_refunds : fk (db_refunds d) FeeRefund_TuitionID (db_tuitions d);
  ck_fees : fk (db_fees d) AdditionalFee_TuitionID (db_tuitions d);
  ck_homework_class : fk (db_homeworks d) Homework_ClassID (db_classes d);
  ck_homework_session : fk (db_homeworks d) Homework_SessionID (db_sessions d);
  ck_activities : fk (db_lead_activities d) LeadActivity_LeadID (db_leads d);
  ck_reviews : fk (db_reviews (db_content d)) WeeklyReview_ClassID (db_classes d);
  ck_media : fk (db_media (db_content d)) ClassMedia_ClassID (db_classes d);
  ck_media_session : opt_fk (db_media (db_content d)) ClassMedia_SessionID (db_sessions d);
}.

(** The keys into courses, branches, fee packages and categories. *)
Record course_keys (d : lmsDB D) : Prop := {
  ok_lessons : fk (db_lessons (db_content d)) CourseLesson_CourseID (db_courses (db_content d));
  ok_packages : fk (db_packages (db_content d)) FeePackage_CourseID (db_courses (db_content d));
  ok_materials : fk (db_materials (db_content d)) Material_CourseID (db_courses (db_content d));
  ok_classes : fk (db_classes d) Class_CourseID (db_courses (db_content d));
  ok_branches : fk (db_classes d) Class_BranchID (db_branches (db_content d));
  ok_homeworks : fk (db_homeworks d) Homework_CourseID (db_courses (db_content d));
  ok_tuitions : fk (db_tuitions d) Tuition_FeePackageID (db_packages (db_content d));
  ok_posts : fk (db_posts (db_content d)) BlogPost_CategoryID (db_categories (db_content d));
}.

(** The key that refuses deletes. *)
Definition submission_keys (d : lmsDB D) : Prop := fk (db_submissions d) Submission_HomeworkID (db_homeworks d).

(** All foreign keys between the tables. *)
Record keys_ok (d : lmsDB D) : Prop := {
  ko_classes : class_keys d;
  ko_courses : course_keys d;
  ko_submissions : submission_keys d;
}.

Record db_ok (d : lmsDB D) : Prop := {
  do_rows : rows_sound d;
  do_keys : keys_ok d;
}.

(** ** Tables and their place *)

(** The table [T] with the rows of [L]. *)
Class Home {X} (T : table X) (L : lens D X) := {
  home_get : ∀ d, rows_sound d → rows_ok T (tget L d);
  home_set : ∀ d t, rows_sound d → rows_ok T t → rows_sound (tset L t d);
}.

Ltac home_tac :=
  split;
  [ by intros d []
  | intros [? ? ? ? ? ? ? ? ? ? ? ? []] t [] Ht; split; assumption ].

#[export] Instance Classes_home : Home Class_table Classes. Proof. home_tac. Qed.
#[export] Instance Enrolments_home : Home StudentClass_table Enrolments. Proof. home_tac. Qed.
#[export] Instance Sessions_home : Home LMSSession_table Sessions. Proof. home_tac. Qed.
#[export] Instance Attendances_home : Home Attendance_table Attendances. Proof. home_tac. Qed.
#[export] Instance Tuitions_home : Home Tuition_table Tuitions. Proof. home_tac. Qed.
#[export] Instance Payments_home : Home Payment_table Payments. Proof. home_tac. Qed.
#[export] Instance Refunds_home : Home FeeRefund_table Refunds. Proof. home_tac. Qed.
#[export] Instance Fees_home : Home AdditionalFee_table Fees. Proof. home_tac. Qed.
#[export] Instance Homeworks_home : Home Homework_table Homeworks. Proof. home_tac. Qed.
#[export] Instance Submissions_home : Home Submission_table Submissions. Proof. home_tac. Qed.
#[export] Instance Leads_home : Home Lead_table Leads. Proof. home_tac. Qed.
#[export] Instance LeadActivities_home : Home LeadActivity_table LeadActivities. Proof. home_tac. Qed.
#[export] Instance Branches_home : Home Branch_table Branches. Proof. home_tac. Qed.
#[export] Instance Courses_home : Home Course_table Courses. Proof. home_tac. Qed.
#[export] Instance CourseLessons_home : Home CourseLesson_table CourseLessons. Proof. home_tac. Qed.
#[export] Instance FeePackages_home : Home FeePackage_table FeePackages. Proof. home_tac. Qed.
#[export] Instance PostCategories_home : Home PostCategory_table PostCategories. Proof. home_tac. Qed.
#[export] Instance BlogPosts_home : Home BlogPost_table BlogPosts. Proof. home_tac. Qed.
#[export] Instance WeeklyReviews_home : Home WeeklyReview_table WeeklyReviews. Proof. home_tac. Qed.
#[export] Instance ClassMedias_home : Home ClassMedia_table ClassMedias. Proof. home_tac. Qed.
#[export] Instance Tasks_home : Home Task_table Tasks. Proof. home_tac. Qed.
#[export] Instance Banners_home : Home Banner_table Banners. Proof. home_tac. Qed.
#[export] Instance Notifications_home : Home Notification_table Notifications. Proof. home_tac. Qed.
#[export] Instance Materials_home : Home Material_table Materials. Proof. home_tac. Qed.

(** Writing a row that [refs] accepted keeps the keys; [row_of] is what the row
    is made of. *)
Class Keyed {X} (L : lens D X) (refs : lmsDB D → X → bool) (row_of : X → X → Prop) :=
  keyed : ∀ d x row k, keys_ok d → refs d x = true → row_of x row → keys_ok (tset L (<[k := row]> (tget L d)) d).

(** Fewer rows in a table keep the keys a cascade does not restore. *)
Class Leaf {X} (L : lens D X) := {
  leaf : ∀ d t, t ⊆ tget L d → course_keys d → course_keys (tset L t d);
  leaf_submissions : ∀ d t, db_submissions (tset L t d) = db_submissions d;
}.

(** No key names a row of the table. *)
Class Unnamed {X} (L : lens D X) :=
  unnamed : ∀ d t, t ⊆ tget L d → keys_ok d → keys_ok (tset L t d).

#[export] Instance Attendances_unnamed : Unnamed Attendances.
Proof.
  intros [? ? ? ? ? ? ? ? ? ? ? ? []] t Ht [[] [] ?]. split; [split|split|]; cbn in *; try assumption.
  by eapply fk_sub.
Qed.

Ltac leaf_tac :=
  split; [|by intros []];
  intros [? ? ? ? ? ? ? ? ? ? ? ? []] t Ht []; cbn in *; split; cbn; first [assumption|by eapply fk_sub].

#[export] Instance Classes_leaf : Leaf Classes. Proof. leaf_tac. Qed.
#[export] Instance Enrolments_leaf : Leaf Enrolments. Proof. leaf_tac. Qed.
#[export] Instance Sessions_leaf : Leaf Sessions. Proof. leaf_tac. Qed.
#[export] Instance Attendances_leaf : Leaf Attendances. Proof. leaf_tac. Qed.
#[export] Instance Tuitions_leaf : Leaf Tuitions. Proof. leaf_tac. Qed.
#[export] Instance Fees_leaf : Leaf Fees. Proof. leaf_tac. Qed.
#[export] Instance Homeworks_leaf : Leaf Homeworks. Proof. leaf_tac. Qed.
#[export] Instance Leads_leaf : Leaf Leads. Proof. leaf_tac. Qed.
#[export] Instance CourseLessons_leaf : Leaf CourseLessons. Proof. leaf_tac. Qed.
#[export] Instance BlogPosts_leaf : Leaf BlogPosts. Proof. leaf_tac. Qed.
#[export] Instance WeeklyReviews_leaf : Leaf WeeklyReviews. Proof. leaf_tac. Qed.
#[export] Instance ClassMedias_leaf : Leaf ClassMedias. Proof. leaf_tac. Qed.
#[export] Instance Tasks_leaf : Leaf Tasks. Proof. leaf_tac. Qed.
#[export] Instance Banners_leaf : Leaf Banners. Proof. leaf_tac. Qed.
#[export] Instance Materials_leaf : Leaf Materials. Proof. leaf_tac. Qed.

(** ** Cascades *)

Lemma row_ok_same {X} (T : table X) id x (f : X → X) :
  row_id T (f x) = row_id T x → isValid T (f x) = isValid T x →
  (stored T x = Some x → stored T (f x) = Some (f x)) → row_ok T id x → row_ok T id (f x).
Proof. intros Hi Hv Hs (Hid & Hval & Hst). split_and!; [congruence|congruence|auto]. Qed.

Lemma rows_sound_cascade d : rows_sound d → rows_sound (cascade d).
Proof.
  intros []. split; cbn; try assumption; try (by apply rows_ok_keep).
  apply rows_ok_fmap; [|by apply rows_ok_keep]. intros id x. by apply (row_ok_same ClassMedia_table).
Qed.

(** A cascade restores the keys whatever was deleted. *)
Lemma cascade_class_keys d : class_keys (cascade d).
Proof.
  split; cbn; try (by apply fk_kept; intros x Hx).
  - apply fk_kept. by intros x [Hx _]%andb_true_iff.
  - apply fk_kept. by intros x [_ Hx]%andb_true_iff.
  - intros id x. rewrite lookup_fmap. intros (y & [_ Hy]%keep_Some & ->)%fmap_Some. done.
  - intros id x k. rewrite lookup_fmap. intros (y & _ & ->)%fmap_Some. cbn.
    intros (s & _ & Hs)%bind_Some. destruct (has _ s) eqn:Hh; [by injection Hs as <-|done].
Qed.

Lemma cascade_course_keys d : course_keys d → course_keys (cascade d).
Proof. intros []. split; cbn; try assumption; by apply fk_keep. Qed.

(** A statement that takes no homework of a submission away. *)
Lemma submissions_kept d d' :
  submission_keys d → db_submissions d' ⊆ db_submissions d → takes_submitted_homework d d' = false → submission_keys d'.
Proof.
  intros Hk Hsub Hno id s Hs. pose proof (lookup_weaken _ _ _ _ Hs Hsub) as Hd.
  destruct (has (db_homeworks d') (Submission_HomeworkID s)) eqn:Hh; [done|].
  assert (takes_submitted_homework d d' = true) as Ht; [|congruence].
  apply existsb_exists. exists s. rewrite Hh, (Hk _ _ Hd). split; [|done].
  apply list_elem_of_In, list_elem_of_fmap. exists (id, s). by rewrite elem_of_map_to_list.
Qed.

Lemma cascade_db_ok d0 d :
  rows_sound d → course_keys d → submission_keys d0 → db_submissions d ⊆ db_submissions d0 →
  takes_submitted_homework d0 (cascade d) = false → db_ok (cascade d).
Proof.
  intros. split; [by apply rows_sound_cascade|].
  split; [apply cascade_class_keys|by apply cascade_course_keys|by eapply submissions_kept].
Qed.

(** ** Keys of what is written *)

(** What INSERT stores of an object, and what UPDATE stores. *)
Definition saved_as {X} (T : table X) (x row : X) : Prop :=
  ∃ i n0 n, stored T (defaults T (preCreate T i n0 n x)) = Some row.
Definition updated_as {X} (T : table X) (hook : Z → X → X) (x row : X) : Prop :=
  ∃ n, stored T (hook n x) = Some row.

(** Take a stored row apart. *)
Ltac open_row Hs :=
  simpl in Hs;
  unfold Course_stored, Class_stored, LMSSession_stored, Lead_stored, LeadActivity_stored, FeePackage_stored,
    Tuition_stored, Payment_stored, FeeRefund_stored, Homework_stored, AdditionalFee_stored, Task_stored in Hs;
  repeat match type of Hs with (_ ≫= _) = Some _ => apply bind_Some in Hs as (? & ? & Hs) end;
  injection Hs as <-.

Ltac refs_tac Hr :=
  unfold enrolment_refs, session_refs, attendance_refs, tuition_refs, payment_refs, refund_refs, fee_refs,
    homework_refs, submission_refs, class_refs, activity_refs, review_refs, media_refs, lesson_refs, package_refs, material_refs, post_refs in Hr;
  cbn in Hr; rewrite ?andb_true_iff in Hr; intuition.

Ltac keyed_tac :=
  intros [? ? ? ? ? ? ? ? ? ? ? ? []] x row k [[] [] ?] Hr Hrow;
  (destruct Hrow as (i & n0 & n & Hrow) || destruct Hrow as (n & Hrow)); open_row Hrow;
  unfold submission_keys in *; cbn in *;
  split; [split|split|]; unfold submission_keys; cbn; try assumption; try (by apply fk_grow); try (by apply opt_fk_grow);
  first [ assumption | apply fk_insert; [assumption|cbn; refs_tac Hr]
        | apply fk_grow, fk_insert; [assumption|cbn; refs_tac Hr]
        | apply opt_fk_insert; [assumption|intros ? E; cbn in E; unfold media_refs in Hr; rewrite E in Hr; refs_tac Hr] ].

#[export] Instance Banners_saved : Keyed Banners free (saved_as Banner_table). Proof. keyed_tac. Qed.
#[export] Instance Branches_saved : Keyed Branches branch_refs (saved_as Branch_table). Proof. keyed_tac. Qed.
#[export] Instance Courses_saved : Keyed Courses course_refs (saved_as Course_table). Proof. keyed_tac. Qed.
#[export] Instance CourseLessons_saved : Keyed CourseLessons lesson_refs (saved_as CourseLesson_table). Proof. keyed_tac. Qed.
#[export] Instance Tasks_saved : Keyed Tasks free (saved_as Task_table). Proof. keyed_tac. Qed.
#[export] Instance Materials_saved : Keyed Materials material_refs (saved_as Material_table). Proof. keyed_tac. Qed.
#[export] Instance WeeklyReviews_saved : Keyed WeeklyReviews review_refs (saved_as WeeklyReview_table). Proof. keyed_tac. Qed.
#[export] Instance ClassMedias_saved : Keyed ClassMedias media_refs (saved_as ClassMedia_table). Proof. keyed_tac. Qed.
#[export] Instance FeePackages_saved : Keyed FeePackages package_refs (saved_as FeePackage_table). Proof. keyed_tac. Qed.
#[export] Instance PostCategories_saved : Keyed PostCategories category_refs (saved_as PostCategory_table). Proof. keyed_tac. Qed.
#[export] Instance BlogPosts_saved : Keyed BlogPosts post_refs (saved_as BlogPost_table). Proof. keyed_tac. Qed.
#[export] Instance Leads_saved : Keyed Leads free (saved_as Lead_table). Proof. keyed_tac. Qed.
#[export] Instance Sessions_saved : Keyed Sessions session_refs (saved_as LMSSession_table). Proof. keyed_tac. Qed.
#[export] Instance Tuitions_saved : Keyed Tuitions tuition_refs (saved_as Tuition_table). Proof. keyed_tac. Qed.
#[export] Instance Payments_saved : Keyed Payments payment_refs (saved_as Payment_table). Proof. keyed_tac. Qed.
#[export] Instance Refunds_saved : Keyed Refunds refund_refs (saved_as FeeRefund_table). Proof. keyed_tac. Qed.
#[export] Instance Fees_saved : Keyed Fees fee_refs (saved_as AdditionalFee_table). Proof. keyed_tac. Qed.
#[export] Instance Classes_saved : Keyed Classes class_refs (saved_as Class_table). Proof. keyed_tac. Qed.
#[export] Instance Enrolments_saved : Keyed Enrolments enrolment_refs (saved_as StudentClass_table). Proof. keyed_tac. Qed.
#[export] Instance Attendances_saved : Keyed Attendances attendance_refs (saved_as Attendance_table). Proof. keyed_tac. Qed.
#[export] Instance Homeworks_saved : Keyed Homeworks homework_refs (saved_as Homework_table). Proof. keyed_tac. Qed.
#[export] Instance Submissions_saved : Keyed Submissions submission_refs (saved_as Submission_table). Proof. keyed_tac. Qed.
#[export] Instance Leads_kept : Keyed Leads lead_refs (saved_as Lead_table). Proof. keyed_tac. Qed.
#[export] Instance LeadActivities_saved : Keyed LeadActivities activity_refs (saved_as LeadActivity_table). Proof. keyed_tac. Qed.
#[export] Instance Banners_updated : Keyed Banners free (updated_as Banner_table BannerPreUpdate). Proof. keyed_tac. Qed.
#[export] Instance Courses_updated : Keyed Courses course_refs (updated_as Course_table CoursePreUpdate). Proof. keyed_tac. Qed.
#[export] Instance CourseLessons_updated : Keyed CourseLessons lesson_refs (updated_as CourseLesson_table CourseLessonPreUpdate). Proof. keyed_tac. Qed.
#[export] Instance Tasks_updated : Keyed Tasks free (updated_as Task_table TaskPreUpdate). Proof. keyed_tac. Qed.
#[export] Instance Materials_updated : Keyed Materials material_refs (updated_as Material_table MaterialPreUpdate). Proof. keyed_tac. Qed.
#[export] Instance WeeklyReviews_updated : Keyed WeeklyReviews review_refs (updated_as WeeklyReview_table WeeklyReviewPreUpdate). Proof. keyed_tac. Qed.
#[export] Instance PostCategories_updated : Keyed PostCategories category_refs (updated_as PostCategory_table PostCategoryPreUpdate). Proof. keyed_tac. Qed.
#[export] Instance BlogPosts_updated : Keyed BlogPosts post_refs (updated_as BlogPost_table BlogPostPreUpdate). Proof. keyed_tac. Qed.
#[export] Instance Sessions_updated : Keyed Sessions session_refs (updated_as LMSSession_table LMSSessionPreUpdate). Proof. keyed_tac. Qed.
#[export] Instance Tuitions_updated : Keyed Tuitions tuition_refs (updated_as Tuition_table TuitionPreUpdate). Proof. keyed_tac. Qed.
#[export] Instance Classes_updated : Keyed Classes class_refs (updated_as Class_table ClassPreUpdate). Proof. keyed_tac. Qed.
#[export] Instance Homeworks_updated : Keyed Homeworks homework_refs (updated_as Homework_table HomeworkPreUpdate). Proof. keyed_tac. Qed.
#[export] Instance Submissions_updated : Keyed Submissions submission_refs (updated_as Submission_table SubmissionPreUpdate). Proof. keyed_tac. Qed.
#[export] Instance Leads_updated : Keyed Leads lead_refs (updated_as Lead_table LeadPreUpdate). Proof. keyed_tac. Qed.

(** ** Statements *)

Context `{LmsEnv} `{GoRange}.

#[local] Abbreviation LW := (lms_world D).
#[local] Abbreviation db_kept m := (preserves (λ w : LW, db_ok (lms_db w)) m).

(** A bind whose first part answers only what satisfies [Q]. *)
Lemma preserves_bind_post {S E A B} (I : S → Prop) (Q : A → Prop) (m : M S E A) (k : A → M S E B) :
  preserves I m → (∀ s a s', m s = (Ok a, s') → Q a) → (∀ a, Q a → preserves I (k a)) → preserves I (m_bind m k).
Proof.
  intros Hm HQ Hk s Hs. specialize (Hm s Hs). specialize (HQ s). unfold m_bind.
  destruct (m s) as [[a|e] s']; [by eapply Hk; eauto|done].
Qed.

Lemma db_kept_read {A E} (m : M LW E A) : frames lms_db m → db_kept m.
Proof. intros Hm w Hw. by rewrite (Hm w). Qed.

(** One row more, or another in its place. *)
Lemma write_ok {X} (T : table X) (L : lens D X) dated refs row_of d x (y row : X) :
  Home T L → TableOk T dated → Keyed L refs row_of →
  db_ok d → refs d x = true → row_of x row →
  rows_ok T (<[row_id T y := row]> (tget L d)) → db_ok (tset L (<[row_id T y := row]> (tget L d)) d).
Proof. intros HL HT HK [Hr Hk] Hrefs Hrow Hrows. split; [by apply home_set|by eapply HK]. Qed.

(** What a save and an update leave in the table. *)
Lemma Store_Save_rows {X} (T : table X) f i n0 n rows x :
  let y := preCreate T i n0 n x in
  (Store_Save T f i n0 n rows x).2 = rows ∨
  f = false ∧ isValid T y = None ∧ ∃ row, stored T (defaults T y) = Some row ∧
    (Store_Save T f i n0 n rows x).2 = <[row_id T (defaults T y) := row]> rows.
Proof.
  unfold Store_Save. destruct (isValid T _) eqn:Hv; [by left|]. destruct f; [by left|].
  destruct (if _ || _ then None else _) as [row|] eqn:Hs; [|by left].
  destruct (false || _); [done|]. right. eauto.
Qed.

Lemma Store_Update_rows {X} (T : table X) hook f rf n rows x :
  (Store_Update T hook f rf n rows x).2 = rows ∨
  f = false ∧ isValid T (hook n x) = None ∧ ∃ row, stored T (hook n x) = Some row ∧
    (Store_Update T hook f rf n rows x).2 = <[row_id T (hook n x) := row]> rows.
Proof.
  unfold Store_Update. destruct (isValid T _) eqn:Hv; [by left|]. destruct f; [by left|].
  destruct (stored T _) as [row|]; [|by left]. destruct (rows !! _); [right; eauto|by left].
Qed.

Lemma on_table_db {X A} (L : lens D X) f (w : LW) :
  lms_db (on_table (A:=A) L f w).2 = tset L (f (lms_ticks w) (lms_db w)).2 (lms_db w).
Proof. unfold on_table. by destruct (f _ _). Qed.

Lemma keeps_db_save {X} (T : table X) (L : lens D X) dated refs x `{!LensOk L} :
  Home T L → TableOk T dated → Keyed L refs (saved_as T) → (∀ i n0 n, dated (preCreate T i n0 n x)) →
  db_kept (db_save T L refs x).
Proof.
  intros HL HT HK Hd w Hw. unfold db_save. rewrite on_table_db.
  edestruct (Store_Save_rows T) as [->|([_ Href%negb_false_iff]%orb_false_iff & Hv & row & Hst & ->)];
    [by rewrite tset_tget|].
  eapply write_ok; [done..|by do 3 eexists|].
  apply (rows_ok_insert T dated); [by apply (home_get (T:=T)), Hw|by apply defaults_dated|by eapply defaults_valid|done].
Qed.

Lemma keeps_db_update {X} (T : table X) (L : lens D X) dated hook refs x `{!LensOk L} :
  Home T L → TableOk T dated → Keyed L refs (updated_as T hook) → (∀ n, dated (hook n x)) →
  db_kept (db_update T L hook refs x).
Proof.
  intros HL HT HK Hd w Hw. unfold db_update. rewrite on_table_db.
  edestruct (Store_Update_rows T) as [->|([_ Href%negb_false_iff]%orb_false_iff & Hv & row & Hst & ->)];
    [by rewrite tset_tget|].
  eapply write_ok; [done..|by eexists|].
  apply (rows_ok_insert T dated); [by apply (home_get (T:=T)), Hw|done..].
Qed.

(** What goes along with a row keeps the rest in order, when no homework that
    was handed in goes. *)
Class Cascades {X} (L : lens D X) (gone : string → lmsDB D → lmsDB D) :=
  cascades : ∀ id d, let d' := gone id (tset L (delete id (tget L d)) d) in
    db_ok d → takes_submitted_homework d d' = false → db_ok d'.

#[export] Instance leaf_cascades {X} (T : table X) (L : lens D X) :
  Home T L → Leaf L → Cascades L (λ _, cascade).
Proof.
  intros HL Hleaf id d d' [Hr [_ Hk Hs]] Hno.
  apply (cascade_db_ok d); [apply (home_set (T:=T)); [done|]|apply leaf; [apply delete_subseteq|done]|done| |done].
  - eapply rows_ok_sub; [apply delete_subseteq|by apply (home_get (T:=T))].
  - by rewrite leaf_submissions.
Qed.

Lemma keeps_db_delete_with {X} (T : table X) (L : lens D X) gone id `{!LensOk L} :
  Cascades L gone → db_kept (db_delete_with T L gone id).
Proof.
  intros HC w Hw. unfold db_delete_with, m_bind, on_table.
  unfold Store_Delete. destruct (lms_fault _); [simpl; by rewrite tset_tget|].
  destruct (tget L _ !! id); [|simpl; by rewrite tset_tget].
  destruct (_ || _) eqn:Hno; [simpl; by rewrite tset_tget|]. apply orb_false_iff in Hno as [_ Hno].
  simpl. by apply cascades.
Qed.

Lemma keeps_db_delete {X} (T : table X) (L : lens D X) id `{!LensOk L} :
  Cascades L (λ _, cascade) → db_kept (db_delete T L id).
Proof. apply keeps_db_delete_with. done. Qed.

Lemma keeps_db_delete_all {X} (T : table X) (L : lens D X) P `{!LensOk L} :
  Home T L → Unnamed L → db_kept (db_delete_all L P).
Proof.
  intros HL HU w Hw. unfold db_delete_all. rewrite on_table_db.
  destruct (lms_fault _); cbn [snd]; [by rewrite tset_tget|]. destruct Hw as [Hr Hk].
  split; [|apply unnamed; [apply keep_sub|done]].
  apply (home_set (T:=T)); [done|]. apply rows_ok_keep. by apply (home_get (T:=T)).
Qed.

Lemma fk_deleted {X Y} (rows : gmap string X) col (t : gmap string Y) id :
  fk rows col t → fk (keep (λ x, negb (bool_decide (col x = id))) rows) col (delete id t).
Proof.
  intros Hf k x [Hx Hne%negb_true_iff%bool_decide_eq_false]%keep_Some. unfold has.
  rewrite lookup_delete_ne by done. by eapply Hf.
Qed.

(** The rows without those that name one of the rows that go. *)
Lemma fk_without {X Y} (rows : gmap string X) col (t : gmap string Y) (P : Y → bool) :
  fk rows col t → fk (keep (λ x, negb (has (keep P t) (col x))) rows) col (keep (λ y, negb (P y)) t).
Proof.
  intros Hf k x [Hx Hno%negb_true_iff]%keep_Some. specialize (Hf _ _ Hx). unfold has in *.
  apply bool_decide_eq_true in Hf as [y Hy]. apply bool_decide_eq_false in Hno.
  apply bool_decide_eq_true. exists y. apply keep_Some. split; [done|]. apply negb_true_iff, not_true_iff_false.
  intros HP. apply Hno. exists y. by apply keep_Some.
Qed.

Ltac gone_tac :=
  first [ assumption | by apply rows_ok_keep | by eapply rows_ok_sub; [apply delete_subseteq|]
        | by apply fk_deleted | by apply fk_without | by apply fk_keep | by eapply fk_sub; [apply delete_subseteq|] ].

Ltac cascade_tac :=
  intros id d d' [Hr [_ Hk Hs]] Hno; destruct d as [? ? ? ? ? ? ? ? ? ? ? ? []]; destruct Hr, Hk;
  eapply cascade_db_ok; [| |exact Hs| |exact Hno]; [split; cbn in *; gone_tac|split; cbn in *; gone_tac|done].

#[export] Instance Branches_cascade : Cascades Branches cascade_branch. Proof. cascade_tac. Qed.
#[export] Instance FeePackages_cascade : Cascades FeePackages cascade_package. Proof. cascade_tac. Qed.
#[export] Instance Courses_cascade : Cascades Courses cascade_course. Proof. cascade_tac. Qed.

#[export] Instance PostCategories_cascade : Cascades PostCategories cascade_category.
Proof.
  intros id d d' [Hr [Hc Hk Hs]] _. subst d'. destruct d as [? ? ? ? ? ? ? ? ? ? ? ? []]. destruct Hr, Hc, Hk.
  split; [|split; [| |exact Hs]]; split; cbn in *; gone_tac.
Qed.

Lemma keeps_mark_as_read id : db_kept (NotificationStore_MarkAsRead id).
Proof.
  apply preserves_bind; [apply db_kept_read, frames_db_get, _|]. intros x w Hw. rewrite on_table_db.
  destruct (lms_fault _); cbn [snd]; [by rewrite tset_tget|].
  destruct Hw as [Hr [Hc Hk Hs]]. destruct w as [d n]; cbn in *.
  destruct d as [? ? ? ? ? ? ? ? ? ? ? ? []]; destruct Hr, Hc, Hk.
  split; [|split; [| |exact Hs]]; split; cbn in *; try assumption.
  intros k y. rewrite lookup_alter. destruct (decide _) as [<-|]; [|auto].
  intros (z & Hz & ->)%fmap_Some. by apply (row_ok_same Notification_table), rs_notifications0.
Qed.

(** ** Operations *)

Lemma keeps_guarded_db {W A} (I : W → Prop) may (m : M W lmsError A) : preserves I m → preserves I (guarded may m).
Proof. intros Hm. destruct may; [done|apply preserves_throw]. Qed.

Lemma keeps_require_id_db {W A} (I : W → Prop) id (m : M W lmsError A) : preserves I m → preserves I (require_id id m).
Proof. intros Hm. unfold require_id. destruct (IsValidId id); [done|apply preserves_throw]. Qed.

Lemma keeps_wrap {A} c (m : M LW storeError A) : db_kept m → db_kept (wrap c m).
Proof. intros Hm w Hw. specialize (Hm w Hw). unfold wrap. by destruct (m w) as [[]]. Qed.

Lemma keeps_wrapE {A} c (m : M LW storeError A) : db_kept m → db_kept (wrapE c m).
Proof. intros Hm w Hw. specialize (Hm w Hw). unfold wrapE. by destruct (m w) as [[]]. Qed.

Lemma keeps_attempt {A} (m : M LW storeError A) : db_kept m → db_kept (attempt m).
Proof. intros Hm w Hw. specialize (Hm w Hw). unfold attempt. by destruct (m w). Qed.

Lemma keeps_on_table_read {X A} (L : lens D X) `{!LensOk L} (f : nat → lmsDB D → res storeError A) :
  db_kept (on_table L (λ n d, (f n d, tget L d))).
Proof. apply db_kept_read, frames_on_table_read. done. Qed.

Lemma keeps_db_get {X} (T : table X) (L : lens D X) `{!LensOk L} id : db_kept (db_get T L id).
Proof. by apply keeps_on_table_read. Qed.

Lemma keeps_db_query {X} (L : lens D X) `{!LensOk L} P : db_kept (db_query L P).
Proof. by apply keeps_on_table_read. Qed.

Lemma keeps_db_search {X} `{Engine D X} (L : lens D X) `{!LensOk L} what mods opts : db_kept (db_search L what mods opts).
Proof.
  apply preserves_bind; [by apply keeps_on_table_read|]. intros items. destruct (CountTotal opts); [|apply preserves_ret].
  apply preserves_bind; [by apply keeps_on_table_read|]. intros total. apply preserves_ret.
Qed.

End inv.

(** Loops and other operations with a lemma of their own. *)
Create HintDb sound.

(** The symbol a term starts with. *)
Ltac head_of t := match t with ?f _ => head_of f | _ => t end.

(** One step of taking an operation apart. *)
Ltac db_step :=
  match goal with
  | H : preserves ?I ?m |- preserves ?I ?m => exact H
  | |- preserves _ (guarded _ _) => apply keeps_guarded_db
  | |- preserves _ (require_id _ _) => apply keeps_require_id_db
  | |- preserves _ (m_bind _ _) => apply preserves_bind; [|intros ?]
  | |- preserves _ (m_ret _) => apply preserves_ret
  | |- preserves _ (m_throw _) => apply preserves_throw
  | |- preserves _ (app_error _ _) => apply preserves_throw
  | |- preserves _ (m_gets _) => apply preserves_gets
  | |- preserves _ (wrap _ _) => apply keeps_wrap
  | |- preserves _ (wrapE _ _) => apply keeps_wrapE
  | |- preserves _ (attempt _) => apply keeps_attempt
  | |- preserves _ (on_table _ (λ n d, (_, tget _ d))) => apply keeps_on_table_read; apply _
  | |- preserves _ (db_get _ _ _) => apply keeps_db_get; apply _
  | |- preserves _ (db_query _ _) => apply keeps_db_query; apply _
  | |- preserves _ (db_search _ _ _ _) => apply keeps_db_search; apply _
  | |- preserves _ (db_save _ _ _ _) => eapply keeps_db_save; [apply _..|done]
  | |- preserves _ (db_update _ _ _ _ _) => eapply keeps_db_update; [apply _..|done]
  | |- preserves _ (db_delete _ _ _) => apply keeps_db_delete; apply _
  | |- preserves _ (db_delete_with _ _ _ _) => apply keeps_db_delete_with; apply _
  | |- preserves _ (NotificationStore_MarkAsRead _) => apply keeps_mark_as_read
  | |- preserves _ (match ?x with _ => _ end) => destruct x
  | |- preserves _ (let '_ := ?x in _) => destruct x
  | |- preserves _ (db_delete_all _ _) => eapply keeps_db_delete_all; apply _
  | |- _ => solve [auto 2 with sound nocore]
  | |- preserves _ ?m => let h := head_of m in unfold h
  end.
Ltac db_tac := intros; repeat db_step.

(** *** Loops *)

Section loops.
Context `{UnicodeTables} `{DecimalOk D} `{LmsEnv} `{GoRange}.

#[local] Abbreviation db_kept m := (preserves (λ w : lms_world D, db_ok (lms_db w)) m).

Lemma keeps_EnrollStudents id students : db_kept (EnrollStudents id students).
Proof. induction students as [|s l IH]; simpl; db_tac. Qed.

Lemma keeps_save_attendance id records : db_kept (save_attendance id records).
Proof. induction records as [|r l IH]; simpl; db_tac. Qed.

Lemma keeps_bulk_loop h students count : db_kept (bulk_loop h students count).
Proof.
  revert count. induction students as [|s l IH]; intros count; simpl; [db_tac|]. intros w Hw.
  assert (db_kept (save_homework (homework_clone h))) as Hs by db_tac. specialize (Hs w Hw).
  destruct (save_homework _ w) as [[]]; [by apply IH|done].
Qed.

Lemma keeps_classNames sessions names : db_kept (classNames_loop sessions names).
Proof.
  revert names. induction sessions as [|s l IH]; intros names; simpl; [db_tac|].
  destruct (decide _); [apply IH|]. destruct (names !! _); [apply IH|].
  apply preserves_bind; [db_tac|]. intros c. apply IH.
Qed.

(** *** session.go *)

Section sessions.
Context (teacherDisplayName : string → string).

Lemma keeps_find_conflicts t lo hi ex : db_kept (FindTeacherConflicts t lo hi ex).
Proof.
  unfold FindTeacherConflicts. destruct (decide _); [db_tac|].
  exact (keeps_on_table_read Sessions (λ n d, if lms_fault n then _ else Ok (teacher_conflicts t lo hi ex (db_sessions d)))).
Qed.

Lemma keeps_check_conflicts t occs ex : db_kept (checkOccurrenceConflicts teacherDisplayName t occs ex).
Proof.
  unfold checkOccurrenceConflicts. destruct (decide _); [db_tac|]. destruct (span_of occs) as [lo hi].
  apply preserves_bind; [apply keeps_wrap, keeps_find_conflicts|]. intros rows.
  destruct (decide _); [db_tac|]. apply preserves_bind; [apply keeps_classNames|]. db_tac.
Qed.

Lemma keeps_save_session s : is_midnight (LMSSession_Date s) → db_kept (save_session s).
Proof. intros Hs. eapply keeps_db_save; [apply _..|done]. Qed.

Lemma keeps_save_all occs : Forall (λ s, is_midnight (LMSSession_Date s)) occs → db_kept (save_all occs).
Proof.
  induction 1 as [|s l Hs _ IH]; simpl; [db_tac|]. pose proof (keeps_save_session s Hs). db_tac.
Qed.

Lemma occurrences_midnight s until occs :
  is_midnight (LMSSession_Date s) → expandWeeklyOccurrences s until = Ok occs →
  Forall (λ s, is_midnight (LMSSession_Date s)) occs.
Proof.
  intros Hs. unfold expandWeeklyOccurrences. destruct (decide _); [intros [= <-]; by repeat constructor|].
  destruct (parse_date until) as [d|]; [|done]. do 2 (case_bool_decide; [done|]). intros [= <-].
  apply Forall_fmap, Forall_true. intros [|k]; [done|]. unfold is_midnight in *. simpl.
  by rewrite Z_mod_plus_full.
Qed.

(** The date of a body is one UnmarshalJSON made. *)
Definition dated (s : option LMSSession) : Prop :=
  match s with Some s => is_midnight (LMSSession_Date s) | None => True end.

Lemma keeps_CreateSessions s until force : dated s → db_kept (CreateSessionsWithRepeat teacherDisplayName s until force).
Proof.
  destruct s as [s|]; [|db_tac]. intros Hs. unfold CreateSessionsWithRepeat.
  destruct (_ || _); [db_tac|]. case_bool_decide; [db_tac|].
  destruct (expandWeeklyOccurrences s until) as [occs|e] eqn:Hocc; [|db_tac].
  pose proof (keeps_save_all occs (occurrences_midnight _ _ _ Hs Hocc)).
  pose proof (keeps_check_conflicts (LMSSession_TeacherID s) occs ""). db_tac.
Qed.

Lemma keeps_UpdateSession id s force : dated s → db_kept (UpdateSession teacherDisplayName id s force).
Proof.
  destruct s as [s|]; [|db_tac]. intros Hs. unfold UpdateSession.
  set (s' := with_id id s). pose proof (keeps_check_conflicts (LMSSession_TeacherID s') [s'] id) as Hc.
  assert (is_midnight (LMSSession_Date s')) as Hs' by done. clearbody s'.
  destruct (_ && _ && _); [db_tac|]. apply preserves_bind; [destruct (_ && _ && _ && _); [done|db_tac]|].
  intros conflicts. destruct (decide _); [|db_tac].
  apply preserves_bind_post with (λ b, is_midnight (LMSSession_Date b)); [unfold carry_lesson; db_tac| |].
  - intros w b w'. unfold carry_lesson. destruct (decide _); [|by intros [= <- _]].
    unfold m_bind, attempt. destruct (db_get _ _ _ w) as [[x|x] w1]; by intros [= <- _].
  - intros b Hb. assert (db_kept (db_update LMSSession_table Sessions LMSSessionPreUpdate session_refs b))
      by (eapply keeps_db_update; [apply _..|done]). db_tac.
Qed.
End sessions.
End loops.

#[export] Hint Resolve keeps_EnrollStudents keeps_save_attendance keeps_bulk_loop keeps_CreateSessions keeps_UpdateSession : sound.
