(* ===== verification/LmsDashboard.v ===== *)
(** * Dashboard and reports (app/lms/dashboard.go, report.go)

    The counts a user sees on the start page, by role, with the queries of
    dashboard_store.go, lead_store.go, session_store.go and
    student_class_store.go behind them, and the reports.

    The clock counts milliseconds since 1970; the time zone of the database
    session is the parameter [DbZone].  A revenue is the decimal sum before its
    conversion to a float64. *)

From stdpp Require Import strings.
From S2P Require Import Prelude.
From S2P Require Import GoString.
From S2P Require Import GoUtf8.
From S2P Require Import GoRunes.
From S2P Require Import GoTime.
From S2P Require Import LmsDate.
From S2P Require Import LmsModel.
From S2P Require Import Hashers.
From S2P Require Import PlatUser.
From S2P Require Import CallStore.
From S2P Require Import LmsStore.
From S2P Require Import LmsTables.
From S2P Require Import LmsApp.
From S2P Require Import LmsColumns.
From S2P Require Import LmsQuery.
From S2P Require Import LmsContent.
From S2P Require Import LmsRoles.
From S2P Require Import UserStore.
From S2P Require Import LmsUsers.

Local Open Scope string_scope.
Local Open Scope go_scope.

(** The offset of the session's time zone at an instant, in seconds east. *)
Class DbZone := { db_offset : Z → Z }.

(** [LIKE '%needle%']; the needles here have no wildcards. *)
Fixpoint contains (needle s : string) : bool :=
  String.prefix needle s || match s with "" => false | String _ s => contains needle s end.

Definition count_rows {X} (P : X → bool) (m : gmap string X) : Z :=
  Z.of_nat (length (filter (λ e : string * X, P e.2 = true) (map_to_list m))).

Record DashboardStats := {
  TotalStudents : option Z;
  TotalTeachers : option Z;
  TotalClasses : option Z;
  TotalCourses : option Z;
  TotalLeads : option Z;
  TotalRevenue : option string;
  TotalNewLeadsThisMonth : option Z;
  TotalChildren : option Z;
  TotalUpcomingSessions : option Z;
}.

(** The fields some dashboard fills in; the others stay empty. *)
Definition stats (students classes newLeads children upcoming : option Z) : DashboardStats :=
  {| TotalStudents := students; TotalTeachers := None; TotalClasses := classes; TotalCourses := None;
     TotalLeads := None; TotalRevenue := None; TotalNewLeadsThisMonth := newLeads; TotalChildren := children;
     TotalUpcomingSessions := upcoming |}.

Inductive Report (D : Type) :=
  | EnrollmentReport (totalEnrollments : Z)
  | RevenueReport (totalRevenue : D)
  | AttendanceReport (present absent : Z)
  | CourseProgressReport (totalSubmissions gradedSubmissions : Z).
Arguments EnrollmentReport {D} _.
Arguments RevenueReport {D} _.
Arguments AttendanceReport {D} _ _.
Arguments CourseProgressReport {D} _ _.

(** ** Dates of the database *)

(** Year and month of an instant of the session's calendar, in seconds since 1970. *)
Definition year_month `{DbZone} (secs : Z) : Z * Z :=
  let t := (unix_epoch + secs)%Z in
  let '(y, m, _) := civil_of_days ((t + db_offset t) / day)%Z in (y, m).

(** What to_timestamp takes. *)
Definition timestamp_ok (secs : Z) : bool := (-210866803200 <=? secs)%Z && (secs <? 9224318016000)%Z.

(** [CURRENT_DATE], as days since 0001-01-01. *)
Definition current_date `{DbZone} (now : Z) : Z :=
  let t := (unix_epoch + now / 1000)%Z in ((t + db_offset t) / day)%Z.

Section dashboard.
Context `{UnicodeTables} `{UnicodeLower} `{UserLib} `{Crypto} `{Decimal D} `{LmsEnv} `{GoRange}.
Context `{UsersEnv} `{QmHelper} `{DbZone}.

Abbreviation US := (M (users_world D) storeError).
Abbreviation UM := (M (users_world D) lmsError).
Abbreviation SM := (M (lms_world D) storeError).

(** ** Queries *)

Definition counts_as_student (u : User) : bool := contains "STUDENT" (User_Roles u) && (User_DeleteAt u =? 0)%Z.

Definition CountStudents : US Z :=
  or_throw (on_users (λ n d,
    (if lms_fault n then Err (ErrDatabase "failed to count students") else Ok (count_rows counts_as_student (us_rows d)), d))).

Definition is_child_of (parentID : string) (u : User) : bool :=
  (User_DeleteAt u =? 0)%Z && bool_decide (User_Props u !! "parent_id" = Some parentID).

(** Id, user name and e-mail, in any order. *)
Definition GetChildrenByParentID (parentID : string) : US (list (string * string * string)) :=
  or_throw (on_users (λ n d,
    (if lms_fault n then Err (ErrDatabase "failed to get children by parent id")
     else Ok ((λ u, (User_Id u, User_Username u, User_Email u)) <$>
              filter (λ u, is_child_of parentID u = true) (go_range (us_rows d)).*2), d))).

(** A statement of the learning system's tables. *)
Definition lmsS {A} (m : SM A) : US A := λ w, let '(r, l) := m (uw_lms w) in (r, UsersWorld l (uw_users w)).

(** [createat], which holds milliseconds, is read as seconds. *)
Definition new_this_month (now : Z) (counselorId : string) (l : Lead) : bool :=
  bool_decide (Lead_Status l = "NEW") && bool_decide (year_month (Lead_Createat l) = year_month (now / 1000)) &&
  (negb (IsValidId counselorId) || bool_decide (Lead_CounselorID l = Some counselorId)).

Definition CountNewThisMonth (counselorId : string) : US Z :=
  lmsS (on_table Leads (λ n d,
    (if lms_fault n || negb (forallb (λ e : string * Lead,
                               negb (bool_decide (Lead_Status e.2 = "NEW")) || timestamp_ok (Lead_Createat e.2))
                             (map_to_list (db_leads d)))
     then Err (ErrDatabase "failed to count new leads this month")
     else Ok (count_rows (new_this_month (lms_clock n) counselorId) (db_leads d)), tget Leads d))).

Definition CountByStudent (studentID status : string) : US Z :=
  lmsS (on_table Enrolments (λ n d,
    (if lms_fault n then Err (ErrDatabase "failed to count student classes")
     else Ok (count_rows (λ e, bool_decide (StudentClass_StudentID e = studentID) &&
                               (empty status || bool_decide (StudentClass_Status e = status))) (db_enrolments d)),
     tget Enrolments d))).

Definition is_upcoming (now : Z) (s : LMSSession) : bool :=
  bool_decide (LMSSession_Status s = "SCHEDULED") && (current_date now <=? LMSSession_Date s / day)%Z.

(** The join of sessions and enrolments: its size. *)
Definition upcoming_pairs (now : Z) (studentID : string) (d : lmsDB D) : Z :=
  foldr (λ e : string * LMSSession, Z.add
    (if is_upcoming now e.2
     then count_rows (λ sc, bool_decide (StudentClass_ClassID sc = LMSSession_ClassID e.2) &&
                            bool_decide (StudentClass_StudentID sc = studentID)) (db_enrolments d)
     else 0%Z)) 0%Z (map_to_list (db_sessions d)).

Definition CountUpcomingByStudent (studentID : string) : US Z :=
  lmsS (on_table Sessions (λ n d,
    (if lms_fault n then Err (ErrDatabase "failed to count upcoming sessions by student")
     else Ok (upcoming_pairs (lms_clock n) studentID d), tget Sessions d))).

(** ** GetDashboard *)

(** The cause becomes text of the error. *)
Definition dashboard_error (id : string) (_ : storeError) : lmsError := LmsError id 500 None.

Definition class_filter (column value : string) : ClassFilterOpts :=
  {| class_opts := {| WhereAnds := [{| wc_Column := column; wc_Value := AnyString value; wc_Operator := OperatorEq |}];
                      WhereOrs := []; Orderings := []; Limit := 0; Offset := 0; CountTotal := true |};
     class_search := "" |}.

Section engine.
Context `{Engine D Class}.

Definition getAdminDashboard : UM DashboardStats :=
  totalStudents <- wrapU (dashboard_error "app.lms.dashboard.total_students.app_error") CountStudents ;;
  activeClasses <- wrapU (dashboard_error "app.lms.dashboard.active_classes.app_error")
                     (lmsS (ClassStore_Search (class_filter "classes.status" ClassStatusOpen))) ;;
  newLeads <- wrapU (dashboard_error "app.lms.dashboard.new_leads.app_error") (CountNewThisMonth "") ;;
  m_ret (stats (Some totalStudents) (Some activeClasses.2) (Some newLeads) None None).

Definition getCounselorDashboard (id : string) : UM DashboardStats :=
  newLeads <- wrapU (dashboard_error "app.lms.dashboard.new_leads.app_error") (CountNewThisMonth id) ;;
  m_ret (stats None None (Some newLeads) None None).

Definition getTeacherDashboard (userID : string) : UM DashboardStats :=
  myClasses <- wrapU (dashboard_error "app.lms.dashboard.my_classes.app_error")
                 (lmsS (ClassStore_Search (class_filter "classes.teacher_id" userID))) ;;
  m_ret (stats None (Some myClasses.2) None None None).

Definition getParentDashboard (userID : string) : UM DashboardStats :=
  children <- wrapU (dashboard_error "app.lms.dashboard.child_info.app_error") (GetChildrenByParentID userID) ;;
  m_ret (stats None None None (Some (Z.of_nat (length children))) None).

Definition getStudentDashboard (userID : string) : UM DashboardStats :=
  myClasses <- wrapU (dashboard_error "app.lms.dashboard.student_classes.app_error") (CountByStudent userID "ACTIVE") ;;
  upcoming <- wrapU (dashboard_error "app.lms.dashboard.upcoming_sessions.app_error") (CountUpcomingByStudent userID) ;;
  m_ret (stats None (Some myClasses) None None (Some upcoming)).

Definition GetDashboard (role userID : string) : UM DashboardStats :=
  if bool_decide (role = RoleLmsSuperAdminRoleId) || bool_decide (role = RoleLmsAdminRoleId) then getAdminDashboard
  else if bool_decide (role = RoleLmsTeacherRoleId) then getTeacherDashboard userID
  else if bool_decide (role = RoleLmsParentRoleId) then getParentDashboard userID
  else if bool_decide (role = RoleLmsStudentRoleId) then getStudentDashboard userID
  else if bool_decide (role = RoleLmsCounselorRoleId) then getCounselorDashboard userID
  else failU "app.lms.dashboard.invalid_role.app_error" 400.

(** The route: role and user are what the query string says. *)
Definition getDashboard (may : bool) (role user_id : string) : UM DashboardStats :=
  guarded may
    (if empty role then failU "api.context.invalid_url_param.app_error" 400 else GetDashboard role user_id).
End engine.

(** ** GetReport *)

Definition count_where {X} (L : lens D X) (id : string) (P : X → bool) : UM Z :=
  wrapU (internalU id) (lmsS (on_table L (λ n d,
    (if lms_fault n then Err (ErrDatabase "failed to query") else Ok (count_rows P (tget L d)), tget L d)))).

Definition revenue (d : lmsDB D) : D := dec_sum (Payment_Amount <$> (go_range (db_payments d)).*2).

Definition GetReport (reportType : string) : UM (Report D) :=
  if decide (reportType = "enrollment") then
    total <- count_where Enrolments "app.lms.report.enrollment.app_error"
               (λ e, bool_decide (StudentClass_Status e = "ACTIVE")) ;;
    m_ret (EnrollmentReport total)
  else if decide (reportType = "revenue") then
    total <- wrapU (internalU "app.lms.report.revenue.app_error") (lmsS (on_table Payments (λ n d,
      (if lms_fault n then Err (ErrDatabase "failed to query") else Ok (revenue d), tget Payments d)))) ;;
    m_ret (RevenueReport total)
  else if decide (reportType = "attendance") then
    present <- count_where Attendances "app.lms.report.attendance.app_error"
                 (λ a, bool_decide (Attendance_Status a = "PRESENT")) ;;
    absent <- count_where Attendances "app.lms.report.attendance.app_error"
                (λ a, bool_decide (Attendance_Status a = "ABSENT")) ;;
    m_ret (AttendanceReport present absent)
  else if decide (reportType = "course-progress") then
    total <- count_where Submissions "app.lms.report.course_progress.app_error" (λ _, true) ;;
    graded <- count_where Submissions "app.lms.report.course_progress.app_error"
                (λ s, bool_decide (is_Some (Submission_Feedback s))) ;;
    m_ret (CourseProgressReport total graded)
  else failU "app.lms.report.invalid_type.app_error" 400.

Definition getReport (may : bool) (type_ : string) : UM (Report D) := guarded may (GetReport type_).
End dashboard.
