(* ===== verification/LmsDashboardProps.v ===== *)
(** * Properties of the dashboard

    Whom the counts of the start page leave out. *)

From Stdlib Require Import Ascii.
From stdpp Require Import pretty.
From S2P Require Import Prelude.
From S2P Require Import GoString.
From S2P Require Import GoUtf8.
From S2P Require Import GoRunes.
From S2P Require Import GoTime.
From S2P Require Import LmsModel.
From S2P Require Import Hashers.
From S2P Require Import PlatUser.
From S2P Require Import CallStore.
From S2P Require Import LmsStore.
From S2P Require Import LmsTables.
From S2P Require Import LmsApp.
From S2P Require Import LmsColumns.
From S2P Require Import LmsQuery.
From S2P Require Import LmsContent.
From S2P Require Import LmsRoles.
From S2P Require Import UserStore.
From S2P Require Import LmsUsers.
From S2P Require Import LmsUsersDemo.
From S2P Require Import LmsUsersProps.
From S2P Require Import LmsDashboard.

Local Open Scope string_scope.

(** ** Counting rows *)

Lemma count_rows_insert {X} (P : X → bool) (m : gmap string X) k x :
  m !! k = None → count_rows P (<[k := x]> m) = ((if P x then 1 else 0) + count_rows P m)%Z.
Proof.
  intros Hk. unfold count_rows. rewrite (map_to_list_insert m k x Hk), filter_cons. cbn.
  destruct (P x) eqn:E; case_decide; try congruence; cbn [length]; lia.
Qed.

Lemma count_rows_none {X} (P : X → bool) (m : gmap string X) :
  (∀ k x, m !! k = Some x → P x = false) → count_rows P m = 0%Z.
Proof.
  intros Hn. unfold count_rows. destruct (filter _ (map_to_list m)) as [|[k x] l] eqn:E; [done|]. exfalso.
  assert ((k, x) ∈ filter (λ e : string * X, P e.2 = true) (map_to_list m)) as Hin by (rewrite E; left).
  apply list_elem_of_filter in Hin as [Hp Hin%elem_of_map_to_list]. cbn in Hp. by rewrite (Hn _ _ Hin) in Hp.
Qed.

(** ** Text *)

Lemma prefix_has_char c s t : String.prefix (String c s) t = true → has_char c t = true.
Proof.
  destruct t as [|a t]; [done|]. cbn -[Ascii.eqb]. destruct (Ascii.ascii_dec c a) as [->|]; [|done].
  intros _. by rewrite Ascii.eqb_refl.
Qed.

Lemma contains_has_char c s t : contains (String c s) t = true → has_char c t = true.
Proof.
  induction t as [|a t IH]; [done|]. cbn [contains]. rewrite orb_true_iff. intros [Hp|Hc].
  - by apply prefix_has_char in Hp.
  - apply IH in Hc. cbn -[Ascii.eqb]. rewrite Hc. by destruct (Ascii.eqb _ _).
Qed.

(** ** Months *)

Section months.
Context `{DbZone}.

(** Two instants of one month of one year are less than a year apart, up to
    the zone. *)
Lemma same_year_month a b :
  year_month a = year_month b →
  (∀ t, Z.abs (db_offset t) ≤ day)%Z → (Z.abs (a - b) ≤ 368 * day)%Z.
Proof.
  unfold year_month. intros Heq Hz. pose proof (Hz (unix_epoch + a)%Z) as Ha. pose proof (Hz (unix_epoch + b)%Z) as Hb.
  set (na := ((unix_epoch + a + db_offset (unix_epoch + a)) / day)%Z) in *.
  set (nb := ((unix_epoch + b + db_offset (unix_epoch + b)) / day)%Z) in *.
  destruct (civil_of_days_correct na) as (y & m & d & Hca & Hva & Hda).
  destruct (civil_of_days_correct nb) as (y' & m' & d' & Hcb & Hvb & Hdb).
  rewrite Hca, Hcb in Heq. injection Heq as <- <-.
  pose proof (date_in_year _ _ _ Hva) as Ia. pose proof (date_in_year _ _ _ Hvb) as Ib.
  rewrite next_year, Hda in Ia. rewrite next_year, Hdb in Ib.
  assert (Z.abs (na - nb) ≤ 365)%Z as Hab by (destruct (is_leap y); lia).
  unfold na, nb, day in *. revert Ha Hb Hab. generalize (db_offset (unix_epoch + a)), (db_offset (unix_epoch + b)).
  clear. intros oa ob. generalize unix_epoch. intros e Ha Hb Hab. Z.to_euclidean_division_equations. lia.
Qed.
End months.

Section props.
Context `{UnicodeTables} `{UnicodeLower} `{UserLib} `{CryptoOk} `{Decimal D} `{LmsEnv} `{GoRange}.
Context `{UsersEnv} `{JsonProps J} `{DbZone}.

Abbreviation UW := (users_world D).
Abbreviation rows w := (us_rows (uw_users w)).

(** A new student is counted nowhere.  When CreateStudent succeeds, the
    number of students the administrators see is what it was, and so is every
    parent's number of children, the parent of the new student included,
    unless the client wrote the parent into the props itself. *)
Theorem new_student_is_counted_nowhere user props (w w' : UW) saved :
  CreateStudent (J:=J) (Some user) props w = (Ok saved, w') →
  (∃ row, rows w' = <[User_Id saved := row]> (rows w) ∧ User_Roles row = RoleLmsStudentRoleId ∧
     User_ParentId row = User_ParentId user) ∧
  count_rows counts_as_student (rows w') = count_rows counts_as_student (rows w) ∧
  (User_Props user !! "parent_id" = None → ∀ parentID,
     count_rows (is_child_of parentID) (rows w') = count_rows (is_child_of parentID) (rows w)).
Proof.
  intros [(e & ? & _)|(u & r0 & Hso & Hs & Hr)]%CreateStudent_inv; [done|].
  assert (User_Password u ≠ "") as Hpw by (by rewrite (so_password _ _ Hso)).
  apply saveStudent_spec in Hs as [(saved' & obj & Hsave & ->)|(e & -> & _)]; [|done|done].
  injection Hr as <-.
  apply us_save_row in Hsave as (row & draw & id & _ & Hnone & Hrows & _ & _ & Hro & _ & _ & Hpar & Hprops & _); [|done].
  rewrite (so_roles _ _ Hso) in Hro. rewrite (so_parent _ _ Hso) in Hpar. split_and!.
  - by exists row.
  - rewrite Hrows, count_rows_insert by done.
    assert (counts_as_student row = false) as ->; [|lia]. unfold counts_as_student. by rewrite Hro.
  - intros Hno parentID. rewrite Hrows, count_rows_insert by done.
    assert (is_child_of parentID row = false) as ->; [|lia]. unfold is_child_of.
    rewrite Hprops by done. rewrite (so_props _ _ Hso), Hno by done. by rewrite andb_false_r.
Qed.

(** The times of a system that runs in this age: from September 2001 to 2255. *)
Definition millis_of_our_age (t : Z) : Prop := (1000000000000 ≤ t < 9000000000000)%Z.

(** No lead is ever new.  The count reads the milliseconds of createat as
    seconds, which puts every lead of our age tens of thousands of years ahead: while
    the clock and the leads are of our age the count is zero, also right after
    a lead was stored. *)
Theorem new_leads_never_counted counselorId (w w' : UW) r :
  (∀ n, millis_of_our_age (lms_clock n)) → (∀ t, Z.abs (db_offset t) ≤ day)%Z →
  (∀ id l, db_leads (lms_db (uw_lms w)) !! id = Some l → millis_of_our_age (Lead_Createat l)) →
  lms_fault (lms_ticks (uw_lms w)) = false →
  CountNewThisMonth counselorId w = (r, w') → r = Ok 0%Z.
Proof.
  intros Hclock Hzone Hleads Hf. unfold CountNewThisMonth, lmsS, on_table. rewrite Hf. cbn [orb tget Leads].
  assert (forallb (λ e : string * Lead, negb (bool_decide (Lead_Status e.2 = "NEW")) || timestamp_ok (Lead_Createat e.2))
    (map_to_list (db_leads (lms_db (uw_lms w)))) = true) as ->.
  { apply List.forallb_forall. intros [k l] Hin%list_elem_of_In%elem_of_map_to_list. cbn.
    apply Hleads in Hin. unfold millis_of_our_age in Hin. unfold timestamp_ok.
    rewrite (proj2 (Z.leb_le _ _)), (proj2 (Z.ltb_lt _ _)) by lia. by rewrite orb_true_r. }
  cbn [negb]. intros [= <- <-]. f_equal. apply count_rows_none. intros k l Hl.
  unfold new_this_month. destruct (bool_decide (year_month _ = _)) eqn:E; [|by rewrite andb_false_r].
  apply bool_decide_eq_true, same_year_month in E; [|done]. exfalso.
  pose proof (Hclock (lms_ticks (uw_lms w))) as Hc. apply Hleads in Hl. unfold millis_of_our_age, day in *.
  Z.to_euclidean_division_equations. lia.
Qed.
End props.

(** ** At the concrete school *)

Section at_school.
Import School.
#[local] Existing Instance cents.

Lemma new_student_is_counted_nowhere_witness :
  ∃ saved, created.1 = Ok saved ∧
    count_rows counts_as_student (us_rows (uw_users created.2)) = 0%Z ∧
    count_rows (is_child_of "") (us_rows (uw_users created.2)) = 0%Z.
Proof.
  assert (match (CreateStudent (J:=string) (Some School.an) None School.nobody).1 with Ok _ => True | Err _ => False end) as Hok
    by (vm_compute; exact I).
  pose proof (surjective_pairing (CreateStudent (J:=string) (Some School.an) None School.nobody)) as Hrun.
  destruct (CreateStudent (J:=string) (Some School.an) None School.nobody).1 as [saved|] eqn:E; [|destruct Hok].
  destruct (new_student_is_counted_nowhere (J:=string) School.an None School.nobody _ saved Hrun) as (_ & Hs & Hp).
  exists saved. exact (conj E (conj Hs (Hp eq_refl ""))).
Defined.
End at_school.

(** A school of today, whose clock counts from November 2023. *)
Module Today.
Import School.
#[local] Existing Instance cents.
#[export] Instance now : LmsEnv := {|
  lms_clock := λ n, (1700000000000 + Z.of_nat n mod 1000000000)%Z;
  lms_id := @lms_id quiet;
  lms_fault := λ _, false;
|}.
#[export] Instance utc : DbZone := {| db_offset _ := 0%Z |}.

Definition with_lead : users_world Z := (createLead true lead nobody).2.

Definition of_ageb (w : users_world Z) : bool :=
  forallb (λ e : string * Lead, (1000000000000 <=? Lead_Createat e.2)%Z && (Lead_Createat e.2 <? 9000000000000)%Z)
    (map_to_list (db_leads (lms_db (uw_lms w)))).

Lemma of_ageb_ok w id l :
  of_ageb w = true → db_leads (lms_db (uw_lms w)) !! id = Some l → millis_of_our_age (Lead_Createat l).
Proof.
  unfold of_ageb. rewrite List.forallb_forall. intros Hf Hl%elem_of_map_to_list%list_elem_of_In.
  apply Hf in Hl. apply andb_true_iff in Hl as [Ha%Z.leb_le Hb%Z.ltb_lt]. cbn in *. unfold millis_of_our_age. lia.
Qed.

Lemma new_leads_never_counted_witness :
  size (db_leads (lms_db (uw_lms with_lead))) = 1 ∧ ∃ w', CountNewThisMonth "" with_lead = (Ok 0%Z, w').
Proof.
  split; [vm_compute; reflexivity|].
  assert (of_ageb with_lead = true) as Hage by (vm_compute; reflexivity).
  assert ((CountNewThisMonth "" with_lead).1 = Ok 0%Z) as Hr.
  { refine (new_leads_never_counted "" with_lead _ _ _ _ (λ id l, of_ageb_ok with_lead id l Hage) eq_refl
      (surjective_pairing (CountNewThisMonth "" with_lead))).
    - intros n. unfold millis_of_our_age. cbn. pose proof (Z.mod_pos_bound (Z.of_nat n) 1000000000). lia.
    - intros t. cbn. unfold day. lia. }
  exists (CountNewThisMonth "" with_lead).2.
  exact (eq_trans (surjective_pairing (CountNewThisMonth "" with_lead)) (f_equal (λ r, (r, _)) Hr)).
Defined.
End Today.
