(* ===== verification/Login.v ===== *)
(** * Logging in (server/channels/app/authentication.go, login.go, shared/mfa/mfa.go)

    The password check with its migration to the latest hasher, the counter of
    failed attempts, one-time passwords, and the login by id, user name or
    e-mail.  A user is read through the cache of the user store, as in the code.

    The one-time password library is the parameter [Otp].  The directory (LDAP)
    is an enterprise module and the cloud token login needs a cloud licence:
    both are taken to be absent. *)

From stdpp Require Import strings.
From S2P Require Import Prelude.
From S2P Require Import GoString.
From S2P Require Import GoUtf8.
From S2P Require Import GoRunes.
From S2P Require Import LmsModel.
From S2P Require Import PhcParser.
From S2P Require Import Hashers.
From S2P Require Import PlatUser.
From S2P Require Import CallStore.
From S2P Require Import LmsStore.
From S2P Require Import LmsTables.
From S2P Require Import LmsApp.
From S2P Require Import UserStore.
From S2P Require Import LmsUsers.

Local Open Scope string_scope.
Local Open Scope go_scope.

Definition MissingAccountError : string := "app.user.missing_account.const".

(** The settings the login reads. *)
Class LoginConfig := {
  MaximumLoginAttempts : Z;
  EnableMultifactorAuthentication : bool;
  RequireEmailVerification : bool;
  EnableSignInWithUsername : bool;
  EnableSignInWithEmail : bool;
}.

(** dgoogauth: for the secret, the used time steps and the token of an attempt
    at the clock [now], an error, a refusal, or the time steps used after it. *)
Class Otp := otp_Authenticate : Z → string → list Z → string → option (option (list Z)).

(** Documented behaviour of DisallowReuse: a token that was accepted is refused
    while the time steps recorded with it are. *)
Class OtpOk `{Otp} := {
  otp_reuse : ∀ now secret used token used', otp_Authenticate now secret used token = Some (Some used') →
    ∀ now', otp_Authenticate now' secret used' token = Some None;
  (** time steps are 30 second counters in the range of int *)
  otp_range : ∀ now secret used token used', otp_Authenticate now secret used token = Some (Some used') →
    Forall (λ t, 0 ≤ t < int64_half)%Z used';
}.

Definition with_used (ts : list string) (now : Z) (u : User) : User :=
  {| User_Id := User_Id u; User_CreateAt := User_CreateAt u; User_UpdateAt := now;
     User_DeleteAt := User_DeleteAt u; User_Username := User_Username u; User_Password := User_Password u;
     User_AuthData := User_AuthData u; User_AuthService := User_AuthService u; User_Email := User_Email u;
     User_EmailVerified := User_EmailVerified u; User_Nickname := User_Nickname u;
     User_FirstName := User_FirstName u; User_LastName := User_LastName u;
     User_Position := User_Position u; User_Roles := User_Roles u;
     User_AllowMarketing := User_AllowMarketing u; User_Props := User_Props u;
     User_NotifyProps := User_NotifyProps u; User_LastPasswordUpdate := User_LastPasswordUpdate u;
     User_LastPictureUpdate := User_LastPictureUpdate u; User_FailedAttempts := User_FailedAttempts u;
     User_Locale := User_Locale u; User_Timezone := User_Timezone u; User_MfaActive := User_MfaActive u;
     User_MfaSecret := User_MfaSecret u; User_RemoteId := User_RemoteId u;
     User_LastActivityAt := User_LastActivityAt u; User_IsBot := User_IsBot u;
     User_BotDescription := User_BotDescription u; User_BotLastIconUpdate := User_BotLastIconUpdate u;
     User_TermsOfServiceId := User_TermsOfServiceId u;
     User_TermsOfServiceCreateAt := User_TermsOfServiceCreateAt u;
     User_DisableWelcomeEmail := User_DisableWelcomeEmail u; User_LastLogin := User_LastLogin u;
     User_MfaUsedTimestamps := ts; User_Phone := User_Phone u; User_ParentId := User_ParentId u |}.

(** ** Statements *)

(** No row is no error. *)
Definition UserStore_StoreMfaUsedTimestamps (fault : bool) (now : Z) (d : user_db) (id : string) (ts : list Z)
    : res storeError unit * user_db :=
  if fault then (Err (ErrDatabase "failed to update User"), d)
  else (Ok tt, with_rows (alter (with_used (map Itoa ts) now) id (us_rows d)) d).

Definition UserStore_GetMfaUsedTimestamps (fault : bool) (d : user_db) (id : string) : res storeError (list Z) :=
  if fault then Err (ErrDatabase "failed to get MFA used timestamps")
  else match us_rows d !! id with
       | None => Err (ErrDatabase "failed to get MFA used timestamps")
       | Some u =>
           match mapM Atoi (User_MfaUsedTimestamps u) with
           | Some ts => Ok ts
           | None => Err (ErrDatabase "failed to parse MFA used timestamp")
           end
       end.

Section login.
Context `{UnicodeTables} `{UnicodeLower} `{UserLib} `{Crypto} `{Decimal D} `{LmsEnv} `{GoRange}.
Context `{UsersEnv} `{LoginConfig} `{Otp}.

Abbreviation US := (M (users_world D) storeError).
Abbreviation UM := (M (users_world D) lmsError).

Definition us_password (id hashed : string) : US unit :=
  or_throw (on_users (λ n d, UserStore_UpdatePassword (lms_fault n) (lms_clock n) d id hashed)).

Definition us_attempts (id : string) (attempts : Z) : US unit :=
  or_throw (on_users (λ n d, CachedUserStore_UpdateFailedPasswordAttempts (lms_fault n) d id attempts)).

Definition us_used (id : string) : US (list Z) :=
  or_throw (on_users (λ n d, (UserStore_GetMfaUsedTimestamps (lms_fault n) d id, d))).

Definition us_store_used (id : string) (ts : list Z) : US unit :=
  or_throw (on_users (λ n d, UserStore_StoreMfaUsedTimestamps (lms_fault n) (lms_clock n) d id ts)).

Definition us_for_login (loginId : string) : US User :=
  or_throw (on_users (λ n d,
    (UserStore_GetForLogin (lms_fault n) d loginId EnableSignInWithUsername EnableSignInWithEmail, d))).

(** [InvalidateCacheForUser], as far as the user store goes. *)
Definition InvalidateCacheForUser {E} (id : string) : M (users_world D) E unit :=
  m_modify (λ w, UsersWorld (uw_lms w) (InvalidateProfileCacheForUser id (uw_users w))).

(** NewAppError(..., id, ..., status).Wrap(err) *)
Definition wrapped (id : string) (status : Z) (e : storeError) : lmsError := LmsError id status (Some e).

(** ** One-time passwords *)

(** The time steps used after the token; [None]: [InvalidToken]. *)
Definition mfa_authenticate (secret : string) (usedTs : list Z) (token : string) : US (option (list Z)) :=
  now <- m_gets (λ w, lms_clock (lms_ticks (uw_lms w))) ;;
  match otp_Authenticate now secret usedTs (TrimSpace token) with
  | None => m_throw (ErrDatabase "unable to parse the token")
  | Some r => m_ret r
  end.

Definition ValidateToken (user : User) (token : string) : US bool :=
  usedTs <- us_used (User_Id user) ;;
  r <- mfa_authenticate (User_MfaSecret user) usedTs token ;;
  match r with
  | None => m_ret false
  | Some used => us_store_used (User_Id user) used ;;; m_ret true
  end.

Definition CheckUserMfa (user : User) (token : string) : UM unit :=
  if negb (User_MfaActive user) || negb EnableMultifactorAuthentication then m_ret tt
  else
  ok <- wrapU (wrapped "mfa.validate_token.authenticate.app_error" 400) (ValidateToken user token) ;;
  if ok : bool then m_ret tt else failU "api.user.check_user_mfa.bad_code.app_error" 401.

(** ** Passwords *)

(** [draw] is the number of the salt. *)
Definition migratePassword (user : User) (password : string) : UM unit :=
  draw <- m_gets (λ w, lms_ticks (uw_lms w)) ;;
  match Hash draw password with
  | Err _ => failU "app.user.check_user_password.failed_migration" 500
  | Ok newHash =>
      wrapU (wrapped "app.user.check_user_password.failed_update" 500) (us_password (User_Id user) newHash) ;;;
      InvalidateCacheForUser (User_Id user)
  end.

Definition count_failure (user : User) : UM unit :=
  wrapU (wrapped "app.user.update_failed_pwd_attempts.app_error" 500)
    (us_attempts (User_Id user) (User_FailedAttempts user + 1)).

Definition reset_failures (user : User) : UM unit :=
  wrapU (wrapped "app.user.update_failed_pwd_attempts.app_error" 500) (us_attempts (User_Id user) 0).

Definition checkUserPassword (user : User) (password : string) (invalidateCache : bool) : UM unit :=
  if empty (User_Password user) || empty password
  then failU "api.user.check_user_password.invalid.app_error" 401
  else match GetHasherFromPHCString (User_Password user) with
       | Err _ => failU "api.user.check_user_password.invalid_hash.app_error" 401
       | Ok (hasher, phc) =>
           match CompareHashAndPassword hasher phc password with
           | Some ErrMismatchedHashAndPassword =>
               count_failure user ;;;
               (if invalidateCache then InvalidateCacheForUser (User_Id user) else m_ret tt) ;;;
               failU "api.user.check_user_password.invalid.app_error" 401
           | Some _ => failU "app.valid_password_generic.app_error" 500
           | None => if IsLatestHasher hasher then m_ret tt else migratePassword user password
           end
       end.

(** ** The checks around the password *)

Definition checkUserLoginAttempts (user : User) (maxAttempts : Z) : UM unit :=
  if (maxAttempts <=? User_FailedAttempts user)%Z
  then failU (if decide (User_AuthService user = UserAuthServiceLdap)
              then "api.user.check_user_login_attempts.too_many_ldap.app_error"
              else "api.user.check_user_login_attempts.too_many.app_error") 401
  else m_ret tt.

Definition checkUserNotDisabled (user : User) : UM unit :=
  if (0 <? User_DeleteAt user)%Z then failU "api.user.login.inactive.app_error" 401 else m_ret tt.

Definition checkUserNotBot (user : User) : UM unit :=
  if User_IsBot user then failU "api.user.login.bot_login_forbidden.app_error" 401 else m_ret tt.

Definition CheckUserPreflightAuthenticationCriteria (user : User) : UM unit :=
  checkUserNotDisabled user ;;; checkUserNotBot user ;;; checkUserLoginAttempts user MaximumLoginAttempts.

Definition CheckUserPostflightAuthenticationCriteria (user : User) : UM unit :=
  if negb (User_EmailVerified user) && RequireEmailVerification
  then failU "api.user.login.not_verified.app_error" 401 else m_ret tt.

(** [App.GetUser], with the status the callers give its error. *)
Definition GetUser_status (e : storeError) : lmsError :=
  if IsErrNotFound e then LmsError MissingAccountError 400 (Some e)
  else LmsError "app.user.get_by_username.app_error" 500 (Some e).

Definition GetUser (userID : string) : UM User := wrapU GetUser_status (us_get userID).

(** A wrong one-time password counts as a failed attempt. *)
Definition mfa_or_count (user : User) (mfaToken : string) : UM unit := λ w,
  match CheckUserMfa user mfaToken w with
  | (Ok tt, w') => (Ok tt, w')
  | (Err e, w') => ((if negb (empty mfaToken) then count_failure user else m_ret tt) ;;; m_throw e) w'
  end.

Definition CheckPasswordAndAllCriteria (userID password mfaToken : string) : UM unit :=
  user <- GetUser userID ;;
  CheckUserPreflightAuthenticationCriteria user ;;;
  checkUserPassword user password false ;;;
  mfa_or_count user mfaToken ;;;
  reset_failures user ;;;
  CheckUserPostflightAuthenticationCriteria user.

(** The password of somebody who is already logged in. *)
Definition DoubleCheckPassword (user : User) (password : string) : UM unit :=
  checkUserLoginAttempts user MaximumLoginAttempts ;;;
  checkUserPassword user password true ;;;
  reset_failures user ;;;
  InvalidateCacheForUser (User_Id user).

(** ** The login *)

Definition with_status (status : Z) (e : lmsError) : lmsError := LmsError (le_id e) status (le_cause e).

Definition mapErr {A} (f : lmsError → lmsError) (m : UM A) : UM A := λ w,
  match m w with (Ok a, w') => (Ok a, w') | (Err e, w') => (Err (f e), w') end.

Definition authenticateUser (user : User) (password mfaToken : string) : UM User :=
  if decide (User_AuthService user = UserAuthServiceLdap)
  then failU "api.user.login_ldap.not_available.app_error" 501
  else if negb (empty (User_AuthService user))
  then failU "api.user.login.use_auth_service.app_error" 400
  else mapErr (with_status 401) (CheckPasswordAndAllCriteria (User_Id user) password mfaToken) ;;; m_ret user.

Definition no_user : lmsError := LmsError "store.sql_user.get_for_login.app_error" 400 None.

Definition GetUserForLogin (id loginId : string) : UM User :=
  if negb (EnableSignInWithEmail || EnableSignInWithUsername) then m_throw no_user
  else if negb (empty id) then GetUser id
  else wrapU (λ _, no_user) (us_for_login loginId).

Definition AuthenticateUserForLogin (id loginId password mfaToken : string) : UM User :=
  if empty password then failU "api.user.login.blank_pwd.app_error" 400
  else user <- GetUserForLogin id loginId ;; authenticateUser user password mfaToken.
End login.
