(* ===== verification/CreateUser.v ===== *)
(** * Creating an account (app/users/users.go, password.go, utils.go, app/user.go)

    App.CreateUser, which the learning system calls for employees and parents:
    the domain of the address, the roles, the password rules, the insert and
    the confirmation of the address.

    The names of the platform's groups and its settings are the parameter
    [UserConfig].  The preferences, websocket events and plugin hooks of a new
    user are left out. *)

From Stdlib Require Import Ascii.
From stdpp Require Import strings.
From S2P Require Import Prelude.
From S2P Require Import GoString.
From S2P Require Import GoUtf8.
From S2P Require Import GoRunes.
From S2P Require Import LmsModel.
From S2P Require Import Hashers.
From S2P Require Import PlatUser.
From S2P Require Import CallStore.
From S2P Require Import LmsStore.
From S2P Require Import LmsTables.
From S2P Require Import LmsApp.
From S2P Require Import LmsRoles.
From S2P Require Import UserStore.
From S2P Require Import LmsUsers.
From S2P Require Import Login.

Local Open Scope string_scope.
Local Open Scope go_scope.

Definition SystemGuestRoleId : string := "system_guest".
Definition PasswordMaximumLength : nat := 72.
Definition UserAuthServiceSaml : string := "saml".

(** The settings, the locales with translations, and the lookup of a group by
    its name. *)
Class UserConfig := {
  MinimumLength : nat;
  Lowercase : bool;
  Uppercase : bool;
  Number : bool;
  Symbol : bool;
  RestrictCreationToDomains : string;
  GuestRestrictCreationToDomains : string;
  DefaultClientLocale : string;
  supported_locale : string → bool;
  group_by_name : nat → string → res storeError unit;
}.

(** ** Passwords *)

Definition LowercaseLetters (c : ascii) : bool := is_lower c.
Definition UppercaseLetters (c : ascii) : bool := is_upper c.
Definition NUMBERS (c : ascii) : bool := is_digit c.
Definition SYMBOLS (c : ascii) : bool :=
  has_char c (bytes [32; 33; 34; 92; 35; 36; 37; 38; 39; 40; 41; 42; 43; 44; 45; 46; 47; 58; 59; 60; 61; 62; 63; 64;
                     91; 93; 94; 95; 96; 124; 126]%N).

(** strings.ContainsAny, for ASCII sets. *)
Definition ContainsAny (s : string) (set : ascii → bool) : bool := negb (all_chars (λ c, negb (set c)) s).

(** The id of the error, if any. *)
Definition IsPasswordValidWithSettings `{UserConfig} (password : string) : option string :=
  let short := (String.length password <? MinimumLength)%nat in
  let long := (PasswordMaximumLength <? String.length password)%nat in
  let length_id := ((if short then "_min_length" else "") +:+ (if long then "_max_length" else ""))%string in
  let missing (on : bool) (set : ascii → bool) := on && negb (ContainsAny password set) in
  let l := missing Lowercase LowercaseLetters in
  let u := missing Uppercase UppercaseLetters in
  let n := missing Number NUMBERS in
  let s := missing Symbol SYMBOLS in
  if short || long then Some ("model.user.is_valid.pwd" +:+ length_id +:+ ".app_error")
  else if l || u || n || s then
    Some ("model.user.is_valid.pwd" +:+ (if l then "_lowercase" else "") +:+ (if u then "_uppercase" else "") +:+
          (if n then "_number" else "") +:+ (if s then "_symbol" else "") +:+ ".app_error")
  else None.

(** ** Domains *)

(** strings.Replace of one byte by a space, everywhere. *)
Fixpoint blank (c : ascii) (s : string) : string :=
  match s with
  | "" => ""
  | String a s => String (if Ascii.eqb a c then " "%char else a) (blank c s)
  end.

Definition HasSuffix (s suffix : string) : bool :=
  let n := String.length s in
  let k := String.length suffix in
  (k <=? n)%nat && bool_decide (String.substring (n - k) k s = suffix).

Definition CheckEmailDomain `{UnicodeLower} (email domains : string) : bool :=
  empty domains ||
  existsb (λ d, HasSuffix (ToLower email) ("@" +:+ d))
    (Fields (TrimSpace (ToLower (blank comma (blank at_sign domains))))).

Definition CheckUserDomain `{UnicodeLower} (user : User) (domains : string) : bool :=
  CheckEmailDomain (User_Email user) domains.

(** ** Roles *)

Definition GetRoles (u : User) : list string := Fields (User_Roles u).

Definition IsGuest (u : User) : bool := IsInRole (User_Roles u) SystemGuestRoleId.
Definition IsSAMLUser (u : User) : bool := bool_decide (User_AuthService u = UserAuthServiceSaml).

Definition join_roles (l : list string) : string := String.concat " " l.

(** The very first account of the system becomes its administrator. *)
Definition created_roles (is_empty guest : bool) (user : User) : string :=
  if is_empty then SystemAdminRoleId +:+ " " +:+ SystemUserRoleId +:+ " " +:+ RoleLmsSuperAdminRoleId
  else
    let roles := GetRoles user in
    join_roles (if negb (bool_decide (SystemUserRoleId ∈ roles)) then (roles ++ [SystemUserRoleId])%list
                else if guest then [SystemGuestRoleId] else roles).

(** ** Store *)

(** excludeBots: users without a row in Bots. *)
Definition UserStore_IsEmpty (excludeBots fault : bool) (d : user_db) : res storeError bool :=
  if fault then Err (ErrDatabase "failed to check if table is empty")
  else Ok (forallb (λ e : string * User, excludeBots && bool_decide (is_Some (us_bots d !! e.1)))
             (map_to_list (us_rows d))).

Definition User_verified `{UserLib} (email : string) (now : Z) (u : User) : User :=
  User_with_UpdateAt now (User_with_EmailVerified true (User_with_Email (sql_lower email) u)).

(** No row is no error; the new address must not be another user's. *)
Definition UserStore_VerifyEmail `{UserLib} (fault : bool) (now : Z) (d : user_db) (id email : string)
    : res storeError string * user_db :=
  let t := us_rows d in
  let clashes := match t !! id with Some u => clash User_Email t (User_verified email now u) | None => false end in
  if fault || clashes then (Err (ErrDatabase "failed to update Users"), d)
  else (Ok id, with_rows (alter (User_verified email now) id t) d).

(** ** CreateUser *)

Inductive createError :=
  | AcceptedDomainError
  | ErrInvalidPassword (id : string)
  | UserStoreIsEmptyError
  | StoreError (e : storeError).

Section create.
Context `{UnicodeTables} `{UnicodeLower} `{UserLib} `{Crypto} `{Decimal D} `{LmsEnv} `{GoRange}.
Context `{UsersEnv} `{UserConfig}.

Abbreviation US := (M (users_world D) storeError).
Abbreviation UM := (M (users_world D) lmsError).
Abbreviation UC := (M (users_world D) createError).

Definition us_is_empty (excludeBots : bool) : US bool :=
  or_throw (on_users (λ n d, (UserStore_IsEmpty excludeBots (lms_fault n) d, d))).

Definition us_verify_email (id email : string) : US string :=
  or_throw (on_users (λ n d, UserStore_VerifyEmail (lms_fault n) (lms_clock n) d id email)).

(** An error of the store as one of the service. *)
Definition from_store {A} (f : storeError → createError) (m : US A) : UC A := λ w,
  match m w with (Ok a, w') => (Ok a, w') | (Err e, w') => (Err (f e), w') end.

Definition User_with_Locale (locale : string) (u : User) : User :=
  {| User_Id := User_Id u; User_CreateAt := User_CreateAt u; User_UpdateAt := User_UpdateAt u;
     User_DeleteAt := User_DeleteAt u; User_Username := User_Username u; User_Password := User_Password u;
     User_AuthData := User_AuthData u; User_AuthService := User_AuthService u; User_Email := User_Email u;
     User_EmailVerified := User_EmailVerified u; User_Nickname := User_Nickname u;
     User_FirstName := User_FirstName u; User_LastName := User_LastName u;
     User_Position := User_Position u; User_Roles := User_Roles u;
     User_AllowMarketing := User_AllowMarketing u; User_Props := User_Props u;
     User_NotifyProps := User_NotifyProps u; User_LastPasswordUpdate := User_LastPasswordUpdate u;
     User_LastPictureUpdate := User_LastPictureUpdate u; User_FailedAttempts := User_FailedAttempts u;
     User_Locale := locale; User_Timezone := User_Timezone u; User_MfaActive := User_MfaActive u;
     User_MfaSecret := User_MfaSecret u; User_RemoteId := User_RemoteId u;
     User_LastActivityAt := User_LastActivityAt u; User_IsBot := User_IsBot u;
     User_BotDescription := User_BotDescription u; User_BotLastIconUpdate := User_BotLastIconUpdate u;
     User_TermsOfServiceId := User_TermsOfServiceId u;
     User_TermsOfServiceCreateAt := User_TermsOfServiceCreateAt u;
     User_DisableWelcomeEmail := User_DisableWelcomeEmail u; User_LastLogin := User_LastLogin u;
     User_MfaUsedTimestamps := User_MfaUsedTimestamps u; User_Phone := User_Phone u;
     User_ParentId := User_ParentId u |}.

(** UserService.createUser: the saved user is the caller's object. *)
Definition service_createUser (user : User) : UC User :=
  match (if empty (User_AuthService user) then IsPasswordValidWithSettings (User_Password user) else None) with
  | Some id => m_throw (ErrInvalidPassword id)
  | None =>
      p <- from_store StoreError (us_save user) ;;
      match p.1 with
      | Err e => m_throw (StoreError e)
      | Ok ruser =>
          (if User_EmailVerified ruser
           then m_try (from_store StoreError (us_verify_email (User_Id ruser) (User_Email ruser))) ;;; m_ret tt
           else m_ret tt) ;;;
          m_ret (Sanitize ruser)
      end
  end.

(** UserService.CreateUser, not an import. *)
Definition service_CreateUser (user : User) (guest : bool) : UC User :=
  let local := negb (IsLDAPUser user) && negb (IsSAMLUser user) in
  if local && negb (IsGuest user) && negb (CheckUserDomain user RestrictCreationToDomains)
  then m_throw AcceptedDomainError
  else if local && IsGuest user && negb (CheckUserDomain user GuestRestrictCreationToDomains)
  then m_throw AcceptedDomainError
  else
  is_empty <- from_store (λ _, UserStoreIsEmptyError) (us_is_empty true) ;;
  let user := User_with_Roles (created_roles is_empty guest user) user in
  let user := if supported_locale (User_Locale user) then user else User_with_Locale DefaultClientLocale user in
  service_createUser user.

(** The errors of createUserOrGuest.  An AppError of the save, a user that does
    not pass validation, goes through as it is. *)
Definition create_error (e : createError) : lmsError :=
  match e with
  | AcceptedDomainError => LmsError "api.user.create_user.accepted_domain.app_error" 400 None
  | ErrInvalidPassword id => LmsError id 400 None
  | UserStoreIsEmptyError => LmsError "app.user.store_is_empty.app_error" 500 None
  | StoreError (ErrInvalidModel id) => LmsError id 400 None
  | StoreError (ErrInvalidInput _ field _ as e) =>
      if decide (field = "email") then LmsError "app.user.save.email_exists.app_error" 400 (Some e)
      else if decide (field = "username") then LmsError "app.user.save.username_exists.app_error" 400 (Some e)
      else LmsError "app.user.save.existing.app_error" 400 (Some e)
  | StoreError e => LmsError "app.user.save.app_error" 500 (Some e)
  end.

Definition isUniqueToGroupNames (val : string) : UM unit :=
  if empty val then m_ret tt
  else
  n <- m_gets (λ w, lms_ticks (uw_lms w)) ;;
  match group_by_name n val with
  | Ok _ => failU "app.user.save.username_exists.app_error" 400
  | Err e =>
      if IsErrNotFound e then m_ret tt
      else m_throw (LmsError "app.user.save.groupname.app_error" 500 (Some e))
  end.

Definition map_error {A} (m : UC A) : UM A := λ w,
  match m w with (Ok a, w') => (Ok a, w') | (Err e, w') => (Err (create_error e), w') end.

Definition createUserOrGuest (user : User) (guest : bool) : UM User :=
  isUniqueToGroupNames (User_Username user) ;;;
  ruser <- map_error (service_CreateUser user guest) ;;
  InvalidateCacheForUser (User_Id ruser) ;;;
  (if User_EmailVerified ruser then
     wrapU (λ e, if IsErrNotFound e then LmsError MissingAccountError 404 (Some e)
                 else LmsError "app.user.get.app_error" 500 (Some e)) (us_get (User_Id ruser)) ;;; m_ret tt
   else m_ret tt) ;;;
  m_ret ruser.

Definition CreateUser (user : User) : UM User := createUserOrGuest user false.
End create.
