(* ===== verification/LmsApi.v ===== *)
(** * The REST API of the learning system (api4/lms_api)

    The routes of /api/v4/lms as the constructors of [request], indexed by the
    type of their answer: the permission a route asks for, whether it needs a
    session, and the handler it calls.  [serve] is a request on the world of
    the users, the learning system's tables, the chat platform and the roles.

    What web.Handler checks before it has a session (token, CSRF, second
    factor, rate limit) is [WebAuth].  The table of paths is left out; a query
    parameter that overrides an id of the path (web/params.go) is the id of the
    request. *)

From S2P Require Import Prelude.
From S2P Require Import GoString.
From S2P Require Import GoUtf8.
From S2P Require Import GoRunes.
From S2P Require Import LmsModel.
From S2P Require Import Hashers.
From S2P Require Import PlatUser.
From S2P Require Import CallStore.
From S2P Require Import LmsStore.
From S2P Require Import LmsTables.
From S2P Require Import LmsApp.
From S2P Require Import LmsColumns.
From S2P Require Import LmsQuery.
From S2P Require Import LmsContent.
From S2P Require Import LmsSchedule.
From S2P Require Import LmsTuition.
From S2P Require Import LmsClass.
From S2P Require Import LmsRoutes.
From S2P Require Import LmsChat.
From S2P Require Import LmsRoles.
From S2P Require Import UserStore.
From S2P Require Import LmsUsers.
From S2P Require Import LmsPublic.
From S2P Require Import LmsDashboard.
From S2P Require Import CreateUser.

Local Open Scope string_scope.
Local Open Scope go_scope.

(** What a request works on. *)
Record api_world (D P : Type) := ApiWorld {
  aw_users : users_world D;
  aw_chat : P;
  aw_roles : role_rows;
}.
Arguments ApiWorld {D P} _ _ _.
Arguments aw_users {D P} _.
Arguments aw_chat {D P} _.
Arguments aw_roles {D P} _.

(** ** The search of students *)

Record StudentFilterOpts := {
  student_opts : SearchOpts;
  SelectRelatedParent : bool;
  student_class : string;
  student_status : string;
  student_search : string;
  (** not looked at *)
  student_gender : string;
}.

Definition StudentStatus_IsValid (s : string) : bool :=
  bool_decide (s = "ACTIVE") || bool_decide (s = "RESERVED") || bool_decide (s = "DROPPED") || bool_decide (s = "PENDING").

(** SELECT and SELECT COUNT over the users with the given modifiers. *)
Class UserEngine (D : Type) := {
  users_all : nat → list qmod → users_world D → option (list User);
  users_count : nat → list qmod → users_world D → option Z;
}.

(** The searches of the tables. *)
Class Engines (D : Type) := {
  #[export] branch_engine :: Engine D Branch;
  #[export] class_engine :: Engine D Class;
  #[export] session_engine :: Engine D LMSSession;
  #[export] lead_engine :: Engine D Lead;
  #[export] package_engine :: Engine D (FeePackage D);
  #[export] tuition_engine :: Engine D (Tuition D);
  #[export] payment_engine :: Engine D (Payment D);
  #[export] post_engine :: Engine D BlogPost;
  #[export] homework_engine :: Engine D Homework;
  #[export] review_engine :: Engine D WeeklyReview;
  #[export] task_engine :: Engine D Task;
  #[export] material_engine :: Engine D Material;
  #[export] media_engine :: Engine D ClassMedia;
  #[export] user_engine :: UserEngine D;
}.

Section search.
Context `{Decimal D} `{LmsEnv} `{QmHelper} `{UserEngine D}.

Abbreviation US := (M (users_world D) storeError).
Abbreviation UM := (M (users_world D) lmsError).

Definition like (operator column s : string) : WhereCond :=
  {| wc_Column := column; wc_Value := AnyString ("%" ++ s ++ "%")%string; wc_Operator := operator |}.

Definition student_mods (opts : StudentFilterOpts) : list qmod :=
  (WhereCond_Apply (like OperatorLike "users.roles" RoleLmsStudentRoleId) ++
   (if SelectRelatedParent opts then [AppendLoad "Parent"] else []) ++
   (if empty (student_class opts) then []
    else AppendInnerJoin "student_classes on student_id = users.id" ::
         WhereCond_Apply {| wc_Column := "student_classes.class_id"; wc_Value := AnyString (student_class opts);
                            wc_Operator := OperatorEq |}) ++
   (if StudentStatus_IsValid (student_status opts)
    then [AppendWhere "users.props ->> 'student_status' = ?" [AnyString (student_status opts)]] else []) ++
   (if empty (student_search opts) then []
    else WhereOrs_Apply [like OperatorILike "users.firstname" (student_search opts);
                         like OperatorILike "users.lastname" (student_search opts);
                         like OperatorILike "users.email" (student_search opts)]))%list.

(** A query of the users; it changes nothing. *)
Definition ask_users {A} (what : string) (f : nat → users_world D → option A) : US A := λ w,
  (match f (lms_ticks (uw_lms w)) w with Some a => Ok a | None => Err (ErrDatabase ("failed to " ++ what)%string) end,
   UsersWorld (tick (uw_lms w)) (uw_users w)).

Definition SearchStudentUsers (opts : StudentFilterOpts) : US (list User * Z) :=
  users <- ask_users "search students" (λ n, users_all n (student_mods opts ++ SearchOpts_Apply (student_opts opts))) ;;
  if CountTotal (student_opts opts) then
    total <- ask_users "count students" (λ n,
      users_count n (student_mods opts ++ SearchOpts_Apply (ExludePaginationForCount (student_opts opts)))) ;;
    m_ret (users, total)
  else m_ret (users, Z.of_nat (length users)).

Definition GetStudents (opts : StudentFilterOpts) : UM (list User * Z) :=
  wrapU (internalU "app.lms.student.get_all.app_error") (SearchStudentUsers opts).

Definition getStudents (may : bool) (opts : option StudentFilterOpts) : UM (list User * Z) :=
  guarded may (with_body PayloadParseError opts GetStudents).
End search.

(** ** Requests *)

Section api.
Context {D P J : Type}.

(** Bodies are decoded; [None] is not JSON. *)
Inductive request : Type → Type :=
  (** public.go *)
  | RgetPublicCourses : request (list (Course D) * Z)
  | RgetPublicPosts : request (list BlogPost * Z)
  | RpublicRegister (b : option Lead) : request Lead
  | RpublicContact (b : option (string * string * string * string)) : request Lead
  | RforgotPassword (email : option string) : request unit
  | RresetPassword (b : option (string * string)) : request unit
  | RverifyResetToken (token : string) : request bool
  (** branch.go *)
  | RgetBranches (opts : option SearchOpts) : request (list Branch * Z)
  | RcreateBranch (b : option Branch) : request Branch
  (** course.go *)
  | RgetCourses : request (list (Course D) * Z)
  | RcreateCourse (b : option (Course D)) : request (Course D)
  | RgetCourse (id : string) : request (Course D)
  | RupdateCourse (id : string) (b : option (Course D)) : request (Course D)
  | RdeleteCourse (id : string) : request unit
  (** class.go *)
  | RgetClasses (opts : option ClassFilterOpts) : request (list Class * Z)
  | RcreateClass (b : option Class) : request Class
  | RgetClass (id : string) : request Class
  | RupdateClass (id : string) (b : option Class) : request Class
  | RdeleteClass (id : string) : request unit
  | RenrollStudents (id : string) (b : option (list string)) : request (list StudentClass)
  | RunenrollStudent (id student_id : string) : request unit
  (** session.go *)
  | RgetSessions (opts : option SearchOpts) : request (list LMSSession * Z)
  | RcreateSession (b : option (option LMSSession * string * bool)) : request (list LMSSession + list SessionConflict)
  | RgetSession (id : string) : request LMSSession
  | RupdateSession (id : string) (b : option (option LMSSession * bool)) : request (option LMSSession + list SessionConflict)
  | RdeleteSession (id : string) : request unit
  | RgetAttendance (id : string) : request (list Attendance)
  | RsaveAttendance (id : string) (b : option (list Attendance)) : request (list Attendance)
  (** lead.go *)
  | RgetLeads (opts : option LeadFilterOpts) : request (list Lead * Z)
  | RcreateLead (b : option Lead) : request Lead
  | RgetLead (id : string) : request Lead
  | RupdateLead (id : string) (b : option Lead) : request Lead
  | RdeleteLead (id : string) : request unit
  | RgetLeadActivities (id : string) : request (list LeadActivity)
  | RcreateLeadActivity (id : string) (b : option LeadActivity) : request LeadActivity
  | RconvertLead (id : string) : request (User * Lead)
  (** fee_package.go *)
  | RgetFeePackages (opts : option SearchOpts) : request (list (FeePackage D) * Z)
  | RcreateFeePackage (b : option (FeePackage D)) : request (FeePackage D)
  (** tuition.go, payment.go *)
  | RgetTuitions (opts : option TuitionFilterOpts) : request (list (Tuition D) * Z)
  | RcreateTuition (b : option (Tuition D)) : request (Tuition D)
  | RgetTuition (id : string) : request (Tuition D)
  | RupdateTuition (id : string) (b : option (Tuition D)) : request (Tuition D)
  | RdeleteTuition (id : string) : request unit
  | RgetTuitionPayments (id : string) : request (list (Payment D))
  | RcreateTuitionPayment (id : string) (b : option (Payment D)) : request (Payment D)
  | RgetPayments (opts : option SearchOpts) : request (list (Payment D) * Z)
  (** post.go *)
  | RgetPostCategories : request (list PostCategory * Z)
  | RcreatePostCategory (b : option PostCategory) : request PostCategory
  | RupdatePostCategory (id : string) (b : option PostCategory) : request PostCategory
  | RdeletePostCategory (id : string) : request unit
  | RgetPosts (opts : option SearchOpts) : request (list BlogPost * Z)
  | RcreatePost (b : option BlogPost) : request BlogPost
  | RgetPost (id : string) : request BlogPost
  | RupdatePost (id : string) (b : option BlogPost) : request BlogPost
  | RdeletePost (id : string) : request unit
  (** homework.go *)
  | RgetHomeworks (opts : option SearchOpts) : request (list Homework * Z)
  | RcreateHomework (b : option Homework) : request Homework
  | RgetHomework (id : string) : request Homework
  | RupdateHomework (id : string) (b : option Homework) : request Homework
  | RdeleteHomework (id : string) : request unit
  | RgetHomeworkSubmissions (id : string) : request (list Submission)
  | RupsertHomeworkSubmission (id : string) (b : option Submission) : request Submission
  | RbulkAssignHomework (b : option (Homework * list string)) : request Z
  (** weekly_review.go *)
  | RgetWeeklyReviews (opts : option SearchOpts) : request (list WeeklyReview * Z)
  | RcreateWeeklyReview (b : option WeeklyReview) : request WeeklyReview
  | RgetWeeklyReview (id : string) : request WeeklyReview
  | RupdateWeeklyReview (id : string) (b : option WeeklyReview) : request WeeklyReview
  | RdeleteWeeklyReview (id : string) : request unit
  (** task.go *)
  | RgetTasks (opts : option SearchOpts) : request (list Task * Z)
  | RcreateTask (b : option Task) : request Task
  | RgetTask (id : string) : request Task
  | RupdateTask (id : string) (b : option Task) : request Task
  | RdeleteTask (id : string) : request unit
  (** material.go *)
  | RgetMaterials (opts : option SearchOpts) : request (list Material * Z)
  | RcreateMaterial (b : option Material) : request Material
  | RgetMaterial (id : string) : request Material
  | RupdateMaterial (id : string) (b : option Material) : request Material
  | RdeleteMaterial (id : string) : request unit
  (** banner.go *)
  | RgetBanners : request (list Banner * Z)
  | RcreateBanner (b : option Banner) : request Banner
  | RgetBanner (id : string) : request Banner
  | RupdateBanner (id : string) (b : option Banner) : request Banner
  | RdeleteBanner (id : string) : request unit
  (** notification.go *)
  | RgetNotifications : request (list Notification * Z)
  | RmarkNotificationAsRead (id : string) : request unit
  (** class_media.go *)
  | RgetClassMedia (opts : option SearchOpts) : request (list ClassMedia * Z)
  | RcreateClassMedia (b : option ClassMedia) : request ClassMedia
  | RdeleteClassMedia (id : string) : request unit
  | RgetLmsMediaFile (file_id : string) : request string
  (** student.go *)
  | RgetStudents (opts : option StudentFilterOpts) : request (list User * Z)
  | RcreateStudent (user : option User) (props : option (gmap string J)) : request User
  | RgetStudent (id : string) : request User
  | RupdateStudent (id : string) (user : option User) (props : option (gmap string J)) : request User
  | RdeleteStudent (id : string) : request unit
  | RgetConvertibleUsers : request (list User)
  | RconvertUserToStudent (id : string) : request User
  | RrevertStudentToUser (id : string) : request User
  (** user.go *)
  | RcreateUser (b : option User) : request User
  | RupdateUser (id : string) (b : option User) : request User
  | RdeleteUser (id : string) : request unit
  | RdeactivateUser (id : string) : request User
  | RreactivateUser (id : string) : request User
  (** dashboard.go, report.go *)
  | RgetDashboard (role user_id : string) : request DashboardStats
  | RgetReport (type_ : string) : request (Report D).
End api.
Arguments request : clear implicits.

(** The routes of InitPublic. *)
Definition is_public {D J A} (r : request D J A) : bool :=
  match r with
  | RgetPublicCourses | RgetPublicPosts | RpublicRegister _ | RpublicContact _ | RforgotPassword _
  | RresetPassword _ | RverifyResetToken _ => true
  | _ => false
  end.

(** The permission a handler starts with, if any. *)
Definition required {D J A} (r : request D J A) : option string :=
  match r with
  | RgetPublicCourses | RgetPublicPosts | RpublicRegister _ | RpublicContact _ | RforgotPassword _
  | RresetPassword _ | RverifyResetToken _ =>
      None
  | RgetBranches _ | RcreateBranch _ =>
      Some PermissionLmsManageBranches
  | RgetCourses =>
      None
  | RcreateCourse _ | RgetCourse _ | RupdateCourse _ _ | RdeleteCourse _ =>
      Some PermissionLmsManageCourses
  | RgetClasses _ =>
      None
  | RcreateClass _ | RgetClass _ | RupdateClass _ _ | RdeleteClass _ | RenrollStudents _ _
  | RunenrollStudent _ _ =>
      Some PermissionLmsManageClasses
  | RgetSessions _ | RcreateSession _ | RgetSession _ | RupdateSession _ _ | RdeleteSession _ =>
      Some PermissionLmsManageSessions
  | RgetAttendance _ | RsaveAttendance _ _ =>
      Some PermissionLmsManageAttendance
  | RgetLeads _ | RcreateLead _ | RgetLead _ | RupdateLead _ _ | RdeleteLead _ | RgetLeadActivities _
  | RcreateLeadActivity _ _ | RconvertLead _ =>
      Some PermissionLmsManageLeads
  | RgetFeePackages _ | RcreateFeePackage _ =>
      Some PermissionLmsManageFeePackages
  | RgetTuitions _ | RcreateTuition _ | RgetTuition _ | RupdateTuition _ _ | RdeleteTuition _
  | RgetTuitionPayments _ | RcreateTuitionPayment _ _ | RgetPayments _ =>
      Some PermissionLmsManageTuition
  | RgetPostCategories | RcreatePostCategory _ | RupdatePostCategory _ _ | RdeletePostCategory _ | RgetPosts _
  | RcreatePost _ | RgetPost _ | RupdatePost _ _ | RdeletePost _ =>
      Some PermissionLmsManagePosts
  | RgetHomeworks _ | RcreateHomework _ | RgetHomework _ | RupdateHomework _ _ | RdeleteHomework _
  | RgetHomeworkSubmissions _ | RupsertHomeworkSubmission _ _ | RbulkAssignHomework _ =>
      Some PermissionLmsManageHomework
  | RgetWeeklyReviews _ | RcreateWeeklyReview _ | RgetWeeklyReview _ | RupdateWeeklyReview _ _
  | RdeleteWeeklyReview _ =>
      Some PermissionLmsManageWeeklyReviews
  | RgetTasks _ | RcreateTask _ | RgetTask _ | RupdateTask _ _ | RdeleteTask _ =>
      Some PermissionLmsManageTasks
  | RgetMaterials _ | RcreateMaterial _ | RgetMaterial _ | RupdateMaterial _ _ | RdeleteMaterial _ =>
      Some PermissionLmsManageMaterials
  | RgetBanners | RcreateBanner _ | RgetBanner _ | RupdateBanner _ _ | RdeleteBanner _ =>
      Some PermissionLmsManageBanners
  | RgetNotifications | RmarkNotificationAsRead _ =>
      Some PermissionLmsViewNotifications
  | RgetClassMedia _ | RcreateClassMedia _ | RdeleteClassMedia _ | RgetLmsMediaFile _ =>
      Some PermissionLmsManageClassMedia
  | RgetStudents _ | RcreateStudent _ _ | RgetStudent _ | RupdateStudent _ _ _ | RdeleteStudent _
  | RgetConvertibleUsers | RconvertUserToStudent _ | RrevertStudentToUser _ =>
      Some PermissionLmsManageStudents
  | RcreateUser _ | RupdateUser _ _ | RdeleteUser _ | RdeactivateUser _ | RreactivateUser _ =>
      Some PermissionLmsManageUsers
  | RgetDashboard _ _ =>
      Some PermissionLmsManageDashboard
  | RgetReport _ =>
      Some PermissionLmsViewReports
  end.

Section serve.
Context `{UnicodeTables} `{UnicodeLower} `{UserLib} `{Crypto} `{Decimal D} `{LmsEnv} `{GoRange}.
Context `{UsersEnv} `{JsonProps J} `{UserConfig} `{QmHelper} `{Collation} `{FileStore} `{ServerZone} `{DbZone}.
Context `{ChatPlatform P} `{Platform} `{Engines D}.
Context (teacherDisplayName : string → string).

Abbreviation LM := (M (lms_world D) lmsError).
Abbreviation UM := (M (users_world D) lmsError).
Abbreviation CHM := (M (chat_world D P) lmsError).
Abbreviation AM := (M (api_world D P) lmsError).

(** An operation of one of the parts. *)
Definition onU {A} (m : UM A) : AM A := λ w,
  let '(r, u) := m (aw_users w) in (r, ApiWorld u (aw_chat w) (aw_roles w)).
Definition onL {A} (m : LM A) : AM A := onU (lmsU m).
Definition onC {A} (m : CHM A) : AM A := λ w,
  let '(r, c) := m (ChatWorld (uw_lms (aw_users w)) (aw_chat w)) in
  (r, ApiWorld (UsersWorld (cw_lms c) (uw_users (aw_users w))) (cw_chat c) (aw_roles w)).
Definition ask_platform {A} (f : P → res lmsError A) : AM A := λ w, (f (aw_chat w), w).
Definition do_platform (f : P → option lmsError * P) : AM unit := λ w,
  let '(e, p) := f (aw_chat w) in
  (match e with Some e => Err e | None => Ok tt end, ApiWorld (aw_users w) p (aw_roles w)).

Definition bad_body {S A} (error : string) : M S lmsError A := m_throw (LmsError error 400 None).

(** ** The class of class.go that needs no chat *)

Definition getClass (may : bool) (id : string) : LM Class := require_id id (guarded may (GetClass id)).

(** ** createUser *)

Definition TeamEmployee : string := "team-employee".
Definition TeamUser : string := "team-user".

Definition employee_roles : list string :=
  [RoleLmsAdminRoleId; RoleLmsTeacherRoleId; RoleLmsAccountantRoleId; RoleLmsSuperAdminRoleId;
   RoleLmsCounselorRoleId; RoleLmsMarketingRoleId].

Definition team_of (u : User) : string :=
  if existsb (λ r, bool_decide (r ∈ employee_roles)) (GetRoles u) then TeamEmployee else TeamUser.

(** The user a request for an account asks for. *)
Definition requested_user (user : User) : User :=
  let user := User_with_EmailVerified true user in
  if empty (User_Username user) then User_with_Username (cut at_sign (User_Email user)).1.1 user else user.

Definition createUser (may : bool) (b : option User) : AM User :=
  guarded may (with_body "api.lms.create_user.bad_body.app_error" b (λ user,
    created <- onU (CreateUser (requested_user user)) ;;
    team <- ask_platform (λ p, GetTeamByName p (team_of created)) ;;
    do_platform (λ p, AddUserToTeam p (tm_Id team) (User_Id created)) ;;;
    m_ret created)).

(** ** Serving a request *)

(** The outcome of the permission check, at the cost of a statement. *)
Definition has_permission (s : Session) (p : string) : AM bool := λ w,
  let l := uw_lms (aw_users w) in
  (Ok (SessionHasPermissionTo (lms_fault (lms_ticks l)) (aw_roles w) s p),
   ApiWorld (UsersWorld (tick l) (uw_users (aw_users w))) (aw_chat w) (aw_roles w)).

(** The status of a success, and what is answered. *)
Definition answer {A} (status : Z) (m : AM A) : AM (Z * A) := a <- m ;; m_ret (status, a).

Definition run {A} (may : bool) (s : Session) (r : request D J A) : AM (Z * A) :=
  match r with
  | RgetPublicCourses => answer 200 (onU (l <- getPublicCourses ;; m_ret (l, 0%Z)))
  | RgetPublicPosts => answer 200 (onU (l <- getPublicPosts ;; m_ret (l, 0%Z)))
  | RpublicRegister b => answer 200 (onU (publicRegister b))
  | RpublicContact b => answer 201 (onU (publicContact b))
  | RforgotPassword email => answer 200 (onU (forgotPassword email))
  | RresetPassword b => answer 200 (onU (resetPassword b))
  | RverifyResetToken token => answer 200 (onU (verifyResetToken token))
  | RgetBranches opts => answer 200 (onL (getBranches may opts))
  | RcreateBranch b => answer 200 (onL (createBranch may b))
  | RgetCourses => answer 200 (onL getCourses)
  | RcreateCourse b => answer 200 (onL (createCourse may b))
  | RgetCourse id => answer 200 (onL (getCourse may id))
  | RupdateCourse id b => answer 200 (onL (updateCourse may id b))
  | RdeleteCourse id => answer 200 (onL (deleteCourse may id))
  | RgetClasses opts => answer 200 (onL (getClasses opts))
  | RcreateClass b =>
      answer 200 (onC (
        match b with Some c => createClass may c
        | None => guarded may (bad_body "api.lms.class.create_body.app_error") end))
  | RgetClass id => answer 200 (onL (getClass may id))
  | RupdateClass id b =>
      answer 200 (onC (
        match b with Some c => updateClass may id c
        | None => guarded may (require_id id (bad_body "api.lms.class.update_body.app_error")) end))
  | RdeleteClass id => answer 200 (onC (deleteClass may id))
  | RenrollStudents id b =>
      answer 200 (onC (
        match b with Some l => enrollStudents may id l
        | None => guarded may (require_id id (bad_body "api.lms.class.enroll_body.app_error")) end))
  | RunenrollStudent id student_id => answer 200 (onC (unenrollStudent may id student_id))
  | RgetSessions opts => answer 200 (onL (getSessions may opts))
  | RcreateSession b => onL (createSession teacherDisplayName may b)
  | RgetSession id => answer 200 (onL (getSession may id))
  | RupdateSession id b => onL (updateSession teacherDisplayName may id b)
  | RdeleteSession id => answer 200 (onL (deleteSession may id))
  | RgetAttendance id => answer 200 (onL (getAttendance may id))
  | RsaveAttendance id b => answer 200 (onL (saveAttendance may id b))
  | RgetLeads opts => answer 200 (onL (getLeads may opts))
  | RcreateLead b =>
      answer 201 (onU (
        match b with Some l => createLead may l
        | None => guarded may (bad_body "api.lms.lead.create_body.app_error") end))
  | RgetLead id => answer 200 (onU (getLead may id))
  | RupdateLead id b =>
      answer 200 (onU (
        match b with Some l => updateLead may id l
        | None => guarded may (require_id id (bad_body "api.lms.lead.update_body.app_error")) end))
  | RdeleteLead id => answer 200 (onU (deleteLead may id))
  | RgetLeadActivities id => answer 200 (onU (getLeadActivities may id))
  | RcreateLeadActivity id b =>
      answer 201 (onU (
        match b with Some a => createLeadActivity may id a
        | None => guarded may (require_id id (bad_body "api.lms.lead.activity_body.app_error")) end))
  | RconvertLead id => answer 200 (onU (convertLead may id))
  | RgetFeePackages opts => answer 200 (onL (getFeePackages may opts))
  | RcreateFeePackage b => answer 200 (onL (createFeePackage may b))
  | RgetTuitions opts => answer 200 (onL (getTuitions may opts))
  | RcreateTuition b => answer 201 (onL (createTuition may b))
  | RgetTuition id => answer 200 (onL (getTuition may id))
  | RupdateTuition id b => answer 200 (onL (updateTuition may id b))
  | RdeleteTuition id => answer 200 (onL (deleteTuition may id))
  | RgetTuitionPayments id => answer 200 (onL (getTuitionPayments may id))
  | RcreateTuitionPayment id b => answer 201 (onL (createTuitionPayment may id b))
  | RgetPayments opts => answer 200 (onL (getPayments may opts))
  | RgetPostCategories => answer 200 (onL (getPostCategories may))
  | RcreatePostCategory b => answer 201 (onL (createPostCategory may b))
  | RupdatePostCategory id b => answer 200 (onL (updatePostCategory may id b))
  | RdeletePostCategory id => answer 200 (onL (deletePostCategory may id))
  | RgetPosts opts => answer 200 (onL (getPosts may opts))
  | RcreatePost b => answer 201 (onL (createPost may b))
  | RgetPost id => answer 200 (onL (getPost may id))
  | RupdatePost id b => answer 200 (onL (updatePost may id b))
  | RdeletePost id => answer 200 (onL (deletePost may id))
  | RgetHomeworks opts => answer 200 (onL (getHomeworks may opts))
  | RcreateHomework b => answer 201 (onL (createHomework may b))
  | RgetHomework id => answer 200 (onL (getHomework may id))
  | RupdateHomework id b => answer 200 (onL (updateHomework may id b))
  | RdeleteHomework id => answer 200 (onL (deleteHomework may id))
  | RgetHomeworkSubmissions id => answer 200 (onL (getHomeworkSubmissions may id))
  | RupsertHomeworkSubmission id b => answer 200 (onL (upsertHomeworkSubmission may id b))
  | RbulkAssignHomework b => answer 200 (onL (bulkAssignHomework may b))
  | RgetWeeklyReviews opts => answer 200 (onL (getWeeklyReviews may opts))
  | RcreateWeeklyReview b => answer 201 (onL (createWeeklyReview may b))
  | RgetWeeklyReview id => answer 200 (onL (getWeeklyReview may id))
  | RupdateWeeklyReview id b => answer 200 (onL (updateWeeklyReview may id b))
  | RdeleteWeeklyReview id => answer 200 (onL (deleteWeeklyReview may id))
  | RgetTasks opts => answer 200 (onL (getTasks may opts))
  | RcreateTask b => answer 201 (onL (createTask may b))
  | RgetTask id => answer 200 (onL (getTask may id))
  | RupdateTask id b => answer 200 (onL (updateTask may id b))
  | RdeleteTask id => answer 200 (onL (deleteTask may id))
  | RgetMaterials opts => answer 200 (onL (getMaterials may opts))
  | RcreateMaterial b => answer 201 (onL (createMaterial may b))
  | RgetMaterial id => answer 200 (onL (getMaterial may id))
  | RupdateMaterial id b => answer 200 (onL (updateMaterial may id b))
  | RdeleteMaterial id => answer 200 (onL (deleteMaterial may id))
  | RgetBanners => answer 200 (onL (getBanners may))
  | RcreateBanner b => answer 200 (onL (createBanner may b))
  | RgetBanner id => answer 200 (onL (getBanner may id))
  | RupdateBanner id b => answer 200 (onL (updateBanner may id b))
  | RdeleteBanner id => answer 200 (onL (deleteBanner may id))
  | RgetNotifications => answer 200 (onL (getNotifications may (Session_UserId s)))
  | RmarkNotificationAsRead id => answer 200 (onL (markNotificationAsRead may id))
  | RgetClassMedia opts => answer 200 (onL (getClassMedia may opts))
  | RcreateClassMedia b => answer 200 (onL (createClassMedia may b))
  | RdeleteClassMedia id => answer 200 (onL (deleteClassMedia may id))
  | RgetLmsMediaFile file_id => answer 200 (onL (getLmsMediaFile may file_id))
  | RgetStudents opts => answer 200 (onU (getStudents may opts))
  | RcreateStudent user props => answer 201 (onU (createStudent may user props))
  | RgetStudent id => answer 200 (onU (getStudent may id))
  | RupdateStudent id user props => answer 200 (onU (updateStudent may id user props))
  | RdeleteStudent id => answer 200 (onU (deleteStudent may id))
  | RgetConvertibleUsers => answer 200 (onU (getConvertibleUsers may))
  | RconvertUserToStudent id => answer 200 (onU (convertUserToStudent may id))
  | RrevertStudentToUser id => answer 200 (onU (revertStudentToUser may id))
  | RcreateUser b => answer 200 (createUser may b)
  | RupdateUser id b =>
      answer 200 (onU (
        match b with Some u => updateUser may (Session_UserId s) id u
        | None => guarded may (require_id id (bad_body "api.lms.update_user.bad_body.app_error")) end))
  | RdeleteUser id => answer 200 (onU (deleteUser may id))
  | RdeactivateUser id => answer 200 (onU (deactivateUser may id))
  | RreactivateUser id => answer 200 (onU (reactivateUser may id))
  | RgetDashboard role user_id => answer 200 (onU (getDashboard may role user_id))
  | RgetReport type_ => answer 200 (onU (getReport may type_))
  end.

Definition handle {A} (s : Session) (r : request D J A) : AM (Z * A) :=
  match required r with
  | None => run true s r
  | Some p => may <- has_permission s p ;; run may s r
  end.

Definition no_session : Session := {| Session_UserId := ""; Session_Roles := ""; Session_Local := false |}.

(** APIHandler and APISessionRequired. *)
Definition serve {A} (s : option Session) (r : request D J A) : AM (Z * A) :=
  if is_public r then handle (default no_session s) r
  else match s with
       | Some s => if empty (Session_UserId s) then m_throw (LmsError "api.context.session_expired.app_error" 401 None)
                   else handle s r
       | None => m_throw (LmsError "api.context.session_expired.app_error" 401 None)
       end.
End serve.
