(* ===== verification/LmsApiInv.v ===== *)
(** * The data as an invariant of the API

    [sound_world]: the tables of the learning system are in order ([db_ok] of
    LmsDbInv) and so are the users ([user_db_ok] of LmsUsersInv).  Every
    operation on the users and every route keeps it. *)

From S2P Require Import Prelude.
From S2P Require Import GoString.
From S2P Require Import GoUtf8.
From S2P Require Import GoRunes.
From S2P Require Import GoTime.
From S2P Require Import LmsDate.
From S2P Require Import LmsModel.
From S2P Require Import Hashers.
From S2P Require Import PlatUser.
From S2P Require Import CallStore.
From S2P Require Import LmsStore.
From S2P Require Import LmsTables.
From S2P Require Import LmsApp.
From S2P Require Import LmsColumns.
From S2P Require Import LmsQuery.
From S2P Require Import LmsContent.
From S2P Require Import LmsSchedule.
From S2P Require Import LmsTuition.
From S2P Require Import LmsClass.
From S2P Require Import LmsRoutes.
From S2P Require Import LmsChat.
From S2P Require Import LmsRoles.
From S2P Require Import UserStore.
From S2P Require Import LmsUsers.
From S2P Require Import LmsUsersProps.
From S2P Require Import LmsUsersInv.
From S2P Require Import LmsPublic.
From S2P Require Import LmsPublicProps.
From S2P Require Import LmsDbInv.
From S2P Require Import LmsDashboard.
From S2P Require Import Login.
From S2P Require Import CreateUser.
From S2P Require Import LmsApi.

Local Open Scope string_scope.

(** Documented behaviour of PostgreSQL's lower(): a text that is in lower case
    already comes back unchanged. *)
Class SqlLowerOk `{UnicodeLower} `{UserLib} := sql_lower_idle : ∀ s, sql_lower (ToLower s) = ToLower s.

Section inv.
Context `{UnicodeTables} `{UnicodeLower} `{UserLib} `{CryptoOk} `{DecimalOk D} `{LmsEnv} `{GoRange}.
Context `{UsersEnv} `{ServerZone} `{UserConfig} `{!SqlLowerOk}.

Abbreviation UW := (users_world D).
Abbreviation rows w := (us_rows (uw_users w)).

Definition sound_world (w : UW) : Prop := db_ok (lms_db (uw_lms w)) ∧ user_db_ok w.

#[local] Abbreviation sound m := (preserves sound_world m).
#[local] Abbreviation quiet m := (frames (λ w : UW, lms_db (uw_lms w)) m).

(** ** Statements *)

(** The users change, the tables do not. *)
Lemma sound_users {A E} (m : M UW E A) : quiet m → preserves user_db_ok m → sound m.
Proof. intros Hq Hm w [Hd Hu]. split; [by rewrite (Hq w)|by apply Hm]. Qed.

(** The tables change, the users do not. *)
Lemma sound_lmsU {A} (m : M (lms_world D) lmsError A) :
  preserves (λ w : lms_world D, db_ok (lms_db w)) m → sound (lmsU m).
Proof.
  intros Hm w [Hd Hu]. split; [|by apply keeps_lmsU].
  specialize (Hm (uw_lms w) Hd). unfold lmsU. by destruct (m (uw_lms w)).
Qed.

Lemma sound_lmsS {A} (m : M (lms_world D) storeError A) :
  preserves (λ w : lms_world D, db_ok (lms_db w)) m → sound (lmsS m).
Proof.
  intros Hm w [Hd Hu]. specialize (Hm (uw_lms w) Hd). unfold lmsS. by destruct (m (uw_lms w)).
Qed.

Lemma quiet_on_users {A} (f : nat → user_db → A * user_db) : quiet (on_users (D:=D) f).
Proof. intros w. unfold on_users. by destruct (f _ _). Qed.

Lemma quiet_or_throw {A} (m : M UW storeError (res storeError A)) : quiet m → quiet (or_throw m).
Proof. intros Hm. apply frames_bind; [done|]. intros [a|e]; by intros w. Qed.

Lemma sound_wrapU {A} c (m : M UW storeError A) : sound m → sound (wrapU c m).
Proof. intros Hm w Hw. specialize (Hm w Hw). unfold wrapU. by destruct (m w) as [[]]. Qed.

(** A statement that reads. *)
Lemma sound_read {A} (f : nat → user_db → res storeError A) : sound (or_throw (on_users (λ n d, (f n d, d)))).
Proof. apply sound_users; [apply quiet_or_throw, quiet_on_users|]. apply keeps_or_throw, keeps_on_users. done. Qed.

Lemma sound_us_get id : sound (us_get id).
Proof. apply sound_users; [apply quiet_or_throw, quiet_on_users|apply keeps_us_get]. Qed.

Lemma sound_us_save u : sound (us_save u).
Proof. apply sound_users; [apply quiet_on_users|apply keeps_us_save]. Qed.

Lemma sound_us_update u : sound (us_update true u).
Proof. apply sound_users; [apply quiet_or_throw, quiet_on_users|apply keeps_us_update]. Qed.

Lemma sound_retry tries base r u : sound (retry_save tries base r u).
Proof.
  revert r u. induction tries as [|n IH]; intros [s|e] u; simpl; try apply preserves_ret; try apply preserves_throw.
  destruct (_ || _); [apply preserves_throw|]. apply preserves_bind; [apply sound_us_save|]. intros p. apply IH.
Qed.

(** What goes with a user. *)
Lemma db_ok_cascade_user id (d : lmsDB D) :
  db_ok d → takes_submitted_homework d (cascade_user id d) = false → db_ok (cascade_user id d).
Proof.
  intros [Hr [_ Hk Hsub]] Hno. destruct d as [? ? ? ? ? ? ? ? ? ? ? ? []]. destruct Hr, Hk.
  eapply cascade_db_ok; [| |exact Hsub|apply keep_sub|exact Hno];
    split; cbn in *; try assumption; try (by apply rows_ok_keep); try (by apply fk_keep).
  - apply rows_ok_fmap; [|done]. intros k x. apply (row_ok_same FeeRefund_table); [done..|].
    unfold stored. simpl. unfold FeeRefund_stored. intros (a & Ha & Hs)%bind_Some. destruct x. simpl in *.
    rewrite Ha. simpl. injection Hs as Hamount Hdate. by rewrite Hamount, Hdate.
  - apply rows_ok_fmap; [|done]. intros k x. apply (row_ok_same Lead_table); [done..|].
    destruct x. simpl. unfold stored, Lead_stored. simpl. intros Hs.
    injection Hs as Hdate. by rewrite Hdate.
Qed.

Lemma sound_us_delete id : sound (us_delete id).
Proof.
  intros w [Hd Hu]. split; [|by apply keeps_us_delete].
  unfold us_delete. cbv zeta. destruct (UserStore_PermanentDelete _ _ _ _) as [[] t] eqn:Hdel; [|done].
  apply db_ok_cascade_user; [done|]. unfold UserStore_PermanentDelete in Hdel.
  by destruct (lms_fault _ || (_ || _)) eqn:Hb; [|apply orb_false_iff in Hb as [_ [_ Hb]%orb_false_iff]].
Qed.

(** An update that does not trust its caller takes the e-mail of an OAuth user
    from the row; the remote id of the object is the row's. *)
Lemma us_update_untrusted u (w : UW) :
  sound_world w → (∀ old, rows w !! User_Id u = Some old → User_RemoteId u = User_RemoteId old) →
  sound_world (us_update false u w).2.
Proof.
  intros [Hd [Hr Hc]] Hrem. split; [unfold us_update; by rewrite (quiet_or_throw _ (quiet_on_users _))|].
  destruct (us_update false u w) as [r w'] eqn:Hu. apply us_update_inv in Hu as (_ & Hcache & _ & ef & now & nanos & Hu).
  split; cbn [snd]; [|by rewrite Hcache]. apply UserStore_Update_spec in Hu. destruct r as [saved|e]; [|by rewrite Hu].
  destruct Hu as (old & u1 & row & Hold & Hv & Hm & Hrow & Hf & Huv & Hk & -> & Hid).
  rewrite <-Hid, <-(rf_id _ _ Hrow). eapply users_ok_insert; [done| |done..].
  specialize (Hrem _ Hold). apply valid_login in Hv. apply (uo_row _ Hr) in Hold as (_ & _ & Hlo).
  destruct (PreUpdate_fields now nanos u) as (_ & Hpr & _).
  assert (User_Username u1 = User_Username (PreUpdate now nanos u) ∧ User_RemoteId u1 = User_RemoteId u ∧
          (User_Email u1 = User_Email (PreUpdate now nanos u) ∨ User_Email u1 = User_Email old)) as (Hn & Hre & He).
  { revert Hm. unfold merged, untrusted. cbv zeta.
    set (u2 := if IsOAuthUser _ then _ else _). repeat destruct (_ && _); [done..|].
    assert (User_Username u2 = User_Username (PreUpdate now nanos u) ∧ User_RemoteId u2 = User_RemoteId u ∧
      (User_Email u2 = User_Email (PreUpdate now nanos u) ∨ User_Email u2 = User_Email old)) as Hu2
      by (subst u2; destruct (IsOAuthUser _); cbn; eauto).
    clearbody u2. destruct (decide _); by intros [= <-]. }
  destruct Hrow as [_ Hrn Hrm Hrr _ _ _ _ _ _ _ _].
  revert Hv Hlo. unfold login_ok, IsRemote. rewrite Hrn, Hrm, Hrr, Hn, Hre, Hpr, <-Hrem.
  rewrite !andb_true_iff. intros [-> Hv] [_ Hl]. split; [done|]. destruct He as [-> | ->]; done.
Qed.

(** ** Public routes *)

(** The object is a row as it was read. *)
Definition read_from (d : user_db) (u : User) : Prop :=
  ∃ id row, us_rows d !! id = Some row ∧ u = with_bot (us_bots d) row.

Lemma sound_update_read u f (w : UW) :
  sound_world w → read_from (uw_users w) u → User_Id (f u) = User_Id u → User_RemoteId (f u) = User_RemoteId u →
  sound_world (us_update false (f u) w).2.
Proof.
  intros Hw (id & row & Hrow & ->) Hid Hrem. apply us_update_untrusted; [done|]. rewrite Hid, Hrem. cbn.
  destruct Hw as [_ [Hr _]]. apply (uo_row _ Hr) in Hrow as Hi. destruct Hi as (-> & _). congruence.
Qed.

Lemma GetByEmail_read f d email u : UserStore_GetByEmail f d email = Ok u → read_from d u.
Proof.
  unfold UserStore_GetByEmail. destruct f; [done|]. destruct (users_where _ d) as [|v l] eqn:Hl; [done|].
  intros [= ->]. assert (u ∈ users_where (λ u, bool_decide (User_Email u = sql_lower email)) d) as Hin by (rewrite Hl; constructor).
  unfold users_where in Hin. apply list_elem_of_fmap in Hin as (row & -> & [_ Hin]%list_elem_of_filter).
  apply elem_of_range_rows in Hin as [id Hin]. by exists id, row.
Qed.

Lemma sound_SendPasswordReset email : sound (SendPasswordReset email).
Proof.
  intros w Hw. unfold SendPasswordReset.
  pose proof (sound_read (λ n d, UserStore_GetByEmail (lms_fault n) d email) w Hw) as Hw1.
  change (sound_world (us_get_by_email email w).2) in Hw1.
  destruct (us_get_by_email email w) as [[user|e] w1] eqn:Hg; [|by destruct (IsErrNotFound e)]. cbn [snd] in Hw1.
  apply or_throw_on_users in Hg as [Hg _]. injection Hg as Hg Hu. apply GetByEmail_read in Hg. rewrite Hu in Hg.
  unfold send_token, m_bind at 1, m_gets. destruct (rand_bytes _ 32) as [b|]; [|done].
  unfold m_bind at 1, read_clock_ms, m_gets. cbv zeta.
  set (now := lms_clock _).
  pose proof (sound_update_read user (with_token (hex_encode b) now) w1 Hw1 Hg eq_refl eq_refl) as Hup.
  unfold m_bind, wrapU. destruct (us_update false _ w1) as [[saved|e] w2]; exact Hup.
Qed.

Lemma sound_ResetPassword token password : sound (ResetPassword token password).
Proof.
  intros w Hw. unfold ResetPassword. destruct (_ || _); [done|]. unfold m_bind at 1, wrapU at 1.
  pose proof (sound_read (λ n d, UserStore_GetAll (lms_fault n) d) w Hw) as Hw1.
  change (sound_world (us_get_all w).2) in Hw1. destruct (us_get_all w) as [[users|e] w1] eqn:Hall; [|done].
  cbn [snd] in Hw1. apply us_get_all_inv in Hall as (Hget & Hu & _).
  assert (UserStore_GetAll false (uw_users w1) = Ok users) as Hget'.
  { revert Hget. rewrite Hu. unfold UserStore_GetAll. by destruct (lms_fault _). }
  destruct (find_token token users) as [u|] eqn:Hf; [|done].
  destruct (find_token_row _ _ _ _ Hget' Hf) as (id & row & Hrow & Hru & _).
  unfold m_bind at 1, read_clock_ms, m_gets. destruct (parse_rfc3339 _) as [expiry|]; [|done].
  destruct (_ <? _)%Z; [done|].
  assert (read_from (uw_users w1) u) as Hr by (by exists id, row).
  pose proof (sound_update_read u (with_new_password password) w1 Hw1 Hr eq_refl eq_refl) as Hup.
  unfold m_bind, wrapU. destruct (us_update false _ w1) as [[saved|e] w2]; exact Hup.
Qed.

(** ** CreateUser *)

Lemma saved_email u saved obj (w w' : UW) :
  us_save u w = (Ok (Ok saved, obj), w') →
  ∃ row e, rows w' !! User_Id saved = Some row ∧ User_Email saved = ToLower e ∧ User_Email row = ToLower e.
Proof.
  intros (res & obj' & t & [= <- <-] & _ & -> & Hs)%us_save_inv.
  assert (∃ u', PreSave (lms_id (lms_ticks (uw_lms w))) (lms_id (S (lms_ticks (uw_lms w)))) (lms_clock (lms_ticks (uw_lms w)))
            (lms_clock (S (lms_ticks (uw_lms w)))) (lms_ticks (uw_lms w)) u = Ok u' ∧ User_Email saved = User_Email u') as (u1 & Hp & He).
  { revert Hs. unfold UserStore_Save. destruct (_ && _); [done|]. destruct (PreSave _ _ _ _ _ u) as [u'|]; [|done].
    destruct (User_IsValid u'); [done|]. unfold UserStore_insert. destruct (negb _); [done|]. cbv zeta.
    destruct (if _ || _ then None else _); [|done]. destruct (unique_violation _ _ _); [done|].
    destruct (constraints_ok _ _); [|done]. intros [= <- _ _]. by exists u'. }
  apply UserStore_Save_spec in Hs as (u' & row & Hp' & _ & Hc & _ & _ & _ & Hid & ->).
  rewrite Hp in Hp'. injection Hp' as <-. apply PreSave_Ok in Hp as (_ & _ & Hem & _).
  apply columns_fields in Hc as (_ & _ & Hr & _). exists row, (User_Email u).
  rewrite Hid, lookup_insert_eq, He, Hr. by split_and!.
Qed.

(** A row whose names, keys and widths stay. *)
Lemma users_ok_same t id row row' :
  users_ok t → t !! id = Some row → User_Id row' = User_Id row → User_Username row' = User_Username row →
  User_Email row' = User_Email row → User_RemoteId row' = User_RemoteId row → User_ParentId row' = User_ParentId row →
  fits_columns row' = fits_columns row → users_ok (<[id := row']> t).
Proof.
  intros [Hrow Huniq Hparent] Hid Hi Hn He Hr Hp Hf.
  assert (∀ k u, <[id := row']> t !! k = Some u → ∃ v, t !! k = Some v ∧ User_Id u = User_Id v ∧ User_Username u = User_Username v ∧
    User_Email u = User_Email v ∧ User_RemoteId u = User_RemoteId v ∧ User_ParentId u = User_ParentId v ∧
    fits_columns u = fits_columns v) as Hold.
  { intros k u [[<- <-]|[_ Hu]]%lookup_insert_Some; [by exists row|by exists u]. }
  split.
  - intros k u (v & Hv & -> & Hun & Hem & Hre & _ & ->)%Hold. rewrite (login_ok_ext u v) by done. by apply Hrow.
  - intros i j u v (u' & Hu & _ & -> & -> & _)%Hold (v' & Hv & _ & -> & -> & _)%Hold. by eapply Huniq.
  - intros k u p (v & Hv & _ & _ & _ & _ & -> & _)%Hold Hpar. apply lookup_insert_is_Some'. right. by eapply Hparent.
Qed.

(** The address that was just stored. *)
Lemma sound_verify id e row (w : UW) :
  sound_world w → rows w !! id = Some row → User_Email row = ToLower e →
  sound_world (us_verify_email id (ToLower e) w).2.
Proof.
  intros [Hd [Hr Hc]] Hrow He. split; [unfold us_verify_email; by rewrite (quiet_or_throw _ (quiet_on_users _))|].
  destruct (us_verify_email id (ToLower e) w) as [r w'] eqn:Hv. apply or_throw_on_users in Hv as [Hv _]. cbn [snd].
  revert Hv. unfold user_db_ok, UserStore_VerifyEmail. rewrite Hrow.
  destruct (_ || _); intros [= _ <-]; [done|]. split; [|done]. cbn. erewrite alter_alt_Some by done.
  eapply users_ok_same; [done|done|done..| |done|done|].
  - cbn. by rewrite sql_lower_idle.
  - unfold fits_columns, column_widths. cbn. by rewrite sql_lower_idle, He.
Qed.

Lemma sound_from_store {A} f (m : M UW storeError A) : sound m → sound (from_store f m).
Proof. intros Hm w Hw. specialize (Hm w Hw). unfold from_store. by destruct (m w) as [[]]. Qed.

Lemma sound_map_error {A} (m : M UW createError A) : sound m → sound (map_error m).
Proof. intros Hm w Hw. specialize (Hm w Hw). unfold map_error. by destruct (m w) as [[]]. Qed.

Lemma sound_service_createUser u : sound (service_createUser u).
Proof.
  intros w Hw. unfold service_createUser. destruct (if empty _ then _ else _); [done|].
  pose proof (sound_us_save u w Hw) as Hw1. unfold m_bind at 1, from_store at 1.
  destruct (us_save u w) as [[[[saved|e] obj]|e] w1] eqn:Hs; [|done..]. cbn [snd] in Hw1. cbv beta iota. cbn [fst].
  destruct (saved_email _ _ _ _ _ Hs) as (row & e & Hrow & -> & He).
  destruct (User_EmailVerified saved); [|done].
  pose proof (sound_verify _ _ _ w1 Hw1 Hrow He) as Hv. unfold m_bind, m_try, from_store.
  by destruct (us_verify_email _ _ w1) as [[a|a] w2].
Qed.

Lemma sound_invalidate {E} id : sound (InvalidateCacheForUser (E:=E) id).
Proof.
  intros w [Hd [Hr Hc]]. split; [done|]. split; [done|]. cbn. intros i u [_ Hu]%lookup_delete_Some. by apply Hc.
Qed.

Lemma sound_ask_users {A} what (f : nat → UW → option A) : sound (ask_users what f).
Proof. by intros w [Hd Hu]. Qed.

(** ** Operations *)

Lemma sound_us_get_all : sound us_get_all.
Proof. apply (sound_read (λ n d, UserStore_GetAll (lms_fault n) d)). Qed.

Lemma sound_us_is_empty b : sound (us_is_empty b).
Proof. apply (sound_read (λ n d, UserStore_IsEmpty b (lms_fault n) d)). Qed.

End inv.

(** One step of taking an operation on the users apart. *)
Ltac user_step :=
  match goal with
  | H : preserves ?I ?m |- preserves ?I ?m => exact H
  | |- preserves _ (guarded _ _) => apply keeps_guarded_db
  | |- preserves _ (require_id _ _) => apply keeps_require_id_db
  | |- preserves _ (m_bind _ _) => apply preserves_bind; [|intros ?]
  | |- preserves _ (m_ret _) => apply preserves_ret
  | |- preserves _ (m_throw _) => apply preserves_throw
  | |- preserves _ (failU _ _) => apply preserves_throw
  | |- preserves _ (m_gets _) => apply preserves_gets
  | |- preserves _ (m_for _ _) => apply preserves_for; intros ? _
  | |- preserves _ (wrapU _ _) => apply sound_wrapU
  | |- preserves _ (lmsU _) => apply sound_lmsU; db_tac
  | |- preserves _ (lmsS _) => apply sound_lmsS; db_tac
  | |- preserves _ (from_store _ _) => apply sound_from_store
  | |- preserves _ (map_error _) => apply sound_map_error
  | |- preserves _ (or_throw (on_users (λ n d, (_, d)))) => apply sound_read
  | |- preserves _ (us_get _) => apply sound_us_get
  | |- preserves _ us_get_all => apply sound_us_get_all
  | |- preserves _ (us_is_empty _) => apply sound_us_is_empty
  | |- preserves _ (us_save _) => apply sound_us_save
  | |- preserves _ (us_update true _) => apply sound_us_update
  | |- preserves _ (us_delete _) => apply sound_us_delete
  | |- preserves _ (retry_save _ _ _ _) => apply sound_retry
  | |- preserves _ (service_createUser _) => apply sound_service_createUser
  | |- preserves _ (SendPasswordReset _) => apply sound_SendPasswordReset
  | |- preserves _ (ResetPassword _ _) => apply sound_ResetPassword
  | |- preserves _ (InvalidateCacheForUser _) => apply sound_invalidate
  | |- preserves _ (ask_users _ _) => apply sound_ask_users
  | |- preserves _ (match ?x with _ => _ end) => destruct x
  | |- preserves _ (let '_ := ?x in _) => destruct x
  | |- preserves _ ?m => let h := head_of m in unfold h
  end.
Ltac user_tac := intros; repeat user_step.

(** ** Class chat *)

Section chat.
Context `{UnicodeTables} `{DecimalOk D} `{LmsEnv} `{GoRange} `{ChatPlatform P}.

Abbreviation CW := (chat_world D P).
#[local] Abbreviation chat_sound m := (preserves (λ w : CW, db_ok (lms_db (cw_lms w))) m).

Lemma chat_lms {A} (m : M (lms_world D) lmsError A) :
  preserves (λ w : lms_world D, db_ok (lms_db w)) m → chat_sound (lms m).
Proof. intros Hm w Hw. specialize (Hm (cw_lms w) Hw). unfold lms. by destruct (m (cw_lms w)). Qed.

Lemma chat_do {A} (f : P → res lmsError A * P) : chat_sound (do_chat f).
Proof. intros w Hw. unfold do_chat. by destruct (f (cw_chat w)). Qed.
End chat.

Ltac chat_step :=
  match goal with
  | H : preserves ?I ?m |- preserves ?I ?m => exact H
  | |- preserves _ (guarded _ _) => apply keeps_guarded_db
  | |- preserves _ (require_id _ _) => apply keeps_require_id_db
  | |- preserves _ (m_bind _ _) => apply preserves_bind; [|intros ?]
  | |- preserves _ (m_ret _) => apply preserves_ret
  | |- preserves _ (m_throw _) => apply preserves_throw
  | |- preserves _ (m_try _) => apply preserves_try
  | |- preserves _ (m_for _ _) => apply preserves_for; intros ? _
  | |- preserves _ (lms _) => apply chat_lms; db_tac
  | |- preserves _ (do_chat _) => apply chat_do
  | |- preserves _ (ask_chat _) => by intros ?
  | |- preserves _ (on_chat _) => by intros ?
  | |- preserves _ (match ?x with _ => _ end) => destruct x
  | |- preserves _ (let '_ := ?x in _) => destruct x
  | |- preserves _ ?m => let h := head_of m in unfold h
  end.
Ltac chat_tac := intros; repeat chat_step.

(** ** Requests *)

Section api.
Context `{UnicodeTables} `{UnicodeLower} `{UserLib} `{CryptoOk} `{DecimalOk D} `{LmsEnv} `{GoRange}.
Context `{UsersEnv} `{JsonProps J} `{UserConfig} `{QmHelper} `{Collation} `{FileStore} `{ServerZone} `{DbZone}.
Context `{ChatPlatform P} `{Platform} `{Engines D} `{!SqlLowerOk}.
Context (teacherDisplayName : string → string).

Abbreviation AW := (api_world D P).

Definition api_sound (w : AW) : Prop := sound_world (aw_users w).

#[local] Abbreviation api_kept m := (preserves api_sound m).

(** Bodies come out of UnmarshalJSON, so the date of a session is a midnight. *)
Definition decoded {A} (r : request D J A) : Prop :=
  match r with
  | RcreateSession (Some (s, _, _)) => dated s
  | RupdateSession _ (Some (s, _)) => dated s
  | _ => True
  end.

Lemma kept_onU {A} (m : M (users_world D) lmsError A) : preserves sound_world m → api_kept (onU (P:=P) m).
Proof. intros Hm w Hw. specialize (Hm _ Hw). unfold onU. by destruct (m (aw_users w)). Qed.

Lemma kept_onL {A} (m : M (lms_world D) lmsError A) :
  preserves (λ w : lms_world D, db_ok (lms_db w)) m → api_kept (onL (P:=P) m).
Proof. intros Hm. by apply kept_onU, sound_lmsU. Qed.

Lemma kept_onC {A} (m : M (chat_world D P) lmsError A) :
  preserves (λ w : chat_world D P, db_ok (lms_db (cw_lms w))) m → api_kept (onC m).
Proof.
  intros Hm w [Hd Hu]. specialize (Hm (ChatWorld (uw_lms (aw_users w)) (aw_chat w)) Hd).
  unfold onC. by destruct (m _) as [r c].
Qed.

Lemma kept_answer {A} st (m : M AW lmsError A) : api_kept m → api_kept (answer st m).
Proof. intros Hm. apply preserves_bind; [done|]. intros a. apply preserves_ret. Qed.

Ltac route :=
  repeat match goal with
  | |- preserves _ (answer _ _) => apply kept_answer
  | |- preserves _ (onU _) => apply kept_onU; user_tac
  | |- preserves _ (onL _) => apply kept_onL; db_tac
  | |- preserves _ (onC _) => apply kept_onC; chat_tac
  end.

Lemma run_sound {A} may s (r : request D J A) : decoded r → api_kept (run teacherDisplayName may s r).
Proof.
  intros Hr. destruct r; simpl. 
  all: try solve [route].
  apply kept_answer. unfold createUser. apply keeps_guarded_db. destruct b as [u|]; [|apply preserves_throw].
  apply preserves_bind; [route|]. intros v. apply preserves_bind; [by intros w|]. intros t.
  apply preserves_bind; [|intros; apply preserves_ret]. intros w Hw. unfold do_platform. by destruct (AddUserToTeam _ _ _).
Qed.

Lemma serve_sound {A} s (r : request D J A) : decoded r → api_kept (serve teacherDisplayName s r).
Proof.
  intros Hr. assert (∀ s, api_kept (handle teacherDisplayName s r)) as Hh.
  { intros s'. unfold handle. destruct (required r) as [p|]; [|by apply run_sound].
    apply preserves_bind; [by intros w|]. intros may. by apply run_sound. }
  unfold serve. destruct (is_public r); [apply Hh|]. destruct s as [s|]; [|apply preserves_throw].
  destruct (empty _); [apply preserves_throw|apply Hh].
Qed.

End api.
