(* ===== verification/LmsApiProps.v ===== *)
(** * Properties of the REST API

    What a refused request does, who can make an administrator, and what an
    account created over the API looks like. *)

From S2P Require Import Prelude.
From S2P Require Import GoString.
From S2P Require Import GoUtf8.
From S2P Require Import GoRunes.
From S2P Require Import LmsModel.
From S2P Require Import Hashers.
From S2P Require Import PlatUser.
From S2P Require Import CallStore.
From S2P Require Import LmsStore.
From S2P Require Import LmsTables.
From S2P Require Import LmsApp.
From S2P Require Import LmsColumns.
From S2P Require Import LmsQuery.
From S2P Require Import LmsContent.
From S2P Require Import LmsSchedule.
From S2P Require Import LmsTuition.
From S2P Require Import LmsClass.
From S2P Require Import LmsRoutes.
From S2P Require Import LmsChat.
From S2P Require Import LmsRoles.
From S2P Require Import GoFields.
From S2P Require Import LmsRolesProps.
From S2P Require Import UserStore.
From S2P Require Import LmsUsers.
From S2P Require Import LmsUsersDemo.
From S2P Require Import LmsUsersProps.
From S2P Require Import LmsUsersInv.
From S2P Require Import LmsPublic.
From S2P Require Import LmsPublicProps.
From S2P Require Import LmsDashboard.
From S2P Require Import Login.
From S2P Require Import CreateUser.
From S2P Require Import LmsDbInv.
From S2P Require Import LmsApi.
From S2P Require Import LmsApiInv.

Local Open Scope string_scope.

Section props.
Context `{UnicodeTables} `{UnicodeLower} `{UserLib} `{CryptoOk} `{Decimal D} `{LmsEnv} `{GoRange}.
Context `{UsersEnv} `{JsonProps J} `{UserConfig} `{QmHelper} `{Collation} `{FileStore} `{ServerZone} `{DbZone}.
Context `{ChatPlatform P} `{Platform} `{Engines D}.
Context (teacherDisplayName : string → string).

Abbreviation AW := (api_world D P).
Abbreviation serve := (serve teacherDisplayName).
Abbreviation rows w := (us_rows (uw_users (aw_users w))).
Abbreviation ticks w := (lms_ticks (uw_lms (aw_users w))).

(** ** The data stays sound *)

(** A request with the session it is sent under. *)
Record call := Call { call_session : option Session; call_answer : Type; call_request : request D J call_answer }.

Definition run_call (w : AW) (c : call) : AW := (serve (call_session c) (call_request c) w).2.

(** C8: The data is sound after any requests.  Whatever requests the learning
    system's API gets, under whatever sessions and with whatever failures of
    the database and the platform, every row of the 24 tables stays filed under
    its id, accepted by IsValid and stored as it reads; every key of a row
    into another of these tables names a row that exists ([db_ok]: all 22 of
    them), deletions included, which the migration's rules cascade, set to
    NULL or refuse; and the users keep unique, valid names and addresses and
    existing parents.  Keys into the tables of users and files are not part
    of it. *)
Theorem api_keeps_data_sound `{!DecimalOk D, !SqlLowerOk} (calls : list call) (w : AW) :
  Forall (λ c, decoded (call_request c)) calls → api_sound w → api_sound (foldl run_call w calls).
Proof.
  intros Hc. revert w. induction Hc as [|c calls Hd _ IH]; intros w Hw; [done|]. by apply IH, serve_sound.
Qed.

(** ** Refused requests *)

(** Nothing but the clock of the world moved. *)
Record same_data (w w' : AW) : Prop := {
  sd_tables : lms_db (uw_lms (aw_users w')) = lms_db (uw_lms (aw_users w));
  sd_users : uw_users (aw_users w') = uw_users (aw_users w);
  sd_chat : aw_chat w' = aw_chat w;
  sd_roles : aw_roles w' = aw_roles w;
}.

(** What is answered: GET /classes/{id} checks the id before the permission. *)
Definition refusal {A} (r : request D J A) : lmsError :=
  match r with
  | RgetClass id => if IsValidId id then permission_error
                    else LmsError "api.context.invalid_url_param.app_error" 400 None
  | _ => permission_error
  end.

Lemma run_refused {A} p s (r : request D J A) (w : AW) :
  required r = Some p → run teacherDisplayName false s r w = (Err (refusal r), w).
Proof.
  intros Hr. destruct w as [[[d n] us] ch ro].
  destruct r; try discriminate Hr; simpl;
    try match goal with |- context [match ?b with Some _ => _ | None => _ end] => destruct b end; try reflexivity.
  all: unfold refusal, answer, onL, onU, lmsU, m_bind, getClass, require_id; destruct (IsValidId id); reflexivity.
Qed.

(** The world after the check of a permission. *)
Definition checked (w : AW) : AW :=
  ApiWorld (UsersWorld (tick (uw_lms (aw_users w))) (uw_users (aw_users w))) (aw_chat w) (aw_roles w).

Lemma serve_checked {A} s p (r : request D J A) (w : AW) :
  is_public r = false → required r = Some p → Session_UserId s ≠ "" →
  serve (Some s) r w =
    run teacherDisplayName (SessionHasPermissionTo (lms_fault (ticks w)) (aw_roles w) s p) s r (checked w).
Proof.
  intros Hpub Hp Hs. unfold serve. rewrite Hpub.
  assert (empty (Session_UserId s) = false) as -> by (by apply bool_decide_eq_false).
  unfold handle. by rewrite Hp.
Qed.

Lemma answer_onU {A} st (m : M (users_world D) lmsError A) (w : AW) :
  answer st (onU m) w =
    let '(r, u) := m (aw_users w) in
    (match r with Ok a => Ok (st, a) | Err e => Err e end, ApiWorld u (aw_chat w) (aw_roles w)).
Proof. unfold answer, m_bind, onU. by destruct (m (aw_users w)) as [[]]. Qed.

(** C9: A refused request changes nothing.  Every route but the public ones
    answers 401 without a session; a route that asks for a permission the
    session does not have answers 403 (the read of a class with a malformed id
    400).  In both cases users, tables, chat and roles stay as they were. *)
Theorem refused_request_changes_nothing {A} (r : request D J A) (w : AW) :
  is_public r = false →
  serve None r w = (Err (LmsError "api.context.session_expired.app_error" 401 None), w) ∧
  ∀ s p, Session_UserId s ≠ "" → required r = Some p →
    SessionHasPermissionTo (lms_fault (ticks w)) (aw_roles w) s p = false →
    ∃ w', serve (Some s) r w = (Err (refusal r), w') ∧ same_data w w'.
Proof.
  intros Hpub. split; [unfold serve; by rewrite Hpub|]. intros s p Hs Hp Hno.
  rewrite (serve_checked s p), Hno, (run_refused p) by done. eexists. split; [done|]. by split.
Qed.

(** ** Who can make an administrator *)

(** The role of parents is in force and lists what the migration gives it. *)
Definition parents_as_migrated (roles : role_rows) : Prop :=
  ∃ role row, MakeDefaultLMSRoles !! RoleLmsParentRoleId = Some role ∧ roles !! RoleLmsParentRoleId = Some row ∧
    Role_Name row = RoleLmsParentRoleId ∧ plain_role row = true ∧ Role_Permissions row = Role_Permissions role.

Lemma parents_manage_students roles s :
  (∀ l, is_Some (ChannelHigherScopedPermissions l)) → parents_as_migrated roles →
  RoleLmsParentRoleId ∈ Fields (Session_Roles s) →
  SessionHasPermissionTo false roles s PermissionLmsManageStudents = true.
Proof.
  intros Hhigher (role & row & Hdef & Hrow & Hname & Hplain & Hp) Hin. unfold SessionHasPermissionTo.
  destruct (Session_Local s); [done|]. eapply role_grants; try done. rewrite Hp.
  assert (match MakeDefaultLMSRoles !! RoleLmsParentRoleId with
          | Some r => bool_decide (PermissionLmsManageStudents ∈ Role_Permissions r) | None => false end = true) as Hall
    by (vm_compute; reflexivity).
  rewrite Hdef in Hall. by apply bool_decide_eq_true in Hall.
Qed.

(** C10: A parent can make administrators.  After the migration the role of
    parents may manage students, and the route of a student's update takes any
    id and stores the roles of its body: no request of a parent to set roles,
    on their own account as on any other, is refused, and what is stored when
    it succeeds are the roles they asked for. *)
Theorem parent_sets_any_role s id u (w w' : AW) r :
  (∀ l, is_Some (ChannelHigherScopedPermissions l)) → parents_as_migrated (aw_roles w) →
  RoleLmsParentRoleId ∈ Fields (Session_Roles s) → Session_UserId s ≠ "" → lms_fault (ticks w) = false →
  user_db_ok (aw_users w) → IsValidId id = true → User_Roles u ≠ "" →
  serve (Some s) (RupdateStudent id (Some u) None) w = (r, w') →
  match r with
  | Err e => (le_status e = 404%Z ∨ le_status e = 500%Z) ∧ rows w' = rows w
  | Ok answer => answer.1 = 200%Z ∧ ∃ old row, rows w !! id = Some old ∧ rows w' = <[id := row]> (rows w) ∧
      User_Roles row = User_Roles u
  end.
Proof.
  intros Hhigher Hparents Hin Hs Hf Hok Hid Hne.
  rewrite (serve_checked s PermissionLmsManageStudents), Hf, parents_manage_students by done.
  change (run teacherDisplayName true s (RupdateStudent id (Some u) None))
    with (answer (D:=D) (P:=P) 200 (onU (updateStudent (J:=J) true id (Some u) None))).
  rewrite answer_onU. unfold updateStudent, guarded, require_id. rewrite Hid.
  destruct (UpdateStudent _ _ _) as [r1 u1] eqn:Hrun. apply UpdateStudent_roles in Hrun; [|done..].
  destruct r1 as [saved|e]; intros [= <- <-]; [|exact Hrun].
  destruct Hrun as (old & row & Hold & Hrows & Hroles & _). split; [done|]. by exists old, row.
Qed.

(** ** Accounts created over the API *)

Abbreviation UW := (users_world D).
Abbreviation urows w := (us_rows (uw_users w)).

(** What is stored of a password: a hash of it, or nothing of an empty one. *)
Definition stores_password (password stored : string) : Prop :=
  if decide (password = "") then stored = "" else ∃ draw, Hash draw password = Ok stored.

Lemma PreSave_password i i' now nanos draw u u' :
  PreSave i i' now nanos draw u = Ok u' → stores_password (User_Password u) (User_Password u').
Proof.
  intros Hp. unfold stores_password. destruct (decide _) as [He|Hne].
  - revert Hp. unfold PreSave. rewrite decide_True by done. intros [= <-].
    destruct (clean_status_fields nanos (PreSave_fields i i' now u)) as (_ & _ & _ & _ & Hpw & _).
    by rewrite Hpw.
  - apply PreSave_Ok in Hp as (_ & _ & _ & _ & _ & _ & Hpass). exists draw. by apply Hpass.
Qed.

(** An account a creation stored: [user] is what the store was given. *)
Record stored_account (user saved : User) (t t' : gmap string User) : Prop := {
  sa_new : t !! User_Id saved = None;
  sa_row : ∃ row, t' = <[User_Id saved := row]> t ∧ User_Roles row = User_Roles user ∧
    User_EmailVerified row = User_EmailVerified user ∧ User_ParentId row = User_ParentId user ∧
    stores_password (User_Password user) (User_Password row);
}.

Lemma us_save_stored_account user saved obj (w w' : UW) :
  us_save user w = (Ok (Ok saved, obj), w') → stored_account user saved (urows w) (urows w').
Proof.
  intros (res & obj' & t & [= <- <-] & _ & -> & Hs)%us_save_inv.
  apply UserStore_Save_spec in Hs as (u' & row & Hp & _ & Hc & Hnone & _ & _ & Hid & ->).
  apply PreSave_keeps in Hp as Hkeep. destruct Hkeep as [Hpar _].
  apply PreSave_password in Hp as Hpass. apply PreSave_Ok in Hp as (_ & _ & _ & _ & Hr & Hv & _).
  apply columns_fields in Hc as (_ & _ & _ & Hpa & Hro & Hve & _ & _ & Hpi & _). simpl in *.
  split; rewrite Hid; [done|]. exists row. split_and!; [done|congruence..|]. by rewrite Hpa.
Qed.

(** The verification of the address that follows. *)
Lemma verify_account user saved email (w0 w w' : UW) r :
  stored_account user saved (urows w0) (urows w) → User_EmailVerified user = true →
  us_verify_email (User_Id saved) email w = (r, w') → stored_account user saved (urows w0) (urows w').
Proof.
  intros [Hnew (row & Ht & Hro & Hve & Hpi & Hpw)] Htrue Hv. split; [done|].
  apply or_throw_on_users in Hv as [Hv _]. revert Hv. unfold UserStore_VerifyEmail. rewrite Ht, lookup_insert_eq.
  destruct (_ || _); intros [= _ <-]; [rewrite Ht; by exists row|]. cbn.
  erewrite alter_alt_Some by apply lookup_insert_eq. eexists. rewrite insert_insert_eq.
  split; [done|]. cbn. by split_and!.
Qed.

Lemma service_account user saved (w w' : UW) :
  User_EmailVerified user = true → service_createUser user w = (Ok saved, w') →
  stored_account user saved (urows w) (urows w').
Proof.
  intros Htrue. unfold service_createUser. destruct (if empty _ then _ else _); [done|]. intros Hrun.
  apply bind_inv in Hrun as [([res obj] & w1 & Hs & Hrun)|(e & _ & [=])].
  unfold from_store in Hs. destruct (us_save user w) as [[p|e] w2] eqn:Hsave; [|done]. injection Hs as -> ->.
  cbn [fst] in Hrun. destruct res as [ruser|e]; [|done]. apply us_save_stored_account in Hsave as Hacc.
  apply bind_inv in Hrun as [(tt' & w3 & Hv & Hrun)|(e & _ & [=])]. injection Hrun as <- <-.
  assert (stored_account user ruser (urows w) (urows w3)) as Hacc'.
  { destruct (User_EmailVerified ruser); [|by injection Hv as _ <-].
    unfold m_bind, m_try, from_store in Hv.
    destruct (us_verify_email _ _ w1) as [r w4] eqn:Hver. eapply verify_account in Hver; [|done..].
    destruct r; by injection Hv as _ <-. }
  destruct Hacc' as [Hnew Hrow]. by split.
Qed.

(** A statement that leaves the rows alone. *)
Lemma us_get_rows id : frames (λ w : UW, urows w) (us_get id).
Proof.
  intros w. unfold us_get, or_throw, on_users, m_bind, CachedUserStore_Get, UserStore_Get.
  destruct (if cache_dropped _ id then None else _); [done|]. cbn.
  destruct (lms_fault _); [done|]. by destruct (us_rows (uw_users w) !! id).
Qed.

(** No account yet, bots apart. *)
Definition no_account (w : UW) : Prop := UserStore_IsEmpty true false (uw_users w) = Ok true.

Lemma CreateUser_account user saved (w w' : UW) :
  User_EmailVerified user = true → CreateUser user w = (Ok saved, w') →
  ∃ is_empty u, UserStore_IsEmpty true false (uw_users w) = Ok is_empty ∧
    User_Roles u = created_roles is_empty false user ∧ User_Password u = User_Password user ∧
    User_ParentId u = User_ParentId user ∧ User_EmailVerified u = true ∧
    stored_account u saved (urows w) (urows w').
Proof.
  intros Htrue Hrun. unfold CreateUser, createUserOrGuest in Hrun.
  apply bind_inv in Hrun as [([] & w1 & Hg & Hrun)|(e & _ & [=])].
  assert (w1 = w) as ->.
  { unfold isUniqueToGroupNames in Hg. destruct (empty _); [by injection Hg|]. unfold m_bind, m_gets in Hg.
    destruct (group_by_name _ _); [done|]. destruct (IsErrNotFound _); [by injection Hg|done]. }
  apply bind_inv in Hrun as [(ruser & w2 & Hs & Hrun)|(e & _ & [=])].
  apply bind_inv in Hrun as [([] & w3 & Hi & Hrun)|(e & _ & [=])]. injection Hi as <-.
  apply bind_inv in Hrun as [(tt' & w4 & Hget & Hrun)|(e & _ & [=])]. injection Hrun as <- <-.
  assert (urows w4 = urows w2) as ->.
  { destruct (User_EmailVerified ruser); [|by injection Hget as _ <-].
    apply bind_inv in Hget as [(x & w5 & Hget & Hr)|(e & _ & [=])]. injection Hr as _ <-.
    apply wrapU_inv in Hget as (r0 & Hget & _). pose proof (us_get_rows (User_Id ruser)) as Hf.
    match type of Hget with us_get _ ?w3 = _ => specialize (Hf w3); rewrite Hget in Hf; exact Hf end. }
  unfold map_error in Hs. destruct (service_CreateUser user false w) as [[x|e] w5] eqn:Hsvc; [|done].
  injection Hs as -> ->. unfold service_CreateUser in Hsvc. do 2 (destruct (_ && _ && _); [done|]).
  apply bind_inv in Hsvc as [(is_empty & w6 & He & Hsvc)|(e & _ & [=])].
  unfold from_store, us_is_empty in He. destruct (or_throw _ w) as [[b|b] w7] eqn:Hor; [|done]. injection He as -> ->.
  apply or_throw_on_users in Hor as [Hor _]. injection Hor as Hempty Hw6.
  assert (UserStore_IsEmpty true false (uw_users w) = Ok is_empty) as Hempty'
    by (revert Hempty; unfold UserStore_IsEmpty; by destruct (lms_fault _)).
  exists is_empty. set (u := if supported_locale _ then _ else _) in Hsvc.
  assert (User_Roles u = created_roles is_empty false user ∧ User_Password u = User_Password user ∧
          User_ParentId u = User_ParentId user ∧ User_EmailVerified u = User_EmailVerified user) as (Hro & Hpw & Hpi & Hve)
    by (subst u; by destruct (supported_locale _)).
  exists u. rewrite Hve. split_and!; try done. apply service_account in Hsvc; [by rewrite Hw6|by rewrite Hve].
Qed.

(** Every account belongs to a bot: nobody has registered yet. *)
Definition only_bots (w : AW) : Prop := ∀ id, is_Some (rows w !! id) → is_Some (us_bots (uw_users (aw_users w)) !! id).

Lemma IsEmpty_bots (w : AW) b : UserStore_IsEmpty true false (uw_users (aw_users w)) = Ok b → b = true ↔ only_bots w.
Proof.
  unfold UserStore_IsEmpty. intros [= <-]. rewrite forallb_forall. split.
  - intros Hall id [u Hu]. specialize (Hall (id, u)). cbn in Hall. rewrite bool_decide_eq_true in Hall.
    apply Hall, list_elem_of_In. by apply elem_of_map_to_list.
  - intros Hbots [id u] Hin%list_elem_of_In%elem_of_map_to_list. cbn. rewrite bool_decide_eq_true. by apply Hbots.
Qed.

(** The roles of an account that is not the first. *)
Lemma created_roles_fields u :
  Fields (created_roles false false u) =
    (Fields (User_Roles u) ++ if decide ("system_user" ∈ Fields (User_Roles u)) then [] else ["system_user"])%list.
Proof.
  unfold created_roles, GetRoles, join_roles.
  assert (Forall field ["system_user"]) as Hsu by exact (Fields_fields "system_user").
  destruct (decide _) as [Hin|Hin]; [rewrite bool_decide_true by done|rewrite bool_decide_false by done];
    cbn [negb]; rewrite Fields_join.
  - by rewrite app_nil_r.
  - apply Fields_fields.
  - done.
  - apply Forall_app. split; [apply Fields_fields|done].
Qed.

(** C12: What an account made over the API is.  POST /users inserts one row and
    changes no other: its e-mail counts as verified, it keeps the parent of
    the body, a non-empty password is stored as a hash of it (an empty one, of
    an account that signs in elsewhere, stays empty), and its roles are the
    roles of the body in their order, whatever they are, with system_user
    added when it is not among them.  Only when all accounts so far are bots
    it is system_admin, system_user and lms_super_admin whatever the body
    says. *)
Theorem created_user s u (w w' : AW) st saved :
  serve (Some s) (RcreateUser (Some u)) w = (Ok (st, saved), w') →
  ∃ row, rows w !! User_Id saved = None ∧ rows w' = <[User_Id saved := row]> (rows w) ∧
    User_EmailVerified row = true ∧ User_ParentId row = User_ParentId u ∧
    stores_password (User_Password u) (User_Password row) ∧
    (only_bots w → User_Roles row = "system_admin system_user lms_super_admin") ∧
    (¬ only_bots w → Fields (User_Roles row) =
       (Fields (User_Roles u) ++ if decide ("system_user" ∈ Fields (User_Roles u)) then [] else ["system_user"])%list).
Proof.
  intros Hrun. assert (∃ may w1, uw_users (aw_users w1) = uw_users (aw_users w) ∧
    answer 200 (createUser may (Some u)) w1 = (Ok (st, saved), w')) as (may & w1 & Hw1 & Hc).
  { unfold serve in Hrun. simpl is_public in Hrun. destruct (empty (Session_UserId s)); [done|].
    by exists (SessionHasPermissionTo (lms_fault (ticks w)) (aw_roles w) s PermissionLmsManageUsers), (checked w). }
  rewrite <-Hw1. unfold createUser, guarded in Hc. destruct may; [|done]. cbn [with_body] in Hc.
  apply bind_inv in Hc as [(a & w2 & Hc & Hr)|(e & _ & [=])]. injection Hr as _ -> <-.
  apply bind_inv in Hc as [(created & w3 & Hc & Hr)|(e & _ & [=])].
  apply bind_inv in Hr as [(team & w4 & Ht & Hr)|(e & _ & [=])].
  apply bind_inv in Hr as [([] & w5 & Hd & Hr)|(e & _ & [=])]. injection Hr as -> <-.
  assert (aw_users w4 = aw_users w3) as H43 by (by injection Ht as _ <-).
  assert (aw_users w5 = aw_users w4) as H54
    by (unfold do_platform in Hd; destruct (AddUserToTeam _ _ _) as [[e|] p]; [done|]; by injection Hd as <-).
  rewrite H54, H43. unfold onU in Hc. destruct (CreateUser _ (aw_users w1)) as [r1 u1] eqn:Hcu. injection Hc as -> <-.
  apply CreateUser_account in Hcu; [|unfold requested_user; by destruct (empty _)].
  destruct Hcu as (is_empty & v & He & Hro & Hpw & Hpi & Hve & [Hnew (row & Ht' & Hro' & Hve' & Hpi' & Hpw')]).
  assert (User_Roles v = created_roles is_empty false u ∧ User_Password v = User_Password u ∧
          User_ParentId v = User_ParentId u) as (Hrv & Hpv & Hiv)
    by (rewrite Hro, Hpw, Hpi; unfold requested_user; by destruct (empty _)).
  rewrite Hw1 in He. apply IsEmpty_bots in He.
  exists row. cbn. rewrite Hve', Hro', Hpi', <-Hpv, Hrv. split_and!; [done..| |].
  - intros Hbots. by rewrite (proj2 He Hbots).
  - intros Hno. destruct is_empty; [by destruct Hno; apply He|apply created_roles_fields].
Qed.
End props.

(** ** The theorems at a concrete school *)

Module ApiDemo.
Import School.
#[export] Existing Instance cents.
#[export] Existing Instance cents_ok.

#[export] Instance platform : Platform := {|
  platform_permissions := ["manage_system"];
  deprecated_permissions := [];
  channel_scoped := [];
  channel_moderated := [];
  ChannelHigherScopedPermissions _ := Some ∅;
|}.

Lemma lower_idle : SqlLowerOk.
Proof. done. Qed.
#[export] Existing Instance lower_idle.

#[export] Instance lax : UserConfig := {|
  MinimumLength := 5; Lowercase := false; Uppercase := false; Number := false; Symbol := false;
  RestrictCreationToDomains := ""; GuestRestrictCreationToDomains := ""; DefaultClientLocale := "en";
  supported_locale s := String.eqb s "en"; group_by_name _ n := Err (ErrNotFound "Group" n);
|}.

#[export] Instance bytewise : Collation := {| collate_le := String.leb |}.
#[export] Instance no_files : FileStore :=
  {| GetFileInfo _ _ := Err permission_error; FileReader _ _ := Err permission_error |}.
#[export] Instance utc_server : ServerZone := {| zone_offset _ := 0%Z |}.
#[export] Instance utc_db : DbZone := {| db_offset _ := 0%Z |}.

(** A platform with every team and no channels. *)
#[export] Instance teams_only : ChatPlatform unit := {|
  GetTeamByName _ name := Ok {| tm_Id := name; tm_Name := name; tm_DisplayName := name; tm_Type := "I" |};
  CreateTeam p t := (Ok t, p);
  GetAdmins _ _ _ := Ok [];
  AddUserToTeam p _ _ := (None, p);
  GetChannel _ _ := Err permission_error;
  CreateChannel p _ := (Err permission_error, p);
  GetChannelByName _ _ _ := Err permission_error;
  AddChannelMember p _ _ := (None, p);
  GetChannelMembersPage _ _ _ _ := Ok [];
  RemoveUserFromChannel p _ _ _ := (None, p);
  PermanentDeleteChannel p _ := (None, p);
  chan_members _ _ := ∅;
|}.

(** Searches that find nothing. *)
Definition finds_nothing {X} : Engine Z X := {| sql_all _ _ _ := Some []; sql_count _ _ _ := Some 0%Z |}.
#[export] Instance engines : Engines Z := {|
  branch_engine := finds_nothing; class_engine := finds_nothing; session_engine := finds_nothing;
  lead_engine := finds_nothing; package_engine := finds_nothing; tuition_engine := finds_nothing;
  payment_engine := finds_nothing; post_engine := finds_nothing; homework_engine := finds_nothing;
  review_engine := finds_nothing; task_engine := finds_nothing; material_engine := finds_nothing;
  media_engine := finds_nothing;
  user_engine := {| users_all _ _ _ := Some []; users_count _ _ _ := Some 0%Z |};
|}.

Definition migrated : role_rows := rw_roles (doLMSRolesCreationMigration (H1:=Fresh.counting) Fresh.before).2.

Definition fresh_school : api_world Z unit := ApiWorld nobody tt migrated.

Definition session_of (id roles : string) : Session :=
  {| Session_UserId := id; Session_Roles := roles; Session_Local := false |}.
Definition owner : Session := session_of "owner" "lms_super_admin".
Definition parent : Session := session_of "parent" "system_user lms_parent".
End ApiDemo.

Section witnesses.
Import School ApiDemo.

Abbreviation served s r w := (serve (P:=unit) (J:=string) (λ id, id) s r w).

Lemma fresh_school_sound : api_sound fresh_school.
Proof.
  split; [|exact nobody_ok].
  split; [split|split; [split|split|]]; intros id x; intros; simplify_map_eq.
Qed.

(** A course, a branch and a class of the course. *)
Definition course_id : string := "course34567890123456789012".
Definition branch_id : string := "branch34567890123456789012".
Definition class_id : string := "class234567890123456789012".

Definition a_course : Course Z :=
  {| Course_ID := course_id; Course_Name := "Math"; Course_Code := "M"; Course_Level := None; Course_AgeRange := None;
     Course_TotalSessions := 24; Course_DurationPerSession := 60; Course_Fee := None; Course_Description := None;
     Course_Curriculum := None; Course_Createat := 0; Course_Updateat := 0 |}.

Definition a_branch : Branch :=
  {| Branch_ID := branch_id; Branch_Name := "Centre"; Branch_Address := None; Branch_Phone := None;
     Branch_Createat := 0; Branch_Updateat := 0 |}.

Definition a_class : Class :=
  {| Class_ID := class_id; Class_CourseID := course_id; Class_BranchID := branch_id; Class_Name := "Math 1";
     Class_Code := "M1"; Class_TeacherID := an_id; Class_Status := "OPEN"; Class_Room := None;
     Class_StartDate := 0; Class_EndDate := None; Class_Createat := 0; Class_Updateat := 0;
     Class_ChatChannelID := "" |}.

(** A class before its course exists is refused, then accepted; a parent may
    not delete the course, the owner may, and the class goes with it. *)
Definition opening : list (call (D:=Z) (J:=string)) :=
  [Call (Some owner) _ (RcreateUser (Some (User_with_Password "secret" (body "an@school.vn" "An" "lms_parent"))));
   Call (Some owner) _ (RcreateBranch (Some a_branch));
   Call (Some owner) _ (RcreateClass (Some a_class));
   Call (Some owner) _ (RcreateCourse (Some a_course))].
Definition teaching : list (call (D:=Z) (J:=string)) :=
  [Call (Some owner) _ (RcreateClass (Some a_class)); Call (Some parent) _ (RdeleteCourse course_id)].
Definition closing : list (call (D:=Z) (J:=string)) := [Call (Some owner) _ (RdeleteCourse course_id)].

Abbreviation after calls := (foldl (run_call (P:=unit) (λ id, id)) fresh_school calls).
Abbreviation classes_of w := (db_classes (lms_db (uw_lms (aw_users w)))).

Lemma api_keeps_data_sound_witness :
  api_sound (after (opening ++ teaching ++ closing)%list) ∧
  size (classes_of (after opening)) = 0%nat ∧ size (classes_of (after (opening ++ teaching)%list)) = 1%nat ∧
  size (classes_of (after (opening ++ teaching ++ closing)%list)) = 0%nat.
Proof.
  split; [|split_and!; vm_compute; reflexivity].
  apply (api_keeps_data_sound (λ id, id)); [|exact fresh_school_sound].
  repeat constructor.
Defined.

(** A parent may not create accounts, and nobody may without a session. *)
Lemma refused_request_changes_nothing_witness :
  served None (RcreateUser None) fresh_school =
    (Err (LmsError "api.context.session_expired.app_error" 401 None), fresh_school) ∧
  ∃ w', served (Some parent) (RcreateUser None) fresh_school = (Err permission_error, w') ∧ same_data fresh_school w'.
Proof.
  destruct (refused_request_changes_nothing (J:=string) (λ id, id) (RcreateUser None) fresh_school eq_refl) as [Hnone Hsome].
  split; [exact Hnone|]. apply (Hsome parent PermissionLmsManageUsers); [discriminate|reflexivity|vm_compute; reflexivity].
Defined.

Lemma higher_found l : is_Some (ChannelHigherScopedPermissions l).
Proof. by eexists. Qed.

(** The account of a student, in a school where parents may manage students. *)
Definition school : api_world Z unit := ApiWorld seen tt migrated.
Abbreviation promoted := (served (Some parent) (RupdateStudent an_id (Some promotion) None) school).

Lemma parents_migrated : parents_as_migrated migrated.
Proof.
  assert (match MakeDefaultLMSRoles !! RoleLmsParentRoleId, migrated !! RoleLmsParentRoleId with
          | Some role, Some row => String.eqb (Role_Name row) RoleLmsParentRoleId && plain_role row &&
                                   bool_decide (Role_Permissions row = Role_Permissions role)
          | _, _ => false
          end = true) as Hb by (vm_compute; reflexivity).
  unfold parents_as_migrated. destruct (MakeDefaultLMSRoles !! RoleLmsParentRoleId) as [role|]; [|done].
  destruct (migrated !! RoleLmsParentRoleId) as [row|]; [|done].
  apply andb_prop in Hb as [[Hn%String.eqb_eq Hp]%andb_prop Hperm%bool_decide_eq_true]. by exists role, row.
Qed.

Lemma parent_sets_any_role_witness :
  ∃ row, us_rows (uw_users (aw_users promoted.2)) !! an_id = Some row ∧ User_Roles row = "system_admin".
Proof.
  assert (match promoted.1 with Ok _ => True | Err _ => False end) as Hok by (vm_compute; exact I).
  assert (bool_decide (RoleLmsParentRoleId ∈ Fields (Session_Roles parent)) = true) as Hin by (vm_compute; reflexivity).
  assert (User_Roles promotion ≠ "") as Hne by discriminate.
  pose proof (parent_sets_any_role (J:=string) (λ id, id) parent an_id promotion school promoted.2 promoted.1
    higher_found parents_migrated (bool_decide_eq_true_1 _ Hin) (λ E, ltac:(discriminate E)) eq_refl seen_ok
    eq_refl Hne (surjective_pairing promoted)) as Hall.
  destruct promoted.1 as [answer|e]; [|destruct Hok].
  destruct Hall as (_ & old & row & _ & Hrows & Hroles). exists row. rewrite Hrows, lookup_insert_eq.
  exact (conj eq_refl Hroles).
Defined.

(** The first account of the school. *)
Abbreviation registered := (served (Some owner)
  (RcreateUser (Some (User_with_Password "secret" (body "an@school.vn" "An" "lms_teacher")))) fresh_school).

(** The next one. *)
Definition binh : User := User_with_Password "secret" (body "binh@school.vn" "Binh" "lms_teacher system_admin").
Abbreviation second := (served (Some owner) (RcreateUser (Some binh)) registered.2).

Lemma created_user_witness :
  ∃ first row saved row', registered.1 = Ok (200%Z, first) ∧ second.1 = Ok (200%Z, saved) ∧
    us_rows (uw_users (aw_users second.2)) = <[User_Id saved := row']> (<[User_Id first := row]> ∅) ∧
    User_Roles row = "system_admin system_user lms_super_admin" ∧
    Fields (User_Roles row') = ["lms_teacher"; "system_admin"; "system_user"] ∧
    ∃ draw, Hash draw "secret" = Ok (User_Password row').
Proof.
  assert (∃ first, registered.1 = Ok (200%Z, first)) as [first Hfirst] by (vm_compute; eexists; reflexivity).
  assert (∃ saved, second.1 = Ok (200%Z, saved)) as [saved Hsaved] by (vm_compute; eexists; reflexivity).
  destruct (created_user (J:=string) (λ id, id) owner (User_with_Password "secret" (body "an@school.vn" "An" "lms_teacher"))
    fresh_school registered.2 200%Z first) as (row & _ & Hrows & _ & _ & _ & Hroles & _).
  { rewrite <-Hfirst. apply surjective_pairing. }
  destruct (created_user (J:=string) (λ id, id) owner binh registered.2 second.2 200%Z saved)
    as (row' & _ & Hrows' & _ & _ & Hpw & _ & Hroles').
  { rewrite <-Hsaved. apply surjective_pairing. }
  exists first, row, saved, row'. split; [exact Hfirst|]. split; [exact Hsaved|]. split; [exact (eq_trans Hrows' (f_equal (insert (User_Id saved) row') Hrows))|].
  split; [|split].
  - apply Hroles. intros id [u Hu]. discriminate Hu.
  - apply Hroles'. intros Hbots. destruct (Hbots (User_Id first)) as [b Hb].
    + exact (mk_is_Some _ _ (eq_trans (f_equal (lookup (User_Id first)) Hrows) (lookup_insert_eq _ _ _))).
    + assert (us_bots (uw_users (aw_users registered.2)) = ∅) as Hno by (vm_compute; reflexivity).
      pose proof (eq_trans (eq_sym Hb) (f_equal (lookup (User_Id first)) Hno)) as E. discriminate E.
  - exact Hpw.
Defined.
End witnesses.
