(* ===== verification/LoginProps.v ===== *)
(** * Properties of the login

    [login_spec] says what a login with a password does to an account, without
    the store, its cache and its statements; [login_refines] is the refinement.
    On top of it: the lockout after too many guesses, the one more login of a
    deactivated user whom the cache remembers, one-time passwords that work
    once, and the migration of old hashes. *)

From stdpp Require Import strings.
From S2P Require Import Prelude.
From S2P Require Import GoString.
From S2P Require Import GoUtf8.
From S2P Require Import GoRunes.
From S2P Require Import LmsModel.
From S2P Require Import PhcParser.
From S2P Require Import Hashers.
From S2P Require Import PlatUser.
From S2P Require Import CallStore.
From S2P Require Import LmsStore.
From S2P Require Import LmsTables.
From S2P Require Import LmsApp.
From S2P Require Import UserStore.
From S2P Require Import LmsUsers.
From S2P Require Import LmsUsersDemo.
From S2P Require Import LmsUsersProps.
From S2P Require Import Login.

Local Open Scope string_scope.

(** ** The specification *)

(** What a login looks at. *)
Record account := Account {
  ac_id : string; ac_password : string; ac_deleted : Z; ac_bot : bool; ac_attempts : Z; ac_service : string;
  ac_mfa : bool; ac_verified : bool;
}.

Definition account_of (u : User) : account :=
  Account (User_Id u) (User_Password u) (User_DeleteAt u) (User_IsBot u) (User_FailedAttempts u) (User_AuthService u)
    (User_MfaActive u) (User_EmailVerified u).

Definition with_attempts (n : Z) (a : account) : account :=
  Account (ac_id a) (ac_password a) (ac_deleted a) (ac_bot a) n (ac_service a) (ac_mfa a) (ac_verified a).

(** The error id, if any, and the number the counter of failed attempts is set
    to, if it is; [cmp] is the outcome of comparing the password with the
    stored hash. *)
Definition login_spec `{LoginConfig} (cmp : option hashError) (a : account) : option string * option Z :=
  if (0 <? ac_deleted a)%Z then (Some "api.user.login.inactive.app_error", None)
  else if ac_bot a then (Some "api.user.login.bot_login_forbidden.app_error", None)
  else if (MaximumLoginAttempts <=? ac_attempts a)%Z
  then (Some "api.user.check_user_login_attempts.too_many.app_error", None)
  else match cmp with
       | Some ErrMismatchedHashAndPassword =>
           (Some "api.user.check_user_password.invalid.app_error", Some (ac_attempts a + 1)%Z)
       | Some _ => (Some "app.valid_password_generic.app_error", None)
       | None =>
           (if negb (ac_verified a) && RequireEmailVerification then Some "api.user.login.not_verified.app_error" else None,
            Some 0%Z)
       end.

(** The account afterwards. *)
Definition after_login (n : option Z) (a : account) : account :=
  match n with Some n => with_attempts n a | None => a end.

Section props.
Context `{UnicodeTables} `{UnicodeLower} `{UserLib} `{CryptoOk} `{Decimal D} `{LmsEnv} `{GoRange}.
Context `{UsersEnv} `{LoginConfig} `{Otp}.

Abbreviation UW := (users_world D).
Abbreviation rows w := (us_rows (uw_users w)).

(** ** What the store shows of an account *)

(** The row and the cached copy, if any, agree on the account. *)
Definition shows (id : string) (a : account) (d : user_db) : Prop :=
  (∃ row, us_rows d !! id = Some row ∧ account_of (with_bot (us_bots d) row) = a) ∧
  ∀ c, us_cache d !! id = Some c → account_of c = a.

(** Accounts of other users stay as they are. *)
Definition others_same (id : string) (d d' : user_db) : Prop :=
  us_bots d' = us_bots d ∧ ∀ j, j ≠ id → us_rows d' !! j = us_rows d !! j.

Lemma others_same_refl id d : others_same id d d.
Proof. done. Qed.

Lemma others_same_trans id d1 d2 d3 : others_same id d1 d2 → others_same id d2 d3 → others_same id d1 d3.
Proof. intros [B1 R1] [B2 R2]. split; [congruence|]. intros j Hj. by rewrite R2, R1. Qed.

(** The database answers. *)
Definition healthy : Prop := ∀ n, lms_fault n = false.

Lemma us_get_shows id a (w : UW) :
  healthy → shows id a (uw_users w) →
  ∃ u w', us_get id w = (Ok u, w') ∧ account_of u = a ∧ shows id a (uw_users w') ∧ rows w' = rows w ∧
    us_bots (uw_users w') = us_bots (uw_users w).
Proof.
  intros Hh [(row & Hrow & Ha) Hc]. unfold us_get, or_throw, m_bind, on_users, CachedUserStore_Get.
  destruct (if cache_dropped _ id then None else us_cache (uw_users w) !! id) as [c|] eqn:E.
  - exists c. eexists. split; [done|]. assert (us_cache (uw_users w) !! id = Some c) as Hin by (by destruct (cache_dropped _ id)).
    split; [by apply Hc|]. split; [|done]. split; [eauto|done].
  - unfold UserStore_Get. rewrite Hh. cbn. rewrite Hrow. eexists _, _. split; [done|]. split; [done|]. cbn.
    split; [|done]. split; [eauto|]. cbn. intros c. rewrite lookup_insert_eq. intros [= <-]. by rewrite <- Ha.
Qed.

(** The counter of failed attempts is an INTEGER column. *)
Definition int4 (n : Z) : Prop := (-2147483648 ≤ n ≤ 2147483647)%Z.

(** The statement stores the number and drops the cached copy. *)
Lemma us_attempts_run id n (w : UW) :
  healthy → int4 n →
  ∃ w', us_attempts id n w = (Ok tt, w') ∧ us_bots (uw_users w') = us_bots (uw_users w) ∧
    rows w' = alter (User_with_FailedAttempts n) id (rows w) ∧ us_cache (uw_users w') !! id = None.
Proof.
  intros Hh [Hlo Hhi]. unfold us_attempts, or_throw, m_bind, on_users.
  unfold CachedUserStore_UpdateFailedPasswordAttempts, UserStore_UpdateFailedPasswordAttempts. rewrite Hh.
  assert (within_z (-2147483648) 2147483647 n = true) as -> by (unfold within_z; apply andb_true_iff; split; lia).
  cbn. eexists. split_and!; try done. apply lookup_delete_eq.
Qed.

Lemma us_attempts_shows id a n (w w' : UW) row :
  healthy → int4 n → us_attempts id n w = (Ok tt, w') →
  rows w !! id = Some row → account_of (with_bot (us_bots (uw_users w)) row) = a →
  shows id (with_attempts n a) (uw_users w') ∧ others_same id (uw_users w) (uw_users w').
Proof.
  intros Hh Hn Hrun Hrow Ha. destruct (us_attempts_run id n w Hh Hn) as (w2 & Hrun2 & Hb & Hr & Hc).
  rewrite Hrun in Hrun2. injection Hrun2 as <-. split; [split|split].
  - exists (User_with_FailedAttempts n row). rewrite Hr, lookup_alter, decide_True, Hrow, Hb by done. cbn.
    split; [done|]. by rewrite <- Ha.
  - intros c. by rewrite Hc.
  - done.
  - intros j Hj. by rewrite Hr, lookup_alter_ne.
Qed.

(** ** The refinement *)

(** An account with a password of the latest hasher and without a second factor. *)
Record plain_account (a : account) (h : PasswordHasher) (phc : Phc.PHC) : Prop := {
  pa_service : ac_service a = "";
  pa_mfa : ac_mfa a = false ∨ EnableMultifactorAuthentication = false;
  pa_password : ac_password a ≠ "";
  pa_hasher : GetHasherFromPHCString (ac_password a) = Ok (h, phc);
  pa_latest : IsLatestHasher h = true;
  pa_attempts : (0 ≤ ac_attempts a)%Z;
}.

Lemma plain_with_attempts n a h phc : (0 ≤ n)%Z → plain_account a h phc → plain_account (with_attempts n a) h phc.
Proof. intros Hn []. by split. Qed.

Lemma bind_Ok {S E A B} (m : M S E A) (k : A → M S E B) w a w1 : m w = (Ok a, w1) → m_bind m k w = k a w1.
Proof. intros Hm. unfold m_bind. by rewrite Hm. Qed.

Lemma bind_Err {S E A B} (m : M S E A) (k : A → M S E B) w e w1 : m w = (Err e, w1) → m_bind m k w = (Err e, w1).
Proof. intros Hm. unfold m_bind. by rewrite Hm. Qed.

Lemma wrapU_Ok {A} c (m : M UW storeError A) w a w1 : m w = (Ok a, w1) → wrapU c m w = (Ok a, w1).
Proof. intros Hm. unfold wrapU. by rewrite Hm. Qed.

Lemma GetUser_shows id a (w : UW) :
  healthy → shows id a (uw_users w) →
  ∃ u w', GetUser id w = (Ok u, w') ∧ account_of u = a ∧ shows id a (uw_users w') ∧
    others_same id (uw_users w) (uw_users w').
Proof.
  intros Hh Hs. destruct (us_get_shows id a w Hh Hs) as (u & w' & Hg & Ha & Hs' & Hr & Hb).
  exists u, w'. split; [by apply wrapU_Ok|]. split; [done|]. split; [done|]. split; [done|]. intros j _. by rewrite Hr.
Qed.

(** The outcome of a check as the specification has it. *)
Definition outcome_is (o : option string) (r : res lmsError unit) : Prop :=
  match o with
  | None => r = Ok tt
  | Some e => ∃ status, r = Err (LmsError e status None)
  end.

(** The check of a password, from the user it reads on: what it answers, and
    the one statement it may run. *)
Lemma check_run id (u : User) h phc password token (w w1 : UW) :
  healthy → GetUser id w = (Ok u, w1) → User_Id u = id → plain_account (account_of u) h phc → password ≠ "" →
  (MaximumLoginAttempts ≤ 2147483647)%Z →
  let '(o, wr) := login_spec (CompareHashAndPassword h phc password) (account_of u) in
  ∃ r w', CheckPasswordAndAllCriteria id password token w = (r, w') ∧ outcome_is o r ∧
    match wr with None => w' = w1 | Some n => int4 n ∧ us_attempts id n w1 = (Ok tt, w') end.
Proof.
  intros Hh Hg Hid [Hsv Hmfa Hpw Hget Hlat Hatt] Hne Hmax.
  unfold CheckPasswordAndAllCriteria. rewrite (bind_Ok _ _ _ _ _ Hg).
  unfold CheckUserPreflightAuthenticationCriteria, checkUserNotDisabled, checkUserNotBot, checkUserLoginAttempts, login_spec.
  cbn [ac_deleted ac_bot ac_attempts ac_password ac_service ac_mfa ac_verified account_of ac_id] in *.
  destruct (0 <? User_DeleteAt u)%Z; [by do 2 eexists; split; [|split; [eexists|]]|].
  destruct (User_IsBot u); [by do 2 eexists; split; [|split; [eexists|]]|].
  destruct (MaximumLoginAttempts <=? User_FailedAttempts u)%Z eqn:Ha.
  { rewrite decide_False by (by rewrite Hsv). by do 2 eexists; split; [|split; [eexists|]]. }
  apply Z.leb_gt in Ha. unfold checkUserPassword, empty.
  rewrite (bool_decide_eq_false_2 (User_Password u = "")), (bool_decide_eq_false_2 (password = "")), Hget by done.
  cbn [orb]. destruct (CompareHashAndPassword h phc password) as [[]|].
  - by do 2 eexists; split; [|split; [eexists|]].
  - assert (int4 (User_FailedAttempts u + 1)) as Hi by (unfold int4; lia).
    destruct (us_attempts_run id _ w1 Hh Hi) as (w2 & Hat & _).
    exists (Err (LmsError "api.user.check_user_password.invalid.app_error" 401 None)), w2.
    split; [|split; [by eexists|done]].
    unfold count_failure. rewrite Hid, (bind_Ok _ _ w1 tt w1); [|done].
    rewrite (bind_Err _ _ w1 (LmsError "api.user.check_user_password.invalid.app_error" 401 None) w2); [done|].
    by rewrite (bind_Ok _ _ _ _ _ (wrapU_Ok _ _ _ _ _ Hat)).
  - by do 2 eexists; split; [|split; [eexists|]].
  - rewrite Hlat. assert (int4 0) as Hi by (unfold int4; lia).
    destruct (us_attempts_run id 0 w1 Hh Hi) as (w2 & Hat & _).
    assert (CheckUserMfa u token w1 = (Ok tt, w1)) as Hm.
    { unfold CheckUserMfa. destruct Hmfa as [->| ->]; [done|]. by rewrite orb_true_r. }
    exists (if negb (User_EmailVerified u) && RequireEmailVerification
            then Err (LmsError "api.user.login.not_verified.app_error" 401 None) else Ok tt), w2.
    split; [|split; [destruct (_ && _); [by eexists|done]|done]].
    rewrite (bind_Ok _ _ w1 tt w1); [|done]. rewrite (bind_Ok _ _ w1 tt w1); [|done].
    rewrite (bind_Ok _ _ w1 tt w1); [|by unfold mfa_or_count; rewrite Hm].
    unfold reset_failures. rewrite Hid, (bind_Ok _ _ w1 tt w2); [|by apply wrapU_Ok].
    unfold CheckUserPostflightAuthenticationCriteria. by destruct (_ && _).
Qed.

(** The login by id up to the check of the password. *)
Lemma authenticate_check id (u : User) password token (w w1 : UW) o r w2 :
  id ≠ "" → password ≠ "" → EnableSignInWithEmail || EnableSignInWithUsername = true →
  GetUser id w = (Ok u, w1) → User_Id u = id → User_AuthService u = "" →
  CheckPasswordAndAllCriteria id password token w1 = (r, w2) → outcome_is o r →
  AuthenticateUserForLogin id "" password token w =
    (match o with None => Ok u | Some e => Err (LmsError e 401 None) end, w2).
Proof.
  intros Hid Hp He Hg Hu Hsv Hc Ho. unfold AuthenticateUserForLogin, GetUserForLogin, empty.
  rewrite (bool_decide_eq_false_2 (password = "")), (bool_decide_eq_false_2 (id = "")), He by done.
  cbn [negb]. rewrite (bind_Ok _ _ _ _ _ Hg). unfold authenticateUser.
  rewrite decide_False by (by rewrite Hsv). rewrite Hsv. cbn [negb]. unfold m_bind, mapErr. rewrite Hu. change (negb (empty "")) with false. cbn iota beta. rewrite Hc.
  destruct o as [e|]; cbn in Ho; [destruct Ho as [st ->]|subst r]; done.
Qed.

(** A login does to the account what the specification says, answers with its
    error or with the user, and touches no other account. *)
Definition answers (a : account) (o : option string) (r : res lmsError User) : Prop :=
  match o with None => ∃ u, r = Ok u ∧ account_of u = a | Some e => r = Err (LmsError e 401 None) end.

Lemma login_step id a h phc password token (w : UW) :
  healthy → EnableSignInWithEmail || EnableSignInWithUsername = true → (MaximumLoginAttempts ≤ 2147483647)%Z →
  shows id a (uw_users w) → ac_id a = id → id ≠ "" → plain_account a h phc → password ≠ "" →
  let '(o, wr) := login_spec (CompareHashAndPassword h phc password) a in
  ∃ r w', AuthenticateUserForLogin id "" password token w = (r, w') ∧
    answers a o r ∧ shows id (after_login wr a) (uw_users w') ∧ others_same id (uw_users w) (uw_users w').
Proof.
  intros Hh He Hmax Hs Hid Hne Hpl Hp.
  destruct (GetUser_shows id a w Hh Hs) as (u0 & w0 & Hg0 & Hu0 & Hs0 & Ho0).
  destruct (GetUser_shows id a w0 Hh Hs0) as (u1 & w1 & Hg1 & Hu1 & Hs1 & Ho1).
  assert (User_Id u0 = id ∧ User_AuthService u0 = "") as [Hi0 Hsv].
  { rewrite <- Hid, <- (pa_service _ _ _ Hpl), <- Hu0. done. }
  pose proof (check_run id u1 h phc password token w0 w1 Hh Hg1 ltac:(by rewrite <- Hid, <- Hu1)
    ltac:(by rewrite Hu1) Hp Hmax) as Hc. rewrite Hu1 in Hc.
  destruct (login_spec _ a) as [o wr]. destruct Hc as (r & w2 & Hrun & Ho & Hw).
  pose proof (authenticate_check id u0 password token w w0 o r w2 Hne Hp He Hg0 Hi0 Hsv Hrun Ho) as Hau.
  eexists _, w2. split; [exact Hau|]. split; [by destruct o; cbn; eauto|].
  destruct wr as [n|]; [|subst w2; split; [done|by eapply others_same_trans]].
  destruct Hw as [Hn Hat]. destruct Hs1 as [(row & Hrow & Ha) _].
  destruct (us_attempts_shows id a n w1 w2 row Hh Hn Hat Hrow Ha) as [Hs2 Ho2]. split; [done|].
  by eapply others_same_trans; [|eapply others_same_trans].
Qed.

Lemma spec_keeps cmp a o wr h phc :
  login_spec cmp a = (o, wr) → plain_account a h phc →
  plain_account (after_login wr a) h phc ∧ ac_id (after_login wr a) = ac_id a.
Proof.
  unfold login_spec. intros Hs Hpl. pose proof (pa_attempts _ _ _ Hpl).
  repeat case_match; injection Hs as <- <-; try done; split; try done; apply plain_with_attempts; lia || done.
Qed.

(** Logins in a row: the answers, and the world after them. *)
Fixpoint logins (id : string) (ps : list (string * string)) (w : UW) : list (res lmsError User) * UW :=
  match ps with
  | [] => ([], w)
  | (password, token) :: ps =>
      let '(r, w) := AuthenticateUserForLogin id "" password token w in
      let '(rs, w) := logins id ps w in (r :: rs, w)
  end.

Fixpoint logins_spec (cmp : string → option hashError) (ps : list (string * string)) (a : account)
    : list (account * option string) * account :=
  match ps with
  | [] => ([], a)
  | (password, _) :: ps =>
      let '(o, wr) := login_spec (cmp password) a in
      let '(os, a') := logins_spec cmp ps (after_login wr a) in ((a, o) :: os, a')
  end.

(** C13: The login refines its specification, for a plain account on a
    database that answers: one with a local password under the latest hasher
    ([plain_account]) and no second factor in use, whose copy in the cache, if
    there is one, agrees with the row at the start ([shows]; a stale copy is
    [deactivated_user_logs_in_once]).  Sign-in by e-mail or user name is
    enabled and the attempt limit fits an int32.  Then any sequence of logins by its id,
    with nonempty passwords and any tokens, gives the answers [login_spec]
    gives, leaves the account as it says and its cached copy, if any, in
    agreement, and touches no other account. *)
Theorem login_refines id a h phc ps (w : UW) :
  healthy → EnableSignInWithEmail || EnableSignInWithUsername = true → (MaximumLoginAttempts ≤ 2147483647)%Z →
  shows id a (uw_users w) → ac_id a = id → id ≠ "" → plain_account a h phc → Forall (λ p, p.1 ≠ "") ps →
  let '(os, a') := logins_spec (CompareHashAndPassword h phc) ps a in
  let '(rs, w') := logins id ps w in
  Forall2 (λ o r, answers o.1 o.2 r) os rs ∧ shows id a' (uw_users w') ∧
  others_same id (uw_users w) (uw_users w').
Proof.
  intros Hh He Hmax Hs Hid Hne Hpl Hps. revert a w Hs Hid Hpl.
  induction Hps as [|[password token] ps Hp _ IH]; intros a w Hs Hid Hpl; [done|]. cbn [logins logins_spec].
  pose proof (login_step id a h phc password token w Hh He Hmax Hs Hid Hne Hpl Hp) as Hstep.
  destruct (login_spec _ a) as [o wr] eqn:Hspec. destruct Hstep as (r & w1 & Hrun & Hr & Hs1 & Ho1). rewrite Hrun.
  destruct (spec_keeps _ _ _ _ _ _ Hspec Hpl) as [Hpl1 Hid1].
  specialize (IH _ w1 Hs1 ltac:(congruence) Hpl1).
  destruct (logins_spec _ ps _) as [os a2], (logins id ps w1) as [rs w2]. destruct IH as (Hrs & Hs2 & Ho2).
  split; [by constructor|]. split; [done|]. by eapply others_same_trans.
Qed.

(** Wrong passwords are counted up to the limit. *)
Lemma guesses_counted id a h phc ps (w : UW) :
  healthy → EnableSignInWithEmail || EnableSignInWithUsername = true → (MaximumLoginAttempts ≤ 2147483647)%Z →
  shows id a (uw_users w) → ac_id a = id → id ≠ "" → plain_account a h phc →
  (ac_deleted a ≤ 0)%Z → ac_bot a = false → (ac_attempts a ≤ MaximumLoginAttempts)%Z →
  Forall (λ p, p.1 ≠ "" ∧ CompareHashAndPassword h phc p.1 = Some ErrMismatchedHashAndPassword) ps →
  shows id (with_attempts (Z.min MaximumLoginAttempts (ac_attempts a + Z.of_nat (length ps))) a)
    (uw_users (logins id ps w).2).
Proof.
  intros Hh He Hmax Hs Hid Hne Hpl Hdel Hbot Hle Hps. revert a w Hs Hid Hpl Hdel Hbot Hle.
  induction Hps as [|[password token] ps [Hp Hc] _ IH]; intros a w Hs Hid Hpl Hdel Hbot Hle; cbn [logins length].
  { rewrite Z.min_r by lia. rewrite Z.add_0_r. by destruct a. }
  pose proof (login_step id a h phc password token w Hh He Hmax Hs Hid Hne Hpl Hp) as Hstep.
  destruct (login_spec _ a) as [o wr] eqn:Hspec. destruct Hstep as (r & w1 & Hrun & _ & Hs1 & _). rewrite Hrun.
  destruct (spec_keeps _ _ _ _ _ _ Hspec Hpl) as [Hpl1 Hid1].
  unfold login_spec in Hspec. cbn [fst] in Hc. rewrite Hc, (proj2 (Z.ltb_ge _ _) Hdel), Hbot in Hspec.
  specialize (IH _ w1 Hs1 ltac:(congruence) Hpl1). destruct (logins id ps w1) as [rs w2]. cbn [snd] in *.
  destruct (Z.leb_spec MaximumLoginAttempts (ac_attempts a)) as [Hfull|Hfull]; injection Hspec as <- <-;
    cbn [after_login] in *.
  - specialize (IH Hdel Hbot Hle). rewrite Z.min_l in IH |- * by lia. done.
  - specialize (IH Hdel Hbot ltac:(cbn; lia)). cbn in IH.
    replace (ac_attempts a + Z.of_nat (S (length ps)))%Z with (ac_attempts a + 1 + Z.of_nat (length ps))%Z by lia.
    exact IH.
Qed.

(** C31: Guessing locks the account.  Once as many wrong passwords as the limit
    allows were tried, every further login is refused, also one with the right
    password, until something resets the counter. *)
Theorem guesses_lock_the_account id a h phc ps password token (w : UW) :
  healthy → EnableSignInWithEmail || EnableSignInWithUsername = true → (MaximumLoginAttempts ≤ 2147483647)%Z →
  shows id a (uw_users w) → ac_id a = id → id ≠ "" → plain_account a h phc →
  (ac_deleted a ≤ 0)%Z → ac_bot a = false → (ac_attempts a ≤ MaximumLoginAttempts)%Z →
  Forall (λ p, p.1 ≠ "" ∧ CompareHashAndPassword h phc p.1 = Some ErrMismatchedHashAndPassword) ps →
  (MaximumLoginAttempts ≤ ac_attempts a + Z.of_nat (length ps))%Z → password ≠ "" →
  (AuthenticateUserForLogin id "" password token (logins id ps w).2).1 =
    Err (LmsError "api.user.check_user_login_attempts.too_many.app_error" 401 None).
Proof.
  intros Hh He Hmax Hs Hid Hne Hpl Hdel Hbot Hle Hps Hlen Hp.
  pose proof (guesses_counted id a h phc ps w Hh He Hmax Hs Hid Hne Hpl Hdel Hbot Hle Hps) as Hs2.
  rewrite Z.min_l in Hs2 by lia. pose proof (pa_attempts _ _ _ Hpl).
  assert (0 ≤ MaximumLoginAttempts)%Z as H0' by lia.
  pose proof (login_step id _ h phc password token _ Hh He Hmax Hs2 Hid Hne (plain_with_attempts _ _ _ _ H0' Hpl) Hp) as Hstep.
  unfold login_spec in Hstep. cbn [with_attempts ac_deleted ac_bot ac_attempts] in Hstep.
  rewrite (proj2 (Z.ltb_ge _ _) Hdel), Hbot, Z.leb_refl in Hstep. by destruct Hstep as (r & w' & -> & -> & _).
Qed.
(** ** A cached user *)

(** A deactivated user can log in once more.  While the cache has the user
    as it was before the deactivation, a login by id with the right password
    succeeds; it drops the cached copy, so the next one is refused. *)
Theorem deactivated_user_logs_in_once id c row h phc password token token' (w : UW) :
  healthy → EnableSignInWithEmail || EnableSignInWithUsername = true → (MaximumLoginAttempts ≤ 2147483647)%Z →
  (∀ n, cache_dropped n id = false) → in_cache id c w → rows w !! id = Some row → User_Id row = id → id ≠ "" →
  plain_account (account_of c) h phc → CompareHashAndPassword h phc password = None → password ≠ "" →
  (User_DeleteAt c ≤ 0)%Z → User_IsBot c = false → (User_FailedAttempts c < MaximumLoginAttempts)%Z →
  User_EmailVerified c = true →
  (0 < User_DeleteAt row)%Z → User_AuthService row = "" →
  ∃ w1 w2, AuthenticateUserForLogin id "" password token w = (Ok c, w1) ∧
    AuthenticateUserForLogin id "" password token' w1 =
      (Err (LmsError "api.user.login.inactive.app_error" 401 None), w2).
Proof.
  intros Hh He Hmax Hdrop Hin Hrow Hri Hne Hpl Hcmp Hp Hdel Hbot Hatt Hver Hrd Hrs.
  set (w0 := UsersWorld (tick (uw_lms w)) (uw_users w)). set (w1 := UsersWorld (tick (uw_lms w0)) (uw_users w)).
  assert (GetUser id w = (Ok c, w0)) as Hg0 by (by apply wrapU_Ok, us_get_cached).
  assert (GetUser id w0 = (Ok c, w1)) as Hg1 by (by apply wrapU_Ok; apply (us_get_cached id c w0)).
  destruct Hin as [Hc Hci].
  pose proof (check_run id c h phc password token w0 w1 Hh Hg1 Hci Hpl Hp Hmax) as Hrun.
  unfold login_spec in Hrun. cbn [ac_deleted ac_bot ac_attempts ac_verified account_of] in Hrun.
  rewrite (proj2 (Z.ltb_ge _ _) Hdel), Hbot, (proj2 (Z.leb_gt _ _) Hatt), Hcmp, Hver in Hrun. cbn [negb andb] in Hrun.
  destruct Hrun as (r & w2 & Hck & Ho & Hn & Hat).
  pose proof (authenticate_check id c password token w w0 None r w2 Hne Hp He Hg0 Hci (pa_service _ _ _ Hpl) Hck Ho) as Hau.
  destruct (us_attempts_run id 0 w1 Hh Hn) as (w2' & Hat' & Hb & Hr & Hcache).
  rewrite Hat in Hat'. injection Hat' as <-.
  set (row' := with_bot (us_bots (uw_users w)) (User_with_FailedAttempts 0 row)).
  assert (shows id (account_of row') (uw_users w2)) as Hs2.
  { split; [|intros c'; by rewrite Hcache].
    exists (User_with_FailedAttempts 0 row). rewrite Hr, lookup_alter, decide_True by done. cbn. rewrite Hrow, Hb. done. }
  destruct (GetUser_shows id _ w2 Hh Hs2) as (u3 & w3 & Hg3 & Hu3 & Hs3 & _).
  destruct (GetUser_shows id _ w3 Hh Hs3) as (u4 & w4 & Hg4 & Hu4 & _ & _).
  exists w2, w4. split; [exact Hau|].
  assert (User_Id u3 = id ∧ User_AuthService u3 = "") as [Hi3 Hs3'].
  { injection Hu3 as -> _ _ _ _ -> _ _. done. }
  refine (authenticate_check id u3 password token' w2 w3 (Some _) (Err (LmsError _ 401 None)) w4 Hne Hp He Hg3 Hi3 Hs3' _ _);
    [|by eexists].
  unfold CheckPasswordAndAllCriteria. rewrite (bind_Ok _ _ _ _ _ Hg4).
  unfold CheckUserPreflightAuthenticationCriteria, checkUserNotDisabled.
  assert (User_DeleteAt u4 = User_DeleteAt row) as -> by (injection Hu4 as _ _ -> _ _ _ _ _; done).
  by rewrite (proj2 (Z.ltb_lt _ _) Hrd).
Qed.
(** ** One-time passwords *)

(** A statement of the login on the users. *)
Lemma on_users_run {A} (f : nat → user_db → res storeError A * user_db) (w : UW) :
  or_throw (on_users f) w =
    ((f (lms_ticks (uw_lms w)) (uw_users w)).1,
     UsersWorld (tick (uw_lms w)) (f (lms_ticks (uw_lms w)) (uw_users w)).2).
Proof. unfold or_throw, on_users, m_bind. by destruct (f _ _) as [[a|e] d]. Qed.

Lemma us_used_inv id (w w' : UW) r :
  us_used id w = (r, w') →
  r = UserStore_GetMfaUsedTimestamps (lms_fault (lms_ticks (uw_lms w))) (uw_users w) id ∧ uw_users w' = uw_users w.
Proof. unfold us_used. rewrite on_users_run. by intros [= <- <-]. Qed.

(** A token that was accepted has its time steps on file. *)
Lemma ValidateToken_used (user : User) token (w w' : UW) `{!OtpOk} :
  ValidateToken user token w = (Ok true, w') →
  ∃ row now used used', rows w' !! User_Id user = Some row ∧ User_MfaUsedTimestamps row = map Itoa used' ∧
    otp_Authenticate now (User_MfaSecret user) used (TrimSpace token) = Some (Some used').
Proof.
  unfold ValidateToken. intros Hrun.
  apply bind_inv in Hrun as [(used & w1 & Hu & Hrun)|(e & _ & ?)]; [|done].
  apply us_used_inv in Hu as [Hu Hw1].
  apply bind_inv in Hrun as [(r & w2 & Hm & Hrun)|(e & _ & ?)]; [|done].
  unfold mfa_authenticate in Hm. apply bind_inv in Hm as [(now & w3 & Hnow & Hm)|(e & _ & ?)]; [|done].
  injection Hnow as _ <-. destruct (otp_Authenticate _ _ _ _) as [r'|] eqn:Ho; [|done]. injection Hm as <- <-.
  destruct r' as [used'|]; [|done].
  apply bind_inv in Hrun as [([] & w4 & Hst & Hrun)|(e & _ & ?)]; [|done]. injection Hrun as <-.
  unfold us_store_used in Hst. rewrite on_users_run in Hst. injection Hst as Hst <-.
  unfold UserStore_GetMfaUsedTimestamps in Hu. rewrite <- Hw1 in Hu.
  destruct (lms_fault (lms_ticks (uw_lms w))); [done|].
  destruct (rows w1 !! User_Id user) as [row|] eqn:Hrow; [|done].
  unfold UserStore_StoreMfaUsedTimestamps in *. destruct (lms_fault _) in *; [done|]. cbn.
  exists (with_used (map Itoa used') (lms_clock (lms_ticks (uw_lms w1))) row), now, used, used'. split_and!; try done.
  by rewrite lookup_alter, decide_True, Hrow.
Qed.

Lemma parse_printed ts : Forall (λ t, 0 ≤ t < int64_half)%Z ts → mapM Atoi (map Itoa ts) = Some ts.
Proof.
  induction 1 as [|t ts Ht _ IH]; [done|]. cbn [map mapM]. rewrite Atoi_Itoa by done. cbn [mbind option_bind].
  by rewrite IH.
Qed.

(** C32: A one-time password works once.  After a token passed the check of the
    second factor, the same token fails it, whenever it is tried again while
    the account stays as the first check left it. *)
Theorem one_time_password_works_once (user : User) token (w w1 w2 : UW) `{!OtpOk} :
  User_MfaActive user = true → EnableMultifactorAuthentication = true →
  CheckUserMfa user token w = (Ok tt, w1) →
  uw_users w2 = uw_users w1 → lms_fault (lms_ticks (uw_lms w2)) = false →
  ∃ w3, CheckUserMfa user token w2 = (Err (LmsError "api.user.check_user_mfa.bad_code.app_error" 401 None), w3) ∧
    uw_users w3 = uw_users w2.
Proof.
  intros Ha He Hrun Hw2 Hf. unfold CheckUserMfa in *. rewrite Ha, He in *. cbn [negb orb] in *.
  apply bind_inv in Hrun as [(ok & w' & Hv & Hrun)|(e & _ & ?)]; [|done].
  apply wrapU_inv in Hv as (r0 & Hv & Hr0). destruct ok; [|done]. injection Hrun as <-.
  destruct r0 as [b|]; [|done]. injection Hr0 as <-.
  apply ValidateToken_used in Hv as (row & now & used & used' & Hrow & Hts & Ho); [|done].
  rewrite <- Hw2 in Hrow.
  assert (us_used (User_Id user) w2 = (Ok used', UsersWorld (tick (uw_lms w2)) (uw_users w2))) as Hu.
  { unfold us_used. rewrite on_users_run. cbn. unfold UserStore_GetMfaUsedTimestamps. rewrite Hf, Hrow, Hts.
    by rewrite parse_printed by (by eapply otp_range). }
  set (w3 := UsersWorld (tick (uw_lms w2)) (uw_users w2)) in *.
  assert (mfa_authenticate (User_MfaSecret user) used' token w3 = (Ok None, w3)) as Hm.
  { unfold mfa_authenticate, m_bind, m_gets. by rewrite (otp_reuse _ _ _ _ _ Ho). }
  exists w3. split; [|done]. rewrite (bind_Ok _ _ w2 false w3); [done|]. apply wrapU_Ok.
  unfold ValidateToken. by rewrite (bind_Ok _ _ _ _ _ Hu), (bind_Ok _ _ _ _ _ Hm).
Qed.

(** ** Old hashes *)

(** C33: A login brings an old hash up to date.  When the right password of an
    account whose hash is not of the latest hasher is checked, the account
    has a hash of the latest one afterwards, which accepts that password; a
    hash of the latest hasher stays as it is. *)
Theorem login_migrates_hash (user : User) row h phc password inv (w w' : UW) :
  GetHasherFromPHCString (User_Password user) = Ok (h, phc) → CompareHashAndPassword h phc password = None →
  rows w !! User_Id user = Some row → checkUserPassword user password inv w = (Ok tt, w') →
  if IsLatestHasher h then w' = w
  else ∃ row' phc', rows w' = <[User_Id user := row']> (rows w) ∧
    GetHasherFromPHCString (User_Password row') = Ok (latestHasher, phc') ∧
    CompareHashAndPassword latestHasher phc' password = None ∧
    us_cache (uw_users w') !! User_Id user = None.
Proof.
  intros Hg Hc Hrow. unfold checkUserPassword. destruct (_ || _); [done|]. rewrite Hg, Hc.
  destruct (IsLatestHasher h); [by intros [= <-]|]. unfold migratePassword. intros Hrun.
  apply bind_inv in Hrun as [(draw & w1 & Hd & Hrun)|(e & Hd & _)]; [|done]. injection Hd as <- <-.
  destruct (Hash _ password) as [newHash|] eqn:Hh; [|done].
  apply bind_inv in Hrun as [([] & w2 & Hup & Hrun)|(e & _ & ?)]; [|done].
  apply wrapU_inv in Hup as (r0 & Hup & Hr0). destruct r0 as [[]|]; [|done]. injection Hrun as <-.
  unfold us_password in Hup. rewrite on_users_run in Hup. injection Hup as Hok <-.
  unfold UserStore_UpdatePassword in *. destruct (_ || _); [done|].
  destruct (Hash_accepts _ _ _ Hh) as (phc' & Hget & Hcmp).
  eexists (with_password newHash _ row), phc'. split; [|split; [exact Hget|split; [exact Hcmp|]]]; cbn.
  - apply map_eq. intros j. destruct (decide (j = User_Id user)) as [->|Hj].
    + by rewrite lookup_alter, decide_True, Hrow, lookup_insert_eq.
    + by rewrite lookup_alter_ne, lookup_insert_ne.
  - apply lookup_delete_eq.
Qed.
(** ** A new student *)

Lemma clean_status_account now u : account_of (clean_status now u) = account_of u.
Proof. unfold clean_status, SetCustomStatus. destruct (GetCustomStatus u); [|done]. by destruct (json_of_status _). Qed.

Lemma PreSave_account i i' now nanos draw u u' :
  PreSave i i' now nanos draw u = Ok u' →
  account_of u' = Account (if_empty (User_Id u) i) (User_Password u') (User_DeleteAt u) (User_IsBot u)
    (User_FailedAttempts u) (User_AuthService u) false (User_EmailVerified u).
Proof.
  unfold PreSave. destruct (decide _).
  - intros [= <-]. pose proof (clean_status_account nanos (PreSave_fields i i' now u)) as Ha. rewrite Ha.
    by injection Ha as _ -> _ _ _ _ _ _.
  - destruct (Hash _ _) as [hh|[]]; [|done..]. intros [= <-].
    pose proof (clean_status_account nanos (User_with_Password hh (PreSave_fields i i' now u))) as Ha. rewrite Ha.
    by injection Ha as _ -> _ _ _ _ _ _.
Qed.

(** What a save stores of the account. *)
Lemma us_save_account u saved obj (w w' : UW) :
  us_save u w = (Ok (Ok saved, obj), w') →
  ∃ row, rows w' !! User_Id saved = Some row ∧ us_bots (uw_users w') = us_bots (uw_users w) ∧
    account_of row = Account (User_Id saved) (User_Password row) (User_DeleteAt u) false (User_FailedAttempts u)
      (User_AuthService u) false (User_EmailVerified u).
Proof.
  intros Hrun. assert (us_bots (uw_users w') = us_bots (uw_users w)) as Hb.
  { unfold us_save, on_users in Hrun. destruct (UserStore_Save _ _ _ _ _ _ _ _ _ _) as [[res o] t]. by injection Hrun as _ _ <-. }
  apply us_save_inv in Hrun as (res & obj' & t & [= <- <-] & _ & <- & Hs).
  apply UserStore_Save_spec in Hs as (u' & row & Hp & _ & Hc & _ & _ & _ & Hid & Hrows).
  apply PreSave_account in Hp. exists row. rewrite Hrows, Hid, lookup_insert_eq. split_and!; [done|done|].
  unfold columns in Hc. destruct (_ && _); [|done]. injection Hc as <-. cbn. unfold account_of in *. cbn.
  by injection Hp as _ -> _ -> -> -> ->.
Qed.

(** C14: A new student can log in.  After CreateStudent the user of the answer
    logs in by id with Student@123, provided the request did not create the
    account deactivated, locked or under another login service. *)
Theorem created_student_logs_in `{JsonProps J} user props token (w w' : UW) saved :
  healthy → EnableSignInWithEmail || EnableSignInWithUsername = true → (0 < MaximumLoginAttempts ≤ 2147483647)%Z →
  CreateStudent (J:=J) (Some user) props w = (Ok saved, w') →
  (User_DeleteAt user ≤ 0)%Z → (0 ≤ User_FailedAttempts user < MaximumLoginAttempts)%Z → User_AuthService user = "" →
  us_cache (uw_users w') !! User_Id saved = None → us_bots (uw_users w) !! User_Id saved = None → User_Id saved ≠ "" →
  ∃ u w'', AuthenticateUserForLogin (User_Id saved) "" defaultStudentPassword token w' = (Ok u, w'') ∧
    User_Id u = User_Id saved.
Proof.
  intros Hh He Hmax Hrun Hdel Hatt Hsv Hcache Hbot Hne.
  apply CreateStudent_inv in Hrun as [(e & ? & _)|(u & r0 & Hso & Hs & Hr)]; [done|].
  assert (User_Password u ≠ "") as Hpw by (by rewrite (so_password _ _ Hso)).
  apply saveStudent_spec in Hs as [(saved' & obj & Hsave & ->)|(e & -> & _)]; [|done|done]. injection Hr as <-.
  destruct (us_save_account _ _ _ _ _ Hsave) as (row & Hrow & Hb & Ha).
  apply us_save_row in Hsave as (row' & draw & i & _ & _ & Hrows & _ & _ & _ & _ & Hhash & _); [|done].
  rewrite Hrows, lookup_insert_eq in Hrow. injection Hrow as ->. rewrite (so_password _ _ Hso) in Hhash.
  destruct (Hash_accepts _ _ _ Hhash) as (phc & Hget & Hcmp).
  rewrite (so_delete _ _ Hso), (so_service _ _ Hso), (so_attempts _ _ Hso), (so_verified _ _ Hso), Hsv in Ha.
  assert (shows (User_Id saved) (account_of row) (uw_users w')) as Hshow.
  { split; [|intros c; by rewrite Hcache]. exists row. rewrite Hrows, lookup_insert_eq. split; [done|].
    injection Ha as Hi _ Hib _ _ _ _. unfold account_of, with_bot. cbn. by rewrite Hb, Hi, Hbot, Hib. }
  assert (plain_account (account_of row) latestHasher phc) as Hpl.
  { rewrite Ha. split; cbn [ac_service ac_mfa ac_password ac_attempts]; [done|by left| |done| |lia].
    - intros E. by rewrite E in Hget.
    - unfold latestHasher, IsLatestHasher. by rewrite !bool_decide_eq_true_2. }
  assert (ac_id (account_of row) = User_Id saved) as Hid by (by rewrite Ha).
  pose proof (login_step _ _ latestHasher phc defaultStudentPassword token w' Hh He ltac:(lia) Hshow Hid Hne Hpl ltac:(done))
    as Hstep.
  rewrite Hcmp, Ha in Hstep. unfold login_spec in Hstep. cbn [ac_deleted ac_bot ac_attempts ac_verified] in Hstep.
  rewrite (proj2 (Z.ltb_ge _ _) Hdel), (proj2 (Z.leb_gt _ _)) in Hstep by lia. cbn [negb andb] in Hstep.
  destruct Hstep as (r & w'' & Hrun & (u' & -> & Hu') & _). exists u', w''. split; [done|]. by injection Hu' as -> _.
Qed.
End props.

(** ** At the concrete school *)

(** The account the store shows under an id it has. *)
Definition no_account : account := Account "" "" 0 false 0 "" false false.

Definition shown (id : string) (d : user_db) : account :=
  default no_account ((λ row, account_of (with_bot (us_bots d) row)) <$> us_rows d !! id).

Lemma shows_shown id d :
  bool_decide (is_Some (us_rows d !! id)) = true → bool_decide (us_cache d !! id = None) = true → shows id (shown id d) d.
Proof.
  rewrite !bool_decide_eq_true. intros [row Hrow] Hc. unfold shown. rewrite Hrow. split; [eauto|].
  intros c. by rewrite Hc.
Qed.

Definition with_mfa (secret : string) (u : User) : User :=
  {| User_Id := User_Id u; User_CreateAt := User_CreateAt u; User_UpdateAt := User_UpdateAt u;
     User_DeleteAt := User_DeleteAt u; User_Username := User_Username u; User_Password := User_Password u;
     User_AuthData := User_AuthData u; User_AuthService := User_AuthService u; User_Email := User_Email u;
     User_EmailVerified := User_EmailVerified u; User_Nickname := User_Nickname u;
     User_FirstName := User_FirstName u; User_LastName := User_LastName u; User_Position := User_Position u;
     User_Roles := User_Roles u; User_AllowMarketing := User_AllowMarketing u; User_Props := User_Props u;
     User_NotifyProps := User_NotifyProps u; User_LastPasswordUpdate := User_LastPasswordUpdate u;
     User_LastPictureUpdate := User_LastPictureUpdate u; User_FailedAttempts := User_FailedAttempts u;
     User_Locale := User_Locale u; User_Timezone := User_Timezone u; User_MfaActive := true;
     User_MfaSecret := secret; User_RemoteId := User_RemoteId u;
     User_LastActivityAt := User_LastActivityAt u; User_IsBot := User_IsBot u;
     User_BotDescription := User_BotDescription u; User_BotLastIconUpdate := User_BotLastIconUpdate u;
     User_TermsOfServiceId := User_TermsOfServiceId u;
     User_TermsOfServiceCreateAt := User_TermsOfServiceCreateAt u;
     User_DisableWelcomeEmail := User_DisableWelcomeEmail u; User_LastLogin := User_LastLogin u;
     User_MfaUsedTimestamps := User_MfaUsedTimestamps u; User_Phone := User_Phone u;
     User_ParentId := User_ParentId u |}.

Module LoginDemo.
Import School.
#[local] Existing Instance cents.
#[export] Instance three_guesses : LoginConfig := {|
  MaximumLoginAttempts := 3%Z; EnableMultifactorAuthentication := true; RequireEmailVerification := false;
  EnableSignInWithUsername := true; EnableSignInWithEmail := true;
|}.
#[export] Instance secret_is_token : Otp := λ _ secret used token,
  if String.eqb token secret then (if bool_decide (1%Z ∈ used) then Some None else Some (Some [1%Z])) else Some None.
#[export] Instance secret_is_token_ok : OtpOk.
Proof.
  split; unfold otp_Authenticate, secret_is_token.
  - intros _ secret used token used'. destruct (String.eqb token secret); [|done].
    destruct (bool_decide (1%Z ∈ used)); [done|]. by intros [= <-].
  - intros _ secret used token used'. destruct (String.eqb token secret); [|done].
    destruct (bool_decide (1%Z ∈ used)); [done|]. intros [= <-]. constructor; [unfold int64_half; lia|constructor].
Qed.

Lemma always_healthy : healthy.
Proof. by intros n. Qed.

Lemma signs_in : EnableSignInWithEmail || EnableSignInWithUsername = true.
Proof. reflexivity. Qed.

Lemma few_guesses : (MaximumLoginAttempts ≤ 2147483647)%Z.
Proof. by vm_compute. Qed.

Lemma never_dropped id n : cache_dropped n id = false.
Proof. reflexivity. Qed.

Abbreviation students := (uw_users created.2).
Definition hash_of (id : string) : Phc.PHC :=
  match GetHasherFromPHCString (ac_password (shown id students)) with Ok (_, phc) => phc | Err _ => Phc.empty_PHC end.

Lemma an_plain : plain_account (shown an_id students) latestHasher (hash_of an_id).
Proof.
  split; [vm_compute; reflexivity|left; vm_compute; reflexivity|vm_compute; discriminate|vm_compute; reflexivity|
    vm_compute; reflexivity|vm_compute; discriminate].
Qed.

Lemma an_shown : shows an_id (shown an_id students) students.
Proof. apply shows_shown; vm_compute; reflexivity. Qed.

Lemma an_id_shown : ac_id (shown an_id students) = an_id.
Proof. vm_compute. reflexivity. Qed.

Lemma an_id_ne : an_id ≠ "".
Proof. vm_compute. discriminate. Qed.

Definition a_slip : list (string * string) := [("student@123", ""); ("Student@123", "")].

Lemma login_refines_witness :
  (logins_spec (CompareHashAndPassword latestHasher (hash_of an_id)) a_slip (shown an_id students)).1.*2 =
    [Some "api.user.check_user_password.invalid.app_error"; None] ∧
  shows an_id (shown an_id students) (uw_users (logins an_id a_slip created.2).2).
Proof.
  assert (Forall (λ p : string * string, p.1 ≠ "") a_slip) as Hp by (repeat constructor; discriminate).
  pose proof (login_refines an_id (shown an_id students) latestHasher (hash_of an_id) a_slip created.2 always_healthy signs_in few_guesses an_shown an_id_shown an_id_ne an_plain Hp) as Hr.
  assert ((logins_spec (CompareHashAndPassword latestHasher (hash_of an_id)) a_slip (shown an_id students)).1.*2 =
    [Some "api.user.check_user_password.invalid.app_error"; None]) as Hs by (vm_compute; reflexivity).
  assert ((logins_spec (CompareHashAndPassword latestHasher (hash_of an_id)) a_slip (shown an_id students)).2 =
    shown an_id students) as Ha by (vm_compute; reflexivity).
  destruct (logins_spec _ a_slip _) as [os a'], (logins an_id a_slip created.2) as [rs w']. cbn [fst snd] in *. subst a'.
  exact (conj Hs (proj1 (proj2 Hr))).
Defined.

Definition guesses : list (string * string) := [("123456", ""); ("password", ""); ("student", "")].

Lemma guesses_lock_the_account_witness :
  (AuthenticateUserForLogin an_id "" "Student@123" "" (logins an_id guesses created.2).2).1 =
    Err (LmsError "api.user.check_user_login_attempts.too_many.app_error" 401 None).
Proof.
  apply (guesses_lock_the_account an_id (shown an_id students) latestHasher (hash_of an_id) guesses "Student@123" "" created.2
    always_healthy signs_in few_guesses an_shown an_id_shown an_id_ne an_plain).
  - vm_compute. discriminate.
  - vm_compute. reflexivity.
  - vm_compute. discriminate.
  - repeat constructor; vm_compute; (discriminate || reflexivity).
  - vm_compute. discriminate.
  - discriminate.
Defined.

(** The student was looked up before the deactivation. *)
Lemma deactivated_user_logs_in_once_witness :
  ∃ c w1 w2, AuthenticateUserForLogin an_id "" "Student@123" "" deactivated = (Ok c, w1) ∧
    AuthenticateUserForLogin an_id "" "Student@123" "" w1 =
      (Err (LmsError "api.user.login.inactive.app_error" 401 None), w2).
Proof.
  assert (match us_cache (uw_users deactivated) !! an_id, us_rows (uw_users deactivated) !! an_id with
          | Some c, Some row =>
              User_Id c = an_id ∧ User_Id row = an_id ∧ account_of c = shown an_id students ∧
              (0 <? User_DeleteAt row)%Z = true ∧ User_AuthService row = ""
          | _, _ => False end) as Hok by (vm_compute; repeat split).
  destruct (us_cache (uw_users deactivated) !! an_id) as [c|] eqn:Hc; [|destruct Hok].
  destruct (us_rows (uw_users deactivated) !! an_id) as [row|] eqn:Hr; [|destruct Hok].
  destruct Hok as (Hic & Hir & Ha & Hd & Hs). apply Z.ltb_lt in Hd.
  assert (shown an_id students = Account an_id (ac_password (shown an_id students)) 0 false 0 "" false true) as E
    by (vm_compute; reflexivity).
  assert (account_of c = Account an_id (ac_password (shown an_id students)) 0 false 0 "" false true) as Hac
    by (rewrite Ha; exact E).
  pose proof (f_equal ac_deleted Hac : User_DeleteAt c = 0%Z) as Hdel.
  pose proof (f_equal ac_bot Hac : User_IsBot c = false) as Hbot.
  pose proof (f_equal ac_attempts Hac : User_FailedAttempts c = 0%Z) as Hatt.
  pose proof (f_equal ac_verified Hac : User_EmailVerified c = true) as Hver.
  assert (CompareHashAndPassword latestHasher (hash_of an_id) "Student@123" = None) as Hcmp by (vm_compute; reflexivity).
  assert (plain_account (account_of c) latestHasher (hash_of an_id)) as Hpl by (rewrite Ha; exact an_plain).
  destruct (deactivated_user_logs_in_once an_id c row latestHasher (hash_of an_id) "Student@123" "" "" deactivated
    always_healthy signs_in few_guesses (never_dropped an_id) (conj Hc Hic) Hr Hir an_id_ne Hpl Hcmp ltac:(discriminate)
    ltac:(rewrite Hdel; lia) Hbot ltac:(rewrite Hatt; reflexivity) Hver Hd Hs) as (w1 & w2 & H1 & H2).
  exists c, w1, w2. exact (conj H1 H2).
Defined.

(** The student with a second factor. *)
Definition an_mfa : User :=
  match us_rows students !! an_id with Some u => with_mfa "123456" u | None => zero_User end.
Definition with_factor : users_world Z :=
  UsersWorld (uw_lms created.2)
    (UserDB (<[an_id := an_mfa]> (us_rows students)) (us_bots students) ∅ ∅).
Abbreviation first_use := (CheckUserMfa an_mfa "123456" with_factor).

Lemma one_time_password_works_once_witness :
  first_use.1 = Ok tt ∧
  (CheckUserMfa an_mfa "123456" first_use.2).1 = Err (LmsError "api.user.check_user_mfa.bad_code.app_error" 401 None).
Proof.
  assert (match first_use.1 with Ok _ => True | Err _ => False end) as Hok by (vm_compute; exact I).
  pose proof (surjective_pairing first_use) as Hrun.
  destruct first_use.1 as [[]|]; [|destruct Hok].
  destruct (one_time_password_works_once an_mfa "123456" with_factor first_use.2 first_use.2
    ltac:(vm_compute; reflexivity) eq_refl Hrun eq_refl eq_refl) as (w3 & H1 & _).
  split; [reflexivity|]. rewrite H1. reflexivity.
Defined.

(** The student with the password hash of an old installation. *)
Definition old_hash : string :=
  match BCrypt_Hash 0 "Student@123" with Ok h => h | Err _ => "" end.
Definition an_old : User :=
  match us_rows students !! an_id with Some u => with_password old_hash 1 u | None => zero_User end.
Definition with_old_hash : users_world Z :=
  UsersWorld (uw_lms created.2) (UserDB (<[an_id := an_old]> (us_rows students)) (us_bots students) ∅ ∅).
Abbreviation migrated := (checkUserPassword an_old "Student@123" false with_old_hash).

Lemma login_migrates_hash_witness :
  ∃ row phc, us_rows (uw_users migrated.2) !! User_Id an_old = Some row ∧
    GetHasherFromPHCString (User_Password row) = Ok (latestHasher, phc) ∧
    CompareHashAndPassword latestHasher phc "Student@123" = None.
Proof.
  assert (match migrated.1 with Ok _ => True | Err _ => False end) as Hok by (vm_compute; exact I).
  assert (User_Id an_old = an_id) as Hid by (vm_compute; reflexivity).
  pose proof (lookup_insert_eq (us_rows students) an_id an_old) as Hrow. rewrite <- Hid in Hrow at 2.
  assert (GetHasherFromPHCString (User_Password an_old) = Ok (getOriginalHasher old_hash)) as Hg by (vm_compute; reflexivity).
  assert (CompareHashAndPassword HBCrypt (getOriginalHasher old_hash).2 "Student@123" = None) as Hc by (vm_compute; reflexivity).
  pose proof (surjective_pairing migrated) as Hrun.
  destruct migrated.1 as [[]|]; [|destruct Hok].
  destruct (login_migrates_hash an_old an_old HBCrypt (getOriginalHasher old_hash).2 "Student@123" false with_old_hash
    migrated.2 Hg Hc Hrow Hrun) as (row & phc & Hr & Hget & Hcmp & _).
  exists row, phc. rewrite Hr, lookup_insert_eq. exact (conj eq_refl (conj Hget Hcmp)).
Defined.

Abbreviation enrolled := (CreateStudent (J:=string) (Some School.an) None nobody).

Lemma created_student_logs_in_witness :
  ∃ saved u w, enrolled.1 = Ok saved ∧
    AuthenticateUserForLogin (User_Id saved) "" defaultStudentPassword "" enrolled.2 = (Ok u, w).
Proof.
  assert (match enrolled.1 with
          | Ok s => us_cache (uw_users enrolled.2) !! User_Id s = None ∧ User_Id s ≠ "" | Err _ => False end) as Hok
    by (vm_compute; split; [reflexivity|discriminate]).
  pose proof (surjective_pairing enrolled) as Hrun.
  destruct enrolled.1 as [saved|]; [|destruct Hok]. destruct Hok as [Hc Hne].
  assert (us_bots (uw_users nobody) !! User_Id saved = None) as Hb by (apply lookup_empty).
  assert (User_DeleteAt School.an ≤ 0)%Z as Hd by (vm_compute; discriminate).
  assert (0 ≤ User_FailedAttempts School.an < MaximumLoginAttempts)%Z as Ha by (vm_compute; split; [discriminate|reflexivity]).
  assert (0 < MaximumLoginAttempts ≤ 2147483647)%Z as Hm by (split; [reflexivity|exact few_guesses]).
  destruct (created_student_logs_in (J:=string) School.an None "" nobody enrolled.2 saved always_healthy signs_in Hm Hrun
    Hd Ha eq_refl Hc Hb Hne) as (u & w & Hl & _).
  exists saved, u, w. exact (conj eq_refl Hl).
Defined.
End LoginDemo.
