(* ===== verification/Lru.v ===== *)
(** * The in-process cache (server/platform/services/cache/lru.go)

    A least-recently-used cache with expiring entries, purged by generations.
    The definitions [spec_set], [spec_get] and their siblings are what the cache
    promises: one list of live entries, the latest used first.

    A value is kept as the copy its serialisation makes.  The linked list of
    Go's container/list is a list of handles and entries, front first.
    Generations and lengths are unbounded: an [int64] of purges does not run out. *)

From stdpp Require Import strings gmap sorting.
From S2P Require Import Prelude.

Local Open Scope Z_scope.

Section lru.
Context {V : Type}.

(** A zero [expires] is [None]. *)
Record entry := Entry { entry_key : string; entry_value : V; entry_expires : option Z; entry_generation : Z }.

Record LRU := MkLRU {
  lru_size : Z;
  lru_len : Z;
  currentGeneration : Z;
  evictList : list (nat * entry);
  items : gmap string nat;
  (** the next element [PushFront] allocates *)
  next_handle : nat;
}.

Definition NewLRU (size : Z) : LRU := MkLRU size 0 0 [] ∅ 0.

Definition live (g : Z) (x : nat * entry) : Prop := entry_generation x.2 = g.
#[export] Instance live_dec g x : Decision (live g x).
Proof. unfold live. apply _. Defined.

(** *** container/list *)

Definition Element (h : nat) (l : list (nat * entry)) : option entry := snd <$> head (filter (λ x, x.1 = h) l).
Definition list_Remove (h : nat) (l : list (nat * entry)) : list (nat * entry) := filter (λ x, x.1 ≠ h) l.

(** ** Operations *)

Definition Purge (l : LRU) : LRU :=
  MkLRU (lru_size l) 0 (currentGeneration l + 1) (evictList l) (items l) (next_handle l).

Definition removeElement (h : nat) (l : LRU) : LRU :=
  match Element h (evictList l) with
  | None => l
  | Some kv =>
      MkLRU (lru_size l) (if decide (entry_generation kv = currentGeneration l) then lru_len l - 1 else lru_len l)
        (currentGeneration l) (list_Remove h (evictList l)) (delete (entry_key kv) (items l)) (next_handle l)
  end.

Definition evict_back (l : LRU) : LRU :=
  if lru_size l <? Z.of_nat (length (evictList l)) then
    match last (evictList l) with Some (h, _) => removeElement h l | None => l end
  else l.

Definition set (now : Z) (key : string) (value : V) (ttl : Z) (l : LRU) : LRU :=
  let expires := if 0 <? ttl then Some (now + ttl) else None in
  let e := Entry key value expires (currentGeneration l) in
  match items l !! key with
  | Some h =>
      match Element h (evictList l) with
      | Some old =>
          MkLRU (lru_size l)
            (if decide (entry_generation old = currentGeneration l) then lru_len l else lru_len l + 1)
            (currentGeneration l) ((h, e) :: list_Remove h (evictList l)) (items l) (next_handle l)
      | None => l
      end
  | None =>
      let h := next_handle l in
      evict_back (MkLRU (lru_size l) (lru_len l + 1) (currentGeneration l) ((h, e) :: evictList l)
                    (<[key := h]> (items l)) (S h))
  end.

Definition expired (now : Z) (expires : option Z) : bool :=
  match expires with Some t => t <? now | None => false end.

(** [None] is ErrKeyNotFound. *)
Definition getItem (now : Z) (key : string) (l : LRU) : option V * LRU :=
  match items l !! key with
  | None => (None, l)
  | Some h =>
      match Element h (evictList l) with
      | None => (None, l)
      | Some e =>
          if negb (entry_generation e =? currentGeneration l) || expired now (entry_expires e)
          then (None, removeElement h l)
          else (Some (entry_value e),
                MkLRU (lru_size l) (lru_len l) (currentGeneration l) ((h, e) :: list_Remove h (evictList l))
                  (items l) (next_handle l))
      end
  end.

Fixpoint GetMulti (now : Z) (keys : list string) (l : LRU) : list (option V) * LRU :=
  match keys with
  | [] => ([], l)
  | k :: ks =>
      let '(v, l) := getItem now k l in
      let '(vs, l) := GetMulti now ks l in (v :: vs, l)
  end.

Definition Remove (key : string) (l : LRU) : LRU :=
  match items l !! key with Some h => removeElement h l | None => l end.

Definition RemoveMulti (keys : list string) (l : LRU) : LRU := foldl (λ l k, Remove k l) l keys.

(** The keys for the callback: a slice of [len] strings filled from the back of
    the list; [None] is an index out of its range. *)
Definition Scan (l : LRU) : option (list string) :=
  let keys := (λ x : nat * entry, entry_key x.2) <$> filter (live (currentGeneration l)) (reverse (evictList l)) in
  let len := Z.to_nat (lru_len l) in
  if (length keys <=? len)%nat then Some (keys ++ replicate (len - length keys) "") else None.

Definition Len (l : LRU) : Z := lru_len l.
End lru.

Arguments LRU V : clear implicits.
Arguments entry V : clear implicits.

(** ** What the cache promises

    Key, value and expiry of the entries, the latest used first. *)

Section spec.
Context {V : Type}.

Abbreviation spec := (list (string * V * option Z)).

Definition spec_others (key : string) (s : spec) : spec := filter (λ x, x.1.1 ≠ key) s.
Definition spec_entry (key : string) (s : spec) : option (V * option Z) :=
  (λ x, (x.1.2, x.2)) <$> head (filter (λ x, x.1.1 = key) s).

Definition spec_set (size : Z) (now : Z) (key : string) (value : V) (ttl : Z) (s : spec) : spec :=
  take (Z.to_nat size) ((key, value, if 0 <? ttl then Some (now + ttl) else None) :: spec_others key s).

Definition spec_get (now : Z) (key : string) (s : spec) : option V * spec :=
  match spec_entry key s with
  | None => (None, s)
  | Some (v, expires) =>
      if expired now expires then (None, spec_others key s) else (Some v, (key, v, expires) :: spec_others key s)
  end.

Definition spec_keys (s : spec) : list string := reverse (s.*1.*1).
End spec.

(** ** Refinement *)

Section lists.
Context {A : Type} (P Q : A → Prop) `{!∀ x, Decision (P x), !∀ x, Decision (Q x)}.
Implicit Types xs : list A.

Lemma list_filter_comm xs : filter P (filter Q xs) = filter Q (filter P xs).
Proof. rewrite !list_filter_filter. apply list_filter_iff. tauto. Qed.

Lemma list_filter_agree xs : (∀ x, x ∈ xs → P x ↔ Q x) → filter P xs = filter Q xs.
Proof.
  induction xs as [|x xs IH]; intros Hiff; [done|]. rewrite !filter_cons.
  destruct (decide (P x)) as [Hp|Hp], (decide (Q x)) as [Hq|Hq]; (rewrite IH by set_solver) || idtac; try done;
    exfalso; specialize (Hiff x); set_solver.
Qed.

Lemma list_filter_all xs : (∀ x, x ∈ xs → P x) → filter P xs = xs.
Proof.
  induction xs as [|x xs IH]; intros Hall; [done|]. rewrite filter_cons, decide_True by set_solver.
  by rewrite IH by set_solver.
Qed.

Lemma StronglySorted_filter (R : relation A) xs : StronglySorted R xs → StronglySorted R (filter P xs).
Proof.
  induction xs as [|x xs IH]; [done|]. rewrite StronglySorted_cons, filter_cons. intros [Hall Hs].
  destruct (decide (P x)); [|by apply IH]. apply StronglySorted_cons. split; [|by apply IH].
  rewrite Forall_forall in Hall |- *. intros y [_ Hin]%list_elem_of_filter. by apply Hall.
Qed.
End lists.

Lemma list_filter_of_fmap {A B} (f : A → B) (P : B → Prop) `{!∀ x, Decision (P x)} (xs : list A) :
  filter P (f <$> xs) = f <$> filter (λ x, P (f x)) xs.
Proof.
  induction xs as [|x xs IH]; [done|]. rewrite fmap_cons, !filter_cons.
  case_decide; rewrite IH; [by rewrite fmap_cons|done].
Qed.

Lemma NoDup_fmap_filter {A B} (f : A → B) (P : A → Prop) `{!∀ x, Decision (P x)} (xs : list A) :
  NoDup (f <$> xs) → NoDup (f <$> filter P xs).
Proof.
  induction xs as [|x xs IH]; [done|]. rewrite fmap_cons, filter_cons. intros [Hni Hnd]%NoDup_cons.
  case_decide; [|by apply IH]. rewrite fmap_cons. apply NoDup_cons. split; [|by apply IH].
  intros (y & Hy & [_ Hin]%list_elem_of_filter)%list_elem_of_fmap. apply Hni, list_elem_of_fmap. by exists y.
Qed.

Section refinement.
Context {V : Type}.
Implicit Types (l : LRU V) (e : entry V) (xs : list (nat * entry V)) (h : nat) (k : string).

Definition without k xs : list (nat * entry V) := filter (λ x, entry_key x.2 ≠ k) xs.

(** Later elements are of the same generation or an older one. *)
Definition newer (x y : nat * entry V) : Prop := entry_generation y.2 ≤ entry_generation x.2.

Record wf (l : LRU V) : Prop := {
  wf_items : ∀ k h, items l !! k = Some h ↔ ∃ e, (h, e) ∈ evictList l ∧ entry_key e = k;
  wf_handles : NoDup (evictList l).*1;
  wf_fresh : ∀ h e, (h, e) ∈ evictList l → (h < next_handle l)%nat;
  wf_sorted : StronglySorted newer (evictList l);
  wf_past : ∀ h e, (h, e) ∈ evictList l → entry_generation e ≤ currentGeneration l;
  wf_len : lru_len l = Z.of_nat (length (filter (live (currentGeneration l)) (evictList l)));
  wf_size : Z.of_nat (length (evictList l)) ≤ lru_size l;
}.

Definition view (x : nat * entry V) : string * V * option Z := (entry_key x.2, entry_value x.2, entry_expires x.2).
Definition abs l : list (string * V * option Z) := view <$> filter (live (currentGeneration l)) (evictList l).

Lemma Element_of xs h e : NoDup xs.*1 → (h, e) ∈ xs → Element h xs = Some e.
Proof.
  unfold Element. intros Hnd Hin. induction xs as [|[h' e'] xs IH]; [by apply elem_of_nil in Hin|].
  apply NoDup_cons in Hnd as [Hni Hnd]. rewrite filter_cons. cbn [fst].
  apply elem_of_cons in Hin as [[= <- <-]|Hin]; [by rewrite decide_True|].
  rewrite decide_False; [by apply IH|]. intros ->. apply Hni, list_elem_of_fmap. by exists (h, e).
Qed.

Lemma handle_entry xs h e e' : NoDup xs.*1 → (h, e) ∈ xs → (h, e') ∈ xs → e = e'.
Proof. intros Hnd H1%(Element_of _ _ _ Hnd) H2%(Element_of _ _ _ Hnd). congruence. Qed.

Lemma key_element l h h' e e' : wf l → (h, e) ∈ evictList l → (h', e') ∈ evictList l →
  entry_key e = entry_key e' → h = h' ∧ e = e'.
Proof.
  intros Hwf Hin Hin' Hk.
  assert (items l !! entry_key e = Some h) as Hi by (apply (wf_items l Hwf); eauto).
  assert (items l !! entry_key e = Some h') as Hi' by (apply (wf_items l Hwf); eauto).
  assert (h = h') as <- by congruence. split; [done|]. by eapply handle_entry; [apply (wf_handles l Hwf)|..].
Qed.

(** Dropping the element of a key is dropping the key. *)
Lemma list_Remove_key l h e : wf l → (h, e) ∈ evictList l →
  list_Remove h (evictList l) = without (entry_key e) (evictList l).
Proof.
  intros Hwf Hin. apply list_filter_agree. intros [h' e'] Hin'. cbn. split; intros Hne Heq; apply Hne.
  - by destruct (key_element l h' h e' e Hwf Hin' Hin Heq).
  - subst h'. by rewrite (handle_entry _ _ _ _ (wf_handles l Hwf) Hin' Hin).
Qed.

Lemma absent_key l k : wf l → items l !! k = None → without k (evictList l) = evictList l.
Proof.
  intros Hwf Hi. apply list_filter_all. intros [h e] Hin Hk.
  assert (items l !! k = Some h) by (apply (wf_items l Hwf); eauto). congruence.
Qed.

Lemma present_key l k h : wf l → items l !! k = Some h →
  ∃ e, (h, e) ∈ evictList l ∧ entry_key e = k ∧ Element h (evictList l) = Some e.
Proof.
  intros Hwf (e & Hin & Hk)%(wf_items l Hwf). exists e. repeat split; [done..|].
  by apply Element_of; [apply (wf_handles l Hwf)|].
Qed.

(** How many live elements there are without the one of a key. *)
Lemma count_without l h e : wf l → (h, e) ∈ evictList l →
  Z.of_nat (length (filter (live (currentGeneration l)) (without (entry_key e) (evictList l)))) =
    (if decide (entry_generation e = currentGeneration l) then lru_len l - 1 else lru_len l) ∧
  Z.of_nat (length (without (entry_key e) (evictList l))) = Z.of_nat (length (evictList l)) - 1.
Proof.
  intros Hwf Hin. rewrite <- (list_Remove_key l h e), (wf_len l Hwf) by done.
  apply list_elem_of_split in Hin as (l1 & l2 & Heq). pose proof (wf_handles l Hwf) as Hnd.
  unfold list_Remove. rewrite Heq in Hnd |- *. rewrite fmap_app, fmap_cons in Hnd. cbn [fst] in Hnd.
  apply NoDup_app in Hnd as (_ & Hd & [Hn2 _]%NoDup_cons).
  rewrite !filter_app, !filter_cons. cbn [fst].
  rewrite (decide_False (P := h ≠ h)) by (intros Hne; by apply Hne).
  rewrite !(list_filter_all (λ x : nat * entry V, x.1 ≠ h)); cycle 1.
  { intros [h' e'] Hin' [= ->]. apply Hn2, list_elem_of_fmap. by exists (h, e'). }
  { intros [h' e'] Hin' [= ->]. apply (Hd h); [apply list_elem_of_fmap; by exists (h, e')|left]. }
  rewrite !length_app.
  destruct (decide (entry_generation e = currentGeneration l)) as [Hg|Hg];
    [rewrite (decide_True (P := live _ (h, e))) by done|rewrite (decide_False (P := live _ (h, e))) by done];
    cbn [length]; lia.
Qed.

Lemma abs_without l k :
  view <$> filter (live (currentGeneration l)) (without k (evictList l)) = spec_others k (abs l).
Proof.
  unfold abs, spec_others, without. rewrite list_filter_of_fmap. f_equal. apply list_filter_comm.
Qed.

Lemma elem_of_without k xs h e : (h, e) ∈ without k xs ↔ entry_key e ≠ k ∧ (h, e) ∈ xs.
Proof. unfold without. by rewrite list_elem_of_filter. Qed.

(** *** An element is removed *)

Lemma removeElement_spec l h e : wf l → (h, e) ∈ evictList l →
  wf (removeElement h l) ∧ abs (removeElement h l) = spec_others (entry_key e) (abs l) ∧
  evictList (removeElement h l) = without (entry_key e) (evictList l).
Proof.
  intros Hwf Hin. unfold removeElement.
  rewrite (Element_of _ _ _ (wf_handles l Hwf) Hin), (list_Remove_key l h e) by done.
  destruct (count_without l h e Hwf Hin) as [Hlen Hsize].
  split; [|split; [exact (abs_without l (entry_key e))|done]]. split; cbn [items evictList lru_len lru_size currentGeneration next_handle].
  - intros k h'. destruct (decide (k = entry_key e)) as [->|Hk].
    + rewrite lookup_delete_eq. split; [done|]. by intros (e' & [Hne _]%elem_of_without & ?).
    + rewrite lookup_delete_ne, (wf_items l Hwf) by done. setoid_rewrite elem_of_without.
      split; intros (e' & Hin' & <-); exists e'; tauto.
  - rewrite <- (list_Remove_key l h e) by done. apply NoDup_fmap_filter, (wf_handles l Hwf).
  - intros h' e' [_ Hin']%elem_of_without. by apply (wf_fresh l Hwf h' e').
  - apply StronglySorted_filter, (wf_sorted l Hwf).
  - intros h' e' [_ Hin']%elem_of_without. by apply (wf_past l Hwf h' e').
  - by rewrite Hlen.
  - pose proof (wf_size l Hwf). lia.
Qed.

(** *** An element comes to the front *)

Lemma newer_front l h e xs : (∀ x, x ∈ xs → x ∈ evictList l) → wf l → entry_generation e = currentGeneration l →
  StronglySorted newer xs → StronglySorted newer ((h, e) :: xs).
Proof.
  intros Hsub Hwf Hg Hs. apply StronglySorted_cons. split; [|done]. apply Forall_forall.
  intros [h' e'] Hin. unfold newer. cbn. rewrite Hg. by apply (wf_past l Hwf h'), Hsub.
Qed.

Lemma to_front_spec l h e e' : wf l → (h, e) ∈ evictList l → entry_key e' = entry_key e →
  entry_generation e' = currentGeneration l →
  let l' := MkLRU (lru_size l) (if decide (entry_generation e = currentGeneration l) then lru_len l else lru_len l + 1)
              (currentGeneration l) ((h, e') :: list_Remove h (evictList l)) (items l) (next_handle l) in
  wf l' ∧ abs l' = view (h, e') :: spec_others (entry_key e) (abs l).
Proof.
  intros Hwf Hin Hk Hg. rewrite (list_Remove_key l h e) by done. cbn zeta.
  destruct (count_without l h e Hwf Hin) as [Hlen Hsize].
  assert (live (currentGeneration l) (h, e')) as Hlive by done.
  split; [|unfold abs; cbn [evictList currentGeneration]; rewrite filter_cons, decide_True, fmap_cons by done;
           f_equal; apply abs_without].
  split; cbn [items evictList lru_len lru_size currentGeneration next_handle].
  - intros k h'. rewrite (wf_items l Hwf). setoid_rewrite elem_of_cons. setoid_rewrite elem_of_without.
    split.
    + intros (e2 & Hin2 & <-). destruct (decide (entry_key e2 = entry_key e)) as [Heq|Hne]; [|eauto].
      destruct (key_element l h' h e2 e Hwf Hin2 Hin Heq) as [-> ->]. exists e'. split; [by left|done].
    + intros (e2 & [[= -> ->]|[Hne Hin2]] & <-); [by exists e|]. by exists e2.
  - rewrite fmap_cons. cbn [fst]. rewrite <- (list_Remove_key l h e) by done. apply NoDup_cons. split.
    + intros ([h' e2] & [= ->] & [Hne _]%list_elem_of_filter)%list_elem_of_fmap. by apply Hne.
    + apply NoDup_fmap_filter, (wf_handles _ Hwf).
  - intros h' e2 [[= -> ->]|[_ Hin']%elem_of_without]%elem_of_cons; eapply (wf_fresh l Hwf); eassumption.
  - eapply newer_front; [|done..|apply StronglySorted_filter, (wf_sorted l Hwf)].
    intros [h' e2] [_ ?]%elem_of_without. done.
  - intros h' e2 [[= -> ->]|[_ Hin']%elem_of_without]%elem_of_cons; [lia|eapply (wf_past l Hwf); eassumption].
  - rewrite filter_cons, (decide_True (P := live _ (h, e'))) by exact Hlive. cbn [length]. rewrite Nat2Z.inj_succ, Hlen.
    destruct (decide _); lia.
  - cbn [length]. pose proof (wf_size l Hwf). lia.
Qed.

(** *** A new element, and the one it pushes out *)

Definition resize (n : Z) l : LRU V :=
  MkLRU n (lru_len l) (currentGeneration l) (evictList l) (items l) (next_handle l).

Lemma wf_resize n l : wf l → Z.of_nat (length (evictList l)) ≤ n → wf (resize n l).
Proof. intros []. by split. Qed.

Definition pushed l e : LRU V :=
  MkLRU (lru_size l) (lru_len l + 1) (currentGeneration l) ((next_handle l, e) :: evictList l)
    (<[entry_key e := next_handle l]> (items l)) (S (next_handle l)).

Lemma pushed_spec l e : wf l → items l !! entry_key e = None → entry_generation e = currentGeneration l →
  wf (resize (lru_size l + 1) (pushed l e)) ∧ abs (pushed l e) = view (next_handle l, e) :: abs l.
Proof.
  intros Hwf Hi Hg. assert (live (currentGeneration l) (next_handle l, e)) as Hlive by done.
  split; [|unfold abs, pushed; cbn [evictList currentGeneration]; by rewrite filter_cons, decide_True by exact Hlive].
  split; cbn [resize pushed items evictList lru_len lru_size currentGeneration next_handle].
  - intros k h. setoid_rewrite elem_of_cons. destruct (decide (k = entry_key e)) as [->|Hk].
    + rewrite lookup_insert_eq. split; [intros [= <-]; exists e; by split; [left|]|].
      intros (e2 & [[= -> ->]|Hin] & Hk2); [done|].
      assert (items l !! entry_key e = Some h) by (apply (wf_items l Hwf); eauto). congruence.
    + rewrite lookup_insert_ne, (wf_items l Hwf) by done. split.
      * intros (e2 & Hin & <-). exists e2. by split; [right|].
      * intros (e2 & [[= -> ->]|Hin] & Hk2); [done|eauto].
  - rewrite fmap_cons. apply NoDup_cons. split; [|apply (wf_handles l Hwf)].
    intros ([h e2] & [= Hh] & Hin)%list_elem_of_fmap. apply (wf_fresh l Hwf) in Hin. cbn in Hh. lia.
  - intros h e2 [[= -> ->]|Hin]%elem_of_cons; [lia|]. apply (wf_fresh l Hwf) in Hin. lia.
  - eapply newer_front; [|done..|apply (wf_sorted l Hwf)]. done.
  - intros h e2 [[= -> ->]|Hin]%elem_of_cons; [lia|]. by apply (wf_past l Hwf) in Hin.
  - rewrite filter_cons, decide_True by exact Hlive. cbn [length]. rewrite (wf_len l Hwf). lia.
  - cbn [length]. pose proof (wf_size l Hwf). lia.
Qed.

(** Nothing live is behind something that is not. *)
Lemma dead_at_the_back l ys h e : wf l → evictList l = ys ++ [(h, e)] → live (currentGeneration l) (h, e) →
  ∀ x, x ∈ evictList l → live (currentGeneration l) x.
Proof.
  intros Hwf Heq Hlive [h' e'] Hin. unfold live in *. cbn [snd] in *.
  pose proof (wf_past l Hwf h' e' Hin). rewrite Heq in Hin. apply elem_of_app in Hin as [Hin|Hin].
  - pose proof (wf_sorted l Hwf) as Hs. rewrite Heq in Hs.
    apply (StronglySorted_app_1_elem_of _ _ _ (h', e') (h, e)) in Hs; [|done|by left]. unfold newer in Hs. cbn in Hs. lia.
  - apply list_elem_of_singleton in Hin. by injection Hin as -> ->.
Qed.

Lemma removeElement_resize n h l : removeElement h (resize n l) = resize n (removeElement h l).
Proof. unfold removeElement. cbn [resize evictList]. by destruct (Element h (evictList l)). Qed.

Lemma removeElement_last l ys h e : wf l → evictList l = ys ++ [(h, e)] →
  evictList (removeElement h l) = ys ∧ currentGeneration (removeElement h l) = currentGeneration l.
Proof.
  intros Hwf Heq. unfold removeElement. rewrite (Element_of _ h e (wf_handles l Hwf)) by (rewrite Heq; set_solver).
  cbn [evictList currentGeneration]. split; [|done]. unfold list_Remove. rewrite Heq, filter_app, filter_cons, filter_nil.
  rewrite decide_False by (cbn; tauto). rewrite app_nil_r.
  apply list_filter_all. intros [h' e'] Hin [= ->]. pose proof (wf_handles l Hwf) as Hnd.
  rewrite Heq, fmap_app in Hnd. apply NoDup_app in Hnd as (_ & Hd & _).
  apply (Hd h); [apply list_elem_of_fmap; by exists (h, e')|left].
Qed.

Lemma abs_but_last l ys h e : wf l → evictList l = ys ++ [(h, e)] →
  view <$> filter (live (currentGeneration l)) ys = take (length ys) (abs l).
Proof.
  intros Hwf Heq. unfold abs. destruct (decide (live (currentGeneration l) (h, e))) as [Hlive|Hdead].
  - pose proof (dead_at_the_back l ys h e Hwf Heq Hlive) as Hall. rewrite Heq in Hall |- *.
    rewrite !list_filter_all by set_solver. rewrite fmap_app, take_app_length'; [done|by rewrite length_fmap].
  - rewrite Heq, filter_app, filter_cons, filter_nil, decide_False, app_nil_r by done. rewrite take_ge; [done|].
    rewrite length_fmap. apply length_filter.
Qed.

Lemma evict_back_spec l : wf (resize (lru_size l + 1) l) → 0 ≤ lru_size l →
  wf (evict_back l) ∧ abs (evict_back l) = take (Z.to_nat (lru_size l)) (abs l).
Proof.
  intros Hwf Hpos. unfold evict_back. pose proof (wf_size _ Hwf) as Hsz. cbn [resize evictList lru_size] in Hsz.
  destruct (Z.ltb_spec (lru_size l) (Z.of_nat (length (evictList l)))) as [Hlt|Hle]; cycle 1.
  { split; [apply (wf_resize (lru_size l)) in Hwf; [by destruct l|done]|].
    rewrite take_ge; [done|]. unfold abs. rewrite length_fmap. etrans; [apply length_filter|lia]. }
  destruct (exists_last (l := evictList l)) as (ys & [h e] & Heq); [intros Hnil; by rewrite Hnil in Hlt; cbn in Hlt; lia|].
  rewrite Heq, last_snoc. destruct (removeElement_last _ ys h e Hwf Heq) as [Hl Hg].
  destruct (removeElement_spec _ h e Hwf) as (Hwf' & _ & _); [cbn; rewrite Heq; set_solver|].
  rewrite removeElement_resize in Hwf', Hl, Hg. rewrite Heq, length_app in Hlt, Hsz. cbn [length] in Hlt, Hsz.
  cbn [resize evictList currentGeneration] in Hl, Hg. split.
  - apply (wf_resize (lru_size l)) in Hwf'; [|cbn [resize evictList]; rewrite Hl; lia].
    assert (lru_size (removeElement h l) = lru_size l) as Hsame by (unfold removeElement; by destruct (Element h _)).
    unfold resize in Hwf'. cbn in Hwf'. rewrite <- Hsame in Hwf'. by destruct (removeElement h l).
  - unfold abs at 1. rewrite Hl, Hg. replace (Z.to_nat (lru_size l)) with (length ys) by lia.
    exact (abs_but_last _ ys h e Hwf Heq).
Qed.

(** *** The operations *)

Lemma size_pos l : wf l → 0 ≤ lru_size l.
Proof. intros Hwf. pose proof (wf_size l Hwf). lia. Qed.

Lemma spec_entry_abs l k : wf l →
  spec_entry k (abs l) =
    match items l !! k with
    | Some h => match Element h (evictList l) with
                | Some e => if decide (live (currentGeneration l) (h, e)) then Some (entry_value e, entry_expires e) else None
                | None => None end
    | None => None
    end.
Proof.
  intros Hwf. unfold spec_entry, abs. rewrite list_filter_of_fmap. cbn [view fst snd].
  rewrite list_filter_comm. destruct (items l !! k) as [h|] eqn:Hi.
  - destruct (present_key l k h Hwf Hi) as (e & Hin & Hk & ->).
    assert (filter (λ x : nat * entry V, entry_key x.2 = k) (evictList l) = [(h, e)]) as ->.
    { rewrite (list_filter_agree _ (λ x, x.1 = h)).
      - apply list_elem_of_split in Hin as (l1 & l2 & Heq). pose proof (wf_handles l Hwf) as Hnd.
        rewrite Heq in Hnd |- *. rewrite fmap_app, fmap_cons in Hnd. cbn [fst] in Hnd.
        apply NoDup_app in Hnd as (_ & Hd & [Hn2 _]%NoDup_cons). rewrite filter_app, filter_cons, decide_True by done.
        assert (∀ xs, h ∉ xs.*1 → filter (λ x : nat * entry V, x.1 = h) xs = []) as Hnone.
        { intros xs Hxs. apply elem_of_nil_inv. intros [h' e'] [[= ->] Hin']%list_elem_of_filter.
          apply Hxs, list_elem_of_fmap. by exists (h, e'). }
        rewrite !Hnone; [done|done|]. intros Hh. apply (Hd h Hh). left.
      - intros [h' e'] Hin'. cbn. split; intros Heq.
        + by destruct (key_element l h' h e' e Hwf Hin' Hin ltac:(congruence)).
        + subst h'. by rewrite (handle_entry _ _ _ _ (wf_handles l Hwf) Hin' Hin). }
    rewrite filter_cons, filter_nil. by case_decide.
  - replace (filter (λ x : nat * entry V, entry_key x.2 = k) (evictList l)) with (@nil (nat * entry V)); [done|].
    symmetry. apply elem_of_nil_inv. intros [h e] [Hk Hin]%list_elem_of_filter.
    assert (items l !! k = Some h) by (apply (wf_items l Hwf); eauto). congruence.
Qed.

Lemma spec_others_absent k (s : list (string * V * option Z)) : spec_entry k s = None → spec_others k s = s.
Proof.
  unfold spec_entry, spec_others. intros Hnone. apply list_filter_all. intros x Hin Hk.
  assert (x ∈ filter (λ x, x.1.1 = k) s) as Hin' by (by apply list_elem_of_filter).
  destruct (filter (λ x, x.1.1 = k) s); [by apply elem_of_nil in Hin'|done].
Qed.

Lemma abs_length l : wf l → (length (abs l) ≤ Z.to_nat (lru_size l))%nat.
Proof.
  intros Hwf. unfold abs. rewrite length_fmap. pose proof (wf_size l Hwf).
  etrans; [apply length_filter|lia].
Qed.

Lemma NewLRU_spec n : 0 ≤ n → wf (NewLRU n) ∧ abs (NewLRU n) = [].
Proof.
  intros Hn. split; [|done]. split; cbn; try done.
  - intros k h. rewrite lookup_empty. split; [done|]. by intros (e & ?%elem_of_nil & _).
  - constructor.
  - by intros h e ?%elem_of_nil.
  - constructor.
  - by intros h e ?%elem_of_nil.
Qed.

Lemma Purge_spec l : wf l → wf (Purge l) ∧ abs (Purge l) = [].
Proof.
  intros Hwf.
  assert (filter (live (currentGeneration l + 1)) (evictList l) = []) as Hnone.
  { apply elem_of_nil_inv. intros [h e] [Hg Hin]%list_elem_of_filter. apply (wf_past l Hwf) in Hin.
    unfold live in Hg. cbn in Hg. lia. }
  split; [|unfold abs, Purge; cbn [currentGeneration evictList]; by rewrite Hnone].
  destruct Hwf. split; try done; cbn [Purge currentGeneration evictList lru_len].
  - intros h e Hin. specialize (wf_past0 h e Hin). lia.
  - by rewrite Hnone.
Qed.

Lemma Remove_spec l k : wf l → wf (Remove k l) ∧ abs (Remove k l) = spec_others k (abs l) ∧ lru_size (Remove k l) = lru_size l.
Proof.
  intros Hwf. unfold Remove. destruct (items l !! k) as [h|] eqn:Hi.
  - destruct (present_key l k h Hwf Hi) as (e & Hin & <- & He).
    destruct (removeElement_spec l h e Hwf Hin) as (Hwf' & Habs & _). split; [done|split; [done|]].
    unfold removeElement. by rewrite He.
  - split; [done|split; [|done]]. rewrite spec_others_absent; [done|]. by rewrite spec_entry_abs, Hi.
Qed.

Lemma set_spec l now k v ttl : wf l →
  wf (set now k v ttl l) ∧ abs (set now k v ttl l) = spec_set (lru_size l) now k v ttl (abs l) ∧
  lru_size (set now k v ttl l) = lru_size l.
Proof.
  intros Hwf. unfold set. destruct (items l !! k) as [h|] eqn:Hi.
  - destruct (present_key l k h Hwf Hi) as (e & Hin & <- & ->).
    edestruct (to_front_spec l h e (Entry (entry_key e) v (if 0 <? ttl then Some (now + ttl) else None) (currentGeneration l)))
      as [Hwf' Habs]; [done..|]. split; [exact Hwf'|split; [|done]]. unfold spec_set. rewrite take_ge.
    + exact Habs.
    + apply abs_length in Hwf'. rewrite Habs in Hwf'. exact Hwf'.
  - set (e := Entry k v (if 0 <? ttl then Some (now + ttl) else None) (currentGeneration l)).
    destruct (pushed_spec l e Hwf Hi eq_refl) as [Hwf' Habs].
    destruct (evict_back_spec (pushed l e) Hwf' (size_pos l Hwf)) as [Hwf'' Habs'].
    split; [exact Hwf''|split].
    + etrans; [exact Habs'|]. rewrite Habs. unfold spec_set. rewrite spec_others_absent; [done|].
      by rewrite spec_entry_abs, Hi.
    + change (lru_size (evict_back (pushed l e)) = lru_size l). unfold evict_back, removeElement.
      by repeat case_match.
Qed.

Lemma getItem_spec l now k : wf l →
  let '(r, l') := getItem now k l in
  wf l' ∧ (r, abs l') = spec_get now k (abs l) ∧ lru_size l' = lru_size l.
Proof.
  intros Hwf. unfold getItem, spec_get. rewrite spec_entry_abs by done.
  destruct (items l !! k) as [h|] eqn:Hi; [|done].
  destruct (present_key l k h Hwf Hi) as (e & Hin & <- & He). rewrite He.
  destruct (removeElement_spec l h e Hwf Hin) as (Hwf' & Habs & _).
  assert (lru_size (removeElement h l) = lru_size l) as Hsize by (unfold removeElement; by rewrite He).
  destruct (decide (live _ _)) as [Hlive|Hdead].
  - assert (entry_generation e =? currentGeneration l = true) as -> by (by apply Z.eqb_eq). cbn [negb orb].
    destruct (expired now (entry_expires e)); [by rewrite Habs|].
    destruct (to_front_spec l h e e Hwf Hin eq_refl Hlive) as [Hfront Hview]. rewrite decide_True in Hfront, Hview by done.
    split; [exact Hfront|split; [|done]]. by rewrite Hview.
  - assert (entry_generation e =? currentGeneration l = false) as -> by (by apply Z.eqb_neq).
    cbn [negb orb]. split; [done|split; [|done]]. rewrite Habs, spec_others_absent; [done|].
    rewrite spec_entry_abs, Hi, He by done. by rewrite decide_False.
Qed.

Lemma Scan_spec l : wf l → Scan l = Some (spec_keys (abs l)).
Proof.
  intros Hwf. unfold Scan, spec_keys, abs. rewrite filter_reverse, (wf_len l Hwf), Nat2Z.id, length_fmap, length_reverse.
  rewrite Nat.leb_refl, Nat.sub_diag, app_nil_r, <- !list_fmap_compose, fmap_reverse. done.
Qed.

Lemma Len_spec l : wf l → Len l = Z.of_nat (length (abs l)).
Proof. intros Hwf. unfold Len, abs. by rewrite length_fmap, (wf_len l Hwf). Qed.

(** *** Sequences of operations *)

Inductive cache_op :=
  | OpSet (now : Z) (k : string) (v : V) (ttl : Z)
  | OpGet (now : Z) (k : string)
  | OpRemove (k : string)
  | OpPurge
  | OpScan
  | OpLen.

(** What the caller of an operation sees. *)
Inductive cache_answer :=
  | Done
  | Got (v : option V)
  | Keys (keys : option (list string))
  | Length (n : Z).

Definition run_op (op : cache_op) l : cache_answer * LRU V :=
  match op with
  | OpSet now k v ttl => (Done, set now k v ttl l)
  | OpGet now k => let '(r, l') := getItem now k l in (Got r, l')
  | OpRemove k => (Done, Remove k l)
  | OpPurge => (Done, Purge l)
  | OpScan => (Keys (Scan l), l)
  | OpLen => (Length (Len l), l)
  end.

Definition spec_op (size : Z) (op : cache_op) (s : list (string * V * option Z)) :
    cache_answer * list (string * V * option Z) :=
  match op with
  | OpSet now k v ttl => (Done, spec_set size now k v ttl s)
  | OpGet now k => let '(r, s') := spec_get now k s in (Got r, s')
  | OpRemove k => (Done, spec_others k s)
  | OpPurge => (Done, [])
  | OpScan => (Keys (Some (spec_keys s)), s)
  | OpLen => (Length (Z.of_nat (length s)), s)
  end.

Fixpoint answers {S} (run : cache_op → S → cache_answer * S) (ops : list cache_op) (s : S) : list cache_answer :=
  match ops with
  | [] => []
  | op :: rest => let '(a, s') := run op s in a :: answers run rest s'
  end.

Lemma run_op_spec op l : wf l →
  let '(a, l') := run_op op l in wf l' ∧ (a, abs l') = spec_op (lru_size l) op (abs l) ∧ lru_size l' = lru_size l.
Proof.
  intros Hwf. destruct op as [now k v ttl|now k|k| | |]; cbn [run_op spec_op].
  - destruct (set_spec l now k v ttl Hwf) as (Hwf' & -> & Hs). done.
  - pose proof (getItem_spec l now k Hwf) as Hget. destruct (getItem now k l) as [r l'].
    destruct Hget as (Hwf' & Heq & Hs). split; [done|split; [|done]]. by rewrite <- Heq.
  - destruct (Remove_spec l k Hwf) as (Hwf' & -> & Hs). done.
  - by destruct (Purge_spec l Hwf) as [Hwf' ->].
  - by rewrite Scan_spec.
  - by rewrite Len_spec.
Qed.

(** C20: The cache is the list of its live entries, the latest used first: any
    sequence of operations on the linked list with its index, its generations
    and its counter gives the answers the list of at most [size] entries gives.
    In particular the slice of a scan is filled exactly and a purge, which only
    counts up the generation, is never undone by what it leaves behind. *)
Theorem LRU_refines_spec (size : Z) (ops : list cache_op) :
  0 ≤ size → answers run_op ops (NewLRU size) = answers (spec_op size) ops [].
Proof.
  intros Hsize. destruct (NewLRU_spec size Hsize) as [Hwf Habs]. rewrite <- Habs.
  assert (lru_size (NewLRU (V := V) size) = size) as Hs by done. revert Hwf Hs. clear Habs Hsize.
  generalize (NewLRU (V := V) size) as l. induction ops as [|op ops IH]; intros l Hwf Hs; [done|]. cbn [answers].
  pose proof (run_op_spec op l Hwf) as Hop. destruct (run_op op l) as [a l']. destruct Hop as (Hwf' & Hop & Hs').
  rewrite Hs in Hop, Hs'. rewrite <- Hop. f_equal. by apply IH.
Qed.
End refinement.

(** Two live entries, one is read, one pushed out, one purged, one expires. *)
Definition cache_demo : list (@cache_op nat) :=
  [OpSet 0 "a" 1%nat 10; OpSet 1 "b" 2%nat 10; OpGet 2 "a"; OpSet 3 "c" 3%nat 10; OpGet 4 "b"; OpScan; OpPurge; OpLen;
   OpSet 5 "c" 4%nat 10; OpScan; OpGet 16 "c"; OpLen].

Lemma LRU_refines_spec_witness :
  answers run_op cache_demo (NewLRU 2) =
    [Done; Done; Got (Some 1%nat); Done; Got None; Keys (Some ["a"; "c"]); Done; Length 0; Done; Keys (Some ["c"]);
     Got None; Length 0].
Proof. rewrite (LRU_refines_spec 2 cache_demo); [vm_compute; reflexivity|done]. Defined.
