(* ===== verification/LruStriped.v ===== *)
(** * Striped caches, and what the platform asks of a cache
      (server/platform/services/cache/lru_striped.go, cache.go, provider.go)

    The class [Cache] is the interface the sessions are kept behind, [CacheOk]
    what it promises; the striped cache is an instance.  Reading may forget an
    entry but never invents one; what was set is read back until it expires. *)

From stdpp Require Import strings gmap.
From S2P Require Import Prelude.
From S2P Require Import Lru.

Local Open Scope Z_scope.

(** ** The interface

    [cache_Scan] gives the slices the callback is called with.  A cache of the
    process has no error but a missing key, which is [None]. *)

Class Cache (V C : Type) := {
  cache_Get : Z → string → C → option V * C;
  cache_SetWithExpiry : Z → string → V → Z → C → C;
  cache_RemoveMulti : list string → C → C;
  cache_Scan : C → list (list string);
  cache_Purge : C → C;
  (** the states that operations reach *)
  cache_ok : C → Prop;
  (** the value an entry would answer, expired or not *)
  cache_holds : C → string → V → Prop;
}.

Class CacheOk {V C} `{Cache V C} := {
  Get_ok : ∀ now k c, cache_ok c → cache_ok (cache_Get now k c).2;
  Get_holds : ∀ now k c v c', cache_ok c → cache_Get now k c = (Some v, c') → cache_holds c k v;
  Get_miss : ∀ now k c c' v, cache_ok c → cache_Get now k c = (None, c') → ¬ cache_holds c' k v;
  Get_frame : ∀ now k c k' v, cache_ok c → cache_holds (cache_Get now k c).2 k' v → cache_holds c k' v;
  Set_ok : ∀ now k v ttl c, cache_ok c → cache_ok (cache_SetWithExpiry now k v ttl c);
  Set_holds : ∀ now k v ttl c k' v', cache_ok c → cache_holds (cache_SetWithExpiry now k v ttl c) k' v' →
    (k' = k ∧ v' = v) ∨ (k' ≠ k ∧ cache_holds c k' v');
  Set_Get : ∀ now now' k v ttl c, cache_ok c → 0 < ttl → now' ≤ now + ttl →
    (cache_Get now' k (cache_SetWithExpiry now k v ttl c)).1 = Some v;
  Remove_ok : ∀ ks c, cache_ok c → cache_ok (cache_RemoveMulti ks c);
  Remove_holds : ∀ ks c k v, cache_ok c → cache_holds (cache_RemoveMulti ks c) k v → k ∉ ks ∧ cache_holds c k v;
  Scan_holds : ∀ c k v, cache_ok c → cache_holds c k v → k ∈ mjoin (cache_Scan c);
  Purge_ok : ∀ c, cache_ok c → cache_ok (cache_Purge c);
  Purge_holds : ∀ c k v, cache_ok c → ¬ cache_holds (cache_Purge c) k v;
  holds_one : ∀ c k v v', cache_ok c → cache_holds c k v → cache_holds c k v' → v = v';
}.

(** ** Stripes *)

(** xxhash.Sum64String *)
Class XXHash := { Sum64String : string → Z }.

Section striped.
Context {V : Type} `{XXHash}.
Implicit Types (L : list (LRU V)) (k : string) (v : V).

Definition keyBucket L k : nat := Z.to_nat (Sum64String k mod Z.of_nat (length L)).

Definition striped_Get (now : Z) k L : option V * list (LRU V) :=
  match L !! keyBucket L k with
  | None => (None, L)
  | Some l => let '(r, l') := getItem now k l in (r, <[keyBucket L k := l']> L)
  end.

Definition striped_SetWithExpiry (now : Z) k v (ttl : Z) L : list (LRU V) := alter (set now k v ttl) (keyBucket L k) L.
Definition striped_Remove k L : list (LRU V) := alter (Remove k) (keyBucket L k) L.
Definition striped_RemoveMulti (ks : list string) L : list (LRU V) := foldl (λ L k, striped_Remove k L) L ks.
Definition striped_Purge L : list (LRU V) := Purge <$> L.
Definition striped_Scan L : list (list string) := (λ l, default [] (Scan l)) <$> L.
Definition striped_Len L : Z := foldr (λ l n, Len l + n) 0 L.

(** The size of a bucket: ten per cent more, rounded up, shared out. *)
Definition bucket_size (size buckets : Z) : Z :=
  let size := size + (size + 9) / 10 in size / buckets + size mod buckets.

Definition NewLRUStriped (size buckets : Z) : res string (list (LRU V)) :=
  if buckets =? 0 then Err "number of buckets is mandatory"
  else if size <? buckets then Err "cache size must at least be equal to the number of buckets"
  else Ok (replicate (Z.to_nat buckets) (NewLRU (bucket_size size buckets))).
End striped.

(** ** The laws of one bucket *)

Section bucket.
Context {V : Type}.
Implicit Types (l : LRU V) (k : string) (v : V).

Definition lru_holds l k v : Prop := ∃ expires, (k, v, expires) ∈ abs l.

Lemma spec_entry_elem (s : list (string * V * option Z)) k v expires :
  spec_entry k s = Some (v, expires) → (k, v, expires) ∈ s.
Proof.
  unfold spec_entry. destruct (filter (λ x, x.1.1 = k) s) as [|x xs] eqn:Hf; [done|]. cbn. intros [= <- <-].
  assert (x ∈ filter (λ x, x.1.1 = k) s) as [<- Hin]%list_elem_of_filter by (rewrite Hf; left).
  by destruct x as [[]].
Qed.

Lemma elem_of_others (s : list (string * V * option Z)) k k' v e :
  (k', v, e) ∈ spec_others k s ↔ k' ≠ k ∧ (k', v, e) ∈ s.
Proof. unfold spec_others. by rewrite list_elem_of_filter. Qed.

Lemma lru_get_holds now k l v l' : wf l → getItem now k l = (Some v, l') → lru_holds l k v.
Proof.
  intros Hwf Hget. pose proof (getItem_spec l now k Hwf) as Hs. rewrite Hget in Hs. destruct Hs as (_ & Hs & _).
  unfold spec_get in Hs. destruct (spec_entry k (abs l)) as [[v' ex]|] eqn:He; [|done].
  destruct (expired now ex); [done|]. injection Hs as -> _. exists ex. by apply spec_entry_elem.
Qed.

Lemma lru_get_miss now k l l' v : wf l → getItem now k l = (None, l') → ¬ lru_holds l' k v.
Proof.
  intros Hwf Hget [ex' Hin]. pose proof (getItem_spec l now k Hwf) as Hs. rewrite Hget in Hs.
  destruct Hs as (_ & Hs & _). unfold spec_get in Hs.
  destruct (spec_entry k (abs l)) as [[v' ex]|] eqn:He; [destruct (expired now ex); [|done]|]; injection Hs as Hs;
    rewrite Hs in Hin; [by apply elem_of_others in Hin as [[]]|].
  apply spec_others_absent in He. rewrite <- He in Hin. by apply elem_of_others in Hin as [[]].
Qed.

Lemma lru_get_frame now k l k' v : wf l → lru_holds (getItem now k l).2 k' v → lru_holds l k' v.
Proof.
  intros Hwf [ex' Hin]. pose proof (getItem_spec l now k Hwf) as Hs. destruct (getItem now k l) as [r l']. cbn in Hin.
  destruct Hs as (_ & Hs & _). unfold spec_get in Hs. exists ex'.
  destruct (spec_entry k (abs l)) as [[v0 ex]|] eqn:He; [destruct (expired now ex)|]; injection Hs as _ Hs;
    rewrite Hs in Hin.
  - by apply elem_of_others in Hin as [_ Hin].
  - apply elem_of_cons in Hin as [[= -> -> ->]|Hin]; [by apply spec_entry_elem|].
    by apply elem_of_others in Hin as [_ Hin].
  - done.
Qed.

Lemma lru_set_holds now k v ttl l k' v' : wf l → lru_holds (set now k v ttl l) k' v' →
  (k' = k ∧ v' = v) ∨ (k' ≠ k ∧ lru_holds l k' v').
Proof.
  intros Hwf [ex Hin]. destruct (set_spec l now k v ttl Hwf) as (_ & Habs & _). rewrite Habs in Hin.
  unfold spec_set in Hin. apply elem_of_take in Hin as (i & Hi & _). apply list_elem_of_lookup_2 in Hi.
  apply elem_of_cons in Hi as [[= -> -> _]|[Hne Hin]%elem_of_others]; [by left|right]. split; [done|by exists ex].
Qed.

Lemma lru_set_get now now' k v ttl l : wf l → 0 < lru_size l → 0 < ttl → now' ≤ now + ttl →
  (getItem now' k (set now k v ttl l)).1 = Some v.
Proof.
  intros Hwf Hsize Httl Hnow. destruct (set_spec l now k v ttl Hwf) as (Hwf' & Habs & _).
  pose proof (getItem_spec _ now' k Hwf') as Hs. destruct (getItem now' k _) as [r l']. destruct Hs as (_ & Hs & _).
  rewrite Habs in Hs. unfold spec_set, spec_get, spec_entry in Hs.
  destruct (Z.to_nat (lru_size l)) as [|n] eqn:Hn; [lia|]. cbn [take] in Hs.
  rewrite filter_cons, decide_True in Hs by done. cbn [head fmap option_fmap option_map fst snd] in Hs.
  assert (0 <? ttl = true) as Hpos by (by apply Z.ltb_lt). rewrite Hpos in Hs. unfold expired in Hs.
  assert (now + ttl <? now' = false) as Hne by (apply Z.ltb_ge; lia). rewrite Hne in Hs. by injection Hs as -> _.
Qed.

Lemma lru_remove_holds k l k' v : wf l → lru_holds (Remove k l) k' v ↔ k' ≠ k ∧ lru_holds l k' v.
Proof.
  intros Hwf. destruct (Remove_spec l k Hwf) as (_ & Habs & _). unfold lru_holds. rewrite Habs.
  setoid_rewrite elem_of_others. naive_solver.
Qed.

Lemma lru_scan_holds l k v : wf l → lru_holds l k v → k ∈ default [] (Scan l).
Proof.
  intros Hwf [ex Hin]. rewrite Scan_spec by done. cbn. unfold spec_keys. apply elem_of_reverse.
  rewrite <- list_fmap_compose. apply list_elem_of_fmap. by exists (k, v, ex).
Qed.

Lemma lru_holds_one l k v v' : wf l → lru_holds l k v → lru_holds l k v' → v = v'.
Proof.
  intros Hwf [e Hin] [e' Hin']. unfold abs in Hin, Hin'.
  apply list_elem_of_fmap in Hin as ([h x] & Hx & [_ Hin]%list_elem_of_filter).
  apply list_elem_of_fmap in Hin' as ([h' x'] & Hx' & [_ Hin']%list_elem_of_filter).
  unfold view in Hx, Hx'. cbn in Hx, Hx'.
  destruct (key_element l h h' x x' Hwf Hin Hin') as [_ ->]; [congruence|]. congruence.
Qed.
End bucket.

(** ** The striped cache is a cache *)

Section striped_laws.
Context {V : Type} `{XXHash}.
Implicit Types (L : list (LRU V)) (k : string) (v : V).

Definition bucket_ok (l : LRU V) : Prop := wf l ∧ 0 < lru_size l.
Definition striped_ok L : Prop := L ≠ [] ∧ Forall bucket_ok L.
Definition striped_holds L k v : Prop := ∃ l, L !! keyBucket L k = Some l ∧ lru_holds l k v.

#[export] Instance striped_cache : Cache V (list (LRU V)) := {|
  cache_Get := striped_Get;
  cache_SetWithExpiry := striped_SetWithExpiry;
  cache_RemoveMulti := striped_RemoveMulti;
  cache_Scan := striped_Scan;
  cache_Purge := striped_Purge;
  cache_ok := striped_ok;
  cache_holds := striped_holds;
|}.

Lemma keyBucket_length L L' k : length L = length L' → keyBucket L k = keyBucket L' k.
Proof. unfold keyBucket. by intros ->. Qed.

Lemma keyBucket_lookup L k : striped_ok L → ∃ l, L !! keyBucket L k = Some l ∧ bucket_ok l.
Proof.
  intros [Hne Hok]. assert (0 < Z.of_nat (length L)) as Hlen by (destruct L; [done|cbn; lia]).
  destruct (lookup_lt_is_Some_2 L (keyBucket L k)) as [l Hl].
  { unfold keyBucket. pose proof (Z.mod_pos_bound (Sum64String k) _ Hlen). lia. }
  exists l. split; [done|]. by eapply Forall_lookup_1.
Qed.

(** One bucket changes. *)
Lemma striped_ok_alter L k f : (∀ l, bucket_ok l → bucket_ok (f l)) → striped_ok L →
  striped_ok (alter f (keyBucket L k) L).
Proof.
  intros Hf [Hne Hok]. split.
  - intros Hnil%(f_equal length). rewrite length_alter in Hnil. by destruct L.
  - apply Forall_alter; [done|]. intros l Hl Hl'. by apply Hf.
Qed.

Lemma striped_holds_alter L k f k' v : striped_holds (alter f (keyBucket L k) L) k' v →
  ∃ l, L !! keyBucket L k' = Some l ∧
    (keyBucket L k = keyBucket L k' ∧ lru_holds (f l) k' v ∨ keyBucket L k ≠ keyBucket L k' ∧ lru_holds l k' v).
Proof.
  intros (l' & Hl' & Hh). rewrite (keyBucket_length _ L) in Hl' by apply length_alter.
  destruct (decide (keyBucket L k = keyBucket L k')) as [He|Hne].
  - rewrite He, list_lookup_alter_eq in Hl'. apply fmap_Some in Hl' as (l & Hl & ->). exists l. auto.
  - rewrite list_lookup_alter_ne in Hl' by done. exists l'. auto.
Qed.

Lemma bucket_set_ok now k v ttl (l : LRU V) : bucket_ok l → bucket_ok (set now k v ttl l).
Proof. intros [Hwf Hs]. destruct (set_spec l now k v ttl Hwf) as (Hwf' & _ & Hs'). split; [done|lia]. Qed.

Lemma bucket_remove_ok k (l : LRU V) : bucket_ok l → bucket_ok (Remove k l).
Proof. intros [Hwf Hs]. destruct (Remove_spec l k Hwf) as (Hwf' & _ & Hs'). split; [done|lia]. Qed.

Lemma bucket_get_ok now k (l : LRU V) : bucket_ok l → bucket_ok (getItem now k l).2.
Proof.
  intros [Hwf Hs]. pose proof (getItem_spec l now k Hwf) as Hget. destruct (getItem now k l) as [r l'].
  destruct Hget as (Hwf' & _ & Hs'). split; [done|cbn; lia].
Qed.

Lemma striped_Get_alter now k L : striped_ok L →
  ∃ l, L !! keyBucket L k = Some l ∧ bucket_ok l ∧
    striped_Get now k L = ((getItem now k l).1, alter (λ l, (getItem now k l).2) (keyBucket L k) L).
Proof.
  intros Hok. destruct (keyBucket_lookup L k Hok) as (l & Hl & Hb). exists l. split; [done|split; [done|]].
  unfold striped_Get. rewrite Hl. destruct (getItem now k l) as [r l'] eqn:Hget. f_equal.
  rewrite list_insert_alter. apply list_alter_ext; [|done].
  intros l0 Hl0. assert (l0 = l) as -> by congruence. by rewrite Hget.
Qed.

Lemma striped_Remove_law ks L : striped_ok L →
  striped_ok (striped_RemoveMulti ks L) ∧
  ∀ k v, striped_holds (striped_RemoveMulti ks L) k v → k ∉ ks ∧ striped_holds L k v.
Proof.
  revert L. induction ks as [|k0 ks IH]; intros L Hok; [split; [done|]; intros k v Hh; split; [set_solver|done]|].
  destruct (IH (striped_Remove k0 L)) as [Hok' Hh']; [apply striped_ok_alter; [apply bucket_remove_ok|done]|].
  split; [exact Hok'|]. intros k v Hh. apply Hh' in Hh as [Hni Hh].
  apply striped_holds_alter in Hh as (l & Hl & Hcase).
  destruct (keyBucket_lookup L k Hok) as (l0 & Hl0 & [Hwf _]). assert (l0 = l) as -> by congruence.
  destruct Hcase as [[He Hh]|[Hne Hh]].
  - apply lru_remove_holds in Hh as [Hne Hh]; [|done]. split; [set_solver|by exists l].
  - split; [|by exists l]. intros [->|?]%elem_of_cons; done.
Qed.

#[export] Instance striped_cache_ok : @CacheOk V (list (LRU V)) striped_cache.
Proof.
  split; cbn [cache_Get cache_SetWithExpiry cache_RemoveMulti cache_Scan cache_Purge cache_ok cache_holds striped_cache].
  - intros now k L Hok. destruct (striped_Get_alter now k L Hok) as (l & Hl & Hb & ->).
    apply striped_ok_alter; [apply bucket_get_ok|done].
  - intros now k L v L' Hok Hget. destruct (striped_Get_alter now k L Hok) as (l & Hl & [Hwf _] & Heq).
    rewrite Heq in Hget. injection Hget as Hv _. exists l. split; [done|].
    eapply lru_get_holds; [done|]. by rewrite <- Hv, <- surjective_pairing.
  - intros now k L L' v Hok Hget Hh. destruct (striped_Get_alter now k L Hok) as (l & Hl & [Hwf _] & Heq).
    rewrite Heq in Hget. injection Hget as Hv <-. apply striped_holds_alter in Hh as (l' & Hl' & Hcase).
    assert (l' = l) as -> by congruence. destruct Hcase as [[_ Hh]|[]]; [|done].
    eapply lru_get_miss; [done| |exact Hh]. by rewrite <- Hv, <- surjective_pairing.
  - intros now k L k' v Hok Hh. destruct (striped_Get_alter now k L Hok) as (l & Hl & [Hwf _] & Heq).
    rewrite Heq in Hh. apply striped_holds_alter in Hh as (l' & Hl' & Hcase). exists l'. split; [done|].
    destruct (keyBucket_lookup L k' Hok) as (l0 & Hl0 & [Hwf' _]). assert (l0 = l') as -> by congruence.
    destruct Hcase as [[_ Hh]|[_ Hh]]; [by eapply lru_get_frame|done].
  - intros now k v ttl L Hok. apply striped_ok_alter; [intros l; apply bucket_set_ok|done].
  - intros now k v ttl L k' v' Hok Hh. apply striped_holds_alter in Hh as (l & Hl & Hcase).
    destruct (keyBucket_lookup L k' Hok) as (l0 & Hl0 & [Hwf _]). assert (l0 = l) as -> by congruence.
    destruct Hcase as [[_ Hh]|[Hne Hh]].
    + apply lru_set_holds in Hh as [?|[? Hh]]; [by left| |done]. right. split; [done|by exists l].
    + right. split; [congruence|by exists l].
  - intros now now' k v ttl L Hok Httl Hnow.
    assert (striped_ok (striped_SetWithExpiry now k v ttl L)) as Hok'
      by (apply striped_ok_alter; [intros l; apply bucket_set_ok|done]).
    destruct (striped_Get_alter now' k _ Hok') as (l & Hl & _ & ->). cbn [fst].
    unfold striped_SetWithExpiry in Hl. rewrite (keyBucket_length _ L), list_lookup_alter_eq in Hl by apply length_alter.
    destruct (keyBucket_lookup L k Hok) as (l0 & Hl0 & [Hwf Hs]). rewrite Hl0 in Hl. injection Hl as <-.
    by apply lru_set_get.
  - intros ks L Hok. by apply striped_Remove_law.
  - intros ks L k v Hok Hh. by apply striped_Remove_law.
  - intros L k v Hok (l & Hl & Hh). unfold striped_Scan. apply list_elem_of_join. exists (default [] (Scan l)). split.
    { apply lru_scan_holds with v; [|done]. destruct Hok as [_ Hok]. by eapply Forall_lookup_1 in Hok as [Hwf _]. }
    apply list_elem_of_fmap. exists l. split; [done|]. by eapply list_elem_of_lookup_2.
  - intros L [Hne Hok]. split; [by destruct L|]. apply Forall_fmap. eapply Forall_impl; [exact Hok|].
    intros l [Hwf Hs]. split; [by apply Purge_spec|done].
  - intros L k v Hok (l & Hl & Hh). unfold striped_Purge in Hl. rewrite list_lookup_fmap in Hl.
    apply fmap_Some in Hl as (l0 & Hl0 & ->). destruct Hok as [_ Hok]. eapply Forall_lookup_1 in Hok as [Hwf _]; [|done].
    destruct Hh as [ex Hin]. rewrite (proj2 (Purge_spec l0 Hwf)) in Hin. by apply elem_of_nil in Hin.
  - intros L k v v' Hok (l & Hl & Hh) (l' & Hl' & Hh'). assert (l' = l) as -> by congruence.
    destruct Hok as [_ Hok]. eapply Forall_lookup_1 in Hok as [Hwf _]; [|done]. by eapply lru_holds_one.
Qed.

(** ** A new cache *)

Lemma NewLRUStriped_ok size buckets L : 0 < buckets → NewLRUStriped size buckets = Ok L →
  striped_ok L ∧ ∀ k v, ¬ striped_holds L k v.
Proof.
  intros Hb. unfold NewLRUStriped. case_match; [done|]. destruct (Z.ltb_spec size buckets); [done|]. intros [= <-].
  assert (0 < bucket_size size buckets) as Hsize.
  { unfold bucket_size. assert (0 ≤ (size + 9) / 10) by (apply Z.div_pos; lia).
    pose proof (Z.mod_pos_bound (size + (size + 9) / 10) buckets Hb).
    assert (0 < (size + (size + 9) / 10) / buckets) by (apply Z.div_str_pos; lia). lia. }
  split.
  - split.
    + destruct (Z.to_nat buckets) eqn:Hn; [lia|done].
    + apply Forall_replicate. split; [apply NewLRU_spec; lia|done].
  - intros k v (l & Hl & [ex Hin]). apply lookup_replicate in Hl as [-> _].
    rewrite (proj2 (NewLRU_spec (bucket_size size buckets) ltac:(lia))) in Hin. by apply elem_of_nil in Hin.
Qed.

(** The buckets together have room for what was asked for. *)
Lemma bucket_size_enough size buckets : 0 < buckets ≤ size →
  size + (size + 9) / 10 ≤ buckets * bucket_size size buckets.
Proof.
  intros [Hb Hs]. unfold bucket_size. set (n := size + (size + 9) / 10).
  pose proof (Z.div_mod n buckets ltac:(lia)). pose proof (Z.mod_pos_bound n buckets Hb). nia.
Qed.
End striped_laws.
