(* ===== verification/Sessions.v ===== *)
(** * Sessions and access tokens (server/public/model/session.go, user_access_token.go,
      sqlstore/session_store.go, user_access_token_store.go)

    The session record, its validation and flags, and the statements on the
    tables of sessions, access tokens and OAuth access data.  The tables are
    filed under their primary keys.  The team members of a session, which only
    the chat checks read, are left out; the query that loads them is not, since
    its error is an error of the read. *)

From stdpp Require Import strings sorting.
From S2P Require Import Prelude.
From S2P Require Import GoString.
From S2P Require Import GoUtf8.
From S2P Require Import GoRunes.
From S2P Require Import CallStore.
From S2P Require Import PlatUser.
From S2P Require Import LmsRoles.

Local Open Scope string_scope.
Local Open Scope Z_scope.

(** ** model/session.go *)

Definition SessionPropPlatform : string := "platform".
Definition SessionPropOs : string := "os".
Definition SessionPropBrowser : string := "browser".
Definition SessionPropType : string := "type".
Definition SessionPropUserAccessTokenId : string := "user_access_token_id".
Definition SessionPropIsBot : string := "is_bot".
Definition SessionPropIsBotValue : string := "true".
Definition SessionPropLastRemovedDeviceId : string := "last_removed_device_id".
Definition SessionTypeUserAccessToken : string := "UserAccessToken".
Definition SessionPropIsGuest : string := "is_guest".
Definition SessionUserAccessTokenExpiryHours : Z := 100 * 365 * 24.
Definition UserAuthServiceIsMobile : string := "isMobile".
Definition UserAuthServiceIsSaml : string := "isSaml".
Definition UserAuthServiceIsOAuth : string := "isOAuthUser".

(** A nil map of props reads like an empty one. *)
Record UserSession := MkSession {
  Sess_Id : string;
  Sess_Token : string;
  Sess_CreateAt : Z;
  Sess_ExpiresAt : Z;
  Sess_LastActivityAt : Z;
  Sess_UserId : string;
  Sess_DeviceId : string;
  Sess_Roles : string;
  Sess_IsOAuth : bool;
  Sess_ExpiredNotify : bool;
  Sess_Props : gmap string string;
  Sess_Local : bool;
}.

Definition Sess_with_Props (p : gmap string string) (s : UserSession) : UserSession :=
  MkSession (Sess_Id s) (Sess_Token s) (Sess_CreateAt s) (Sess_ExpiresAt s) (Sess_LastActivityAt s) (Sess_UserId s)
    (Sess_DeviceId s) (Sess_Roles s) (Sess_IsOAuth s) (Sess_ExpiredNotify s) p (Sess_Local s).
Definition Sess_with_Token (t : string) (s : UserSession) : UserSession :=
  MkSession (Sess_Id s) t (Sess_CreateAt s) (Sess_ExpiresAt s) (Sess_LastActivityAt s) (Sess_UserId s)
    (Sess_DeviceId s) (Sess_Roles s) (Sess_IsOAuth s) (Sess_ExpiredNotify s) (Sess_Props s) (Sess_Local s).
Definition Sess_with_ExpiresAt (t : Z) (s : UserSession) : UserSession :=
  MkSession (Sess_Id s) (Sess_Token s) (Sess_CreateAt s) t (Sess_LastActivityAt s) (Sess_UserId s)
    (Sess_DeviceId s) (Sess_Roles s) (Sess_IsOAuth s) (Sess_ExpiredNotify s) (Sess_Props s) (Sess_Local s).
Definition Sess_with_LastActivityAt (t : Z) (s : UserSession) : UserSession :=
  MkSession (Sess_Id s) (Sess_Token s) (Sess_CreateAt s) (Sess_ExpiresAt s) t (Sess_UserId s)
    (Sess_DeviceId s) (Sess_Roles s) (Sess_IsOAuth s) (Sess_ExpiredNotify s) (Sess_Props s) (Sess_Local s).
Definition Sess_with_Roles (r : string) (s : UserSession) : UserSession :=
  MkSession (Sess_Id s) (Sess_Token s) (Sess_CreateAt s) (Sess_ExpiresAt s) (Sess_LastActivityAt s) (Sess_UserId s)
    (Sess_DeviceId s) r (Sess_IsOAuth s) (Sess_ExpiredNotify s) (Sess_Props s) (Sess_Local s).
Definition Sess_with_DeviceId (d : string) (s : UserSession) : UserSession :=
  MkSession (Sess_Id s) (Sess_Token s) (Sess_CreateAt s) (Sess_ExpiresAt s) (Sess_LastActivityAt s) (Sess_UserId s)
    d (Sess_Roles s) (Sess_IsOAuth s) (Sess_ExpiredNotify s) (Sess_Props s) (Sess_Local s).
Definition Sess_with_ExpiredNotify (b : bool) (s : UserSession) : UserSession :=
  MkSession (Sess_Id s) (Sess_Token s) (Sess_CreateAt s) (Sess_ExpiresAt s) (Sess_LastActivityAt s) (Sess_UserId s)
    (Sess_DeviceId s) (Sess_Roles s) (Sess_IsOAuth s) b (Sess_Props s) (Sess_Local s).

(** [&model.Session{}] *)
Definition empty_session : UserSession := MkSession "" "" 0 0 0 "" "" "" false false ∅ false.

Definition IsUnrestricted (s : UserSession) : bool := Sess_Local s.

(** [None]: valid. *)
Definition Session_IsValid `{UnicodeTables} (s : UserSession) : option string :=
  if negb (IsValidId (Sess_Id s)) then Some "model.session.is_valid.id.app_error"
  else if negb (IsValidId (Sess_UserId s)) then Some "model.session.is_valid.user_id.app_error"
  else if Sess_CreateAt s =? 0 then Some "model.session.is_valid.create_at.app_error"
  else if (UserRolesMaxLength <? String.length (Sess_Roles s))%nat then Some "model.session.is_valid.roles_limit.app_error"
  else None.

Definition Session_PreSave (newId newToken : string) (now : Z) (s : UserSession) : UserSession :=
  MkSession (if String.eqb (Sess_Id s) "" then newId else Sess_Id s)
    (if String.eqb (Sess_Token s) "" then newToken else Sess_Token s)
    now (Sess_ExpiresAt s) now (Sess_UserId s) (Sess_DeviceId s) (Sess_Roles s) (Sess_IsOAuth s) (Sess_ExpiredNotify s)
    (Sess_Props s) (Sess_Local s).

Definition Session_Sanitize (s : UserSession) : UserSession := Sess_with_Token "" s.

Definition IsExpired (now : Z) (s : UserSession) : bool :=
  if Sess_ExpiresAt s <=? 0 then false else Sess_ExpiresAt s <? now.

Definition AddProp (key value : string) (s : UserSession) : UserSession := Sess_with_Props (<[key := value]> (Sess_Props s)) s.

(** strconv.ParseBool *)
Definition ParseBool (s : string) : option bool :=
  if decide (s ∈ ["1"; "t"; "T"; "TRUE"; "true"; "True"]) then Some true
  else if decide (s ∈ ["0"; "f"; "F"; "FALSE"; "false"; "False"]) then Some false else None.
Definition FormatBool (b : bool) : string := if b then "true" else "false".

(** A missing prop and one that is no boolean are both false. *)
Definition bool_prop (key : string) (s : UserSession) : bool :=
  match Sess_Props s !! key with Some v => default false (ParseBool v) | None => false end.
Definition prop_is (key value : string) (s : UserSession) : bool := bool_decide (Sess_Props s !! key = Some value).

Definition IsMobile (s : UserSession) : bool := bool_prop UserAuthServiceIsMobile s.
Definition IsMobileApp (s : UserSession) : bool := negb (String.eqb (Sess_DeviceId s) "") || IsMobile s.
Definition IsSaml (s : UserSession) : bool := bool_prop UserAuthServiceIsSaml s.
Definition Session_IsOAuthUser (s : UserSession) : bool := bool_prop UserAuthServiceIsOAuth s.
Definition IsBotUser (s : UserSession) : bool := prop_is SessionPropIsBot SessionPropIsBotValue s.
Definition IsUserAccessToken (s : UserSession) : bool := prop_is SessionPropType SessionTypeUserAccessToken s.
Definition IsIntegration (s : UserSession) : bool := IsBotUser s || IsUserAccessToken s || Sess_IsOAuth s.
Definition IsSSOLogin (s : UserSession) : bool := Session_IsOAuthUser s || IsSaml s.
Definition Session_IsGuest (s : UserSession) : bool := prop_is SessionPropIsGuest "true" s.
Definition GetUserRoles (s : UserSession) : list string := Fields (Sess_Roles s).

(** With the token, which is also the result. *)
Definition GenerateCSRF (newId : string) (s : UserSession) : UserSession := AddProp "csrf" newId s.
Definition GetCSRF (s : UserSession) : string := default "" (Sess_Props s !! "csrf").

(** What the permission checks read of a session. *)
Definition view_session (s : UserSession) : Session :=
  {| Session_UserId := Sess_UserId s; Session_Roles := Sess_Roles s; Session_Local := Sess_Local s |}.

(** ** model/user_access_token.go *)

Record UserAccessToken := MkToken {
  Tok_Id : string; Tok_Token : string; Tok_UserId : string; Tok_Description : string; Tok_IsActive : bool;
}.

Definition Token_IsValid `{UnicodeTables} (t : UserAccessToken) : option string :=
  if negb (IsValidId (Tok_Id t)) then Some "model.user_access_token.is_valid.id.app_error"
  else if negb (String.length (Tok_Token t) =? 26)%nat then Some "model.user_access_token.is_valid.token.app_error"
  else if negb (IsValidId (Tok_UserId t)) then Some "model.user_access_token.is_valid.user_id.app_error"
  else if (255 <? String.length (Tok_Description t))%nat then Some "model.user_access_token.is_valid.description.app_error"
  else None.

Definition Token_PreSave (newId : string) (t : UserAccessToken) : UserAccessToken :=
  MkToken newId (Tok_Token t) (Tok_UserId t) (Tok_Description t) true.

Definition Tok_with_IsActive (b : bool) (t : UserAccessToken) : UserAccessToken :=
  MkToken (Tok_Id t) (Tok_Token t) (Tok_UserId t) (Tok_Description t) b.
Definition Tok_with_Token (s : string) (t : UserAccessToken) : UserAccessToken :=
  MkToken (Tok_Id t) s (Tok_UserId t) (Tok_Description t) (Tok_IsActive t).

(** ** The table of sessions *)

Abbreviation session_rows := (gmap string UserSession).
Abbreviation token_rows := (gmap string UserAccessToken).

(** VARCHAR(26), VARCHAR(512), VARCHAR(256) *)
Definition session_fits (s : UserSession) : bool :=
  (rune_count (Sess_Token s) <=? 26)%nat && (rune_count (Sess_DeviceId s) <=? 512)%nat &&
  (rune_count (Sess_Roles s) <=? 256)%nat.

(** A session without the fields that are no columns. *)
Definition stored_session (s : UserSession) : UserSession :=
  MkSession (Sess_Id s) (Sess_Token s) (Sess_CreateAt s) (Sess_ExpiresAt s) (Sess_LastActivityAt s) (Sess_UserId s)
    (Sess_DeviceId s) (Sess_Roles s) (Sess_IsOAuth s) (Sess_ExpiredNotify s) (Sess_Props s) false.

(** The insert and then the team members: an error of the second query is
    returned although the row stays. *)
Definition SessionStore_Save `{UnicodeTables} (fault teams_fault : bool) (newId newToken : string) (now : Z) (rows : session_rows)
    (session : UserSession) : res storeError UserSession * session_rows :=
  if negb (String.eqb (Sess_Id session) "") then (Err (ErrInvalidInput "Session" "id" (Sess_Id session)), rows)
  else
  let session := Session_PreSave newId newToken now session in
  match Session_IsValid session with
  | Some id => (Err (ErrInvalidModel id), rows)
  | None =>
      if fault || bool_decide (is_Some (rows !! Sess_Id session)) || negb (session_fits session)
      then (Err (ErrDatabase "failed to save Session"), rows)
      else
      let rows := <[Sess_Id session := stored_session session]> rows in
      if teams_fault then (Err (ErrDatabase "failed to find TeamMembers for Session"), rows) else (Ok session, rows)
  end.

(** LastActivityAt DESC; equal ones in any order. *)
Definition later (a b : UserSession) : Prop := Sess_LastActivityAt b <= Sess_LastActivityAt a.
#[export] Instance later_dec : RelDecision later.
Proof. intros a b. unfold later. apply _. Defined.

Section queries.
Context `{GoRange}.

Definition sessions_where (P : UserSession → bool) (rows : session_rows) : list UserSession :=
  filter (λ s, P s = true) (go_range rows).*2.

(** By token or by id; LIMIT 1 takes any of the matching rows. *)
Definition SessionStore_Get (fault teams_fault : bool) (rows : session_rows) (sessionIdOrToken : string)
    : res storeError UserSession :=
  if fault then Err (ErrDatabase "failed to find Sessions")
  else match sessions_where (λ s, String.eqb (Sess_Token s) sessionIdOrToken || String.eqb (Sess_Id s) sessionIdOrToken) rows with
       | [] => Err (ErrNotFound "Session" sessionIdOrToken)
       | s :: _ => if teams_fault then Err (ErrDatabase "failed to find TeamMembers for Session") else Ok s
       end.

Definition by_activity (rows : list UserSession) : list UserSession := merge_sort later rows.

Definition SessionStore_GetSessions (fault teams_fault : bool) (rows : session_rows) (userId : string)
    : res storeError (list UserSession) :=
  if fault then Err (ErrDatabase "failed to find Sessions")
  else if teams_fault then Err (ErrDatabase "failed to find TeamMembers for Session")
  else Ok (by_activity (sessions_where (λ s, String.eqb (Sess_UserId s) userId) rows)).

Definition SessionStore_GetLRUSessions (fault : bool) (rows : session_rows) (userId : string) (limit offset : nat)
    : res storeError (list UserSession) :=
  if fault then Err (ErrDatabase "failed to find Sessions")
  else Ok (take limit (drop offset (by_activity (sessions_where (λ s, String.eqb (Sess_UserId s) userId) rows)))).

Definition SessionStore_GetSessionsWithActiveDeviceIds (fault : bool) (now : Z) (rows : session_rows) (userId : string)
    : res storeError (list UserSession) :=
  if fault then Err (ErrDatabase "failed to find Sessions")
  else Ok (sessions_where (λ s,
    String.eqb (Sess_UserId s) userId && negb (Sess_ExpiresAt s =? 0) && (now <=? Sess_ExpiresAt s) &&
    negb (String.eqb (Sess_DeviceId s) "") &&
    negb (String.eqb (Sess_DeviceId s) (default "" (Sess_Props s !! SessionPropLastRemovedDeviceId)))) rows).

Definition SessionStore_GetSessionsExpired (fault : bool) (now thresholdMillis : Z) (mobileOnly unnotifiedOnly : bool)
    (rows : session_rows) : res storeError (list UserSession) :=
  if fault then Err (ErrDatabase "failed to find Sessions")
  else Ok (sessions_where (λ s,
    negb (Sess_ExpiresAt s =? 0) && (Sess_ExpiresAt s <? now) && (now - thresholdMillis <? Sess_ExpiresAt s) &&
    (negb mobileOnly || negb (String.eqb (Sess_DeviceId s) "")) &&
    (negb unnotifiedOnly || negb (Sess_ExpiredNotify s))) rows).

Definition SessionStore_AnalyticsSessionCount (fault : bool) (now : Z) (rows : session_rows) : res storeError Z :=
  if fault then Err (ErrDatabase "failed to count Sessions")
  else Ok (Z.of_nat (length (sessions_where (λ s, now <? Sess_ExpiresAt s) rows))).
End queries.

(** [DELETE FROM Sessions WHERE ...]: what is kept. *)
Definition delete_sessions (P : UserSession → bool) (rows : session_rows) : session_rows :=
  filter (λ e : string * UserSession, P e.2 = false) rows.

(** [UPDATE Sessions SET ... WHERE ...] *)
Definition update_sessions (P : UserSession → bool) (f : UserSession → UserSession) (rows : session_rows) : session_rows :=
  (λ s, if P s then f s else s) <$> rows.

Definition with_id (id : string) (s : UserSession) : bool := String.eqb (Sess_Id s) id.
Definition of_user (userId : string) (s : UserSession) : bool := String.eqb (Sess_UserId s) userId.

Definition SessionStore_UpdateExpiredNotify (fault : bool) (rows : session_rows) (sessionId : string) (notified : bool)
    : res storeError unit * session_rows :=
  if fault then (Err (ErrDatabase "failed to update Session"), rows)
  else (Ok tt, update_sessions (with_id sessionId) (Sess_with_ExpiredNotify notified) rows).

Definition SessionStore_Remove (fault : bool) (rows : session_rows) (sessionIdOrToken : string)
    : res storeError unit * session_rows :=
  if fault then (Err (ErrDatabase "failed to delete Session"), rows)
  else (Ok tt, delete_sessions (λ s, with_id sessionIdOrToken s || String.eqb (Sess_Token s) sessionIdOrToken) rows).

Definition SessionStore_RemoveAllSessions (fault : bool) (rows : session_rows) : res storeError unit * session_rows :=
  if fault then (Err (ErrDatabase "failed to delete all Sessions"), rows) else (Ok tt, ∅).

Definition SessionStore_PermanentDeleteSessionsByUser (fault : bool) (rows : session_rows) (userId : string)
    : res storeError unit * session_rows :=
  if fault then (Err (ErrDatabase "failed to delete Session"), rows)
  else (Ok tt, delete_sessions (of_user userId) rows).

Definition SessionStore_UpdateExpiresAt (fault : bool) (rows : session_rows) (sessionId : string) (time : Z)
    : res storeError unit * session_rows :=
  if fault then (Err (ErrDatabase "failed to update Session"), rows)
  else (Ok tt, update_sessions (with_id sessionId) (λ s, Sess_with_ExpiredNotify false (Sess_with_ExpiresAt time s)) rows).

Definition SessionStore_UpdateLastActivityAt (fault : bool) (rows : session_rows) (sessionId : string) (time : Z)
    : res storeError unit * session_rows :=
  if fault then (Err (ErrDatabase "failed to update Session"), rows)
  else (Ok tt, update_sessions (with_id sessionId) (Sess_with_LastActivityAt time) rows).

Definition SessionStore_UpdateRoles (fault : bool) (rows : session_rows) (userId roles : string)
    : res storeError string * session_rows :=
  if (UserRolesMaxLength <? String.length roles)%nat
  then (Err (ErrDatabase "given session roles length exceeds max storage limit"), rows)
  else if fault then (Err (ErrDatabase "failed to update Session"), rows)
  else (Ok userId, update_sessions (of_user userId) (Sess_with_Roles roles) rows).

Definition SessionStore_UpdateDeviceId (fault : bool) (rows : session_rows) (id deviceId : string) (expiresAt : Z)
    : res storeError string * session_rows :=
  if fault || ((512 <? rune_count deviceId)%nat && bool_decide (is_Some (rows !! id)))
  then (Err (ErrDatabase "failed to update Session"), rows)
  else (Ok deviceId,
        update_sessions (with_id id)
          (λ s, Sess_with_ExpiredNotify false (Sess_with_ExpiresAt expiresAt (Sess_with_DeviceId deviceId s))) rows).

Definition SessionStore_UpdateProps (fault : bool) (rows : session_rows) (session : UserSession)
    : res storeError unit * session_rows :=
  if fault then (Err (ErrDatabase "failed to update Session"), rows)
  else (Ok tt, update_sessions (with_id (Sess_Id session)) (Sess_with_Props (Sess_Props session)) rows).

(** ** Cleanup

    One round deletes up to [batchSize] of the expired sessions, any of them;
    the loop stops after a round that deleted none. *)

Definition expired_at (expiryTime : Z) (s : UserSession) : bool :=
  negb (Sess_ExpiresAt s =? 0) && (Sess_ExpiresAt s <? expiryTime).

Section cleanup.
Context `{GoRange}.

Definition cleanup_batch (expiryTime batchSize : Z) (rows : session_rows) : list string :=
  take (Z.to_nat batchSize) (Sess_Id <$> sessions_where (expired_at expiryTime) rows).

Definition cleanup_round (expiryTime batchSize : Z) (rows : session_rows) : Z * session_rows :=
  let ids := cleanup_batch expiryTime batchSize rows in
  let rows' := delete_sessions (λ s, bool_decide (Sess_Id s ∈ ids)) rows in
  (Z.of_nat (size rows) - Z.of_nat (size rows'), rows').

(** [faults] says which of the rounds to come fail; [None]: the fuel, a bound
    on the rounds, is used up. *)
Fixpoint SessionStore_Cleanup (fuel : nat) (faults : nat → bool) (expiryTime batchSize : Z) (rows : session_rows)
    : option (res storeError unit * session_rows) :=
  match fuel with
  | O => None
  | S fuel =>
      if faults O then Some (Err (ErrDatabase "unable to delete sessions"), rows)
      else
      let '(rowsAffected, rows) := cleanup_round expiryTime batchSize rows in
      if 0 <? rowsAffected then SessionStore_Cleanup fuel (λ n, faults (S n)) expiryTime batchSize rows
      else Some (Ok tt, rows)
  end.
End cleanup.

(** ** The table of access tokens *)

(** The sessions of the tokens of [P]: [DELETE FROM Sessions s USING
    UserAccessTokens o WHERE o.Token = s.Token AND ...]. *)
Definition delete_sessions_of (P : UserAccessToken → bool) (tokens : token_rows) (rows : session_rows) : session_rows :=
  delete_sessions (λ s, existsb (λ e : string * UserAccessToken, P e.2 && String.eqb (Tok_Token e.2) (Sess_Token s))
                          (map_to_list tokens)) rows.

Definition token_id (id : string) (t : UserAccessToken) : bool := String.eqb (Tok_Id t) id.
Definition token_user (userId : string) (t : UserAccessToken) : bool := String.eqb (Tok_UserId t) userId.

(** Another row has the token. *)
Definition token_taken (tokens : token_rows) (t : UserAccessToken) : bool :=
  existsb (λ e : string * UserAccessToken, String.eqb (Tok_Token e.2) (Tok_Token t)) (map_to_list tokens).

Definition TokenStore_Save `{UnicodeTables} (fault : bool) (newId : string) (tokens : token_rows) (token : UserAccessToken)
    : res storeError UserAccessToken * token_rows :=
  let token := Token_PreSave newId token in
  match Token_IsValid token with
  | Some id => (Err (ErrInvalidModel id), tokens)
  | None =>
      if fault || bool_decide (is_Some (tokens !! Tok_Id token)) || token_taken tokens token ||
         (512 <? rune_count (Tok_Description token))%nat
      then (Err (ErrDatabase "failed to save UserAccessToken"), tokens)
      else (Ok token, <[Tok_Id token := token]> tokens)
  end.

(** The transaction of a delete: when one of its statements fails, everything
    is rolled back and the error is dropped. *)
Definition TokenStore_Delete (begin_fault exec_fault commit_fault : bool) (tokens : token_rows) (rows : session_rows)
    (tokenId : string) : res storeError unit * token_rows * session_rows :=
  if begin_fault then (Err (ErrDatabase "begin_transaction"), tokens, rows)
  else if exec_fault then (Ok tt, tokens, rows)
  else if commit_fault then (Err (ErrDatabase "commit_transaction"), tokens, rows)
  else (Ok tt, filter (λ e, token_id tokenId e.2 = false) tokens, delete_sessions_of (token_id tokenId) tokens rows).

Definition TokenStore_DeleteAllForUser (begin_fault exec_fault commit_fault : bool) (tokens : token_rows)
    (rows : session_rows) (userId : string) : res storeError unit * token_rows * session_rows :=
  if begin_fault then (Err (ErrDatabase "begin_transaction"), tokens, rows)
  else if exec_fault then (Err (ErrDatabase "failed to delete Sessions with UserAccessToken"), tokens, rows)
  else if commit_fault then (Err (ErrDatabase "commit_transaction"), tokens, rows)
  else (Ok tt, filter (λ e, token_user userId e.2 = false) tokens, delete_sessions_of (token_user userId) tokens rows).

Definition TokenStore_UpdateTokenDisable (begin_fault exec_fault commit_fault : bool) (tokens : token_rows)
    (rows : session_rows) (tokenId : string) : res storeError unit * token_rows * session_rows :=
  if begin_fault then (Err (ErrDatabase "begin_transaction"), tokens, rows)
  else if exec_fault then (Err (ErrDatabase "failed to delete Sessions with UserAccessToken"), tokens, rows)
  else if commit_fault then (Err (ErrDatabase "commit_transaction"), tokens, rows)
  else (Ok tt, alter (Tok_with_IsActive false) tokenId tokens, delete_sessions_of (token_id tokenId) tokens rows).

Definition TokenStore_UpdateTokenEnable (fault : bool) (tokens : token_rows) (tokenId : string)
    : res storeError unit * token_rows :=
  if fault then (Err (ErrDatabase "failed to update UserAccessTokens"), tokens)
  else (Ok tt, alter (Tok_with_IsActive true) tokenId tokens).

Definition TokenStore_Get (fault : bool) (tokens : token_rows) (tokenId : string) : res storeError UserAccessToken :=
  if fault then Err (ErrDatabase "failed to get UserAccessToken")
  else match tokens !! tokenId with Some t => Ok t | None => Err (ErrNotFound "UserAccessToken" tokenId) end.

Section tokens.
Context `{GoRange}.

Definition tokens_where (P : UserAccessToken → bool) (tokens : token_rows) : list UserAccessToken :=
  filter (λ t, P t = true) (go_range tokens).*2.

Definition TokenStore_GetByToken (fault : bool) (tokens : token_rows) (tokenString : string)
    : res storeError UserAccessToken :=
  if fault then Err (ErrDatabase "failed to get UserAccessToken")
  else match tokens_where (λ t, String.eqb (Tok_Token t) tokenString) tokens with
       | t :: _ => Ok t
       | [] => Err (ErrNotFound "UserAccessToken" tokenString)
       end.

Definition TokenStore_GetAll (fault : bool) (tokens : token_rows) (offset limit : nat) : res storeError (list UserAccessToken) :=
  if fault then Err (ErrDatabase "failed to find UserAccessTokens")
  else Ok (take limit (drop offset (go_range tokens).*2)).

Definition TokenStore_GetByUser (fault : bool) (tokens : token_rows) (userId : string) (offset limit : nat)
    : res storeError (list UserAccessToken) :=
  if fault then Err (ErrDatabase "failed to find UserAccessTokens")
  else Ok (take limit (drop offset (tokens_where (token_user userId) tokens))).
End tokens.

(** ** OAuth access data, by token *)

Definition OAuthStore_GetAccessData (fault : bool) (access : gset string) (token : string) : res storeError unit :=
  if fault || negb (bool_decide (token ∈ access)) then Err (ErrDatabase "failed to get OAuthAccessData") else Ok tt.

Definition OAuthStore_RemoveAccessData (fault : bool) (access : gset string) (token : string)
    : res storeError unit * gset string :=
  if fault then (Err (ErrDatabase "failed to delete OAuthAccessData"), access) else (Ok tt, access ∖ {[token]}).

Definition OAuthStore_RemoveAllAccessData (fault : bool) (access : gset string) : res storeError unit * gset string :=
  if fault then (Err (ErrDatabase "failed to delete OAuthAccessData"), access) else (Ok tt, ∅).
