(* ===== verification/SessionService.v ===== *)
(** * The session service (server/channels/app/platform/session.go, app/session.go,
      app/login.go, app/authentication.go)

    Sessions are rows of a table with copies in a cache filed under their
    tokens.  The cache is used through the interface [Cache].  Every statement
    and every reading of the clock is one effect of the world's counter.

    The settings are the class [SessionConfig]; the hook of the plugins and the
    parser of user agents, a third-party library, the class [LoginEnv].  Audit
    records, log lines, metrics, messages to the other nodes of a cluster and
    the caches of open websockets are left out. *)

From stdpp Require Import strings.
From S2P Require Import Prelude.
From S2P Require Import GoString.
From S2P Require Import GoUtf8.
From S2P Require Import GoRunes.
From S2P Require Import LmsModel.
From S2P Require Import Hashers.
From S2P Require Import PlatUser.
From S2P Require Import CallStore.
From S2P Require Import LmsStore.
From S2P Require Import LmsTables.
From S2P Require Import LmsApp.
From S2P Require Import LmsRoles.
From S2P Require Import UserStore.
From S2P Require Import LmsUsers.
From S2P Require Import Login.
From S2P Require Import CreateUser.
From S2P Require Import LruStriped.
From S2P Require Import Sessions.

Local Open Scope string_scope.
Local Open Scope go_scope.
Local Open Scope Z_scope.

Class SessionConfig := {
  SessionLengthWebInHours : Z;
  SessionLengthMobileInHours : Z;
  SessionLengthSSOInHours : Z;
  SessionCacheInMinutes : Z;
  SessionIdleTimeoutInMinutes : Z;
  ExtendSessionLengthWithActivity : bool;
  EnableUserAccessTokens : bool;
}.

(** The reason a plugin gives for refusing a login; platform, system and
    browser of a user agent. *)
Class LoginEnv := {
  UserWillLogIn : User → string;
  user_agent : string → string * string * string;
}.

Definition maxSessionsLimit : nat := 500.
Definition returnLimit : nat := 100.

(** The sentinel errors of the platform around the error of a store. *)
Inductive sessionError :=
  | GetSessionError (e : storeError)
  | DeleteSessionError (e : storeError)
  | GetTokenError (e : storeError)
  | DeleteTokenError (e : storeError)
  | DeleteAllAccessDataError (e : storeError)
  | OtherError (e : storeError).

Definition session_cause (e : sessionError) : storeError :=
  match e with
  | GetSessionError e | DeleteSessionError e | GetTokenError e | DeleteTokenError e | DeleteAllAccessDataError e
  | OtherError e => e
  end.

(** *** float64 *)

(** To 53 significant bits, half to even. *)
Definition round53 (p : Z) : Z :=
  let e := Z.max 0 (Z.log2 p + 1 - 53) in
  let q := p / 2 ^ e in
  let r := p mod 2 ^ e in
  let up := (2 ^ e <? 2 * r) || ((2 * r =? 2 ^ e) && negb (Z.even q)) in
  (if up && (0 <? e) then q + 1 else q) * 2 ^ e.

(** [int64(float64(n) * 0.01)]: the constant is 5764607523034235 / 2^59. *)
Definition one_percent (n : Z) : Z := round53 (round53 n * 5764607523034235) / 2 ^ 59.

Definition hour_ms : Z := 1000 * 60 * 60.

Section service.
Context `{UnicodeTables} `{UnicodeLower} `{UserLib} `{Crypto} `{Decimal D} `{LmsEnv} `{GoRange}.
Context `{UsersEnv} `{Cache UserSession C} `{SessionConfig} `{LoginEnv}.

Record session_db := SessionDB {
  sd_rows : session_rows;
  sd_cache : C;
  sd_tokens : token_rows;
  sd_access : gset string;
}.

Record sess_world := SessWorld { sw_users : users_world D; sw_sessions : session_db }.

Abbreviation SS := (M sess_world storeError).
Abbreviation SP := (M sess_world sessionError).
Abbreviation SM := (M sess_world lmsError).

(** ** Effects *)

Definition tick_users (w : users_world D) : users_world D := UsersWorld (tick (uw_lms w)) (uw_users w).
Definition ticks_of (w : sess_world) : nat := lms_ticks (uw_lms (sw_users w)).

Definition on_sessions {E A} (f : nat → session_db → A * session_db) : M sess_world E A := λ w,
  let '(r, d) := f (ticks_of w) (sw_sessions w) in (Ok r, SessWorld (tick_users (sw_users w)) d).

Definition throw_res {E A} (m : M sess_world E (res E A)) : M sess_world E A :=
  r <- m ;; match r with Ok a => m_ret a | Err e => m_throw e end.

Definition model_GetMillis {E} : M sess_world E Z := on_sessions (λ n d, (lms_clock n, d)).
Definition model_NewId {E} : M sess_world E string := on_sessions (λ n d, (lms_id n, d)).

Definition with_session_rows (r : session_rows) (d : session_db) : session_db :=
  SessionDB r (sd_cache d) (sd_tokens d) (sd_access d).
Definition with_cache (c : C) (d : session_db) : session_db :=
  SessionDB (sd_rows d) c (sd_tokens d) (sd_access d).

Definition on_rows {A} (f : nat → session_rows → res storeError A * session_rows) : SS A :=
  throw_res (on_sessions (λ n d, let '(r, rows) := f n (sd_rows d) in (r, with_session_rows rows d))).
Definition read_rows {A} (f : nat → session_rows → res storeError A) : SS A :=
  throw_res (on_sessions (λ n d, (f n (sd_rows d), d))).
Definition on_cache {E A} (f : Z → C → A * C) : M sess_world E A :=
  on_sessions (λ n d, let '(r, c) := f (lms_clock n) (sd_cache d) in (r, with_cache c d)).
Definition on_tokens {A} (f : nat → token_rows → session_rows → res storeError A * token_rows * session_rows) : SS A :=
  throw_res (on_sessions (λ n d,
    let '(r, t, rows) := f n (sd_tokens d) (sd_rows d) in (r, SessionDB rows (sd_cache d) t (sd_access d)))).
Definition on_access {A} (f : nat → gset string → res storeError A * gset string) : SS A :=
  throw_res (on_sessions (λ n d,
    let '(r, a) := f n (sd_access d) in (r, SessionDB (sd_rows d) (sd_cache d) (sd_tokens d) a))).

(** A computation on the users inside the world. *)
Definition lift_users {E A} (m : M (users_world D) E A) : M sess_world E A := λ w,
  let '(r, u) := m (sw_users w) in (r, SessWorld u (sw_sessions w)).

Definition map_err {S E E' A} (f : E → E') (m : M S E A) : M S E' A := λ w,
  match m w with (Ok a, w') => (Ok a, w') | (Err e, w') => (Err (f e), w') end.

(** The call whose error the caller looks at or drops. *)
Definition attempt {S E E' A} (m : M S E A) : M S E' (res E A) := λ w, let '(r, w') := m w in (Ok r, w').

(** ** The store *)

Definition session_save (s : UserSession) : SS UserSession :=
  on_rows (λ n rows, SessionStore_Save (lms_fault n) (lms_fault (S n)) (lms_id n) (lms_id (S n)) (lms_clock n) rows s).
Definition session_get (idOrToken : string) : SS UserSession :=
  read_rows (λ n rows, SessionStore_Get (lms_fault n) (lms_fault (S n)) rows idOrToken).
Definition session_list (userId : string) : SS (list UserSession) :=
  read_rows (λ n rows, SessionStore_GetSessions (lms_fault n) (lms_fault (S n)) rows userId).
Definition session_remove (idOrToken : string) : SS unit :=
  on_rows (λ n rows, SessionStore_Remove (lms_fault n) rows idOrToken).
Definition token_by_token (token : string) : SS UserAccessToken :=
  throw_res (on_sessions (λ n d, (TokenStore_GetByToken (lms_fault n) (sd_tokens d) token, d))).

(** ** platform/session.go *)

Definition AddSessionToCache {E} (s : UserSession) : M sess_world E unit :=
  on_cache (λ now c, (tt, cache_SetWithExpiry now (Sess_Token s) s (SessionCacheInMinutes * 60 * 1000) c)).

Definition platform_CreateSession (s : UserSession) : SS UserSession :=
  s <- session_save (Sess_with_Token "" s) ;; AddSessionToCache s ;;; m_ret s.

Definition GetSessionContext (token : string) : SS UserSession := session_get token.

(** The cached sessions of the keys, for the scan. *)
Fixpoint cached_sessions (now : Z) (keys : list string) (c : C) : list (string * UserSession) * C :=
  match keys with
  | [] => ([], c)
  | k :: ks =>
      let '(r, c) := cache_Get now k c in
      let '(l, c) := cached_sessions now ks c in
      (match r with Some s => (k, s) :: l | None => l end, c)
  end.

Definition ClearUserSessionCacheLocal {E} (userID : string) : M sess_world E unit :=
  on_cache (λ now c,
    let '(found, c) := cached_sessions now (mjoin (cache_Scan c)) c in
    let toDelete := (filter (λ e : string * UserSession, Sess_UserId e.2 = userID) found).*1 in
    (tt, cache_RemoveMulti toDelete c)).

Definition ClearUserSessionCache {E} (userID : string) : M sess_world E unit := ClearUserSessionCacheLocal userID.
Definition ClearAllUsersSessionCache {E} : M sess_world E unit := on_cache (λ _ c, (tt, cache_Purge c)).

Definition platform_GetSession (token : string) : SS UserSession :=
  r <- on_cache (λ now c, cache_Get now token c) ;;
  match r with
  | Some s => if String.eqb (Sess_Id s) "" then GetSessionContext token else m_ret s
  | None => GetSessionContext token
  end.

Definition GetSessionByID (sessionID : string) : SS UserSession := session_get sessionID.

Definition RevokeSessionsFromAllUsers : SP unit :=
  map_err DeleteAllAccessDataError (on_access (λ n a, OAuthStore_RemoveAllAccessData (lms_fault n) a)) ;;;
  map_err OtherError (on_rows (λ n rows, SessionStore_RemoveAllSessions (lms_fault n) rows)) ;;;
  ClearAllUsersSessionCache.

(** The row is removed by a goroutine, whose error is looked at last. *)
Definition RevokeAccessToken (token : string) : SP unit :=
  session <- attempt (platform_GetSession token) ;;
  removed <- attempt (map_err DeleteSessionError (session_remove token)) ;;
  map_err GetTokenError (throw_res (on_sessions (λ n d, (OAuthStore_GetAccessData (lms_fault n) (sd_access d) token, d)))) ;;;
  map_err DeleteTokenError (on_access (λ n a, OAuthStore_RemoveAccessData (lms_fault n) a token)) ;;;
  (match removed with Ok _ => m_ret tt | Err e => m_throw e end) ;;;
  match session with Ok s => ClearUserSessionCache (Sess_UserId s) | Err _ => m_ret tt end.

Definition remove_session (s : UserSession) : SP unit :=
  if Sess_IsOAuth s then RevokeAccessToken (Sess_Token s)
  else map_err DeleteSessionError (session_remove (Sess_Id s)).

Definition platform_RevokeSession (s : UserSession) : SP unit :=
  remove_session s ;;; ClearUserSessionCache (Sess_UserId s).

Definition platform_RevokeSessionsForDeviceId (userID deviceID currentSessionId : string) : SP unit :=
  sessions <- map_err OtherError (session_list userID) ;;
  m_for sessions (λ s,
    if String.eqb (Sess_DeviceId s) deviceID && negb (String.eqb (Sess_Id s) currentSessionId)
    then attempt (platform_RevokeSession s) ;;; m_ret tt else m_ret tt).

Definition platform_RevokeAllSessions (userID : string) : SP unit :=
  sessions <- map_err GetSessionError (session_list userID) ;;
  m_for sessions remove_session ;;;
  ClearUserSessionCache userID.

Definition SetSessionExpireInHours {E} (s : UserSession) (hours : Z) : M sess_world E UserSession :=
  if (Sess_CreateAt s =? 0) || ExtendSessionLengthWithActivity
  then now <- model_GetMillis ;; m_ret (Sess_with_ExpiresAt (now + hour_ms * hours) s)
  else m_ret (Sess_with_ExpiresAt (Sess_CreateAt s + hour_ms * hours) s).

Definition ExtendSessionExpiry (s : UserSession) (newExpiry : Z) : SS UserSession :=
  on_rows (λ n rows, SessionStore_UpdateExpiresAt (lms_fault n) rows (Sess_Id s) newExpiry) ;;;
  (let s := Sess_with_ExpiresAt newExpiry s in AddSessionToCache s ;;; m_ret s).

(** The sessions are read before the roles are written. *)
Definition UpdateSessionsIsGuest (user : User) (isGuest : bool) : SS unit :=
  sessions <- session_list (User_Id user) ;;
  on_rows (λ n rows, SessionStore_UpdateRoles (lms_fault n) rows (User_Id user) (User_Roles user)) ;;;
  m_for sessions (λ s,
    let s := AddProp SessionPropIsGuest (FormatBool isGuest) s in
    r <- attempt (on_rows (λ n rows, SessionStore_UpdateProps (lms_fault n) rows s)) ;;
    match r with Ok _ => AddSessionToCache s | Err _ => m_ret tt end).
(** ** app/session.go *)

Definition wrapS {A} (id : string) (status : Z) (m : SS A) : SM A := map_err (wrapped id status) m.
Definition failS {A} (id : string) (status : Z) : SM A := m_throw (LmsError id status None).

(** The error of a save, by its class. *)
Definition save_error (e : storeError) : lmsError :=
  match e with
  | ErrInvalidInput _ _ _ => LmsError "app.session.save.existing.app_error" 400 (Some e)
  | _ => LmsError "app.session.save.app_error" 500 (Some e)
  end.

Definition remove_error (e : sessionError) : lmsError :=
  LmsError "app.session.remove.app_error" 500 (Some (session_cause e)).

Definition GetSessions (userID : string) : SM (list UserSession) :=
  wrapS "app.session.get_sessions.app_error" 500 (session_list userID).

Definition GetLRUSessions (userID : string) (limit offset : nat) : SM (list UserSession) :=
  wrapS "app.session.get_lru_sessions.app_error" 500
    (read_rows (λ n rows, SessionStore_GetLRUSessions (lms_fault n) rows userID limit offset)).

Definition RevokeSession (s : UserSession) : SM unit := map_err remove_error (platform_RevokeSession s).

(** Revokes up to [returnLimit] of the least recently used sessions over the
    limit. *)
Definition limitNumberOfSessions (userId : string) : SM unit :=
  map_err (λ e, LmsError "app.session.save.app_error" 500 (le_cause e)) (
    sessions <- GetLRUSessions userId returnLimit (maxSessionsLimit - 1) ;;
    m_for sessions RevokeSession).

(** App.GetUser with its own statuses. *)
Definition app_GetUser (userID : string) : SM User :=
  lift_users (wrapU (λ e, if IsErrNotFound e then LmsError MissingAccountError 404 (Some e)
                          else LmsError "app.user.get_by_username.app_error" 500 (Some e)) (us_get userID)).

Definition CreateSession (s : UserSession) : SM UserSession :=
  limitNumberOfSessions (Sess_UserId s) ;;;
  user <- attempt (app_GetUser (Sess_UserId s)) ;;
  match user with
  | Err e => if le_status e =? 404 then map_err save_error (platform_CreateSession s) else m_throw e
  | Ok user =>
      if IsRemote user then failS "api.user.login.remote_users.login.error" 401
      else map_err save_error (platform_CreateSession s)
  end.

Definition GetSessionById (sessionID : string) : SM UserSession :=
  wrapS "app.session.get.app_error" 400 (GetSessionByID sessionID).

Definition RevokeSessionById (sessionID : string) : SM unit :=
  s <- map_err (λ e, LmsError "app.session.get.app_error" 400 (le_cause e)) (GetSessionById sessionID) ;;
  RevokeSession s.

Definition RevokeAllSessions (userID : string) : SM unit :=
  map_err (λ e, match e with
                | GetSessionError c => LmsError "app.session.get_sessions.app_error" 500 (Some c)
                | e => remove_error e
                end) (platform_RevokeAllSessions userID).

Definition app_RevokeSessionsFromAllUsers : SM unit :=
  map_err (λ e, match e with
                | DeleteAllAccessDataError c => LmsError "app.oauth.remove_access_data.app_error" 500 (Some c)
                | e => LmsError "app.session.remove_all_sessions_for_team.app_error" 500 (Some (session_cause e))
                end) RevokeSessionsFromAllUsers.

Definition RevokeSessionsForDeviceId (userID deviceID currentSessionId : string) : SM unit :=
  map_err (λ e, LmsError "app.session.get_sessions.app_error" 500 (Some (session_cause e)))
    (platform_RevokeSessionsForDeviceId userID deviceID currentSessionId).

Definition ClearSessionCacheForUser (userID : string) : SM unit := ClearUserSessionCache userID.

Definition AttachDeviceId (sessionID deviceID : string) (expiresAt : Z) : SM unit :=
  wrapS "app.session.update_device_id.app_error" 500
    (on_rows (λ n rows, SessionStore_UpdateDeviceId (lms_fault n) rows sessionID deviceID expiresAt)) ;;; m_ret tt.

(** The caller's session with the props that are new to it. *)
Definition SetExtraSessionProps (s : UserSession) (newProps : gmap string string) : SM UserSession :=
  let changed := filter (λ e : string * string, default "" (Sess_Props s !! e.1) ≠ e.2) newProps in
  if decide (changed = ∅) then m_ret s
  else
  let s := Sess_with_Props (changed ∪ Sess_Props s) s in
  wrapS "app.session.set_extra_session_prop.app_error" 500
    (on_rows (λ n rows, SessionStore_UpdateProps (lms_fault n) rows s)) ;;; m_ret s.

(** *** How long a session lasts *)

Definition GetSessionLengthInMillis (s : UserSession) : Z :=
  hour_ms * (if IsMobileApp s then SessionLengthMobileInHours
             else if IsSSOLogin s then SessionLengthSSOInHours else SessionLengthWebInHours).

(** One per cent of the length or a day, but at least five minutes. *)
Definition extension_threshold (sessionLength : Z) : Z :=
  Z.max (Z.min (one_percent sessionLength) (24 * 60 * 60 * 1000)) (5 * 60 * 1000).

(** The session when it was extended. *)
Definition ExtendSessionExpiryIfNeeded (s : UserSession) : SM (option UserSession) :=
  if negb ExtendSessionLengthWithActivity then m_ret None
  else
  now <- model_GetMillis ;;
  if IsExpired now s then m_ret None
  else
  let sessionLength := GetSessionLengthInMillis s in
  now <- model_GetMillis ;;
  if now - (Sess_ExpiresAt s - sessionLength) <? extension_threshold sessionLength then m_ret None
  else
  r <- attempt (ExtendSessionExpiry s (now + sessionLength)) ;;
  match r with Ok s => m_ret (Some s) | Err _ => m_ret None end.

(** *** The session of a token *)

Definition invalid_token (cause : option storeError) (status : Z) : lmsError :=
  LmsError "api.context.invalid_token.error" status cause.

Definition guest_flag (user : User) : string := if IsGuest user then "true" else "false".

Definition createSessionForUserAccessToken (tokenString : string) : SM UserSession :=
  let missing := "app.user_access_token.invalid_or_missing" in
  token <- wrapS missing 401 (token_by_token tokenString) ;;
  if negb (Tok_IsActive token) then failS missing 401
  else
  user <- lift_users (wrapU (λ e, if IsErrNotFound e then LmsError MissingAccountError 404 (Some e)
                                  else LmsError "app.user.get.app_error" 500 (Some e)) (us_get (Tok_UserId token))) ;;
  if negb EnableUserAccessTokens && negb (User_IsBot user) then failS missing 401
  else if negb (User_DeleteAt user =? 0) then failS missing 401
  else
  limitNumberOfSessions (User_Id user) ;;;
  (let s := MkSession "" (Tok_Token token) 0 0 0 (User_Id user) "" (User_Roles user) false false ∅ false in
   let s := AddProp SessionPropUserAccessTokenId (Tok_Id token) s in
   let s := AddProp SessionPropType SessionTypeUserAccessToken s in
   let s := if User_IsBot user then AddProp SessionPropIsBot SessionPropIsBotValue s else s in
   let s := AddProp SessionPropIsGuest (guest_flag user) s in
   s <- SetSessionExpireInHours s SessionUserAccessTokenExpiryHours ;;
   s <- map_err save_error (session_save s) ;;
   AddSessionToCache s ;;; m_ret s).

(** An idle session is revoked by a goroutine whose result nobody waits for. *)
Definition idle_check (s : UserSession) : SM UserSession :=
  if (0 <? SessionIdleTimeoutInMinutes) && negb (Sess_IsOAuth s) && negb (IsMobileApp s) &&
     negb (IsUserAccessToken s) && negb ExtendSessionLengthWithActivity
  then
    now <- model_GetMillis ;;
    if SessionIdleTimeoutInMinutes * 1000 * 60 <? now - Sess_LastActivityAt s
    then attempt (RevokeSessionById (Sess_Id s)) ;;; m_throw (invalid_token None 401)
    else m_ret s
  else m_ret s.

(** The session of the platform is put back into the cache at every use, with
    a new lifetime there. *)
Definition refresh_cached (s : UserSession) : SM unit :=
  now <- model_GetMillis ;; if IsExpired now s then m_ret tt else AddSessionToCache s.

Definition token_session (token : string) : SM UserSession :=
  map_err (λ e, invalid_token (le_cause e) (le_status e)) (createSessionForUserAccessToken token).

(** What is done with the session the platform found. *)
Definition use_session (token : string) (found : res storeError UserSession) : SM UserSession :=
  s <- (match found with
        | Ok s =>
            if negb (String.eqb (Sess_Token s) token) then m_throw (invalid_token None 401)
            else refresh_cached s ;;; if String.eqb (Sess_Id s) "" then token_session token else m_ret s
        | Err _ => token_session token
        end) ;;
  (if String.eqb (Sess_Id s) "" then m_throw (invalid_token None 401)
   else now <- model_GetMillis ;; if IsExpired now s then m_throw (invalid_token None 401) else idle_check s).

Definition app_GetSession (token : string) : SM UserSession :=
  found <- attempt (platform_GetSession token) ;; use_session token found.

(** ** Access tokens *)

Definition CreateUserAccessToken (token : UserAccessToken) : SM UserAccessToken :=
  user <- lift_users (wrapU (λ e, if IsErrNotFound e then LmsError MissingAccountError 404 (Some e)
                                  else LmsError "app.user.get.app_error" 500 (Some e)) (us_get (Tok_UserId token))) ;;
  if negb EnableUserAccessTokens && negb (User_IsBot user) then failS "app.user_access_token.disabled" 501
  else
  id <- model_NewId ;;
  map_err (λ e, match e with
                | ErrInvalidModel m => LmsError m 400 None
                | e => LmsError "app.user_access_token.save.app_error" 500 (Some e)
                end)
    (on_tokens (λ n tokens rows,
       let '(r, tokens) := TokenStore_Save (lms_fault n) (lms_id n) tokens (Tok_with_Token id token) in (r, tokens, rows))).

(** The session of the token, if there is one and it can be read. *)
Definition session_of_token (token : UserAccessToken) : SM (option UserSession) :=
  r <- attempt (GetSessionContext (Tok_Token token)) ;;
  m_ret (match r with Ok s => Some s | Err _ => None end).

Definition revoke_found (s : option UserSession) : SM unit :=
  match s with Some s => RevokeSession s | None => m_ret tt end.

Definition RevokeUserAccessToken (token : UserAccessToken) : SM unit :=
  s <- session_of_token token ;;
  wrapS "app.user_access_token.delete.app_error" 500
    (on_tokens (λ n tokens rows,
       TokenStore_Delete (lms_fault n) (lms_fault (S n)) (lms_fault (S (S n))) tokens rows (Tok_Id token))) ;;;
  revoke_found s.

Definition DisableUserAccessToken (token : UserAccessToken) : SM unit :=
  s <- session_of_token token ;;
  wrapS "app.user_access_token.update_token_disable.app_error" 500
    (on_tokens (λ n tokens rows,
       TokenStore_UpdateTokenDisable (lms_fault n) (lms_fault (S n)) (lms_fault (S (S n))) tokens rows (Tok_Id token))) ;;;
  revoke_found s.

Definition EnableUserAccessToken (token : UserAccessToken) : SM unit :=
  session_of_token token ;;;
  wrapS "app.user_access_token.update_token_enable.app_error" 500
    (on_tokens (λ n tokens rows,
       let '(r, tokens) := TokenStore_UpdateTokenEnable (lms_fault n) tokens (Tok_Id token) in (r, tokens, rows))).

(** ** app/login.go *)

Definition UserStore_UpdateLastLogin (fault : bool) (now : Z) (d : user_db) (userId : string) (lastLogin : Z)
    : res storeError unit * user_db :=
  if fault then (Err (ErrDatabase "failed to update User"), d)
  else (Ok tt, with_rows (alter (λ u, User_with_UpdateAt now (User_with_LastLogin lastLogin u)) userId (us_rows d)) d).

Definition us_last_login (userId : string) (lastLogin : Z) : SS unit :=
  lift_users (or_throw (on_users (λ n d, UserStore_UpdateLastLogin (lms_fault n) (lms_clock n) d userId lastLogin))).

Definition internal_status (e : lmsError) : lmsError := LmsError (le_id e) 500 (le_cause e).

(** The expiry of a new session; a device logs its other sessions out. *)
Definition login_expiry (s : UserSession) (deviceID : string) (isMobile isOAuthUser isSaml : bool) : SM UserSession :=
  if negb (String.eqb deviceID "") then
    s <- SetSessionExpireInHours s SessionLengthMobileInHours ;;
    map_err internal_status (RevokeSessionsForDeviceId (Sess_UserId s) deviceID "") ;;; m_ret s
  else if isMobile then SetSessionExpireInHours s SessionLengthMobileInHours
  else if isOAuthUser || isSaml then SetSessionExpireInHours s SessionLengthSSOInHours
  else SetSessionExpireInHours s SessionLengthWebInHours.

Definition DoLogin (user : User) (userAgent deviceID : string) (isMobile isOAuthUser isSaml : bool) : SM UserSession :=
  let reason := UserWillLogIn user in
  if negb (String.eqb reason "") then failS ("Login rejected by plugin: " ++ reason) 400
  else
  csrf <- model_NewId ;;
  (let s := MkSession "" "" 0 0 0 (User_Id user) deviceID (User_Roles user) false false
              (<[UserAuthServiceIsMobile := FormatBool isMobile]> (<[UserAuthServiceIsSaml := FormatBool isSaml]>
                 (<[UserAuthServiceIsOAuth := FormatBool isOAuthUser]> ∅))) false in
   let s := GenerateCSRF csrf s in
   s <- login_expiry s deviceID isMobile isOAuthUser isSaml ;;
   let '(plat, os, browser) := user_agent userAgent in
   let s := AddProp SessionPropPlatform plat s in
   let s := AddProp SessionPropOs os s in
   let s := AddProp SessionPropBrowser browser s in
   let s := AddProp SessionPropIsGuest (guest_flag user) s in
   s <- map_err internal_status (CreateSession s) ;;
   wrapS "app.login.doLogin.updateLastLogin.error" 500 (us_last_login (User_Id user) (Sess_CreateAt s)) ;;;
   m_ret s).
End service.
Arguments session_db C : clear implicits.
Arguments sess_world D C : clear implicits.
