(* ===== verification/SessionDemo.v ===== *)
(** * An example of sessions

    The school of the other examples with a session cache of two stripes, used
    by the witnesses. *)

From stdpp Require Import strings.
From S2P Require Import Prelude.
From S2P Require Import GoString.
From S2P Require Import LmsModel.
From S2P Require Import Hashers.
From S2P Require Import PlatUser.
From S2P Require Import CallStore.
From S2P Require Import LmsStore.
From S2P Require Import LmsTables.
From S2P Require Import LmsApp.
From S2P Require Import LmsRoles.
From S2P Require Import UserStore.
From S2P Require Import LmsUsers.
From S2P Require Import LmsUsersDemo.
From S2P Require Import Lru.
From S2P Require Import LruStriped.
From S2P Require Import Sessions.
From S2P Require Import SessionService.

Local Open Scope string_scope.

Module SignedIn.
Import School.
#[local] Existing Instance cents.

#[export] Instance by_length : XXHash := {| Sum64String s := Z.of_nat (String.length s) |}.

(** A day of web session, ten minutes in the cache. *)
#[export] Instance a_day : SessionConfig := {|
  SessionLengthWebInHours := 24; SessionLengthMobileInHours := 24; SessionLengthSSOInHours := 24;
  SessionCacheInMinutes := 10; SessionIdleTimeoutInMinutes := 0; ExtendSessionLengthWithActivity := false;
  EnableUserAccessTokens := true;
|}.

#[export] Instance browser : LoginEnv := {| UserWillLogIn _ := ""; user_agent _ := ("Linux", "Linux", "Firefox") |}.

Definition empty_cache : list (LRU UserSession) := match NewLRUStriped 100 2 with Ok c => c | Err _ => [] end.

Definition no_sessions : session_db (list (LRU UserSession)) := SessionDB ∅ empty_cache ∅ ∅.

(** One student has an account, nobody a session. *)
Definition before : sess_world Z (list (LRU UserSession)) := SessWorld seen no_sessions.

(** A session that does not expire. *)
Definition wanted (user csrf : string) : UserSession :=
  GenerateCSRF csrf (MkSession "" "" 0 0 0 user "" "system_user" false false ∅ false).

Definition started : res lmsError UserSession * sess_world Z (list (LRU UserSession)) :=
  CreateSession (wanted an_id "secret") before.

Definition the_session : UserSession := match started.1 with Ok s => s | Err _ => empty_session end.
Definition the_token : string := Sess_Token the_session.
End SignedIn.
