(* ===== verification/WebAuth.v ===== *)
(** * Who sends a request (channels/web/handlers.go, context.go, api4/handlers.go,
      app/authentication.go, api4/user.go)

    A request of the web: the token it carries, the session of the token, the
    protection against forged requests, the checks in front of a handler, and
    the handlers that start and end sessions.  [serve_lms] puts the REST API of
    the learning system behind them.

    The settings are the class [WebConfig], with the limiter of requests and
    the check of a remote cluster's token; the permission ids of the platform
    are strings as in [LmsRoles].  Headers, cookies and audit records of an
    answer, compression and the limits on the size of a body are left out. *)

From stdpp Require Import strings.
From S2P Require Import Prelude.
From S2P Require Import GoString.
From S2P Require Import GoUtf8.
From S2P Require Import GoRunes.
From S2P Require Import LmsModel.
From S2P Require Import Hashers.
From S2P Require Import PlatUser.
From S2P Require Import CallStore.
From S2P Require Import LmsStore.
From S2P Require Import LmsTables.
From S2P Require Import LmsApp.
From S2P Require Import LmsColumns.
From S2P Require Import LmsQuery.
From S2P Require Import LmsContent.
From S2P Require Import LmsSchedule.
From S2P Require Import LmsTuition.
From S2P Require Import LmsClass.
From S2P Require Import LmsRoutes.
From S2P Require Import LmsChat.
From S2P Require Import LmsRoles.
From S2P Require Import UserStore.
From S2P Require Import LmsUsers.
From S2P Require Import LmsPublic.
From S2P Require Import LmsDashboard.
From S2P Require Import Login.
From S2P Require Import CreateUser.
From S2P Require Import LmsApi.
From S2P Require Import LruStriped.
From S2P Require Import Sessions.
From S2P Require Import SessionService.

Local Open Scope string_scope.
Local Open Scope go_scope.

(** ** The token of a request *)

(** What is read of a request: no header is the empty string. *)
Record http_request := HttpRequest {
  req_Method : string;
  req_RequestURI : string;
  req_Path : string;
  req_Authorization : string;
  (** the cookie MMAUTHTOKEN *)
  req_Cookie : option string;
  (** the query parameter access_token *)
  req_access_token : string;
  req_CloudToken : string;
  req_RemoteclusterToken : string;
  req_RemoteclusterId : string;
  req_CsrfToken : string;
  req_RequestedWith : string;
  req_UserAgent : string;
}.

Definition HeaderBearer : string := "BEARER".
Definition HeaderToken : string := "token".
Definition HeaderRequestedWithXML : string := "XMLHttpRequest".

Inductive TokenLocation :=
  | TokenLocationNotFound
  | TokenLocationHeader
  | TokenLocationCookie
  | TokenLocationQueryString
  | TokenLocationCloudHeader
  | TokenLocationRemoteClusterHeader.
#[export] Instance TokenLocation_dec : EqDecision TokenLocation.
Proof. solve_decision. Defined.

(** [s[n:]] and [s[:n]]; [None] is the panic of an index out of range. *)
Definition slice_from (n : nat) (s : string) : option string :=
  if (n <=? String.length s)%nat then Some (String.substring n (String.length s - n) s) else None.
Definition slice_to (n : nat) (s : string) : option string :=
  if (n <=? String.length s)%nat then Some (String.substring 0 n s) else None.

Definition upper_char (c : Ascii.ascii) : Ascii.ascii := if is_lower c then chr (ord c - 32) else c.
(** strings.ToUpper where the result is compared with an ASCII word that no
    rune above ASCII is the lower case of. *)
Fixpoint ToUpperASCII (s : string) : string :=
  match s with EmptyString => "" | String x s' => String (upper_char x) (ToUpperASCII s') end.

(** Tokens of large sizes are cut. *)
Definition strip_token (r : string * TokenLocation) : option (string * TokenLocation) :=
  let '(token, loc) := r in
  if (50 <? String.length token)%nat then option_map (λ t, (t, loc)) (slice_to 50 token) else Some r.

Definition other_token (r : http_request) : string * TokenLocation :=
  if negb (String.eqb (req_access_token r) "") then (req_access_token r, TokenLocationQueryString)
  else if negb (String.eqb (req_CloudToken r) "") then (req_CloudToken r, TokenLocationCloudHeader)
  else if negb (String.eqb (req_RemoteclusterToken r) "") then (req_RemoteclusterToken r, TokenLocationRemoteClusterHeader)
  else ("", TokenLocationNotFound).

(** The header starts with the word [h], compared in the case [fold]. *)
Definition header_is (fold : string → string) (h authHeader : string) : option bool :=
  if (String.length h <? String.length authHeader)%nat
  then option_map (λ p, String.eqb (fold p) h) (slice_to (String.length h) authHeader)
  else Some false.

Definition ParseAuthTokenFromRequest (r : http_request) : option (string * TokenLocation) :=
  let authHeader := req_Authorization r in
  found ← match req_Cookie r with
          | Some v => Some (v, TokenLocationCookie)
          | None =>
              bearer ← header_is ToUpperASCII HeaderBearer authHeader;
              if bearer : bool then t ← slice_from 7 authHeader; Some (t, TokenLocationHeader)
              else
              oauth ← header_is ToLowerASCII HeaderToken authHeader;
              if oauth : bool then t ← slice_from 6 authHeader; Some (t, TokenLocationHeader)
              else Some (other_token r)
          end;
  strip_token found.

(** ** Settings *)

Class WebConfig := {
  MaximumURLLength : nat;
  ExperimentalStrictCSRFEnforcement : bool;
  EnforceMultifactorAuthentication : bool;
  GuestEnforceMultifactorAuthentication : bool;
  EnableGuestMagicLink : bool;
  GuestAccountsEnable : bool;
  (** one of the single sign-on services is on *)
  sso_enabled : bool;
  (** the path a user without a second factor may read *)
  users_me_path : string;
  (** the limiter, when it counts by user, has had enough of the user *)
  rate_limited : nat → string → bool;
  (** the error of a remote cluster's token, if it is not the right one *)
  remote_cluster_error : string → string → option lmsError;
}.

Definition PermissionManageSystem : string := "manage_system".
Definition PermissionEditOtherUsers : string := "edit_other_users".
Definition UserAuthServiceEmail : string := "email".
Definition UserAuthServiceMagicLink : string := "magic_link".

Record Handler := { RequireSession : bool; RequireMfa : bool; TrustRequester : bool }.
Definition APIHandler : Handler := {| RequireSession := false; RequireMfa := false; TrustRequester := false |}.
Definition APIHandlerTrustRequester : Handler :=
  {| RequireSession := false; RequireMfa := false; TrustRequester := true |}.
Definition APISessionRequired : Handler := {| RequireSession := true; RequireMfa := true; TrustRequester := false |}.

(** strings.Contains *)
Definition Contains (s sub : string) : bool := bool_decide (is_Some (String.index 0 sub s)).

Definition mobileKeywords : list string := ["Mobile"; "Android"; "iOS"; "iPhone"; "iPad"].
Definition IsMobileRequest (r : http_request) : bool :=
  if String.eqb (req_UserAgent r) "" then false else existsb (Contains (req_UserAgent r)) mobileKeywords.

Definition IsMagicLinkEnabled (u : User) : bool :=
  String.eqb (User_AuthService u) UserAuthServiceMagicLink && IsGuest u.
Definition IsSystemAdmin (u : User) : bool := IsInRole (User_Roles u) SystemAdminRoleId.

(** ** The world of a request *)

Section web.
Context `{UnicodeTables} `{UnicodeLower} `{UserLib} `{Crypto} `{Decimal D} `{LmsEnv} `{GoRange}.
Context `{UsersEnv} `{JsonProps J} `{UserConfig} `{QmHelper} `{Collation} `{FileStore} `{ServerZone} `{DbZone}.
Context `{ChatPlatform P} `{Platform} `{Engines D} `{LoginConfig} `{Otp}.
Context `{Cache UserSession C} `{SessionConfig} `{LoginEnv} `{WebConfig}.
Context (teacherDisplayName : string → string).

Record web_world := WebWorld { ww_api : api_world D P; ww_sessions : session_db C }.
Abbreviation WM := (M web_world lmsError).

Definition sess_of (w : web_world) : sess_world D C := SessWorld (aw_users (ww_api w)) (ww_sessions w).
Definition with_sess (w : web_world) (s : sess_world D C) : web_world :=
  WebWorld (ApiWorld (sw_users s) (aw_chat (ww_api w)) (aw_roles (ww_api w))) (sw_sessions s).

(** A computation on the sessions, one on the users and one on the API. *)
Definition onS {E A} (m : M (sess_world D C) E A) : M web_world E A := λ w,
  let '(r, s) := m (sess_of w) in (r, with_sess w s).
Definition onA {E A} (m : M (api_world D P) E A) : M web_world E A := λ w,
  let '(r, a) := m (ww_api w) in (r, WebWorld a (ww_sessions w)).

Definition web_ticks (w : web_world) : nat := ticks_of (sess_of w).

(** ** Before a handler *)

(** What is known of the sender: the session of the context, the session the
    token was found to have, the error so far. *)
Record sender := Sender { ctx_session : UserSession; found_session : option UserSession; sender_err : option lmsError }.

Definition expired_error : lmsError := LmsError "api.context.session_expired.app_error" 401 None.
Definition no_sender : sender := Sender empty_session None None.

Definition open_session (h : Handler) (token : string) (loc : TokenLocation) : WM sender :=
  r <- attempt (onS (app_GetSession token)) ;;
  m_ret (match r with
         | Err e =>
             if le_status e =? 500 then Sender empty_session None (Some e)
             else if RequireSession h then Sender empty_session None (Some expired_error)
             else no_sender
         | Ok s =>
             if negb (Sess_IsOAuth s) && bool_decide (loc = TokenLocationQueryString)
             then Sender empty_session (Some s) (Some (LmsError "api.context.token_provided.app_error" 401 None))
             else Sender s (Some s) None
         end)%Z.

(** Whether the check was needed and whether it was passed. *)
Definition checkCSRFToken (h : Handler) (r : http_request) (loc : TokenLocation) (c : sender) : bool * bool :=
  match found_session c with
  | None => (false, false)
  | Some session =>
      let needed := negb (bool_decide (is_Some (sender_err c))) && bool_decide (loc = TokenLocationCookie) &&
                    negb (TrustRequester h) && negb (String.eqb (req_Method r) "GET") in
      (needed,
       needed && (String.eqb (req_CsrfToken r) (GetCSRF session) ||
                  (String.eqb (req_RequestedWith r) HeaderRequestedWithXML && negb ExperimentalStrictCSRFEnforcement)))
  end.

Definition is_rate_limited (userId : string) : WM bool := m_gets (λ w, rate_limited (web_ticks w) userId).

(** The limiter writes its own answer. *)
Definition too_many_requests : lmsError := LmsError "limit exceeded" 429 None.

Definition token_sender (h : Handler) (r : http_request) (token : string) (loc : TokenLocation) : WM sender :=
  c <- open_session h token loc ;;
  limited <- is_rate_limited (Sess_UserId (ctx_session c)) ;;
  if limited : bool then m_throw too_many_requests
  else
  let '(checked, passed) := checkCSRFToken h r loc c in
  m_ret (if checked && negb passed then Sender empty_session (found_session c) (Some expired_error) else c).

(** The session of a remote cluster has no user. *)
Definition cluster_sender (r : http_request) (token : string) : sender :=
  if String.eqb (req_RemoteclusterId r) "" then Sender empty_session None (Some (LmsError "api.context.remote_id_missing.app_error" 401 None))
  else match remote_cluster_error token (req_RemoteclusterId r) with
       | Some e => Sender empty_session None (Some e)
       | None => Sender (AddProp SessionPropType "RemoteClusterToken" (Sess_with_Token token empty_session)) None None
       end.

Definition find_sender (h : Handler) (r : http_request) (token : string) (loc : TokenLocation) : WM sender :=
  if String.eqb token "" then m_ret no_sender
  else match loc with
       | TokenLocationCloudHeader => m_ret no_sender
       | TokenLocationRemoteClusterHeader => m_ret (cluster_sender r token)
       | _ => token_sender h r token loc
       end.

Definition SessionRequired (s : UserSession) : option lmsError :=
  if negb EnableUserAccessTokens && IsUserAccessToken s && negb (IsBotUser s) then Some expired_error
  else if String.eqb (Sess_UserId s) "" then Some expired_error
  else None.

Definition MFARequired (path : string) (s : UserSession) : WM unit :=
  if negb EnableMultifactorAuthentication || negb EnforceMultifactorAuthentication then m_ret tt
  else if String.eqb (Sess_Id s) "" then m_throw (LmsError "api.context.get_session.app_error" 401 None)
  else if Sess_IsOAuth s then m_ret tt
  else
  user <- map_err (λ e, LmsError "api.context.get_user.app_error" 500 (le_cause e)) (onS (app_GetUser (Sess_UserId s))) ;;
  if IsGuest user && negb GuestEnforceMultifactorAuthentication then m_ret tt
  else if bool_decide (User_AuthService user ∉ [""; UserAuthServiceEmail; UserAuthServiceLdap]) then m_ret tt
  else if String.eqb path users_me_path then m_ret tt
  else if User_IsBot user then m_ret tt
  else if negb (User_MfaActive user) then m_throw (LmsError "api.context.mfa_required.app_error" 403 None)
  else m_ret tt.

Definition throw_some (e : option lmsError) : WM unit :=
  match e with Some e => m_throw e | None => m_ret tt end.

(** Everything in front of the handler: the session it works with. *)
Definition admit_request (h : Handler) (r : http_request) : WM UserSession :=
  if (MaximumURLLength <? String.length (req_RequestURI r))%nat
  then m_throw (LmsError "basic_security_check.url.too_long_error" 414 None)
  else match ParseAuthTokenFromRequest r with
       | None => m_throw (LmsError "panic" 500 None)
       | Some (token, loc) =>
           c <- find_sender h r token loc ;;
           throw_some (sender_err c) ;;;
           (if RequireSession h then throw_some (SessionRequired (ctx_session c)) else m_ret tt) ;;;
           (if RequireMfa h then MFARequired (req_Path r) (ctx_session c) else m_ret tt) ;;;
           m_ret (ctx_session c)
       end.

Definition ServeHTTP {A} (h : Handler) (r : http_request) (HandleFunc : UserSession → WM A) : WM A :=
  s <- admit_request h r ;; HandleFunc s.

(** ** The learning system *)

Definition handler_of {A} (q : request D J A) : Handler := if is_public q then APIHandler else APISessionRequired.

Definition serve_lms {A} (r : http_request) (q : request D J A) : WM (Z * A) :=
  ServeHTTP (handler_of q) r (λ s, onA (handle teacherDisplayName (view_session s) q)).

(** ** Starting and ending sessions *)

Definition unmaskedErrors : list string :=
  ["mfa.validate_token.authenticate.app_error"; "api.user.check_user_mfa.bad_code.app_error";
   "api.user.login.blank_pwd.app_error"; "api.user.login.bot_login_forbidden.app_error";
   "api.user.login.remote_users.login.error"; "api.user.login.client_side_cert.certificate.app_error";
   "api.user.login.inactive.app_error"; "api.user.login.not_verified.app_error";
   "api.user.check_user_login_attempts.too_many.app_error"; "app.team.join_user_to_team.max_accounts.app_error";
   "store.sql_user.save.max_accounts.app_error"; "api.user.check_user_login_attempts.too_many_ldap.app_error"].

(** Every other error of a login is replaced by one. *)
Definition mask_login_error (e : lmsError) : lmsError :=
  if decide (le_id e ∈ unmaskedErrors) then e
  else LmsError (if sso_enabled then "api.user.login.invalid_credentials_sso"
                 else if EnableSignInWithUsername && negb EnableSignInWithEmail
                 then "api.user.login.invalid_credentials_username"
                 else if negb EnableSignInWithUsername && EnableSignInWithEmail
                 then "api.user.login.invalid_credentials_email"
                 else "api.user.login.invalid_credentials_email_username") 401 None.

Definition login_allowed (user : User) : option lmsError :=
  if IsMagicLinkEnabled user && negb EnableGuestMagicLink
  then Some (LmsError "api.user.login.guest_magic_link.disabled.error" 401 None)
  else if IsGuest user && negb GuestAccountsEnable
  then Some (LmsError "api.user.login.guest_accounts.disabled.error" 401 None)
  else if IsRemote user then Some (LmsError "api.user.login.remote_users.login.error" 401 None)
  else None.

(** What a login sends. *)
Record credentials := Credentials {
  cred_id : string; cred_login_id : string; cred_password : string; cred_token : string; cred_device_id : string;
}.

(** The login with a password, once there are accounts, up to the session; the
    terms of service that are read for the answer are left out. *)
Definition login (r : http_request) (c : credentials) : WM UserSession :=
  map_err mask_login_error (
    user <- onS (lift_users (AuthenticateUserForLogin (cred_id c) (cred_login_id c) (cred_password c) (cred_token c))) ;;
    throw_some (login_allowed user) ;;;
    onS (DoLogin user (req_UserAgent r) (cred_device_id c) (IsMobileRequest r) false false)).

Definition Logout (s : UserSession) : WM unit :=
  if String.eqb (Sess_Id s) "" then m_ret tt else onS (RevokeSessionById (Sess_Id s)).

Definition session_may (s : UserSession) (permission : string) : WM bool := onA (has_permission (view_session s) permission).

Definition SessionHasPermissionToUser (s : UserSession) (userID : string) : WM bool :=
  if String.eqb userID "" then m_ret false
  else if IsUnrestricted s then m_ret true
  else
  admin <- session_may s PermissionManageSystem ;;
  if admin : bool then m_ret true
  else if String.eqb (Sess_UserId s) userID then m_ret true
  else
  edit <- session_may s PermissionEditOtherUsers ;;
  if negb edit then m_ret false
  else
  user <- attempt (onS (app_GetUser userID)) ;;
  m_ret (match user with Ok user => negb (IsSystemAdmin user) | Err _ => false end).

Definition permission_error : lmsError := LmsError "api.context.permissions.app_error" 403 None.
Definition invalid_url_param : lmsError := LmsError "api.context.invalid_url_param.app_error" 400 None.
Definition invalid_body_param : lmsError := LmsError "api.context.invalid_body_param.app_error" 400 None.

(** The user a route names: "me" is the sender. *)
Definition RequireUserId (s : UserSession) (user_id : string) : WM string :=
  let user_id := if String.eqb user_id "me" then Sess_UserId s else user_id in
  if IsValidId user_id then m_ret user_id else m_throw invalid_url_param.

Definition require_user (s : UserSession) (user_id : string) : WM string :=
  id <- RequireUserId s user_id ;;
  may <- SessionHasPermissionToUser s id ;;
  if negb may then m_throw permission_error else m_ret id.

Definition getSessions (user_id : string) (s : UserSession) : WM (list UserSession) :=
  id <- require_user s user_id ;;
  sessions <- onS (GetSessions id) ;;
  m_ret (map Session_Sanitize sessions).

Definition revokeSession (user_id session_id : string) (s : UserSession) : WM unit :=
  id <- require_user s user_id ;;
  if String.eqb session_id "" then m_throw invalid_body_param
  else
  found <- onS (GetSessionById session_id) ;;
  if negb (String.eqb (Sess_UserId found) id) then m_throw invalid_url_param
  else onS (RevokeSession found).

Definition revokeAllSessionsForUser (user_id : string) (s : UserSession) : WM unit :=
  id <- require_user s user_id ;; onS (RevokeAllSessions id).

Definition revokeAllSessionsAllUsers (s : UserSession) : WM unit :=
  admin <- session_may s PermissionManageSystem ;;
  if negb admin then m_throw permission_error else onS app_RevokeSessionsFromAllUsers.

(** Other sessions of the device are logged out; the session gets the length
    of a mobile one. *)
Definition attachDeviceId (deviceId : string) (s : UserSession) : WM UserSession :=
  onS (RevokeSessionsForDeviceId (Sess_UserId s) deviceId (Sess_Id s)) ;;;
  onS (ClearSessionCacheForUser (Sess_UserId s)) ;;;
  s <- onS (SetSessionExpireInHours s SessionLengthMobileInHours) ;;
  onS (AttachDeviceId (Sess_Id s) deviceId (Sess_ExpiresAt s)) ;;; m_ret s.
End web.
