(* ===== verification/SessionTypes.v ===== *)
(** * The rows of the session table are well formed

    Every statement of the store on sessions and access tokens as a step of the
    table of sessions, in any order, failing or not, and what all reachable
    tables have in common. *)

From stdpp Require Import strings.
From S2P Require Import Prelude.
From S2P Require Import GoString.
From S2P Require Import GoUtf8.
From S2P Require Import GoRunes.
From S2P Require Import LmsModel.
From S2P Require Import CallStore.
From S2P Require Import PlatUser.
From S2P Require Import Sessions.

Local Open Scope string_scope.

Section typed.
Context `{UnicodeTables} `{GoRange}.
Implicit Types (rows : session_rows) (tokens : token_rows) (s : UserSession).

(** One statement; the tables of tokens and the oracles are the ones of the
    moment. *)
Inductive session_step rows : session_rows → Prop :=
  | step_Save b1 b2 id token now s : session_step rows (SessionStore_Save b1 b2 id token now rows s).2
  | step_Remove b idOrToken : session_step rows (SessionStore_Remove b rows idOrToken).2
  | step_RemoveAllSessions b : session_step rows (SessionStore_RemoveAllSessions b rows).2
  | step_PermanentDelete b u : session_step rows (SessionStore_PermanentDeleteSessionsByUser b rows u).2
  | step_UpdateExpiredNotify b id v : session_step rows (SessionStore_UpdateExpiredNotify b rows id v).2
  | step_UpdateExpiresAt b id t : session_step rows (SessionStore_UpdateExpiresAt b rows id t).2
  | step_UpdateLastActivityAt b id t : session_step rows (SessionStore_UpdateLastActivityAt b rows id t).2
  | step_UpdateRoles b u roles : session_step rows (SessionStore_UpdateRoles b rows u roles).2
  | step_UpdateDeviceId b id device t : session_step rows (SessionStore_UpdateDeviceId b rows id device t).2
  | step_UpdateProps b s : session_step rows (SessionStore_UpdateProps b rows s).2
  | step_Cleanup expiry batch : session_step rows (cleanup_round expiry batch rows).2
  | step_TokenDelete b1 b2 b3 tokens id : session_step rows (TokenStore_Delete b1 b2 b3 tokens rows id).2
  | step_TokenDeleteAll b1 b2 b3 tokens u : session_step rows (TokenStore_DeleteAllForUser b1 b2 b3 tokens rows u).2
  | step_TokenDisable b1 b2 b3 tokens id : session_step rows (TokenStore_UpdateTokenDisable b1 b2 b3 tokens rows id).2.

(** A row as the validation and the columns want it. *)
Definition well_formed s : Prop := Session_IsValid s = None ∧ session_fits s = true ∧ Sess_Local s = false.
Definition typed rows : Prop := ∀ k s, rows !! k = Some s → Sess_Id s = k ∧ well_formed s.

Lemma typed_subset rows rows' : rows' ⊆ rows → typed rows → typed rows'.
Proof. intros Hsub Ht k s Hs. by apply Ht; eapply lookup_weaken. Qed.

Lemma typed_deleted P rows : typed rows → typed (delete_sessions P rows).
Proof. apply typed_subset, map_filter_subseteq. Qed.

(** An update of fields that the validation does not look at, or of a value
    that was looked at before. *)
Lemma typed_updated P f rows :
  (∀ k s, rows !! k = Some s → P s = true → well_formed s → Sess_Id (f s) = Sess_Id s ∧ well_formed (f s)) →
  typed rows → typed (update_sessions P f rows).
Proof.
  intros Hf Ht k s. unfold update_sessions. rewrite lookup_fmap. intros (s0 & Hs0 & ->)%fmap_Some.
  destruct (Ht _ _ Hs0) as [Hid Hwf]. destruct (P s0) eqn:Hp; [|done].
  destruct (Hf _ _ Hs0 Hp Hwf) as [Hid' Hwf']. split; [congruence|done].
Qed.

Lemma valid_roles roles s :
  (UserRolesMaxLength <? String.length roles)%nat = false →
  Session_IsValid s = None → Session_IsValid (Sess_with_Roles roles s) = None.
Proof.
  intros Hlen. unfold Session_IsValid. cbn [Sess_with_Roles Sess_Id Sess_UserId Sess_CreateAt Sess_Roles]. rewrite Hlen.
  destruct (negb (IsValidId (Sess_Id s))); [done|]. destruct (negb (IsValidId (Sess_UserId s))); [done|].
  by destruct (Sess_CreateAt s =? 0)%Z.
Qed.

Lemma well_formed_roles roles s :
  (UserRolesMaxLength <? String.length roles)%nat = false → well_formed s → well_formed (Sess_with_Roles roles s).
Proof.
  intros Hlen (Hv & Hfit & Hl). split; [by apply valid_roles|split; [|exact Hl]]. revert Hfit. unfold session_fits.
  cbn [Sess_with_Roles Sess_Token Sess_DeviceId Sess_Roles]. rewrite !andb_true_iff, !Nat.leb_le.
  apply Nat.ltb_ge in Hlen. pose proof (rune_count_le_length roles). unfold UserRolesMaxLength in Hlen. lia.
Qed.

Lemma well_formed_device d t s :
  (512 <? rune_count d)%nat = false → well_formed s →
  well_formed (Sess_with_ExpiredNotify false (Sess_with_ExpiresAt t (Sess_with_DeviceId d s))).
Proof.
  intros Hlen (Hv & Hfit & Hl). split; [exact Hv|split; [|exact Hl]]. revert Hfit. unfold session_fits.
  cbn [Sess_with_ExpiredNotify Sess_with_ExpiresAt Sess_with_DeviceId Sess_Token Sess_DeviceId Sess_Roles].
  apply Nat.ltb_ge in Hlen. rewrite !andb_true_iff, !Nat.leb_le. tauto.
Qed.

Lemma step_typed rows rows' : session_step rows rows' → typed rows → typed rows'.
Proof.
  intros Hstep Ht. destruct Hstep; unfold SessionStore_Remove, SessionStore_RemoveAllSessions,
    SessionStore_PermanentDeleteSessionsByUser, SessionStore_UpdateExpiredNotify, SessionStore_UpdateExpiresAt,
    SessionStore_UpdateLastActivityAt, SessionStore_UpdateRoles, SessionStore_UpdateDeviceId, SessionStore_UpdateProps,
    cleanup_round, TokenStore_Delete, TokenStore_DeleteAllForUser, TokenStore_UpdateTokenDisable, delete_sessions_of;
    cbn zeta; repeat case_match; try done; cbn [snd];
    try (by apply typed_deleted); try (by apply typed_updated; [|done]).
  - unfold SessionStore_Save. destruct (negb _); [done|]. set (s' := Session_PreSave _ _ _ s).
    destruct (Session_IsValid s') eqn:Hv; [done|]. destruct (_ || _) eqn:Hno; [done|].
    apply orb_false_iff in Hno as [_ Hfit%negb_false_iff].
    assert (typed (<[Sess_Id s' := stored_session s']> rows)) as Hins.
    { intros k x [[<- <-]|[_ Hk]]%lookup_insert_Some; [by split|by apply Ht]. }
    by destruct b2.
  - apply typed_updated; [|done]. intros k s Hs _ Hwf. split; [done|]. by apply well_formed_roles.
  - apply typed_updated; [|done]. intros k s Hs Hid%String.eqb_eq Hwf. split; [done|]. apply well_formed_device; [|done].
    destruct (Ht _ _ Hs) as [Hk _]. assert (rows !! id = Some s) as Hrow by congruence.
    rewrite bool_decide_true in * by (rewrite Hrow; eauto).
    repeat match goal with
           | Hb : _ || _ = false |- _ => apply orb_false_iff in Hb as [_ Hb]
           | Hb : _ && true = false |- _ => by rewrite andb_true_r in Hb
           end.
Qed.

(** C21: Every row of the session table is well formed, after any statements in
    any order: it is filed under its id, passes the validation of the model,
    and its token, device and roles fit their columns.  The updates keep it
    so although only the roles and the device are looked at. *)
Theorem session_rows_typed rows : rtc session_step ∅ rows → typed rows.
Proof.
  intros Hr. assert (typed ∅) as Ht by (by intros k s Hs). revert Ht.
  induction Hr as [|rows rows1 rows2 Hstep _ IH]; intros Ht; [done|]. by eapply IH, step_typed.
Qed.
End typed.

Section witnesses.
#[local] Instance ascii_only : UnicodeTables := λ _, false.

Definition an_id26 : string := "abcdefghijklmnopqrstuvwxyz".
Definition opened : UserSession := MkSession "" "" 0 0 0 an_id26 "" "system_user" false false ∅ true.
Definition saved_rows : session_rows := (SessionStore_Save false false an_id26 "token" 1 ∅ opened).2.
Definition promoted_rows : session_rows := (SessionStore_UpdateRoles false saved_rows an_id26 "system_admin").2.

Lemma session_rows_typed_witness :
  (Sess_Roles <$> promoted_rows !! an_id26) = Some "system_admin" ∧ typed promoted_rows.
Proof.
  split; [vm_compute; reflexivity|]. apply session_rows_typed.
  apply rtc_l with saved_rows; [constructor|]. apply rtc_l with promoted_rows; [constructor|]. apply rtc_refl.
Defined.
End witnesses.
