(* ===== verification/SessionProps.v ===== *)
(** * Properties of sessions

    What keeps a table and a cache of sessions apart from a user, what a
    revocation achieves and where it fails, how many sessions a user has, and
    the end of the cleanup.  Everything about the cache is proved from
    [CacheOk]. *)

From stdpp Require Import strings sorting.
From S2P Require Import Prelude.
From S2P Require Import GoString.
From S2P Require Import GoUtf8.
From S2P Require Import GoRunes.
From S2P Require Import LmsModel.
From S2P Require Import Hashers.
From S2P Require Import PlatUser.
From S2P Require Import CallStore.
From S2P Require Import LmsStore.
From S2P Require Import LmsTables.
From S2P Require Import LmsApp.
From S2P Require Import LmsRoles.
From S2P Require Import UserStore.
From S2P Require Import LmsUsers.
From S2P Require Import LmsUsersInv.
From S2P Require Import Login.
From S2P Require Import CreateUser.
From S2P Require Import LruStriped.
From S2P Require Import Sessions.
From S2P Require Import SessionService.
From S2P Require Import LmsUsersDemo.
From S2P Require Import Lru.
From S2P Require Import SessionDemo.

Local Open Scope string_scope.
Local Open Scope go_scope.

(** ** Triples *)

(** The invariant is kept, whatever is returned, and a result is in [Q]. *)
Definition ensures {S E A} (Inv : S → Prop) (m : M S E A) (Q : A → Prop) : Prop :=
  ∀ s, Inv s → Inv (m s).2 ∧ ∀ a, (m s).1 = Ok a → Q a.

Section triples.
Context {S : Type} (Inv : S → Prop).

Lemma ensures_ret {E A} (a : A) (Q : A → Prop) : Q a → ensures (E := E) Inv (m_ret a) Q.
Proof. intros Hq s Hs. split; [done|]. by intros ? [= <-]. Qed.

Lemma ensures_throw {E A} (e : E) (Q : A → Prop) : ensures Inv (m_throw e) Q.
Proof. intros s Hs. by split. Qed.

Lemma ensures_bind {E A B} (m : M S E A) (k : A → M S E B) Q R :
  ensures Inv m Q → (∀ a, Q a → ensures Inv (k a) R) → ensures Inv (m_bind m k) R.
Proof.
  intros Hm Hk s Hs. destruct (Hm s Hs) as [Hi Hq]. unfold m_bind. destruct (m s) as [[a|e] s']; [|by split].
  by apply Hk; [apply Hq|].
Qed.

Lemma ensures_attempt {E E' A} (m : M S E A) (Q : A → Prop) :
  ensures Inv m Q → ensures (E := E') Inv (attempt m) (λ r, match r with Ok a => Q a | Err _ => True end).
Proof.
  intros Hm s Hs. destruct (Hm s Hs) as [Hi Hq]. unfold attempt. destruct (m s) as [r s']. split; [done|].
  intros r' [= <-]. destruct r as [a|e]; [by apply Hq|done].
Qed.

Lemma ensures_map_err {E E' A} (f : E → E') (m : M S E A) Q : ensures Inv m Q → ensures Inv (map_err f m) Q.
Proof.
  intros Hm s Hs. destruct (Hm s Hs) as [Hi Hq]. unfold map_err.
  destruct (m s) as [[a|e] s']; split; try done. intros a' [= <-]. by apply Hq.
Qed.

Lemma ensures_for {E A} (l : list A) (body : A → M S E unit) :
  (∀ x, x ∈ l → ensures Inv (body x) (λ _, True)) → ensures Inv (m_for l body) (λ _, True).
Proof.
  induction l as [|x l IH]; intros Hb; [apply ensures_ret; exact I|]. eapply ensures_bind; [apply Hb; left|].
  intros _ _. apply IH. intros y Hy. apply Hb. by right.
Qed.

Lemma run_ensures {E A} (m : M S E A) (Q : A → Prop) s r s' :
  m s = (r, s') → ensures Inv m Q → Inv s → Inv s'.
Proof. intros Hrun Hm Hs. destruct (Hm s Hs) as [Hi _]. by rewrite Hrun in Hi. Qed.

Lemma ensures_weaken {E A} (m : M S E A) (Q R : A → Prop) : ensures Inv m Q → (∀ a, Q a → R a) → ensures Inv m R.
Proof. intros Hm Hqr s Hs. destruct (Hm s Hs) as [Hi Hq]. split; [done|]. intros a Ha. by apply Hqr, Hq. Qed.
End triples.

Create HintDb ens.
#[export] Hint Resolve ensures_ret ensures_throw ensures_attempt ensures_map_err : ens.

(** Follow the code; the hints know the operations. *)
Ltac ens_step :=
  match goal with
  | |- ensures _ (m_bind _ _) _ =>
      first [eapply ensures_bind; [solve [eauto with ens]|intros ? ?]
            |eapply ensures_bind with (Q := λ _, True); [|intros ? ?]]
  | |- ensures _ (m_ret _) _ => apply ensures_ret
  | |- ensures _ (m_throw _) _ => apply ensures_throw
  | |- ensures _ (map_err _ _) _ => eapply ensures_map_err
  | |- ensures _ (attempt _) _ => eapply ensures_attempt
  | |- ensures _ (if ?b then _ else _) _ => destruct b eqn:?
  | |- ensures _ (match ?x with _ => _ end) _ => destruct x eqn:?
  | |- ensures _ _ _ => solve [eauto with ens]
  end.
Ltac ens_tac := repeat ens_step; try done.

(** *** What an effect is *)

Section effects.
Context `{Decimal D} `{LmsEnv} {C : Type}.
Implicit Types (w : sess_world D C).

Lemma on_sessions_run {E A} (f : nat → session_db C → A * session_db C) w :
  on_sessions (E := E) f w =
    (Ok (f (ticks_of w) (sw_sessions w)).1,
     SessWorld (tick_users (sw_users w)) (f (ticks_of w) (sw_sessions w)).2).
Proof. unfold on_sessions. by destruct (f _ _). Qed.

Lemma statement_run {E A} (f : nat → session_db C → res E A * session_db C) w :
  throw_res (on_sessions f) w =
    ((f (ticks_of w) (sw_sessions w)).1,
     SessWorld (tick_users (sw_users w)) (f (ticks_of w) (sw_sessions w)).2).
Proof. unfold throw_res, m_bind. rewrite on_sessions_run. by destruct (f _ _) as [[a|e] d]. Qed.

Lemma map_err_Ok {S E E' A} (f : E → E') (m : M S E A) (s : S) a s' : map_err f m s = (Ok a, s') → m s = (Ok a, s').
Proof. unfold map_err. destruct (m s) as [[]]; by intros [= -> ->]. Qed.
End effects.

Section props.
Context `{UnicodeTables} `{UnicodeLower} `{UserLib} `{Crypto} `{Decimal D} `{LmsEnv} `{GoRange}.
Context `{UsersEnv} `{CacheOk UserSession C} `{SessionConfig} `{LoginEnv}.

Abbreviation SW := (sess_world D C).

(** ** Whose sessions there are *)

(** The tables are filed under their ids, and every session and every token,
    the cached ones included, belongs to a user that [P] is true of. *)
Record only (P : string → Prop) (d : session_db C) : Prop := {
  on_cache_ok : cache_ok (sd_cache d);
  on_keyed : ∀ k s, sd_rows d !! k = Some s → Sess_Id s = k;
  on_tokens_keyed : ∀ k t, sd_tokens d !! k = Some t → Tok_Id t = k;
  on_stored : ∀ k s, sd_rows d !! k = Some s → P (Sess_UserId s);
  on_held : ∀ k s, cache_holds (sd_cache d) k s → P (Sess_UserId s);
  on_issued : ∀ k t, sd_tokens d !! k = Some t → P (Tok_UserId t);
}.

Definition only_of (P : string → Prop) (w : SW) : Prop := user_db_ok (sw_users w) ∧ only P (sw_sessions w).

(** Nothing is known of the users; nobody's sessions are of [u]. *)
Abbreviation sound := (only_of (λ _, True)).
Definition signed_out (u : string) : SW → Prop := only_of (λ v, v ≠ u).

(** *** Clearing a user's sessions from the cache *)

Lemma cached_sessions_spec now keys (c : C) : cache_ok c →
  let '(l, c') := cached_sessions now keys c in
  cache_ok c' ∧ (∀ k s, cache_holds c' k s → cache_holds c k s) ∧
  (∀ k s, k ∈ keys → cache_holds c' k s → (k, s) ∈ l).
Proof.
  revert c. induction keys as [|k0 ks IH]; intros c Hc; cbn [cached_sessions];
    [split; [done|split; [done|]]; by intros k s ?%elem_of_nil|].
  destruct (cache_Get now k0 c) as [r c1] eqn:Hget.
  assert (cache_ok c1) as Hc1 by (pose proof (Get_ok now k0 c Hc) as Hok; by rewrite Hget in Hok).
  assert (∀ k s, cache_holds c1 k s → cache_holds c k s) as Hsub.
  { intros k s Hh. apply (Get_frame now k0 c k s Hc). by rewrite Hget. }
  specialize (IH c1 Hc1). destruct (cached_sessions now ks c1) as [l c2]. destruct IH as (Hc2 & Hsub2 & Hin2).
  split; [done|split; [by eauto|]]. intros k s Hk Hh. destruct (decide (k ∈ ks)) as [Hks|Hks].
  - specialize (Hin2 k s Hks Hh). destruct r; [by right|done].
  - assert (k = k0) as -> by set_solver. apply Hsub2 in Hh as Hh1. destruct r as [v|].
    + apply Hsub in Hh1 as Hh0. apply Get_holds in Hget as Hv; [|done].
      rewrite (holds_one c k0 s v Hc Hh0 Hv). left.
    + by apply (Get_miss now k0 c c1 s Hc Hget) in Hh1.
Qed.

(** What the clearing of a user's sessions leaves in the cache. *)
Lemma cleared_cache now u (c : C) : cache_ok c →
  let '(found, c1) := cached_sessions now (mjoin (cache_Scan c)) c in
  let c2 := cache_RemoveMulti (filter (λ e : string * UserSession, Sess_UserId e.2 = u) found).*1 c1 in
  cache_ok c2 ∧ ∀ k s, cache_holds c2 k s → Sess_UserId s ≠ u ∧ cache_holds c k s.
Proof.
  intros Hc. pose proof (cached_sessions_spec now (mjoin (cache_Scan c)) c Hc) as Hs.
  destruct (cached_sessions _ _ c) as [l c1]. destruct Hs as (Hc1 & Hsub & Hin).
  cbn zeta. split; [by apply Remove_ok|]. intros k s [Hni Hh]%Remove_holds; [|done]. split; [|by apply Hsub].
  intros Hu. apply Hni, list_elem_of_fmap. exists (k, s). split; [done|]. apply list_elem_of_filter. split; [done|].
  apply Hin; [|done]. by eapply Scan_holds, Hsub.
Qed.

Section of_users.
Context (P : string → Prop).
Abbreviation good s := (P (Sess_UserId s)).

Lemma users_ticked (w : users_world D) : user_db_ok w → user_db_ok (tick_users w).
Proof. by destruct w. Qed.

Lemma ens_on_sessions {E A} (f : nat → session_db C → A * session_db C) (Q : A → Prop) :
  (∀ n d, only P d → only P (f n d).2 ∧ Q (f n d).1) → ensures (E := E) (only_of P) (on_sessions f) Q.
Proof.
  intros Hf [uw d] [Hu Hd]. unfold on_sessions. cbn [sw_sessions sw_users].
  destruct (Hf (ticks_of (SessWorld uw d)) d Hd) as [Hd' Hq]. destruct (f _ d) as [r d'].
  split; [split; [by apply users_ticked|exact Hd']|]. by intros a [= <-].
Qed.

Lemma ens_throw_res {E A} (m : M SW E (res E A)) (Q : A → Prop) :
  ensures (only_of P) m (λ r, ∀ a, r = Ok a → Q a) → ensures (only_of P) (throw_res m) Q.
Proof. intros Hm. unfold throw_res. eapply ensures_bind; [exact Hm|]. intros [a|e] Hq; ens_tac. by apply Hq. Qed.

Lemma ens_lift_users {E A} (m : M (users_world D) E A) :
  preserves user_db_ok m → ensures (only_of P) (lift_users m) (λ _, True).
Proof.
  intros Hm [uw d] [Hu Hd]. specialize (Hm uw Hu). unfold lift_users. cbn. by destruct (m uw) as [r u'].
Qed.

(** *** The effects *)

Lemma only_rows rows d : only P d →
  (∀ k s, rows !! k = Some s → Sess_Id s = k ∧ good s) → only P (with_session_rows rows d).
Proof. intros [] Hr. split; try done; intros k s Hk; by apply Hr in Hk as []. Qed.

Lemma only_cache c d : only P d → cache_ok c → (∀ k s, cache_holds c k s → good s) → only P (with_cache c d).
Proof. intros [] Hc Hh. by split. Qed.

Lemma ens_on_rows {A} (f : nat → session_rows → res storeError A * session_rows) (Q : A → Prop) :
  (∀ n rows, (∀ k s, rows !! k = Some s → Sess_Id s = k ∧ good s) →
     (∀ k s, (f n rows).2 !! k = Some s → Sess_Id s = k ∧ good s) ∧ ∀ a, (f n rows).1 = Ok a → Q a) →
  ensures (only_of P) (on_rows f) Q.
Proof.
  intros Hf. apply ens_throw_res, ens_on_sessions. intros n d Hd.
  destruct (Hf n (sd_rows d)) as [Hr Hq]; [intros k s Hk; split; [by eapply on_keyed|by eapply on_stored]|].
  destruct (f n (sd_rows d)) as [r rows]. split; [by apply only_rows|exact Hq].
Qed.

Lemma ens_read_rows {A} (f : nat → session_rows → res storeError A) (Q : A → Prop) :
  (∀ n rows, (∀ k s, rows !! k = Some s → Sess_Id s = k ∧ good s) → ∀ a, f n rows = Ok a → Q a) →
  ensures (only_of P) (read_rows f) Q.
Proof.
  intros Hf. apply ens_throw_res, ens_on_sessions. intros n d Hd. split; [done|]. apply Hf.
  intros k s Hk. split; [by eapply on_keyed|by eapply on_stored].
Qed.

Lemma ens_GetMillis {E} : ensures (E := E) (only_of P) model_GetMillis (λ _, True).
Proof. apply ens_on_sessions. by intros n d Hd. Qed.

Lemma ens_NewId {E} : ensures (E := E) (only_of P) model_NewId (λ _, True).
Proof. apply ens_on_sessions. by intros n d Hd. Qed.

Lemma rows_of_where f rows s : s ∈ sessions_where f rows ↔ f s = true ∧ ∃ k, rows !! k = Some s.
Proof.
  unfold sessions_where. rewrite list_elem_of_filter, list_elem_of_fmap. split; intros [Hf Hin]; split; try done.
  - destruct Hin as ([k s'] & -> & Hin). exists k. by apply elem_of_go_range.
  - destruct Hin as [k Hk]. exists (k, s). split; [done|]. by apply elem_of_go_range.
Qed.

Lemma delete_sessions_Some f rows k s : delete_sessions f rows !! k = Some s ↔ rows !! k = Some s ∧ f s = false.
Proof. unfold delete_sessions. by rewrite map_lookup_filter_Some. Qed.

Lemma update_sessions_Some f g rows k s :
  update_sessions f g rows !! k = Some s → ∃ s0, rows !! k = Some s0 ∧ s = if f s0 then g s0 else s0.
Proof. unfold update_sessions. rewrite lookup_fmap. intros (s0 & Hs0 & ->)%fmap_Some. eauto. Qed.

Lemma ens_session_get t : ensures (only_of P) (session_get t) (λ s, good s).
Proof.
  apply ens_read_rows. intros n rows Hr s. unfold SessionStore_Get.
  destruct (lms_fault n); [done|]. destruct (sessions_where _ rows) as [|s0 l] eqn:Hl; [done|].
  destruct (lms_fault (S n)); [done|]. intros [= <-].
  assert (s0 ∈ sessions_where (λ s, String.eqb (Sess_Token s) t || String.eqb (Sess_Id s) t) rows) as Hin by (rewrite Hl; left).
  apply rows_of_where in Hin as (_ & k & Hk). by apply Hr in Hk as [].
Qed.

Lemma ens_session_list u :
  ensures (only_of P) (session_list u) (λ l, ∀ s, s ∈ l → good s ∧ Sess_UserId s = u).
Proof.
  apply ens_read_rows. intros n rows Hr l. unfold SessionStore_GetSessions.
  destruct (lms_fault n); [done|]. destruct (lms_fault (S n)); [done|]. intros [= <-] s Hs.
  unfold by_activity in Hs. rewrite merge_sort_Permutation in Hs.
  apply rows_of_where in Hs as (Hu%String.eqb_eq & k & Hk). apply Hr in Hk as []. done.
Qed.

Lemma ens_lru u limit offset :
  ensures (only_of P) (GetLRUSessions u limit offset) (λ l, ∀ s, s ∈ l → good s).
Proof.
  apply ensures_map_err, ens_read_rows. intros n rows Hr l. unfold SessionStore_GetLRUSessions.
  destruct (lms_fault n); [done|]. intros [= <-] s Hs. apply elem_of_take in Hs as (i & Hs & _).
  rewrite lookup_drop in Hs. apply list_elem_of_lookup_2 in Hs. unfold by_activity in Hs.
  rewrite merge_sort_Permutation in Hs. apply rows_of_where in Hs as (_ & k & Hk). by apply Hr in Hk as [].
Qed.

Lemma ens_session_remove t : ensures (only_of P) (session_remove t) (λ _, True).
Proof.
  apply ens_on_rows. intros n rows Hr. unfold SessionStore_Remove. destruct (lms_fault n); [done|]. split; [|done].
  intros k s [Hk _]%delete_sessions_Some. by apply Hr.
Qed.

Lemma ens_session_save s : good s → ensures (only_of P) (session_save s) (λ s', good s').
Proof.
  intros Hs. apply ens_on_rows. intros n rows Hr. unfold SessionStore_Save.
  destruct (negb _); [done|]. set (s' := Session_PreSave _ _ _ s). destruct (Session_IsValid s'); [done|].
  destruct (lms_fault n || _ || _); [done|].
  assert (∀ k x, <[Sess_Id s' := stored_session s']> rows !! k = Some x → Sess_Id x = k ∧ good x) as Hins.
  { intros k x [[<- <-]|[_ Hk]]%lookup_insert_Some; [by split|by apply Hr]. }
  destruct (lms_fault (S n)); [done|]. split; [exact Hins|]. by intros a [= <-].
Qed.

Lemma ens_on_cache {E A} (f : Z → C → A * C) (Q : A → Prop) :
  (∀ now c, cache_ok c → (∀ k s, cache_holds c k s → good s) →
     cache_ok (f now c).2 ∧ (∀ k s, cache_holds (f now c).2 k s → good s) ∧ Q (f now c).1) →
  ensures (E := E) (only_of P) (on_cache f) Q.
Proof.
  intros Hf. apply ens_on_sessions. intros n d Hd.
  destruct (Hf (lms_clock n) (sd_cache d) (on_cache_ok P d Hd) (on_held P d Hd)) as (Hok & Hh & Hq).
  destruct (f (lms_clock n) (sd_cache d)) as [r c]. split; [by apply only_cache|exact Hq].
Qed.

Lemma ens_AddSessionToCache {E} s : good s → ensures (E := E) (only_of P) (AddSessionToCache s) (λ _, True).
Proof.
  intros Hs. apply ens_on_cache. intros now c Hc Hh. cbn. split; [by apply Set_ok|split; [|done]].
  intros k s' [[-> ->]|[_ ?]]%Set_holds; [done|by eapply Hh|done].
Qed.

Lemma ens_ClearUserSessionCache {E} u : ensures (E := E) (only_of P) (ClearUserSessionCache u) (λ _, True).
Proof.
  apply ens_on_cache. intros now c Hc Hh. pose proof (cleared_cache now u c Hc) as Hcl.
  destruct (cached_sessions _ _ c) as [l c1]. destruct Hcl as [Hok Hsub]. split; [exact Hok|split; [|done]].
  intros k s Hks. by apply Hsub in Hks as [_ ?%Hh].
Qed.

Lemma ens_cached_get {E} token :
  ensures (E := E) (only_of P) (on_cache (λ now c, cache_Get now token c))
    (λ r, match r with Some s => good s | None => True end).
Proof.
  apply ens_on_cache. intros now c Hc Hh. destruct (cache_Get now token c) as [r c'] eqn:Hget. cbn.
  pose proof (Get_ok now token c Hc) as Hok. rewrite Hget in Hok. split; [done|]. split.
  - intros k s Hks. apply (Hh k), (Get_frame now token c k s Hc). by rewrite Hget.
  - destruct r as [s|]; [|done]. apply (Hh token). by eapply Get_holds.
Qed.

#[local] Hint Resolve ens_GetMillis ens_NewId ens_session_get ens_session_list ens_lru ens_session_remove
  ens_session_save ens_AddSessionToCache ens_ClearUserSessionCache ens_cached_get : ens.

(** *** The platform's operations *)

Lemma ens_platform_GetSession token : ensures (only_of P) (platform_GetSession token) (λ s, good s).
Proof.
  unfold platform_GetSession, GetSessionContext. eapply ensures_bind; [apply ens_cached_get|].
  intros [s|] Hs; ens_tac.
Qed.

Lemma ens_on_access {A} (f : nat → gset string → res storeError A * gset string) :
  ensures (only_of P) (on_access f) (λ _, True).
Proof.
  apply ens_throw_res, ens_on_sessions. intros n d []. destruct (f n (sd_access d)). by split.
Qed.

Lemma ens_access_read {A} (f : nat → session_db C → res storeError A) :
  ensures (only_of P) (throw_res (on_sessions (λ n d, (f n d, d)))) (λ _, True).
Proof. apply ens_throw_res, ens_on_sessions. by intros n d Hd. Qed.

#[local] Hint Resolve ens_platform_GetSession ens_on_access ens_access_read : ens.

Lemma ens_RevokeAccessToken token : ensures (only_of P) (RevokeAccessToken token) (λ _, True).
Proof. unfold RevokeAccessToken. ens_tac. Qed.

#[local] Hint Resolve ens_RevokeAccessToken : ens.

Lemma ens_remove_session s : ensures (only_of P) (remove_session s) (λ _, True).
Proof. unfold remove_session. ens_tac. Qed.

#[local] Hint Resolve ens_remove_session : ens.

Lemma ens_RevokeSession s : ensures (only_of P) (RevokeSession s) (λ _, True).
Proof. unfold RevokeSession, platform_RevokeSession. ens_tac. Qed.

#[local] Hint Resolve ens_RevokeSession : ens.

(** *** The application's operations *)

Lemma ens_limit u : ensures (only_of P) (limitNumberOfSessions u) (λ _, True).
Proof.
  unfold limitNumberOfSessions. apply ensures_map_err. eapply ensures_bind; [apply ens_lru|].
  intros l _. apply ensures_for. intros s _. apply ens_RevokeSession.
Qed.

Lemma ens_GetUser (f : storeError → lmsError) id :
  ensures (only_of P) (lift_users (wrapU f (us_get id))) (λ u, User_Id u = id).
Proof.
  intros [uw d] [Hu Hd]. pose proof (keeps_wrapU f _ (keeps_us_get id) uw Hu) as Hk.
  unfold lift_users, wrapU in *. cbn [sw_users sw_sessions]. destruct (us_get id uw) as [r u'] eqn:Hget.
  apply us_get_inv in Hget as [_ Hid]; [|done]. destruct r as [u|e]; (split; [done|]); [|done]. by intros a [= <-].
Qed.

Lemma ens_SetSessionExpireInHours {E} s hours : good s →
  ensures (E := E) (only_of P) (SetSessionExpireInHours s hours) (λ s', good s').
Proof. intros Hs. unfold SetSessionExpireInHours. destruct (_ || _); ens_tac. Qed.

Lemma ens_token_by_token t : ensures (only_of P) (token_by_token t) (λ tok, P (Tok_UserId tok)).
Proof.
  apply ens_throw_res, ens_on_sessions. intros n d Hd. split; [done|]. intros tok. cbn. unfold TokenStore_GetByToken.
  destruct (lms_fault n); [done|]. destruct (tokens_where _ _) as [|t0 l] eqn:Hl; [done|]. intros [= <-].
  assert (t0 ∈ tokens_where (λ t', String.eqb (Tok_Token t') t) (sd_tokens d)) as Hin by (rewrite Hl; left).
  unfold tokens_where in Hin. apply list_elem_of_filter in Hin as [_ Hin].
  apply list_elem_of_fmap in Hin as ([k t'] & -> & Hin). apply elem_of_go_range in Hin. by eapply (on_issued P d Hd).
Qed.

Lemma ens_createSessionForUserAccessToken t :
  ensures (only_of P) (createSessionForUserAccessToken t) (λ s, good s).
Proof.
  unfold createSessionForUserAccessToken, wrapS. eapply ensures_bind; [apply ensures_map_err, ens_token_by_token|].
  intros tok Htok. destruct (negb _); [ens_tac|]. eapply ensures_bind; [apply ens_GetUser|]. intros user Huser.
  destruct (_ && _); [ens_tac|]. destruct (negb _); [ens_tac|].
  eapply ensures_bind; [apply ens_limit|]. intros _ _. cbn zeta. cbv beta in Huser.
  eapply ensures_bind; [apply ens_SetSessionExpireInHours; destruct (User_IsBot user); cbn; by rewrite Huser|].
  intros s Hs. eapply ensures_bind; [apply ensures_map_err, ens_session_save, Hs|].
  intros s' Hs'. eapply ensures_bind; [by apply ens_AddSessionToCache|]. intros _ _. by apply ensures_ret.
Qed.

Lemma ens_RevokeSessionById id : ensures (only_of P) (RevokeSessionById id) (λ _, True).
Proof. unfold RevokeSessionById, GetSessionById, GetSessionByID, wrapS. ens_tac. Qed.

#[local] Hint Resolve ens_createSessionForUserAccessToken ens_RevokeSessionById : ens.

Lemma ens_app_GetSession token : ensures (only_of P) (app_GetSession token) (λ s, good s).
Proof.
  unfold app_GetSession. eapply ensures_bind; [apply ensures_attempt, ens_platform_GetSession|]. intros found Hfound.
  unfold use_session.
  eapply ensures_bind with (Q := λ s, good s).
  - destruct found as [s|]; [|unfold token_session; ens_tac]. destruct (negb _); [ens_tac|].
    eapply ensures_bind; [unfold refresh_cached; ens_tac|]. intros _ _. unfold token_session. ens_tac.
  - intros s Hs. unfold idle_check. ens_tac.
Qed.

Lemma ens_CreateSession s : good s → ensures (only_of P) (CreateSession s) (λ s', good s').
Proof.
  intros Hs. assert (ensures (only_of P) (platform_CreateSession s) (λ s', good s')) as Hsave.
  { unfold platform_CreateSession. eapply ensures_bind; [by apply ens_session_save|]. intros s' Hs'. ens_tac. }
  unfold CreateSession. eapply ensures_bind; [apply ens_limit|]. intros _ _.
  eapply ensures_bind; [apply ensures_attempt, ens_GetUser|]. intros [user|e] _; ens_tac.
Qed.

Lemma ens_RevokeAllSessions u : ensures (only_of P) (RevokeAllSessions u) (λ _, True).
Proof.
  apply ensures_map_err. eapply ensures_bind; [apply ensures_map_err, ens_session_list|]. intros l _.
  eapply ensures_bind; [apply ensures_for; intros s _; apply ens_remove_session|]. intros _ _.
  apply ens_ClearUserSessionCache.
Qed.
End of_users.

(** ** Signing out *)

Abbreviation stored w := (sd_rows (sw_sessions w)).

(** No row that was not there, and the same access tokens. *)
Definition below (rows : session_rows) (tokens : token_rows) (w : SW) : Prop :=
  stored w ⊆ rows ∧ sd_tokens (sw_sessions w) = tokens.

Lemma below_refl (w : SW) : below (stored w) (sd_tokens (sw_sessions w)) w.
Proof. by split. Qed.

Section shrink.
Context (rows : session_rows) (tokens : token_rows).
Abbreviation shrinks m := (preserves (below rows tokens) m).

Lemma preserves_attempt {E E' A} (m : M SW E A) : shrinks m → shrinks (attempt (E' := E') m).
Proof. intros Hm w Hw. specialize (Hm w Hw). unfold attempt. by destruct (m w). Qed.

Lemma preserves_map_err {E E' A} (f : E → E') (m : M SW E A) : shrinks m → shrinks (map_err f m).
Proof. intros Hm w Hw. specialize (Hm w Hw). unfold map_err. by destruct (m w) as [[]]. Qed.

Lemma shrinks_on_sessions {E A} (f : nat → session_db C → A * session_db C) :
  (∀ n d, sd_rows (f n d).2 ⊆ sd_rows d ∧ sd_tokens (f n d).2 = sd_tokens d) →
  shrinks (on_sessions (E := E) f).
Proof.
  intros Hf [uw d] [Hr Ht]. unfold on_sessions. cbn in *. specialize (Hf (ticks_of (SessWorld uw d)) d).
  destruct (f _ d) as [r d']. destruct Hf as [Hr' Ht']. split; cbn in *; [by etrans|congruence].
Qed.

Lemma shrinks_throw_res {E A} (m : M SW E (res E A)) : shrinks m → shrinks (throw_res m).
Proof. intros Hm. apply preserves_bind; [done|]. intros [a|e]; eauto with go. Qed.

Lemma shrinks_session_remove t : shrinks (session_remove t).
Proof.
  apply shrinks_throw_res, shrinks_on_sessions. intros n d. unfold SessionStore_Remove.
  destruct (lms_fault n); cbn; split; try done. apply map_filter_subseteq.
Qed.

Lemma shrinks_session_get t : shrinks (session_get t).
Proof. apply shrinks_throw_res, shrinks_on_sessions. done. Qed.

Lemma shrinks_on_cache {E A} (f : Z → C → A * C) : shrinks (on_cache (E := E) f).
Proof. apply shrinks_on_sessions. intros n d. by destruct (f (lms_clock n) (sd_cache d)). Qed.

Lemma shrinks_ClearUserSessionCache {E} u : shrinks (ClearUserSessionCache (E := E) u).
Proof. apply shrinks_on_cache. Qed.

Lemma shrinks_on_access {A} (f : nat → gset string → res storeError A * gset string) : shrinks (on_access f).
Proof. apply shrinks_throw_res, shrinks_on_sessions. intros n d. by destruct (f n (sd_access d)). Qed.

Lemma shrinks_access_read {A} (f : nat → session_db C → res storeError A) :
  shrinks (throw_res (on_sessions (λ n d, (f n d, d)))).
Proof. by apply shrinks_throw_res, shrinks_on_sessions. Qed.

Lemma shrinks_platform_GetSession t : shrinks (platform_GetSession t).
Proof.
  apply preserves_bind; [apply shrinks_on_cache|]. intros [s|]; [destruct (String.eqb _ _)|];
    eauto using shrinks_session_get with go.
Qed.

#[local] Hint Resolve preserves_attempt preserves_map_err shrinks_session_remove shrinks_on_cache
  shrinks_ClearUserSessionCache shrinks_on_access
  shrinks_access_read shrinks_platform_GetSession : go.

Lemma shrinks_RevokeAccessToken t : shrinks (RevokeAccessToken t).
Proof.
  repeat (apply preserves_bind; [eauto with go|intros ?]); case_match; eauto with go.
Qed.

Lemma shrinks_remove_session s : shrinks (remove_session s).
Proof. unfold remove_session. destruct (Sess_IsOAuth s); eauto using shrinks_RevokeAccessToken with go. Qed.
End shrink.

Lemma run_preserves {S E A} (Inv : S → Prop) (m : M S E A) w r w' :
  m w = (r, w') → preserves Inv m → Inv w → Inv w'.
Proof. intros Hrun Hm Hw. specialize (Hm w Hw). by rewrite Hrun in Hm. Qed.

Lemma session_remove_gone t (w w' : SW) :
  session_remove t w = (Ok tt, w') → ∀ k s, stored w' !! k = Some s → Sess_Id s ≠ t ∧ Sess_Token s ≠ t.
Proof.
  destruct w as [uw d]. unfold session_remove, on_rows, throw_res, m_bind, on_sessions, SessionStore_Remove. cbn.
  destruct (lms_fault _); [done|]. intros [= <-] k s. cbn. intros [_ Hno]%delete_sessions_Some.
  apply orb_false_iff in Hno as [Hi%String.eqb_neq Ht%String.eqb_neq]. done.
Qed.

Lemma remove_session_gone s (w w' : SW) :
  remove_session s w = (Ok tt, w') → ∀ k, stored w' !! k ≠ Some s.
Proof.
  unfold remove_session. destruct (Sess_IsOAuth s).
  - unfold RevokeAccessToken. intros Hrun k Hk.
    apply bind_inv in Hrun as [(found & w1 & _ & Hrun)|(e & _ & ?)]; [|done].
    apply bind_inv in Hrun as [(removed & w2 & Hrem & Hrun)|(e & _ & ?)]; [|done].
    apply bind_inv in Hrun as [(a1 & w3 & H3' & Hrun)|(e & _ & ?)]; [|done].
    apply bind_inv in Hrun as [(a2 & w4 & H4' & Hrun)|(e & _ & ?)]; [|done].
    apply bind_inv in Hrun as [(a3 & w5 & H5' & Hrun)|(e & _ & ?)]; [|done].
    destruct removed as [[]|e]; [|done]. injection H5' as _ <-.
    assert (below (stored w2) (sd_tokens (sw_sessions w2)) w') as [Hsub _].
    { apply (run_preserves _ _ _ _ _ Hrun); [destruct found; eauto using shrinks_ClearUserSessionCache with go|].
      apply (run_preserves _ _ _ _ _ H4'); [apply preserves_map_err, shrinks_on_access|].
      apply (run_preserves _ _ _ _ _ H3'); [apply preserves_map_err, shrinks_access_read|apply below_refl]. }
    eapply lookup_weaken in Hk; [|exact Hsub].
    unfold attempt, map_err in Hrem. destruct (session_remove (Sess_Token s) w1) as [[[]|e] w2'] eqn:Hr; [|done].
    injection Hrem as ->. by apply (session_remove_gone _ _ _ Hr) in Hk as [_ []].
  - unfold map_err. intros Hrun k Hk. destruct (session_remove (Sess_Id s) w) as [[[]|e] w2] eqn:Hr; [|done].
    injection Hrun as ->. by apply (session_remove_gone _ _ _ Hr) in Hk as [[] _].
Qed.

Lemma session_list_all u (w w' : SW) l :
  session_list u w = (Ok l, w') →
  stored w' = stored w ∧ sd_tokens (sw_sessions w') = sd_tokens (sw_sessions w) ∧
  ∀ k s, stored w !! k = Some s → Sess_UserId s = u → s ∈ l.
Proof.
  destruct w as [uw d]. unfold session_list, read_rows, throw_res, m_bind, on_sessions, SessionStore_GetSessions. cbn.
  destruct (lms_fault _); [done|]. destruct (lms_fault _); [done|]. intros [= <- <-].
  split; [done|split; [done|]]. intros k s Hk Hu. unfold by_activity. rewrite merge_sort_Permutation.
  apply rows_of_where. split; [by apply String.eqb_eq|by exists k].
Qed.

Lemma remove_each l (w w' : SW) :
  m_for l remove_session w = (Ok tt, w') →
  below (stored w) (sd_tokens (sw_sessions w)) w' ∧ ∀ s k, s ∈ l → stored w' !! k ≠ Some s.
Proof.
  revert w. induction l as [|s0 l IH]; intros w; cbn [m_for].
  - intros [= <-]. split; [apply below_refl|]. by intros s k ?%elem_of_nil.
  - intros Hrun. apply bind_inv in Hrun as [([] & w1 & H1' & Hrun)|(e & _ & ?)]; [|done].
    destruct (IH w1 Hrun) as [[Hb Ht] Hgone].
    destruct (run_preserves _ _ _ _ _ H1' (shrinks_remove_session _ _ s0) (below_refl w)) as [Hb1 Ht1].
    split; [split; [by etrans|congruence]|]. intros s k [->|Hin]%elem_of_cons; [|by apply Hgone].
    intros Hk. eapply lookup_weaken in Hk; [|exact Hb]. by eapply remove_session_gone.
Qed.

Lemma RevokeAllSessions_removes u (w w' : SW) :
  sound w → RevokeAllSessions u w = (Ok tt, w') →
  (∀ k s, stored w' !! k = Some s → Sess_UserId s ≠ u) ∧
  (∀ k s, cache_holds (sd_cache (sw_sessions w')) k s → Sess_UserId s ≠ u) ∧
  sd_tokens (sw_sessions w') = sd_tokens (sw_sessions w).
Proof.
  intros Hw Hrun. pose proof (ens_RevokeAllSessions (λ _, True) u w Hw) as [Hw' _]. rewrite Hrun in Hw'.
  unfold RevokeAllSessions, map_err in Hrun. destruct (platform_RevokeAllSessions u w) as [[[]|e] w3] eqn:Hp; [|by destruct e].
  injection Hrun as ->. apply bind_inv in Hp as [(l & w1 & Hl & Hp)|(e & _ & ?)]; [|done].
  apply bind_inv in Hp as [([] & w2 & Hr & Hp)|(e & _ & ?)]; [|done].
  unfold map_err in Hl. destruct (session_list u w) as [[l'|e] w1'] eqn:Hlist; [|done]. injection Hl as -> ->.
  pose proof (session_list_all _ _ _ _ Hlist) as (Hs1 & Ht1 & Hall).
  pose proof (remove_each _ _ _ Hr) as [[Hb2 Ht2] Hgone].
  destruct Hw' as [Hu' Hd'].
  assert (stored w' = stored w2 ∧ sd_tokens (sw_sessions w') = sd_tokens (sw_sessions w2) ∧
          ∀ k s, cache_holds (sd_cache (sw_sessions w')) k s → Sess_UserId s ≠ u) as (Hs3 & Ht3 & Hh3).
  { assert (cache_ok (sd_cache (sw_sessions w2))) as Hc2.
    { apply (run_ensures _ _ _ _ _ _ Hr (ensures_for _ l _ (λ s _, ens_remove_session (λ _, True) s))).
      by apply (run_ensures _ _ _ _ _ _ Hlist (ens_session_list (λ _, True) u)). }
    destruct w2 as [uw2 d2]. unfold ClearUserSessionCache, ClearUserSessionCacheLocal, on_cache, on_sessions in Hp. cbn in Hp.
    pose proof (cleared_cache (lms_clock (ticks_of (SessWorld uw2 d2))) u (sd_cache d2) Hc2) as Hcl.
    destruct (cached_sessions _ _ (sd_cache d2)) as [found c1]. injection Hp as <-. cbn.
    split; [done|split; [done|]]. intros k s Hk. by apply Hcl in Hk as []. }
  split; [|split; [exact Hh3|congruence]].
  intros k s Hk. rewrite Hs3 in Hk. intros Hu. eapply lookup_weaken in Hk as Hk1; [|exact Hb2]. rewrite Hs1 in Hk1.
  by apply (Hgone s k) in Hk; [|by eapply Hall].
Qed.

Lemma RevokeAllSessions_signs_out u (w w' : SW) :
  sound w → (∀ k t, sd_tokens (sw_sessions w) !! k = Some t → Tok_UserId t ≠ u) →
  RevokeAllSessions u w = (Ok tt, w') → signed_out u w'.
Proof.
  intros Hw Htok Hrun. destruct (RevokeAllSessions_removes u w w' Hw Hrun) as (Hs & Hh & Ht).
  destruct (run_ensures _ _ _ _ _ _ Hrun (ens_RevokeAllSessions (λ _, True) u) Hw) as [Hu' Hd'].
  split; [done|]. split; try apply Hd'; [exact Hs|exact Hh|]. intros k t Hk. rewrite Ht in Hk. by eapply Htok.
Qed.

(** What happens to the sessions over time: a token is presented, a session
    starts, one ends, all of a user end. *)
Inductive session_event :=
  | Presented (token : string)
  | Started (s : UserSession)
  | Ended (id : string)
  | EndedAll (userID : string).

(** The session a presented token was found to have. *)
Definition run_event (e : session_event) (w : SW) : option UserSession * SW :=
  match e with
  | Presented t => let '(r, w') := app_GetSession t w in (match r with Ok s => Some s | Err _ => None end, w')
  | Started s => (None, (CreateSession s w).2)
  | Ended id => (None, (RevokeSessionById id w).2)
  | EndedAll u => (None, (RevokeAllSessions u w).2)
  end.

Fixpoint run_events (es : list session_event) (w : SW) : list UserSession * SW :=
  match es with
  | [] => ([], w)
  | e :: es =>
      let '(r, w) := run_event e w in
      let '(l, w) := run_events es w in
      (match r with Some s => s :: l | None => l end, w)
  end.

(** The user does not log in again. *)
Definition not_started (u : string) (e : session_event) : Prop :=
  match e with Started s => Sess_UserId s ≠ u | _ => True end.

Lemma run_events_signed_out u es (w : SW) :
  Forall (not_started u) es → signed_out u w →
  signed_out u (run_events es w).2 ∧ ∀ s, s ∈ (run_events es w).1 → Sess_UserId s ≠ u.
Proof.
  intros Hes. revert w. induction Hes as [|e es He _ IH]; intros w Hw; [split; [done|]; by intros s ?%elem_of_nil|].
  cbn [run_events].
  assert (signed_out u (run_event e w).2 ∧ ∀ s, (run_event e w).1 = Some s → Sess_UserId s ≠ u) as [Hw1 Hr].
  { destruct e as [t|s0|id|u']; cbn [run_event].
    - destruct (ens_app_GetSession (λ v, v ≠ u) t w Hw) as [Hi Hq]. destruct (app_GetSession t w) as [[s|e] w1]; [|done].
      split; [done|]. intros s' [= <-]. by apply Hq.
    - by destruct (ens_CreateSession (λ v, v ≠ u) s0 He w Hw).
    - by destruct (ens_RevokeSessionById (λ v, v ≠ u) id w Hw).
    - by destruct (ens_RevokeAllSessions (λ v, v ≠ u) u' w Hw). }
  destruct (run_event e w) as [r w1]. specialize (IH w1 Hw1). destruct (run_events es w1) as [l w2].
  destruct IH as [Hw2 Hl]. split; [exact Hw2|]. intros s. destruct r as [s0|]; [|by apply Hl].
  intros [->|Hin]%elem_of_cons; [by apply Hr|by apply Hl].
Qed.

(** C17: Whose sessions are revoked is signed out.  The user has no personal
    access tokens, from which a session could be made again, and does not log
    in again.  Then after a successful RevokeAllSessions, whatever failures
    occur later, no token that is presented is found to be a session of the
    user, however tokens of anybody are presented and sessions of others start
    and end in between: neither the rows nor the copies in the cache, nor what
    idle checks and session limits revoke, bring one back. *)
Theorem signed_out_stays_out u (es : list session_event) (w w' : SW) :
  sound w → (∀ k t, sd_tokens (sw_sessions w) !! k = Some t → Tok_UserId t ≠ u) →
  Forall (not_started u) es → RevokeAllSessions u w = (Ok tt, w') →
  ∀ s, s ∈ (run_events es w').1 → Sess_UserId s ≠ u.
Proof.
  intros Hw Htok Hes Hrun. apply run_events_signed_out; [done|]. by eapply RevokeAllSessions_signs_out.
Qed.

(** ** A revocation and a read in flight *)

Definition ttl : Z := (SessionCacheInMinutes * 60 * 1000)%Z.

(** The latest entry of the cache, made at [now]. *)
Definition cached_at (now : Z) (t : string) (s : UserSession) (w : SW) : Prop :=
  ∃ c, sd_cache (sw_sessions w) = cache_SetWithExpiry now t s ttl c ∧ cache_ok c.

(** The copy in the cache can be read at the next reading of the clock. *)
Definition readable (t : string) (s : UserSession) (w : SW) : Prop :=
  ∃ now, cached_at now t s w ∧ (lms_clock (ticks_of w) ≤ now + ttl)%Z.

(** No session idles out. *)
Definition no_idling : Prop := ExtendSessionLengthWithActivity = true ∨ (SessionIdleTimeoutInMinutes <= 0)%Z.

Lemma idle_check_off s (w : SW) : no_idling → idle_check s w = (Ok s, w).
Proof.
  intros Hidle. unfold idle_check. destruct Hidle as [->|Hle]; [by rewrite !andb_false_r|].
  assert (0 <? SessionIdleTimeoutInMinutes = false)%Z as -> by lia. done.
Qed.

Section found.
Context (t : string) (s : UserSession) (Htoken : Sess_Token s = t) (Hid : Sess_Id s ≠ "") (Hidle : no_idling).

Lemma platform_GetSession_readable (w : SW) :
  (0 < ttl)%Z → readable t s w →
  ∃ c, platform_GetSession t w = (Ok s, SessWorld (tick_users (sw_users w)) (with_cache c (sw_sessions w))) ∧ cache_ok c.
Proof.
  intros Httl (now & (c & Hcache & Hc) & Hclock). unfold platform_GetSession, on_cache, m_bind. rewrite on_sessions_run.
  rewrite Hcache.
  pose proof (Set_Get now (lms_clock (ticks_of w)) t s ttl c Hc Httl Hclock) as Hs.
  pose proof (Get_ok (lms_clock (ticks_of w)) t _ (Set_ok now t s ttl c Hc)) as Hok.
  destruct (cache_Get _ t _) as [r c']. cbn [fst snd] in *. subst r.
  rewrite (proj2 (String.eqb_neq _ _) Hid). by exists c'.
Qed.

(** The clock is read twice, the second time after the cache was written. *)
Lemma use_session_run (w : SW) :
  let n := ticks_of w in
  IsExpired (lms_clock n) s = false → IsExpired (lms_clock (6 + n)) s = false →
  use_session t (Ok s) w =
    (Ok s, SessWorld (tick_users (tick_users (tick_users (sw_users w))))
             (with_cache (cache_SetWithExpiry (lms_clock (3 + n)) t s ttl (sd_cache (sw_sessions w))) (sw_sessions w))).
Proof.
  destruct w as [[[l n] us] d]. cbn. intros H1' H2'.
  unfold use_session, refresh_cached, AddSessionToCache, on_cache, m_bind, model_GetMillis, on_sessions.
  rewrite Htoken, String.eqb_refl. cbn -[String.eqb IsExpired cache_SetWithExpiry idle_check].
  rewrite H1'. cbn -[String.eqb IsExpired cache_SetWithExpiry idle_check].
  rewrite (proj2 (String.eqb_neq _ _) Hid). cbn -[String.eqb IsExpired cache_SetWithExpiry idle_check].
  rewrite (proj2 (String.eqb_neq _ _) Hid). cbn -[String.eqb IsExpired cache_SetWithExpiry idle_check].
  rewrite H2'. by apply idle_check_off.
Qed.

(** The session does not expire in the [10] effects of a read. *)
Definition live_at (w : SW) : Prop := ∀ i, (i < 10)%nat → IsExpired (lms_clock (i + ticks_of w)) s = false.

Lemma app_GetSession_readable (w : SW) :
  (0 < ttl)%Z → readable t s w → live_at w → ∃ w', app_GetSession t w = (Ok s, w').
Proof.
  intros Httl Hr Hlive. destruct (platform_GetSession_readable w Httl Hr) as (c & Hget & _).
  unfold app_GetSession, m_bind, attempt. rewrite Hget. rewrite use_session_run; [by eexists|..].
  - replace (ticks_of _) with (3 + ticks_of w)%nat by (by destruct w). apply Hlive. lia.
  - replace (6 + ticks_of _)%nat with (9 + ticks_of w)%nat by (by destruct w). apply Hlive. lia.
Qed.
End found.

(** A request is admitted while all sessions of [u] are revoked: the steps of
    [app_GetSession] with the revocation between them. *)
Definition admitted_while_revoking (t u : string) : M SW lmsError (res lmsError unit * res lmsError UserSession) :=
  found <- attempt (platform_GetSession t) ;;
  revoked <- attempt (RevokeAllSessions u) ;;
  used <- attempt (use_session t found) ;;
  m_ret (revoked, used).

Section in_flight.
Context (t : string) (s : UserSession).
Context (Htoken : Sess_Token s = t) (Hid : Sess_Id s ≠ "") (Hidle : no_idling).
(** The session does not expire, its copy in the cache not between two uses. *)
Context (Hlasts : ∀ n, IsExpired (lms_clock n) s = false) (Httl : (0 < ttl)%Z).
Context (Hoften : ∀ n, (lms_clock (n + 6) <= lms_clock n + ttl)%Z).

Lemma use_session_readable (w : SW) :
  cache_ok (sd_cache (sw_sessions w)) →
  ∃ w', use_session t (Ok s) w = (Ok s, w') ∧ readable t s w' ∧ stored w' = stored w.
Proof.
  intros Hc. eexists. split; [by apply use_session_run|split; [|done]]. unfold readable, cached_at. cbn.
  eexists. split; [by eexists|].
  pose proof (Hoften (3 + ticks_of w)) as Ho. rewrite Nat.add_comm in Ho. exact Ho.
Qed.

Lemma present_readable (w : SW) :
  readable t s w → ∃ w', app_GetSession t w = (Ok s, w') ∧ readable t s w' ∧ stored w' = stored w.
Proof.
  intros Hr. destruct (platform_GetSession_readable t s Hid w Httl Hr) as (c & Hget & Hc).
  destruct (use_session_readable (SessWorld (tick_users (sw_users w)) (with_cache c (sw_sessions w))) Hc)
    as (w' & Huse & Hr' & Hs'). exists w'. split; [|split; [done|exact Hs']].
  unfold app_GetSession, m_bind, attempt. by rewrite Hget.
Qed.

Lemma present_again (k : nat) (w : SW) :
  readable t s w → (run_events (replicate k (Presented t)) w).1 = replicate k s.
Proof.
  revert w. induction k as [|k IH]; intros w Hw; [done|]. cbn [replicate run_events run_event].
  destruct (present_readable w Hw) as (w' & -> & Hr & _). specialize (IH w' Hr).
  destruct (run_events _ w') as [l w2]. cbn in IH |- *. by rewrite IH.
Qed.

(** C27: A revocation misses a request that is being admitted.  A request has
    read the session of its token; before it puts the session back into the
    cache, all sessions of the user are revoked, successfully.  The request is
    admitted although the user has no session left in the table, and so are
    any number of requests with the token after it, each of which renews the
    copy in the cache: as long as the session neither expires nor idles out,
    nothing but this token is presented, and from one use to the next the
    clock advances by no more than the lifetime of a cached session
    ([Hlasts], [Hidle], [Hoften]). *)
Theorem revocation_misses_read_in_flight (k : nat) (w w' : SW) used :
  sound w → (platform_GetSession t w).1 = Ok s →
  admitted_while_revoking t (Sess_UserId s) w = (Ok (Ok tt, used), w') →
  used = Ok s ∧ (∀ i s', stored w' !! i = Some s' → Sess_UserId s' ≠ Sess_UserId s) ∧
  (run_events (replicate k (Presented t)) w').1 = replicate k s.
Proof.
  intros Hw Hfound Hrun. unfold admitted_while_revoking, m_bind, attempt in Hrun.
  destruct (ens_platform_GetSession (λ _, True) t w Hw) as [Hw1 _].
  destruct (platform_GetSession t w) as [r w1]. cbn in Hfound, Hw1. subst r.
  destruct (RevokeAllSessions (Sess_UserId s) w1) as [revoked w2] eqn:Hrev.
  destruct (ens_RevokeAllSessions (λ _, True) (Sess_UserId s) w1 Hw1) as [[_ Hd2] _]. rewrite Hrev in Hd2.
  destruct (use_session_readable w2 (on_cache_ok _ _ Hd2)) as (w3 & Huse & Hr & Hs). rewrite Huse in Hrun.
  injection Hrun as -> <- <-. split; [done|split; [|by apply present_again]].
  rewrite Hs. by apply (RevokeAllSessions_removes _ _ _ Hw1 Hrev).
Qed.
End in_flight.
End props.

(** ** Examples *)

Section witnesses.
Import School SignedIn.
#[local] Existing Instance cents.

Lemma before_sound : only_of (λ _, True) before.
Proof.
  destruct (NewLRUStriped_ok (V := UserSession) 100 2 empty_cache eq_refl eq_refl) as [Hok Hno].
  split; [exact seen_ok|]. by split; cbn; intros; [..|done].
Qed.

Lemma started_sound : only_of (λ _, True) started.2.
Proof. by apply (ens_CreateSession (λ _, True) (wanted an_id "secret") I before before_sound). Qed.

Abbreviation ended := (RevokeAllSessions an_id started.2).

(** The token of the revoked session is presented before and after somebody
    else logs in. *)
Definition afterwards : list session_event :=
  [Presented the_token; Started (wanted "somebody else" "secret"); Presented the_token].

Lemma signed_out_stays_out_witness :
  length (run_events [Presented the_token] started.2).1 = 1%nat ∧
  ∀ s, s ∈ (run_events afterwards ended.2).1 → Sess_UserId s ≠ an_id.
Proof.
  split; [vm_compute; reflexivity|]. apply (signed_out_stays_out an_id afterwards started.2).
  - exact started_sound.
  - intros k t Hk. assert (sd_tokens (sw_sessions started.2) = ∅) as Hno by (vm_compute; reflexivity).
    rewrite Hno in Hk. discriminate Hk.
  - repeat constructor. discriminate.
  - assert (ended.1 = Ok tt) as <- by (vm_compute; reflexivity). apply surjective_pairing.
Defined.

Abbreviation racing := (admitted_while_revoking the_token (Sess_UserId the_session) started.2).

Lemma revocation_misses_read_in_flight_witness :
  (run_events [Presented the_token; Presented the_token] racing.2).1 = [the_session; the_session].
Proof.
  assert ((platform_GetSession the_token started.2).1 = Ok the_session) as Hread by (vm_compute; reflexivity).
  assert (racing.1 = Ok (Ok tt, Ok the_session)) as Hres by (vm_compute; reflexivity).
  refine (proj2 (proj2 (revocation_misses_read_in_flight the_token the_session eq_refl _ _ _ eq_refl _ 2 started.2 racing.2
    (Ok the_session) started_sound Hread _))).
  - vm_compute. discriminate.
  - right. vm_compute. discriminate.
  - intros n. reflexivity.
  - intros n. unfold lms_clock, quiet, ttl. cbn. lia.
  - rewrite <- Hres. apply surjective_pairing.
Defined.
End witnesses.
