(* ===== verification/SessionLimits.v ===== *)
(** * How many sessions there are, and what a cleanup leaves

    The bound on the sessions of a user that the start of a session enforces,
    the end of the cleanup loop, and the delete of an access token that
    reports success when it failed. *)

From stdpp Require Import strings sorting pretty.
From S2P Require Import Prelude.
From S2P Require Import GoString.
From S2P Require Import GoUtf8.
From S2P Require Import GoRunes.
From S2P Require Import LmsModel.
From S2P Require Import Hashers.
From S2P Require Import PlatUser.
From S2P Require Import CallStore.
From S2P Require Import LmsStore.
From S2P Require Import LmsTables.
From S2P Require Import LmsApp.
From S2P Require Import LmsRoles.
From S2P Require Import UserStore.
From S2P Require Import LmsUsers.
From S2P Require Import LmsUsersInv.
From S2P Require Import Login.
From S2P Require Import CreateUser.
From S2P Require Import LruStriped.
From S2P Require Import Sessions.
From S2P Require Import SessionService.
From S2P Require Import SessionProps.
From S2P Require Import LmsUsersDemo.
From S2P Require Import Lru.
From S2P Require Import SessionDemo.

Local Open Scope string_scope.
Local Open Scope go_scope.

(** ** Rows as lists *)

Section rows.
Context `{GoRange}.
Implicit Types (rows : session_rows).

Definition keyed rows : Prop := ∀ k s, rows !! k = Some s → Sess_Id s = k.

Lemma sessions_where_perm P rows : sessions_where P rows ≡ₚ filter (λ s, P s = true) (map_to_list rows).*2.
Proof. unfold sessions_where. by rewrite go_range_perm. Qed.

Lemma NoDup_sessions P rows : keyed rows → NoDup (sessions_where P rows).
Proof.
  intros Hk. rewrite sessions_where_perm. apply NoDup_filter, NoDup_fmap_2_strong; [|apply NoDup_map_to_list].
  intros [k s] [k' s'] Hin%elem_of_map_to_list Hin'%elem_of_map_to_list [= <-].
  by rewrite <- (Hk _ _ Hin), <- (Hk _ _ Hin').
Qed.

Lemma sessions_where_insert P k s rows : rows !! k = None →
  length (sessions_where P (<[k := s]> rows)) = ((if P s then 1 else 0) + length (sessions_where P rows))%nat.
Proof.
  intros Hk. rewrite !sessions_where_perm, map_to_list_insert, fmap_cons, filter_cons by done. cbn [snd].
  destruct (P s); case_decide; done.
Qed.

Lemma sessions_subset P rows' l : keyed rows' → (∀ k s, rows' !! k = Some s → P s = true → s ∈ l) →
  (length (sessions_where P rows') ≤ length l)%nat.
Proof.
  intros Hk Hin. apply submseteq_length, NoDup_submseteq; [by apply NoDup_sessions|].
  intros s (Hp & k & Hs)%rows_of_where. by eapply Hin.
Qed.

Lemma keyed_subset rows rows' : rows' ⊆ rows → keyed rows → keyed rows'.
Proof. intros Hsub Hk k s Hs. eapply lookup_weaken in Hs; [|exact Hsub]. by apply Hk. Qed.
End rows.

Section limits.
Context `{UnicodeTables} `{UnicodeLower} `{UserLib} `{Crypto} `{Decimal D} `{LmsEnv} `{GoRange}.
Context `{UsersEnv} `{CacheOk UserSession C} `{SessionConfig} `{LoginEnv}.

Abbreviation SW := (sess_world D C).
Abbreviation stored w := (sd_rows (sw_sessions w)).
Abbreviation issued w := (sd_tokens (sw_sessions w)).

(** ** The limit *)

Definition session_count (u : string) (w : SW) : nat := length (sessions_where (of_user u) (stored w)).

Lemma RevokeSession_gone s (w w' : SW) :
  RevokeSession s w = (Ok tt, w') → below (stored w) (issued w) w' ∧ ∀ k, stored w' !! k ≠ Some s.
Proof.
  intros Hrun%map_err_Ok. apply bind_inv in Hrun as [([] & w1 & H1' & Hrun)|(e & _ & ?)]; [|done].
  pose proof (run_preserves _ _ _ _ _ H1' (shrinks_remove_session _ _ s) (below_refl w)) as [Hb1 Ht1].
  pose proof (run_preserves _ _ _ _ _ Hrun (shrinks_ClearUserSessionCache _ _ _) (below_refl w1)) as [Hb2 Ht2].
  split; [split; [by etrans|congruence]|]. intros k Hk. eapply lookup_weaken in Hk; [|exact Hb2].
  by eapply remove_session_gone.
Qed.

Lemma revoke_each l (w w' : SW) :
  m_for l RevokeSession w = (Ok tt, w') →
  below (stored w) (issued w) w' ∧ ∀ s k, s ∈ l → stored w' !! k ≠ Some s.
Proof.
  revert w. induction l as [|s0 l IH]; intros w; cbn [m_for].
  - intros [= <-]. split; [apply below_refl|]. by intros s k ?%elem_of_nil.
  - intros Hrun. apply bind_inv in Hrun as [([] & w1 & H1' & Hrun)|(e & _ & ?)]; [|done].
    destruct (IH w1 Hrun) as [[Hb Ht] Hgone]. apply RevokeSession_gone in H1' as [[Hb1 Ht1] Hno].
    split; [split; [by etrans|congruence]|]. intros s k [->|Hin]%elem_of_cons; [|by apply Hgone].
    intros Hk. eapply lookup_weaken in Hk; [|exact Hb]. by eapply Hno.
Qed.

Lemma GetLRUSessions_inv u limit offset (w w' : SW) l :
  GetLRUSessions u limit offset w = (Ok l, w') →
  stored w' = stored w ∧ issued w' = issued w ∧
  l = take limit (drop offset (by_activity (sessions_where (of_user u) (stored w)))).
Proof.
  intros Hrun%map_err_Ok. destruct w as [uw d]. revert Hrun.
  unfold read_rows, throw_res, m_bind, on_sessions, SessionStore_GetLRUSessions. cbn.
  destruct (lms_fault _); [done|]. by intros [= <- <-].
Qed.

Lemma limitNumberOfSessions_bound u (w w' : SW) :
  keyed (stored w) → limitNumberOfSessions u w = (Ok tt, w') →
  stored w' ⊆ stored w ∧ (session_count u w' ≤ 499 + (session_count u w - 599))%nat.
Proof.
  intros Hk Hrun%map_err_Ok. apply bind_inv in Hrun as [(l & w1 & Hl & Hrun)|(e & _ & ?)]; [|done].
  apply GetLRUSessions_inv in Hl as (Hs1 & _ & Hl). apply revoke_each in Hrun as [[Hb _] Hgone]. rewrite Hs1 in Hb.
  split; [done|]. unfold session_count in *. set (L := by_activity (sessions_where (of_user u) (stored w))) in *.
  assert (length L = length (sessions_where (of_user u) (stored w))) as HL
    by (unfold L, by_activity; by rewrite merge_sort_Permutation).
  transitivity (length (take 499 L ++ drop 599 L)); [|rewrite length_app, length_take, length_drop; lia].
  apply sessions_subset; [exact (keyed_subset _ _ Hb Hk)|]. intros k s Hs Hu.
  assert (s ∈ L) as Hin.
  { unfold L, by_activity. rewrite merge_sort_Permutation. apply rows_of_where. split; [done|].
    exists k. by eapply lookup_weaken. }
  rewrite <- (take_drop 499 L), elem_of_app in Hin. apply elem_of_app. destruct Hin as [?|Hin]; [by left|].
  rewrite <- (take_drop 100 (drop 499 L)), elem_of_app in Hin. destruct Hin as [Hin|Hin]; [|rewrite drop_drop in Hin; by right].
  exfalso. apply (Hgone s k); [|done]. rewrite Hl. exact Hin.
Qed.

Lemma session_save_inv s (w w' : SW) saved :
  session_save s w = (Ok saved, w') →
  Sess_UserId saved = Sess_UserId s ∧ stored w !! Sess_Id saved = None ∧
  stored w' = <[Sess_Id saved := stored_session saved]> (stored w).
Proof.
  destruct w as [uw d]. unfold session_save, on_rows, throw_res, m_bind, on_sessions, SessionStore_Save. cbn.
  destruct (negb _); [done|]. destruct (Session_IsValid _); [done|].
  destruct (lms_fault _ || _ || _) eqn:Hno; [done|]. destruct (lms_fault (S _)); [done|]. intros [= <- <-].
  split; [done|split; [|done]]. apply orb_false_iff in Hno as [[_ Hn]%orb_false_iff _].
  apply bool_decide_eq_false in Hn. by apply eq_None_not_Some.
Qed.

(** C22: A user has at most 500 sessions.  A session that starts makes room
    first: of the sessions over the limit, the 100 used longest ago are
    revoked.  So a user with less than 600 sessions has at most 500
    afterwards, and one with more loses 99. *)
Theorem CreateSession_bounds_sessions s saved (w w' : SW) :
  keyed (stored w) → CreateSession s w = (Ok saved, w') →
  (session_count (Sess_UserId s) w' ≤ Nat.max 500 (session_count (Sess_UserId s) w - 99))%nat.
Proof.
  intros Hk Hrun. apply bind_inv in Hrun as [([] & w1 & Hlimit & Hrun)|(e & _ & ?)]; [|done].
  apply limitNumberOfSessions_bound in Hlimit as [Hsub Hcount]; [|done].
  apply bind_inv in Hrun as [(user & w2 & Huser & Hrun)|(e & _ & ?)]; [|done].
  assert (stored w2 = stored w1) as Hs2.
  { destruct w1 as [uw d]. unfold attempt, app_GetUser, lift_users in Huser. cbn in Huser.
    destruct (wrapU _ _ uw). by injection Huser as _ <-. }
  assert (platform_CreateSession s w2 = (Ok saved, w')) as Hcreate.
  { destruct user as [user|e]; case_match; try done; by apply map_err_Ok in Hrun. }
  apply bind_inv in Hcreate as [(s1 & w3 & Hsave & Hrun')|(e & _ & ?)]; [|done].
  apply session_save_inv in Hsave as (Hu & Hnew & Hs3).
  assert (stored w' = stored w3) as Hs4.
  { apply bind_inv in Hrun' as [([] & w4 & Hadd & Hret)|(e & _ & ?)]; [|done]. injection Hret as _ <-.
    unfold AddSessionToCache, on_cache, on_sessions in Hadd. destruct w3. cbn in Hadd. by injection Hadd as <-. }
  unfold session_count in *. rewrite Hs4, Hs3, sessions_where_insert, Hs2 by done. destruct (of_user _ (stored_session s1)); lia.
Qed.
End limits.

(** ** The cleanup *)

Section cleanup_ends.
Context `{GoRange} (expiry batch : Z).
Implicit Types (rows : session_rows).

Lemma cleanup_round_spec rows rows' n :
  keyed rows → cleanup_round expiry batch rows = (n, rows') →
  rows' ⊆ rows ∧ n = (Z.of_nat (size rows) - Z.of_nat (size rows'))%Z ∧
  (∀ k s, rows !! k = Some s → expired_at expiry s = false → rows' !! k = Some s) ∧
  (0 < batch → n = 0 → ∀ k s, rows' !! k = Some s → expired_at expiry s = false)%Z.
Proof.
  intros Hk [= <- <-]. set (ids := cleanup_batch expiry batch rows).
  assert (delete_sessions (λ s, bool_decide (Sess_Id s ∈ ids)) rows ⊆ rows) as Hsub by apply map_filter_subseteq.
  split; [done|split; [done|split]].
  - intros k s Hs Hlive. apply delete_sessions_Some. split; [done|]. apply bool_decide_eq_false. intros Hin.
    apply elem_of_take in Hin as (i & Hin%list_elem_of_lookup_2 & _).
    apply list_elem_of_fmap in Hin as (s' & Hid & (Hex & k' & Hs')%rows_of_where).
    rewrite (Hk _ _ Hs) in Hid. pose proof (Hk _ _ Hs') as Hk'. congruence.
  - intros Hbatch Hn k s Hs. destruct (expired_at expiry s) eqn:Hex; [|done]. exfalso.
    assert (delete_sessions (λ s, bool_decide (Sess_Id s ∈ ids)) rows = rows) as Hall.
    { apply map_subseteq_size_eq; [done|lia]. }
    assert (s ∈ sessions_where (expired_at expiry) rows) as Hin.
    { apply rows_of_where. split; [done|]. exists k. by eapply lookup_weaken. }
    unfold ids, cleanup_batch in Hall. destruct (sessions_where (expired_at expiry) rows) as [|s0 l] eqn:Hl.
    { by apply elem_of_nil in Hin. }
    assert (s0 ∈ sessions_where (expired_at expiry) rows) as (_ & k0 & Hs0)%rows_of_where by (rewrite Hl; left).
    rewrite <- Hall in Hs0. apply delete_sessions_Some in Hs0 as [_ Hno%bool_decide_eq_false]. apply Hno.
    destruct (Z.to_nat batch) eqn:?; [lia|]. left.
Qed.

(** C23: The cleanup of expired sessions ends.  With batches of at least one
    row, one round more than there are rows is enough, whichever rows a round
    picks and whichever rounds fail.  Sessions that have not expired are kept;
    without an error nothing expired is left; there is only an error when a
    statement failed. *)
Theorem Cleanup_finishes (faults : nat → bool) rows (fuel : nat) :
  (0 < batch)%Z → keyed rows → (size rows < fuel)%nat →
  ∃ r rows', SessionStore_Cleanup fuel faults expiry batch rows = Some (r, rows') ∧ rows' ⊆ rows ∧
    (∀ k s, rows !! k = Some s → expired_at expiry s = false → rows' !! k = Some s) ∧
    (r = Ok tt → ∀ k s, rows' !! k = Some s → expired_at expiry s = false) ∧
    ((∀ n, faults n = false) → r = Ok tt).
Proof.
  intros Hbatch. revert faults rows. induction fuel as [|fuel IH]; intros faults rows Hk Hfuel; [lia|].
  cbn [SessionStore_Cleanup]. destruct (faults O) eqn:Hf.
  { eexists _, _. split; [done|split; [done|split; [done|split; [done|]]]]. intros Hno. by rewrite Hno in Hf. }
  destruct (cleanup_round expiry batch rows) as [n rows1] eqn:Hround.
  destruct (cleanup_round_spec _ _ _ Hk Hround) as (Hsub & Hn & Hkept & Hdone).
  pose proof (map_subseteq_size _ _ Hsub) as Hsize. destruct (Z.ltb_spec 0 n).
  - destruct (IH (λ n, faults (S n)) rows1) as (r & rows' & -> & Hsub' & Hkept' & Hdone' & Hok);
      [by eapply keyed_subset|lia|].
    exists r, rows'. split; [done|split; [by etrans|split; [|split; [done|]]]]; [by auto|]. intros Hno. by apply Hok.
  - eexists _, _. split; [done|split; [done|split; [done|split; [|done]]]]. intros _. apply Hdone; lia.
Qed.
End cleanup_ends.

(** ** A delete that failed *)

Section failed_delete.
Context `{UnicodeTables} `{UnicodeLower} `{UserLib} `{Crypto} `{Decimal D} `{LmsEnv} `{GoRange}.
Context `{UsersEnv} `{Cache UserSession C} `{SessionConfig} `{LoginEnv}.
Implicit Types (w : sess_world D C) (token : UserAccessToken).

(** The only statement that fails is the delete inside the transaction, the
    second effect of the revocation. *)
Definition only_delete_fails w : Prop := ∀ n, lms_fault n = true ↔ n = (ticks_of w + 4)%nat.

Lemma ClearUserSessionCache_run {E} u w :
  ∃ c, ClearUserSessionCache (E := E) u w = (Ok tt, SessWorld (tick_users (sw_users w)) (with_cache c (sw_sessions w))).
Proof.
  unfold ClearUserSessionCache, ClearUserSessionCacheLocal, on_cache. rewrite on_sessions_run.
  destruct (cached_sessions _ _ _) as [found c]. by eexists.
Qed.

Lemma RevokeSession_unfailing s w :
  Sess_IsOAuth s = false → lms_fault (ticks_of w) = false →
  ∃ w', RevokeSession s w = (Ok tt, w') ∧ sd_tokens (sw_sessions w') = sd_tokens (sw_sessions w).
Proof.
  intros Ho Hf.
  unfold RevokeSession, platform_RevokeSession, remove_session, session_remove, on_rows, map_err, m_bind.
  rewrite Ho, statement_run. cbn [fst snd]. unfold SessionStore_Remove. rewrite Hf. cbn [fst snd m_ret].
  match goal with |- context [ClearUserSessionCache ?u ?w] => destruct (ClearUserSessionCache_run (E := sessionError) u w) as [c ->] end.
  by eexists.
Qed.

(** C29: A failed delete of an access token is reported as done.  When the
    statement inside the transaction fails, the transaction is rolled back and
    the error is lost: revoking the token succeeds, yet every access token is
    still there and as valid as before. *)
Theorem failed_delete_is_reported_done token w :
  only_delete_fails w →
  (∀ k s, sd_rows (sw_sessions w) !! k = Some s → Sess_Token s = Tok_Token token ∨ Sess_Id s = Tok_Token token →
     Sess_IsOAuth s = false) →
  ∃ w', RevokeUserAccessToken token w = (Ok tt, w') ∧ sd_tokens (sw_sessions w') = sd_tokens (sw_sessions w).
Proof.
  intros Hf Ho. assert (∀ n, n ≠ (ticks_of w + 4)%nat → lms_fault n = false) as Hok.
  { intros n Hn. destruct (lms_fault n) eqn:He; [|done]. by apply Hf in He. }
  unfold RevokeUserAccessToken, session_of_token, GetSessionContext, session_get, read_rows, wrapS, on_tokens.
  unfold map_err, attempt, m_bind. rewrite statement_run. cbn [fst snd].
  unfold SessionStore_Get. rewrite (Hok (ticks_of w)), (Hok (S (ticks_of w))) by lia.
  destruct (sessions_where _ (sd_rows (sw_sessions w))) as [|s l] eqn:Hl; cbn [fst snd m_ret m_throw].
  all: rewrite statement_run; unfold TokenStore_Delete.
  all: set (n := ticks_of (SessWorld (tick_users (sw_users w)) (sw_sessions w))).
  all: assert (n = S (S (S (ticks_of w)))) as Hn by (by destruct w).
  all: rewrite (Hok n), (proj2 (Hf (S n))) by lia; cbn [fst snd m_ret revoke_found].
  - eexists. split; [reflexivity|done].
  - assert (s ∈ sessions_where (λ s, String.eqb (Sess_Token s) (Tok_Token token) || String.eqb (Sess_Id s) (Tok_Token token))
      (sd_rows (sw_sessions w))) as (Hs & k & Hk)%rows_of_where by (rewrite Hl; left).
    eapply Ho in Hk; [|by apply orb_true_iff in Hs as [?%String.eqb_eq|?%String.eqb_eq]; auto].
    eapply RevokeSession_unfailing in Hk as (w' & -> & Ht); [eexists; split; [reflexivity|by rewrite Ht]|].
    apply Hok. destruct w as [[[? ?] ?] ?]. cbn. lia.
Qed.
End failed_delete.

(** ** Examples *)

(** [n] rows that were used one after the other and expire so. *)
Definition row_of (user : string) (n : nat) : UserSession :=
  MkSession ("s" +:+ pretty n) ("t" +:+ pretty n) 1 (Z.of_nat n) (Z.of_nat n) user "" "system_user" false false ∅ false.
Definition many_rows (user : string) (n : nat) : session_rows :=
  list_to_map ((λ i, (Sess_Id (row_of user i), row_of user i)) <$> seq 0 n).

Lemma many_rows_keyed user n : keyed (many_rows user n).
Proof.
  intros k s Hs%elem_of_list_to_map_2. by apply list_elem_of_fmap in Hs as (i & [= -> ->] & _).
Qed.

Section witnesses.
Import School SignedIn.
#[local] Existing Instance cents.

Definition crowded : sess_world Z (list (LRU UserSession)) :=
  SessWorld seen (with_session_rows (many_rows an_id 520) no_sessions).

Lemma CreateSession_bounds_sessions_witness :
  session_count an_id crowded = 520%nat ∧
  (session_count an_id (CreateSession (wanted an_id "secret") crowded).2 ≤ 500)%nat.
Proof.
  assert (session_count an_id crowded = 520%nat) as Hn by (vm_compute; reflexivity).
  assert (match (CreateSession (wanted an_id "secret") crowded).1 with Ok _ => True | Err _ => False end) as Hok
    by (vm_compute; exact I).
  split; [exact Hn|].
  pose proof (surjective_pairing (CreateSession (wanted an_id "secret") crowded)) as Hrun.
  destruct (CreateSession (wanted an_id "secret") crowded).1 as [saved|]; [|destruct Hok].
  pose proof (CreateSession_bounds_sessions (wanted an_id "secret") saved crowded _ (many_rows_keyed an_id 520) Hrun) as Hb.
  change (Sess_UserId (wanted an_id "secret")) with an_id in Hb. rewrite Hn in Hb. exact Hb.
Defined.

(** Five of seven rows have expired; the third of four rounds fails. *)
Definition third_round_fails (n : nat) : bool := (n =? 2)%nat.

Lemma Cleanup_finishes_witness :
  (∃ r rows, SessionStore_Cleanup 8 (λ _, false) 6 2 (many_rows an_id 7) = Some (r, rows) ∧ r = Ok tt) ∧
  ∃ r rows, SessionStore_Cleanup 8 third_round_fails 6 2 (many_rows an_id 7) = Some (r, rows) ∧ r ≠ Ok tt.
Proof.
  assert (size (many_rows an_id 7) < 8)%nat as Hsize by (vm_compute; lia).
  split.
  - destruct (Cleanup_finishes 6 2 (λ _, false) (many_rows an_id 7) 8 eq_refl (many_rows_keyed _ _) Hsize)
      as (r & rows & Hrun & _ & _ & _ & Hok).
    exists r, rows. split; [exact Hrun|]. by apply Hok.
  - destruct (Cleanup_finishes 6 2 third_round_fails (many_rows an_id 7) 8 eq_refl (many_rows_keyed _ _) Hsize)
      as (r & rows & Hrun & _).
    exists r, rows. split; [exact Hrun|].
    assert (match SessionStore_Cleanup 8 third_round_fails 6 2 (many_rows an_id 7) with
            | Some (Err _, _) => True | _ => False end) as Herr by (vm_compute; exact I).
    rewrite Hrun in Herr. destruct r; [destruct Herr|discriminate].
Defined.
End witnesses.

Section failing_witness.
Import School SignedIn.
#[local] Existing Instance cents.

(** The second effect fails. *)
#[local] Instance flaky : LmsEnv | 0 := {|
  lms_clock := λ n, Z.of_nat (S n); lms_id := λ n, pad 26 ("u" +:+ pretty n +:+ "x"); lms_fault := Nat.eqb 4;
|}.

Definition a_token : UserAccessToken := MkToken "token id" "token" an_id "" true.
Definition holding_token : sess_world Z (list (LRU UserSession)) :=
  SessWorld nobody (SessionDB ∅ empty_cache {["token id" := a_token]} ∅).

Lemma failed_delete_is_reported_done_witness :
  ∃ w', RevokeUserAccessToken a_token holding_token = (Ok tt, w') ∧
    sd_tokens (sw_sessions w') !! "token id" = Some a_token.
Proof.
  destruct (failed_delete_is_reported_done a_token holding_token) as (w' & Hrun & Ht).
  - intros n. unfold lms_fault, flaky. rewrite Nat.eqb_eq. cbn. split; intros; symmetry; assumption.
  - intros k s Hs. cbn in Hs. rewrite lookup_empty in Hs. discriminate Hs.
  - exists w'. split; [exact Hrun|]. rewrite Ht. reflexivity.
Defined.
End failing_witness.
