(* ===== verification/WebAuthProps.v ===== *)
(** * Properties of the web's authentication

    The token of a request, forged requests, and what the sessions have to do
    with the accounts of the learning system. *)

From stdpp Require Import strings sorting.
From S2P Require Import Prelude.
From S2P Require Import GoString.
From S2P Require Import GoUtf8.
From S2P Require Import GoRunes.
From S2P Require Import LmsModel.
From S2P Require Import Hashers.
From S2P Require Import PlatUser.
From S2P Require Import CallStore.
From S2P Require Import LmsStore.
From S2P Require Import LmsTables.
From S2P Require Import LmsApp.
From S2P Require Import LmsColumns.
From S2P Require Import LmsQuery.
From S2P Require Import LmsContent.
From S2P Require Import LmsSchedule.
From S2P Require Import LmsTuition.
From S2P Require Import LmsClass.
From S2P Require Import LmsRoutes.
From S2P Require Import LmsChat.
From S2P Require Import LmsRoles.
From S2P Require Import UserStore.
From S2P Require Import LmsUsers.
From S2P Require Import LmsUsersInv.
From S2P Require Import LmsPublic.
From S2P Require Import LmsDashboard.
From S2P Require Import Login.
From S2P Require Import CreateUser.
From S2P Require Import LmsApi.
From S2P Require Import LruStriped.
From S2P Require Import Sessions.
From S2P Require Import SessionService.
From S2P Require Import SessionProps.
From S2P Require Import WebAuth.
From S2P Require Import LmsUsersDemo.
From S2P Require Import LoginProps.
From S2P Require Import LmsApiProps.
From S2P Require Import Lru.
From S2P Require Import SessionDemo.

Local Open Scope string_scope.
Local Open Scope go_scope.

(** ** The token *)

Lemma length_substring n m s : (n + m ≤ String.length s)%nat → String.length (String.substring n m s) = m.
Proof.
  revert n m. induction s as [|a s IH]; intros [|n] [|m] Hle; cbn in *; try lia; try done.
  - rewrite IH; lia.
  - apply IH. lia.
  - apply IH. lia.
Qed.

Lemma strip_token_bounds r : ∃ t, strip_token r = Some (t, r.2) ∧ (String.length t ≤ 50)%nat.
Proof.
  destruct r as [token loc]. unfold strip_token, slice_to. destruct (Nat.ltb_spec 50 (String.length token)).
  - rewrite (proj2 (Nat.leb_le _ _)) by lia. eexists. split; [reflexivity|]. rewrite length_substring; lia.
  - exists token. split; [done|lia].
Qed.

Lemma header_is_total fold h s :
  ∃ b, header_is fold h s = Some b ∧ (b = true → (String.length h < String.length s)%nat).
Proof.
  unfold header_is, slice_to. destruct (Nat.ltb_spec (String.length h) (String.length s)); [|by exists false].
  rewrite (proj2 (Nat.leb_le _ _)) by lia. by eexists.
Qed.

Lemma slice_from_total n s : (n ≤ String.length s)%nat → ∃ t, slice_from n s = Some t.
Proof. intros Hn. unfold slice_from. rewrite (proj2 (Nat.leb_le _ _) Hn). by eexists. Qed.

(** Any headers, cookies and query give a token, of 50 bytes at most: no
    header makes a slice run out of range.  A cookie wins over everything
    else. *)
Theorem ParseAuthTokenFromRequest_total r :
  ∃ t loc, ParseAuthTokenFromRequest r = Some (t, loc) ∧ (String.length t ≤ 50)%nat ∧
    (is_Some (req_Cookie r) ↔ loc = TokenLocationCookie).
Proof.
  assert (∀ x, ∃ t, strip_token x = Some (t, x.2) ∧ (String.length t ≤ 50)%nat) as Hstrip by apply strip_token_bounds.
  unfold ParseAuthTokenFromRequest. destruct (req_Cookie r) as [v|]; cbn [option_bind mbind].
  { destruct (Hstrip (v, TokenLocationCookie)) as (t & -> & Ht). by eexists _, _. }
  assert (∀ x, x.2 ≠ TokenLocationCookie →
    ∃ t loc, strip_token x = Some (t, loc) ∧ (String.length t ≤ 50)%nat ∧ (is_Some (None : option string) ↔ loc = TokenLocationCookie))
    as Hother.
  { intros x Hx. destruct (Hstrip x) as (t & -> & Ht). eexists _, _. split; [done|split; [done|]].
    split; [by intros []|done]. }
  destruct (header_is_total ToUpperASCII HeaderBearer (req_Authorization r)) as (bearer & -> & Hb).
  cbn [option_bind mbind]. destruct bearer.
  { destruct (slice_from_total 7 (req_Authorization r)) as [t Ht]; [by apply Hb|]. rewrite Ht. by apply Hother. }
  destruct (header_is_total ToLowerASCII HeaderToken (req_Authorization r)) as (oauth & -> & Ho).
  cbn [option_bind mbind]. destruct oauth.
  { destruct (slice_from_total 6 (req_Authorization r)) as [t Ht]; [by apply Ho|]. rewrite Ht. by apply Hother. }
  apply Hother. unfold other_token. by repeat case_match.
Qed.

Section web_props.
Context `{UnicodeTables} `{UnicodeLower} `{UserLib} `{Crypto} `{Decimal D} `{LmsEnv} `{GoRange}.
Context `{UsersEnv} `{JsonProps J} `{UserConfig} `{QmHelper} `{Collation} `{FileStore} `{ServerZone} `{DbZone}.
Context `{ChatPlatform P} `{Platform} `{Engines D} `{LoginConfig} `{Otp}.
Context `{CacheOk UserSession C} `{SessionConfig} `{LoginEnv} `{WebConfig}.
Context (teacherDisplayName : string → string).

Abbreviation SW := (sess_world D C).
Abbreviation WW := (web_world (D := D) (P := P) (C := C)).
Abbreviation stored w := (sd_rows (sw_sessions w)).
Abbreviation cached w := (sd_cache (sw_sessions w)).
Abbreviation issued w := (sd_tokens (sw_sessions w)).

(** ** What reading a session leaves alone *)

(** Every table of the school and of the accounts. *)
Definition school (w : users_world D) : lmsDB D * gmap string User * gmap string (string * Z) :=
  (lms_db (uw_lms w), us_rows (uw_users w), us_bots (uw_users w)).

Section same.
Context (x : lmsDB D * gmap string User * gmap string (string * Z)).
Definition same_school (w : SW) : Prop := school (sw_users w) = x.

Lemma same_on_sessions {E A} (f : nat → session_db C → A * session_db C) :
  ensures (E := E) same_school (on_sessions f) (λ _, True).
Proof.
  intros w Hw. rewrite on_sessions_run. split; [|done]. unfold same_school in *. rewrite <- Hw. by destruct w as [[[] ?] ?].
Qed.

Lemma same_statement {E A} (f : nat → session_db C → res E A * session_db C) :
  ensures same_school (throw_res (on_sessions f)) (λ _, True).
Proof. eapply ensures_bind; [apply same_on_sessions|]. intros [a|e] _; ens_tac. Qed.

Lemma same_us_get (f : storeError → lmsError) id :
  ensures same_school (lift_users (wrapU f (us_get id))) (λ _, True).
Proof.
  intros [uw d] Hw. unfold same_school, school, lift_users, wrapU in *. cbn [sw_users sw_sessions] in *. rewrite <- Hw.
  assert (let '(r, u) := us_get id uw in school u = school uw) as Hg.
  { unfold us_get, or_throw, m_bind, on_users. unfold CachedUserStore_Get.
    destruct (if cache_dropped _ id then None else us_cache (uw_users uw) !! id); [done|].
    unfold UserStore_Get. cbn. destruct (lms_fault _); [done|]. by destruct (us_rows (uw_users uw) !! id). }
  by destruct (us_get id uw) as [[u|e] w'].
Qed.

Lemma same_on_rows {A} (f : nat → session_rows → res storeError A * session_rows) :
  ensures same_school (on_rows f) (λ _, True).
Proof. apply same_statement. Qed.

Lemma same_read_rows {A} (f : nat → session_rows → res storeError A) : ensures same_school (read_rows f) (λ _, True).
Proof. apply same_statement. Qed.

Lemma same_on_access {A} (f : nat → gset string → res storeError A * gset string) :
  ensures same_school (on_access f) (λ _, True).
Proof. apply same_statement. Qed.

Lemma same_on_cache {E A} (f : Z → C → A * C) : ensures (E := E) same_school (on_cache f) (λ _, True).
Proof. apply same_on_sessions. Qed.

#[local] Hint Resolve same_on_sessions same_statement same_us_get same_on_rows same_read_rows same_on_access
  same_on_cache : ens.

Lemma same_platform_GetSession t : ensures same_school (platform_GetSession t) (λ _, True).
Proof. unfold platform_GetSession, GetSessionContext, session_get. ens_tac. Qed.

#[local] Hint Resolve same_platform_GetSession : ens.

Lemma same_remove_session s : ensures same_school (remove_session s) (λ _, True).
Proof. unfold remove_session, RevokeAccessToken, ClearUserSessionCache, ClearUserSessionCacheLocal, session_remove. ens_tac. Qed.

#[local] Hint Resolve same_remove_session : ens.

Lemma same_RevokeSession s : ensures same_school (RevokeSession s) (λ _, True).
Proof. unfold RevokeSession, platform_RevokeSession, ClearUserSessionCache, ClearUserSessionCacheLocal. ens_tac. Qed.

#[local] Hint Resolve same_RevokeSession : ens.

Lemma same_limit u : ensures same_school (limitNumberOfSessions u) (λ _, True).
Proof.
  unfold limitNumberOfSessions, GetLRUSessions, wrapS. apply ensures_map_err.
  eapply ensures_bind; [apply ensures_map_err; eauto with ens|]. intros l _. apply ensures_for. eauto with ens.
Qed.

#[local] Hint Resolve same_limit : ens.

Lemma same_token_session t : ensures same_school (token_session t) (λ _, True).
Proof.
  unfold token_session, createSessionForUserAccessToken, wrapS, token_by_token, SetSessionExpireInHours, session_save,
    AddSessionToCache, model_GetMillis.
  ens_tac.
Qed.

#[local] Hint Resolve same_token_session : ens.

Lemma same_attempt_RevokeSessionById {E} id :
  ensures same_school (attempt (E' := E) (RevokeSessionById id)) (λ _, True).
Proof.
  eapply ensures_weaken; [apply ensures_attempt|done].
  unfold RevokeSessionById, GetSessionById, GetSessionByID, session_get, wrapS. ens_tac.
Qed.

#[local] Hint Resolve same_attempt_RevokeSessionById : ens.

Lemma same_app_GetSession t : ensures same_school (app_GetSession t) (λ _, True).
Proof.
  unfold app_GetSession, use_session, refresh_cached, idle_check, model_GetMillis, AddSessionToCache. ens_tac.
Qed.
End same.

(** ** The session a token is found to have *)

Lemma token_session_none t (w : SW) :
  (∀ k tok, issued w !! k = Some tok → Tok_Token tok ≠ t) → ∃ e w', token_session t w = (Err e, w').
Proof.
  intros Hno. unfold token_session, createSessionForUserAccessToken, wrapS, token_by_token, map_err, m_bind.
  rewrite statement_run. cbn [fst snd]. unfold TokenStore_GetByToken. destruct (lms_fault _); [by eexists _, _|].
  destruct (tokens_where _ _) as [|tok l] eqn:Hl; [by eexists _, _|]. exfalso.
  assert (tok ∈ tokens_where (λ t', String.eqb (Tok_Token t') t) (issued w)) as Hin by (rewrite Hl; left).
  unfold tokens_where in Hin. apply list_elem_of_filter in Hin as [Ht%String.eqb_eq Hin].
  apply list_elem_of_fmap in Hin as ([k t'] & -> & Hin). apply elem_of_go_range in Hin. by eapply Hno.
Qed.

Lemma refresh_cached_issued s (w w' : SW) r : refresh_cached s w = (r, w') → issued w' = issued w.
Proof.
  unfold refresh_cached, AddSessionToCache, on_cache, model_GetMillis, m_bind. rewrite on_sessions_run. cbn [fst snd].
  destruct (IsExpired _ s); [by intros [= _ <-]|]. rewrite on_sessions_run. by intros [= _ <-].
Qed.

Lemma idle_check_same s s' (w w' : SW) : idle_check s w = (Ok s', w') → s' = s.
Proof.
  unfold idle_check, model_GetMillis. destruct (_ && _); [|by intros [= <- _]]. unfold m_bind. rewrite on_sessions_run.
  destruct (_ <? _)%Z; [|by intros [= <- _]]. unfold attempt. by destruct (RevokeSessionById _ _).
Qed.

Lemma platform_GetSession_finds t s (w w' : SW) :
  cache_ok (cached w) → platform_GetSession t w = (Ok s, w') →
  cache_holds (cached w) t s ∨ ∃ k, stored w !! k = Some s.
Proof.
  intros Hc Hrun. unfold platform_GetSession, on_cache, m_bind in Hrun. rewrite on_sessions_run in Hrun.
  assert (∀ w1 : SW, stored w1 = stored w → GetSessionContext t w1 = (Ok s, w') → ∃ k, stored w !! k = Some s) as Hrow.
  { intros w1 Hs. unfold GetSessionContext, session_get, read_rows. rewrite statement_run. cbn [fst snd].
    unfold SessionStore_Get. destruct (lms_fault _); [done|]. destruct (sessions_where _ _) as [|s0 l] eqn:Hl; [done|].
    destruct (lms_fault _); [done|]. intros [= -> _].
    assert (s ∈ sessions_where (λ s, String.eqb (Sess_Token s) t || String.eqb (Sess_Id s) t) (stored w1)) as Hin
      by (rewrite Hl; left). apply rows_of_where in Hin as (_ & k & Hk). exists k. by rewrite <- Hs. }
  destruct (cache_Get _ t (cached w)) as [[s0|] c] eqn:Hget; cbn [fst snd] in Hrun.
  - destruct (String.eqb (Sess_Id s0) ""); [right; by eapply Hrow; [|exact Hrun]|]. injection Hrun as -> _. left.
    by eapply Get_holds.
  - right. by eapply Hrow; [|exact Hrun].
Qed.

Lemma app_GetSession_finds t s (w w' : SW) :
  cache_ok (cached w) → (∀ k tok, issued w !! k = Some tok → Tok_Token tok ≠ t) →
  app_GetSession t w = (Ok s, w') →
  Sess_Token s = t ∧ (cache_holds (cached w) t s ∨ ∃ k, stored w !! k = Some s).
Proof.
  intros Hc Hno Hrun. apply bind_inv in Hrun as [(found & w1 & Hfound & Hrun)|(e & _ & ?)]; [|done].
  unfold attempt in Hfound. destruct (platform_GetSession t w) as [r w1'] eqn:Hp. injection Hfound as <- <-.
  pose proof (run_preserves _ _ _ _ _ Hp (shrinks_platform_GetSession _ _ t) (below_refl w)) as [_ Ht1].
  apply bind_inv in Hrun as [(s1 & w2 & Huse & Hrun)|(e & _ & ?)]; [|done].
  assert (∀ w3 : SW, issued w3 = issued w → token_session t w3 = (Ok s1, w2) → False) as Htok.
  { intros w3 Hw3 Hts. destruct (token_session_none t w3) as (e & w4 & Hts'); [by rewrite Hw3|]. congruence. }
  destruct r as [s0|e]; [|exfalso; by eapply Htok].
  destruct (String.eqb_spec (Sess_Token s0) t) as [Hst|]; cbn [negb] in Huse; [|done].
  apply bind_inv in Huse as [([] & w3 & Hre & Huse)|(e & _ & ?)]; [|done]. apply refresh_cached_issued in Hre.
  destruct (String.eqb (Sess_Id s0) ""); [exfalso; eapply Htok; [|done]; congruence|]. injection Huse as <- <-.
  destruct (String.eqb (Sess_Id s0) ""); [done|].
  apply bind_inv in Hrun as [(now & w4 & _ & Hrun)|(e & _ & ?)]; [|done]. destruct (IsExpired now s0); [done|].
  apply idle_check_same in Hrun as ->. split; [done|]. by eapply platform_GetSession_finds.
Qed.

(** ** Forged requests *)

(** Everything a request to the learning system reads or writes but the
    accounts in the cache. *)
Definition platform_data (w : WW) := (school (aw_users (ww_api w)), aw_chat (ww_api w), aw_roles (ww_api w)).

Lemma ensures_onS {E A} x (m : M SW E A) Q :
  (∀ y, ensures (same_school y) m Q) → ensures (λ w, platform_data w = x) (onS m) Q.
Proof.
  intros Hm w Hw. unfold onS. destruct (Hm (school (aw_users (ww_api w))) (sess_of w) eq_refl) as [Hs Hq].
  destruct (m (sess_of w)) as [r s]. split; [|exact Hq]. rewrite <- Hw. unfold platform_data, with_sess. cbn.
  unfold same_school in Hs. cbn in Hs. by rewrite Hs.
Qed.

(** A request that a browser sends with the cookie of a session it cannot read:
    neither the CSRF token of a session with that token nor, where it counts,
    the header a script would have to set. *)
Definition forged (r : http_request) (t : string) (w : WW) : Prop :=
  req_Method r ≠ "GET" ∧
  (req_RequestedWith r ≠ HeaderRequestedWithXML ∨ ExperimentalStrictCSRFEnforcement = true) ∧
  ∀ s, Sess_Token s = t →
    cache_holds (sd_cache (ww_sessions w)) t s ∨ (∃ k, sd_rows (ww_sessions w) !! k = Some s) → GetCSRF s ≠ req_CsrfToken r.

Lemma forged_unchecked h r t s (w : WW) :
  TrustRequester h = false → forged r t w → Sess_Token s = t →
  cache_holds (sd_cache (ww_sessions w)) t s ∨ (∃ k, sd_rows (ww_sessions w) !! k = Some s) →
  checkCSRFToken h r TokenLocationCookie (Sender s (Some s) None) = (true, false).
Proof.
  intros Ht (Hm & Hx & Hc) Hs Hin. unfold checkCSRFToken. cbn [found_session sender_err].
  rewrite Ht, (proj2 (String.eqb_neq _ _) Hm). cbn.
  rewrite (proj2 (String.eqb_neq (req_CsrfToken r) (GetCSRF s))) by (intros Heq; by eapply Hc). cbn.
  destruct Hx as [Hx| ->]; [by rewrite (proj2 (String.eqb_neq _ _) Hx)|by rewrite andb_false_r].
Qed.

Lemma forged_not_sent h r t (w w' : WW) c :
  RequireSession h = true → TrustRequester h = false → forged r t w → cache_ok (sd_cache (ww_sessions w)) →
  (∀ k tok, sd_tokens (ww_sessions w) !! k = Some tok → Tok_Token tok ≠ t) →
  token_sender h r t TokenLocationCookie w = (Ok c, w') → is_Some (sender_err c).
Proof.
  intros Hh Ht Hf Hc Hno Hrun. apply bind_inv in Hrun as [(c0 & w1 & Hopen & Hrun)|(e & _ & ?)]; [|done].
  assert (is_Some (sender_err c0) ∧ found_session c0 = None ∨
          checkCSRFToken h r TokenLocationCookie c0 = (true, false)) as Hc0.
  { unfold open_session, m_bind, attempt, onS in Hopen.
    destruct (app_GetSession t (sess_of w)) as [[s|e] w2] eqn:Hget; injection Hopen as <- _.
    - right. apply app_GetSession_finds in Hget as [Hst Hin]; [|done|done]. rewrite andb_false_r.
      by eapply forged_unchecked.
    - left. rewrite Hh. by destruct (_ =? _)%Z. }
  apply bind_inv in Hrun as [(limited & w2 & _ & Hrun)|(e & _ & ?)]; [|done]. destruct limited; [done|].
  destruct Hc0 as [[He Hn]|Hck]; [|rewrite Hck in Hrun; injection Hrun as <- _; by eexists].
  unfold checkCSRFToken in Hrun. rewrite Hn in Hrun. by injection Hrun as <- _.
Qed.

Lemma token_sender_same h r t loc x : ensures (λ w : WW, platform_data w = x) (token_sender h r t loc) (λ _, True).
Proof.
  unfold token_sender, open_session, is_rate_limited. eapply ensures_bind with (Q := λ _, True).
  { eapply ensures_bind with (Q := λ _, True); [|by intros ? _; apply ensures_ret].
    eapply ensures_weaken; [apply ensures_attempt|done]. apply ensures_onS. intros y. apply same_app_GetSession. }
  intros c _. eapply ensures_bind with (Q := λ _, True); [by intros w Hw|]. intros [] _; [by apply ensures_throw|].
  destruct (checkCSRFToken h r loc c). by apply ensures_ret.
Qed.

Lemma not_admitted {A} h r (body : UserSession → M WW lmsError A) t loc (w w1 : WW) res :
  RequireSession h = true → ParseAuthTokenFromRequest r = Some (t, loc) → find_sender h r t loc w = (res, w1) →
  match res with Err _ => True | Ok c => is_Some (sender_err c) ∨ Sess_UserId (ctx_session c) = "" end →
  platform_data w1 = platform_data w →
  ∃ e w', ServeHTTP h r body w = (Err e, w') ∧ platform_data w' = platform_data w.
Proof.
  intros Hh Hparse Hfind Hc Hsame. unfold ServeHTTP, admit_request. rewrite Hparse, Hh.
  unfold m_bind. destruct (_ <? _)%nat; [by eexists _, _|]. rewrite Hfind. destruct res as [c|e]; [|by eexists _, _].
  destruct (sender_err c) as [e|]; [by eexists _, _|]. destruct Hc as [[]|Hu]; [done|]. cbn [throw_some m_ret].
  unfold SessionRequired. rewrite Hu. destruct (_ && _); by eexists _, _.
Qed.

(** C18: A forged request changes nothing.  Another site can make a browser send
    the cookie of a session with a request that is not a GET, but not its CSRF
    token: the request fails before the handler of the learning system runs,
    and no table of it, of the accounts or of the roles and nothing in the chat
    has changed.  The cookie is a session's, not an access token. *)
Theorem forged_request_changes_nothing {A} (r : http_request) (t : string) (q : request D J A) (w : WW) :
  is_public q = false → ParseAuthTokenFromRequest r = Some (t, TokenLocationCookie) →
  cache_ok (sd_cache (ww_sessions w)) → (∀ k tok, sd_tokens (ww_sessions w) !! k = Some tok → Tok_Token tok ≠ t) →
  forged r t w →
  ∃ e w', serve_lms teacherDisplayName r q w = (Err e, w') ∧ platform_data w' = platform_data w.
Proof.
  intros Hq Hparse Hc Hno Hf. unfold serve_lms, handler_of. rewrite Hq.
  destruct (find_sender APISessionRequired r t TokenLocationCookie w) as [res w1] eqn:Hfind.
  eapply not_admitted; [done|done|exact Hfind|..]; unfold find_sender in Hfind; destruct (String.eqb t "");
    try (injection Hfind as <- <-; auto).
  - destruct res as [c|e]; [|done]. left. by eapply (forged_not_sent APISessionRequired).
  - destruct (token_sender_same APISessionRequired r t TokenLocationCookie _ w eq_refl) as [Hs _]. by rewrite Hfind in Hs.
Qed.

(** ** Starting a session *)

Section cache_kept.
Definition cache_kept (w : SW) : Prop := cache_ok (cached w).

Lemma kept_on_rows {A} (f : nat → session_rows → res storeError A * session_rows) :
  ensures cache_kept (on_rows f) (λ _, True).
Proof. intros w Hw. unfold on_rows. rewrite statement_run. by destruct (f _ _). Qed.

Lemma kept_read_rows {A} (f : nat → session_rows → res storeError A) : ensures cache_kept (read_rows f) (λ _, True).
Proof. intros w Hw. unfold read_rows. by rewrite statement_run. Qed.

Lemma kept_on_access {A} (f : nat → gset string → res storeError A * gset string) :
  ensures cache_kept (on_access f) (λ _, True).
Proof. intros w Hw. unfold on_access. rewrite statement_run. by destruct (f _ _). Qed.

Lemma kept_access_read {A} (f : nat → session_db C → res storeError A) :
  ensures cache_kept (throw_res (on_sessions (λ n d, (f n d, d)))) (λ _, True).
Proof. intros w Hw. by rewrite statement_run. Qed.

Lemma kept_Get {E} t : ensures (E := E) cache_kept (on_cache (λ now c, cache_Get now t c)) (λ _, True).
Proof.
  intros w Hw. unfold on_cache. rewrite on_sessions_run. pose proof (Get_ok (lms_clock (ticks_of w)) t _ Hw) as Hok.
  by destruct (cache_Get _ t _).
Qed.

Lemma kept_Clear {E} u : ensures (E := E) cache_kept (ClearUserSessionCache u) (λ _, True).
Proof.
  intros w Hw. unfold ClearUserSessionCache, ClearUserSessionCacheLocal, on_cache. rewrite on_sessions_run.
  pose proof (cleared_cache (lms_clock (ticks_of w)) u _ Hw) as Hcl. destruct (cached_sessions _ _ _) as [found c].
  by destruct Hcl.
Qed.

Lemma kept_lift_users {E A} (m : M (users_world D) E A) : ensures cache_kept (lift_users m) (λ _, True).
Proof. intros [uw d] Hw. unfold lift_users. cbn. by destruct (m uw). Qed.

Lemma kept_NewId {E} : ensures (E := E) cache_kept model_NewId (λ _, True).
Proof. intros w Hw. unfold model_NewId. by rewrite on_sessions_run. Qed.

Lemma kept_GetMillis {E} : ensures (E := E) cache_kept model_GetMillis (λ _, True).
Proof. intros w Hw. unfold model_GetMillis. by rewrite on_sessions_run. Qed.

#[local] Hint Resolve kept_on_rows kept_read_rows kept_on_access kept_access_read kept_Get kept_Clear kept_lift_users
  kept_NewId kept_GetMillis : ens.

Lemma kept_platform_GetSession t : ensures cache_kept (platform_GetSession t) (λ _, True).
Proof. unfold platform_GetSession, GetSessionContext, session_get. ens_tac. Qed.

#[local] Hint Resolve kept_platform_GetSession : ens.

Lemma kept_RevokeSession s : ensures cache_kept (RevokeSession s) (λ _, True).
Proof. unfold RevokeSession, platform_RevokeSession, remove_session, RevokeAccessToken, session_remove. ens_tac. Qed.

#[local] Hint Resolve kept_RevokeSession : ens.

Lemma kept_limit u : ensures cache_kept (limitNumberOfSessions u) (λ _, True).
Proof.
  unfold limitNumberOfSessions, GetLRUSessions, wrapS. apply ensures_map_err.
  eapply ensures_bind; [apply ensures_map_err; eauto with ens|]. intros l _. apply ensures_for. eauto with ens.
Qed.

Lemma kept_RevokeSessionsForDeviceId u d id : ensures cache_kept (RevokeSessionsForDeviceId u d id) (λ _, True).
Proof.
  unfold RevokeSessionsForDeviceId, platform_RevokeSessionsForDeviceId, session_list. apply ensures_map_err.
  eapply ensures_bind; [apply ensures_map_err; eauto with ens|]. intros l _. apply ensures_for. intros s _.
  destruct (_ && _); [|ens_tac]. eapply ensures_bind with (Q := λ _, True); [|ens_tac].
  eapply ensures_weaken; [apply ensures_attempt|done].
  unfold platform_RevokeSession, remove_session, RevokeAccessToken, session_remove. ens_tac.
Qed.

Lemma kept_expiry {E} s h : ensures (E := E) cache_kept (SetSessionExpireInHours s h) (λ s', ∃ x, s' = Sess_with_ExpiresAt x s).
Proof.
  unfold SetSessionExpireInHours. destruct (_ || _); [|apply ensures_ret; by eexists].
  eapply ensures_bind; [apply kept_GetMillis|]. intros now _. apply ensures_ret. by eexists.
Qed.

Lemma kept_login_expiry s d m o sm :
  ensures cache_kept (login_expiry s d m o sm) (λ s', ∃ x, s' = Sess_with_ExpiresAt x s).
Proof.
  unfold login_expiry. destruct (negb _).
  - eapply ensures_bind; [apply kept_expiry|]. intros s' Hs'.
    eapply ensures_bind; [apply ensures_map_err, kept_RevokeSessionsForDeviceId|]. intros _ _. by apply ensures_ret.
  - destruct m; [apply kept_expiry|]. destruct (_ || _); apply kept_expiry.
Qed.
End cache_kept.

(** A new session is the latest entry of the cache. *)
Lemma CreateSession_inv s saved (w w' : SW) :
  cache_ok (cached w) → CreateSession s w = (Ok saved, w') →
  ∃ n m, saved = Session_PreSave (lms_id n) (lms_id (S n)) (lms_clock n) (Sess_with_Token "" s) ∧
    Session_IsValid saved = None ∧ cached_at (lms_clock m) (Sess_Token saved) saved w' ∧ ticks_of w' = (3 + m)%nat.
Proof.
  intros Hc Hrun. apply bind_inv in Hrun as [([] & w1 & Hlimit & Hrun)|(e & _ & ?)]; [|done].
  pose proof (run_ensures _ _ _ _ _ _ Hlimit (kept_limit _) Hc) as Hc1.
  apply bind_inv in Hrun as [(user & w2 & Huser & Hrun)|(e & _ & ?)]; [|done].
  assert (cache_kept w2) as Hc2.
  { apply (run_ensures _ _ _ _ _ _ Huser (ensures_attempt _ _ _ (kept_lift_users _)) Hc1). }
  assert (platform_CreateSession s w2 = (Ok saved, w')) as Hcreate.
  { destruct user as [user|e]; [destruct (IsRemote user)|destruct (_ =? _)%Z]; try done; by apply map_err_Ok in Hrun. }
  unfold platform_CreateSession, session_save, on_rows, m_bind in Hcreate. rewrite statement_run in Hcreate.
  cbn [fst snd] in Hcreate. unfold SessionStore_Save in Hcreate. destruct (negb _); [done|].
  destruct (Session_IsValid _) eqn:Hv; [done|]. destruct (_ || _); [done|]. destruct (lms_fault (S _)); [done|].
  cbn [fst snd] in Hcreate. unfold AddSessionToCache, on_cache in Hcreate. rewrite on_sessions_run in Hcreate.
  injection Hcreate as <- <-. eexists _, _. split; [reflexivity|split; [exact Hv|split]].
  - eexists. split; [reflexivity|exact Hc2].
  - by destruct w2.
Qed.
(** What a login makes. *)
Definition fresh_session (user : User) (s : UserSession) : Prop :=
  Sess_UserId s = User_Id user ∧ Sess_Roles s = User_Roles user ∧ Sess_Local s = false ∧ Sess_Id s ≠ "" ∧
  Sess_UserId s ≠ "" ∧ IsUserAccessToken s = false ∧ ∃ n, Sess_Token s = lms_id n.

Lemma valid_session_ids s : Session_IsValid s = None → Sess_Id s ≠ "" ∧ Sess_UserId s ≠ "".
Proof.
  unfold Session_IsValid. intros Hv. split; intros He; rewrite He in Hv; [done|].
  by destruct (negb (IsValidId (Sess_Id s))).
Qed.

Lemma DoLogin_inv user agent device m o sm s (w w' : SW) :
  cache_ok (cached w) → DoLogin user agent device m o sm w = (Ok s, w') →
  fresh_session user s ∧ ∃ i, cached_at (lms_clock i) (Sess_Token s) s w' ∧ ticks_of w' = (6 + i)%nat.
Proof.
  intros Hc Hrun. unfold DoLogin in Hrun. destruct (negb _); [done|].
  apply bind_inv in Hrun as [(csrf & w1 & Hid & Hrun)|(e & _ & ?)]; [|done]. cbv zeta in Hrun.
  pose proof (run_ensures _ _ _ _ _ _ Hid kept_NewId Hc) as Hc1.
  apply bind_inv in Hrun as [(s1 & w2 & Hexp & Hrun)|(e & _ & ?)]; [|done].
  match type of Hexp with login_expiry ?s ?d ?m ?o ?sm _ = _ =>
    destruct (kept_login_expiry s d m o sm w1 Hc1) as [Hc2 Hs1] end. rewrite Hexp in Hc2, Hs1. cbn [fst snd] in Hc2, Hs1.
  destruct (Hs1 _ eq_refl) as [x ->]. clear Hs1 Hexp. destruct (user_agent agent) as [[plat os] browser].
  apply bind_inv in Hrun as [(s2 & w3 & Hcreate & Hrun)|(e & _ & ?)]; [|done].
  apply map_err_Ok, CreateSession_inv in Hcreate as (n & i & Hs2 & Hv & (c & Hcache & Hok) & Hticks); [|exact Hc2].
  apply bind_inv in Hrun as [([] & w4 & Hlast & Hrun)|(e & _ & ?)]; [|done]. injection Hrun as <- <-.
  apply map_err_Ok in Hlast.
  assert (sw_sessions w4 = sw_sessions w3 ∧ ticks_of w4 = (3 + ticks_of w3)%nat) as [Hsess Ht].
  { destruct w3 as [[[l k] us] d]. unfold us_last_login, lift_users, or_throw, m_bind, on_users in Hlast. cbn in Hlast.
    destruct (UserStore_UpdateLastLogin _ _ _ _ _) as [[[]|e] us']; [|done]. by injection Hlast as <-. }
  split.
  - apply valid_session_ids in Hv as [Hi Hu]. rewrite Hs2 in Hi, Hu |- *.
    split_and!; [done|done|done|exact Hi|exact Hu| |by eexists].
    unfold IsUserAccessToken, prop_is. apply bool_decide_eq_false. cbn. by simplify_map_eq.
  - exists i. split; [|lia]. exists c. by rewrite Hsess.
Qed.

(** ** Serving a session *)

(** A client of the API, which sends no cookie. *)
Definition sends_bearer (r : http_request) (t : string) : Prop :=
  req_Cookie r = None ∧ req_Authorization r = "Bearer " ++ t ∧ (String.length (req_RequestURI r) ≤ MaximumURLLength)%nat.

Lemma ParseAuthTokenFromRequest_bearer r t :
  req_Cookie r = None → req_Authorization r = "Bearer " ++ t → (String.length t ≤ 50)%nat →
  ParseAuthTokenFromRequest r = Some (t, TokenLocationHeader).
Proof.
  intros Hc Ha Ht. unfold ParseAuthTokenFromRequest. rewrite Hc, Ha.
  assert (header_is ToUpperASCII HeaderBearer ("Bearer " ++ t) = Some true) as ->.
  { unfold header_is, slice_to. cbn. by destruct t. }
  cbn [option_bind mbind]. unfold slice_from. cbn [String.length Nat.leb String.append Nat.sub]. rewrite Nat.sub_0_r.
  cbn [String.substring].
  assert (∀ s, String.substring 0 (String.length s) s = s) as Hsub by (induction s as [|a s IH]; cbn; congruence).
  rewrite Hsub. cbn [option_bind mbind]. unfold strip_token. destruct (Nat.ltb_spec 50 (String.length t)); [lia|done].
Qed.

(** Nothing but the session decides: no second factor is demanded, nobody is
    limited, sessions do not idle out. *)
Definition plain_web : Prop :=
  no_idling ∧ (0 < ttl)%Z ∧ EnforceMultifactorAuthentication = false ∧ ∀ n u, rate_limited n u = false.

Lemma serve_readable {A} r (q : request D J A) user s (w : WW) :
  plain_web → fresh_session user s → is_public q = false → sends_bearer r (Sess_Token s) →
  (0 < String.length (Sess_Token s) ≤ 50)%nat → readable (Sess_Token s) s (sess_of w) → live_at s (sess_of w) →
  ∃ w', serve_lms teacherDisplayName r q w = onA (handle teacherDisplayName (view_session s) q) w' ∧
    platform_data w' = platform_data w.
Proof.
  intros (Hidle & Httl & Hmfa & Hrate) (_ & _ & _ & Hid & Hu & Hno & _) Hq (Hcookie & Hauth & Huri) Hlen Hr Hlive.
  destruct (app_GetSession_readable _ s eq_refl Hid Hidle _ Httl Hr Hlive) as [sw Hget].
  unfold serve_lms, handler_of, ServeHTTP, admit_request. rewrite Hq.
  rewrite (ParseAuthTokenFromRequest_bearer r (Sess_Token s)) by (done || lia).
  destruct (Nat.ltb_spec MaximumURLLength (String.length (req_RequestURI r))); [lia|].
  unfold find_sender. assert (String.eqb (Sess_Token s) "" = false) as -> by (destruct (Sess_Token s); [cbn in Hlen; lia|done]).
  assert (token_sender APISessionRequired r (Sess_Token s) TokenLocationHeader w =
          (Ok (Sender s (Some s) None), with_sess w sw)) as Hsender.
  { unfold token_sender, open_session, m_bind, attempt, onS. rewrite Hget. cbn [fst snd m_ret].
    rewrite andb_false_r. unfold is_rate_limited, m_gets. rewrite Hrate. reflexivity. }
  exists (with_sess w sw). split.
  - unfold m_bind at 1 2. rewrite Hsender. cbn [sender_err throw_some m_ret ctx_session].
    unfold m_bind, SessionRequired. rewrite Hno, andb_false_r. cbn [andb]. rewrite (proj2 (String.eqb_neq _ _) Hu).
    cbn [RequireSession RequireMfa APISessionRequired throw_some m_ret]. unfold MFARequired. by rewrite Hmfa, orb_true_r.
  - pose proof (ensures_onS (platform_data w) _ _ (λ y, same_app_GetSession y (Sess_Token s)) w eq_refl) as [Hs _].
    unfold onS in Hs. by rewrite Hget in Hs.
Qed.
(** C19: Whoever has logged in is served.  A request that carries the token of
    the session a login returned reaches the handler of the learning system,
    with the id and the roles of the account whose password was checked, on
    the data as they were after the login. *)
Theorem login_then_served {A} (r0 r : http_request) (cred : credentials) (s : UserSession) (q : request D J A) (w w1 : WW) :
  cache_ok (sd_cache (ww_sessions w)) → login r0 cred w = (Ok s, w1) →
  plain_web → (∀ n, lms_clock (n + 6) ≤ lms_clock n + ttl)%Z → (∀ n, String.length (lms_id n) = 26%nat) →
  is_public q = false → sends_bearer r (Sess_Token s) → live_at s (sess_of w1) →
  ∃ user w2, (AuthenticateUserForLogin (cred_id cred) (cred_login_id cred) (cred_password cred) (cred_token cred)
                (aw_users (ww_api w))).1 = Ok user ∧
    view_session s = {| Session_UserId := User_Id user; Session_Roles := User_Roles user; Session_Local := false |} ∧
    serve_lms teacherDisplayName r q w1 = onA (handle teacherDisplayName (view_session s) q) w2 ∧
    platform_data w2 = platform_data w1.
Proof.
  intros Hc Hlogin Hplain Hoften Hlen Hq Hr Hlive. apply map_err_Ok in Hlogin.
  apply bind_inv in Hlogin as [(user & w3 & Hauth & Hlogin)|(e & _ & ?)]; [|done].
  apply bind_inv in Hlogin as [([] & w4 & Hallowed & Hlogin)|(e & _ & ?)]; [|done].
  assert (w4 = w3) as -> by (by destruct (login_allowed user); injection Hallowed). clear Hallowed.
  unfold onS in Hauth, Hlogin. destruct (lift_users _ (sess_of w)) as [res sw] eqn:Hlift. injection Hauth as -> <-.
  assert (cache_ok (cached sw)) as Hc3
    by (by apply (run_ensures _ _ _ _ _ _ Hlift (kept_lift_users _))).
  destruct (DoLogin _ _ _ _ _ _ _) as [res sw'] eqn:Hdo. injection Hlogin as -> <-.
  apply DoLogin_inv in Hdo as [Hfresh (i & Hcached & Hticks)]; [|by destruct sw].
  assert (sess_of (with_sess (with_sess w sw) sw') = sw') as Hsw by (by destruct sw').
  destruct (serve_readable r q user s (with_sess (with_sess w sw) sw')) as (w2 & Hserve & Hsame); [done..| | |done|].
  { destruct Hfresh as (_ & _ & _ & _ & _ & _ & n & ->). rewrite Hlen. lia. }
  { rewrite Hsw. eexists. split; [exact Hcached|]. rewrite Hticks, Nat.add_comm. apply Hoften. }
  exists user, w2. split; [|split; [|done]].
  - unfold lift_users in Hlift. cbn in Hlift. destruct (AuthenticateUserForLogin _ _ _ _ _). by injection Hlift.
  - destruct Hfresh as (Hu & Hro & Hl & _). unfold view_session. by rewrite Hu, Hro, Hl.
Qed.

(** Requests to the learning system, each with the session it is served for. *)
Record handled := Handled { handled_type : Type; handled_session : Session; handled_request : request D J handled_type }.

Fixpoint run_handled (calls : list handled) (w : WW) : WW :=
  match calls with
  | [] => w
  | c :: calls => run_handled calls (onA (handle teacherDisplayName (handled_session c) (handled_request c)) w).2
  end.

Lemma run_handled_sessions calls (w : WW) : ww_sessions (run_handled calls w) = ww_sessions w.
Proof.
  revert w. induction calls as [|c calls IH]; intros w; [done|]. cbn [run_handled]. rewrite IH. unfold onA.
  by destruct (handle _ _ _ _).
Qed.

(** C28: Dismissal does not end access.  Whatever requests the learning system
    serves, the deactivation or deletion of the account, a change of its roles
    or a reset of its password among them, a session that was in use before is
    served afterwards with the roles it started with. *)
Theorem access_outlives_dismissal {A} (r : http_request) (q : request D J A) (user : User) (s : UserSession) (now : Z)
    (calls : list handled) (w : WW) :
  plain_web → fresh_session user s → cached_at now (Sess_Token s) s (sess_of w) →
  (lms_clock (web_ticks (run_handled calls w)) ≤ now + ttl)%Z → live_at s (sess_of (run_handled calls w)) →
  is_public q = false → sends_bearer r (Sess_Token s) → (0 < String.length (Sess_Token s) ≤ 50)%nat →
  ∃ w2, serve_lms teacherDisplayName r q (run_handled calls w) = onA (handle teacherDisplayName (view_session s) q) w2 ∧
    platform_data w2 = platform_data (run_handled calls w).
Proof.
  intros Hplain Hfresh (c & Hcache & Hok) Hclock Hlive Hq Hr Hlen. eapply serve_readable; try done.
  exists now. split; [|done]. exists c. split; [|done]. unfold sess_of. cbn. by rewrite run_handled_sessions.
Qed.
End web_props.

(** ** Examples *)

Section witnesses.
Import School ApiDemo LoginDemo SignedIn.

#[local] Instance open_web : WebConfig := {|
  MaximumURLLength := 2048; ExperimentalStrictCSRFEnforcement := false; EnforceMultifactorAuthentication := false;
  GuestEnforceMultifactorAuthentication := false; EnableGuestMagicLink := false; GuestAccountsEnable := false;
  sso_enabled := false; users_me_path := "/api/v4/users/me"; rate_limited _ _ := false;
  remote_cluster_error _ _ := Some permission_error;
|}.

Abbreviation LC := (list (LRU UserSession)).

Lemma plain : plain_web.
Proof. split; [right; vm_compute; discriminate|]. by vm_compute. Qed.

Definition post (authorization : string) (cookie : option string) : http_request :=
  HttpRequest "POST" "/api/v4/lms/users" "/api/v4/lms/users" authorization cookie "" "" "" "" "" "" "Firefox".

(** The student is signed in; the page of somebody else posts with the cookie. *)
Definition browsing : web_world (D := Z) (P := unit) (C := LC) :=
  WebWorld (ApiWorld (sw_users started.2) tt ApiDemo.migrated) (sw_sessions started.2).
Abbreviation attack := (RcreateUser (D := Z) (J := string) None).

(** A check of everything the cache holds. *)
Lemma holds_check (f : UserSession → bool) (L : LC) :
  forallb (λ l, forallb (λ e : string * UserSession * option Z, f e.1.2) (abs l)) L = true →
  ∀ k s, striped_holds L k s → f s = true.
Proof.
  intros Hall k s (l & Hl%list_elem_of_lookup_2 & ex & Hin). rewrite forallb_forall in Hall.
  specialize (Hall l). rewrite forallb_forall in Hall. by apply (Hall (proj1 (list_elem_of_In _ _) Hl) (k, s, ex)), list_elem_of_In.
Qed.

Lemma rows_check (f : UserSession → bool) (rows : session_rows) :
  forallb (λ e : string * UserSession, f e.2) (map_to_list rows) = true → ∀ k s, rows !! k = Some s → f s = true.
Proof.
  intros Hall k s Hs. rewrite forallb_forall in Hall. by apply (Hall (k, s)), list_elem_of_In, elem_of_map_to_list.
Qed.

Lemma attack_forged : forged (post "" (Some the_token)) the_token browsing.
Proof.
  split; [discriminate|split; [left; discriminate|]]. intros s _ Hin.
  assert (negb (String.eqb (GetCSRF s) "") = true) as Hcsrf%negb_true_iff%String.eqb_neq; [|exact Hcsrf].
  destruct Hin as [Hheld|[k Hk]].
  - eapply (holds_check (λ s, negb (String.eqb (GetCSRF s) ""))); [|exact Hheld]. vm_compute. reflexivity.
  - eapply (rows_check (λ s, negb (String.eqb (GetCSRF s) ""))); [|exact Hk]. vm_compute. reflexivity.
Qed.

Lemma forged_request_changes_nothing_witness :
  ∃ e w', serve_lms (λ id, id) (post "" (Some the_token)) attack browsing = (Err e, w') ∧
    platform_data w' = platform_data browsing.
Proof.
  apply (forged_request_changes_nothing (λ id, id) (post "" (Some the_token)) the_token attack browsing eq_refl).
  - vm_compute. reflexivity.
  - exact (on_cache_ok _ _ (proj2 started_sound)).
  - intros k t Hk. assert (sd_tokens (ww_sessions browsing) = ∅) as Hno by (vm_compute; reflexivity).
    rewrite Hno in Hk. discriminate Hk.
  - exact attack_forged.
Defined.

(** The student logs in and asks for the account. *)
Definition arriving : web_world (D := Z) (P := unit) (C := LC) := WebWorld (ApiWorld seen tt ApiDemo.migrated) no_sessions.
Definition password_login : credentials := Credentials an_id "" "Student@123" "" "".
Abbreviation logged_in := (login (post "" None) password_login arriving).
Abbreviation own_account := (RgetStudent (D := Z) (J := string) an_id).

Definition live_check (s : UserSession) (ticks : nat) : bool :=
  forallb (λ i, negb (IsExpired (lms_clock (i + ticks)) s)) (seq 0 10).

Lemma live_checked s w : live_check s (ticks_of w) = true → live_at (D := Z) (C := LC) s w.
Proof.
  intros Hc i Hi. unfold live_check in Hc. rewrite forallb_forall in Hc. apply negb_true_iff, Hc, in_seq. lia.
Qed.

Lemma ids_length n : String.length (lms_id n) = 26%nat.
Proof. apply pad_length. Qed.

Lemma login_then_served_witness :
  ∃ s user w2, logged_in.1 = Ok s ∧ Session_UserId (view_session s) = User_Id user ∧
    serve_lms (λ id, id) (post ("Bearer " ++ Sess_Token s) None) own_account logged_in.2 =
      onA (handle (λ id, id) (view_session s) own_account) w2.
Proof.
  assert (match logged_in.1 with Ok s => live_check s (ticks_of (sess_of logged_in.2)) | Err _ => false end = true) as Hok
    by (vm_compute; reflexivity).
  pose proof (surjective_pairing logged_in) as Hrun. destruct logged_in.1 as [s|e]; [|discriminate Hok].
  destruct (login_then_served (λ id, id) (post "" None) (post ("Bearer " ++ Sess_Token s) None) password_login s own_account
    arriving logged_in.2) as (user & w2 & _ & Hview & Hserve & _).
  - exact (on_cache_ok _ _ (proj2 before_sound)).
  - exact Hrun.
  - exact plain.
  - intros n. unfold lms_clock, quiet, ttl. cbn. lia.
  - exact ids_length.
  - reflexivity.
  - split; [reflexivity|split; [reflexivity|]]. apply Nat.leb_le. reflexivity.
  - apply live_checked. exact Hok.
  - exists s, user, w2. rewrite Hview at 1. exact (conj eq_refl (conj eq_refl Hserve)).
Defined.

(** The student is signed in when the owner deactivates the account. *)
Definition an_user : User := match us_rows (uw_users seen) !! an_id with Some u => u | None => zero_User end.
Definition student_session : UserSession :=
  MkSession (lms_id 40) (lms_id 41) 1 0 1 an_id "" (User_Roles an_user) false false ∅ false.
Definition signed_in : web_world (D := Z) (P := unit) (C := LC) :=
  WebWorld (ApiWorld seen tt ApiDemo.migrated)
    (with_cache (cache_SetWithExpiry 0 (lms_id 41) student_session ttl empty_cache) no_sessions).
Definition dismissal : list (handled (D := Z) (J := string)) := [Handled _ owner (RdeactivateUser an_id)].
Abbreviation dismissed := (run_handled (λ id, id) dismissal signed_in).

Lemma access_outlives_dismissal_witness :
  ((λ row, (0 <? User_DeleteAt row)%Z) <$> us_rows (uw_users (aw_users (ww_api dismissed))) !! an_id) = Some true ∧
  ∃ w2, serve_lms (λ id, id) (post ("Bearer " ++ lms_id 41) None) own_account dismissed =
    onA (handle (λ id, id) (view_session student_session) own_account) w2.
Proof.
  split; [vm_compute; reflexivity|].
  destruct (access_outlives_dismissal (λ id, id) (post ("Bearer " ++ lms_id 41) None) own_account an_user student_session 0
    dismissal signed_in) as (w2 & Hserve & _).
  - exact plain.
  - split_and!; [vm_compute; reflexivity|reflexivity|reflexivity|discriminate|discriminate|reflexivity|by exists 41%nat].
  - exists empty_cache. split; [reflexivity|]. exact (on_cache_ok _ _ (proj2 before_sound)).
  - apply Z.leb_le. vm_compute. reflexivity.
  - apply live_checked. vm_compute. reflexivity.
  - reflexivity.
  - split; [reflexivity|split; [reflexivity|]]. apply Nat.leb_le. reflexivity.
  - split; vm_compute; lia.
  - exists w2. exact Hserve.
Defined.
End witnesses.
